(* ===== verification/_CoqProject ===== *)
-Q . S2P
Prelude.v
Layout.v
Dhcp.v
ErrFile.v
Config.v
NvmeWire.v
Crypto.v
NvmeState.v
NvmeTx.v
NvmeAuth.v
NvmeUri.v
NvmeRx.v
NvmeSched.v
NvmeOps.v
NvmeDemo.v
NvmeStream.v
NvmeInv.v
NvmeReach.v
NvmePdu.v
NvmeBlock.v
NvmeDhchap.v
NvmeParams.v
NvmeFindings.v
Nvo.v
NvoToy.v
EfiNvs.v
TlsKeys.v
TlsHello.v
TlsPsk.v
TlsPskInv.v
TlsStream.v
TlsSession.v
TlsData.v
TlsFindings.v
TlsDemo.v
NvmeTls.v
Nbct.v
NbctHandoff.v
Smbios.v
Settings.v
Tofu.v
DeviceKey.v
DeviceSign.v
SnpOnly.v
RealtekHw.v
RealtekInit.v
RealtekSpec.v
RealtekRing.v
RealtekInv.v
RealtekSystem.v
RealtekProbe.v
RealtekDemo.v
Pci.v
PciBar.v
PciScan.v
PciDemo.v
Tls12Base.v
Tls12Keys.v
Tls12Tx.v
Tls12Rx.v
Tls12Conn.v
Tls12Inv.v
Tls12Session.v
Tls12Laws.v
Tls12Attack.v
Tls12Ends.v
Tls12Split.v
Tls12Demo.v
Tls12Finished.v
Tls12SessionDemo.v
