(* ===== verification/Prelude.v ===== *)
(** * Verification of the Kurrent firmware

    The firmware is an iPXE tree (src/reference/src) that boots a diskless machine
    from an NVMe namespace over TCP.  Its own parts are an NVMe/TCP initiator with
    DH-HMAC-CHAP authentication, a TLS 1.3 pre-shared-key transport for it, a TLS 1.2
    client for downloads, a table that hands the credentials to the booted system, and a
    device identity kept in an EFI variable, with trust on first use of the boot server's certificate.  This
    library models these parts as executable functions and proves what they do.

    ** How the parts interact

    [nvmetcp_open] parses the boot URI, opens the admin queue's socket (in plain, or
    through the TLS filter) and creates a session.  The iPXE core then calls back: it
    runs the process, which sends the command of the current phase; it delivers
    received bytes, which the receive machine turns into PDUs, whose completion
    advances the phase (ICReq, Connect, authentication, Property Set, Identify, the
    same for the I/O queue) until the session is ready; and the block device client
    reads and writes.  Under TLS, [add_tls13_psk] inserts a filter between the session
    and the TCP socket: what the session sends leaves as records, what the socket
    delivers is cut into records, opened, and either handed to the handshake or
    delivered to the session.  When the disk is described to the operating system,
    [nbct_install] writes the credentials of all sessions into an ACPI table, from which
    the script of the initial ramdisk connects the same disks again.  [add_tls] inserts the
    TLS 1.2 client in the same way between a consumer and its socket; its process sends the
    messages that are due, and the certificate validator reports to it.  Connections to one
    server share a session, through which a later one resumes what an earlier one
    negotiated.  The options block keeps settings in memory and mirrors them to a storage
    device, the EFI variable; tofu.c and devicekey_cmd.c store the server's fingerprint and
    the device key through it.

    ** Files

    - Prelude.v: record update, error codes, the monad of computations over a C object
      ([outcome]: a return, undefined behaviour, or exhausted fuel), weakest
      preconditions, machine integers, byte order, buffers, automation.
    - Layout.v: packed C structures as lists of members; field access and its laws.
    - Dhcp.v: include/ipxe/dhcp.h, the tags that settings are stored under and the DHCP
      structures; ErrFile.v: include/ipxe/errfile.h, the file identifiers of error numbers;
      Config.v: config/general.h, config.c and config_efi.c, what a build links.
    - NvmeWire.v: include/ipxe/nvmetcp.h, its constants, structures and enumerations.
    - Crypto.v: the interfaces of the digest and key exchange libraries, with laws.
    - NvmeState.v: [session] is struct nvmetcp_session; [env] is the iPXE core that the
      driver calls (sockets, allocator, random numbers, settings).  The buffer of a block
      command belongs to the caller: the session may touch it only while it is [lent],
      although it keeps the pointer afterwards.
    - NvmeTx.v, NvmeAuth.v, NvmeUri.v, NvmeRx.v, NvmeOps.v: the functions of
      net/tcp/nvmetcp.c and nvmetcp_auth.c, one definition per function under its C
      name; NvmeOps.v ends with the transition system of a session, one transition per
      call of the core, and [reachable].
    - NvmeDemo.v: sessions computed in a concrete environment.
    - NvmeStream.v: the receive loop terminates and does not depend on segmentation.
    - NvmeInv.v, NvmeReach.v: the session invariant, its preservation by every call,
      memory safety, and the phases a session can go through.
    - NvmePdu.v: the specification of reception in terms of whole PDUs, and the
      refinement theorem that the byte-level machine implements it; memory safety of
      reception, under the conditions on R2Ts that it needs.
    - NvmeBlock.v: block reads and writes from end to end.
    - NvmeDhchap.v: the authentication exchange against the formulas of the
      specification, and the gate it forms.
    - NvmeParams.v: what the URI means.
    - NvmeSched.v: reception does not depend on whether the process of the session runs.
    - NvmeFindings.v: behaviours that contradict the code's intent.
    - Nvo.v: core/nvo.c over an abstract storage device; NvoToy.v: a concrete option
      library; EfiNvs.v: interface/efi/efi_nvs.c as a device, and persistence of
      settings across a power cycle.  The laws of the option library know that an option
      can be encapsulated in another: storing one leaves the [independent] ones as they
      were, and says nothing of the option that encapsulates it.
    - TlsKeys.v: the TLS 1.3 part of net/tls.c, its key schedule, nonces, and the sealing
      and opening of records; HKDF and the AEAD cipher are classes with laws.
    - TlsHello.v: the ClientHello, built in a buffer of fixed size, and the parser of
      the ServerHello.
    - TlsPsk.v: [tls13_handshake] is struct tls13_handshake, [tls13_psk] is struct
      tls13_psk; the functions of net/tls13.c under their C names; [tls_env] is the code
      around them (socket, allocator, random numbers, the consumer of the data).
    - TlsPskInv.v: the transition system of a connection and its invariant.
    - TlsStream.v: a specification of reception in terms of the byte stream, which the
      receive buffer refines.
    - TlsSession.v, TlsData.v: a server that follows RFC 8446, the handshake with it, and
      the data phase; TlsFindings.v: behaviours that contradict the intent; TlsDemo.v:
      connections computed with concrete ciphers.
    - NvmeTls.v: the NVMe session as the consumer of a TLS connection, composed.
    - Nbct.v: drivers/block/nbct.c, and the functions of initramfs-nbft/nbft-connect that
      read its table, find the keyring in the listing of the kernel, and run the command
      line they compose; [shell_words] is what the shell makes of that line, for the
      syntax the script uses (unquoted words and single quotes; anything else is
      undefined).  NbctHandoff.v: what survives the hand-over.
    - Smbios.v: interface/smbios/smbios_settings.c.
    - Settings.v: what the settings core promises its clients, and the proof that the
      options block keeps the promise; Tofu.v: net/tofu.c and [tls_validator_done] of
      net/tls.c; DeviceKey.v: keygen and nvclear of hci/commands/devicekey_cmd.c;
      DeviceSign.v: pubkey and sign; each operation of the ASN.1 builder may fail.
    - SnpOnly.v: drivers/net/efi/snponly.c, the network driver that takes over the device
      the firmware was loaded from.
    - RealtekHw.v, RealtekInit.v, RealtekRing.v: drivers/net/realtek.c and realtek.h, the
      access to the card's registers, the initialisation with its tables, and the rings
      with all operations of the network device and of the PCI device.  RealtekSpec.v:
      what the PHY configuration does to a card, with and without an MII interface; RealtekInv.v: the rings as queues of
      buffers; RealtekSystem.v: the driver interleaved with the card; RealtekProbe.v:
      probing, and the legacy receive buffer; RealtekDemo.v: a toy card.
    - Pci.v: drivers/bus/pci.c; PciBar.v: the size of a base address register;
      PciScan.v: a specification of the scan, on the bytes of the configuration space: the
      addresses it [visits], with ranges that bridges widen, and the devices it attaches;
      the loop against it, also when an allocation fails.  PciDemo.v: a toy bus with a
      bridge.
    - Tls12Base.v: [tls_connection] is struct tls_connection with the session it belongs to,
      [TlsLib] the cryptographic and X.509 libraries, [TlsTables] the linker tables,
      [TlsEnv] the world.  Tls12Keys.v, Tls12Tx.v, Tls12Rx.v, Tls12Conn.v: the functions of
      net/tls.c from line 1080 on under their C names (key schedule and cipher suites;
      sending; receiving; the transmit state machine, the session and [add_tls]); Tls12Conn.v
      ends with the calls a connection receives.  Tls12Inv.v: what is bound and when the
      client finishes, for all reachable connections; Tls12Laws.v: the laws of the libraries,
      the pseudo-random function, and records; Tls12Attack.v: the key block, and what a
      server can do out of order; Tls12Ends.v: every delivery ends; Tls12Split.v: records in
      several receive buffers; Tls12Demo.v: a toy library, a handshake, an attack;
      Tls12Finished.v: when the Finished of the server is accepted.
    - Tls12Session.v: the connections that share a session, with every interleaving of
      their calls; Tls12SessionDemo.v: a resumption, and two negotiations at once.

    ** Conventions

    A w-bit integer is a [Z] with explicit wrap-around ([u8], [u16], [u32], [u64]); a
    byte array is a list of [Z] in the range of bytes.  A function that can fail
    returns a [status]; a function that changes an object is a computation on it.  An
    access outside an array, or a null dereference, is [Fault]: theorems with
    [wp False] exclude it.  Sizes and counters that only count bytes in memory are
    [nat]; their subtractions are written with the wrap-around the code has.  Memory
    that the code leaves uninitialised has arbitrary contents chosen by the
    environment.  Each consultation of the environment has its own number, so its
    answers are arbitrary and need not be repeatable.

    The receive loop is given fuel of twice the number of bytes plus two: every two
    turns consume a byte or end the loop, which NvmeStream.v proves, so the fuel never
    runs out.  The loops of the TLS connection are given as fuel the bytes they have
    before them: a turn of the record loop consumes at least the five bytes of a record
    header, a turn of the handshake loop the four of a message header, a turn of the
    extension loop four; TlsPskInv.v proves that the fuel suffices.  The memory loop of
    the SMBIOS settings is given more than the number of memory devices.  The ring loops
    of the Realtek driver are given one turn more than a ring has slots, which RealtekInv.v
    proves enough; its legacy receive loop runs as long as the card has packets and takes
    its fuel as an argument.  The key
    generation loop is given the fuel its theorem asks for: one more
    than the number of requests until the generator gives a usable key.  The loops of TLS 1.2
    have as fuel the bytes they consume or produce, one or more a turn, and that of the
    stream twice the number plus two; Tls12Ends.v proves it enough for all that a peer can
    send.  The loop of the pseudo-random function, with a digest that has no output,
    produces none, and [NoFuel] then says that it does not end.

    ** What the theorems show

    For the session: the invariant holds in every reachable state; well-formed streams,
    with R2Ts that do not wrap around and come while a block command is pending, and all
    other calls are memory safe; the receive machine refines its PDU-level specification
    in any segmentation and never loops; reads and writes deliver the data, in one data
    PDU, and one completion; the challenge for the secret's digest is answered with the
    specified response, and
    nothing but an accepted Success1 ends the authentication; the phase follows the
    setup sequence; the URI is interpreted as documented.  For the TLS transport: every
    reachable connection has well-formed state and every call on it is memory safe and
    returns; reception refines its specification on the byte stream; the handshake with
    an honest server completes with the keys of RFC 8446; data is transferred unchanged;
    hello messages have the prescribed form.  For the two together: NVMe PDUs that a target
    protects in TLS records are handled as the PDU-level specification says, however the
    bytes are cut into records, in segments that the receive buffer can hold, and what the
    session sends leaves in order and protected.  For the hand-over: the table reads back as
    the sessions, and for 1 to 127 sessions other than ten, with strings that fit and need
    no quoting, the script reconnects with the credentials the firmware used.  The
    SMBIOS settings have the values the structures hold.  For the device identity:
    stored settings survive a power cycle exactly, an emptied block stays empty, a
    corrupted block is discarded; a server that does not validate is accepted if and only
    if no fingerprint was present and its own could be stored, and its pin persists; keygen
    never overwrites a key; nvclear removes what it says; what sign produces verifies under
    what pubkey shows, if the key structure was built without an error.  For the
    Realtek driver: in any interleaving with the card, the card owns only descriptors of
    memory that the driver has not given away, and every operation returns; the PHY tables
    are applied entry by entry; a failed probing leaves nothing behind.  For the
    PCI bus: the scan ends and attaches exactly the devices of its specification, or takes
    all down when memory runs out.  For TLS 1.2: the
    pseudo-random function and the key block are those of RFC 5246; a record opens to what
    was sent, and fits its buffer; a record in several buffers opens as in one; every delivery
    ends; keys are bound only when they are secret, and to the identity the server
    presented; a Finished is accepted exactly when it is the verify data of RFC 5246 under
    such keys; the client finishes only for an identity that is valid; and the binding and
    the finishing are proved for all connections of a shared session in any interleaving.  The tags of
    the settings are distinct, error identifiers name one file each, and an EFI build links
    the components above.

    The findings are theorems too.  In the session: two accesses out of bounds that a
    peer can cause, an R2T that makes the driver read a buffer it has given back, short
    reads reported as complete, a lost message, a duplicated
    command, a key with uninitialised bytes, a truncated name.  In TLS: a peer without
    the key completes the handshake with a Finished record in plaintext, data is
    accepted before the handshake, the binder can overrun the ClientHello, and a valid
    stream fails when a segment brings more than one record of the greatest size.  In
    TLS 1.2: after the client has finished, an attacker without any key takes the place of
    the server; a session ID that is echoed leads to public keys; an empty record and
    missing messages lead through null pointers or into an endless loop; and renegotiation
    escapes the serialisation of the negotiations of a session.
    Elsewhere: an over-read at startup, a registration that is not atomic, settings that
    overrun a short buffer, credentials that the table loses, a quote in a name that adds
    words to the command of the script, an error of the ASN.1 builder that goes unnoticed,
    received lengths that are not checked, and a network card that the driver cannot probe.

    ** Not modelled

    Memory release and reference counting; debug output and printing; the iPXE core,
    cryptographic primitives, DHCP option, settings, ACPI and SMBIOS libraries and UEFI
    firmware (parameters with laws, each with a concrete instance that satisfies them).
    Of TLS 1.2, job progress reports are not modelled.  The debug dump of realtek.c is left
    out.  The order in which the fields of a Realtek descriptor are stored (the write
    barriers) is not modelled: a step of the card sees descriptors between the driver's
    operations.  Of the build configuration, the headers that general.h includes are not in
    the repository and are a parameter.  The self-tests under tests/ only run the code
    above on test vectors. *)

From stdpp Require Import base list strings.
From Stdlib Require Import ZArith Lia.
From Stdlib Require Ascii String.

Declare Scope fw_scope.
Delimit Scope fw_scope with fw.
Open Scope Z_scope.

(** ** Functional record update

    [r <| f := v |>] is the C assignment [r->f = v].  A record type becomes
    updatable by giving its eta expansion as an [Eta] instance; the setter of a
    projection is then derived by abstracting that projection in the eta
    expansion. *)
Class Eta (R : Type) := eta : R -> R.

Class Setter {R T : Type} (p : R -> T) := modify : (T -> T) -> R -> R.

Arguments modify {R T} p {Setter} f r.

Ltac solve_setter :=
  match goal with
  | |- @Setter ?R ?T ?p =>
      let H := constr:(_ : Eta R) in
      let f := fresh "f" in
      let r := fresh "r" in
      intros f r;
      let body := eval hnf in (@eta R H r) in
      let body' := eval pattern (p r) in body in
      match body' with
      | ?g _ => let res := eval cbv beta in (g (f (p r))) in exact res
      end
  end.

#[export] Hint Extern 1 (Setter _) => solve_setter : typeclass_instances.

Notation "x <| p := v |>" := (modify p (fun _ => v) x)
  (at level 1, left associativity, format "x  <| p  :=  v |>") : fw_scope.
Notation "x <| p ::= f |>" := (modify p f x)
  (at level 1, left associativity, format "x  <| p  ::=  f |>") : fw_scope.

Open Scope fw_scope.

(** ** Status codes

    The C functions return 0 or a negated error number.  [EPLATFORM] carries an
    error of the EFI firmware ([-EEFI ( efirc )]) and the three [EINVAL_*]
    constructors are the disambiguated errors of nvmetcp.c. *)
Inductive errno : Type :=
  | EINVAL | EAGAIN | ENOMEM | EPROTO | EPERM | EIO | EACCES | ECONNRESET
  | ECANCELED | ENOSPC | ENOENT | ENODEV | EEXIST | ENOTTY | ETIMEDOUT | ENOTSUP
  | EINVAL_NO_ROOT_PATH | EINVAL_NO_TARGET | EINVAL_NO_SUBSYSTEM_NQN
  | EPLATFORM (efirc : Z)
  | EOTHER (code : Z).

#[export] Instance errno_eq_dec : EqDecision errno.
Proof. solve_decision. Defined.

(** A return status code: [OK] is 0, [Err e] is [-e]. *)
Inductive status : Type :=
  | OK
  | Err (e : errno).

#[export] Instance status_eq_dec : EqDecision status.
Proof. solve_decision. Defined.

Definition is_ok (rc : status) : bool :=
  match rc with OK => true | Err _ => false end.

(** ** Computations over a C object

    A computation runs on a state and returns a value with the new state.
    [Fault] is undefined behaviour of the C program (an access outside an
    object, a null dereference); [NoFuel] marks a loop whose fuel was not
    enough, and is proved never to occur where a loop is modelled with fuel. *)
Inductive outcome (S A : Type) : Type :=
  | Ret (a : A) (s : S)
  | Fault
  | NoFuel.
Arguments Ret {S A} a s.
Arguments Fault {S A}.
Arguments NoFuel {S A}.

Definition M (S A : Type) : Type := S -> outcome S A.

Definition ret {S A} (a : A) : M S A := fun s => Ret a s.
Definition fault {S A} : M S A := fun _ => Fault.
Definition bind {S A B} (m : M S A) (k : A -> M S B) : M S B :=
  fun s => match m s with
           | Ret a s' => k a s'
           | Fault => Fault
           | NoFuel => NoFuel
           end.
Definition get {S} : M S S := fun s => Ret s s.
Definition gets {S A} (f : S -> A) : M S A := fun s => Ret (f s) s.
Definition update {S} (f : S -> S) : M S unit := fun s => Ret tt (f s).

(** [of_option o] reads a value whose absence is undefined behaviour. *)
Definition of_option {S A} (o : option A) : M S A :=
  match o with Some a => ret a | None => fault end.

(** [try m k] is [if ( ( rc = m ) != 0 ) return rc; k]. *)
Definition try {S} (m : M S status) (k : M S status) : M S status :=
  bind m (fun rc => match rc with OK => k | Err e => ret (Err e) end).

Notation "'let*' x ':=' m 'in' k" := (bind m (fun x => k))
  (at level 10, x pattern, m at level 100, k at level 200,
   format "'[v' 'let*'  x  ':='  m  'in' '//' k ']'") : fw_scope.
Notation "'do*' m 'in' k" := (bind m (fun _ => k))
  (at level 10, m at level 100, k at level 200,
   format "'[v' 'do*'  m  'in' '//' k ']'") : fw_scope.
Notation "'try*' m 'in' k" := (try m k)
  (at level 10, m at level 100, k at level 200,
   format "'[v' 'try*'  m  'in' '//' k ']'") : fw_scope.

(** [tryr m k]: a callee that fills in a value or fails. *)
Definition tryr {S A} (m : M S (errno + A)) (k : A -> M S status) : M S status :=
  bind m (fun r => match r with inl e => ret (Err e) | inr a => k a end).

Notation "'let!' x ':=' m 'in' k" := (tryr m (fun x => k))
  (at level 10, x pattern, m at level 100, k at level 200,
   format "'[v' 'let!'  x  ':='  m  'in' '//' k ']'") : fw_scope.

(** ** Weakest preconditions

    [wp F m Q s]: running [m] from [s] ends in a result satisfying [Q], and a
    [Fault] is tolerated exactly when [F] holds.  [F := False] is total, safe
    correctness; [F := True] is correctness of the runs that meet no undefined
    behaviour.  Fuel exhaustion is never tolerated. *)
Definition wp {S A} (F : Prop) (m : M S A) (Q : A -> S -> Prop) (s : S) : Prop :=
  match m s with
  | Ret a s' => Q a s'
  | Fault => F
  | NoFuel => False
  end.

Section Wp.
Context {S : Type}.

Lemma wp_ret {A} F (a : A) (Q : A -> S -> Prop) s : Q a s -> wp F (ret a) Q s.
Proof. exact (fun H => H). Qed.

Lemma wp_gets {A} F (f : S -> A) (Q : A -> S -> Prop) s :
  Q (f s) s -> wp F (gets f) Q s.
Proof. exact (fun H => H). Qed.

Lemma wp_update F f (Q : unit -> S -> Prop) s : Q tt (f s) -> wp F (update f) Q s.
Proof. exact (fun H => H). Qed.

Lemma wp_bind {A B} F (m : M S A) (k : A -> M S B) Q s :
  wp F m (fun a s' => wp F (k a) Q s') s -> wp F (bind m k) Q s.
Proof. unfold wp, bind. by destruct (m s). Qed.

Lemma wp_try F (m k : M S status) Q s :
  wp F m (fun rc s' => match rc with OK => wp F k Q s' | Err e => Q (Err e) s' end) s ->
  wp F (try m k) Q s.
Proof.
  intros H. apply wp_bind. unfold wp in *. destruct (m s) as [rc s'| |]; auto.
  by destruct rc.
Qed.

Lemma wp_tryr {A} F (m : M S (errno + A)) (k : A -> M S status) Q s :
  wp F m (fun r s' => match r with inl e => Q (Err e) s' | inr a => wp F (k a) Q s' end) s ->
  wp F (tryr m k) Q s.
Proof.
  intros H. apply wp_bind. unfold wp in *. destruct (m s) as [r s'| |]; auto.
  by destruct r.
Qed.

Lemma wp_mono {A} F (m : M S A) (Q Q' : A -> S -> Prop) s :
  wp F m Q s -> (forall a s', Q a s' -> Q' a s') -> wp F m Q' s.
Proof. unfold wp. destruct (m s); auto. Qed.

Lemma wp_conj {A} F (m : M S A) (Q Q' : A -> S -> Prop) s :
  wp F m Q s -> wp F m Q' s -> wp F m (fun a s' => Q a s' /\ Q' a s') s.
Proof. unfold wp. destruct (m s); auto. Qed.

Lemma wp_conj_lax {A} F (m : M S A) (Q Q' : A -> S -> Prop) s :
  wp F m Q s -> wp True m Q' s -> wp F m (fun a s' => Q a s' /\ Q' a s') s.
Proof. unfold wp. destruct (m s); auto. Qed.

Lemma wp_of_option {A} F (o : option A) (Q : A -> S -> Prop) s :
  (forall a, o = Some a -> Q a s) -> (o = None -> F) -> wp F (of_option o) Q s.
Proof. destruct o; unfold wp; simpl; auto. Qed.

Lemma wp_elim {A} F (m : M S A) Q s a s' :
  wp F m Q s -> m s = Ret a s' -> Q a s'.
Proof. unfold wp. intros H E. by rewrite E in H. Qed.

Lemma wp_intro {A} F (m : M S A) (Q : A -> S -> Prop) s a s' :
  m s = Ret a s' -> Q a s' -> wp F m Q s.
Proof. unfold wp. by intros ->. Qed.

Lemma wp_weaken {A} (F F' : Prop) (m : M S A) Q s :
  (F -> F') -> wp F m Q s -> wp F' m Q s.
Proof. unfold wp. destruct (m s); auto. Qed.
End Wp.

(** Inversion of a sequence that returned. *)
Lemma bind_ret {S A B} (m : M S A) (k : A -> M S B) s b s' :
  bind m k s = Ret b s' -> exists a s1, m s = Ret a s1 /\ k a s1 = Ret b s'.
Proof. unfold bind. destruct (m s) as [a s1| |]; naive_solver. Qed.

(** ** Machine integers

    A [w]-bit unsigned integer is a [Z]; storing into one wraps modulo [2^w]. *)
Definition u8 (z : Z) : Z := z mod 2 ^ 8.
Definition u16 (z : Z) : Z := z mod 2 ^ 16.
Definition u32 (z : Z) : Z := z mod 2 ^ 32.
Definition u64 (z : Z) : Z := z mod 2 ^ 64.

(** A byte, and a buffer all of whose cells are bytes. *)
Definition is_byte (b : Z) : Prop := 0 <= b < 256.
Definition bytes_ok (l : list Z) : Prop := Forall is_byte l.

Lemma u8_byte z : is_byte (u8 z).
Proof. unfold is_byte, u8. apply Z.mod_pos_bound. lia. Qed.

Lemma u8_id z : is_byte z -> u8 z = z.
Proof. unfold is_byte, u8. intros. apply Z.mod_small. lia. Qed.

Lemma u16_id z : 0 <= z < 65536 -> u16 z = z.
Proof. unfold u16. intros. apply Z.mod_small. lia. Qed.

Lemma u16_range z : 0 <= u16 z < 65536.
Proof. unfold u16. apply Z.mod_pos_bound. lia. Qed.

Lemma u32_range z : 0 <= u32 z < 4294967296.
Proof. unfold u32. apply Z.mod_pos_bound. lia. Qed.

Lemma u32_id z : 0 <= z < 4294967296 -> u32 z = z.
Proof. unfold u32. intros. apply Z.mod_small. lia. Qed.

(** A disjunction of fields that do not overlap is their sum. *)
Lemma lor_shiftl_add n a b : 0 <= n -> 0 <= a -> 0 <= b < 2 ^ n -> Z.lor (Z.shiftl a n) b = a * 2 ^ n + b.
Proof.
  intros Hn Ha Hb. assert (Z.land (Z.shiftl a n) b = 0) as Hd.
  { apply Z.bits_inj'. intros i Hi. rewrite Z.land_spec, Z.bits_0. destruct (decide (i < n)).
    - by rewrite Z.shiftl_spec_low.
    - rewrite <-(Z.mod_small b (2 ^ n)), Z.mod_pow2_bits_high by lia. apply andb_false_r. }
  by rewrite <-Z.add_nocarry_lor, Z.shiftl_mul_pow2 by lia.
Qed.

(** ** Byte order *)
Fixpoint le_bytes (n : nat) (v : Z) : list Z :=
  match n with
  | O => []
  | S n => v mod 256 :: le_bytes n (v / 256)
  end.

Fixpoint le_val (l : list Z) : Z :=
  match l with
  | [] => 0
  | b :: t => b + 256 * le_val t
  end.

Definition be_bytes (n : nat) (v : Z) : list Z := reverse (le_bytes n v).
Definition be_val (l : list Z) : Z := le_val (reverse l).

Lemma le_bytes_length n v : length (le_bytes n v) = n.
Proof. revert v. induction n as [|n IH]; intros v; simpl; [done|]. by rewrite IH. Qed.

Lemma be_bytes_length n v : length (be_bytes n v) = n.
Proof. unfold be_bytes. by rewrite length_reverse, le_bytes_length. Qed.

Lemma le_bytes_ok n v : bytes_ok (le_bytes n v).
Proof.
  revert v. induction n as [|n IH]; intros v; constructor; [|apply IH].
  unfold is_byte. apply Z.mod_pos_bound. lia.
Qed.

Lemma be_bytes_ok n v : bytes_ok (be_bytes n v).
Proof. unfold be_bytes, bytes_ok. apply Forall_reverse, le_bytes_ok. Qed.

Lemma le_val_bytes n v : le_val (le_bytes n v) = v mod 256 ^ Z.of_nat n.
Proof.
  revert v. induction n as [|n IH]; intros v; [by rewrite Z.mod_1_r|].
  simpl le_bytes. simpl le_val. rewrite IH, Nat2Z.inj_succ, Z.pow_succ_r by lia.
  rewrite Z.rem_mul_r by lia. lia.
Qed.

Lemma be_val_bytes n v : be_val (be_bytes n v) = v mod 256 ^ Z.of_nat n.
Proof. unfold be_val, be_bytes. by rewrite reverse_involutive, le_val_bytes. Qed.

Lemma le_val_range l : bytes_ok l -> 0 <= le_val l < 256 ^ Z.of_nat (length l).
Proof.
  induction 1 as [|b t Hb _ IH]; [simpl; lia|]. cbn [le_val length].
  rewrite Nat2Z.inj_succ, Z.pow_succ_r by lia. unfold is_byte in Hb. lia.
Qed.

Lemma le_bytes_val l : bytes_ok l -> le_bytes (length l) (le_val l) = l.
Proof.
  induction 1 as [|b t Hb _ IH]; simpl; [done|]. unfold is_byte in Hb.
  f_equal.
  - rewrite Z.mul_comm, Z.mod_add, Z.mod_small; lia.
  - rewrite Z.mul_comm, Z.div_add, Z.div_small by lia. by rewrite Z.add_0_l.
Qed.

Lemma le_val_inj l l' :
  bytes_ok l -> bytes_ok l' -> length l = length l' -> le_val l = le_val l' -> l = l'.
Proof.
  intros H H' Hl E. rewrite <-(le_bytes_val l H), <-(le_bytes_val l' H').
  by rewrite Hl, E.
Qed.

(** ** Buffers

    A C array of [n] bytes is a list of length [n].  [sub off n l] is the
    [n] bytes at [off]; [splice off src dst] is [memcpy ( &dst[off], src, .. )]
    inside the array, and [memcpy] is the guarded version: [None] when the copy
    would leave the array. *)
Definition sub (off n : nat) (l : list Z) : list Z := take n (drop off l).

Definition splice (off : nat) (src dst : list Z) : list Z :=
  take off dst ++ src ++ drop (off + length src) dst.

Definition memcpy (off : nat) (src dst : list Z) : option (list Z) :=
  if bool_decide (off + length src <= length dst)%nat then Some (splice off src dst)
  else None.

(** [read off n l] is a read of [n] bytes at [off]; [None] outside the array. *)
Definition read (off n : nat) (l : list Z) : option (list Z) :=
  if bool_decide (off + n <= length l)%nat then Some (sub off n l) else None.

(** [byte_at l i] is [l[i]] for an index inside the array. *)
Definition byte_at (l : list Z) (i : nat) : Z := default 0 (l !! i).

Definition zeros (n : nat) : list Z := replicate n 0.

Lemma zeros_ok n : bytes_ok (zeros n).
Proof. unfold zeros. apply Forall_replicate. unfold is_byte. lia. Qed.

Lemma sub_length off n l : (off + n <= length l)%nat -> length (sub off n l) = n.
Proof. intros. unfold sub. rewrite length_take, length_drop. lia. Qed.

Lemma sub_ok off n l : bytes_ok l -> bytes_ok (sub off n l).
Proof. intros. unfold sub. by apply Forall_take, Forall_drop. Qed.

Lemma splice_length off src dst :
  (off + length src <= length dst)%nat -> length (splice off src dst) = length dst.
Proof.
  intros. unfold splice. rewrite !length_app, length_take, length_drop. lia.
Qed.

Lemma splice_ok off src dst :
  bytes_ok src -> bytes_ok dst -> bytes_ok (splice off src dst).
Proof.
  intros. unfold splice. apply Forall_app; split; [by apply Forall_take|].
  apply Forall_app; split; [done|by apply Forall_drop].
Qed.

Lemma sub_splice_same off src dst :
  (off + length src <= length dst)%nat ->
  sub off (length src) (splice off src dst) = src.
Proof.
  intros. unfold sub, splice. rewrite drop_app_le by (rewrite length_take; lia).
  rewrite drop_ge by (rewrite length_take; lia). simpl.
  by rewrite take_app_length.
Qed.

Lemma sub_splice_before off src dst o n :
  (o + n <= off)%nat -> (off <= length dst)%nat ->
  sub o n (splice off src dst) = sub o n dst.
Proof.
  intros. unfold sub, splice.
  rewrite drop_app_le by (rewrite length_take; lia).
  rewrite take_app_le by (rewrite length_drop, length_take; lia).
  rewrite !take_drop_commute, take_take.
  by replace ((o + n) `min` off)%nat with (o + n)%nat by lia.
Qed.

Lemma sub_splice_after off src dst o n :
  (off + length src <= o)%nat -> (off + length src <= length dst)%nat ->
  sub o n (splice off src dst) = sub o n dst.
Proof.
  intros. unfold sub, splice. f_equal. rewrite app_assoc.
  rewrite drop_app_ge by (rewrite length_app, length_take; lia).
  rewrite drop_drop, length_app, length_take. f_equal. lia.
Qed.

(** Two adjacent copies are one copy: a header received in pieces is the header. *)
Lemma splice_splice off a b dst :
  (off + length a + length b <= length dst)%nat ->
  splice (off + length a) b (splice off a dst) = splice off (a ++ b) dst.
Proof.
  intros. unfold splice. rewrite !length_app.
  rewrite (app_assoc (take off dst) a (drop _ _)).
  rewrite take_app_le by (rewrite length_app, length_take; lia).
  rewrite take_ge by (rewrite length_app, length_take; lia).
  rewrite (drop_app_ge (take off dst ++ a)) by (rewrite length_app, length_take; lia).
  rewrite drop_drop, length_app, length_take, <-!app_assoc.
  do 4 f_equal. lia.
Qed.

Lemma splice_over off a b dst :
  (off + length a <= length dst)%nat -> length b = length a ->
  splice off b (splice off a dst) = splice off b dst.
Proof.
  intros Ha Hb. unfold splice. rewrite Hb.
  assert (length (take off dst) = off) as Hl by (rewrite length_take; lia).
  rewrite take_app_le, take_take, Nat.min_id by lia. do 2 f_equal.
  rewrite (app_assoc _ a). apply drop_app_length'. rewrite length_app. lia.
Qed.

Lemma splice_own off n l : (off + n <= length l)%nat -> splice off (sub off n l) l = l.
Proof.
  intros H. unfold splice, sub. rewrite length_take, length_drop, Nat.min_l by lia.
  rewrite <-drop_drop, (take_drop n (drop off l)). apply take_drop.
Qed.

Lemma splice_nil off dst : splice off [] dst = dst.
Proof. unfold splice. simpl. rewrite Nat.add_0_r. apply take_drop. Qed.

Lemma sub_all l : sub 0 (length l) l = l.
Proof. unfold sub. rewrite drop_0. apply take_ge. lia. Qed.

Lemma sub_app_l a b n : (n <= length a)%nat -> sub 0 n (a ++ b) = sub 0 n a.
Proof. intros. unfold sub. rewrite !drop_0. by apply take_app_le. Qed.

Lemma sub_app_skip a b n : sub (length a) n (a ++ b) = sub 0 n b.
Proof. unfold sub. by rewrite drop_app_length, drop_0. Qed.

Lemma sub_app_r a b o n : (length a <= o)%nat -> sub o n (a ++ b) = sub (o - length a) n b.
Proof. intros. unfold sub. by rewrite drop_app_ge by lia. Qed.

Lemma sub_sub o n o' n' l : (o' + n' <= n)%nat -> sub o' n' (sub o n l) = sub (o + o') n' l.
Proof.
  intros. unfold sub. rewrite take_drop_commute, take_take.
  replace ((o' + n') `min` n)%nat with (o' + n')%nat by lia.
  rewrite <-take_drop_commute. by rewrite drop_drop.
Qed.

Lemma memcpy_some off src dst :
  (off + length src <= length dst)%nat -> memcpy off src dst = Some (splice off src dst).
Proof. intros. unfold memcpy. by rewrite bool_decide_true. Qed.

Lemma memcpy_inv off src dst d :
  memcpy off src dst = Some d ->
  (off + length src <= length dst)%nat /\ d = splice off src dst.
Proof. unfold memcpy. case_bool_decide; naive_solver. Qed.

Lemma read_some off n l : (off + n <= length l)%nat -> read off n l = Some (sub off n l).
Proof. intros. unfold read. by rewrite bool_decide_true. Qed.

Lemma read_inv off n l d :
  read off n l = Some d -> (off + n <= length l)%nat /\ d = sub off n l.
Proof. unfold read. case_bool_decide; naive_solver. Qed.

Lemma byte_at_ok l i : bytes_ok l -> is_byte (byte_at l i).
Proof.
  intros H. unfold byte_at. destruct (l !! i) eqn:E; simpl.
  - by eapply Forall_lookup_1.
  - unfold is_byte. lia.
Qed.

Arguments sub : simpl never.
Arguments splice : simpl never.
Arguments memcpy : simpl never.
Arguments read : simpl never.
Arguments zeros : simpl never.
Arguments le_bytes : simpl never.
Arguments be_bytes : simpl never.

(** ** String literals *)
Definition bstr (s : string) : list Z :=
  map (fun a => Z.of_nat (Ascii.nat_of_ascii a)) (String.list_ascii_of_string s).

(** ** Automation

    [wp_step] applies the rule for the head of the computation; [wp_go] walks
    through straight-line code and splits on every test.  The database [fw]
    holds the facts about buffer lengths and byte ranges. *)
Ltac wp_step :=
  lazymatch goal with
  | |- wp _ (ret _) _ _ => apply wp_ret
  | |- wp _ (gets _) _ _ => apply wp_gets
  | |- wp _ get _ _ => apply wp_gets
  | |- wp _ (update _) _ _ => apply wp_update
  | |- wp _ (bind _ _) _ _ => apply wp_bind
  | |- wp _ (try _ _) _ _ => apply wp_try
  | |- wp _ (tryr _ _) _ _ => apply wp_tryr
  | |- wp _ (match ?x with _ => _ end) _ _ => destruct x eqn:?
  end; cbv beta iota.

Ltac wp_go := repeat wp_step.

Create HintDb fw discriminated.
#[export] Hint Resolve zeros_ok le_bytes_ok be_bytes_ok splice_ok sub_ok u8_byte byte_at_ok : fw.
Create Rewrite HintDb fw_len.
#[export] Hint Rewrite le_bytes_length be_bytes_length @length_app @length_replicate
  @length_take @length_drop @length_map @length_reverse @length_cons @length_nil : fw_len.

(** [len] decides a goal about the lengths of buffers. *)
Ltac len := unfold zeros in *; repeat progress (autorewrite with fw_len in *);
            cbn [length] in *; lia.
