(* ===== verification/Layout.v ===== *)
(** * Packed C structures

    The wire formats of the firmware are C structures with
    [__attribute__ (( packed ))] laid over byte buffers.  A [layout] lists the
    members with their sizes in declaration order, which determines the offset
    of each member; [set_field] and [get_field] are assignment to and use of a
    little-endian member, [set_bytes] and [get_bytes] of an array member.  The
    laws (a member reads back what was stored, other members are untouched)
    carry the theorems about every wire format of the development. *)

From stdpp Require Import base list strings.
From Stdlib Require Import ZArith Lia.
From S2P Require Import Prelude.

(** A structure: its members and their sizes in bytes, in order. *)
Definition layout : Type := list (string * nat).

Definition sizeof (L : layout) : nat := foldr (fun '(_, n) acc => n + acc)%nat 0%nat L.

(** Offset and size of a member, counting from [o]. *)
Fixpoint find_field (o : nat) (L : layout) (f : string) : option (nat * nat) :=
  match L with
  | [] => None
  | (g, n) :: L' => if bool_decide (f = g) then Some (o, n) else find_field (o + n) L' f
  end.

Definition field (L : layout) (f : string) : option (nat * nat) := find_field 0 L f.
Definition offsetof (L : layout) (f : string) : nat := default 0%nat (fst <$> field L f).
Definition fieldsize (L : layout) (f : string) : nat := default 0%nat (snd <$> field L f).

(** A member that is itself a structure is laid out in place. *)
Definition nest (p : string) (L : layout) : layout :=
  map (fun '(f, n) => ((p +:+ "." +:+ f)%string, n)) L.

Definition get_bytes (L : layout) (f : string) (buf : list Z) : list Z :=
  sub (offsetof L f) (fieldsize L f) buf.

Definition set_bytes (L : layout) (f : string) (v : list Z) (buf : list Z) : list Z :=
  splice (offsetof L f) (take (fieldsize L f) v) buf.

Definition get_field (L : layout) (f : string) (buf : list Z) : Z := le_val (get_bytes L f buf).

Definition set_field (L : layout) (f : string) (v : Z) (buf : list Z) : list Z :=
  set_bytes L f (le_bytes (fieldsize L f) v) buf.

Section Laws.
Implicit Types (L : layout) (f g : string).

Lemma find_field_bound o L f p n :
  find_field o L f = Some (p, n) -> (o <= p /\ p + n <= o + sizeof L)%nat.
Proof.
  revert o. induction L as [|[h k] L IH]; intros o; simpl; [done|].
  case_bool_decide; intros E; [simplify_eq; lia|].
  apply IH in E. unfold sizeof in *. simpl. lia.
Qed.

Lemma find_field_disjoint o L f g pf nf pg ng :
  f <> g -> find_field o L f = Some (pf, nf) -> find_field o L g = Some (pg, ng) ->
  (pf + nf <= pg \/ pg + ng <= pf)%nat.
Proof.
  intros Hne. revert o. induction L as [|[h k] L IH]; intros o; simpl; [done|].
  do 2 case_bool_decide; intros Ef Eg; simplify_eq.
  - apply find_field_bound in Eg. lia.
  - apply find_field_bound in Ef. lia.
  - by eapply IH.
Qed.

Definition has_field L f : Prop := is_Some (field L f).

Lemma field_bound L f : (offsetof L f + fieldsize L f <= sizeof L)%nat.
Proof.
  unfold offsetof, fieldsize, field.
  destruct (find_field 0 L f) as [[p n]|] eqn:E; simpl; [|lia].
  apply find_field_bound in E. lia.
Qed.

Lemma field_disjoint L f g :
  f <> g -> has_field L f -> has_field L g ->
  (offsetof L f + fieldsize L f <= offsetof L g \/
   offsetof L g + fieldsize L g <= offsetof L f)%nat.
Proof.
  unfold has_field, offsetof, fieldsize, field.
  intros Hne [[pf nf] Ef] [[pg ng] Eg]. rewrite Ef, Eg. simpl.
  by eapply find_field_disjoint.
Qed.

Lemma set_bytes_length L f v buf :
  (sizeof L <= length buf)%nat -> length (set_bytes L f v buf) = length buf.
Proof.
  intros. pose proof (field_bound L f). unfold set_bytes.
  apply splice_length. rewrite length_take. lia.
Qed.

Lemma set_field_length L f v buf :
  (sizeof L <= length buf)%nat -> length (set_field L f v buf) = length buf.
Proof. apply set_bytes_length. Qed.

Lemma get_bytes_length L f buf :
  (sizeof L <= length buf)%nat -> length (get_bytes L f buf) = fieldsize L f.
Proof. intros. pose proof (field_bound L f). apply sub_length. lia. Qed.

Lemma get_set_bytes_eq L f v buf :
  (sizeof L <= length buf)%nat -> length v = fieldsize L f ->
  get_bytes L f (set_bytes L f v buf) = v.
Proof.
  intros Hb Hv. pose proof (field_bound L f). unfold get_bytes, set_bytes.
  rewrite take_ge by lia. rewrite <-Hv. apply sub_splice_same. lia.
Qed.

Lemma get_set_bytes_ne L f g v buf :
  f <> g -> has_field L f -> has_field L g -> (sizeof L <= length buf)%nat ->
  get_bytes L g (set_bytes L f v buf) = get_bytes L g buf.
Proof.
  intros Hne Hf Hg Hb. pose proof (field_bound L f). pose proof (field_bound L g).
  unfold get_bytes, set_bytes.
  destruct (field_disjoint L f g Hne Hf Hg) as [Hd|Hd].
  - apply sub_splice_after; rewrite length_take; lia.
  - apply sub_splice_before; lia.
Qed.

(** An array member written with fewer bytes than it has keeps the rest. *)
Lemma get_set_bytes_short L f v buf :
  (sizeof L <= length buf)%nat -> (length v <= fieldsize L f)%nat ->
  get_bytes L f (set_bytes L f v buf) = v ++ drop (length v) (get_bytes L f buf).
Proof.
  intros Hb Hv. pose proof (field_bound L f). unfold get_bytes, set_bytes, sub, splice.
  rewrite (take_ge v), drop_app_ge, length_take, Nat.min_l, Nat.sub_diag, drop_0
    by (rewrite ?length_take; lia).
  rewrite take_app, take_ge by lia. f_equal.
  rewrite skipn_firstn_comm, drop_drop. reflexivity.
Qed.

Lemma get_bytes_set_field_eq L f v buf :
  (sizeof L <= length buf)%nat -> get_bytes L f (set_field L f v buf) = le_bytes (fieldsize L f) v.
Proof. intros. apply get_set_bytes_eq; [done|apply le_bytes_length]. Qed.

Lemma get_bytes_set_field_ne L f g v buf :
  f <> g -> has_field L f -> has_field L g -> (sizeof L <= length buf)%nat ->
  get_bytes L g (set_field L f v buf) = get_bytes L g buf.
Proof. apply get_set_bytes_ne. Qed.

Lemma get_set_field_eq L f v buf :
  (sizeof L <= length buf)%nat ->
  get_field L f (set_field L f v buf) = v mod 256 ^ Z.of_nat (fieldsize L f).
Proof.
  intros. unfold get_field, set_field.
  rewrite get_set_bytes_eq by (done || apply le_bytes_length). apply le_val_bytes.
Qed.

Lemma get_set_field_ne L f g v buf :
  f <> g -> has_field L f -> has_field L g -> (sizeof L <= length buf)%nat ->
  get_field L g (set_field L f v buf) = get_field L g buf.
Proof. intros. unfold get_field, set_field. by rewrite get_set_bytes_ne. Qed.

Lemma set_bytes_ok L f v buf :
  bytes_ok v -> bytes_ok buf -> bytes_ok (set_bytes L f v buf).
Proof. intros. apply splice_ok; [by apply Forall_take|done]. Qed.

Lemma set_field_ok L f v buf : bytes_ok buf -> bytes_ok (set_field L f v buf).
Proof. intros. apply set_bytes_ok; auto with fw. Qed.

Lemma get_field_range L f buf :
  bytes_ok buf -> (sizeof L <= length buf)%nat ->
  0 <= get_field L f buf < 256 ^ Z.of_nat (fieldsize L f).
Proof.
  intros Hb Hl. unfold get_field.
  rewrite <-(get_bytes_length L f buf) by done. apply le_val_range.
  unfold get_bytes. auto with fw.
Qed.
End Laws.

#[export] Hint Resolve set_bytes_ok set_field_ok : fw.

Arguments sizeof : simpl never.
Arguments offsetof : simpl never.
Arguments fieldsize : simpl never.
Arguments get_bytes : simpl never.
Arguments set_bytes : simpl never.
Arguments get_field : simpl never.
Arguments set_field : simpl never.

(** [fields] rewrites reads of members after writes to members of the same,
    concrete, layout. *)
Ltac solve_has_field := eexists; vm_compute; reflexivity.
Ltac solve_size :=
  repeat first [rewrite set_field_length | rewrite set_bytes_length];
  solve [done | vm_compute; lia | len | unfold zeros; rewrite ?length_replicate; vm_compute; lia].
Ltac fields :=
  repeat first
    [ rewrite get_set_field_eq by solve_size
    | rewrite get_set_field_ne by (solve_has_field || solve_size || discriminate)
    | rewrite get_set_bytes_ne by (solve_has_field || solve_size || discriminate) ].

(** Evaluate the sizes of members, and take the bytes of integer variables as given: what
    is left is a list of known length, for [vm_compute]. *)
Ltac eval_members :=
  unfold set_field;
  repeat match goal with |- context [fieldsize ?L ?f] =>
    let n := eval vm_compute in (fieldsize L f) in change (fieldsize L f) with n end;
  repeat match goal with |- context [le_bytes ?n ?v] =>
    is_var v; let H := fresh in pose proof (le_bytes_length n v) as H; revert H;
    generalize (le_bytes n v); intros ? ? end;
  repeat match goal with H : length ?l = S _ |- _ => destruct l; [discriminate H|apply (f_equal Nat.pred) in H; cbn [length Nat.pred] in H] end;
  repeat match goal with H : length ?l = 0%nat |- _ => apply nil_length_inv in H; subst l end.
