(* ===== verification/Dhcp.v ===== *)
(** * Setting tags and DHCP structures (include/ipxe/dhcp.h)

    A setting is named by the tag of a DHCP option, or by the tag of an option inside an
    encapsulating one.  The tags of the header, its structures, and the macros that build
    options. *)

From stdpp Require Import base list strings.
From Stdlib Require Import ZArith Lia.
From S2P Require Import Prelude Layout.

(** ** Ports *)
Definition BOOTPS_PORT : Z := 67.
Definition BOOTPC_PORT : Z := 68.
Definition PXE_PORT : Z := 4011.

(** ** Encapsulation

    A tag is an [unsigned int]; the shifts are on values that fit. *)
Definition DHCP_ENCAP_OPT (encapsulator encapsulated : Z) : Z :=
  Z.lor (Z.shiftl encapsulator 8) encapsulated.
Definition DHCP_ENCAPSULATOR (encap_opt : Z) : Z := Z.shiftr encap_opt 8.
Definition DHCP_ENCAPSULATED (encap_opt : Z) : Z := Z.land encap_opt 0xff.
Definition DHCP_IS_ENCAP_OPT (opt : Z) : bool := negb (DHCP_ENCAPSULATOR opt =? 0).

(** ** Tags *)
Definition DHCP_PAD : Z := 0.
Definition DHCP_MIN_OPTION : Z := 1.
Definition DHCP_SUBNET_MASK : Z := 1.
Definition DHCP_ROUTERS : Z := 3.
Definition DHCP_DNS_SERVERS : Z := 6.
Definition DHCP_LOG_SERVERS : Z := 7.
Definition DHCP_HOST_NAME : Z := 12.
Definition DHCP_DOMAIN_NAME : Z := 15.
Definition DHCP_ROOT_PATH : Z := 17.
Definition DHCP_MTU : Z := 26.
Definition DHCP_NTP_SERVERS : Z := 42.
Definition DHCP_VENDOR_ENCAP : Z := 43.
Definition DHCP_PXE_DISCOVERY_CONTROL : Z := DHCP_ENCAP_OPT DHCP_VENDOR_ENCAP 6.
Definition DHCP_PXE_BOOT_SERVER_MCAST : Z := DHCP_ENCAP_OPT DHCP_VENDOR_ENCAP 7.
Definition DHCP_PXE_BOOT_SERVERS : Z := DHCP_ENCAP_OPT DHCP_VENDOR_ENCAP 8.
Definition DHCP_PXE_BOOT_MENU : Z := DHCP_ENCAP_OPT DHCP_VENDOR_ENCAP 9.
Definition DHCP_PXE_BOOT_MENU_PROMPT : Z := DHCP_ENCAP_OPT DHCP_VENDOR_ENCAP 10.
Definition DHCP_PXE_BOOT_MENU_ITEM : Z := DHCP_ENCAP_OPT DHCP_VENDOR_ENCAP 71.
Definition DHCP_REQUESTED_ADDRESS : Z := 50.
Definition DHCP_LEASE_TIME : Z := 51.
Definition DHCP_OPTION_OVERLOAD : Z := 52.
Definition DHCP_OPTION_OVERLOAD_FILE : Z := 1.
Definition DHCP_OPTION_OVERLOAD_SNAME : Z := 2.
Definition DHCP_MESSAGE_TYPE : Z := 53.
Definition DHCPNONE : Z := 0.
Definition DHCPDISCOVER : Z := 1.
Definition DHCPOFFER : Z := 2.
Definition DHCPREQUEST : Z := 3.
Definition DHCPDECLINE : Z := 4.
Definition DHCPACK : Z := 5.
Definition DHCPNAK : Z := 6.
Definition DHCPRELEASE : Z := 7.
Definition DHCPINFORM : Z := 8.
Definition DHCP_SERVER_IDENTIFIER : Z := 54.
Definition DHCP_PARAMETER_REQUEST_LIST : Z := 55.
Definition DHCP_MAX_MESSAGE_SIZE : Z := 57.
Definition DHCP_VENDOR_CLASS_ID : Z := 60.
Definition DHCP_CLIENT_ID : Z := 61.
Definition DHCP_TFTP_SERVER_NAME : Z := 66.
Definition DHCP_BOOTFILE_NAME : Z := 67.
Definition DHCP_USER_CLASS_ID : Z := 77.
Definition DHCP_CLIENT_ARCHITECTURE : Z := 93.
Definition DHCP_CLIENT_NDI : Z := 94.
Definition DHCP_CLIENT_UUID : Z := 97.
Definition DHCP_CLIENT_UUID_TYPE : Z := 0.
Definition DHCP_DOMAIN_SEARCH : Z := 119.
Definition DHCP_STATIC_ROUTES : Z := 121.
Definition DHCP_EB_ENCAP : Z := 175.
Definition DHCP_EB_PRIORITY : Z := DHCP_ENCAP_OPT DHCP_EB_ENCAP 0x01.
Definition DHCP_EB_YIADDR : Z := DHCP_ENCAP_OPT DHCP_EB_ENCAP 0x02.
Definition DHCP_EB_SIADDR : Z := DHCP_ENCAP_OPT DHCP_EB_ENCAP 0x03.
Definition DHCP_EB_KEEP_SAN : Z := DHCP_ENCAP_OPT DHCP_EB_ENCAP 0x08.
Definition DHCP_EB_SKIP_SAN_BOOT : Z := DHCP_ENCAP_OPT DHCP_EB_ENCAP 0x09.
Definition DHCP_EB_SCRIPTLET : Z := DHCP_ENCAP_OPT DHCP_EB_ENCAP 0x51.
Definition DHCP_EB_SYSLOGS_SERVER : Z := DHCP_ENCAP_OPT DHCP_EB_ENCAP 0x55.
Definition DHCP_EB_TRUST : Z := DHCP_ENCAP_OPT DHCP_EB_ENCAP 0x5a.
Definition DHCP_EB_CERT : Z := DHCP_ENCAP_OPT DHCP_EB_ENCAP 0x5b.
Definition DHCP_EB_KEY : Z := DHCP_ENCAP_OPT DHCP_EB_ENCAP 0x5c.
Definition DHCP_EB_CROSS_CERT : Z := DHCP_ENCAP_OPT DHCP_EB_ENCAP 0x5d.
Definition DHCP_EB_DEVICE_KEY : Z := DHCP_ENCAP_OPT DHCP_EB_ENCAP 0x5e.
Definition DHCP_EB_SERVER_FINGERPRINT : Z := DHCP_ENCAP_OPT DHCP_EB_ENCAP 0x5f.
Definition DHCP_EB_PUBKEY : Z := DHCP_ENCAP_OPT DHCP_EB_ENCAP 0x60.
Definition DHCP_EB_SIG : Z := DHCP_ENCAP_OPT DHCP_EB_ENCAP 0x61.
Definition DHCP_EB_NO_PXEDHCP : Z := DHCP_ENCAP_OPT DHCP_EB_ENCAP 0xb0.
Definition DHCP_EB_BUS_ID : Z := DHCP_ENCAP_OPT DHCP_EB_ENCAP 0xb1.
Definition DHCP_EB_USE_CACHED : Z := DHCP_ENCAP_OPT DHCP_EB_ENCAP 0xb2.
Definition DHCP_EB_SAN_RETRY : Z := DHCP_ENCAP_OPT DHCP_EB_ENCAP 0xbb.
Definition DHCP_EB_SAN_FILENAME : Z := DHCP_ENCAP_OPT DHCP_EB_ENCAP 0xbc.
Definition DHCP_EB_SAN_DRIVE : Z := DHCP_ENCAP_OPT DHCP_EB_ENCAP 0xbd.
Definition DHCP_EB_USERNAME : Z := DHCP_ENCAP_OPT DHCP_EB_ENCAP 0xbe.
Definition DHCP_EB_PASSWORD : Z := DHCP_ENCAP_OPT DHCP_EB_ENCAP 0xbf.
Definition DHCP_EB_REVERSE_USERNAME : Z := DHCP_ENCAP_OPT DHCP_EB_ENCAP 0xc0.
Definition DHCP_EB_REVERSE_PASSWORD : Z := DHCP_ENCAP_OPT DHCP_EB_ENCAP 0xc1.
Definition DHCP_EB_UID : Z := DHCP_ENCAP_OPT DHCP_EB_ENCAP 0xc2.
Definition DHCP_EB_GID : Z := DHCP_ENCAP_OPT DHCP_EB_ENCAP 0xc3.
Definition DHCP_EB_VERSION : Z := DHCP_ENCAP_OPT DHCP_EB_ENCAP 0xeb.
Definition DHCP_ISCSI_PRIMARY_TARGET_IQN : Z := 201.
Definition DHCP_ISCSI_SECONDARY_TARGET_IQN : Z := 202.
Definition DHCP_ISCSI_INITIATOR_IQN : Z := 203.
Definition DHCP_MAX_OPTION : Z := 254.
Definition DHCP_END : Z := 255.

(** ** Enumerations *)
Inductive dhcp_pxe_discovery_control : Type :=
  | PXEBS_NO_BROADCAST
  | PXEBS_NO_MULTICAST
  | PXEBS_NO_UNKNOWN_SERVERS
  | PXEBS_SKIP.

Definition discovery_control_bit (c : dhcp_pxe_discovery_control) : Z :=
  match c with
  | PXEBS_NO_BROADCAST => 1
  | PXEBS_NO_MULTICAST => 2
  | PXEBS_NO_UNKNOWN_SERVERS => 4
  | PXEBS_SKIP => 8
  end.

Inductive dhcp_client_architecture_values : Type :=
  | DHCP_CLIENT_ARCHITECTURE_X86
  | DHCP_CLIENT_ARCHITECTURE_PC98
  | DHCP_CLIENT_ARCHITECTURE_IA64
  | DHCP_CLIENT_ARCHITECTURE_ALPHA
  | DHCP_CLIENT_ARCHITECTURE_ARCX86
  | DHCP_CLIENT_ARCHITECTURE_LC
  | DHCP_CLIENT_ARCHITECTURE_IA32
  | DHCP_CLIENT_ARCHITECTURE_X86_64
  | DHCP_CLIENT_ARCHITECTURE_XSCALE
  | DHCP_CLIENT_ARCHITECTURE_EFI
  | DHCP_CLIENT_ARCHITECTURE_ARM32
  | DHCP_CLIENT_ARCHITECTURE_ARM64
  | DHCP_CLIENT_ARCHITECTURE_RISCV32
  | DHCP_CLIENT_ARCHITECTURE_RISCV64
  | DHCP_CLIENT_ARCHITECTURE_RISCV128
  | DHCP_CLIENT_ARCHITECTURE_MIPS32
  | DHCP_CLIENT_ARCHITECTURE_MIPS64
  | DHCP_CLIENT_ARCHITECTURE_SUNWAY32
  | DHCP_CLIENT_ARCHITECTURE_SUNWAY64
  | DHCP_CLIENT_ARCHITECTURE_LOONG32
  | DHCP_CLIENT_ARCHITECTURE_LOONG64.

#[export] Instance architecture_eq_dec : EqDecision dhcp_client_architecture_values.
Proof. solve_decision. Defined.

Definition architecture_value (a : dhcp_client_architecture_values) : Z :=
  match a with
  | DHCP_CLIENT_ARCHITECTURE_X86 => 0x0000
  | DHCP_CLIENT_ARCHITECTURE_PC98 => 0x0001
  | DHCP_CLIENT_ARCHITECTURE_IA64 => 0x0002
  | DHCP_CLIENT_ARCHITECTURE_ALPHA => 0x0003
  | DHCP_CLIENT_ARCHITECTURE_ARCX86 => 0x0004
  | DHCP_CLIENT_ARCHITECTURE_LC => 0x0005
  | DHCP_CLIENT_ARCHITECTURE_IA32 => 0x0006
  | DHCP_CLIENT_ARCHITECTURE_X86_64 => 0x0007
  | DHCP_CLIENT_ARCHITECTURE_XSCALE => 0x0008
  | DHCP_CLIENT_ARCHITECTURE_EFI => 0x0009
  | DHCP_CLIENT_ARCHITECTURE_ARM32 => 0x000a
  | DHCP_CLIENT_ARCHITECTURE_ARM64 => 0x000b
  | DHCP_CLIENT_ARCHITECTURE_RISCV32 => 0x0019
  | DHCP_CLIENT_ARCHITECTURE_RISCV64 => 0x001b
  | DHCP_CLIENT_ARCHITECTURE_RISCV128 => 0x001d
  | DHCP_CLIENT_ARCHITECTURE_MIPS32 => 0x0021
  | DHCP_CLIENT_ARCHITECTURE_MIPS64 => 0x0022
  | DHCP_CLIENT_ARCHITECTURE_SUNWAY32 => 0x0023
  | DHCP_CLIENT_ARCHITECTURE_SUNWAY64 => 0x0024
  | DHCP_CLIENT_ARCHITECTURE_LOONG32 => 0x0025
  | DHCP_CLIENT_ARCHITECTURE_LOONG64 => 0x0027
  end.

(** ** Structures

    A flexible array member has no size.  The size of a link-layer address and of a UUID
    come from other headers. *)
Definition dhcp_pxe_boot_server : layout := [("type", 2); ("num_ip", 1)]%string%nat.
Definition dhcp_pxe_boot_menu : layout := [("type", 2); ("desc_len", 1)]%string%nat.
Definition dhcp_pxe_boot_menu_prompt : layout := [("timeout", 1)]%string%nat.
Definition dhcp_pxe_boot_menu_item : layout := [("type", 2); ("layer", 2)]%string%nat.
Definition dhcp_client_architecture : layout := [("arch", 2)]%string%nat.
Definition dhcp_client_id (max_ll_addr_len : nat) : layout :=
  [("ll_proto", 1); ("ll_addr", max_ll_addr_len)]%string%nat.
Definition dhcp_client_uuid (uuid_size : nat) : layout := [("type", 1); ("uuid", uuid_size)]%string%nat.
Definition dhcp_netdev_desc : layout := [("type", 1); ("vendor", 2); ("device", 2)]%string%nat.
Definition dhcp_option : layout := [("tag", 1); ("len", 1); ("data", 0)]%string%nat.
Definition dhcphdr : layout :=
  [("op", 1); ("htype", 1); ("hlen", 1); ("hops", 1); ("xid", 4); ("secs", 2); ("flags", 2);
   ("ciaddr", 4); ("yiaddr", 4); ("siaddr", 4); ("giaddr", 4); ("chaddr", 16); ("sname", 64);
   ("file", 128); ("magic", 4); ("options", 0)]%string%nat.

Definition DHCP_OPTION_HEADER_LEN : nat := offsetof dhcp_option "data".
Definition DHCP_MAX_LEN : Z := 0xff.
Definition BOOTP_REQUEST : Z := 1.
Definition BOOTP_REPLY : Z := 2.
Definition BOOTP_FL_BROADCAST : Z := 0x8000.
Definition DHCP_MAGIC_COOKIE : Z := 0x63825363.
Definition DHCP_MIN_LEN : Z := 552.

(** ** Macros that build options: the length, and the bytes; the sizes fit *)
Definition DHCP_OPTION (bytes : list Z) : list Z := Z.of_nat (length bytes) :: bytes.
Definition DHCP_STRING (chars : list Z) : list Z := DHCP_OPTION chars.
Definition DHCP_BYTE (value : Z) : list Z := DHCP_OPTION [value].
Definition DHCP_WORD (value : Z) : list Z :=
  DHCP_OPTION [Z.land (Z.shiftr value 8) 0xff; Z.land (Z.shiftr value 0) 0xff].
Definition DHCP_DWORD (value : Z) : list Z :=
  DHCP_OPTION [Z.land (Z.shiftr value 24) 0xff; Z.land (Z.shiftr value 16) 0xff;
               Z.land (Z.shiftr value 8) 0xff; Z.land (Z.shiftr value 0) 0xff].
Definition DHCP_ENCAP (bytes : list Z) : list Z := DHCP_OPTION (bytes ++ [DHCP_END]).

(** Decimal digits of the vendor class: ['0' + ( ( arch / 10 ) % 10 )], unsigned. *)
Definition digit (value divisor : Z) : Z := 48 + (value / divisor) mod 10.
Definition DHCP_VENDOR_PXECLIENT_ARCH (arch : Z) : list Z :=
  map (digit arch) [10000; 1000; 100; 10; 1].
Definition DHCP_VENDOR_PXECLIENT_UNDI_VERSION (version : Z) : list Z := map (digit version) [100; 10; 1].
Definition DHCP_VENDOR_PXECLIENT_UNDI (type major minor : Z) : list Z :=
  DHCP_VENDOR_PXECLIENT_UNDI_VERSION major ++ DHCP_VENDOR_PXECLIENT_UNDI_VERSION minor.
Definition DHCP_VENDOR_PXECLIENT (arch type major minor : Z) : list Z :=
  bstr "PXEClient:Arch:" ++ DHCP_VENDOR_PXECLIENT_ARCH arch ++ bstr ":UNDI:" ++
  DHCP_VENDOR_PXECLIENT_UNDI type major minor.

(** Every tag of the header that names a setting. *)
Definition setting_tags : list Z :=
  [DHCP_SUBNET_MASK; DHCP_ROUTERS; DHCP_DNS_SERVERS; DHCP_LOG_SERVERS; DHCP_HOST_NAME;
   DHCP_DOMAIN_NAME; DHCP_ROOT_PATH; DHCP_MTU; DHCP_NTP_SERVERS; DHCP_VENDOR_ENCAP;
   DHCP_PXE_DISCOVERY_CONTROL; DHCP_PXE_BOOT_SERVER_MCAST; DHCP_PXE_BOOT_SERVERS;
   DHCP_PXE_BOOT_MENU; DHCP_PXE_BOOT_MENU_PROMPT; DHCP_PXE_BOOT_MENU_ITEM; DHCP_REQUESTED_ADDRESS;
   DHCP_LEASE_TIME; DHCP_OPTION_OVERLOAD; DHCP_MESSAGE_TYPE; DHCP_SERVER_IDENTIFIER;
   DHCP_PARAMETER_REQUEST_LIST; DHCP_MAX_MESSAGE_SIZE; DHCP_VENDOR_CLASS_ID; DHCP_CLIENT_ID;
   DHCP_TFTP_SERVER_NAME; DHCP_BOOTFILE_NAME; DHCP_USER_CLASS_ID; DHCP_CLIENT_ARCHITECTURE;
   DHCP_CLIENT_NDI; DHCP_CLIENT_UUID; DHCP_DOMAIN_SEARCH; DHCP_STATIC_ROUTES; DHCP_EB_ENCAP;
   DHCP_EB_PRIORITY; DHCP_EB_YIADDR; DHCP_EB_SIADDR; DHCP_EB_KEEP_SAN; DHCP_EB_SKIP_SAN_BOOT;
   DHCP_EB_SCRIPTLET; DHCP_EB_SYSLOGS_SERVER; DHCP_EB_TRUST; DHCP_EB_CERT; DHCP_EB_KEY;
   DHCP_EB_CROSS_CERT; DHCP_EB_DEVICE_KEY; DHCP_EB_SERVER_FINGERPRINT; DHCP_EB_PUBKEY; DHCP_EB_SIG;
   DHCP_EB_NO_PXEDHCP; DHCP_EB_BUS_ID; DHCP_EB_USE_CACHED; DHCP_EB_SAN_RETRY; DHCP_EB_SAN_FILENAME;
   DHCP_EB_SAN_DRIVE; DHCP_EB_USERNAME; DHCP_EB_PASSWORD; DHCP_EB_REVERSE_USERNAME;
   DHCP_EB_REVERSE_PASSWORD; DHCP_EB_UID; DHCP_EB_GID; DHCP_EB_VERSION;
   DHCP_ISCSI_PRIMARY_TARGET_IQN; DHCP_ISCSI_SECONDARY_TARGET_IQN; DHCP_ISCSI_INITIATOR_IQN].

(** ** Theorems *)

(** The two halves of an encapsulated tag. *)
Lemma encap_opt_halves e o :
  0 <= e -> 0 <= o < 256 -> DHCP_ENCAPSULATOR (DHCP_ENCAP_OPT e o) = e /\ DHCP_ENCAPSULATED (DHCP_ENCAP_OPT e o) = o.
Proof.
  intros He Ho. unfold DHCP_ENCAPSULATOR, DHCP_ENCAPSULATED, DHCP_ENCAP_OPT.
  assert (Z.shiftr o 8 = 0) as Hs by (rewrite Z.shiftr_div_pow2 by lia; apply Z.div_small; lia).
  assert (forall z, Z.land z 0xff = z mod 256) as Hm by (intros z; exact (Z.land_ones z 8 ltac:(lia))).
  split.
  - rewrite Z.shiftr_lor, Z.shiftr_shiftl_l, Hs, Z.lor_0_r by lia. apply Z.shiftl_0_r.
  - rewrite Z.land_lor_distr_l, !Hm, (Z.mod_small o), Z.shiftl_mul_pow2 by lia.
    change (2 ^ 8) with 256. by rewrite Z_mod_mult, Z.lor_0_l.
Qed.

(** Encapsulated tags are told apart from plain ones, and from each other. *)
Theorem encap_opt_inj e o e' o' :
  0 <= e -> 0 <= o < 256 -> 0 <= e' -> 0 <= o' < 256 ->
  (DHCP_IS_ENCAP_OPT (DHCP_ENCAP_OPT e o) = true <-> e <> 0) /\
  (DHCP_ENCAP_OPT e o = DHCP_ENCAP_OPT e' o' -> e = e' /\ o = o').
Proof.
  intros He Ho He' Ho'. destruct (encap_opt_halves e o He Ho) as [H1 H2], (encap_opt_halves e' o' He' Ho') as [H3 H4].
  split.
  - unfold DHCP_IS_ENCAP_OPT. rewrite H1. destruct (Z.eqb_spec e 0); cbn; split; congruence.
  - intros E. rewrite E in H1, H2. split; congruence.
Qed.

(** A tag that the options library can store: its halves are tags of options, not padding
    or the end marker. *)
Definition storable (tag : Z) : bool :=
  let part t := (DHCP_MIN_OPTION <=? t) && (t <=? DHCP_MAX_OPTION) in
  (if DHCP_IS_ENCAP_OPT tag then part (DHCP_ENCAPSULATOR tag) else true) && part (DHCP_ENCAPSULATED tag).

(** No two settings share a tag, and every setting can be stored. *)
Theorem setting_tags_distinct : NoDup setting_tags /\ Forall (fun t => storable t = true) setting_tags.
Proof.
  split; [by apply (bool_decide_eq_true_1 _); vm_compute|].
  by apply (bool_decide_eq_true_1 _); vm_compute.
Qed.

(** No two architectures share a value. *)
Theorem architecture_value_inj a b : architecture_value a = architecture_value b -> a = b.
Proof. destruct a, b; (reflexivity || discriminate). Qed.

(** The options follow the fixed part of a packet; an option has a header of two bytes. *)
Theorem dhcp_layout : sizeof dhcphdr = 240%nat /\ offsetof dhcphdr "options" = 240%nat /\ DHCP_OPTION_HEADER_LEN = 2%nat.
Proof. done. Qed.

(** The bytes of a built option are its value, most significant first. *)
Theorem dhcp_dword_value v : 0 <= v < 2 ^ 32 -> DHCP_DWORD v = 4 :: be_bytes 4 v.
Proof.
  intros Hv. assert (forall z, Z.land z 0xff = z mod 256) as Hm by (intros z; exact (Z.land_ones z 8 ltac:(lia))).
  unfold DHCP_DWORD, DHCP_OPTION, be_bytes. rewrite !Hm, !Z.shiftr_div_pow2 by lia. change (2 ^ 0) with 1. rewrite Z.div_1_r.
  change (reverse (le_bytes 4 v)) with
    [(v / 256 / 256 / 256) mod 256; (v / 256 / 256) mod 256; (v / 256) mod 256; v mod 256].
  by rewrite !Z.div_div by lia.
Qed.
