(* ===== verification/ErrFile.v ===== *)
(** * Error file identifiers (include/ipxe/errfile.h, config/)

    Every file that raises errors has an identifier, which the error numbers carry: a
    category, and a number within it.  The tables of the header, one per category. *)

From stdpp Require Import base list strings.
From Stdlib Require Import ZArith Lia.
From S2P Require Import Prelude.

(** ** Categories *)
Inductive errfile_category : Type :=
  | ERRFILE_CORE
  | ERRFILE_DRIVER
  | ERRFILE_NET
  | ERRFILE_IMAGE
  | ERRFILE_OTHER.

#[export] Instance errfile_category_eq_dec : EqDecision errfile_category.
Proof. solve_decision. Defined.

Definition category_value (c : errfile_category) : Z :=
  match c with
  | ERRFILE_CORE => 0x00002000
  | ERRFILE_DRIVER => 0x00004000
  | ERRFILE_NET => 0x00006000
  | ERRFILE_IMAGE => 0x00008000
  | ERRFILE_OTHER => 0x0000e000
  end.

(** Flag for architecture-dependent error files *)
Definition ERRFILE_ARCH : Z := 0x00800000.

(** ** The tables *)
Definition errfile_core : list (string * Z) :=
  [("asprintf", 0x00000000); ("downloader", 0x00010000); ("exec", 0x00020000);
   ("blob", 0x00030000); ("iobuf", 0x00040000); ("job", 0x00050000); ("linebuf", 0x00060000);
   ("monojob", 0x00070000); ("nvo", 0x00080000); ("open", 0x00090000); ("posix_io", 0x000a0000);
   ("resolv", 0x000b0000); ("settings", 0x000c0000); ("vsprintf", 0x000d0000);
   ("xfer", 0x000e0000); ("bitmap", 0x000f0000); ("base64", 0x00100000); ("base16", 0x00110000);
   ("blockdev", 0x00120000); ("acpi", 0x00130000); ("null_sanboot", 0x00140000);
   ("edd", 0x00150000); ("parseopt", 0x00160000); ("test", 0x00170000); ("xferbuf", 0x00180000);
   ("pending", 0x00190000); ("null_reboot", 0x001a0000); ("pinger", 0x001b0000);
   ("fbcon", 0x001c0000); ("ansicol", 0x001d0000); ("ansicoldef", 0x001e0000);
   ("fault", 0x001f0000); ("blocktrans", 0x00200000); ("pixbuf", 0x00210000);
   ("efi_block", 0x00220000); ("sanboot", 0x00230000); ("dummy_sanboot", 0x00240000);
   ("fdt", 0x00250000); ("dma", 0x00260000); ("cachedhcp", 0x00270000); ("acpimac", 0x00280000);
   ("efi_strings", 0x00290000); ("uuid", 0x002a0000); ("efi_path", 0x002b0000);
   ("efi_mp", 0x002c0000); ("efi_service", 0x002d0000); ("null_smbios", 0x002e0000);
   ("efi_open", 0x002f0000); ("efi_table", 0x00300000); ("efi_connect", 0x00310000);
   ("gpio", 0x00320000); ("spcr", 0x00330000); ("disklog", 0x00340000);
   ("efi_disklog", 0x00350000); ("datauri", 0x00360000); ("dmesg", 0x00370000)]%string.

Definition errfile_driver : list (string * Z) :=
  [("eisa", 0x00000000); ("isa", 0x00010000); ("isapnp", 0x00020000); ("mca", 0x00030000);
   ("pci", 0x00040000); ("linux", 0x00050000); ("pcivpd", 0x00060000); ("usb", 0x00070000);
   ("usbhub", 0x00080000); ("xhci", 0x00090000); ("ehci", 0x000a0000); ("uhci", 0x000b0000);
   ("usbhid", 0x000c0000); ("usbkbd", 0x000d0000); ("usbio", 0x000e0000); ("nvs", 0x00100000);
   ("spi", 0x00110000); ("i2c_bit", 0x00120000); ("spi_bit", 0x00130000); ("nvsvpd", 0x00140000);
   ("uart", 0x00150000); ("ns16550", 0x00160000); ("dwuart", 0x00170000); ("3c509", 0x00200000);
   ("bnx2", 0x00210000); ("cs89x0", 0x00220000); ("eepro", 0x00230000);
   ("etherfabric", 0x00240000); ("legacy", 0x00250000); ("natsemi", 0x00260000);
   ("pnic", 0x00270000); ("prism2_pci", 0x00280000); ("prism2_plx", 0x00290000);
   ("rtl8139", 0x002a0000); ("smc9000", 0x002b0000); ("tg3", 0x002c0000);
   ("3c509_eisa", 0x002d0000); ("3c515", 0x002e0000); ("3c529", 0x002f0000); ("3c595", 0x00300000);
   ("3c5x9", 0x00310000); ("3c90x", 0x00320000); ("amd8111e", 0x00330000); ("davicom", 0x00340000);
   ("depca", 0x00350000); ("dmfe", 0x00360000); ("eepro100", 0x00380000); ("epic100", 0x00390000);
   ("forcedeth", 0x003a0000); ("mtd80x", 0x003b0000); ("ns83820", 0x003c0000);
   ("ns8390", 0x003d0000); ("pcnet32", 0x003e0000); ("r8169", 0x003f0000); ("sis900", 0x00400000);
   ("sundance", 0x00410000); ("tlan", 0x00420000); ("tulip", 0x00430000); ("rhine", 0x00440000);
   ("velocity", 0x00450000); ("w89c840", 0x00460000); ("ipoib", 0x00470000);
   ("e1000_main", 0x00480000); ("e1000e_main", 0x00490000); ("mtnic", 0x004a0000);
   ("phantom", 0x004b0000); ("ne2k_isa", 0x004c0000); ("b44", 0x004d0000); ("rtl818x", 0x004e0000);
   ("sky2", 0x004f0000); ("ath5k", 0x00500000); ("atl1e", 0x00510000); ("sis190", 0x00520000);
   ("myri10ge", 0x00530000); ("skge", 0x00540000); ("vxge_main", 0x00550000);
   ("vxge_config", 0x00560000); ("vxge_traffic", 0x00570000); ("igb_main", 0x00580000);
   ("snpnet", 0x00590000); ("snponly", 0x005a0000); ("jme", 0x005b0000);
   ("virtio_net", 0x005c0000); ("tap", 0x005d0000); ("igbvf_main", 0x005e0000);
   ("ath9k", 0x005f0000); ("ath", 0x00600000); ("vmxnet3", 0x00610000); ("mii", 0x00620000);
   ("realtek", 0x00630000); ("skeleton", 0x00640000); ("intel", 0x00650000); ("myson", 0x00660000);
   ("intelx", 0x00670000); ("snp", 0x00680000); ("netfront", 0x00690000); ("nii", 0x006a0000);
   ("netvsc", 0x006b0000); ("ecm", 0x006c0000); ("ncm", 0x006d0000); ("usbnet", 0x006e0000);
   ("dm96xx", 0x006f0000); ("scsi", 0x00700000); ("arbel", 0x00710000); ("hermon", 0x00720000);
   ("linda", 0x00730000); ("ata", 0x00740000); ("srp", 0x00750000); ("qib7322", 0x00760000);
   ("smsc75xx", 0x00770000); ("intelvf", 0x00780000); ("intelxvf", 0x00790000);
   ("smsc95xx", 0x007a0000); ("acm", 0x007b0000); ("eoib", 0x007c0000); ("golan", 0x007d0000);
   ("flexboot_nodnic", 0x007e0000); ("virtio", 0x007f0000); ("pciea", 0x00c00000);
   ("axge", 0x00c10000); ("thunderx", 0x00c20000); ("af_packet", 0x00c30000);
   ("sfc_hunt", 0x00c40000); ("efx_hunt", 0x00c50000); ("exanic", 0x00c60000);
   ("smscusb", 0x00c70000); ("lan78xx", 0x00c80000); ("ena", 0x00c90000); ("icplus", 0x00ca0000);
   ("intelxl", 0x00cb0000); ("pcimsix", 0x00cc0000); ("intelxlvf", 0x00cd0000);
   ("usbblk", 0x00ce0000); ("iphone", 0x00cf0000); ("slirp", 0x00d00000); ("rdc", 0x00d10000);
   ("ice", 0x00d20000); ("ecam", 0x00d30000); ("pcibridge", 0x00d40000); ("mnpnet", 0x00d50000);
   ("gve", 0x00d60000); ("aqc1xx", 0x00d70000); ("atl_hw", 0x00d80000); ("atl2_hw", 0x00d90000);
   ("devtree", 0x00da0000); ("cgem", 0x00db0000); ("dwmac", 0x00dc0000); ("dwusb", 0x00dd0000);
   ("dwgpio", 0x00de0000)]%string.

Definition errfile_net : list (string * Z) :=
  [("aoe", 0x00000000); ("arp", 0x00010000); ("dhcpopts", 0x00020000); ("ethernet", 0x00030000);
   ("icmpv6", 0x00040000); ("ipv4", 0x00050000); ("ipv6", 0x00060000); ("ndp", 0x00070000);
   ("netdevice", 0x00080000); ("nullnet", 0x00090000); ("tcp", 0x000a0000); ("ftp", 0x000b0000);
   ("httpcore", 0x000c0000); ("iscsi", 0x000d0000); ("tcpip", 0x000e0000); ("udp", 0x000f0000);
   ("dhcp", 0x00100000); ("dns", 0x00110000); ("tftp", 0x00120000); ("infiniband", 0x00130000);
   ("netdev_settings", 0x00140000); ("dhcppkt", 0x00150000); ("slam", 0x00160000);
   ("ib_sma", 0x00170000); ("ib_packet", 0x00180000); ("icmpv4", 0x00190000);
   ("ib_qset", 0x001a0000); ("ib_gma", 0x001b0000); ("ib_pathrec", 0x001c0000);
   ("ib_mcast", 0x001d0000); ("ib_cm", 0x001e0000); ("net80211", 0x001f0000);
   ("ib_mi", 0x00200000); ("ib_cmrc", 0x00210000); ("ib_srp", 0x00220000);
   ("sec80211", 0x00230000); ("wep", 0x00240000); ("eapol", 0x00250000); ("wpa", 0x00260000);
   ("wpa_psk", 0x00270000); ("wpa_tkip", 0x00280000); ("wpa_ccmp", 0x00290000);
   ("eth_slow", 0x002a0000); ("fc", 0x002b0000); ("fcels", 0x002c0000); ("fcp", 0x002d0000);
   ("fcoe", 0x002e0000); ("fcns", 0x002f0000); ("vlan", 0x00300000); ("oncrpc", 0x00310000);
   ("portmap", 0x00320000); ("nfs", 0x00330000); ("nfs_open", 0x00340000); ("mount", 0x00350000);
   ("oncrpc_iob", 0x00360000); ("neighbour", 0x00370000); ("socket", 0x00380000);
   ("icmp", 0x00390000); ("ping", 0x003a0000); ("dhcpv6", 0x003b0000); ("nfs_uri", 0x003c0000);
   ("rndis", 0x003d0000); ("pccrc", 0x003e0000); ("stp", 0x003f0000); ("pccrd", 0x00400000);
   ("httpconn", 0x00410000); ("httpauth", 0x00420000); ("httpbasic", 0x00430000);
   ("httpdigest", 0x00440000); ("peerdisc", 0x00450000); ("peerblk", 0x00460000);
   ("peermux", 0x00470000); ("xsigo", 0x00480000); ("ntp", 0x00490000); ("httpntlm", 0x004a0000);
   ("eap", 0x004b0000); ("lldp", 0x004c0000); ("eap_md5", 0x004d0000);
   ("eap_mschapv2", 0x004e0000); ("syslogs", 0x004f0000); ("nvmetcp", 0x00500000);
   ("nvmetcp_auth", 0x00510000); ("nvmetcp_test", 0x00520000)]%string.

Definition errfile_image : list (string * Z) :=
  [("image", 0x00000000); ("elf", 0x00010000); ("script", 0x00020000); ("segment", 0x00030000);
   ("efi_image", 0x00040000); ("embedded", 0x00050000); ("pnm", 0x00060000); ("png", 0x00070000);
   ("der", 0x00080000); ("pem", 0x00090000); ("archive", 0x000a0000); ("zlib", 0x000b0000);
   ("gzip", 0x000c0000); ("efi_siglist", 0x000d0000); ("lkrn", 0x000e0000); ("initrd", 0x000f0000);
   ("mime", 0x00100000)]%string.

Definition errfile_other : list (string * Z) :=
  [("asn1", 0x00000000); ("chap", 0x00010000); ("aoeboot", 0x00020000); ("autoboot", 0x00030000);
   ("dhcpmgmt", 0x00040000); ("imgmgmt", 0x00050000); ("pxe_tftp", 0x00060000);
   ("pxe_udp", 0x00070000); ("aes", 0x00080000); ("cipher", 0x00090000); ("image_cmd", 0x000a0000);
   ("uri_test", 0x000b0000); ("ibft", 0x000c0000); ("tls", 0x000d0000); ("ifmgmt", 0x000e0000);
   ("iscsiboot", 0x000f0000); ("efi_pci", 0x00100000); ("efi_snp", 0x00110000);
   ("smbios", 0x00120000); ("smbios_settings", 0x00130000); ("efi_smbios", 0x00140000);
   ("pxemenu", 0x00150000); ("x509", 0x00160000); ("login_ui", 0x00170000);
   ("ib_srpboot", 0x00180000); ("iwmgmt", 0x00190000); ("linux_smbios", 0x001a0000);
   ("lotest", 0x001b0000); ("config_cmd", 0x001c0000); ("ifmgmt_cmd", 0x001d0000);
   ("fcmgmt_cmd", 0x001e0000); ("gdbstub_cmd", 0x001f0000); ("sanboot_cmd", 0x00200000);
   ("bofm", 0x00210000); ("prompt", 0x00220000); ("nvo_cmd", 0x00230000);
   ("hmac_drbg", 0x00240000); ("drbg", 0x00250000); ("entropy", 0x00260000); ("rsa", 0x00270000);
   ("linux_entropy", 0x00280000); ("x509_test", 0x00290000); ("cms", 0x002a0000);
   ("imgtrust", 0x002b0000); ("menu_ui", 0x002c0000); ("dynui_cmd", 0x002d0000);
   ("validator", 0x002e0000); ("ocsp", 0x002f0000); ("nslookup", 0x00300000);
   ("efi_snp_hii", 0x00310000); ("readline", 0x00320000); ("efi_bofm", 0x00330000);
   ("efi_console", 0x00340000); ("efi_debug", 0x00350000); ("efi_download", 0x00360000);
   ("efi_driver", 0x00370000); ("efi_file", 0x00380000); ("efi_init", 0x00390000);
   ("efi_timer", 0x003a0000); ("efi_umalloc", 0x003b0000); ("linux_pci", 0x003c0000);
   ("pci_settings", 0x003d0000); ("efi_reboot", 0x003e0000); ("memmap_settings", 0x003f0000);
   ("param_cmd", 0x00400000); ("deflate", 0x00410000); ("xenstore", 0x00420000);
   ("xenbus", 0x00430000); ("xengrant", 0x00440000); ("efi_utils", 0x00450000);
   ("efi_wrap", 0x00460000); ("vmbus", 0x00470000); ("efi_time", 0x00480000);
   ("efi_watchdog", 0x00490000); ("efi_pxe", 0x004a0000); ("efi_usb", 0x004b0000);
   ("efi_fbcon", 0x004c0000); ("efi_local", 0x004d0000); ("efi_entropy", 0x004e0000);
   ("cert_cmd", 0x004f0000); ("acpi_settings", 0x00500000); ("ntlm", 0x00510000);
   ("efi_veto", 0x00520000); ("efi_autoboot", 0x00530000); ("efi_autoexec", 0x00540000);
   ("efi_cachedhcp", 0x00550000); ("linux_sysfs", 0x00560000); ("linux_acpi", 0x00570000);
   ("dynkeymap", 0x00580000); ("pci_cmd", 0x00590000); ("dhe", 0x005a0000);
   ("efi_cmdline", 0x005b0000); ("efi_rng", 0x005c0000); ("efi_shim", 0x005d0000);
   ("efi_settings", 0x005e0000); ("x25519", 0x005f0000); ("des", 0x00600000);
   ("editstring", 0x00610000); ("widget_ui", 0x00620000); ("form_ui", 0x00630000);
   ("usb_cmd", 0x00640000); ("usb_settings", 0x00650000); ("weierstrass", 0x00660000);
   ("efi_cacert", 0x00670000); ("elliptic", 0x00680000); ("ecdsa", 0x00690000);
   ("crypto_null", 0x006a0000); ("ffdhe", 0x006b0000); ("cbc", 0x006c0000);
   ("efi_nvs", 0x006d0000); ("tofu", 0x006e0000); ("devicekey_cmd", 0x006f0000);
   ("nbct", 0x00700000); ("tls13", 0x00710000); ("tls13_test", 0x00720000)]%string.

Definition errfile_table (c : errfile_category) : list (string * Z) :=
  match c with
  | ERRFILE_CORE => errfile_core
  | ERRFILE_DRIVER => errfile_driver
  | ERRFILE_NET => errfile_net
  | ERRFILE_IMAGE => errfile_image
  | ERRFILE_OTHER => errfile_other
  end.

(** [( category | number )] for each row. *)
Definition errfile_ids (c : errfile_category) : list (string * Z) :=
  map (fun r => (r.1, Z.lor (category_value c) r.2)) (errfile_table c).

Definition categories : list errfile_category :=
  [ERRFILE_CORE; ERRFILE_DRIVER; ERRFILE_NET; ERRFILE_IMAGE; ERRFILE_OTHER].
Definition errfiles : list (string * Z) := categories ≫= errfile_ids.

(** ** Theorems *)

(** Which file has an identifier. *)
Definition errfile_of (id : Z) : option string := fst <$> List.find (fun r => r.2 =? id) errfiles.

Lemma find_nodup (l : list (string * Z)) name id :
  NoDup (l.*2) -> (name, id) ∈ l -> List.find (fun r => r.2 =? id) l = Some (name, id).
Proof.
  induction l as [|[n i] l IH]; intros Hn Hin; [by apply not_elem_of_nil in Hin|]. cbn in Hn |- *.
  apply NoDup_cons in Hn as [Hni Hn]. apply elem_of_cons in Hin as [[= <- <-]|Hin]; [by rewrite Z.eqb_refl|].
  destruct (Z.eqb_spec i id) as [->|_]; [|by apply IH]. destruct Hni. apply list_elem_of_fmap. by exists (name, id).
Qed.

Lemma errfiles_nodup : NoDup (errfiles.*2) /\ NoDup (errfiles.*1).
Proof. split; by apply (bool_decide_eq_true_1 _); vm_compute. Qed.

(** An identifier names its file: no two files share one, in whatever categories, and no
    file has two.  It leaves the lower thirteen bits and the upper eight free for the rest of the error number, and its
    category can be read off. *)
Theorem errfile_identifies name id :
  (name, id) ∈ errfiles -> errfile_of id = Some name /\ (forall id', (name, id') ∈ errfiles -> id' = id).
Proof.
  destruct errfiles_nodup as [Hi Hn]. intros Hin. split.
  - unfold errfile_of. by rewrite (find_nodup _ name).
  - intros id' Hin'. clear Hi. induction errfiles as [|[n i] l IH]; [by apply not_elem_of_nil in Hin|].
    cbn in Hn. apply NoDup_cons in Hn as [Hnot Hn].
    apply elem_of_cons in Hin as [Heq|Hin]; apply elem_of_cons in Hin' as [Heq'|Hin']; simplify_eq; auto;
      destruct Hnot; apply list_elem_of_fmap; eexists; (split; [|eassumption]); done.
Qed.

Lemma errfile_identifies_witness : errfile_of 0x0071e000 = Some "tls13"%string.
Proof. apply (errfile_identifies "tls13" 0x0071e000). by apply (bool_decide_eq_true_1 _); vm_compute. Defined.

Theorem errfile_bits c name id :
  (name, id) ∈ errfile_ids c -> Z.land id 0x00ffe000 = id /\ Z.land id 0x0000e000 = category_value c.
Proof.
  intros Hin.
  assert (Forall (fun r => Z.land r.2 0x00ffe000 = r.2 /\ Z.land r.2 0x0000e000 = category_value c) (errfile_ids c)) as Hf
    by (destruct c; by apply (bool_decide_eq_true_1 _); vm_compute).
  rewrite Forall_forall in Hf. exact (Hf _ Hin).
Qed.

(** The flag for architecture-dependent files is not theirs alone: the numbers of the
    network drivers have grown into it. *)
Theorem arch_flag_shared :
  length (filter (fun r => Z.land r.2 ERRFILE_ARCH = ERRFILE_ARCH) (errfile_ids ERRFILE_DRIVER)) = 31%nat.
Proof. by vm_compute. Qed.
