(* ===== verification/Config.v ===== *)
(** * Build configuration (config/general.h, config/config.c, config/config_efi.c)

    The two configuration objects pull other objects into the link, as the options of
    general.h say.  The files are translated line by line and run by a model of the
    preprocessor; the headers that are not in the repository (defaults.h, console.h,
    settings.h, sideband.h, and the named and local ones) are a parameter.  An abstract
    run, which knows only for some macros whether they are defined, is proved sound for
    every such parameter: it tells what every build of a platform links. *)

From stdpp Require Import base gmap list strings.
From S2P Require Import Prelude.

(** ** The preprocessor *)

Inductive condition : Type :=
  | Defined (macro : string)
  | Not (c : condition)
  | And (c d : condition)
  | Or (c d : condition).

(** A line of the files, or a conditional with its lines.  An option that is commented out
    is [Optional]. *)
Inductive line : Type :=
  | Define (macro text : string)
  | Undef (macro : string)
  | Optional (macro : string)
  | When (c : condition) (body : list line)
  | Header (name : string)
  | Require_object (object : string)
  | Require_keymap (macro : string).

(** The macros that are defined, with their text. *)
Abbreviation macros := (gmap string string).

Definition defined (ms : macros) (m : string) : bool := bool_decide (is_Some (ms !! m)).

Fixpoint holds (ms : macros) (c : condition) : bool :=
  match c with
  | Defined m => defined ms m
  | Not c => negb (holds ms c)
  | And c d => holds ms c && holds ms d
  | Or c d => holds ms c || holds ms d
  end.

(** What is known while a file is compiled: the macros, and the objects that were required. *)
Record compilation : Type := Compilation {
  c_macros : macros;
  c_objects : list string;
}.

Definition keymap_object (ms : macros) (m : string) : string := "keymap_" +:+ default m (ms !! m).

Section Preprocess.
(** What an included header does to the macros. *)
Context (header : string -> macros -> macros).

Definition require (o : string) (u : compilation) : compilation :=
  Compilation (c_macros u) (c_objects u ++ [o]).
Definition on_macros (f : macros -> macros) (u : compilation) : compilation :=
  Compilation (f (c_macros u)) (c_objects u).

Fixpoint preprocess (u : compilation) (l : line) : compilation :=
  match l with
  | Define m text => on_macros <[m := text]> u
  | Undef m => on_macros (delete m) u
  | Optional _ => u
  | When c body => if holds (c_macros u) c then fold_left preprocess body u else u
  | Header h => on_macros (header h) u
  | Require_object o => require o u
  | Require_keymap m => require (keymap_object (c_macros u) m) u
  end.

(** The objects that a file requires, compiled with the macros of the command line. *)
Definition required (file : list line) (cmdline : macros) : list string :=
  c_objects (fold_left preprocess file (Compilation cmdline [])).
End Preprocess.

(** ** config/general.h *)

(** Network protocols. *)
Definition net_protocols : list line := [
  Define "NET_PROTO_EAPOL" "";
  Optional "NET_PROTO_FCOE";
  Define "NET_PROTO_IPV4" "";
  Define "NET_PROTO_IPV6" "";
  Define "NET_PROTO_LACP" "";
  Define "NET_PROTO_LLDP" "";
  Define "NET_PROTO_STP" "";
  When (Defined "PLATFORM_pcbios") [Undef "NET_PROTO_IPV6"; Undef "NET_PROTO_LLDP"]
].

(** Download protocols. *)
Definition download_protocols : list line := [
  Define "DOWNLOAD_PROTO_TFTP" "";
  Define "DOWNLOAD_PROTO_HTTP" "";
  Define "DOWNLOAD_PROTO_HTTPS" "";
  Optional "DOWNLOAD_PROTO_FTP";
  Optional "DOWNLOAD_PROTO_SLAM";
  Optional "DOWNLOAD_PROTO_NFS";
  Define "DOWNLOAD_PROTO_DATA" "";
  When (Defined "PLATFORM_efi") [Define "DOWNLOAD_PROTO_FILE" ""];
  Define "HTTP_AUTH_BASIC" "";
  Define "HTTP_AUTH_DIGEST" "";
  Define "HTTP_AUTH_NTLM" "";
  Optional "HTTP_ENC_PEERDIST";
  When (Defined "PLATFORM_pcbios") [Undef "DOWNLOAD_PROTO_HTTPS"; Undef "HTTP_AUTH_NTLM"]
].

(** SAN boot protocols. *)
Definition san_boot_protocols : list line := [
  When (Not (Defined "SANBOOT_NULL")) [
     Define "SANBOOT_PROTO_AOE" "";
     Define "SANBOOT_PROTO_FCP" "";
     Define "SANBOOT_PROTO_HTTP" "";
     Define "SANBOOT_PROTO_IB_SRP" "";
     Define "SANBOOT_PROTO_ISCSI" "";
     Define "SANBOOT_PROTO_NVME_TCP" ""]
].

(** Command-line and script commands. *)
Definition commands : list line := [
  Define "AUTOBOOT_CMD" "";
  Define "CERT_CMD" "";
  Define "CONFIG_CMD" "";
  Define "CONSOLE_CMD" "";
  Define "DIGEST_CMD" "";
  Define "DEVICEKEY_CMD" "";
  Define "DHCP_CMD" "";
  Define "FCMGMT_CMD" "";
  Define "FORM_CMD" "";
  Define "IBMGMT_CMD" "";
  Define "IFMGMT_CMD" "";
  Define "IMAGE_CMD" "";
  Define "IMAGE_ARCHIVE_CMD" "";
  Optional "IMAGE_CRYPT_CMD";
  Optional "IMAGE_MEM_CMD";
  Define "IMAGE_SET_CMD" "";
  Optional "IMAGE_TRUST_CMD";
  Optional "IPSTAT_CMD";
  Define "IWMGMT_CMD" "";
  Define "LOGIN_CMD" "";
  Optional "LOTEST_CMD";
  Define "MENU_CMD" "";
  Optional "NEIGHBOUR_CMD";
  Optional "NSLOOKUP_CMD";
  Define "NTP_CMD" "";
  Define "NVO_CMD" "";
  Define "PARAM_CMD" "";
  Define "PCI_CMD" "";
  Optional "PING_CMD";
  Optional "PROFSTAT_CMD";
  Optional "PXE_CMD";
  Define "ROUTE_CMD" "";
  Define "SANBOOT_CMD" "";
  Define "SHELL_CMD" "";
  Define "SHIM_CMD" "";
  Define "SYNC_CMD" "";
  Optional "TIME_CMD";
  Define "USB_CMD" "";
  Define "VLAN_CMD" "";
  When (Not (Defined "REBOOT_NULL")) [Define "POWEROFF_CMD" ""; Define "REBOOT_CMD" ""];
  When (Not (Defined "FDT_NULL")) [Define "FDT_CMD" ""];
  When (Or (Defined "__i386__") (Defined "__x86_64__")) [Define "CPUID_CMD" ""];
  When (Defined "PLATFORM_pcbios") [
     Undef "CERT_CMD";
     Undef "CONSOLE_CMD";
     Undef "DIGEST_CMD";
     Undef "NTP_CMD";
     Undef "PARAM_CMD";
     Undef "PCI_CMD";
     Undef "USB_CMD";
     Undef "VLAN_CMD"]
].

(** Image types. *)
Definition image_types : list line := [
  Define "IMAGE_DER" "";
  Optional "IMAGE_GZIP";
  Define "IMAGE_PEM" "";
  Optional "IMAGE_PNM";
  Define "IMAGE_PNG" "";
  Define "IMAGE_SCRIPT" "";
  Optional "IMAGE_ZLIB";
  Optional "IMAGE_MIME";
  When (Defined "PLATFORM_pcbios") [
     Define "IMAGE_BZIMAGE" "";
     Optional "IMAGE_COMBOOT";
     Define "IMAGE_ELF" "";
     Define "IMAGE_MULTIBOOT" "";
     Optional "IMAGE_NBI";
     Define "IMAGE_PXE" "";
     Optional "IMAGE_SDI"];
  When (Defined "PLATFORM_efi") [Define "IMAGE_EFI" ""; Define "IMAGE_EFISIG" ""];
  When (Defined "PLATFORM_sbi") [Define "IMAGE_LKRN" ""];
  When (Or (Defined "__i386__") (Defined "__x86_64__")) [Optional "IMAGE_UCODE"];
  When (And (Defined "IMAGE_EFI") (Defined "__aarch64__")) [Define "IMAGE_GZIP" ""];
  When (And (Defined "IMAGE_LKRN") (Defined "__riscv")) [Define "IMAGE_GZIP" ""]
].

(** Banner timeouts. *)
Definition banner_timeouts : list line := [
  Define "BANNER_TIMEOUT" "20";
  Define "ROM_BANNER_TIMEOUT" "( 2 * BANNER_TIMEOUT )"
].

(** ROM-specific options. *)
Definition rom_options : list line := [
  Define "AUTOBOOT_ROM_FILTER" "";
  Optional "NONPNP_HOOK_INT19"
].

(** PXE support. *)
Definition pxe_support : list line := [
  When (Defined "PLATFORM_pcbios") [Define "PXE_MENU" ""; Define "PXE_STACK" ""]
].

(** Name resolution modules. *)
Definition name_resolution : list line := [
  Define "DNS_RESOLVER" ""
].

(** Certificate sources. *)
Definition certificate_sources : list line := [
  When (Defined "PLATFORM_efi") [Define "CERTS_EFI" ""]
].

(** Virtual network devices. *)
Definition virtual_devices : list line := [
  Define "VNIC_IPOIB" "";
  Optional "VNIC_XSIGO"
].

(** 802.1x EAP authentication methods. *)
Definition eap_methods : list line := [
  Define "EAP_METHOD_MD5" "";
  Optional "EAP_METHOD_MSCHAPV2"
].

(** 802.11 cryptosystems and handshaking protocols. *)
Definition crypto_80211 : list line := [
  Define "CRYPTO_80211_WEP" "";
  Define "CRYPTO_80211_WPA" "";
  Define "CRYPTO_80211_WPA2" ""
].

(** Very obscure configuration options. *)
Definition obscure_options : list line := [
  Optional "NULL_TRAP";
  Optional "GDBSERIAL";
  Optional "GDBUDP";
  Optional "EFI_DOWNGRADE_UX";
  Define "TIVOLI_VMM_WORKAROUND" "";
  Optional "ERRMSG_80211"
].

(** The file, with the headers it includes. *)
Definition general_h : list line :=
  [Header "config/defaults.h"] ++
  net_protocols ++
  download_protocols ++
  san_boot_protocols ++
  commands ++
  image_types ++
  banner_timeouts ++
  rom_options ++
  pxe_support ++
  name_resolution ++
  certificate_sources ++
  virtual_devices ++
  eap_methods ++
  crypto_80211 ++
  obscure_options ++
  [Header "config/named.h"; Header "NAMED_CONFIG(general.h)";
   Header "config/local/general.h"; Header "LOCAL_NAMED_CONFIG(general.h)"].

(** ** config/config.c *)

(** Console types. *)
Definition require_consoles : list line := [
  When (Defined "CONSOLE_SERIAL") [Require_object "serial"];
  When (Defined "CONSOLE_DIRECT_VGA") [Require_object "video_subr"];
  When (Defined "CONSOLE_PC_KBD") [Require_object "pc_kbd"];
  When (Defined "CONSOLE_SYSLOG") [Require_object "syslog"];
  When (Defined "CONSOLE_SYSLOGS") [Require_object "syslogs"];
  When (Defined "CONSOLE_EFI") [Require_object "efi_console"];
  When (Defined "CONSOLE_LINUX") [Require_object "linux_console"];
  When (Defined "CONSOLE_VMWARE") [Require_object "vmconsole"];
  When (Defined "CONSOLE_DEBUGCON") [Require_object "debugcon"];
  When (Defined "CONSOLE_SBI") [Require_object "sbi_console"];
  When (Defined "CONSOLE_DMESG") [Require_object "dmesg"]
].

(** Network protocols. *)
Definition require_net_protocols : list line := [
  When (Defined "NET_PROTO_IPV4") [Require_object "ipv4"];
  When (Defined "NET_PROTO_IPV6") [Require_object "ipv6"]
].

(** PXE support. *)
Definition require_pxe : list line := [
  When (Defined "PXE_MENU") [Require_object "pxemenu"];
  When (Defined "PXE_STACK") [Require_object "pxe_call"]
].

(** Download protocols. *)
Definition require_download_protocols : list line := [
  When (Defined "DOWNLOAD_PROTO_TFTP") [Require_object "tftp"];
  When (Defined "DOWNLOAD_PROTO_HTTP") [Require_object "http"];
  When (Defined "DOWNLOAD_PROTO_HTTPS") [Require_object "https"];
  When (Defined "DOWNLOAD_PROTO_FTP") [Require_object "ftp"];
  When (Defined "DOWNLOAD_PROTO_NFS") [Require_object "nfs_open"];
  When (Defined "DOWNLOAD_PROTO_SLAM") [Require_object "slam"];
  When (Defined "DOWNLOAD_PROTO_DATA") [Require_object "datauri"]
].

(** SAN boot protocols. *)
Definition require_san_boot_protocols : list line := [
  When (Defined "SANBOOT_PROTO_ISCSI") [Require_object "iscsi"];
  When (Defined "SANBOOT_PROTO_NVME_TCP") [Require_object "nvmetcp"];
  When (Defined "SANBOOT_PROTO_HTTP") [Require_object "httpblock"]
].

(** Resolvers. *)
Definition require_resolvers : list line := [
  When (Defined "DNS_RESOLVER") [Require_object "dns"]
].

(** Image formats. *)
Definition require_image_types : list line := [
  When (Defined "IMAGE_NBI") [Require_object "nbi"];
  When (Defined "IMAGE_ELF") [Require_object "elfboot"];
  When (Defined "IMAGE_MULTIBOOT") [Require_object "multiboot"];
  When (Defined "IMAGE_PXE") [Require_object "pxe_image"];
  When (Defined "IMAGE_SCRIPT") [Require_object "script"];
  When (Defined "IMAGE_BZIMAGE") [Require_object "bzimage"];
  When (Defined "IMAGE_ELTORITO") [Require_object "eltorito"];
  When (Defined "IMAGE_COMBOOT") [
     Require_object "comboot";
     Require_object "com32";
     Require_object "comboot_call";
     Require_object "com32_call";
     Require_object "com32_wrapper";
     Require_object "comboot_resolv"];
  When (Defined "IMAGE_EFI") [Require_object "efi_image"];
  When (Defined "IMAGE_SDI") [Require_object "sdi"];
  When (Defined "IMAGE_ZLIB") [Require_object "zlib"];
  When (Defined "IMAGE_GZIP") [Require_object "gzip"];
  When (Defined "IMAGE_UCODE") [Require_object "ucode"];
  When (Defined "IMAGE_MIME") [Require_object "mime"]
].

(** Commands. *)
Definition require_commands : list line := [
  When (Defined "AUTOBOOT_CMD") [Require_object "autoboot_cmd"];
  When (Defined "NVO_CMD") [Require_object "nvo_cmd"];
  When (Defined "CONFIG_CMD") [Require_object "config_cmd"];
  When (Defined "IFMGMT_CMD") [Require_object "ifmgmt_cmd"];
  When (Defined "ROUTE_CMD") [Require_object "route_cmd"];
  When (Defined "IMAGE_CMD") [Require_object "image_cmd"];
  When (Defined "IMAGE_TRUST_CMD") [Require_object "image_trust_cmd"];
  When (Defined "DEVICEKEY_CMD") [Require_object "devicekey_cmd"];
  When (Defined "DHCP_CMD") [Require_object "dhcp_cmd"];
  When (Defined "SANBOOT_CMD") [Require_object "sanboot_cmd"];
  When (Defined "MENU_CMD") [Require_object "dynui_cmd"];
  When (Defined "FORM_CMD") [Require_object "dynui_cmd"];
  When (Defined "LOGIN_CMD") [Require_object "login_cmd"];
  When (Defined "TIME_CMD") [Require_object "time_cmd"];
  When (Defined "DIGEST_CMD") [Require_object "digest_cmd"];
  When (Defined "PXE_CMD") [Require_object "pxe_cmd"];
  When (Defined "LOTEST_CMD") [Require_object "lotest_cmd"];
  When (Defined "VLAN_CMD") [Require_object "vlan_cmd"];
  When (Defined "POWEROFF_CMD") [Require_object "poweroff_cmd"];
  When (Defined "REBOOT_CMD") [Require_object "reboot_cmd"];
  When (Defined "CPUID_CMD") [Require_object "cpuid_cmd"];
  When (Defined "SYNC_CMD") [Require_object "sync_cmd"];
  When (Defined "SHELL_CMD") [Require_object "shell"];
  When (Defined "NSLOOKUP_CMD") [Require_object "nslookup_cmd"];
  When (Defined "PARAM_CMD") [Require_object "param_cmd"];
  When (Defined "NEIGHBOUR_CMD") [Require_object "neighbour_cmd"];
  When (Defined "PING_CMD") [Require_object "ping_cmd"];
  When (Defined "CONSOLE_CMD") [Require_object "console_cmd"];
  When (Defined "IPSTAT_CMD") [Require_object "ipstat_cmd"];
  When (Defined "PROFSTAT_CMD") [Require_object "profstat_cmd"];
  When (Defined "NTP_CMD") [Require_object "ntp_cmd"];
  When (Defined "CERT_CMD") [Require_object "cert_cmd"];
  When (Defined "IMAGE_MEM_CMD") [Require_object "image_mem_cmd"];
  When (Defined "SHIM_CMD") [Require_object "shim_cmd"];
  When (Defined "IMAGE_CRYPT_CMD") [Require_object "image_crypt_cmd"];
  When (Defined "FDT_CMD") [Require_object "fdt_cmd"];
  When (Defined "IMAGE_SET_CMD") [Require_object "image_set_cmd"]
].

(** Miscellaneous objects. *)
Definition require_miscellaneous : list line := [
  When (Defined "NULL_TRAP") [Require_object "nulltrap"];
  When (Defined "GDBSERIAL") [Require_object "gdbidt"; Require_object "gdbserial"; Require_object "gdbstub_cmd"];
  When (Defined "GDBUDP") [Require_object "gdbidt"; Require_object "gdbudp"; Require_object "gdbstub_cmd"]
].

(** Objects that are always required, and the Linux driver. *)
Definition require_always : list line := [
  Require_object "device";
  Require_object "embedded";
  When (Defined "DRIVERS_LINUX") [Require_object "tap"]
].

(** Sideband entry points. *)
Definition require_sideband : list line := [
  When (Defined "CONFIG_BOFM") [When (Defined "BOFM_EFI") [Require_object "efi_bofm"]]
].

(** Settings sources. *)
Definition require_settings : list line := [
  When (Defined "VMWARE_SETTINGS") [Require_object "guestinfo"];
  When (Defined "CPUID_SETTINGS") [Require_object "cpuid_settings"];
  When (Defined "MEMMAP_SETTINGS") [Require_object "memmap_settings"];
  When (Defined "VRAM_SETTINGS") [Require_object "vram_settings"];
  When (Defined "ACPI_SETTINGS") [Require_object "acpi_settings"];
  When (Defined "EFI_SETTINGS") [Require_object "efi_settings"]
].

(** The selected keyboard map. *)
Definition require_keymap : list line := [Require_keymap "KEYBOARD_MAP"].

Definition config_c : list line :=
  general_h ++
  [Header "config/console.h"; Header "config/sideband.h"; Header "config/settings.h"] ++
  require_consoles ++
  require_net_protocols ++
  require_pxe ++
  require_download_protocols ++
  require_san_boot_protocols ++
  require_resolvers ++
  require_image_types ++
  require_commands ++
  require_miscellaneous ++
  require_always ++
  require_sideband ++
  require_settings ++
  require_keymap.

(** ** config/config_efi.c *)

(** Console types, and the local filesystem. *)
Definition require_efi_consoles : list line := [
  When (Defined "CONSOLE_EFI") [Require_object "efi_console"];
  When (Defined "CONSOLE_EFIFB") [Require_object "efi_fbcon"];
  When (Defined "CONSOLE_FRAMEBUFFER") [Require_object "efi_fbcon"];
  When (Defined "CONSOLE_DISKLOG") [Require_object "efi_disklog"];
  When (Defined "DOWNLOAD_PROTO_FILE") [Require_object "efi_local"]
].

(** The EFI variable non-volatile storage backend. *)
Definition require_efi_nvs : list line := [
  Require_object "efi_nvs"
].

Definition config_efi_c : list line :=
  general_h ++ [Header "config/console.h"] ++ require_efi_consoles ++ require_efi_nvs.

(** ** The abstract run *)

(** For some macros, whether they are defined. *)
Abbreviation knowledge := (gmap string bool).

Definition sound (k : knowledge) (ms : macros) : Prop := forall m b, k !! m = Some b -> defined ms m = b.

(** Three-valued evaluation. *)
Fixpoint decided (k : knowledge) (c : condition) : option bool :=
  match c with
  | Defined m => k !! m
  | Not c => negb <$> decided k c
  | And c d =>
    match decided k c, decided k d with
    | Some false, _ | _, Some false => Some false
    | Some true, Some true => Some true
    | _, _ => None
    end
  | Or c d =>
    match decided k c, decided k d with
    | Some true, _ | _, Some true => Some true
    | Some false, Some false => Some false
    | _, _ => None
    end
  end.

Lemma decided_holds k ms c b : sound k ms -> decided k c = Some b -> holds ms c = b.
Proof.
  intros Hk. revert b. induction c as [m|c IH|c IHc d IHd|c IHc d IHd]; intros b; cbn; intros E.
  - by apply Hk.
  - destruct (decided k c) as [b'|]; [|done]. injection E as <-. by rewrite (IH b').
  - destruct (decided k c) as [[]|], (decided k d) as [[]|]; simplify_eq;
      rewrite ?(IHc _ eq_refl), ?(IHd _ eq_refl), ?andb_false_r; done.
  - destruct (decided k c) as [[]|], (decided k d) as [[]|]; simplify_eq;
      rewrite ?(IHc _ eq_refl), ?(IHd _ eq_refl), ?orb_true_r; done.
Qed.

(** What is known of a compilation: macros, objects that it requires, and objects that it may
    require besides the keyboard map. *)
Record estimate : Type := Estimate {
  e_known : knowledge;
  e_must : list string;
  e_may : list string;
}.

(** What two courses have in common. *)
Definition common (k1 k2 : knowledge) : knowledge :=
  filter (fun p => k2 !! p.1 = Some p.2) k1.

Section Estimate.
(** What an included header leaves known. *)
Context (effect : string -> knowledge -> knowledge).

Fixpoint estimates (e : estimate) (l : line) : estimate :=
  match l with
  | Define m _ => Estimate (<[m := true]> (e_known e)) (e_must e) (e_may e)
  | Undef m => Estimate (<[m := false]> (e_known e)) (e_must e) (e_may e)
  | Optional _ => e
  | When c body =>
    match decided (e_known e) c with
    | Some true => fold_left estimates body e
    | Some false => e
    | None => let e' := fold_left estimates body e in
      Estimate (common (e_known e') (e_known e)) (e_must e) (e_may e')
    end
  | Header h => Estimate (effect h (e_known e)) (e_must e) (e_may e)
  | Require_object o => Estimate (e_known e) (o :: e_must e) (o :: e_may e)
  | Require_keymap _ => e
  end.

Definition estimated (e : estimate) (u : compilation) : Prop :=
  sound (e_known e) (c_macros u) /\ e_must e ⊆ c_objects u /\
  forall o, o ∈ c_objects u -> o ∈ e_may e \/ exists map, o = "keymap_" +:+ map.

Context (header : string -> macros -> macros).
Context (Heffect : forall h k ms, sound k ms -> sound (effect h k) (header h ms)).

Lemma sound_insert k ms m b ms' : sound k ms -> defined ms' m = b ->
  (forall m', m' <> m -> ms' !! m' = ms !! m') -> sound (<[m := b]> k) ms'.
Proof.
  intros Hk Hm Ho m' b' E. destruct (decide (m' = m)) as [->|Hne].
  - rewrite lookup_insert_eq in E. congruence.
  - rewrite lookup_insert_ne in E by done. unfold defined. rewrite (Ho m' Hne). by apply Hk.
Qed.

Lemma sound_common k1 k2 ms : sound k1 ms \/ sound k2 ms -> sound (common k1 k2) ms.
Proof. intros H m b [E1 E2]%map_lookup_filter_Some. destruct H as [H|H]; by apply H. Qed.

(** Objects are only added. *)
Lemma preprocess_grows l u : c_objects u ⊆ c_objects (preprocess header u l).
Proof.
  revert l u. fix IH 1. intros l u. destruct l as [m t|m|m|c body|h|o|m]; cbn; try done; try set_solver.
  destruct (holds _ _); [|done].
  revert u. induction body as [|l body IHb]; intros u; [done|]. cbn. etransitivity; [apply IH|apply IHb].
Qed.

Lemma fold_grows ls u : c_objects u ⊆ c_objects (fold_left (preprocess header) ls u).
Proof. revert u. induction ls as [|l ls IH]; intros u; [done|]. cbn. etransitivity; [apply preprocess_grows|apply IH]. Qed.

Lemma may_grows l e : e_may e ⊆ e_may (estimates e l).
Proof.
  revert l e. fix IH 1. intros l e. destruct l as [m t|m|m|c body|h|o|m]; cbn; try done; try set_solver.
  assert (e_may e ⊆ e_may (fold_left estimates body e)) as Hbody; [|by destruct (decided _ _) as [[]|]].
  revert e. induction body as [|l body IHb]; intros e; [done|]. cbn. etransitivity; [apply IH|apply IHb].
Qed.

Lemma fold_may_grows ls e : e_may e ⊆ e_may (fold_left estimates ls e).
Proof. revert e. induction ls as [|l ls IH]; intros e; [done|]. cbn. etransitivity; [apply may_grows|apply IH]. Qed.

Lemma preprocess_estimated l e u : estimated e u -> estimated (estimates e l) (preprocess header u l).
Proof.
  revert l e u. fix IH 1. intros l e u He.
  destruct l as [m t|m|m|c body|h|o|m]; cbn.
  - destruct He as (Hk & Hmu & Hma). split; [|done]. cbn.
    apply (sound_insert _ _ _ _ _ Hk); [unfold defined; by rewrite lookup_insert_eq|].
    intros m' Hne. by rewrite lookup_insert_ne.
  - destruct He as (Hk & Hmu & Hma). split; [|done]. cbn.
    apply (sound_insert _ _ _ _ _ Hk); [unfold defined; by rewrite lookup_delete_eq|].
    intros m' Hne. by rewrite lookup_delete_ne.
  - done.
  - assert (estimated (fold_left estimates body e) (fold_left (preprocess header) body u)) as Hbody.
    { clear -IH He. revert e u He. induction body as [|l body IHb]; intros e u He; [done|]. cbn. apply IHb, IH, He. }
    destruct (decided (e_known e) c) as [b|] eqn:Ed.
    + rewrite (decided_holds _ _ _ _ (proj1 He) Ed). by destruct b.
    + destruct He as (Hk & Hmu & Hma), Hbody as (Hk' & Hmu' & Hma').
      destruct (holds (c_macros u) c); (split; [apply sound_common; tauto|]); cbn; split.
      * etransitivity; [exact Hmu|apply fold_grows].
      * exact Hma'.
      * exact Hmu.
      * intros o Ho. destruct (Hma o Ho) as [?|?]; [left; by apply fold_may_grows|by right].
  - destruct He as (Hk & Hmu & Hma). split; [|done]. by apply Heffect.
  - destruct He as (Hk & Hmu & Hma). split; [done|]. cbn. split; [set_solver|].
    intros o' [Ho| ->%list_elem_of_singleton]%elem_of_app; [|left; set_solver].
    destruct (Hma o' Ho) as [?|?]; [left; set_solver|by right].
  - destruct He as (Hk & Hmu & Hma). split; [done|]. cbn. split; [set_solver|].
    intros o' [Ho| ->%list_elem_of_singleton]%elem_of_app; [by apply Hma|right]. by eexists.
Qed.

Lemma fold_estimated ls e u : estimated e u ->
  estimated (fold_left estimates ls e) (fold_left (preprocess header) ls u).
Proof. revert e u. induction ls as [|l ls IH]; intros e u He; [done|]. cbn. by apply IH, preprocess_estimated. Qed.

(** What a file requires, whatever the macros of the command line. *)
Definition estimate_of (file : list line) : estimate := fold_left estimates file (Estimate ∅ [] []).

Lemma required_estimated file cmdline :
  e_must (estimate_of file) ⊆ required header file cmdline /\
  forall o, o ∈ required header file cmdline -> o ∈ e_may (estimate_of file) \/ exists map, o = "keymap_" +:+ map.
Proof.
  assert (estimated (Estimate ∅ [] []) (Compilation cmdline [])) as Hstart.
  { split; [intros m b E; cbn in E; by rewrite lookup_empty in E|]. split; [done|]. intros o Ho. by apply not_elem_of_nil in Ho. }
  by destruct (fold_estimated file _ _ Hstart) as (_ & Hmust & Hmay).
Qed.
End Estimate.

(** ** Builds *)

Fixpoint condition_macros (c : condition) : list string :=
  match c with
  | Defined m => [m]
  | Not c => condition_macros c
  | And c d | Or c d => condition_macros c ++ condition_macros d
  end.

(** The macros that a file names. *)
Fixpoint named (l : line) : list string :=
  match l with
  | Define m _ | Undef m | Optional m => [m]
  | When c body => condition_macros c ++ concat (map named body)
  | Header _ | Require_object _ | Require_keymap _ => []
  end.

Definition options : list string := concat (map named general_h).

Section Builds.
Context (header : string -> macros -> macros) (platform : knowledge).

(** The headers outside the repository do not touch the options of general.h, but for
    defaults.h, which settles what is known of the platform. *)
Definition defaults_only : Prop :=
  (forall ms, sound platform (header "config/defaults.h" ms)) /\
  forall h ms m, h <> "config/defaults.h" -> m ∈ options -> defined (header h ms) m = defined ms m.

Definition header_effect (h : string) (k : knowledge) : knowledge :=
  if bool_decide (h = "config/defaults.h") then platform else filter (fun p => p.1 ∈ options) k.

Lemma header_effect_sound h k ms : defaults_only -> sound k ms -> sound (header_effect h k) (header h ms).
Proof.
  intros [Hd Ho] Hk. unfold header_effect. case_bool_decide as Hh; [subst; apply Hd|].
  intros m b [E Hm]%map_lookup_filter_Some. cbn in Hm. rewrite (Ho h ms m Hh Hm). by apply Hk.
Qed.

(** A build with such headers requires the objects of a list, of some others only those of
    another list, and the keyboard map. *)
Definition builds (file : list line) (must may : list string) : bool :=
  let e := estimate_of header_effect file in
  bool_decide (must ⊆ e_must e) && bool_decide (e_may e ⊆ must ++ may).

Lemma builds_required file must may cmdline : defaults_only -> builds file must may = true ->
  must ⊆ required header file cmdline /\
  forall o, o ∈ required header file cmdline -> o ∈ must \/ o ∈ may \/ exists map, o = "keymap_" +:+ map.
Proof.
  intros Hd [Hmust Hmay]%andb_true_iff. apply bool_decide_eq_true in Hmust, Hmay.
  destruct (required_estimated header_effect header (fun h k ms => header_effect_sound h k ms Hd) file cmdline) as [H1 H2].
  split; [by etransitivity|]. intros o Ho. destruct (H2 o Ho) as [Hin|?]; [|by right; right].
  apply Hmay, elem_of_app in Hin. tauto.
Qed.
End Builds.

(** A platform on which, of the macros that general.h names, exactly some are defined before
    its options, and some are left open. *)
Definition platform (given open : list string) : knowledge :=
  list_to_map (map (fun m => (m, bool_decide (m ∈ given))) (filter (fun m => m ∉ open) options)).

Definition x86_64_efi : knowledge := platform ["PLATFORM_efi"; "__x86_64__"] ["FDT_NULL"].
Definition x86_64_pcbios : knowledge := platform ["PLATFORM_pcbios"; "__x86_64__"] ["FDT_NULL"].

(** What both platforms link. *)
Definition common_objects : list string := [
  "ipv4"; "tftp"; "http"; "datauri"; "iscsi"; "nvmetcp"; "httpblock"; "dns"; "script"; "autoboot_cmd"; "nvo_cmd";
  "config_cmd"; "ifmgmt_cmd"; "route_cmd"; "image_cmd"; "devicekey_cmd"; "dhcp_cmd"; "sanboot_cmd"; "dynui_cmd";
  "login_cmd"; "poweroff_cmd"; "reboot_cmd"; "cpuid_cmd"; "sync_cmd"; "shell"; "shim_cmd"; "image_set_cmd";
  "device"; "embedded"].
Definition efi_only : list string := [
  "ipv6"; "https"; "efi_image"; "digest_cmd"; "vlan_cmd"; "param_cmd"; "console_cmd"; "ntp_cmd"; "cert_cmd"].
Definition bios_only : list string := [
  "pxemenu"; "pxe_call"; "elfboot"; "multiboot"; "pxe_image"; "bzimage"].

(** What depends on options of other headers: consoles, sideband, settings and the device tree. *)
Definition elsewhere : list string := [
  "serial"; "video_subr"; "pc_kbd"; "syslog"; "syslogs"; "efi_console"; "linux_console"; "vmconsole"; "debugcon";
  "sbi_console"; "dmesg"; "eltorito"; "fdt_cmd"; "tap"; "efi_bofm"; "guestinfo"; "cpuid_settings"; "memmap_settings";
  "vram_settings"; "acpi_settings"; "efi_settings"].

Lemma efi_run : builds x86_64_efi config_c (common_objects ++ efi_only) elsewhere = true /\
  builds x86_64_efi config_efi_c ["efi_local"; "efi_nvs"] ["efi_console"; "efi_fbcon"; "efi_disklog"] = true.
Proof. by vm_compute. Qed.
Lemma bios_run : builds x86_64_pcbios config_c (common_objects ++ bios_only) elsewhere = true.
Proof. by vm_compute. Qed.

(** The firmware is built for EFI on x86-64.  Whatever the headers outside the repository
    define for consoles and settings, as long as they leave the options of general.h alone,
    such a build links NVMe over TCP, the device identity commands, the storage of
    non-volatile options in EFI variables and HTTPS, and the other objects of the lists;
    and nothing of config.c besides, but for consoles, settings and the keyboard map. *)
Theorem efi_build header cmdline : defaults_only header x86_64_efi ->
  common_objects ++ efi_only ⊆ required header config_c cmdline /\
  ["efi_local"; "efi_nvs"] ⊆ required header config_efi_c cmdline /\
  forall o, o ∈ required header config_c cmdline ->
    o ∈ common_objects ++ efi_only \/ o ∈ elsewhere \/ exists map, o = "keymap_" +:+ map.
Proof.
  intros Hd. destruct (builds_required header _ _ _ _ cmdline Hd (proj1 efi_run)) as [Hc Ho].
  by destruct (builds_required header _ _ _ _ cmdline Hd (proj2 efi_run)) as [He _].
Qed.

(** A BIOS build has the same, without what was "not historically included": no HTTPS and no
    IPv6, but NVMe over TCP and the device identity. *)
Theorem pcbios_build header cmdline : defaults_only header x86_64_pcbios ->
  common_objects ++ bios_only ⊆ required header config_c cmdline /\
  forall o, o ∈ efi_only -> o ∉ required header config_c cmdline.
Proof.
  intros Hd. destruct (builds_required header _ _ _ _ cmdline Hd bios_run) as [Hc Ho]. split; [done|].
  intros o Hin Hreq. apply Ho in Hreq.
  assert (Forall (fun o => ((o ∉ common_objects ++ bios_only) /\ (o ∉ elsewhere)) /\ String.prefix "keymap_" o = false) efi_only) as Hno.
  { apply (bool_decide_eq_true_1 _). by vm_compute. }
  rewrite Forall_forall in Hno. destruct (Hno o Hin) as [[H1 H2] H3].
  destruct Hreq as [?|[?|[map ->]]]; [done|done|]. by destruct map.
Qed.

(** ** An instance: headers that define the platform and nothing else *)
Definition plain_headers (given : list string) (h : string) (ms : macros) : macros :=
  if bool_decide (h = "config/defaults.h") then list_to_map (map (fun m => (m, "")) given) else ms.

Definition settles (given : list string) (k : knowledge) : bool :=
  forallb (fun p => Bool.eqb (defined (list_to_map (map (fun m => (m, "")) given)) p.1) p.2) (map_to_list k).

Lemma plain_defaults_only given k : settles given k = true -> defaults_only (plain_headers given) k.
Proof.
  intros Hs. split; [|intros h ms m Hh _; unfold plain_headers; by rewrite bool_decide_eq_false_2].
  intros ms m b E. unfold plain_headers. rewrite bool_decide_eq_true_2 by done.
  apply elem_of_map_to_list in E. unfold settles in Hs. rewrite forallb_forall in Hs.
  apply list_elem_of_In, Hs, eqb_prop in E. exact E.
Qed.

Lemma efi_build_witness : exists header,
  defaults_only header x86_64_efi /\ "nvmetcp" ∈ required header config_c ∅ /\ "efi_nvs" ∈ required header config_efi_c ∅.
Proof.
  exists (plain_headers ["PLATFORM_efi"; "__x86_64__"]).
  assert (defaults_only (plain_headers ["PLATFORM_efi"; "__x86_64__"]) x86_64_efi) as Hd by (apply plain_defaults_only; by vm_compute).
  split; [exact Hd|]. destruct (efi_build _ ∅ Hd) as (Hc & He & _). split; [apply Hc|apply He]; apply (bool_decide_eq_true_1 _); by vm_compute.
Defined.

Lemma pcbios_build_witness : exists header, defaults_only header x86_64_pcbios /\ "https" ∉ required header config_c ∅.
Proof.
  exists (plain_headers ["PLATFORM_pcbios"; "__x86_64__"]).
  assert (defaults_only (plain_headers ["PLATFORM_pcbios"; "__x86_64__"]) x86_64_pcbios) as Hd by (apply plain_defaults_only; by vm_compute).
  split; [exact Hd|]. destruct (pcbios_build _ ∅ Hd) as [_ Hn]. apply Hn. apply (bool_decide_eq_true_1 _); by vm_compute.
Defined.
