(* ===== verification/NvmeWire.v ===== *)
(** * NVMe/TCP wire formats (include/ipxe/nvmetcp.h)

    The constants, the packed structures and the enumerations of the driver's
    header, and the one function it defines, [nvmetcp_identify_ns].  Each
    structure is a [layout]; the union [nvme_command] is a 64-byte buffer viewed
    through the layouts of its members, as in the source. *)

From stdpp Require Import base list strings.
From Stdlib Require Import ZArith Lia.
From S2P Require Import Prelude Layout.

(** ** Constants (nvmetcp.h) *)
Definition NVMETCP_DEFAULT_PORT : Z := 4420.

Definition NVMF_OPCODE : Z := 0x7f.
Definition NVMF_FCTYPE_PROPERTY_SET : Z := 0x00.
Definition NVMF_FCTYPE_CONNECT : Z := 0x01.
Definition NVMF_FCTYPE_AUTH_SEND : Z := 0x05.
Definition NVMF_FCTYPE_AUTH_RECEIVE : Z := 0x06.
Definition NVME_OPCODE_WRITE : Z := 0x01.
Definition NVME_OPCODE_READ : Z := 0x02.
Definition NVME_OPCODE_IDENTIFY : Z := 0x06.
Definition NVME_IDENTIFY_NS : Z := 0x00.
Definition NVME_IDENTIFY_CTRL : Z := 0x01.
Definition NVME_IDENTIFY_DATA_SIZE : nat := 4096.
Definition NVMF_NQN_FIELD_LEN : nat := 256.
Definition NVMF_CONNECT_AUTHREQ_ATR : Z := Z.shiftl 1 17.
Definition NVME_SC_AUTH_REQUIRED : Z := 0x0c.

Definition NVMETCP_PDU_ICREQ : Z := 0x00.
Definition NVMETCP_PDU_ICRESP : Z := 0x01.
Definition NVMETCP_PDU_H2CTERM : Z := 0x02.
Definition NVMETCP_PDU_C2HTERM : Z := 0x03.
Definition NVMETCP_PDU_COMMAND : Z := 0x04.
Definition NVMETCP_PDU_RESPONSE : Z := 0x05.
Definition NVMETCP_PDU_H2CDATA : Z := 0x06.
Definition NVMETCP_PDU_C2HDATA : Z := 0x07.
Definition NVMETCP_PDU_R2T : Z := 0x09.
Definition NVMETCP_PFV : Z := 0x0000.
Definition NVMETCP_DIGEST_HDR : Z := Z.shiftl 1 0.
Definition NVMETCP_DIGEST_DATA : Z := Z.shiftl 1 1.
Definition NVME_SGL_FMT_DATA_DESC : Z := 0x00.
Definition NVME_TRANSPORT_SGL_DATA_DESC : Z := 0x05.
Definition NVME_SGL_FMT_OFFSET : Z := 0x01.
Definition NVME_SGL_FMT_TRANSPORT_A : Z := 0x02.
Definition NVME_CMD_SGL_METABUF : Z := Z.shiftl 1 6.
Definition NVME_REG_CC : Z := 0x14.
Definition NVME_CC_ENABLE : Z := Z.shiftl 1 0.
Definition NVME_CC_IOSQES_SHIFT : Z := 16.
Definition NVME_CC_IOCQES_SHIFT : Z := 20.
Definition NVME_NVM_IOSQES : Z := 6.
Definition NVME_NVM_IOCQES : Z := 4.

Definition NVME_AUTH_COMMON_MESSAGES : Z := 0x00.
Definition NVME_AUTH_DHCHAP_MESSAGES : Z := 0x01.
Definition NVME_AUTH_DHCHAP_MESSAGE_NEGOTIATE : Z := 0x00.
Definition NVME_AUTH_DHCHAP_MESSAGE_CHALLENGE : Z := 0x01.
Definition NVME_AUTH_DHCHAP_MESSAGE_REPLY : Z := 0x02.
Definition NVME_AUTH_DHCHAP_MESSAGE_SUCCESS1 : Z := 0x03.
Definition NVME_AUTH_DHCHAP_MESSAGE_FAILURE1 : Z := 0xf1.
Definition NVME_AUTH_DHCHAP_AUTH_ID : Z := 0x01.
Definition NVME_AUTH_HASH_SHA256 : Z := 0x01.
Definition NVME_AUTH_HASH_SHA384 : Z := 0x02.
Definition NVME_AUTH_HASH_SHA512 : Z := 0x03.
Definition NVME_AUTH_DHGROUP_NULL : Z := 0x00.
Definition NVME_AUTH_DHGROUP_2048 : Z := 0x01.
Definition NVME_AUTH_DHGROUP_3072 : Z := 0x02.
Definition NVME_AUTH_DHGROUP_4096 : Z := 0x03.
Definition NVME_AUTH_SECP_NOSC : Z := 0x00.
Definition NVME_AUTH_DHCHAP_PROTOCOL_IDENTIFIER : Z := 0xe9.
Definition NVME_AUTH_DHCHAP_MAX_DH_IDS : nat := 30.
Definition NVME_AUTH_MAX_DIGEST_SIZE : nat := 64.
Definition NVME_AUTH_MAX_DH_SIZE : nat := 512.
Definition NVMETCP_MAX_CMD_DATA : nat := 4096.

(** ** PDU structures *)
Definition nvmetcp_pdu_header : layout :=
  [("type", 1); ("flags", 1); ("hlen", 1); ("pdo", 1); ("plen", 4)]%nat.

Definition nvmetcp_icreq : layout :=
  (nest "hdr" nvmetcp_pdu_header ++
   [("pfv", 2); ("hpda", 1); ("digest", 1); ("maxr2t", 4); ("rsvd", 112)])%nat.

Definition nvmetcp_icresp : layout :=
  (nest "hdr" nvmetcp_pdu_header ++
   [("pfv", 2); ("cpda", 1); ("digest", 1); ("maxdata", 4); ("rsvd", 112)])%nat.

Definition nvme_sgl_desc : layout :=
  [("addr", 8); ("length", 4); ("rsvd", 3); ("type", 1)]%nat.

Definition nvme_common_command : layout :=
  ([("opcode", 1); ("flags", 1); ("command_id", 2); ("nsid", 4); ("cdw2", 8);
    ("metadata", 8)] ++ nest "dptr.sgl" nvme_sgl_desc ++
   [("cdw10", 4); ("cdw11", 4); ("cdw12", 4); ("cdw13", 4); ("cdw14", 4);
    ("cdw15", 4)])%nat.

Definition nvme_identify : layout :=
  ([("opcode", 1); ("flags", 1); ("command_id", 2); ("nsid", 4); ("rsvd2", 16)] ++
   nest "dptr.sgl" nvme_sgl_desc ++
   [("cns", 1); ("rsvd3", 1); ("ctrlid", 2); ("cnssid", 2); ("rsvd11", 1);
    ("csi", 1); ("rsvd12", 16)])%nat.

Definition nvme_rw_command : layout :=
  ([("opcode", 1); ("flags", 1); ("command_id", 2); ("nsid", 4); ("cdw2", 4);
    ("cdw3", 4); ("metadata", 8)] ++ nest "dptr.sgl" nvme_sgl_desc ++
   [("slba", 8); ("length", 2); ("control", 2); ("dsmgmt", 4); ("reftag", 4);
    ("lbat", 2); ("lbatm", 2)])%nat.

Definition nvme_completion : layout :=
  [("result", 8); ("sq_head", 2); ("sq_id", 2); ("command_id", 2); ("status", 2)]%nat.

Definition nvmf_connect_command : layout :=
  ([("opcode", 1); ("resv1", 1); ("command_id", 2); ("fctype", 1); ("resv2", 19)] ++
   nest "dptr.sgl" nvme_sgl_desc ++
   [("recfmt", 2); ("qid", 2); ("sqsize", 2); ("cattr", 1); ("resv3", 1);
    ("kato", 4); ("resv4", 12)])%nat.

Definition nvmf_property_set_command : layout :=
  [("opcode", 1); ("resv1", 1); ("command_id", 2); ("fctype", 1); ("resv2", 35);
   ("attrib", 1); ("resv3", 3); ("offset", 4); ("value", 8); ("resv4", 8)]%nat.

Definition nvmf_auth_common_command : layout :=
  ([("opcode", 1); ("resv1", 1); ("command_id", 2); ("fctype", 1); ("resv2", 19)] ++
   nest "dptr.sgl" nvme_sgl_desc ++
   [("resv3", 1); ("spsp0", 1); ("spsp1", 1); ("secp", 1); ("al_tl", 4);
    ("resv4", 16)])%nat.

(** Size of the union [nvme_command]. *)
Definition nvme_command_size : nat := 64.

Definition nvmetcp_cmd_pdu : layout :=
  (nest "hdr" nvmetcp_pdu_header ++ nest "cmd.common" nvme_common_command)%nat.

Definition nvmetcp_rsp_pdu : layout :=
  (nest "hdr" nvmetcp_pdu_header ++ nest "cqe" nvme_completion)%nat.

Definition nvmetcp_data_pdu : layout :=
  (nest "hdr" nvmetcp_pdu_header ++
   [("command_id", 2); ("ttag", 2); ("data_offset", 4); ("data_length", 4);
    ("rsvd", 4)])%nat.

Definition nvmetcp_r2t_pdu : layout :=
  (nest "hdr" nvmetcp_pdu_header ++
   [("command_id", 2); ("ttag", 2); ("r2t_offset", 4); ("r2t_length", 4);
    ("rsvd", 4)])%nat.

Definition nvmf_connect_data : layout :=
  [("hostid", 16); ("cntlid", 2); ("resv4", 238); ("subsysnqn", NVMF_NQN_FIELD_LEN);
   ("hostnqn", NVMF_NQN_FIELD_LEN); ("resv5", 256)]%nat.

(** ** DH-HMAC-CHAP messages (the fixed parts; the values follow) *)
Definition nvmf_auth_dhchap_protocol_descriptor : layout :=
  [("authid", 1); ("rsvd", 1); ("halen", 1); ("dhlen", 1); ("idlist", 60)]%nat.

Definition nvmf_auth_dhchap_negotiate_data : layout :=
  [("auth_type", 1); ("auth_id", 1); ("rsvd", 2); ("t_id", 2); ("sc_c", 1);
   ("napd", 1)]%nat.

Definition nvmf_auth_dhchap_challenge_data : layout :=
  [("auth_type", 1); ("auth_id", 1); ("rsvd1", 2); ("t_id", 2); ("hl", 1);
   ("rsvd2", 1); ("hashid", 1); ("dhgid", 1); ("dhvlen", 2); ("seqnum", 4)]%nat.

Definition nvmf_auth_dhchap_reply_data : layout :=
  [("auth_type", 1); ("auth_id", 1); ("rsvd1", 2); ("t_id", 2); ("hl", 1);
   ("rsvd2", 1); ("cvalid", 1); ("rsvd3", 1); ("dhvlen", 2); ("seqnum", 4)]%nat.

Definition nvmf_auth_dhchap_success1_data : layout :=
  [("auth_type", 1); ("auth_id", 1); ("rsvd1", 2); ("t_id", 2); ("hl", 1);
   ("rsvd2", 1); ("rvalid", 1); ("rsvd3", 7)]%nat.

Definition nvmf_auth_dhchap_failure_data : layout :=
  [("auth_type", 1); ("auth_id", 1); ("rsvd1", 2); ("t_id", 2); ("rescode", 1);
   ("rescode_exp", 1)]%nat.

(** ** Enumerations *)
Inductive nvmetcp_auth_steps : Type :=
  | NVMETCP_AUTH_STEP_START
  | NVMETCP_AUTH_STEP_COMPLETE_NEGOTIATE
  | NVMETCP_AUTH_STEP_CHALLENGE
  | NVMETCP_AUTH_STEP_COMPLETE_REPLY
  | NVMETCP_AUTH_STEP_SUCCESS1.

#[export] Instance nvmetcp_auth_steps_eq_dec : EqDecision nvmetcp_auth_steps.
Proof. solve_decision. Defined.

Inductive nvmetcp_phase : Type :=
  | NVMETCP_PHASE_ICREQ
  | NVMETCP_PHASE_CONNECT_ADMIN
  | NVMETCP_PHASE_AUTH
  | NVMETCP_PHASE_PROP_SET
  | NVMETCP_PHASE_IDENTIFY_CTRL
  | NVMETCP_PHASE_IDENTIFY_NS
  | NVMETCP_PHASE_ICREQ_IO
  | NVMETCP_PHASE_CONNECT_IO
  | NVMETCP_PHASE_READY
  | NVMETCP_PHASE_FAILED.

#[export] Instance nvmetcp_phase_eq_dec : EqDecision nvmetcp_phase.
Proof. solve_decision. Defined.

(** ** Identify Namespace data *)
Record block_device_capacity : Type := Capacity {
  blocks : Z;
  blksize : Z;
  max_count : Z;
}.

#[export] Instance eta_capacity : Eta block_device_capacity :=
  fun c => Capacity (blocks c) (blksize c) (max_count c).

(** [nvmetcp_identify_ns]: parse the Identify Namespace data in [data]. *)
Definition nvmetcp_identify_ns (data : list Z) (capacity : block_device_capacity)
  : status * block_device_capacity :=
  let nsze := le_val (sub 0 8 data) in
  let flbas := byte_at data 26 in
  let fmt := Z.land flbas 0x0f in
  let lbads := byte_at data (Z.to_nat (128 + fmt * 4 + 2)) in
  if (fmt >=? 16) || (lbads =? 0) || (lbads >? 31) then (Err EPROTO, capacity)
  else
    let bs := u32 (Z.shiftl 1 lbads) in
    (OK, Capacity nsze bs (Z.of_nat NVMETCP_MAX_CMD_DATA / bs)).

(** ** Structure sizes *)

(** Every structure has the size its comment or the transport specification
    gives; the command views of the union are all 64 bytes and agree on the
    members that the code reads through another view. *)
Lemma wire_sizes :
  sizeof nvmetcp_pdu_header = 8%nat /\ sizeof nvmetcp_icreq = 128%nat /\
  sizeof nvmetcp_icresp = 128%nat /\ sizeof nvme_common_command = nvme_command_size /\
  sizeof nvme_identify = nvme_command_size /\ sizeof nvme_rw_command = nvme_command_size /\
  sizeof nvmf_connect_command = nvme_command_size /\
  sizeof nvmf_property_set_command = nvme_command_size /\
  sizeof nvmf_auth_common_command = nvme_command_size /\
  sizeof nvme_completion = 16%nat /\ sizeof nvmetcp_cmd_pdu = 72%nat /\
  sizeof nvmetcp_rsp_pdu = 24%nat /\ sizeof nvmetcp_data_pdu = 24%nat /\
  sizeof nvmetcp_r2t_pdu = 24%nat /\ sizeof nvmf_connect_data = 1024%nat.
Proof. by vm_compute. Qed.

(** ** Properties of [nvmetcp_identify_ns] *)

Lemma shiftl_1 n : 0 <= n -> Z.shiftl 1 n = 2 ^ n.
Proof. intros. rewrite Z.shiftl_mul_pow2 by lia. lia. Qed.

Lemma land_15_range z : 0 <= Z.land z 15 < 16.
Proof. change 15 with (Z.ones 4). rewrite Z.land_ones by lia. apply Z.mod_pos_bound. lia. Qed.

Lemma blksize_pow2 d : 1 <= d <= 31 -> u32 (Z.shiftl 1 d) = 2 ^ d.
Proof.
  intros. rewrite shiftl_1 by lia. apply Z.mod_small. split; [lia|].
  apply Z.pow_lt_mono_r; lia.
Qed.

(** Functional behaviour of the parser on every branch: it refuses the data and
    leaves the capacity alone, or it returns the namespace size, a power-of-two
    block size of 2 to 2^31 bytes, and the largest block count whose transfer
    fits the driver's 4096-byte command buffer. *)
Lemma identify_ns_cases data c rc c' :
  bytes_ok data -> nvmetcp_identify_ns data c = (rc, c') ->
  (rc = Err EPROTO /\ c' = c) \/
  (rc = OK /\ exists d, 1 <= d <= 31 /\ blksize c' = 2 ^ d /\
     blocks c' = le_val (sub 0 8 data) /\
     d = byte_at data (Z.to_nat (130 + 4 * Z.land (byte_at data 26) 15)) /\
     max_count c' * blksize c' <= Z.of_nat NVMETCP_MAX_CMD_DATA
       < (max_count c' + 1) * blksize c').
Proof.
  intros Hb. unfold nvmetcp_identify_ns. set (fmt := Z.land _ _).
  replace (128 + fmt * 4 + 2) with (130 + 4 * fmt) by lia.
  pose proof (byte_at_ok data (Z.to_nat (130 + 4 * fmt)) Hb) as Hd.
  set (d := byte_at data (Z.to_nat (130 + 4 * fmt))) in *. unfold is_byte in Hd.
  destruct ((fmt >=? 16) || (d =? 0) || (d >? 31)) eqn:Hg; intros; simplify_eq; [by left|].
  right. split; [done|]. exists d. assert (1 <= d <= 31) as Hr by lia.
  cbn [blksize blocks max_count]. rewrite blksize_pow2 by lia.
  assert (0 < 2 ^ d) by (apply Z.pow_pos_nonneg; lia). repeat split; try lia.
  - rewrite Z.mul_comm. apply Z.mul_div_le. lia.
  - rewrite Z.add_1_r, Z.mul_comm. apply Z.mul_succ_div_gt. lia.
Qed.
