(* ===== verification/Crypto.v ===== *)
(** * Interfaces of the cryptographic library

    The digests, HMAC and key exchanges used by nvmetcp_auth.c, tls.c and
    devicekey_cmd.c belong to the cryptographic library, which is not part of the
    repository.  They are the operations of type classes; what the library
    documents of them, and the clients rely on, is a separate class of laws.  A
    small executable instance shows that the laws can hold. *)

From stdpp Require Import base list.
From Stdlib Require Import ZArith Lia.
From S2P Require Import Prelude.

(** ** Digests and HMAC (struct digest_algorithm, hmac_init/update/final) *)
Inductive digest_algorithm : Type := sha256_algorithm | sha384_algorithm | sha512_algorithm.

#[export] Instance digest_algorithm_eq_dec : EqDecision digest_algorithm.
Proof. solve_decision. Defined.

(** [digest->digestsize] *)
Definition digestsize (d : digest_algorithm) : nat :=
  match d with
  | sha256_algorithm => 32
  | sha384_algorithm => 48
  | sha512_algorithm => 64
  end.

Class DigestOps := {
  digest_ctx : Type;
  digest_init : digest_algorithm -> digest_ctx;
  digest_update : digest_algorithm -> digest_ctx -> list Z -> digest_ctx;
  digest_final : digest_algorithm -> digest_ctx -> list Z;
  hmac_ctx : Type;
  hmac_init : digest_algorithm -> list Z -> hmac_ctx;
  hmac_update : digest_algorithm -> hmac_ctx -> list Z -> hmac_ctx;
  hmac_final : digest_algorithm -> hmac_ctx -> list Z;
}.

(** One-shot digest and HMAC of a byte string. *)
Definition H `{DigestOps} (d : digest_algorithm) (m : list Z) : list Z :=
  digest_final d (digest_update d (digest_init d) m).
Definition HMAC `{DigestOps} (d : digest_algorithm) (k m : list Z) : list Z :=
  hmac_final d (hmac_update d (hmac_init d k) m).

(** The documented behaviour: feeding data in pieces is feeding it at once, and
    an output has the size of the digest. *)
Class DigestLaws `{DigestOps} : Prop := {
  digest_update_app d c a b :
    digest_update d (digest_update d c a) b = digest_update d c (a ++ b);
  hmac_update_app d c a b :
    hmac_update d (hmac_update d c a) b = hmac_update d c (a ++ b);
  digest_final_length d c : length (digest_final d c) = digestsize d;
  hmac_final_length d c : length (hmac_final d c) = digestsize d;
  digest_final_ok d c : bytes_ok (digest_final d c);
  hmac_final_ok d c : bytes_ok (hmac_final d c);
}.

#[export] Hint Rewrite @digest_final_length @hmac_final_length : fw_len.

(** ** Key exchange algorithms (struct exchange_algorithm) *)
Inductive exchange_algorithm : Type :=
  | ffdhe2048_algorithm | ffdhe3072_algorithm | ffdhe4096_algorithm | x25519_algorithm.

#[export] Instance exchange_algorithm_eq_dec : EqDecision exchange_algorithm.
Proof. solve_decision. Defined.

Definition pubsize (x : exchange_algorithm) : nat :=
  match x with
  | ffdhe2048_algorithm => 256
  | ffdhe3072_algorithm => 384
  | ffdhe4096_algorithm => 512
  | x25519_algorithm => 32
  end.
Definition sharedsize (x : exchange_algorithm) : nat := pubsize x.

Class ExchangeOps := {
  privsize : exchange_algorithm -> nat;
  (** public key of a private key *)
  exchange_share : exchange_algorithm -> list Z -> status * list Z;
  (** shared secret of a private key and a partner's public key *)
  exchange_agree : exchange_algorithm -> list Z -> list Z -> status * list Z;
}.

(** Keys have the sizes the algorithm declares. *)
Class ExchangeLaws `{ExchangeOps} : Prop := {
  privsize_le x : (privsize x <= pubsize x)%nat;
  exchange_share_length x k : length (exchange_share x k).2 = pubsize x;
  exchange_agree_length x k p : length (exchange_agree x k p).2 = sharedsize x;
  exchange_share_ok x k : bytes_ok (exchange_share x k).2;
  exchange_agree_ok x k p : bytes_ok (exchange_agree x k p).2;
}.

(** ** A toy instance

    The "digest" is the padded prefix of the message; it satisfies the laws and
    evaluates, which is all the concrete executions below need. *)
Module Toy.
Definition pad (n : nat) (m : list Z) : list Z :=
  take n (map u8 m ++ zeros n).

Lemma pad_length n m : length (pad n m) = n.
Proof. unfold pad. rewrite length_take, length_app. unfold zeros. rewrite length_replicate. lia. Qed.

Lemma pad_ok n m : bytes_ok (pad n m).
Proof.
  unfold pad. apply Forall_take, Forall_app. split; [|apply zeros_ok].
  apply Forall_map, Forall_true. intros. apply u8_byte.
Qed.

#[export] Instance digest : DigestOps := {
  digest_ctx := list Z;
  digest_init _ := [];
  digest_update _ c m := c ++ m;
  digest_final d c := pad (digestsize d) c;
  hmac_ctx := list Z;
  hmac_init d k := k;
  hmac_update _ c m := c ++ m;
  hmac_final d c := pad (digestsize d) c;
}.

#[export] Instance digest_laws : DigestLaws.
Proof.
  split; intros; simpl; rewrite <-?app_assoc; auto using pad_length, pad_ok.
Qed.

#[export] Instance exchange : ExchangeOps := {
  privsize := pubsize;
  exchange_share x k := (OK, pad (pubsize x) k);
  exchange_agree x k p := (OK, pad (sharedsize x) (zip_with Z.add k p));
}.

#[export] Instance exchange_laws : ExchangeLaws.
Proof. split; intros; simpl; auto using pad_length, pad_ok. Qed.
End Toy.
