(* ===== verification/NvmeState.v ===== *)
(** * The NVMe/TCP session object (include/ipxe/nvmetcp.h, net/tcp/nvmetcp.c)

    [session] is [struct nvmetcp_session] with the receive and authentication
    contexts it embeds.  Its last four members stand for objects of the iPXE
    core that the driver only calls: whether the process is on the run queue,
    whether the interfaces have been shut down, what was said on the interfaces
    so far, and how many times the environment was consulted.  [env] answers
    those consultations: every theorem quantifies over it. *)

From stdpp Require Import base list strings.
From Stdlib Require Import ZArith Lia.
From S2P Require Import Prelude Layout NvmeWire Crypto.

(** The two sockets of a session: the admin queue and the I/O queue. *)
Inductive queue : Type := Admin | Io.

#[export] Instance queue_eq_dec : EqDecision queue.
Proof. solve_decision. Defined.

(** A C string, without its terminating NUL. *)
Abbreviation cstr := (list Z).

(** ** PDU receive state (struct nvmetcp_rx) *)
Record nvmetcp_rx : Type := Rx {
  hdr : list Z;
  hdr_len : nat;
  hdr_expect : nat;
  data_expect : nat;
  data_len : nat;
}.

#[export] Instance eta_rx : Eta nvmetcp_rx :=
  fun r => Rx (hdr r) (hdr_len r) (hdr_expect r) (data_expect r) (data_len r).

(** ** Authentication context (struct nvmetcp_auth) *)
Record nvmetcp_auth : Type := Auth {
  step : nvmetcp_auth_steps;
  completed : bool;
  rx_complete : bool;
  rx_cid : Z;
  transaction : Z;
  seqnum : Z;
  hash_id : Z;
  dhgid : Z;
  hl : nat;
  dhvlen : nat;
  cval : list Z;
  session_key : list Z;
  priv_key : list Z;
  pub_key : list Z;
}.

#[export] Instance eta_auth : Eta nvmetcp_auth :=
  fun a => Auth (step a) (completed a) (rx_complete a) (rx_cid a) (transaction a) (seqnum a)
             (hash_id a) (dhgid a) (hl a) (dhvlen a) (cval a) (session_key a) (priv_key a)
             (pub_key a).

(** ** What the driver says on its interfaces *)
Inductive event : Type :=
  | Sent (q : queue) (data : list Z)            (* xfer_deliver_iob *)
  | Opened (q : queue)                          (* xfer_open_named_socket *)
  | OpenedTls (q : queue) (psk identity : list Z) (* add_tls13_psk *)
  | Plugged (d : nat)                           (* intf_plug_plug ( &data, d ) *)
  | Restarted (rc : status)                     (* intf_restart ( &data, rc ) *)
  | Reported (c : block_device_capacity)        (* block_capacity ( &data, c ) *)
  | Shutdown (rc : status).                     (* intfs_shutdown *)

(** ** The session (struct nvmetcp_session)

    [block_buffer] has the contents of the buffer that the caller of a block command lent
    to the driver.  The caller has it back as soon as it has been told of the end of the
    command, which is when [block_data] is cleared ([lent]); the pointer stays in the
    session, but the memory behind it may then be gone. *)
Record session : Type := Session {
  phase : nvmetcp_phase;
  cid : Z;
  cntlid : Z;
  target_host : option cstr;
  target_port : Z;
  tls_psk : option cstr;
  tls_trsvcid : option cstr;
  subsystem_nqn : option cstr;
  host_nqn : option cstr;
  secret : option cstr;
  pfv : Z;
  hdr_digest : Z;
  data_digest : Z;
  maxdata : Z;
  cmd : list Z;
  cmd_buf : list Z;
  cmd_data_len : nat;
  cmd_data_offset : nat;
  cqe : list Z;
  tx_in_flight : bool;
  block_data : option nat;
  block_buffer : list Z;
  block_len : nat;
  block_writing : bool;
  capacity_data : option nat;
  rx : nvmetcp_rx;
  rx_io : nvmetcp_rx;
  nsid : Z;
  capacity : block_device_capacity;
  auth : nvmetcp_auth;
  running : bool;
  shut : bool;
  events : list event;
  tick : nat;
}.

#[export] Instance eta_session : Eta session :=
  fun s => Session (phase s) (cid s) (cntlid s) (target_host s) (target_port s) (tls_psk s)
    (tls_trsvcid s) (subsystem_nqn s) (host_nqn s) (secret s) (pfv s) (hdr_digest s)
    (data_digest s) (maxdata s) (cmd s) (cmd_buf s) (cmd_data_len s) (cmd_data_offset s)
    (cqe s) (tx_in_flight s) (block_data s) (block_buffer s) (block_len s) (block_writing s)
    (capacity_data s) (rx s) (rx_io s) (nsid s) (capacity s) (auth s) (running s) (shut s)
    (events s) (tick s).

(** The caller's buffer may be accessed. *)
Definition lent (s : session) : bool := bool_decide (is_Some (block_data s)).

(** The all-zero contents that [zalloc] gives a fresh session. *)
Definition zero_rx : nvmetcp_rx := Rx (zeros 128) 0 0 0 0.

Definition zero_auth : nvmetcp_auth :=
  Auth NVMETCP_AUTH_STEP_START false false 0 0 0 0 0 0 0
       (zeros NVME_AUTH_MAX_DIGEST_SIZE) (zeros NVME_AUTH_MAX_DH_SIZE)
       (zeros NVME_AUTH_MAX_DH_SIZE) (zeros NVME_AUTH_MAX_DH_SIZE).

Definition zero_session : session :=
  Session NVMETCP_PHASE_ICREQ 0 0 None 0 None None None None None 0 0 0 0
    (zeros nvme_command_size) (zeros NVMETCP_MAX_CMD_DATA) 0 0 (zeros 16) false
    None [] 0 false None zero_rx zero_rx 0 (Capacity 0 0 0) zero_auth
    false false [] 0.

Definition get_rx (q : queue) (s : session) : nvmetcp_rx :=
  match q with Admin => rx s | Io => rx_io s end.
Definition set_rx (q : queue) (r : nvmetcp_rx) (s : session) : session :=
  match q with Admin => s <| rx := r |> | Io => s <| rx_io := r |> end.

(** ** A parsed URI (struct uri; the members the driver reads) *)
Record uri : Type := Uri {
  uri_host : option cstr;
  uri_path : option cstr;
  uri_equery : option cstr;
  uri_port_str : option cstr;
}.

(** ** The environment: code of the iPXE core that is not in the repository

    Each function indexed by a [nat] is consulted at that point of the run.
    [deliver_resumes n] says whether the socket reports a window change while it
    is taking the [n]-th buffer (the TLS filter of tls13.c does). *)
Record env : Type := Env {
  xfer_window : nat -> queue -> Z;
  alloc_ok : nat -> bool;
  deliver_resumes : nat -> bool;
  open_rc : nat -> queue -> status;
  add_tls_rc : nat -> queue -> status;
  get_random_nz : nat -> nat -> status * list Z;
  stack_bytes : nat -> nat -> list Z;
  uuid_setting : option (list Z);
  uuid_ntoa : list Z -> cstr;
  hostnqn_setting : option cstr;
  uri_port : uri -> Z -> Z;
  base64_decode : cstr -> nat -> Z * list Z;
  crc32_le : Z -> list Z -> Z;
}.

(** What the driver relies on: random bytes and uninitialised locals are byte
    arrays of the length asked for, and decoded data fits the length returned. *)
Class EnvLaws (E : env) : Prop := {
  get_random_length n k : length (get_random_nz E n k).2 = k;
  get_random_ok n k : bytes_ok (get_random_nz E n k).2;
  stack_length n k : length (stack_bytes E n k) = k;
  stack_ok n k : bytes_ok (stack_bytes E n k);
  base64_length p k n d : base64_decode E p k = (n, d) ->
    length d = Z.to_nat (Z.min (Z.max n 0) (Z.of_nat k));
  base64_ok p k : bytes_ok (base64_decode E p k).2;
}.

(** ** Primitive operations of the session *)
Section Prim.
Context (E : env).

Definition emit (e : event) : M session unit :=
  update (fun s => s <| events ::= (fun l => l ++ [e]) |>).

Definition consult {A} (f : nat -> A) : M session A :=
  fun s => Ret (f (tick s)) (s <| tick ::= S |>).

Definition process_add : M session unit := update (fun s => s <| running := true |>).
Definition process_del : M session unit := update (fun s => s <| running := false |>).

Definition set_phase (p : nvmetcp_phase) : M session unit :=
  update (fun s => s <| phase := p |>).

Definition intf_restart_data (rc : status) : M session unit := emit (Restarted rc).

(** [nvmetcp_tx_resume]: restart the process unless a command is in flight. *)
Definition nvmetcp_tx_resume : M session unit :=
  let* inflight := gets tx_in_flight in
  if inflight then ret tt else process_add.

(** [xfer_deliver_iob]: the socket takes the buffer, and may report a window
    change while doing so. *)
Definition xfer_deliver_iob (q : queue) (data : list Z) : M session unit :=
  do* emit (Sent q data) in
  let* r := consult (deliver_resumes E) in
  if r then nvmetcp_tx_resume else ret tt.

(** [nvmetcp_close] *)
Definition nvmetcp_close (rc : status) : M session unit :=
  let rc := match rc with OK => Err ECONNRESET | Err e => Err e end in
  let* pending := gets capacity_data in
  do* match pending with
      | Some _ =>
          do* update (fun s => s <| capacity_data := None |>) in
          intf_restart_data rc
      | None => ret tt
      end in
  do* process_del in
  do* update (fun s => s <| shut := true |>) in
  emit (Shutdown rc).

(** [nvmetcp_rx_reset] *)
Definition nvmetcp_rx_reset (r : nvmetcp_rx) : nvmetcp_rx :=
  r <| hdr_len := 0%nat |> <| hdr_expect := 8%nat |>
    <| data_expect := 0%nat |> <| data_len := 0%nat |>.
End Prim.

(** ** Rules for the primitives *)
Section PrimRules.
Implicit Types (s : session).

Lemma wp_consult {A} F (f : nat -> A) (Q : A -> session -> Prop) s :
  Q (f (tick s)) (s <| tick ::= S |>) -> wp F (consult f) Q s.
Proof. exact (fun H => H). Qed.

Lemma wp_emit F e (Q : unit -> session -> Prop) s :
  Q tt (s <| events ::= (fun l => l ++ [e]) |>) -> wp F (emit e) Q s.
Proof. exact (fun H => H). Qed.

Lemma wp_of_option_lax {A} (o : option A) (Q : A -> session -> Prop) s :
  (forall a, o = Some a -> Q a s) -> wp True (of_option o) Q s.
Proof. intros. by apply wp_of_option. Qed.
End PrimRules.

(** [wp_prim] extends [wp_step] with the primitives of the session; a read that
    may be undefined behaviour yields its value, and an obligation when faults
    are excluded. *)
Ltac wp_prim :=
  lazymatch goal with
  | |- wp _ (consult _) _ _ => apply wp_consult
  | |- wp _ (emit _) _ _ => apply wp_emit
  | |- wp _ process_add _ _ => apply wp_update
  | |- wp _ process_del _ _ => apply wp_update
  | |- wp _ (set_phase _) _ _ => apply wp_update
  | |- wp _ (intf_restart_data _) _ _ => apply wp_emit
  | |- wp _ (of_option (Some _)) _ _ => apply wp_ret
  | |- wp True (of_option _) _ _ => apply wp_of_option_lax; intros ? ?
  | |- wp _ (of_option _) _ _ => apply wp_of_option; [intros ? ?|]
  | |- _ => wp_step
  end; cbv beta iota.

Ltac wp_run := repeat wp_prim.

(** ** A concrete environment

    An open window, successful allocations, and library functions that satisfy
    the laws: used to execute the model on concrete inputs. *)
Module ToyEnv.
Definition decode (p : cstr) (k : nat) : Z * list Z :=
  (36, take k (zeros 32 ++ [255; 255; 255; 255])).

Definition env (resumes : bool) : env := {|
  xfer_window _ _ := 65536;
  alloc_ok _ := true;
  deliver_resumes _ := resumes;
  open_rc _ _ := OK;
  add_tls_rc _ _ := OK;
  get_random_nz _ k := (OK, replicate k 1);
  stack_bytes _ k := zeros k;
  uuid_setting := Some (seqZ 0 16);
  uuid_ntoa _ := bstr "00010203-0405-0607-0809-0a0b0c0d0e0f";
  hostnqn_setting := None;
  uri_port _ d := d;
  base64_decode := decode;
  crc32_le _ _ := 0;
|}.

#[export] Instance laws b : EnvLaws (env b).
Proof.
  split.
  - intros. apply length_replicate.
  - intros. apply Forall_replicate. unfold is_byte. lia.
  - intros. apply length_replicate.
  - intros. apply zeros_ok.
  - intros p k n d Hd. unfold env, base64_decode, decode in Hd. injection Hd as <- <-.
    rewrite length_take. cbn [length]. lia.
  - intros. apply Forall_take, Forall_app. split; [apply zeros_ok|].
    repeat constructor; unfold is_byte; lia.
Qed.
End ToyEnv.
