(* ===== verification/NvmeTx.v ===== *)
(** * NVMe/TCP transmission (net/tcp/nvmetcp.c, lines 124-458)

    The PDU builders and senders: [nvmetcp_tx_data], [nvmetcp_tx_pdu],
    [nvmetcp_tx_command] and the commands of the setup sequence.  The theorems
    give the exact bytes each command puts on the wire and the state a send
    leaves behind. *)

From stdpp Require Import base list strings.
From Stdlib Require Import ZArith Lia.
From S2P Require Import Prelude Layout NvmeWire Crypto NvmeState.

(** [strncpy ( dst, s, n )]: the [n] bytes written. *)
Definition strncpy (n : nat) (s : cstr) : list Z := take n s ++ zeros (n - length s).

Section Tx.
Context (E : env).

(** Allocate an I/O buffer, fill it, hand it to the socket and wait for the
    response: the common tail of [nvmetcp_tx_data] and [nvmetcp_tx_pdu].
    [data] is [None] when filling the buffer reads outside the source object. *)
Definition tx_iob (q : queue) (data : option (list Z)) : M session status :=
  let* ok := consult (alloc_ok E) in
  if negb ok then ret (Err ENOMEM) else
  let* data := of_option data in
  do* xfer_deliver_iob E q data in
  do* update (fun s => s <| tx_in_flight := true |>) in
  do* process_del in
  ret OK.

(** [nvmetcp_tx_data] *)
Definition nvmetcp_tx_data (q : queue) (data : list Z) : M session status :=
  let* w := consult (fun n => xfer_window E n q) in
  if w <? Z.of_nat (length data) then ret (Err EAGAIN)
  else tx_iob q (Some data).

(** [nvmetcp_tx_pdu] *)
Definition nvmetcp_tx_pdu (q : queue) (hdr : list Z) (data : option (list Z))
  : M session status :=
  let* w := consult (fun n => xfer_window E n q) in
  if w =? 0 then ret (Err EAGAIN)
  else tx_iob q (app hdr <$> data).

(** The command PDU header that [nvmetcp_tx_command] builds around [cmd]. *)
Definition command_pdu (cmd : list Z) (data_len recv_len : nat) : list Z :=
  let P := nvmetcp_cmd_pdu in
  let pdu := zeros (sizeof P) in
  let pdu := set_field P "hdr.type" NVMETCP_PDU_COMMAND pdu in
  let pdu := set_field P "hdr.hlen" (Z.of_nat (sizeof P)) pdu in
  let pdu := set_field P "hdr.pdo"
               (if bool_decide (data_len = 0%nat) then 0 else Z.of_nat (sizeof P)) pdu in
  let pdu := set_field P "hdr.plen" (Z.of_nat (sizeof P) + Z.of_nat data_len) pdu in
  let pdu := splice (sizeof nvmetcp_pdu_header) cmd pdu in
  let pdu := set_field P "cmd.common.flags"
               (Z.lor (get_field P "cmd.common.flags" pdu) NVME_CMD_SGL_METABUF) pdu in
  let pdu := set_field P "cmd.common.dptr.sgl.addr" 0 pdu in
  if negb (bool_decide (data_len = 0%nat)) then
    let pdu := set_field P "cmd.common.dptr.sgl.length" (Z.of_nat data_len) pdu in
    set_field P "cmd.common.dptr.sgl.type"
      (Z.lor (Z.shiftl NVME_SGL_FMT_DATA_DESC 4) NVME_SGL_FMT_OFFSET) pdu
  else
    let pdu := set_field P "cmd.common.dptr.sgl.length" (Z.of_nat recv_len) pdu in
    set_field P "cmd.common.dptr.sgl.type"
      (Z.lor (Z.shiftl NVME_TRANSPORT_SGL_DATA_DESC 4) NVME_SGL_FMT_TRANSPORT_A) pdu.

(** [nvmetcp_tx_command] *)
Definition nvmetcp_tx_command (q : queue) (cmd data : list Z) (recv_len : nat)
  : M session status :=
  try* nvmetcp_tx_pdu q (command_pdu cmd (length data) recv_len) (Some data) in
  do* update (fun s => s <| cmd_data_len := recv_len |> <| cmd_data_offset := 0%nat |>) in
  do* update (fun s => set_rx q (nvmetcp_rx_reset (get_rx q s)) s) in
  ret OK.

(** The ICReq PDU of [nvmetcp_tx_icreq]. *)
Definition icreq_pdu : list Z :=
  let P := nvmetcp_icreq in
  let p := zeros (sizeof P) in
  let p := set_field P "hdr.type" NVMETCP_PDU_ICREQ p in
  let p := set_field P "hdr.hlen" (Z.of_nat (sizeof P)) p in
  let p := set_field P "hdr.plen" (Z.of_nat (sizeof P)) p in
  let p := set_field P "pfv" NVMETCP_PFV p in
  let p := set_field P "maxr2t" 0 p in
  let p := set_field P "hpda" 0 p in
  set_field P "digest" 0 p.

(** [nvmetcp_tx_icreq] *)
Definition nvmetcp_tx_icreq (q : queue) : M session status := nvmetcp_tx_data q icreq_pdu.

(** [++nvmetcp->cid], and the command buffer zeroed. *)
Definition next_cid : M session Z :=
  do* update (fun s => s <| cmd := zeros nvme_command_size |>) in
  do* update (fun s => s <| cid ::= (fun c => u16 (c + 1)) |>) in
  gets cid.

(** The Connect data of [nvmetcp_tx_connect]. *)
Definition connect_data (qid cntlid : Z) (subsys host : cstr) : list Z :=
  let L := nvmf_connect_data in
  let d := zeros (sizeof L) in
  let d := set_field L "cntlid" (if qid =? 0 then 0xffff else cntlid) d in
  let d := match uuid_setting E with
           | Some uuid => set_bytes L "hostid" uuid d
           | None => d
           end in
  let d := set_bytes L "subsysnqn" (strncpy (fieldsize L "subsysnqn" - 1) subsys) d in
  set_bytes L "hostnqn" (strncpy (fieldsize L "hostnqn" - 1) host) d.

(** The Connect command of [nvmetcp_tx_connect]. *)
Definition connect_command (qid cid : Z) : list Z :=
  let L := nvmf_connect_command in
  let c := zeros nvme_command_size in
  let c := set_field L "opcode" NVMF_OPCODE c in
  let c := set_field L "command_id" cid c in
  let c := set_field L "fctype" NVMF_FCTYPE_CONNECT c in
  let c := set_field L "qid" qid c in
  let c := set_field L "sqsize" 1 c in
  set_field L "kato" 0 c.

(** [nvmetcp_tx_connect] *)
Definition nvmetcp_tx_connect (q : queue) (qid : Z) : M session status :=
  let* id := next_cid in
  do* update (fun s => s <| cmd := connect_command qid id |>) in
  let* subsys := gets subsystem_nqn in
  let* subsys := of_option subsys in
  let* host := gets host_nqn in
  let* host := of_option host in
  let* ctl := gets cntlid in
  let* c := gets cmd in
  nvmetcp_tx_command q c (connect_data qid ctl subsys host) 0.

Definition prop_set_command (cid : Z) : list Z :=
  let L := nvmf_property_set_command in
  let c := zeros nvme_command_size in
  let c := set_field L "opcode" NVMF_OPCODE c in
  let c := set_field L "command_id" cid c in
  let c := set_field L "fctype" NVMF_FCTYPE_PROPERTY_SET c in
  let c := set_field L "offset" NVME_REG_CC c in
  set_field L "value"
    (Z.lor (Z.lor NVME_CC_ENABLE (Z.shiftl NVME_NVM_IOSQES NVME_CC_IOSQES_SHIFT))
           (Z.shiftl NVME_NVM_IOCQES NVME_CC_IOCQES_SHIFT)) c.

(** [nvmetcp_tx_prop_set] *)
Definition nvmetcp_tx_prop_set : M session status :=
  let* id := next_cid in
  do* update (fun s => s <| cmd := prop_set_command id |>) in
  let* c := gets cmd in
  nvmetcp_tx_command Admin c [] 0.

Definition identify_command (cid cns nsid : Z) : list Z :=
  let L := nvme_identify in
  let c := zeros nvme_command_size in
  let c := set_field L "opcode" NVME_OPCODE_IDENTIFY c in
  let c := set_field L "command_id" cid c in
  let c := set_field L "cns" cns c in
  set_field L "nsid" nsid c.

(** [nvmetcp_tx_identify] *)
Definition nvmetcp_tx_identify (cns nsid : Z) : M session status :=
  let* id := next_cid in
  do* update (fun s => s <| cmd := identify_command id cns nsid |>) in
  let* c := gets cmd in
  nvmetcp_tx_command Admin c [] NVME_IDENTIFY_DATA_SIZE.

(** The H2CData PDU header of [nvmetcp_tx_h2cdata]. *)
Definition h2cdata_pdu (r2t : list Z) : list Z :=
  let P := nvmetcp_data_pdu in
  let R := nvmetcp_r2t_pdu in
  let length := get_field R "r2t_length" r2t in
  let p := zeros (sizeof P) in
  let p := set_field P "hdr.type" NVMETCP_PDU_H2CDATA p in
  let p := set_field P "hdr.hlen" (Z.of_nat (sizeof P)) p in
  let p := set_field P "hdr.pdo" (Z.of_nat (sizeof P)) p in
  let p := set_field P "hdr.plen" (Z.of_nat (sizeof P) + length) p in
  let p := set_field P "command_id" (get_field R "command_id" r2t) p in
  let p := set_field P "ttag" (get_field R "ttag" r2t) p in
  let p := set_field P "data_offset" (get_field R "r2t_offset" r2t) p in
  set_field P "data_length" (get_field R "r2t_length" r2t) p.

(** [nvmetcp_tx_h2cdata]: [offset] and [length] are [uint32_t], so their sum
    wraps; the data is copied from the block buffer at [offset], if there is any.  Whether
    a command is still pending is not asked: without one the caller has its buffer back,
    and the copy reads through a pointer that is no longer valid. *)
Definition nvmetcp_tx_h2cdata (r2t : list Z) : M session status :=
  let R := nvmetcp_r2t_pdu in
  let offset := get_field R "r2t_offset" r2t in
  let length := get_field R "r2t_length" r2t in
  let* blen := gets block_len in
  if u32 (offset + length) >? Z.of_nat blen then ret (Err EPROTO) else
  let* buf := gets block_buffer in
  let* valid := gets lent in
  nvmetcp_tx_pdu Io (h2cdata_pdu r2t)
    (if length =? 0 then Some [] else
     if valid then read (Z.to_nat offset) (Z.to_nat length) buf else None).
End Tx.

(** ** What a send does

    [sent q data s] is the session after the socket of [q] took [data]: the event
    is logged, a command is in flight and the process is off the run queue.  A
    window report of the socket during the call makes no difference. *)
Definition sent (q : queue) (data : list Z) (s : session) : session :=
  s <| events ::= (fun l => l ++ [Sent q data]) |> <| tx_in_flight := true |>
    <| running := false |>.

(** The receive state [nvmetcp_tx_command] prepares for the reply. *)
Definition expecting (q : queue) (recv_len : nat) (s : session) : session :=
  let s := s <| cmd_data_len := recv_len |> <| cmd_data_offset := 0%nat |> in
  set_rx q (nvmetcp_rx_reset (get_rx q s)) s.

(** The errors a send can report; neither leaves anything on the wire. *)
Definition tx_error (e : errno) : Prop := e = EAGAIN \/ e = ENOMEM.

(** [by_state s H]: [H] is the goal up to the order of assignments to [s].  With
    [s] a constructor the assignments evaluate inside out. *)
Ltac state_nf st :=
  eval cbv beta iota zeta delta
    [modify sent expecting set_rx get_rx nvmetcp_rx_reset
     hdr hdr_len hdr_expect data_expect data_len
     step completed rx_complete rx_cid transaction seqnum hash_id dhgid hl dhvlen cval session_key
     priv_key pub_key
     phase cid cntlid target_host target_port tls_psk tls_trsvcid subsystem_nqn host_nqn secret pfv
     hdr_digest data_digest maxdata cmd cmd_buf cmd_data_len cmd_data_offset cqe tx_in_flight
     block_data block_buffer block_len block_writing capacity_data rx rx_io nsid capacity auth
     running shut events tick] in st.
Ltac by_state s H :=
  let X := fresh in let EA := fresh in let EB := fresh in
  pose proof H as X; destruct s;
  lazymatch goal with |- _ ?st =>
    let n := state_nf st in assert (st = n) as EA by exact eq_refl; try rewrite EA end;
  lazymatch type of X with _ ?st =>
    let n := state_nf st in assert (st = n) as EB by exact eq_refl; try rewrite EB in X end;
  exact X.

Section TxRules.
Context (E : env).
Implicit Types (s : session) (q : queue).

Lemma wp_tx_resume F Q s :
  (tx_in_flight s = true -> Q tt s) ->
  (tx_in_flight s = false -> Q tt (s <| running := true |>)) -> wp F nvmetcp_tx_resume Q s.
Proof. intros. unfold nvmetcp_tx_resume. wp_run; auto. Qed.

Lemma wp_tx_iob F q o Q s :
  (forall t, Q (Err ENOMEM) (s <| tick := t |>)) ->
  (forall t data, o = Some data -> Q OK (sent q data (s <| tick := t |>))) ->
  (o = None -> F) -> wp F (tx_iob E q o) Q s.
Proof.
  intros Herr Hok Hf. unfold tx_iob. wp_run; [by_state s (Herr (S (tick s)))|subst o|by auto].
  unfold xfer_deliver_iob. wp_run; [apply wp_tx_resume; intros _; wp_run|];
    by_state s (Hok (S (S (tick s))) _ eq_refl).
Qed.

Lemma wp_tx_data F q data Q s :
  (forall e t, tx_error e -> Q (Err e) (s <| tick := t |>)) ->
  (forall t, Q OK (sent q data (s <| tick := t |>))) -> wp F (nvmetcp_tx_data E q data) Q s.
Proof.
  intros Herr Hok. unfold nvmetcp_tx_data. wp_run; [by_state s (Herr EAGAIN (S (tick s)) (or_introl eq_refl))|].
  apply wp_tx_iob; [|intros t d [= <-]; by_state s (Hok t)|done]. intros t.
  by_state s (Herr ENOMEM t (or_intror eq_refl)).
Qed.

Lemma wp_tx_pdu F q h o Q s :
  (forall e t, tx_error e -> Q (Err e) (s <| tick := t |>)) ->
  (forall t data, o = Some data -> Q OK (sent q (h ++ data) (s <| tick := t |>))) ->
  (o = None -> F) -> wp F (nvmetcp_tx_pdu E q h o) Q s.
Proof.
  intros Herr Hok Hf. unfold nvmetcp_tx_pdu. wp_run; [by_state s (Herr EAGAIN (S (tick s)) (or_introl eq_refl))|].
  apply wp_tx_iob.
  - intros t. by_state s (Herr ENOMEM t (or_intror eq_refl)).
  - intros t d Hd. destruct o as [data|]; [|done]. injection Hd as <-.
    by_state s (Hok t _ eq_refl).
  - destruct o; [done|auto].
Qed.

(** Sending a command either reports a lack of resources with the session
    untouched, or puts exactly the command PDU and its data on the wire. *)
Lemma wp_tx_command F q c d n Q s :
  (forall e t, tx_error e -> Q (Err e) (s <| tick := t |>)) ->
  (forall t, Q OK (expecting q n
      (sent q (command_pdu c (length d) n ++ d) (s <| tick := t |>)))) ->
  wp F (nvmetcp_tx_command E q c d n) Q s.
Proof.
  intros Herr Hok. unfold nvmetcp_tx_command. wp_step. apply wp_tx_pdu; [auto|..|done].
  intros t data [= <-]. wp_run. by_state s (Hok t).
Qed.
End TxRules.
