(* ===== verification/NvmeAuth.v ===== *)
(** * DH-HMAC-CHAP authentication (net/tcp/nvmetcp_auth.c)

    The authentication module of the session: the secret parser, the key
    transformation, the response calculation, the messages and the step
    machine.  Uninitialised local arrays are arbitrary bytes of the environment
    ([stack_bytes]), so a theorem can say whether a result depends on them. *)

From stdpp Require Import base list strings.
From Stdlib Require Import ZArith Lia.
From S2P Require Import Prelude Layout NvmeWire Crypto NvmeState NvmeTx.

Definition NVMETCP_AUTH_RECV_LEN : nat := 4096.

(** [nvmetcp_auth_hash] *)
Definition nvmetcp_auth_hash (hash_id : Z) : option digest_algorithm :=
  if hash_id =? NVME_AUTH_HASH_SHA256 then Some sha256_algorithm
  else if hash_id =? NVME_AUTH_HASH_SHA384 then Some sha384_algorithm
  else if hash_id =? NVME_AUTH_HASH_SHA512 then Some sha512_algorithm
  else None.

(** [nvmetcp_auth_exchange] *)
Definition nvmetcp_auth_exchange (dhgid : Z) : option exchange_algorithm :=
  if dhgid =? NVME_AUTH_DHGROUP_2048 then Some ffdhe2048_algorithm
  else if dhgid =? NVME_AUTH_DHGROUP_3072 then Some ffdhe3072_algorithm
  else if dhgid =? NVME_AUTH_DHGROUP_4096 then Some ffdhe4096_algorithm
  else None.

(** The digits of the hash identifier: [while ( ( *p >= '0' ) && ( *p <= '9' ) )]. *)
Fixpoint parse_digits (p : cstr) (id : Z) : Z * cstr :=
  match p with
  | c :: p' => if (48 <=? c) && (c <=? 57) then parse_digits p' (u32 (id * 10 + (c - 48)))
               else (id, p)
  | [] => (id, [])
  end.

Section Auth.
Context `{DigestOps} `{ExchangeOps} (E : env).

Definition upd_auth (f : nvmetcp_auth -> nvmetcp_auth) : M session unit :=
  update (fun s => s <| auth ::= f |>).

(** [nvmetcp_auth_hmac] *)
Definition nvmetcp_auth_hmac (d : digest_algorithm) (key data : list Z)
  : M session (errno + list Z) :=
  let* ok := consult (alloc_ok E) in
  if negb ok then ret (inl ENOMEM) else
  ret (inr (hmac_final d (hmac_update d (hmac_init d key) data))).

(** [nvmetcp_auth_parse_secret]: the hash identifier and the key. *)
Definition nvmetcp_auth_parse_secret : M session (errno + (Z * list Z)) :=
  let* p := gets secret in
  let* p := of_option p in
  if negb (bool_decide (take 7 p = bstr "DHHC-1:")) then ret (inl EINVAL) else
  let p := drop 7 p in
  let '(id, p) := parse_digits p 0 in
  if negb (bool_decide (head p = Some 58)) || (id =? 0) || (id >? NVME_AUTH_HASH_SHA512)
  then ret (inl EINVAL) else
  let p := drop 1 p in
  let '(len, key) := base64_decode E p (NVME_AUTH_MAX_DIGEST_SIZE + 4) in
  if len <? 0 then ret (inl (EOTHER (- len))) else
  if negb (len =? 36) && negb (len =? 52) && negb (len =? 68) then ret (inl EINVAL) else
  let key_len := (Z.to_nat len - 4)%nat in
  let crc_expected := le_val (sub key_len 4 key) in
  let crc := Z.lxor (crc32_le E 0xffffffff (take key_len key)) 0xffffffff in
  if negb (crc_expected =? crc) then ret (inl EACCES) else
  ret (inr (id, take key_len key)).

(** [nvmetcp_auth_transform_key] *)
Definition nvmetcp_auth_transform_key (d : digest_algorithm) (key : list Z)
  : M session (errno + list Z) :=
  let* ok := consult (alloc_ok E) in
  if negb ok then ret (inl ENOMEM) else
  let* nqn := gets host_nqn in
  let* nqn := of_option nqn in
  let ctx := hmac_init d key in
  let ctx := hmac_update d ctx nqn in
  let ctx := hmac_update d ctx (bstr "NVMe-over-Fabrics") in
  ret (inr (hmac_final d ctx)).

(** [nvmetcp_auth_response] *)
Definition nvmetcp_auth_response (d : digest_algorithm) (key challenge : list Z)
  : M session (errno + list Z) :=
  let* ok := consult (alloc_ok E) in
  if negb ok then ret (inl ENOMEM) else
  let* a := gets auth in
  let* nqnh := gets host_nqn in
  let* nqnh := of_option nqnh in
  let* nqnc := gets subsystem_nqn in
  let* nqnc := of_option nqnc in
  let ctx := hmac_init d key in
  let ctx := hmac_update d ctx (take (hl a) challenge) in
  let ctx := hmac_update d ctx (le_bytes 4 (seqnum a)) in
  let ctx := hmac_update d ctx (le_bytes 2 (transaction a)) in
  let ctx := hmac_update d ctx [NVME_AUTH_SECP_NOSC] in
  let ctx := hmac_update d ctx (bstr "HostHost") in
  let ctx := hmac_update d ctx nqnh in
  let ctx := hmac_update d ctx [0] in
  let ctx := hmac_update d ctx nqnc in
  ret (inr (hmac_final d ctx)).

(** [nvmetcp_auth_dh_key] *)
Definition nvmetcp_auth_dh_key (x : exchange_algorithm) (d : digest_algorithm)
  (ctrl_key : list Z) : M session status :=
  let* r := consult (fun n => get_random_nz E n (privsize x)) in
  match r with
  | (Err e, _) => ret (Err e)
  | (OK, priv) =>
      let* a := gets auth in
      let* pk := of_option (memcpy 0 priv (priv_key a)) in
      do* upd_auth (fun a => a <| priv_key := pk |>) in
      match exchange_share x priv with
      | (Err e, _) => ret (Err e)
      | (OK, pub) =>
          let* pb := of_option (memcpy 0 pub (pub_key a)) in
          do* upd_auth (fun a => a <| pub_key := pb |>) in
          match exchange_agree x priv ctrl_key with
          | (Err e, _) => ret (Err e)
          | (OK, shared) =>
              let* ok := consult (alloc_ok E) in
              if negb ok then ret (Err ENOMEM) else
              let ctx := digest_update d (digest_init d) shared in
              let* sk := of_option (memcpy 0 (digest_final d ctx) (session_key a)) in
              do* upd_auth (fun a => a <| session_key := sk |>) in
              do* upd_auth (fun a => a <| dhvlen := pubsize x |>) in
              ret OK
          end
      end
  end.

Definition auth_command (cid fctype : Z) (data_len recv_len : nat) : list Z :=
  let L := nvmf_auth_common_command in
  let c := zeros nvme_command_size in
  let c := set_field L "opcode" NVMF_OPCODE c in
  let c := set_field L "command_id" cid c in
  let c := set_field L "fctype" fctype c in
  let c := set_field L "secp" NVME_AUTH_DHCHAP_PROTOCOL_IDENTIFIER c in
  let c := set_field L "spsp0" 0x01 c in
  let c := set_field L "spsp1" 0x01 c in
  set_field L "al_tl"
    (if bool_decide (data_len = 0%nat) then Z.of_nat recv_len else Z.of_nat data_len) c.

(** [nvmetcp_auth_tx_command] *)
Definition nvmetcp_auth_tx_command (fctype : Z) (data : list Z) (recv_len : nat)
  : M session status :=
  let* id := next_cid in
  do* update (fun s => s <| cmd := auth_command id fctype (length data) recv_len |>) in
  let* c := gets cmd in
  nvmetcp_tx_command E Admin c data recv_len.

(** [nvmetcp_auth_tx_send] *)
Definition nvmetcp_auth_tx_send (data : list Z) : M session status :=
  nvmetcp_auth_tx_command NVMF_FCTYPE_AUTH_SEND data 0.

(** [nvmetcp_auth_tx_receive] *)
Definition nvmetcp_auth_tx_receive : M session status :=
  nvmetcp_auth_tx_command NVMF_FCTYPE_AUTH_RECEIVE [] NVMETCP_AUTH_RECV_LEN.

(** [nvmetcp_auth_tx_receive_step] *)
Definition nvmetcp_auth_tx_receive_step (next_step : nvmetcp_auth_steps) : M session status :=
  do* upd_auth (fun a => a <| step := next_step |>) in
  let* rc := nvmetcp_auth_tx_receive in
  match rc with
  | Err e =>
      do* upd_auth (fun a => a <| step :=
            if bool_decide (next_step = NVMETCP_AUTH_STEP_CHALLENGE)
            then NVMETCP_AUTH_STEP_COMPLETE_NEGOTIATE
            else NVMETCP_AUTH_STEP_COMPLETE_REPLY |>) in
      ret (Err e)
  | OK =>
      let* c := gets cid in
      do* upd_auth (fun a => a <| rx_cid := c |>) in
      ret OK
  end.

(** The Negotiate message of [nvmetcp_auth_tx_negotiate]. *)
Definition negotiate_data (t_id : Z) : list Z :=
  let N := nvmf_auth_dhchap_negotiate_data in
  let P := nvmf_auth_dhchap_protocol_descriptor in
  let n := zeros (sizeof N) in
  let n := set_field N "auth_type" NVME_AUTH_COMMON_MESSAGES n in
  let n := set_field N "auth_id" NVME_AUTH_DHCHAP_MESSAGE_NEGOTIATE n in
  let n := set_field N "t_id" t_id n in
  let n := set_field N "sc_c" NVME_AUTH_SECP_NOSC n in
  let n := set_field N "napd" 1 n in
  let p := zeros (sizeof P) in
  let p := set_field P "authid" NVME_AUTH_DHCHAP_AUTH_ID p in
  let p := set_field P "halen" 3 p in
  let idlist := offsetof P "idlist" in
  let p := splice idlist [NVME_AUTH_HASH_SHA256; NVME_AUTH_HASH_SHA384;
                          NVME_AUTH_HASH_SHA512] p in
  let p := splice (idlist + NVME_AUTH_DHCHAP_MAX_DH_IDS)
             [NVME_AUTH_DHGROUP_NULL; NVME_AUTH_DHGROUP_2048; NVME_AUTH_DHGROUP_3072;
              NVME_AUTH_DHGROUP_4096] p in
  let p := set_field P "dhlen" 4 p in
  n ++ p.

(** [nvmetcp_auth_tx_negotiate] *)
Definition nvmetcp_auth_tx_negotiate : M session status :=
  let* a := gets auth in
  nvmetcp_auth_tx_send (negotiate_data (transaction a)).

Definition set_cmd_buf (b : list Z) : M session unit :=
  update (fun s => s <| cmd_buf := b |>).

(** Copy into the command buffer at an offset. *)
Definition cmd_buf_copy (off : nat) (src : list Z) : M session unit :=
  let* b := gets cmd_buf in
  let* b := of_option (memcpy off src b) in
  set_cmd_buf b.

(** The fixed part of the Reply message. *)
Definition reply_header (a : nvmetcp_auth) (dh : bool) : list Z :=
  let R := nvmf_auth_dhchap_reply_data in
  let r := zeros (sizeof R) in
  let r := set_field R "auth_type" NVME_AUTH_DHCHAP_MESSAGES r in
  let r := set_field R "auth_id" NVME_AUTH_DHCHAP_MESSAGE_REPLY r in
  let r := set_field R "t_id" (transaction a) r in
  let r := set_field R "hl" (Z.of_nat (hl a)) r in
  let r := set_field R "dhvlen" (if dh then Z.of_nat (dhvlen a) else 0) r in
  set_field R "seqnum" 0 r.

(** [nvmetcp_auth_tx_reply].  [key] is an uninitialised 64-byte local of which
    the transformed key fills the first [digestsize] bytes of the *secret's*
    hash; the response then uses as many bytes as the *challenge's* hash has. *)
Definition nvmetcp_auth_tx_reply (d : digest_algorithm) (exchange : option exchange_algorithm)
  : M session status :=
  let* key0 := consult (fun n => stack_bytes E n NVME_AUTH_MAX_DIGEST_SIZE) in
  let! (hid, sec) := nvmetcp_auth_parse_secret in
  let* sd := of_option (nvmetcp_auth_hash hid) in
  let! transformed := nvmetcp_auth_transform_key sd sec in
  let* key := of_option (memcpy 0 transformed key0) in
  let* a := gets auth in
  let! challenge :=
    match exchange with
    | Some _ => nvmetcp_auth_hmac d (take (hl a) (session_key a)) (take (hl a) (cval a))
    | None => ret (inr (take (hl a) (cval a)))
    end in
  let! response := nvmetcp_auth_response d (take (digestsize d) key) challenge in
  let size := sizeof nvmf_auth_dhchap_reply_data in
  do* cmd_buf_copy 0 (reply_header a (bool_decide (is_Some exchange))) in
  do* cmd_buf_copy size (take (hl a) response) in
  let len := (size + hl a)%nat in
  let* len :=
    match exchange with
    | Some _ =>
        do* cmd_buf_copy (size + hl a) (take (hl a) (cval a)) in
        do* cmd_buf_copy (size + 2 * hl a) (take (dhvlen a) (pub_key a)) in
        ret (len + hl a + dhvlen a)%nat
    | None => ret len
    end in
  let* b := gets cmd_buf in
  nvmetcp_auth_tx_send (take len b).

(** [nvmetcp_auth_rx_validate] *)
Definition nvmetcp_auth_rx_validate (expected : Z) : M session status :=
  let F := nvmf_auth_dhchap_failure_data in
  let* b := gets cmd_buf in
  let* a := gets auth in
  if (get_field F "auth_type" b =? NVME_AUTH_COMMON_MESSAGES) &&
     (get_field F "auth_id" b =? NVME_AUTH_DHCHAP_MESSAGE_FAILURE1)
  then ret (Err EACCES) else
  if negb (get_field F "auth_type" b =? NVME_AUTH_DHCHAP_MESSAGES) ||
     negb (get_field F "auth_id" b =? expected)
  then ret (Err EPROTO) else
  if negb (get_field F "t_id" b =? transaction a) then ret (Err EPROTO) else
  ret OK.

(** [nvmetcp_auth_rx_challenge] *)
Definition nvmetcp_auth_rx_challenge : M session status :=
  let C := nvmf_auth_dhchap_challenge_data in
  try* nvmetcp_auth_rx_validate NVME_AUTH_DHCHAP_MESSAGE_CHALLENGE in
  let* b := gets cmd_buf in
  match nvmetcp_auth_hash (get_field C "hashid" b) with
  | None => ret (Err EPROTO)
  | Some d =>
      do* upd_auth (fun a => a <| hash_id := get_field C "hashid" b |>) in
      do* upd_auth (fun a => a <| hl := digestsize d |>) in
      if negb (get_field C "hl" b =? Z.of_nat (digestsize d)) then ret (Err EPROTO) else
      let dhvl := get_field C "dhvlen" b in
      let gid := get_field C "dhgid" b in
      let exchange := if gid =? NVME_AUTH_DHGROUP_NULL then None
                      else nvmetcp_auth_exchange gid in
      if match exchange with
         | Some x => negb (dhvl =? Z.of_nat (pubsize x))
         | None => negb (gid =? NVME_AUTH_DHGROUP_NULL) || negb (dhvl =? 0)
         end
      then ret (Err EPROTO) else
      do* upd_auth (fun a => a <| dhgid := gid |>) in
      do* upd_auth (fun a => a <| seqnum := get_field C "seqnum" b |>) in
      let* a := gets auth in
      let* cv := of_option (memcpy 0 (sub (sizeof C) (digestsize d) b) (cval a)) in
      do* upd_auth (fun a => a <| cval := cv |>) in
      try* match exchange with
           | Some x => nvmetcp_auth_dh_key x d (sub (sizeof C + digestsize d) (pubsize x) b)
           | None => ret OK
           end in
      nvmetcp_auth_tx_reply d exchange
  end.

(** [nvmetcp_auth_rx_success1] *)
Definition nvmetcp_auth_rx_success1 : M session status :=
  let S1 := nvmf_auth_dhchap_success1_data in
  try* nvmetcp_auth_rx_validate NVME_AUTH_DHCHAP_MESSAGE_SUCCESS1 in
  let* b := gets cmd_buf in
  let* a := gets auth in
  if negb (get_field S1 "hl" b =? Z.of_nat (hl a)) then ret (Err EPROTO) else
  if negb (get_field S1 "rvalid" b =? 0) then ret (Err EPROTO) else
  do* upd_auth (fun a => a <| completed := true |>) in
  ret OK.

(** [nvmetcp_auth_try_complete] *)
Definition nvmetcp_auth_try_complete : M session unit :=
  let* a := gets auth in
  if completed a && rx_complete a then set_phase NVMETCP_PHASE_PROP_SET else ret tt.

(** [nvmetcp_auth_step] *)
Definition nvmetcp_auth_step : M session status :=
  let* a := gets auth in
  match step a with
  | NVMETCP_AUTH_STEP_START =>
      if completed a then ret OK else
      let* r := consult (fun n => get_random_nz E n 2) in
      match r with
      | (Err e, _) => ret (Err e)
      | (OK, bytes) =>
          do* upd_auth (fun a => a <| transaction := le_val bytes |>) in
          do* upd_auth (fun a => a <| step := NVMETCP_AUTH_STEP_COMPLETE_NEGOTIATE |>) in
          nvmetcp_auth_tx_negotiate
      end
  | NVMETCP_AUTH_STEP_COMPLETE_NEGOTIATE | NVMETCP_AUTH_STEP_COMPLETE_REPLY =>
      let* inflight := gets tx_in_flight in
      if inflight then ret OK
      else nvmetcp_auth_tx_receive_step
             (if bool_decide (step a = NVMETCP_AUTH_STEP_COMPLETE_NEGOTIATE)
              then NVMETCP_AUTH_STEP_CHALLENGE else NVMETCP_AUTH_STEP_SUCCESS1)
  | _ => ret OK
  end.

(** [nvmetcp_auth_rx_complete] *)
Definition nvmetcp_auth_rx_complete : M session status :=
  let* a := gets auth in
  match step a with
  | NVMETCP_AUTH_STEP_COMPLETE_NEGOTIATE =>
      nvmetcp_auth_tx_receive_step NVMETCP_AUTH_STEP_CHALLENGE
  | NVMETCP_AUTH_STEP_CHALLENGE => ret OK
  | NVMETCP_AUTH_STEP_SUCCESS1 | NVMETCP_AUTH_STEP_START =>
      let* c := gets cqe in
      if negb (get_field nvme_completion "command_id" c =? rx_cid a) then ret OK else
      do* upd_auth (fun a => a <| rx_complete := true |>) in
      ret OK
  | NVMETCP_AUTH_STEP_COMPLETE_REPLY =>
      nvmetcp_auth_tx_receive_step NVMETCP_AUTH_STEP_SUCCESS1
  end.

(** [nvmetcp_auth_rx_data] *)
Definition nvmetcp_auth_rx_data : M session status :=
  let* a := gets auth in
  match step a with
  | NVMETCP_AUTH_STEP_CHALLENGE =>
      try* nvmetcp_auth_rx_challenge in
      do* upd_auth (fun a => a <| step := NVMETCP_AUTH_STEP_COMPLETE_REPLY |>) in
      ret OK
  | NVMETCP_AUTH_STEP_SUCCESS1 =>
      try* nvmetcp_auth_rx_success1 in
      do* upd_auth (fun a => a <| step := NVMETCP_AUTH_STEP_START |>) in
      ret OK
  | _ => ret (Err EPROTO)
  end.
End Auth.
