(* ===== verification/NvmeUri.v ===== *)
(** * Connection parameters (net/tcp/nvmetcp.c, lines 1209-1545)

    Parsing of the boot URI, construction of the host NQN and of the TLS
    pre-shared key parameters, the decision whether the firmware's own
    connection is encrypted, and the opening of a queue's socket.  Strings are C
    strings; the query-parameter search walks the string with [strstr] as the
    source does and is proved equal to a lookup among the ['&']-separated
    fields. *)

From stdpp Require Import base list strings.
From Stdlib Require Import ZArith Lia.
From S2P Require Import Prelude Layout NvmeWire Crypto NvmeState NvmeTx.

(** ** String library *)
Fixpoint is_prefix (p l : list Z) : bool :=
  match p, l with
  | [], _ => true
  | a :: p', b :: l' => (a =? b) && is_prefix p' l'
  | _ :: _, [] => false
  end.

Fixpoint strstr (hay needle : cstr) : option nat :=
  if is_prefix needle hay then Some 0%nat
  else match hay with
       | [] => None
       | _ :: t => S <$> strstr t needle
       end.

Fixpoint strchr (l : cstr) (c : Z) : option nat :=
  match l with
  | [] => None
  | b :: t => if b =? c then Some 0%nat else S <$> strchr t c
  end.

(** What [snprintf ( buf, n, .. )] leaves in a buffer of [n > 0] bytes. *)
Definition snprintf (n : nat) (s : cstr) : cstr := take (n - 1) s.

(** [l[i]] of a C string: the NUL at its end, nothing beyond. *)
Definition char_at (l : cstr) (i : nat) : Z := byte_at l i.

Definition CH_AMP : Z := 38.
Definition CH_SLASH : Z := 47.

(** ** [nvmetcp_parse_qparam]

    The search loop: [pos] is [query - uri->equery]; the result is
    [match - uri->equery]. *)
Fixpoint find_param (fuel : nat) (equery name : cstr) (pos : nat) : option nat :=
  match fuel with
  | O => None
  | S fuel =>
      match strstr (drop pos equery) name with
      | None => None
      | Some i =>
          let m := (pos + i)%nat in
          if bool_decide (m = 0%nat) || (char_at equery (m - 1) =? CH_AMP) then Some m
          else find_param fuel equery name (m + length name)
      end
  end.

(** The value found, [None] when the parameter is absent or empty. *)
Definition qparam_value (equery name : cstr) : option cstr :=
  match find_param (S (length equery)) equery name 0 with
  | None => None
  | Some m =>
      let v := drop (m + length name) equery in
      let len := match strchr v CH_AMP with
                 | Some e => e
                 | None => length v
                 end in
      if bool_decide (len = 0%nat) then None else Some (take len v)
  end.

Section Uri.
Context (E : env).

(** [nvmetcp_parse_qparam]: the value is copied into fresh memory. *)
Definition nvmetcp_parse_qparam (u : uri) (name : cstr) : M session (errno + option cstr) :=
  match uri_equery u with
  | None => ret (inr None)
  | Some q =>
      match qparam_value q name with
      | None => ret (inr None)
      | Some v =>
          let* ok := consult (alloc_ok E) in
          if negb ok then ret (inl ENOMEM) else ret (inr (Some v))
      end
  end.

(** [nvmetcp_parse_secret] *)
Definition nvmetcp_parse_secret (u : uri) : M session status :=
  let! v := nvmetcp_parse_qparam u (bstr "secret=") in
  do* update (fun s => s <| secret := v |>) in
  ret OK.

(** [nvmetcp_parse_tls] *)
Definition nvmetcp_parse_tls (u : uri) : M session status :=
  let! v := nvmetcp_parse_qparam u (bstr "tls_psk=") in
  do* update (fun s => s <| tls_psk := v |>) in
  let! v := nvmetcp_parse_qparam u (bstr "tls_trsvcid=") in
  do* update (fun s => s <| tls_trsvcid := v |>) in
  ret OK.

(** [nvmetcp_parse_root_path] *)
Definition nvmetcp_parse_root_path (u : uri) : M session status :=
  match uri_host u with
  | None => ret (Err EINVAL_NO_TARGET)
  | Some host =>
      let* ok := consult (alloc_ok E) in
      if negb ok then ret (Err ENOMEM) else
      do* update (fun s => s <| target_host := Some host |>) in
      do* update (fun s => s <| target_port := u16 (uri_port E u NVMETCP_DEFAULT_PORT) |>) in
      match uri_path u with
      | None => ret (Err EINVAL_NO_SUBSYSTEM_NQN)
      | Some path =>
          if negb (char_at path 0 =? CH_SLASH) then ret (Err EINVAL_NO_SUBSYSTEM_NQN) else
          let nqn := drop 1 path in
          if bool_decide (length nqn = 0%nat) ||
             bool_decide (NVMF_NQN_FIELD_LEN <= length nqn)%nat
          then ret (Err EINVAL_NO_SUBSYSTEM_NQN) else
          let* ok := consult (alloc_ok E) in
          if negb ok then ret (Err ENOMEM) else
          do* update (fun s => s <| subsystem_nqn := Some nqn |>) in
          try* nvmetcp_parse_secret u in
          nvmetcp_parse_tls u
      end
  end.

Definition NVMETCP_DEFAULT_HOST_NQN : cstr := bstr "nqn.2014-08.org.ipxe:".

(** [nvmetcp_set_host_nqn] *)
Definition nvmetcp_set_host_nqn : M session status :=
  match hostnqn_setting E with
  | Some nqn =>
      do* update (fun s => s <| host_nqn := Some nqn |>) in ret OK
  | None =>
      let len := (length NVMETCP_DEFAULT_HOST_NQN + 16 * 2)%nat in
      let* ok := consult (alloc_ok E) in
      if negb ok then ret (Err ENOMEM) else
      let nqn := match uuid_setting E with
                 | None => snprintf len (NVMETCP_DEFAULT_HOST_NQN ++ bstr "ipxe")
                 | Some uuid => snprintf len (NVMETCP_DEFAULT_HOST_NQN ++ uuid_ntoa E uuid)
                 end in
      do* update (fun s => s <| host_nqn := Some nqn |>) in ret OK
  end.

Definition NVMETCP_MAX_IDENTITY : nat := 512.
Definition NVMETCP_MAX_PSK : nat := 64.

(** [nvmetcp_hex_nibble] *)
Definition nvmetcp_hex_nibble (c : Z) : Z :=
  if (48 <=? c) && (c <=? 57) then c - 48
  else if (97 <=? c) && (c <=? 102) then c - 97 + 10
  else if (65 <=? c) && (c <=? 70) then c - 65 + 10
  else -1.

(** The decoding loop of [nvmetcp_tls_params]: two digits per byte. *)
Fixpoint hex_decode (hex : cstr) : option (list Z) :=
  match hex with
  | a :: b :: t =>
      let hi := nvmetcp_hex_nibble a in
      let lo := nvmetcp_hex_nibble b in
      if (hi <? 0) || (lo <? 0) then None
      else cons (u8 (Z.lor (Z.shiftl hi 4) lo)) <$> hex_decode t
  | _ => Some []
  end.

(** [nvmetcp_tls_params]: the decoded key and the identity. *)
Definition nvmetcp_tls_params : M session (errno + (list Z * cstr)) :=
  let* hex := gets tls_psk in
  let* hex := of_option hex in
  let hex_len := length hex in
  if bool_decide (hex_len = 0%nat) || negb (bool_decide (hex_len `mod` 2 = 0)%nat) ||
     bool_decide (NVMETCP_MAX_PSK < hex_len / 2)%nat
  then ret (inl EINVAL) else
  match hex_decode hex with
  | None => ret (inl EINVAL)
  | Some psk =>
      let* h := gets host_nqn in
      let* h := of_option h in
      let* c := gets subsystem_nqn in
      let* c := of_option c in
      let identity := bstr "NVMe0R01 " ++ h ++ bstr " " ++ c in
      if bool_decide (NVMETCP_MAX_IDENTITY <= length identity)%nat then ret (inl EINVAL)
      else ret (inr (psk, identity))
  end.

(** The port-number loop of [nvmetcp_use_tls]; [None] is its early [return 0]. *)
Fixpoint parse_port (l : cstr) (port : Z) : option Z :=
  match l with
  | [] => Some port
  | c :: t =>
      if (c <? 48) || (57 <? c) then None
      else let port := u32 (port * 10 + (c - 48)) in
           if port >? 0xffff then None else parse_port t port
  end.

(** [nvmetcp_use_tls] *)
Definition nvmetcp_use_tls (s : session) : bool :=
  match tls_psk s, tls_trsvcid s with
  | Some _, Some (c :: t) =>
      match parse_port (c :: t) 0 with
      | Some port => port =? target_port s
      | None => false
      end
  | _, _ => false
  end.

(** [nvmetcp_open_socket] *)
Definition nvmetcp_open_socket (q : queue) (p : nvmetcp_phase) : M session status :=
  let* tls := gets nvmetcp_use_tls in
  try* (if tls then
          let! (psk, identity) := nvmetcp_tls_params in
          let* rc := consult (fun n => add_tls_rc E n q) in
          match rc with
          | Err e => ret (Err e)
          | OK => do* emit (OpenedTls q psk identity) in ret OK
          end
        else
          let* rc := consult (fun n => open_rc E n q) in
          match rc with
          | Err e => ret (Err e)
          | OK => do* emit (Opened q) in ret OK
          end) in
  do* set_phase p in
  do* update (fun s => set_rx q (nvmetcp_rx_reset (get_rx q s)) s) in
  do* nvmetcp_tx_resume in
  ret OK.
End Uri.
