(* ===== verification/NvmeRx.v ===== *)
(** * NVMe/TCP reception (net/tcp/nvmetcp.c, lines 460-803 and 934-1024)

    The PDU receive machine of a queue and the completion and data handlers it
    calls, which advance the session's phase.  [nvmetcp_socket_deliver] consumes
    a TCP segment with a loop; the fuel it is given is proved sufficient in
    NvmeStream.v. *)

From stdpp Require Import base list strings.
From Stdlib Require Import ZArith Lia.
From S2P Require Import Prelude Layout NvmeWire Crypto NvmeState NvmeTx NvmeAuth NvmeUri.

(** The PDU type in a received header. *)
Definition pdu_type (h : list Z) : Z := get_field nvmetcp_pdu_header "type" h.

Section Rx.
Context `{DigestOps} `{ExchangeOps} (E : env).

Definition upd_rx (q : queue) (f : nvmetcp_rx -> nvmetcp_rx) : M session unit :=
  update (fun s => set_rx q (f (get_rx q s)) s).

Definition set_hdr_expect (q : queue) (n : nat) : M session status :=
  do* upd_rx q (fun r => r <| hdr_expect := n |>) in ret OK.

(** [nvmetcp_rx_header] *)
Definition nvmetcp_rx_header (q : queue) : M session status :=
  let* r := gets (get_rx q) in
  let t := pdu_type (hdr r) in
  if (t =? NVMETCP_PDU_ICREQ) || (t =? NVMETCP_PDU_ICRESP) then set_hdr_expect q 128
  else if t =? NVMETCP_PDU_COMMAND then
    set_hdr_expect q (Z.to_nat (get_field nvmetcp_pdu_header "hlen" (hdr r)))
  else if t =? NVMETCP_PDU_RESPONSE then set_hdr_expect q (sizeof nvmetcp_rsp_pdu)
  else if t =? NVMETCP_PDU_C2HDATA then set_hdr_expect q (sizeof nvmetcp_data_pdu)
  else if t =? NVMETCP_PDU_R2T then set_hdr_expect q (sizeof nvmetcp_r2t_pdu)
  else ret (Err EPROTO).

(** The ICResp case of [nvmetcp_rx_pdu]. *)
Definition rx_icresp (q : queue) (h : list Z) : M session status :=
  let I := nvmetcp_icresp in
  if negb (get_field I "pfv" h =? NVMETCP_PFV) then ret (Err EPROTO) else
  do* update (fun s => s <| pfv := get_field I "pfv" h |>
                         <| maxdata := get_field I "maxdata" h |>
                         <| hdr_digest := Z.land (get_field I "digest" h) NVMETCP_DIGEST_HDR |>
                         <| data_digest := Z.land (get_field I "digest" h) NVMETCP_DIGEST_DATA |>) in
  do* set_phase (match q with
                 | Io => NVMETCP_PHASE_CONNECT_IO
                 | Admin => NVMETCP_PHASE_CONNECT_ADMIN
                 end) in
  do* update (fun s => s <| tx_in_flight := false |>) in
  do* process_add in
  ret OK.

(** The C2HData case of [nvmetcp_rx_pdu]; the subtraction is on [size_t]. *)
Definition rx_c2hdata (q : queue) (h : list Z) : M session status :=
  let plen := get_field nvmetcp_pdu_header "plen" h in
  let dlen := u64 (plen - Z.of_nat (sizeof nvmetcp_data_pdu)) in
  if dlen >? Z.of_nat NVMETCP_MAX_CMD_DATA then ret (Err EPROTO) else
  let* off := gets cmd_data_offset in
  if negb (get_field nvmetcp_data_pdu "data_offset" h =? Z.of_nat off) then ret (Err EPROTO) else
  do* update (fun s => s <| cmd_data_len := (off + Z.to_nat dlen)%nat |>) in
  do* upd_rx q (fun r => r <| data_expect := Z.to_nat dlen |>) in
  ret OK.

(** [nvmetcp_rx_pdu] *)
Definition nvmetcp_rx_pdu (q : queue) : M session status :=
  let* r := gets (get_rx q) in
  let t := pdu_type (hdr r) in
  if t =? NVMETCP_PDU_ICRESP then rx_icresp q (hdr r)
  else if t =? NVMETCP_PDU_RESPONSE then
    do* update (fun s => s <| cqe := sub (sizeof nvmetcp_pdu_header)
                                         (sizeof nvme_completion) (hdr r) |>) in
    ret OK
  else if t =? NVMETCP_PDU_C2HDATA then rx_c2hdata q (hdr r)
  else if t =? NVMETCP_PDU_R2T then nvmetcp_tx_h2cdata E (hdr r)
  else ret OK.

(** [nvmetcp_auth_required] *)
Definition nvmetcp_auth_required : M session status :=
  let* sec := gets secret in
  match sec with
  | None => ret (Err EPERM)
  | Some _ =>
      do* set_phase NVMETCP_PHASE_AUTH in
      do* process_add in
      ret OK
  end.

(** Finish the block command in flight, if any. *)
Definition block_done (rc : status) : M session unit :=
  do* update (fun s => s <| block_data := None |>) in
  intf_restart_data rc.

(** The failure branch of [nvmetcp_rx_command]. *)
Definition rx_command_failed (st : Z) : M session status :=
  let* p := gets phase in
  if (st =? NVME_SC_AUTH_REQUIRED) && bool_decide (p = NVMETCP_PHASE_CONNECT_ADMIN)
  then nvmetcp_auth_required else
  if bool_decide (p = NVMETCP_PHASE_AUTH) then ret (Err EIO) else
  let* bd := gets block_data in
  match bd with
  | Some _ => do* block_done (Err EIO) in ret OK
  | None => ret (Err EIO)
  end.

(** Advance to a phase and resume stepping. *)
Definition advance (p : nvmetcp_phase) : M session status :=
  do* set_phase p in do* process_add in ret OK.

(** End the authentication phase if possible, and resume stepping if it ended. *)
Definition auth_try_advance : M session status :=
  do* nvmetcp_auth_try_complete in
  let* p := gets phase in
  do* (if bool_decide (p = NVMETCP_PHASE_AUTH) then ret tt else process_add) in
  ret OK.

(** [nvmetcp_rx_command] *)
Definition nvmetcp_rx_command : M session status :=
  let* c := gets cqe in
  let st := get_field nvme_completion "status" c in
  let result := le_val (sub (offsetof nvme_completion "result") 4 c) in
  do* update (fun s => s <| tx_in_flight := false |>) in
  if negb (st =? 0) then rx_command_failed st else
  let* p := gets phase in
  match p with
  | NVMETCP_PHASE_CONNECT_ADMIN =>
      do* update (fun s => s <| cntlid := Z.land result 0xffff |>) in
      if negb (Z.land result NVMF_CONNECT_AUTHREQ_ATR =? 0) then
        try* nvmetcp_auth_required in
        do* process_add in ret OK
      else advance NVMETCP_PHASE_PROP_SET
  | NVMETCP_PHASE_PROP_SET => advance NVMETCP_PHASE_IDENTIFY_CTRL
  | NVMETCP_PHASE_IDENTIFY_CTRL => advance NVMETCP_PHASE_IDENTIFY_NS
  | NVMETCP_PHASE_IDENTIFY_NS => nvmetcp_open_socket E Io NVMETCP_PHASE_ICREQ_IO
  | NVMETCP_PHASE_AUTH =>
      try* nvmetcp_auth_rx_complete E in
      auth_try_advance
  | NVMETCP_PHASE_CONNECT_IO =>
      do* set_phase NVMETCP_PHASE_READY in
      let* cd := gets capacity_data in
      match cd with
      | Some _ =>
          do* update (fun s => s <| capacity_data := None |>) in
          let* cap := gets capacity in
          do* emit (Reported cap) in
          do* intf_restart_data OK in
          ret OK
      | None => ret OK
      end
  | NVMETCP_PHASE_READY =>
      let* bd := gets block_data in
      match bd with
      | Some _ => do* block_done OK in ret OK
      | None => ret OK
      end
  | _ => ret (Err EPROTO)
  end.

(** [nvmetcp_rx_data] *)
Definition nvmetcp_rx_data : M session status :=
  do* update (fun s => s <| tx_in_flight := false |>) in
  let* p := gets phase in
  match p with
  | NVMETCP_PHASE_AUTH =>
      try* nvmetcp_auth_rx_data E in
      auth_try_advance
  | NVMETCP_PHASE_IDENTIFY_CTRL => ret OK
  | NVMETCP_PHASE_IDENTIFY_NS =>
      let* b := gets cmd_buf in
      let* cap := gets capacity in
      let '(rc, cap') := nvmetcp_identify_ns b cap in
      do* update (fun s => s <| capacity := cap' |>) in
      ret rc
  | NVMETCP_PHASE_READY =>
      let* bd := gets block_data in
      let* wr := gets block_writing in
      match bd, wr with
      | Some _, false =>
          let* b := gets cmd_buf in
          let* n := gets block_len in
          let* src := of_option (read 0 n b) in
          let* dst := gets block_buffer in
          let* dst := of_option (memcpy 0 src dst) in
          do* update (fun s => s <| block_buffer := dst |>) in
          do* block_done OK in
          ret OK
      | _, _ => ret OK
      end
  | _ => ret (Err EPROTO)
  end.

(** [nvmetcp_rx_pdu_complete] *)
Definition nvmetcp_rx_pdu_complete (q : queue) : M session status :=
  let* r := gets (get_rx q) in
  let t := pdu_type (hdr r) in
  try* (if t =? NVMETCP_PDU_ICRESP then ret OK
        else if t =? NVMETCP_PDU_RESPONSE then nvmetcp_rx_command
        else if t =? NVMETCP_PDU_C2HDATA then
          let* off := gets cmd_data_offset in
          let* len := gets cmd_data_len in
          if bool_decide (off < len)%nat then ret OK else nvmetcp_rx_data
        else if t =? NVMETCP_PDU_R2T then ret OK
        else ret (Err EPROTO)) in
  do* upd_rx q nvmetcp_rx_reset in
  ret OK.

(** [len = expect - have; len = ( len < avail ) ? len : avail;] on [size_t]:
    a wrapped difference exceeds any buffer. *)
Definition clip (expect have avail : nat) : nat :=
  if bool_decide (have <= expect)%nat then Nat.min (expect - have) avail else avail.

(** The header half of the receive loop, on the bytes [src] taken from the
    segment: copy them, then see how far the PDU has come. *)
Definition rx_header_copy (q : queue) (src : list Z) : M session unit :=
  let* r := gets (get_rx q) in
  let* h := of_option (memcpy (hdr_len r) src (hdr r)) in
  upd_rx q (fun r => r <| hdr := h |> <| hdr_len ::= (fun n => n + length src)%nat |>).

Definition rx_header_check (q : queue) : M session status :=
  let* r := gets (get_rx q) in
  try* (if bool_decide (hdr_len r = 8%nat) then nvmetcp_rx_header q else ret OK) in
  let* r := gets (get_rx q) in
  if bool_decide (hdr_len r < hdr_expect r)%nat then ret OK else
  try* nvmetcp_rx_pdu q in
  let* r := gets (get_rx q) in
  if bool_decide (data_expect r = 0%nat) then nvmetcp_rx_pdu_complete q else ret OK.

Definition rx_header_bytes (q : queue) (src : list Z) : M session status :=
  do* rx_header_copy q src in rx_header_check q.

(** The data half of the receive loop. *)
Definition rx_data_copy (q : queue) (src : list Z) : M session unit :=
  let* r := gets (get_rx q) in
  let* b := gets cmd_buf in
  let* b := of_option (memcpy (data_len r) src b) in
  do* update (fun s => s <| cmd_buf := b |>) in
  do* upd_rx q (fun r => r <| data_len ::= (fun n => n + length src)%nat |>) in
  update (fun s => s <| cmd_data_offset ::= (fun n => n + length src)%nat |>).

Definition rx_data_check (q : queue) : M session status :=
  let* r := gets (get_rx q) in
  if bool_decide (data_len r < data_expect r)%nat then ret OK
  else nvmetcp_rx_pdu_complete q.

Definition rx_data_bytes (q : queue) (src : list Z) : M session status :=
  do* rx_data_copy q src in rx_data_check q.

(** [nvmetcp_socket_deliver]: [while ( iob_len ( iobuf ) )]. *)
Fixpoint deliver_loop (fuel : nat) (q : queue) (iob : list Z) : M session status :=
  match fuel with
  | O => fun _ => NoFuel
  | S fuel =>
      match iob with
      | [] => ret OK
      | _ :: _ =>
          let* r := gets (get_rx q) in
          if bool_decide (hdr_len r < hdr_expect r)%nat then
            let n := clip (hdr_expect r) (hdr_len r) (length iob) in
            try* rx_header_bytes q (take n iob) in
            deliver_loop fuel q (drop n iob)
          else
            let n := clip (data_expect r) (data_len r) (length iob) in
            try* rx_data_bytes q (take n iob) in
            deliver_loop fuel q (drop n iob)
      end
  end.

Definition nvmetcp_socket_deliver (q : queue) (iob : list Z) : M session status :=
  deliver_loop (2 * length iob + 2) q iob.
End Rx.
