(* ===== verification/NvmeSched.v ===== *)
(** * Reception does not ask whether the process is scheduled (net/tcp/nvmetcp.c)

    A window change may schedule the process of a session at any moment.  What the
    session does with received data does not depend on it, and only adds to the event
    log. *)

From stdpp Require Import base list strings.
From Stdlib Require Import ZArith Lia.
From S2P Require Import Prelude Layout NvmeWire Crypto NvmeState NvmeTx NvmeAuth NvmeUri NvmeRx.

(** Two sessions that differ in that at most. *)
Definition same (s t : session) : Prop := s <| running := false |> = t <| running := false |>.

(** [unscheduled m]: [m] does not depend on it, and only adds to the event log. *)
Definition unscheduled {A} (m : M session A) : Prop :=
  forall s t, same s t ->
  match m s, m t with
  | Ret a s', Ret b t' => a = b /\ same s' t' /\ events s `prefix_of` events s'
  | Fault, Fault | NoFuel, NoFuel => True
  | _, _ => False
  end.

#[export] Instance same_equiv : Equivalence same.
Proof. split; unfold same; [done|by intros ??|by intros ??? ->]. Qed.

Lemma same_field {A} (f : session -> A) s t :
  (forall u, f u = f (u <| running := false |>)) -> same s t -> f s = f t.
Proof. intros Hf Hs. by rewrite (Hf s), (Hf t), Hs. Qed.

Lemma same_update f s t :
  (forall u, (f u) <| running := false |> = (f (u <| running := false |>)) <| running := false |>) ->
  same s t -> same (f s) (f t).
Proof. intros Hf Hs. unfold same. by rewrite (Hf s), (Hf t), Hs. Qed.

Section Unscheduled.
Context {A B : Type}.

Lemma unscheduled_ret (a : A) : unscheduled (ret a).
Proof. done. Qed.
Lemma unscheduled_of_option (o : option A) : unscheduled (of_option o).
Proof. by destruct o. Qed.

Lemma unscheduled_bind (m : M session A) (k : A -> M session B) :
  unscheduled m -> (forall a, unscheduled (k a)) -> unscheduled (bind m k).
Proof.
  intros Hm Hk s t Hs. unfold bind. specialize (Hm s t Hs).
  destruct (m s) as [a s1| |], (m t) as [b t1| |]; try done. destruct Hm as (<- & Hs1 & Hp).
  specialize (Hk a s1 t1 Hs1). destruct (k a s1) as [c s2| |], (k a t1) as [c' t2| |]; try done.
  destruct Hk as (-> & Hs2 & Hp2). split_and!; [done|done|by etrans].
Qed.

Lemma unscheduled_gets (f : session -> A) (k : A -> M session B) :
  (forall s, f s = f (s <| running := false |>)) -> (forall a, unscheduled (k a)) ->
  unscheduled (bind (gets f) k).
Proof. intros Hf Hk s t Hs. unfold bind, gets. rewrite (same_field f s t Hf Hs). by apply Hk. Qed.
End Unscheduled.

Lemma unscheduled_read {A} (f : session -> A) :
  (forall s, f s = f (s <| running := false |>)) -> unscheduled (gets f).
Proof. intros Hf s t Hs. cbn. by rewrite (same_field f s t Hf Hs). Qed.

Lemma unscheduled_try m k : unscheduled m -> unscheduled k -> unscheduled (try m k).
Proof. intros Hm Hk. apply unscheduled_bind; [done|]. by intros [|e]. Qed.

Lemma unscheduled_tryr {A} (m : M session (errno + A)) k :
  unscheduled m -> (forall a, unscheduled (k a)) -> unscheduled (tryr m k).
Proof. intros Hm Hk. apply unscheduled_bind; [done|]. by intros [e|a]. Qed.

Lemma unscheduled_update f :
  (forall s, (f s) <| running := false |> = (f (s <| running := false |>)) <| running := false |>) ->
  (forall s, events (f s) = events s) -> unscheduled (update f).
Proof.
  intros Hf He s t Hs. cbn. split; [done|]. split; [by apply same_update|]. by rewrite He.
Qed.

Lemma unscheduled_emit e : unscheduled (emit e).
Proof.
  intros s t Hs. cbn. split; [done|]. split; [by apply (same_update (fun s => s <| events ::= _ |>))|].
  cbn. by apply prefix_app_r.
Qed.

Lemma unscheduled_consult {A} (f : nat -> A) : unscheduled (consult f).
Proof.
  intros s t Hs. cbn. split; [by rewrite (same_field tick s t)|]. split; [|done].
  by apply (same_update (fun s => s <| tick ::= S |>)).
Qed.

Lemma unscheduled_upd_rx q f : unscheduled (upd_rx q f).
Proof. unfold upd_rx. destruct q; by apply unscheduled_update. Qed.

(** Straight-line computations. *)
Ltac unsched_step :=
  lazymatch goal with
  | |- unscheduled (ret _) => apply unscheduled_ret
  | |- unscheduled (of_option _) => apply unscheduled_of_option
  | |- unscheduled (consult _) => apply unscheduled_consult
  | |- unscheduled (emit _) => apply unscheduled_emit
  | |- unscheduled (upd_rx _ _) => apply unscheduled_upd_rx
  | |- unscheduled (update _) => apply unscheduled_update; done
  | |- unscheduled (tryr _ _) => apply unscheduled_tryr; [|intros]
  | |- unscheduled (try _ _) => apply unscheduled_try
  | |- unscheduled (bind (gets _) _) => apply unscheduled_gets; [done|intros]
  | |- unscheduled (gets _) => apply unscheduled_read; done
  | |- unscheduled (bind _ _) => apply unscheduled_bind; [|intros]
  | |- unscheduled (match ?x with _ => _ end) => destruct x
  | |- _ => solve [auto with unsched]
  end; cbv beta iota zeta.
Ltac unsched := repeat unsched_step.

Create HintDb unsched.

Section Receiving.
Context `{DigestOps} `{ExchangeOps} (E : env).

Lemma unsched_resume : unscheduled nvmetcp_tx_resume.
Proof. unfold nvmetcp_tx_resume, process_add. unsched. Qed.
#[local] Hint Resolve unsched_resume : unsched.

Lemma unsched_iob q d : unscheduled (tx_iob E q d).
Proof. unfold tx_iob, xfer_deliver_iob, process_del. unsched. Qed.
#[local] Hint Resolve unsched_iob : unsched.

Lemma unsched_command q c d n : unscheduled (nvmetcp_tx_command E q c d n).
Proof. unfold nvmetcp_tx_command, nvmetcp_tx_pdu. unsched. destruct q; unsched. Qed.
#[local] Hint Resolve unsched_command : unsched.

Lemma unsched_auth_command f d n : unscheduled (nvmetcp_auth_tx_command E f d n).
Proof. unfold nvmetcp_auth_tx_command, next_cid. unsched. Qed.
#[local] Hint Resolve unsched_auth_command : unsched.

Lemma unsched_receive_step n : unscheduled (nvmetcp_auth_tx_receive_step E n).
Proof. unfold nvmetcp_auth_tx_receive_step, nvmetcp_auth_tx_receive, upd_auth. unsched. Qed.
#[local] Hint Resolve unsched_receive_step : unsched.

Lemma unsched_parse_secret : unscheduled (nvmetcp_auth_parse_secret E).
Proof. unfold nvmetcp_auth_parse_secret. unsched. Qed.
Lemma unsched_transform d k : unscheduled (nvmetcp_auth_transform_key E d k).
Proof. unfold nvmetcp_auth_transform_key. unsched. Qed.
Lemma unsched_hmac d k l : unscheduled (nvmetcp_auth_hmac E d k l).
Proof. unfold nvmetcp_auth_hmac. unsched. Qed.
Lemma unsched_response d k c : unscheduled (nvmetcp_auth_response E d k c).
Proof. unfold nvmetcp_auth_response. unsched. Qed.
Lemma unsched_dh_key x d k : unscheduled (nvmetcp_auth_dh_key E x d k).
Proof. unfold nvmetcp_auth_dh_key, upd_auth. unsched. Qed.
#[local] Hint Resolve unsched_parse_secret unsched_transform unsched_hmac unsched_response unsched_dh_key : unsched.

Lemma unsched_reply d x : unscheduled (nvmetcp_auth_tx_reply E d x).
Proof. unfold nvmetcp_auth_tx_reply, cmd_buf_copy, set_cmd_buf, nvmetcp_auth_tx_send. unsched. Qed.
#[local] Hint Resolve unsched_reply : unsched.

Lemma unsched_auth_data : unscheduled (nvmetcp_auth_rx_data E).
Proof.
  unfold nvmetcp_auth_rx_data, nvmetcp_auth_rx_challenge, nvmetcp_auth_rx_success1, nvmetcp_auth_rx_validate, upd_auth.
  unsched.
Qed.
Lemma unsched_try_advance : unscheduled auth_try_advance.
Proof. unfold auth_try_advance, nvmetcp_auth_try_complete, set_phase, process_add. unsched. Qed.
Lemma unsched_open_socket q p : unscheduled (nvmetcp_open_socket E q p).
Proof. unfold nvmetcp_open_socket, nvmetcp_tls_params, set_phase. unsched. all: destruct q; unsched. Qed.
#[local] Hint Resolve unsched_auth_data unsched_try_advance unsched_open_socket : unsched.

Lemma unsched_rx_command : unscheduled (nvmetcp_rx_command E).
Proof.
  unfold nvmetcp_rx_command, rx_command_failed, nvmetcp_auth_required, nvmetcp_auth_rx_complete, advance,
    block_done, intf_restart_data, set_phase, process_add, upd_auth. unsched.
Qed.
Lemma unsched_rx_data : unscheduled (nvmetcp_rx_data E).
Proof. unfold nvmetcp_rx_data, block_done, intf_restart_data. unsched. Qed.
Lemma unsched_h2cdata h : unscheduled (nvmetcp_tx_h2cdata E h).
Proof. unfold nvmetcp_tx_h2cdata, nvmetcp_tx_pdu. unsched. Qed.
#[local] Hint Resolve unsched_rx_command unsched_rx_data unsched_h2cdata : unsched.

Lemma unsched_rx_pdu q : unscheduled (nvmetcp_rx_pdu E q).
Proof. unfold nvmetcp_rx_pdu, rx_icresp, rx_c2hdata, set_phase, process_add. unsched. Qed.
Lemma unsched_complete q : unscheduled (nvmetcp_rx_pdu_complete E q).
Proof. unfold nvmetcp_rx_pdu_complete. unsched. Qed.
#[local] Hint Resolve unsched_rx_pdu unsched_complete : unsched.

Lemma unsched_deliver_loop fuel q iob : unscheduled (deliver_loop E fuel q iob).
Proof.
  revert iob. induction fuel as [|fuel IH]; intros iob; [done|]. cbn [deliver_loop]. destruct iob as [|b iob]; [done|].
  unfold rx_header_bytes, rx_header_copy, rx_header_check, nvmetcp_rx_header, set_hdr_expect, rx_data_bytes,
    rx_data_copy, rx_data_check. unsched.
Qed.

Lemma unsched_deliver q iob : unscheduled (nvmetcp_socket_deliver E q iob).
Proof. apply unsched_deliver_loop. Qed.
End Receiving.
