(* ===== verification/NvmeOps.v ===== *)
(** * NVMe/TCP session operations (net/tcp/nvmetcp.c, lines 805-925, 1026-1208, 1547-1637)

    The block device operations, the process step, the interface callbacks and
    the opener; and the transition system of a session: one transition per
    callback the iPXE core can make. *)

From stdpp Require Import base list strings relations.
From Stdlib Require Import ZArith Lia.
From S2P Require Import Prelude Layout NvmeWire Crypto NvmeState NvmeTx NvmeAuth NvmeUri NvmeRx.

Section Ops.
Context `{DigestOps} `{ExchangeOps} (E : env).

(** [nvmetcp_block_read_capacity] *)
Definition nvmetcp_block_read_capacity (d : nat) : M session status :=
  do* emit (Plugged d) in
  let* p := gets phase in
  if negb (bool_decide (p = NVMETCP_PHASE_READY)) then
    do* update (fun s => s <| capacity_data := Some d |>) in
    ret OK
  else
    let* cap := gets capacity in
    do* emit (Reported cap) in
    do* intf_restart_data OK in
    ret OK.

Definition rw_command (cid opcode nsid lba count : Z) : list Z :=
  let L := nvme_rw_command in
  let c := zeros nvme_command_size in
  let c := set_field L "opcode" opcode c in
  let c := set_field L "command_id" cid c in
  let c := set_field L "nsid" nsid c in
  let c := set_field L "slba" lba c in
  set_field L "length" (count - 1) c.

(** [nvmetcp_block_rw]: [buffer] is the caller's buffer, [length buffer] its length. *)
Definition nvmetcp_block_rw (d : nat) (lba count : Z) (buffer : list Z) (opcode : Z)
  : M session status :=
  let* p := gets phase in
  if negb (bool_decide (p = NVMETCP_PHASE_READY)) then ret (Err EAGAIN) else
  if bool_decide (NVMETCP_MAX_CMD_DATA < length buffer)%nat then ret (Err EINVAL) else
  let* bd := gets block_data in
  match bd with
  | Some _ => ret (Err EAGAIN)
  | None =>
      let writing := opcode =? NVME_OPCODE_WRITE in
      do* emit (Plugged d) in
      do* update (fun s => s <| block_data := Some d |> <| block_buffer := buffer |>
                             <| block_len := length buffer |>
                             <| block_writing := writing |>) in
      let* id := next_cid in
      let* n := gets nsid in
      do* update (fun s => s <| cmd := rw_command id opcode n lba count |>) in
      let* c := gets cmd in
      let* rc := nvmetcp_tx_command E Io c (if writing then buffer else [])
                   (if writing then 0%nat else length buffer) in
      match rc with
      | OK => ret OK
      | Err e => do* block_done (Err e) in ret (Err e)
      end
  end.

(** [nvmetcp_block_read], [nvmetcp_block_write] *)
Definition nvmetcp_block_read (d : nat) (lba count : Z) (buffer : list Z) : M session status :=
  nvmetcp_block_rw d lba count buffer NVME_OPCODE_READ.
Definition nvmetcp_block_write (d : nat) (lba count : Z) (buffer : list Z) : M session status :=
  nvmetcp_block_rw d lba count buffer NVME_OPCODE_WRITE.

(** [nvmetcp_admin_socket_deliver], [nvmetcp_io_socket_deliver] *)
Definition nvmetcp_admin_socket_deliver (iob : list Z) : M session status :=
  nvmetcp_socket_deliver E Admin iob.
Definition nvmetcp_io_socket_deliver (iob : list Z) : M session status :=
  nvmetcp_socket_deliver E Io iob.

(** The command that a phase sends when the process steps; [None] in the
    [default] case. *)
Definition phase_action (s : session) : option (M session status) :=
  match phase s with
  | NVMETCP_PHASE_ICREQ => Some (nvmetcp_tx_icreq E Admin)
  | NVMETCP_PHASE_ICREQ_IO => Some (nvmetcp_tx_icreq E Io)
  | NVMETCP_PHASE_CONNECT_ADMIN => Some (nvmetcp_tx_connect E Admin 0)
  | NVMETCP_PHASE_PROP_SET => Some (nvmetcp_tx_prop_set E)
  | NVMETCP_PHASE_AUTH => Some (nvmetcp_auth_step E)
  | NVMETCP_PHASE_IDENTIFY_CTRL => Some (nvmetcp_tx_identify E NVME_IDENTIFY_CTRL 0)
  | NVMETCP_PHASE_IDENTIFY_NS => Some (nvmetcp_tx_identify E NVME_IDENTIFY_NS (nsid s))
  | NVMETCP_PHASE_CONNECT_IO => Some (nvmetcp_tx_connect E Io 1)
  | _ => None
  end.

(** [nvmetcp_step], the body of [nvmetcp_process] *)
Definition nvmetcp_step : M session unit :=
  let* s := get in
  match phase_action s with
  | None => ret tt
  | Some act =>
      let* rc := act in
      match rc with
      | OK => ret tt
      | Err EAGAIN => process_del
      | Err ENOMEM => ret tt
      | Err e => nvmetcp_close (Err e)
      end
  end.

(** [nvmetcp_process] *)
Definition nvmetcp_process : M session unit := nvmetcp_step.

(** [nvmetcp_command_close] *)
Definition nvmetcp_command_close (rc : status) : M session unit :=
  do* intf_restart_data rc in
  let* bd := gets block_data in
  let* cd := gets capacity_data in
  match bd, cd with
  | None, None => ret tt
  | _, _ =>
      do* update (fun s => s <| block_data := None |> <| capacity_data := None |>) in
      nvmetcp_close (match rc with OK => Err ECANCELED | Err e => Err e end)
  end.

(** [nvmetcp_open]: the session after the call (the object survives only when
    the status is [OK]; the failure path closes it before dropping it). *)
Definition nvmetcp_open_body (u : uri) : M session status :=
  do* update (fun s => s <| nsid := 1 |>) in
  try* nvmetcp_parse_root_path E u in
  try* nvmetcp_set_host_nqn E in
  nvmetcp_open_socket E Admin NVMETCP_PHASE_ICREQ.

Definition nvmetcp_open (u : uri) : M session status :=
  match uri_path u with
  | None => ret (Err EINVAL_NO_ROOT_PATH)
  | Some _ =>
      let* ok := consult (alloc_ok E) in
      if negb ok then ret (Err ENOMEM) else
      let* rc := nvmetcp_open_body u in
      match rc with
      | OK => ret OK
      | Err e => do* nvmetcp_close (Err e) in ret (Err e)
      end
  end.

(** ** The transition system

    A label is one call of the iPXE core into the driver; [call] is the code
    it runs.  After the interfaces have been shut down none of them can be
    called any more, and the process only runs while it is on the run queue. *)
Inductive label : Type :=
  | LProcess
  | LDeliver (q : queue) (iob : list Z)
  | LWindow (q : queue)
  | LCapacity (d : nat)
  | LRead (d : nat) (lba count : Z) (buffer : list Z)
  | LWrite (d : nat) (lba count : Z) (buffer : list Z)
  | LCommandClose (rc : status)
  | LClose (rc : status).

Definition ignore_rc (m : M session status) : M session unit := let* _ := m in ret tt.

Definition call (l : label) : M session unit :=
  match l with
  | LProcess => nvmetcp_process
  | LDeliver q iob => ignore_rc (nvmetcp_socket_deliver E q iob)
  | LWindow _ => nvmetcp_tx_resume
  | LCapacity d => ignore_rc (nvmetcp_block_read_capacity d)
  | LRead d lba count b => ignore_rc (nvmetcp_block_read d lba count b)
  | LWrite d lba count b => ignore_rc (nvmetcp_block_write d lba count b)
  | LCommandClose rc => nvmetcp_command_close rc
  | LClose rc => nvmetcp_close rc
  end.

Definition enabled (l : label) (s : session) : bool :=
  negb (shut s) && match l with LProcess => running s | _ => true end.

(** What is delivered or written is made of bytes. *)
Definition label_ok (l : label) : Prop :=
  match l with
  | LDeliver _ iob => bytes_ok iob
  | LRead _ _ _ b | LWrite _ _ _ b => bytes_ok b
  | _ => True
  end.

Inductive sstep (l : label) (s s' : session) : Prop :=
  | do_sstep : enabled l s = true -> label_ok l -> call l s = Ret tt s' -> sstep l s s'.

(** The states of an open session: what [nvmetcp_open] leaves, and everything
    any sequence of calls makes of it. *)
Inductive reachable (u : uri) : session -> Prop :=
  | reach_open s : nvmetcp_open u zero_session = Ret OK s -> reachable u s
  | reach_step l s s' : reachable u s -> sstep l s s' -> reachable u s'.
End Ops.
