(* ===== verification/NvmeDemo.v ===== *)
(** * Concrete sessions

    An executor for sequences of calls, proved to stay inside the reachable
    sessions, and the sessions it computes in the environment of [ToyEnv]: one
    that has just been opened, one whose setup has completed without
    authentication, and one that has authenticated.  The theorems of the
    development are applied to these sessions. *)

From stdpp Require Import base list strings.
From Stdlib Require Import ZArith Lia.
From S2P Require Import Prelude Layout NvmeWire Crypto NvmeState NvmeTx NvmeAuth NvmeUri NvmeRx.
From S2P Require Import NvmeOps.

Definition bytes_okb (l : list Z) : bool := forallb (fun b => (0 <=? b) && (b <? 256)) l.

Lemma bytes_okb_ok l : bytes_okb l = true -> bytes_ok l.
Proof.
  unfold bytes_okb, bytes_ok. rewrite forallb_forall, Forall_forall. intros Hl b Hb.
  apply list_elem_of_In in Hb. specialize (Hl b Hb). unfold is_byte. lia.
Qed.

Section Run.
Context `{DigestOps} `{ExchangeOps} (E : env).

Definition label_okb (l : label) : bool :=
  match l with
  | LDeliver _ iob => bytes_okb iob
  | LRead _ _ _ b | LWrite _ _ _ b => bytes_okb b
  | _ => true
  end.

Lemma label_okb_ok l : label_okb l = true -> label_ok l.
Proof. destruct l; simpl; auto using bytes_okb_ok. Qed.

(** Make the calls in order; [None] if one is not allowed or does not return. *)
Fixpoint run (ls : list label) (s : session) : option session :=
  match ls with
  | [] => Some s
  | l :: ls =>
      if enabled l s && label_okb l then
        match call E l s with
        | Ret _ s' => run ls s'
        | _ => None
        end
      else None
  end.

Lemma run_reachable u ls s s' : reachable E u s -> run ls s = Some s' -> reachable E u s'.
Proof.
  revert s. induction ls as [|l ls IH]; intros s Hr; simpl; [by intros [= <-]|].
  destruct (enabled l s && label_okb l) eqn:Hen; [|done].
  apply andb_true_iff in Hen as [He Hl].
  destruct (call E l s) as [[] s1| |] eqn:Hc; try done. apply IH.
  apply (reach_step E u l s s1 Hr). by constructor; [..|apply label_okb_ok|].
Qed.

(** Open and run. *)
Definition session_after (u : uri) (ls : list label) : option session :=
  match nvmetcp_open E u zero_session with
  | Ret OK s => run ls s
  | _ => None
  end.

Lemma session_after_reachable u ls s : session_after u ls = Some s -> reachable E u s.
Proof.
  unfold session_after. destruct (nvmetcp_open E u zero_session) as [[] s0| |] eqn:Ho; try done.
  apply run_reachable. by constructor.
Qed.
End Run.

#[local] Existing Instances Toy.digest Toy.exchange.

Module Demo.
Definition target : uri :=
  Uri (Some (bstr "192.0.2.1")) (Some (bstr "/nqn.test")) None None.
Definition target_auth : uri :=
  Uri (Some (bstr "192.0.2.1")) (Some (bstr "/nqn.test"))
      (Some (bstr "secret=DHHC-1:01:AAAA:")) None.
Definition E := ToyEnv.env false.

(** Messages of a controller. *)
Definition icresp : list Z :=
  set_field nvmetcp_icresp "hdr.plen" 128 (set_field nvmetcp_icresp "hdr.hlen" 128
    (set_field nvmetcp_icresp "hdr.type" NVMETCP_PDU_ICRESP (zeros 128))).
Definition response (result st : Z) : list Z :=
  let P := nvmetcp_rsp_pdu in
  set_field P "cqe.status" st (set_field P "cqe.result" result (set_field P "hdr.plen" 24
    (set_field P "hdr.hlen" 24 (set_field P "hdr.type" NVMETCP_PDU_RESPONSE (zeros 24))))).
Definition c2h_header (off len : Z) : list Z :=
  let P := nvmetcp_data_pdu in
  set_field P "data_length" len (set_field P "data_offset" off (set_field P "hdr.plen" (24 + len)
    (set_field P "hdr.hlen" 24 (set_field P "hdr.type" NVMETCP_PDU_C2HDATA (zeros 24))))).
Definition c2hdata (off : Z) (d : list Z) : list Z := c2h_header off (Z.of_nat (length d)) ++ d.

(** Identify Namespace data: 2048 blocks of 512 bytes. *)
Definition identify_ns_data : list Z :=
  splice 130 [9] (splice 0 (le_bytes 8 2048) (zeros 4096)).

Definition setup : list label :=
  [LProcess; LDeliver Admin icresp; LProcess; LDeliver Admin (response 1 0);
   LProcess; LDeliver Admin (response 0 0);
   LProcess; LDeliver Admin (c2hdata 0 (zeros 4096) ++ response 0 0);
   LProcess; LDeliver Admin (c2hdata 0 identify_ns_data ++ response 0 0);
   LProcess; LDeliver Io icresp; LProcess; LDeliver Io (response 0 0)].

(** The session after [ls], [zero_session] if there is none. *)
Definition after (u : uri) (ls : list label) : session :=
  default zero_session (session_after E u ls).

Definition opened : session := after target [].
Definition ready : session := after target setup.

Lemma opened_reachable : reachable E target opened.
Proof. apply (session_after_reachable E target []). by vm_compute. Qed.

Lemma ready_reachable : reachable E target ready.
Proof. apply (session_after_reachable E target setup). by vm_compute. Qed.

(** The setup sequence ends in the ready phase with the namespace's capacity. *)
Example setup_ready :
  phase ready = NVMETCP_PHASE_READY /\ capacity ready = Capacity 2048 512 8 /\
  cntlid ready = 1 /\ running ready = false.
Proof. by vm_compute. Qed.

(** A target that requires authentication: Connect reports it, the Negotiate is
    accepted, and the session asks for the challenge. *)
Definition auth_setup : list label :=
  [LProcess; LDeliver Admin icresp; LProcess;
   LDeliver Admin (response (Z.lor NVMF_CONNECT_AUTHREQ_ATR 1) 0);
   LProcess; LDeliver Admin (response 0 0)].

Definition asked : session := after target_auth auth_setup.

Lemma asked_reachable : reachable E target_auth asked.
Proof. apply (session_after_reachable E target_auth auth_setup). by vm_compute. Qed.

(** A SHA-256 challenge without Diffie-Hellman exchange, and the Success1. *)
Definition challenge : list Z :=
  let C := nvmf_auth_dhchap_challenge_data in
  set_field C "seqnum" 7 (set_field C "hashid" NVME_AUTH_HASH_SHA256 (set_field C "hl" 32
    (set_field C "t_id" (transaction (auth asked))
      (set_field C "auth_id" NVME_AUTH_DHCHAP_MESSAGE_CHALLENGE
        (set_field C "auth_type" NVME_AUTH_DHCHAP_MESSAGES (zeros 16)))))) ++ replicate 32 90.
Definition success1 : list Z :=
  let S1 := nvmf_auth_dhchap_success1_data in
  set_field S1 "hl" 32 (set_field S1 "t_id" (transaction (auth asked))
    (set_field S1 "auth_id" NVME_AUTH_DHCHAP_MESSAGE_SUCCESS1
      (set_field S1 "auth_type" NVME_AUTH_DHCHAP_MESSAGES (zeros 16)))).

(** The whole exchange up to the Success1, and its completion under the
    identifier of the last AuthReceive. *)
Definition response_cid (id : Z) : list Z :=
  set_field nvmetcp_rsp_pdu "cqe.command_id" id (response 0 0).
Definition auth_exchange : list label :=
  auth_setup ++ [LDeliver Admin (c2hdata 0 challenge ++ response 0 0)].
Definition replied : session := after target_auth auth_exchange.
Definition auth_end : list label :=
  [LDeliver Admin (c2hdata 0 success1); LDeliver Admin (response_cid (cid replied))].
Definition authenticated : session := after target_auth (auth_exchange ++ auth_end).

Lemma replied_reachable : reachable E target_auth replied.
Proof. apply (session_after_reachable E target_auth auth_exchange). by vm_compute. Qed.

Definition accepted : session :=
  after target_auth (auth_exchange ++ [LDeliver Admin (c2hdata 0 success1)]).

Lemma accepted_reachable : reachable E target_auth accepted.
Proof.
  apply (session_after_reachable E target_auth (auth_exchange ++ [LDeliver Admin (c2hdata 0 success1)])).
  by vm_compute.
Qed.

(** The exchange ends in the enabling phase. *)
Example auth_exchange_completes :
  phase asked = NVMETCP_PHASE_AUTH /\ step (auth asked) = NVMETCP_AUTH_STEP_CHALLENGE /\
  step (auth replied) = NVMETCP_AUTH_STEP_SUCCESS1 /\
  phase authenticated = NVMETCP_PHASE_PROP_SET /\ running authenticated = true.
Proof. by vm_compute. Qed.
End Demo.
