(* ===== verification/NvmeStream.v ===== *)
(** * The receive loop is a stream machine

    Two facts about [nvmetcp_socket_deliver]: its loop terminates, with the fuel
    it is given, from every state and on every segment; and it is independent of
    TCP segmentation, so that the rest of the development can reason about one
    segment per PDU. *)

From stdpp Require Import base list strings.
From Stdlib Require Import ZArith Lia.
From S2P Require Import Prelude Layout NvmeWire Crypto NvmeState NvmeTx NvmeAuth NvmeUri NvmeRx.

Section Stream.
Context `{DigestOps} `{ExchangeOps} (E : env).
Implicit Types (s : session) (q : queue).

Lemma get_set_rx q r s : get_rx q (set_rx q r s) = r.
Proof. by destruct q. Qed.

(** ** What a completed PDU leaves *)

(** Header mode: part of a header received.  Data mode: a data PDU's header
    received, and part of its data. *)
Definition rx_ready (r : nvmetcp_rx) : Prop :=
  (hdr_len r < hdr_expect r /\ data_expect r = 0 /\ data_len r = 0 /\
   (hdr_len r < 8 -> hdr_expect r = 8))%nat \/
  (hdr_expect r <= hdr_len r /\ data_len r < data_expect r)%nat.

Lemma rx_ready_reset r : rx_ready (nvmetcp_rx_reset r).
Proof. left. destruct r. simpl. lia. Qed.

(** The computations below run no loop: they never exhaust fuel. *)
Ltac loopfree := repeat (wp_prim || (unfold block_done, advance; wp_prim)); try done.

Lemma tx_resume_total s : wp True nvmetcp_tx_resume (fun _ _ => True) s.
Proof. unfold nvmetcp_tx_resume. loopfree. Qed.

Lemma tx_iob_total q d s : wp True (tx_iob E q d) (fun _ _ => True) s.
Proof. unfold tx_iob, xfer_deliver_iob, nvmetcp_tx_resume. loopfree. Qed.

Lemma tx_command_total q c d n s : wp True (nvmetcp_tx_command E q c d n) (fun _ _ => True) s.
Proof.
  unfold nvmetcp_tx_command, nvmetcp_tx_pdu. apply wp_try. loopfree.
  eapply wp_mono; [apply tx_iob_total|]. intros rc s' _. destruct rc; loopfree.
Qed.

Lemma auth_tx_receive_step_total n s :
  wp True (nvmetcp_auth_tx_receive_step E n) (fun _ _ => True) s.
Proof.
  unfold nvmetcp_auth_tx_receive_step, nvmetcp_auth_tx_receive, nvmetcp_auth_tx_command,
    next_cid, upd_auth. loopfree.
  eapply wp_mono; [apply tx_command_total|]. intros rc s' _. destruct rc; loopfree.
Qed.

Lemma auth_parse_secret_total s : wp True (nvmetcp_auth_parse_secret E) (fun _ _ => True) s.
Proof. unfold nvmetcp_auth_parse_secret. loopfree. Qed.

Lemma auth_tx_reply_total d x s : wp True (nvmetcp_auth_tx_reply E d x) (fun _ _ => True) s.
Proof.
  unfold nvmetcp_auth_tx_reply. loopfree.
  eapply wp_mono; [apply auth_parse_secret_total|]. intros r s' _. destruct r as [|[hid sec]]; [done|].
  unfold nvmetcp_auth_transform_key, nvmetcp_auth_hmac, nvmetcp_auth_response,
    cmd_buf_copy, set_cmd_buf, nvmetcp_auth_tx_send, nvmetcp_auth_tx_command, next_cid. loopfree.
  all: apply tx_command_total.
Qed.

Lemma auth_rx_data_total s : wp True (nvmetcp_auth_rx_data E) (fun _ _ => True) s.
Proof.
  unfold nvmetcp_auth_rx_data, nvmetcp_auth_rx_challenge, nvmetcp_auth_rx_success1,
    nvmetcp_auth_rx_validate, nvmetcp_auth_dh_key, upd_auth. loopfree.
  all: eapply wp_mono; [apply auth_tx_reply_total|]; intros rc s' _; destruct rc; loopfree.
Qed.

Lemma open_socket_total q p s : wp True (nvmetcp_open_socket E q p) (fun _ _ => True) s.
Proof.
  unfold nvmetcp_open_socket, nvmetcp_tls_params, nvmetcp_tx_resume. loopfree.
Qed.

Lemma rx_command_total s : wp True (nvmetcp_rx_command E) (fun _ _ => True) s.
Proof.
  unfold nvmetcp_rx_command, rx_command_failed, nvmetcp_auth_required, nvmetcp_auth_rx_complete,
    auth_try_advance, nvmetcp_auth_try_complete, upd_auth. loopfree.
  all: try apply open_socket_total.
  all: eapply wp_mono; [apply auth_tx_receive_step_total|]; intros rc s' _; destruct rc; loopfree.
Qed.

Lemma rx_data_total s : wp True (nvmetcp_rx_data E) (fun _ _ => True) s.
Proof.
  unfold nvmetcp_rx_data, auth_try_advance, nvmetcp_auth_try_complete. loopfree.
  eapply wp_mono; [apply auth_rx_data_total|]; intros rc s' _; destruct rc; loopfree.
Qed.

(** A PDU that completes successfully leaves its queue ready for a header. *)
Lemma rx_pdu_complete_reset q s :
  wp True (nvmetcp_rx_pdu_complete E q)
     (fun rc s' => rc = OK -> exists r, get_rx q s' = nvmetcp_rx_reset r) s.
Proof.
  unfold nvmetcp_rx_pdu_complete, upd_rx. loopfree.
  all: try lazymatch goal with
           | |- wp _ (nvmetcp_rx_command _) _ _ => eapply wp_mono; [apply rx_command_total|]
           | |- wp _ (nvmetcp_rx_data _) _ _ => eapply wp_mono; [apply rx_data_total|]
           end; try (intros rc s' _; destruct rc; loopfree).
  all: try (intros _; rewrite get_set_rx; eauto).
Qed.

(** ** One chunk *)

Lemma rx_header_frame q s :
  wp True (nvmetcp_rx_header q)
     (fun rc s' => exists n, get_rx q s' = (get_rx q s) <| hdr_expect := n |>) s.
Proof.
  unfold nvmetcp_rx_header, set_hdr_expect, upd_rx. loopfree.
  all: try (rewrite get_set_rx; eauto).
  exists (hdr_expect (get_rx q s)). by destruct (get_rx q s).
Qed.

Lemma tx_iob_frame q q' d s :
  wp True (tx_iob E q d) (fun rc s' => get_rx q' s' = get_rx q' s) s.
Proof.
  unfold tx_iob, xfer_deliver_iob, nvmetcp_tx_resume. loopfree; by destruct q'.
Qed.

Lemma rx_pdu_frame q s :
  wp True (nvmetcp_rx_pdu E q)
     (fun rc s' => exists n, get_rx q s' = (get_rx q s) <| data_expect := n |>) s.
Proof.
  assert (forall r, r = r <| data_expect := data_expect r |>) as Heta by by intros [].
  unfold nvmetcp_rx_pdu, rx_icresp, rx_c2hdata, nvmetcp_tx_h2cdata, nvmetcp_tx_pdu, upd_rx.
  loopfree.
  all: try (exists (data_expect (get_rx q s)); rewrite <-Heta; by destruct q).
  - rewrite get_set_rx. eexists. by destruct q.
  - eapply wp_mono; [apply tx_iob_frame|]. intros rc s' Hs'.
    exists (data_expect (get_rx q s)). rewrite <-Heta, Hs'. by destruct q.
Qed.

Lemma rx_header_bytes_ready q src s :
  rx_ready (get_rx q s) -> (hdr_len (get_rx q s) < hdr_expect (get_rx q s))%nat ->
  wp True (rx_header_bytes E q src) (fun rc s' => rc = OK -> rx_ready (get_rx q s')) s.
Proof.
  intros [(_ & Hde & Hdl & H8)|?] Hlt; [|lia].
  unfold rx_header_bytes, rx_header_copy, rx_header_check, upd_rx.
  apply wp_bind, wp_bind, wp_gets, wp_bind, wp_of_option_lax. intros h _.
  apply wp_update, wp_bind, wp_gets, wp_try.
  rewrite get_set_rx. set (r := (get_rx q s) <| hdr := h |> <| hdr_len ::= _ |>).
  set (s1 := set_rx q r s).
  assert (wp True (if bool_decide (hdr_len r = 8%nat) then nvmetcp_rx_header q else ret OK)
    (fun rc s' => exists n, get_rx q s' = r <| hdr_expect := n |> /\
       (hdr_len r = 8%nat \/ n = hdr_expect (get_rx q s))) s1) as Hh.
  { case_bool_decide as H8'.
    - eapply wp_mono; [apply rx_header_frame|]. unfold s1. rewrite get_set_rx. intros rc s2 [n Hn]. eauto.
    - apply wp_ret. unfold s1. rewrite get_set_rx. eexists. split; [|by right]. by destruct (get_rx q s). }
  eapply wp_mono; [exact Hh|]; clear Hh; intros rc s2 (n & Hr & Hn). destruct rc; [|done].
  apply wp_bind, wp_gets. rewrite Hr.
  change (hdr_len (r <| hdr_expect := n |>)) with (hdr_len r).
  change (hdr_expect (r <| hdr_expect := n |>)) with n.
  assert (hdr_len r = hdr_len (get_rx q s) + length src)%nat as Hrl by done.
  case_bool_decide as Hlt2.
  - apply wp_ret. intros _. rewrite Hr. left. cbn. lia.
  - apply wp_try. eapply wp_mono; [apply rx_pdu_frame|]. intros rc s3 (m & Hr3).
    destruct rc; [|done]. rewrite Hr in Hr3. apply wp_bind, wp_gets. rewrite Hr3.
    change (data_expect (r <| hdr_expect := n |> <| data_expect := m |>)) with m.
    case_bool_decide as Hm.
    + eapply wp_mono; [apply rx_pdu_complete_reset|]. intros rc s4 Hok Hrc.
      destruct (Hok Hrc) as (r' & ->). apply rx_ready_reset.
    + apply wp_ret. intros _. rewrite Hr3. right. cbn in *. lia.
Qed.

Lemma rx_data_bytes_ready q src s :
  (hdr_expect (get_rx q s) <= hdr_len (get_rx q s))%nat ->
  wp True (rx_data_bytes E q src) (fun rc s' => rc = OK -> rx_ready (get_rx q s')) s.
Proof.
  intros Hh. unfold rx_data_bytes, rx_data_copy, rx_data_check, upd_rx. loopfree.
  - intros _. destruct q; right; cbn in *; case_bool_decide; done || lia.
  - eapply wp_mono; [apply rx_pdu_complete_reset|]. intros rc s4 Hok Hrc.
    destruct (Hok Hrc) as (r' & ->). apply rx_ready_reset.
Qed.

Lemma rx_header_bytes_total q src s : wp True (rx_header_bytes E q src) (fun _ _ => True) s.
Proof.
  unfold rx_header_bytes, rx_header_copy, rx_header_check, upd_rx.
  apply wp_bind, wp_bind, wp_gets, wp_bind, wp_of_option_lax. intros h _.
  apply wp_update, wp_bind, wp_gets, wp_try.
  apply wp_mono with (fun _ _ => True).
  { case_bool_decide; [|done]. by eapply wp_mono; [apply rx_header_frame|]. }
  intros rc s2 _. destruct rc; [|done]. loopfree.
  eapply wp_mono; [apply rx_pdu_frame|]. intros rc s3 _. destruct rc; loopfree.
  by eapply wp_mono; [apply rx_pdu_complete_reset|].
Qed.

Lemma rx_data_bytes_total q src s :
  wp True (rx_data_bytes E q src)
     (fun rc s' => rc = OK -> (data_len (get_rx q s) + length src >= data_expect (get_rx q s))%nat ->
                   hdr_len (get_rx q s') = 0%nat /\ hdr_expect (get_rx q s') = 8%nat) s.
Proof.
  unfold rx_data_bytes, rx_data_copy, rx_data_check, upd_rx. loopfree.
  - intros _ Hge. destruct q; cbn in *; case_bool_decide; done || lia.
  - eapply wp_mono; [apply rx_pdu_complete_reset|]. intros rc s4 Hok Hrc _.
    destruct (Hok Hrc) as (r' & ->). done.
Qed.

(** ** Termination *)

(** Iterations left: every header chunk consumes a byte, and a data chunk that
    consumes none completes its PDU, after which a header chunk follows. *)
Definition loop_measure (q : queue) (iob : list Z) (s : session) : nat :=
  (2 * length iob +
   if bool_decide (hdr_len (get_rx q s) < hdr_expect (get_rx q s))%nat then 0 else 1)%nat.

Lemma clip_le e h n : (clip e h n <= n)%nat.
Proof. unfold clip. case_bool_decide; lia. Qed.

Lemma deliver_loop_total fuel q iob s :
  (loop_measure q iob s < fuel)%nat -> wp True (deliver_loop E fuel q iob) (fun _ _ => True) s.
Proof.
  revert iob s. induction fuel as [|fuel IH]; intros iob s Hf; [lia|].
  simpl. destruct iob as [|b iob]; [done|]. set (iob' := b :: iob) in *.
  assert (1 <= length iob')%nat as Hlen by (simpl; lia).
  apply wp_bind, wp_gets. unfold loop_measure in Hf.
  case_bool_decide as Hmode.
  - apply wp_try. eapply wp_mono; [apply rx_header_bytes_total|]. intros rc s' _.
    destruct rc; [|done]. apply IH. unfold loop_measure. rewrite length_drop.
    unfold clip. rewrite bool_decide_true by lia. case_bool_decide; lia.
  - apply wp_try. eapply wp_mono; [apply rx_data_bytes_total|]. intros rc s' Hs'.
    destruct rc; [|done]. apply IH. unfold loop_measure. rewrite length_drop.
    rewrite length_take in Hs'. unfold clip in *. specialize (Hs' eq_refl).
    repeat case_bool_decide; lia.
Qed.

Lemma loop_measure_le q iob s : (loop_measure q iob s < 2 * length iob + 2)%nat.
Proof. unfold loop_measure. case_bool_decide; lia. Qed.

(** More fuel does not change a run that has enough. *)
Lemma deliver_loop_mono fuel fuel' q iob s :
  (fuel <= fuel')%nat -> deliver_loop E fuel q iob s <> NoFuel ->
  deliver_loop E fuel' q iob s = deliver_loop E fuel q iob s.
Proof.
  revert fuel' iob s. induction fuel as [|fuel IH]; intros fuel' iob s Hle Hn; [done|].
  destruct fuel' as [|fuel']; [lia|]. simpl in *. destruct iob as [|b iob]; [done|].
  unfold bind, gets in *. case_bool_decide; unfold try, bind in *.
  - destruct (rx_header_bytes _ _ _ _) as [[] s1| |]; auto with lia.
  - destruct (rx_data_bytes _ _ _ _) as [[] s1| |]; auto with lia.
Qed.

Lemma deliver_loop_enough fuel q iob s :
  (loop_measure q iob s < fuel)%nat ->
  deliver_loop E fuel q iob s = nvmetcp_socket_deliver E q iob s.
Proof.
  intros Hf. unfold nvmetcp_socket_deliver.
  pose proof (loop_measure_le q iob s) as Hm.
  pose proof (deliver_loop_total fuel q iob s Hf) as Hw1.
  pose proof (deliver_loop_total _ q iob s Hm) as Hw2. unfold wp in *.
  destruct (Nat.le_ge_cases fuel (2 * length iob + 2)) as [Hle|Hle].
  - symmetry. apply deliver_loop_mono; [done|]. intros Hn. by rewrite Hn in Hw1.
  - apply deliver_loop_mono; [done|]. intros Hn. by rewrite Hn in Hw2.
Qed.

Lemma deliver_loop_S fuel q iob s :
  iob <> [] ->
  let r := get_rx q s in
  deliver_loop E (S fuel) q iob s =
  if bool_decide (hdr_len r < hdr_expect r)%nat then
    let n := clip (hdr_expect r) (hdr_len r) (length iob) in
    (try* rx_header_bytes E q (take n iob) in deliver_loop E fuel q (drop n iob)) s
  else
    let n := clip (data_expect r) (data_len r) (length iob) in
    (try* rx_data_bytes E q (take n iob) in deliver_loop E fuel q (drop n iob)) s.
Proof.
  intros Hne r. destruct iob as [|b iob]; [done|]. unfold r. cbn [deliver_loop].
  unfold bind at 1, gets. cbv zeta. by case_bool_decide.
Qed.

(** The loop unrolled once: the chunk handled, then the rest of the segment. *)
Lemma deliver_nil q s : nvmetcp_socket_deliver E q [] s = Ret OK s.
Proof. done. Qed.

Lemma deliver_unroll q iob s :
  iob <> [] ->
  let r := get_rx q s in
  nvmetcp_socket_deliver E q iob s =
  if bool_decide (hdr_len r < hdr_expect r)%nat then
    let n := clip (hdr_expect r) (hdr_len r) (length iob) in
    (try* rx_header_bytes E q (take n iob) in nvmetcp_socket_deliver E q (drop n iob)) s
  else
    let n := clip (data_expect r) (data_len r) (length iob) in
    (try* rx_data_bytes E q (take n iob) in nvmetcp_socket_deliver E q (drop n iob)) s.
Proof.
  intros Hne r. rewrite <-(deliver_loop_enough (S (2 * length iob + 2))) by
    (pose proof (loop_measure_le q iob s); lia).
  rewrite deliver_loop_S by done. fold r. cbv zeta. case_bool_decide as Hmode; unfold try, bind.
  - destruct (rx_header_bytes _ _ _ _) as [[] s1| |]; try done.
    apply deliver_loop_enough. eapply Nat.lt_le_trans; [apply loop_measure_le|].
    rewrite length_drop. lia.
  - destruct (rx_data_bytes _ _ _ _) as [[] s1| |]; try done.
    apply deliver_loop_enough. eapply Nat.lt_le_trans; [apply loop_measure_le|].
    rewrite length_drop. lia.
Qed.

(** ** Segmentation *)

(** The state after buffering [a]. *)
Definition hdr_fed (q : queue) (a : list Z) (s : session) : session :=
  set_rx q ((get_rx q s) <| hdr := splice (hdr_len (get_rx q s)) a (hdr (get_rx q s)) |>
              <| hdr_len ::= (fun n => n + length a)%nat |>) s.

Definition data_fed (q : queue) (a : list Z) (s : session) : session :=
  (set_rx q ((get_rx q s) <| data_len ::= (fun n => n + length a)%nat |>) s)
    <| cmd_buf := splice (data_len (get_rx q s)) a (cmd_buf s) |>
    <| cmd_data_offset ::= (fun n => n + length a)%nat |>.

Lemma rx_header_copy_eq q a s :
  rx_header_copy q a s =
  if bool_decide (hdr_len (get_rx q s) + length a <= length (hdr (get_rx q s)))%nat
  then Ret tt (hdr_fed q a s) else Fault.
Proof.
  unfold rx_header_copy, bind, gets, memcpy. by case_bool_decide.
Qed.

Lemma rx_data_copy_eq q a s :
  rx_data_copy q a s =
  if bool_decide (data_len (get_rx q s) + length a <= length (cmd_buf s))%nat
  then Ret tt (data_fed q a s) else Fault.
Proof.
  unfold rx_data_copy, bind, gets, memcpy. case_bool_decide; [|done]. by destruct q.
Qed.

Lemma hdr_fed_rx q a s :
  get_rx q (hdr_fed q a s) =
  (get_rx q s) <| hdr := splice (hdr_len (get_rx q s)) a (hdr (get_rx q s)) |>
               <| hdr_len ::= (fun n => n + length a)%nat |>.
Proof. apply get_set_rx. Qed.

(** Copying in two pieces is copying at once, out-of-range copies included. *)
Lemma rx_header_copy_app q a c s :
  rx_header_copy q (a ++ c) s = (do* rx_header_copy q a in rx_header_copy q c) s.
Proof.
  unfold bind. rewrite !rx_header_copy_eq, length_app.
  repeat case_bool_decide; try lia; rewrite ?rx_header_copy_eq, ?hdr_fed_rx; cbn [hdr_len hdr modify];
    rewrite ?splice_length by lia; repeat case_bool_decide; try (done || lia).
  f_equal. unfold hdr_fed at 1 2. rewrite hdr_fed_rx. cbn [hdr_len hdr modify].
  rewrite splice_splice, length_app by lia.
  destruct q; unfold modify; cbn; by rewrite Nat.add_assoc.
Qed.

Lemma rx_data_copy_app q a c s :
  rx_data_copy q (a ++ c) s = (do* rx_data_copy q a in rx_data_copy q c) s.
Proof.
  assert (data_len (get_rx q (data_fed q a s)) = data_len (get_rx q s) + length a)%nat as Hd
    by by destruct q.
  assert (cmd_buf (data_fed q a s) = splice (data_len (get_rx q s)) a (cmd_buf s)) as Hc
    by by destruct q.
  unfold bind. rewrite !rx_data_copy_eq, length_app.
  repeat case_bool_decide; try lia; rewrite ?rx_data_copy_eq, ?Hd, ?Hc;
    rewrite ?splice_length by lia; repeat case_bool_decide; try (done || lia).
  f_equal. unfold data_fed at 1 2. rewrite Hd, Hc, splice_splice, length_app by lia.
  destruct q; unfold modify; cbn; by rewrite !Nat.add_assoc.
Qed.

(** An incomplete header is only buffered. *)
Lemma rx_header_check_partial q a s :
  rx_ready (get_rx q s) -> a <> [] ->
  (hdr_len (get_rx q s) + length a < hdr_expect (get_rx q s))%nat ->
  rx_header_check E q (hdr_fed q a s) = Ret OK (hdr_fed q a s).
Proof.
  intros [(_ & _ & _ & H8)|?] Ha Hlt; [|lia].
  assert (1 <= length a)%nat by (destruct a; simpl; [done|lia]).
  unfold rx_header_check, bind, gets. rewrite hdr_fed_rx. cbn [hdr_len hdr_expect modify].
  rewrite bool_decide_false by lia. unfold try, bind, ret. rewrite hdr_fed_rx.
  cbn [hdr_len hdr_expect modify]. by rewrite bool_decide_true by lia.
Qed.

Lemma rx_data_check_partial q a s :
  (data_len (get_rx q s) + length a < data_expect (get_rx q s))%nat ->
  rx_data_check E q (data_fed q a s) = Ret OK (data_fed q a s).
Proof.
  intros Hlt. unfold rx_data_check, bind, gets.
  destruct q; cbn in *; by rewrite bool_decide_true by (cbn; lia).
Qed.

Lemma hdr_mode_fed q a s :
  (hdr_len (get_rx q s) + length a < hdr_expect (get_rx q s))%nat ->
  (hdr_len (get_rx q (hdr_fed q a s)) < hdr_expect (get_rx q (hdr_fed q a s)))%nat.
Proof. rewrite hdr_fed_rx. done. Qed.

(** Delivering [a] then [b]. *)
Definition deliver2 (q : queue) (a b : list Z) : M session status :=
  try* nvmetcp_socket_deliver E q a in nvmetcp_socket_deliver E q b.

Lemma take_app_min {A} n (a b : list A) :
  (length a <= n)%nat -> take n (a ++ b) = a ++ take (n - length a) b.
Proof. intros. by rewrite take_app_ge. Qed.

(** The case of a header that [a] leaves incomplete. *)
Lemma deliver_split_header q a b s :
  rx_ready (get_rx q s) -> a <> [] -> b <> [] ->
  (hdr_len (get_rx q s) + length a < hdr_expect (get_rx q s))%nat ->
  nvmetcp_socket_deliver E q (a ++ b) s = deliver2 q a b s.
Proof.
  intros Hr Ha Hb Hlt. set (r := get_rx q s) in *. unfold deliver2, try, bind.
  rewrite (deliver_unroll q a s Ha), (deliver_unroll q (a ++ b) s) by (by destruct a).
  fold r. rewrite bool_decide_true by lia. unfold clip. rewrite !bool_decide_true by lia. cbv zeta.
  rewrite (Nat.min_r _ (length a)) by lia. rewrite (take_ge a), (drop_ge a) by lia.
  rewrite take_app_min, drop_app_ge by (rewrite ?length_app; lia).
  unfold try, bind, rx_header_bytes, bind. rewrite rx_header_copy_app. unfold bind.
  rewrite (rx_header_copy_eq q a s). case_bool_decide; [|done].
  rewrite rx_header_check_partial by done. rewrite deliver_nil.
  rewrite (deliver_unroll q b _ Hb). rewrite bool_decide_true by by apply hdr_mode_fed.
  rewrite hdr_fed_rx. fold r. unfold clip, try, bind, rx_header_bytes, bind.
  cbn [hdr_len hdr_expect modify]. rewrite bool_decide_true by lia. cbv zeta.
  replace (Nat.min (hdr_expect r - hdr_len r) (length (a ++ b)) - length a)%nat with
    (Nat.min (hdr_expect r - (hdr_len r + length a)) (length b)) by (rewrite length_app; lia).
  done.
Qed.

(** The case of data that [a] leaves incomplete. *)
Lemma deliver_split_data q a b s :
  (hdr_expect (get_rx q s) <= hdr_len (get_rx q s))%nat -> a <> [] -> b <> [] ->
  (data_len (get_rx q s) + length a < data_expect (get_rx q s))%nat ->
  nvmetcp_socket_deliver E q (a ++ b) s = deliver2 q a b s.
Proof.
  intros Hm Ha Hb Hlt. set (r := get_rx q s) in *. unfold deliver2, try, bind.
  rewrite (deliver_unroll q a s Ha), (deliver_unroll q (a ++ b) s) by (by destruct a).
  fold r. rewrite bool_decide_false by lia. unfold clip. rewrite !bool_decide_true by lia. cbv zeta.
  rewrite (Nat.min_r _ (length a)) by lia. rewrite (take_ge a), (drop_ge a) by lia.
  rewrite take_app_min, drop_app_ge by (rewrite ?length_app; lia).
  unfold try, bind, rx_data_bytes, bind. rewrite rx_data_copy_app. unfold bind.
  rewrite (rx_data_copy_eq q a s). case_bool_decide; [|done].
  rewrite rx_data_check_partial by done. rewrite deliver_nil.
  rewrite (deliver_unroll q b _ Hb).
  assert (hdr_len (get_rx q (data_fed q a s)) = hdr_len r) as -> by by destruct q.
  assert (hdr_expect (get_rx q (data_fed q a s)) = hdr_expect r) as -> by by destruct q.
  assert (data_len (get_rx q (data_fed q a s)) = data_len r + length a)%nat as -> by by destruct q.
  assert (data_expect (get_rx q (data_fed q a s)) = data_expect r) as -> by by destruct q.
  rewrite bool_decide_false by lia. unfold clip, try, bind, rx_data_bytes, bind.
  rewrite bool_decide_true by lia. cbv zeta.
  replace (Nat.min (data_expect r - data_len r) (length (a ++ b)) - length a)%nat with
    (Nat.min (data_expect r - (data_len r + length a)) (length b)) by (rewrite length_app; lia).
  done.
Qed.

(** Cutting a stream in two delivers the same, whatever the cut. *)
Lemma deliver_app q a b s :
  rx_ready (get_rx q s) ->
  nvmetcp_socket_deliver E q (a ++ b) s = deliver2 q a b s.
Proof.
  remember (length a) as n eqn:Hn. revert a s Hn.
  induction (lt_wf n) as [n _ IH]; intros a s -> Hr.
  destruct (decide (a = [])) as [->|Ha]; [done|].
  destruct (decide (b = [])) as [->|Hb].
  { rewrite app_nil_r. unfold deliver2, try, bind.
    by destruct (nvmetcp_socket_deliver _ _ _ _) as [[] s'| |]. }
  assert (1 <= length a)%nat as Hla by (destruct a; simpl; [done|lia]).
  set (r := get_rx q s) in *.
  destruct (decide (hdr_len r < hdr_expect r)%nat) as [Hm|Hm].
  - destruct (decide (hdr_len r + length a < hdr_expect r)%nat) as [Hs|Hs];
      [by apply deliver_split_header|].
    unfold deliver2, try, bind.
    rewrite (deliver_unroll q a s Ha), (deliver_unroll q (a ++ b) s) by (by destruct a).
    fold r. rewrite bool_decide_true by lia. unfold clip. rewrite !bool_decide_true by lia. cbv zeta.
    rewrite !Nat.min_l by (rewrite ?length_app; lia).
    rewrite take_app_le, drop_app_le by lia. unfold try, bind.
    pose proof (rx_header_bytes_ready q (take (hdr_expect r - hdr_len r) a) s Hr Hm) as Hw.
    unfold wp in Hw. destruct (rx_header_bytes _ _ _ _) as [[] s1| |]; try done.
    rewrite (IH (length (drop (hdr_expect r - hdr_len r) a))); [done|..]; auto.
    rewrite length_drop. lia.
  - destruct Hr as [?|[Hh Hd]]; [unfold r in *; lia|].
    destruct (decide (data_len r + length a < data_expect r)%nat) as [Hs|Hs];
      [by apply deliver_split_data|].
    unfold deliver2, try, bind.
    rewrite (deliver_unroll q a s Ha), (deliver_unroll q (a ++ b) s) by (by destruct a).
    fold r. rewrite bool_decide_false by lia. unfold clip. fold r in Hh, Hd.
    rewrite !bool_decide_true by lia. cbv zeta.
    rewrite !Nat.min_l by (rewrite ?length_app; lia).
    rewrite take_app_le, drop_app_le by lia. unfold try, bind.
    pose proof (rx_data_bytes_ready q (take (data_expect r - data_len r) a) s Hh) as Hw.
    unfold wp in Hw. destruct (rx_data_bytes _ _ _ _) as [[] s1| |]; try done.
    rewrite (IH (length (drop (data_expect r - data_len r) a))); [done|..]; auto.
    rewrite length_drop. lia.
Qed.

Lemma deliver_ready q iob s :
  rx_ready (get_rx q s) ->
  wp True (nvmetcp_socket_deliver E q iob) (fun rc s' => rc = OK -> rx_ready (get_rx q s')) s.
Proof.
  remember (length iob) as n eqn:Hn. revert iob s Hn.
  induction (lt_wf n) as [n _ IH]; intros iob s -> Hr.
  destruct (decide (iob = [])) as [->|Hne]; [exact (fun _ => Hr)|].
  assert (1 <= length iob)%nat as Hl by (destruct iob; simpl; [done|lia]).
  unfold wp. rewrite (deliver_unroll q iob s Hne). cbv zeta.
  case_bool_decide as Hm; unfold clip; unfold try, bind.
  - rewrite bool_decide_true by lia.
    pose proof (rx_header_bytes_ready q (take (Nat.min (hdr_expect (get_rx q s) -
      hdr_len (get_rx q s)) (length iob)) iob) s Hr Hm) as Hw.
    unfold wp in Hw. destruct (rx_header_bytes _ _ _ _) as [[] s1| |]; try done.
    refine (IH _ _ _ _ eq_refl _); [rewrite length_drop; lia|by apply Hw].
  - destruct Hr as [?|[Hh Hd]]; [lia|]. rewrite bool_decide_true by lia.
    pose proof (rx_data_bytes_ready q (take (Nat.min (data_expect (get_rx q s) -
      data_len (get_rx q s)) (length iob)) iob) s Hh) as Hw.
    unfold wp in Hw. destruct (rx_data_bytes _ _ _ _) as [[] s1| |]; try done.
    refine (IH _ _ _ _ eq_refl _); [rewrite length_drop; lia|by apply Hw].
Qed.

(** Deliver a sequence of segments, stopping at the first error. *)
Fixpoint deliver_all (q : queue) (segs : list (list Z)) : M session status :=
  match segs with
  | [] => ret OK
  | seg :: segs => try* nvmetcp_socket_deliver E q seg in deliver_all q segs
  end.

Lemma deliver_all_concat q segs s :
  rx_ready (get_rx q s) ->
  deliver_all q segs s = nvmetcp_socket_deliver E q (concat segs) s.
Proof.
  revert s. induction segs as [|seg segs IH]; intros s Hr; [done|].
  cbn [deliver_all concat]. rewrite deliver_app by done.
  unfold deliver2, try, bind. pose proof (deliver_ready q seg s Hr) as Hw. unfold wp in Hw.
  destruct (nvmetcp_socket_deliver _ _ seg s) as [[] s'| |]; [|done..]. apply IH. by apply Hw.
Qed.
End Stream.

Section Claims.
Context `{DigestOps} `{ExchangeOps} (E : env).

(** [C26] Termination: from every session state, on every queue and every
    segment, [nvmetcp_socket_deliver] returns a status or meets undefined
    behaviour; its loop never runs forever (the fuel of the model, twice the
    segment length plus two, is always enough). *)
Theorem socket_deliver_terminates q iob s :
  nvmetcp_socket_deliver E q iob s <> NoFuel.
Proof.
  pose proof (deliver_loop_total E _ q iob s (loop_measure_le q iob s)) as Hw.
  unfold wp in Hw. unfold nvmetcp_socket_deliver. by destruct (deliver_loop _ _ _ _ _).
Qed.

(** Segmentation independence: cutting the byte stream of a queue into TCP
    segments in any way, empty ones included, gives the same status, the same
    session state and the same interface traffic as delivering the whole stream
    at once, provided the queue is between two bytes of the stream. *)
Theorem socket_deliver_segmentation q segs s :
  rx_ready (get_rx q s) ->
  deliver_all E q segs s = nvmetcp_socket_deliver E q (concat segs) s.
Proof. apply deliver_all_concat. Qed.
End Claims.

#[local] Existing Instances Toy.digest Toy.exchange.

(** A Connect response cut after its fifth byte, delivered to a session that has
    just sent Connect. *)
Lemma socket_deliver_segmentation_witness :
  let s := zero_session <| phase := NVMETCP_PHASE_CONNECT_ADMIN |>
             <| rx := nvmetcp_rx_reset zero_rx |> in
  let a := [5; 0; 24; 0; 24] in
  let b := [0; 0; 0] ++ zeros 16 in
  rx_ready (get_rx Admin s) /\
  deliver_all (ToyEnv.env false) Admin [a; b] s =
  nvmetcp_socket_deliver (ToyEnv.env false) Admin (concat [a; b]) s.
Proof.
  split; [apply rx_ready_reset|].
  apply (socket_deliver_segmentation (ToyEnv.env false) Admin). apply rx_ready_reset.
Defined.
