(* ===== verification/NvmeInv.v ===== *)
(** * Session invariant and memory safety (net/tcp/nvmetcp.c, nvmetcp_auth.c)

    [Inv] is what holds of a session between any two calls of the iPXE core: the
    sizes of the buffers the code indexes, the objects it dereferences, the
    receive state of each queue, and the discipline of the transmission process.
    Every operation of the driver preserves it and, with the exceptions proved in
    NvmeFindings.v, meets no undefined behaviour from a state that satisfies it. *)

From stdpp Require Import base list strings relations.
From Stdlib Require Import ZArith Lia.
From S2P Require Import Prelude Layout NvmeWire Crypto NvmeState NvmeTx NvmeAuth NvmeUri NvmeRx.
From S2P Require Import NvmeOps NvmeStream.

(** ** Invariants of the parts *)
Record rx_inv (r : nvmetcp_rx) : Prop := {
  ri_len : length (hdr r) = 128%nat;
  ri_ok : bytes_ok (hdr r);
  ri_hdr : (hdr_len r <= 128)%nat;
  ri_hlen : (hdr_expect r <= 255)%nat;
  ri_expect : (data_expect r <= NVMETCP_MAX_CMD_DATA)%nat;
  ri_data : (data_len r <= data_expect r)%nat;
  ri_head : (hdr_len r < hdr_expect r -> data_expect r = 0)%nat;
}.

Record auth_inv (a : nvmetcp_auth) : Prop := {
  ai_cval : length (cval a) = NVME_AUTH_MAX_DIGEST_SIZE;
  ai_session : length (session_key a) = NVME_AUTH_MAX_DH_SIZE;
  ai_priv : length (priv_key a) = NVME_AUTH_MAX_DH_SIZE;
  ai_pub : length (pub_key a) = NVME_AUTH_MAX_DH_SIZE;
  ai_hl : (hl a <= NVME_AUTH_MAX_DIGEST_SIZE)%nat;
  ai_dhvlen : (dhvlen a <= NVME_AUTH_MAX_DH_SIZE)%nat;
  ai_done : completed a = true -> step a = NVMETCP_AUTH_STEP_START;
}.

(** [Inv]: [i_flow] says that the process is off the run queue while a command is
    in flight; [i_phase] that the unused phase is never entered. *)
Record Inv (s : session) : Prop := {
  i_rx : rx_inv (rx s);
  i_rx_io : rx_inv (rx_io s);
  i_auth : auth_inv (auth s);
  i_buf : length (cmd_buf s) = NVMETCP_MAX_CMD_DATA;
  i_cqe : length (cqe s) = 16%nat;
  i_host : is_Some (host_nqn s);
  i_subsys : is_Some (subsystem_nqn s);
  i_secret : phase s = NVMETCP_PHASE_AUTH -> is_Some (secret s);
  i_block : block_len s = length (block_buffer s);
  i_block_max : (block_len s <= NVMETCP_MAX_CMD_DATA)%nat;
  i_phase : phase s <> NVMETCP_PHASE_FAILED;
  i_flow : running s = true -> tx_in_flight s = false;
}.

Lemma rx_inv_reset r : rx_inv r -> rx_inv (nvmetcp_rx_reset r).
Proof. intros []. constructor; cbn; auto with lia. Qed.

Lemma get_rx_inv q s : Inv s -> rx_inv (get_rx q s).
Proof. intros []. by destruct q. Qed.

Lemma digestsize_max d : (digestsize d <= NVME_AUTH_MAX_DIGEST_SIZE)%nat.
Proof. destruct d; vm_compute; lia. Qed.

Lemma pubsize_max x : (pubsize x <= NVME_AUTH_MAX_DH_SIZE)%nat.
Proof. destruct x; vm_compute; lia. Qed.

#[export] Hint Resolve rx_inv_reset get_rx_inv : fw.

(** [inv_solve] re-establishes [Inv] after assignments to some members. *)
Ltac inv_solve :=
  repeat match goal with HI : Inv _ |- _ => destruct HI end;
  constructor; cbn in *; auto with fw;
  try match goal with
      | HR : rx_inv ?r |- rx_inv (Rx (hdr ?r) 0 8 0 0) => exact (rx_inv_reset r HR)
      | HA : auth_inv (auth ?s) |- auth_inv _ => destruct HA; constructor; cbn in *; auto with fw
      end;
  try congruence.

(** ** Transmission *)
Section TxInv.
Context (E : env).
Implicit Types (s : session).

Lemma inv_tick s t : Inv s -> Inv (s <| tick := t |>).
Proof. intros. inv_solve. Qed.

Lemma inv_events s f : Inv s -> Inv (s <| events ::= f |>).
Proof. intros. inv_solve. Qed.

Lemma inv_cmd s c : Inv s -> Inv (s <| cmd := c |>).
Proof. intros. inv_solve. Qed.

Lemma inv_cid s f : Inv s -> Inv (s <| cid ::= f |>).
Proof. intros. inv_solve. Qed.

Lemma inv_sent q d s : Inv s -> Inv (sent q d s).
Proof. intros. inv_solve. Qed.

Lemma inv_set_rx q r s : Inv s -> rx_inv r -> Inv (set_rx q r s).
Proof. intros. destruct q; inv_solve. Qed.

Lemma inv_expecting q n s : Inv s -> Inv (expecting q n s).
Proof.
  intros. unfold expecting. apply inv_set_rx; [inv_solve|].
  apply rx_inv_reset, get_rx_inv. inv_solve.
Qed.
End TxInv.

#[export] Hint Resolve inv_tick inv_events inv_cmd inv_cid inv_sent inv_set_rx inv_expecting : fw.

(** [kept s s']: the invariant holds again, in the same phase and with the same
    authentication context. *)
Definition kept (s s' : session) : Prop :=
  Inv s' /\ phase s' = phase s /\ auth s' = auth s /\ secret s' = secret s.

Section TxSafe.
Context (E : env).
Implicit Types (s : session).

Ltac kept_solve := unfold kept; split_and!; [by auto 6 with fw|cbn; congruence..].

Lemma tx_command_safe q c d n s0 s :
  kept s0 s -> wp False (nvmetcp_tx_command E q c d n) (fun _ => kept s0) s.
Proof.
  intros (HI & Hp & Ha & Hs). apply wp_tx_command.
  - intros. kept_solve.
  - intros t. destruct q; kept_solve.
Qed.

Lemma kept_refl s : Inv s -> kept s s.
Proof. unfold kept. auto. Qed.

Lemma next_cid_safe s0 s Q :
  kept s0 s -> (forall id s', kept s0 s' -> cmd s' = zeros nvme_command_size -> Q id s') ->
  wp False next_cid Q s.
Proof.
  intros (HI & Hp & Ha & Hs) HQ. unfold next_cid. wp_run. apply HQ; [|done].
  unfold kept. split_and!; auto. inv_solve.
Qed.

Lemma kept_cmd s0 s c : kept s0 s -> kept s0 (s <| cmd := c |>).
Proof. intros (HI & Hp & Ha & Hs). unfold kept. split_and!; auto. inv_solve. Qed.

Lemma tx_icreq_safe q s : Inv s -> wp False (nvmetcp_tx_icreq E q) (fun _ => kept s) s.
Proof. intros HI. apply wp_tx_data; intros; kept_solve. Qed.

Lemma tx_connect_safe q qid s : Inv s -> wp False (nvmetcp_tx_connect E q qid) (fun _ => kept s) s.
Proof.
  intros HI. unfold nvmetcp_tx_connect. wp_step. apply (next_cid_safe s); [by apply kept_refl|].
  intros id s1 Hk _. wp_run; try by apply tx_command_safe, kept_cmd.
  all: intros Ho; destruct Hk as (HI1 & _); cbn in Ho; apply eq_None_not_Some in Ho; apply Ho, HI1.
Qed.

Lemma tx_prop_set_safe s : Inv s -> wp False (nvmetcp_tx_prop_set E) (fun _ => kept s) s.
Proof.
  intros HI. unfold nvmetcp_tx_prop_set. wp_step. apply (next_cid_safe s); [by apply kept_refl|].
  intros id s1 Hk _. wp_run. by apply tx_command_safe, kept_cmd.
Qed.

Lemma tx_identify_safe cns n s : Inv s -> wp False (nvmetcp_tx_identify E cns n) (fun _ => kept s) s.
Proof.
  intros HI. unfold nvmetcp_tx_identify. wp_step. apply (next_cid_safe s); [by apply kept_refl|].
  intros id s1 Hk _. wp_run. by apply tx_command_safe, kept_cmd.
Qed.

(** An R2T whose range does not wrap around 2^32. *)
Definition r2t_ok (h : list Z) : Prop :=
  get_field nvmetcp_r2t_pdu "r2t_offset" h + get_field nvmetcp_r2t_pdu "r2t_length" h < 2 ^ 32.

(** An R2T for data, if it asks for any, of a command that is still pending. *)
Definition r2t_timely (h : list Z) (s : session) : Prop :=
  get_field nvmetcp_r2t_pdu "r2t_length" h <> 0 -> lent s = true.

Lemma tx_h2cdata_safe (F : Prop) h s :
  Inv s -> bytes_ok h -> (sizeof nvmetcp_r2t_pdu <= length h)%nat ->
  (r2t_ok h /\ r2t_timely h s \/ F) ->
  wp F (nvmetcp_tx_h2cdata E h) (fun _ => kept s) s.
Proof.
  intros HI Hb Hl Hw. unfold nvmetcp_tx_h2cdata. wp_run; [by apply kept_refl|].
  apply wp_tx_pdu.
  - intros. kept_solve.
  - intros. kept_solve.
  - pose proof (get_field_range nvmetcp_r2t_pdu "r2t_offset" h Hb Hl) as Ho.
    pose proof (get_field_range nvmetcp_r2t_pdu "r2t_length" h Hb Hl) as Hn.
    unfold r2t_ok, read in *. destruct HI.
    destruct Hw as [[Hw Hv]|]; [|done]. rewrite u32_id in Heqb by lia.
    destruct (_ =? 0) eqn:Hz; [done|]. rewrite Hv by lia. rewrite bool_decide_true; [done|lia].
Qed.
End TxSafe.

(** ** Authentication *)
Section AuthSafe.
Context `{DigestLaws} `{ExchangeLaws} (E : env) `{EnvLaws E}.
Implicit Types (s : session).

(** A helper leaves everything but the consultation counter as it was. *)
Definition ticked (s s' : session) : Prop := exists t, s' = s <| tick := t |>.

Lemma ticked_kept s s' : Inv s -> ticked s s' -> kept s s'.
Proof. intros HI [t ->]. unfold kept. split_and!; try done. auto with fw. Qed.

Lemma ticked_trans s s1 s2 : ticked s s1 -> ticked s1 s2 -> ticked s s2.
Proof. intros [t1 ->] [t2 ->]. by exists t2. Qed.

Lemma ticked_refl s : ticked s s.
Proof. exists (tick s). by destruct s. Qed.

Lemma ticked_S s : ticked s (s <| tick ::= S |>).
Proof. by exists (S (tick s)). Qed.

Hint Resolve ticked_refl ticked_S : fw.

Lemma auth_hmac_safe d k m s :
  wp False (nvmetcp_auth_hmac E d k m)
    (fun r s' => ticked s s' /\ forall v, r = inr v -> v = HMAC d k m) s.
Proof.
  unfold nvmetcp_auth_hmac. wp_run; (split; [auto with fw|]); [done|]. by intros v [= <-].
Qed.

Lemma parse_digits_nonneg p id : 0 <= id -> 0 <= (parse_digits p id).1.
Proof.
  revert id. induction p as [|c p IH]; intros id Hid; simpl; [done|].
  destruct (_ && _); [|done]. apply IH, u32_range.
Qed.

Lemma auth_hash_known id :
  0 <= id -> (id =? 0) = false -> (id >? NVME_AUTH_HASH_SHA512) = false ->
  is_Some (nvmetcp_auth_hash id).
Proof.
  unfold nvmetcp_auth_hash, NVME_AUTH_HASH_SHA256, NVME_AUTH_HASH_SHA384, NVME_AUTH_HASH_SHA512.
  intros. assert (id = 1 \/ id = 2 \/ id = 3) as Hid by lia.
  destruct Hid as [->|[->| ->]]; by eexists.
Qed.

Lemma parse_secret_safe s :
  is_Some (secret s) ->
  wp False (nvmetcp_auth_parse_secret E)
    (fun r s' => ticked s s' /\
       forall id k, r = inr (id, k) -> is_Some (nvmetcp_auth_hash id)) s.
Proof.
  intros [sec Hs]. unfold nvmetcp_auth_parse_secret. wp_run; try (split; [auto with fw|done]).
  2: by rewrite Hs.
  split; [auto with fw|]. intros ? ? [= <- <-].
  match goal with Hp : parse_digits ?p 0 = (?id, _) |- _ =>
    pose proof (parse_digits_nonneg p 0 (Z.le_refl 0)) as Hn; rewrite Hp in Hn end.
  repeat match goal with Hb : (_ || _) = false |- _ => apply orb_false_iff in Hb as [? ?] end.
  by apply auth_hash_known.
Qed.

Lemma transform_key_safe d k s :
  Inv s ->
  wp False (nvmetcp_auth_transform_key E d k)
    (fun r s' => ticked s s' /\ forall v, r = inr v -> length v = digestsize d) s.
Proof.
  intros HI. unfold nvmetcp_auth_transform_key. wp_run.
  - split; [auto with fw|done].
  - split; [auto with fw|]. intros v [= <-]. apply hmac_final_length.
  - intros Ho. cbn in Ho. apply eq_None_not_Some in Ho. apply Ho, HI.
Qed.

Lemma auth_response_safe d k c s :
  Inv s ->
  wp False (nvmetcp_auth_response E d k c)
    (fun r s' => ticked s s' /\ forall v, r = inr v -> length v = digestsize d) s.
Proof.
  intros HI. unfold nvmetcp_auth_response. wp_run.
  - split; [auto with fw|done].
  - split; [auto with fw|]. intros v [= <-]. apply hmac_final_length.
  - intros Ho. cbn in Ho. apply eq_None_not_Some in Ho. apply Ho, HI.
  - intros Ho. cbn in Ho. apply eq_None_not_Some in Ho. apply Ho, HI.
Qed.

Lemma auth_tx_send_safe fct d n s0 s :
  kept s0 s -> wp False (nvmetcp_auth_tx_command E fct d n) (fun _ => kept s0) s.
Proof.
  intros Hk. unfold nvmetcp_auth_tx_command. wp_step. apply (next_cid_safe s0); [done|].
  intros id s1 Hk1 _. wp_run. by apply tx_command_safe, kept_cmd.
Qed.

Lemma cmd_buf_copy_safe off src s0 s Q :
  kept s0 s -> (off + length src <= NVMETCP_MAX_CMD_DATA)%nat ->
  (forall s', kept s0 s' -> Q tt s') -> wp False (cmd_buf_copy off src) Q s.
Proof.
  intros (HI & Hp & Ha & Hs) Hl HQ. unfold cmd_buf_copy, set_cmd_buf. pose proof (i_buf s HI) as Hb.
  wp_run; rewrite memcpy_some in * by lia; [|done]. simplify_eq. apply HQ.
  unfold kept. split_and!; auto. inv_solve. rewrite splice_length by lia. done.
Qed.

Lemma reply_header_length a b : length (reply_header a b) = sizeof nvmf_auth_dhchap_reply_data.
Proof. unfold reply_header. by rewrite !set_field_length by solve_size. Qed.

Lemma wp_ticked {A} (m : M session A) P s0 s Q :
  wp False m (fun r s' => ticked s s' /\ P r) s -> kept s0 s ->
  (forall r s', kept s0 s' -> P r -> Q r s') -> wp False m Q s.
Proof.
  intros Hm Hk HQ. eapply wp_mono; [exact Hm|]. intros r s' [[t ->] HP]. apply HQ; [|done].
  destruct Hk as (? & ? & ? & ?). unfold kept. split_and!; auto with fw.
Qed.

Lemma kept_trans s0 s1 s2 : kept s0 s1 -> kept s1 s2 -> kept s0 s2.
Proof. intros (? & ? & ? & ?) (? & ? & ? & ?). unfold kept. split_and!; congruence. Qed.

Lemma kept_tick s0 s : kept s0 s -> kept s0 (s <| tick ::= S |>).
Proof. intros (HI & ? & ? & ?). unfold kept. split_and!; auto. inv_solve. Qed.

(** The tail of [nvmetcp_auth_tx_reply]: the message fits the command buffer. *)
Lemma reply_fits a : auth_inv a ->
  (sizeof nvmf_auth_dhchap_reply_data + 2 * hl a + dhvlen a <= NVMETCP_MAX_CMD_DATA)%nat.
Proof.
  intros []. unfold NVME_AUTH_MAX_DIGEST_SIZE, NVME_AUTH_MAX_DH_SIZE in *.
  change (sizeof _) with 16%nat. change NVMETCP_MAX_CMD_DATA with 4096%nat. lia.
Qed.

Lemma auth_tx_reply_safe d x s :
  Inv s -> is_Some (secret s) ->
  wp False (nvmetcp_auth_tx_reply E d x) (fun _ => kept s) s.
Proof.
  intros HI Hsec. unfold nvmetcp_auth_tx_reply.
  pose proof (reply_fits _ (i_auth s HI)) as Hfit.
  wp_step. apply wp_consult. assert (kept s (s <| tick ::= S |>)) as Hk by by apply kept_tick, kept_refl.
  set (key0 := stack_bytes _ _ _). assert (length key0 = 64%nat) as Hk0 by apply stack_length.
  revert Hk. generalize (s <| tick ::= S |>) at 1 2. intros s1 Hk.
  wp_step. eapply wp_ticked; [apply parse_secret_safe|exact Hk|].
  { by destruct Hk as (_ & _ & _ & ->). }
  clear Hk. intros r s2 Hk Hr. destruct r as [e|[hid sec]]; [done|].
  destruct (Hr _ _ eq_refl) as [sd Hsd]. wp_step. rewrite Hsd. wp_prim. wp_step.
  eapply (wp_ticked _ (fun r => forall v, r = inr v -> length v = digestsize sd)); [apply transform_key_safe, Hk|exact Hk|].
  clear Hk. intros r s3 Hk Hr3. destruct r as [e|tk]; [done|]. specialize (Hr3 _ eq_refl).
  pose proof (digestsize_max sd) as Hmax. unfold NVME_AUTH_MAX_DIGEST_SIZE in *.
  rewrite memcpy_some by lia. wp_step. wp_prim. wp_step. wp_step. wp_step.
  assert (auth s3 = auth s) as -> by apply Hk.
  apply (wp_mono _ _ (fun _ => kept s)).
  { destruct x; [|by apply wp_ret]. eapply wp_ticked; [apply auth_hmac_safe|exact Hk|done]. }
  clear Hk. intros [e|ch] s4 Hk; [done|]. wp_step.
  eapply (wp_ticked _ (fun r => forall v, r = inr v -> length v = digestsize d));
    [apply auth_response_safe, Hk|exact Hk|].
  clear Hk. intros [e|rsp] s5 Hk Hr5; [done|]. specialize (Hr5 _ eq_refl).
  wp_step. apply (cmd_buf_copy_safe _ _ s); [done|rewrite reply_header_length; lia|].
  clear Hk. intros s6 Hk. wp_step. apply (cmd_buf_copy_safe _ _ s); [done|len|].
  clear Hk. intros s7 Hk. wp_step. destruct x.
  - wp_step. apply (cmd_buf_copy_safe _ _ s); [done|len|]. clear Hk. intros s8 Hk.
    wp_step. apply (cmd_buf_copy_safe _ _ s); [done|len|]. clear Hk. intros s9 Hk.
    wp_run. unfold nvmetcp_auth_tx_send. by apply auth_tx_send_safe.
  - wp_run. unfold nvmetcp_auth_tx_send. by apply auth_tx_send_safe.
Qed.

(** What the challenge handler leaves: same phase and secret, same progress. *)
Definition progressed (s s' : session) : Prop :=
  Inv s' /\ phase s' = phase s /\ secret s' = secret s /\
  completed (auth s') = completed (auth s) /\ step (auth s') = step (auth s).

Lemma kept_progressed s0 s s' : progressed s0 s -> kept s s' -> progressed s0 s'.
Proof.
  intros (? & ? & ? & ? & ?) (? & ? & Ha & ?). unfold progressed. rewrite Ha.
  split_and!; congruence.
Qed.

Lemma wp_progressed_auth f s0 s Q :
  progressed s0 s -> auth_inv (f (auth s)) -> completed (f (auth s)) = completed (auth s) ->
  step (f (auth s)) = step (auth s) ->
  (forall s', progressed s0 s' -> auth s' = f (auth s) -> cmd_buf s' = cmd_buf s -> Q tt s') ->
  wp False (upd_auth f) Q s.
Proof.
  intros (HI & ? & ? & ? & ?) Ha Hc Hs HQ. apply wp_update, HQ; [|done..].
  unfold progressed. split_and!; cbn; try congruence. inv_solve.
Qed.

Lemma progressed_tick s0 s : progressed s0 s -> progressed s0 (s <| tick ::= S |>).
Proof. intros. eapply kept_progressed; [done|]. by apply kept_tick, kept_refl, H. Qed.

Ltac auth_inv_solve :=
  match goal with HI : auth_inv _ |- _ => destruct HI end;
  constructor; cbn in *; rewrite ?splice_length; auto; try lia.

Lemma dh_key_safe x d ck s0 s :
  progressed s0 s -> wp False (nvmetcp_auth_dh_key E x d ck) (fun _ => progressed s0) s.
Proof.
  intros Hp. unfold nvmetcp_auth_dh_key.
  wp_step. apply wp_consult. apply progressed_tick in Hp.
  revert Hp. generalize (s <| tick ::= S |>) at 1 2. intros s1 Hp.
  pose proof (get_random_length (tick s) (privsize x)) as Hrl.
  pose proof (privsize_le x) as Hpv. pose proof (pubsize_max x) as Hpm.
  destruct (get_random_nz E (tick s) (privsize x)) as [[|e] priv]; [|by apply wp_ret].
  cbn in Hrl. do 2 wp_step.
  pose proof (i_auth s1 (proj1 Hp)) as Ha. pose proof (ai_priv _ Ha). pose proof (ai_pub _ Ha).
  pose proof (ai_session _ Ha). wp_step. rewrite memcpy_some by lia. wp_prim. wp_step.
  apply (wp_progressed_auth _ s0); [done|auth_inv_solve|done..|]. intros s2 Hp2 Ha2 _. clear Hp.
  pose proof (exchange_share_length x priv) as Hsl.
  destruct (exchange_share x priv) as [[|e] pub]; [|by apply wp_ret]. cbn in Hsl.
  wp_step. rewrite memcpy_some by lia. wp_prim. wp_step.
  apply (wp_progressed_auth _ s0); [done|rewrite Ha2; auth_inv_solve|rewrite Ha2; done..|].
  intros s3 Hp3 Ha3 _. clear Hp2.
  destruct (exchange_agree x priv ck) as [[|e] shared]; [|by apply wp_ret].
  wp_step. apply wp_consult. apply progressed_tick in Hp3.
  revert Hp3. assert (auth (s3 <| tick ::= S |>) = auth s3) as Ht by done. revert Ht.
  generalize (s3 <| tick ::= S |>). intros s4 Ha4 Hp4.
  destruct (negb _); [by apply wp_ret|]. wp_step.
  pose proof (digestsize_max d). unfold NVME_AUTH_MAX_DIGEST_SIZE, NVME_AUTH_MAX_DH_SIZE in *.
  rewrite memcpy_some by (rewrite digest_final_length; lia). wp_prim. wp_step.
  pose proof (i_auth s4 (proj1 Hp4)) as Ha5.
  apply (wp_progressed_auth _ s0); [done|auth_inv_solve|done..|].
  { rewrite digest_final_length. unfold NVME_AUTH_MAX_DH_SIZE. lia. }
  intros s5 Hp5 Hau5 _. wp_step. pose proof (i_auth s5 (proj1 Hp5)) as Ha6.
  apply (wp_progressed_auth _ s0); [done|auth_inv_solve|done..|]. intros. by apply wp_ret.
Qed.

Lemma rx_validate_safe e s Q :
  (forall rc, Q rc s) -> wp False (nvmetcp_auth_rx_validate e) Q s.
Proof. intros HQ. unfold nvmetcp_auth_rx_validate. wp_run; apply HQ. Qed.

Lemma rx_challenge_safe s :
  Inv s -> is_Some (secret s) ->
  wp False (nvmetcp_auth_rx_challenge E) (fun _ => progressed s) s.
Proof.
  intros HI Hsec. unfold nvmetcp_auth_rx_challenge.
  assert (progressed s s) as Hp by (unfold progressed; auto).
  wp_step. apply rx_validate_safe. intros [|e]; [|done]. do 2 wp_step.
  destruct (nvmetcp_auth_hash _) as [d|]; [|by apply wp_ret].
  pose proof (digestsize_max d) as Hd. pose proof (i_auth _ HI) as Ha.
  wp_step. apply (wp_progressed_auth _ s); [done|auth_inv_solve|done..|].
  clear Hp. intros s1 Hp Ha1 _. wp_step. pose proof (i_auth _ (proj1 Hp)) as Hi1.
  apply (wp_progressed_auth _ s); [done|auth_inv_solve|done..|].
  clear Hp. intros s2 Hp Ha2 _. destruct (negb _); [by apply wp_ret|].
  match goal with |- context [if ?c then None else nvmetcp_auth_exchange ?g] =>
    generalize (if c then None else nvmetcp_auth_exchange g); intros x end.
  lazymatch goal with |- wp _ (if ?c then _ else _) _ _ => destruct c end; [by apply wp_ret|].
  pose proof (i_auth _ (proj1 Hp)) as Hi2. wp_step.
  apply (wp_progressed_auth _ s); [done|auth_inv_solve|done..|].
  clear Hp. intros s3 Hp Ha3 _. wp_step. pose proof (i_auth _ (proj1 Hp)) as Hi3.
  apply (wp_progressed_auth _ s); [done|auth_inv_solve|done..|].
  clear Hp. intros s4 Hp Ha4 _. pose proof (i_auth _ (proj1 Hp)) as Hi4. do 3 wp_step.
  pose proof (ai_cval _ Hi4) as Hc. pose proof (i_buf _ HI) as Hb.
  assert (length (sub (sizeof nvmf_auth_dhchap_challenge_data) (digestsize d) (cmd_buf s))
          = digestsize d) as Hsl.
  { apply sub_length. rewrite Hb. change (sizeof _) with 16%nat.
    unfold NVMETCP_MAX_CMD_DATA, NVME_AUTH_MAX_DIGEST_SIZE in *. lia. }
  revert Hsl. generalize (sub (sizeof nvmf_auth_dhchap_challenge_data) (digestsize d) (cmd_buf s)).
  intros cv Hsl. rewrite memcpy_some by lia. wp_prim. wp_step.
  apply (wp_progressed_auth _ s); [done|auth_inv_solve|done..|].
  clear Hp. intros s5 Hp _ _. wp_step.
  apply (wp_mono _ _ (fun _ => progressed s)).
  { destruct x; [by apply dh_key_safe|by apply wp_ret]. }
  clear Hp. intros [|e] s6 Hp; [|done]. cbv beta. eapply wp_mono.
  - apply auth_tx_reply_safe; [apply Hp|]. by destruct Hp as (_ & _ & -> & _).
  - intros rc s7. by apply kept_progressed.
Qed.

Lemma rx_success1_safe s :
  Inv s -> phase s = NVMETCP_PHASE_AUTH ->
  wp False nvmetcp_auth_rx_success1
    (fun rc s' => (rc <> OK -> s' = s) /\
       (rc = OK -> s' = s <| auth ::= (fun a => a <| completed := true |>) |>)) s.
Proof.
  intros HI Hp. unfold nvmetcp_auth_rx_success1. wp_step. apply rx_validate_safe.
  intros [|e]; [|done]. wp_run; done.
Qed.

(** What the authentication steps promise the session: the invariant, the same
    phase and secret, and that a message was only sent when the exchange is not
    complete. *)
Definition stepped (s s' : session) : Prop :=
  Inv s' /\ phase s' = phase s /\ secret s' = secret s /\
  (tx_in_flight s' = tx_in_flight s \/ completed (auth s') = false).

Lemma stepped_refl s : Inv s -> stepped s s.
Proof. unfold stepped. auto. Qed.

Lemma inv_auth s f : Inv s -> auth_inv (f (auth s)) -> Inv (s <| auth ::= f |>).
Proof. intros. inv_solve. Qed.

Lemma receive_step_safe n s :
  Inv s -> completed (auth s) = false ->
  wp False (nvmetcp_auth_tx_receive_step E n) (fun _ => stepped s) s.
Proof.
  intros HI Hc. unfold nvmetcp_auth_tx_receive_step. wp_step. apply wp_update. wp_step.
  pose proof (i_auth _ HI) as Ha.
  set (s1 := s <| auth ::= _ |>). assert (Inv s1) as HI1.
  { apply inv_auth; [done|]. destruct Ha; constructor; cbn; auto. congruence. }
  unfold nvmetcp_auth_tx_receive. eapply wp_mono; [apply auth_tx_send_safe, kept_refl, HI1|].
  clear Ha. intros rc s2 (HI2 & Hp2 & Ha2 & Hs2). pose proof (i_auth _ HI2) as Ha.
  assert (completed (auth s2) = false) as Hc2 by by rewrite Ha2.
  destruct rc; wp_run; apply wp_update; wp_run; unfold stepped.
  - split_and!; [|done..|by right]. apply inv_auth; [done|]. by destruct Ha; constructor.
  - split_and!; [|done..|by right]. apply inv_auth; [done|].
    destruct Ha; constructor; cbn; auto. congruence.
Qed.

Lemma auth_step_safe s : Inv s -> wp False (nvmetcp_auth_step E) (fun _ => stepped s) s.
Proof.
  intros HI. pose proof (i_auth _ HI) as Ha. pose proof (ai_done _ Ha) as Hd.
  unfold nvmetcp_auth_step. do 2 wp_step. destruct (step (auth s)) eqn:Hst.
  1: destruct (completed (auth s)) eqn:Hc; [by apply wp_ret, stepped_refl|].
  2-5: destruct (completed (auth s)) eqn:Hc; [by specialize (Hd eq_refl)|].
  - wp_step. apply wp_consult. destruct (get_random_nz _ _ _) as [[|e] b].
    2: { apply wp_ret. unfold stepped. split_and!; auto. inv_solve. }
    wp_step. apply wp_update. wp_step. apply wp_update.
    unfold nvmetcp_auth_tx_negotiate. do 2 wp_step. unfold nvmetcp_auth_tx_send.
    eapply wp_mono; [apply auth_tx_send_safe, kept_refl|].
    + inv_solve.
    + intros rc s' (HI' & Hp' & Ha' & Hs'). unfold stepped. split_and!; auto.
      right. rewrite Ha'. done.
  - wp_run; [by apply stepped_refl|]. by apply receive_step_safe.
  - wp_run. by apply stepped_refl.
  - wp_run; [by apply stepped_refl|]. by apply receive_step_safe.
  - wp_run. by apply stepped_refl.
Qed.

Lemma auth_rx_complete_safe s :
  Inv s -> wp False (nvmetcp_auth_rx_complete E) (fun _ => stepped s) s.
Proof.
  intros HI. pose proof (i_auth _ HI) as Ha. pose proof (ai_done _ Ha) as Hd.
  assert (step (auth s) <> NVMETCP_AUTH_STEP_START -> completed (auth s) = false) as Hc.
  { intros Hn. destruct (completed (auth s)); [|done]. by specialize (Hd eq_refl). }
  assert (stepped s (s <| auth ::= (fun a => a <| rx_complete := true |>) |>)) as Hrc.
  { unfold stepped. split_and!; auto. apply inv_auth; [done|]. by destruct Ha; constructor. }
  unfold nvmetcp_auth_rx_complete. do 2 wp_step. destruct (step (auth s)) eqn:Hst;
    try (by apply receive_step_safe; auto); wp_run; try (by apply stepped_refl);
    apply wp_update; wp_run; exact Hrc.
Qed.

Lemma auth_rx_data_safe s :
  Inv s -> phase s = NVMETCP_PHASE_AUTH ->
  wp False (nvmetcp_auth_rx_data E) (fun _ => stepped s) s.
Proof.
  intros HI Hp. pose proof (i_auth _ HI) as Ha. pose proof (ai_done _ Ha) as Hd.
  unfold nvmetcp_auth_rx_data. do 2 wp_step. destruct (step (auth s)) eqn:Hst;
    try (by apply wp_ret, stepped_refl).
  - destruct (completed (auth s)) eqn:Hc; [by specialize (Hd eq_refl)|].
    wp_step. eapply wp_mono; [apply rx_challenge_safe, HI; done|].
    intros rc s1 (HI1 & Hp1 & Hs1 & Hc1 & _). rewrite Hc in Hc1. destruct rc.
    + wp_step. apply wp_update. wp_run. unfold stepped. split_and!; auto.
      apply inv_auth; [done|]. pose proof (i_auth _ HI1) as [].
      constructor; cbn; auto. congruence.
    + unfold stepped. auto.
  - wp_step. eapply wp_mono; [by apply rx_success1_safe|].
    intros [|e] s1 [Hne Heq]; [|rewrite Hne by done; by apply stepped_refl].
    rewrite Heq by done. wp_step. apply wp_update. wp_run. unfold stepped. split_and!; auto.
    inv_solve.
Qed.
End AuthSafe.

(** ** The setup sequence

    [phase_edge p p'] is one advance of the session: the ICResp of a queue makes
    the session connect that queue, and every other edge is the successful end of
    the command its phase sent. *)
Inductive phase_edge : nvmetcp_phase -> nvmetcp_phase -> Prop :=
  | edge_icresp p : phase_edge p NVMETCP_PHASE_CONNECT_ADMIN
  | edge_icresp_io p : phase_edge p NVMETCP_PHASE_CONNECT_IO
  | edge_auth : phase_edge NVMETCP_PHASE_CONNECT_ADMIN NVMETCP_PHASE_AUTH
  | edge_connected : phase_edge NVMETCP_PHASE_CONNECT_ADMIN NVMETCP_PHASE_PROP_SET
  | edge_authenticated : phase_edge NVMETCP_PHASE_AUTH NVMETCP_PHASE_PROP_SET
  | edge_enabled : phase_edge NVMETCP_PHASE_PROP_SET NVMETCP_PHASE_IDENTIFY_CTRL
  | edge_identified : phase_edge NVMETCP_PHASE_IDENTIFY_CTRL NVMETCP_PHASE_IDENTIFY_NS
  | edge_io : phase_edge NVMETCP_PHASE_IDENTIFY_NS NVMETCP_PHASE_ICREQ_IO
  | edge_ready : phase_edge NVMETCP_PHASE_CONNECT_IO NVMETCP_PHASE_READY.

Definition phase_path : nvmetcp_phase -> nvmetcp_phase -> Prop := rtc phase_edge.

(** What a handler of the receive path promises. *)
Definition handled (s s' : session) : Prop := Inv s' /\ phase_path (phase s) (phase s').

Lemma handled_refl s : Inv s -> handled s s.
Proof. intros. split; [done|]. apply rtc_refl. Qed.

Lemma handled_same s s' : Inv s' -> phase s' = phase s -> handled s s'.
Proof. intros ? Hp. split; [done|]. rewrite Hp. apply rtc_refl. Qed.

Lemma handled_edge s s' : Inv s' -> phase_edge (phase s) (phase s') -> handled s s'.
Proof. intros ? Hp. split; [done|]. by apply rtc_once. Qed.

Lemma handled_trans s s1 s2 : handled s s1 -> handled s1 s2 -> handled s s2.
Proof. intros [_ H1] [HI H2]. split; [done|]. unfold phase_path in *. by etrans. Qed.

Section RxSafe.
Context `{DigestLaws} `{ExchangeLaws} (E : env) `{EnvLaws E}.
Implicit Types (s : session).

Lemma tls_params_safe s :
  Inv s -> is_Some (tls_psk s) ->
  wp False nvmetcp_tls_params (fun _ s' => s' = s) s.
Proof.
  intros HI [psk Hpsk]. unfold nvmetcp_tls_params. wp_run; try done.
  - intros Ho. apply eq_None_not_Some in Ho. apply Ho, HI.
  - intros Ho. apply eq_None_not_Some in Ho. apply Ho, HI.
  - by rewrite Hpsk.
Qed.

(** A socket is opened, or the attempt fails in the same phase. *)
Lemma open_socket_safe q p s :
  Inv s -> p <> NVMETCP_PHASE_FAILED -> p <> NVMETCP_PHASE_AUTH ->
  wp False (nvmetcp_open_socket E q p)
    (fun rc s' => Inv s' /\ phase s' = (if is_ok rc then p else phase s)) s.
Proof.
  intros HI Hp1 Hp2. unfold nvmetcp_open_socket. do 3 wp_step.
  apply (wp_mono _ _ (fun _ s' => Inv s' /\ phase s' = phase s)).
  - destruct (nvmetcp_use_tls s) eqn:Ht.
    + wp_step. eapply wp_mono; [apply tls_params_safe; [done|]|].
      { unfold nvmetcp_use_tls in Ht. by destruct (tls_psk s). }
      intros [e|[psk identity]] s' ->; [done|]. wp_run; (split; [inv_solve|done]).
    + wp_run; (split; [inv_solve|done]).
  - intros [|e] s' [HI' Hp']; [|done]. wp_run. clear HI.
    apply wp_tx_resume; intros Hf; wp_run;
      destruct q; cbn in Hf; (split; [|done]); inv_solve.
Qed.

Lemma auth_required_safe s :
  Inv s -> tx_in_flight s = false -> phase s = NVMETCP_PHASE_CONNECT_ADMIN ->
  wp False nvmetcp_auth_required
    (fun rc s' => handled s s' /\ tx_in_flight s' = false) s.
Proof.
  intros HI Hf Hp. unfold nvmetcp_auth_required. wp_run; (split; [|done]).
  - apply handled_edge; [inv_solve|]. rewrite Hp. constructor.
  - by apply handled_refl.
Qed.

Lemma auth_try_advance_safe s :
  Inv s -> phase s = NVMETCP_PHASE_AUTH ->
  (tx_in_flight s = false \/ completed (auth s) = false) ->
  wp False auth_try_advance (fun _ => handled s) s.
Proof.
  intros HI Hp Hf. unfold auth_try_advance, nvmetcp_auth_try_complete. wp_run.
  all: try (cbn in *; rewrite ?bool_decide_eq_true, ?bool_decide_eq_false in *; congruence).
  - apply handled_edge; [|rewrite Hp; constructor].
    apply andb_true_iff in Heqb as [Hc _]. destruct Hf; [|congruence]. inv_solve.
  - by apply handled_refl.
Qed.

Lemma advance_safe p s :
  Inv s -> tx_in_flight s = false -> phase_edge (phase s) p ->
  p <> NVMETCP_PHASE_FAILED -> p <> NVMETCP_PHASE_AUTH ->
  wp False (advance p) (fun _ => handled s) s.
Proof. intros. unfold advance. wp_run. apply handled_edge; [inv_solve|done]. Qed.

Lemma rx_command_failed_safe st s :
  Inv s -> tx_in_flight s = false -> wp False (rx_command_failed st) (fun _ => handled s) s.
Proof.
  intros HI Hf. unfold rx_command_failed, block_done. wp_run; try by apply handled_refl.
  - apply andb_true_iff in Heqb as [_ Hp%bool_decide_eq_true].
    eapply wp_mono; [by apply auth_required_safe|]. by intros rc s' [Hh _].
  - apply handled_same; [inv_solve|done].
Qed.

Lemma rx_command_safe s : Inv s -> wp False (nvmetcp_rx_command E) (fun _ => handled s) s.
Proof.
  intros HI. unfold nvmetcp_rx_command. do 4 wp_step.
  set (s1 := s <| tx_in_flight := false |>). assert (Inv s1) as HI1 by inv_solve.
  assert (tx_in_flight s1 = false) as Hf by done.
  assert (forall m, wp False m (fun (_ : status) => handled s1) s1 ->
                    wp False m (fun _ => handled s) s1) as Hm by done.
  apply Hm. clear Hm. clearbody s1. destruct (negb _); [by apply rx_command_failed_safe|].
  do 2 wp_step. destruct (phase s1) eqn:Hp; try (by apply wp_ret, handled_refl).
  - wp_step. apply wp_update.
    set (s2 := s1 <| cntlid := _ |>). assert (Inv s2) as HI2 by inv_solve.
    assert (handled s1 s2) as Hh by by apply handled_same.
    assert (tx_in_flight s2 = false /\ phase s2 = NVMETCP_PHASE_CONNECT_ADMIN) as [Hf2 Hp2] by done.
    clearbody s2. destruct (negb _).
    + wp_step. eapply wp_mono; [by apply auth_required_safe|]. intros [|e] s3 [Hh3 Hf3].
      * wp_run. eapply handled_trans; [done|]. eapply handled_trans; [done|].
        apply handled_same; [|done]. destruct Hh3 as [HI3 _]. inv_solve.
      * by eapply handled_trans.
    + eapply wp_mono; [apply advance_safe; auto; [rewrite Hp2; constructor|done..]|].
      intros rc s3. by apply handled_trans.
  - wp_step. eapply wp_mono; [by apply auth_rx_complete_safe|].
    intros [|e] s2 (HI2 & Hp2 & Hs2 & Hf2); [|by apply handled_same].
    eapply wp_mono; [apply auth_try_advance_safe; [done|congruence|]|].
    { destruct Hf2; [left; congruence|by right]. }
    intros rc s3. apply handled_trans. by apply handled_same.
  - by apply advance_safe; [..|rewrite Hp; constructor| |].
  - by apply advance_safe; [..|rewrite Hp; constructor| |].
  - eapply wp_mono; [by apply open_socket_safe|]. intros [|e] s2 [HI2 Hp2].
    + apply handled_edge; [done|]. rewrite Hp2, Hp. constructor.
    + by apply handled_same.
  - wp_run; (apply handled_edge; [inv_solve|rewrite Hp; constructor]).
  - unfold block_done. wp_run; (apply handled_same; [inv_solve|done]).
Qed.

Lemma rx_data_safe s : Inv s -> wp False (nvmetcp_rx_data E) (fun _ => handled s) s.
Proof.
  intros HI. unfold nvmetcp_rx_data. do 2 wp_step.
  set (s1 := s <| tx_in_flight := false |>). assert (Inv s1) as HI1 by inv_solve.
  assert (tx_in_flight s1 = false) as Hf by done.
  assert (forall m, wp False m (fun (_ : status) => handled s1) s1 ->
                    wp False m (fun _ => handled s) s1) as Hm by done.
  apply Hm. clear Hm. clearbody s1. do 2 wp_step.
  destruct (phase s1) eqn:Hp; try (by apply wp_ret, handled_refl).
  - wp_step. eapply wp_mono; [by apply auth_rx_data_safe|].
    intros [|e] s2 (HI2 & Hp2 & Hs2 & Hf2); [|by apply handled_same].
    eapply wp_mono; [apply auth_try_advance_safe; [done|congruence|]|].
    { destruct Hf2; [left; congruence|by right]. }
    intros rc s3. apply handled_trans. by apply handled_same.
  - wp_run. destruct (nvmetcp_identify_ns _ _) as [rc cap]. wp_run. apply handled_same; [inv_solve|done].
  - pose proof (i_buf _ HI1) as Hb. pose proof (i_block _ HI1) as Hl. pose proof (i_block_max _ HI1) as Hx.
    unfold block_done. wp_run; try (by apply handled_refl); rewrite read_some in * by lia; try done;
      simplify_eq; rewrite memcpy_some in * by (rewrite sub_length; lia); try done.
    simplify_eq. apply handled_same; [|done]. inv_solve.
    rewrite splice_length; [done|rewrite sub_length; lia].
Qed.

Lemma handled_rx q f s s' :
  handled s s' -> (forall r, rx_inv r -> rx_inv (f r)) -> wp False (upd_rx q f) (fun _ => handled s) s'.
Proof.
  intros [HI Hp] Hf. apply wp_update. split; [|by destruct q]. apply inv_set_rx; [done|].
  by apply Hf, get_rx_inv.
Qed.

Lemma rx_pdu_complete_safe q s :
  Inv s -> wp False (nvmetcp_rx_pdu_complete E q) (fun _ => handled s) s.
Proof.
  intros HI. unfold nvmetcp_rx_pdu_complete. do 3 wp_step.
  apply (wp_mono _ _ (fun _ => handled s)).
  - repeat match goal with |- wp _ (if _ then _ else _) _ _ => wp_step end;
      wp_run; try (by apply handled_refl); [by apply rx_command_safe|by apply rx_data_safe].
  - intros [|e] s1 Hh; [|done]. wp_step. eapply wp_mono; [by apply handled_rx, rx_inv_reset|].
    intros [] s2 Hh2. by wp_run.
Qed.

(** *** The receive machine

    [F] says whether the two accesses that a peer can push out of bounds, the
    copy into the header buffer and the read of the block buffer, are tolerated. *)
Lemma rx_header_safe q s0 s :
  handled s0 s -> data_expect (get_rx q s) = 0%nat ->
  wp False (nvmetcp_rx_header q)
    (fun _ s' => handled s0 s' /\ data_expect (get_rx q s') = 0%nat) s.
Proof.
  intros [HI Hp] Hd. unfold nvmetcp_rx_header, set_hdr_expect. pose proof (get_rx_inv q s HI) as [].
  assert (forall n, (n <= 255)%nat -> handled s0 (set_rx q ((get_rx q s) <| hdr_expect := n |>) s) /\
    data_expect (get_rx q (set_rx q ((get_rx q s) <| hdr_expect := n |>) s)) = 0%nat) as Hset.
  { intros n Hn. split; [|by destruct q]. split; [|by destruct q].
    apply inv_set_rx; [done|]. by constructor. }
  pose proof (get_field_range nvmetcp_pdu_header "hlen" (hdr (get_rx q s)) ri_ok0
    ltac:(rewrite ri_len0; vm_compute; lia)) as Hl.
  change (256 ^ Z.of_nat (fieldsize nvmetcp_pdu_header "hlen")) with 256 in Hl.
  wp_run; try (apply wp_update; apply Hset; first [lia | vm_compute; lia]); done.
Qed.

Lemma rx_c2hdata_safe q h s :
  Inv s -> data_len (get_rx q s) = 0%nat -> (hdr_expect (get_rx q s) <= hdr_len (get_rx q s))%nat ->
  wp False (rx_c2hdata q h) (fun _ => handled s) s.
Proof.
  intros HI Hd Hh. unfold rx_c2hdata. wp_run; try by apply handled_refl.
  apply wp_update. wp_run. apply handled_same; [|by destruct q].
  pose proof (get_rx_inv q s HI) as []. set (n := Z.to_nat _).
  assert (n <= NVMETCP_MAX_CMD_DATA)%nat by (unfold n; lia). clearbody n.
  destruct q; inv_solve; constructor; cbn in *; auto; lia.
Qed.

Lemma rx_icresp_safe q h s : Inv s -> wp False (rx_icresp q h) (fun _ => handled s) s.
Proof.
  intros HI. unfold rx_icresp. wp_run; [by apply handled_refl|].
  apply handled_edge; [destruct q; inv_solve|destruct q; constructor].
Qed.

Lemma rx_pdu_safe (F : Prop) q s :
  Inv s -> data_expect (get_rx q s) = 0%nat ->
  (hdr_expect (get_rx q s) <= hdr_len (get_rx q s))%nat ->
  (pdu_type (hdr (get_rx q s)) = NVMETCP_PDU_R2T ->
     r2t_ok (hdr (get_rx q s)) /\ r2t_timely (hdr (get_rx q s)) s \/ F) ->
  wp F (nvmetcp_rx_pdu E q) (fun _ => handled s) s.
Proof.
  intros HI Hd Hh Hr. unfold nvmetcp_rx_pdu. pose proof (get_rx_inv q s HI) as Hi. destruct Hi.
  do 2 wp_step. destruct (_ =? NVMETCP_PDU_ICRESP).
  { apply (wp_weaken False); [done|]. by apply rx_icresp_safe. }
  destruct (_ =? NVMETCP_PDU_RESPONSE).
  { wp_run. apply handled_same; [|done]. inv_solve. rewrite sub_length; [done|].
    rewrite ri_len0. vm_compute. lia. }
  destruct (_ =? NVMETCP_PDU_C2HDATA).
  { apply (wp_weaken False); [done|]. apply rx_c2hdata_safe; auto. lia. }
  destruct (_ =? NVMETCP_PDU_R2T) eqn:Ht; [|by wp_run; apply handled_refl].
  apply Z.eqb_eq in Ht. eapply wp_mono; [apply tx_h2cdata_safe; auto|].
  - rewrite ri_len0. vm_compute. lia.
  - intros rc s' (? & ? & _). by apply handled_same.
Qed.
End RxSafe.
