(* ===== verification/NvmeReach.v ===== *)
(** * Reachable sessions (net/tcp/nvmetcp.c)

    Every call of the iPXE core preserves the session invariant, whatever bytes
    arrive and whatever the environment answers, so it holds of every reachable
    session; the phase only moves along the setup sequence. *)

From stdpp Require Import base list strings relations.
From Stdlib Require Import ZArith Lia.
From S2P Require Import Prelude Layout NvmeWire Crypto NvmeState NvmeTx NvmeAuth NvmeUri NvmeRx.
From S2P Require Import NvmeOps NvmeDemo NvmeStream NvmeInv.

(** Inversion of a computation that returned. *)
Lemma try_ret {S} (m k : M S status) s rc s' :
  try m k s = Ret rc s' ->
  (m s = Ret rc s' /\ rc <> OK) \/ exists s1, m s = Ret OK s1 /\ k s1 = Ret rc s'.
Proof.
  unfold try. intros Hb. apply bind_ret in Hb as ([|e] & s1 & Hm & Hk); [by eauto|].
  left. injection Hk as <- <-. by rewrite Hm.
Qed.

Section Machine.
Context `{DigestLaws} `{ExchangeLaws} (E : env) `{EnvLaws E}.
Implicit Types (s : session) (q : queue).

Lemma rx_header_check_safe (F : Prop) q s :
  Inv s -> data_expect (get_rx q s) = 0%nat -> F ->
  wp F (rx_header_check E q) (fun _ => handled s) s.
Proof.
  intros HI Hd HF. unfold rx_header_check. do 3 wp_step.
  apply (wp_mono _ _ (fun _ s' => handled s s' /\ data_expect (get_rx q s') = 0%nat)).
  { destruct (bool_decide _); [|by apply wp_ret; split; [apply handled_refl|]].
    apply (wp_weaken False); [done|]. apply rx_header_safe; [by apply handled_refl|done]. }
  intros [|e] s1 [Hh Hd1]; [|done]. do 2 wp_step. case_bool_decide as Hlt; [by apply wp_ret|].
  wp_step. eapply wp_mono; [apply (rx_pdu_safe E); [apply Hh|done|lia|by right]|].
  intros [|e] s2 Hh2; [|by eapply handled_trans]. do 2 wp_step. destruct (bool_decide _).
  - apply (wp_weaken False); [done|]. eapply wp_mono; [apply (rx_pdu_complete_safe E); apply Hh2|].
    intros rc s3 Hh3. eapply handled_trans; [done|]. by eapply handled_trans.
  - wp_step. by eapply handled_trans.
Qed.

Lemma rx_header_bytes_safe q src s :
  Inv s -> bytes_ok src -> (hdr_len (get_rx q s) < hdr_expect (get_rx q s))%nat ->
  wp True (rx_header_bytes E q src) (fun _ => handled s) s.
Proof.
  intros HI Hb Hlt. unfold rx_header_bytes, rx_header_copy. wp_run.
  match goal with Hm : memcpy _ _ _ = Some _ |- _ => apply memcpy_inv in Hm as [Hl ->] end.
  pose proof (get_rx_inv q s HI) as []. apply wp_update.
  set (s1 := set_rx _ _ _). assert (Inv s1) as HI1.
  { apply inv_set_rx; [done|]. constructor; cbn; auto with fw; [by rewrite splice_length|..]; lia. }
  assert (phase s1 = phase s) as Hp by by destruct q.
  assert (data_expect (get_rx q s1) = 0%nat) as Hd1 by (destruct q; apply ri_head; auto).
  eapply wp_mono; [by apply (rx_header_check_safe True)|]. intros rc s2. apply handled_trans.
  by apply handled_same.
Qed.

Lemma rx_data_copy_safe q src s :
  Inv s -> (hdr_expect (get_rx q s) <= hdr_len (get_rx q s))%nat ->
  (data_len (get_rx q s) + length src <= data_expect (get_rx q s))%nat ->
  wp False (rx_data_copy q src) (fun _ => handled s) s.
Proof.
  intros HI Hh Hl. unfold rx_data_copy. pose proof (get_rx_inv q s HI) as [].
  pose proof (i_buf _ HI) as Hb. wp_run; rewrite memcpy_some in * by lia; [|done]. simplify_eq.
  apply wp_update. wp_run. apply handled_same; [|by destruct q].
  destruct q; inv_solve; try (rewrite splice_length by lia; done);
    constructor; cbn in *; auto; lia.
Qed.

Lemma rx_data_bytes_safe q src s :
  Inv s -> (hdr_expect (get_rx q s) <= hdr_len (get_rx q s))%nat ->
  (data_len (get_rx q s) + length src <= data_expect (get_rx q s))%nat ->
  wp False (rx_data_bytes E q src) (fun _ => handled s) s.
Proof.
  intros HI Hh Hl. unfold rx_data_bytes. wp_step. eapply wp_mono; [by apply rx_data_copy_safe|].
  intros [] s1 Hhd. unfold rx_data_check. do 2 wp_step. case_bool_decide; [by apply wp_ret|].
  eapply wp_mono; [apply (rx_pdu_complete_safe E), Hhd|]. intros rc s2. by apply handled_trans.
Qed.

(** The receive loop, on any bytes. *)
Lemma deliver_loop_inv fuel q iob s rc s' :
  Inv s -> bytes_ok iob -> deliver_loop E fuel q iob s = Ret rc s' -> handled s s'.
Proof.
  revert iob s. induction fuel as [|fuel IH]; intros iob s HI Hb Hd; [done|].
  cbn [deliver_loop] in Hd. destruct iob as [|b iob]; [injection Hd as <- <-; by apply handled_refl|].
  set (l := b :: iob) in *. apply bind_ret in Hd as (r & ? & [= <- <-] & Hd).
  assert (forall (m : M session status) n, wp True m (fun _ => handled s) s ->
    (try* m in deliver_loop E fuel q (drop n l)) s = Ret rc s' -> handled s s') as Hstep.
  { intros m n Hw Ht. apply try_ret in Ht as [[Hm _]|(s1 & Hm & Hk)].
    - exact (wp_elim _ _ _ _ _ _ Hw Hm).
    - pose proof (wp_elim _ _ _ _ _ _ Hw Hm) as Hh. eapply handled_trans; [exact Hh|].
      eapply IH; [apply Hh|by apply Forall_drop|done]. }
  case_bool_decide as Hm; (eapply Hstep; [|exact Hd]).
  - apply rx_header_bytes_safe; auto. by apply Forall_take.
  - apply (wp_weaken False); [done|]. apply rx_data_bytes_safe; [done|lia|].
    pose proof (ri_data _ (get_rx_inv q s HI)). rewrite length_take. unfold clip.
    rewrite bool_decide_true by lia. lia.
Qed.

Lemma deliver_inv q iob s rc s' :
  Inv s -> bytes_ok iob -> nvmetcp_socket_deliver E q iob s = Ret rc s' -> handled s s'.
Proof. apply deliver_loop_inv. Qed.

(** ** The other calls *)
Lemma close_safe rc s : Inv s -> wp False (nvmetcp_close rc) (fun _ => handled s) s.
Proof.
  intros HI. unfold nvmetcp_close. destruct rc; wp_run; (apply handled_same; [inv_solve|done]).
Qed.

Lemma phase_action_safe s act :
  Inv s -> phase_action E s = Some act ->
  wp False act (fun _ s' => Inv s' /\ phase s' = phase s) s.
Proof.
  intros HI. unfold phase_action.
  assert (forall m, wp False m (fun (_ : status) => kept s) s ->
    wp False m (fun _ s' => Inv s' /\ phase s' = phase s) s) as Hk.
  { intros m Hm. eapply wp_mono; [exact Hm|]. by intros rc s' (? & ? & _). }
  destruct (phase s) eqn:Hp; intros [= <-].
  - by apply Hk, tx_icreq_safe.
  - by apply Hk, tx_connect_safe.
  - eapply wp_mono; [by apply auth_step_safe|]. intros rc s' (? & ? & _). split; [done|congruence].
  - by apply Hk, tx_prop_set_safe.
  - by apply Hk, tx_identify_safe.
  - by apply Hk, tx_identify_safe.
  - by apply Hk, tx_icreq_safe.
  - by apply Hk, tx_connect_safe.
Qed.

Lemma step_safe s : Inv s -> wp False (nvmetcp_step E) (fun _ => handled s) s.
Proof.
  intros HI. unfold nvmetcp_step. do 2 wp_step.
  destruct (phase_action E s) as [act|] eqn:Ha; [|by apply wp_ret, handled_refl].
  wp_step. eapply wp_mono; [by apply phase_action_safe|]. intros rc s1 [HI1 Hp1].
  assert (handled s s1) as Hh by by apply handled_same.
  assert (forall rc', wp False (nvmetcp_close rc') (fun _ => handled s) s1) as Hc.
  { intros rc'. eapply wp_mono; [by apply close_safe|]. intros [] s2. by apply handled_trans. }
  destruct rc as [|[]]; try apply Hc; wp_run; try done.
  eapply handled_trans; [done|]. apply handled_same; [inv_solve|done].
Qed.

Lemma block_rw_safe d lba n b op s :
  Inv s -> wp False (nvmetcp_block_rw E d lba n b op) (fun _ => handled s) s.
Proof.
  intros HI. unfold nvmetcp_block_rw. do 2 wp_step. destruct (negb _); [by apply wp_ret, handled_refl|].
  case_bool_decide as Hmax; [by apply wp_ret, handled_refl|]. do 2 wp_step.
  destruct (block_data s); [by apply wp_ret, handled_refl|]. wp_run.
  match goal with |- wp _ next_cid _ ?x => set (s1 := x) end.
  assert (Inv s1) as HI1 by (inv_solve; lia). assert (phase s1 = phase s) as Hp1 by done.
  assert (handled s s1) as Hh by by apply handled_same. clearbody s1.
  apply (next_cid_safe s1); [by apply kept_refl|]. intros id s2 Hk2 _. wp_run.
  eapply wp_mono; [by apply tx_command_safe, kept_cmd|]. intros rc s3 (HI3 & Hp3 & _).
  assert (handled s s3) as Hh3 by (eapply handled_trans; [done|]; by apply handled_same).
  unfold block_done. destruct rc; wp_run; [done|]. eapply handled_trans; [done|].
  apply handled_same; [inv_solve|done].
Qed.

Lemma command_close_safe rc s : Inv s -> wp False (nvmetcp_command_close rc) (fun _ => handled s) s.
Proof.
  intros HI. unfold nvmetcp_command_close.
  assert (forall s1 rc', Inv s1 -> phase s1 = phase s ->
    wp False (nvmetcp_close rc') (fun _ => handled s) s1) as Hc.
  { intros s1 rc' HI1 Hp1. eapply wp_mono; [by apply close_safe|]. intros [] s2.
    by apply handled_trans, handled_same. }
  wp_run; try (apply Hc; [inv_solve|done]); apply handled_same; [inv_solve|done].
Qed.

Lemma tx_resume_safe s : Inv s -> wp False nvmetcp_tx_resume (fun _ => handled s) s.
Proof. intros. apply wp_tx_resume; intros; apply handled_same; auto; inv_solve. Qed.

Lemma read_capacity_safe d s :
  Inv s -> wp False (nvmetcp_block_read_capacity d) (fun _ => handled s) s.
Proof.
  intros. unfold nvmetcp_block_read_capacity. wp_run; (apply handled_same; [inv_solve|done]).
Qed.

Lemma ignore_rc_safe m s Q : wp False m (fun _ => Q) s -> wp False (ignore_rc m) (fun _ => Q) s.
Proof. intros Hm. unfold ignore_rc. wp_step. eapply wp_mono; [exact Hm|]. by intros rc s' HQ. Qed.

(** Every call but a delivery is free of undefined behaviour. *)
Lemma call_safe l s :
  Inv s -> (forall q iob, l <> LDeliver q iob) -> wp False (call E l) (fun _ => handled s) s.
Proof.
  intros HI Hl. destruct l; cbn [call].
  - by apply step_safe.
  - by destruct (Hl q iob).
  - by apply tx_resume_safe.
  - by apply ignore_rc_safe, read_capacity_safe.
  - by apply ignore_rc_safe, block_rw_safe.
  - by apply ignore_rc_safe, block_rw_safe.
  - by apply command_close_safe.
  - by apply close_safe.
Qed.

Lemma sstep_handled l s s' : Inv s -> sstep E l s s' -> handled s s'.
Proof.
  intros HI [_ Hok Hc]. destruct l as [|q iob| | | | | |];
    try (lazymatch type of Hc with call _ ?l _ = _ =>
           exact (wp_elim _ _ _ _ _ _ (call_safe l s HI ltac:(intros; discriminate)) Hc) end).
  cbn [call] in Hc. apply bind_ret in Hc as (rc & s1 & Hd & Hk).
  assert (s1 = s') as -> by (unfold ret in Hk; congruence). by eapply deliver_inv.
Qed.
End Machine.

(** ** Opening *)
Section Open.
Context `{DigestLaws} `{ExchangeLaws} (E : env) `{EnvLaws E}.
Implicit Types (s : session) (u : uri).

(** The invariant without the two names, which [nvmetcp_open] sets. *)
Definition fresh (s : session) : Prop :=
  phase s = NVMETCP_PHASE_ICREQ /\
  forall h c, Inv (s <| host_nqn := Some h |> <| subsystem_nqn := Some c |>).

Lemma fresh_zero : fresh zero_session.
Proof.
  split; [done|]. intros h c. constructor; cbn; auto; try done; try lia.
  1-2: constructor; cbn; try done; [apply zeros_ok|lia..].
  constructor; cbn; try done; lia.
Qed.

Ltac fresh_solve :=
  lazymatch goal with
  | Hf : fresh ?s |- fresh _ =>
      let h := fresh "h" in let c := fresh "c" in
      let Ha := fresh "Ha" in let Hb := fresh "Hb" in
      destruct Hf as [Ha Hb]; split; [exact Ha|]; intros h c; specialize (Hb h c); inv_solve
  end.

Lemma fresh_inv s : fresh s -> is_Some (host_nqn s) -> is_Some (subsystem_nqn s) -> Inv s.
Proof. intros [_ Hf] [h Hh] [c Hc]. specialize (Hf h c). inv_solve; by eexists. Qed.

Lemma parse_qparam_fresh u name s :
  fresh s ->
  wp False (nvmetcp_parse_qparam E u name)
    (fun _ s' => fresh s' /\ subsystem_nqn s' = subsystem_nqn s) s.
Proof. intros Hf. unfold nvmetcp_parse_qparam. wp_run; (split; [|done]); try done; fresh_solve. Qed.

Lemma parse_root_path_fresh u s :
  fresh s ->
  wp False (nvmetcp_parse_root_path E u)
    (fun rc s' => rc = OK -> fresh s' /\ is_Some (subsystem_nqn s')) s.
Proof.
  intros Hf. unfold nvmetcp_parse_root_path. wp_run; try done.
  match goal with |- wp _ _ _ ?x => set (s1 := x) end.
  assert (fresh s1) as Hf1 by fresh_solve. assert (is_Some (subsystem_nqn s1)) as Hs1 by by eexists.
  clearbody s1. clear Hf. unfold nvmetcp_parse_secret, nvmetcp_parse_tls.
  wp_step. eapply wp_mono; [by apply parse_qparam_fresh|].
  intros [e|v] s2 [Hf2 Hs2]; [done|]. wp_run.
  eapply wp_mono; [apply parse_qparam_fresh; fresh_solve|].
  intros [e|v2] s3 [Hf3 Hs3]; [done|]. wp_run.
  eapply wp_mono; [apply parse_qparam_fresh; fresh_solve|].
  intros [e|v3] s4 [Hf4 Hs4]; [done|]. wp_run. intros _. split; [fresh_solve|].
  cbn in *. congruence.
Qed.

Lemma set_host_nqn_fresh s :
  fresh s ->
  wp False (nvmetcp_set_host_nqn E)
    (fun rc s' => rc = OK -> fresh s' /\ is_Some (host_nqn s') /\
                  subsystem_nqn s' = subsystem_nqn s) s.
Proof.
  intros Hf. unfold nvmetcp_set_host_nqn. wp_run; try done; intros _;
    (split_and!; [fresh_solve|by eexists|done]).
Qed.

(** [nvmetcp_open] meets no undefined behaviour and establishes the invariant. *)
Lemma open_safe u :
  wp False (nvmetcp_open E u) (fun rc s => rc = OK -> Inv s) zero_session.
Proof.
  unfold nvmetcp_open, nvmetcp_open_body. wp_run; try done.
  match goal with |- wp _ _ _ ?x => set (s1 := x) end.
  assert (fresh s1) as Hf1 by (pose proof fresh_zero; fresh_solve). clearbody s1.
  assert (forall e s, wp False (nvmetcp_close (Err e))
            (fun a s' => wp False (ret (Err e)) (fun rc s => rc = OK -> Inv s) s') s) as Hc.
  { intros. unfold nvmetcp_close. wp_run; done. }
  eapply wp_mono; [by apply parse_root_path_fresh|]. intros [|e] s2 Hr2; [|by wp_step; apply Hc].
  destruct (Hr2 eq_refl) as [Hf2 Hs2]. clear Hr2. wp_step.
  eapply wp_mono; [by apply set_host_nqn_fresh|]. intros [|e] s3 Hr3; [|by wp_step; apply Hc].
  destruct (Hr3 eq_refl) as (Hf3 & Hh3 & Hs3). clear Hr3.
  eapply wp_mono; [apply open_socket_safe; [|done..]|].
  { apply fresh_inv; auto. by rewrite Hs3. }
  intros [|e] s4 [HI4 _]; [by wp_step|by wp_step; apply Hc].
Qed.

Lemma reachable_inv u s : reachable E u s -> Inv s.
Proof.
  induction 1 as [s Ho|l s s' _ IH Hs].
  - exact (wp_elim _ _ _ _ _ _ (open_safe u) Ho eq_refl).
  - by apply (sstep_handled E l s s').
Qed.
End Open.

(** ** Claims *)
Section Claims.
Context `{DigestLaws} `{ExchangeLaws} (E : env) `{EnvLaws E}.

(** [C2] Session invariant: whatever the target sends, whatever the environment
    answers and in whatever order the iPXE core calls, a session opened by
    [nvmetcp_open] always satisfies [Inv]: every buffer keeps the size the code
    assumes, the names it dereferences are set, a secret exists while
    authenticating, the counts of header and data bytes of a PDU, which say where
    the next bytes are stored, stay within their buffers, the block buffer matches its length, and the process is never
    on the run queue while a command is in flight.  The expected length of a header is
    taken from the wire and only known to be a byte: when it exceeds the header buffer
    the next copy leaves the buffer (NvmeFindings.command_header_overflow). *)
Theorem session_invariant u s : reachable E u s -> Inv s.
Proof. apply (reachable_inv E). Qed.

(** [C20] Memory safety of the calls: in every reachable session, each call of the
    iPXE core other than the delivery of received data returns without undefined
    behaviour, and leaves a session that satisfies the invariant; this covers the
    process step with every command of the setup and the authentication exchange,
    the block operations, window changes and closing. *)
Theorem callbacks_memory_safe u s l :
  reachable E u s -> (forall q iob, l <> LDeliver q iob) ->
  exists s', call E l s = Ret tt s' /\ Inv s'.
Proof.
  intros Hr Hl. pose proof (call_safe E l s (reachable_inv E u s Hr) Hl) as Hw. unfold wp in Hw.
  destruct (call E l s) as [[] s'| |]; [|done..]. exists s'. split; [done|apply Hw].
Qed.

(** Setup order: one call moves the phase of a reachable session only along
    the edges of the setup sequence (ICReq, Connect, optional authentication,
    enabling, Identify Controller, Identify Namespace, the I/O queue's ICReq and
    Connect, ready), where an ICResp restarts the connection of its queue; the
    ready phase is thus entered only from the I/O Connect, and the enabling phase
    only from a Connect or a completed authentication. *)
Theorem phase_follows_setup u s l s' :
  reachable E u s -> sstep E l s s' ->
  phase_path (phase s) (phase s') /\ phase s' <> NVMETCP_PHASE_FAILED.
Proof.
  intros Hr Hs. destruct (sstep_handled E l s s' (reachable_inv E u s Hr) Hs) as [HI Hp].
  split; [done|apply HI].
Qed.

(** Opening: [nvmetcp_open] never meets undefined behaviour, whatever the URI
    and the environment. *)
Theorem open_memory_safe u :
  nvmetcp_open E u zero_session <> Fault /\ nvmetcp_open E u zero_session <> NoFuel.
Proof.
  pose proof (open_safe E u) as Hw. unfold wp in Hw. by destruct (nvmetcp_open E u zero_session).
Qed.
End Claims.

#[local] Existing Instances Toy.digest Toy.digest_laws Toy.exchange Toy.exchange_laws ToyEnv.laws.

Lemma session_invariant_witness : reachable Demo.E Demo.target Demo.ready /\ Inv Demo.ready.
Proof.
  split; [exact Demo.ready_reachable|].
  apply (session_invariant Demo.E Demo.target). exact Demo.ready_reachable.
Defined.

(** Stepping the process of a freshly opened session sends the ICReq. *)
Lemma callbacks_memory_safe_witness :
  exists s', call Demo.E LProcess Demo.opened = Ret tt s' /\ Inv s'.
Proof.
  apply (callbacks_memory_safe Demo.E Demo.target); [exact Demo.opened_reachable|].
  intros q iob. discriminate.
Defined.

(** Delivery of the ICResp to the opened session. *)
Lemma phase_follows_setup_witness :
  match call Demo.E (LDeliver Admin Demo.icresp) Demo.opened with
  | Ret _ s' => phase_path (phase Demo.opened) (phase s') /\ phase s' <> NVMETCP_PHASE_FAILED
  | _ => False
  end.
Proof.
  destruct (call Demo.E (LDeliver Admin Demo.icresp) Demo.opened) as [[] s'| |] eqn:Hc.
  - apply (phase_follows_setup Demo.E Demo.target Demo.opened (LDeliver Admin Demo.icresp));
      [exact Demo.opened_reachable|].
    constructor; [by vm_compute|apply bytes_okb_ok; by vm_compute|exact Hc].
  - exfalso. revert Hc. vm_compute. discriminate.
  - exfalso. revert Hc. vm_compute. discriminate.
Defined.
