(* ===== verification/NvmePdu.v ===== *)
(** * The PDU layer (net/tcp/nvmetcp.c, lines 434-622 and 934-1024)

    A specification of reception that knows nothing of segments, partial headers
    or receive counters: a queue receives whole PDUs, and [handle_pdu] says what
    the session does with one.  The byte-level machine of NvmeRx.v implements it:
    on the concatenation of the encodings of well-formed PDUs, cut in any way, it
    computes what handling the PDUs in order computes. *)

From stdpp Require Import base list strings relations.
From Stdlib Require Import ZArith Lia.
From S2P Require Import Prelude Layout NvmeWire Crypto NvmeState NvmeTx NvmeAuth NvmeUri NvmeRx.
From S2P Require Import NvmeOps NvmeDemo NvmeStream NvmeInv NvmeReach.

(** A PDU: its header, with the type-specific part, and the data that follows. *)
Record pdu : Type := Pdu { p_hdr : list Z; p_data : list Z }.

Definition encode (p : pdu) : list Z := p_hdr p ++ p_data p.

(** Header length by type, for the PDUs a controller sends. *)
Definition pdu_hlen (t : Z) : option nat :=
  if t =? NVMETCP_PDU_ICRESP then Some 128%nat
  else if (t =? NVMETCP_PDU_RESPONSE) || (t =? NVMETCP_PDU_C2HDATA) || (t =? NVMETCP_PDU_R2T)
  then Some 24%nat
  else None.

(** The length a header announces for its data. *)
Definition announced (h : list Z) : Z :=
  get_field nvmetcp_pdu_header "plen" h - Z.of_nat (sizeof nvmetcp_data_pdu).

(** Only a C2HData PDU carries data, as much as its header announces. *)
Record pdu_ok (p : pdu) : Prop := {
  po_bytes : bytes_ok (encode p);
  po_hdr : pdu_hlen (pdu_type (p_hdr p)) = Some (length (p_hdr p));
  po_data : pdu_type (p_hdr p) <> NVMETCP_PDU_C2HDATA -> p_data p = [];
  po_announced : pdu_type (p_hdr p) = NVMETCP_PDU_C2HDATA ->
    announced (p_hdr p) = Z.of_nat (length (p_data p)) /\
    (length (p_data p) <= NVMETCP_MAX_CMD_DATA)%nat;
}.

(** A queue between two PDUs. *)
Definition boundary (r : nvmetcp_rx) : Prop :=
  hdr_len r = 0%nat /\ hdr_expect r = 8%nat /\ data_expect r = 0%nat /\ data_len r = 0%nat.

Lemma boundary_reset r : boundary (nvmetcp_rx_reset r).
Proof. by unfold boundary. Qed.

(** Decide which PDU type a constant is. *)
Ltac pdu_dispatch t :=
  repeat match goal with
         | |- context [t =? ?b] => let v := eval vm_compute in (t =? b) in change (t =? b) with v
         end; cbv iota.

Section Pdu.
Context `{DigestOps} `{ExchangeOps} (E : env).
Implicit Types (s : session) (q : queue) (p : pdu).

(** The session when the whole header of a PDU has arrived. *)
Definition received (q : queue) (h : list Z) (s : session) : session :=
  set_rx q ((get_rx q s) <| hdr := splice 0 h (hdr (get_rx q s)) |>
              <| hdr_len := length h |> <| hdr_expect := length h |>) s.

(** Handling a PDU: its header first, then its data, then its completion. *)
Definition handle_pdu (q : queue) (p : pdu) : M session status :=
  do* update (received q (p_hdr p)) in
  try* nvmetcp_rx_pdu E q in
  do* (if bool_decide (p_data p = []) then ret tt else rx_data_copy q (p_data p)) in
  nvmetcp_rx_pdu_complete E q.

Fixpoint handle_pdus (q : queue) (ps : list pdu) : M session status :=
  match ps with
  | [] => ret OK
  | p :: ps => try* handle_pdu q p in handle_pdus q ps
  end.

Lemma pdu_hlen_cases t n : pdu_hlen t = Some n -> (24 <= n <= 128)%nat.
Proof. unfold pdu_hlen. repeat case_match; naive_solver lia. Qed.

Lemma rx_header_eq q s n :
  pdu_hlen (pdu_type (hdr (get_rx q s))) = Some n ->
  nvmetcp_rx_header q s = Ret OK (set_rx q ((get_rx q s) <| hdr_expect := n |>) s).
Proof.
  unfold nvmetcp_rx_header, pdu_hlen, set_hdr_expect, upd_rx, bind, gets.
  set (t := pdu_type _). clearbody t. intros Hn.
  unfold NVMETCP_PDU_ICREQ, NVMETCP_PDU_ICRESP, NVMETCP_PDU_COMMAND, NVMETCP_PDU_RESPONSE,
    NVMETCP_PDU_C2HDATA, NVMETCP_PDU_R2T in *.
  assert (t = 1 /\ n = 128%nat \/ t = 5 /\ n = 24%nat \/ t = 7 /\ n = 24%nat \/ t = 9 /\ n = 24%nat) as Ht.
  { destruct (t =? 1) eqn:?; [left; split; [lia|congruence]|].
    destruct (t =? 5) eqn:?, (t =? 7) eqn:?, (t =? 9) eqn:?; cbn in Hn; try done;
      injection Hn as <-; lia. }
  destruct Ht as [[-> ->]|[[-> ->]|[[-> ->]|[-> ->]]]]; done.
Qed.

Lemma pdu_type_head h : (1 <= length h)%nat -> pdu_type h = byte_at h 0.
Proof.
  destruct h as [|b h]; cbn; [lia|]. intros _.
  unfold pdu_type, get_field, get_bytes. change (offsetof _ _) with 0%nat.
  change (fieldsize _ _) with 1%nat. unfold sub, byte_at. cbn. rewrite take_0. cbn. lia.
Qed.

Lemma pdu_type_splice a dst :
  (1 <= length a)%nat -> pdu_type (splice 0 a dst) = pdu_type a.
Proof.
  intros Hl. destruct a as [|b a]; cbn in Hl; [lia|].
  rewrite !pdu_type_head; [done|cbn; lia|]. unfold splice. rewrite !length_app. cbn. lia.
Qed.

Lemma set_set_rx q r r' s : set_rx q r (set_rx q r' s) = set_rx q r s.
Proof. by destruct q. Qed.

Lemma received_rx q h s :
  get_rx q (received q h s) =
  (get_rx q s) <| hdr := splice 0 h (hdr (get_rx q s)) |> <| hdr_len := length h |>
               <| hdr_expect := length h |>.
Proof. apply get_set_rx. Qed.

(** The first eight bytes of a header: the loop learns how much is to come. *)
Lemma deliver_first q h rest s :
  boundary (get_rx q s) -> length (hdr (get_rx q s)) = 128%nat ->
  pdu_hlen (pdu_type h) = Some (length h) ->
  nvmetcp_socket_deliver E q (h ++ rest) s =
  nvmetcp_socket_deliver E q (drop 8 h ++ rest)
    (set_rx q ((get_rx q s) <| hdr := splice 0 (take 8 h) (hdr (get_rx q s)) |>
                 <| hdr_len := 8%nat |> <| hdr_expect := length h |>) s).
Proof.
  intros (Hl & He & Hde & Hdl) H128 Hn. pose proof (pdu_hlen_cases _ _ Hn) as Hn8.
  rewrite deliver_unroll by (destruct h; cbn in *; [lia|done]). cbv zeta.
  rewrite Hl, He. unfold clip. rewrite !bool_decide_true by lia.
  replace (Nat.min (8 - 0) (length (h ++ rest))) with 8%nat by (rewrite length_app; lia).
  rewrite take_app_le, drop_app_le by lia.
  assert (length (take 8 h) = 8%nat) as H8 by (rewrite length_take; lia).
  unfold try, bind, rx_header_bytes, bind. rewrite rx_header_copy_eq, Hl, H8, H128.
  rewrite bool_decide_true by lia. unfold rx_header_check, bind, gets, try, bind.
  rewrite hdr_fed_rx. cbn [hdr_len modify]. rewrite Hl, H8, bool_decide_true by done.
  set (s1 := hdr_fed q (take 8 h) s).
  rewrite (rx_header_eq q s1 (length h)).
  2:{ unfold s1. rewrite hdr_fed_rx. cbn. rewrite Hl, pdu_type_splice by lia.
      rewrite <-Hn. f_equal. rewrite !pdu_type_head by lia. unfold byte_at.
      by rewrite lookup_take_lt by lia. }
  cbv beta iota. rewrite get_set_rx. unfold s1. rewrite hdr_fed_rx. cbn [hdr_len hdr_expect modify].
  rewrite Hl, H8, bool_decide_true by lia. unfold ret, hdr_fed. rewrite set_set_rx.
  lazymatch goal with |- _ (set_rx _ ?a _) = _ (set_rx _ ?b _) => assert (a = b) as ->; [|done] end.
  revert Hl. generalize (get_rx q s). intros r Hl. destruct r. cbn in Hl. by subst.
Qed.

(** The rest of the header. *)
Lemma deliver_second q h rest s :
  boundary (get_rx q s) -> length (hdr (get_rx q s)) = 128%nat ->
  pdu_hlen (pdu_type h) = Some (length h) ->
  nvmetcp_socket_deliver E q (h ++ rest) s =
  (try* (try* nvmetcp_rx_pdu E q in
         let* r := gets (get_rx q) in
         if bool_decide (data_expect r = 0%nat) then nvmetcp_rx_pdu_complete E q else ret OK) in
   nvmetcp_socket_deliver E q rest) (received q h s).
Proof.
  intros Hb H128 Hn. pose proof (pdu_hlen_cases _ _ Hn) as Hn8.
  rewrite (deliver_first q h rest s Hb H128 Hn). set (s1 := set_rx q _ s).
  assert (get_rx q s1 = (get_rx q s) <| hdr := splice 0 (take 8 h) (hdr (get_rx q s)) |>
            <| hdr_len := 8%nat |> <| hdr_expect := length h |>) as Hr1 by apply get_set_rx.
  assert (length (drop 8 h) = (length h - 8)%nat) as Hld by apply length_drop.
  assert (length (take 8 h) = 8%nat) as H8 by (rewrite length_take; lia).
  rewrite deliver_unroll.
  2:{ intros Ha. apply (f_equal length) in Ha. rewrite length_app in Ha. cbn in Ha. lia. }
  cbv zeta. rewrite Hr1. cbn [hdr_len hdr_expect modify]. unfold clip.
  rewrite !bool_decide_true by lia.
  replace (Nat.min (length h - 8) (length (drop 8 h ++ rest))) with (length (drop 8 h))
    by (rewrite length_app; lia).
  rewrite take_app_length, drop_app_length.
  assert (rx_header_copy q (drop 8 h) s1 = Ret tt (received q h s)) as Hcopy.
  { rewrite rx_header_copy_eq, Hr1. cbn [hdr_len hdr modify].
    rewrite splice_length by lia. rewrite bool_decide_true by lia. f_equal.
    unfold hdr_fed, received. rewrite Hr1. unfold s1. rewrite set_set_rx. cbn [hdr_len hdr modify].
    f_equal. pose proof (splice_splice 0 (take 8 h) (drop 8 h) (hdr (get_rx q s))) as Hss.
    rewrite take_drop, Hld, H8 in Hss. specialize (Hss ltac:(lia)). revert Hss.
    generalize (get_rx q s). intros [h0 ? ? ? ?] Hss. cbn in Hss.
    unfold modify. cbn -[splice take drop length]. rewrite Hss, Hld. f_equal. lia. }
  unfold try, bind, rx_header_bytes, bind. rewrite Hcopy.
  unfold rx_header_check, bind, gets, try, bind. rewrite received_rx.
  cbn [hdr_len hdr_expect modify]. rewrite bool_decide_false by lia. unfold ret. rewrite received_rx.
  cbn [hdr_len hdr_expect modify]. by rewrite bool_decide_false by lia.
Qed.

(** Reading a member of a header that was copied to the start of the buffer. *)
Lemma get_field_splice L f h dst :
  (sizeof L <= length h)%nat -> get_field L f (splice 0 h dst) = get_field L f h.
Proof.
  intros Hl. unfold get_field, get_bytes. f_equal. pose proof (field_bound L f).
  unfold splice. rewrite take_0. cbn [app]. unfold sub.
  rewrite drop_app_le, take_app_le by (rewrite ?length_drop; lia). done.
Qed.

Lemma received_type q h s :
  (1 <= length h)%nat -> pdu_type (hdr (get_rx q (received q h s))) = pdu_type h.
Proof. intros. rewrite received_rx. cbn. by rewrite pdu_type_splice. Qed.

(** How much data is expected once the header has been handled. *)
Lemma rx_pdu_expects q s :
  wp True (nvmetcp_rx_pdu E q) (fun rc s' => rc = OK ->
    data_expect (get_rx q s') =
      if pdu_type (hdr (get_rx q s)) =? NVMETCP_PDU_C2HDATA
      then Z.to_nat (u64 (announced (hdr (get_rx q s)))) else data_expect (get_rx q s)) s.
Proof.
  unfold nvmetcp_rx_pdu. do 2 wp_step. set (t := pdu_type _).
  destruct (t =? NVMETCP_PDU_ICRESP) eqn:Ht1.
  { apply Z.eqb_eq in Ht1. rewrite Ht1. unfold rx_icresp. wp_run; destruct q; done. }
  destruct (t =? NVMETCP_PDU_RESPONSE) eqn:Ht2.
  { apply Z.eqb_eq in Ht2. rewrite Ht2. wp_run; destruct q; done. }
  destruct (t =? NVMETCP_PDU_C2HDATA) eqn:Ht3.
  { unfold rx_c2hdata. wp_run; try done. apply wp_update. wp_run. by destruct q. }
  destruct (t =? NVMETCP_PDU_R2T); [|by wp_run]. unfold nvmetcp_tx_h2cdata. wp_run; [done|].
  apply wp_tx_pdu; [done| |done]. intros. by destruct q.
Qed.

Lemma rx_pdu_expects_pdu q p s :
  boundary (get_rx q s) -> pdu_ok p ->
  wp True (nvmetcp_rx_pdu E q) (fun rc s' => rc = OK -> get_rx q s' =
    (get_rx q (received q (p_hdr p) s)) <| data_expect := length (p_data p) |>)
    (received q (p_hdr p) s).
Proof.
  intros Hb Hp. pose proof (pdu_hlen_cases _ _ (po_hdr p Hp)) as Hl.
  eapply wp_mono; [apply wp_conj; [apply rx_pdu_expects|apply rx_pdu_frame]|].
  intros rc s2 [He [n Hn]] Hok. specialize (He Hok). rewrite Hn in He |- *.
  assert (n = length (p_data p)) as ->; [|done]. cbn [data_expect modify] in He. rewrite He.
  rewrite received_type by lia.
  destruct (decide (pdu_type (p_hdr p) = NVMETCP_PDU_C2HDATA)) as [Ht|Ht].
  - destruct (po_announced p Hp Ht) as [Ha Hm]. rewrite Ht, Z.eqb_refl, received_rx.
    cbn [hdr modify]. unfold announced in *. rewrite get_field_splice by (change (sizeof _) with 8%nat; lia).
    rewrite Ha. unfold u64. change NVMETCP_MAX_CMD_DATA with 4096%nat in Hm. rewrite Z.mod_small; lia.
  - rewrite (po_data p Hp Ht), (proj2 (Z.eqb_neq _ _) Ht), received_rx. apply Hb.
Qed.

(** ** One PDU *)
Lemma deliver_pdu q p rest s :
  boundary (get_rx q s) -> length (hdr (get_rx q s)) = 128%nat -> pdu_ok p ->
  nvmetcp_socket_deliver E q (encode p ++ rest) s =
  (try* handle_pdu q p in nvmetcp_socket_deliver E q rest) s.
Proof.
  intros Hb H128 Hp. pose proof (pdu_hlen_cases _ _ (po_hdr p Hp)) as Hl.
  unfold encode. rewrite <-app_assoc, deliver_second by (done || apply Hp).
  unfold handle_pdu, try, bind, update, gets. pose proof (rx_pdu_expects_pdu q p s Hb Hp) as Hr2.
  set (s1 := received _ _ _) in *.
  unfold wp in Hr2. destruct (nvmetcp_rx_pdu E q s1) as [[|e] s2| |] eqn:Hrx; [|done..].
  specialize (Hr2 eq_refl).
  assert (data_expect (get_rx q s2) = length (p_data p)) as Hexp by by rewrite Hr2.
  rewrite Hexp.
  case_bool_decide as Hd; destruct (p_data p) as [|b d] eqn:Hpd; try done.
  rewrite <-Hpd in *. assert (p_data p <> []) as Hne by (rewrite Hpd; done).
  rewrite (bool_decide_false (p_data p = [])) by done. clear b d Hpd.
  unfold s1 in Hr2. rewrite received_rx in Hr2. destruct Hb as (_ & _ & _ & Hdl).
  assert (hdr_len (get_rx q s2) = length (p_hdr p) /\ hdr_expect (get_rx q s2) = length (p_hdr p) /\
          data_len (get_rx q s2) = 0%nat) as (Hx1 & Hx2 & Hx3) by by rewrite Hr2.
  unfold ret at 1. rewrite deliver_unroll by (destruct (p_data p); done). cbv zeta.
  rewrite Hx1, Hx2, Hx3, Hexp, bool_decide_false by lia. unfold clip. rewrite bool_decide_true by lia.
  replace (Nat.min _ _) with (length (p_data p)) by (rewrite length_app; lia).
  rewrite take_app_length, drop_app_length. unfold try, bind, rx_data_bytes, bind.
  rewrite rx_data_copy_eq. case_bool_decide; [|done].
  unfold rx_data_check, bind, gets.
  replace (get_rx q (data_fed q (p_data p) s2)) with
    ((get_rx q s2) <| data_len ::= (fun n => n + length (p_data p))%nat |>) by by destruct q.
  cbn [data_len data_expect modify]. by rewrite Hx3, Hexp, bool_decide_false by lia.
Qed.
End Pdu.

(** ** Handling by type *)
Section Kinds.
Context `{DigestOps} `{ExchangeOps} (E : env).
Implicit Types (s : session) (q : queue).

(** The session when a data PDU has arrived, before it is completed. *)
Definition data_arrived (q : queue) (h data : list Z) (s : session) : session :=
  let s := (received q h s) <| cmd_data_len := (cmd_data_offset s + length data)%nat |> in
  let s := set_rx q ((get_rx q s) <| data_expect := length data |>) s in
  if bool_decide (data = []) then s else data_fed q data s.

Lemma wp_handle_c2hdata F q h data Q s :
  pdu_ok (Pdu h data) -> boundary (get_rx q s) -> pdu_type h = NVMETCP_PDU_C2HDATA ->
  get_field nvmetcp_data_pdu "data_offset" h = Z.of_nat (cmd_data_offset s) ->
  length (cmd_buf s) = NVMETCP_MAX_CMD_DATA ->
  wp F (nvmetcp_rx_pdu_complete E q) Q (data_arrived q h data s) ->
  wp F (handle_pdu E q (Pdu h data)) Q s.
Proof.
  intros Hp (Hb1 & Hb2 & Hb3 & Hb4) Ht Hoff Hbuf Hk.
  pose proof (pdu_hlen_cases _ _ (po_hdr _ Hp)) as Hh. cbn in Hh.
  destruct (po_announced _ Hp Ht) as [Ha Hm]. cbn in Ha, Hm.
  unfold handle_pdu. wp_step. apply wp_update. wp_step. unfold nvmetcp_rx_pdu.
  cbn [p_hdr p_data]. do 2 wp_step. rewrite received_type, Ht by lia.
  pdu_dispatch NVMETCP_PDU_C2HDATA.
  unfold rx_c2hdata. rewrite received_rx. cbn [hdr modify].
  rewrite !get_field_splice by (try change (sizeof _) with 24%nat; try change (sizeof _) with 8%nat; lia).
  unfold announced in Ha. rewrite Ha, Hoff.
  assert (u64 (Z.of_nat (length data)) = Z.of_nat (length data)) as Hu.
  { apply Z.mod_small. change NVMETCP_MAX_CMD_DATA with 4096%nat in Hm. lia. }
  rewrite Hu, Nat2Z.id, Z.gtb_ltb, (proj2 (Z.ltb_ge _ _)) by lia. do 2 wp_step.
  replace (cmd_data_offset (received q h s)) with (cmd_data_offset s) by by destruct q.
  rewrite Z.eqb_refl. cbn [negb]. do 3 wp_step. apply wp_update. do 2 wp_step.
  unfold data_arrived in Hk. set (s1 := set_rx q _ _) in *.
  case_bool_decide as Hd; [by apply wp_ret|].
  assert (data_len (get_rx q s1) = 0%nat /\ cmd_buf s1 = cmd_buf s) as [Hl1 Hc1].
  { unfold s1. rewrite get_set_rx. by destruct q. }
  eapply wp_intro; [|exact Hk]. by rewrite rx_data_copy_eq, Hl1, Hc1, bool_decide_true by lia.
Qed.

(** What a data PDU changes: the receive state, and the buffer it fills. *)
Lemma data_arrived_fields q h data s :
  boundary (get_rx q s) -> (1 <= length h)%nat ->
  let s' := data_arrived q h data s in
  pdu_type (hdr (get_rx q s')) = pdu_type h /\
  cmd_data_offset s' = (cmd_data_offset s + length data)%nat /\
  cmd_data_len s' = (cmd_data_offset s + length data)%nat /\
  cmd_buf s' = splice 0 data (cmd_buf s) /\
  (phase s', block_data s', block_writing s', block_len s', block_buffer s', events s', auth s')
  = (phase s, block_data s, block_writing s, block_len s, block_buffer s, events s, auth s).
Proof.
  intros (_ & _ & _ & Hb) Hl s'. unfold s', data_arrived. case_bool_decide as Hd.
  - subst data. rewrite splice_nil, Nat.add_0_r.
    destruct q; cbn in *; by rewrite pdu_type_splice.
  - unfold data_fed, received. destruct q; cbn in *; rewrite pdu_type_splice, Hb by done; done.
Qed.

Lemma data_arrived_names q h data s :
  let s' := data_arrived q h data s in
  (cid s', tick s', secret s', host_nqn s', subsystem_nqn s') =
  (cid s, tick s, secret s, host_nqn s, subsystem_nqn s).
Proof. cbv zeta. unfold data_arrived. case_bool_decide; by destruct q. Qed.

(** The session when a completion has arrived. *)
Definition cqe_arrived (q : queue) (h : list Z) (s : session) : session :=
  (received q h s) <| cqe := sub 8 16 h |>.

Lemma wp_handle_response F q h Q s :
  pdu_ok (Pdu h []) -> pdu_type h = NVMETCP_PDU_RESPONSE ->
  wp F (nvmetcp_rx_pdu_complete E q) Q (cqe_arrived q h s) ->
  wp F (handle_pdu E q (Pdu h [])) Q s.
Proof.
  intros Hp Ht Hk. pose proof (pdu_hlen_cases _ _ (po_hdr _ Hp)) as Hh. cbn in Hh.
  unfold handle_pdu. wp_step. apply wp_update. wp_step. unfold nvmetcp_rx_pdu.
  cbn [p_hdr p_data]. do 2 wp_step. rewrite received_type, Ht by lia.
  pdu_dispatch NVMETCP_PDU_RESPONSE.
  do 4 wp_step. rewrite bool_decide_true by done. wp_step. rewrite received_rx. cbn [hdr modify].
  replace (sub _ _ (splice 0 h _)) with (sub 8 16 h); [exact Hk|].
  change (sizeof nvmetcp_pdu_header) with 8%nat. change (sizeof nvme_completion) with 16%nat.
  unfold splice. rewrite take_0. cbn [app]. unfold sub.
  by rewrite drop_app_le, take_app_le by (rewrite ?length_drop; lia).
Qed.
End Kinds.

(** ** Sequences of PDUs *)
Section Refine.
Context `{DigestLaws} `{ExchangeLaws} (E : env) `{EnvLaws E}.
Implicit Types (s : session) (q : queue) (p : pdu).

Lemma handle_pdu_deliver q p s :
  boundary (get_rx q s) -> length (hdr (get_rx q s)) = 128%nat -> pdu_ok p ->
  handle_pdu E q p s = nvmetcp_socket_deliver E q (encode p) s.
Proof.
  intros. rewrite <-(app_nil_r (encode p)), deliver_pdu by done. unfold try, bind.
  by destruct (handle_pdu E q p s) as [[] ?| |].
Qed.

Lemma handle_pdu_inv q p s rc s' :
  Inv s -> boundary (get_rx q s) -> pdu_ok p -> handle_pdu E q p s = Ret rc s' -> handled s s'.
Proof.
  intros HI Hb Hp Hh. rewrite handle_pdu_deliver in Hh; [|done|apply get_rx_inv, HI|done].
  by apply (deliver_inv E q (encode p) s rc); [|apply Hp|].
Qed.

Lemma handle_pdu_boundary q p s s' :
  handle_pdu E q p s = Ret OK s' -> boundary (get_rx q s').
Proof.
  intros Hh. apply bind_ret in Hh as (? & s1 & _ & Hh).
  apply try_ret in Hh as [[_ Hh]|(s2 & _ & Hh)]; [done|]. apply bind_ret in Hh as (? & s3 & _ & Hh).
  destruct (wp_elim _ _ _ _ _ _ (rx_pdu_complete_reset E q s3) Hh eq_refl) as [r ->].
  apply boundary_reset.
Qed.

Lemma handle_pdus_deliver q ps s :
  Inv s -> boundary (get_rx q s) -> Forall pdu_ok ps ->
  nvmetcp_socket_deliver E q (concat (map encode ps)) s = handle_pdus E q ps s.
Proof.
  revert s. induction ps as [|p ps IH]; intros s HI Hb Hps; [done|].
  apply Forall_cons in Hps as [Hp Hps]. cbn [map concat handle_pdus].
  rewrite deliver_pdu; [|done|apply get_rx_inv, HI|done]. unfold try, bind.
  destruct (handle_pdu E q p s) as [[|e] s1| |] eqn:Hh; [|done..].
  apply IH; [|by eapply handle_pdu_boundary|done]. by apply (handle_pdu_inv q p s OK).
Qed.

(** A PDU whose handling stays inside every buffer: the R2T must not ask for a
    range that wraps around 2^32. *)
Definition pdu_safe (p : pdu) : Prop :=
  pdu_ok p /\ (pdu_type (p_hdr p) = NVMETCP_PDU_R2T -> r2t_ok (p_hdr p)).

Lemma received_inv q p s : Inv s -> boundary (get_rx q s) -> pdu_ok p -> Inv (received q (p_hdr p) s).
Proof.
  intros HI (_ & _ & Hde & _) Hp. pose proof (pdu_hlen_cases _ _ (po_hdr p Hp)) as Hl.
  pose proof (po_bytes p Hp) as Hb. apply Forall_app in Hb as [Hb _].
  pose proof (get_rx_inv q s HI) as []. apply inv_set_rx; [done|].
  constructor; cbn; auto with fw lia. rewrite splice_length; lia.
Qed.

(** An R2T for data of a command that is still pending, as the protocol has it. *)
Definition pdu_timely (p : pdu) (s : session) : Prop :=
  pdu_type (p_hdr p) = NVMETCP_PDU_R2T -> r2t_timely (p_hdr p) s.

(** Each PDU is timely when it is handled. *)
Fixpoint timely (q : queue) (ps : list pdu) (s : session) : Prop :=
  match ps with
  | [] => True
  | p :: ps => pdu_timely p s /\ forall s', handle_pdu E q p s = Ret OK s' -> timely q ps s'
  end.

Lemma handle_pdu_safe q p s :
  Inv s -> boundary (get_rx q s) -> pdu_safe p -> pdu_timely p s ->
  wp False (handle_pdu E q p) (fun _ => handled s) s.
Proof.
  intros HI Hb [Hp Hr] Htm. pose proof (pdu_hlen_cases _ _ (po_hdr p Hp)) as Hl.
  pose proof (received_inv q p s HI Hb Hp) as HI1.
  unfold handle_pdu. wp_step. apply wp_update. wp_step. set (s1 := received _ _ _) in *.
  assert (handled s s1) as Hs1 by (apply handled_same; [done|by destruct q]).
  assert (get_rx q s1 = _) as Hr1 by apply received_rx.
  eapply wp_mono; [apply wp_conj_lax; [|by apply rx_pdu_expects_pdu]|].
  { apply (rx_pdu_safe E); fold s1; rewrite ?Hr1; cbn; [done|apply Hb|done|].
    unfold r2t_ok, r2t_timely.
    rewrite !get_field_splice, pdu_type_splice by (try change (sizeof _) with 24%nat; lia).
    intros Ht. left. split; [by apply Hr|]. replace (lent s1) with (lent s) by by destruct q. by apply Htm. }
  intros [|e] s2 [Hh2 Hr2]; [|by eapply handled_trans]. specialize (Hr2 eq_refl).
  assert (handled s s2) as Hs2 by by eapply handled_trans. wp_step.
  apply (wp_mono _ _ (fun _ => handled s)).
  - case_bool_decide; [by apply wp_ret|]. eapply wp_mono.
    { apply rx_data_copy_safe; [apply Hs2|..]; rewrite Hr2; fold s1; rewrite Hr1; cbn; [done|].
      destruct Hb as (_ & _ & _ & ->). done. }
    intros [] s3. by apply handled_trans.
  - intros [] s3 Hs3. eapply wp_mono; [apply (rx_pdu_complete_safe E), Hs3|].
    intros rc s4. by apply handled_trans.
Qed.

Lemma handle_pdus_safe q ps s :
  Inv s -> boundary (get_rx q s) -> Forall pdu_safe ps -> timely q ps s ->
  wp False (handle_pdus E q ps) (fun _ => handled s) s.
Proof.
  revert s. induction ps as [|p ps IH]; intros s HI Hb Hps Htm; [by apply wp_ret, handled_refl|].
  apply Forall_cons in Hps as [Hp Hps]. destruct Htm as [Htp Htm]. cbn [handle_pdus]. wp_step.
  pose proof (handle_pdu_safe q p s HI Hb Hp Htp) as Hw. unfold wp in Hw |- *.
  destruct (handle_pdu E q p s) as [[|e] s1| |] eqn:Hh; try done.
  pose proof (IH s1 (proj1 Hw) (handle_pdu_boundary q p s s1 Hh) Hps (Htm s1 eq_refl)) as Hk. unfold wp in Hk.
  destruct (handle_pdus E q ps s1); try done. by eapply handled_trans.
Qed.
End Refine.

Lemma boundary_ready r : boundary r -> rx_ready r.
Proof. unfold boundary, rx_ready. intros. left. lia. Qed.

(** ** Claims *)
Section Claims.
Context `{DigestLaws} `{ExchangeLaws} (E : env) `{EnvLaws E}.

(** [C1] Refinement: delivering the encodings of well-formed PDUs to a queue of a
    reachable session, cut into segments in any way, computes exactly what the
    PDU-level specification computes by handling the PDUs one after the other;
    partial headers, the two-stage header length and the receive counters are
    invisible. *)
Theorem deliver_refines_pdus u s q ps segs :
  reachable E u s -> boundary (get_rx q s) -> Forall pdu_ok ps ->
  concat segs = concat (map encode ps) ->
  deliver_all E q segs s = handle_pdus E q ps s.
Proof.
  intros Hr Hb Hps Hs. rewrite deliver_all_concat by by apply boundary_ready.
  rewrite Hs. apply (handle_pdus_deliver E); [by apply (reachable_inv E u)|done..].
Qed.

(** [C3] Memory safety of reception: a target that sends well-formed PDUs (ICResp,
    completion, data and R2T PDUs of the right sizes), whose R2Ts do not wrap around 2^32
    and ask for data only while a block command is pending, can never make the driver
    leave a buffer or touch one that the caller has back, in any reachable session and for
    any segmentation; the delivery returns a status, the invariant holds, and the phase
    has moved along the edges of the setup sequence only.  Without the two conditions on
    R2Ts this fails (NvmeFindings.v). *)
Theorem wellformed_stream_safe u s q ps segs :
  reachable E u s -> boundary (get_rx q s) -> Forall pdu_safe ps -> timely E q ps s ->
  concat segs = concat (map encode ps) ->
  exists rc s', deliver_all E q segs s = Ret rc s' /\ Inv s' /\ phase_path (phase s) (phase s').
Proof.
  intros Hr Hb Hps Htm Hs. rewrite deliver_all_concat, Hs by by apply boundary_ready.
  pose proof (reachable_inv E u s Hr) as HI.
  rewrite (handle_pdus_deliver E); [|done..|by eapply Forall_impl; [exact Hps|intros p []]].
  pose proof (handle_pdus_safe E q ps s HI Hb Hps Htm) as Hw. unfold wp in Hw.
  destruct (handle_pdus E q ps s) as [rc s'| |]; [|done..]. exists rc, s'. split; [done|apply Hw].
Qed.
End Claims.

#[local] Existing Instances Toy.digest Toy.digest_laws Toy.exchange Toy.exchange_laws ToyEnv.laws.

(** A completion and 512 bytes of data for the I/O queue of the ready session,
    delivered in three pieces. *)
Definition demo_pdus : list pdu :=
  [Pdu (Demo.response 0 0) []; Pdu (Demo.c2h_header 0 512) (zeros 512)].
Definition demo_segs : list (list Z) :=
  let l := concat (map encode demo_pdus) in [take 3 l; take 100 (drop 3 l); drop 103 l].

Lemma demo_pdus_ok : Forall pdu_safe demo_pdus.
Proof.
  apply Forall_cons; split; [|apply Forall_cons; split; [|apply Forall_nil; exact I]];
    (split; [constructor; [apply bytes_okb_ok; vm_compute; reflexivity|vm_compute; reflexivity|..]|]).
  - reflexivity.
  - intros Ht. vm_compute in Ht. discriminate.
  - intros Ht. vm_compute in Ht. discriminate.
  - intros Ht. vm_compute in Ht. contradiction.
  - split; [vm_compute; reflexivity|vm_compute; lia].
  - intros Ht. vm_compute in Ht. discriminate.
Qed.

Lemma deliver_refines_pdus_witness :
  deliver_all Demo.E Io demo_segs Demo.ready = handle_pdus Demo.E Io demo_pdus Demo.ready.
Proof.
  apply (deliver_refines_pdus Demo.E Demo.target); [exact Demo.ready_reachable|vm_compute; auto| |vm_compute; reflexivity].
  eapply Forall_impl; [exact demo_pdus_ok|]. intros p [Hp _]. exact Hp.
Defined.
