(* ===== verification/NvmeBlock.v ===== *)
(** * Block I/O (net/tcp/nvmetcp.c, lines 805-925, with the PDU handlers)

    What a block device client gets: a read returns the target's data, a write
    puts the client's data on the wire and completes with the target's status, an
    R2T is answered with the bytes it asks for, and every refusal leaves the
    session as it was. *)

From stdpp Require Import base list strings relations.
From Stdlib Require Import ZArith Lia.
From S2P Require Import Prelude Layout NvmeWire Crypto NvmeState NvmeTx NvmeAuth NvmeUri NvmeRx.
From S2P Require Import NvmeOps NvmeDemo NvmeStream NvmeInv NvmeReach NvmePdu.

Section Block.
Context `{DigestOps} `{ExchangeOps} (E : env).
Implicit Types (s : session).

(** The session with the block command set up, before it is sent. *)
Definition block_started (d : nat) (lba count : Z) (buffer : list Z) (op : Z) (s : session) : session :=
  s <| events ::= (fun l => l ++ [Plugged d]) |>
    <| block_data := Some d |> <| block_buffer := buffer |> <| block_len := length buffer |>
    <| block_writing := op =? NVME_OPCODE_WRITE |>
    <| cid ::= (fun c => u16 (c + 1)) |>
    <| cmd := rw_command (u16 (cid s + 1)) op (nsid s) lba count |>.

(** The PDU that carries the command: a write carries its data. *)
Definition block_pdu (lba count : Z) (buffer : list Z) (op : Z) (s : session) : list Z :=
  let c := rw_command (u16 (cid s + 1)) op (nsid s) lba count in
  if op =? NVME_OPCODE_WRITE then command_pdu c (length buffer) 0 ++ buffer
  else command_pdu c 0 (length buffer).

Lemma wp_block_rw F d lba n b op Q s :
  phase s = NVMETCP_PHASE_READY -> (length b <= NVMETCP_MAX_CMD_DATA)%nat -> block_data s = None ->
  (forall e t, tx_error e ->
     Q (Err e) ((block_started d lba n b op s) <| tick := t |> <| block_data := None |>
                  <| events ::= (fun l => l ++ [Restarted (Err e)]) |>)) ->
  (forall t, Q OK (expecting Io (if op =? NVME_OPCODE_WRITE then 0%nat else length b)
     (sent Io (block_pdu lba n b op s) ((block_started d lba n b op s) <| tick := t |>)))) ->
  wp F (nvmetcp_block_rw E d lba n b op) Q s.
Proof.
  intros Hp Hl Hbd Herr Hok. unfold nvmetcp_block_rw. wp_step. wp_step.
  rewrite bool_decide_true by done. cbn [negb]. rewrite bool_decide_false by lia. wp_step. wp_step.
  rewrite Hbd. unfold next_cid, block_done. wp_run. unfold block_pdu in Hok.
  apply wp_tx_command.
  - intros e t He. wp_run. unfold block_started in *. by_state s (Herr e t He).
  - intros t. wp_run. unfold block_started in *. destruct (op =? NVME_OPCODE_WRITE) eqn:Hop.
    + by_state s (Hok t).
    + rewrite app_nil_r. by_state s (Hok t).
Qed.

(** What remains visible of a completed block command. *)
Record completed_with (s s' : session) (rc : status) : Prop := {
  cw_data : block_data s' = None;
  cw_phase : phase s' = phase s;
  cw_events : events s' = events s ++ [Restarted rc];
}.

Lemma splice_whole a b : length a = length b -> splice 0 a b = a.
Proof.
  intros Hl. unfold splice. rewrite take_0, drop_ge by (cbn; lia). cbn. apply app_nil_r.
Qed.

Lemma sub_splice_prefix a b n :
  (length a <= n)%nat -> (length a <= length b)%nat ->
  sub 0 n (splice 0 a b) = a ++ sub (length a) (n - length a) b.
Proof.
  intros Ha Hb. unfold sub, splice. rewrite take_0. cbn [app]. by rewrite drop_0, take_app_ge.
Qed.

(** A data PDU for a read: the head of the command buffer lands in the client's
    buffer, whatever the length of the data. *)
Lemma read_data_arrives h data s :
  Inv s -> pdu_ok (Pdu h data) -> boundary (rx_io s) ->
  pdu_type h = NVMETCP_PDU_C2HDATA -> get_field nvmetcp_data_pdu "data_offset" h = 0 ->
  phase s = NVMETCP_PHASE_READY -> is_Some (block_data s) -> block_writing s = false ->
  cmd_data_offset s = 0%nat -> (length data <= block_len s)%nat ->
  wp False (handle_pdu E Io (Pdu h data))
    (fun rc s' => rc = OK /\
       block_buffer s' = data ++ sub (length data) (block_len s - length data) (cmd_buf s) /\
       completed_with s s' OK) s.
Proof.
  intros HI Hp Hb Ht Hoff Hph [d Hbd] Hw Ho Hlen.
  pose proof (pdu_hlen_cases _ _ (po_hdr _ Hp)) as Hh. cbn in Hh.
  destruct (po_announced _ Hp Ht) as [_ Hm]. cbn in Hm.
  pose proof (i_buf _ HI) as Hcb. pose proof (i_block _ HI) as Hbl.
  pose proof (i_block_max _ HI) as Hbm.
  apply wp_handle_c2hdata; auto. { by rewrite Ho, Hoff. }
  destruct (data_arrived_fields Io h data s Hb ltac:(lia)) as (Ht' & Ho' & Hl' & Hc' & Hrest).
  revert Ht' Ho' Hl' Hc' Hrest. generalize (data_arrived Io h data s).
  intros s1 Ht1 Ho1 Hl1 Hc1 [= Hx1 Hx2 Hx3 Hx4 Hx5 Hx6 Hx7].
  unfold nvmetcp_rx_pdu_complete. do 3 wp_step. rewrite Ht1, Ht.
  pdu_dispatch NVMETCP_PDU_C2HDATA.
  do 4 wp_step. rewrite bool_decide_false by lia. unfold nvmetcp_rx_data, block_done.
  do 4 wp_step. cbn [phase block_data block_writing cmd_buf block_len block_buffer modify].
  rewrite Hx1, Hph. do 4 wp_step. cbn [phase block_data block_writing modify]. rewrite Hx2, Hbd, Hx3, Hw.
  do 5 wp_step. cbn [cmd_buf block_len modify]. rewrite Hc1, Hx4.
  rewrite read_some by (rewrite splice_length; lia). wp_prim. do 3 wp_step.
  rewrite sub_splice_prefix by lia. cbn [block_buffer modify].
  rewrite Hx5, memcpy_some by (rewrite length_app, sub_length; lia).
  wp_prim. rewrite splice_whole by (rewrite length_app, sub_length; lia). wp_run. apply wp_update. wp_run. split_and!; [done..|].
  constructor; cbn; congruence.
Qed.

(** The data PDU of a read: the data lands in the client's buffer. *)
Lemma read_data_completes h data s :
  Inv s -> pdu_ok (Pdu h data) -> boundary (rx_io s) ->
  pdu_type h = NVMETCP_PDU_C2HDATA -> get_field nvmetcp_data_pdu "data_offset" h = 0 ->
  phase s = NVMETCP_PHASE_READY -> is_Some (block_data s) -> block_writing s = false ->
  cmd_data_offset s = 0%nat -> block_len s = length data ->
  wp False (handle_pdu E Io (Pdu h data))
    (fun rc s' => rc = OK /\ block_buffer s' = data /\ completed_with s s' OK) s.
Proof.
  intros. eapply wp_mono; [apply read_data_arrives; auto; lia|]. cbv beta. intros rc s' (-> & -> & ?).
  replace (block_len s - length data)%nat with 0%nat by lia. unfold sub. by rewrite take_0, app_nil_r.
Qed.

(** The completion of a block command, in both outcomes. *)
Lemma block_response_completes h s :
  pdu_ok (Pdu h []) -> pdu_type h = NVMETCP_PDU_RESPONSE ->
  phase s = NVMETCP_PHASE_READY -> is_Some (block_data s) ->
  wp False (handle_pdu E Io (Pdu h []))
    (fun rc s' => rc = OK /\ block_buffer s' = block_buffer s /\
       completed_with s s'
         (if get_field nvmetcp_rsp_pdu "cqe.status" h =? 0 then OK else Err EIO)) s.
Proof.
  intros Hp Ht Hph [d Hbd]. pose proof (pdu_hlen_cases _ _ (po_hdr _ Hp)) as Hh. cbn in Hh.
  apply wp_handle_response; [done..|]. unfold nvmetcp_rx_pdu_complete. do 3 wp_step.
  replace (pdu_type _) with NVMETCP_PDU_RESPONSE by (symmetry; cbn; by rewrite pdu_type_splice by lia).
  pdu_dispatch NVMETCP_PDU_RESPONSE.
  unfold nvmetcp_rx_command, rx_command_failed, block_done. do 4 wp_step.
  replace (get_field nvme_completion "status" _) with (get_field nvmetcp_rsp_pdu "cqe.status" h).
  2:{ unfold get_field, get_bytes. cbn [cqe_arrived cqe modify]. rewrite sub_sub by (vm_compute; lia). done. }
  destruct (get_field nvmetcp_rsp_pdu "cqe.status" h =? 0); cbn [negb].
  - do 2 wp_step. cbn. rewrite Hph. do 2 wp_step. cbn. rewrite Hbd. wp_run.
    split_and!; [done..|]. by constructor.
  - do 2 wp_step. cbn [phase cqe_arrived received set_rx modify]. rewrite Hph.
    rewrite (bool_decide_false (NVMETCP_PHASE_READY = NVMETCP_PHASE_CONNECT_ADMIN)) by done.
    rewrite andb_false_r. rewrite bool_decide_false by done. do 2 wp_step. cbn. rewrite Hbd.
    wp_run. split_and!; [done..|]. by constructor.
Qed.

(** A block command is only accepted by a ready, idle session. *)
Lemma block_rw_guards d lba n b op s :
  phase s <> NVMETCP_PHASE_READY \/ (NVMETCP_MAX_CMD_DATA < length b)%nat \/ is_Some (block_data s) ->
  nvmetcp_block_rw E d lba n b op s =
    Ret (if bool_decide (phase s = NVMETCP_PHASE_READY) &&
            bool_decide (NVMETCP_MAX_CMD_DATA < length b)%nat then Err EINVAL else Err EAGAIN) s.
Proof.
  unfold nvmetcp_block_rw, bind, gets. intros Hg. case_bool_decide as Hp; [|done]. cbn [negb andb].
  case_bool_decide as Hl; [done|]. destruct Hg as [?|[?|[x Hx]]]; [done..|]. by rewrite Hx.
Qed.

Lemma block_rw_inv d lba n b op s s1 :
  nvmetcp_block_rw E d lba n b op s = Ret OK s1 ->
  phase s = NVMETCP_PHASE_READY /\ (length b <= NVMETCP_MAX_CMD_DATA)%nat /\ block_data s = None /\
  exists t, s1 = expecting Io (if op =? NVME_OPCODE_WRITE then 0%nat else length b)
     (sent Io (block_pdu lba n b op s) ((block_started d lba n b op s) <| tick := t |>)).
Proof.
  intros Hr.
  assert (~ (phase s <> NVMETCP_PHASE_READY \/ (NVMETCP_MAX_CMD_DATA < length b)%nat \/
             is_Some (block_data s))) as Hg.
  { intros Hg. rewrite (block_rw_guards d lba n b op s Hg) in Hr. by destruct (_ && _). }
  assert (phase s = NVMETCP_PHASE_READY) as Hp by (destruct (decide (phase s = NVMETCP_PHASE_READY)); tauto).
  assert (length b <= NVMETCP_MAX_CMD_DATA)%nat as Hl by lia.
  assert (block_data s = None) as Hb by (apply eq_None_not_Some; tauto).
  split_and!; [done..|].
  refine (wp_elim True _ (fun rc s1 => rc = OK -> exists t, s1 = _) s OK s1 _ Hr eq_refl).
  apply wp_block_rw; [done..|]. intros t _. by exists t.
Qed.
End Block.

(** ** The wire format, byte by byte

    What the NVMe over TCP specification says of the headers that carry block I/O: the
    offsets are those of the specification, not of the structures of nvmetcp.h. *)

(** A command capsule that brings [sent] bytes with it, or else expects [received] bytes:
    the common header, then the submission queue entry with opcode, the flag for an SGL,
    command identifier, namespace, the SGL at byte 24 of the entry, starting block and
    number of blocks less one.  (The specification has 0x5a as the type of a transport
    SGL; the driver sends 0x52.) *)
Definition rw_header (op cid nsid lba count : Z) (sent received : nat) : list Z :=
  [0x04; 0; 72; if bool_decide (sent = 0%nat) then 0 else 72] ++ le_bytes 4 (72 + Z.of_nat sent) ++
  le_bytes 1 op ++ [0x40] ++ le_bytes 2 cid ++ le_bytes 4 nsid ++ zeros 16 ++
  (if bool_decide (sent = 0%nat)
   then zeros 8 ++ le_bytes 4 (Z.of_nat received) ++ zeros 3 ++ [0x52]
   else zeros 8 ++ le_bytes 4 (Z.of_nat sent) ++ zeros 3 ++ [0x01]) ++
  le_bytes 8 lba ++ le_bytes 2 (count - 1) ++ zeros 14.

(** The header of the H2CData PDU that brings [length] bytes from [offset] on. *)
Definition h2cdata_header (command_id ttag offset length : Z) : list Z :=
  [0x06; 0; 24; 24] ++ le_bytes 4 (24 + length) ++ le_bytes 2 command_id ++ le_bytes 2 ttag ++
  le_bytes 4 offset ++ le_bytes 4 length ++ zeros 4.

Lemma rw_header_spec op cid nsid lba count a b :
  command_pdu (rw_command cid op nsid lba count) a b = rw_header op cid nsid lba count a b.
Proof.
  unfold command_pdu, rw_command, rw_header. change (Z.of_nat (sizeof nvmetcp_cmd_pdu)) with 72.
  generalize (72 + Z.of_nat a), (Z.of_nat a), (Z.of_nat b), (count - 1). clear. intros p a' b' c.
  eval_members.
  destruct (bool_decide _); cbv beta iota zeta delta [negb].
  all: by vm_compute.
Qed.

Lemma h2cdata_header_spec h :
  let R := nvmetcp_r2t_pdu in
  h2cdata_pdu h = h2cdata_header (get_field R "command_id" h) (get_field R "ttag" h)
    (get_field R "r2t_offset" h) (get_field R "r2t_length" h).
Proof.
  unfold h2cdata_pdu, h2cdata_header. change (Z.of_nat (sizeof nvmetcp_data_pdu)) with 24.
  generalize (24 + get_field nvmetcp_r2t_pdu "r2t_length" h), (get_field nvmetcp_r2t_pdu "command_id" h),
    (get_field nvmetcp_r2t_pdu "ttag" h), (get_field nvmetcp_r2t_pdu "r2t_offset" h),
    (get_field nvmetcp_r2t_pdu "r2t_length" h). clear. intros p a b c d.
  eval_members. by vm_compute.
Qed.

(** ** Claims *)
Section Claims.
Context `{DigestLaws} `{ExchangeLaws} (E : env) `{EnvLaws E}.

(** A queue that has just sent a command is between two PDUs. *)
Lemma expecting_boundary q n s : boundary (get_rx q (expecting q n s)).
Proof. unfold expecting. rewrite get_set_rx. apply boundary_reset. Qed.

Lemma block_rw_kept d lba n b op s s1 :
  Inv s -> nvmetcp_block_rw E d lba n b op s = Ret OK s1 -> Inv s1.
Proof. intros HI Hr. exact (proj1 (wp_elim _ _ _ _ _ _ (block_rw_safe E d lba n b op s HI) Hr)). Qed.

(** A PDU without data, delivered whole. *)
Lemma deliver_bare q h s :
  Inv s -> boundary (get_rx q s) -> pdu_ok (Pdu h []) ->
  nvmetcp_socket_deliver E q h s = handle_pdu E q (Pdu h []) s.
Proof.
  intros HI Hb Hp. rewrite handle_pdu_deliver by (done || apply get_rx_inv, HI).
  unfold encode. cbn. by rewrite app_nil_r.
Qed.

Lemma h2cdata_pdu_splice h dst :
  (24 <= length h)%nat -> h2cdata_pdu (splice 0 h dst) = h2cdata_pdu h.
Proof.
  intros. unfold h2cdata_pdu. by rewrite !get_field_splice by (change (sizeof _) with 24%nat; lia).
Qed.

(** [C15] Block read, end to end: when [nvmetcp_block_read] is accepted in a
    reachable session, exactly one command PDU is sent on the I/O queue, a Read of [count]
    blocks from [lba] of the session's namespace under the next command identifier, which
    expects as many bytes as the buffer has; and when the target answers with one data PDU,
    from offset zero and of exactly the buffer's length, in any segmentation, the caller's
    buffer holds the target's data, the command is finished and the caller is told so
    exactly once.  (A shorter PDU is taken for the whole answer: [short_read_completes].) *)
Theorem block_read_end_to_end u s d lba count buf s1 h data segs :
  reachable E u s -> nvmetcp_block_read E d lba count buf s = Ret OK s1 ->
  pdu_ok (Pdu h data) -> pdu_type h = NVMETCP_PDU_C2HDATA ->
  get_field nvmetcp_data_pdu "data_offset" h = 0 -> length data = length buf ->
  concat segs = h ++ data ->
  exists s2, deliver_all E Io segs s1 = Ret OK s2 /\
    block_buffer s2 = data /\ block_data s2 = None /\
    events s2 = events s ++ [Plugged d;
      Sent Io (rw_header 0x02 (u16 (cid s + 1)) (nsid s) lba count 0 (length buf));
      Restarted OK].
Proof.
  intros Hr Hrd Hp Ht Hoff Hl Hs. pose proof (reachable_inv E u s Hr) as HI.
  pose proof (block_rw_kept _ _ _ _ _ _ _ HI Hrd) as HI1.
  destruct (block_rw_inv E _ _ _ _ _ _ _ Hrd) as (Hph & Hmax & Hbd & t & Hs1).
  assert (boundary (get_rx Io s1)) as Hb1 by (rewrite Hs1; apply expecting_boundary).
  rewrite deliver_all_concat by by apply boundary_ready.
  rewrite Hs. change (h ++ data) with (encode (Pdu h data)).
  rewrite <-handle_pdu_deliver by (done || apply get_rx_inv, HI1).
  assert (wp False (handle_pdu E Io (Pdu h data))
    (fun rc s' => rc = OK /\ block_buffer s' = data /\ completed_with s1 s' OK) s1) as Hw.
  { apply read_data_completes; auto; rewrite Hs1; [done|by eexists|done..|]. cbn. done. }
  unfold wp in Hw. destruct (handle_pdu E Io (Pdu h data) s1) as [rc s2| |]; try done.
  destruct Hw as (-> & Hbuf & [Hcd _ Hce]). exists s2. split_and!; [done..|].
  rewrite Hce, Hs1, <-rw_header_spec. cbn -[command_pdu rw_command]. by rewrite <-!app_assoc.
Qed.

(** [C16] Block write, end to end: an accepted [nvmetcp_block_write] sends one Write
    command PDU followed by exactly the caller's data in the same capsule; when
    the completion arrives, in any segmentation, the command is finished and the
    caller is told of success if the status is zero and of [EIO] otherwise. *)
Theorem block_write_end_to_end u s d lba count buf s1 h segs :
  reachable E u s -> nvmetcp_block_write E d lba count buf s = Ret OK s1 ->
  pdu_ok (Pdu h []) -> pdu_type h = NVMETCP_PDU_RESPONSE -> concat segs = h ->
  exists s2, deliver_all E Io segs s1 = Ret OK s2 /\ block_data s2 = None /\
    events s2 = events s ++ [Plugged d;
      Sent Io (rw_header 0x01 (u16 (cid s + 1)) (nsid s) lba count (length buf) 0 ++ buf);
      Restarted (if get_field nvmetcp_rsp_pdu "cqe.status" h =? 0 then OK else Err EIO)].
Proof.
  intros Hr Hwr Hp Ht Hs. pose proof (reachable_inv E u s Hr) as HI.
  pose proof (block_rw_kept _ _ _ _ _ _ _ HI Hwr) as HI1.
  destruct (block_rw_inv E _ _ _ _ _ _ _ Hwr) as (Hph & Hmax & Hbd & t & Hs1).
  assert (boundary (get_rx Io s1)) as Hb1 by (rewrite Hs1; apply expecting_boundary).
  rewrite deliver_all_concat by by apply boundary_ready.
  rewrite Hs, deliver_bare by done.
  pose proof (block_response_completes E h s1 Hp Ht) as Hw.
  specialize (Hw ltac:(by rewrite Hs1) ltac:(rewrite Hs1; by eexists)). unfold wp in Hw.
  destruct (handle_pdu E Io (Pdu h []) s1) as [rc s2| |]; try done.
  destruct Hw as (-> & _ & [Hcd _ Hce]). exists s2. split_and!; [done..|].
  rewrite Hce, Hs1, <-rw_header_spec. cbn -[command_pdu rw_command]. by rewrite <-!app_assoc.
Qed.

(** Refused block commands: before the session is ready, or while another
    command is pending, the answer is [EAGAIN], and [EINVAL] for a transfer larger
    than the 4096-byte command buffer, with the session unchanged; if the command
    cannot be sent, the caller gets the error both as the result and on its
    interface, nothing goes on the wire and the session is idle again. *)
Theorem block_rw_refused d lba n b op s :
  ((phase s <> NVMETCP_PHASE_READY \/ (NVMETCP_MAX_CMD_DATA < length b)%nat \/
    is_Some (block_data s)) ->
   nvmetcp_block_rw E d lba n b op s =
     Ret (if bool_decide (phase s = NVMETCP_PHASE_READY) &&
             bool_decide (NVMETCP_MAX_CMD_DATA < length b)%nat then Err EINVAL else Err EAGAIN) s) /\
  (phase s = NVMETCP_PHASE_READY -> (length b <= NVMETCP_MAX_CMD_DATA)%nat -> block_data s = None ->
   forall e s', nvmetcp_block_rw E d lba n b op s = Ret (Err e) s' ->
     (e = EAGAIN \/ e = ENOMEM) /\ block_data s' = None /\ phase s' = phase s /\
     events s' = events s ++ [Plugged d; Restarted (Err e)]).
Proof.
  split; [apply block_rw_guards|]. intros Hp Hl Hb e s' Hr.
  refine (wp_elim True _ (fun rc s' => forall e, rc = Err e -> (e = EAGAIN \/ e = ENOMEM) /\
    block_data s' = None /\ phase s' = phase s /\ events s' = events s ++ [Plugged d; Restarted (Err e)])
    s (Err e) s' _ Hr e eq_refl).
  apply wp_block_rw; [done..| |done]. intros e' t He e'' [= <-]. split_and!; [done..|].
  cbn. by rewrite <-app_assoc.
Qed.

(** [C25] R2T: when the target asks for a range of the buffer of a pending command, and
    its offset and length do not add up to 2^32 or more, the driver answers with one H2CData
    PDU that names the command, the tag and the range of the R2T and carries exactly that
    range of the caller's buffer, or reports a lack of resources with nothing sent; a range
    outside the buffer is refused with [EPROTO].  (A range that wraps, and an R2T without a
    pending command, read outside valid memory: NvmeFindings.v.) *)
Theorem r2t_sends_requested_range u s h :
  let off := get_field nvmetcp_r2t_pdu "r2t_offset" h in
  let len := get_field nvmetcp_r2t_pdu "r2t_length" h in
  reachable E u s -> boundary (get_rx Io s) -> pdu_ok (Pdu h []) ->
  pdu_type h = NVMETCP_PDU_R2T -> off + len < 2 ^ 32 -> is_Some (block_data s) ->
  exists rc s', nvmetcp_socket_deliver E Io h s = Ret rc s' /\
    (rc = OK -> off + len <= Z.of_nat (block_len s) /\
       events s' = events s ++ [Sent Io (
         h2cdata_header (get_field nvmetcp_r2t_pdu "command_id" h) (get_field nvmetcp_r2t_pdu "ttag" h) off len ++
         sub (Z.to_nat off) (Z.to_nat len) (block_buffer s))]) /\
    (rc <> OK -> events s' = events s) /\
    (off + len > Z.of_nat (block_len s) -> rc = Err EPROTO).
Proof.
  intros off len Hr Hb Hp Ht Hsafe Hlent. pose proof (reachable_inv E u s Hr) as HI.
  pose proof (pdu_hlen_cases _ _ (po_hdr _ Hp)) as Hh. cbn in Hh.
  unfold off, len in *. rewrite <-h2cdata_header_spec. fold off len in Hsafe |- *.
  rewrite deliver_bare by done. pose proof (po_bytes _ Hp) as Hbytes. unfold encode in Hbytes.
  rewrite app_nil_r in Hbytes. cbn [p_hdr] in Hbytes.
  pose proof (get_field_range nvmetcp_r2t_pdu "r2t_offset" h Hbytes ltac:(change (sizeof _) with 24%nat; lia)) as Ho.
  pose proof (get_field_range nvmetcp_r2t_pdu "r2t_length" h Hbytes ltac:(change (sizeof _) with 24%nat; lia)) as Hn.
  fold off len in Ho, Hn. pose proof (i_block _ HI) as Hbl.
  assert (wp False (handle_pdu E Io (Pdu h [])) (fun rc s' =>
    (rc = OK -> off + len <= Z.of_nat (block_len s) /\ events s' = events s ++ [Sent Io (h2cdata_pdu h ++
                  sub (Z.to_nat off) (Z.to_nat len) (block_buffer s))]) /\
    (rc <> OK -> events s' = events s) /\
    (off + len > Z.of_nat (block_len s) -> rc = Err EPROTO)) s) as Hw.
  2:{ unfold wp in Hw. destruct (handle_pdu E Io (Pdu h []) s) as [rc s'| |]; [by exists rc, s'|done..]. }
  unfold handle_pdu, nvmetcp_rx_pdu. wp_step. apply wp_update. do 3 wp_step. cbn [p_hdr p_data].
  rewrite received_type, Ht by lia.
  pdu_dispatch NVMETCP_PDU_R2T.
  unfold nvmetcp_tx_h2cdata. rewrite received_rx. cbn [hdr modify].
  rewrite !get_field_splice, h2cdata_pdu_splice by (try change (sizeof _) with 24%nat; lia).
  fold off len. rewrite u32_id by lia. do 2 wp_step. change (block_len (received Io h s)) with (block_len s).
  destruct (_ >? _) eqn:Hgt.
  { apply wp_ret. cbv iota. by split_and!. }
  do 4 wp_step. change (block_buffer (received Io h s)) with (block_buffer s).
  replace (lent (received Io h s)) with true by (symmetry; by apply bool_decide_eq_true). apply wp_tx_pdu.
  - intros e t [-> | ->]; (split_and!; [done..|lia]).
  - intros t data Hd. rewrite bool_decide_true by done.
    assert (data = sub (Z.to_nat off) (Z.to_nat len) (block_buffer s)) as ->.
    { destruct (len =? 0) eqn:Hz; [|by apply read_inv in Hd as [_ ->]].
      injection Hd as <-. replace (Z.to_nat len) with 0%nat by lia. unfold sub. by rewrite take_0. }
    do 2 wp_step. unfold nvmetcp_rx_pdu_complete. do 3 wp_step.
    replace (pdu_type _) with NVMETCP_PDU_R2T by (symmetry; cbn; by rewrite pdu_type_splice by lia).
  pdu_dispatch NVMETCP_PDU_R2T.
    wp_run. apply wp_update. wp_run. split_and!; [|done|lia]. intros _. split; [lia|done].
  - intros Hd. destruct (len =? 0); [done|]. by rewrite read_some in Hd by lia.
Qed.
End Claims.

#[local] Existing Instances Toy.digest Toy.digest_laws Toy.exchange Toy.exchange_laws ToyEnv.laws.

(** One block of 512 bytes, read and written in the ready session. *)
Definition demo_block : list Z := replicate 512 165.

Ltac no_ret H := exfalso; revert H; vm_compute; discriminate.

Lemma block_read_end_to_end_witness :
  match nvmetcp_block_read Demo.E 7 10 1 (zeros 512) Demo.ready with
  | Ret OK s1 => exists s2,
      deliver_all Demo.E Io [take 30 (Demo.c2hdata 0 demo_block); drop 30 (Demo.c2hdata 0 demo_block)]
        s1 = Ret OK s2 /\ block_buffer s2 = demo_block
  | _ => False
  end.
Proof.
  destruct (nvmetcp_block_read Demo.E 7 10 1 (zeros 512) Demo.ready) as [[|e] s1| |] eqn:Hr.
  2-4: no_ret Hr.
  destruct (block_read_end_to_end Demo.E Demo.target Demo.ready 7 10 1 (zeros 512) s1
    (Demo.c2h_header 0 512) demo_block
    [take 30 (Demo.c2hdata 0 demo_block); drop 30 (Demo.c2hdata 0 demo_block)]) as (s2 & Hd & Hb & _).
  - exact Demo.ready_reachable.
  - exact Hr.
  - constructor; [apply bytes_okb_ok; vm_compute; reflexivity|vm_compute; reflexivity|..].
    + intros Ht. vm_compute in Ht. contradiction.
    + intros _. split; [vm_compute; reflexivity|vm_compute; lia].
  - vm_compute. reflexivity.
  - vm_compute. reflexivity.
  - vm_compute. reflexivity.
  - vm_compute. reflexivity.
  - exists s2. split; [exact Hd|exact Hb].
Defined.

Lemma block_write_end_to_end_witness :
  match nvmetcp_block_write Demo.E 7 10 1 demo_block Demo.ready with
  | Ret OK s1 => exists s2, deliver_all Demo.E Io [Demo.response 0 0] s1 = Ret OK s2 /\
                            block_data s2 = None
  | _ => False
  end.
Proof.
  destruct (nvmetcp_block_write Demo.E 7 10 1 demo_block Demo.ready) as [[|e] s1| |] eqn:Hr.
  2-4: no_ret Hr.
  destruct (block_write_end_to_end Demo.E Demo.target Demo.ready 7 10 1 demo_block s1
    (Demo.response 0 0) [Demo.response 0 0]) as (s2 & Hd & Hb & _).
  - exact Demo.ready_reachable.
  - exact Hr.
  - constructor; [apply bytes_okb_ok; vm_compute; reflexivity|vm_compute; reflexivity|..].
    + intros _. reflexivity.
    + intros Ht. vm_compute in Ht. discriminate.
  - vm_compute. reflexivity.
  - vm_compute. reflexivity.
  - exists s2. split; [exact Hd|exact Hb].
Defined.

(** An R2T for the first 256 bytes of the pending write. *)
Definition demo_r2t : list Z :=
  let P := nvmetcp_r2t_pdu in
  set_field P "r2t_length" 256 (set_field P "ttag" 3 (set_field P "hdr.plen" 24
    (set_field P "hdr.hlen" 24 (set_field P "hdr.type" NVMETCP_PDU_R2T (zeros 24))))).

Definition demo_writing : session :=
  Demo.after Demo.target (Demo.setup ++ [LWrite 7 10 1 demo_block]).

Lemma demo_writing_reachable : reachable Demo.E Demo.target demo_writing.
Proof.
  apply (session_after_reachable Demo.E Demo.target (Demo.setup ++ [LWrite 7 10 1 demo_block])).
  by vm_compute.
Qed.

Lemma demo_r2t_safe : pdu_safe (Pdu demo_r2t []).
Proof.
  split; [constructor; [apply bytes_okb_ok; vm_compute; reflexivity|vm_compute; reflexivity|..]|].
  - intros _. reflexivity.
  - intros Ht. vm_compute in Ht. discriminate.
  - intros _. vm_compute. reflexivity.
Qed.

Lemma r2t_sends_requested_range_witness :
  exists rc s', nvmetcp_socket_deliver Demo.E Io demo_r2t demo_writing = Ret rc s' /\
    (rc = OK -> events s' = events demo_writing ++
       [Sent Io (h2cdata_header 0 3 0 256 ++ sub 0 256 demo_block)]).
Proof.
  destruct (r2t_sends_requested_range Demo.E Demo.target demo_writing demo_r2t) as (rc & s' & Hd & Hok & _).
  - exact demo_writing_reachable.
  - vm_compute. auto.
  - apply demo_r2t_safe.
  - vm_compute. reflexivity.
  - vm_compute. reflexivity.
  - vm_compute. eexists. reflexivity.
  - exists rc, s'. split; [exact Hd|]. intros Hrc. destruct (Hok Hrc) as [_ He].
    rewrite He. reflexivity.
Defined.

(** The R2T and the completion of the pending write, in two segments. *)
Definition write_answer : list pdu := [Pdu demo_r2t []; Pdu (Demo.response 0 0) []].

Lemma write_answer_timely : timely Demo.E Io write_answer demo_writing.
Proof.
  split; [intros _ _; by vm_compute|]. intros s1 _.
  split; [intros Ht; vm_compute in Ht; discriminate|done].
Qed.

Lemma wellformed_stream_safe_witness :
  exists rc s', deliver_all Demo.E Io [take 30 (demo_r2t ++ Demo.response 0 0); drop 30 (demo_r2t ++ Demo.response 0 0)]
    demo_writing = Ret rc s' /\ Inv s' /\ phase_path (phase demo_writing) (phase s').
Proof.
  apply (wellformed_stream_safe Demo.E Demo.target _ _ write_answer).
  - exact demo_writing_reachable.
  - vm_compute. auto.
  - apply Forall_cons; split; [exact demo_r2t_safe|]. apply Forall_cons; split; [|apply Forall_nil; exact I].
    exact (proj1 (proj1 (Forall_cons _ _ _) demo_pdus_ok)).
  - exact write_answer_timely.
  - vm_compute. reflexivity.
Defined.

(** A read before the session is ready. *)
Lemma block_rw_refused_witness :
  nvmetcp_block_rw Demo.E 7 10 1 (zeros 512) NVME_OPCODE_READ Demo.opened = Ret (Err EAGAIN) Demo.opened.
Proof.
  rewrite (proj1 (block_rw_refused Demo.E 7 10 1 (zeros 512) NVME_OPCODE_READ Demo.opened)).
  - reflexivity.
  - left. vm_compute. discriminate.
Defined.
