(* ===== verification/NvmeDhchap.v ===== *)
(** * DH-HMAC-CHAP: what is sent and what is accepted (net/tcp/nvmetcp_auth.c)

    The values of the exchange as the specification defines them, in terms of the
    one-shot [HMAC] and [H], and the theorems that the incremental code computes
    them; the validation of the controller's messages on every branch; the gate
    between the authentication phase and the rest of the setup. *)

From stdpp Require Import base list strings relations.
From Stdlib Require Import ZArith Lia.
From S2P Require Import Prelude Layout NvmeWire Crypto NvmeState NvmeTx NvmeAuth NvmeUri NvmeRx.
From S2P Require Import NvmeOps NvmeDemo NvmeStream NvmeInv NvmeReach NvmePdu.

(** ** Reference values *)
Section Spec.
Context `{DigestOps}.

(** The transformed key: HMAC of the host NQN under the configured secret. *)
Definition transformed_key (d : digest_algorithm) (secret host : list Z) : list Z :=
  HMAC d secret (host ++ bstr "NVMe-over-Fabrics").

(** The response value: HMAC of the challenge and the names under the key. *)
Definition response_value (d : digest_algorithm) (key challenge : list Z)
  (seqnum t_id : Z) (host subsys : list Z) : list Z :=
  HMAC d key (challenge ++ le_bytes 4 seqnum ++ le_bytes 2 t_id ++ [NVME_AUTH_SECP_NOSC] ++
              bstr "HostHost" ++ host ++ [0] ++ subsys).
End Spec.

(** The bytes of an AuthSend command that carries [data]. *)
Definition auth_send_pdu (s : session) (data : list Z) : list Z :=
  command_pdu (auth_command (u16 (cid s + 1)) NVMF_FCTYPE_AUTH_SEND (length data) 0)
    (length data) 0 ++ data.

(** One message is sent, or none and an error is reported. *)
Definition sends (s : session) (data : list Z) (rc : status) (s' : session) : Prop :=
  (rc = OK -> events s' = events s ++ [Sent Admin (auth_send_pdu s data)] /\ auth s' = auth s) /\
  (rc <> OK -> events s' = events s).

Section Values.
Context `{DigestLaws} `{ExchangeLaws} (E : env) `{EnvLaws E}.
Implicit Types (s : session).

Lemma transform_key_eq d k s host :
  host_nqn s = Some host ->
  wp False (nvmetcp_auth_transform_key E d k)
    (fun r s' => ticked s s' /\ (r = inl ENOMEM \/ r = inr (transformed_key d k host))) s.
Proof.
  intros Hh. unfold nvmetcp_auth_transform_key. wp_run.
  - split; [apply ticked_S|by left].
  - split; [apply ticked_S|]. right. unfold transformed_key, HMAC. rewrite hmac_update_app.
    cbn in *. by simplify_eq.
  - cbn. by rewrite Hh.
Qed.

Lemma auth_response_eq d k c s host subsys :
  host_nqn s = Some host -> subsystem_nqn s = Some subsys ->
  wp False (nvmetcp_auth_response E d k c)
    (fun r s' => ticked s s' /\ (r = inl ENOMEM \/
       r = inr (response_value d k (take (hl (auth s)) c) (seqnum (auth s)) (transaction (auth s))
                  host subsys))) s.
Proof.
  intros Hh Hc. unfold nvmetcp_auth_response. wp_run.
  - split; [apply ticked_S|by left].
  - split; [apply ticked_S|]. right. unfold response_value, HMAC.
    rewrite !hmac_update_app, <-?app_assoc. cbn in *. by simplify_eq.
  - cbn. by rewrite Hc.
  - cbn. by rewrite Hh.
Qed.

Lemma auth_tx_send_eq data s :
  wp False (nvmetcp_auth_tx_send E data) (sends s data) s.
Proof.
  unfold nvmetcp_auth_tx_send, nvmetcp_auth_tx_command, next_cid. wp_run. apply wp_tx_command.
  - intros e t _. by split.
  - intros t. split; [|done]. intros _. by split.
Qed.

(** Two copies into the command buffer that follow each other. *)
Lemma wp_cmd_buf_copy F off src Q s :
  (off + length src <= length (cmd_buf s))%nat ->
  Q tt (s <| cmd_buf := splice off src (cmd_buf s) |>) -> wp F (cmd_buf_copy off src) Q s.
Proof.
  intros Hl HQ. unfold cmd_buf_copy, set_cmd_buf. wp_step. wp_step. wp_step.
  rewrite memcpy_some by done. wp_prim. by apply wp_update.
Qed.

(** The key the response is computed under: the transformed key, and behind it,
    if the challenge's digest is longer than the secret's, uninitialised memory. *)
Definition reply_key (s : session) (d : digest_algorithm) (transformed : list Z) : list Z :=
  take (digestsize d) (splice 0 transformed (stack_bytes E (tick s) NVME_AUTH_MAX_DIGEST_SIZE)).

(** The challenge value that enters the response. *)
Definition reply_challenge (a : nvmetcp_auth) (d : digest_algorithm)
  (x : option exchange_algorithm) : list Z :=
  match x with
  | Some _ => HMAC d (take (hl a) (session_key a)) (take (hl a) (cval a))
  | None => take (hl a) (cval a)
  end.

(** The Reply message: fixed part, response value, and for a DH exchange the
    challenge's place and the host's public key. *)
Definition reply_message (s : session) (d : digest_algorithm) (x : option exchange_algorithm)
  (transformed host subsys : list Z) : list Z :=
  let a := auth s in
  reply_header a (bool_decide (is_Some x)) ++
  response_value d (reply_key s d transformed) (take (hl a) (reply_challenge a d x))
    (seqnum a) (transaction a) host subsys ++
  match x with
  | Some _ => take (hl a) (cval a) ++ take (dhvlen a) (pub_key a)
  | None => []
  end.

Lemma parse_secret_pure s r s' :
  nvmetcp_auth_parse_secret E s = Ret r s' -> s' = s.
Proof.
  intros Hr. refine (wp_elim True _ (fun _ s' => s' = s) s r s' _ Hr).
  unfold nvmetcp_auth_parse_secret. wp_run; done.
Qed.

Lemma parse_secret_frame s s' :
  secret s' = secret s ->
  nvmetcp_auth_parse_secret E s' =
  match nvmetcp_auth_parse_secret E s with
  | Ret r _ => Ret r s' | Fault => Fault | NoFuel => NoFuel
  end.
Proof.
  intros Hs. unfold nvmetcp_auth_parse_secret, bind, gets. rewrite Hs. destruct (secret s); [|done]. cbn.
  destruct (negb _); [done|]. destruct (parse_digits _ _) as [id p]. destruct (_ || _); [done|].
  destruct (base64_decode _ _ _) as [n key]. destruct (_ <? _); [done|]. destruct (_ && _); [done|].
  by destruct (negb _).
Qed.

Lemma take_take_le {A} (l : list A) n : take n (take n l) = take n l.
Proof. rewrite take_take. f_equal. lia. Qed.

Lemma response_value_length d k c n t h c' : length (response_value d k c n t h c') = digestsize d.
Proof. apply hmac_final_length. Qed.

(** [ticked] states differ from the start only in the consultation counter. *)
Lemma wp_ticked_or {A} (m : M session (errno + A)) (v : A) s0 s Q :
  ticked s0 s ->
  wp False m (fun r s' => ticked s s' /\ (r = inl ENOMEM \/ r = inr v)) s ->
  (forall t, Q (inl ENOMEM) (s0 <| tick := t |>)) -> (forall t, Q (inr v) (s0 <| tick := t |>)) ->
  wp False m Q s.
Proof.
  intros [t0 ->] Hm Hl Hr. eapply wp_mono; [exact Hm|].
  intros r s' [[t ->] [-> | ->]]; [exact (Hl t)|exact (Hr t)].
Qed.

Lemma auth_hmac_eq d k m s :
  wp False (nvmetcp_auth_hmac E d k m)
    (fun r s' => ticked s s' /\ (r = inl ENOMEM \/ r = inr (HMAC d k m))) s.
Proof. unfold nvmetcp_auth_hmac. wp_run; (split; [apply ticked_S|]); auto. Qed.

(** Assembling a message in the command buffer: [filled acc s] has [acc] at the
    start of the buffer. *)
Definition filled (acc : list Z) (s : session) : session :=
  s <| cmd_buf := splice 0 acc (cmd_buf s) |>.

Lemma wp_fill_first F src Q s :
  (length src <= length (cmd_buf s))%nat -> Q tt (filled src s) -> wp F (cmd_buf_copy 0 src) Q s.
Proof. intros. by apply wp_cmd_buf_copy. Qed.

Lemma wp_fill_next F acc src off Q s :
  off = length acc -> (length acc + length src <= length (cmd_buf s))%nat ->
  Q tt (filled (acc ++ src) s) -> wp F (cmd_buf_copy off src) Q (filled acc s).
Proof.
  intros -> Hl HQ. apply wp_cmd_buf_copy.
  - unfold filled. cbn [cmd_buf modify]. rewrite splice_length; cbn; lia.
  - unfold filled in *. cbn [cmd_buf modify]. pose proof (splice_splice 0 acc src (cmd_buf s)) as Hss.
    cbn [Nat.add] in Hss. rewrite Hss by lia. exact HQ.
Qed.

Lemma take_filled acc s n : n = length acc -> take n (cmd_buf (filled acc s)) = acc.
Proof.
  intros ->. unfold filled, splice. cbn [cmd_buf modify]. rewrite take_0. cbn [app]. apply take_app_length.
Qed.

Lemma wp_send_filled acc msg len s t :
  len = length acc -> acc = msg ->
  wp False (let* b := gets cmd_buf in nvmetcp_auth_tx_send E (take len b))
    (sends s msg) (filled acc (s <| tick := t |>)).
Proof.
  intros Hl <-. do 2 wp_step. rewrite take_filled by done.
  eapply wp_mono; [apply auth_tx_send_eq|]. done.
Qed.

(** [nvmetcp_auth_tx_reply] sends the Reply message of the specification. *)
Lemma auth_tx_reply_eq d x s hid sec sd host subsys :
  Inv s -> hl (auth s) = digestsize d ->
  host_nqn s = Some host -> subsystem_nqn s = Some subsys ->
  nvmetcp_auth_parse_secret E s = Ret (inr (hid, sec)) s -> nvmetcp_auth_hash hid = Some sd ->
  wp False (nvmetcp_auth_tx_reply E d x)
    (sends s (reply_message s d x (transformed_key sd sec host) host subsys)) s.
Proof.
  intros HI Hhl Hh Hc Hps Hsd. unfold nvmetcp_auth_tx_reply.
  assert (forall t, sends s (reply_message s d x (transformed_key sd sec host) host subsys)
            (Err ENOMEM) (s <| tick := t |>)) as Hnomem by by split.
  wp_step. apply wp_consult. wp_step.
  eapply wp_intro; [rewrite (parse_secret_frame s) by done; rewrite Hps; reflexivity|].
  cbv iota. wp_step. rewrite Hsd. wp_prim. wp_step.
  eapply wp_ticked_or; [by exists (S (tick s))|by apply transform_key_eq|done|]. intros t1. cbv iota.
  wp_step. rewrite memcpy_some.
  2:{ rewrite stack_length. unfold transformed_key, HMAC. rewrite hmac_final_length.
      pose proof (digestsize_max sd). cbn. lia. }
  wp_prim. do 3 wp_step. change (auth (s <| tick := t1 |>)) with (auth s).
  fold (reply_key s d (transformed_key sd sec host)).
  apply (wp_ticked_or _ (reply_challenge (auth s) d x) s); [by exists t1| |done|].
  { destruct x; [apply auth_hmac_eq|]. apply wp_ret. split; [apply ticked_refl|by right]. }
  intros t2. cbv iota. wp_step.
  eapply wp_ticked_or; [by exists t2|by apply auth_response_eq|done|]. intros t3. cbv iota.
  change (auth (s <| tick := t2 |>)) with (auth s).
  set (resp := response_value _ _ _ _ _ _ _).
  assert (length resp = hl (auth s)) as Hrl by by rewrite Hhl; apply response_value_length.
  pose proof (reply_fits _ (i_auth _ HI)) as Hfit. rewrite <-(i_buf _ HI) in Hfit.
  change (cmd_buf s) with (cmd_buf (s <| tick := t3 |>)) in Hfit.
  pose proof (reply_header_length (auth s) (bool_decide (is_Some x))) as Hhdr.
  wp_step. apply wp_fill_first; [lia|]. wp_step. rewrite (take_ge resp) by lia.
  apply wp_fill_next; [by rewrite Hhdr|lia|]. wp_step.
  unfold reply_message. fold resp. destruct x as [x|].
  - pose proof (i_auth _ HI) as [Hcv _ _ Hpk Hhm Hdm _].
    assert (length (take (hl (auth s)) (cval (auth s))) = hl (auth s)) as Hl1
      by (rewrite length_take, Hcv; lia).
    assert (length (take (dhvlen (auth s)) (pub_key (auth s))) = dhvlen (auth s)) as Hl2
      by (rewrite length_take, Hpk; lia).
    wp_step. apply wp_fill_next; [rewrite length_app; lia|rewrite length_app; lia|].
    wp_step. apply wp_fill_next; [rewrite !length_app; lia|rewrite !length_app; lia|].
    wp_step. apply wp_send_filled; [rewrite !length_app; lia|]. by rewrite <-!app_assoc.
  - wp_step. apply wp_send_filled; [rewrite length_app; lia|]. by rewrite app_nil_r.
Qed.

(** ** The Diffie-Hellman step *)

(** The context after a successful key exchange with the controller's key [ck]. *)
Definition exchanged (d : digest_algorithm) (x : exchange_algorithm) (priv ck : list Z)
  (a : nvmetcp_auth) : nvmetcp_auth :=
  a <| priv_key := splice 0 priv (priv_key a) |>
    <| pub_key := splice 0 (exchange_share x priv).2 (pub_key a) |>
    <| session_key := splice 0 (H d (exchange_agree x priv ck).2) (session_key a) |>
    <| dhvlen := pubsize x |>.

Lemma dh_key_eq x d ck s :
  Inv s ->
  wp False (nvmetcp_auth_dh_key E x d ck) (fun rc s' =>
    (rc = OK -> exists t, s' = s <| tick := t |> <| auth ::=
       exchanged d x (get_random_nz E (tick s) (privsize x)).2 ck |>) /\
    (rc <> OK -> events s' = events s)) s.
Proof.
  intros HI. pose proof (i_auth _ HI) as [_ Hsk Hpr Hpb _ _ _].
  pose proof (get_random_length (tick s) (privsize x)) as Hrl.
  pose proof (privsize_le x). pose proof (pubsize_max x). pose proof (digestsize_max d).
  unfold nvmetcp_auth_dh_key, upd_auth. wp_step. apply wp_consult.
  destruct (get_random_nz E (tick s) (privsize x)) as [[|e] priv]; [|by wp_run; split].
  cbn in Hrl |- *. do 3 wp_step. cbn [auth modify]. rewrite memcpy_some by lia. wp_prim. do 2 wp_step.
  pose proof (exchange_share_length x priv) as Hsl.
  destruct (exchange_share x priv) as [[|e] pub] eqn:Hsh; [|by wp_run; split]. cbn in Hsl.
  wp_step. rewrite memcpy_some by lia. wp_prim. do 2 wp_step.
  destruct (exchange_agree x priv ck) as [[|e] sh] eqn:Hag; [|by wp_run; split].
  wp_step. apply wp_consult. destruct (negb _); [by wp_run; split|]. wp_step.
  unfold NVME_AUTH_MAX_DIGEST_SIZE, NVME_AUTH_MAX_DH_SIZE in *.
  rewrite memcpy_some by (rewrite digest_final_length; lia). wp_prim. wp_run.
  split; [|done]. intros _. exists (S (S (tick s))). unfold exchanged, Crypto.H. rewrite Hsh, Hag. done.
Qed.

(** ** Challenge and reply *)

(** A Challenge message the driver accepts: for digest [d], with exchange [x]. *)
Record challenge_ok (s : session) (d : digest_algorithm) (x : option exchange_algorithm) : Prop := {
  ch_type : get_field nvmf_auth_dhchap_failure_data "auth_type" (cmd_buf s) = NVME_AUTH_DHCHAP_MESSAGES;
  ch_id : get_field nvmf_auth_dhchap_failure_data "auth_id" (cmd_buf s) = NVME_AUTH_DHCHAP_MESSAGE_CHALLENGE;
  ch_tid : get_field nvmf_auth_dhchap_failure_data "t_id" (cmd_buf s) = transaction (auth s);
  ch_hash : nvmetcp_auth_hash (get_field nvmf_auth_dhchap_challenge_data "hashid" (cmd_buf s)) = Some d;
  ch_hl : get_field nvmf_auth_dhchap_challenge_data "hl" (cmd_buf s) = Z.of_nat (digestsize d);
  ch_dh : match x with
          | None => get_field nvmf_auth_dhchap_challenge_data "dhgid" (cmd_buf s) = NVME_AUTH_DHGROUP_NULL /\
                    get_field nvmf_auth_dhchap_challenge_data "dhvlen" (cmd_buf s) = 0
          | Some x =>
              nvmetcp_auth_exchange (get_field nvmf_auth_dhchap_challenge_data "dhgid" (cmd_buf s)) = Some x /\
              get_field nvmf_auth_dhchap_challenge_data "dhvlen" (cmd_buf s) = Z.of_nat (pubsize x)
          end;
}.

(** The head of a DH-HMAC-CHAP_Reply message, byte by byte. *)
Definition reply_head (t_id : Z) (hl dhvlen : nat) : list Z :=
  [0x01; 0x02; 0; 0] ++ le_bytes 2 t_id ++ le_bytes 1 (Z.of_nat hl) ++ [0; 0; 0] ++ le_bytes 2 (Z.of_nat dhvlen) ++ zeros 4.

Lemma reply_head_spec a dh :
  reply_header a dh = reply_head (transaction a) (hl a) (if dh : bool then dhvlen a else 0%nat).
Proof.
  unfold reply_header, reply_head.
  replace (if dh then Z.of_nat (dhvlen a) else 0) with (Z.of_nat (if dh then dhvlen a else 0%nat)) by by destruct dh.
  generalize (transaction a), (Z.of_nat (hl a)), (Z.of_nat (if dh then dhvlen a else 0%nat)). clear. intros t n m.
  eval_members. by vm_compute.
Qed.

(** The Reply of the specification to the Challenge in the command buffer. *)
Definition challenge_reply (s : session) (d : digest_algorithm) (x : option exchange_algorithm)
  (sec host subsys : list Z) : list Z :=
  let b := cmd_buf s in
  let c1 := sub (sizeof nvmf_auth_dhchap_challenge_data) (digestsize d) b in
  let priv x := (get_random_nz E (tick s) (privsize x)).2 in
  let respond ca := response_value d (transformed_key d sec host) ca
                      (get_field nvmf_auth_dhchap_challenge_data "seqnum" b)
                      (transaction (auth s)) host subsys in
  match x with
  | None => reply_head (transaction (auth s)) (digestsize d) 0 ++ respond c1
  | Some x =>
      let ck := sub (sizeof nvmf_auth_dhchap_challenge_data + digestsize d) (pubsize x) b in
      reply_head (transaction (auth s)) (digestsize d) (pubsize x) ++
      respond (HMAC d (H d (exchange_agree x (priv x) ck).2) c1) ++
      c1 ++ (exchange_share x (priv x)).2
  end.

Lemma reply_key_full s d tk : length tk = digestsize d -> reply_key s d tk = tk.
Proof.
  intros Hl. unfold reply_key, splice. rewrite take_0. cbn [app]. rewrite <-Hl. apply take_app_length.
Qed.

Lemma take_splice_head n a b : n = length a -> take n (splice 0 a b) = a.
Proof. intros ->. unfold splice. rewrite take_0. cbn [app]. apply take_app_length. Qed.

Lemma rx_validate_ok s e :
  get_field nvmf_auth_dhchap_failure_data "auth_type" (cmd_buf s) = NVME_AUTH_DHCHAP_MESSAGES ->
  get_field nvmf_auth_dhchap_failure_data "auth_id" (cmd_buf s) = e ->
  get_field nvmf_auth_dhchap_failure_data "t_id" (cmd_buf s) = transaction (auth s) ->
  nvmetcp_auth_rx_validate e s = Ret OK s.
Proof.
  intros H1' H2' H3'. unfold nvmetcp_auth_rx_validate, bind, gets. rewrite H1', H2', H3', !Z.eqb_refl. done.
Qed.

(** The session when the challenge has been parsed and stored. *)
Definition challenged (s : session) (d : digest_algorithm) : session :=
  let b := cmd_buf s in
  s <| auth ::= (fun a => a <| hash_id := get_field nvmf_auth_dhchap_challenge_data "hashid" b |>
        <| hl := digestsize d |>
        <| dhgid := get_field nvmf_auth_dhchap_challenge_data "dhgid" b |>
        <| seqnum := get_field nvmf_auth_dhchap_challenge_data "seqnum" b |>
        <| cval := splice 0 (sub (sizeof nvmf_auth_dhchap_challenge_data) (digestsize d) b) (cval a) |>) |>.

Lemma challenged_inv s d : Inv s -> Inv (challenged s d).
Proof.
  intros HI. pose proof (i_auth _ HI) as [Hcv ? ? ? ? ? ?]. pose proof (digestsize_max d) as Hd.
  apply inv_auth; [done|]. constructor; cbn; auto. rewrite splice_length; [done|].
  rewrite sub_length, Hcv; [cbn; lia|]. rewrite (i_buf _ HI). unfold NVME_AUTH_MAX_DIGEST_SIZE in Hd.
  change (sizeof _) with 16%nat. change NVMETCP_MAX_CMD_DATA with 4096%nat. lia.
Qed.

Lemma wp_rx_challenge d x Q s :
  Inv s -> challenge_ok s d x ->
  wp False (try* match x with
                 | Some x => nvmetcp_auth_dh_key E x d
                     (sub (sizeof nvmf_auth_dhchap_challenge_data + digestsize d) (pubsize x) (cmd_buf s))
                 | None => ret OK
                 end in
            nvmetcp_auth_tx_reply E d x) Q (challenged s d) ->
  wp False (nvmetcp_auth_rx_challenge E) Q s.
Proof.
  intros HI Hc Hk. destruct Hc as [Hty Hid Htid Hha Hhl Hdh]. unfold nvmetcp_auth_rx_challenge.
  wp_step. eapply wp_intro; [by apply rx_validate_ok|]. cbv iota. do 2 wp_step. rewrite Hha.
  unfold upd_auth. do 4 wp_step. rewrite Hhl, Z.eqb_refl. cbn [negb].
  set (gid := get_field nvmf_auth_dhchap_challenge_data "dhgid" (cmd_buf s)) in *.
  assert ((if gid =? NVME_AUTH_DHGROUP_NULL then None else nvmetcp_auth_exchange gid) = x) as Hx.
  { destruct x as [x|]; [|by destruct Hdh as [-> _]]. destruct Hdh as [Hdh _].
    destruct (gid =? NVME_AUTH_DHGROUP_NULL) eqn:Hg; [|done]. apply Z.eqb_eq in Hg. by rewrite Hg in Hdh. }
  cbv zeta. rewrite Hx.
  assert ((match x with
           | Some x => negb (get_field nvmf_auth_dhchap_challenge_data "dhvlen" (cmd_buf s) =? Z.of_nat (pubsize x))
           | None => negb (gid =? NVME_AUTH_DHGROUP_NULL) ||
                     negb (get_field nvmf_auth_dhchap_challenge_data "dhvlen" (cmd_buf s) =? 0)
           end) = false) as Hg.
  { destruct x as [x|]; destruct Hdh as [Hg ->]; rewrite ?Hg, Z.eqb_refl; done. }
  rewrite Hg. do 7 wp_step. rewrite memcpy_some.
  2:{ pose proof (i_auth _ HI) as [Hcv ? ? ? ? ? ?]. pose proof (digestsize_max d) as Hd.
      cbn [cval auth modify]. rewrite Hcv, sub_length; [cbn; lia|].
      rewrite (i_buf _ HI). unfold NVME_AUTH_MAX_DIGEST_SIZE in Hd.
      change (sizeof _) with 16%nat. change NVMETCP_MAX_CMD_DATA with 4096%nat. lia. }
  wp_prim. do 2 wp_step. exact Hk.
Qed.
End Values.

(** ** The gate of the authentication phase *)
Section Gate.
Context `{DigestLaws} `{ExchangeLaws} (E : env) `{EnvLaws E}.
Implicit Types (s : session).

(** A Success1 message for the transaction of [a]. *)
Definition success1_ok (b : list Z) (a : nvmetcp_auth) : Prop :=
  get_field nvmf_auth_dhchap_failure_data "auth_type" b = NVME_AUTH_DHCHAP_MESSAGES /\
  get_field nvmf_auth_dhchap_failure_data "auth_id" b = NVME_AUTH_DHCHAP_MESSAGE_SUCCESS1 /\
  get_field nvmf_auth_dhchap_failure_data "t_id" b = transaction a /\
  get_field nvmf_auth_dhchap_success1_data "hl" b = Z.of_nat (hl a) /\
  get_field nvmf_auth_dhchap_success1_data "rvalid" b = 0.

(** [nvmetcp_auth_rx_validate] accepts exactly the expected message of the
    transaction, and never changes the session. *)
Lemma rx_validate_cases s e rc s' :
  nvmetcp_auth_rx_validate e s = Ret rc s' ->
  s' = s /\
  (rc = OK -> get_field nvmf_auth_dhchap_failure_data "auth_type" (cmd_buf s) = NVME_AUTH_DHCHAP_MESSAGES /\
     get_field nvmf_auth_dhchap_failure_data "auth_id" (cmd_buf s) = e /\
     get_field nvmf_auth_dhchap_failure_data "t_id" (cmd_buf s) = transaction (auth s)) /\
  (get_field nvmf_auth_dhchap_failure_data "auth_type" (cmd_buf s) = NVME_AUTH_COMMON_MESSAGES ->
   get_field nvmf_auth_dhchap_failure_data "auth_id" (cmd_buf s) = NVME_AUTH_DHCHAP_MESSAGE_FAILURE1 ->
   rc = Err EACCES).
Proof.
  unfold nvmetcp_auth_rx_validate, bind, gets. set (ty := get_field _ "auth_type" _).
  set (id := get_field _ "auth_id" _). set (t := get_field _ "t_id" _).
  destruct (ty =? NVME_AUTH_COMMON_MESSAGES) eqn:E1, (id =? NVME_AUTH_DHCHAP_MESSAGE_FAILURE1) eqn:E2;
    destruct (ty =? NVME_AUTH_DHCHAP_MESSAGES) eqn:E3, (id =? e) eqn:E4, (t =? transaction (auth s)) eqn:E5;
    intros [= <- <-]; (split; [done|]); split; try done; try lia; intros Ht Hi;
    rewrite ?Ht, ?Hi in *; done.
Qed.

Lemma rx_success1_cases s rc s' :
  nvmetcp_auth_rx_success1 s = Ret rc s' ->
  (rc <> OK /\ s' = s) \/
  (rc = OK /\ success1_ok (cmd_buf s) (auth s) /\
   s' = s <| auth ::= (fun a => a <| completed := true |>) |>).
Proof.
  intros Hr. apply try_ret in Hr as [[Hv Hne]|(s1 & Hv & Hr)];
    apply rx_validate_cases in Hv as (-> & Hok & _); [by left|].
  destruct (Hok eq_refl) as (Hty & Hid & Ht). unfold bind, gets, upd_auth, update, ret in Hr.
  unfold success1_ok. destruct (_ =? Z.of_nat _) eqn:E1; [|injection Hr as <- <-; by left].
  destruct (_ =? 0) eqn:E2; cbn [negb] in Hr; injection Hr as <- <-; [|by left].
  right. split_and!; auto; lia.
Qed.

(** Nothing but a valid Success1 completes the exchange. *)
Definition only_success1 (s s' : session) : Prop :=
  phase s' = phase s /\
  (completed (auth s') = true -> completed (auth s) = true \/ success1_ok (cmd_buf s) (auth s)).

Lemma receive_step_gate n s :
  Inv s -> wp False (nvmetcp_auth_tx_receive_step E n)
    (fun _ s' => phase s' = phase s /\ completed (auth s') = completed (auth s)) s.
Proof.
  intros HI. unfold nvmetcp_auth_tx_receive_step. wp_step. apply wp_update. wp_step.
  unfold nvmetcp_auth_tx_receive, nvmetcp_auth_tx_command, next_cid. wp_run.
  apply wp_tx_command; [intros e t _|intros t]; wp_run; done.
Qed.

Lemma auth_rx_complete_gate s :
  Inv s -> wp False (nvmetcp_auth_rx_complete E)
    (fun _ s' => phase s' = phase s /\ completed (auth s') = completed (auth s)) s.
Proof.
  intros HI. unfold nvmetcp_auth_rx_complete. do 2 wp_step.
  destruct (step (auth s)); try (by apply receive_step_gate); wp_run; done.
Qed.

Lemma auth_rx_data_gate s :
  Inv s -> phase s = NVMETCP_PHASE_AUTH -> wp False (nvmetcp_auth_rx_data E) (fun _ => only_success1 s) s.
Proof.
  intros HI Hp. unfold nvmetcp_auth_rx_data. do 2 wp_step.
  destruct (step (auth s)) eqn:Hst; try (wp_run; by split; [|by left]).
  - wp_step. eapply wp_mono; [apply (rx_challenge_safe E); [done|by apply HI]|].
    intros [|e] s1 (_ & Hp1 & _ & Hc1 & _); [|split; [done|rewrite Hc1; by left]].
    wp_run. split; [done|]. cbn. rewrite Hc1. by left.
  - wp_step. destruct (nvmetcp_auth_rx_success1 s) as [rc s1| |] eqn:Hr.
    2-3: pose proof (rx_success1_safe s HI Hp) as Hw; unfold wp in Hw; by rewrite Hr in Hw.
    eapply wp_intro; [exact Hr|]. apply rx_success1_cases in Hr as [[Hne ->]|(-> & Hok & ->)].
    + destruct rc; [done|]. split; [done|by left].
    + wp_run. split; [done|by right].
Qed.
(** Ending the phase. *)
Lemma auth_try_advance_gate s :
  phase s = NVMETCP_PHASE_AUTH ->
  wp False auth_try_advance (fun _ s' => phase s' <> NVMETCP_PHASE_AUTH ->
    phase s' = NVMETCP_PHASE_PROP_SET /\ completed (auth s) = true /\ rx_complete (auth s) = true) s.
Proof.
  intros Hp. unfold auth_try_advance, nvmetcp_auth_try_complete. wp_run; cbn in *; try done.
  all: apply andb_true_iff in Heqb as [? ?]; by intros _.
Qed.

Lemma data_arrived_inv q h data s :
  Inv s -> boundary (get_rx q s) -> pdu_ok (Pdu h data) -> pdu_type h = NVMETCP_PDU_C2HDATA ->
  Inv (data_arrived q h data s).
Proof.
  intros HI Hb Hp Ht. pose proof (received_inv q (Pdu h data) s HI Hb Hp) as HI1. cbn [p_hdr] in HI1.
  destruct (po_announced _ Hp Ht) as [_ Hm]. cbn [p_data] in Hm. destruct Hb as (_ & _ & _ & Hdl).
  pose proof (received_rx q h s) as Hr. pose proof (get_rx_inv q _ HI1) as [Hi1 Hi2 Hi3 Hi4 _ _ _].
  unfold data_arrived. set (s1 := received q h s) in *.
  assert (data_len (get_rx q s1) = 0%nat /\ hdr_len (get_rx q s1) = hdr_expect (get_rx q s1)) as [Hl1 Hl2]
    by by rewrite Hr.
  assert (length (cmd_buf s1) = NVMETCP_MAX_CMD_DATA) as Hb1 by apply HI1.
  assert (Inv (set_rx q ((get_rx q (s1 <| cmd_data_len := (cmd_data_offset s + length data)%nat |>))
            <| data_expect := length data |>) (s1 <| cmd_data_len := (cmd_data_offset s + length data)%nat |>))) as HI2.
  { apply inv_set_rx; [inv_solve|]. destruct q; constructor; cbn in *; auto; lia. }
  set (s2 := set_rx q _ _) in *.
  assert (get_rx q s2 = (get_rx q s1) <| data_expect := length data |>) as Hr2.
  { unfold s2. rewrite get_set_rx. by destruct q. }
  case_bool_decide; [done|].
  assert (wp False (rx_data_copy q data) (fun _ => handled s2) s2) as Hw.
  { apply rx_data_copy_safe; [done|rewrite Hr2; cbn; lia..]. }
  unfold wp in Hw. rewrite rx_data_copy_eq, bool_decide_true in Hw; [apply Hw|].
  rewrite Hr2, (i_buf _ HI2). cbn. lia.
Qed.

(** A PDU that ends the authentication phase. *)
Definition ends_auth (s : session) (p : pdu) (s' : session) : Prop :=
  phase s' <> NVMETCP_PHASE_AUTH ->
  phase s' = NVMETCP_PHASE_PROP_SET /\
  (completed (auth s) = true \/
   pdu_type (p_hdr p) = NVMETCP_PDU_C2HDATA /\ success1_ok (splice 0 (p_data p) (cmd_buf s)) (auth s)).

Lemma response_ends_auth h s :
  Inv s -> boundary (get_rx Admin s) -> pdu_ok (Pdu h []) -> pdu_type h = NVMETCP_PDU_RESPONSE ->
  phase s = NVMETCP_PHASE_AUTH ->
  wp False (handle_pdu E Admin (Pdu h [])) (fun _ s' => ends_auth s (Pdu h []) s') s.
Proof.
  intros HI Hb Hp Ht Hph. pose proof (pdu_hlen_cases _ _ (po_hdr _ Hp)) as Hh. cbn in Hh.
  apply wp_handle_response; [done..|].
  assert (Inv (cqe_arrived Admin h s)) as HI1.
  { pose proof (received_inv Admin (Pdu h []) s HI Hb Hp) as HI1. unfold cqe_arrived. inv_solve.
    apply sub_length. lia. }
  unfold nvmetcp_rx_pdu_complete. do 3 wp_step.
  replace (pdu_type _) with NVMETCP_PDU_RESPONSE by (symmetry; cbn; by rewrite pdu_type_splice by lia).
  pdu_dispatch NVMETCP_PDU_RESPONSE. unfold nvmetcp_rx_command, rx_command_failed. do 4 wp_step.
  set (s1 := (cqe_arrived Admin h s) <| tx_in_flight := false |>).
  assert (Inv s1) as HI2 by inv_solve. assert (phase s1 = NVMETCP_PHASE_AUTH) as Hp1 by done.
  assert (auth s1 = auth s) as Ha1 by done. clearbody s1.
  destruct (negb _).
  { do 2 wp_step. rewrite Hp1. rewrite (bool_decide_false (_ = NVMETCP_PHASE_CONNECT_ADMIN)) by done.
    rewrite andb_false_r, bool_decide_true by done. wp_run. by intros ?. }
  do 2 wp_step. rewrite Hp1. wp_step. eapply wp_mono; [by apply auth_rx_complete_gate|].
  intros [|e] s2 [Hp2 Hc2]; [|intros ?; congruence].
  eapply wp_mono; [apply auth_try_advance_gate; congruence|].
  intros rc s3 Hg. rewrite Hc2, Ha1 in Hg.
  assert (phase s3 <> NVMETCP_PHASE_AUTH -> phase s3 = NVMETCP_PHASE_PROP_SET /\
    (completed (auth s) = true \/ False)) as Hg' by (intros Hn; destruct (Hg Hn) as (? & ? & _); auto).
  destruct rc; wp_run; unfold ends_auth; cbn; tauto.
Qed.

Lemma data_ends_auth h data s :
  Inv s -> boundary (get_rx Admin s) -> pdu_ok (Pdu h data) -> pdu_type h = NVMETCP_PDU_C2HDATA ->
  phase s = NVMETCP_PHASE_AUTH ->
  wp False (handle_pdu E Admin (Pdu h data)) (fun _ s' => ends_auth s (Pdu h data) s') s.
Proof.
  intros HI Hb Hp Ht Hph. pose proof (pdu_hlen_cases _ _ (po_hdr _ Hp)) as Hh. cbn in Hh.
  destruct (decide (get_field nvmetcp_data_pdu "data_offset" h = Z.of_nat (cmd_data_offset s))) as [Hoff|Hoff].
  2:{ unfold handle_pdu, nvmetcp_rx_pdu. wp_step. apply wp_update. do 3 wp_step. cbn [p_hdr p_data].
      rewrite received_type, Ht by lia. pdu_dispatch NVMETCP_PDU_C2HDATA. unfold rx_c2hdata.
      rewrite received_rx. cbn [hdr modify].
      rewrite !get_field_splice by (try change (sizeof _) with 24%nat; try change (sizeof _) with 8%nat; lia).
      destruct (_ >? _); [by wp_run; intros ?|]. do 2 wp_step.
      rewrite (proj2 (Z.eqb_neq _ _)) by done. cbn [negb]. wp_run. by intros ?. }
  apply wp_handle_c2hdata; auto; [apply HI|].
  pose proof (data_arrived_inv Admin h data s HI Hb Hp Ht) as HI1.
  destruct (data_arrived_fields Admin h data s Hb ltac:(lia)) as (Ht' & Ho' & Hl' & Hc' & Hrest).
  revert HI1 Ht' Ho' Hl' Hc' Hrest. generalize (data_arrived Admin h data s).
  intros s1 HI1 Ht1 Ho1 Hl1 Hc1 [= Hx1 _ _ _ _ _ Hx7].
  unfold nvmetcp_rx_pdu_complete. do 3 wp_step. rewrite Ht1, Ht. pdu_dispatch NVMETCP_PDU_C2HDATA.
  do 4 wp_step. rewrite bool_decide_false by lia. unfold nvmetcp_rx_data. do 4 wp_step.
  set (s2 := s1 <| tx_in_flight := false |>). assert (Inv s2) as HI2 by inv_solve.
  assert (phase s2 = NVMETCP_PHASE_AUTH) as Hp2 by (cbn; congruence).
  assert (auth s2 = auth s /\ cmd_buf s2 = splice 0 data (cmd_buf s)) as [Ha2 Hc2] by by split.
  clearbody s2. rewrite Hp2. wp_step. eapply wp_mono; [by apply auth_rx_data_gate|].
  intros [|e] s3 [Hp3 Hg3]; [|intros ?; congruence].
  eapply wp_mono; [apply auth_try_advance_gate; congruence|].
  intros rc s4 Hg. rewrite Ha2, Hc2 in Hg3.
  assert (phase s4 <> NVMETCP_PHASE_AUTH -> phase s4 = NVMETCP_PHASE_PROP_SET /\
    (completed (auth s) = true \/ success1_ok (splice 0 data (cmd_buf s)) (auth s))) as Hg'
    by (intros Hn; destruct (Hg Hn) as (? & ? & _); auto).
  destruct rc; wp_run; unfold ends_auth; cbn; tauto.
Qed.

Lemma r2t_ends_auth h s :
  pdu_ok (Pdu h []) -> pdu_type h = NVMETCP_PDU_R2T -> phase s = NVMETCP_PHASE_AUTH ->
  wp True (handle_pdu E Admin (Pdu h [])) (fun _ s' => ends_auth s (Pdu h []) s') s.
Proof.
  intros Hp Ht Hph. pose proof (pdu_hlen_cases _ _ (po_hdr _ Hp)) as Hh. cbn in Hh.
  unfold handle_pdu, nvmetcp_rx_pdu. wp_step. apply wp_update. do 3 wp_step. cbn [p_hdr p_data].
  rewrite received_type, Ht by lia. pdu_dispatch NVMETCP_PDU_R2T.
  unfold nvmetcp_tx_h2cdata. do 2 wp_step. destruct (_ >? _); [by wp_run; intros ?|]. do 4 wp_step.
  apply wp_tx_pdu; [by intros e t _ ?| |done]. intros t d _. rewrite bool_decide_true by done.
  do 2 wp_step. unfold nvmetcp_rx_pdu_complete. do 3 wp_step.
  replace (pdu_type _) with NVMETCP_PDU_R2T by (symmetry; cbn; by rewrite pdu_type_splice by lia).
  pdu_dispatch NVMETCP_PDU_R2T. wp_run. by intros ?.
Qed.
End Gate.

(** ** Claims *)
Section Claims.
Context `{DigestLaws} `{ExchangeLaws} (E : env) `{EnvLaws E}.
Implicit Types (s : session).

Lemma sub_challenge_length s d :
  Inv s ->
  length (sub (sizeof nvmf_auth_dhchap_challenge_data) (digestsize d) (cmd_buf s)) = digestsize d.
Proof.
  intros HI. pose proof (digestsize_max d) as Hd. apply sub_length. rewrite (i_buf _ HI).
  unfold NVME_AUTH_MAX_DIGEST_SIZE in Hd. change (sizeof _) with 16%nat.
  change NVMETCP_MAX_CMD_DATA with 4096%nat. lia.
Qed.

(** The Reply built from the stored challenge is the Reply of the specification. *)
Lemma reply_message_challenge s d x sec host subsys t :
  Inv s ->
  reply_message E
    (match x with
     | Some x => (challenged s d) <| tick := t |> <| auth ::=
         exchanged d x (get_random_nz E (tick s) (privsize x)).2
           (sub (sizeof nvmf_auth_dhchap_challenge_data + digestsize d) (pubsize x) (cmd_buf s)) |>
     | None => challenged s d
     end) d x (transformed_key d sec host) host subsys
  = challenge_reply E s d x sec host subsys.
Proof.
  intros HI. pose proof (sub_challenge_length s d HI) as Hcl.
  assert (length (transformed_key d sec host) = digestsize d) as Htl by apply hmac_final_length.
  unfold reply_message, challenge_reply, reply_challenge. rewrite reply_head_spec. destruct x as [x|].
  - rewrite reply_key_full by done. set (c1 := sub _ (digestsize d) _) in *.
    set (ck := sub _ (pubsize x) _). set (priv := snd _).
    cbn [auth challenged exchanged hl cval session_key dhvlen pub_key seqnum transaction modify].
    change (sub (sizeof nvmf_auth_dhchap_challenge_data) (digestsize d) (cmd_buf s)) with c1.
    assert (length (H d (exchange_agree x priv ck).2) = digestsize d) as Hhd by apply digest_final_length.
    pose proof (exchange_share_length x priv) as Hsl.
    rewrite (take_splice_head _ c1), (take_splice_head _ (H _ _)), (take_splice_head _ (exchange_share _ _).2) by done.
    rewrite (take_ge (HMAC _ _ _)) by (unfold HMAC; rewrite hmac_final_length; lia). done.
  - rewrite reply_key_full by done. set (c1 := sub _ (digestsize d) _) in *.
    cbn [auth challenged hl cval seqnum transaction modify].
    change (sub (sizeof nvmf_auth_dhchap_challenge_data) (digestsize d) (cmd_buf s)) with c1.
    rewrite (take_splice_head _ c1) by done. rewrite (take_ge c1), app_nil_r by lia. done.
Qed.

Lemma rx_challenge_answered s d x hid sec host subsys :
  Inv s -> challenge_ok s d x ->
  host_nqn s = Some host -> subsystem_nqn s = Some subsys ->
  nvmetcp_auth_parse_secret E s = Ret (inr (hid, sec)) s -> nvmetcp_auth_hash hid = Some d ->
  exists rc s', nvmetcp_auth_rx_challenge E s = Ret rc s' /\
    (rc = OK -> events s' = events s ++
       [Sent Admin (auth_send_pdu s (challenge_reply E s d x sec host subsys))]) /\
    (rc <> OK -> events s' = events s).
Proof.
  intros HI Hc Hh Hs Hps Hsd.
  pose proof (challenged_inv s d HI) as HI1.
  assert (wp False (nvmetcp_auth_rx_challenge E) (fun rc s' =>
    (rc = OK -> events s' = events s ++
       [Sent Admin (auth_send_pdu s (challenge_reply E s d x sec host subsys))]) /\
    (rc <> OK -> events s' = events s)) s) as Hw.
  2:{ unfold wp in Hw. destruct (nvmetcp_auth_rx_challenge E s) as [rc s'| |]; [by exists rc, s'|done..]. }
  assert (forall t s2,
    s2 = (match x with
          | Some x => (challenged s d) <| tick := t |> <| auth ::=
              exchanged d x (get_random_nz E (tick s) (privsize x)).2
                (sub (sizeof nvmf_auth_dhchap_challenge_data + digestsize d) (pubsize x) (cmd_buf s)) |>
          | None => challenged s d
          end) -> Inv s2 ->
    wp False (nvmetcp_auth_tx_reply E d x) (fun rc s' =>
      (rc = OK -> events s' = events s ++
         [Sent Admin (auth_send_pdu s (challenge_reply E s d x sec host subsys))]) /\
      (rc <> OK -> events s' = events s)) s2) as Hreply.
  { intros t s2 Hs2 HI2. eapply wp_mono.
    - apply (auth_tx_reply_eq E d x s2 hid sec d host subsys); auto; subst s2;
        destruct x; try done; rewrite (parse_secret_frame E s) by done; by rewrite Hps.
    - intros rc s' [Hok Herr]. rewrite Hs2 in Hok, Herr.
      rewrite (reply_message_challenge s d x sec host subsys t HI) in Hok.
      split; [intros Hrc; destruct (Hok Hrc) as [-> _]|intros Hrc; rewrite Herr by done]; by destruct x. }
  apply (wp_rx_challenge E d x); [done..|]. wp_step. destruct x as [x|].
  - eapply wp_mono; [apply wp_conj; [by apply dh_key_eq|]|].
    { apply (dh_key_safe E x d _ (challenged s d)). unfold progressed. auto. }
    intros [|e] s2 [[Hok Herr] Hpr]; [|split; [done|]; intros Hne; by rewrite Herr].
    destruct (Hok eq_refl) as [t Hs2]. apply (Hreply t); [done|apply Hpr].
  - wp_step. by apply (Hreply 0%nat).
Qed.

(** Only the message, the context, the next command identifier and the
    consultation counter enter a Reply. *)
Lemma challenge_reply_frame s s' d x sec host subsys :
  cmd_buf s' = cmd_buf s -> auth s' = auth s -> tick s' = tick s ->
  challenge_reply E s' d x sec host subsys = challenge_reply E s d x sec host subsys.
Proof. intros Hb Ha Ht. unfold challenge_reply. by rewrite Hb, Ha, Ht. Qed.

Lemma challenge_ok_frame s s' d x :
  cmd_buf s' = cmd_buf s -> auth s' = auth s -> challenge_ok s d x -> challenge_ok s' d x.
Proof. intros Hb Ha []. constructor; by rewrite ?Hb, ?Ha. Qed.

(** [C17] Challenge and reply: a session that has asked for the challenge receives
    it as a data PDU; when it is acceptable, for digest [d] with or without a
    Diffie-Hellman exchange, and the secret is configured for the same digest (the host
    key of another digest is not of the right size: [reply_uses_uninitialised_bytes]), the
    driver sends the Reply of the DH-HMAC-CHAP specification and nothing else, or
    sends nothing and reports an error.  The response is
    HMAC(Kt, Ca || S1 || T_ID || SC_C || "HostHost" || NQNh || 0 || NQNc) with Kt
    the secret transformed with the host NQN, and Ca the challenge itself or, for a
    DH exchange, HMAC(H(shared secret), challenge), in which case the host's public
    key follows. *)
Theorem challenge_answered u s h data d x hid sec host subsys :
  let s0 := s <| cmd_buf := splice 0 data (cmd_buf s) |> in
  reachable E u s -> boundary (get_rx Admin s) -> phase s = NVMETCP_PHASE_AUTH ->
  step (auth s) = NVMETCP_AUTH_STEP_CHALLENGE -> cmd_data_offset s = 0%nat ->
  pdu_ok (Pdu h data) -> pdu_type h = NVMETCP_PDU_C2HDATA ->
  get_field nvmetcp_data_pdu "data_offset" h = 0 -> challenge_ok s0 d x ->
  host_nqn s = Some host -> subsystem_nqn s = Some subsys ->
  nvmetcp_auth_parse_secret E s = Ret (inr (hid, sec)) s -> nvmetcp_auth_hash hid = Some d ->
  exists rc s', nvmetcp_socket_deliver E Admin (h ++ data) s = Ret rc s' /\
    (rc = OK -> events s' = events s ++
       [Sent Admin (auth_send_pdu s (challenge_reply E s0 d x sec host subsys))]) /\
    (rc <> OK -> events s' = events s).
Proof.
  intros s0 Hr Hb Hph Hst Ho Hp Ht Hoff Hc Hh Hs Hps Hsd. pose proof (reachable_inv E u s Hr) as HI.
  pose proof (pdu_hlen_cases _ _ (po_hdr _ Hp)) as Hhl. cbn in Hhl.
  change (h ++ data) with (encode (Pdu h data)).
  rewrite <-handle_pdu_deliver by (done || apply get_rx_inv, HI).
  assert (wp False (handle_pdu E Admin (Pdu h data)) (fun rc s' =>
    (rc = OK -> events s' = events s ++
       [Sent Admin (auth_send_pdu s (challenge_reply E s0 d x sec host subsys))]) /\
    (rc <> OK -> events s' = events s)) s) as Hw.
  2:{ unfold wp in Hw. destruct (handle_pdu E Admin (Pdu h data) s) as [rc s'| |]; [by exists rc, s'|done..]. }
  apply wp_handle_c2hdata; auto; [by rewrite Ho, Hoff|apply HI|].
  pose proof (data_arrived_inv Admin h data s HI Hb Hp Ht) as HI1.
  destruct (data_arrived_fields Admin h data s Hb ltac:(lia)) as (Ht' & Ho' & Hl' & Hc' & Hrest).
  pose proof (data_arrived_names Admin h data s) as Hn.
  revert HI1 Ht' Ho' Hl' Hc' Hrest Hn. generalize (data_arrived Admin h data s).
  intros s1 HI1 Ht1 Ho1 Hl1 Hc1 [= Hx1 _ _ _ _ Hx6 Hx7] [= Hy1 Hy2 Hy3 Hy4 Hy5].
  unfold nvmetcp_rx_pdu_complete. do 3 wp_step. rewrite Ht1, Ht. pdu_dispatch NVMETCP_PDU_C2HDATA.
  do 4 wp_step. rewrite bool_decide_false by lia. unfold nvmetcp_rx_data. do 4 wp_step.
  set (s2 := s1 <| tx_in_flight := false |>). assert (Inv s2) as HI2 by inv_solve.
  change (phase s2) with (phase s1). rewrite Hx1, Hph. unfold nvmetcp_auth_rx_data. do 3 wp_step.
  change (auth s2) with (auth s1). rewrite Hx7, Hst. wp_step.
  destruct (rx_challenge_answered s2 d x hid sec host subsys) as (rc & s3 & Hrx & Hok & Herr);
    [done|by apply (challenge_ok_frame s0)|by rewrite <-Hh|by rewrite <-Hs| |done|].
  { rewrite (parse_secret_frame E s) by done. by rewrite Hps. }
  rewrite (challenge_reply_frame s0 s2) in Hok by done.
  change (events s2) with (events s1) in Hok, Herr.
  replace (auth_send_pdu s2 _) with (auth_send_pdu s (challenge_reply E s0 d x sec host subsys)) in Hok
    by (unfold auth_send_pdu; change (cid s2) with (cid s1); by rewrite Hy1).
  rewrite Hx6 in Hok, Herr. eapply wp_intro; [exact Hrx|].
  destruct rc; [|by split]. unfold auth_try_advance, nvmetcp_auth_try_complete, upd_auth, upd_rx.
  wp_run; (split; [|done]); intros _; exact (Hok eq_refl).
Qed.


(** [C18] Authentication gate: while a reachable session is authenticating, no PDU
    of the admin queue other than a new ICResp moves it out of that phase unless
    the exchange is complete: it then goes to the enabling phase, and either a
    Success1 had been accepted before or this PDU is the data PDU that carries a
    Success1 for the current transaction, with the digest length of the exchange
    and no response value.  A failed command, a Failure1 or any other message
    leaves the session in the authentication phase. *)
Theorem auth_gate u s p rc s' :
  reachable E u s -> boundary (get_rx Admin s) -> phase s = NVMETCP_PHASE_AUTH -> pdu_ok p ->
  pdu_type (p_hdr p) <> NVMETCP_PDU_ICRESP ->
  nvmetcp_socket_deliver E Admin (encode p) s = Ret rc s' -> phase s' <> NVMETCP_PHASE_AUTH ->
  phase s' = NVMETCP_PHASE_PROP_SET /\
  (completed (auth s) = true \/
   pdu_type (p_hdr p) = NVMETCP_PDU_C2HDATA /\ success1_ok (splice 0 (p_data p) (cmd_buf s)) (auth s)).
Proof.
  intros Hr Hb Hph Hp Hni Hd. pose proof (reachable_inv E u s Hr) as HI.
  rewrite <-handle_pdu_deliver in Hd by (done || apply get_rx_inv, HI).
  refine (wp_elim True _ (fun _ s' => ends_auth s p s') s rc s' _ Hd). destruct p as [h data]. cbn [p_hdr] in *.
  pose proof (po_hdr _ Hp) as Hh. cbn [p_hdr] in Hh. unfold pdu_hlen in Hh.
  rewrite (proj2 (Z.eqb_neq _ _)) in Hh by done.
  destruct (decide (pdu_type h = NVMETCP_PDU_C2HDATA)) as [Ht|Ht].
  { apply (wp_weaken False); [done|]. by apply data_ends_auth. }
  assert (data = []) as -> by apply (po_data _ Hp Ht).
  destruct (pdu_type h =? NVMETCP_PDU_RESPONSE) eqn:Hrsp.
  { apply (wp_weaken False); [done|]. apply response_ends_auth; auto. lia. }
  destruct (pdu_type h =? NVMETCP_PDU_R2T) eqn:Hr2t; [|].
  { apply r2t_ends_auth; auto. lia. }
  apply Z.eqb_neq in Ht. rewrite Ht in Hh. done.
Qed.
End Claims.

#[local] Existing Instances Toy.digest Toy.digest_laws Toy.exchange Toy.exchange_laws ToyEnv.laws.

Lemma challenge_answered_witness :
  let s0 := Demo.asked <| cmd_buf := splice 0 Demo.challenge (cmd_buf Demo.asked) |> in
  exists s',
    nvmetcp_socket_deliver Demo.E Admin (Demo.c2h_header 0 48 ++ Demo.challenge) Demo.asked = Ret OK s' /\
    events s' = events Demo.asked ++ [Sent Admin (auth_send_pdu Demo.asked
      (challenge_reply Demo.E s0 sha256_algorithm None (zeros 32)
        (default [] (host_nqn Demo.asked)) (default [] (subsystem_nqn Demo.asked))))].
Proof.
  destruct (challenge_answered Demo.E Demo.target_auth Demo.asked (Demo.c2h_header 0 48) Demo.challenge
    sha256_algorithm None 1 (zeros 32)
    (default [] (host_nqn Demo.asked)) (default [] (subsystem_nqn Demo.asked)))
    as (rc & s' & Hd & Hok & _).
  - exact Demo.asked_reachable.
  - vm_compute. auto.
  - vm_compute. reflexivity.
  - vm_compute. reflexivity.
  - vm_compute. reflexivity.
  - constructor; [apply bytes_okb_ok; vm_compute; reflexivity|vm_compute; reflexivity|..].
    + intros Ht. vm_compute in Ht. contradiction.
    + intros _. split; [vm_compute; reflexivity|vm_compute; lia].
  - vm_compute. reflexivity.
  - vm_compute. reflexivity.
  - constructor; try (vm_compute; reflexivity). split; vm_compute; reflexivity.
  - vm_compute. reflexivity.
  - vm_compute. reflexivity.
  - vm_compute. reflexivity.
  - vm_compute. reflexivity.
  - assert (match nvmetcp_socket_deliver Demo.E Admin (Demo.c2h_header 0 48 ++ Demo.challenge) Demo.asked with
            | Ret OK _ => True | _ => False end) as Hr by (vm_compute; exact I).
    rewrite Hd in Hr. destruct rc; [|contradiction]. exists s'. split; [exact Hd|exact (Hok eq_refl)].
Defined.

(** The completion of the last AuthReceive, after the Success1. *)
Lemma auth_gate_witness :
  match nvmetcp_socket_deliver Demo.E Admin
          (encode (Pdu (Demo.response_cid (cid Demo.replied)) [])) Demo.accepted with
  | Ret rc s' => phase s' = NVMETCP_PHASE_PROP_SET
  | _ => False
  end.
Proof.
  destruct (nvmetcp_socket_deliver Demo.E Admin
    (encode (Pdu (Demo.response_cid (cid Demo.replied)) [])) Demo.accepted) as [rc s'| |] eqn:Hd.
  - apply (auth_gate Demo.E Demo.target_auth Demo.accepted
             (Pdu (Demo.response_cid (cid Demo.replied)) []) rc s').
    + exact Demo.accepted_reachable.
    + vm_compute. auto.
    + vm_compute. reflexivity.
    + constructor; [apply bytes_okb_ok; vm_compute; reflexivity|vm_compute; reflexivity|..].
      * intros _. reflexivity.
      * intros Ht. vm_compute in Ht. discriminate.
    + vm_compute. discriminate.
    + exact Hd.
    + intros Hp. vm_compute in Hd. injection Hd as _ <-. discriminate Hp.
  - exfalso. revert Hd. vm_compute. discriminate.
  - exfalso. revert Hd. vm_compute. discriminate.
Defined.
