(* ===== verification/NvmeParams.v ===== *)
(** * Connection parameters: theorems (net/tcp/nvmetcp.c, lines 1209-1637)

    The query-parameter search is a lookup among the ['&']-separated fields; the
    decision to encrypt compares decimal port numbers; the pre-shared key is the
    bytes its hexadecimal digits denote; and [nvmetcp_open] configures the session
    from the URI as documented. *)

From stdpp Require Import base list strings relations.
From Stdlib Require Import ZArith Lia.
From S2P Require Import Prelude Layout NvmeWire Crypto NvmeState NvmeTx NvmeAuth NvmeUri NvmeRx.
From S2P Require Import NvmeOps NvmeDemo NvmeStream NvmeInv NvmeReach.

(** ** Query parameters *)

(** The fields of a query string, and the text up to the next ['&']. *)
Fixpoint fields_of (l : cstr) : list cstr :=
  match l with
  | [] => [[]]
  | c :: t =>
      if c =? CH_AMP then [] :: fields_of t
      else match fields_of t with f :: fs => (c :: f) :: fs | [] => [[c]] end
  end.

Fixpoint until_amp (l : cstr) : cstr :=
  match l with
  | [] => []
  | c :: t => if c =? CH_AMP then [] else c :: until_amp t
  end.

(** The reference: the first field that starts with [name=], if it has a value. *)
Definition lookup_param (equery name : cstr) : option cstr :=
  match List.find (is_prefix name) (fields_of equery) with
  | Some f => let v := drop (length name) f in if bool_decide (v = []) then None else Some v
  | None => None
  end.

Section Scan.
Context (name : cstr).

(** The suffix of [l] at the first field start where [name] is found; [start]
    says whether [l] is at a field start. *)
Fixpoint scan (start : bool) (l : cstr) : option cstr :=
  if start && is_prefix name l then Some l
  else match l with
       | [] => None
       | c :: t => scan (c =? CH_AMP) t
       end.

(** Whether position [pos] of [equery] is a field start. *)
Definition at_start (equery : cstr) (pos : nat) : bool :=
  bool_decide (pos = 0%nat) || (char_at equery (pos - 1) =? CH_AMP).

Lemma is_prefix_app l : is_prefix name (name ++ l) = true.
Proof. induction name as [|c n IH]; simpl; [done|]. by rewrite Z.eqb_refl. Qed.

Lemma is_prefix_inv l : is_prefix name l = true -> exists t, l = name ++ t.
Proof.
  revert l. induction name as [|c n IH]; intros l; simpl; [by eexists|].
  destruct l as [|b l]; [done|]. intros [Hb Hl]%andb_true_iff. apply Z.eqb_eq in Hb as ->.
  destruct (IH l Hl) as [t ->]. by exists t.
Qed.

Lemma strstr_some l i :
  strstr l name = Some i ->
  is_prefix name (drop i l) = true /\ (i <= length l)%nat /\
  (forall j, (j < i)%nat -> is_prefix name (drop j l) = false).
Proof.
  revert i. induction l as [|c l IH]; intros i; simpl.
  - destruct (is_prefix name []) eqn:Hp; intros [= <-]. split_and!; [done|lia|lia].
  - destruct (is_prefix name (c :: l)) eqn:Hp; [intros [= <-]; split_and!; [done|lia|lia]|].
    destruct (strstr l name) as [k|] eqn:Hs; simpl; intros [= <-].
    destruct (IH k eq_refl) as (Hd & Hk & Hj). split_and!; [done|lia|].
    intros [|j] Hlt; [done|]. apply Hj. lia.
Qed.

Lemma strstr_none l j : strstr l name = None -> (j <= length l)%nat -> is_prefix name (drop j l) = false.
Proof.
  revert j. induction l as [|c l IH]; intros j; simpl.
  - destruct (is_prefix name []) eqn:Hp; [done|]. intros _ Hj. by replace j with 0%nat by lia.
  - destruct (is_prefix name (c :: l)) eqn:Hp; [done|].
    destruct (strstr l name) eqn:Hs; [done|]. intros _ Hj. destruct j as [|j]; [done|].
    apply IH; [done|lia].
Qed.

(** Positions without a match can be skipped. *)
Lemma scan_skip l i start :
  (i <= length l)%nat -> (forall j, (j < i)%nat -> is_prefix name (drop j l) = false) ->
  scan start l = scan (if bool_decide (i = 0%nat) then start else char_at l (i - 1) =? CH_AMP) (drop i l).
Proof.
  revert l start. induction i as [|i IH]; intros l start Hi Hj; [done|].
  destruct l as [|c l]; cbn in Hi; [lia|]. pose proof (Hj 0%nat ltac:(lia)) as H0. cbn in H0.
  cbn [scan]. rewrite H0, andb_false_r. cbn [drop]. rewrite (IH l); [|lia|].
  2:{ intros j Hlt. apply (Hj (S j)). lia. }
  rewrite (bool_decide_false (S i = 0%nat)) by lia.
  destruct i as [|i]; [done|]. rewrite bool_decide_false by lia. do 2 f_equal. cbn. by rewrite Nat.sub_0_r.
Qed.

Lemma scan_none l start : (forall j, (j <= length l)%nat -> is_prefix name (drop j l) = false) -> scan start l = None.
Proof.
  revert start. induction l as [|c l IH]; intros start Hj; cbn [scan];
    pose proof (Hj 0%nat ltac:(lia)) as H0; cbn in H0; rewrite H0, andb_false_r; [done|].
  apply IH. intros j Hlt. apply (Hj (S j)). cbn. lia.
Qed.

(** A match that is not at a field start is passed over whole. *)
Lemma scan_pass n t :
  CH_AMP ∉ n -> scan false (n ++ t) = scan false t.
Proof.
  intros Hn. induction n as [|c n IH]; [done|].
  cbn [app scan andb]. apply not_elem_of_cons in Hn as [Hc Hn].
  rewrite (proj2 (Z.eqb_neq c CH_AMP)) by done. by apply IH.
Qed.

Lemma scan_prefix start l r : scan start l = Some r -> is_prefix name r = true.
Proof.
  revert start. induction l as [|c l IH]; intros start; cbn [scan];
    (destruct (start && is_prefix name _) eqn:Hb; [intros Hr; injection Hr as <-; by apply andb_true_iff in Hb as [_ Hb]|]).
  - done.
  - apply IH.
Qed.

Context (Hname : CH_AMP ∉ name) (Hne : name <> []).

Lemma char_at_drop l p i : char_at (drop p l) i = char_at l (p + i).
Proof. unfold char_at, byte_at. by rewrite lookup_drop. Qed.

(** The search loop computes [scan], with fuel for every position. *)
Lemma find_param_scan fuel equery pos :
  (length equery - pos < fuel)%nat -> (pos <= length equery)%nat ->
  (fun m => drop m equery) <$> find_param fuel equery name pos
  = scan (at_start equery pos) (drop pos equery).
Proof.
  assert (1 <= length name)%nat as Hl1 by (destruct name; [done|cbn; lia]).
  revert pos. induction fuel as [|fuel IH]; intros pos Hf Hp; [lia|]. cbn [find_param].
  destruct (strstr (drop pos equery) name) as [i|] eqn:Hs.
  2:{ symmetry. apply scan_none. intros j Hj. by apply strstr_none. }
  apply strstr_some in Hs as (Hpre & Hi & Hj). rewrite length_drop in Hi.
  rewrite (scan_skip _ i) by (rewrite ?length_drop; lia || done). rewrite drop_drop in *.
  assert ((if bool_decide (i = 0%nat) then at_start equery pos
           else char_at (drop pos equery) (i - 1) =? CH_AMP) = at_start equery (pos + i)) as ->.
  { unfold at_start. case_bool_decide as Hi0; [by rewrite Hi0, Nat.add_0_r|].
    rewrite char_at_drop, (bool_decide_false (_ = 0%nat)) by lia. cbn. do 2 f_equal. lia. }
  fold (at_start equery (pos + i)). destruct (at_start equery (pos + i)) eqn:Ha.
  { cbn [fmap option_fmap option_map]. destruct (drop (pos + i) equery) eqn:Hd; cbn [scan andb]; by rewrite Hpre. }
  destruct (is_prefix_inv _ Hpre) as [t Ht].
  assert (length name + length t = length equery - (pos + i))%nat as Hlen.
  { rewrite <-length_app, <-Ht, length_drop. done. }
  rewrite Ht, scan_pass by done.
  rewrite IH by lia. rewrite <-drop_drop, Ht, drop_app_length. f_equal.
  unfold at_start. rewrite bool_decide_false by lia. cbn [orb].
  replace (pos + i + length name - 1)%nat with (pos + i + (length name - 1))%nat by lia.
  rewrite <-char_at_drop, Ht. unfold char_at, byte_at. rewrite lookup_app_l by lia.
  destruct (name !! (length name - 1)%nat) as [c|] eqn:Hc; cbn; [|by apply lookup_ge_None in Hc; lia].
  apply Z.eqb_neq. intros ->. apply Hname. by eapply list_elem_of_lookup_2.
Qed.
End Scan.

(** ** Scanning and fields *)
Lemma fields_of_cons l : exists fs, fields_of l = until_amp l :: fs.
Proof.
  induction l as [|c l [fs IH]]; cbn; [by eexists|]. destruct (c =? CH_AMP); [by eexists|].
  rewrite IH. by eexists.
Qed.

Lemma is_prefix_until name l :
  CH_AMP ∉ name -> is_prefix name (until_amp l) = is_prefix name l.
Proof.
  revert l. induction name as [|c n IH]; intros l Hn; [done|]. apply not_elem_of_cons in Hn as [Hc Hn].
  destruct l as [|b l]; [done|]. cbn. destruct (b =? CH_AMP) eqn:Hb; [|cbn; by rewrite IH].
  apply Z.eqb_eq in Hb as ->. by rewrite (proj2 (Z.eqb_neq c CH_AMP)).
Qed.

Lemma scan_fields name l :
  CH_AMP ∉ name -> name <> [] ->
  until_amp <$> scan name true l = List.find (is_prefix name) (fields_of l) /\
  until_amp <$> scan name false l = List.find (is_prefix name) (tail (fields_of l)).
Proof.
  intros Hn Hne. induction l as [|c l [IHt IHf]].
  - destruct name; [done|]. done.
  - destruct (fields_of_cons l) as [fs Hfs]. rewrite Hfs in IHt, IHf. cbn [tail] in IHf.
    assert (until_amp <$> scan name false (c :: l) = List.find (is_prefix name) (tail (fields_of (c :: l)))) as Hf.
    { cbn [scan andb fields_of]. rewrite Hfs. destruct (c =? CH_AMP); cbn [tail]; done. }
    split; [|exact Hf]. destruct (fields_of_cons (c :: l)) as [fs' Hfs'].
    rewrite Hfs' in Hf |- *. cbn [List.find tail] in *. rewrite is_prefix_until by done.
    cbn [scan] in Hf |- *. cbn [andb] in *. destruct (is_prefix name (c :: l)); [done|exact Hf].
Qed.

Lemma strchr_until v : take (match strchr v CH_AMP with Some e => e | None => length v end) v = until_amp v.
Proof.
  induction v as [|c v IH]; [done|]. cbn. destruct (c =? CH_AMP); [done|].
  destruct (strchr v CH_AMP); cbn; by rewrite IH.
Qed.

Lemma until_amp_name name t :
  CH_AMP ∉ name -> drop (length name) (until_amp (name ++ t)) = until_amp t.
Proof.
  intros Hn. induction name as [|c n IH]; [done|]. apply not_elem_of_cons in Hn as [Hc Hn].
  cbn. rewrite (proj2 (Z.eqb_neq c CH_AMP)) by done. by apply IH.
Qed.

Lemma qparam_value_lookup equery name :
  CH_AMP ∉ name -> name <> [] -> qparam_value equery name = lookup_param equery name.
Proof.
  intros Hn Hne. unfold qparam_value, lookup_param.
  rewrite <-(proj1 (scan_fields name equery Hn Hne)).
  pose proof (find_param_scan name Hn Hne (S (length equery)) equery 0 ltac:(lia) ltac:(lia)) as Hf.
  rewrite drop_0 in Hf. change (at_start equery 0) with true in Hf. rewrite <-Hf.
  destruct (find_param _ _ _ _) as [m|] eqn:Hm; [|done]. cbn [fmap option_fmap option_map].
  assert (is_prefix name (drop m equery) = true) as Hp.
  { apply (scan_prefix name true equery). by rewrite <-Hf. }
  destruct (is_prefix_inv name _ Hp) as [t Ht].
  rewrite <-drop_drop, Ht, drop_app_length, until_amp_name by done.
  rewrite <-strchr_until. set (k := match strchr t CH_AMP with Some e => e | None => length t end).
  assert (k <= length t)%nat as Hk.
  { unfold k. clear. induction t as [|c t IH]; cbn; [lia|]. destruct (c =? CH_AMP); cbn; [lia|].
    destruct (strchr t CH_AMP); cbn in *; lia. }
  destruct (decide (k = 0%nat)) as [Hk0|Hk0].
  - rewrite Hk0. rewrite !bool_decide_true by done. done.
  - rewrite !bool_decide_false; [done| |done]. intros Hz. apply (f_equal length) in Hz.
    rewrite length_take in Hz. cbn in Hz. lia.
Qed.

(** Query parameters: for a parameter name without ['&'], the search of
    [nvmetcp_parse_qparam] over the raw query string returns exactly the value of
    the first ['&']-separated field that starts with the name, and nothing if no
    field does or the value is empty; occurrences of the name inside other values
    are passed over. *)
Theorem qparam_is_field_lookup equery name :
  CH_AMP ∉ name -> name <> [] -> qparam_value equery name = lookup_param equery name.
Proof. apply qparam_value_lookup. Qed.

(** The value of [tls_psk] behind a decoy that contains the same text. *)
Lemma qparam_is_field_lookup_witness :
  qparam_value (bstr "secret=xtls_psk=00&tls_psk=a1b2&z") (bstr "tls_psk=") = Some (bstr "a1b2").
Proof.
  rewrite (qparam_is_field_lookup (bstr "secret=xtls_psk=00&tls_psk=a1b2&z") (bstr "tls_psk=")).
  - reflexivity.
  - apply (bool_decide_unpack _). vm_compute. exact I.
  - discriminate.
Defined.

(** ** The port that is encrypted *)

(** The number a string of decimal digits denotes. *)
Definition is_digit (c : Z) : Prop := 48 <= c <= 57.
Definition decimal (l : cstr) (acc : Z) : Z := foldl (fun n c => n * 10 + (c - 48)) acc l.

Lemma decimal_ge l acc : Forall is_digit l -> 0 <= acc -> acc <= decimal l acc.
Proof.
  revert acc. induction l as [|c l IH]; intros acc Hd Ha; cbn; [done|].
  apply Forall_cons in Hd as [Hc Hd]. unfold is_digit in Hc.
  etrans; [|apply IH; [done|]]; lia.
Qed.

Lemma parse_port_spec l acc p :
  0 <= acc <= 65535 ->
  parse_port l acc = Some p <-> Forall is_digit l /\ decimal l acc = p /\ p <= 65535.
Proof.
  revert acc. induction l as [|c l IH]; intros acc Ha; cbn [parse_port decimal foldl].
  { split; [intros [= <-]; split_and!; [constructor|done|lia]|]. intros (_ & -> & _). done. }
  destruct ((c <? 48) || (57 <? c)) eqn:Hc.
  { split; [done|]. intros (Hd & _). apply Forall_cons in Hd as [Hd _]. unfold is_digit in Hd. lia. }
  assert (is_digit c) as Hdc by (unfold is_digit; lia). unfold is_digit in Hdc.
  rewrite u32_id by lia. destruct (_ >? 0xffff) eqn:Hm.
  - split; [done|]. intros (Hd & Hp & Hle). apply Forall_cons in Hd as [_ Hd].
    pose proof (decimal_ge l (acc * 10 + (c - 48)) Hd ltac:(lia)) as Hge. unfold decimal in Hge. lia.
  - rewrite IH by lia. rewrite Forall_cons. unfold decimal, is_digit. intuition lia.
Qed.

(** Encryption decision: the firmware's own connection uses TLS exactly when a
    pre-shared key is configured and the TLS service identifier is a non-empty
    string of decimal digits whose value is the target port; no other string (a
    sign, a space, a value that wraps around) selects or deselects it. *)
Theorem use_tls_iff s :
  0 <= target_port s <= 65535 ->
  nvmetcp_use_tls s = true <->
  is_Some (tls_psk s) /\
  exists l, tls_trsvcid s = Some l /\ l <> [] /\ Forall is_digit l /\ decimal l 0 = target_port s.
Proof.
  intros Hport. unfold nvmetcp_use_tls. destruct (tls_psk s) as [k|]; [|split; [done|by intros [[] _]]].
  destruct (tls_trsvcid s) as [[|c t]|]; [| |].
  1: split; [done|]. 1: by intros (_ & l & [= <-] & Hne & _).
  2: split; [done|]. 2: by intros (_ & l & Hl & _).
  destruct (parse_port (c :: t) 0) as [p|] eqn:Hp.
  - apply parse_port_spec in Hp as (Hd & Hv & _); [|lia]. rewrite Z.eqb_eq. split.
    + intros Heq. split; [by eexists|]. exists (c :: t). split_and!; [done..|congruence].
    + intros (_ & l & [= <-] & _ & _ & Hl). congruence.
  - split; [done|]. intros (_ & l & [= <-] & _ & Hd & Hl). exfalso.
    assert (parse_port (c :: t) 0 = Some (target_port s)) as Hq; [|congruence].
    apply parse_port_spec; [lia|]. split_and!; [done..|lia].
Qed.

Lemma use_tls_iff_witness :
  let s := zero_session <| target_port := 8009 |> <| tls_psk := Some (bstr "00") |>
             <| tls_trsvcid := Some (bstr "08009") |> in
  0 <= target_port s <= 65535 /\ nvmetcp_use_tls s = true.
Proof.
  split; [cbn; lia|]. apply (use_tls_iff _); [cbn; lia|]. split; [by eexists|].
  exists (bstr "08009"). split; [reflexivity|]. split; [discriminate|]. split; [|reflexivity].
  change (bstr "08009") with [48; 56; 48; 48; 57]. unfold is_digit.
  repeat (constructor; [lia|]). constructor.
Defined.

(** ** The pre-shared key *)
Definition hex_digit (n : Z) : Z := if n <? 10 then 48 + n else 87 + n.
Definition hex_encode (l : list Z) : cstr := l ≫= (fun b => [hex_digit (b / 16); hex_digit (b mod 16)]).

(** ['A'..'F'] as ['a'..'f']. *)
Definition lower (c : Z) : Z := if (65 <=? c) && (c <=? 70) then c + 32 else c.

Lemma nibble_digit c n :
  0 <= n < 16 -> nvmetcp_hex_nibble c = n <-> lower c = hex_digit n.
Proof.
  intros Hn. unfold nvmetcp_hex_nibble, lower, hex_digit.
  destruct ((48 <=? c) && (c <=? 57)) eqn:H1, ((97 <=? c) && (c <=? 102)) eqn:H2,
    ((65 <=? c) && (c <=? 70)) eqn:H3, (n <? 10) eqn:H4; lia.
Qed.

Lemma nibble_range c : -1 <= nvmetcp_hex_nibble c < 16.
Proof.
  unfold nvmetcp_hex_nibble.
  destruct ((48 <=? c) && (c <=? 57)) eqn:H1, ((97 <=? c) && (c <=? 102)) eqn:H2,
    ((65 <=? c) && (c <=? 70)) eqn:H3; lia.
Qed.

Lemma nibbles_byte hi lo :
  0 <= hi < 16 -> 0 <= lo < 16 -> u8 (Z.lor (Z.shiftl hi 4) lo) = hi * 16 + lo.
Proof.
  intros Hh Hl. assert (Z.land (Z.shiftl hi 4) lo = 0) as Hd.
  { apply Z.bits_inj'. intros i Hi. rewrite Z.land_spec, Z.bits_0.
    destruct (decide (i < 4)) as [H4|H4]; [by rewrite Z.shiftl_spec_low|].
    destruct (decide (lo = 0)) as [->|Hz]; [by rewrite Z.bits_0, andb_false_r|].
    rewrite (Z.bits_above_log2 lo), andb_false_r; [done|lia|].
    apply Z.log2_lt_pow2; [lia|]. apply (Z.lt_le_trans _ (2 ^ 4)); [lia|].
    apply Z.pow_le_mono_r; lia. }
  rewrite <-Z.add_nocarry_lor by done. rewrite Z.shiftl_mul_pow2 by lia.
  apply Z.mod_small. lia.
Qed.

Lemma hex_decode_spec hex psk :
  (length hex `mod` 2 = 0)%nat ->
  hex_decode hex = Some psk <-> bytes_ok psk /\ map lower hex = hex_encode psk.
Proof.
  revert psk. induction hex as [hex IH] using (induction_ltof1 _ (@length Z)). unfold ltof in IH.
  intros psk Hev. destruct hex as [|a [|b t]]; cbn [hex_decode].
  - split; [intros [= <-]; split; [constructor|done]|]. intros [_ Hm].
    destruct psk; [done|discriminate].
  - discriminate.
  - assert (length t `mod` 2 = 0)%nat as Hevt.
    { change (length (a :: b :: t)) with (2 + length t)%nat in Hev.
      rewrite Nat.add_comm, <-(Nat.mul_1_l 2) in Hev at 1. by rewrite Nat.Div0.mod_add in Hev. }
    pose proof (nibble_range a) as Ha. pose proof (nibble_range b) as Hb.
    destruct ((nvmetcp_hex_nibble a <? 0) || (nvmetcp_hex_nibble b <? 0)) eqn:Hn.
    + split; [done|]. intros [Hok Hm]. destruct psk as [|p psk]; [discriminate|].
      apply Forall_cons in Hok as [Hp _]. unfold is_byte in Hp. cbn in Hm. injection Hm as H1 H2 _.
      pose proof (Z.div_mod p 16 ltac:(lia)). pose proof (Z.mod_pos_bound p 16 ltac:(lia)).
      apply nibble_digit in H1; [|lia]. apply nibble_digit in H2; [|lia]. lia.
    + rewrite nibbles_byte by lia. set (x := nvmetcp_hex_nibble a) in *. set (y := nvmetcp_hex_nibble b) in *.
      assert (lower a = hex_digit x /\ lower b = hex_digit y) as [Hx Hy]
        by (split; apply nibble_digit; lia || done).
      assert ((x * 16 + y) / 16 = x /\ (x * 16 + y) mod 16 = y) as [Hd Hr].
      { pose proof (Z.div_mod (x * 16 + y) 16 ltac:(lia)). pose proof (Z.mod_pos_bound (x * 16 + y) 16 ltac:(lia)). lia. }
      cbn [map]. rewrite Hx, Hy. split.
      * destruct (hex_decode t) as [q|] eqn:Ht; [|done]. cbn. intros [= <-].
        apply IH in Ht as [Hok Hm]; [|cbn; lia|done]. split.
        -- constructor; [unfold is_byte; lia|done].
        -- cbn. by rewrite Hd, Hr, Hm.
      * intros [Hok Hm]. destruct psk as [|p psk]; [discriminate|]. apply Forall_cons in Hok as [Hp Hok].
        unfold is_byte in Hp. cbn in Hm. injection Hm as H1 H2 Hm.
        pose proof (Z.div_mod p 16 ltac:(lia)). pose proof (Z.mod_pos_bound p 16 ltac:(lia)).
        assert (hex_decode t = Some psk) as -> by (apply IH; [cbn; lia|done|done]).
        cbn. do 2 f_equal. assert (p / 16 = x /\ p mod 16 = y); [|lia].
        revert H1 H2. unfold hex_digit.
        destruct (x <? 10) eqn:?, (y <? 10) eqn:?, (p / 16 <? 10) eqn:?, (p mod 16 <? 10) eqn:?; lia.
Qed.

Lemma hex_encode_length psk : length (hex_encode psk) = (2 * length psk)%nat.
Proof. unfold hex_encode. induction psk as [|p psk IH]; [done|]. cbn in *. lia. Qed.

(** Pre-shared key: [nvmetcp_tls_params] succeeds with a key exactly when the
    configured string is the hexadecimal notation, in either case, of that key of 1
    to 64 bytes, and the identity "NVMe0R01 host subsystem" fits its buffer; the
    key is the bytes denoted and the session is not changed. *)
Theorem tls_key_is_hex s hex host subsys psk identity :
  tls_psk s = Some hex -> host_nqn s = Some host -> subsystem_nqn s = Some subsys ->
  nvmetcp_tls_params s = Ret (inr (psk, identity)) s <->
  bytes_ok psk /\ map lower hex = hex_encode psk /\ (1 <= length psk <= NVMETCP_MAX_PSK)%nat /\
  identity = bstr "NVMe0R01 " ++ host ++ bstr " " ++ subsys /\
  (length identity < NVMETCP_MAX_IDENTITY)%nat.
Proof.
  intros Hhex Hh Hc.
  assert (nvmetcp_tls_params s =
    if bool_decide (length hex = 0%nat) || negb (bool_decide (length hex `mod` 2 = 0)%nat) ||
       bool_decide (NVMETCP_MAX_PSK < length hex / 2)%nat then Ret (inl EINVAL) s
    else match hex_decode hex with
         | None => Ret (inl EINVAL) s
         | Some psk =>
             if bool_decide (NVMETCP_MAX_IDENTITY <= length (bstr "NVMe0R01 " ++ host ++ bstr " " ++ subsys))%nat
             then Ret (inl EINVAL) s
             else Ret (inr (psk, bstr "NVMe0R01 " ++ host ++ bstr " " ++ subsys)) s
         end) as ->.
  { unfold nvmetcp_tls_params, bind, gets. rewrite Hhex. cbn [of_option]. unfold ret.
    destruct (_ || _ || _); [done|]. destruct (hex_decode hex); [|done].
    rewrite Hh. cbn [of_option]. unfold ret. rewrite Hc. cbn [of_option]. unfold ret. by case_bool_decide. }
  set (idn := bstr "NVMe0R01 " ++ _).
  assert (forall p, map lower hex = hex_encode p -> length hex = 2 * length p)%nat as Hlen.
  { intros p Hp. apply (f_equal length) in Hp. by rewrite length_map, hex_encode_length in Hp. }
  destruct (bool_decide (length hex = 0%nat) || negb (bool_decide (length hex `mod` 2 = 0)%nat) ||
            bool_decide (NVMETCP_MAX_PSK < length hex / 2)%nat) eqn:Hg.
  - split; [discriminate|]. intros (_ & Hm & Hl & _). apply Hlen in Hm. exfalso.
    rewrite !orb_true_iff, negb_true_iff, !bool_decide_eq_true, bool_decide_eq_false in Hg.
    rewrite Hm, (Nat.mul_comm 2), Nat.div_mul, Nat.Div0.mod_mul in Hg by lia. lia.
  - rewrite !orb_false_iff, negb_false_iff, bool_decide_eq_true, !bool_decide_eq_false in Hg.
    destruct Hg as [[Hz Hev] Hmx].
    destruct (hex_decode hex) as [q|] eqn:Hd.
    + pose proof (proj1 (hex_decode_spec hex q Hev) Hd) as [Hq Hqm]. pose proof (Hlen q Hqm) as Hql.
      rewrite Hql, (Nat.mul_comm 2), Nat.div_mul in Hmx by lia.
      case_bool_decide as Hi.
      * split; [discriminate|]. intros (_ & _ & _ & -> & Hi'). exfalso. lia.
      * split.
        -- intros [= <- <-]. split_and!; [done..|lia|lia|done|]. lia.
        -- intros (Hok & Hm & _ & -> & _). apply hex_decode_spec in Hd as [_ Hd']; [|done].
           assert (hex_decode hex = Some psk) as Hd2 by by apply hex_decode_spec.
           assert (hex_decode hex = Some q) as Hd3 by by apply hex_decode_spec. congruence.
    + split; [discriminate|]. intros (Hok & Hm & _).
      assert (hex_decode hex = Some psk) by by apply hex_decode_spec. congruence.
Qed.

Lemma tls_key_is_hex_witness :
  let s := zero_session <| tls_psk := Some (bstr "0aFf10") |> <| host_nqn := Some (bstr "h") |>
             <| subsystem_nqn := Some (bstr "c") |> in
  nvmetcp_tls_params s = Ret (inr ([10; 255; 16], bstr "NVMe0R01 h c")) s.
Proof.
  apply (tls_key_is_hex _ (bstr "0aFf10") (bstr "h") (bstr "c")); [reflexivity..|].
  split; [repeat (constructor; [unfold is_byte; lia|]); constructor|].
  split; [reflexivity|]. split; [vm_compute; lia|]. split; [reflexivity|vm_compute; lia].
Defined.

(** ** Opening a session *)
Section OpenParams.
Context (E : env).
Implicit Types (s : session) (u : uri).

(** A parameter of the URI's query. *)
Definition uri_param (u : uri) (name : cstr) : option cstr :=
  uri_equery u ≫= (fun q => lookup_param q name).

Lemma wp_parse_qparam F u name Q s :
  CH_AMP ∉ name -> name <> [] ->
  (forall t, Q (inl ENOMEM) (s <| tick := t |>)) -> (forall t, Q (inr (uri_param u name)) (s <| tick := t |>)) ->
  wp F (nvmetcp_parse_qparam E u name) Q s.
Proof.
  intros Hn Hne Hl Hr. unfold nvmetcp_parse_qparam, uri_param in *.
  destruct (uri_equery u) as [q|].
  - cbn in Hr. rewrite <-(qparam_value_lookup q name Hn Hne) in Hr. destruct (qparam_value q name).
    + wp_run; [by_state s (Hl (S (tick s)))|by_state s (Hr (S (tick s)))].
    + wp_run. by_state s (Hr (tick s)).
  - wp_run. by_state s (Hr (tick s)).
Qed.

(** The host NQN: the setting, or the default with the system UUID, in a buffer of
    53 bytes. *)
Definition host_nqn_of : cstr :=
  match hostnqn_setting E with
  | Some nqn => nqn
  | None => take 52 (NVMETCP_DEFAULT_HOST_NQN ++
              match uuid_setting E with None => bstr "ipxe" | Some uuid => uuid_ntoa E uuid end)
  end.

Lemma wp_set_host_nqn F Q s :
  (forall t, Q (Err ENOMEM) (s <| tick := t |>)) ->
  (forall t, Q OK (s <| tick := t |> <| host_nqn := Some host_nqn_of |>)) ->
  wp F (nvmetcp_set_host_nqn E) Q s.
Proof.
  intros Hl Hr. unfold nvmetcp_set_host_nqn, host_nqn_of in *. destruct (hostnqn_setting E).
  - wp_run. by_state s (Hr (tick s)).
  - wp_run; [by_state s (Hl (S (tick s)))|].
    destruct (uuid_setting E); by_state s (Hr (S (tick s))).
Qed.

(** What [nvmetcp_open_socket] leaves when it succeeds. *)
Definition socket_event (q : queue) (s : session) (e : event) : Prop :=
  if nvmetcp_use_tls s
  then exists psk identity, nvmetcp_tls_params s = Ret (inr (psk, identity)) s /\ e = OpenedTls q psk identity
  else e = Opened q.

Lemma tls_params_pure s r s' : nvmetcp_tls_params s = Ret r s' -> s' = s.
Proof.
  intros Hr. refine (wp_elim True _ (fun _ s' => s' = s) s r s' _ Hr).
  unfold nvmetcp_tls_params. wp_run; done.
Qed.

Lemma use_tls_frame s s' :
  tls_psk s' = tls_psk s -> tls_trsvcid s' = tls_trsvcid s -> target_port s' = target_port s ->
  nvmetcp_use_tls s' = nvmetcp_use_tls s.
Proof. intros Hp Ht Hq. unfold nvmetcp_use_tls. by rewrite Hp, Ht, Hq. Qed.

Lemma tls_params_frame s s' r :
  tls_psk s' = tls_psk s -> host_nqn s' = host_nqn s -> subsystem_nqn s' = subsystem_nqn s ->
  nvmetcp_tls_params s = Ret r s -> nvmetcp_tls_params s' = Ret r s'.
Proof.
  intros Hp Hh Hc. unfold nvmetcp_tls_params, bind, gets. rewrite Hp. destruct (tls_psk s) as [hex|]; [|done].
  cbn [of_option]. unfold ret. destruct (_ || _ || _); [congruence|].
  destruct (hex_decode hex); [|congruence]. rewrite Hh. destruct (host_nqn s); [|done]. cbn [of_option].
  unfold ret. rewrite Hc. destruct (subsystem_nqn s); [|done]. cbn [of_option]. unfold ret.
  case_bool_decide; congruence.
Qed.

Lemma tls_params_returns s : nvmetcp_tls_params s <> NoFuel.
Proof.
  assert (wp True nvmetcp_tls_params (fun _ _ => True) s) as Hw by (unfold nvmetcp_tls_params; wp_run; done).
  unfold wp in Hw. by destruct (nvmetcp_tls_params s).
Qed.

Lemma wp_open_socket q p Q s :
  (forall e s', events s' = events s -> Q (Err e) s') ->
  (forall t e, socket_event q s e ->
     Q OK ((set_rx q (nvmetcp_rx_reset (get_rx q s)) s) <| tick := t |> <| phase := p |>
             <| events ::= (fun l => l ++ [e]) |>
             <| running := (if tx_in_flight s then running s else true) |>)) ->
  wp True (nvmetcp_open_socket E q p) Q s.
Proof.
  intros Herr Hok. unfold nvmetcp_open_socket, socket_event in *. do 2 wp_step. wp_step.
  assert (forall t e, (if nvmetcp_use_tls s then exists psk identity,
       nvmetcp_tls_params s = Ret (inr (psk, identity)) s /\ e = OpenedTls q psk identity else e = Opened q) ->
    wp True (do* set_phase p in
             do* update (fun s => set_rx q (nvmetcp_rx_reset (get_rx q s)) s) in
             do* nvmetcp_tx_resume in ret OK) Q
       (s <| tick := t |> <| events ::= (fun l => l ++ [e]) |>)) as Htail.
  { intros t e He. specialize (Hok t e He). wp_run.
    assert (tx_in_flight (set_rx q (nvmetcp_rx_reset (get_rx q
       (s <| tick := t |> <| events ::= (fun l => l ++ [e]) |> <| phase := p |>)))
       (s <| tick := t |> <| events ::= (fun l => l ++ [e]) |> <| phase := p |>)) = tx_in_flight s) as Hf
      by by destruct q.
    apply wp_tx_resume; rewrite Hf; intros Hf'; rewrite Hf' in Hok; wp_run; destruct q; by_state s Hok. }
  destruct (nvmetcp_use_tls s) eqn:Ht.
  - wp_step. destruct (nvmetcp_tls_params s) as [r s1| |] eqn:Hp;
      [|unfold wp; by rewrite Hp|exfalso; revert Hp; apply tls_params_returns].
    pose proof (tls_params_pure _ _ _ Hp) as ->. eapply wp_intro; [exact Hp|]. rewrite <-Hp in Htail.
    destruct r as [e|[psk idn]]; [by apply Herr|]. wp_step. apply wp_consult.
    destruct (add_tls_rc _ _ _); [wp_step; apply wp_emit; wp_step|by wp_step; apply Herr].
    assert (exists p i, nvmetcp_tls_params s = Ret (inr (p, i)) s /\
              OpenedTls q psk idn = OpenedTls q p i) as He by (exists psk, idn; by rewrite Hp).
    by_state s (Htail (S (tick s)) (OpenedTls q psk idn) He).
  - wp_step. apply wp_consult. destruct (open_rc _ _ _); [wp_step; apply wp_emit; wp_step|by wp_step; apply Herr].
    by_state s (Htail (S (tick s)) (Opened q) eq_refl).
Qed.

(** A session configured from [u], with its first socket opened as [e]. *)
Record configured (u : uri) (s : session) (e : event) : Prop := {
  cf_host : target_host s = uri_host u;
  cf_host_set : is_Some (uri_host u);
  cf_port : target_port s = u16 (uri_port E u NVMETCP_DEFAULT_PORT);
  cf_nqn : exists nqn, uri_path u = Some (CH_SLASH :: nqn) /\ subsystem_nqn s = Some nqn /\
             (1 <= length nqn < NVMF_NQN_FIELD_LEN)%nat;
  cf_secret : secret s = uri_param u (bstr "secret=");
  cf_psk : tls_psk s = uri_param u (bstr "tls_psk=");
  cf_trsvcid : tls_trsvcid s = uri_param u (bstr "tls_trsvcid=");
  cf_host_nqn : host_nqn s = Some host_nqn_of;
  cf_nsid : nsid s = 1;
  cf_phase : phase s = NVMETCP_PHASE_ICREQ;
  cf_running : running s = true;
  cf_events : events s = [e];
}.

Lemma param_name_ok n :
  n ∈ [bstr "secret="; bstr "tls_psk="; bstr "tls_trsvcid="] -> (CH_AMP ∉ n) /\ n <> [].
Proof.
  revert n. assert (Forall (fun n => (CH_AMP ∉ n) /\ n <> []) [bstr "secret="; bstr "tls_psk="; bstr "tls_trsvcid="]) as Hf.
  { repeat constructor; try discriminate; apply (bool_decide_unpack _); vm_compute; exact I. }
  by apply Forall_forall.
Qed.

(** The outcome of opening: the configuration and how the socket was opened. *)
Definition opened_as (u : uri) (s : session) : Prop :=
  exists e, configured u s e /\
    (nvmetcp_use_tls s = false -> e = Opened Admin) /\
    (nvmetcp_use_tls s = true -> exists psk identity,
       e = OpenedTls Admin psk identity /\ nvmetcp_tls_params s = Ret (inr (psk, identity)) s).

Lemma parse_root_path_ok u path Q s :
  uri_path u = Some path ->
  (forall e s', Q (Err e) s') ->
  (forall s', 
    (target_host s', target_port s', subsystem_nqn s') =
      (uri_host u, u16 (uri_port E u NVMETCP_DEFAULT_PORT), Some (drop 1 path)) ->
    (secret s', tls_psk s', tls_trsvcid s') =
      (uri_param u (bstr "secret="), uri_param u (bstr "tls_psk="), uri_param u (bstr "tls_trsvcid=")) ->
    (nsid s', tx_in_flight s', events s') = (nsid s, tx_in_flight s, events s) ->
    is_Some (uri_host u) -> char_at path 0 = CH_SLASH ->
    (1 <= length (drop 1 path) < NVMF_NQN_FIELD_LEN)%nat -> Q OK s') ->
  wp True (nvmetcp_parse_root_path E u) Q s.
Proof.
  intros Hpath Herr Hok. unfold nvmetcp_parse_root_path.
  destruct (uri_host u) as [host|] eqn:Hhost; [|by apply wp_ret].
  wp_step. apply wp_consult. destruct (negb _); [by apply wp_ret|]. do 4 wp_step. rewrite Hpath.
  destruct (char_at path 0 =? CH_SLASH) eqn:Hslash; [|by apply wp_ret]. cbn [negb].
  destruct (_ || _) eqn:Hlen; [by apply wp_ret|]. wp_step. apply wp_consult.
  destruct (negb _); [by apply wp_ret|]. do 2 wp_step.
  match goal with |- wp _ _ _ ?x => set (s1 := x) end.
  assert ((target_host s1, target_port s1, subsystem_nqn s1, (nsid s1, tx_in_flight s1, events s1)) =
    (Some host, u16 (uri_port E u NVMETCP_DEFAULT_PORT), Some (drop 1 path), (nsid s, tx_in_flight s, events s)))
    as Hf1 by reflexivity.
  clearbody s1. injection Hf1 as Hs1 Hs2 Hs3 Hs4 Hs5 Hs6.
  unfold nvmetcp_parse_secret, nvmetcp_parse_tls. do 2 wp_step.
  apply wp_parse_qparam; [apply param_name_ok; set_solver..|done|]. intros t1. cbv iota. do 4 wp_step.
  apply wp_parse_qparam; [apply param_name_ok; set_solver..|done|]. intros t2. cbv iota. do 3 wp_step.
  apply wp_parse_qparam; [apply param_name_ok; set_solver..|done|]. intros t3. cbv iota. do 3 wp_step.
  apply orb_false_iff in Hlen as [Hl1 Hl2]. rewrite bool_decide_eq_false in Hl1, Hl2.
  apply Hok; cbn; [congruence|done|congruence|by eexists|lia|lia].
Qed.

Lemma open_body_ok u path s :
  uri_path u = Some path -> tx_in_flight s = false -> events s = [] ->
  wp True (nvmetcp_open_body E u) (fun rc s' => rc = OK -> opened_as u s') s.
Proof.
  intros Hpath Htx Hev. unfold nvmetcp_open_body. wp_step. apply wp_update. wp_step.
  apply (parse_root_path_ok u path); [done|done|].
  intros s1 [= Hs1 Hs2 Hs3] [= Hs4 Hs5 Hs6] [= Hs7 Hs8 Hs9] Hhost Hslash Hlen.
  wp_step. apply wp_set_host_nqn; [done|]. intros t4.
  set (s4 := s1 <| tick := t4 |> <| host_nqn := _ |>).
  assert (tx_in_flight s4 = false) as Htx4 by (cbn; congruence).
  apply wp_open_socket; [done|]. intros t5 e He _. rewrite Htx4.
  destruct path as [|c nqn]; [done|]. cbn in Hslash. subst c. cbn [drop] in Hs3, Hlen. rewrite drop_0 in Hs3, Hlen.
  exists e. split.
  - constructor; cbn; try done; [by exists nqn|by rewrite Hs9, Hev].
  - unfold socket_event in He. rewrite (use_tls_frame s4) by done. destruct (nvmetcp_use_tls s4).
    + split; [done|]. intros _. destruct He as (psk & idn & Hp & ->). exists psk, idn.
      split; [done|]. by apply (tls_params_frame s4).
    + by split.
Qed.

(** [C23] Opening: [nvmetcp_open] succeeds only for a URI with a host and a path of a
    slash and a subsystem NQN of 1 to 255 characters; the session then has the
    URI's host, port (4420 by default), subsystem NQN and query parameters and the
    configured or default host NQN, has opened exactly one socket, the admin
    queue's, encrypted exactly when the decision procedure says so and with the
    parameters it computes, and is on the run queue in the ICReq phase. *)
Theorem open_configures u s :
  nvmetcp_open E u zero_session = Ret OK s ->
  exists e, configured u s e /\
    (nvmetcp_use_tls s = false -> e = Opened Admin) /\
    (nvmetcp_use_tls s = true -> exists psk identity,
       e = OpenedTls Admin psk identity /\ nvmetcp_tls_params s = Ret (inr (psk, identity)) s).
Proof.
  unfold nvmetcp_open. destruct (uri_path u) as [path|] eqn:Hpath; [|discriminate].
  intros Ho. apply bind_ret in Ho as (ok & s1 & Hc & Ho). destruct ok; [|discriminate].
  apply bind_ret in Ho as (rc & s2 & Hb & Ho). injection Hc as _ <-.
  destruct rc as [|e]; [|by apply bind_ret in Ho as (? & ? & _ & ?)].
  assert (s = s2) as -> by (unfold ret in Ho; congruence).
  refine (wp_elim True _ (fun rc s => rc = OK -> opened_as u s) _ OK s2 _ Hb eq_refl).
  by apply (open_body_ok u path).
Qed.
End OpenParams.

#[local] Existing Instances Toy.digest Toy.digest_laws Toy.exchange Toy.exchange_laws ToyEnv.laws.

Lemma open_configures_witness :
  match nvmetcp_open Demo.E Demo.target zero_session with
  | Ret OK s => exists e, configured Demo.E Demo.target s e
  | _ => False
  end.
Proof.
  destruct (nvmetcp_open Demo.E Demo.target zero_session) as [[|err] s| |] eqn:Ho.
  - destruct (open_configures Demo.E Demo.target s Ho) as (e & He & _). exists e. exact He.
  - exfalso. revert Ho. vm_compute. discriminate.
  - exfalso. revert Ho. vm_compute. discriminate.
  - exfalso. revert Ho. vm_compute. discriminate.
Defined.
