(* ===== verification/NvmeFindings.v ===== *)
(** * Where the driver does not do what it means to do (net/tcp/nvmetcp.c, nvmetcp_auth.c)

    Each theorem of this file states a behaviour of the code that contradicts its
    comments or the safety that the rest of the development proves: three accesses
    to invalid memory that a peer can cause, a read that completes early, a lost
    protocol message, a command sent twice, a key with uninitialised bytes and a
    truncated name. *)

From stdpp Require Import base list strings relations.
From Stdlib Require Import ZArith Lia.
From S2P Require Import Prelude Layout NvmeWire Crypto NvmeState NvmeTx NvmeAuth NvmeUri NvmeRx.
From S2P Require Import NvmeOps NvmeDemo NvmeStream NvmeInv NvmeReach NvmePdu NvmeBlock.
From S2P Require Import NvmeDhchap NvmeParams.

Section Findings.
Context `{DigestLaws} `{ExchangeLaws} (E : env) `{EnvLaws E}.
Implicit Types (s : session).

Lemma rx_header_command q s :
  pdu_type (hdr (get_rx q s)) = NVMETCP_PDU_COMMAND ->
  nvmetcp_rx_header q s = Ret OK (set_rx q ((get_rx q s) <| hdr_expect :=
    Z.to_nat (get_field nvmetcp_pdu_header "hlen" (hdr (get_rx q s))) |>) s).
Proof.
  intros Ht. unfold nvmetcp_rx_header, bind, gets. rewrite Ht. done.
Qed.

(** Header overflow: the header buffer has 128 bytes, but the length of a
    command-type header is taken from the wire; in every reachable session, on
    either queue, a peer that sends such a header with a length above 128 and the
    bytes to go with it makes the receive loop write past the end of the buffer. *)
Theorem command_header_overflow u s q h rest :
  reachable E u s -> boundary (get_rx q s) -> length h = 8%nat ->
  pdu_type h = NVMETCP_PDU_COMMAND -> 128 < get_field nvmetcp_pdu_header "hlen" h ->
  (120 < length rest)%nat ->
  nvmetcp_socket_deliver E q (h ++ rest) s = Fault.
Proof.
  intros Hr (Hl & He & Hde & Hdl) Hh Ht Hlen Hrest. pose proof (reachable_inv E u s Hr) as HI.
  pose proof (ri_len _ (get_rx_inv q s HI)) as H128.
  rewrite deliver_unroll by (by destruct h). cbv zeta. rewrite Hl, He. unfold clip.
  rewrite !bool_decide_true by lia.
  replace (Nat.min (8 - 0) (length (h ++ rest))) with (length h) by (rewrite length_app; lia).
  rewrite take_app_length, drop_app_length. unfold try, bind, rx_header_bytes, bind.
  rewrite rx_header_copy_eq, Hl, Hh, H128, bool_decide_true by lia.
  unfold rx_header_check, bind, gets, try, bind. rewrite hdr_fed_rx. cbn [hdr_len modify].
  rewrite Hl, Hh, bool_decide_true by done. set (s1 := hdr_fed q h s).
  assert (hdr (get_rx q s1) = splice 0 h (hdr (get_rx q s))) as Hhd1.
  { unfold s1. rewrite hdr_fed_rx. cbn. by rewrite Hl. }
  assert (hdr_len (get_rx q s1) = 8%nat) as Hl1.
  { unfold s1. rewrite hdr_fed_rx. cbn. by rewrite Hl, Hh. }
  rewrite rx_header_command by (rewrite Hhd1, pdu_type_splice; [done|lia]).
  rewrite Hhd1, get_field_splice by (change (sizeof _) with 8%nat; lia). cbv beta iota.
  set (n := Z.to_nat (get_field nvmetcp_pdu_header "hlen" h)). assert (128 < n)%nat as Hn by lia.
  rewrite get_set_rx. cbn [hdr_len hdr_expect modify]. rewrite Hl1, bool_decide_true by lia. unfold ret at 1.
  rewrite deliver_unroll by (intros ->; cbn in Hrest; lia). cbv zeta. rewrite get_set_rx. cbn [hdr_len hdr_expect modify].
  rewrite Hl1, bool_decide_true by lia. unfold clip. rewrite bool_decide_true by lia.
  unfold try, bind, rx_header_bytes, bind. rewrite rx_header_copy_eq, get_set_rx.
  cbn [hdr_len hdr modify]. rewrite Hl1, Hhd1, bool_decide_false; [done|].
  rewrite splice_length, H128 by (cbn; lia). rewrite length_take. lia.
Qed.

(** An R2T that passes the range check, but whose range cannot be read. *)
Lemma unreadable_r2t_faults u s h :
  let off := get_field nvmetcp_r2t_pdu "r2t_offset" h in
  let len := get_field nvmetcp_r2t_pdu "r2t_length" h in
  reachable E u s -> boundary (get_rx Io s) -> pdu_ok (Pdu h []) -> pdu_type h = NVMETCP_PDU_R2T ->
  u32 (off + len) <= Z.of_nat (block_len s) -> len <> 0 ->
  (lent s = true -> read (Z.to_nat off) (Z.to_nat len) (block_buffer s) = None) ->
  xfer_window E (tick s) Io <> 0 -> alloc_ok E (S (tick s)) = true ->
  nvmetcp_socket_deliver E Io h s = Fault.
Proof.
  intros off len Hr Hb Hp Ht Hpass Hz Hread Hwin Hal. pose proof (reachable_inv E u s Hr) as HI.
  pose proof (pdu_hlen_cases _ _ (po_hdr _ Hp)) as Hh. cbn in Hh. rewrite deliver_bare by done.
  unfold handle_pdu, bind, update, try, bind. cbn [p_hdr].
  unfold nvmetcp_rx_pdu, bind, gets. rewrite received_type, Ht by lia. pdu_dispatch NVMETCP_PDU_R2T.
  unfold nvmetcp_tx_h2cdata, bind, gets. rewrite received_rx. cbn [hdr modify].
  rewrite !get_field_splice by (change (sizeof _) with 24%nat; lia). fold off len.
  change (block_len (received Io h s)) with (block_len s).
  rewrite Z.gtb_ltb, (proj2 (Z.ltb_ge _ _)) by lia.
  change (block_buffer (received Io h s)) with (block_buffer s).
  change (lent (received Io h s)) with (lent s).
  rewrite (proj2 (Z.eqb_neq _ _) Hz).
  replace (if lent s then _ else None) with (@None (list Z)) by (destruct (lent s); [by rewrite Hread|done]).
  unfold nvmetcp_tx_pdu, tx_iob, bind, consult. change (tick (received Io h s)) with (tick s).
  rewrite (proj2 (Z.eqb_neq _ _) Hwin).
  change (tick ((received Io h s) <| tick ::= S |>)) with (S (tick s)). by rewrite Hal.
Qed.

(** R2T overflow: the range check of [nvmetcp_tx_h2cdata] adds offset and length
    in 32 bits; a target that asks for a range whose end wraps around passes the
    check, and the driver reads outside the caller's buffer. *)
Theorem r2t_wrap_reads_out_of_bounds u s h :
  let off := get_field nvmetcp_r2t_pdu "r2t_offset" h in
  let len := get_field nvmetcp_r2t_pdu "r2t_length" h in
  reachable E u s -> boundary (get_rx Io s) -> pdu_ok (Pdu h []) -> pdu_type h = NVMETCP_PDU_R2T ->
  2 ^ 32 <= off + len -> u32 (off + len) <= Z.of_nat (block_len s) ->
  xfer_window E (tick s) Io <> 0 -> alloc_ok E (S (tick s)) = true ->
  nvmetcp_socket_deliver E Io h s = Fault.
Proof.
  intros off len Hr Hb Hp Ht Hwrap Hpass Hwin Hal. pose proof (reachable_inv E u s Hr) as HI.
  pose proof (pdu_hlen_cases _ _ (po_hdr _ Hp)) as Hh. cbn in Hh.
  pose proof (po_bytes _ Hp) as Hbytes. unfold encode in Hbytes. rewrite app_nil_r in Hbytes. cbn [p_hdr] in Hbytes.
  pose proof (get_field_range nvmetcp_r2t_pdu "r2t_offset" h Hbytes ltac:(change (sizeof _) with 24%nat; lia)) as Ho.
  pose proof (get_field_range nvmetcp_r2t_pdu "r2t_length" h Hbytes ltac:(change (sizeof _) with 24%nat; lia)) as Hn.
  fold off len in Ho, Hn. change (fieldsize _ _) with 4%nat in Ho, Hn. cbn in Ho, Hn.
  apply (unreadable_r2t_faults u); try done; fold off len; [lia|]. intros _.
  unfold read. rewrite bool_decide_false; [done|]. pose proof (i_block _ HI). pose proof (i_block_max _ HI) as Hm.
  change NVMETCP_MAX_CMD_DATA with 4096%nat in Hm. lia.
Qed.

(** Late R2T: nothing asks whether a block command is pending.  When the last one has
    finished, and its caller has the buffer back, an R2T for a range of it is answered by
    reading through the pointer that the session has kept. *)
Theorem late_r2t_reads_returned_buffer u s h :
  let off := get_field nvmetcp_r2t_pdu "r2t_offset" h in
  let len := get_field nvmetcp_r2t_pdu "r2t_length" h in
  reachable E u s -> boundary (get_rx Io s) -> pdu_ok (Pdu h []) -> pdu_type h = NVMETCP_PDU_R2T ->
  block_data s = None -> len <> 0 -> u32 (off + len) <= Z.of_nat (block_len s) ->
  xfer_window E (tick s) Io <> 0 -> alloc_ok E (S (tick s)) = true ->
  nvmetcp_socket_deliver E Io h s = Fault.
Proof.
  intros off len Hr Hb Hp Ht Hbd Hz Hpass Hwin Hal. apply (unreadable_r2t_faults u); try done.
  unfold lent. by rewrite Hbd.
Qed.

(** A short read completes: the first data PDU of a read completes it, however
    little of the buffer it carries; the rest of the caller's buffer is filled with
    what the command buffer held before, and the caller is told of success. *)
Theorem short_read_completes u s h data :
  reachable E u s -> boundary (rx_io s) -> phase s = NVMETCP_PHASE_READY ->
  is_Some (block_data s) -> block_writing s = false -> cmd_data_offset s = 0%nat ->
  pdu_ok (Pdu h data) -> pdu_type h = NVMETCP_PDU_C2HDATA ->
  get_field nvmetcp_data_pdu "data_offset" h = 0 -> (length data < block_len s)%nat ->
  exists s', nvmetcp_socket_deliver E Io (h ++ data) s = Ret OK s' /\
    block_buffer s' = data ++ sub (length data) (block_len s - length data) (cmd_buf s) /\
    block_data s' = None /\ events s' = events s ++ [Restarted OK].
Proof.
  intros Hr Hb Hph Hbd Hw Ho Hp Ht Hoff Hl. pose proof (reachable_inv E u s Hr) as HI.
  change (h ++ data) with (encode (Pdu h data)).
  rewrite <-handle_pdu_deliver by (done || apply (get_rx_inv Io), HI).
  pose proof (read_data_arrives E h data s HI Hp Hb Ht Hoff Hph Hbd Hw Ho ltac:(lia)) as Hwp.
  unfold wp in Hwp. destruct (handle_pdu E Io (Pdu h data) s) as [rc s'| |]; try done.
  destruct Hwp as (-> & Hbuf & [Hcd _ Hce]). by exists s'.
Qed.

(** A Negotiate that cannot be sent is lost: when the socket has no window at
    the first step of the authentication, nothing is sent, but the step machine has
    already moved on; when the window opens, the next step of the process asks for
    the challenge with an AuthReceive, or sends nothing: never the Negotiate. *)
Theorem negotiate_lost s bytes :
  phase s = NVMETCP_PHASE_AUTH -> step (auth s) = NVMETCP_AUTH_STEP_START ->
  completed (auth s) = false -> tx_in_flight s = false ->
  get_random_nz E (tick s) 2 = (OK, bytes) -> xfer_window E (S (tick s)) Admin = 0 ->
  exists s1 s2, nvmetcp_process E s = Ret tt s1 /\ nvmetcp_tx_resume s1 = Ret tt s2 /\
    events s2 = events s /\ running s2 = true /\
    wp False (nvmetcp_process E) (fun _ s3 => events s3 = events s \/
      events s3 = events s ++ [Sent Admin (command_pdu
        (auth_command (u16 (u16 (cid s + 1) + 1)) NVMF_FCTYPE_AUTH_RECEIVE 0 NVMETCP_AUTH_RECV_LEN)
        0 NVMETCP_AUTH_RECV_LEN)]) s2.
Proof.
  intros Hph Hst Hco Hfl Hrnd Hwin.
  eexists _, _. split; [|split].
  - unfold nvmetcp_process, nvmetcp_step, bind, get. unfold phase_action. rewrite Hph.
    unfold nvmetcp_auth_step, bind, gets, consult. rewrite Hst, Hco, Hrnd.
    unfold upd_auth, update, nvmetcp_auth_tx_negotiate, nvmetcp_auth_tx_send, nvmetcp_auth_tx_command,
      next_cid, bind, gets, update, nvmetcp_tx_command, try, bind, nvmetcp_tx_pdu, consult, bind.
    cbn [tick modify]. rewrite Hwin. cbn. reflexivity.
  - unfold nvmetcp_tx_resume, bind, gets. cbn [tx_in_flight modify]. rewrite Hfl. reflexivity.
  - split; [done|]. split; [done|].
    unfold nvmetcp_process, nvmetcp_step. wp_step. apply wp_gets. unfold phase_action.
    cbn [phase modify]. rewrite Hph. unfold nvmetcp_auth_step. wp_step. wp_step. wp_step.
    cbn [step auth modify]. wp_step. wp_step. cbn [tx_in_flight modify]. rewrite Hfl.
    rewrite bool_decide_true by done.
    unfold nvmetcp_auth_tx_receive_step, nvmetcp_auth_tx_receive, nvmetcp_auth_tx_command, next_cid, upd_auth.
    wp_run. apply wp_tx_command; [intros e t [-> | ->]; wp_run; by left|]. intros t. wp_run. by right.
Qed.

(** Uninitialised key bytes: when the secret's digest is shorter than the
    digest the controller challenges with, the Reply that is sent is computed under
    the transformed key followed by bytes of an uninitialised local array. *)
Theorem reply_uses_uninitialised_bytes u s d x hid sec sd host subsys :
  let tk := transformed_key sd sec host in
  let junk := stack_bytes E (tick s) NVME_AUTH_MAX_DIGEST_SIZE in
  reachable E u s -> hl (auth s) = digestsize d ->
  host_nqn s = Some host -> subsystem_nqn s = Some subsys ->
  nvmetcp_auth_parse_secret E s = Ret (inr (hid, sec)) s -> nvmetcp_auth_hash hid = Some sd ->
  (digestsize sd < digestsize d)%nat ->
  wp False (nvmetcp_auth_tx_reply E d x) (sends s
    (reply_header (auth s) (bool_decide (is_Some x)) ++
     response_value d (tk ++ sub (digestsize sd) (digestsize d - digestsize sd) junk)
       (take (hl (auth s)) (reply_challenge (auth s) d x))
       (seqnum (auth s)) (transaction (auth s)) host subsys ++
     match x with
     | Some _ => take (hl (auth s)) (cval (auth s)) ++ take (dhvlen (auth s)) (pub_key (auth s))
     | None => []
     end)) s.
Proof.
  intros tk junk Hr Hhl Hh Hc Hps Hsd Hlt. pose proof (reachable_inv E u s Hr) as HI.
  pose proof (auth_tx_reply_eq E d x s hid sec sd host subsys HI Hhl Hh Hc Hps Hsd) as Hw.
  unfold reply_message in Hw. fold tk in Hw.
  replace (reply_key E s d tk) with (tk ++ sub (digestsize sd) (digestsize d - digestsize sd) junk) in Hw;
    [exact Hw|].
  assert (length tk = digestsize sd) as Htk by apply hmac_final_length.
  assert (length junk = NVME_AUTH_MAX_DIGEST_SIZE) as Hj by apply stack_length.
  pose proof (digestsize_max d). unfold reply_key. fold junk.
  rewrite <-Htk, <-(sub_splice_prefix tk junk) by lia. unfold sub. by rewrite drop_0.
Qed.

(** Truncated host NQN: without a configured host NQN the name is built in a
    buffer of 53 bytes, so that of the 36 characters of the machine's UUID only the
    first 31 become part of the name that identifies the host. *)
Theorem host_nqn_truncated s uuid :
  hostnqn_setting E = None -> uuid_setting E = Some uuid ->
  length (uuid_ntoa E uuid) = 36%nat -> alloc_ok E (tick s) = true ->
  exists s', nvmetcp_set_host_nqn E s = Ret OK s' /\
    host_nqn s' = Some (NVMETCP_DEFAULT_HOST_NQN ++ take 31 (uuid_ntoa E uuid)) /\
    host_nqn s' <> Some (NVMETCP_DEFAULT_HOST_NQN ++ uuid_ntoa E uuid).
Proof.
  intros Hn Hu Hl Hal. unfold nvmetcp_set_host_nqn, bind, consult, update. rewrite Hn, Hal, Hu.
  eexists. split; [reflexivity|]. cbn [host_nqn modify]. split; [reflexivity|]. intros [= Heq].
  apply (f_equal length) in Heq. cbn in Heq. rewrite length_take in Heq. lia.
Qed.
End Findings.

(** ** Instances *)
#[local] Existing Instances Toy.digest Toy.digest_laws Toy.exchange Toy.exchange_laws ToyEnv.laws.

(** A command header of 255 bytes on a session that has just been opened. *)
Lemma command_header_overflow_witness :
  nvmetcp_socket_deliver Demo.E Admin ([4; 0; 255; 0; 0; 0; 0; 0] ++ zeros 200) Demo.opened = Fault.
Proof.
  apply (command_header_overflow Demo.E Demo.target).
  - exact Demo.opened_reachable.
  - vm_compute. auto.
  - reflexivity.
  - vm_compute. reflexivity.
  - vm_compute. reflexivity.
  - vm_compute. lia.
Defined.

(** An R2T for 512 bytes at offset 2^32 - 256. *)
Definition demo_wrapping_r2t : list Z :=
  set_field nvmetcp_r2t_pdu "r2t_length" 512
    (set_field nvmetcp_r2t_pdu "r2t_offset" (2 ^ 32 - 256) demo_r2t).

Lemma r2t_wrap_reads_out_of_bounds_witness :
  nvmetcp_socket_deliver Demo.E Io demo_wrapping_r2t demo_writing = Fault.
Proof.
  apply (r2t_wrap_reads_out_of_bounds Demo.E Demo.target).
  - exact demo_writing_reachable.
  - vm_compute. auto.
  - constructor; [apply bytes_okb_ok; vm_compute; reflexivity|vm_compute; reflexivity|..].
    + intros _. reflexivity.
    + intros Ht. vm_compute in Ht. discriminate.
  - vm_compute. reflexivity.
  - vm_compute. discriminate.
  - vm_compute. discriminate.
  - vm_compute. discriminate.
  - reflexivity.
Defined.

(** The write is completed; then the R2T arrives. *)
Definition demo_written : session :=
  Demo.after Demo.target (Demo.setup ++ [LWrite 7 10 1 demo_block; LDeliver Io (Demo.response 0 0)]).

Lemma demo_written_reachable : reachable Demo.E Demo.target demo_written.
Proof.
  apply (session_after_reachable Demo.E Demo.target
    (Demo.setup ++ [LWrite 7 10 1 demo_block; LDeliver Io (Demo.response 0 0)])).
  by vm_compute.
Qed.

Lemma late_r2t_reads_returned_buffer_witness :
  nvmetcp_socket_deliver Demo.E Io demo_r2t demo_written = Fault.
Proof.
  apply (late_r2t_reads_returned_buffer Demo.E Demo.target).
  - exact demo_written_reachable.
  - vm_compute. auto.
  - apply demo_r2t_safe.
  - vm_compute. reflexivity.
  - vm_compute. reflexivity.
  - vm_compute. discriminate.
  - vm_compute. discriminate.
  - vm_compute. discriminate.
  - reflexivity.
Defined.

(** A read of 512 bytes in progress, answered with 16. *)
Definition demo_reading : session :=
  Demo.after Demo.target (Demo.setup ++ [LRead 7 10 1 (zeros 512)]).

Lemma demo_reading_reachable : reachable Demo.E Demo.target demo_reading.
Proof.
  apply (session_after_reachable Demo.E Demo.target (Demo.setup ++ [LRead 7 10 1 (zeros 512)])).
  by vm_compute.
Qed.

Lemma short_read_completes_witness :
  exists s', nvmetcp_socket_deliver Demo.E Io (Demo.c2h_header 0 16 ++ replicate 16 165) demo_reading
             = Ret OK s' /\ block_data s' = None.
Proof.
  destruct (short_read_completes Demo.E Demo.target demo_reading (Demo.c2h_header 0 16)
    (replicate 16 165)) as (s' & Hd & _ & Hb & _).
  - exact demo_reading_reachable.
  - vm_compute. auto.
  - vm_compute. reflexivity.
  - vm_compute. eexists. reflexivity.
  - vm_compute. reflexivity.
  - vm_compute. reflexivity.
  - constructor; [apply bytes_okb_ok; vm_compute; reflexivity|vm_compute; reflexivity|..].
    + intros Ht. vm_compute in Ht. contradiction.
    + intros _. split; [vm_compute; reflexivity|vm_compute; lia].
  - vm_compute. reflexivity.
  - vm_compute. reflexivity.
  - vm_compute. lia.
  - exists s'. split; [exact Hd|exact Hb].
Defined.

(** A socket without window at one point of the run. *)
Definition demo_closed_window (at_ : nat) : env :=
  let E := Demo.E in
  {| xfer_window n q := if Nat.eqb n at_ then 0 else xfer_window E n q;
     alloc_ok := alloc_ok E; deliver_resumes := deliver_resumes E; open_rc := open_rc E;
     add_tls_rc := add_tls_rc E; get_random_nz := get_random_nz E; stack_bytes := stack_bytes E;
     uuid_setting := uuid_setting E; uuid_ntoa := uuid_ntoa E; hostnqn_setting := hostnqn_setting E;
     uri_port := uri_port E; base64_decode := base64_decode E; crc32_le := crc32_le E |}.

(** A session that has been told to authenticate. *)
Definition demo_authenticating : session := Demo.after Demo.target_auth (take 4 Demo.auth_setup).

Lemma negotiate_lost_witness :
  let E := demo_closed_window (S (tick demo_authenticating)) in
  exists s1 s2, nvmetcp_process E demo_authenticating = Ret tt s1 /\
    nvmetcp_tx_resume s1 = Ret tt s2 /\ events s2 = events demo_authenticating.
Proof.
  intros E. destruct (negotiate_lost E demo_authenticating [1; 1]) as (s1 & s2 & H1 & H2 & H3 & _).
  - vm_compute. reflexivity.
  - vm_compute. reflexivity.
  - vm_compute. reflexivity.
  - vm_compute. reflexivity.
  - reflexivity.
  - vm_compute. reflexivity.
  - exists s1, s2. split; [exact H1|]. split; [exact H2|exact H3].
Defined.

(** A session with a SHA-256 secret, challenged with SHA-512. *)
Definition demo_challenge : list label :=
  Demo.auth_setup ++
    [LDeliver Admin (Demo.c2hdata 0
       (set_field nvmf_auth_dhchap_challenge_data "hashid" NVME_AUTH_HASH_SHA512
         (set_field nvmf_auth_dhchap_challenge_data "hl" 64 (take 16 Demo.challenge)) ++ replicate 64 90))].
Definition demo_challenged : session := Demo.after Demo.target_auth demo_challenge.

Lemma demo_challenged_reachable : reachable Demo.E Demo.target_auth demo_challenged.
Proof.
  apply (session_after_reachable Demo.E Demo.target_auth demo_challenge). by vm_compute.
Qed.

Lemma reply_uses_uninitialised_bytes_witness :
  exists msg, wp False (nvmetcp_auth_tx_reply Demo.E sha512_algorithm None)
                (sends demo_challenged msg) demo_challenged.
Proof.
  eexists. apply (reply_uses_uninitialised_bytes Demo.E Demo.target_auth demo_challenged sha512_algorithm None
    1 (zeros 32) sha256_algorithm (default [] (host_nqn demo_challenged))
    (default [] (subsystem_nqn demo_challenged))).
  - exact demo_challenged_reachable.
  - vm_compute. reflexivity.
  - vm_compute. reflexivity.
  - vm_compute. reflexivity.
  - vm_compute. reflexivity.
  - reflexivity.
  - vm_compute. lia.
Defined.

Lemma host_nqn_truncated_witness :
  exists s', nvmetcp_set_host_nqn Demo.E zero_session = Ret OK s' /\
    host_nqn s' = Some (bstr "nqn.2014-08.org.ipxe:00010203-0405-0607-0809-0a0b0c0").
Proof.
  destruct (host_nqn_truncated Demo.E zero_session (seqZ 0 16)) as (s' & Hs & Hn & _).
  - reflexivity.
  - reflexivity.
  - reflexivity.
  - reflexivity.
  - exists s'. split; [exact Hs|]. rewrite Hn. vm_compute. reflexivity.
Defined.

(** The number of Identify commands among what was sent. *)
Definition identifies (s : session) : nat :=
  length (filter (fun e => match e with
                           | Sent Admin d => bool_decide (byte_at d 8 = NVME_OPCODE_IDENTIFY)
                           | _ => false
                           end = true) (events s)).

(** A command sent twice: the data of the Identify Controller command arrives
    before its completion; a window report between the two puts the process back on
    the run queue and the same Identify command is sent a second time, while the
    first one is still outstanding. *)
Theorem identify_sent_twice :
  let data_only := [LDeliver Admin (Demo.c2hdata 0 (zeros 4096)); LWindow Admin; LProcess] in
  let s := Demo.after Demo.target (take 7 Demo.setup ++ data_only) in
  phase s = NVMETCP_PHASE_IDENTIFY_CTRL /\ identifies s = 2%nat /\
  identifies (Demo.after Demo.target (take 7 Demo.setup)) = 1%nat.
Proof. vm_compute. auto. Qed.
