(* ===== verification/Nvo.v ===== *)
(** * Non-volatile stored options (core/nvo.c)

    The options block: one checksum byte followed by DHCP-encoded options, kept in
    memory and mirrored to a storage device.  The device is an interface
    ([NvsDevice], with its contract [NvsContract]), which efi_nvs.c implements; the
    DHCP option library and the generic NVS routines of the iPXE core are parameters
    with laws. *)

From stdpp Require Import base list strings.
From Stdlib Require Import ZArith Lia.
From S2P Require Import Prelude.

(** ** The storage device (struct nvs_device, and the resize method)

    [dev_read n] and [dev_write data] are the device's methods at address 0. *)
Class NvsDevice (D : Type) := {
  dev_read : nat -> D -> errno + list Z;
  dev_write : list Z -> D -> status * D;
  dev_resize : option (nat -> status);
}.
Arguments dev_resize D {_}.

(** What a device promises: reading gives all of what is stored, a successful write
    stores the data, a zero-length write erases, and a failed one changes nothing. *)
Class NvsContract (D : Type) `{NvsDevice D} := {
  stored : D -> option (list Z);
  dev_read_ok n d x : n <> 0%nat -> dev_read n d = inr x -> stored d = Some x /\ length x = n;
  dev_write_ok x d d' : dev_write x d = (OK, d') ->
    stored d' = if bool_decide (x = []) then None else Some x;
  dev_write_err x d d' e : dev_write x d = (Err e, d') -> stored d' = stored d;
}.

(** ** The generic NVS routines (nvs_read, nvs_write)

    A non-empty transfer on a device without block boundaries is one transfer of the
    device; a write may be verified afterwards. *)
Class NvsLib := {
  nvs_read : forall D `{NvsDevice D}, nat -> D -> errno + list Z;
  nvs_write : forall D `{NvsDevice D}, list Z -> D -> status * D;
}.

Class NvsLibLaws `{NvsLib} : Prop := {
  nvs_read_eq D `{NvsDevice D} n d : n <> 0%nat -> nvs_read D n d = dev_read n d;
  nvs_write_eq D `{NvsDevice D} x d : x <> [] ->
    (nvs_write D x d).2 = (dev_write x d).2 /\
    ((nvs_write D x d).1 = OK -> (dev_write x d).1 = OK);
}.

(** ** The DHCP option library (dhcpopt_store, dhcpopt_fetch, ...)

    [dhcp_options] is the block a library call works on; [dhcpopt_store] works on the
    block inside a larger object, and may call the owner's [realloc] method. *)
Record dhcp_options : Type := Opts {
  opt_data : list Z;
  opt_used : nat;
}.

Class DhcpOptOps := {
  dhcpopt_applies : Z -> bool;
  dhcpopt_used : list Z -> nat;
  dhcpopt_no_realloc : nat -> nat -> status;
  dhcpopt_fetch : dhcp_options -> Z -> errno + list Z;
  dhcpopt_store : forall S, (S -> dhcp_options) -> (dhcp_options -> S -> S) ->
    (nat -> M S status) -> Z -> list Z -> M S status;
}.

(** The block of an owner: what it gets back after a write, and after a call of its
    [realloc] method. *)
Record owner {S : Type} (get_opts : S -> dhcp_options) (put : dhcp_options -> S -> S)
  (realloc : nat -> M S status) : Prop := {
  own_put o s : length (opt_data o) = length (opt_data (get_opts s)) -> get_opts (put o s) = o;
  own_realloc n s : wp False (realloc n) (fun rc s' => match rc with
    | OK => length (opt_data (get_opts s')) = n
    | Err _ => get_opts s' = get_opts s
    end) s;
}.

(** The tag of an option: its number in the low byte, and the number of the option that
    encapsulates it, or zero, in the high byte.  Padding (0) and the end marker (255) are
    not options. *)
Definition encapsulator (t : Z) : Z := Z.shiftr t 8.
Definition option_tag (t : Z) : Prop := 0 <= encapsulator t <= 254 /\ 1 <= t mod 256 <= 254.
#[global] Instance option_tag_dec t : Decision (option_tag t).
Proof. unfold option_tag. apply _. Defined.

(** Neither option is part of the other: the value of an encapsulating option is the
    sequence of the options in it. *)
Definition independent (t t' : Z) : Prop := t <> t' /\ encapsulator t <> t' /\ encapsulator t' <> t.
#[global] Instance independent_dec t t' : Decision (independent t t').
Proof. unfold independent. apply _. Defined.

(** The documented behaviour.  A block is in order ([dhcpopt_wf]) when every option occurs
    once, also in the encapsulating ones, and without padding; an empty block is.  A store
    touches its owner only through [realloc] and writes inside the block; after a
    successful one the option has the new value (or none, for an empty value), the options
    that are independent of it have the values they had, the block is exactly as long as
    the options, and its first byte is not a padding option; a failed one leaves the block
    in order and the independent options alone. *)
Class DhcpOptLaws `{DhcpOptOps} : Type := {
  dhcpopt_wf : dhcp_options -> Prop;
  dhcpopt_wf_used o : dhcpopt_wf o -> opt_used o = dhcpopt_used (opt_data o);
  dhcpopt_wf_zeros n : dhcpopt_wf (Opts (zeros n) 0);
  dhcpopt_store_frame S gt put realloc tag data (I : S -> Prop) s :
    (forall n s, I s -> wp False (realloc n) (fun _ => I) s) ->
    (forall o s, I s -> length (opt_data o) = length (opt_data (gt s)) -> bytes_ok (opt_data o) -> I (put o s)) ->
    bytes_ok data -> I s -> wp False (dhcpopt_store S gt put realloc tag data) (fun _ => I) s;
  dhcpopt_store_ok S gt put realloc tag data s s' :
    owner gt put realloc -> option_tag tag -> bytes_ok data -> dhcpopt_wf (gt s) ->
    dhcpopt_store S gt put realloc tag data s = Ret OK s' ->
    let o := gt s' in
    dhcpopt_wf o /\
    (opt_data o <> [] -> byte_at (opt_data o) 0 <> 0) /\
    (data <> [] -> opt_data o <> [] /\ dhcpopt_fetch o tag = inr data) /\
    (data = [] -> dhcpopt_fetch o tag = inl ENOENT) /\
    (forall t, independent tag t -> option_tag t -> dhcpopt_fetch o t = dhcpopt_fetch (gt s) t);
  dhcpopt_store_err S gt put realloc tag data s s' e :
    owner gt put realloc -> option_tag tag -> bytes_ok data -> dhcpopt_wf (gt s) ->
    dhcpopt_store S gt put realloc tag data s = Ret (Err e) s' ->
    dhcpopt_wf (gt s') /\
    (forall t, independent tag t -> option_tag t -> dhcpopt_fetch (gt s') t = dhcpopt_fetch (gt s) t);
  dhcpopt_applies_tag t : option_tag t -> dhcpopt_applies t = true;
  dhcpopt_fetch_none o t : opt_used o = 0%nat -> dhcpopt_fetch o t = inl ENOENT;
  dhcpopt_used_zeros n : dhcpopt_used (zeros n) = 0%nat;
}.

(** ** The options block (struct nvo_block)

    [nvo_data] is the allocated block of [nvo_len] bytes; the member [dhcpopts.data]
    points one byte into it, so the options are [drop 1 nvo_data]. *)
Record nvo_block : Type := Nvo {
  nvo_data : list Z;
  nvo_len : nat;
  opts_null : bool;
  opts_used : nat;
  opts_alloc : nat;
  nvo_registered : bool;
}.

#[export] Instance eta_nvo_block : Eta nvo_block :=
  fun n => Nvo (nvo_data n) (nvo_len n) (opts_null n) (opts_used n) (opts_alloc n) (nvo_registered n).

(** The block, the device behind it and the number of times the environment (the
    allocator, the settings registry) was consulted. *)
Record nvo_state (D : Type) : Type := NvoState {
  nvo : nvo_block;
  dev : D;
  nvo_tick : nat;
}.
Arguments NvoState {D} nvo dev nvo_tick.
Arguments nvo {D} n.
Arguments dev {D} n.
Arguments nvo_tick {D} n.

#[export] Instance eta_nvo_state D : Eta (nvo_state D) :=
  fun s => NvoState (nvo s) (dev s) (nvo_tick s).

(** The environment of the block: whether an allocation succeeds, what fresh memory
    contains, and whether the registration of the settings block succeeds. *)
Record nvo_env : Type := NvoEnv {
  realloc_ok : nat -> bool;
  fresh_bytes : nat -> nat -> list Z;
  register_rc : nat -> status;
}.

Class NvoEnvLaws (E : nvo_env) : Prop := {
  fresh_length n k : length (fresh_bytes E n k) = k;
  fresh_ok n k : bytes_ok (fresh_bytes E n k);
}.

Section Nvo.
Context {D : Type} `{NvsDevice D} `{NvsLib} `{DhcpOptOps} (E : nvo_env).
Abbreviation state := (nvo_state D).

Definition upd_nvo (f : nvo_block -> nvo_block) : M state unit :=
  update (fun s => s <| nvo ::= f |>).

Definition nvo_consult {A} (f : nat -> A) : M state A :=
  fun s => Ret (f (nvo_tick s)) (s <| nvo_tick ::= S |>).

(** [nvo_checksum]: the sum of all bytes, in 8 bits. *)
Fixpoint checksum_from (sum : Z) (data : list Z) : Z :=
  match data with
  | [] => sum
  | b :: data => checksum_from (u8 (sum + b)) data
  end.
Definition nvo_checksum (n : nvo_block) : Z := checksum_from 0 (take (nvo_len n) (nvo_data n)).

(** [nvo_realloc]: [realloc] keeps the common prefix; for a zero length it frees the
    block and cannot fail. *)
Definition nvo_realloc (len : nat) : M state status :=
  let* ok := nvo_consult (realloc_ok E) in
  if negb ok && negb (bool_decide (len = 0%nat)) then ret (Err ENOMEM) else
  let* junk := nvo_consult (fun n => fresh_bytes E n len) in
  do* upd_nvo (fun n => n <| nvo_data := take len (nvo_data n ++ drop (length (nvo_data n)) junk) |>
                          <| nvo_len := len |>) in
  do* (if negb (bool_decide (len = 0%nat)) then
         upd_nvo (fun n => n <| opts_null := false |> <| opts_alloc := (len - 1)%nat |>)
       else
         upd_nvo (fun n => n <| opts_null := true |> <| opts_used := 0%nat |> <| opts_alloc := 0%nat |>)) in
  ret OK.

(** [nvo_realloc_dhcpopt] *)
Definition nvo_realloc_dhcpopt (len : nat) : M state status :=
  match dev_resize D with
  | None =>
      let* n := gets nvo in
      ret (dhcpopt_no_realloc (opts_alloc n) len)
  | Some resize =>
      let len := if bool_decide (len = 0%nat) then 0%nat else S len in
      match resize len with
      | Err e => ret (Err e)
      | OK => nvo_realloc len
      end
  end.

(** The options inside the block, as the DHCP library sees them. *)
Definition get_opts (s : state) : dhcp_options := Opts (drop 1 (nvo_data (nvo s))) (opts_used (nvo s)).
Definition put_opts (o : dhcp_options) (s : state) : state :=
  s <| nvo ::= (fun n => n <| nvo_data := take 1 (nvo_data n) ++ opt_data o |>
                           <| opts_used := opt_used o |>) |>.

(** [nvo_load].  What a failed read leaves in the buffer is not modelled: the only
    caller frees it. *)
Definition nvo_load : M state status :=
  let* n := gets nvo in
  if bool_decide (nvo_len n = 0%nat) then ret OK else
  let* d := gets dev in
  match nvs_read D (nvo_len n) d with
  | inl e => ret (Err e)
  | inr x =>
      do* upd_nvo (fun n => n <| nvo_data := x |>) in
      let* n := gets nvo in
      let* first := (if negb (nvo_checksum n =? 0) then ret 0 else
                     of_option (nvo_data n !! 1%nat)) in
      do* (if negb (nvo_checksum n =? 0) || (first =? 0)
           then upd_nvo (fun n => n <| nvo_data := zeros (nvo_len n) |>) else ret tt) in
      do* upd_nvo (fun n => n <| opts_used := dhcpopt_used (drop 1 (nvo_data n)) |>) in
      ret OK
  end.

(** [*checksum -= nvo_checksum ( nvo )] *)
Definition fix_checksum (n : nvo_block) : nvo_block :=
  match nvo_data n with
  | [] => n
  | c :: opts => n <| nvo_data := u8 (c - nvo_checksum n) :: opts |>
  end.

(** [nvo_save] *)
Definition nvo_save : M state status :=
  let* n := gets nvo in
  do* (if bool_decide (0 < nvo_len n)%nat then upd_nvo fix_checksum else ret tt) in
  let* n := gets nvo in
  let* d := gets dev in
  let '(rc, d) := if bool_decide (nvo_len n = 0%nat) then dev_write [] d
                  else nvs_write D (take (nvo_len n) (nvo_data n)) d in
  do* update (fun s => s <| dev := d |>) in
  ret rc.

(** [nvo_applies]: the setting has no scope and its tag is a DHCP option. *)
Definition nvo_applies (scope : option nat) (tag : Z) : bool :=
  match scope with None => dhcpopt_applies tag | Some _ => false end.

(** [nvo_store]: an empty value clears the setting. *)
Definition nvo_store (tag : Z) (data : list Z) : M state status :=
  try* dhcpopt_store state get_opts put_opts nvo_realloc_dhcpopt tag data in
  nvo_save.

(** [nvo_fetch] *)
Definition nvo_fetch (tag : Z) (s : state) : errno + list Z := dhcpopt_fetch (get_opts s) tag.

(** [nvo_init]: the object after initialisation. *)
Definition nvo_init (len : nat) (s : state) : state :=
  s <| nvo := Nvo [] len true (dhcpopt_used []) 0 false |>.

(** [register_nvo] *)
Definition register_nvo : M state status :=
  let* n := gets nvo in
  try* nvo_realloc (nvo_len n) in
  let* rc := (try* nvo_load in nvo_consult (register_rc E)) in
  match rc with
  | OK => do* upd_nvo (fun n => n <| nvo_registered := true |>) in ret OK
  | Err e => do* nvo_realloc 0 in ret (Err e)
  end.

(** [unregister_nvo] *)
Definition unregister_nvo : M state unit :=
  do* upd_nvo (fun n => n <| nvo_registered := false |>) in
  do* nvo_realloc 0 in
  ret tt.
End Nvo.

(** ** Checksums *)
Definition sum (l : list Z) : Z := foldr Z.add 0 l.

Lemma checksum_from_sum c l : checksum_from (u8 c) l = u8 (c + sum l).
Proof.
  revert c. induction l as [|b l IH]; intros c; cbn [checksum_from sum foldr]; [by rewrite Z.add_0_r|].
  replace (u8 (u8 c + b)) with (u8 (c + b)) by (symmetry; apply Zplus_mod_idemp_l).
  rewrite IH. by rewrite Z.add_assoc.
Qed.

Lemma nvo_checksum_sum n : length (nvo_data n) = nvo_len n -> nvo_checksum n = u8 (sum (nvo_data n)).
Proof.
  intros Hl. unfold nvo_checksum. rewrite take_ge by lia. exact (checksum_from_sum 0 (nvo_data n)).
Qed.

(** The block is what its members say it is. *)
Record nvo_wf (n : nvo_block) : Prop := {
  nw_len : length (nvo_data n) = nvo_len n;
  nw_bytes : bytes_ok (nvo_data n);
  nw_null : opts_null n = bool_decide (nvo_len n = 0%nat);
  nw_alloc : opts_alloc n = (nvo_len n - 1)%nat;
}.

Lemma fix_checksum_eq n :
  length (nvo_data n) = nvo_len n ->
  let n' := fix_checksum n in
  drop 1 (nvo_data n') = drop 1 (nvo_data n) /\
  length (nvo_data n') = length (nvo_data n) /\ u8 (sum (nvo_data n')) = 0 /\
  (bytes_ok (nvo_data n) -> bytes_ok (nvo_data n')) /\
  n' = n <| nvo_data := nvo_data n' |>.
Proof.
  intros Hl. destruct n as [[|c opts] len nl us al rg]; cbn [fix_checksum nvo_data nvo_len modify] in *; [done|].
  rewrite nvo_checksum_sum by done. cbn [nvo_data drop length sum foldr]. split_and!; [done..| | |done].
  - fold (sum opts). unfold u8. rewrite Zminus_mod_idemp_r, Zplus_mod_idemp_l.
    replace (c - (c + sum opts) + sum opts) with 0 by lia. done.
  - intros [_ Hb]%Forall_cons. constructor; [apply u8_byte|done].
Qed.

Section NvoProofs.
Context {D : Type} `{NvsContract D} `{NvsLibLaws} `{DhcpOptLaws} (E : nvo_env) `{NvoEnvLaws E}.
Abbreviation state := (nvo_state D).
Implicit Types (s : state).

(** ** Memory management *)

(** The block after a reallocation to [len] bytes. *)
Definition resized (len : nat) (junk : list Z) (n : nvo_block) : nvo_block :=
  Nvo (take len (nvo_data n ++ drop (length (nvo_data n)) junk)) len (bool_decide (len = 0%nat))
    (if bool_decide (len = 0%nat) then 0%nat else opts_used n) (len - 1) (nvo_registered n).

Lemma wp_nvo_realloc len Q s :
  (forall t, len <> 0%nat -> realloc_ok E (nvo_tick s) = false -> Q (Err ENOMEM) (s <| nvo_tick := t |>)) ->
  (forall t junk, length junk = len -> bytes_ok junk ->
     Q OK (s <| nvo := resized len junk (nvo s) |> <| nvo_tick := t |>)) ->
  wp False (nvo_realloc E len) Q s.
Proof.
  intros He Hok. unfold nvo_realloc, upd_nvo. wp_step. unfold wp at 1, nvo_consult at 1.
  destruct (negb (realloc_ok E (nvo_tick s)) && negb (bool_decide (len = 0%nat))) eqn:Hr.
  { apply andb_true_iff in Hr as [Hr Hz]. apply negb_true_iff in Hr, Hz.
    apply bool_decide_eq_false in Hz. apply wp_ret. exact (He _ Hz Hr). }
  wp_step. unfold wp at 1, nvo_consult at 1.
  specialize (Hok (S (S (nvo_tick s))) _ (fresh_length (S (nvo_tick s)) len) (fresh_ok (S (nvo_tick s)) len)).
  destruct s as [[] dv tk]. unfold resized in Hok. do 3 wp_step.
  destruct (decide (len = 0%nat)) as [->|Hz].
  - exact Hok.
  - rewrite bool_decide_false in * by done. exact Hok.
Qed.

Lemma resized_wf len junk n :
  nvo_wf n -> length junk = len -> bytes_ok junk -> nvo_wf (resized len junk n).
Proof.
  intros [Hl Hb _ _] Hj Hk. unfold resized. constructor; cbn; [| |done..].
  - rewrite length_take, length_app, length_drop. lia.
  - apply Forall_take, Forall_app. split; [done|by apply Forall_drop].
Qed.

Lemma nvo_realloc_wf len s :
  nvo_wf (nvo s) -> wp False (nvo_realloc E len) (fun _ s' => nvo_wf (nvo s')) s.
Proof. intros Hw. apply wp_nvo_realloc; [done|]. intros t junk Hj Hb. by apply resized_wf. Qed.

Lemma nvo_realloc_dhcpopt_wf len s :
  nvo_wf (nvo s) -> wp False (nvo_realloc_dhcpopt E len) (fun _ s' => nvo_wf (nvo s')) s.
Proof.
  intros Hw. unfold nvo_realloc_dhcpopt. destruct (dev_resize D) as [resize|]; [|by wp_go].
  destruct (resize _); [by apply nvo_realloc_wf|by apply wp_ret].
Qed.

(** A block never shrinks to the checksum byte alone. *)
Lemma realloc_dhcpopt_len len s :
  nvo_len (nvo s) <> 1%nat -> wp False (nvo_realloc_dhcpopt E len) (fun _ s' => nvo_len (nvo s') <> 1%nat) s.
Proof.
  intros Hl. unfold nvo_realloc_dhcpopt. destruct (dev_resize D) as [resize|]; [|by wp_go].
  destruct (resize _); [|by apply wp_ret]. apply wp_nvo_realloc; [done|]. intros t junk _ _. cbn.
  case_bool_decide; lia.
Qed.

Lemma put_opts_wf o s :
  nvo_wf (nvo s) -> length (opt_data o) = length (opt_data (get_opts s)) -> bytes_ok (opt_data o) ->
  nvo_wf (nvo (put_opts o s)).
Proof.
  intros [Hl Hb Hn Ha] Ho Hk. constructor; cbn in *; [|by apply Forall_app; split; [apply Forall_take|]|done..].
  rewrite length_app, length_take, Ho, length_drop. lia.
Qed.

(** The block is an owner in the sense of the DHCP library. *)
Lemma nvo_owner resize : dev_resize D = Some resize ->
  owner get_opts put_opts (nvo_realloc_dhcpopt E).
Proof.
  intros Hd. split.
  - intros [data used] s Hl. unfold get_opts, put_opts. cbn in *. f_equal.
    destruct (nvo_data (nvo s)) as [|c l]; [|done]. cbn in *. by destruct data.
  - intros len s. unfold nvo_realloc_dhcpopt. rewrite Hd.
    destruct (resize _); [|by apply wp_ret].
    apply wp_nvo_realloc; [done|]. intros t junk Hj _. cbn. rewrite length_drop, length_take, length_app, length_drop.
    case_bool_decide; lia.
Qed.

(** ** Saving *)

(** A save fixes the checksum byte, leaves the options alone, and hands the block to
    the device. *)
Lemma nvo_save_eq s :
  nvo_wf (nvo s) -> wp False nvo_save (fun rc s' =>
    let n := if bool_decide (nvo_len (nvo s) = 0%nat) then nvo s else fix_checksum (nvo s) in
    nvo s' = n /\ nvo_wf n /\ get_opts s' = get_opts s /\ u8 (sum (nvo_data n)) = 0 /\
    match rc with
    | OK => stored (dev s') = if bool_decide (nvo_data n = []) then None else Some (nvo_data n)
    | Err _ => True
    end) s.
Proof.
  intros Hw. pose proof Hw as [Hl Hb Hn Ha].
  destruct (fix_checksum_eq (nvo s) Hl) as (Hdr & Hlen & Hsum & Hby & Heq).
  unfold nvo_save, upd_nvo. do 3 wp_step. destruct (decide (nvo_len (nvo s) = 0%nat)) as [Hz|Hz].
  - rewrite bool_decide_false, bool_decide_true by lia. do 5 wp_step.
    rewrite (bool_decide_true (nvo_len _ = 0%nat)) by done.
    destruct (dev_write [] (dev s)) as [rc d] eqn:Hd. wp_go. rewrite Hz in Hl. apply nil_length_inv in Hl.
    rewrite Hl, bool_decide_true by done. split_and!; [done..|]. destruct rc; [|done]. exact (dev_write_ok _ _ _ Hd).
  - rewrite bool_decide_true, bool_decide_false by lia. do 5 wp_step.
    assert (nvo_len (fix_checksum (nvo s)) = nvo_len (nvo s)) as Hfl by by rewrite Heq.
    cbn [nvo modify dev]. rewrite Hfl, bool_decide_false, take_ge by lia.
    assert (nvo_data (fix_checksum (nvo s)) <> []) as Hne.
    { intros He. rewrite He in Hlen. cbn in Hlen. lia. }
    destruct (nvs_write_eq D _ (dev s) Hne) as [_ Hok]. pose proof (nvs_write_eq D _ (dev s) Hne) as [Hst _].
    destruct (nvs_write D _ _) as [rc d]. destruct (dev_write _ (dev s)) as [rc' d'] eqn:Hd. cbn in Hok, Hst.
    subst d'. wp_go. cbn [nvo dev modify]. rewrite (bool_decide_false (_ = [])) by done.
    split_and!; [done| |..].
    + constructor; [by rewrite Hfl, Hlen|auto|by rewrite Heq|by rewrite Heq].
    + unfold get_opts. cbn [nvo modify]. f_equal; [done|]. by rewrite Heq.
    + done.
    + destruct rc; [|done]. rewrite (Hok eq_refl) in Hd. rewrite (dev_write_ok _ _ _ Hd).
      by rewrite bool_decide_false.
Qed.

Lemma nvo_store_wf tag data s :
  nvo_wf (nvo s) -> bytes_ok data -> wp False (nvo_store E tag data) (fun _ s' => nvo_wf (nvo s')) s.
Proof.
  intros Hw Hd. unfold nvo_store. wp_step. eapply wp_mono.
  - apply (dhcpopt_store_frame _ _ _ _ tag data (fun s => nvo_wf (nvo s))); auto using put_opts_wf, nvo_realloc_dhcpopt_wf.
  - intros [|e] s1 Hw1; [|done]. eapply wp_mono; [by apply nvo_save_eq|].
    intros rc s2 (Hn & Hwf & _). by rewrite Hn.
Qed.

(** ** Loading *)

(** A block that [nvo_load] accepts. *)
Definition block_ok (x : list Z) : Prop := u8 (sum x) = 0 /\ byte_at x 1 <> 0.
#[global] Instance block_ok_dec x : Decision (block_ok x).
Proof. unfold block_ok. apply _. Defined.

(** What registration makes of the stored bytes. *)
Definition loaded (x : list Z) : nvo_block :=
  let data := if decide (block_ok x) then x else zeros (length x) in
  Nvo data (length x) (bool_decide (length x = 0%nat)) (dhcpopt_used (drop 1 data)) (length x - 1) true.

Lemma loaded_used x : opts_used (loaded x) = dhcpopt_used (drop 1 (nvo_data (loaded x))).
Proof. reflexivity. Qed.

Lemma nvo_load_eq x s :
  length x = nvo_len (nvo s) -> length x <> 1%nat ->
  (x <> [] -> dev_read (length x) (dev s) = inr x) -> 
  (x = [] -> nvo_data (nvo s) = [] /\ opts_used (nvo s) = dhcpopt_used []) ->
  wp False nvo_load (fun rc s' => rc = OK /\ dev s' = dev s /\
    nvo s' = (nvo s) <| nvo_data := nvo_data (loaded x) |> <| opts_used := opts_used (loaded x) |>) s.
Proof.
  intros Hl Hone Hrd Hnil. unfold nvo_load, upd_nvo. do 2 wp_step. destruct (decide (x = [])) as [->|Hx].
  - rewrite bool_decide_true by done. wp_step. split_and!; [done..|]. destruct Hnil as [Hn Hus]; [done|].
    destruct s as [[] ? ?]. cbn in Hn, Hus. subst. unfold loaded. cbn. by case_decide.
  - assert (nvo_len (nvo s) <> 0%nat) as Hz by (intros Hz; apply Hx, nil_length_inv; lia).
    rewrite bool_decide_false by done. do 2 wp_step. rewrite nvs_read_eq, <-Hl, Hrd by (done || lia).
    do 4 wp_step.
    set (s1 := s <| nvo ::= _ |>). assert (nvo_data (nvo s1) = x) as Hx1 by done.
    assert (nvo_checksum (nvo s1) = u8 (sum x)) as Hc by by rewrite nvo_checksum_sum.
    rewrite Hc, Hx1. wp_step. destruct (decide (u8 (sum x) = 0)) as [Hs|Hs].
    + rewrite Hs. cbn [negb Z.eqb]. destruct (x !! 1%nat) as [b|] eqn:Hb.
      2:{ apply lookup_ge_None_1 in Hb. destruct x; cbn in *; [done|lia]. }
      apply wp_ret. wp_step. cbn [orb negb].
      assert (byte_at x 1 = b) as Hbb by (unfold byte_at; by rewrite Hb).
      assert (nvo_data (loaded x) = if b =? 0 then zeros (length x) else x) as Hld.
      { unfold loaded, block_ok. cbn [nvo_data]. destruct (Z.eqb_spec b 0); case_decide; try done; naive_solver. }
      destruct (b =? 0) eqn:Hb0; wp_go; (split; [done|]; split; [done|]); rewrite loaded_used, Hld; subst s1; destruct s as [[] ? ?]; cbn in *; by subst.
    + assert ((u8 (sum x) =? 0) = false) as -> by lia. cbn [negb orb]. wp_go.
      assert (nvo_data (loaded x) = zeros (length x)) as Hld.
      { unfold loaded, block_ok. cbn [nvo_data]. by rewrite decide_False by naive_solver. }
      split; [done|]. split; [done|]. rewrite loaded_used, Hld.
      subst s1. destruct s as [[] ? ?]; cbn in *; by subst.
Qed.

(** An environment in which no allocation or registration fails. *)
Definition resourceful : Prop := forall n, realloc_ok E n = true /\ register_rc E n = OK.

(** Registration after initialisation with the length of what is stored. *)
Lemma register_nvo_eq x s :
  length x <> 1%nat -> (x <> [] -> dev_read (length x) (dev s) = inr x) ->
  wp False (register_nvo E) (fun rc s' => dev s' = dev s /\ (resourceful -> rc = OK) /\
    (rc = OK -> nvo s' = loaded x) /\ (rc <> OK -> nvo_registered (nvo s') = false))
    (nvo_init (length x) s).
Proof.
  intros Hone Hrd. unfold register_nvo, upd_nvo. do 3 wp_step.
  change (nvo_len (nvo (nvo_init (length x) s))) with (length x).
  apply wp_nvo_realloc.
  { intros t _ Hf. split_and!; [done| |done..]. intros Hr. by rewrite (proj1 (Hr _)) in Hf. }
  intros t junk Hj _. set (s1 := _ <| nvo_tick := t |>). wp_step. wp_step.
  assert (wp False (nvo_load) (fun rc s' => rc = OK /\ dev s' = dev s1 /\
    nvo s' = (nvo s1) <| nvo_data := nvo_data (loaded x) |> <| opts_used := opts_used (loaded x) |>) s1) as Hw.
  { apply nvo_load_eq; [done..|]. intros ->. cbn. split; [done|]. symmetry. exact (dhcpopt_used_zeros 0). }
  unfold wp in Hw |- *. destruct (nvo_load s1) as [rc s2| |]; try done. destruct Hw as (-> & Hd & Hn).
  unfold nvo_consult. destruct (register_rc E (nvo_tick s2)) eqn:Hrc.
  - cbn. split_and!; [done..| |done]. intros _. rewrite Hn. reflexivity.
  - fold (wp False (do* nvo_realloc E 0 in ret (Err e)) (fun (rc : status) (s' : state) => dev s' = dev s /\
      (resourceful -> rc = OK) /\ (rc = OK -> nvo s' = loaded x) /\ (rc <> OK -> nvo_registered (nvo s') = false))
      (s2 <| nvo_tick ::= S |>)).
    wp_step. apply wp_nvo_realloc; [done|]. intros t' junk' _ _. wp_step. split_and!; [done| |done|].
    + intros Hr. by rewrite (proj2 (Hr _)) in Hrc.
    + intros _. cbn. by rewrite Hn.
Qed.
End NvoProofs.
