(* ===== verification/NvoToy.v ===== *)
(** * A concrete option library

    An executable instance of the interfaces of Nvo.v: options as tag, length, value, with
    encapsulation, and storage routines that pass transfers to the device.  It satisfies the
    laws, so the theorems about stored settings can be applied to concrete blocks. *)

From stdpp Require Import base list.
From Stdlib Require Import ZArith Lia.
From S2P Require Import Prelude Nvo.

Module ToyOpt.
Definition entry : Type := Z * list Z.

(** An option is encoded as a marker, a two-byte tag, a length byte and the value. *)
Definition encode1 (e : entry) : list Z :=
  1 :: e.1 / 256 :: e.1 mod 256 :: Z.of_nat (length e.2) :: e.2.
Definition encode (l : list entry) : list Z := concat (map encode1 l).

Fixpoint decode (fuel : nat) (x : list Z) : list entry :=
  match fuel, x with
  | S fuel, 1 :: a :: b :: n :: rest =>
      let n := Z.to_nat (u8 n) in
      if bool_decide (n <= length rest)%nat
      then (u8 a * 256 + u8 b, map u8 (take n rest)) :: decode fuel (drop n rest)
      else []
  | _, _ => []
  end.

Record entry_ok (e : entry) : Prop := {
  eo_tag : 0 <= e.1 < 65536;
  eo_len : (length e.2 < 256)%nat;
  eo_bytes : bytes_ok e.2;
}.

Lemma map_u8_id l : bytes_ok l -> map u8 l = l.
Proof. induction 1 as [|b l Hb _ IH]; cbn; [done|]. by rewrite u8_id, IH. Qed.

Lemma map_u8_ok l : bytes_ok (map u8 l).
Proof. apply Forall_map, Forall_true. intros. apply u8_byte. Qed.

Lemma decode_ok fuel x : Forall entry_ok (decode fuel x).
Proof.
  revert x. induction fuel as [|fuel IH]; intros x; cbn; [by constructor|].
  destruct x as [|[|[]|] [|a [|b [|n rest]]]]; try by constructor.
  case_bool_decide; constructor; [|apply IH].
  pose proof (u8_byte a). pose proof (u8_byte b). pose proof (u8_byte n). unfold is_byte in *.
  constructor; cbn; [lia| |apply map_u8_ok]. rewrite length_map, length_take. lia.
Qed.

Lemma decode_encode fuel l : Forall entry_ok l -> (length l <= fuel)%nat -> decode fuel (encode l) = l.
Proof.
  intros Hl. revert fuel. induction Hl as [|[t d] l [Ht Hn Hb] _ IH]; intros [|fuel] Hf; cbn in *; [done|done|lia|].
  assert (u8 (Z.of_nat (length d)) = Z.of_nat (length d)) as -> by (apply u8_id; unfold is_byte; lia).
  rewrite Nat2Z.id, bool_decide_true by (rewrite length_app; lia).
  rewrite take_app_length, drop_app_length, map_u8_id by done. fold (encode l). rewrite IH by lia. do 2 f_equal.
  rewrite !u8_id by (unfold is_byte; split; [apply Z.div_pos||apply Z.mod_pos_bound|apply Z.div_lt_upper_bound||apply Z.mod_pos_bound]; lia).
  rewrite (Z_div_mod_eq_full t 256) at 3. lia.
Qed.

Lemma encode_length l : (length l <= length (encode l))%nat.
Proof. induction l as [|e l IH]; cbn; [done|]. fold (encode l). rewrite length_app. lia. Qed.

Lemma encode_ok l : Forall entry_ok l -> bytes_ok (encode l).
Proof.
  induction 1 as [|[t d] l [Ht Hn Hb] _ IH]; cbn; [by constructor|]. fold (encode l). cbn in *.
  repeat (apply Forall_cons; split); [unfold is_byte; lia|..|by apply Forall_app].
  - unfold is_byte. split; [apply Z.div_pos; lia|apply Z.div_lt_upper_bound; lia].
  - apply Z.mod_pos_bound. lia.
  - unfold is_byte. lia.
Qed.

Fixpoint find (t : Z) (l : list entry) : option (list Z) :=
  match l with
  | [] => None
  | e :: l => if bool_decide (e.1 = t) then Some e.2 else find t l
  end.

(** The options that are independent of [t]. *)
Definition without (t : Z) (l : list entry) : list entry := filter (fun e => independent t e.1) l.

(** The options inside option [t]. *)
Definition inside (t : Z) (l : list entry) : list entry := filter (fun e => encapsulator e.1 = t) l.

(** The value of an option: its own, or that of the options in it. *)
Definition value (t : Z) (l : list entry) : option (list Z) :=
  match find t l with
  | Some d => Some d
  | None =>
    match inside t l with
    | [] => None
    | inner => Some (encode inner)
    end
  end.

Lemma find_without_same t l : find t (without t l) = None.
Proof.
  induction l as [|e l IH]; [done|]. unfold without in *. rewrite filter_cons. case_decide as Hi; [|done].
  cbn. rewrite bool_decide_false; [done|]. destruct Hi as [Hne _]. congruence.
Qed.

Lemma inside_app t l l' : inside t (l ++ l') = inside t l ++ inside t l'.
Proof. apply filter_app. Qed.

Lemma inner_without t l : inside t (without t l) = [].
Proof.
  unfold inside, without. induction l as [|e l IH]; [done|]. rewrite filter_cons. case_decide as Hi; [|done].
  rewrite filter_cons, decide_False; [done|]. by destruct Hi as (_ & _ & Hne).
Qed.

Lemma find_without_other t t' l : independent t t' -> find t' (without t l) = find t' l.
Proof.
  intros Hi. induction l as [|e l IH]; [done|]. unfold without in *. rewrite filter_cons.
  case_decide as He; cbn; [by case_bool_decide|]. rewrite bool_decide_false; [done|]. intros E. by rewrite E in He.
Qed.

Lemma find_app t l l' : find t (l ++ l') = match find t l with Some d => Some d | None => find t l' end.
Proof. induction l as [|e l IH]; cbn; [done|]. by case_bool_decide. Qed.

Definition options (o : dhcp_options) : list entry :=
  let x := take (opt_used o) (opt_data o) in decode (length x) x.

Definition used (x : list Z) : nat := match x with 1 :: _ => length x | _ => 0%nat end.

Definition updated (o : dhcp_options) (tag : Z) (data : list Z) : list entry :=
  without tag (options o) ++ (if bool_decide (data = []) then [] else [(tag, data)]).

Definition store (S : Type) (gt : S -> dhcp_options) (put : dhcp_options -> S -> S)
  (realloc : nat -> M S status) (tag : Z) (data : list Z) : M S status :=
  let* o := gets gt in
  if bool_decide (256 <= length data)%nat || negb ((0 <=? tag) && (tag <? 65536)) then ret (Err ENOSPC) else
  let x := encode (updated o tag data) in
  try* realloc (length x) in
  let* o := gets gt in
  if negb (bool_decide (length (opt_data o) = length x)) then ret (Err EINVAL) else
  do* update (put (Opts x (used x))) in
  ret OK.

#[export] Instance dhcp : DhcpOptOps := {
  dhcpopt_applies t := (0 <=? t) && (t <? 65536);
  dhcpopt_used := used;
  dhcpopt_no_realloc alloc len := if bool_decide (len <= alloc)%nat then OK else Err ENOSPC;
  dhcpopt_fetch o t := match value t (options o) with Some d => inr d | None => inl ENOENT end;
  dhcpopt_store := store;
}.

Lemma updated_ok o tag data :
  0 <= tag < 65536 -> (length data < 256)%nat -> bytes_ok data -> Forall entry_ok (updated o tag data).
Proof.
  intros Ht Hl Hb. apply Forall_app. split.
  - unfold without. apply Forall_forall. intros e [_ He]%list_elem_of_filter.
    exact (proj1 (Forall_forall entry_ok (options o)) (decode_ok _ _) e He).
  - case_bool_decide; [constructor|]. apply Forall_singleton. by constructor.
Qed.

Lemma used_encode l : used (encode l) = length (encode l).
Proof. by destruct l. Qed.

Lemma options_encode l n : Forall entry_ok l -> n = used (encode l) -> options (Opts (encode l) n) = l.
Proof.
  intros Hl ->. unfold options. cbn [opt_used opt_data]. rewrite used_encode, take_ge by lia.
  apply decode_encode; [done|apply encode_length].
Qed.

Lemma inner_other t t' l : option_tag t -> option_tag t' -> independent t t' ->
  inside t' (without t l) = inside t' l.
Proof.
  intros [Ht _] Ht' (Hne & Hi & Hi'). unfold inside, without. induction l as [|e l IH]; [done|].
  rewrite !filter_cons. case_decide as He; [by rewrite filter_cons; case_decide; [f_equal|]|]. etransitivity; [exact IH|].
  rewrite decide_False; [done|]. intros Ee. apply He. split; [intros ->; done|].
  split; [|congruence]. intros Et. rewrite <-Et in Ee. destruct Ht' as [_ Ht'].
  assert (encapsulator (encapsulator t) = 0) as Hz.
  { unfold encapsulator in *. rewrite (Z.shiftr_div_pow2 (Z.shiftr t 8)) by lia. apply Z.div_small. lia. }
  rewrite Hz in Ee. rewrite <-Ee in Ht'. change (0 mod 256) with 0 in Ht'. lia.
Qed.

(** The value of an option after a store. *)
Lemma value_updated o tag data t : option_tag tag -> option_tag t ->
  (t = tag -> value t (updated o tag data) = if bool_decide (data = []) then None else Some data) /\
  (independent tag t -> value t (updated o tag data) = value t (options o)).
Proof.
  intros Htag Ht. unfold value, updated. split.
  - intros ->. rewrite find_app, find_without_same, inside_app, inner_without. case_bool_decide as Hd; [done|].
    cbn. by rewrite bool_decide_true.
  - intros Hi. rewrite find_app, find_without_other, inside_app, inner_other by done. destruct Hi as (Hne & Hi & _).
    destruct (find t (options o)); [done|]. case_bool_decide; [by rewrite app_nil_r|].
    cbn [find fst snd]. rewrite bool_decide_false by done. unfold inside at 2.
    rewrite filter_cons, decide_False by done. by rewrite app_nil_r.
Qed.

#[export] Instance dhcp_laws : DhcpOptLaws.
Proof.
  refine {| dhcpopt_wf o := opt_used o = dhcpopt_used (opt_data o) |}.
  - done.
  - intros n. by destruct n.
  - intros S gt put realloc tag data I s Hre Hput Hb HI. cbn. unfold store. do 2 wp_step.
    destruct (bool_decide _ || _) eqn:Hg; [by apply wp_ret|]. apply orb_false_iff in Hg as [Hl%bool_decide_eq_false Ht].
    wp_step. eapply wp_mono; [by apply Hre|]. intros [|e] s1 HI1; [|done]. do 2 wp_step.
    case_bool_decide as He; cbn [negb]; wp_go; [|done]. apply Hput; [done|done|]. cbn.
    apply encode_ok, updated_ok; [lia|lia|done].
  - intros S gt put realloc tag data s s' [Hput Hre] Htag Hb Hu Hs. cbn in Hs. unfold store, bind, gets in Hs.
    destruct (bool_decide _ || _) eqn:Hg; [done|]. apply orb_false_iff in Hg as [Hl%bool_decide_eq_false Ht].
    unfold try, bind in Hs. destruct (realloc _ s) as [[|e] s1| |] eqn:Hr; try done.
    case_bool_decide as He; [|done]. cbn in Hs. injection Hs as <-. cbv zeta. rewrite Hput by done.
    cbn [opt_data opt_used dhcpopt_fetch dhcpopt_used dhcp].
    assert (Forall entry_ok (updated (gt s) tag data)) as Hok by (apply updated_ok; [lia|lia|done]).
    rewrite options_encode by done. split_and!; [done|..].
    + intros Hne. by destruct (updated (gt s) tag data).
    + intros Hd. rewrite (proj1 (value_updated (gt s) tag data tag Htag Htag)), bool_decide_false by done.
      split; [|done]. unfold updated. rewrite bool_decide_false by done. by destruct (without tag (options (gt s))).
    + intros ->. by rewrite (proj1 (value_updated (gt s) tag [] tag Htag Htag)).
    + intros t Hi Ht'. by rewrite (proj2 (value_updated (gt s) tag data t Htag Ht')).
  - intros S gt put realloc tag data s s' e [Hput Hre] Htag Hb Hu Hs. cbn in Hs. unfold store, bind, gets in Hs.
    destruct (bool_decide _ || _) eqn:Hg; [by injection Hs as _ <-|].
    unfold try, bind in Hs. specialize (Hre (length (encode (updated (gt s) tag data))) s). unfold wp in Hre.
    destruct (realloc _ s) as [[|e'] s1| |] eqn:Hr; try done.
    + rewrite Hre, bool_decide_true in Hs by done. done.
    + injection Hs as _ <-. by rewrite Hre.
  - intros t [He Hl]. cbn. unfold encapsulator in He. rewrite Z.shiftr_div_pow2 in He by lia.
    change (2 ^ 8) with 256 in He. pose proof (Z_div_mod_eq_full t 256). lia.
  - intros [data u] t Hu. cbn in *. subst u. done.
  - intros n. by destruct n.
Defined.

#[export] Instance nvs : NvsLib := {
  nvs_read D _ n d := dev_read n d;
  nvs_write D _ x d :=
    match dev_write x d with
    | (OK, d) => (match dev_read (length x) d with
                  | inl e => Err e
                  | inr y => if bool_decide (x = y) then OK else Err EIO
                  end, d)
    | r => r
    end;
}.

#[export] Instance nvs_laws : NvsLibLaws.
Proof.
  split; [done|]. intros D ? x d _. cbn. destruct (dev_write x d) as [[|e] d']; by cbn.
Qed.

Definition env : nvo_env := {|
  realloc_ok _ := true;
  fresh_bytes _ k := zeros k;
  register_rc _ := OK;
|}.

#[export] Instance env_laws : NvoEnvLaws env.
Proof. split; intros; cbn; [apply length_replicate|apply zeros_ok]. Qed.
End ToyOpt.
