(* ===== verification/EfiNvs.v ===== *)
(** * EFI variable storage (interface/efi/efi_nvs.c)

    The device behind the options block: one EFI variable that holds the whole
    block.  The runtime services of the firmware are a parameter with the behaviour
    the UEFI specification documents.  The theorems follow a setting through a store,
    a power cycle and the startup function, and a block through corruption. *)

From stdpp Require Import base list strings.
From Stdlib Require Import ZArith Lia.
From S2P Require Import Prelude Nvo NvoToy.

Definition EFI_SUCCESS : Z := 0.
Definition EFI_BUFFER_TOO_SMALL : Z := 2 ^ 63 + 5.
Definition EFI_NOT_FOUND : Z := 2 ^ 63 + 14.

(** ** The runtime services, for the variable of the driver

    [GetVariable n] is called with a buffer of [n] bytes, and gives the status, the
    size and the data; [SetVariable] replaces the variable. *)
Class EfiOps := {
  efi : Type;
  GetVariable : nat -> efi -> Z * nat * list Z;
  SetVariable : list Z -> efi -> Z * efi;
}.

Class EfiLaws `{EfiOps} := {
  contents : efi -> option (list Z);
  contents_nonempty d : contents d <> Some [];
  get_success n d size data : GetVariable n d = (EFI_SUCCESS, size, data) ->
    contents d = Some data /\ size = length data;
  get_too_small n d size data : GetVariable n d = (EFI_BUFFER_TOO_SMALL, size, data) ->
    exists x, contents d = Some x /\ size = length x;
  set_success x d d' : SetVariable x d = (EFI_SUCCESS, d') ->
    contents d' = if bool_decide (x = []) then None else Some x;
  set_failure x d d' rc : rc <> EFI_SUCCESS -> SetVariable x d = (rc, d') -> contents d' = contents d;
}.

(** Firmware that reports no hardware error: the status is the one the specification
    gives for the size of the buffer. *)
Definition readable `{EfiLaws} (d : efi) : Prop :=
  forall n, (GetVariable n d).1.1 =
    match contents d with
    | None => EFI_NOT_FOUND
    | Some x => if bool_decide (length x <= n)%nat then EFI_SUCCESS else EFI_BUFFER_TOO_SMALL
    end.

Section EfiNvs.
Context `{EfiOps}.

(** [efi_nvs_read] *)
Definition efi_nvs_read (len : nat) (d : efi) : errno + list Z :=
  if bool_decide (len = 0%nat) then inr [] else
  let '(efirc, size, data) := GetVariable len d in
  if negb (efirc =? EFI_SUCCESS) then inl (EPLATFORM efirc) else
  if negb (bool_decide (size = len)) then inl EIO else
  inr data.

(** [efi_nvs_write] *)
Definition efi_nvs_write (data : list Z) (d : efi) : status * efi :=
  let '(efirc, d) := SetVariable data d in
  if negb (efirc =? EFI_SUCCESS) then (Err (EPLATFORM efirc), d) else (OK, d).

(** [efi_nvs_resize]: the variable is resized when it is written. *)
Definition efi_nvs_resize (len : nat) : status := OK.

#[global] Instance efi_nvs : NvsDevice efi := {
  dev_read := efi_nvs_read;
  dev_write := efi_nvs_write;
  dev_resize := Some efi_nvs_resize;
}.

(** [efi_nvs_probe_len] *)
Definition efi_nvs_probe_len (d : efi) : nat :=
  let '(efirc, size, _) := GetVariable 0 d in
  if efirc =? EFI_NOT_FOUND then 0%nat else
  if negb (efirc =? EFI_BUFFER_TOO_SMALL) then 0%nat else
  size.

(** [efi_nvs_startup] *)
Definition efi_nvs_startup `{NvsLib} `{DhcpOptOps} (E : nvo_env) : M (nvo_state efi) unit :=
  let* d := gets dev in
  do* update (nvo_init (efi_nvs_probe_len d)) in
  let* _ := register_nvo E in
  ret tt.

(** The state in which the startup function finds the machine: the static objects
    are zero, the variable is what it was when the power went off. *)
Definition power_on (d : efi) : nvo_state efi := NvoState (Nvo [] 0 false 0 0 false) d 0.
End EfiNvs.

(** ** The device keeps its contract *)
#[export] Instance efi_contract `{EfiLaws} : NvsContract efi.
Proof.
  refine {| stored := contents |}.
  - intros n d x Hn. cbn. unfold efi_nvs_read. rewrite bool_decide_false by done.
    destruct (GetVariable n d) as [[rc size] data] eqn:Hg. destruct (Z.eqb_spec rc EFI_SUCCESS); [subst|done].
    cbn [negb]. case_bool_decide; [|done]. intros [= <-]. destruct (get_success _ _ _ _ Hg). by subst.
  - intros x d d'. cbn. unfold efi_nvs_write. destruct (SetVariable x d) as [rc d1] eqn:Hs.
    destruct (Z.eqb_spec rc EFI_SUCCESS); [subst|done]. intros [= <-]. by apply set_success in Hs.
  - intros x d d' e. cbn. unfold efi_nvs_write. destruct (SetVariable x d) as [rc d1] eqn:Hs.
    destruct (Z.eqb_spec rc EFI_SUCCESS); [done|]. intros [= _ <-]. by eapply set_failure.
Defined.

Section Persistence.
Context `{EfiLaws} `{NvsLibLaws} `{DhcpOptLaws}.
Implicit Types (s : nvo_state efi).

(** The bytes of the variable; none if it does not exist. *)
Definition variable (d : efi) : list Z := default [] (contents d).

Lemma probe_len d : readable d -> efi_nvs_probe_len d = length (variable d).
Proof.
  intros Hr. unfold efi_nvs_probe_len, variable. specialize (Hr 0%nat).
  destruct (GetVariable 0 d) as [[rc size] data] eqn:Hg. cbn in Hr. subst rc.
  pose proof (contents_nonempty d) as Hne.
  destruct (contents d) as [x|] eqn:Hx; [|done]. destruct x as [|b x]; [done|].
  cbn [length] in *. rewrite bool_decide_false in * by lia. cbn.
  destruct (get_too_small _ _ _ _ Hg) as (y & Hy & ->). rewrite Hx in Hy. by injection Hy as <-.
Qed.

Lemma read_variable d : readable d -> variable d <> [] ->
  dev_read (length (variable d)) d = inr (variable d).
Proof.
  unfold variable. intros Hr. cbn. unfold efi_nvs_read. specialize (Hr (length (default [] (contents d)))).
  destruct (contents d) as [x|] eqn:Hx; [|done]. change (default [] (Some x)) with x in *. intros Hne.
  rewrite bool_decide_false by (intros ?%nil_length_inv; done).
  destruct (GetVariable (length x) d) as [[rc size] data] eqn:Hg. cbn in Hr. subst rc.
  rewrite bool_decide_true in Hg |- * by lia. destruct (get_success _ _ _ _ Hg) as [Hc ->].
  rewrite Hx in Hc. injection Hc as <-. cbn. by rewrite bool_decide_true.
Qed.

(** The startup function loads the variable. *)
Lemma startup_loads E `{NvoEnvLaws E} d :
  readable d -> length (variable d) <> 1%nat -> resourceful E ->
  exists s, efi_nvs_startup E (power_on d) = Ret tt s /\ nvo s = loaded (variable d) /\ dev s = d.
Proof.
  intros Hr Hone Hres. unfold efi_nvs_startup, bind, gets, update. cbn [dev power_on].
  rewrite probe_len by done.
  pose proof (register_nvo_eq E (variable d) (power_on d) Hone (read_variable d Hr)) as Hw.
  unfold wp in Hw. destruct (register_nvo E _) as [rc s| |]; try done.
  destruct Hw as (Hd & Hok & Hn & _). exists s. split; [done|]. split; [|done]. auto.
Qed.

(** After a successful store the device mirrors the block. *)
Record mirrored (s : nvo_state efi) : Prop := {
  mi_wf : nvo_wf (nvo s);
  mi_stored : variable (dev s) = nvo_data (nvo s);
  mi_sum : u8 (sum (nvo_data (nvo s))) = 0;
}.

Lemma save_mirrors s s' : nvo_wf (nvo s) -> nvo_save s = Ret OK s' -> mirrored s' /\ get_opts s' = get_opts s.
Proof.
  intros Hw Hs. pose proof (wp_elim _ _ _ _ _ _ (nvo_save_eq s Hw) Hs) as (Hn & Hwf & Ho & Hsum & Hst).
  split; [|done]. constructor; rewrite Hn; [done| |done].
  unfold variable. cbn in Hst. rewrite Hst. by case_bool_decide.
Qed.

(** A mirrored block with a valid first option is what the next startup finds. *)
Lemma reboot_restores E `{NvoEnvLaws E} s :
  mirrored s -> (opt_data (get_opts s) <> [] -> byte_at (opt_data (get_opts s)) 0 <> 0) ->
  nvo_len (nvo s) <> 1%nat -> readable (dev s) -> resourceful E ->
  exists s', efi_nvs_startup E (power_on (dev s)) = Ret tt s' /\
    opt_data (get_opts s') = opt_data (get_opts s) /\
    opt_used (get_opts s') = dhcpopt_used (opt_data (get_opts s)) /\
    nvo_registered (nvo s') = true.
Proof.
  intros [Hw Hst Hsum] Hf Hone Hr Hres. pose proof (nw_len _ Hw) as Hl.
  destruct (startup_loads E (dev s)) as (s' & Hs & Hn & _); [done|by rewrite Hst, Hl|done|].
  exists s'. split; [done|]. assert (nvo_data (loaded (variable (dev s))) = nvo_data (nvo s)) as Hd.
  { rewrite Hst. unfold loaded. cbn [nvo_data]. case_decide as Hb; [done|]. unfold get_opts in Hf. cbn in Hf.
    destruct (nvo_data (nvo s)) as [|c [|b l]]; [done|cbn in *; lia|]. exfalso. apply Hb. by split; [|apply Hf]. }
  unfold get_opts. rewrite Hn. cbn [opt_data opt_used]. rewrite loaded_used, Hd. done.
Qed.

(** ** The life of the block

    A machine boots with some variable whose options are in order, or with one that is
    discarded, and settings are stored. *)
Inductive live (E : nvo_env) : nvo_state efi -> Prop :=
  | live_boot d s : readable d -> bytes_ok (variable d) -> length (variable d) <> 1%nat ->
      efi_nvs_startup E (power_on d) = Ret tt s -> nvo_registered (nvo s) = true ->
      dhcpopt_wf (get_opts s) -> live E s
  | live_store tag data s s' : live E s -> option_tag tag -> bytes_ok data ->
      nvo_store E tag data s = Ret OK s' -> live E s'.

(** What holds of a live block: its members agree, its length is not the degenerate
    one, and its options are in order. *)
Record live_inv (s : nvo_state efi) : Prop := {
  li_wf : nvo_wf (nvo s);
  li_len : nvo_len (nvo s) <> 1%nat;
  li_opts : dhcpopt_wf (get_opts s);
}.

Lemma loaded_wf x : bytes_ok x -> nvo_wf (loaded x).
Proof.
  intros Hx. unfold loaded. constructor; cbn; [| |done..].
  - case_decide; [done|]. unfold zeros. by rewrite length_replicate.
  - case_decide; [done|apply zeros_ok].
Qed.

Lemma boot_inv E `{NvoEnvLaws E} d s :
  readable d -> bytes_ok (variable d) -> length (variable d) <> 1%nat ->
  efi_nvs_startup E (power_on d) = Ret tt s -> nvo_registered (nvo s) = true ->
  nvo s = loaded (variable d) /\ dev s = d.
Proof.
  intros Hr Hb Hone. unfold efi_nvs_startup, bind, gets, update. cbn [dev power_on]. rewrite probe_len by done.
  pose proof (register_nvo_eq E (variable d) (power_on d) Hone (read_variable d Hr)) as Hw.
  unfold wp in Hw. destruct (register_nvo E _) as [rc s1| |]; try done.
  destruct Hw as (Hd & _ & Hn & He). intros [= <-] Hreg. split; [|done]. apply Hn.
  destruct rc; [done|]. by rewrite He in Hreg.
Qed.

(** One successful store on a live block. *)
Lemma store_live E `{NvoEnvLaws E} tag data s s' :
  live_inv s -> option_tag tag -> bytes_ok data -> nvo_store E tag data s = Ret OK s' ->
  live_inv s' /\ mirrored s' /\
  (opt_data (get_opts s') <> [] -> byte_at (opt_data (get_opts s')) 0 <> 0) /\
  nvo_fetch tag s' = (if bool_decide (data = []) then inl ENOENT else inr data) /\
  (forall t, independent tag t -> option_tag t -> nvo_fetch t s' = nvo_fetch t s).
Proof.
  intros [Hw Hl Hu] Ht Hb Hs. unfold nvo_store, try, bind in Hs.
  destruct (dhcpopt_store _ _ _ _ tag data s) as [[|e] s1| |] eqn:Hd; try done.
  pose proof (wp_elim False _ _ _ _ _ (dhcpopt_store_frame _ get_opts put_opts (nvo_realloc_dhcpopt E)
    tag data (fun s => nvo_wf (nvo s) /\ nvo_len (nvo s) <> 1%nat) s
    (fun n s I => wp_conj _ _ _ _ _ (nvo_realloc_dhcpopt_wf E n s (proj1 I)) (realloc_dhcpopt_len E n s (proj2 I)))
    (fun o s I Ho Hk => conj (put_opts_wf o s (proj1 I) Ho Hk) (proj2 I)) Hb (conj Hw Hl)) Hd) as [Hw1 Hl1].
  assert (owner get_opts put_opts (nvo_realloc_dhcpopt (D:=efi) E)) as Hown
    by by apply (nvo_owner (D:=efi) E efi_nvs_resize).
  destruct (dhcpopt_store_ok _ _ _ _ tag data s s1 Hown Ht Hb Hu Hd)
    as (Hu1 & Hf1 & Hsome & Hnone & Hoth).
  pose proof (wp_elim _ _ _ _ _ _ (nvo_save_eq s1 Hw1) Hs) as (Hn & Hwf & _).
  destruct (save_mirrors s1 s' Hw1 Hs) as [Hmi Ho]. unfold nvo_fetch. rewrite Ho.
  split; [|split_and!; [done..| |done]].
  - constructor; [by rewrite Hn| |by rewrite Ho]. rewrite Hn. case_bool_decide; [done|].
    destruct (fix_checksum_eq (nvo s1) (nw_len _ Hw1)) as (_ & _ & _ & _ & ->). done.
  - clear Hn Hwf. case_bool_decide as He; [by apply Hnone|by apply Hsome].
Qed.

Lemma live_live_inv E `{NvoEnvLaws E} s : live E s -> live_inv s.
Proof.
  induction 1 as [d s Hr Hb Hone Hs Hreg Hwf|tag data s s' _ IH Ht Hb Hs].
  - destruct (boot_inv E d s Hr Hb Hone Hs Hreg) as [Hn _].
    constructor; [rewrite Hn; by apply loaded_wf|by rewrite Hn|done].
  - by eapply store_live.
Qed.

(** The options after a power cycle are those of the last successful save. *)
Lemma reboot_opts E `{NvoEnvLaws E} s :
  live_inv s -> mirrored s -> (opt_data (get_opts s) <> [] -> byte_at (opt_data (get_opts s)) 0 <> 0) ->
  readable (dev s) -> resourceful E ->
  exists s', efi_nvs_startup E (power_on (dev s)) = Ret tt s' /\ get_opts s' = get_opts s /\
    nvo_registered (nvo s') = true.
Proof.
  intros Hli Hmi Hf Hr Hres.
  destruct (reboot_restores E s Hmi Hf (li_len _ Hli) Hr Hres) as (s' & Hst & Hd & Hu & Hreg).
  exists s'. split; [done|]. split; [|done]. destruct (get_opts s'), (get_opts s) eqn:Hg; cbn in *. rewrite Hd, Hu.
  f_equal. pose proof (dhcpopt_wf_used _ (li_opts _ Hli)) as Hx. rewrite Hg in Hx. done.
Qed.

(** [C19] Settings survive a power cycle: when a setting is stored (or cleared, by an
    empty value) in a live options block and the store reports success, then after
    the power has gone off and on, the startup function finds the setting with
    exactly the stored value (or absent), and every setting that neither encapsulates it
    nor is encapsulated in it as it was.  In particular a block that has become empty does
    not come back. *)
Theorem setting_survives_reboot E `{NvoEnvLaws E} E' `{NvoEnvLaws E'} tag data s s' :
  live E s -> option_tag tag -> bytes_ok data -> nvo_store E tag data s = Ret OK s' ->
  readable (dev s') -> resourceful E' ->
  exists s'', efi_nvs_startup E' (power_on (dev s')) = Ret tt s'' /\ nvo_registered (nvo s'') = true /\
    nvo_fetch tag s'' = (if bool_decide (data = []) then inl ENOENT else inr data) /\
    forall t, independent tag t -> option_tag t -> nvo_fetch t s'' = nvo_fetch t s.
Proof.
  intros Hli Ht Hb Hs Hr Hres. apply live_live_inv in Hli; [|done].
  destruct (store_live E tag data s s' Hli Ht Hb Hs) as (Hli' & Hmi & Hf & Hfe & Hoth).
  destruct (reboot_opts E' s' Hli' Hmi Hf Hr Hres) as (s'' & Hst & Ho & Hreg).
  exists s''. unfold nvo_fetch in *. rewrite Ho. done.
Qed.

(** The variable mirrors the block: after a successful store the variable holds
    exactly the block in memory (or does not exist, if no option remains), its bytes
    sum to zero modulo 256, and the block's members agree with each other. *)
Theorem store_mirrors_block E `{NvoEnvLaws E} tag data s s' :
  live E s -> option_tag tag -> bytes_ok data -> nvo_store E tag data s = Ret OK s' ->
  contents (dev s') = (if bool_decide (nvo_len (nvo s') = 0%nat) then None else Some (nvo_data (nvo s'))) /\
  nvo_checksum (nvo s') = 0 /\ nvo_wf (nvo s').
Proof.
  intros Hli Ht Hb Hs. apply live_live_inv in Hli; [|done].
  destruct (store_live E tag data s s' Hli Ht Hb Hs) as (_ & [Hw Hst Hsum] & _).
  split_and!; [|by rewrite nvo_checksum_sum by apply Hw|done]. pose proof (nw_len _ Hw) as Hl.
  unfold variable in Hst. case_bool_decide as Hz.
  - rewrite Hz in Hl. apply nil_length_inv in Hl. rewrite Hl in Hst.
    destruct (contents (dev s')) as [x|] eqn:Hc; [|done]. cbn in Hst. subst x. by apply contents_nonempty in Hc.
  - destruct (contents (dev s')) as [x|]; [by rewrite <-Hst|]. cbn in Hst. rewrite <-Hst in Hl. by cbn in Hl.
Qed.

Lemma sum_insert l i a b : l !! i = Some a -> sum (<[i:=b]> l) = sum l - a + b.
Proof.
  revert i. induction l as [|c l IH]; intros [|i]; cbn; [done..| |].
  - intros [= ->]. lia.
  - intros Hi. unfold sum in *. rewrite IH by done. lia.
Qed.

Lemma one_byte_sum l i a b :
  l !! i = Some a -> is_byte a -> is_byte b -> a <> b -> u8 (sum l) = 0 -> u8 (sum (<[i:=b]> l)) <> 0.
Proof.
  intros Hi Ha Hb Hne Hs He. rewrite (sum_insert _ _ _ _ Hi) in He. unfold u8, is_byte in *.
  pose proof (Z_div_mod_eq_full (sum l) (2 ^ 8)). pose proof (Z_div_mod_eq_full (sum l - a + b) (2 ^ 8)).
  change (2 ^ 8) with 256 in *. nia.
Qed.

(** Corruption is detected: if any single byte of a saved block is changed in the
    variable, the next startup discards the whole block, and no setting of it is
    found. *)
Theorem corruption_detected E `{NvoEnvLaws E} d x i a b :
  bytes_ok x -> u8 (sum x) = 0 -> length x <> 1%nat ->
  x !! i = Some a -> is_byte b -> a <> b -> contents d = Some (<[i := b]> x) ->
  readable d -> resourceful E ->
  exists s, efi_nvs_startup E (power_on d) = Ret tt s /\ nvo_registered (nvo s) = true /\
    nvo_data (nvo s) = zeros (length x) /\ forall t, nvo_fetch t s = inl ENOENT.
Proof.
  intros Hb Hs Hone Hi Hby Hne Hc Hr Hres. assert (variable d = <[i := b]> x) as Hv by (unfold variable; by rewrite Hc).
  assert (is_byte a) as Ha by by eapply Forall_lookup_1.
  destruct (startup_loads E d) as (s & Hst & Hn & _); [done|by rewrite Hv, length_insert|done|].
  assert (nvo_data (loaded (variable d)) = zeros (length x)) as Hz.
  { rewrite Hv. unfold loaded. cbn [nvo_data]. rewrite decide_False, length_insert; [done|].
    intros [Hsum _]. exact (one_byte_sum _ _ _ _ Hi Ha Hby Hne Hs Hsum). }
  exists s. rewrite Hn. split_and!; [done..|]. intros t. unfold nvo_fetch. apply dhcpopt_fetch_none.
  unfold get_opts. cbn [opt_used]. rewrite Hn, loaded_used, Hz. unfold zeros. rewrite drop_replicate.
  apply dhcpopt_used_zeros.
Qed.

(** A one-byte variable: the startup function looks at the first option byte of a
    block whose checksum is right without checking that there is one; a variable of
    a single zero byte makes it read past the end of the block. *)
Theorem one_byte_variable_overread E `{NvoEnvLaws E} d :
  contents d = Some [0] -> readable d -> resourceful E ->
  efi_nvs_startup E (power_on d) = Fault.
Proof.
  intros Hc Hr Hres. assert (variable d = [0]) as Hv by (unfold variable; by rewrite Hc).
  pose proof (read_variable d Hr) as Hrd. rewrite Hv in Hrd. specialize (Hrd ltac:(done)). cbn [length] in Hrd.
  unfold efi_nvs_startup, bind, gets, update. cbn [dev power_on]. rewrite probe_len, Hv by done.
  unfold register_nvo, bind, gets, try, bind. cbn [length nvo_len nvo nvo_init modify power_on].
  unfold nvo_realloc, bind, nvo_consult, bind, upd_nvo, update. rewrite (proj1 (Hres _)). cbn [negb andb].
  rewrite bool_decide_false by done. cbn [negb]. unfold ret at 1, nvo_load at 1, bind, gets.
  cbn [nvo nvo_len modify dev power_on]. rewrite bool_decide_false by done.
  unfold nvo_init. cbn [nvo dev modify power_on]. by rewrite nvs_read_eq, Hrd by done.
Qed.
End Persistence.

(** ** Firmware that keeps the variable in memory *)
Module ToyEfi.
#[export] Instance ops : EfiOps := {
  efi := option (list Z);
  GetVariable n d :=
    match d with
    | None | Some [] => (EFI_NOT_FOUND, 0%nat, [])
    | Some x => if bool_decide (length x <= n)%nat then (EFI_SUCCESS, length x, x)
                else (EFI_BUFFER_TOO_SMALL, length x, [])
    end;
  SetVariable x d := (EFI_SUCCESS, if bool_decide (x = []) then None else Some x);
}.

#[export] Instance laws : EfiLaws.
Proof.
  refine {| contents (d : efi) := match d with Some (b :: x) => Some (b :: x) | _ => None end |}.
  - by intros [[|b x]|].
  - intros n [[|b x]|] size data; cbn [GetVariable ops]; try done. case_bool_decide; [|done]. by intros [= <- <-].
  - intros n [[|b x]|] size data; cbn [GetVariable ops]; try done. case_bool_decide; [done|].
    intros [= <- _]. by eexists.
  - intros x d d' [= <-]. cbn. case_bool_decide; [done|]. by destruct x.
  - intros x d d' rc Hrc [= <- _]. done.
Defined.

Lemma readable_all d : readable d.
Proof. intros n. destruct d as [[|b x]|]; cbn; [done| |done]. by case_bool_decide. Qed.

Lemma resourceful_env : resourceful ToyOpt.env.
Proof. done. Qed.
End ToyEfi.

#[local] Existing Instances ToyEfi.ops ToyEfi.laws ToyOpt.dhcp ToyOpt.dhcp_laws ToyOpt.nvs ToyOpt.nvs_laws
  ToyOpt.env_laws.

(** A machine that boots without the variable and stores two settings. *)
Module DemoNvs.
Definition holding (x : list Z) : @efi ToyEfi.ops := if bool_decide (x = []) then None else Some x.
Definition key_tag : Z := 0xaf5e.
Definition fingerprint_tag : Z := 0xaf5f.
Definition run {A} (m : M (nvo_state efi) A) (s : nvo_state efi) : nvo_state efi :=
  match m s with Ret _ s' => s' | _ => s end.
Definition booted : nvo_state efi := run (efi_nvs_startup ToyOpt.env) (power_on (holding [])).
Definition keyed : nvo_state efi := run (nvo_store ToyOpt.env key_tag [1; 2; 3]) booted.

Lemma booted_live : live ToyOpt.env booted.
Proof.
  apply (live_boot _ (holding [])); [apply ToyEfi.readable_all|constructor|done|by vm_compute..].
Qed.

Lemma keyed_live : live ToyOpt.env keyed.
Proof.
  apply (live_store _ key_tag [1; 2; 3] booted); [exact booted_live|by vm_compute| |by vm_compute].
  repeat constructor; unfold is_byte; lia.
Qed.
End DemoNvs.

Lemma setting_survives_reboot_witness :
  let s' := DemoNvs.run (nvo_store ToyOpt.env DemoNvs.fingerprint_tag [9; 9]) DemoNvs.keyed in
  exists s'', efi_nvs_startup ToyOpt.env (power_on (dev s')) = Ret tt s'' /\
    nvo_fetch DemoNvs.fingerprint_tag s'' = inr [9; 9] /\ nvo_fetch DemoNvs.key_tag s'' = inr [1; 2; 3].
Proof.
  intros s'. destruct (setting_survives_reboot ToyOpt.env ToyOpt.env DemoNvs.fingerprint_tag [9; 9]
    DemoNvs.keyed s') as (s'' & Hs & _ & Hf & Ho).
  - exact DemoNvs.keyed_live.
  - apply (bool_decide_unpack _). vm_compute. exact I.
  - repeat constructor; unfold is_byte; lia.
  - vm_compute. reflexivity.
  - apply ToyEfi.readable_all.
  - exact ToyEfi.resourceful_env.
  - exists s''. split; [exact Hs|]. split; [exact Hf|]. rewrite (Ho DemoNvs.key_tag).
    + vm_compute. reflexivity.
    + apply (bool_decide_unpack _). vm_compute. exact I.
    + apply (bool_decide_unpack _). vm_compute. exact I.
Defined.

Lemma store_mirrors_block_witness : nvo_checksum (nvo DemoNvs.keyed) = 0.
Proof.
  apply (store_mirrors_block ToyOpt.env DemoNvs.key_tag [1; 2; 3] DemoNvs.booted DemoNvs.keyed).
  - exact DemoNvs.booted_live.
  - apply (bool_decide_unpack _). vm_compute. exact I.
  - repeat constructor; unfold is_byte; lia.
  - vm_compute. reflexivity.
Defined.

(** The fourth byte of a saved block is changed from 5 to 6. *)
Lemma corruption_detected_witness :
  exists s, efi_nvs_startup ToyOpt.env (power_on (DemoNvs.holding [250; 1; 0; 6; 0])) = Ret tt s /\
    nvo_data (nvo s) = zeros 5.
Proof.
  destruct (corruption_detected ToyOpt.env (DemoNvs.holding [250; 1; 0; 6; 0]) [250; 1; 0; 5; 0] 3 5 6)
    as (s & Hs & _ & Hd & _).
  - repeat constructor; unfold is_byte; lia.
  - reflexivity.
  - discriminate.
  - reflexivity.
  - unfold is_byte. lia.
  - discriminate.
  - reflexivity.
  - apply ToyEfi.readable_all.
  - exact ToyEfi.resourceful_env.
  - exists s. split; [exact Hs|exact Hd].
Defined.

Lemma one_byte_variable_overread_witness :
  efi_nvs_startup ToyOpt.env (power_on (DemoNvs.holding [0])) = Fault.
Proof.
  apply (one_byte_variable_overread ToyOpt.env).
  - reflexivity.
  - apply ToyEfi.readable_all.
  - exact ToyEfi.resourceful_env.
Defined.
