(* ===== verification/TlsKeys.v ===== *)
(** * TLS 1.3 key schedule and record protection (net/tls.c, lines 67-325 and 590-750)

    The labelled HKDF of TLS 1.3, the secrets of the schedule, the Finished value and
    the pre-shared key binder; the nonce of a record, sealing and opening.  HKDF and
    the AEAD cipher belong to the cryptographic library and are parameters.  The
    theorems: opening undoes sealing, a record whose tag does not match is refused and
    leaves no plaintext behind, and two records under one key never share a nonce. *)

From stdpp Require Import base list strings.
From Stdlib Require Import ZArith Lia.
From S2P Require Import Prelude Crypto.

(** ** Constants (include/ipxe/tls.h) *)
Definition TLS_VERSION_TLS_1_2 : Z := 0x0303.
Definition TLS_VERSION_TLS_1_3 : Z := 0x0304.
Definition TLS_TYPE_CHANGE_CIPHER : Z := 20.
Definition TLS_TYPE_ALERT : Z := 21.
Definition TLS_TYPE_HANDSHAKE : Z := 22.
Definition TLS_TYPE_DATA : Z := 23.
Definition TLS_CLIENT_HELLO : Z := 1.
Definition TLS_SERVER_HELLO : Z := 2.
Definition TLS_NEW_SESSION_TICKET : Z := 4.
Definition TLS_ENCRYPTED_EXTENSIONS : Z := 8.
Definition TLS_FINISHED : Z := 20.
Definition TLS_AES_128_GCM_SHA256 : Z := 0x1301.
Definition TLS_NAMED_GROUP : Z := 10.
Definition TLS_NAMED_GROUP_X25519 : Z := 29.
Definition TLS_PRE_SHARED_KEY : Z := 41.
Definition TLS_SUPPORTED_VERSIONS : Z := 43.
Definition TLS_PSK_KEY_EXCHANGE_MODES : Z := 45.
Definition TLS_KEY_SHARE : Z := 51.
Definition TLS_PSK_KEY_EXCHANGE_MODE_PSK_DHE : Z := 1.
Definition TLS13_NONCE_LEN : nat := 12.

(** [v >> 8] and [v & 0xff] stored in two bytes; three bytes likewise. *)
Definition u16_bytes (v : Z) : list Z := [u8 (Z.shiftr v 8); Z.land v 0xff].

(** ** HKDF (hkdf_extract, hkdf_expand) *)
Class HkdfOps := {
  hkdf_extract : digest_algorithm -> list Z -> list Z -> list Z;
  hkdf_expand : digest_algorithm -> list Z -> list Z -> nat -> list Z;
}.
Class HkdfLaws `{HkdfOps} : Prop := {
  hkdf_extract_length d s i : length (hkdf_extract d s i) = digestsize d;
  hkdf_expand_length d k i n : length (hkdf_expand d k i n) = n;
  hkdf_extract_ok d s i : bytes_ok (hkdf_extract d s i);
  hkdf_expand_ok d k i n : bytes_ok (hkdf_expand d k i n);
}.

(** ** AEAD cipher (struct cipher_algorithm; aes_gcm_algorithm)

    A context is made from key and nonce; additional data, then data, pass through
    it; [cipher_auth] gives the tag. *)
Class AeadOps := {
  cipher_ctx : Type;
  authsize : nat;
  cipher_set : list Z -> list Z -> option cipher_ctx;
  cipher_aad : cipher_ctx -> list Z -> cipher_ctx;
  cipher_encrypt : cipher_ctx -> list Z -> cipher_ctx * list Z;
  cipher_decrypt : cipher_ctx -> list Z -> cipher_ctx * list Z;
  cipher_auth : cipher_ctx -> list Z;
}.
(** What the library documents: it accepts 16-byte keys with 12-byte nonces, keeps
    lengths, and decryption inverts encryption and arrives at the same tag. *)
Class AeadLaws `{AeadOps} : Prop := {
  cipher_set_some key iv : length key = 16%nat -> length iv = TLS13_NONCE_LEN -> is_Some (cipher_set key iv);
  cipher_encrypt_length c p : length (cipher_encrypt c p).2 = length p;
  cipher_decrypt_length c p : length (cipher_decrypt c p).2 = length p;
  cipher_auth_length c : length (cipher_auth c) = authsize;
  cipher_encrypt_ok c p : bytes_ok (cipher_encrypt c p).2;
  cipher_decrypt_ok c p : bytes_ok (cipher_decrypt c p).2;
  cipher_auth_ok c : bytes_ok (cipher_auth c);
  cipher_inverse c p : bytes_ok p ->
    (cipher_decrypt c (cipher_encrypt c p).2).2 = p /\
    cipher_auth (cipher_decrypt c (cipher_encrypt c p).2).1 = cipher_auth (cipher_encrypt c p).1;
}.

(** ** Key schedule (RFC 8446, section 7.1) *)
Section Schedule.
Context `{DigestOps} `{HkdfOps}.
Implicit Types (d : digest_algorithm).

(** [tls13_hkdf_label]: the HkdfLabel structure. *)
Definition tls13_hkdf_label (len : nat) (label context : list Z) : list Z :=
  let prefix := bstr "tls13 " in
  u16_bytes (Z.of_nat len) ++ [u8 (Z.of_nat (length prefix + length label))] ++ prefix ++ label ++
  [u8 (Z.of_nat (length context))] ++ context.

(** [tls13_expand_label] *)
Definition tls13_expand_label d (secret label context : list Z) (len : nat) : list Z :=
  hkdf_expand d secret (tls13_hkdf_label len label context) len.

(** [tls13_derive_secret] *)
Definition tls13_derive_secret d (secret label transcript : list Z) : list Z :=
  let ctx := digest_init d in
  let ctx := digest_update d ctx transcript in
  let hash := digest_final d ctx in
  tls13_expand_label d secret label hash (digestsize d).

(** [tls13_early_secret]: without a pre-shared key, zeros take its place. *)
Definition tls13_early_secret d (psk : option (list Z)) : list Z :=
  hkdf_extract d [] (default (zeros (digestsize d)) psk).

(** [tls13_handshake_secret] *)
Definition tls13_handshake_secret d (early ecdhe : list Z) : list Z :=
  hkdf_extract d (tls13_derive_secret d early (bstr "derived") []) ecdhe.

(** [tls13_master_secret] *)
Definition tls13_master_secret d (handshake : list Z) : list Z :=
  hkdf_extract d (tls13_derive_secret d handshake (bstr "derived") []) (zeros (digestsize d)).

(** [tls13_traffic_key]: key and initialisation vector. *)
Definition tls13_traffic_key d (secret : list Z) (key_len iv_len : nat) : list Z * list Z :=
  (tls13_expand_label d secret (bstr "key") [] key_len,
   tls13_expand_label d secret (bstr "iv") [] iv_len).

(** [tls13_finished] *)
Definition tls13_finished d (secret transcript : list Z) : list Z :=
  let finished_key := tls13_expand_label d secret (bstr "finished") [] (digestsize d) in
  let hash := digest_final d (digest_update d (digest_init d) transcript) in
  hmac_final d (hmac_update d (hmac_init d finished_key) hash).

(** [tls13_binder] *)
Definition tls13_binder d (early_secret label transcript : list Z) : list Z :=
  let binder_key := tls13_derive_secret d early_secret label [] in
  tls13_finished d binder_key transcript.
End Schedule.

(** ** Record protection *)

(** [tls13_nonce] *)
Definition tls13_nonce (iv : list Z) (sn : Z) : list Z :=
  take 4 iv ++
  map (fun i => u8 (Z.lxor (byte_at iv (4 + i)) (Z.shiftr sn (8 * (7 - Z.of_nat i))))) (seq 0 8).

Section Record.
Context `{AeadOps}.

(** [tls13_seal]; [None] is the return value 0. *)
Definition tls13_seal (key iv : list Z) (sn : Z) (aad data : list Z) (content_type : Z)
  : option (list Z) :=
  let nonce := tls13_nonce iv sn in
  let plaintext := data ++ [u8 content_type] in
  match cipher_set key nonce with
  | None => None
  | Some ctx =>
      let ctx := cipher_aad ctx aad in
      let '(ctx, ciphertext) := cipher_encrypt ctx plaintext in
      Some (ciphertext ++ cipher_auth ctx)
  end.

(** [diff |= ( a[i] ^ b[i] )] over two arrays, in 8 bits. *)
Fixpoint tag_diff (diff : Z) (a b : list Z) : Z :=
  match a, b with
  | x :: a, y :: b => tag_diff (u8 (Z.lor diff (Z.lxor x y))) a b
  | _, _ => diff
  end.

(** [tls13_open]: the content type or the error, and what is written to the output
    buffer ([None]: nothing). *)
Definition tls13_open (key iv : list Z) (sn : Z) (aad record : list Z)
  : (errno + Z) * option (list Z) :=
  if bool_decide (length record < 1 + authsize)%nat then (inl EINVAL, None) else
  let nonce := tls13_nonce iv sn in
  match cipher_set key nonce with
  | None => (inl EINVAL, None)
  | Some ctx =>
      let ctx := cipher_aad ctx aad in
      let plaintext_len := (length record - authsize)%nat in
      let '(ctx, plaintext) := cipher_decrypt ctx (take plaintext_len record) in
      let verify_auth := cipher_auth ctx in
      let diff := tag_diff 0 verify_auth (drop plaintext_len record) in
      if negb (diff =? 0) then (inl EINVAL, Some (zeros plaintext_len)) else
      (inr (byte_at plaintext (plaintext_len - 1)), Some plaintext)
  end.
End Record.

(** ** The nonce *)

Lemma lxor_byte a b : is_byte a -> is_byte b -> is_byte (Z.lxor a b).
Proof.
  unfold is_byte. intros Ha Hb. assert (0 <= Z.lxor a b) by (apply Z.lxor_nonneg; lia). split; [done|].
  destruct (decide (Z.lxor a b = 0)) as [->|Hz]; [lia|].
  apply (Z.log2_lt_pow2 (Z.lxor a b) 8); [lia|].
  pose proof (Z.log2_lxor a b ltac:(lia) ltac:(lia)).
  assert (forall x, 0 <= x < 256 -> Z.log2 x < 8) as Hlog.
  { intros x Hx. destruct (decide (x = 0)) as [->|]; [done|]. apply Z.log2_lt_pow2; lia. }
  pose proof (Hlog a Ha). pose proof (Hlog b Hb). lia.
Qed.

Lemma lor_byte a b : is_byte a -> is_byte b -> is_byte (Z.lor a b).
Proof.
  unfold is_byte. intros Ha Hb. assert (0 <= Z.lor a b) by (apply Z.lor_nonneg; lia). split; [done|].
  destruct (decide (Z.lor a b = 0)) as [->|Hz]; [lia|].
  apply (Z.log2_lt_pow2 (Z.lor a b) 8); [lia|]. rewrite Z.log2_lor by lia.
  assert (forall x, 0 <= x < 256 -> Z.log2 x < 8) as Hlog.
  { intros x Hx. destruct (decide (x = 0)) as [->|]; [done|]. apply Z.log2_lt_pow2; lia. }
  pose proof (Hlog a Ha). pose proof (Hlog b Hb). lia.
Qed.

(** The byte of the sequence number at position [i] is recovered from the nonce. *)
Lemma u8_lxor a s : is_byte a -> u8 (Z.lxor a s) = Z.lxor a (u8 s).
Proof.
  intros Ha. unfold u8. apply Z.bits_inj'. intros n Hn.
  rewrite Z.lxor_spec. destruct (decide (n < 8)).
  - rewrite !Z.mod_pow2_bits_low, Z.lxor_spec by lia. done.
  - rewrite !Z.mod_pow2_bits_high by lia. rewrite <-(u8_id a Ha). unfold u8.
    by rewrite Z.mod_pow2_bits_high by lia.
Qed.

Lemma tls13_nonce_length iv sn : length iv = TLS13_NONCE_LEN -> length (tls13_nonce iv sn) = TLS13_NONCE_LEN.
Proof. intros Hl. unfold tls13_nonce. rewrite length_app, length_take, Hl. done. Qed.

Lemma u64_bytes_inj a b :
  0 <= a < 2 ^ 64 -> 0 <= b < 2 ^ 64 ->
  (forall i, (i < 8)%nat -> u8 (Z.shiftr a (8 * (7 - Z.of_nat i))) = u8 (Z.shiftr b (8 * (7 - Z.of_nat i)))) ->
  a = b.
Proof.
  intros Ha Hb Hi. apply Z.bits_inj'. intros n Hn. destruct (decide (n < 64)).
  - pose proof (Z.div_mod n 8 ltac:(lia)) as Hdm. pose proof (Z.mod_pos_bound n 8 ltac:(lia)).
    specialize (Hi (Z.to_nat (7 - n / 8))). assert (0 <= n / 8 <= 7) by lia.
    assert (Z.to_nat (7 - n / 8) < 8)%nat as Hlt by lia. specialize (Hi Hlt).
    apply (f_equal (fun z => Z.testbit z (n mod 8))) in Hi. unfold u8 in Hi.
    rewrite !Z.mod_pow2_bits_low, !Z.shiftr_spec in Hi by lia.
    replace (n mod 8 + 8 * (7 - Z.of_nat (Z.to_nat (7 - n / 8)))) with n in Hi by lia. done.
  - assert (forall x, 0 <= x < 2 ^ 64 -> Z.testbit x n = false) as Hhigh.
    { intros x Hx. rewrite <-(Z.mod_small x (2 ^ 64)) by lia. apply Z.mod_pow2_bits_high. lia. }
    by rewrite !Hhigh.
Qed.

(** Nonces do not repeat: under one initialisation vector, two different 64-bit
    sequence numbers give two different nonces. *)
Theorem nonce_injective iv a b :
  bytes_ok iv -> length iv = TLS13_NONCE_LEN -> 0 <= a < 2 ^ 64 -> 0 <= b < 2 ^ 64 ->
  tls13_nonce iv a = tls13_nonce iv b -> a = b.
Proof.
  intros Hiv Hl Ha Hb He. apply u64_bytes_inj; [done..|]. intros i Hi.
  unfold tls13_nonce in He. apply app_inv_head in He.
  apply (f_equal (fun l => l !! i)) in He. rewrite !list_lookup_fmap, !lookup_seq_lt in He by done.
  cbn in He. injection He as He. pose proof (byte_at_ok iv (4 + i) Hiv) as Hby.
  rewrite !u8_lxor in He by done. apply (f_equal (Z.lxor (byte_at iv (4 + i)))) in He.
  by rewrite <-!Z.lxor_assoc, !Z.lxor_nilpotent, !Z.lxor_0_l in He.
Qed.

(** ** Opening and sealing *)

(** The comparison of the tags is the comparison of the lists. *)
Lemma tag_diff_spec diff a b :
  is_byte diff -> bytes_ok a -> bytes_ok b -> length a = length b ->
  tag_diff diff a b = 0 <-> diff = 0 /\ a = b.
Proof.
  revert diff b. induction a as [|x a IH]; intros diff [|y b] Hd Ha Hb Hl; try discriminate Hl.
  { simpl. naive_solver. }
  apply Forall_cons in Ha as [Hx Ha]. apply Forall_cons in Hb as [Hy Hb]. injection Hl as Hl. cbn [tag_diff].
  pose proof (lxor_byte x y Hx Hy) as Hxy. rewrite u8_id by auto using lor_byte.
  rewrite IH by auto using lor_byte. rewrite Z.lor_eq_0_iff, Z.lxor_eq_0_iff. naive_solver.
Qed.

Section RecordLaws.
Context `{AeadLaws}.

Lemma tls13_seal_length key iv sn aad data ty out :
  tls13_seal key iv sn aad data ty = Some out -> length out = (length data + 1 + authsize)%nat.
Proof.
  unfold tls13_seal. intros He. destruct (cipher_set _ _) as [c|]; [|done].
  destruct (cipher_encrypt (cipher_aad c aad) (data ++ [u8 ty])) as [c' p] eqn:Ep.
  injection He as <-. pose proof (cipher_encrypt_length (cipher_aad c aad) (data ++ [u8 ty])) as Hl.
  rewrite Ep in Hl. cbn [snd] in Hl. pose proof (cipher_auth_length c'). len.
Qed.

Lemma tls13_seal_ok key iv sn aad data ty out :
  tls13_seal key iv sn aad data ty = Some out -> bytes_ok out.
Proof.
  unfold tls13_seal. intros He. destruct (cipher_set _ _) as [c|]; [|done].
  destruct (cipher_encrypt (cipher_aad c aad) (data ++ [u8 ty])) as [c' p] eqn:Ep.
  injection He as <-. pose proof (cipher_encrypt_ok (cipher_aad c aad) (data ++ [u8 ty])) as Hl.
  rewrite Ep in Hl. apply Forall_app. split; [done|apply cipher_auth_ok].
Qed.

Lemma tls13_seal_some key iv sn aad data ty :
  length key = 16%nat -> length iv = TLS13_NONCE_LEN -> is_Some (tls13_seal key iv sn aad data ty).
Proof.
  intros Hk Hi. unfold tls13_seal.
  destruct (cipher_set_some key (tls13_nonce iv sn) Hk (tls13_nonce_length iv sn Hi)) as [c ->].
  destruct (cipher_encrypt _ _). eauto.
Qed.

(** What opening gives back for a sealed record: content type, and the output buffer. *)
Lemma tls13_open_sealed key iv sn aad data ty out :
  bytes_ok data -> tls13_seal key iv sn aad data ty = Some out ->
  tls13_open key iv sn aad out = (inr (u8 ty), Some (data ++ [u8 ty])).
Proof.
  intros Hd Hs. pose proof (tls13_seal_length _ _ _ _ _ _ _ Hs) as Hl.
  unfold tls13_open. rewrite bool_decide_false by lia.
  unfold tls13_seal in Hs. destruct (cipher_set _ _) as [c|]; [|done].
  assert (bytes_ok (data ++ [u8 ty])) as Hok.
  { apply Forall_app. split; [done|]. constructor; [apply u8_byte|constructor]. }
  destruct (cipher_inverse (cipher_aad c aad) _ Hok) as [Hp Ha].
  pose proof (cipher_encrypt_length (cipher_aad c aad) (data ++ [u8 ty])) as Hel.
  destruct (cipher_encrypt (cipher_aad c aad) (data ++ [u8 ty])) as [c' p] eqn:Ep.
  injection Hs as <-. cbn [fst snd] in *.
  pose proof (cipher_auth_length c') as Hal.
  assert (length (p ++ cipher_auth c') - authsize = length p)%nat as -> by (rewrite length_app; lia).
  rewrite take_app_length, drop_app_length.
  destruct (cipher_decrypt (cipher_aad c aad) p) as [c'' q] eqn:Eq. cbn [fst snd] in *. subst q.
  rewrite Ha. rewrite (proj2 (tag_diff_spec 0 (cipher_auth c') (cipher_auth c')
    ltac:(unfold is_byte; lia) (cipher_auth_ok c') (cipher_auth_ok c') eq_refl)) by done.
  cbn [negb Z.eqb]. rewrite Hel. unfold byte_at.
  rewrite lookup_app_r by len. replace (length (data ++ [u8 ty]) - 1 - length data)%nat with 0%nat by len.
  done.
Qed.

(** [C40] Protection of a record is undone by the peer that has the key: what
    [tls13_seal] makes of any bytes and any content type, [tls13_open] turns back
    into that content type, with exactly those bytes in front of it. *)
Theorem open_seal key iv sn aad data ty :
  length key = 16%nat -> length iv = TLS13_NONCE_LEN -> bytes_ok data -> is_byte ty ->
  exists out, tls13_seal key iv sn aad data ty = Some out /\
    length out = (length data + 1 + authsize)%nat /\
    tls13_open key iv sn aad out = (inr ty, Some (data ++ [ty])).
Proof.
  intros Hk Hi Hd Hty. destruct (tls13_seal_some key iv sn aad data ty Hk Hi) as [out Ho].
  exists out. split; [done|]. split; [by eapply tls13_seal_length|].
  rewrite <-(u8_id ty Hty). by apply tls13_open_sealed.
Qed.

(** A successful opening: the record had room for type and tag, and its last bytes are
    the tag that the library computes for what precedes them. *)
Lemma tls13_open_inv key iv sn aad record ty out :
  bytes_ok record -> tls13_open key iv sn aad record = (inr ty, out) ->
  exists c p, cipher_set key (tls13_nonce iv sn) = Some c /\
    (1 + authsize <= length record)%nat /\
    cipher_decrypt (cipher_aad c aad) (take (length record - authsize) record) = p /\
    drop (length record - authsize) record = cipher_auth p.1 /\
    out = Some p.2 /\ ty = byte_at p.2 (length record - authsize - 1).
Proof.
  intros Hok. unfold tls13_open. case_bool_decide; [done|].
  destruct (cipher_set _ _) as [c|]; [|done].
  destruct (cipher_decrypt _ _) as [c' p] eqn:Ep.
  destruct (tag_diff _ _ _ =? 0) eqn:Ed; cbn [negb]; [|done]. intros [= <- <-].
  apply Z.eqb_eq, tag_diff_spec in Ed as [_ Ed];
    [|unfold is_byte; lia|apply cipher_auth_ok|by apply Forall_drop|rewrite cipher_auth_length, length_drop; lia].
  exists c, (c', p). split_and!; [done|lia|done|by rewrite <-Ed|done|done].
Qed.

Lemma tls13_open_cases key iv sn aad record :
  (exists e, tls13_open key iv sn aad record = (inl e, None)) \/
  (exists e, tls13_open key iv sn aad record = (inl e, Some (zeros (length record - authsize)))) \/
  (exists p, tls13_open key iv sn aad record = (inr (byte_at p (length record - authsize - 1)), Some p) /\
    length p = (length record - authsize)%nat /\ bytes_ok p /\ (1 + authsize <= length record)%nat).
Proof.
  unfold tls13_open. case_bool_decide; [eauto|]. destruct (cipher_set _ _) as [c|]; [|eauto].
  pose proof (cipher_decrypt_length (cipher_aad c aad) (take (length record - authsize) record)) as Hl.
  pose proof (cipher_decrypt_ok (cipher_aad c aad) (take (length record - authsize) record)) as Ho.
  destruct (cipher_decrypt _ _) as [c' p]. cbn [snd] in *.
  destruct (negb _); [eauto|]. right. right. exists p. split_and!; [done|rewrite Hl, length_take; lia|done|lia].
Qed.

(** A record that was tampered with is refused: unless its last bytes are the tag
    of the decrypted rest, opening returns an error and leaves nothing but zeros. *)
Theorem open_refuses key iv sn aad record c :
  bytes_ok record -> (1 + authsize <= length record)%nat ->
  cipher_set key (tls13_nonce iv sn) = Some c ->
  drop (length record - authsize) record <>
    cipher_auth (cipher_decrypt (cipher_aad c aad) (take (length record - authsize) record)).1 ->
  tls13_open key iv sn aad record = (inl EINVAL, Some (zeros (length record - authsize))).
Proof.
  intros Hok Hl Hc Hne. unfold tls13_open. rewrite bool_decide_false, Hc by lia.
  destruct (cipher_decrypt _ _) as [c' p]. cbn [fst] in Hne.
  destruct (tag_diff _ _ _ =? 0) eqn:Ed; [|done].
  apply Z.eqb_eq, tag_diff_spec in Ed as [_ Ed];
    [by rewrite Ed in Hne|unfold is_byte; lia|apply cipher_auth_ok|by apply Forall_drop
    |rewrite cipher_auth_length, length_drop; lia].
Qed.
End RecordLaws.

(** ** A toy library

    "Encryption" adds the first key byte to every byte, the tag is a padded copy of
    nonce, additional data and plaintext: the laws hold and everything evaluates. *)
Module ToyTls.
#[export] Instance hkdf : HkdfOps := {
  hkdf_extract d s i := Toy.pad (digestsize d) (i ++ s);
  hkdf_expand d k i n := Toy.pad n (k ++ i);
}.
#[export] Instance hkdf_laws : HkdfLaws.
Proof. split; intros; simpl; auto using Toy.pad_length, Toy.pad_ok. Qed.

Definition shift (k : Z) (p : list Z) : list Z := map (fun b => u8 (b + k)) p.

#[export] Instance aead : AeadOps := {
  cipher_ctx := (Z * list Z)%type;
  authsize := 16;
  cipher_set key iv := Some (byte_at key 0, rev iv);
  cipher_aad c a := (c.1, a ++ c.2);
  cipher_encrypt c p := ((c.1, p ++ c.2), shift c.1 p);
  cipher_decrypt c p := ((c.1, shift (- c.1) p ++ c.2), shift (- c.1) p);
  cipher_auth c := Toy.pad 16 (rev c.2);
}.

Lemma shift_ok k p : bytes_ok (shift k p).
Proof. apply Forall_map, Forall_true. intros. apply u8_byte. Qed.

Lemma shift_inverse k p : bytes_ok p -> shift (- k) (shift k p) = p.
Proof.
  unfold shift. induction 1 as [|b q Hb _ IH]; [done|]. cbn [map]. rewrite IH. f_equal.
  rewrite <-(u8_id b Hb) at 2. unfold u8. rewrite Zplus_mod_idemp_l. f_equal. lia.
Qed.

#[export] Instance aead_laws : AeadLaws.
Proof.
  split; intros; cbn -[shift] in *; eauto using Toy.pad_length, Toy.pad_ok, shift_ok.
  - apply length_map.
  - apply length_map.
  - rewrite shift_inverse by done. done.
Qed.
End ToyTls.

Section Witnesses.
#[local] Existing Instances ToyTls.aead ToyTls.aead_laws.

Lemma nonce_injective_witness :
  tls13_nonce (seqZ 1 12) 7 <> tls13_nonce (seqZ 1 12) 8.
Proof.
  intros He. assert (7 = 8) as Hx; [|discriminate Hx].
  apply (nonce_injective (seqZ 1 12) 7 8); [|done|lia|lia|done].
  repeat constructor; unfold is_byte; lia.
Defined.

Lemma open_seal_witness :
  exists out, tls13_seal (seqZ 5 16) (seqZ 1 12) 3 [23; 3; 3; 0; 20] [1; 2; 3] 23 = Some out /\
    length out = 20%nat /\
    tls13_open (seqZ 5 16) (seqZ 1 12) 3 [23; 3; 3; 0; 20] out = (inr 23, Some [1; 2; 3; 23]).
Proof.
  apply (@open_seal ToyTls.aead ToyTls.aead_laws (seqZ 5 16) (seqZ 1 12) 3 [23; 3; 3; 0; 20] [1; 2; 3] 23);
    [done|done| |unfold is_byte; lia].
  repeat constructor; unfold is_byte; lia.
Defined.

Lemma open_refuses_witness :
  tls13_open (seqZ 5 16) (seqZ 1 12) 3 [] (zeros 20) = (inl EINVAL, Some (zeros 4)).
Proof.
  apply (@open_refuses ToyTls.aead ToyTls.aead_laws (seqZ 5 16) (seqZ 1 12) 3 [] (zeros 20) (5, rev (tls13_nonce (seqZ 1 12) 3)));
    [apply zeros_ok|vm_compute; lia|done|vm_compute; discriminate].
Defined.
End Witnesses.
