(* ===== verification/TlsHello.v ===== *)
(** * TLS 1.3 hello messages (net/tls.c, lines 299-590)

    The ClientHello that offers one pre-shared key, built into a buffer the way the
    code does it, with lengths filled in afterwards, and the parser of the ServerHello.
    The theorems: the ClientHello is the structure of RFC 8446 with a binder over its
    truncation; the parser never reads outside the message; it inverts the encoding. *)

From stdpp Require Import base list strings.
From Stdlib Require Import ZArith Lia.
From S2P Require Import Prelude Crypto TlsKeys.

(** ** ClientHello

    The state of the computation is the part of the buffer [ch] that is written, so its
    length is [off]; a store beyond the [max_len] bytes of the buffer is undefined. *)
Section ClientHello.
Context `{DigestOps} `{HkdfOps} (max_len : nat).
#[local] Abbreviation B := (M (list Z)).

(** [memcpy ( &ch[off], bytes, .. ); off += ..] *)
Definition put (bytes : list Z) : B unit :=
  let* off := gets length in
  if bool_decide (off + length bytes <= max_len)%nat then update (fun ch => ch ++ bytes) else fault.

(** [ch[i] = v], inside the part that is written. *)
Definition poke (i : nat) (v : Z) : B unit :=
  let* off := gets length in
  if bool_decide (i < off)%nat then update (fun ch => <[i := v]> ch) else fault.

(** Store the two bytes of a 16-bit length. *)
Definition poke16 (i : nat) (v : Z) : B unit :=
  do* poke i (u8 (Z.shiftr v 8)) in
  poke (i + 1) (Z.land v 0xff).

(** [needed] *)
Definition client_hello_needed (identity_len : nat) : nat :=
  let binder_list_len := (2 + 1 + digestsize sha256_algorithm)%nat in
  let entry_len := (2 + identity_len + 4)%nat in
  (4 + 2 + 32 + 1 + (2 + 2) + (1 + 1) + 2 + 7 + 8 + 38 + 6 + 4 + 2 + entry_len + binder_list_len)%nat.

(** The message up to the binders list, with zeros in place of the lengths; the result
    is the pair of [ext_len_off] and [psk_ext_off]. *)
Definition client_hello_body (random public_key identity : list Z) : B (nat * nat) :=
  do* put [TLS_CLIENT_HELLO; 0; 0; 0] in
  do* put (u16_bytes TLS_VERSION_TLS_1_2) in
  do* put random in
  do* put [0] in
  do* put ([0x00; 0x02] ++ u16_bytes TLS_AES_128_GCM_SHA256) in
  do* put [0x01; 0x00] in
  let* ext_len_off := gets length in
  do* put [0; 0] in
  do* put ([0x00; TLS_SUPPORTED_VERSIONS; 0x00; 0x03; 0x02] ++ u16_bytes TLS_VERSION_TLS_1_3) in
  do* put [0x00; TLS_NAMED_GROUP; 0x00; 0x04; 0x00; 0x02; 0x00; TLS_NAMED_GROUP_X25519] in
  do* put [0x00; TLS_KEY_SHARE; 0x00; 0x26; 0x00; 0x24; 0x00; TLS_NAMED_GROUP_X25519; 0x00; 0x20] in
  do* put public_key in
  do* put [0x00; TLS_PSK_KEY_EXCHANGE_MODES; 0x00; 0x02; 0x01; TLS_PSK_KEY_EXCHANGE_MODE_PSK_DHE] in
  let* psk_ext_off := gets length in
  do* put [0x00; TLS_PRE_SHARED_KEY; 0; 0; 0; 0] in
  do* put (u16_bytes (Z.of_nat (length identity))) in
  do* put identity in
  do* put [0; 0; 0; 0] in
  ret (ext_len_off, psk_ext_off).

(** Fill in the lengths (all of which include the binders list). *)
Definition client_hello_lengths (ext_len_off psk_ext_off identity_len : nat) : B unit :=
  let binder_list_len := (2 + 1 + digestsize sha256_algorithm)%nat in
  let entry_len := (2 + identity_len + 4)%nat in
  let* ident_end := gets length in
  let msg_len := Z.of_nat (ident_end - 4 + binder_list_len) in
  do* poke 1 (u8 (Z.shiftr msg_len 16)) in
  do* poke16 2 msg_len in
  do* poke16 (psk_ext_off + 4) (u16 (Z.of_nat entry_len)) in
  do* poke16 (psk_ext_off + 2) (u16 (Z.of_nat (2 + entry_len + binder_list_len))) in
  poke16 ext_len_off (u16 (Z.of_nat (ident_end - (ext_len_off + 2) + binder_list_len))).

(** [tls13_client_hello]: the final buffer is the message; [false] is the return value 0. *)
Definition tls13_client_hello (random public_key psk identity binder_label : list Z) : B bool :=
  let digest := sha256_algorithm in
  let identity_len := length identity in
  if bool_decide (0xffff < Z.of_nat identity_len \/ (max_len < client_hello_needed identity_len)%nat)
  then ret false else
  do* update (fun _ => []) in
  let* offsets := client_hello_body random public_key identity in
  do* client_hello_lengths offsets.1 offsets.2 identity_len in
  let early := tls13_early_secret digest (Some psk) in
  let* ch := get in
  let binder := tls13_binder digest early binder_label ch in
  do* put [0x00; u8 (Z.of_nat (1 + digestsize digest)); u8 (Z.of_nat (digestsize digest))] in
  do* put binder in
  ret true.
End ClientHello.

(** ** ServerHello (struct tls13_server_hello, tls13_parse_server_hello) *)
Record tls13_server_hello : Type := ServerHello {
  sh_cipher_suite : Z;
  sh_version : Z;
  sh_selected_identity : Z;
  sh_has_psk : bool;
  sh_public_key : list Z;
  sh_has_key_share : bool;
}.

#[export] Instance eta_server_hello : Eta tls13_server_hello :=
  fun s => ServerHello (sh_cipher_suite s) (sh_version s) (sh_selected_identity s) (sh_has_psk s)
             (sh_public_key s) (sh_has_key_share s).

Definition zero_server_hello : tls13_server_hello := ServerHello 0 0 0 false (zeros 32) false.

Section Parse.
Context (sh : list Z).
#[local] Abbreviation P := (M tls13_server_hello).

(** [sh[i]], and [( ( uint16_t ) sh[i] << 8 ) | sh[i+1]]: undefined outside the message. *)
Definition rd (i : nat) : P Z := of_option (sh !! i).
Definition rd16 (i : nat) : P Z :=
  let* hi := rd i in
  let* lo := rd (i + 1) in
  ret (Z.lor (Z.shiftl hi 8) lo).

(** One extension of the loop, its data at [pos]. *)
Definition parse_extension (ext_type ext_len : Z) (pos : nat) : P status :=
  if ext_type =? TLS_SUPPORTED_VERSIONS then
    if negb (ext_len =? 2) then ret (Err EINVAL) else
    let* v := rd16 pos in
    do* update (fun o => o <| sh_version := v |>) in
    ret OK
  else if ext_type =? TLS_PRE_SHARED_KEY then
    if negb (ext_len =? 2) then ret (Err EINVAL) else
    let* v := rd16 pos in
    do* update (fun o => o <| sh_selected_identity := v |> <| sh_has_psk := true |>) in
    ret OK
  else if ext_type =? TLS_KEY_SHARE then
    if negb (ext_len =? 4 + 32) then ret (Err EINVAL) else
    let* group := rd16 pos in
    if negb (group =? TLS_NAMED_GROUP_X25519) then ret (Err EINVAL) else
    let* klen := rd16 (pos + 2) in
    if negb (klen =? 32) then ret (Err EINVAL) else
    let* key := of_option (read (pos + 4) 32 sh) in
    do* update (fun o => o <| sh_public_key := key |> <| sh_has_key_share := true |>) in
    ret OK
  else ret OK.

(** The loop over the extensions; every turn consumes at least four bytes. *)
Fixpoint parse_extensions (fuel pos exts_len : nat) : P status :=
  if (exts_len =? 0)%nat then ret OK else
  match fuel with
  | O => fun _ => NoFuel
  | S fuel =>
      if (exts_len <? 4)%nat then ret (Err EINVAL) else
      let* ext_type := rd16 pos in
      let* ext_len := rd16 (pos + 2) in
      let pos := (pos + 4)%nat in
      let exts_len := (exts_len - 4)%nat in
      if (exts_len <? Z.to_nat ext_len)%nat then ret (Err EINVAL) else
      try* parse_extension ext_type ext_len pos in
      parse_extensions fuel (pos + Z.to_nat ext_len) (exts_len - Z.to_nat ext_len)
  end.

Definition tls13_parse_server_hello : P status :=
  let len := length sh in
  do* update (fun _ => zero_server_hello) in
  if (len <? 4)%nat then ret (Err EINVAL) else
  let* ty := rd 0 in
  if negb (ty =? TLS_SERVER_HELLO) then ret (Err EINVAL) else
  let* b1 := rd 1 in
  let* b2 := rd 2 in
  let* b3 := rd 3 in
  let body_len := Z.to_nat (Z.lor (Z.lor (Z.shiftl b1 16) (Z.shiftl b2 8)) b3) in
  if (len <? 4 + body_len)%nat then ret (Err EINVAL) else
  let end_ := (4 + body_len)%nat in
  let pos := 4%nat in
  if (end_ <? pos + 2 + 32)%nat then ret (Err EINVAL) else
  let pos := (pos + (2 + 32))%nat in
  if (end_ <? pos + 1)%nat then ret (Err EINVAL) else
  let* sid := rd pos in
  let session_id_len := Z.to_nat sid in
  let pos := (pos + 1)%nat in
  if (end_ <? pos + session_id_len)%nat then ret (Err EINVAL) else
  let pos := (pos + session_id_len)%nat in
  if (end_ <? pos + 3)%nat then ret (Err EINVAL) else
  let* suite := rd16 pos in
  do* update (fun o => o <| sh_cipher_suite := suite |>) in
  let pos := (pos + 3)%nat in
  if (end_ <? pos + 2)%nat then ret (Err EINVAL) else
  let* exts := rd16 pos in
  let exts_len := Z.to_nat exts in
  let pos := (pos + 2)%nat in
  if (end_ <? pos + exts_len)%nat then ret (Err EINVAL) else
  parse_extensions exts_len pos exts_len.
End Parse.

(** ** The structures of RFC 8446

    A vector with a length of [n] bytes, and an extension. *)
Definition vec (n : nat) (l : list Z) : list Z := be_bytes n (Z.of_nat (length l)) ++ l.
Definition extension (ty : Z) (data : list Z) : list Z := be_bytes 2 ty ++ vec 2 data.

(** The ClientHello of section 4.1.2 with the extensions 4.2.1, 4.2.7 to 4.2.9, 4.2.11. *)
Definition client_hello_extensions (public_key identity binder : list Z) : list Z :=
  extension 43 (vec 1 (be_bytes 2 0x0304)) ++
  extension 10 (vec 2 (be_bytes 2 0x001d)) ++
  extension 51 (vec 2 (be_bytes 2 0x001d ++ vec 2 public_key)) ++
  extension 45 (vec 1 [1]) ++
  extension 41 (vec 2 (vec 2 identity ++ [0; 0; 0; 0]) ++ vec 2 (vec 1 binder)).
Definition client_hello_msg (random public_key identity binder : list Z) : list Z :=
  [1] ++ vec 3 (be_bytes 2 0x0303 ++ random ++ vec 1 [] ++ vec 2 (be_bytes 2 0x1301) ++ vec 1 [0] ++
                vec 2 (client_hello_extensions public_key identity binder)).

Lemma u16_bytes_be v : 0 <= v < 65536 -> u16_bytes v = be_bytes 2 v.
Proof.
  intros Hv. unfold u16_bytes, be_bytes, le_bytes, reverse, rev_append, u8.
  rewrite Z.shiftr_div_pow2 by lia. change 0xff with (Z.ones 8). rewrite Z.land_ones by lia. done.
Qed.

Lemma u24_bytes_be v : 0 <= v < 2 ^ 24 ->
  [u8 (Z.shiftr v 16); u8 (Z.shiftr v 8); Z.land v 0xff] = be_bytes 3 v.
Proof.
  intros Hv. unfold be_bytes, le_bytes, reverse, rev_append, u8.
  rewrite !Z.shiftr_div_pow2 by lia. change 0xff with (Z.ones 8). rewrite Z.land_ones by lia.
  rewrite Z.div_div by lia. done.
Qed.

Lemma lor_bytes2 a b : is_byte a -> is_byte b -> Z.lor (Z.shiftl a 8) b = be_val [a; b].
Proof.
  unfold is_byte. intros Ha Hb. rewrite lor_shiftl_add by lia.
  unfold be_val, reverse, rev_append, le_val. lia.
Qed.

Lemma lor_bytes3 a b c : is_byte a -> is_byte b -> is_byte c ->
  Z.lor (Z.lor (Z.shiftl a 16) (Z.shiftl b 8)) c = be_val [a; b; c].
Proof.
  unfold is_byte. intros Ha Hb Hc. change 16 with (8 + 8). rewrite <-Z.shiftl_shiftl, <-Z.shiftl_lor by lia.
  rewrite (lor_shiftl_add 8 a b), lor_shiftl_add by lia.
  unfold be_val, reverse, rev_append, le_val. lia.
Qed.

Lemma vec1_eq l n : length l = n -> Z.of_nat n < 256 -> vec 1 l = Z.of_nat n :: l.
Proof.
  intros <- Hn. unfold vec, be_bytes, le_bytes, reverse, rev_append. rewrite Z.mod_small by lia. done.
Qed.

Lemma vec2_eq l n : length l = n -> Z.of_nat n < 65536 -> vec 2 l = u16_bytes (Z.of_nat n) ++ l.
Proof. intros <- Hn. unfold vec. rewrite u16_bytes_be by lia. done. Qed.

Lemma vec3_eq l n : length l = n -> Z.of_nat n < 65536 ->
  vec 3 l = u8 (Z.shiftr (Z.of_nat n) 16) :: u16_bytes (Z.of_nat n) ++ l.
Proof. intros <- Hn. unfold vec. rewrite <-u24_bytes_be by lia. done. Qed.

Lemma vec_length n l : length (vec n l) = (n + length l)%nat.
Proof. unfold vec. len. Qed.

Lemma extension_length ty l : length (extension ty l) = (4 + length l)%nat.
Proof. unfold extension. rewrite length_app, vec_length. len. Qed.

#[export] Hint Rewrite vec_length extension_length : fw_len.

Lemma client_hello_extensions_length public_key identity binder :
  length public_key = 32%nat -> length binder = 32%nat ->
  length (client_hello_extensions public_key identity binder) = (110 + length identity)%nat.
Proof. intros. unfold client_hello_extensions. len. Qed.

(** ** The ClientHello is the structure *)
Section ClientHelloSpec.
Context (max_len : nat).
Implicit Types (ch bytes : list Z).

Lemma wp_put F bytes (Q : unit -> list Z -> Prop) ch :
  (length ch + length bytes <= max_len)%nat -> Q tt (ch ++ bytes) -> wp F (put max_len bytes) Q ch.
Proof. intros Hl HQ. unfold put. apply wp_bind, wp_gets. rewrite bool_decide_true by done. by apply wp_update. Qed.

Lemma put_fault bytes ch : (max_len < length ch + length bytes)%nat -> put max_len bytes ch = Fault.
Proof. intros Hl. unfold put, bind, gets. by rewrite bool_decide_false by lia. Qed.

Lemma wp_poke F i v (Q : unit -> list Z -> Prop) ch :
  (i < length ch)%nat -> Q tt (<[i := v]> ch) -> wp F (poke i v) Q ch.
Proof. intros Hl HQ. unfold poke. apply wp_bind, wp_gets. rewrite bool_decide_true by done. by apply wp_update. Qed.

Lemma wp_poke16 F i v (Q : unit -> list Z -> Prop) ch :
  (i + 1 < length ch)%nat -> Q tt (<[(i + 1)%nat := Z.land v 0xff]> (<[i := u8 (Z.shiftr v 8)]> ch)) ->
  wp F (poke16 i v) Q ch.
Proof.
  intros Hl HQ. unfold poke16. apply wp_bind, wp_poke; [lia|].
  apply wp_poke; [by rewrite length_insert|done].
Qed.

(** The message before the lengths are known. *)
Definition blank_hello (random public_key identity : list Z) : list Z :=
  [1; 0; 0; 0; 3; 3] ++ random ++ [0; 0; 2; 0x13; 1; 1; 0; 0; 0; 0; 43; 0; 3; 2; 3; 4; 0; 10; 0; 4; 0; 2; 0; 29;
    0; 51; 0; 38; 0; 36; 0; 29; 0; 32] ++ public_key ++
  [0; 45; 0; 2; 1; 1; 0; 41; 0; 0; 0; 0] ++ u16_bytes (Z.of_nat (length identity)) ++ identity ++ [0; 0; 0; 0].

Lemma client_hello_body_spec random public_key identity :
  length random = 32%nat -> length public_key = 32%nat -> (122 + length identity <= max_len)%nat ->
  client_hello_body max_len random public_key identity [] =
    Ret (45%nat, 110%nat) (blank_hello random public_key identity).
Proof.
  intros Hr Hp Hl.
  assert (wp False (client_hello_body max_len random public_key identity)
    (fun r ch => r = (45%nat, 110%nat) /\ ch = blank_hello random public_key identity) []) as Hw.
  { unfold client_hello_body, u16_bytes.
    do 17 (apply wp_bind; first [apply wp_put; [len|]|apply wp_gets]). apply wp_bind, wp_put; [len|].
    apply wp_ret. split; [f_equal; len|]. unfold blank_hello, u16_bytes. by rewrite <-!app_assoc. }
  unfold wp in Hw. by destruct (client_hello_body _ _ _ _ _) as [r ch| |]; [destruct Hw as [-> ->]| |].
Qed.

(** Once the lengths are there, only the binder is missing. *)
Lemma client_hello_lengths_spec random public_key identity binder :
  length random = 32%nat -> length public_key = 32%nat -> length binder = 32%nat ->
  Z.of_nat (length identity) + 157 < 65536 ->
  wp False (client_hello_lengths 45 110 (length identity))
    (fun _ ch => ch ++ [0; 33; 32] ++ binder = client_hello_msg random public_key identity binder)
    (blank_hello random public_key identity).
Proof.
  intros Hr Hp Hb Hn. unfold client_hello_lengths, client_hello_msg. cbn [digestsize].
  rewrite (vec1_eq [] 0), (vec1_eq [0] 1), (vec2_eq (be_bytes 2 0x1301) 2) by (done || lia).
  pose proof (client_hello_extensions_length public_key identity binder Hp Hb) as Hel.
  rewrite (vec2_eq (client_hello_extensions _ _ _) _ Hel) by lia.
  rewrite (vec3_eq _ (153 + length identity)) by (unfold u16_bytes; len || lia).
  unfold client_hello_extensions, extension.
  rewrite (vec2_eq (vec 2 _ ++ _) (2 + (2 + length identity + 4) + 35)) by len.
  rewrite (vec2_eq (vec 2 identity ++ _) (2 + length identity + 4)) by len.
  rewrite (vec2_eq identity _ eq_refl) by lia.
  rewrite (vec2_eq (vec 1 binder) 33), (vec1_eq binder 32) by len.
  assert (length (blank_hello random public_key identity) = (122 + length identity)%nat) as Hbl
    by (unfold blank_hello, u16_bytes; len).
  apply wp_bind, wp_gets. rewrite Hbl.
  apply wp_bind, wp_poke; [lia|].
  do 3 (apply wp_bind, wp_poke16; [rewrite !length_insert; lia|]). apply wp_poke16; [rewrite !length_insert; lia|].
  replace (122 + length identity - 4 + (2 + 1 + 32))%nat with (153 + length identity)%nat by lia.
  replace (122 + length identity - (45 + 2) + (2 + 1 + 32))%nat with (110 + length identity)%nat by lia.
  replace (2 + 1 + 32)%nat with 35%nat by lia.
  rewrite !(u16_id (Z.of_nat _)) by lia. clear Hel Hbl Hb.
  do 32 (destruct random as [|? random]; [discriminate Hr|]). destruct random; [|discriminate Hr].
  do 32 (destruct public_key as [|? public_key]; [discriminate Hp|]). destruct public_key; [|discriminate Hp].
  unfold blank_hello, u16_bytes.
  generalize (Z.of_nat (153 + length identity)) as m. generalize (Z.of_nat (110 + length identity)) as e.
  generalize (Z.of_nat (2 + (2 + length identity + 4) + 35)) as x.
  generalize (Z.of_nat (2 + length identity + 4)) as i. generalize (Z.of_nat (length identity)) as n. intros.
  rewrite <-!app_assoc. remember (identity ++ [0; 0; 0; 0]) as tl eqn:Htl. cbn [Nat.add insert list_insert app].
  subst tl. rewrite <-!app_assoc. reflexivity.
Qed.
End ClientHelloSpec.

Lemma client_hello_msg_length random public_key identity binder :
  length random = 32%nat -> length public_key = 32%nat -> length binder = 32%nat ->
  length (client_hello_msg random public_key identity binder) = (157 + length identity)%nat.
Proof.
  intros Hr Hp Hb. pose proof (client_hello_extensions_length public_key identity binder Hp Hb).
  unfold client_hello_msg. len.
Qed.

(** The whole ClientHello. *)
Lemma client_hello_spec `{DigestLaws} `{HkdfOps} max_len random public_key psk identity label buf :
  length random = 32%nat -> length public_key = 32%nat ->
  (157 + length identity <= max_len)%nat -> Z.of_nat max_len < 65536 ->
  exists ch, tls13_client_hello max_len random public_key psk identity label buf = Ret true ch /\
    length ch = (157 + length identity)%nat /\
    ch = client_hello_msg random public_key identity
      (tls13_binder sha256_algorithm (tls13_early_secret sha256_algorithm (Some psk)) label
         (take (122 + length identity) ch)).
Proof.
  intros Hr Hp Hl Hm.
  set (d := sha256_algorithm). set (early := tls13_early_secret d (Some psk)).
  assert (forall c, length (tls13_binder d early label c) = 32%nat) as Hb
    by (intros; apply hmac_final_length).
  assert (wp False (tls13_client_hello max_len random public_key psk identity label)
    (fun b ch => b = true /\ length ch = (157 + length identity)%nat /\
      ch = client_hello_msg random public_key identity (tls13_binder d early label (take (122 + length identity) ch))) buf) as Hw.
  { unfold tls13_client_hello. rewrite bool_decide_false by (unfold client_hello_needed; cbn [digestsize]; lia).
    apply wp_bind, wp_update. apply wp_bind.
    eapply wp_intro; [apply client_hello_body_spec; (done || lia)|]. cbn [fst snd]. apply wp_bind.
    pose proof (fun b Hb => client_hello_lengths_spec random public_key identity b Hr Hp Hb ltac:(lia)) as Hs.
    pose proof (Hs _ (Hb [])) as Hs0. unfold wp in Hs0 |- *.
    destruct (client_hello_lengths _ _ _ _) as [[] ch| |] eqn:Ec; [|done|done].
    specialize (Hs _ (Hb ch)). unfold wp in Hs. rewrite Ec in Hs.
    assert (length ch = (122 + length identity)%nat) as Hcl.
    { apply (f_equal length) in Hs0. rewrite client_hello_msg_length, !length_app, Hb in Hs0 by auto.
      cbn [length] in Hs0. lia. }
    apply wp_bind, wp_gets. apply wp_bind, wp_put; [cbn [length]; lia|].
    apply wp_bind, wp_put; [rewrite length_app; fold d early; rewrite Hb; cbn [length]; lia|].
    apply wp_ret. fold d early. split; [done|]. rewrite <-app_assoc. cbn [digestsize].
    change ([0; u8 (Z.of_nat (1 + digestsize d)); u8 (Z.of_nat (digestsize d))]) with [0; 33; 32].
    split; [rewrite !length_app, Hb; cbn [length]; lia|].
    rewrite <-Hcl, take_app_length at 1. done. }
  unfold wp in Hw. by destruct (tls13_client_hello _ _ _ _ _ _ _) as [b ch| |]; [destruct Hw as (-> & ? & ?); eauto| |].
Qed.

(** The ClientHello: when the buffer has room for it, [tls13_client_hello] produces
    exactly the message of RFC 8446, section 4.1.2, that offers TLS 1.3 with
    AES-128-GCM, X25519 and the given identity as its last extension; its binder is
    the one over the message without the binders list; and a buffer too small for the
    message by more than four bytes is refused. *)
Theorem client_hello_wellformed `{DigestLaws} `{HkdfOps} max_len random public_key psk identity label buf :
  length random = 32%nat -> length public_key = 32%nat -> Z.of_nat max_len < 65536 ->
  ((157 + length identity <= max_len)%nat ->
   exists ch, tls13_client_hello max_len random public_key psk identity label buf = Ret true ch /\
    length ch = (157 + length identity)%nat /\
    ch = client_hello_msg random public_key identity
      (tls13_binder sha256_algorithm (tls13_early_secret sha256_algorithm (Some psk)) label
         (take (122 + length identity) ch))) /\
  ((max_len < 153 + length identity)%nat ->
   tls13_client_hello max_len random public_key psk identity label buf = Ret false buf).
Proof.
  intros Hr Hp Hm. split; intros Hl; [by apply client_hello_spec|].
  unfold tls13_client_hello. by rewrite bool_decide_true by (unfold client_hello_needed; cbn [digestsize]; lia).
Qed.

(** The space check of [tls13_client_hello] counts 38 bytes for the key share
    extension, which takes 42: for an identity that leaves a buffer between 153 and 156
    bytes of room beyond it, the check passes and the binder is written past the end
    of the buffer.  With the 512 bytes that net/tls13.c provides these are the
    identities of 356 to 359 bytes. *)
Theorem client_hello_overflow `{DigestLaws} `{HkdfOps} max_len random public_key psk identity label buf :
  length random = 32%nat -> length public_key = 32%nat ->
  (client_hello_needed (length identity) <= max_len < 157 + length identity)%nat ->
  Z.of_nat max_len < 65532 ->
  tls13_client_hello max_len random public_key psk identity label buf = Fault.
Proof.
  intros Hr Hp [Hl Hl'] Hm. unfold client_hello_needed in Hl. cbn [digestsize] in Hl.
  set (d := sha256_algorithm). set (early := tls13_early_secret d (Some psk)).
  assert (forall c, length (tls13_binder d early label c) = 32%nat) as Hb
    by (intros; apply hmac_final_length).
  unfold tls13_client_hello. rewrite bool_decide_false by (unfold client_hello_needed; cbn [digestsize]; lia).
  unfold bind at 1, update. cbn. unfold bind at 1.
  rewrite client_hello_body_spec by (done || lia). cbn [fst snd]. unfold bind at 1.
  pose proof (client_hello_lengths_spec random public_key identity _ Hr Hp (Hb []) ltac:(lia)) as Hs.
  unfold wp in Hs. destruct (client_hello_lengths _ _ _ _) as [[] ch| |]; [|done|done].
  assert (length ch = (122 + length identity)%nat) as Hcl.
  { apply (f_equal length) in Hs. rewrite client_hello_msg_length, !length_app, Hb in Hs by auto.
    cbn [length] in Hs. lia. }
  unfold get, put, gets, update, bind. cbv beta iota. fold d early.
  rewrite bool_decide_true by (cbn [length]; lia).
  by rewrite bool_decide_false by (rewrite length_app, Hb; cbn [length]; lia).
Qed.

(** ** The ServerHello is parsed back

    Safety first: no read leaves the message, whatever it contains. *)
Section ParseSafe.
Context (sh : list Z).
Implicit Types (o : tls13_server_hello).

Definition hello_ok o : Prop := length (sh_public_key o) = 32%nat /\ bytes_ok (sh_public_key o).

Lemma wp_rd F i (Q : Z -> tls13_server_hello -> Prop) o :
  (i < length sh)%nat -> (forall v, sh !! i = Some v -> Q v o) -> wp F (rd sh i) Q o.
Proof. intros Hi HQ. apply wp_of_option; [auto|]. intros Hn%lookup_ge_None. lia. Qed.

Lemma wp_rd16 F i (Q : Z -> tls13_server_hello -> Prop) o :
  (i + 1 < length sh)%nat -> (forall v, Q v o) -> wp F (rd16 sh i) Q o.
Proof.
  intros Hi HQ. unfold rd16. apply wp_bind, wp_rd; [lia|]. intros. apply wp_bind, wp_rd; [lia|].
  intros. by apply wp_ret.
Qed.

Lemma parse_extension_safe ty elen pos o :
  bytes_ok sh -> hello_ok o -> (pos + Z.to_nat elen <= length sh)%nat ->
  wp False (parse_extension sh ty elen pos) (fun _ => hello_ok) o.
Proof.
  intros Hs Ho Hl. unfold parse_extension.
  repeat first [apply wp_rd16; [lia|intros]|apply wp_of_option; [intros ? [? ->]%read_inv|]|wp_step]; try done.
  all: repeat match goal with He : negb _ = false |- _ => apply negb_false_iff in He end.
  all: rewrite ?Z.eqb_eq in *; try lia.
  - split; cbn; [apply sub_length; lia|by apply sub_ok].
  - unfold read. by rewrite bool_decide_true by lia.
Qed.

Lemma parse_extensions_safe fuel pos n o :
  bytes_ok sh -> hello_ok o -> (n <= fuel)%nat -> (pos + n <= length sh)%nat ->
  wp False (parse_extensions sh fuel pos n) (fun _ => hello_ok) o.
Proof.
  intros Hs. revert pos n o. induction fuel as [|fuel IH]; intros pos n o Ho Hf Hl; cbn [parse_extensions].
  { destruct (Nat.eqb_spec n 0); [by apply wp_ret|lia]. }
  destruct (Nat.eqb_spec n 0); [by apply wp_ret|]. destruct (Nat.ltb_spec n 4); [by apply wp_ret|].
  apply wp_bind, wp_rd16; [lia|intros ty]. apply wp_bind, wp_rd16; [lia|intros elen].
  destruct (Nat.ltb_spec (n - 4) (Z.to_nat elen)); [by apply wp_ret|].
  apply wp_try. eapply wp_mono; [apply parse_extension_safe; [done|done|lia]|].
  intros [|e] o' Ho'; [|done]. apply IH; [done|lia|lia].
Qed.

Lemma parse_server_hello_ok o :
  bytes_ok sh -> wp False (tls13_parse_server_hello sh) (fun _ => hello_ok) o.
Proof.
  intros Hs. unfold tls13_parse_server_hello. apply wp_bind, wp_update.
  assert (hello_ok zero_server_hello) as Hz by (split; [done|apply zeros_ok]).
  repeat first [apply parse_extensions_safe; [done|done| |]|apply wp_rd16; [|intros]|apply wp_rd; [|intros]|wp_step]; try done.
  all: rewrite ?Nat.ltb_ge in *; try lia.
Qed.
End ParseSafe.

(** The meaning of an extension, and of a list of them: later ones override. *)
Definition apply_extension (e : Z * list Z) (o : tls13_server_hello) : status * tls13_server_hello :=
  let '(ty, data) := e in
  if ty =? 43 then
    if bool_decide (length data = 2%nat) then (OK, o <| sh_version := be_val data |>) else (Err EINVAL, o)
  else if ty =? 41 then
    if bool_decide (length data = 2%nat)
    then (OK, o <| sh_selected_identity := be_val data |> <| sh_has_psk := true |>) else (Err EINVAL, o)
  else if ty =? 51 then
    if bool_decide (length data = 36%nat /\ be_val (take 2 data) = 29 /\ be_val (sub 2 2 data) = 32)
    then (OK, o <| sh_public_key := drop 4 data |> <| sh_has_key_share := true |>) else (Err EINVAL, o)
  else (OK, o).

Fixpoint apply_extensions (l : list (Z * list Z)) (o : tls13_server_hello) : status * tls13_server_hello :=
  match l with
  | [] => (OK, o)
  | e :: l => match apply_extension e o with
              | (OK, o) => apply_extensions l o
              | (Err x, o) => (Err x, o)
              end
  end.

(** The ServerHello of RFC 8446, section 4.1.3. *)
Definition encode_extensions (l : list (Z * list Z)) : list Z :=
  concat (map (fun e => extension e.1 e.2) l).
Definition server_hello_msg (random sid : list Z) (suite comp : Z) (exts : list (Z * list Z)) : list Z :=
  [2] ++ vec 3 (be_bytes 2 0x0303 ++ random ++ vec 1 sid ++ be_bytes 2 suite ++ [comp] ++
                vec 2 (encode_extensions exts)).

(** An extension that can be encoded. *)
Definition ext_ok (e : Z * list Z) : Prop :=
  0 <= e.1 < 65536 /\ bytes_ok e.2 /\ Z.of_nat (length e.2) < 65536.

Lemma byte_pair v : 0 <= v < 65536 -> exists a b, be_bytes 2 v = [a; b] /\ is_byte a /\ is_byte b /\ be_val [a; b] = v.
Proof.
  intros Hv. pose proof (be_bytes_ok 2 v) as Hok. pose proof (be_val_bytes 2 v) as Hval.
  pose proof (be_bytes_length 2 v) as Hl. destruct (be_bytes 2 v) as [|a [|b [|]]]; try discriminate Hl.
  apply Forall_cons in Hok as [Ha [Hb _]%Forall_cons]. exists a, b. rewrite Hval, Z.mod_small by lia. done.
Qed.

Lemma rd_at pre v post (o : tls13_server_hello) : rd (pre ++ v :: post) (length pre) o = Ret v o.
Proof. unfold rd. by rewrite list_lookup_middle. Qed.

Lemma rd_eq sh i v (o : tls13_server_hello) : sh !! i = Some v -> rd sh i o = Ret v o.
Proof. unfold rd. by intros ->. Qed.

Lemma rd16_bytes pre data post i (o : tls13_server_hello) :
  bytes_ok data -> (i + 2 <= length data)%nat ->
  rd16 (pre ++ data ++ post) (length pre + i) o = Ret (be_val (sub i 2 data)) o.
Proof.
  intros Hd Hi. destruct (lookup_lt_is_Some_2 data i) as [a Ha]; [lia|].
  destruct (lookup_lt_is_Some_2 data (i + 1)) as [b Hb]; [lia|].
  assert (forall j x, data !! j = Some x -> (pre ++ data ++ post) !! (length pre + j)%nat = Some x) as Hlk.
  { intros j x Hx. rewrite lookup_app_r by lia. replace (length pre + j - length pre)%nat with j by lia.
    by apply lookup_app_l_Some. }
  unfold rd16, bind. rewrite (rd_eq _ _ a) by auto. rewrite <-Nat.add_assoc, (rd_eq _ _ b) by auto.
  rewrite lor_bytes2 by (by eapply Forall_lookup_1; [exact Hd|]). unfold ret. do 2 f_equal. unfold sub.
  rewrite (drop_S _ a) by done. cbn [take]. f_equal. rewrite Nat.add_1_r in Hb. by rewrite (drop_S _ b).
Qed.

Lemma rd16_at pre v post n (o : tls13_server_hello) :
  0 <= v < 65536 -> n = length pre -> rd16 (pre ++ be_bytes 2 v ++ post) n o = Ret v o.
Proof.
  intros Hv ->. rewrite <-(Nat.add_0_r (length pre)), rd16_bytes by (auto using be_bytes_ok; len).
  unfold sub. rewrite drop_0, take_ge by len. rewrite be_val_bytes, Z.mod_small by lia. done.
Qed.

Lemma parse_extension_at pre ty data post (o : tls13_server_hello) :
  ext_ok (ty, data) ->
  parse_extension (pre ++ data ++ post) ty (Z.of_nat (length data)) (length pre) o =
    Ret (apply_extension (ty, data) o).1 (apply_extension (ty, data) o).2.
Proof.
  intros (Hty & Hd & Hl). cbn [fst snd] in *. unfold parse_extension, apply_extension.
  assert (length data = 2%nat -> sub 0 2 data = data) as Hs2 by (intros <-; apply sub_all).
  change TLS_SUPPORTED_VERSIONS with 43. change TLS_PRE_SHARED_KEY with 41. change TLS_KEY_SHARE with 51.
  destruct (Z.eqb_spec ty 43); [|destruct (Z.eqb_spec ty 41); [|destruct (Z.eqb_spec ty 51); [|done]]].
  1,2: case_bool_decide as Hc; [|by rewrite (proj2 (Z.eqb_neq _ _)) by lia];
    rewrite (proj2 (Z.eqb_eq _ _)) by lia; cbn [negb]; unfold bind;
    rewrite <-(Nat.add_0_r (length pre)), rd16_bytes, Hs2 by (done || lia); done.
  case_bool_decide as Hc.
  - destruct Hc as (Hc1 & Hc2 & Hc3). rewrite (proj2 (Z.eqb_eq _ _)) by lia. cbn [negb]. unfold bind.
    rewrite <-(Nat.add_0_r (length pre)) at 1. rewrite rd16_bytes by (done || lia).
    unfold sub at 1. rewrite drop_0, Hc2. cbn [negb Z.eqb TLS_NAMED_GROUP_X25519 Pos.eqb].
    rewrite rd16_bytes, Hc3 by (done || lia). cbn [negb Z.eqb Pos.eqb].
    unfold of_option, read. rewrite bool_decide_true by len. cbn [ret].
    unfold sub. rewrite drop_app_ge by lia. replace (length pre + 4 - length pre)%nat with 4%nat by lia.
    rewrite drop_app_le, take_app_le, take_ge by len. done.
  - destruct (Z.eqb_spec (Z.of_nat (length data)) (4 + 32)) as [He|]; [|done]. cbn [negb]. unfold bind.
    rewrite <-(Nat.add_0_r (length pre)) at 1. rewrite rd16_bytes by (done || lia).
    unfold sub at 1. rewrite drop_0. destruct (Z.eqb_spec (be_val (take 2 data)) TLS_NAMED_GROUP_X25519) as [Hg|]; [|done].
    cbn [negb]. rewrite rd16_bytes by (done || lia).
    destruct (Z.eqb_spec (be_val (sub 2 2 data)) 32) as [Hk|]; [|done]. destruct Hc. split_and!; [lia|done|done].
Qed.

Lemma parse_extensions_at pre l post fuel (o : tls13_server_hello) :
  Forall ext_ok l -> (length (encode_extensions l) <= fuel)%nat ->
  parse_extensions (pre ++ encode_extensions l ++ post) fuel (length pre) (length (encode_extensions l)) o =
    Ret (apply_extensions l o).1 (apply_extensions l o).2.
Proof.
  intros Hl. revert pre fuel o. induction Hl as [|[ty data] l Hd _ IH]; intros pre fuel o Hf.
  { by destruct fuel. }
  pose proof Hd as (Hty & Hok & Hlen). cbn [fst snd] in *.
  assert (encode_extensions ((ty, data) :: l) = be_bytes 2 ty ++ be_bytes 2 (Z.of_nat (length data)) ++ data ++ encode_extensions l) as He.
  { unfold encode_extensions. cbn [map concat]. unfold extension, vec. cbn [fst snd]. by rewrite <-!app_assoc. }
  set (n := length (encode_extensions ((ty, data) :: l))) in *.
  assert (n = 4 + (length data + length (encode_extensions l)))%nat as Hn by (unfold n; rewrite He; len).
  destruct fuel as [|fuel]; [lia|]. cbn [parse_extensions].
  rewrite (proj2 (Nat.eqb_neq n 0)), (proj2 (Nat.ltb_ge n 4)) by lia. unfold bind. rewrite He, <-!app_assoc.
  rewrite rd16_at by done.
  rewrite (app_assoc pre (be_bytes 2 ty)). rewrite rd16_at by len. rewrite Nat2Z.id.
  rewrite (proj2 (Nat.ltb_ge _ _)) by lia. unfold try, bind.
  rewrite (app_assoc (pre ++ be_bytes 2 ty)). set (pre' := (pre ++ be_bytes 2 ty) ++ be_bytes 2 (Z.of_nat (length data))).
  assert (length pre + 4 = length pre')%nat as -> by (unfold pre'; len).
  rewrite parse_extension_at by done. cbn [apply_extensions].
  destruct (apply_extension (ty, data) o) as [[|e] o']; cbn [fst snd]; [|done].
  rewrite (app_assoc pre' data). rewrite <-IH with (pre := pre' ++ data) (fuel := fuel) by lia.
  f_equal; [by rewrite length_app|lia].
Qed.

(** Parsing a whole message. *)
Lemma parse_spec random sid suite comp exts rest o :
  length random = 32%nat -> Z.of_nat (length sid) < 256 -> 0 <= suite < 65536 ->
  Forall ext_ok exts -> Z.of_nat (length (encode_extensions exts)) < 65536 ->
  let r := apply_extensions exts (zero_server_hello <| sh_cipher_suite := suite |>) in
  tls13_parse_server_hello (server_hello_msg random sid suite comp exts ++ rest) o = Ret r.1 r.2.
Proof.
  intros Hr Hsid Hsuite Hexts Hel r.
  set (body := be_bytes 2 0x0303 ++ random ++ vec 1 sid ++ be_bytes 2 suite ++ [comp] ++ vec 2 (encode_extensions exts)).
  assert (length body = 40 + length sid + length (encode_extensions exts))%nat as Hbl by (unfold body; len).
  set (n := Z.of_nat (length body)).
  destruct (be_bytes 3 n) as [|b1 [|b2 [|b3 [|]]]] eqn:Eb; try (pose proof (be_bytes_length 3 n) as Hx; rewrite Eb in Hx; discriminate Hx).
  pose proof (be_bytes_ok 3 n) as Hbo. rewrite Eb in Hbo.
  apply Forall_cons in Hbo as [Hb1 [Hb2 [Hb3 _]%Forall_cons]%Forall_cons].
  pose proof (be_val_bytes 3 n) as Hbv. rewrite Eb, Z.mod_small in Hbv by (unfold n; lia).
  assert (server_hello_msg random sid suite comp exts = 2 :: b1 :: b2 :: b3 :: body) as ->.
  { unfold server_hello_msg. fold body. unfold vec. fold n. by rewrite Eb. }
  set (sh := (2 :: b1 :: b2 :: b3 :: body) ++ rest).
  assert (length sh = 4 + length body + length rest)%nat as Hsl by (unfold sh; len).
  set (P1 := [2; b1; b2; b3] ++ be_bytes 2 0x0303 ++ random).
  set (P2 := P1 ++ Z.of_nat (length sid) :: sid). set (P3 := P2 ++ be_bytes 2 suite ++ [comp]).
  set (P4 := P3 ++ be_bytes 2 (Z.of_nat (length (encode_extensions exts)))).
  assert (length P1 = 38 /\ length P2 = 39 + length sid /\ length P3 = 42 + length sid /\
    length P4 = 44 + length sid)%nat as (Hl1 & Hl2 & Hl3 & Hl4) by (unfold P4, P3, P2, P1; split_and!; len).
  assert (sh = P4 ++ encode_extensions exts ++ rest) as E4.
  { unfold sh, body, P4, P3, P2, P1. rewrite (vec1_eq sid (length sid)) by (done || lia). unfold vec. by simplify_list_eq. }
  assert (sh = P3 ++ be_bytes 2 (Z.of_nat (length (encode_extensions exts))) ++ encode_extensions exts ++ rest) as E3
    by (rewrite E4; unfold P4; by simplify_list_eq).
  assert (sh = P2 ++ be_bytes 2 suite ++ comp :: be_bytes 2 (Z.of_nat (length (encode_extensions exts))) ++ encode_extensions exts ++ rest) as E2
    by (rewrite E3; unfold P3; by simplify_list_eq).
  assert (sh !! 38%nat = Some (Z.of_nat (length sid))) as E1.
  { rewrite E2. unfold P2. rewrite <-app_assoc, <-Hl1. cbn [app]. by apply list_lookup_middle. }
  clearbody P1 P2 P3 P4.
  assert (wp False (tls13_parse_server_hello sh) (fun rc o' => rc = r.1 /\ o' = r.2) o) as Hw.
  { unfold tls13_parse_server_hello. apply wp_bind, wp_update. rewrite (proj2 (Nat.ltb_ge _ _)) by lia.
    apply wp_bind. eapply wp_intro; [by apply rd_eq|]. cbn [negb Z.eqb TLS_SERVER_HELLO Pos.eqb].
    apply wp_bind. eapply wp_intro; [by apply rd_eq|]. apply wp_bind. eapply wp_intro; [by apply rd_eq|].
    apply wp_bind. eapply wp_intro; [by apply rd_eq|].
    rewrite lor_bytes3, Hbv by done. unfold n. rewrite Nat2Z.id.
    do 2 rewrite (proj2 (Nat.ltb_ge _ _)) by lia. rewrite (proj2 (Nat.ltb_ge _ (4 + 34 + 1))) by lia.
    apply wp_bind. eapply wp_intro; [by apply rd_eq|]. rewrite Nat2Z.id.
    do 2 rewrite (proj2 (Nat.ltb_ge _ _)) by lia.
    apply wp_bind. eapply wp_intro; [rewrite E2; apply rd16_at; [done|lia]|].
    apply wp_bind, wp_update. rewrite (proj2 (Nat.ltb_ge _ _)) by lia.
    apply wp_bind. eapply wp_intro; [rewrite E3; apply rd16_at; lia|]. rewrite Nat2Z.id.
    rewrite (proj2 (Nat.ltb_ge _ _)) by lia. rewrite E4.
    replace (4 + (2 + 32) + 1 + length sid + 3 + 2)%nat with (length P4) by lia.
    eapply wp_intro; [by apply parse_extensions_at|]. done. }
  unfold wp in Hw. by destruct (tls13_parse_server_hello sh o) as [rc o'| |]; [destruct Hw as [-> ->]| |].
Qed.

(** The parser inverts the encoding: for every ServerHello of RFC 8446, with any
    session identifier, any extensions in any order and anything after it, the
    result and the status are those of its extensions; in particular unknown
    extensions are skipped and a malformed known one is an error. *)
Theorem parse_server_hello_msg random sid suite comp exts rest o :
  length random = 32%nat -> Z.of_nat (length sid) < 256 -> 0 <= suite < 65536 ->
  Forall ext_ok exts -> Z.of_nat (length (encode_extensions exts)) < 65536 ->
  let r := apply_extensions exts (zero_server_hello <| sh_cipher_suite := suite |>) in
  tls13_parse_server_hello (server_hello_msg random sid suite comp exts ++ rest) o = Ret r.1 r.2.
Proof. apply parse_spec. Qed.

Section Witnesses.
#[local] Existing Instances Toy.digest Toy.digest_laws ToyTls.hkdf.

Lemma client_hello_wellformed_witness :
  ((157 + length (bstr "NVMe0R01") <= 512)%nat ->
   exists ch, tls13_client_hello 512 (zeros 32) (zeros 32) [1; 2; 3] (bstr "NVMe0R01") (bstr "ext binder") [] = Ret true ch /\
    length ch = (157 + length (bstr "NVMe0R01"))%nat /\
    ch = client_hello_msg (zeros 32) (zeros 32) (bstr "NVMe0R01")
      (tls13_binder sha256_algorithm (tls13_early_secret sha256_algorithm (Some [1; 2; 3])) (bstr "ext binder")
         (take (122 + length (bstr "NVMe0R01")) ch))) /\
  ((512 < 153 + length (bstr "NVMe0R01"))%nat ->
   tls13_client_hello 512 (zeros 32) (zeros 32) [1; 2; 3] (bstr "NVMe0R01") (bstr "ext binder") [] = Ret false []).
Proof. by apply (client_hello_wellformed 512 (zeros 32) (zeros 32) [1; 2; 3] (bstr "NVMe0R01")). Defined.

Lemma client_hello_overflow_witness :
  tls13_client_hello 512 (zeros 32) (zeros 32) [1; 2; 3] (zeros 356) (bstr "ext binder") [] = Fault.
Proof.
  by apply (client_hello_overflow 512 (zeros 32) (zeros 32) [1; 2; 3] (zeros 356));
    unfold zeros, client_hello_needed; rewrite ?length_replicate; cbn [digestsize]; try lia.
Defined.

(** A supported version, an unknown extension, and a key share that is too short. *)
Lemma parse_server_hello_msg_witness :
  tls13_parse_server_hello (server_hello_msg (zeros 32) [] 0x1301 0 [(43, [3; 4]); (99, []); (51, [0; 29])] ++ [7])
    zero_server_hello = Ret (Err EINVAL) (ServerHello 0x1301 0x0304 0 false (zeros 32) false).
Proof.
  apply (parse_server_hello_msg (zeros 32) [] 0x1301 0 [(43, [3; 4]); (99, []); (51, [0; 29])] [7]); cbn; try lia; try done.
  repeat constructor; unfold is_byte; cbn; lia.
Defined.
End Witnesses.
