(* ===== verification/TlsPsk.v ===== *)
(** * TLS 1.3 pre-shared key connection (net/tls13.c; net/tls.c, lines 752-895)

    [tls13_psk] is struct tls13_psk, with the handshake context it embeds; its last
    three members stand for the iPXE core: whether the interfaces were shut down, what
    was said on them, and how often the environment was consulted.  [tls_env] answers
    the consultations.  One definition per function of the source.

    The consumer above the filter may react to data with data of its own and by
    closing the connection; it answers a window notification by scheduling itself, as
    nvmetcp.c does, so a notification is only an event.  What is said on an interface
    that was shut down reaches nobody. *)

From stdpp Require Import base list strings.
From Stdlib Require Import ZArith Lia.
From S2P Require Import Prelude Crypto TlsKeys TlsHello.

(** ** Handshake context (include/ipxe/tls.h) *)
Definition TLS13_TRANSCRIPT_SIZE : nat := 1024.

Record tls13_key_pair : Type := KeyPair {
  private_key : list Z;
  public_key : list Z;
}.

Record tls13_handshake : Type := Handshake {
  hs_digest : digest_algorithm;
  binder_label : list Z;
  transcript : list Z;
  transcript_len : nat;
  key : tls13_key_pair;
  early : list Z;
  handshake : list Z;
  master : list Z;
}.

#[export] Instance eta_handshake : Eta tls13_handshake :=
  fun h => Handshake (hs_digest h) (binder_label h) (transcript h) (transcript_len h) (key h) (early h)
             (handshake h) (master h).

(** The messages so far. *)
Definition messages (h : tls13_handshake) : list Z := take (transcript_len h) (transcript h).

(** ** Connection (struct tls13_psk) *)
Definition TLS13_KEY_LEN : nat := 16.
Definition TLS13_MAX_CLIENT_HELLO : nat := 512.
Definition TLS13_MAX_PLAINTEXT : nat := Z.to_nat 8192.
Definition TLS13_MAX_RECORD : nat := 5 + TLS13_MAX_PLAINTEXT + 1 + 16.

Inductive tls13_psk_phase : Type :=
  | TLS13_PSK_CLIENT_HELLO
  | TLS13_PSK_SERVER_FLIGHT
  | TLS13_PSK_CLIENT_FINISHED
  | TLS13_PSK_DATA
  | TLS13_PSK_FAILED.

#[export] Instance tls13_psk_phase_eq_dec : EqDecision tls13_psk_phase.
Proof. solve_decision. Defined.

Inductive tls13_psk_direction : Type := TLS13_PSK_RX | TLS13_PSK_TX.

(** What the connection says to its neighbours. *)
Inductive tls_event : Type :=
  | Opened                       (* tls13_psk_open_socket *)
  | Plugged                      (* intf_plug_plug *)
  | Sent (record : list Z)       (* xfer_deliver_iob ( &tls->cipherstream ) *)
  | Delivered (data : list Z)    (* xfer_deliver_iob ( &tls->plainstream ) *)
  | WindowChanged                (* xfer_window_changed ( &tls->plainstream ) *)
  | Shutdown (rc : status).      (* intf_shutdown of both interfaces *)

Record tls13_psk : Type := Psk {
  digest : digest_algorithm;
  psk : list Z;
  identity : list Z;
  hs : tls13_handshake;
  phase : tls13_psk_phase;
  client_hs : list Z;
  server_hs : list Z;
  client_ap : list Z;
  server_ap : list Z;
  tx_key : list Z;
  tx_iv : list Z;
  rx_key : list Z;
  rx_iv : list Z;
  tx_seq : Z;
  rx_seq : Z;
  tx_iobuf : option (list Z);
  rx : list Z;
  rx_len : nat;
  shut : bool;
  events : list tls_event;
  tick : nat;
}.

#[export] Instance eta_tls13_psk : Eta tls13_psk :=
  fun s => Psk (digest s) (psk s) (identity s) (hs s) (phase s) (client_hs s) (server_hs s)
    (client_ap s) (server_ap s) (tx_key s) (tx_iv s) (rx_key s) (rx_iv s) (tx_seq s) (rx_seq s)
    (tx_iobuf s) (rx s) (rx_len s) (shut s) (events s) (tick s).

(** What [zalloc] and [memset] give. *)
Definition zero_handshake : tls13_handshake :=
  Handshake sha256_algorithm [] (zeros TLS13_TRANSCRIPT_SIZE) 0 (KeyPair (zeros 32) (zeros 32))
    (zeros 32) (zeros 32) (zeros 32).
Definition zero_psk : tls13_psk :=
  Psk sha256_algorithm [] [] zero_handshake TLS13_PSK_CLIENT_HELLO (zeros 32) (zeros 32) (zeros 32)
    (zeros 32) (zeros TLS13_KEY_LEN) (zeros TLS13_NONCE_LEN) (zeros TLS13_KEY_LEN)
    (zeros TLS13_NONCE_LEN) 0 0 None (zeros TLS13_MAX_RECORD) 0 false [] 0.

(** ** The environment *)
Record reaction : Type := Reaction {
  r_sends : list (list Z);        (* what the consumer sends before it returns *)
  r_close : option status;        (* whether it closes the connection *)
  r_rc : status;                  (* what it returns *)
}.

Record tls_env : Type := TlsEnv {
  rbg_generate : nat -> nat -> status * list Z;
  alloc_ok : nat -> bool;
  cipher_window : nat -> Z;
  consumer : nat -> list Z -> reaction;
  open_rc : nat -> status;
}.

Class TlsEnvLaws (E : tls_env) : Prop := {
  rbg_length n k : length (rbg_generate E n k).2 = k;
  rbg_ok n k : bytes_ok (rbg_generate E n k).2;
}.

(** ** The handshake context (net/tls.c) *)
Section HandshakeOps.
Context `{DigestOps} `{HkdfOps} `{ExchangeOps}.
#[local] Abbreviation C := (M tls13_handshake).

(** [tls13_generate_key], with the random bytes it is given. *)
Definition tls13_generate_key (random : status * list Z) : errno + tls13_key_pair :=
  match random.1 with
  | Err e => inl e
  | OK => match exchange_share x25519_algorithm random.2 with
          | (OK, pub) => inr (KeyPair random.2 pub)
          | (Err e, _) => inl e
          end
  end.

(** [tls13_shared_secret] *)
Definition tls13_shared_secret (private_key partner_key : list Z) : errno + list Z :=
  match exchange_agree x25519_algorithm private_key partner_key with
  | (OK, shared) => inr shared
  | (Err e, _) => inl e
  end.

(** [tls13_handshake_init] *)
Definition tls13_handshake_init (d : digest_algorithm) (psk : option (list Z)) (label : list Z)
  : tls13_handshake :=
  zero_handshake <| hs_digest := d |> <| binder_label := label |> <| early := tls13_early_secret d psk |>.

(** [tls13_handshake_update] *)
Definition tls13_handshake_update (msg : list Z) : C status :=
  let* n := gets transcript_len in
  if bool_decide (TLS13_TRANSCRIPT_SIZE < n + length msg)%nat then ret (Err ENOSPC) else
  let* t := gets transcript in
  let* t := of_option (memcpy n msg t) in
  do* update (fun h => h <| transcript := t |> <| transcript_len := (n + length msg)%nat |>) in
  ret OK.

(** [tls13_handshake_derive] *)
Definition tls13_handshake_derive (h : tls13_handshake) (secret label : list Z) : list Z :=
  tls13_derive_secret (hs_digest h) secret label (messages h).

(** [tls13_handshake_exchange] *)
Definition tls13_handshake_exchange (partner_key : list Z) : C status :=
  let* h := get in
  match tls13_shared_secret (private_key (key h)) partner_key with
  | inl e => ret (Err e)
  | inr shared =>
      do* update (fun h => h <| handshake := tls13_handshake_secret (hs_digest h) (early h) shared |>) in
      ret OK
  end.

(** [tls13_handshake_finished] *)
Definition tls13_handshake_finished (h : tls13_handshake) (secret : list Z) : list Z :=
  tls13_finished (hs_digest h) secret (messages h).

(** [tls13_handshake_master] *)
Definition tls13_handshake_master : C unit :=
  update (fun h => h <| master := tls13_master_secret (hs_digest h) (handshake h) |>).
End HandshakeOps.

(** ** The connection (net/tls13.c) *)
Section Connection.
Context `{DigestOps} `{HkdfOps} `{ExchangeOps} `{AeadOps} (E : tls_env).
#[local] Abbreviation T := (M tls13_psk).

Definition consult {A} (f : nat -> A) : T A := fun s => Ret (f (tick s)) (s <| tick ::= S |>).

(** Say something on an interface, unless it is unplugged. *)
Definition emit (e : tls_event) : T unit :=
  update (fun s => if shut s then s else s <| events ::= (fun l => l ++ [e]) |>).

(** [intf_shutdown] of both interfaces. *)
Definition intf_shutdown (rc : status) : T unit :=
  do* emit (Shutdown rc) in
  update (fun s => s <| shut := true |>).

(** Run an operation of the handshake context on the embedded one. *)
Definition on_hs {A} (m : M tls13_handshake A) : T A := fun s =>
  match m (hs s) with
  | Ret a h => Ret a (s <| hs := h |>)
  | Fault => Fault
  | NoFuel => NoFuel
  end.

(** [tls13_psk_set_key] *)
Definition tls13_psk_set_key (direction : tls13_psk_direction) (secret : list Z) : T unit :=
  let* d := gets digest in
  let '(key, iv) := tls13_traffic_key d secret TLS13_KEY_LEN TLS13_NONCE_LEN in
  update (fun s => match direction with
                   | TLS13_PSK_TX => s <| tx_key := key |> <| tx_iv := iv |>
                   | TLS13_PSK_RX => s <| rx_key := key |> <| rx_iv := iv |>
                   end).

(** The header of a record (struct tls13_psk_header). *)
Definition tls13_psk_header (type : Z) (len : nat) : list Z :=
  type :: u16_bytes TLS_VERSION_TLS_1_2 ++ u16_bytes (Z.of_nat len).

(** [tls13_psk_cipher_record] *)
Definition tls13_psk_cipher_record (type : Z) (data : list Z) : T (option (list Z)) :=
  let cipher_len := (length data + 1 + authsize)%nat in
  let* allocated := consult (alloc_ok E) in
  if negb allocated then ret None else
  let header := tls13_psk_header TLS_TYPE_DATA cipher_len in
  let* s := get in
  match tls13_seal (tx_key s) (tx_iv s) (tx_seq s) header data type with
  | None => ret None
  | Some out =>
      if negb (length out =? cipher_len)%nat then ret None else
      do* update (fun s => s <| tx_seq ::= (fun n => u64 (n + 1)) |>) in
      ret (Some (header ++ out))
  end.

(** [tls13_psk_client_hello] *)
Definition tls13_psk_client_hello : T (option (list Z)) :=
  let* random := consult (fun n => rbg_generate E n 32) in
  match random.1 with
  | Err _ => ret None
  | OK =>
      let* allocated := consult (alloc_ok E) in
      if negb allocated then ret None else
      let* s := get in
      match tls13_client_hello TLS13_MAX_CLIENT_HELLO random.2 (public_key (key (hs s))) (psk s)
              (identity s) (binder_label (hs s)) [] with
      | Ret true ch =>
          let header := tls13_psk_header TLS_TYPE_HANDSHAKE (length ch) in
          let* rc := on_hs (tls13_handshake_update ch) in
          match rc with
          | OK => ret (Some (header ++ ch))
          | Err _ => ret None
          end
      | Ret false _ => ret None
      | Fault => fault
      | NoFuel => fun _ => NoFuel
      end
  end.

(** [tls13_psk_fail] *)
Definition tls13_psk_fail (rc : status) : T unit :=
  let* p := gets phase in
  if bool_decide (p = TLS13_PSK_FAILED) then ret tt else
  do* update (fun s => s <| phase := TLS13_PSK_FAILED |>) in
  intf_shutdown rc.

(** The Finished message of the client. *)
Definition client_finished (s : tls13_psk) : list Z :=
  [TLS_FINISHED; 0; 0; 32] ++ tls13_handshake_finished (hs s) (client_hs s).

(** The first half of [tls13_psk_tx]: construct the next handshake record, if
    applicable; the result says whether to go on. *)
Definition tls13_psk_tx_construct : T bool :=
  let* s := get in
  match tx_iobuf s, phase s with
  | None, TLS13_PSK_CLIENT_HELLO =>
      let* iobuf := tls13_psk_client_hello in
      match iobuf with
      | None => do* tls13_psk_fail (Err EINVAL) in ret false
      | Some r =>
          do* update (fun s => s <| tx_iobuf := Some r |> <| phase := TLS13_PSK_SERVER_FLIGHT |>) in
          ret true
      end
  | None, TLS13_PSK_CLIENT_FINISHED =>
      let* iobuf := tls13_psk_cipher_record TLS_TYPE_HANDSHAKE (client_finished s) in
      match iobuf with
      | None => do* tls13_psk_fail (Err EINVAL) in ret false
      | Some r => do* update (fun s => s <| tx_iobuf := Some r |>) in ret true
      end
  | _, _ => ret true
  end.

(** Transmit any pending record, if the socket window allows. *)
Definition tls13_psk_tx_transmit : T unit :=
  let* pending := gets tx_iobuf in
  match pending with
  | None => ret tt
  | Some r =>
      let* window := consult (cipher_window E) in
      if window =? 0 then ret tt else
      do* update (fun s => s <| tx_iobuf := None |>) in
      do* emit (Sent r) in
      let* s := get in
      if negb (bool_decide (phase s = TLS13_PSK_CLIENT_FINISHED)) then ret tt else
      do* tls13_psk_set_key TLS13_PSK_TX (client_ap s) in
      update (fun s => s <| tx_seq := 0 |> <| phase := TLS13_PSK_DATA |>)
  end.

(** [tls13_psk_tx] *)
Definition tls13_psk_tx : T unit :=
  let* p := gets phase in
  if bool_decide (p = TLS13_PSK_FAILED) then ret tt else
  let* go := tls13_psk_tx_construct in
  if negb go then ret tt else
  do* tls13_psk_tx_transmit in
  emit WindowChanged.

(** [tls13_psk_server_hello] *)
Definition tls13_psk_server_hello (msg : list Z) : T status :=
  match tls13_parse_server_hello msg zero_server_hello with
  | Fault => fault
  | NoFuel => fun _ => NoFuel
  | Ret (Err e) _ => ret (Err e)
  | Ret OK hello =>
      if negb (sh_version hello =? TLS_VERSION_TLS_1_3) then ret (Err EINVAL) else
      if negb (sh_cipher_suite hello =? TLS_AES_128_GCM_SHA256) then ret (Err EINVAL) else
      if negb (sh_has_key_share hello) then ret (Err EINVAL) else
      if negb (sh_has_psk hello) then ret (Err EINVAL) else
      try* on_hs (tls13_handshake_update msg) in
      try* on_hs (tls13_handshake_exchange (sh_public_key hello)) in
      do* update (fun s => s <| client_hs := tls13_handshake_derive (hs s) (handshake (hs s)) (bstr "c hs traffic") |>) in
      do* update (fun s => s <| server_hs := tls13_handshake_derive (hs s) (handshake (hs s)) (bstr "s hs traffic") |>) in
      let* s := get in
      do* tls13_psk_set_key TLS13_PSK_TX (client_hs s) in
      do* tls13_psk_set_key TLS13_PSK_RX (server_hs s) in
      do* update (fun s => s <| tx_seq := 0 |> <| rx_seq := 0 |>) in
      ret OK
  end.

(** [tls13_psk_server_finished] *)
Definition tls13_psk_server_finished (msg : list Z) : T status :=
  if negb (length msg =? 4 + 32)%nat then ret (Err EINVAL) else
  let* verify := gets (fun s => tls13_handshake_finished (hs s) (server_hs s)) in
  if negb (bool_decide (verify = drop 4 msg)) then ret (Err EINVAL) else
  try* on_hs (tls13_handshake_update msg) in
  do* on_hs tls13_handshake_master in
  do* update (fun s => s <| client_ap := tls13_handshake_derive (hs s) (master (hs s)) (bstr "c ap traffic") |>) in
  do* update (fun s => s <| server_ap := tls13_handshake_derive (hs s) (master (hs s)) (bstr "s ap traffic") |>) in
  let* s := get in
  do* tls13_psk_set_key TLS13_PSK_RX (server_ap s) in
  do* update (fun s => s <| rx_seq := 0 |> <| phase := TLS13_PSK_CLIENT_FINISHED |>) in
  ret OK.

(** One handshake message: the switch of [tls13_psk_handshake]. *)
Definition tls13_psk_message (type : Z) (msg : list Z) : T status :=
  if type =? TLS_SERVER_HELLO then tls13_psk_server_hello msg else
  if type =? TLS_ENCRYPTED_EXTENSIONS then on_hs (tls13_handshake_update msg) else
  if type =? TLS_FINISHED then tls13_psk_server_finished msg else
  if type =? TLS_NEW_SESSION_TICKET then ret OK else
  ret (Err EINVAL).

(** [tls13_psk_handshake]; every turn consumes at least four bytes. *)
Fixpoint tls13_psk_handshake_loop (fuel : nat) (data : list Z) : T status :=
  match data with
  | type :: b1 :: b2 :: b3 :: _ =>
      match fuel with
      | O => fun _ => NoFuel
      | S fuel =>
          let msg_len := Z.to_nat (Z.lor (Z.lor (Z.shiftl b1 16) (Z.shiftl b2 8)) b3) in
          let total := (4 + msg_len)%nat in
          if (length data <? total)%nat then ret (Err EINVAL) else
          try* tls13_psk_message type (take total data) in
          tls13_psk_handshake_loop fuel (drop total data)
      end
  | _ => ret OK
  end.

Definition tls13_psk_handshake (data : list Z) : T status :=
  tls13_psk_handshake_loop (length data) data.

(** [tls13_psk_close] *)
Definition tls13_psk_close (rc : status) : T unit :=
  do* update (fun s => s <| phase := TLS13_PSK_FAILED |>) in
  intf_shutdown rc.

(** [tls13_psk_plainstream_deliver] *)
Definition tls13_psk_plainstream_deliver (data : list Z) : T status :=
  let* p := gets phase in
  if negb (bool_decide (p = TLS13_PSK_DATA)) then ret (Err EINVAL) else
  let* record := tls13_psk_cipher_record TLS_TYPE_DATA data in
  match record with
  | None => ret (Err ENOMEM)
  | Some r =>
      do* update (fun s => s <| tx_iobuf := Some r |>) in
      do* tls13_psk_tx in
      ret OK
  end.

(** [tls13_psk_plainstream_window] *)
Definition tls13_psk_plainstream_window : T Z :=
  let* s := get in
  if negb (bool_decide (phase s = TLS13_PSK_DATA)) then ret 0 else
  match tx_iobuf s with
  | Some _ => ret 0
  | None => consult (cipher_window E)
  end.

(** What the consumer does with data it is given. *)
Fixpoint consumer_sends (l : list (list Z)) : T unit :=
  match l with
  | [] => ret tt
  | data :: l => do* tls13_psk_plainstream_deliver data in consumer_sends l
  end.

Definition xfer_deliver_plain (data : list Z) : T status :=
  let* r := consult (fun n => consumer E n data) in
  let* unplugged := gets shut in
  if (unplugged : bool) then ret (r_rc r) else
  do* emit (Delivered data) in
  do* consumer_sends (r_sends r) in
  do* match r_close r with Some rc => tls13_psk_close rc | None => ret tt end in
  ret (r_rc r).

(** [tls13_psk_deliver] *)
Definition tls13_psk_deliver (data : list Z) : T status :=
  if (length data =? 0)%nat then ret OK else
  let* allocated := consult (alloc_ok E) in
  if negb allocated then ret (Err ENOMEM) else
  xfer_deliver_plain data.

(** [tls13_psk_record]; the record is the first [total] bytes of the receive buffer, and
    is decrypted in place. *)
Definition tls13_psk_record (total : nat) : T status :=
  let* buf := gets rx in
  let* record := of_option (read 0 total buf) in
  let* type := of_option (record !! 0%nat) in
  let record_len := (total - 5)%nat in
  if type =? TLS_TYPE_CHANGE_CIPHER then ret OK else
  if type =? TLS_TYPE_HANDSHAKE then tls13_psk_handshake (drop 5 record) else
  if negb (type =? TLS_TYPE_DATA) then ret (Err EINVAL) else
  let* s := get in
  let '(content_type, out) := tls13_open (rx_key s) (rx_iv s) (rx_seq s) (take 5 record) (drop 5 record) in
  do* match out with
      | Some p => let* buf := of_option (memcpy 5 p buf) in update (fun s => s <| rx := buf |>)
      | None => ret tt
      end in
  match content_type with
  | inl _ => ret (Err EINVAL)
  | inr content_type =>
      let plain_len := (record_len - authsize - 1)%nat in
      do* update (fun s => s <| rx_seq ::= (fun n => u64 (n + 1)) |>) in
      let* buf := gets rx in
      let* plain := of_option (read 5 plain_len buf) in
      if content_type =? TLS_TYPE_HANDSHAKE then tls13_psk_handshake plain else
      if content_type =? TLS_TYPE_DATA then tls13_psk_deliver plain else
      ret (Err EINVAL)
  end.

(** [tls13_psk_rx]; every turn consumes at least five bytes. *)
Fixpoint tls13_psk_rx_loop (fuel : nat) : T unit :=
  let* s := get in
  if (rx_len s <? 5)%nat then ret tt else
  match fuel with
  | O => fun _ => NoFuel
  | S fuel =>
      let* hi := of_option (rx s !! 3%nat) in
      let* lo := of_option (rx s !! 4%nat) in
      let record_len := Z.to_nat (Z.lor (Z.shiftl hi 8) lo) in
      let total := (5 + record_len)%nat in
      if (TLS13_MAX_RECORD <? total)%nat then tls13_psk_fail (Err EINVAL) else
      if (rx_len s <? total)%nat then ret tt else
      let* rc := tls13_psk_record total in
      match rc with
      | Err e => tls13_psk_fail (Err e)
      | OK =>
          let* s := get in
          let* moved := of_option (read total (rx_len s - total) (rx s)) in
          let* buf := of_option (memcpy 0 moved (rx s)) in
          do* update (fun s => s <| rx := buf |> <| rx_len := (rx_len s - total)%nat |>) in
          do* tls13_psk_tx in
          tls13_psk_rx_loop fuel
      end
  end.

Definition tls13_psk_rx : T unit :=
  let* n := gets rx_len in
  tls13_psk_rx_loop n.

(** [tls13_psk_cipherstream_deliver] *)
Definition tls13_psk_cipherstream_deliver (data : list Z) : T status :=
  let* n := gets rx_len in
  if (TLS13_MAX_RECORD <? n + length data)%nat then
    do* tls13_psk_fail (Err EINVAL) in
    ret (Err EINVAL)
  else
  let* buf := gets rx in
  let* buf := of_option (memcpy n data buf) in
  do* update (fun s => s <| rx := buf |> <| rx_len := (n + length data)%nat |>) in
  do* tls13_psk_rx in
  ret OK.

(** [tls13_psk_cipherstream_window] *)
Definition tls13_psk_cipherstream_window : T unit := tls13_psk_tx.

(** [add_tls13_psk], which makes the object from the one that [zalloc] returned. *)
Definition add_tls13_psk (psk0 identity0 : list Z) : T status :=
  let* allocated := consult (alloc_ok E) in
  if negb allocated then ret (Err ENOMEM) else
  do* update (fun s => zero_psk <| tick := tick s |>) in
  do* update (fun s => s <| digest := sha256_algorithm |>) in
  let* allocated := consult (alloc_ok E) in
  if negb allocated then ret (Err ENOMEM) else
  do* update (fun s => s <| psk := psk0 |>) in
  let* allocated := consult (alloc_ok E) in
  if negb allocated then ret (Err ENOMEM) else
  do* update (fun s => s <| identity := identity0 |>) in
  do* update (fun s => s <| hs := tls13_handshake_init (digest s) (Some (psk s)) (bstr "ext binder") |>) in
  let* random := consult (fun n => rbg_generate E n 32) in
  match tls13_generate_key random with
  | inl e => ret (Err e)
  | inr k =>
      do* update (fun s => s <| hs ::= (fun h => h <| key := k |>) |>) in
      do* update (fun s => s <| phase := TLS13_PSK_CLIENT_HELLO |>) in
      let* rc := consult (open_rc E) in
      match rc with
      | Err e => ret (Err e)
      | OK =>
          do* emit Opened in
          do* emit Plugged in
          do* tls13_psk_tx in
          ret OK
      end
  end.
End Connection.

(** ** A concrete environment

    Memory, random bytes and window are always there; the consumer takes all data. *)
Module ToyConn.
Definition env : tls_env := {|
  rbg_generate n k := (OK, replicate k (Z.of_nat n mod 256));
  alloc_ok _ := true;
  cipher_window _ := 65536;
  consumer _ _ := Reaction [] None OK;
  open_rc _ := OK;
|}.

#[export] Instance laws : TlsEnvLaws env.
Proof.
  split; intros; [apply length_replicate|]. apply Forall_replicate. unfold is_byte. apply Z.mod_pos_bound. lia.
Qed.
End ToyConn.
