(* ===== verification/TlsPskInv.v ===== *)
(** * The TLS connection is memory safe (net/tls13.c)

    A well-formedness invariant of [tls13_psk], its preservation by every function of
    the connection, whatever bytes the network delivers and whatever the consumer
    does; hence no access leaves its object and every loop ends. *)

From stdpp Require Import base list strings.
From Stdlib Require Import ZArith Lia.
From S2P Require Import Prelude Crypto TlsKeys TlsHello TlsPsk.

(** An identity for which the ClientHello fits its buffer, or visibly does not. *)
Definition identity_ok (identity : list Z) : Prop :=
  (length identity <= 355 \/ 360 <= length identity)%nat.

Record handshake_ok (h : tls13_handshake) : Prop := {
  ho_digest : hs_digest h = sha256_algorithm;
  ho_transcript : length (transcript h) = TLS13_TRANSCRIPT_SIZE;
  ho_transcript_len : (transcript_len h <= TLS13_TRANSCRIPT_SIZE)%nat;
  ho_public : length (public_key (key h)) = 32%nat;
  ho_secrets : length (early h) = 32%nat /\ length (handshake h) = 32%nat /\ length (master h) = 32%nat;
}.

(** [conn_at n]: well-formed, with [n] bytes received. *)
Record conn_at (n : nat) (s : tls13_psk) : Prop := {
  co_digest : digest s = sha256_algorithm;
  co_identity : identity_ok (identity s);
  co_hs : handshake_ok (hs s);
  co_traffic : length (client_hs s) = 32%nat /\ length (server_hs s) = 32%nat /\
               length (client_ap s) = 32%nat /\ length (server_ap s) = 32%nat;
  co_tx : length (tx_key s) = TLS13_KEY_LEN /\ length (tx_iv s) = TLS13_NONCE_LEN /\ 0 <= tx_seq s < 2 ^ 64;
  co_rx_key : length (rx_key s) = TLS13_KEY_LEN /\ length (rx_iv s) = TLS13_NONCE_LEN /\ 0 <= rx_seq s < 2 ^ 64;
  co_rx : length (rx s) = TLS13_MAX_RECORD /\ bytes_ok (rx s) /\ (rx_len s <= TLS13_MAX_RECORD)%nat;
  co_len : rx_len s = n;
}.
Definition conn_ok (s : tls13_psk) : Prop := conn_at (rx_len s) s.

(** Sequencing with an invariant. *)
Lemma wp_then {S A} F (m : M S A) (I : S -> Prop) (Q : A -> S -> Prop) s :
  wp F m (fun _ => I) s -> (forall a s', I s' -> Q a s') -> wp F m Q s.
Proof. intros Hm HQ. eapply wp_mono; [exact Hm|]. auto. Qed.

(** [upd] proves that an update of a well-formed object is well-formed. *)
Ltac upd :=
  match goal with
  | Hs : conn_at _ ?s |- conn_at _ ?t =>
      match t with context [s] => destruct Hs; split; cbn in *; auto; try tauto end
  | Hs : handshake_ok ?s |- handshake_ok ?t =>
      match t with context [s] => destruct Hs; split; cbn in *; auto; try tauto end
  end.

Section Safe.
Context `{DigestLaws} `{HkdfLaws} `{ExchangeLaws} `{AeadLaws} (E : tls_env) `{!TlsEnvLaws E}.
Implicit Types (s : tls13_psk) (h : tls13_handshake).
Context (n : nat).
#[local] Abbreviation conn_ok := (conn_at n).

Lemma u64_seq m : 0 <= u64 m < 2 ^ 64.
Proof. apply Z.mod_pos_bound. lia. Qed.

(** *** The handshake context *)
Lemma update_ok msg h :
  handshake_ok h -> wp False (tls13_handshake_update msg) (fun _ => handshake_ok) h.
Proof.
  intros Hh. unfold tls13_handshake_update. apply wp_bind, wp_gets.
  case_bool_decide; [by apply wp_ret|]. apply wp_bind, wp_gets. pose proof (ho_transcript h Hh).
  rewrite memcpy_some by lia. apply wp_bind, wp_ret, wp_bind, wp_update, wp_ret. upd.
  - rewrite splice_length; lia.
  - lia.
Qed.

Lemma exchange_ok pub h :
  handshake_ok h -> wp False (tls13_handshake_exchange pub) (fun _ => handshake_ok) h.
Proof.
  intros Hh. unfold tls13_handshake_exchange. apply wp_bind, wp_gets.
  destruct (tls13_shared_secret _ _); [by apply wp_ret|]. apply wp_bind, wp_update, wp_ret. upd.
  split_and!; [tauto| |tauto]. unfold tls13_handshake_secret. rewrite hkdf_extract_length. by destruct (hs_digest h).
Qed.

Lemma master_ok h : handshake_ok h -> wp False tls13_handshake_master (fun _ => handshake_ok) h.
Proof.
  intros Hh. apply wp_update. upd. split_and!; [tauto|tauto|]. unfold tls13_master_secret.
  rewrite hkdf_extract_length. by destruct (hs_digest h).
Qed.

Lemma derive_length h secret label : handshake_ok h -> length (tls13_handshake_derive h secret label) = 32%nat.
Proof.
  intros Hh. unfold tls13_handshake_derive, tls13_derive_secret, tls13_expand_label.
  rewrite hkdf_expand_length. by rewrite (ho_digest h Hh).
Qed.

(** *** Helpers *)
Lemma on_hs_ok {A} (m : M tls13_handshake A) s :
  conn_ok s -> wp False m (fun _ => handshake_ok) (hs s) -> wp False (on_hs m) (fun _ => conn_ok) s.
Proof. intros Hs. unfold wp, on_hs. destruct (m (hs s)); [|done..]. intros. upd. Qed.

Lemma emit_ok e s : conn_ok s -> wp False (emit e) (fun _ => conn_ok) s.
Proof. intros Hs. apply wp_update. destruct (shut s); [done|]. upd. Qed.

Lemma tick_ok s : conn_ok s -> conn_ok (s <| tick ::= S |>).
Proof. intros. upd. Qed.

Lemma wp_tls_consult {A} F (f : nat -> A) (Q : A -> tls13_psk -> Prop) s :
  Q (f (tick s)) (s <| tick ::= S |>) -> wp F (consult f) Q s.
Proof. exact (fun HQ => HQ). Qed.

Lemma shutdown_ok rc s : conn_ok s -> wp False (intf_shutdown rc) (fun _ => conn_ok) s.
Proof.
  intros Hs. apply wp_bind. eapply wp_then; [by apply emit_ok|]. intros _ s' Hs'. apply wp_update. upd.
Qed.

Lemma fail_ok rc s : conn_ok s -> wp False (tls13_psk_fail rc) (fun _ => conn_ok) s.
Proof.
  intros Hs. unfold tls13_psk_fail. apply wp_bind, wp_gets. case_bool_decide; [by apply wp_ret|].
  apply wp_bind, wp_update, shutdown_ok. upd.
Qed.

Lemma close_ok rc s : conn_ok s -> wp False (tls13_psk_close rc) (fun _ => conn_ok) s.
Proof. intros Hs. apply wp_bind, wp_update, shutdown_ok. upd. Qed.

Lemma set_key_ok dir secret s : conn_ok s -> wp False (tls13_psk_set_key dir secret) (fun _ => conn_ok) s.
Proof.
  intros Hs. unfold tls13_psk_set_key, tls13_traffic_key, tls13_expand_label. apply wp_bind, wp_gets, wp_update.
  destruct dir; upd; rewrite !hkdf_expand_length; tauto.
Qed.

(** *** Transmission *)
Lemma cipher_record_ok ty data s :
  conn_ok s -> wp False (tls13_psk_cipher_record E ty data) (fun _ => conn_ok) s.
Proof.
  intros Hs. unfold tls13_psk_cipher_record. apply wp_bind, wp_tls_consult.
  destruct (alloc_ok _ _); cbn [negb]; [|apply wp_ret; by apply tick_ok]. apply wp_bind, wp_gets.
  destruct (tls13_seal _ _ _ _ _ _); [|apply wp_ret; by apply tick_ok].
  destruct (negb _); [apply wp_ret; by apply tick_ok|]. apply wp_bind, wp_update, wp_ret.
  upd. pose proof (u64_seq (tx_seq s + 1)). tauto.
Qed.

Lemma client_hello_total random pk p identity label :
  length random = 32%nat -> length pk = 32%nat -> identity_ok identity ->
  wp False (tls13_client_hello TLS13_MAX_CLIENT_HELLO random pk p identity label) (fun _ _ => True) [].
Proof.
  intros Hr Hk [Hi|Hi].
  - destruct (client_hello_spec TLS13_MAX_CLIENT_HELLO random pk p identity label []) as (ch & Hch & _);
      [done|done|unfold TLS13_MAX_CLIENT_HELLO; lia|done|].
    unfold wp. by rewrite Hch.
  - unfold tls13_client_hello. rewrite bool_decide_true; [by apply wp_ret|].
    right. unfold client_hello_needed, TLS13_MAX_CLIENT_HELLO. cbn [digestsize]. lia.
Qed.

Lemma client_hello_ok s :
  conn_ok s -> wp False (tls13_psk_client_hello E) (fun _ => conn_ok) s.
Proof.
  intros Hs. unfold tls13_psk_client_hello. apply wp_bind, wp_tls_consult.
  pose proof (rbg_length (tick s) 32) as Hr.
  destruct (rbg_generate E (tick s) 32) as [[|e] r]; cbn [fst snd] in *; [|apply wp_ret; by apply tick_ok].
  apply wp_bind, wp_tls_consult.
  destruct (alloc_ok _ _); cbn [negb]; [|apply wp_ret; by do 2 apply tick_ok]. apply wp_bind, wp_gets.
  do 2 apply tick_ok in Hs. cbn in Hs. set (s' := _ <| tick ::= S |>) in *.
  pose proof (client_hello_total r (public_key (key (hs s'))) (psk s') (identity s') (binder_label (hs s'))
    Hr (ho_public _ (co_hs _ _ Hs)) (co_identity _ _ Hs)) as Ht. unfold wp in Ht.
  destruct (tls13_client_hello _ _ _ _ _ _ _) as [[] ch| |]; [|by apply wp_ret|done|done].
  apply wp_bind. eapply wp_then; [apply on_hs_ok; [done|]; by eapply update_ok, co_hs|].
  intros [|e] s2 Hs2; by apply wp_ret.
Qed.

Lemma tx_construct_ok s : conn_ok s -> wp False (tls13_psk_tx_construct E) (fun _ => conn_ok) s.
Proof.
  intros Hs. unfold tls13_psk_tx_construct. apply wp_bind, wp_gets.
  destruct (tx_iobuf s); [by apply wp_ret|]. destruct (phase s); try by apply wp_ret.
  - apply wp_bind. eapply wp_then; [by apply client_hello_ok|]. intros [r|] s' Hs'.
    + apply wp_bind, wp_update, wp_ret. upd.
    + apply wp_bind. eapply wp_then; [by apply fail_ok|]. intros. by apply wp_ret.
  - apply wp_bind. eapply wp_then; [by apply cipher_record_ok|]. intros [r|] s' Hs'.
    + apply wp_bind, wp_update, wp_ret. upd.
    + apply wp_bind. eapply wp_then; [by apply fail_ok|]. intros. by apply wp_ret.
Qed.

Lemma tx_transmit_ok s : conn_ok s -> wp False (tls13_psk_tx_transmit E) (fun _ => conn_ok) s.
Proof.
  intros Hs. unfold tls13_psk_tx_transmit. apply wp_bind, wp_gets. destruct (tx_iobuf s); [|by apply wp_ret].
  apply wp_bind, wp_tls_consult. destruct (cipher_window _ _ =? 0); [apply wp_ret; by apply tick_ok|].
  apply wp_bind, wp_update, wp_bind. eapply wp_then; [apply emit_ok; upd|]. intros _ s' Hs'.
  apply wp_bind, wp_gets. destruct (negb _); [by apply wp_ret|]. apply wp_bind.
  eapply wp_then; [by apply set_key_ok|]. intros _ s2 Hs2. apply wp_update. upd. split_and!; tauto || lia.
Qed.

Lemma tx_ok s : conn_ok s -> wp False (tls13_psk_tx E) (fun _ => conn_ok) s.
Proof.
  intros Hs. unfold tls13_psk_tx. apply wp_bind, wp_gets. case_bool_decide; [by apply wp_ret|].
  apply wp_bind. eapply wp_then; [by apply tx_construct_ok|]. intros [] s' Hs'; cbn [negb]; [|by apply wp_ret].
  apply wp_bind. eapply wp_then; [by apply tx_transmit_ok|]. intros. by apply emit_ok.
Qed.

(** *** Handshake messages *)
Lemma upd_traffic s (f : tls13_psk -> tls13_psk) :
  conn_ok s -> conn_ok (f s) -> wp False (update f) (fun _ => conn_ok) s.
Proof. intros _ Hs. by apply wp_update. Qed.

Lemma server_hello_ok msg s :
  bytes_ok msg -> conn_ok s -> wp False (tls13_psk_server_hello msg) (fun _ => conn_ok) s.
Proof.
  intros Hm Hs. unfold tls13_psk_server_hello.
  pose proof (parse_server_hello_ok msg zero_server_hello Hm) as Hp. unfold wp in Hp.
  destruct (tls13_parse_server_hello _ _) as [[|e] hello| |]; [|by apply wp_ret|done|done].
  do 4 (destruct (negb _); [by apply wp_ret|]).
  apply wp_try. eapply wp_then; [apply on_hs_ok; [done|]; by eapply update_ok, co_hs|].
  intros [|e] s1 Hs1; [|done].
  apply wp_try. eapply wp_then; [apply on_hs_ok; [done|]; by eapply exchange_ok, co_hs|].
  intros [|e] s2 Hs2; [|done].
  apply wp_bind, wp_update. apply wp_bind, wp_update. apply wp_bind, wp_gets.
  apply wp_bind. eapply wp_then.
  { apply set_key_ok. pose proof (fun l => derive_length (hs s2) (handshake (hs s2)) l (co_hs _ _ Hs2)) as Hd.
    upd. rewrite !Hd. tauto. }
  intros _ s3 Hs3. apply wp_bind. eapply wp_then; [by apply set_key_ok|]. intros _ s4 Hs4.
  apply wp_bind, wp_update, wp_ret. upd; split_and!; tauto || lia.
Qed.

Lemma server_finished_ok msg s :
  conn_ok s -> wp False (tls13_psk_server_finished msg) (fun _ => conn_ok) s.
Proof.
  intros Hs. unfold tls13_psk_server_finished. destruct (negb _); [by apply wp_ret|].
  apply wp_bind, wp_gets. destruct (negb _); [by apply wp_ret|].
  apply wp_try. eapply wp_then; [apply on_hs_ok; [done|]; by eapply update_ok, co_hs|].
  intros [|e] s1 Hs1; [|done].
  apply wp_bind. eapply wp_then; [apply on_hs_ok; [done|]; by eapply master_ok, co_hs|]. intros _ s2 Hs2.
  apply wp_bind, wp_update. apply wp_bind, wp_update. apply wp_bind, wp_gets.
  apply wp_bind. eapply wp_then.
  { apply set_key_ok. pose proof (fun l => derive_length (hs s2) (master (hs s2)) l (co_hs _ _ Hs2)) as Hd.
    upd. rewrite !Hd. tauto. }
  intros _ s3 Hs3. apply wp_bind, wp_update, wp_ret. upd; split_and!; tauto || lia.
Qed.

Lemma message_ok ty msg s :
  bytes_ok msg -> conn_ok s -> wp False (tls13_psk_message ty msg) (fun _ => conn_ok) s.
Proof.
  intros Hm Hs. unfold tls13_psk_message. destruct (_ =? _); [by apply server_hello_ok|].
  destruct (_ =? _); [apply on_hs_ok; [done|]; by eapply update_ok, co_hs|].
  destruct (_ =? _); [by apply server_finished_ok|]. destruct (_ =? _); by apply wp_ret.
Qed.

Lemma handshake_loop_ok fuel data s :
  bytes_ok data -> conn_ok s -> (length data <= fuel)%nat ->
  wp False (tls13_psk_handshake_loop fuel data) (fun _ => conn_ok) s.
Proof.
  revert data s. induction fuel as [|fuel IH]; intros data s Hd Hs Hf.
  { destruct data as [|? [|? [|? [|]]]]; cbn in Hf; try lia. exact Hs. }
  destruct data as [|ty [|b1 [|b2 [|b3 data]]]]; cbn [tls13_psk_handshake_loop]; try exact Hs.
  destruct (_ <? _)%nat; [by apply wp_ret|].
  apply wp_try. eapply wp_then; [apply message_ok; [by apply Forall_take|done]|].
  intros [|e] s1 Hs1; [|done]. apply IH; [by apply Forall_drop|done|]. rewrite length_drop. cbn in *; lia.
Qed.

Lemma handshake_ok' data s :
  bytes_ok data -> conn_ok s -> wp False (tls13_psk_handshake data) (fun _ => conn_ok) s.
Proof. intros. by apply handshake_loop_ok. Qed.

(** *** Reception *)
Lemma plain_deliver_ok data s :
  conn_ok s -> wp False (tls13_psk_plainstream_deliver E data) (fun _ => conn_ok) s.
Proof.
  intros Hs. unfold tls13_psk_plainstream_deliver. apply wp_bind, wp_gets. destruct (negb _); [by apply wp_ret|].
  apply wp_bind. eapply wp_then; [by apply cipher_record_ok|]. intros [r|] s1 Hs1; [|by apply wp_ret].
  apply wp_bind, wp_update, wp_bind. eapply wp_then; [apply tx_ok; upd|]. intros. by apply wp_ret.
Qed.

Lemma consumer_sends_ok l s : conn_ok s -> wp False (consumer_sends E l) (fun _ => conn_ok) s.
Proof.
  revert s. induction l as [|d l IH]; intros s Hs; [by apply wp_ret|].
  apply wp_bind. eapply wp_then; [by apply plain_deliver_ok|]. intros. by apply IH.
Qed.

Lemma deliver_ok data s : conn_ok s -> wp False (tls13_psk_deliver E data) (fun _ => conn_ok) s.
Proof.
  intros Hs. unfold tls13_psk_deliver. destruct (_ =? _)%nat; [by apply wp_ret|].
  apply wp_bind, wp_tls_consult. apply tick_ok in Hs. destruct (negb _); [by apply wp_ret|].
  unfold xfer_deliver_plain. apply wp_bind, wp_tls_consult. apply tick_ok in Hs. apply wp_bind, wp_gets.
  destruct (shut _); [by apply wp_ret|].
  apply wp_bind. eapply wp_then; [by apply emit_ok|]. intros _ s1 Hs1.
  apply wp_bind. eapply wp_then; [by apply consumer_sends_ok|]. intros _ s2 Hs2.
  apply wp_bind. eapply wp_then with (I := conn_ok); [|intros; by apply wp_ret].
  destruct (r_close _); [by apply close_ok|by apply wp_ret].
Qed.

Lemma record_ok total s :
  conn_ok s -> (5 <= total <= TLS13_MAX_RECORD)%nat ->
  wp False (tls13_psk_record E total) (fun _ => conn_ok) s.
Proof.
  intros Hs Ht. unfold tls13_psk_record. apply wp_bind, wp_gets. destruct (co_rx _ _ Hs) as (Hl & Hb & _).
  rewrite read_some by lia. apply wp_bind, wp_ret. set (record := sub 0 total (rx s)).
  assert (length record = total) as Hrl by (apply sub_length; lia).
  assert (bytes_ok record) as Hrb by (by apply sub_ok).
  destruct (lookup_lt_is_Some_2 record 0) as [ty ->]; [lia|]. apply wp_bind, wp_ret.
  destruct (_ =? _); [by apply wp_ret|].
  destruct (_ =? _); [apply handshake_ok'; [by apply Forall_drop|done]|].
  destruct (negb _); [by apply wp_ret|]. apply wp_bind, wp_gets.
  destruct (tls13_open_cases (rx_key s) (rx_iv s) (rx_seq s) (take 5 record) (drop 5 record)) as
    [[e ->]|[[e ->]|(p & -> & Hpl & Hpo & Hlong)]]; rewrite ?length_drop, ?Hrl.
  - apply wp_bind, wp_ret. by apply wp_ret.
  - rewrite memcpy_some by (unfold zeros; rewrite length_replicate; lia). apply wp_bind, wp_bind, wp_ret, wp_update, wp_ret.
    upd. split_and!; [rewrite splice_length; unfold zeros; rewrite ?length_replicate; lia|auto with fw|tauto].
  - rewrite length_drop, Hrl in Hpl, Hlong. rewrite memcpy_some by lia.
    apply wp_bind, wp_bind, wp_ret, wp_update. apply wp_bind, wp_update, wp_bind, wp_gets.
    set (s1 := modify rx_seq _ _). assert (conn_ok s1) as Hs1.
    { unfold s1. upd.
      - pose proof (u64_seq (rx_seq s + 1)). tauto.
      - split_and!; [rewrite splice_length; lia|auto with fw|tauto]. }
    destruct (co_rx _ _ Hs1) as (Hl1 & Hb1 & _). rewrite read_some by lia. apply wp_bind, wp_ret.
    destruct (_ =? _); [apply handshake_ok'; [by apply sub_ok|done]|].
    destruct (_ =? _); [by apply deliver_ok|by apply wp_ret].
Qed.
End Safe.

Section Receive.
Context `{DigestLaws} `{HkdfLaws} `{ExchangeLaws} `{AeadLaws} (E : tls_env) `{!TlsEnvLaws E}.
Implicit Types (s : tls13_psk).

Lemma conn_at_ok n s : conn_at n s -> conn_ok s.
Proof. intros Hs. unfold conn_ok. by rewrite (co_len _ _ Hs). Qed.

(** What is left after a record moves to the front. *)
Lemma consume_ok total s :
  conn_ok s -> (5 <= total <= TLS13_MAX_RECORD)%nat ->
  exists moved buf, read total (rx_len s - total) (rx s) = Some moved /\ memcpy 0 moved (rx s) = Some buf /\
    conn_at (rx_len s - total) (s <| rx := buf |> <| rx_len := (rx_len s - total)%nat |>).
Proof.
  intros Hs Ht. pose proof (co_rx _ _ Hs) as (Hl & Hb & Hn).
  assert (length (sub total (rx_len s - total) (rx s)) = rx_len s - total)%nat as Hsl by (apply sub_length; lia).
  eexists _, _. rewrite read_some by lia. split; [done|]. rewrite memcpy_some by lia. split; [done|].
  unfold conn_ok in Hs. upd. split_and!; [rewrite splice_length; lia|auto with fw|lia].
Qed.

Lemma rx_loop_ok fuel s :
  conn_ok s -> (rx_len s <= fuel)%nat -> wp False (tls13_psk_rx_loop E fuel) (fun _ => conn_ok) s.
Proof.
  revert s. induction fuel as [|fuel IH]; intros s Hs Hf; cbn [tls13_psk_rx_loop].
  { apply wp_bind, wp_gets. rewrite (proj2 (Nat.ltb_lt _ _)) by lia. by apply wp_ret. }
  pose proof (co_rx _ _ Hs) as (Hl & Hb & Hn).
  apply wp_bind, wp_gets. destruct (Nat.ltb_spec (rx_len s) 5); [by apply wp_ret|].
  assert (5 <= length (rx s))%nat as Hfive by (rewrite Hl; unfold TLS13_MAX_RECORD; lia).
  destruct (lookup_lt_is_Some_2 (rx s) 3) as [hi ->]; [lia|]. apply wp_bind, wp_ret.
  destruct (lookup_lt_is_Some_2 (rx s) 4) as [lo ->]; [lia|]. apply wp_bind, wp_ret.
  set (total := (5 + _)%nat). assert (5 <= total)%nat as Ht by (unfold total; lia). clearbody total.
  destruct (Nat.ltb_spec TLS13_MAX_RECORD total).
  { eapply wp_then; [by apply (fail_ok (rx_len s))|]. intros. by eapply conn_at_ok. }
  destruct (Nat.ltb_spec (rx_len s) total); [by apply wp_ret|].
  apply wp_bind. eapply wp_then; [by apply (record_ok E (rx_len s))|]. intros [|e] s1 Hs1.
  2: { eapply wp_then; [by apply (fail_ok (rx_len s))|]. intros. by eapply conn_at_ok. }
  apply wp_bind, wp_gets.
  destruct (consume_ok total s1) as (moved & buf & -> & Hbuf & Hs2); [by eapply conn_at_ok|done|].
  apply wp_bind, wp_ret. rewrite Hbuf. apply wp_bind, wp_ret, wp_bind, wp_update.
  apply wp_bind. eapply wp_then; [by apply (tx_ok E _ _ Hs2)|]. intros _ s3 Hs3.
  apply IH; [by eapply conn_at_ok|]. rewrite (co_len _ _ Hs3). pose proof (co_len _ _ Hs1). lia.
Qed.

Lemma cipherstream_deliver_ok data s :
  bytes_ok data -> conn_ok s -> wp False (tls13_psk_cipherstream_deliver E data) (fun _ => conn_ok) s.
Proof.
  intros Hd Hs. pose proof (co_rx _ _ Hs) as (Hl & Hb & Hn).
  unfold tls13_psk_cipherstream_deliver. apply wp_bind, wp_gets.
  destruct (Nat.ltb_spec TLS13_MAX_RECORD (rx_len s + length data)).
  { apply wp_bind. eapply wp_then; [by apply (fail_ok (rx_len s))|]. intros. apply wp_ret. by eapply conn_at_ok. }
  apply wp_bind, wp_gets. rewrite memcpy_some by lia. apply wp_bind, wp_ret, wp_bind, wp_update.
  apply wp_bind. unfold tls13_psk_rx. apply wp_bind, wp_gets. eapply wp_then; [apply rx_loop_ok; [|done]|intros; by apply wp_ret].
  unfold conn_ok in *. upd. split_and!; [rewrite splice_length; lia|auto with fw|lia].
Qed.

Lemma zero_psk_ok : conn_ok zero_psk.
Proof.
  split; cbn; try done.
  - left. cbn. lia.
  - split; try done. unfold zero_handshake, TLS13_TRANSCRIPT_SIZE. cbn. lia.
  - split_and!; try done. apply zeros_ok. unfold TLS13_MAX_RECORD. lia.
Qed.
End Receive.

(** ** The transition system of a connection

    A connection is created by [add_tls13_psk]; then the socket delivers data or
    reports a window change, and the consumer sends or closes, or the socket closes.
    Nobody can reach a connection whose interfaces are unplugged. *)
Inductive label : Type :=
  | LCipher (data : list Z)
  | LWindow
  | LPlain (data : list Z)
  | LClose (rc : status).

Section System.
Context `{DigestOps} `{HkdfOps} `{ExchangeOps} `{AeadOps} (E : tls_env).

Definition step (l : label) : M tls13_psk unit :=
  let* unplugged := gets shut in
  if (unplugged : bool) then ret tt else
  match l with
  | LCipher data => do* tls13_psk_cipherstream_deliver E data in ret tt
  | LWindow => tls13_psk_cipherstream_window E
  | LPlain data => do* tls13_psk_plainstream_deliver E data in ret tt
  | LClose rc => tls13_psk_close rc
  end.

(** Received data is made of bytes. *)
Definition label_ok (l : label) : Prop :=
  match l with LCipher data => bytes_ok data | _ => True end.

Inductive reachable (psk0 identity0 : list Z) : tls13_psk -> Prop :=
  | reach_start s : add_tls13_psk E psk0 identity0 zero_psk = Ret OK s -> reachable psk0 identity0 s
  | reach_step s l s' : reachable psk0 identity0 s -> label_ok l -> step l s = Ret tt s' ->
      reachable psk0 identity0 s'.
End System.

Section Reachable.
Context `{DigestLaws} `{HkdfLaws} `{ExchangeLaws} `{AeadLaws} (E : tls_env) `{!TlsEnvLaws E}.

Lemma step_ok l s : label_ok l -> conn_ok s -> wp False (step E l) (fun _ => conn_ok) s.
Proof.
  intros Hl Hs. unfold step. apply wp_bind, wp_gets. destruct (shut s); [by apply wp_ret|]. destruct l; cbn in Hl.
  - apply wp_bind. eapply wp_then; [by apply cipherstream_deliver_ok|]. intros. by apply wp_ret.
  - eapply wp_then; [by apply (tx_ok E (rx_len s))|]. intros. by eapply conn_at_ok.
  - apply wp_bind. eapply wp_then; [by apply (plain_deliver_ok E (rx_len s))|]. intros. apply wp_ret. by eapply conn_at_ok.
  - eapply wp_then; [by apply (close_ok (rx_len s))|]. intros. by eapply conn_at_ok.
Qed.

Lemma handshake_init_ok psk label pair :
  length (public_key pair) = 32%nat ->
  handshake_ok ((tls13_handshake_init sha256_algorithm (Some psk) label) <| key := pair |>).
Proof.
  intros Hp. split; cbn; try done; [unfold TLS13_TRANSCRIPT_SIZE; lia|].
  split_and!; try done. unfold tls13_early_secret. by rewrite hkdf_extract_length.
Qed.

Lemma add_ok psk0 identity0 s :
  identity_ok identity0 ->
  wp False (add_tls13_psk E psk0 identity0) (fun rc s' => rc = OK -> conn_ok s') s.
Proof.
  intros Hi. unfold add_tls13_psk. apply wp_bind, wp_tls_consult. destruct (negb _); [by apply wp_ret|].
  apply wp_bind, wp_update. apply wp_bind, wp_update. apply wp_bind, wp_tls_consult. destruct (negb _); [by apply wp_ret|].
  apply wp_bind, wp_update. apply wp_bind, wp_tls_consult. destruct (negb _); [by apply wp_ret|].
  apply wp_bind, wp_update. apply wp_bind, wp_update. apply wp_bind, wp_tls_consult.
  destruct (tls13_generate_key _) as [e|pair] eqn:Ek; [by apply wp_ret|].
  assert (length (public_key pair) = 32%nat) as Hpair.
  { unfold tls13_generate_key in Ek. destruct (rbg_generate _ _ _) as [[|] r]; cbn in Ek; [|done].
    pose proof (exchange_share_length x25519_algorithm r) as Hx.
    destruct (exchange_share _ _) as [[|] pub]; [|done]. by injection Ek as <-. }
  do 2 apply wp_bind, wp_update. apply wp_bind, wp_tls_consult. destruct (open_rc _ _); [|by apply wp_ret].
  apply wp_bind. eapply (wp_then _ _ (conn_at 0)).
  { apply emit_ok. pose proof zero_psk_ok as Hz. unfold conn_ok in Hz. destruct Hz.
    split; cbn in *; auto; try by apply handshake_init_ok. }
  intros _ s1 Hs1. apply wp_bind. eapply wp_then; [by apply emit_ok|]. intros _ s2 Hs2.
  apply wp_bind. eapply wp_then; [by apply tx_ok|]. intros _ s3 Hs3. apply wp_ret. intros _. by eapply conn_at_ok.
Qed.

Lemma reachable_ok psk0 identity0 s : identity_ok identity0 -> reachable E psk0 identity0 s -> conn_ok s.
Proof.
  intros Hi. induction 1 as [s Ha|s l s' _ IH Hl Hs].
  - by apply (wp_elim _ _ _ _ _ _ (add_ok psk0 identity0 zero_psk Hi) Ha).
  - exact (wp_elim _ _ _ _ _ _ (step_ok l s Hl IH) Hs).
Qed.

(** [C13] Well-formedness of a TLS connection: whatever the network delivers and the
    consumer does, in every reachable state the transcript and the receive buffer have
    their declared sizes and hold no more than fits, every key, initialisation vector
    and secret has the length of its array, and the sequence numbers fit 64 bits. *)
Theorem tls_well_formed psk0 identity0 s :
  identity_ok identity0 -> reachable E psk0 identity0 s ->
  length (transcript (hs s)) = TLS13_TRANSCRIPT_SIZE /\ (transcript_len (hs s) <= TLS13_TRANSCRIPT_SIZE)%nat /\
  length (rx s) = TLS13_MAX_RECORD /\ (rx_len s <= TLS13_MAX_RECORD)%nat /\ bytes_ok (rx s) /\
  length (tx_key s) = TLS13_KEY_LEN /\ length (rx_key s) = TLS13_KEY_LEN /\
  length (tx_iv s) = TLS13_NONCE_LEN /\ length (rx_iv s) = TLS13_NONCE_LEN /\
  0 <= tx_seq s < 2 ^ 64 /\ 0 <= rx_seq s < 2 ^ 64 /\
  Forall (fun x => length x = 32%nat)
    [early (hs s); handshake (hs s); master (hs s); client_hs s; server_hs s; client_ap s; server_ap s].
Proof.
  intros Hi Hr. destruct (reachable_ok _ _ _ Hi Hr) as [_ _ [] ? ? ? ? _]. split_and!; try tauto.
  repeat constructor; tauto.
Qed.

(** [C12] Memory safety and termination of the TLS connection: in every reachable state,
    every call of the socket or of the consumer returns: no bytes from the network,
    in any phase, make it read or write outside its buffers or loop for ever. *)
Theorem tls_safe psk0 identity0 s l :
  identity_ok identity0 -> reachable E psk0 identity0 s -> label_ok l ->
  exists s', step E l s = Ret tt s'.
Proof.
  intros Hi Hr Hl. pose proof (step_ok l s Hl (reachable_ok _ _ _ Hi Hr)) as Hw. unfold wp in Hw.
  destruct (step E l s) as [[] s'| |]; [by exists s'|done|done].
Qed.
End Reachable.
