(* ===== verification/TlsStream.v ===== *)
(** * Reception as a stream of records (net/tls13.c)

    The specification of reception has no receive buffer: [stream] cuts a byte list
    into records and processes each.  The buffer of the code, with its moves and its
    decryption in place, refines it; so reception depends on the bytes and not on how
    the network cuts them, as long as the buffer can hold them. *)

From stdpp Require Import base list strings.
From Stdlib Require Import ZArith Lia.
From S2P Require Import Prelude Crypto TlsKeys TlsHello TlsPsk TlsPskInv.

(** ** Operations that do not touch the receive buffer *)
Definition set_rx_buf (r : list Z) (n : nat) (s : tls13_psk) : tls13_psk := s <| rx := r |> <| rx_len := n |>.

Definition map_state {S A} (f : S -> S) (o : outcome S A) : outcome S A :=
  match o with Ret a s => Ret a (f s) | Fault => Fault | NoFuel => NoFuel end.

Lemma bind_run {S A B} (m : M S A) (k : A -> M S B) s a t : m s = Ret a t -> bind m k s = k a t.
Proof. unfold bind. by intros ->. Qed.

(** [blind m]: [m] neither reads nor writes the receive buffer. *)
Definition blind {A} (m : M tls13_psk A) : Prop :=
  forall s r n, m (set_rx_buf r n s) = map_state (set_rx_buf r n) (m s).

Section Blind.
Implicit Types (s : tls13_psk).

Lemma blind_ret {A} (a : A) : blind (ret a).
Proof. done. Qed.
Lemma blind_fault {A} : blind (@fault tls13_psk A).
Proof. done. Qed.
Lemma blind_nofuel {A} : blind (fun _ => @NoFuel tls13_psk A).
Proof. done. Qed.

Lemma blind_bind {A B} (m : M tls13_psk A) (k : A -> M tls13_psk B) :
  blind m -> (forall a, blind (k a)) -> blind (bind m k).
Proof.
  intros Hm Hk s r n. unfold bind. rewrite Hm. destruct (m s) as [a s'| |]; cbn; [|done..]. apply Hk.
Qed.

Lemma blind_try (m k : M tls13_psk status) : blind m -> blind k -> blind (try m k).
Proof. intros Hm Hk. apply blind_bind; [done|]. by intros [|e]. Qed.

Lemma blind_gets {A B} (f : tls13_psk -> A) (k : A -> M tls13_psk B) :
  (forall s r n, f (set_rx_buf r n s) = f s) -> (forall a, blind (k a)) -> blind (bind (gets f) k).
Proof. intros Hf Hk s r n. unfold bind, gets. rewrite Hf. apply Hk. Qed.

Lemma blind_get {B} (k : tls13_psk -> M tls13_psk B) :
  (forall s r n, k (set_rx_buf r n s) = k s) -> (forall a, blind (k a)) -> blind (bind get k).
Proof. intros Hf Hk s r n. unfold bind, get. rewrite Hf. apply Hk. Qed.

Lemma blind_update f : (forall s r n, f (set_rx_buf r n s) = set_rx_buf r n (f s)) -> blind (update f).
Proof. intros Hf s r n. unfold update. by rewrite Hf. Qed.

Lemma blind_consult {A} (f : nat -> A) : blind (consult f).
Proof. done. Qed.

Lemma blind_emit e : blind (emit e).
Proof. apply blind_update. intros s r n. change (shut (set_rx_buf r n s)) with (shut s). by destruct (shut s). Qed.

Lemma blind_on_hs {A} (m : M tls13_handshake A) : blind (on_hs m).
Proof. intros s r n. unfold on_hs. change (hs (set_rx_buf r n s)) with (hs s). by destruct (m (hs s)). Qed.

(** A blind computation keeps the buffer. *)
Lemma blind_frame {A} (m : M tls13_psk A) s a s' :
  blind m -> m s = Ret a s' -> rx s' = rx s /\ rx_len s' = rx_len s.
Proof.
  intros Hm He. specialize (Hm s (rx s) (rx_len s)).
  replace (set_rx_buf (rx s) (rx_len s) s) with s in Hm by (by destruct s).
  rewrite He in Hm. cbn in Hm. injection Hm as Hm. rewrite Hm. done.
Qed.
End Blind.

(** [blind_go] proves that a straight-line computation is blind. *)
Ltac blind_step :=
  lazymatch goal with
  | |- blind (ret _) => apply blind_ret
  | |- blind fault => apply blind_fault
  | |- blind (fun _ => NoFuel) => apply blind_nofuel
  | |- blind (consult _) => apply blind_consult
  | |- blind (emit _) => apply blind_emit
  | |- blind (on_hs _) => apply blind_on_hs
  | |- blind (update _) => apply blind_update; done
  | |- blind (try _ _) => apply blind_try
  | |- blind (bind (gets _) _) => apply blind_gets; [done|intros]
  | |- blind (bind get _) => apply blind_get; [done|intros]
  | |- blind (bind _ _) => apply blind_bind; [|intros]
  | |- blind (match ?x with _ => _ end) => destruct x
  | |- _ => solve [auto]
  end; cbv beta iota.
Ltac blind_go := repeat blind_step.

Section BlindOps.
Context `{DigestOps} `{HkdfOps} `{ExchangeOps} `{AeadOps} (E : tls_env).

Lemma blind_shutdown rc : blind (intf_shutdown rc).
Proof. unfold intf_shutdown. blind_go. Qed.
Lemma blind_fail rc : blind (tls13_psk_fail rc).
Proof. pose proof blind_shutdown. unfold tls13_psk_fail. blind_go. Qed.
Lemma blind_close rc : blind (tls13_psk_close rc).
Proof. pose proof blind_shutdown. unfold tls13_psk_close. blind_go. Qed.
Lemma blind_set_key dir secret : blind (tls13_psk_set_key dir secret).
Proof. unfold tls13_psk_set_key. destruct dir; blind_go. Qed.
Lemma blind_cipher_record ty data : blind (tls13_psk_cipher_record E ty data).
Proof. unfold tls13_psk_cipher_record. blind_go. Qed.
Lemma blind_client_hello : blind (tls13_psk_client_hello E).
Proof. unfold tls13_psk_client_hello. blind_go. Qed.
Lemma blind_tx : blind (tls13_psk_tx E).
Proof.
  pose proof blind_client_hello. pose proof blind_cipher_record. pose proof blind_fail. pose proof blind_set_key.
  unfold tls13_psk_tx, tls13_psk_tx_construct, tls13_psk_tx_transmit. blind_go.
Qed.
Lemma blind_server_hello msg : blind (tls13_psk_server_hello msg).
Proof. pose proof blind_set_key. unfold tls13_psk_server_hello. blind_go. Qed.
Lemma blind_server_finished msg : blind (tls13_psk_server_finished msg).
Proof. pose proof blind_set_key. unfold tls13_psk_server_finished. blind_go. Qed.
Lemma blind_message ty msg : blind (tls13_psk_message ty msg).
Proof.
  pose proof blind_server_hello. pose proof blind_server_finished. unfold tls13_psk_message. blind_go.
Qed.
Lemma blind_handshake_loop fuel data : blind (tls13_psk_handshake_loop fuel data).
Proof.
  pose proof blind_message. revert data. induction fuel as [|fuel IH]; intros data; cbn [tls13_psk_handshake_loop]; blind_go.
Qed.
Lemma blind_handshake data : blind (tls13_psk_handshake data).
Proof. apply blind_handshake_loop. Qed.
Lemma blind_plain_deliver data : blind (tls13_psk_plainstream_deliver E data).
Proof.
  pose proof blind_cipher_record. pose proof blind_tx. unfold tls13_psk_plainstream_deliver. blind_go.
Qed.
Lemma blind_consumer_sends l : blind (consumer_sends E l).
Proof. pose proof blind_plain_deliver. induction l; cbn [consumer_sends]; blind_go. Qed.
Lemma blind_deliver data : blind (tls13_psk_deliver E data).
Proof.
  pose proof blind_consumer_sends. pose proof blind_close. unfold tls13_psk_deliver, xfer_deliver_plain. blind_go.
Qed.
End BlindOps.

(** ** The specification *)
Section Spec.
Context `{DigestOps} `{HkdfOps} `{ExchangeOps} `{AeadOps} (E : tls_env).
#[local] Abbreviation T := (M tls13_psk).

(** One whole record, as a byte list of its own. *)
Definition process_record (record : list Z) : T status :=
  let type := byte_at record 0 in
  if type =? TLS_TYPE_CHANGE_CIPHER then ret OK else
  if type =? TLS_TYPE_HANDSHAKE then tls13_psk_handshake (drop 5 record) else
  if negb (type =? TLS_TYPE_DATA) then ret (Err EINVAL) else
  let* s := get in
  match tls13_open (rx_key s) (rx_iv s) (rx_seq s) (take 5 record) (drop 5 record) with
  | (inr content_type, Some p) =>
      do* update (fun s => s <| rx_seq ::= (fun n => u64 (n + 1)) |>) in
      let plain := take (length p - 1) p in
      if content_type =? TLS_TYPE_HANDSHAKE then tls13_psk_handshake plain else
      if content_type =? TLS_TYPE_DATA then tls13_psk_deliver E plain else
      ret (Err EINVAL)
  | _ => ret (Err EINVAL)
  end.

(** The length of a record, from its header. *)
Definition record_total (buf : list Z) : nat :=
  (5 + Z.to_nat (Z.lor (Z.shiftl (byte_at buf 3) 8) (byte_at buf 4)))%nat.

(** Process every whole record; what remains, or [None] once the connection failed. *)
Fixpoint stream (fuel : nat) (buf : list Z) : T (option (list Z)) :=
  if (length buf <? 5)%nat then ret (Some buf) else
  match fuel with
  | O => fun _ => NoFuel
  | S fuel =>
      let total := record_total buf in
      if (TLS13_MAX_RECORD <? total)%nat then do* tls13_psk_fail (Err EINVAL) in ret None else
      if (length buf <? total)%nat then ret (Some buf) else
      let* rc := process_record (take total buf) in
      match rc with
      | Err e => do* tls13_psk_fail (Err e) in ret None
      | OK => do* tls13_psk_tx E in stream fuel (drop total buf)
      end
  end.

(** The bytes received and not yet processed. *)
Definition buffered (s : tls13_psk) : list Z := take (rx_len s) (rx s).

(** A connection without its receive buffer. *)
Definition core (s : tls13_psk) : tls13_psk := set_rx_buf [] 0 s.
End Spec.

Section Refine.
Context `{DigestLaws} `{HkdfLaws} `{ExchangeLaws} `{AeadLaws} (E : tls_env) `{!TlsEnvLaws E}.
Implicit Types (s : tls13_psk).

Lemma blind_process_record record : blind (process_record E record).
Proof.
  pose proof blind_handshake. pose proof (blind_deliver E). unfold process_record. blind_go.
Qed.

Lemma blind_stream fuel buf : blind (stream E fuel buf).
Proof.
  pose proof blind_process_record. pose proof (blind_tx E). pose proof blind_fail.
  revert buf. induction fuel as [|fuel IH]; intros buf; cbn [stream]; blind_go.
Qed.

(** The outcomes of the two machines on one record: the same value, the same rest of
    the connection; the buffer keeps its length and what follows the record. *)
Definition record_match total s (o o' : outcome tls13_psk status) : Prop :=
  match o, o' with
  | Ret a t, Ret a' t' =>
      a = a' /\ core t = core t' /\ rx_len t = rx_len s /\ length (rx t) = length (rx s) /\
      drop total (rx t) = drop total (rx s)
  | Fault, Fault | NoFuel, NoFuel => True
  | _, _ => False
  end.

Lemma core_set_rx r n s : core (set_rx_buf r n s) = core s.
Proof. done. Qed.

Lemma set_rx_core r n s s' : core s = core s' -> set_rx_buf r n s = set_rx_buf r n s'.
Proof. intros Hc. exact (f_equal (set_rx_buf r n) Hc). Qed.

Lemma core_open r f s s' :
  core s = core s' -> core (s <| rx := r |> <| rx_seq ::= f |>) = core (s' <| rx_seq ::= f |>).
Proof. destruct s, s'. intros Hc. injection Hc. intros. subst. reflexivity. Qed.

(** A blind computation on two states that agree up to the buffer. *)
Lemma blind_core {A} (m : M tls13_psk A) s s' a t :
  blind m -> core s = core s' -> m s = Ret a t ->
  exists t', m s' = Ret a t' /\ core t = core t' /\ rx_len t = rx_len s /\ rx t = rx s.
Proof.
  intros Hm Hc He. destruct (blind_frame m s a t Hm He) as [Hr Hn].
  pose proof (Hm s (rx s') (rx_len s')) as Hms. rewrite He in Hms. cbn in Hms.
  rewrite (set_rx_core _ _ _ _ Hc) in Hms. replace (set_rx_buf (rx s') (rx_len s') s') with s' in Hms by (by destruct s').
  exists (set_rx_buf (rx s') (rx_len s') t). done.
Qed.

Lemma blind_match total {m : M tls13_psk status} s s1 s' :
  blind m -> core s1 = core s' -> rx_len s1 = rx_len s -> length (rx s1) = length (rx s) ->
  drop total (rx s1) = drop total (rx s) -> record_match total s (m s1) (m s').
Proof.
  intros Hm Hc Hn Hl Hd. pose proof (Hm s1 (rx s') (rx_len s')) as Hms.
  rewrite (set_rx_core _ _ _ _ Hc) in Hms. replace (set_rx_buf (rx s') (rx_len s') s') with s' in Hms by (by destruct s').
  rewrite Hms. destruct (m s1) as [a t| |] eqn:Em; cbn; [|done..].
  destruct (blind_frame m s1 a t Hm Em) as [Hr Hn']. by rewrite Hr, Hn', core_set_rx.
Qed.

Lemma drop_splice off src dst n :
  (off + length src <= n)%nat -> (off + length src <= length dst)%nat -> drop n (splice off src dst) = drop n dst.
Proof.
  intros Hl Hd. unfold splice. rewrite app_assoc, drop_app_ge by (rewrite length_app, length_take; lia).
  rewrite drop_drop, length_app, length_take. f_equal. lia.
Qed.

Lemma splice_sub off src dst n :
  (off + length src <= length dst)%nat -> (n <= length src)%nat -> sub off n (splice off src dst) = take n src.
Proof.
  intros Hl Hn. unfold sub, splice. rewrite drop_app_ge by (rewrite length_take; lia).
  rewrite length_take, (Nat.min_l off) by lia. rewrite Nat.sub_diag, drop_0. by rewrite take_app_le.
Qed.

Lemma process_match total s s' :
  conn_ok s -> core s = core s' -> (5 <= total <= rx_len s)%nat ->
  record_match total s (tls13_psk_record E total s) (process_record E (take total (buffered s)) s').
Proof.
  intros Hs Hc Ht. destruct (co_rx _ _ Hs) as (Hl & Hb & Hn).
  assert (take total (buffered s) = sub 0 total (rx s)) as ->.
  { unfold buffered, sub. rewrite drop_0, take_take. f_equal. lia. }
  unfold tls13_psk_record, process_record. unfold bind at 1, gets at 1. rewrite read_some by lia.
  set (record := sub 0 total (rx s)). unfold of_option, bind at 1, ret at 1.
  assert (length record = total) as Hrl by (apply sub_length; lia).
  unfold byte_at. cbv zeta. destruct (lookup_lt_is_Some_2 record 0) as [ty Hty]; [lia|]. rewrite Hty. cbn [default]. change (id ty) with ty.
  unfold bind at 1, ret at 1.
  destruct (ty =? TLS_TYPE_CHANGE_CIPHER); [cbn; done|].
  destruct (ty =? TLS_TYPE_HANDSHAKE); [by apply blind_match; [apply blind_handshake|..]|].
  destruct (negb _); [cbn; done|]. unfold bind, get, gets, update, ret. cbv beta iota.
  assert (rx_key s' = rx_key s /\ rx_iv s' = rx_iv s /\ rx_seq s' = rx_seq s) as (-> & -> & ->).
  { by repeat split; match goal with |- ?f _ = _ => exact (f_equal f (eq_sym Hc)) end. }
  destruct (tls13_open_cases (rx_key s) (rx_iv s) (rx_seq s) (take 5 record) (drop 5 record)) as
    [[e ->]|[[e ->]|(p & -> & Hpl & Hpo & Hlong)]].
  - done.
  - rewrite length_drop, Hrl. rewrite memcpy_some by (unfold zeros; rewrite length_replicate; lia).
    cbn. unfold zeros. rewrite splice_length by (rewrite length_replicate; lia).
    rewrite drop_splice by (rewrite length_replicate; lia). done.
  - rewrite length_drop, Hrl in Hpl, Hlong. rewrite memcpy_some by lia. cbv beta iota.
    set (s1 := modify rx_seq _ _). set (s1' := modify rx_seq _ s').
    assert (core s1 = core s1') as Hc1.
    { by apply core_open. }
    change (rx s1) with (splice 5 p (rx s)).
    rewrite read_some by (rewrite splice_length; lia). rewrite splice_sub by lia.
    replace (total - 5 - authsize - 1)%nat with (length p - 1)%nat by lia. cbv beta iota.
    assert (length (rx s1) = length (rx s)) as Hl1 by (apply splice_length; lia).
    assert (drop total (rx s1) = drop total (rx s)) as Hd1 by (apply drop_splice; lia).
    destruct (_ =? TLS_TYPE_HANDSHAKE); [by apply blind_match; [apply blind_handshake|..]|].
    destruct (_ =? TLS_TYPE_DATA); [by apply blind_match; [apply blind_deliver|..]|]. done.
Qed.

(** *** The loop *)
Definition loop_match (o : outcome tls13_psk unit) (o' : outcome tls13_psk (option (list Z))) : Prop :=
  match o, o' with
  | Ret _ t, Ret r t' => core t = core t' /\ conn_ok t /\ (forall rest, r = Some rest -> buffered t = rest)
  | _, _ => False
  end.

Lemma buffered_length s : conn_ok s -> length (buffered s) = rx_len s.
Proof. intros Hs. destruct (co_rx _ _ Hs) as (Hl & _ & Hn). unfold buffered. rewrite length_take. lia. Qed.

Lemma buffered_at s i : (i < rx_len s)%nat -> byte_at (buffered s) i = byte_at (rx s) i.
Proof. intros Hi. unfold byte_at, buffered. by rewrite lookup_take_lt. Qed.

Lemma fail_match rc s s' :
  conn_ok s -> core s = core s' ->
  loop_match (tls13_psk_fail rc s) ((do* tls13_psk_fail rc in ret None) s').
Proof.
  intros Hs Hc. pose proof (fail_ok (rx_len s) rc s Hs) as Hw. unfold wp in Hw.
  destruct (tls13_psk_fail rc s) as [[] t| |] eqn:Ef; [|done..].
  destruct (blind_core _ s s' _ t (blind_fail rc) Hc Ef) as (t' & Et & Hct & _ & _).
  unfold bind. rewrite Et. cbn. split; [done|]. split; [by eapply conn_at_ok|done].
Qed.

(** After a whole record: the rest of the buffer moves to the front. *)
Lemma consume_match total s s1 :
  conn_ok s -> conn_ok s1 -> (5 <= total <= rx_len s)%nat -> rx_len s1 = rx_len s ->
  drop total (rx s1) = drop total (rx s) ->
  exists moved buf, read total (rx_len s1 - total) (rx s1) = Some moved /\ memcpy 0 moved (rx s1) = Some buf /\
    let s2 := s1 <| rx := buf |> <| rx_len := (rx_len s1 - total)%nat |> in
    conn_ok s2 /\ core s2 = core s1 /\ buffered s2 = drop total (buffered s).
Proof.
  intros Hs Hs1 Ht Hn Hd. destruct (co_rx _ _ Hs1) as (Hl1 & _ & Hn1).
  destruct (consume_ok total s1 Hs1) as (moved & buf & Hm & Hbuf & Hs2); [lia|].
  exists moved, buf. split; [done|]. split; [done|]. cbv zeta. split; [by eapply conn_at_ok|]. split; [done|].
  apply read_inv in Hm as [Hml ->]. apply memcpy_inv in Hbuf as [Hbl ->].
  unfold buffered. cbn. rewrite skipn_firstn_comm, <-Hd, <-Hn.
  assert (length (sub total (rx_len s1 - total) (rx s1)) = rx_len s1 - total)%nat as Hsl by (apply sub_length; lia).
  unfold splice. rewrite take_0, app_nil_l, take_app_le by lia. rewrite take_ge by lia. done.
Qed.

Lemma rx_refines fuel s s' :
  conn_ok s -> core s = core s' -> (rx_len s <= fuel)%nat ->
  loop_match (tls13_psk_rx_loop E fuel s) (stream E fuel (buffered s) s').
Proof.
  revert s s'. induction fuel as [|fuel IH]; intros s s' Hs Hc Hf;
    cbn [tls13_psk_rx_loop stream]; unfold bind at 1, get; rewrite buffered_length by done.
  { rewrite (proj2 (Nat.ltb_lt _ _)) by lia. cbn. split_and!; [done|done|naive_solver]. }
  destruct (co_rx _ _ Hs) as (Hl & Hb & Hn).
  destruct (Nat.ltb_spec (rx_len s) 5). { cbn. split_and!; [done|done|naive_solver]. }
  assert (5 <= length (rx s))%nat as Hfive by lia.
  assert (record_total (buffered s) = (5 + Z.to_nat (Z.lor (Z.shiftl (byte_at (rx s) 3) 8) (byte_at (rx s) 4)))%nat) as Htot
    by (unfold record_total; by rewrite !buffered_at by lia).
  unfold byte_at in Htot. destruct (lookup_lt_is_Some_2 (rx s) 3) as [hi Hhi]; [lia|].
  destruct (lookup_lt_is_Some_2 (rx s) 4) as [lo Hlo]; [lia|]. rewrite Hhi, Hlo in Htot |- *. cbn [default] in Htot.
  change (id hi) with hi in Htot. change (id lo) with lo in Htot. unfold of_option, bind at 1 2, ret at 1 2.
  rewrite Htot. set (total := (5 + _)%nat) in *. assert (5 <= total)%nat as Ht by (unfold total; lia). clearbody total.
  destruct (Nat.ltb_spec TLS13_MAX_RECORD total); [by apply fail_match|].
  destruct (Nat.ltb_spec (rx_len s) total). { cbn. split_and!; [done|done|naive_solver]. }
  pose proof (process_match total s s' Hs Hc ltac:(lia)) as Hm.
  pose proof (record_ok E (rx_len s) total s Hs ltac:(lia)) as Hw. unfold wp in Hw.
  destruct (tls13_psk_record E total s) as [rc s1| |] eqn:E1; [|done..].
  destruct (process_record E _ s') as [rc' s1'| |] eqn:E1'; [|done..].
  rewrite (bind_run _ _ _ _ _ E1), (bind_run _ _ _ _ _ E1').
  destruct Hm as (<- & Hc1 & Hn1 & Hl1 & Hd1). destruct rc as [|e]; [|apply fail_match; [by eapply conn_at_ok|done]].
  destruct (consume_match total s s1 Hs) as (moved & buf & Hr & Hbuf & Hs2 & Hc2 & Hb2);
    [by eapply conn_at_ok|lia|done|done|].
  unfold bind at 1. rewrite Hr. unfold bind at 1, ret at 1. rewrite Hbuf. unfold bind at 1, ret at 1.
  unfold bind at 1, update. set (s2 := modify rx_len _ _) in *.
  pose proof (tx_ok E (rx_len s2) s2 Hs2) as Hw2. unfold wp in Hw2.
  destruct (tls13_psk_tx E s2) as [[] s3| |] eqn:Etx; [|done..].
  destruct (blind_core _ s2 s1' _ s3 (blind_tx E) (eq_trans Hc2 Hc1) Etx) as (s3' & Etx' & Hc3 & Hn3 & Hr3).
  rewrite (bind_run _ _ _ _ _ Etx), (bind_run _ _ _ _ _ Etx').
  rewrite <-Hb2. replace (buffered s2) with (buffered s3) by (unfold buffered; by rewrite Hn3, Hr3).
  apply IH; [by eapply conn_at_ok|done|]. rewrite Hn3. unfold s2. cbn. lia.
Qed.

(** *** Delivery *)

(** What [tls13_psk_cipherstream_deliver] does when the data fits. *)
Lemma deliver_stream data s :
  conn_ok s -> bytes_ok data -> (rx_len s + length data <= TLS13_MAX_RECORD)%nat ->
  exists t r t', tls13_psk_cipherstream_deliver E data s = Ret OK t /\
    stream E (rx_len s + length data) (buffered s ++ data) (core s) = Ret r t' /\
    core t = core t' /\ conn_ok t /\ (forall rest, r = Some rest -> buffered t = rest).
Proof.
  intros Hs Hd Hfit. destruct (co_rx _ _ Hs) as (Hl & Hb & Hn).
  unfold tls13_psk_cipherstream_deliver. unfold bind at 1, gets at 1.
  rewrite (proj2 (Nat.ltb_ge _ _)) by lia. unfold bind at 1, gets at 1. rewrite memcpy_some by lia.
  unfold of_option, bind at 1, ret at 1, bind at 1, update. set (s1 := modify rx_len _ _).
  assert (conn_ok s1) as Hs1.
  { unfold s1. unfold conn_ok in *. upd. split_and!; [rewrite splice_length; lia|auto with fw|lia]. }
  assert (buffered s ++ data = buffered s1) as ->.
  { unfold buffered, s1, splice. cbn. rewrite app_assoc.
    rewrite (take_app_le (take (rx_len s) (rx s) ++ data)) by (rewrite length_app, length_take; lia). symmetry. apply take_ge. rewrite length_app, length_take; lia. }
  assert (rx_len s + length data = rx_len s1)%nat as -> by done.
  pose proof (rx_refines (rx_len s1) s1 (core s) Hs1 eq_refl (le_n _)) as Hm. unfold loop_match in Hm.
  unfold tls13_psk_rx. unfold bind at 1 2, gets.
  destruct (tls13_psk_rx_loop E (rx_len s1) s1) as [[] t| |]; [|done..].
  destruct (stream E _ _ _) as [r t'| |]; [|done..]. destruct Hm as (Hc & Ht & Hr). by exists t, r, t'.
Qed.

(** Fuel beyond the length of the buffer makes no difference. *)
Lemma stream_fuel f f' buf s :
  (length buf <= f)%nat -> (length buf <= f')%nat -> stream E f buf s = stream E f' buf s.
Proof.
  revert f' buf s. induction f as [|f IH]; intros f' buf s Hf Hf'.
  { destruct buf; [|cbn in Hf; lia]. by destruct f'. }
  destruct f' as [|f']. { destruct buf; [done|cbn in Hf'; lia]. }
  cbn [stream]. destruct (Nat.ltb_spec (length buf) 5); [done|]. destruct (_ <? _)%nat; [done|].
  destruct (_ <? _)%nat; [done|]. unfold bind. destruct (process_record E _ s) as [[|e] s1| |]; [|done..].
  destruct (tls13_psk_tx E s1) as [[] s2| |]; [|done..].
  assert (5 <= record_total buf)%nat by (unfold record_total; lia).
  apply IH; rewrite length_drop; lia.
Qed.

Lemma stream_rest f buf s rest t : stream E f buf s = Ret (Some rest) t -> (length rest <= length buf)%nat.
Proof.
  revert buf s. induction f as [|f IH]; intros buf s; cbn [stream].
  { destruct (_ <? _)%nat; [|done]. by intros [= -> _]. }
  destruct (_ <? _)%nat; [by intros [= -> _]|]. unfold bind.
  destruct (_ <? _)%nat; [by destruct (tls13_psk_fail _ s)|]. destruct (_ <? _)%nat; [by intros [= -> _]|].
  destruct (process_record E _ s) as [[|e] s1| |]; [|by destruct (tls13_psk_fail _ s1)|done|done].
  destruct (tls13_psk_tx E s1) as [[] s2| |]; [|done..]. intros He%IH. rewrite length_drop in He. lia.
Qed.

Lemma fail_phase rc s : exists t, tls13_psk_fail rc s = Ret tt t /\ phase t = TLS13_PSK_FAILED.
Proof.
  unfold tls13_psk_fail, bind, gets. case_bool_decide; [by exists s|].
  eexists. split; [done|]. cbn. by destruct (shut s).
Qed.

Lemma stream_none f buf s t : stream E f buf s = Ret None t -> phase t = TLS13_PSK_FAILED.
Proof.
  revert buf s. induction f as [|f IH]; intros buf s; cbn [stream].
  { by destruct (_ <? _)%nat. }
  destruct (_ <? _)%nat; [done|]. unfold bind.
  destruct (_ <? _)%nat.
  { destruct (fail_phase (Err EINVAL) s) as (t' & -> & Hp). by intros [= <-]. }
  destruct (_ <? _)%nat; [done|]. destruct (process_record E _ s) as [[|e] s1| |]; [| |done..].
  - destruct (tls13_psk_tx E s1) as [[] s2| |]; [|done..]. apply IH.
  - destruct (fail_phase (Err e) s1) as (t' & -> & Hp). by intros [= <-].
Qed.

(** The stream can be cut anywhere. *)
Lemma stream_app f a b s :
  (length a + length b <= f)%nat ->
  stream E f (a ++ b) s =
    (let* r := stream E f a in
     match r with None => ret None | Some rest => stream E f (rest ++ b) end) s.
Proof.
  revert a s. induction f as [|f IH]; intros a s Hf.
  { destruct a; [|cbn in Hf; lia]. done. }
  destruct (decide (length a < 5)%nat) as [Hlt|Hge].
  { unfold bind. cbn [stream]. by rewrite (proj2 (Nat.ltb_lt (length a) 5)). }
  assert (record_total (a ++ b) = record_total a) as Ht.
  { unfold record_total, byte_at. by rewrite !lookup_app_l by lia. }
  destruct (decide (length a < record_total a)%nat) as [Hshort|Hwhole].
  { destruct (decide (TLS13_MAX_RECORD < record_total a)%nat) as [Hbig|Hfits].
    - unfold bind. cbn [stream]. rewrite length_app, Ht, !(proj2 (Nat.ltb_ge _ 5)), (proj2 (Nat.ltb_lt _ (record_total a))) by lia.
      unfold bind. by destruct (tls13_psk_fail _ s).
    - rewrite (bind_run _ _ s (Some a) s); [done|]. cbn [stream].
      rewrite (proj2 (Nat.ltb_ge _ 5)), (proj2 (Nat.ltb_ge _ (record_total a))), (proj2 (Nat.ltb_lt _ (record_total a))) by lia.
      done. }
  cbn [stream]. rewrite length_app, Ht, !(proj2 (Nat.ltb_ge _ 5)) by lia.
  assert (5 <= record_total a)%nat as H5t by (unfold record_total; lia).
  destruct (TLS13_MAX_RECORD <? record_total a)%nat. { unfold bind. by destruct (tls13_psk_fail _ s). }
  rewrite !(proj2 (Nat.ltb_ge _ (record_total a))) by lia. rewrite take_app_le, drop_app_le by lia.
  unfold bind. destruct (process_record E _ s) as [[|e] s1| |]; [|by destruct (tls13_psk_fail _ s1)|done|done].
  destruct (tls13_psk_tx E s1) as [[] s2| |]; [|done..].
  rewrite IH by (rewrite length_drop; lia). unfold bind. destruct (stream E f _ s2) as [[rest|] s3| |] eqn:Es; [|done..].
  pose proof (stream_rest _ _ _ _ _ Es) as Hrest. rewrite length_drop in Hrest.
  exact (stream_fuel f (S f) (rest ++ b) s3 ltac:(rewrite length_app; lia) ltac:(rewrite length_app; lia)).
Qed.

(** [C14] Reception refines the specification: given any bytes that fit its buffer,
    [tls13_psk_cipherstream_deliver] leaves the connection as [stream] does, which
    cuts the unprocessed bytes followed by the new ones into records and processes
    each as a list of its own; and, unless the connection failed, exactly the bytes
    after the last whole record stay in the buffer.  Bytes that do not fit fail the
    connection. *)
Theorem deliver_refines_stream data s :
  conn_ok s -> bytes_ok data ->
  ((rx_len s + length data <= TLS13_MAX_RECORD)%nat ->
   exists t r t', tls13_psk_cipherstream_deliver E data s = Ret OK t /\
     stream E (rx_len s + length data) (buffered s ++ data) (core s) = Ret r t' /\
     core t = core t' /\ (forall rest, r = Some rest -> buffered t = rest)) /\
  ((TLS13_MAX_RECORD < rx_len s + length data)%nat ->
   exists t, tls13_psk_cipherstream_deliver E data s = Ret (Err EINVAL) t /\ phase t = TLS13_PSK_FAILED).
Proof.
  intros Hs Hd. split; intros Hfit.
  - destruct (deliver_stream data s Hs Hd Hfit) as (t & r & t' & ? & ? & ? & _ & ?). eauto 10.
  - unfold tls13_psk_cipherstream_deliver. unfold bind at 1, gets at 1. rewrite (proj2 (Nat.ltb_lt _ _)) by lia.
    destruct (fail_phase (Err EINVAL) s) as (t & Ht & Hp). rewrite (bind_run _ _ _ _ _ Ht). eauto.
Qed.

(** Segmentation: if two pieces of the stream fit the buffer together, delivering
    one after the other leaves the connection as delivering both at once does; either
    the first piece made the connection fail, or the second is delivered as well, and
    then also the unprocessed bytes agree. *)
Theorem cipherstream_segmentation a b s :
  conn_ok s -> bytes_ok a -> bytes_ok b -> (rx_len s + length a + length b <= TLS13_MAX_RECORD)%nat ->
  exists t t1, tls13_psk_cipherstream_deliver E (a ++ b) s = Ret OK t /\
    tls13_psk_cipherstream_deliver E a s = Ret OK t1 /\
    (core t = core t1 /\ phase t1 = TLS13_PSK_FAILED \/
     exists t2, tls13_psk_cipherstream_deliver E b t1 = Ret OK t2 /\ core t = core t2 /\
       (phase t = TLS13_PSK_FAILED \/ buffered t = buffered t2)).
Proof.
  intros Hs Ha Hb Hfit.
  destruct (deliver_stream (a ++ b) s Hs) as (t & r & t' & Ht & Hst & Hct & _ & Hrt);
    [by apply Forall_app|rewrite length_app; lia|].
  destruct (deliver_stream a s Hs Ha) as (t1 & r1 & t1' & Ht1 & Hst1 & Hct1 & Ht1ok & Hrt1); [lia|].
  exists t, t1. split; [done|]. split; [done|].
  pose proof (buffered_length s Hs) as Hbl.
  rewrite app_assoc, stream_app in Hst by (rewrite !length_app; lia).
  erewrite (stream_fuel _ (rx_len s + length (a ++ b))) in Hst1 by (rewrite !length_app; lia).
  rewrite (bind_run _ _ _ _ _ Hst1) in Hst. destruct r1 as [rest|].
  2: { injection Hst as <- <-. left. rewrite Hct, Hct1. split; [done|].
       change (phase t1) with (phase (core t1)). rewrite Hct1. exact (stream_none _ _ _ _ Hst1). }
  right. specialize (Hrt1 rest eq_refl). pose proof (buffered_length t1 Ht1ok) as Hbl1.
  assert (length rest <= rx_len s + length a)%nat as Hrl.
  { apply stream_rest in Hst1. rewrite length_app in Hst1. lia. }
  rewrite Hrt1 in Hbl1.
  destruct (deliver_stream b t1 Ht1ok Hb) as (t2 & r2 & t2' & Ht2 & Hst2 & Hct2 & _ & Hrt2); [lia|].
  exists t2. split; [done|]. rewrite Hrt1 in Hst2.
  rewrite (stream_fuel _ (rx_len s + length (a ++ b))) in Hst2 by (rewrite ?length_app; lia).
  destruct (blind_core _ (core t1) t1' _ _ (blind_stream _ _) Hct1 Hst2) as (t2'' & Hst3 & Hct3 & _).
  rewrite Hst in Hst3. injection Hst3 as -> ->.
  assert (core t = core t2) as Hcore by congruence. split; [done|]. destruct r2 as [rest2|].
  - right. by rewrite (Hrt rest2), (Hrt2 rest2).
  - left. change (phase t) with (phase (core t)). rewrite Hct. exact (stream_none _ _ _ _ Hst).
Qed.
End Refine.
