(* ===== verification/TlsSession.v ===== *)
(** * A TLS session from end to end (net/tls13.c)

    A server with the same pre-shared key completes the handshake with the client and
    both arrive at the same keys; data crosses in both directions unchanged.  The
    server is described by the formulas of RFC 8446. *)

From stdpp Require Import base list strings.
From Stdlib Require Import ZArith Lia.
From S2P Require Import Prelude Crypto TlsKeys TlsHello TlsPsk TlsPskInv TlsStream.

(** ** What the parties rely on *)

(** X25519 accepts its keys, and both sides arrive at one shared secret. *)
Class X25519Laws `{ExchangeOps} : Prop := {
  share_total a : length a = 32%nat -> (exchange_share x25519_algorithm a).1 = OK;
  agree_total a b : length a = 32%nat -> length b = 32%nat ->
    exists z, exchange_agree x25519_algorithm a (exchange_share x25519_algorithm b).2 = (OK, z) /\
              exchange_agree x25519_algorithm b (exchange_share x25519_algorithm a).2 = (OK, z);
}.

(** An environment in which nothing fails and the socket's window is open. *)
Record calm (E : tls_env) : Prop := {
  calm_alloc n : alloc_ok E n = true;
  calm_window n : (cipher_window E n =? 0) = false;
  calm_open n : open_rc E n = OK;
  calm_random n k : (rbg_generate E n k).1 = OK;
}.

(** ** The server *)
Record server : Type := Server {
  srv_psk : list Z;
  srv_private : list Z;
  srv_random : list Z;
  srv_session_id : list Z;
  srv_extensions : list Z;
}.

Section Server.
Context `{DigestOps} `{HkdfOps} `{ExchangeOps} `{AeadOps} (srv : server).
#[local] Abbreviation d := sha256_algorithm.

(** The key share of a ClientHello, at its place in the message. *)
Definition client_share (ch : list Z) : list Z := sub 72 32 ch.

(** The server's messages, given the ClientHello. *)
Definition sh_msg : list Z :=
  server_hello_msg (srv_random srv) (srv_session_id srv) 0x1301 0
    [(43, [3; 4]); (51, be_bytes 2 29 ++ be_bytes 2 32 ++ (exchange_share x25519_algorithm (srv_private srv)).2);
     (41, [0; 0])].
Definition ee_msg : list Z := [8] ++ vec 3 (vec 2 (srv_extensions srv)).

(** The key schedule of section 7.1 on the server's side. *)
Definition srv_handshake_secret (ch : list Z) : list Z :=
  tls13_handshake_secret d (tls13_early_secret d (Some (srv_psk srv)))
    (exchange_agree x25519_algorithm (srv_private srv) (client_share ch)).2.
Definition srv_hs_traffic (ch : list Z) (label : string) : list Z :=
  tls13_derive_secret d (srv_handshake_secret ch) (bstr label) (ch ++ sh_msg).
Definition finished_msg (verify : list Z) : list Z := [20; 0; 0; 32] ++ verify.
Definition srv_finished (ch : list Z) : list Z :=
  finished_msg (tls13_finished d (srv_hs_traffic ch "s hs traffic") (ch ++ sh_msg ++ ee_msg)).
Definition srv_transcript (ch : list Z) : list Z := ch ++ sh_msg ++ ee_msg ++ srv_finished ch.
Definition srv_ap_traffic (ch : list Z) (label : string) : list Z :=
  tls13_derive_secret d (tls13_master_secret d (srv_handshake_secret ch)) (bstr label) (srv_transcript ch).

(** A protected record of section 5.2. *)
Definition seal_record (keys : list Z * list Z) (sn type : Z) (data : list Z) : list Z :=
  let header := tls13_psk_header 23 (length data + 1 + authsize) in
  header ++ default [] (tls13_seal keys.1 keys.2 sn header data type).
Definition traffic_key (secret : list Z) : list Z * list Z := tls13_traffic_key d secret 16 12.

(** The server flight: ServerHello in the clear, the rest protected. *)
Definition plain_record (msg : list Z) : list Z := tls13_psk_header 22 (length msg) ++ msg.
Definition server_flight (ch : list Z) : list Z :=
  plain_record sh_msg ++
  seal_record (traffic_key (srv_hs_traffic ch "s hs traffic")) 0 22 (ee_msg ++ srv_finished ch).

(** The record with the client's Finished, as the server expects it. *)
Definition client_finished_record (ch : list Z) : list Z :=
  seal_record (traffic_key (srv_hs_traffic ch "c hs traffic")) 0 22
    (finished_msg (tls13_finished d (srv_hs_traffic ch "c hs traffic") (srv_transcript ch))).
End Server.

(** ** The start of a connection *)
Section Start.
Context `{DigestLaws} `{HkdfLaws} `{ExchangeLaws} `{AeadLaws} `{!X25519Laws}.
Context (E : tls_env) `{!TlsEnvLaws E} (Hcalm : calm E).

(** The connection before and after the ClientHello [ch] was sent. *)
Definition client_key (priv : list Z) : tls13_key_pair :=
  KeyPair priv (exchange_share x25519_algorithm priv).2.
Definition fresh (p i priv : list Z) : tls13_psk :=
  zero_psk
    <| psk := p |> <| identity := i |>
    <| hs := (tls13_handshake_init sha256_algorithm (Some p) (bstr "ext binder")) <| key := client_key priv |> |>
    <| events := [Opened; Plugged] |>
    <| tick := 5%nat |>.
Definition started (p i priv ch : list Z) : tls13_psk :=
  zero_psk
    <| psk := p |> <| identity := i |> <| phase := TLS13_PSK_SERVER_FLIGHT |>
    <| hs := (tls13_handshake_init sha256_algorithm (Some p) (bstr "ext binder"))
               <| key := client_key priv |>
               <| transcript := splice 0 ch (zeros TLS13_TRANSCRIPT_SIZE) |>
               <| transcript_len := length ch |> |>
    <| events := [Opened; Plugged; Sent (plain_record ch); WindowChanged] |>
    <| tick := 8%nat |>.

Lemma wp_tls_emit F e (Q : unit -> tls13_psk -> Prop) s :
  shut s = false -> Q tt (s <| events ::= (fun l => l ++ [e]) |>) -> wp F (emit e) Q s.
Proof. intros Hs HQ. apply wp_update. by rewrite Hs. Qed.

(** An append to the transcript that fits. *)
Lemma update_run msg h :
  handshake_ok h -> (transcript_len h + length msg <= TLS13_TRANSCRIPT_SIZE)%nat ->
  tls13_handshake_update msg h = Ret OK
    (h <| transcript := splice (transcript_len h) msg (transcript h) |>
       <| transcript_len := (transcript_len h + length msg)%nat |>).
Proof.
  intros Hh Hl. unfold tls13_handshake_update, bind, gets. rewrite bool_decide_false by lia.
  rewrite memcpy_some; [done|]. by rewrite (ho_transcript h Hh).
Qed.

Lemma client_share_msg random public_key identity binder :
  length random = 32%nat -> length public_key = 32%nat ->
  client_share (client_hello_msg random public_key identity binder) = public_key.
Proof.
  intros Hr Hp.
  assert (exists pre post, client_hello_msg random public_key identity binder = pre ++ public_key ++ post /\
    length pre = 72%nat) as (pre & post & -> & Hl).
  { unfold client_hello_msg, client_hello_extensions, extension, vec. rewrite <-!app_assoc.
    repeat rewrite (app_assoc _ _ (public_key ++ _)). eexists _, _. split; [reflexivity|].
    rewrite !length_app, !be_bytes_length, Hr. done. }
  unfold client_share, sub. rewrite <-Hl, drop_app_length, <-Hp, take_app_length. done.
Qed.

(** The first transmission sends the ClientHello. *)
Lemma first_tx p i priv ch :
  length priv = 32%nat -> (length ch <= 512)%nat ->
  tls13_client_hello 512 (rbg_generate E 5 32).2 (exchange_share x25519_algorithm priv).2 p i (bstr "ext binder") [] =
    Ret true ch ->
  tls13_psk_tx E (fresh p i priv) = Ret tt (started p i priv ch).
Proof.
  intros Hp Hl Hch.
  assert (wp False (tls13_psk_tx E) (fun _ s => s = started p i priv ch) (fresh p i priv)) as Hw.
  { unfold tls13_psk_tx. apply wp_bind, wp_gets. rewrite bool_decide_false by done. apply wp_bind.
    unfold tls13_psk_tx_construct. apply wp_bind, wp_gets. cbn [tx_iobuf phase fresh].
    apply wp_bind. unfold tls13_psk_client_hello. apply wp_bind, wp_tls_consult.
    change (tick (fresh p i priv)) with 5%nat. rewrite (calm_random E Hcalm).
    apply wp_bind, wp_tls_consult. rewrite (calm_alloc E Hcalm). cbn [negb]. apply wp_bind, wp_gets.
    match goal with |- context [tls13_client_hello ?m ?r ?k ?q ?j ?l] =>
      change (tls13_client_hello m r k q j l) with
        (tls13_client_hello 512 (rbg_generate E 5 32).2 (exchange_share x25519_algorithm priv).2 p i (bstr "ext binder")) end.
    rewrite Hch. apply wp_bind. unfold on_hs at 1. eapply wp_intro.
    { cbn [hs]. rewrite update_run; [reflexivity| |].
      - apply handshake_init_ok, exchange_share_length.
      - cbn. unfold TLS13_TRANSCRIPT_SIZE. lia. }
    apply wp_ret. apply wp_bind, wp_update, wp_ret. cbn [negb]. apply wp_bind.
    unfold tls13_psk_tx_transmit. apply wp_bind, wp_gets. cbn [tx_iobuf].
    apply wp_bind, wp_tls_consult. rewrite (calm_window E Hcalm). apply wp_bind, wp_update, wp_bind, wp_tls_emit; [done|].
    apply wp_bind, wp_gets. rewrite bool_decide_false by done. apply wp_ret. apply wp_tls_emit; [done|]. reflexivity. }
  unfold wp in Hw. by destruct (tls13_psk_tx E _) as [[] s| |]; [rewrite Hw| |].
Qed.

(** The state that [add_tls13_psk] leaves, and the ClientHello in it. *)
Lemma add_started p i :
  (length i <= 355)%nat ->
  exists priv random ch, length priv = 32%nat /\ length random = 32%nat /\
    add_tls13_psk E p i zero_psk = Ret OK (started p i priv ch) /\
    length ch = (157 + length i)%nat /\
    ch = client_hello_msg random (exchange_share x25519_algorithm priv).2 i
      (tls13_binder sha256_algorithm (tls13_early_secret sha256_algorithm (Some p)) (bstr "ext binder")
         (take (122 + length i) ch)).
Proof.
  intros Hi. set (priv := (rbg_generate E 3 32).2). set (random := (rbg_generate E 5 32).2).
  pose proof (rbg_length 3 32) as Hpl. pose proof (rbg_length 5 32) as Hrl.
  pose proof (share_total priv Hpl) as Hst. pose proof (exchange_share_length x25519_algorithm priv) as Hsl.
  destruct (client_hello_spec 512 random (exchange_share x25519_algorithm priv).2 p i (bstr "ext binder") [] Hrl Hsl)
    as (ch & Hch & Hcl & Hcm); [lia|lia|].
  exists priv, random, ch. split; [done|]. split; [done|]. split; [|done].
  assert (tls13_generate_key (rbg_generate E 3 32) = inr (client_key priv)) as Hkey.
  { unfold tls13_generate_key, client_key. rewrite (calm_random E Hcalm). fold priv.
    destruct (exchange_share _ _) as [rc pub]. cbn in Hst |- *. by rewrite Hst. }
  assert (wp False (add_tls13_psk E p i) (fun rc s => rc = OK /\ s = started p i priv ch) zero_psk) as Hw.
  { unfold add_tls13_psk. apply wp_bind, wp_tls_consult. rewrite (calm_alloc E Hcalm). cbn [negb].
    apply wp_bind, wp_update, wp_bind, wp_update, wp_bind, wp_tls_consult. rewrite (calm_alloc E Hcalm). cbn [negb].
    apply wp_bind, wp_update, wp_bind, wp_tls_consult. rewrite (calm_alloc E Hcalm). cbn [negb].
    apply wp_bind, wp_update, wp_bind, wp_update, wp_bind, wp_tls_consult.
    match goal with |- context [rbg_generate E ?n 32] => change n with 3%nat end. rewrite Hkey.
    apply wp_bind, wp_update, wp_bind, wp_update, wp_bind, wp_tls_consult. rewrite (calm_open E Hcalm).
    apply wp_bind, wp_tls_emit; [done|]. apply wp_bind, wp_tls_emit; [done|]. apply wp_bind.
    match goal with |- wp _ _ _ ?s => change s with (fresh p i priv) end.
    eapply wp_intro; [apply (first_tx p i priv ch); (done || lia)|]. by apply wp_ret. }
  unfold wp in Hw. by destruct (add_tls13_psk E p i zero_psk) as [rc s| |]; [destruct Hw as [-> ->]| |].
Qed.
End Start.

(** ** The handshake, message by message *)
Section Handshake.
Context `{DigestLaws} `{HkdfLaws} `{ExchangeLaws} `{AeadLaws} `{!X25519Laws}.
Context (E : tls_env) `{!TlsEnvLaws E} (Hcalm : calm E) (srv : server).
#[local] Abbreviation d := sha256_algorithm.
Implicit Types (s t : tls13_psk) (h : tls13_handshake).

(** A server that the client can talk to: fixed-size members have their sizes and the
    handshake with a hello of [n] bytes fits the transcript. *)
Record server_ok (n : nat) : Prop := {
  so_private : length (srv_private srv) = 32%nat;
  so_random : length (srv_random srv) = 32%nat;
  so_sid : Z.of_nat (length (srv_session_id srv)) < 256;
  so_bytes : bytes_ok (srv_extensions srv);
  so_fits : (n + (length (srv_session_id srv) + length (srv_extensions srv) + 140) <= TLS13_TRANSCRIPT_SIZE)%nat;
}.

Lemma sh_msg_length n : server_ok n -> length (sh_msg srv) = (96 + length (srv_session_id srv))%nat.
Proof.
  intros [Hp Hr _ _ _]. pose proof (exchange_share_length x25519_algorithm (srv_private srv)) as Hs. cbn [pubsize] in Hs.
  unfold sh_msg, server_hello_msg, encode_extensions. cbn [map concat fst snd].
  rewrite !length_app, vec_length, !length_app, !vec_length, !length_app, !extension_length, !length_app, !be_bytes_length, Hs, Hr.
  cbn [length]. lia.
Qed.

Lemma ee_msg_length : length (ee_msg srv) = (6 + length (srv_extensions srv))%nat.
Proof. unfold ee_msg. rewrite length_app, !vec_length. cbn [length]. lia. Qed.

Lemma finished_length secret m : length (tls13_finished d secret m) = 32%nat.
Proof. apply hmac_final_length. Qed.

Lemma srv_finished_length ch : length (srv_finished srv ch) = 36%nat.
Proof. unfold srv_finished, finished_msg. rewrite length_app, finished_length. done. Qed.

Lemma flight_bytes ch n : server_ok n -> bytes_ok (ee_msg srv ++ srv_finished srv ch).
Proof.
  intros Hsrv. apply Forall_app. split.
  - unfold ee_msg, vec. repeat first [apply Forall_app; split|apply be_bytes_ok|exact (so_bytes _ Hsrv)].
    constructor; [unfold is_byte; lia|constructor].
  - unfold srv_finished, finished_msg. apply Forall_app. split; [repeat constructor; unfold is_byte; lia|apply hmac_final_ok].
Qed.

(** Appending to the transcript. *)
Lemma messages_app msg h :
  handshake_ok h -> (transcript_len h + length msg <= TLS13_TRANSCRIPT_SIZE)%nat ->
  messages (h <| transcript := splice (transcript_len h) msg (transcript h) |>
              <| transcript_len := (transcript_len h + length msg)%nat |>) = messages h ++ msg.
Proof.
  intros Hh Hl. unfold messages, splice. cbn. rewrite app_assoc.
  pose proof (ho_transcript h Hh).
  rewrite (take_app_le (take (transcript_len h) (transcript h) ++ msg)) by (rewrite length_app, length_take; lia).
  apply take_ge. rewrite length_app, length_take. lia.
Qed.

Lemma messages_length h : handshake_ok h -> length (messages h) = transcript_len h.
Proof.
  intros Hh. unfold messages. rewrite length_take, (ho_transcript h Hh). pose proof (ho_transcript_len h Hh). lia.
Qed.

Lemma wp_update_msg msg s (Q : status -> tls13_psk -> Prop) :
  handshake_ok (hs s) -> (length (messages (hs s)) + length msg <= TLS13_TRANSCRIPT_SIZE)%nat ->
  (forall h, handshake_ok h -> messages h = messages (hs s) ++ msg -> early h = early (hs s) -> key h = key (hs s) ->
     handshake h = handshake (hs s) -> Q OK (s <| hs := h |>)) ->
  wp False (on_hs (tls13_handshake_update msg)) Q s.
Proof.
  intros Hh Hl HQ. rewrite messages_length in Hl by done. unfold wp, on_hs.
  pose proof (update_ok msg (hs s) Hh) as Hw. unfold wp in Hw. rewrite update_run in Hw |- * by done.
  apply HQ; [done|by apply messages_app|done..].
Qed.

Lemma wp_set_key dir secret s (Q : unit -> tls13_psk -> Prop) :
  digest s = d ->
  Q tt (match dir with
        | TLS13_PSK_TX => s <| tx_key := (traffic_key secret).1 |> <| tx_iv := (traffic_key secret).2 |>
        | TLS13_PSK_RX => s <| rx_key := (traffic_key secret).1 |> <| rx_iv := (traffic_key secret).2 |>
        end) ->
  wp False (tls13_psk_set_key dir secret) Q s.
Proof. intros Hd HQ. unfold tls13_psk_set_key. apply wp_bind, wp_gets. rewrite Hd. by apply wp_update. Qed.

(** A message in front of others is handled first. *)
Lemma handshake_loop_cons fuel ty body rest s :
  Z.of_nat (length body) < 2 ^ 24 ->
  let msg := [ty] ++ vec 3 body in
  tls13_psk_handshake_loop (S fuel) (msg ++ rest) s =
    (try* tls13_psk_message ty msg in tls13_psk_handshake_loop fuel rest) s.
Proof.
  intros Hl. cbv zeta. set (n := Z.of_nat (length body)) in *.
  pose proof (be_bytes_ok 3 n) as Hbo. pose proof (be_val_bytes 3 n) as Hbv. pose proof (be_bytes_length 3 n) as Hbl.
  unfold vec. fold n. destruct (be_bytes 3 n) as [|b1 [|b2 [|b3 [|]]]]; try discriminate Hbl.
  apply Forall_cons in Hbo as [Hb1 [Hb2 [Hb3 _]%Forall_cons]%Forall_cons].
  rewrite Z.mod_small in Hbv by (unfold n; lia).
  cbn [app tls13_psk_handshake_loop]. rewrite lor_bytes3, Hbv by done. unfold n. rewrite Nat2Z.id.
  rewrite (proj2 (Nat.ltb_ge _ _)) by (cbn [length]; rewrite length_app; lia).
  cbn [Nat.add take drop]. rewrite take_app_length, drop_app_length. done.
Qed.

(** *** ServerHello *)
Definition after_hello (ch : list Z) s t : Prop :=
  handshake_ok (hs t) /\ digest t = d /\ messages (hs t) = ch ++ sh_msg srv /\
  handshake (hs t) = srv_handshake_secret srv ch /\
  client_hs t = srv_hs_traffic srv ch "c hs traffic" /\ server_hs t = srv_hs_traffic srv ch "s hs traffic" /\
  (tx_key t, tx_iv t) = traffic_key (client_hs t) /\ (rx_key t, rx_iv t) = traffic_key (server_hs t) /\
  tx_seq t = 0 /\ rx_seq t = 0 /\ phase t = phase s /\ tx_iobuf t = tx_iobuf s /\ shut t = shut s /\ events t = events s.

Lemma hello_step ch priv s :
  server_ok (length ch) -> handshake_ok (hs s) -> digest s = d -> messages (hs s) = ch ->
  early (hs s) = tls13_early_secret d (Some (srv_psk srv)) -> private_key (key (hs s)) = priv ->
  length priv = 32%nat -> client_share ch = (exchange_share x25519_algorithm priv).2 ->
  wp False (tls13_psk_server_hello (sh_msg srv)) (fun rc t => rc = OK /\ after_hello ch s t) s.
Proof.
  intros Hsrv Hh Hd Hm He Hpk Hpl Hcs. pose proof (sh_msg_length _ Hsrv) as Hshl. destruct Hsrv as [Hsp Hsr Hsid _ Hfit].
  pose proof (exchange_share_length x25519_algorithm (srv_private srv)) as Hsl. cbn [pubsize] in Hsl.
  pose proof (exchange_share_ok x25519_algorithm (srv_private srv)) as Hso.
  unfold tls13_psk_server_hello.
  set (pub := (exchange_share x25519_algorithm (srv_private srv)).2) in *.
  set (exts := [(43, [3; 4]); (51, be_bytes 2 29 ++ be_bytes 2 32 ++ pub); (41, [0; 0])]).
  assert (apply_extensions exts (zero_server_hello <| sh_cipher_suite := 0x1301 |>) =
    (OK, ServerHello 0x1301 0x0304 0 true pub true)) as Happ.
  { unfold exts. cbn -[be_bytes pub]. rewrite (bool_decide_true (2 = 2)%nat) by done. rewrite bool_decide_true; [done|].
    split; [rewrite !length_app, Hsl; done|]. split; done. }
  pose proof (parse_spec (srv_random srv) (srv_session_id srv) 0x1301 0 exts [] zero_server_hello Hsr Hsid) as Hp.
  cbv zeta in Hp. rewrite Happ, app_nil_r in Hp. cbn [fst snd] in Hp.
  change (server_hello_msg (srv_random srv) (srv_session_id srv) 4865 0 exts) with (sh_msg srv) in Hp.
  rewrite Hp; [|lia| |].
  2: { assert (length (be_bytes 2 29 ++ be_bytes 2 32 ++ pub) = 36%nat) as Hkl by (rewrite !length_app, Hsl; done).
       unfold exts. apply Forall_cons. split; [|apply Forall_cons; split; [|apply Forall_singleton]];
         (split; [cbn; lia|split; [|cbn [snd]; rewrite ?Hkl; cbn; lia]]).
       - repeat constructor; unfold is_byte; lia.
       - apply Forall_app. split; [apply be_bytes_ok|]. apply Forall_app. split; [apply be_bytes_ok|done].
       - repeat constructor; unfold is_byte; lia. }
  2: { unfold exts, encode_extensions. cbn [map concat fst snd].
       rewrite !length_app, !extension_length, !length_app, !be_bytes_length, Hsl. cbn [length]. lia. }
  cbn [sh_version sh_cipher_suite sh_has_key_share sh_has_psk sh_public_key negb Z.eqb TLS_VERSION_TLS_1_3 TLS_AES_128_GCM_SHA256 Pos.eqb].
  apply wp_try, wp_update_msg; [done|rewrite Hm, Hshl; lia|]. intros h1 Hh1 Hm1 He1 Hk1 _.
  destruct (agree_total priv (srv_private srv) Hpl Hsp) as (z & Hz1 & Hz2). fold pub in Hz1.
  apply wp_try. eapply wp_intro.
  { unfold on_hs, tls13_handshake_exchange, tls13_shared_secret, bind, get.
    change (hs (s <| hs := h1 |>)) with h1. rewrite Hk1, Hpk, Hz1. reflexivity. }
  cbn beta iota. apply wp_bind, wp_update, wp_bind, wp_update, wp_bind, wp_gets.
  apply wp_bind, wp_set_key; [exact Hd|]. apply wp_bind, wp_set_key; [exact Hd|].
  apply wp_bind, wp_update, wp_ret. split; [done|].
  assert (tls13_handshake_secret (hs_digest h1) (early h1) z = srv_handshake_secret srv ch) as Hsec.
  { unfold srv_handshake_secret. rewrite Hcs, Hz2, (ho_digest h1 Hh1), He1, He. done. }
  set (h2 := h1 <| handshake := tls13_handshake_secret (hs_digest h1) (early h1) z |>).
  assert (forall l, tls13_handshake_derive h2 (handshake h2) l =
    tls13_derive_secret d (srv_handshake_secret srv ch) l (ch ++ sh_msg srv)) as Hder.
  { intros l. unfold tls13_handshake_derive. change (handshake h2) with (tls13_handshake_secret (hs_digest h1) (early h1) z).
    change (messages h2) with (messages h1). change (hs_digest h2) with (hs_digest h1). by rewrite Hsec, (ho_digest h1 Hh1), Hm1, Hm. }
  pose proof (exchange_ok pub h1 Hh1) as Hh2. unfold tls13_handshake_exchange, tls13_shared_secret in Hh2.
  unfold wp, bind, get in Hh2. rewrite Hk1, Hpk, Hz1 in Hh2. cbn [update] in Hh2.
  unfold after_hello. split_and!; [exact Hh2|exact Hd| |exact Hsec|exact (Hder _)|exact (Hder _)|reflexivity..].
  change (messages h1 = ch ++ sh_msg srv). by rewrite Hm1, Hm.
Qed.

(** *** Finished *)
Definition ap_traffic (hsec : list Z) (label : string) (m : list Z) : list Z :=
  tls13_derive_secret d (tls13_master_secret d hsec) (bstr label) m.

Definition after_finished (hsec m : list Z) s t : Prop :=
  handshake_ok (hs t) /\ digest t = d /\ messages (hs t) = m /\
  client_hs t = client_hs s /\ client_ap t = ap_traffic hsec "c ap traffic" m /\
  (tx_key t, tx_iv t) = (tx_key s, tx_iv s) /\ (rx_key t, rx_iv t) = traffic_key (ap_traffic hsec "s ap traffic" m) /\
  tx_seq t = tx_seq s /\ rx_seq t = 0 /\ phase t = TLS13_PSK_CLIENT_FINISHED /\
  tx_iobuf t = tx_iobuf s /\ shut t = shut s /\ events t = events s.

(** Any Finished message that agrees with the secret and the transcript of the client. *)
Lemma finished_step m hsec s :
  handshake_ok (hs s) -> digest s = d -> messages (hs s) = m -> handshake (hs s) = hsec ->
  (length m + 36 <= TLS13_TRANSCRIPT_SIZE)%nat ->
  let fin := finished_msg (tls13_finished d (server_hs s) m) in
  wp False (tls13_psk_server_finished fin) (fun rc t => rc = OK /\ after_finished hsec (m ++ fin) s t) s.
Proof.
  intros Hh Hd Hm Hsec Hfit fin. assert (length fin = 36%nat) as Hfl by (unfold fin, finished_msg; by rewrite length_app, finished_length).
  unfold tls13_psk_server_finished. rewrite Hfl. cbn [negb Nat.eqb Nat.add].
  apply wp_bind, wp_gets. rewrite bool_decide_true; cbn [negb].
  2: { unfold tls13_handshake_finished. by rewrite (ho_digest _ Hh), Hm. }
  apply wp_try, wp_update_msg; [done|rewrite Hm, Hfl; lia|].
  intros h1 Hh1 Hm1 _ _ Hs1. apply wp_bind. eapply wp_intro; [reflexivity|].
  apply wp_bind, wp_update, wp_bind, wp_update, wp_bind, wp_gets.
  apply wp_bind, wp_set_key; [exact Hd|]. apply wp_bind, wp_update, wp_ret. split; [done|].
  set (h2 := h1 <| master := tls13_master_secret (hs_digest h1) (handshake h1) |>).
  assert (forall l, tls13_handshake_derive h2 (master h2) (bstr l) = ap_traffic hsec l (m ++ fin)) as Hder.
  { intros l. unfold tls13_handshake_derive, ap_traffic. change (messages h2) with (messages h1). rewrite Hm1, Hm.
    change (master h2) with (tls13_master_secret (hs_digest h1) (handshake h1)). change (hs_digest h2) with (hs_digest h1).
    by rewrite (ho_digest h1 Hh1), Hs1, Hsec. }
  pose proof (master_ok h1 Hh1) as Hh2.
  unfold after_finished. split_and!; [exact Hh2|exact Hd| |reflexivity|exact (Hder _)|reflexivity| |reflexivity..].
  - change (messages h1 = m ++ fin). by rewrite Hm1, Hm.
  - change ((traffic_key (tls13_handshake_derive h2 (master h2) (bstr "s ap traffic")))
      = traffic_key (ap_traffic hsec "s ap traffic" (m ++ fin))). by rewrite (Hder "s ap traffic"%string).
Qed.

(** *** Records *)
Lemma header_length ty n : length (tls13_psk_header ty n) = 5%nat.
Proof. done. Qed.

Lemma header_total ty n rest :
  Z.of_nat n < 65536 -> record_total (tls13_psk_header ty n ++ rest) = (5 + n)%nat.
Proof.
  intros Hn. unfold record_total, tls13_psk_header, u16_bytes, byte_at. cbn [app lookup list_lookup default].
  change (id ?x) with x.
  pose proof (u16_bytes_be (Z.of_nat n) ltac:(lia)) as Hb. destruct (byte_pair (Z.of_nat n) ltac:(lia)) as (a & b & Hab & Ha & Hb' & Hv).
  rewrite Hab in Hb. unfold u16_bytes in Hb. injection Hb as -> ->. rewrite lor_bytes2, Hv by done. lia.
Qed.

(** One record at the head of the stream. *)
Lemma stream_cons f ty payload rest s :
  (5 + length payload <= TLS13_MAX_RECORD)%nat ->
  let r := tls13_psk_header ty (length payload) ++ payload in
  stream E (S f) (r ++ rest) s =
    (let* rc := process_record E r in
     match rc with
     | Err e => do* tls13_psk_fail (Err e) in ret None
     | OK => do* tls13_psk_tx E in stream E f rest
     end) s.
Proof.
  intros Hl. cbv zeta. cbn [stream]. rewrite <-app_assoc, header_total by (unfold TLS13_MAX_RECORD, TLS13_MAX_PLAINTEXT in Hl; lia).
  rewrite !length_app, header_length. rewrite !(proj2 (Nat.ltb_ge _ _)) by lia.
  rewrite app_assoc. rewrite take_app_le, drop_app_le by (rewrite length_app, header_length; lia).
  rewrite take_ge, drop_ge by (rewrite length_app, header_length; lia). done.
Qed.

Definition keys_ok (keys : list Z * list Z) : Prop := length keys.1 = 16%nat /\ length keys.2 = TLS13_NONCE_LEN.

Lemma traffic_key_lengths secret : keys_ok (traffic_key secret).
Proof. unfold keys_ok, traffic_key, tls13_traffic_key, tls13_expand_label. cbn [fst snd]. by rewrite !hkdf_expand_length. Qed.

(** A protected record: its payload, and what the receiver makes of it. *)
Lemma seal_record_spec keys sn ty data :
  keys_ok keys -> bytes_ok data -> is_byte ty ->
  exists payload, seal_record keys sn ty data = tls13_psk_header 23 (length payload) ++ payload /\
    length payload = (length data + 1 + authsize)%nat /\ bytes_ok payload /\
    tls13_open keys.1 keys.2 sn (tls13_psk_header 23 (length payload)) payload = (inr ty, Some (data ++ [ty])) /\
    tls13_seal keys.1 keys.2 sn (tls13_psk_header 23 (length payload)) data ty = Some payload.
Proof.
  intros [Hk Hi] Hd Hty. unfold seal_record. set (hd := tls13_psk_header 23 (length data + 1 + authsize)).
  destruct (tls13_seal_some keys.1 keys.2 sn hd data ty Hk Hi) as [out Hout].
  pose proof (tls13_seal_length _ _ _ _ _ _ _ Hout) as Hl. exists out. rewrite Hout, Hl. cbn [default].
  split; [done|]. split; [done|]. split; [by eapply tls13_seal_ok|]. split; [|done].
  rewrite <-(u8_id ty Hty). by apply tls13_open_sealed.
Qed.

Lemma process_protected keys ty data s :
  keys_ok keys -> bytes_ok data -> is_byte ty -> (rx_key s, rx_iv s) = keys ->
  process_record E (seal_record keys (rx_seq s) ty data) s =
    (do* update (fun s => s <| rx_seq ::= (fun n => u64 (n + 1)) |>) in
     if ty =? TLS_TYPE_HANDSHAKE then tls13_psk_handshake data else
     if ty =? TLS_TYPE_DATA then tls13_psk_deliver E data else
     ret (Err EINVAL)) s.
Proof.
  intros Hko Hd Hty Hk. destruct (seal_record_spec keys (rx_seq s) ty data Hko Hd Hty) as (payload & -> & Hl & _ & Ho & _).
  rewrite <-Hk in Ho. cbn [fst snd] in Ho. unfold process_record, tls13_psk_header. cbv zeta.
  change (byte_at ((23 :: u16_bytes TLS_VERSION_TLS_1_2 ++ u16_bytes (Z.of_nat (length payload))) ++ payload) 0) with 23.
  cbn [Z.eqb TLS_TYPE_CHANGE_CIPHER TLS_TYPE_HANDSHAKE TLS_TYPE_DATA Pos.eqb negb]. unfold bind at 1, get.
  fold (tls13_psk_header 23 (length payload)).
  rewrite (take_app_length' _ _ 5), (drop_app_length' _ _ 5) by done. rewrite Ho.
  rewrite length_app. cbn [length]. replace (length data + 1 - 1)%nat with (length data) by lia. rewrite take_app_length. done.
Qed.

(** *** Transmission in the quiet phases, and of the Finished message *)
Lemma tx_idle s (Q : unit -> tls13_psk -> Prop) :
  phase s = TLS13_PSK_SERVER_FLIGHT \/ phase s = TLS13_PSK_DATA -> tx_iobuf s = None -> shut s = false ->
  Q tt (s <| events ::= (fun l => l ++ [WindowChanged]) |>) -> wp False (tls13_psk_tx E) Q s.
Proof.
  intros Hp Hio Hs HQ. unfold tls13_psk_tx. apply wp_bind, wp_gets. rewrite bool_decide_false by (destruct Hp; congruence).
  apply wp_bind. unfold tls13_psk_tx_construct. apply wp_bind, wp_gets. rewrite Hio.
  destruct Hp as [-> | ->]; apply wp_ret; cbn [negb]; apply wp_bind; unfold tls13_psk_tx_transmit;
    apply wp_bind, wp_gets; rewrite Hio; apply wp_ret; by apply wp_tls_emit.
Qed.

Definition after_tx_finished s t : Prop :=
  digest t = d /\ (tx_key t, tx_iv t) = traffic_key (client_ap s) /\ tx_seq t = 0 /\ phase t = TLS13_PSK_DATA /\
  (rx_key t, rx_iv t) = (rx_key s, rx_iv s) /\ rx_seq t = rx_seq s /\ tx_iobuf t = None /\ shut t = false /\
  events t = events s ++
    [Sent (seal_record (tx_key s, tx_iv s) (tx_seq s) 22
       (finished_msg (tls13_finished d (client_hs s) (messages (hs s))))); WindowChanged].

Lemma tx_finish s :
  handshake_ok (hs s) -> digest s = d -> phase s = TLS13_PSK_CLIENT_FINISHED -> tx_iobuf s = None -> shut s = false ->
  length (tx_key s) = 16%nat -> length (tx_iv s) = TLS13_NONCE_LEN ->
  wp False (tls13_psk_tx E) (fun _ => after_tx_finished s) s.
Proof.
  intros Hh Hd Hp Hio Hs Hkl Hil. unfold tls13_psk_tx. apply wp_bind, wp_gets. rewrite Hp.
  rewrite bool_decide_false by done. apply wp_bind.
  unfold tls13_psk_tx_construct. apply wp_bind, wp_gets. rewrite Hio, Hp. apply wp_bind.
  unfold tls13_psk_cipher_record. apply wp_bind, wp_tls_consult. rewrite (calm_alloc E Hcalm). cbn [negb]. apply wp_bind, wp_gets.
  set (fin := client_finished s).
  assert (fin = finished_msg (tls13_finished d (client_hs s) (messages (hs s)))) as Hfin.
  { unfold fin, client_finished, tls13_handshake_finished. by rewrite (ho_digest _ Hh). }
  destruct (tls13_seal_some (tx_key s) (tx_iv s) (tx_seq s)
    (tls13_psk_header TLS_TYPE_DATA (length fin + 1 + authsize)) fin TLS_TYPE_HANDSHAKE Hkl Hil) as [out Hout].
  pose proof (tls13_seal_length _ _ _ _ _ _ _ Hout) as Hol.
  change (tx_key (s <| tick ::= S |>)) with (tx_key s). change (tx_iv (s <| tick ::= S |>)) with (tx_iv s).
  change (tx_seq (s <| tick ::= S |>)) with (tx_seq s). rewrite Hout, Hol, Nat.eqb_refl. cbn [negb].
  apply wp_bind, wp_update, wp_ret. apply wp_bind, wp_update, wp_ret. cbn [negb]. apply wp_bind.
  unfold tls13_psk_tx_transmit. apply wp_bind, wp_gets. cbn [tx_iobuf modify]. apply wp_bind, wp_tls_consult.
  rewrite (calm_window E Hcalm). apply wp_bind, wp_update, wp_bind, wp_tls_emit; [exact Hs|].
  apply wp_bind, wp_gets. rewrite bool_decide_true by exact Hp. cbn [negb]. apply wp_bind, wp_set_key; [exact Hd|].
  apply wp_update, wp_tls_emit; [exact Hs|].
  unfold after_tx_finished. split_and!; [exact Hd|reflexivity..|exact Hs|].
  rewrite <-Hfin. unfold seal_record. change TLS_TYPE_HANDSHAKE with 22 in Hout. change TLS_TYPE_DATA with 23 in Hout.
  cbn [fst snd]. rewrite Hout. cbn [default].
  transitivity ((events s ++ [Sent (tls13_psk_header 23 (length fin + 1 + authsize) ++ out)]) ++ [WindowChanged]);
    [reflexivity|]. by rewrite <-app_assoc.
Qed.

(** *** The whole flight *)
Definition connected (ch : list Z) (evs : list tls_event) t : Prop :=
  phase t = TLS13_PSK_DATA /\ shut t = false /\ tx_iobuf t = None /\
  (rx_key t, rx_iv t) = traffic_key (srv_ap_traffic srv ch "s ap traffic") /\ rx_seq t = 0 /\
  (tx_key t, tx_iv t) = traffic_key (srv_ap_traffic srv ch "c ap traffic") /\ tx_seq t = 0 /\
  events t = evs ++ [WindowChanged; Sent (client_finished_record srv ch); WindowChanged].

Lemma handshake_one ty body s (Q : status -> tls13_psk -> Prop) :
  Z.of_nat (length body) < 2 ^ 24 ->
  wp False (tls13_psk_message ty ([ty] ++ vec 3 body)) Q s ->
  wp False (tls13_psk_handshake ([ty] ++ vec 3 body)) Q s.
Proof.
  intros Hl Hw. unfold tls13_psk_handshake.
  pose proof (handshake_loop_cons (length (vec 3 body)) ty body [] s Hl) as He. cbv zeta in He. rewrite app_nil_r in He.
  unfold wp. change (length ([ty] ++ vec 3 body)) with (S (length (vec 3 body))). rewrite He.
  apply wp_try. eapply wp_mono; [exact Hw|]. intros [|e] t; [|done]. by destruct (length (vec 3 body)).
Qed.

Lemma hello_record ch priv s :
  server_ok (length ch) -> handshake_ok (hs s) -> digest s = d -> messages (hs s) = ch ->
  early (hs s) = tls13_early_secret d (Some (srv_psk srv)) -> private_key (key (hs s)) = priv ->
  length priv = 32%nat -> client_share ch = (exchange_share x25519_algorithm priv).2 ->
  wp False (process_record E (plain_record (sh_msg srv))) (fun rc t => rc = OK /\ after_hello ch s t) s.
Proof.
  intros Hsrv. intros. pose proof (sh_msg_length _ Hsrv) as Hl. unfold process_record, plain_record, tls13_psk_header. cbv zeta.
  change (byte_at ((22 :: u16_bytes TLS_VERSION_TLS_1_2 ++ u16_bytes (Z.of_nat (length (sh_msg srv)))) ++ sh_msg srv) 0) with 22.
  cbn [Z.eqb TLS_TYPE_CHANGE_CIPHER TLS_TYPE_HANDSHAKE Pos.eqb]. fold (tls13_psk_header 22 (length (sh_msg srv))).
  rewrite (drop_app_length' _ _ 5) by done.
  unfold sh_msg, server_hello_msg in *. apply handshake_one.
  { rewrite length_app, vec_length in Hl. cbn [length] in Hl. pose proof (so_sid _ Hsrv). lia. }
  by apply (hello_step ch priv s).
Qed.

Lemma flight_record ch s :
  server_ok (length ch) -> handshake_ok (hs s) -> digest s = d ->
  messages (hs s) = ch ++ sh_msg srv -> handshake (hs s) = srv_handshake_secret srv ch ->
  server_hs s = srv_hs_traffic srv ch "s hs traffic" ->
  (rx_key s, rx_iv s) = traffic_key (server_hs s) -> rx_seq s = 0 ->
  wp False (process_record E (seal_record (traffic_key (srv_hs_traffic srv ch "s hs traffic")) 0 22 (ee_msg srv ++ srv_finished srv ch)))
    (fun rc t => rc = OK /\ after_finished (srv_handshake_secret srv ch) (srv_transcript srv ch) s t) s.
Proof.
  intros Hsrv Hh Hd Hm Hsec Hshs Hk Hn. pose proof (sh_msg_length _ Hsrv) as Hl.
  pose proof (flight_bytes ch _ Hsrv) as Hok.
  rewrite <-Hn, <-Hshs. unfold wp. rewrite process_protected; [|apply traffic_key_lengths|done|unfold is_byte; lia|done].
  cbn [Z.eqb TLS_TYPE_HANDSHAKE Pos.eqb]. apply wp_bind, wp_update. set (s1 := modify rx_seq _ s).
  unfold tls13_psk_handshake. set (fuel := length _). assert (fuel = 42 + length (srv_extensions srv))%nat as ->.
  { unfold fuel. rewrite length_app, ee_msg_length, srv_finished_length. lia. }
  cbn [Nat.add]. unfold wp, ee_msg. rewrite handshake_loop_cons.
  2: { rewrite vec_length. pose proof (so_fits _ Hsrv). unfold TLS13_TRANSCRIPT_SIZE in *. lia. }
  apply wp_try. unfold tls13_psk_message. cbn [Z.eqb TLS_SERVER_HELLO TLS_ENCRYPTED_EXTENSIONS Pos.eqb].
  fold (ee_msg srv). apply wp_update_msg; [done| |].
  { change (hs s1) with (hs s). rewrite Hm, length_app, Hl, ee_msg_length. pose proof (so_fits _ Hsrv). lia. }
  intros h1 Hh1 Hm1 _ _ Hs1.
  pose proof (handshake_loop_cons (40 + length (srv_extensions srv)) 20
    (tls13_finished d (srv_hs_traffic srv ch "s hs traffic") (ch ++ sh_msg srv ++ ee_msg srv)) [] (s1 <| hs := h1 |>)) as Hc.
  cbv zeta in Hc. rewrite app_nil_r in Hc. unfold vec in Hc at 1 2. rewrite finished_length in Hc.
  change ([20] ++ be_bytes 3 (Z.of_nat 32) ++ ?x) with (finished_msg x) in Hc. fold (srv_finished srv ch) in Hc.
  unfold wp. cbn [Nat.add] in Hc. rewrite Hc by lia. apply wp_try.
  unfold tls13_psk_message. cbn [Z.eqb TLS_SERVER_HELLO TLS_ENCRYPTED_EXTENSIONS TLS_FINISHED Pos.eqb].
  pose proof (finished_step (ch ++ sh_msg srv ++ ee_msg srv) (srv_handshake_secret srv ch) (s1 <| hs := h1 |>) Hh1 Hd) as Hfin.
  change (server_hs (s1 <| hs := h1 |>)) with (server_hs s) in Hfin. rewrite Hshs in Hfin. cbv zeta in Hfin.
  change (finished_msg (tls13_finished d (srv_hs_traffic srv ch "s hs traffic") (ch ++ sh_msg srv ++ ee_msg srv)))
    with (srv_finished srv ch) in Hfin.
  eapply wp_mono; [apply Hfin|].
  - change (messages h1 = ch ++ sh_msg srv ++ ee_msg srv). rewrite Hm1. change (hs s1) with (hs s). by rewrite Hm, <-app_assoc.
  - change (handshake h1 = srv_handshake_secret srv ch). rewrite Hs1. exact Hsec.
  - rewrite !length_app, Hl, ee_msg_length. pose proof (so_fits _ Hsrv). lia.
  - intros rc t [-> Ht]. split; [done|]. rewrite <-!app_assoc in Ht. exact Ht.
Qed.

Lemma flight_ok f ch priv s :
  server_ok (length ch) -> (authsize <= 16)%nat -> handshake_ok (hs s) -> digest s = d -> messages (hs s) = ch ->
  early (hs s) = tls13_early_secret d (Some (srv_psk srv)) -> private_key (key (hs s)) = priv ->
  length priv = 32%nat -> client_share ch = (exchange_share x25519_algorithm priv).2 ->
  phase s = TLS13_PSK_SERVER_FLIGHT -> tx_iobuf s = None -> shut s = false ->
  wp False (stream E (S (S f)) (server_flight srv ch)) (fun r t => r = Some [] /\ connected ch (events s) t) s.
Proof.
  intros Hsrv Hauth Hh Hd Hm He Hpk Hpl Hcs Hp Hio Hs.
  pose proof (sh_msg_length _ Hsrv) as Hl. pose proof (so_fits _ Hsrv) as Hfit. pose proof (so_sid _ Hsrv) as Hsid.
  unfold wp, server_flight, plain_record.
  rewrite stream_cons by (unfold TLS13_MAX_RECORD, TLS13_MAX_PLAINTEXT; lia). apply wp_bind.
  eapply wp_mono; [by apply (hello_record ch priv s)|]. intros rc t [-> Ht].
  destruct Ht as (Hh1 & Hd1 & Hm1 & Hsec1 & Hchs1 & Hshs1 & Htx1 & Hrx1 & Htn1 & Hrn1 & Hp1 & Hio1 & Hs1 & Hev1).
  apply wp_bind, tx_idle; [left; congruence|congruence|congruence|]. set (t1 := modify events _ t).
  destruct (seal_record_spec (traffic_key (srv_hs_traffic srv ch "s hs traffic")) 0 22 (ee_msg srv ++ srv_finished srv ch)) as
    (payload & Hrec & Hpayl & _).
  { apply traffic_key_lengths. }
  { exact (flight_bytes ch _ Hsrv). }
  { unfold is_byte. lia. }
  rewrite length_app, ee_msg_length, srv_finished_length in Hpayl.
  rewrite <-(app_nil_r (seal_record _ _ _ _)), Hrec. unfold wp.
  rewrite stream_cons by (unfold TLS13_MAX_RECORD, TLS13_MAX_PLAINTEXT, TLS13_TRANSCRIPT_SIZE in *; lia). rewrite <-Hrec.
  apply wp_bind. eapply wp_mono; [by apply (flight_record ch t1)|]. intros rc t2 [-> Ht2].
  destruct Ht2 as (Hh2 & Hd2 & Hm2 & Hchs2 & Hcap2 & Htx2 & Hrx2 & Htn2 & Hrn2 & Hp2 & Hio2 & Hs2 & Hev2).
  change (client_hs t1) with (client_hs t) in Hchs2. change (tx_key t1) with (tx_key t) in Htx2.
  change (tx_iv t1) with (tx_iv t) in Htx2. change (tx_seq t1) with (tx_seq t) in Htn2.
  change (tx_iobuf t1) with (tx_iobuf t) in Hio2. change (shut t1) with (shut t) in Hs2.
  change (events t1) with (events t ++ [WindowChanged]) in Hev2.
  apply wp_bind. eapply wp_mono.
  { destruct (traffic_key_lengths (client_hs t)) as [Hkl Hil]. rewrite <-Htx1 in Hkl, Hil. cbn [fst snd] in Hkl, Hil.
    injection Htx2 as Hk2 Hi2. apply (tx_finish t2); [exact Hh2|exact Hd2|exact Hp2|congruence|congruence|congruence|congruence]. }
  intros _ t3 (Hd3 & Htx3 & Htn3 & Hp3 & Hrx3 & Hrn3 & Hio3 & Hs3 & Hev3).
  assert (stream E f [] t3 = Ret (Some []) t3) as Hend by (by destruct f).
  unfold wp. rewrite Hend. split; [done|]. unfold connected.
  split_and!; [done|done|done|by rewrite Hrx3, Hrx2|congruence|by rewrite Htx3, Hcap2|done|].
  rewrite Hev3, Hev2, Hev1, Hm2, Htx2, Htx1, Hchs2, Hchs1, Htn2, Htn1, <-app_assoc. done.
Qed.

Lemma started_ok p i priv ch :
  identity_ok i -> (length ch <= TLS13_TRANSCRIPT_SIZE)%nat -> conn_ok (started p i priv ch).
Proof.
  intros Hi Hl.
  assert (handshake_ok ((tls13_handshake_init sha256_algorithm (Some p) (bstr "ext binder")) <| key := client_key priv |>)) as Hh
    by (apply handshake_init_ok, exchange_share_length).
  destruct zero_psk_ok. split; cbn in *; auto.
  destruct Hh. split; cbn in *; auto. by rewrite splice_length by (unfold zeros; rewrite length_replicate; lia).
Qed.

Lemma started_messages p i priv ch :
  (length ch <= TLS13_TRANSCRIPT_SIZE)%nat -> messages (hs (started p i priv ch)) = ch.
Proof.
  intros Hl. change (messages (hs (started p i priv ch))) with (take (length ch) (splice 0 ch (zeros TLS13_TRANSCRIPT_SIZE))).
  unfold splice.
  rewrite take_0, app_nil_l. apply take_app_length.
Qed.

(** Facts about a connection that its buffer does not change. *)
Lemma connected_core ch evs t t' : core t = core t' -> connected ch evs t' -> connected ch evs t.
Proof.
  intros Hc. unfold connected.
  change (phase t) with (phase (core t)). change (shut t) with (shut (core t)). change (tx_iobuf t) with (tx_iobuf (core t)).
  change (rx_key t) with (rx_key (core t)). change (rx_iv t) with (rx_iv (core t)). change (rx_seq t) with (rx_seq (core t)).
  change (tx_key t) with (tx_key (core t)). change (tx_iv t) with (tx_iv (core t)). change (tx_seq t) with (tx_seq (core t)).
  change (events t) with (events (core t)). rewrite Hc. auto.
Qed.

Lemma u16_bytes_ok v : bytes_ok (u16_bytes v).
Proof.
  unfold u16_bytes. constructor; [apply u8_byte|]. constructor; [|constructor].
  change 0xff with (Z.ones 8). rewrite Z.land_ones by lia. unfold is_byte. apply Z.mod_pos_bound. lia.
Qed.

Lemma header_ok ty n : is_byte ty -> bytes_ok (tls13_psk_header ty n).
Proof.
  intros Hty. unfold tls13_psk_header. constructor; [done|]. apply Forall_app. split; apply u16_bytes_ok.
Qed.

Lemma seal_record_ok keys sn ty data : keys_ok keys -> bytes_ok data -> is_byte ty -> bytes_ok (seal_record keys sn ty data).
Proof.
  intros Hk Hd Hty. destruct (seal_record_spec keys sn ty data Hk Hd Hty) as (payload & -> & _ & Hp & _).
  apply Forall_app. split; [apply header_ok; unfold is_byte; lia|done].
Qed.

Lemma server_flight_ok ch n :
  server_ok n -> bytes_ok (srv_random srv) -> bytes_ok (srv_session_id srv) -> bytes_ok (server_flight srv ch).
Proof.
  intros Hsrv Hr Hsid. unfold server_flight, plain_record. apply Forall_app. split.
  - apply Forall_app. split; [apply header_ok; unfold is_byte; lia|].
    pose proof (exchange_share_ok x25519_algorithm (srv_private srv)).
    unfold sh_msg, server_hello_msg, encode_extensions, extension, vec. cbn [map concat fst snd].
    repeat first [apply Forall_app; split|apply be_bytes_ok|assumption|apply Forall_nil; exact I
                 |apply Forall_cons; split; [unfold is_byte; lia|]].
  - apply seal_record_ok; [apply traffic_key_lengths|by eapply flight_bytes|unfold is_byte; lia].
Qed.

Lemma server_flight_length ch n :
  server_ok n -> (10 <= length (server_flight srv ch) <= 300 + TLS13_TRANSCRIPT_SIZE + authsize)%nat.
Proof.
  intros Hsrv. pose proof (sh_msg_length _ Hsrv) as Hl. pose proof (so_fits _ Hsrv).
  unfold server_flight, plain_record.
  destruct (seal_record_spec _ 0 22 _ (traffic_key_lengths (srv_hs_traffic srv ch "s hs traffic")) (flight_bytes ch _ Hsrv)) as (payload & -> & Hp & _);
    [unfold is_byte; lia|].
  rewrite length_app, ee_msg_length, srv_finished_length in Hp. rewrite !length_app, !header_length, Hl, Hp. lia.
Qed.

(** The handshake, with what later lemmas need of the final state. *)
Lemma handshake_run i :
  (length i <= 355)%nat -> server_ok (157 + length i) -> bytes_ok (srv_random srv) -> bytes_ok (srv_session_id srv) ->
  (authsize <= 16)%nat ->
  exists ch s0 s, add_tls13_psk E (srv_psk srv) i zero_psk = Ret OK s0 /\
    events s0 = [Opened; Plugged; Sent (plain_record ch); WindowChanged] /\
    tls13_psk_cipherstream_deliver E (server_flight srv ch) s0 = Ret OK s /\
    connected ch (events s0) s /\ conn_ok s /\ rx_len s = 0%nat.
Proof.
  intros Hi Hsrv Hr Hsid Hauth.
  destruct (add_started E Hcalm (srv_psk srv) i Hi) as (priv & random & ch & Hpl & Hrl & Hadd & Hcl & Hch).
  exists ch, (started (srv_psk srv) i priv ch). rewrite <-Hcl in Hsrv.
  assert (length ch <= TLS13_TRANSCRIPT_SIZE)%nat as Hfit by (unfold TLS13_TRANSCRIPT_SIZE; lia).
  pose proof (started_ok (srv_psk srv) i priv ch ltac:(by left) Hfit) as Hs0.
  pose proof (server_flight_length ch _ Hsrv) as [Hlow Hhigh].
  destruct (deliver_stream E (server_flight srv ch) (started (srv_psk srv) i priv ch) Hs0) as (s & r & s' & Hd & Hst & Hc & Hok & Hrest).
  { by eapply server_flight_ok. }
  { change (rx_len (started _ _ _ _)) with 0%nat. unfold TLS13_MAX_RECORD, TLS13_MAX_PLAINTEXT, TLS13_TRANSCRIPT_SIZE in *. lia. }
  exists s. split; [done|]. split; [done|]. split; [done|].
  assert (exists f, length (server_flight srv ch) = S (S f)) as [f Hf] by (exists (length (server_flight srv ch) - 2)%nat; lia).
  pose proof (co_hs _ _ Hs0) as Hh0. pose proof (started_messages (srv_psk srv) i priv ch Hfit) as Hm0.
  assert (digest (started (srv_psk srv) i priv ch) = d /\
    early (hs (started (srv_psk srv) i priv ch)) = tls13_early_secret d (Some (srv_psk srv)) /\
    private_key (key (hs (started (srv_psk srv) i priv ch))) = priv /\
    phase (started (srv_psk srv) i priv ch) = TLS13_PSK_SERVER_FLIGHT /\
    tx_iobuf (started (srv_psk srv) i priv ch) = None /\ shut (started (srv_psk srv) i priv ch) = false /\
    rx_len (started (srv_psk srv) i priv ch) = 0%nat /\ buffered (started (srv_psk srv) i priv ch) = [])
    as (Hd0 & He0 & Hpk0 & Hp0 & Hio0 & Hsh0 & Hn0 & Hb0) by (split_and!; reflexivity).
  generalize dependent (started (srv_psk srv) i priv ch). intros s0 _ Hs0 Hd Hst Hh0 Hm0 Hd0 He0 Hpk0 Hp0 Hio0 Hsh0 Hn0 Hb0.
  rewrite Hn0, Hb0, Hf in Hst. cbn [app Nat.add] in Hst.
  pose proof (flight_ok f ch priv (core s0) Hsrv Hauth Hh0 Hd0 Hm0 He0 Hpk0 Hpl
    ltac:(rewrite Hch; apply client_share_msg; [done|apply exchange_share_length]) Hp0 Hio0 Hsh0) as Hw.
  unfold wp in Hw. rewrite Hst in Hw. destruct Hw as [-> Hw].
  change (events (core s0)) with (events s0) in Hw.
  split; [exact (connected_core ch (events s0) s s' Hc Hw)|]. split; [done|].
  specialize (Hrest [] eq_refl). pose proof (buffered_length _ Hok) as Hbl. by rewrite Hrest in Hbl.
Qed.

(** [C10] The handshake completes: whatever the identity and the extensions, as long as
    the messages fit the transcript, a server with the same pre-shared key that
    answers the ClientHello with the flight of RFC 8446 brings the connection to
    [TLS13_PSK_DATA]; the client's Finished is the one the server computes, and the
    client receives and sends under the server's application traffic keys, with both
    sequence numbers at zero. *)
Theorem handshake_completes i :
  (length i <= 355)%nat -> server_ok (157 + length i) -> bytes_ok (srv_random srv) -> bytes_ok (srv_session_id srv) ->
  (authsize <= 16)%nat ->
  exists ch s0 s, add_tls13_psk E (srv_psk srv) i zero_psk = Ret OK s0 /\
    events s0 = [Opened; Plugged; Sent (plain_record ch); WindowChanged] /\
    tls13_psk_cipherstream_deliver E (server_flight srv ch) s0 = Ret OK s /\
    phase s = TLS13_PSK_DATA /\
    (rx_key s, rx_iv s) = traffic_key (srv_ap_traffic srv ch "s ap traffic") /\ rx_seq s = 0 /\
    (tx_key s, tx_iv s) = traffic_key (srv_ap_traffic srv ch "c ap traffic") /\ tx_seq s = 0 /\
    events s = events s0 ++ [WindowChanged; Sent (client_finished_record srv ch); WindowChanged].
Proof.
  intros Hi Hsrv Hr Hsid Hauth. destruct (handshake_run i Hi Hsrv Hr Hsid Hauth) as (ch & s0 & s & ? & ? & ? & Hc & _).
  exists ch, s0, s. destruct Hc as (? & _ & _ & ? & ? & ? & ? & ?). by split_and!.
Qed.
End Handshake.
