(* ===== verification/TlsData.v ===== *)
(** * Data over a TLS connection (net/tls13.c)

    Once the handshake is complete, each delivery of the consumer leaves as one record
    that the peer can open, and each record of the peer arrives as one delivery: the
    plaintext streams are the data, in order. *)

From stdpp Require Import base list strings.
From Stdlib Require Import ZArith Lia.
From S2P Require Import Prelude Crypto TlsKeys TlsHello TlsPsk TlsPskInv TlsStream TlsSession.

(** The peer's records for a sequence of data, from sequence number [n] on. *)
Fixpoint seal_stream `{AeadOps} (keys : list Z * list Z) (n : Z) (datas : list (list Z)) : list Z :=
  match datas with
  | [] => []
  | x :: datas => seal_record keys n 23 x ++ seal_stream keys (u64 (n + 1)) datas
  end.

(** Data that fits one record. *)
Definition sendable (x : list Z) : Prop :=
  x <> [] /\ bytes_ok x /\ (length x <= TLS13_MAX_PLAINTEXT)%nat.

Section Data.
Context `{DigestLaws} `{HkdfLaws} `{ExchangeLaws} `{AeadLaws}.
Context (E : tls_env) `{!TlsEnvLaws E} (Hcalm : calm E).
Context (Hquiet : forall n data, consumer E n data = Reaction [] None OK).
Implicit Types (s t : tls13_psk).

(** An established connection with nothing pending, and its receive keys. *)
Definition established s : Prop := phase s = TLS13_PSK_DATA /\ shut s = false /\ tx_iobuf s = None.
(** The phases in which the connection has nothing to say by itself. *)
Definition quiescent s : Prop :=
  (phase s = TLS13_PSK_SERVER_FLIGHT \/ phase s = TLS13_PSK_DATA) /\ shut s = false /\ tx_iobuf s = None.
Definition rx_keys s : list Z * list Z := (rx_key s, rx_iv s).
Definition tx_keys s : list Z * list Z := (tx_key s, tx_iv s).

Lemma established_quiescent s : established s -> quiescent s.
Proof. intros (Hp & Hs & Hio). split; [by right|done]. Qed.

Lemma conn_keys s : conn_ok s -> keys_ok (rx_keys s) /\ keys_ok (tx_keys s).
Proof. intros Hs. destruct (co_rx_key _ _ Hs) as (? & ? & _), (co_tx _ _ Hs) as (? & ? & _). done. Qed.

Lemma deliver_run x s :
  x <> [] -> shut s = false ->
  wp False (tls13_psk_deliver E x) (fun rc t => rc = OK /\
    t = s <| events ::= (fun l => l ++ [Delivered x]) |> <| tick := S (S (tick s)) |>) s.
Proof.
  intros Hx Hs. unfold tls13_psk_deliver. destruct x as [|b x]; [done|]. cbn [length Nat.eqb].
  apply wp_bind, wp_tls_consult. rewrite (calm_alloc E Hcalm). cbn [negb]. unfold xfer_deliver_plain.
  apply wp_bind, wp_tls_consult. rewrite Hquiet. cbn [r_sends r_close r_rc].
  apply wp_bind, wp_gets. change (shut (s <| tick ::= S |> <| tick ::= S |>)) with (shut s). rewrite Hs.
  apply wp_bind, wp_tls_emit; [exact Hs|]. cbn [consumer_sends]. apply wp_bind, wp_ret, wp_bind, wp_ret, wp_ret. done.
Qed.

Lemma data_record x s :
  keys_ok (rx_keys s) -> sendable x -> shut s = false ->
  wp False (process_record E (seal_record (rx_keys s) (rx_seq s) 23 x)) (fun rc t => rc = OK /\
    t = s <| rx_seq := u64 (rx_seq s + 1) |> <| events ::= (fun l => l ++ [Delivered x]) |> <| tick := S (S (tick s)) |>) s.
Proof.
  intros Hk (Hx & Hok & _) Hs. unfold wp. rewrite process_protected by (try done; unfold is_byte; lia).
  cbn [Z.eqb TLS_TYPE_HANDSHAKE TLS_TYPE_DATA Pos.eqb]. apply wp_bind, wp_update.
  eapply wp_mono; [by apply deliver_run|]. intros rc t [-> ->]. done.
Qed.

Lemma data_stream datas f s :
  keys_ok (rx_keys s) -> Forall sendable datas -> (authsize <= 16)%nat -> quiescent s -> (length datas <= f)%nat ->
  wp False (stream E f (seal_stream (rx_keys s) (rx_seq s) datas)) (fun r t =>
    r = Some [] /\ phase t = phase s /\ quiescent t /\ rx_keys t = rx_keys s /\ rx_seq t = Nat.iter (length datas) (fun n => u64 (n + 1)) (rx_seq s) /\
    events t = events s ++ flat_map (fun x => [Delivered x; WindowChanged]) datas) s.
Proof.
  intros Hk Hd Hauth. revert f s Hk. induction Hd as [|x datas Hx _ IH]; intros f s Hk Hs Hf.
  { assert (stream E f [] s = Ret (Some []) s) as He by (by destruct f).
    unfold wp. cbn [seal_stream]. rewrite He, app_nil_r. done. }
  destruct f as [|f]; [cbn in Hf; lia|]. cbn [seal_stream]. destruct Hs as (Hp & Hsh & Hio). pose proof Hx as (Hne & Hok & Hl).
  destruct (seal_record_spec (rx_keys s) (rx_seq s) 23 x Hk Hok) as (payload & Hrec & Hpl & _); [unfold is_byte; lia|].
  rewrite Hrec. unfold wp. rewrite stream_cons by (unfold TLS13_MAX_RECORD in *; lia). rewrite <-Hrec.
  apply wp_bind. eapply wp_mono; [by apply data_record|]. intros rc t [-> ->].
  apply wp_bind, tx_idle; [done|done|done|].
  set (t := modify events _ _). specialize (IH f t Hk (conj Hp (conj Hsh Hio)) ltac:(cbn in Hf; lia)).
  change (rx_seq t) with (u64 (rx_seq s + 1)) in IH. change (rx_keys t) with (rx_keys s) in IH.
  eapply wp_mono; [exact IH|]. cbv beta. intros r t' (-> & Hp' & Hq & Hk' & Hseq & Hev).
  split; [done|]. split; [exact Hp'|]. split; [done|]. split; [exact Hk'|]. split; [by rewrite Hseq; cbn [length]; rewrite Nat.iter_succ_r|].
  rewrite Hev. change (events t) with ((events s ++ [Delivered x]) ++ [WindowChanged]).
  cbn [flat_map]. by rewrite <-!app_assoc.
Qed.

(** One delivery of the consumer. *)
Lemma send_run x s :
  keys_ok (tx_keys s) -> established s -> bytes_ok x ->
  wp False (tls13_psk_plainstream_deliver E x) (fun rc t => rc = OK /\ phase t = TLS13_PSK_DATA /\
    tx_seq t = u64 (tx_seq s + 1) /\
    events t = events s ++ [Sent (seal_record (tx_keys s) (tx_seq s) 23 x); WindowChanged]) s.
Proof.
  intros Hko (Hp & Hs & Hio) Hx. unfold tls13_psk_plainstream_deliver. apply wp_bind, wp_gets.
  rewrite bool_decide_true by done. cbn [negb]. apply wp_bind. unfold tls13_psk_cipher_record.
  apply wp_bind, wp_tls_consult. rewrite (calm_alloc E Hcalm). cbn [negb]. apply wp_bind, wp_gets.
  change (tx_key (s <| tick ::= S |>)) with (tx_keys s).1. change (tx_iv (s <| tick ::= S |>)) with (tx_keys s).2.
  change (tx_seq (s <| tick ::= S |>)) with (tx_seq s).
  destruct (seal_record_spec (tx_keys s) (tx_seq s) 23 x Hko Hx) as (payload & Hrec & Hpl & _ & _ & Hseal); [unfold is_byte; lia|].
  change TLS_TYPE_DATA with 23. rewrite <-Hpl, Hseal, Nat.eqb_refl. cbn [negb].
  apply wp_bind, wp_update, wp_ret. rewrite <-Hrec. apply wp_bind, wp_update, wp_bind.
  unfold tls13_psk_tx. apply wp_bind, wp_gets. rewrite bool_decide_false by (change (phase s <> TLS13_PSK_FAILED); congruence).
  apply wp_bind. unfold tls13_psk_tx_construct. apply wp_bind, wp_gets. apply wp_ret. cbn [negb]. apply wp_bind.
  unfold tls13_psk_tx_transmit. apply wp_bind, wp_gets. apply wp_bind, wp_tls_consult. rewrite (calm_window E Hcalm).
  apply wp_bind, wp_update, wp_bind, wp_tls_emit; [exact Hs|]. apply wp_bind, wp_gets.
  rewrite bool_decide_false by (change (phase s <> TLS13_PSK_CLIENT_FINISHED); congruence). cbn [negb].
  apply wp_ret. apply wp_tls_emit; [exact Hs|]. apply wp_ret. split_and!; [done|exact Hp|done|].
  transitivity ((events s ++ [Sent (seal_record (tx_keys s) (tx_seq s) 23 x)]) ++ [WindowChanged]);
    [reflexivity|]. by rewrite <-app_assoc.
Qed.

Lemma seal_stream_ok keys n datas : keys_ok keys -> Forall sendable datas -> bytes_ok (seal_stream keys n datas).
Proof.
  intros Hk Hd. revert n. induction Hd as [|y l (_ & Hy & _) _ IH]; intros n; cbn [seal_stream]; [constructor|].
  apply Forall_app. split; [|apply IH]. apply seal_record_ok; [done|done|unfold is_byte; lia].
Qed.

Lemma seal_stream_length keys n datas : (length datas <= length (seal_stream keys n datas))%nat.
Proof.
  revert n. induction datas as [|y l IH]; intros n; cbn [seal_stream length]; [lia|].
  rewrite length_app. unfold seal_record. cbn [length app tls13_psk_header]. specialize (IH (u64 (n + 1))). lia.
Qed.

(** Reception of consecutive records. *)
Lemma receive_run datas s :
  conn_ok s -> rx_len s = 0%nat -> quiescent s -> (authsize <= 16)%nat -> Forall sendable datas ->
  (length (seal_stream (rx_keys s) (rx_seq s) datas) <= TLS13_MAX_RECORD)%nat ->
  exists t, tls13_psk_cipherstream_deliver E (seal_stream (rx_keys s) (rx_seq s) datas) s = Ret OK t /\
     events t = events s ++ flat_map (fun y => [Delivered y; WindowChanged]) datas /\
     rx_seq t = Nat.iter (length datas) (fun n => u64 (n + 1)) (rx_seq s) /\
     phase t = phase s /\ rx_len t = 0%nat /\ conn_ok t /\ quiescent t /\ rx_keys t = rx_keys s.
Proof.
  intros Hok Hn Hs Hauth Hd Hfit. destruct (conn_keys s Hok) as [Hk _].
  destruct (deliver_stream E (seal_stream (rx_keys s) (rx_seq s) datas) s Hok) as (t & r & t' & Hdel & Hst & Hc & Htok & Hrest);
    [by apply seal_stream_ok|lia|].
  exists t. split; [done|]. rewrite Hn in Hst. cbn [Nat.add] in Hst.
  assert (buffered s = []) as Hb by (unfold buffered; by rewrite Hn, take_0). rewrite Hb in Hst. cbn [app] in Hst.
  pose proof (data_stream datas (length (seal_stream (rx_keys s) (rx_seq s) datas)) (core s) Hk Hd Hauth Hs
    (seal_stream_length _ _ _)) as Hw.
  change (rx_seq (core s)) with (rx_seq s) in Hw. change (rx_keys (core s)) with (rx_keys s) in Hw.
  unfold wp in Hw. rewrite Hst in Hw. destruct Hw as (-> & Hp' & Hq & Hk' & Hseq & Hev).
  change (events t) with (events (core t)). change (rx_seq t) with (rx_seq (core t)). change (phase t) with (phase (core t)).
  change (quiescent t) with (quiescent (core t)). change (rx_keys t) with (rx_keys (core t)).
  rewrite Hc. split; [exact Hev|]. split; [exact Hseq|]. split; [exact Hp'|].
  specialize (Hrest [] eq_refl). pose proof (buffered_length _ Htok) as Hbl. rewrite Hrest in Hbl. by split_and!.
Qed.

(** [C11] Data crosses an established connection unchanged, in both directions.  What the
    consumer sends, up to the record limit of TLS, leaves as one whole record, and the
    peer with the same keys opens it to exactly those bytes; any sequence of data that
    the peer protects under the connection's receive keys, consecutively numbered,
    arrives as the same sequence of deliveries, and nothing stays in the buffer. *)
Theorem data_transfer x datas s :
  conn_ok s -> rx_len s = 0%nat -> established s -> (authsize <= 16)%nat ->
  bytes_ok x -> Z.of_nat (length x) <= 16384 -> Forall sendable datas ->
  (length (seal_stream (rx_keys s) (rx_seq s) datas) <= TLS13_MAX_RECORD)%nat ->
  (exists t record, tls13_psk_plainstream_deliver E x s = Ret OK t /\
     events t = events s ++ [Sent record; WindowChanged] /\ tx_seq t = u64 (tx_seq s + 1) /\
     record_total record = length record /\
     tls13_open (tx_key s) (tx_iv s) (tx_seq s) (take 5 record) (drop 5 record) = (inr 23, Some (x ++ [23]))) /\
  (exists t, tls13_psk_cipherstream_deliver E (seal_stream (rx_keys s) (rx_seq s) datas) s = Ret OK t /\
     events t = events s ++ flat_map (fun y => [Delivered y; WindowChanged]) datas /\
     rx_seq t = Nat.iter (length datas) (fun n => u64 (n + 1)) (rx_seq s) /\
     phase t = TLS13_PSK_DATA /\ rx_len t = 0%nat).
Proof.
  intros Hok Hn Hs Hauth Hx Hxl Hd Hfit. split.
  2: { destruct (receive_run datas s Hok Hn (established_quiescent s Hs) Hauth Hd Hfit) as (t & ? & ? & ? & Hpt & ? & _).
       exists t. split_and!; [done..|by rewrite Hpt; apply Hs|done]. }
  destruct (conn_keys s Hok) as [_ Hk].
  pose proof (send_run x s Hk Hs Hx) as Hw. unfold wp in Hw.
  destruct (tls13_psk_plainstream_deliver E x s) as [rc t| |]; [|done..].
  destruct Hw as (-> & _ & Hseq & Hev). exists t, (seal_record (tx_keys s) (tx_seq s) 23 x).
  split; [done|]. split; [done|]. split; [done|].
  destruct (seal_record_spec (tx_keys s) (tx_seq s) 23 x Hk Hx) as (payload & -> & Hpl & _ & Ho & _); [unfold is_byte; lia|].
  rewrite header_total, length_app by lia. split; [done|].
  by rewrite (take_app_length' _ _ 5), (drop_app_length' _ _ 5).
Qed.
End Data.
