(* ===== verification/TlsFindings.v ===== *)
(** * Behaviours of the TLS connection that contradict its purpose (net/tls13.c)

    The handlers of handshake messages do not check the phase of the connection, and a
    plaintext record may carry any of them.  So a Finished message is accepted before
    any ServerHello, and checked under a secret that is still all zeros. *)

From stdpp Require Import base list strings.
From Stdlib Require Import ZArith Lia.
From S2P Require Import Prelude Crypto TlsKeys TlsHello TlsPsk TlsPskInv TlsStream TlsSession TlsData.

Section Bypass.
Context `{DigestLaws} `{HkdfLaws} `{ExchangeLaws} `{AeadLaws} `{!X25519Laws}.
Context (E : tls_env) `{!TlsEnvLaws E} (Hcalm : calm E).
Context (Hquiet : forall n data, consumer E n data = Reaction [] None OK).
#[local] Abbreviation d := sha256_algorithm.
Implicit Types (s t : tls13_psk).

(** The forged answer to a ClientHello, and the "traffic secrets" that follow from it:
    functions of what was sent in the clear. *)
Definition forged_finished (ch : list Z) : list Z := finished_msg (tls13_finished d (zeros 32) ch).
Definition forged_flight (ch : list Z) : list Z := plain_record (forged_finished ch).
Definition forged_keys (label : string) (ch : list Z) : list Z * list Z :=
  traffic_key (ap_traffic (zeros 32) label (ch ++ forged_finished ch)).

Lemma forged_finished_length ch : length (forged_finished ch) = 36%nat.
Proof. unfold forged_finished, finished_msg. by rewrite length_app, finished_length. Qed.

(** What a connection still has from [zalloc] when it has only sent the ClientHello. *)
Record only_hello (ch : list Z) s : Prop := {
  oh_ok : conn_ok s;
  oh_digest : digest s = d;
  oh_messages : messages (hs s) = ch;
  oh_handshake : handshake (hs s) = zeros 32;
  oh_server_hs : server_hs s = zeros 32;
  oh_phase : phase s = TLS13_PSK_SERVER_FLIGHT;
  oh_pending : tx_iobuf s = None;
  oh_shut : shut s = false;
  oh_len : rx_len s = 0%nat;
  oh_keys : rx_keys s = (zeros 16, zeros 12) /\ rx_seq s = 0;
  oh_events : events s = [Opened; Plugged; Sent (plain_record ch); WindowChanged];
}.

Lemma started_only_hello p i priv ch :
  identity_ok i -> (length ch <= TLS13_TRANSCRIPT_SIZE)%nat -> only_hello ch (started p i priv ch).
Proof. intros Hi Hl. split; try done; [by apply started_ok|by apply started_messages]. Qed.

Lemma forged_stream f ch s :
  only_hello ch s -> (length ch + 36 <= TLS13_TRANSCRIPT_SIZE)%nat ->
  wp False (stream E (S f) (forged_flight ch)) (fun r t => r = Some [] /\ established t /\
    rx_keys t = forged_keys "s ap traffic" ch /\ rx_seq t = 0 /\
    tx_keys t = forged_keys "c ap traffic" ch /\ tx_seq t = 0) (core s).
Proof.
  intros [Hok Hd Hm Hsec Hshs Hp Hio Hsh _ _ _] Hfit.
  pose proof (co_hs _ _ Hok) as Hh. destruct (co_tx _ _ Hok) as (Hkl & Hil & _).
  unfold wp, forged_flight, plain_record. rewrite <-(app_nil_r (_ ++ forged_finished ch)).
  rewrite stream_cons by (rewrite forged_finished_length; unfold TLS13_MAX_RECORD, TLS13_MAX_PLAINTEXT; lia).
  apply wp_bind. unfold process_record, tls13_psk_header. cbv zeta.
  change (byte_at ((22 :: u16_bytes TLS_VERSION_TLS_1_2 ++ u16_bytes (Z.of_nat (length (forged_finished ch)))) ++ forged_finished ch) 0) with 22.
  cbn [Z.eqb TLS_TYPE_CHANGE_CIPHER TLS_TYPE_HANDSHAKE Pos.eqb]. fold (tls13_psk_header 22 (length (forged_finished ch))).
  rewrite (drop_app_length' _ _ 5) by done.
  assert (forged_finished ch = [20] ++ vec 3 (tls13_finished d (zeros 32) ch)) as He.
  { unfold vec. by rewrite finished_length. }
  rewrite He. apply handshake_one; [rewrite finished_length; lia|]. rewrite <-He.
  unfold tls13_psk_message. cbn [Z.eqb TLS_SERVER_HELLO TLS_ENCRYPTED_EXTENSIONS TLS_FINISHED Pos.eqb].
  pose proof (finished_step ch (zeros 32) (core s) Hh Hd Hm Hsec Hfit) as Hfin. cbv zeta in Hfin.
  change (server_hs (core s)) with (server_hs s) in Hfin. rewrite Hshs in Hfin.
  fold (forged_finished ch) in Hfin. eapply wp_mono; [exact Hfin|]. intros rc t [-> Ht].
  destruct Ht as (Hh1 & Hd1 & Hm1 & _ & Hcap1 & Htx1 & Hrx1 & _ & Hrn1 & Hp1 & Hio1 & Hs1 & _). injection Htx1 as Hk1 Hi1.
  apply wp_bind. eapply wp_mono.
  { apply (tx_finish E Hcalm t); [done|done|done|by rewrite Hio1|by rewrite Hs1|by rewrite Hk1|by rewrite Hi1]. }
  intros _ t2 (_ & Htx2 & Htn2 & Hp2 & Hrx2 & Hrn2 & Hio2 & Hs2 & _).
  assert (stream E f [] t2 = Ret (Some []) t2) as Hend by (by destruct f). unfold wp. rewrite Hend.
  unfold established, rx_keys, tx_keys, forged_keys. split_and!; [done..|by rewrite Hrx2, Hrx1|congruence|by rewrite Htx2, Hcap1|done].
Qed.

Lemma forged_flight_ok ch : bytes_ok (forged_flight ch) /\ length (forged_flight ch) = 41%nat.
Proof.
  unfold forged_flight, plain_record. split; [|by rewrite length_app, forged_finished_length].
  apply Forall_app. split; [apply header_ok; unfold is_byte; lia|].
  apply Forall_app. split; [repeat constructor; unfold is_byte; lia|apply hmac_final_ok].
Qed.

(** Facts that the receive buffer does not change. *)
Lemma keyed_core rk tk s s' :
  core s = core s' -> established s' /\ rx_keys s' = rk /\ rx_seq s' = 0 /\ tx_keys s' = tk ->
  established s /\ rx_keys s = rk /\ rx_seq s = 0 /\ tx_keys s = tk.
Proof.
  intros Hc. change (established s) with (established (core s)). change (rx_keys s) with (rx_keys (core s)).
  change (rx_seq s) with (rx_seq (core s)). change (tx_keys s) with (tx_keys (core s)). by rewrite Hc.
Qed.

Lemma flight_fits : (0 + 41 <= TLS13_MAX_RECORD)%nat.
Proof. unfold TLS13_MAX_RECORD, TLS13_MAX_PLAINTEXT. lia. Qed.

(** The forged flight is delivered. *)
Lemma forged_run ch s0 :
  only_hello ch s0 -> (length ch + 36 <= TLS13_TRANSCRIPT_SIZE)%nat ->
  exists s, tls13_psk_cipherstream_deliver E (forged_flight ch) s0 = Ret OK s /\ conn_ok s /\ rx_len s = 0%nat /\
    established s /\ rx_keys s = forged_keys "s ap traffic" ch /\ rx_seq s = 0 /\
    tx_keys s = forged_keys "c ap traffic" ch.
Proof.
  intros Hs0 Hfit. destruct (forged_flight_ok ch) as [Hfo Hfl].
  destruct (deliver_stream E (forged_flight ch) s0 (oh_ok _ _ Hs0) Hfo) as (s & r & s' & Hd & Hst & Hc & Hok & Hrest).
  { rewrite Hfl, (oh_len _ _ Hs0). exact flight_fits. }
  exists s. split; [done|]. split; [done|].
  assert (buffered s0 = []) as Hb by (unfold buffered; by rewrite (oh_len _ _ Hs0), take_0).
  assert (exists f, length (forged_flight ch) = S f) as [f Hf] by (exists 40%nat; exact Hfl).
  rewrite (oh_len _ _ Hs0), Hb, Hf, app_nil_l, Nat.add_0_l in Hst.
  pose proof (forged_stream f ch s0 Hs0 Hfit) as Hw. unfold wp in Hw. rewrite Hst in Hw.
  destruct Hw as (-> & Hest & Hrk & Hrn & Htk & _).
  specialize (Hrest [] eq_refl). pose proof (buffered_length _ Hok) as Hbl. rewrite Hrest in Hbl. split; [done|].
  by apply (keyed_core _ _ s s').
Qed.

(** [C4] The server is not authenticated.  Against any pre-shared key, an attacker who
    sees only the ClientHello can answer it with a single plaintext record, a
    Finished computed under the all-zero secret; the connection then takes the
    handshake for complete, sends and receives under keys that are a function of the
    ClientHello and the forged message, and hands the attacker's data to its consumer. *)
Theorem authentication_bypass p i datas :
  (length i <= 355)%nat -> (authsize <= 16)%nat -> Forall sendable datas ->
  exists ch s0 s, add_tls13_psk E p i zero_psk = Ret OK s0 /\
    events s0 = [Opened; Plugged; Sent (plain_record ch); WindowChanged] /\
    tls13_psk_cipherstream_deliver E (forged_flight ch) s0 = Ret OK s /\
    phase s = TLS13_PSK_DATA /\
    rx_keys s = forged_keys "s ap traffic" ch /\ tx_keys s = forged_keys "c ap traffic" ch /\
    ((length (seal_stream (forged_keys "s ap traffic" ch) 0 datas) <= TLS13_MAX_RECORD)%nat ->
     exists t, tls13_psk_cipherstream_deliver E (seal_stream (forged_keys "s ap traffic" ch) 0 datas) s = Ret OK t /\
       events t = events s ++ flat_map (fun y => [Delivered y; WindowChanged]) datas).
Proof.
  intros Hi Hauth Hdatas. destruct (add_started E Hcalm p i Hi) as (priv & random & ch & Hpl & Hrl & Hadd & Hcl & Hch).
  assert (length ch + 36 <= TLS13_TRANSCRIPT_SIZE)%nat as Hfit by (unfold TLS13_TRANSCRIPT_SIZE; lia).
  assert (identity_ok i) as Hio by (by left). assert (length ch <= TLS13_TRANSCRIPT_SIZE)%nat as Hfit' by lia.
  pose proof (started_only_hello p i priv ch Hio Hfit') as Hs0.
  destruct (forged_run ch _ Hs0 Hfit) as (s & Hd & Hok & Hn & Hest & Hrk & Hrn & Htk).
  exists ch, (started p i priv ch), s. split; [exact Hadd|]. split; [exact (oh_events _ _ Hs0)|].
  split; [exact Hd|]. split; [apply Hest|]. split; [exact Hrk|]. split; [exact Htk|]. intros Hfits.
  rewrite <-Hrk, <-Hrn in Hfits |- *.
  destruct (receive_run E Hcalm Hquiet datas s Hok Hn (established_quiescent s Hest) Hauth Hdatas Hfits) as (t & Ht & Hev & _).
  exists t. split; [exact Ht|exact Hev].
Qed.

(** Data is accepted before the handshake: until the ServerHello arrives the receive key
    is all zeros, and a record sealed under it is opened and handed to the consumer. *)
Theorem early_data_accepted p i datas :
  (length i <= 355)%nat -> (authsize <= 16)%nat -> Forall sendable datas ->
  (length (seal_stream (zeros 16, zeros 12) 0 datas) <= TLS13_MAX_RECORD)%nat ->
  exists s0 s, add_tls13_psk E p i zero_psk = Ret OK s0 /\
    tls13_psk_cipherstream_deliver E (seal_stream (zeros 16, zeros 12) 0 datas) s0 = Ret OK s /\
    phase s = TLS13_PSK_SERVER_FLIGHT /\
    events s = events s0 ++ flat_map (fun y => [Delivered y; WindowChanged]) datas.
Proof.
  intros Hi Hauth Hdatas Hfits. destruct (add_started E Hcalm p i Hi) as (priv & random & ch & Hpl & Hrl & Hadd & Hcl & Hch).
  assert (identity_ok i) as Hio by (by left).
  assert (length ch <= TLS13_TRANSCRIPT_SIZE)%nat as Hfit by (unfold TLS13_TRANSCRIPT_SIZE; lia).
  destruct (started_only_hello p i priv ch Hio Hfit) as [Hok _ _ _ _ Hp Hpend Hsh Hn [Hk Hz] _].
  exists (started p i priv ch). rewrite <-Hk, <-Hz in Hfits |- *.
  destruct (receive_run E Hcalm Hquiet datas _ Hok Hn (conj (or_introl Hp) (conj Hsh Hpend)) Hauth Hdatas Hfits)
    as (s & Hd & Hev & _ & Hps & _).
  exists s. split; [exact Hadd|]. split; [exact Hd|]. split; [by rewrite Hps|exact Hev].
Qed.

(** A piece of a record stays in the buffer. *)
Lemma incomplete_deliver a s :
  conn_ok s -> rx_len s = 0%nat -> bytes_ok a -> (5 <= length a < record_total a)%nat -> (record_total a <= TLS13_MAX_RECORD)%nat ->
  exists t, tls13_psk_cipherstream_deliver E a s = Ret OK t /\ conn_ok t /\ rx_len t = length a.
Proof.
  intros Hok Hn Ha Hlen Hfit. destruct (deliver_stream E a s Hok Ha) as (t & r & t' & Hd & Hst & Hc & Htok & Hrest); [lia|].
  exists t. split; [done|]. split; [done|].
  assert (buffered s = []) as Hb by (unfold buffered; by rewrite Hn, take_0).
  assert (exists f, length a = S f) as [f Hf] by (exists (length a - 1)%nat; lia).
  rewrite Hn, Hb, Hf, app_nil_l, Nat.add_0_l in Hst. cbn [stream] in Hst.
  rewrite (proj2 (Nat.ltb_ge _ 5)), (proj2 (Nat.ltb_ge _ (record_total a))), (proj2 (Nat.ltb_lt _ (record_total a))) in Hst by lia.
  injection Hst as <- _. specialize (Hrest a eq_refl). pose proof (buffered_length _ Htok) as Hbl. by rewrite Hrest in Hbl.
Qed.

(** The receive buffer holds one record of the greatest size and nothing more, so
    acceptance depends on how the network cuts the stream.  Two records of the peer
    are delivered to the consumer when each arrives by itself; when the second begins
    in the segment that ends the first, the same bytes fail the connection. *)
Theorem segment_boundary_fails x1 x2 s :
  conn_ok s -> rx_len s = 0%nat -> established s -> authsize = 16%nat ->
  bytes_ok x1 -> bytes_ok x2 -> Z.of_nat (length x1) = 8000 -> Z.of_nat (length x2) = 1400 ->
  let r1 := seal_record (rx_keys s) (rx_seq s) 23 x1 in
  let r2 := seal_record (rx_keys s) (u64 (rx_seq s + 1)) 23 x2 in
  (exists t1 t2, tls13_psk_cipherstream_deliver E r1 s = Ret OK t1 /\ tls13_psk_cipherstream_deliver E r2 t1 = Ret OK t2 /\
     events t2 = events s ++ [Delivered x1; WindowChanged; Delivered x2; WindowChanged]) /\
  (exists t1 t2, tls13_psk_cipherstream_deliver E (take (Z.to_nat 8000) r1) s = Ret OK t1 /\
     tls13_psk_cipherstream_deliver E (drop (Z.to_nat 8000) r1 ++ r2) t1 = Ret (Err EINVAL) t2 /\
     phase t2 = TLS13_PSK_FAILED).
Proof.
  intros Hok Hn Hs Hauth Hx1 Hx2 Hl1 Hl2 r1 r2. destruct (conn_keys s Hok) as [Hk _].
  assert (forall x, 0 < Z.of_nat (length x) <= 8192 -> bytes_ok x -> sendable x) as Hsend.
  { intros x Hx Hb. split; [intros ->; cbn in Hx; lia|]. split; [done|]. unfold TLS13_MAX_PLAINTEXT. lia. }
  destruct (seal_record_spec (rx_keys s) (rx_seq s) 23 x1 Hk Hx1) as (p1 & Hr1 & Hp1 & Hp1ok & _); [unfold is_byte; lia|].
  destruct (seal_record_spec (rx_keys s) (u64 (rx_seq s + 1)) 23 x2 Hk Hx2) as (p2 & Hr2 & Hp2 & Hp2ok & _); [unfold is_byte; lia|].
  fold r1 in Hr1. fold r2 in Hr2.
  assert (length r1 = 5 + length p1 /\ length r2 = 5 + length p2)%nat as [Hrl1 Hrl2] by (by rewrite Hr1, Hr2, !length_app).
  split.
  - pose proof (receive_run E Hcalm Hquiet [x1] s Hok Hn (established_quiescent s Hs)) as Hrun. cbn [seal_stream] in Hrun.
    rewrite app_nil_r in Hrun. fold r1 in Hrun.
    destruct Hrun as (t1 & Hd1 & Hev1 & Hseq1 & Hph1 & Hn1 & Hok1 & Hq1 & Hk1);
      [lia|constructor; [apply Hsend; [lia|done]|constructor]|unfold TLS13_MAX_RECORD, TLS13_MAX_PLAINTEXT; lia|].
    pose proof (receive_run E Hcalm Hquiet [x2] t1 Hok1 Hn1 Hq1) as Hrun. cbn [seal_stream] in Hrun.
    rewrite app_nil_r, Hk1, Hseq1 in Hrun. cbn [length Nat.iter nat_rect] in Hrun. fold r2 in Hrun.
    destruct Hrun as (t2 & Hd2 & Hev2 & _);
      [lia|constructor; [apply Hsend; [lia|done]|constructor]|unfold TLS13_MAX_RECORD, TLS13_MAX_PLAINTEXT; lia|].
    exists t1, t2. split; [done|]. split; [done|]. rewrite Hev2, Hev1, <-app_assoc. done.
  - set (a := take (Z.to_nat 8000) r1). set (b := drop (Z.to_nat 8000) r1 ++ r2).
    assert (length a = Z.to_nat 8000) as Hal by (unfold a; rewrite length_take; lia).
    assert (Z.of_nat (length b) = 22 + 1422) as Hbl by (unfold b; rewrite length_app, length_drop; lia).
    assert (record_total a = length r1) as Htot.
    { transitivity (record_total r1).
      - unfold record_total, byte_at, a. by rewrite !lookup_take_lt by lia.
      - rewrite Hr1 at 1. rewrite header_total by lia. lia. }
    assert (bytes_ok r1) as Hr1ok by (rewrite Hr1; apply Forall_app; split; [apply header_ok; unfold is_byte; lia|done]).
    assert (bytes_ok r2) as Hr2ok by (rewrite Hr2; apply Forall_app; split; [apply header_ok; unfold is_byte; lia|done]).
    destruct (incomplete_deliver a s Hok Hn) as (t1 & Hd1 & Hok1 & Hn1);
      [by apply Forall_take|lia|unfold TLS13_MAX_RECORD, TLS13_MAX_PLAINTEXT; lia|].
    destruct (fail_phase (Err EINVAL) t1) as (t2 & Ht2 & Hp).
    exists t1, t2. split; [done|]. split; [|done].
    unfold tls13_psk_cipherstream_deliver. unfold bind at 1, gets at 1. rewrite (proj2 (Nat.ltb_lt _ _)).
    + by rewrite (bind_run _ _ _ _ _ Ht2).
    + rewrite Hn1, Hal. unfold TLS13_MAX_RECORD, TLS13_MAX_PLAINTEXT. lia.
Qed.
End Bypass.
