(* ===== verification/TlsDemo.v ===== *)
(** * A TLS session in a concrete environment

    The laws that the TLS theorems assume hold for a toy cryptographic library and a
    toy environment; the theorems are applied there. *)

From stdpp Require Import base list strings.
From Stdlib Require Import ZArith Lia.
From S2P Require Import Prelude Crypto TlsKeys TlsHello TlsPsk TlsPskInv TlsStream TlsSession TlsData TlsFindings.

Module ToySession.
Lemma u8_add a b : u8 (a + u8 b) = u8 (a + b).
Proof. unfold u8. apply Zplus_mod_idemp_r. Qed.

Lemma pad_32 m : length m = 32%nat -> Toy.pad 32 m = map u8 m.
Proof. intros Hm. unfold Toy.pad. rewrite take_app_le, take_ge by (rewrite length_map; lia). done. Qed.

(** The toy exchange adds the keys, which commutes. *)
Lemma agree_comm a b :
  map u8 (zip_with Z.add a (map u8 b)) = map u8 (zip_with Z.add b (map u8 a)).
Proof.
  revert b. induction a as [|x a IH]; intros [|y b]; try done. cbn. rewrite IH, !u8_add. f_equal. f_equal. lia.
Qed.

#[export] Instance x25519_laws : @X25519Laws Toy.exchange.
Proof.
  split; [done|]. intros a b Ha Hb. cbn -[Toy.pad]. rewrite !(pad_32 _ Ha), !(pad_32 _ Hb).
  rewrite !pad_32 by (rewrite length_zip_with, length_map; lia).
  eexists. split; [done|]. by rewrite agree_comm.
Qed.

Lemma calm_env : calm ToyConn.env.
Proof. by split. Qed.

Definition server : server := Server [1; 2; 3; 4] (replicate 32 7) (replicate 32 9) [] [].

Lemma server_fits : server_ok server (157 + length (bstr "id")).
Proof. split; cbn; try done; try lia; try constructor. unfold TLS13_TRANSCRIPT_SIZE. lia. Qed.

(** Two deliveries of the peer. *)
Definition datas : list (list Z) := [[104; 105]; [33]].
Lemma datas_sendable : Forall sendable datas.
Proof.
  assert (forall x, x <> [] -> bytes_ok x -> (length x <= 2)%nat -> sendable x) as Hs
    by (intros x ? ? ?; split_and!; [done|done|unfold TLS13_MAX_PLAINTEXT; lia]).
  unfold datas. apply Forall_cons. split; [|apply Forall_singleton]; (apply Hs; [done| |cbn; lia]);
    repeat constructor; unfold is_byte; lia.
Qed.
End ToySession.

Section Witnesses.
#[local] Existing Instances Toy.digest Toy.digest_laws ToyTls.hkdf ToyTls.hkdf_laws Toy.exchange Toy.exchange_laws
  ToyTls.aead ToyTls.aead_laws ToyConn.laws ToySession.x25519_laws.
Import ToySession.

Lemma seal_stream_fits keys n : keys_ok keys -> (length (seal_stream keys n datas) <= TLS13_MAX_RECORD)%nat.
Proof.
  intros Hk. unfold datas. cbn [seal_stream].
  destruct (seal_record_spec keys n 23 [104; 105] Hk) as (p1 & -> & Hp1 & _);
    [repeat constructor; unfold is_byte; lia|unfold is_byte; lia|].
  destruct (seal_record_spec keys (u64 (n + 1)) 23 [33] Hk) as (p2 & -> & Hp2 & _);
    [repeat constructor; unfold is_byte; lia|unfold is_byte; lia|].
  change authsize with 16%nat in *. rewrite !length_app, !header_length, Hp1, Hp2.
  unfold TLS13_MAX_RECORD, TLS13_MAX_PLAINTEXT. cbn [length]. lia.
Qed.

Lemma start_reachable :
  exists ch s, reachable ToyConn.env [1; 2; 3] (bstr "id") s /\ only_hello ch s.
Proof.
  destruct (add_started ToyConn.env calm_env [1; 2; 3] (bstr "id")) as (priv & random & ch & _ & _ & Hadd & Hl & _).
  { cbn. lia. }
  exists ch, (started [1; 2; 3] (bstr "id") priv ch). split; [by apply reach_start|].
  apply started_only_hello; [left; cbn; lia|]. rewrite Hl. unfold TLS13_TRANSCRIPT_SIZE. cbn. lia.
Qed.

Lemma tls_well_formed_witness :
  exists s, reachable ToyConn.env [1; 2; 3] (bstr "id") s /\ length (rx s) = TLS13_MAX_RECORD.
Proof.
  destruct start_reachable as (ch & s & Hr & _). exists s. split; [exact Hr|].
  apply (tls_well_formed ToyConn.env [1; 2; 3] (bstr "id") s); [left; cbn; lia|exact Hr].
Defined.

Lemma tls_safe_witness :
  exists s, reachable ToyConn.env [1; 2; 3] (bstr "id") s /\
    exists s', step ToyConn.env (LCipher [22; 3; 3; 0; 1; 20]) s = Ret tt s'.
Proof.
  destruct start_reachable as (ch & s & Hr & _). exists s. split; [exact Hr|].
  apply (tls_safe ToyConn.env [1; 2; 3] (bstr "id") s (LCipher [22; 3; 3; 0; 1; 20])); [left; cbn; lia|exact Hr|].
  repeat constructor; unfold is_byte; lia.
Defined.

Lemma deliver_refines_stream_witness :
  exists s, conn_ok s /\
    exists t r t', tls13_psk_cipherstream_deliver ToyConn.env [20; 3; 3; 0; 1; 1] s = Ret OK t /\
      stream ToyConn.env (rx_len s + length [20; 3; 3; 0; 1; 1]) (buffered s ++ [20; 3; 3; 0; 1; 1]) (core s) = Ret r t' /\
      core t = core t' /\ (forall rest, r = Some rest -> buffered t = rest).
Proof.
  destruct start_reachable as (ch & s & _ & Hs). exists s. split; [apply (oh_ok _ _ Hs)|].
  apply (deliver_refines_stream ToyConn.env [20; 3; 3; 0; 1; 1] s (oh_ok _ _ Hs)).
  - repeat constructor; unfold is_byte; lia.
  - rewrite (oh_len _ _ Hs). unfold TLS13_MAX_RECORD. cbn [length]. lia.
Defined.

Lemma cipherstream_segmentation_witness :
  exists s t t1, tls13_psk_cipherstream_deliver ToyConn.env ([20; 3; 3] ++ [0; 1; 1]) s = Ret OK t /\
    tls13_psk_cipherstream_deliver ToyConn.env [20; 3; 3] s = Ret OK t1 /\
    (core t = core t1 /\ phase t1 = TLS13_PSK_FAILED \/
     exists t2, tls13_psk_cipherstream_deliver ToyConn.env [0; 1; 1] t1 = Ret OK t2 /\ core t = core t2 /\
       (phase t = TLS13_PSK_FAILED \/ buffered t = buffered t2)).
Proof.
  destruct start_reachable as (ch & s & _ & Hs). exists s.
  apply (cipherstream_segmentation ToyConn.env [20; 3; 3] [0; 1; 1] s (oh_ok _ _ Hs)).
  - repeat constructor; unfold is_byte; lia.
  - repeat constructor; unfold is_byte; lia.
  - rewrite (oh_len _ _ Hs). unfold TLS13_MAX_RECORD. cbn [length]. lia.
Defined.

Lemma handshake_completes_witness :
  exists ch s0 s, add_tls13_psk ToyConn.env (srv_psk server) (bstr "id") zero_psk = Ret OK s0 /\
    events s0 = [Opened; Plugged; Sent (plain_record ch); WindowChanged] /\
    tls13_psk_cipherstream_deliver ToyConn.env (server_flight server ch) s0 = Ret OK s /\
    phase s = TLS13_PSK_DATA /\
    (rx_key s, rx_iv s) = traffic_key (srv_ap_traffic server ch "s ap traffic") /\ rx_seq s = 0 /\
    (tx_key s, tx_iv s) = traffic_key (srv_ap_traffic server ch "c ap traffic") /\ tx_seq s = 0 /\
    events s = events s0 ++ [WindowChanged; Sent (client_finished_record server ch); WindowChanged].
Proof.
  apply (handshake_completes ToyConn.env calm_env server (bstr "id")).
  - cbn. lia.
  - exact server_fits.
  - apply Forall_replicate. unfold is_byte. lia.
  - constructor.
  - cbn. lia.
Defined.

Lemma connected_session :
  exists s, conn_ok s /\ rx_len s = 0%nat /\ established s.
Proof.
  destruct (handshake_run ToyConn.env calm_env server (bstr "id")) as (ch & s0 & s & _ & _ & _ & Hc & Hok & Hn).
  - cbn. lia.
  - exact server_fits.
  - apply Forall_replicate. unfold is_byte. lia.
  - constructor.
  - cbn. lia.
  - exists s. destruct Hc as (Hp & Hs & Hio & _). done.
Qed.

Lemma data_transfer_witness :
  exists s, (exists t record, tls13_psk_plainstream_deliver ToyConn.env [1; 2; 3] s = Ret OK t /\
     events t = events s ++ [Sent record; WindowChanged] /\ tx_seq t = u64 (tx_seq s + 1) /\
     record_total record = length record /\
     tls13_open (tx_key s) (tx_iv s) (tx_seq s) (take 5 record) (drop 5 record) = (inr 23, Some ([1; 2; 3] ++ [23]))) /\
  (exists t, tls13_psk_cipherstream_deliver ToyConn.env (seal_stream (rx_keys s) (rx_seq s) datas) s = Ret OK t /\
     events t = events s ++ flat_map (fun y => [Delivered y; WindowChanged]) datas /\
     rx_seq t = Nat.iter (length datas) (fun n => u64 (n + 1)) (rx_seq s) /\
     phase t = TLS13_PSK_DATA /\ rx_len t = 0%nat).
Proof.
  destruct connected_session as (s & Hok & Hn & Hs). exists s.
  apply (data_transfer ToyConn.env calm_env ltac:(done) [1; 2; 3] datas s Hok Hn Hs).
  - cbn. lia.
  - repeat constructor; unfold is_byte; lia.
  - cbn. lia.
  - exact datas_sendable.
  - apply seal_stream_fits. apply (conn_keys s Hok).
Defined.

Lemma authentication_bypass_witness :
  exists ch s0 s, add_tls13_psk ToyConn.env (srv_psk server) (bstr "id") zero_psk = Ret OK s0 /\
    events s0 = [Opened; Plugged; Sent (plain_record ch); WindowChanged] /\
    tls13_psk_cipherstream_deliver ToyConn.env (forged_flight ch) s0 = Ret OK s /\
    phase s = TLS13_PSK_DATA /\
    rx_keys s = forged_keys "s ap traffic" ch /\ tx_keys s = forged_keys "c ap traffic" ch /\
    ((length (seal_stream (forged_keys "s ap traffic" ch) 0 datas) <= TLS13_MAX_RECORD)%nat ->
     exists t, tls13_psk_cipherstream_deliver ToyConn.env (seal_stream (forged_keys "s ap traffic" ch) 0 datas) s = Ret OK t /\
       events t = events s ++ flat_map (fun y => [Delivered y; WindowChanged]) datas).
Proof.
  apply (authentication_bypass ToyConn.env calm_env ltac:(done) (srv_psk server) (bstr "id") datas).
  - cbn. lia.
  - cbn. lia.
  - exact datas_sendable.
Defined.
End Witnesses.
