(* ===== verification/NvmeTls.v ===== *)
(** * An NVMe session over a TLS 1.3 connection (net/tcp/nvmetcp.c over net/tls13.c)

    [add_tls13_psk] puts the connection of TlsPsk.v between a queue of the session of
    NvmeState.v and its socket.  The two models meet in the environment of the
    connection: its consumer is the session.  Received records become deliveries to the
    queue, which is told of a window change after each; what the session sends
    meanwhile becomes records. *)

From stdpp Require Import base list strings.
From Stdlib Require Import ZArith Lia.
From S2P Require Import Prelude Layout Crypto TlsKeys TlsHello TlsPsk TlsPskInv TlsStream TlsSession TlsData TlsDemo.
From S2P Require Import NvmeWire NvmeState NvmeTx NvmeAuth NvmeUri NvmeRx NvmeSched NvmeOps NvmeDemo NvmeStream NvmeInv NvmeReach NvmePdu NvmeBlock.

(** ** The session as the consumer of the connection *)

(** What is sent to a queue's socket. *)
Definition queue_sends (q : queue) (evs : list event) : list (list Z) :=
  omap (fun e => match e with Sent q' data => if bool_decide (q' = q) then Some data else None | _ => None end) evs.

(** The events after a point of the run. *)
Definition news (s s' : session) : list event := drop (length (events s)) (events s').

(** [plays Et En q n s datas s']: in the environment [Et], from consultation [n] of the
    connection on, the consumer is the session [s]: given [datas], it delivers each to
    its queue, sends what the session sends, and becomes [s'].  The consumer is
    consulted after the allocation of the buffer, and each of its sends consults the
    environment twice. *)
Inductive plays (Et : tls_env) {dops : DigestOps} {xops : ExchangeOps} (En : env) (q : queue) :
  nat -> session -> list (list Z) -> session -> Prop :=
  | plays_done n s : plays Et En q n s [] s
  | plays_data n s x s1 s2 datas s' :
      nvmetcp_socket_deliver En q x s = Ret OK s1 ->
      consumer Et (S n) x = Reaction (queue_sends q (news s s1)) None OK ->
      nvmetcp_tx_resume s1 = Ret tt s2 ->
      plays Et En q (n + 2 + 2 * length (queue_sends q (news s s1))) s2 datas s' ->
      plays Et En q n s (x :: datas) s'.

Section News.
Implicit Types (s : session) (q : queue).

Lemma resume_run s s' : nvmetcp_tx_resume s = Ret tt s' -> same s s' /\ events s' = events s.
Proof. unfold nvmetcp_tx_resume, bind, gets, same. by destruct (tx_in_flight s); intros [= <-]. Qed.

Lemma news_prefix s s' : events s `prefix_of` events s' -> events s' = events s ++ news s s'.
Proof. intros [l Hl]. unfold news. by rewrite Hl, drop_app_length. Qed.

Lemma news_trans s s1 s2 :
  events s `prefix_of` events s1 -> events s1 `prefix_of` events s2 -> news s s2 = news s s1 ++ news s1 s2.
Proof.
  intros H1 H2. apply (app_inv_head (events s)). rewrite <-news_prefix by (by etrans).
  rewrite app_assoc, <-(news_prefix s s1) by done. by apply news_prefix.
Qed.

Lemma queue_sends_app q l l' : queue_sends q (l ++ l') = queue_sends q l ++ queue_sends q l'.
Proof. apply omap_app. Qed.

Context {dops : DigestOps} {xops : ExchangeOps} (Et : tls_env) (En : env).

Lemma plays_prefix q n s datas s' : plays Et En q n s datas s' -> events s `prefix_of` events s'.
Proof.
  induction 1 as [|n s x s1 s2 datas s' Hd _ Hr _ IH]; [done|].
  pose proof (unsched_deliver En q x s s (reflexivity s)) as Hu. rewrite Hd in Hu.
  destruct Hu as (_ & _ & Hp), (resume_run _ _ Hr) as (_ & He). etrans; [exact Hp|]. by rewrite <-He.
Qed.

(** The session ends up where delivering [datas] alone leads, up to scheduling. *)
Lemma plays_delivers q n s datas s' s0 :
  plays Et En q n s datas s' -> same s s0 ->
  exists t, deliver_all En q datas s0 = Ret OK t /\ same s' t.
Proof.
  intros Hp. revert s0. induction Hp as [|n s x s1 s2 datas s' Hd _ Hr _ IH]; intros s0 Hs; [by exists s0|].
  pose proof (unsched_deliver En q x s s0 Hs) as Hu. rewrite Hd in Hu. cbn [deliver_all]. unfold try, bind.
  destruct (nvmetcp_socket_deliver En q x s0) as [rc t| |]; [|done..]. destruct Hu as (<- & Hst & _).
  apply IH. etrans; [|exact Hst]. symmetry. apply (resume_run _ _ Hr).
Qed.

Lemma plays_app q n s d1 d2 s' :
  plays Et En q n s (d1 ++ d2) s' ->
  exists sm, plays Et En q n s d1 sm /\
    plays Et En q (n + 2 * length d1 + 2 * length (queue_sends q (news s sm))) sm d2 s'.
Proof.
  revert n s. induction d1 as [|x d1 IH]; intros n s Hp.
  { exists s. split; [constructor|]. unfold news. rewrite drop_all. cbn. by rewrite !Nat.add_0_r. }
  inversion Hp as [|? ? ? s1 s2 ? ? Hd Hc Hr Hrest]; subst. destruct (IH _ _ Hrest) as (sm & Hm & Hk).
  exists sm. split; [by econstructor|].
  pose proof (unsched_deliver En q x s s (reflexivity s)) as Hu. rewrite Hd in Hu. destruct Hu as (_ & _ & Hpre).
  destruct (resume_run _ _ Hr) as (_ & He). pose proof (plays_prefix _ _ _ _ _ Hm) as Hpm. rewrite He in Hpm.
  rewrite (news_trans s s1 sm), queue_sends_app, length_app by done.
  assert (news s2 sm = news s1 sm) as Hn by (unfold news; by rewrite He).
  rewrite Hn in Hk. cbn [length]. refine (eq_rect _ (fun k => plays Et En q k sm d2 s') Hk _ _). lia.
Qed.
End News.

(** ** The connection as its neighbours see it *)

(** Everything but the handshake context, the credentials and the receive buffer. *)
Record link : Type := Link {
  l_phase : tls13_psk_phase;
  l_shut : bool;
  l_pending : option (list Z);
  l_rx : list Z * list Z;
  l_rx_seq : Z;
  l_tx : list Z * list Z;
  l_tx_seq : Z;
  l_tick : nat;
  l_wire : list Z;               (* the bytes sent to the socket *)
  l_got : list (list Z);         (* the data delivered to the consumer *)
}.

Definition wire (evs : list tls_event) : list Z :=
  concat (omap (fun e => match e with TlsPsk.Sent r => Some r | _ => None end) evs).
Definition deliveries (evs : list tls_event) : list (list Z) :=
  omap (fun e => match e with TlsPsk.Delivered x => Some x | _ => None end) evs.

Definition link_of (t : tls13_psk) : link :=
  Link (TlsPsk.phase t) (TlsPsk.shut t) (tx_iobuf t) (rx_keys t) (rx_seq t) (tx_keys t) (tx_seq t)
    (TlsPsk.tick t) (wire (TlsPsk.events t)) (deliveries (TlsPsk.events t)).

(** An established connection: data phase, open, nothing pending, keys of the right sizes. *)
Definition up (k : link) : Prop :=
  l_phase k = TLS13_PSK_DATA /\ l_shut k = false /\ l_pending k = None /\ keys_ok (l_rx k) /\ keys_ok (l_tx k).

Definition seq_after (n : nat) (sn : Z) : Z := Nat.iter n (fun n => u64 (n + 1)) sn.

Lemma wire_app a b : wire (a ++ b) = wire a ++ wire b.
Proof. unfold wire. by rewrite omap_app, concat_app. Qed.
Lemma deliveries_app a b : deliveries (a ++ b) = deliveries a ++ deliveries b.
Proof. apply omap_app. Qed.

Section Sealed.
Context `{AeadOps}.

(** Data sent over the connection, data received from it. *)
Definition link_sends (l : list (list Z)) (k : link) : link :=
  Link (l_phase k) (l_shut k) (l_pending k) (l_rx k) (l_rx_seq k) (l_tx k) (seq_after (length l) (l_tx_seq k))
    (l_tick k + 2 * length l) (l_wire k ++ seal_stream (l_tx k) (l_tx_seq k) l) (l_got k).
Definition link_gets (l : list (list Z)) (k : link) : link :=
  Link (l_phase k) (l_shut k) (l_pending k) (l_rx k) (seq_after (length l) (l_rx_seq k)) (l_tx k) (l_tx_seq k)
    (l_tick k + 2 * length l) (l_wire k) (l_got k ++ l).
(** A record was received, before its data is delivered. *)
Definition link_next (k : link) : link :=
  Link (l_phase k) (l_shut k) (l_pending k) (l_rx k) (seq_after 1 (l_rx_seq k)) (l_tx k) (l_tx_seq k)
    (l_tick k) (l_wire k) (l_got k).
Definition link_got (x : list Z) (k : link) : link :=
  Link (l_phase k) (l_shut k) (l_pending k) (l_rx k) (l_rx_seq k) (l_tx k) (l_tx_seq k)
    (S (S (l_tick k))) (l_wire k) (l_got k ++ [x]).

Lemma seal_stream_app keys n a b :
  seal_stream keys n (a ++ b) = seal_stream keys n a ++ seal_stream keys (seq_after (length a) n) b.
Proof.
  revert n. induction a as [|x a IH]; intros n; [done|]. cbn [app seal_stream length]. rewrite IH, app_assoc.
  unfold seq_after. by rewrite Nat.iter_succ_r.
Qed.

Lemma seq_after_add a b n : seq_after b (seq_after a n) = seq_after (a + b) n.
Proof. unfold seq_after. by rewrite Nat.add_comm, Nat.iter_add. Qed.

Lemma link_sends_app a b k : link_sends b (link_sends a k) = link_sends (a ++ b) k.
Proof.
  unfold link_sends. cbn [l_phase l_shut l_pending l_rx l_rx_seq l_tx l_tx_seq l_tick l_wire l_got].
  rewrite seal_stream_app, length_app, <-app_assoc, seq_after_add. f_equal; lia.
Qed.
Lemma link_gets_app a b k : link_gets b (link_gets a k) = link_gets (a ++ b) k.
Proof.
  unfold link_gets. cbn [l_phase l_shut l_pending l_rx l_rx_seq l_tx l_tx_seq l_tick l_wire l_got].
  rewrite length_app, <-app_assoc, seq_after_add. f_equal; lia.
Qed.
Lemma link_sends_gets a b k : link_gets b (link_sends a k) = link_sends a (link_gets b k).
Proof. unfold link_gets, link_sends. cbn [l_phase l_shut l_pending l_rx l_rx_seq l_tx l_tx_seq l_tick l_wire l_got]. f_equal; lia. Qed.
Lemma link_sends_nil k : link_sends [] k = k.
Proof. destruct k. unfold link_sends. cbn. by rewrite app_nil_r, Nat.add_0_r. Qed.
Lemma link_gets_nil k : link_gets [] k = k.
Proof. destruct k. unfold link_gets. cbn. by rewrite app_nil_r, Nat.add_0_r. Qed.
(** One record, as [tls13_psk_cipher_record] builds it. *)
Lemma link_sends_one p sh io rk rs tk ts n w g x out :
  tls13_seal tk.1 tk.2 ts (tls13_psk_header 23 (length x + 1 + authsize)) x 23 = Some out ->
  Link p sh io rk rs tk (u64 (ts + 1)) (S (S n))
    ((w ++ wire [TlsPsk.Sent (tls13_psk_header 23 (length x + 1 + authsize) ++ out)]) ++ wire [WindowChanged])
    ((g ++ deliveries [TlsPsk.Sent (tls13_psk_header 23 (length x + 1 + authsize) ++ out)]) ++ deliveries [WindowChanged]) =
  link_sends [x] (Link p sh io rk rs tk ts n w g).
Proof.
  intros Hout. unfold link_sends. cbn [length seal_stream l_phase l_shut l_pending l_rx l_rx_seq l_tx l_tx_seq l_tick l_wire l_got]. unfold seal_record.
  rewrite Hout. unfold wire, deliveries. cbn [omap list_omap concat default]. cbn. change (id out) with out.
  rewrite !app_nil_r. f_equal; lia.
Qed.

Lemma link_up l k : up k -> up (link_sends l k) /\ up (link_gets l k).
Proof. done. Qed.
End Sealed.

Section Run.
Context `{DigestLaws} `{HkdfLaws} `{ExchangeLaws} `{AeadLaws}.
Context (E : tls_env) `{!TlsEnvLaws E} (Hcalm : calm E).
Implicit Types (t : tls13_psk).

Lemma link_send x t :
  up (link_of t) ->
  wp False (tls13_psk_plainstream_deliver E x) (fun _ t' => link_of t' = link_sends [x] (link_of t)) t.
Proof.
  intros (Hp & Hs & Hio & _ & Hk). cbn in *. unfold tls13_psk_plainstream_deliver. apply wp_bind, wp_gets.
  rewrite bool_decide_true by done. cbn [negb]. apply wp_bind. unfold tls13_psk_cipher_record.
  apply wp_bind, wp_tls_consult. rewrite (calm_alloc E Hcalm). cbn [negb]. apply wp_bind, wp_gets.
  destruct (tls13_seal_some (tx_key t) (tx_iv t) (tx_seq t) (tls13_psk_header 23 (length x + 1 + authsize)) x 23) as [out Hout];
    [apply Hk|apply Hk|]. pose proof (tls13_seal_length _ _ _ _ _ _ _ Hout) as Hl.
  change (tx_key (_ <| TlsPsk.tick ::= S |>)) with (tx_key t). change (tx_iv (_ <| TlsPsk.tick ::= S |>)) with (tx_iv t).
  change (tx_seq (_ <| TlsPsk.tick ::= S |>)) with (tx_seq t).
  change TLS_TYPE_DATA with 23. rewrite Hout, Hl, Nat.eqb_refl. cbn [negb].
  apply wp_bind, wp_update, wp_ret, wp_bind, wp_update, wp_bind.
  unfold tls13_psk_tx. apply wp_bind, wp_gets. rewrite bool_decide_false by (change (TlsPsk.phase t <> TLS13_PSK_FAILED); congruence).
  apply wp_bind. unfold tls13_psk_tx_construct. apply wp_bind, wp_gets. apply wp_ret. cbn [negb]. apply wp_bind.
  unfold tls13_psk_tx_transmit. apply wp_bind, wp_gets. apply wp_bind, wp_tls_consult. rewrite (calm_window E Hcalm).
  apply wp_bind, wp_update, wp_bind, wp_tls_emit; [exact Hs|]. apply wp_bind, wp_gets.
  rewrite bool_decide_false by (change (TlsPsk.phase t <> TLS13_PSK_CLIENT_FINISHED); congruence). cbn [negb].
  apply wp_ret. apply wp_tls_emit; [exact Hs|]. apply wp_ret.
  transitivity (Link (TlsPsk.phase t) (TlsPsk.shut t) None (rx_keys t) (rx_seq t) (tx_keys t) (u64 (tx_seq t + 1))
    (S (S (TlsPsk.tick t)))
    (wire ((TlsPsk.events t ++ [TlsPsk.Sent (tls13_psk_header 23 (length x + 1 + authsize) ++ out)]) ++ [WindowChanged]))
    (deliveries ((TlsPsk.events t ++ [TlsPsk.Sent (tls13_psk_header 23 (length x + 1 + authsize) ++ out)]) ++ [WindowChanged])));
    [reflexivity|].
  rewrite !wire_app, !deliveries_app. unfold link_of. rewrite Hio. apply link_sends_one, Hout.
Qed.

Lemma link_consumer_sends l t :
  up (link_of t) ->
  wp False (TlsPsk.consumer_sends E l) (fun _ t' => link_of t' = link_sends l (link_of t)) t.
Proof.
  revert t. induction l as [|x l IH]; intros t Ht; cbn [TlsPsk.consumer_sends].
  { apply wp_ret. by rewrite link_sends_nil. }
  apply wp_bind. eapply wp_mono; [by apply link_send|]. intros rc t1 Ht1.
  eapply wp_mono; [apply IH; rewrite Ht1; by apply link_up|]. intros [] t2 ->. rewrite Ht1, link_sends_app. done.
Qed.

(** A delivery to a consumer that reacts with data. *)
Lemma link_deliver x sends t :
  x <> [] -> up (link_of t) -> consumer E (S (TlsPsk.tick t)) x = Reaction sends None OK ->
  wp False (tls13_psk_deliver E x)
    (fun rc t' => rc = OK /\ link_of t' = link_sends sends (link_got x (link_of t))) t.
Proof.
  intros Hx Hup Hc. pose proof Hup as (_ & Hs & _). unfold tls13_psk_deliver. destruct x as [|b x]; [done|]. cbn [length Nat.eqb].
  apply wp_bind, wp_tls_consult. rewrite (calm_alloc E Hcalm). cbn [negb]. unfold xfer_deliver_plain.
  apply wp_bind, wp_tls_consult. change (TlsPsk.tick (_ <| TlsPsk.tick ::= S |>)) with (S (TlsPsk.tick t)). rewrite Hc.
  cbn [r_sends r_close r_rc]. apply wp_bind, wp_gets.
  change (TlsPsk.shut (_ <| TlsPsk.tick ::= S |> <| TlsPsk.tick ::= S |>)) with (TlsPsk.shut t). cbn in Hs. rewrite Hs.
  apply wp_bind, wp_tls_emit; [exact Hs|]. apply wp_bind. eapply wp_mono; [by apply link_consumer_sends|].
  intros [] t1 Ht1. apply wp_bind, wp_ret, wp_ret. split; [done|]. rewrite Ht1.
  f_equal. transitivity (Link (TlsPsk.phase t) (TlsPsk.shut t) (tx_iobuf t) (rx_keys t) (rx_seq t) (tx_keys t) (tx_seq t)
    (S (S (TlsPsk.tick t))) (wire (TlsPsk.events t ++ [Delivered (b :: x)]))
    (deliveries (TlsPsk.events t ++ [Delivered (b :: x)]))); [reflexivity|].
  rewrite wire_app, deliveries_app. unfold link_got, link_of. f_equal. apply app_nil_r.
Qed.

(** One record of data. *)
Lemma link_record x sends t :
  sendable x -> up (link_of t) -> consumer E (S (TlsPsk.tick t)) x = Reaction sends None OK ->
  wp False (process_record E (seal_record (rx_keys t) (rx_seq t) 23 x))
    (fun rc t' => rc = OK /\ link_of t' = link_sends sends (link_gets [x] (link_of t))) t.
Proof.
  intros (Hx & Hok & _) Hup Hc. pose proof Hup as (_ & _ & _ & Hk & _). unfold wp.
  rewrite process_protected by (try done; unfold is_byte; lia).
  cbn [Z.eqb TLS_TYPE_HANDSHAKE TLS_TYPE_DATA Pos.eqb]. apply wp_bind, wp_update.
  eapply wp_mono; [by apply (link_deliver x sends)|]. intros rc t' [-> ->]. split; [done|]. f_equal.
  unfold link_got, link_gets, link_of, seq_after. cbn [l_phase l_shut l_pending l_rx l_rx_seq l_tx l_tx_seq l_tick l_wire l_got length].
  f_equal. change (S (S (TlsPsk.tick t)) = TlsPsk.tick t + 2 * 1)%nat. lia.
Qed.

Lemma link_idle t (Q : unit -> tls13_psk -> Prop) :
  up (link_of t) -> (forall t', link_of t' = link_of t -> Q tt t') -> wp False (tls13_psk_tx E) Q t.
Proof.
  intros (Hp & Hs & Hio & _) HQ. apply (tx_idle E); [by right|done|done|]. apply HQ.
  transitivity (Link (TlsPsk.phase t) (TlsPsk.shut t) (tx_iobuf t) (rx_keys t) (rx_seq t) (tx_keys t) (tx_seq t)
    (TlsPsk.tick t) (wire (TlsPsk.events t ++ [WindowChanged])) (deliveries (TlsPsk.events t ++ [WindowChanged])));
    [reflexivity|].
  rewrite wire_app, deliveries_app. unfold link_of. f_equal; apply app_nil_r.
Qed.

Context (Hauth : (authsize <= 16)%nat) (En : env).

(** Whole records, with the session as consumer. *)
Lemma link_stream q datas f t s s' :
  up (link_of t) -> Forall sendable datas -> plays E En q (TlsPsk.tick t) s datas s' -> (length datas <= f)%nat ->
  wp False (stream E f (seal_stream (rx_keys t) (rx_seq t) datas)) (fun r t' =>
    r = Some [] /\ link_of t' = link_sends (queue_sends q (news s s')) (link_gets datas (link_of t))) t.
Proof.
  intros Hup Hd Hp. remember (TlsPsk.tick t) as n eqn:Hn. revert f t Hn Hup.
  induction Hp as [n s|n s x s1 s2 datas s' Hdel Hc Hr Hp IH]; intros f t -> Hup Hf.
  { assert (stream E f [] t = Ret (Some []) t) as He by (by destruct f).
    unfold wp. cbn [seal_stream]. rewrite He, link_gets_nil. split; [done|].
    unfold news. rewrite drop_all. by rewrite link_sends_nil. }
  destruct f as [|f]; [cbn in Hf; lia|]. apply Forall_cons in Hd as [Hx Hd]. specialize (IH Hd). cbn [seal_stream].
  pose proof Hup as (_ & _ & _ & Hk & _). pose proof Hx as (Hne & Hok & Hl).
  destruct (seal_record_spec (rx_keys t) (rx_seq t) 23 x Hk Hok) as (payload & Hrec & Hpl & _); [unfold is_byte; lia|].
  rewrite Hrec. unfold wp. rewrite stream_cons by (unfold TLS13_MAX_RECORD in *; lia). rewrite <-Hrec.
  set (sends := queue_sends q (news s s1)) in *.
  apply wp_bind. eapply wp_mono; [by apply (link_record x sends)|]. intros rc t1 [-> H1t].
  assert (up (link_of t1)) as Hup1 by by rewrite H1t.
  apply wp_bind, link_idle; [done|]. intros t2 H2t. rewrite H1t in H2t.
  assert (rx_keys t2 = rx_keys t) as Hk2 by exact (f_equal l_rx H2t).
  assert (rx_seq t2 = u64 (rx_seq t + 1)) as Hs2 by exact (f_equal l_rx_seq H2t).
  assert (TlsPsk.tick t2 = TlsPsk.tick t + 2 + 2 * length sends)%nat as Ht2 by exact (f_equal l_tick H2t).
  rewrite <-Hk2, <-Hs2. eapply wp_mono.
  { apply IH; [by rewrite Ht2|by rewrite H2t|cbn in Hf; lia]. }
  intros r t3 [-> H3t]. split; [done|]. rewrite H3t, H2t, link_sends_gets, link_gets_app, link_sends_app. f_equal.
  pose proof (unsched_deliver En q x s s (reflexivity s)) as Hu. rewrite Hdel in Hu. destruct Hu as (_ & _ & Hpre).
  destruct (resume_run _ _ Hr) as (_ & He). pose proof (plays_prefix _ _ _ _ _ _ _ Hp) as Hps. rewrite He in Hps.
  rewrite (news_trans s s1 s'), queue_sends_app by done. unfold sends, news at 4. by rewrite <-He.
Qed.
End Run.

(** ** Cutting records *)
Section Cut.
Context `{DigestLaws} `{HkdfLaws} `{ExchangeLaws} `{AeadLaws}.

(** Less than one whole record. *)
Definition incomplete (rest : list Z) : Prop :=
  (length rest < 5)%nat \/ (length rest < record_total rest <= TLS13_MAX_RECORD)%nat.

Lemma stream_incomplete E f rest t :
  incomplete rest -> (length rest <= f)%nat -> stream E f rest t = Ret (Some rest) t.
Proof.
  intros [Hl|[Hl Hm]] Hf.
  - destruct f; cbn [stream]; by rewrite (proj2 (Nat.ltb_lt (length rest) 5)).
  - destruct (decide (length rest < 5)%nat) as [Hlt|Hge].
    + destruct f; cbn [stream]; by rewrite (proj2 (Nat.ltb_lt (length rest) 5)).
    + destruct f as [|f]; [lia|]. cbn [stream].
      by rewrite (proj2 (Nat.ltb_ge _ 5)), (proj2 (Nat.ltb_ge _ (record_total rest))), (proj2 (Nat.ltb_lt _ (record_total rest))) by lia.
Qed.

(** A prefix of a stream of records: whole records, and part of the next. *)
Lemma seal_stream_cut keys n datas a b L :
  keys_ok keys -> Forall sendable datas -> (authsize <= 16)%nat -> Forall (fun x => length x <= L)%nat datas ->
  a ++ b = seal_stream keys n datas ->
  exists d1 d2 rest, datas = d1 ++ d2 /\ a = seal_stream keys n d1 ++ rest /\
    rest ++ b = seal_stream keys (seq_after (length d1) n) d2 /\ (length rest <= L + 21)%nat /\ incomplete rest.
Proof.
  intros Hk Hd Hauth HL. revert n a. induction datas as [|x datas IH]; intros n a Hab.
  { apply app_nil in Hab as [-> ->]. exists [], [], []. split_and!; [done..|cbn; lia|left; cbn; lia]. }
  apply Forall_cons in Hd as [Hx Hd], HL as [Hxl HL]. cbn [seal_stream] in Hab. pose proof Hx as (Hne & Hok & Hl).
  destruct (seal_record_spec keys n 23 x Hk Hok) as (payload & Hrec & Hpl & _); [unfold is_byte; lia|].
  pose proof (header_total 23 (length payload) payload ltac:(unfold TLS13_MAX_PLAINTEXT in Hl; lia)) as Ht.
  rewrite <-Hrec in Ht. assert (length (seal_record keys n 23 x) = 5 + length payload)%nat as Hr by (by rewrite Hrec, length_app).
  destruct (decide (length a < length (seal_record keys n 23 x))%nat) as [Hs|Hs].
  - exists [], (x :: datas), a. split_and!; [done..|lia|].
    destruct (decide (length a < 5)%nat) as [Hlt|Hge]; [by left|right].
    assert (record_total a = record_total (seal_record keys n 23 x)) as ->; [|unfold TLS13_MAX_RECORD; lia].
    apply app_eq_inv in Hab as [(k & Hk1 & _)|(k & Hk1 & _)].
    + rewrite Hk1, length_app in Hs. lia.
    + rewrite Hk1. unfold record_total, byte_at. by rewrite !lookup_app_l by lia.
  - set (r := seal_record keys n 23 x) in *.
    assert (a = r ++ drop (length r) a) as Ha.
    { rewrite <-(take_drop (length r) a) at 1. f_equal. apply (f_equal (take (length r))) in Hab.
      by rewrite take_app_le, take_app_length in Hab by lia. }
    rewrite Ha, <-app_assoc in Hab. apply app_inv_head in Hab.
    destruct (IH Hd HL _ _ Hab) as (d1 & d2 & rest & -> & Hd1 & Hrest & Hrl & Hinc).
    exists (x :: d1), d2, rest. split; [done|]. split; [by rewrite Ha, Hd1; cbn [seal_stream]; rewrite <-app_assoc|].
    split; [|done]. rewrite Hrest. unfold seq_after. cbn [length]. by rewrite Nat.iter_succ_r.
Qed.

Lemma incomplete_stream keys n datas :
  keys_ok keys -> Forall sendable datas -> (authsize <= 16)%nat -> incomplete (seal_stream keys n datas) -> datas = [].
Proof.
  intros Hk Hd Hauth Hi. destruct datas as [|x datas]; [done|]. apply Forall_cons in Hd as [(Hne & Hok & Hl) _].
  cbn [seal_stream] in Hi. destruct (seal_record_spec keys n 23 x Hk Hok) as (payload & Hrec & Hpl & _); [unfold is_byte; lia|].
  rewrite Hrec, <-app_assoc in Hi. unfold incomplete in Hi.
  rewrite header_total, !length_app, header_length in Hi by (unfold TLS13_MAX_PLAINTEXT in Hl; lia). lia.
Qed.

(** ** Segments *)
Context (E : tls_env) `{!TlsEnvLaws E} (Hcalm : calm E) (Hauth : (authsize <= 16)%nat) (En : env).

(** Deliver segments of the socket, as long as they are taken. *)
Fixpoint tls_deliver_all (segs : list (list Z)) : M tls13_psk status :=
  match segs with
  | [] => ret OK
  | seg :: segs => try* tls13_psk_cipherstream_deliver E seg in tls_deliver_all segs
  end.

(** One segment, which completes the records of [d1]. *)
Lemma link_segment q d1 rest t s sm seg :
  conn_ok t -> up (link_of t) -> bytes_ok seg -> (rx_len t + length seg <= TLS13_MAX_RECORD)%nat ->
  Forall sendable d1 -> plays E En q (TlsPsk.tick t) s d1 sm ->
  buffered t ++ seg = seal_stream (rx_keys t) (rx_seq t) d1 ++ rest -> incomplete rest ->
  exists t1, tls13_psk_cipherstream_deliver E seg t = Ret OK t1 /\ conn_ok t1 /\ buffered t1 = rest /\
    link_of t1 = link_sends (queue_sends q (news s sm)) (link_gets d1 (link_of t)).
Proof.
  intros Hok Hup Hseg Hfit Hd Hp Hb Hi.
  destruct (deliver_stream E seg t Hok Hseg Hfit) as (t1 & r & t1' & Hdel & Hst & Hc & Hok1 & Hrest).
  pose proof (f_equal length Hb) as Hlen. rewrite !length_app, buffered_length in Hlen by done.
  pose proof (seal_stream_length (rx_keys t) (rx_seq t) d1) as Hsl.
  rewrite Hb, stream_app in Hst by lia.
  pose proof (link_stream E Hcalm Hauth En q d1 (rx_len t + length seg) (core t) s sm Hup Hd Hp ltac:(lia)) as Hw.
  change (rx_keys (core t)) with (rx_keys t) in Hw. change (rx_seq (core t)) with (rx_seq t) in Hw.
  unfold wp in Hw. unfold bind in Hst. destruct (stream E _ (seal_stream _ _ _) (core t)) as [r' t2| |]; [|done..].
  destruct Hw as [-> Hlink]. cbn [app] in Hst. rewrite stream_incomplete in Hst by (done || lia). injection Hst as <- <-.
  exists t1. split; [done|]. split; [done|]. split; [by apply Hrest|].
  change (link_of t1) with (link_of (core t1)). rewrite Hc. exact Hlink.
Qed.

Lemma link_segments q L segs datas t s s' :
  conn_ok t -> up (link_of t) -> incomplete (buffered t) -> (length (buffered t) <= L + 21)%nat ->
  Forall sendable datas -> Forall (fun x => length x <= L)%nat datas ->
  Forall (fun seg => length seg + L + 21 <= TLS13_MAX_RECORD)%nat segs ->
  plays E En q (TlsPsk.tick t) s datas s' ->
  buffered t ++ concat segs = seal_stream (rx_keys t) (rx_seq t) datas ->
  exists t', tls_deliver_all segs t = Ret OK t' /\ conn_ok t' /\ rx_len t' = 0%nat /\
    link_of t' = link_sends (queue_sends q (news s s')) (link_gets datas (link_of t)).
Proof.
  revert datas t s. induction segs as [|seg segs IH]; intros datas t s Hok Hup Hi Hbl Hd HL Hsegs Hp Hb;
    pose proof Hup as (_ & _ & _ & Hk & _).
  { cbn [concat] in Hb. rewrite app_nil_r in Hb. rewrite Hb in Hi. apply incomplete_stream in Hi as ->; [|done..].
    exists t. inversion Hp; subst. rewrite <-(buffered_length t Hok), Hb. split_and!; [done..|].
    rewrite link_gets_nil. unfold news. by rewrite drop_all, link_sends_nil. }
  apply Forall_cons in Hsegs as [Hsl Hsegs]. cbn [concat] in Hb. rewrite app_assoc in Hb.
  assert (bytes_ok (buffered t ++ seg)) as Hsb.
  { pose proof (seal_stream_ok (rx_keys t) (rx_seq t) datas Hk Hd) as Hs. rewrite <-Hb in Hs. by apply Forall_app in Hs as [? _]. }
  apply Forall_app in Hsb as [_ Hsb].
  destruct (seal_stream_cut _ _ _ _ _ L Hk Hd Hauth HL Hb) as (d1 & d2 & rest & -> & Hd1 & Hd2 & Hrl & Hri).
  apply plays_app in Hp as (sm & Hp1 & Hp2). apply Forall_app in Hd as [Hd1s Hd2s], HL as [_ HL].
  rewrite buffered_length in Hbl by done.
  destruct (link_segment q d1 rest t s sm seg) as (t1 & Hdel & Hok1 & Hb1 & Hl1); try done; [lia|].
  destruct (IH d2 t1 sm) as (t' & Ht' & Hok' & Hn & Hl'); rewrite ?Hb1; try done.
  - by rewrite Hl1.
  - pose proof (f_equal l_tick Hl1 : TlsPsk.tick t1 = _) as ->. exact Hp2.
  - pose proof (f_equal l_rx Hl1 : rx_keys t1 = _) as ->. pose proof (f_equal l_rx_seq Hl1 : rx_seq t1 = _) as ->.
    exact Hd2.
  - exists t'. cbn [tls_deliver_all]. unfold try, bind. rewrite Hdel. split_and!; [done..|].
    rewrite Hl', Hl1, link_sends_gets, link_gets_app, link_sends_app. f_equal.
    rewrite (news_trans s sm s'), queue_sends_app by (by eapply plays_prefix). done.
Qed.
End Cut.

(** ** An environment in which the session is the consumer *)

(** The answers of the session [s], consulted from [n] on with [datas]. *)
Fixpoint script {dops : DigestOps} {xops : ExchangeOps} (En : env) (q : queue) (n : nat) (s : session)
  (datas : list (list Z)) (k : nat) : reaction :=
  match datas with
  | [] => Reaction [] None OK
  | x :: datas =>
      match nvmetcp_socket_deliver En q x s with
      | Ret rc s1 =>
          let sends := queue_sends q (news s s1) in
          if (k =? S n)%nat then Reaction sends None rc else
          match nvmetcp_tx_resume s1 with
          | Ret _ s2 => script En q (n + 2 + 2 * length sends) s2 datas k
          | _ => Reaction [] None OK
          end
      | _ => Reaction [] None OK
      end
  end.

Definition with_consumer (E : tls_env) (c : nat -> list Z -> reaction) : tls_env :=
  TlsEnv (rbg_generate E) (TlsPsk.alloc_ok E) (cipher_window E) c (TlsPsk.open_rc E).

Lemma with_consumer_calm E c : calm E -> calm (with_consumer E c).
Proof. by intros []. Qed.
Lemma with_consumer_laws E c : TlsEnvLaws E -> TlsEnvLaws (with_consumer E c).
Proof. intros []. by split. Qed.

Definition over {dops : DigestOps} {xops : ExchangeOps} (E : tls_env) (En : env) (q : queue) (n : nat) (s : session)
  (datas : list (list Z)) : tls_env :=
  with_consumer E (fun k _ => script En q n s datas k).

(** Every run of the session without refusal can be played. *)
Lemma script_plays {dops : DigestOps} {xops : ExchangeOps} E (En : env) q datas n s s0 t0 (c : nat -> reaction) :
  same s s0 -> deliver_all En q datas s0 = Ret OK t0 ->
  (forall k, (n < k)%nat -> c k = script En q n s datas k) ->
  exists s', plays (with_consumer E (fun k _ => c k)) En q n s datas s'.
Proof.
  revert n s s0. induction datas as [|x datas IH]; intros n s s0 Hs Hd Hc; [by exists s; constructor|].
  cbn [deliver_all script] in Hd, Hc. unfold try, bind in Hd. pose proof (unsched_deliver En q x s s0 Hs) as Hu.
  destruct (nvmetcp_socket_deliver En q x s0) as [[] u1| |]; [|done..].
  destruct (nvmetcp_socket_deliver En q x s) as [rc s1| |] eqn:H1; [|done..]. destruct Hu as (-> & Hs1 & _).
  assert (exists s2, nvmetcp_tx_resume s1 = Ret tt s2) as [s2 H2].
  { unfold nvmetcp_tx_resume, bind, gets. destruct (tx_in_flight s1); eexists; reflexivity. }
  rewrite H2 in Hc. destruct (resume_run _ _ H2) as [Hs2 _].
  destruct (IH (n + 2 + 2 * length (queue_sends q (news s s1)))%nat s2 u1) as [s' Hp].
  - etrans; [symmetry; exact Hs2|exact Hs1].
  - exact Hd.
  - intros k Hk. rewrite Hc by lia. by rewrite (proj2 (Nat.eqb_neq k (S n))) by lia.
  - exists s'. eapply plays_data; [exact H1| |exact H2|exact Hp].
    cbn [with_consumer consumer]. rewrite Hc by lia. by rewrite Nat.eqb_refl.
Qed.

(** ** Claims *)
Section Claims.
Context `{DigestLaws} `{HkdfLaws} `{ExchangeLaws} `{AeadLaws}.
Context (Et : tls_env) `{!TlsEnvLaws Et} (En : env) `{!EnvLaws En}.

(** [C8] Composition: NVMe over TLS.  A queue of a reachable session is the consumer of an
    established connection.  The target cuts the encodings of well-formed PDUs into
    records in any way, protects them under the connection's receive keys, and the
    network cuts the records into segments in any way that the receive buffer can hold
    (a segment and a partial record together are at most one record of the greatest
    size).  Unless the session refuses a PDU, all segments are taken; the session
    computes what the PDU-level specification computes by handling the PDUs one after
    the other (but for whether its process is scheduled, since the connection reports
    its window); and what the session sends meanwhile to that queue leaves, in order and
    as nothing else, in records protected under the connection's transmit keys.  The
    connection is again established, with nothing left in its receive buffer. *)
Theorem nvme_over_tls u s q ps datas segs L t s' :
  reachable En u s -> boundary (get_rx q s) -> Forall pdu_ok ps ->
  calm Et -> (authsize <= 16)%nat -> conn_ok t -> rx_len t = 0%nat -> up (link_of t) ->
  concat datas = concat (map encode ps) -> Forall sendable datas -> Forall (fun x => length x <= L)%nat datas ->
  concat segs = seal_stream (rx_keys t) (rx_seq t) datas ->
  Forall (fun seg => length seg + L + 21 <= TLS13_MAX_RECORD)%nat segs ->
  plays Et En q (TlsPsk.tick t) s datas s' ->
  exists t' s0, tls_deliver_all Et segs t = Ret OK t' /\ handle_pdus En q ps s = Ret OK s0 /\ same s' s0 /\
    deliveries (TlsPsk.events t') = deliveries (TlsPsk.events t) ++ datas /\
    wire (TlsPsk.events t') =
      wire (TlsPsk.events t) ++ seal_stream (tx_keys t) (tx_seq t) (queue_sends q (news s s')) /\
    conn_ok t' /\ rx_len t' = 0%nat /\ up (link_of t').
Proof.
  intros Hr Hb Hps Hcalm Hauth Hok Hn Hup Hdp Hd HL Hsegs Hsl Hp.
  assert (buffered t = []) as Hbuf by (unfold buffered; by rewrite Hn, take_0).
  destruct (link_segments Et Hcalm Hauth En q L segs datas t s s') as (t' & Hdel & Hok' & Hn' & Hl); try done;
    [by rewrite Hbuf; left; cbn; lia|by rewrite Hbuf; cbn; lia|by rewrite Hbuf|].
  destruct (plays_delivers Et En q _ s datas s' s Hp (reflexivity s)) as (s0 & Hs0 & Hsame).
  rewrite deliver_all_concat, Hdp, (handle_pdus_deliver En) in Hs0;
    [|by apply (reachable_inv En u)|done..|by apply boundary_ready].
  exists t', s0. split; [done|]. split; [done|]. split; [done|].
  split; [exact (f_equal l_got Hl)|]. split; [exact (f_equal l_wire Hl)|]. split; [done|]. split; [done|].
  by rewrite Hl.
Qed.
End Claims.

(** ** A write of which the target asks for a part, and completes it

    The R2T and the completion arrive in three records, which arrive in two segments. *)
Section Demo.
#[local] Existing Instances Toy.digest Toy.digest_laws ToyTls.hkdf ToyTls.hkdf_laws Toy.exchange Toy.exchange_laws
  ToyTls.aead ToyTls.aead_laws ToyConn.laws ToySession.x25519_laws ToyEnv.laws.

Definition write_pdus : list pdu := [Pdu demo_r2t []; Pdu (Demo.response 0 0) []].
Definition write_datas : list (list Z) :=
  let l := demo_r2t ++ Demo.response 0 0 in [take 10 l; take 20 (drop 10 l); drop 30 l].
Definition write_env (n : nat) : tls_env := over ToyConn.env Demo.E Io n demo_writing write_datas.

Lemma write_pdus_ok : Forall pdu_ok write_pdus.
Proof.
  repeat (apply Forall_cons; split); [| |apply Forall_nil; exact I];
    (constructor; [apply bytes_okb_ok; vm_compute; reflexivity|vm_compute; reflexivity|..]).
  - intros _. reflexivity.
  - intros Ht. vm_compute in Ht. discriminate.
  - intros _. reflexivity.
  - intros Ht. vm_compute in Ht. discriminate.
Qed.

Lemma write_datas_sendable : Forall sendable write_datas.
Proof.
  assert (forall x, x <> [] -> bytes_okb x = true -> (Z.of_nat (length x) <=? 8192) = true -> sendable x) as Hs.
  { intros x Hx Hb Hl. split_and!; [done|by apply bytes_okb_ok|]. unfold TLS13_MAX_PLAINTEXT. lia. }
  unfold write_datas. cbv zeta. repeat (apply Forall_cons; split); [| | |apply Forall_nil; exact I];
    (apply Hs; vm_compute; congruence).
Qed.

Lemma write_played n : exists s', plays (write_env n) Demo.E Io n demo_writing write_datas s'.
Proof.
  destruct (deliver_all Demo.E Io write_datas demo_writing) as [[] t0| |] eqn:Hd; [|no_ret Hd..].
  by eapply script_plays; [reflexivity|exact Hd|].
Qed.

(** The session answers with the data asked for. *)
Example write_sends :
  match deliver_all Demo.E Io write_datas demo_writing with
  | Ret OK s => queue_sends Io (news demo_writing s) = [h2cdata_pdu demo_r2t ++ sub 0 256 demo_block] /\ block_data s = None
  | _ => False
  end.
Proof. by vm_compute. Qed.

Lemma seal_stream_total keys n datas :
  keys_ok keys -> length (seal_stream keys n datas) = sum_list_with (fun x => length x + 6 + authsize)%nat datas.
Proof.
  intros [Hk Hi]. revert n. induction datas as [|x datas IH]; intros n; [done|].
  cbn [seal_stream sum_list_with]. rewrite length_app, IH. f_equal. unfold seal_record.
  destruct (tls13_seal_some keys.1 keys.2 n (tls13_psk_header 23 (length x + 1 + authsize)) x 23 Hk Hi) as [out Hout].
  pose proof (tls13_seal_length _ _ _ _ _ _ _ Hout) as Hl. rewrite Hout, length_app, header_length. cbn [default]. change (id out) with out. lia.
Qed.

Lemma nvme_over_tls_witness :
  exists t t' s' s0, let w := seal_stream (rx_keys t) (rx_seq t) write_datas in
    tls_deliver_all (write_env (TlsPsk.tick t)) [take 40 w; drop 40 w] t = Ret OK t' /\
    handle_pdus Demo.E Io write_pdus demo_writing = Ret OK s0 /\ same s' s0 /\
    deliveries (TlsPsk.events t') = deliveries (TlsPsk.events t) ++ write_datas /\
    wire (TlsPsk.events t') =
      wire (TlsPsk.events t) ++ seal_stream (tx_keys t) (tx_seq t) (queue_sends Io (news demo_writing s')) /\
    conn_ok t' /\ rx_len t' = 0%nat /\ up (link_of t').
Proof.
  destruct connected_session as (t & Hok & Hn & Hest). destruct (write_played (TlsPsk.tick t)) as [s' Hp]. exists t.
  destruct (conn_keys t Hok) as [Hrk Htk].
  pose proof (seal_stream_total (rx_keys t) (rx_seq t) write_datas Hrk) as Hl.
  change (sum_list_with _ write_datas) with 114%nat in Hl.
  destruct (@nvme_over_tls _ _ _ _ _ _ _ _ (write_env (TlsPsk.tick t)) (with_consumer_laws _ _ ToyConn.laws) Demo.E _
    Demo.target demo_writing Io write_pdus write_datas
    (let w := seal_stream (rx_keys t) (rx_seq t) write_datas in [take 40 w; drop 40 w]) 24 t s')
    as (t' & s0 & Hall).
  - exact demo_writing_reachable.
  - vm_compute. auto.
  - exact write_pdus_ok.
  - apply with_consumer_calm, ToySession.calm_env.
  - vm_compute. lia.
  - exact Hok.
  - exact Hn.
  - destruct Hest as (? & ? & ?). done.
  - vm_compute. reflexivity.
  - exact write_datas_sendable.
  - repeat (apply Forall_cons; split; [vm_compute; lia|]). by apply Forall_nil.
  - cbv zeta. cbn [concat]. by rewrite app_nil_r, take_drop.
  - cbv zeta. apply Forall_cons. split; [|apply Forall_singleton];
      rewrite ?length_take, ?length_drop, Hl; unfold TLS13_MAX_RECORD, TLS13_MAX_PLAINTEXT; lia.
  - exact Hp.
  - exists t', s', s0. exact Hall.
Defined.
End Demo.
