(* ===== verification/Nbct.v ===== *)
(** * NVMe boot credentials table (drivers/block/nbct.c) and its reader

    [nbct_install] builds the ACPI table that hands the sessions' credentials to the
    booted system; [nbct_connect] is the function of initramfs-nbft/nbft-connect that
    reads the table there and reconnects.  The ACPI core is a parameter. *)

From stdpp Require Import base list strings.
From Stdlib Require Import ZArith Lia.
From S2P Require Import Prelude Layout NvmeWire Crypto NvmeState NvmeTx NvmeUri.

(** ** The ACPI core (ipxe/acpi.h) *)
Class AcpiOps := {
  acpi_header : layout;
  ACPI_SIGNATURE : Z -> Z -> Z -> Z -> Z;
}.

(** The description header of the ACPI specification. *)
Class AcpiLaws `{AcpiOps} : Prop := {
  acpi_header_size : sizeof acpi_header = 36%nat;
  acpi_signature_field : field acpi_header "signature" = Some (0, 4)%nat;
  acpi_length_field : field acpi_header "length" = Some (4, 4)%nat;
  acpi_revision_field : field acpi_header "revision" = Some (8, 1)%nat;
  acpi_oem_id_field : field acpi_header "oem_id" = Some (10, 6)%nat;
  acpi_oem_table_id_field : field acpi_header "oem_table_id" = Some (16, 8)%nat;
  acpi_signature_bytes a b c d : bytes_ok [a; b; c; d] ->
    le_bytes 4 (ACPI_SIGNATURE a b c d) = [a; b; c; d];
}.

(** ** The table *)
Definition NBCT_ENTRY_LEN : nat := 1152.
Definition NBCT_TRADDR_LEN : nat := 128.
Definition NBCT_TRSVCID_LEN : nat := 16.
Definition NBCT_NQN_LEN : nat := 256.
Definition NBCT_HOSTNQN_LEN : nat := 256.
Definition NBCT_SECRET_LEN : nat := 320.
Definition NBCT_TLS_TRSVCID_LEN : nat := 16.
Definition NBCT_TLS_PSK_LEN : nat := 128.

Definition nbct_header : layout := [("count", 1); ("reserved", 3)]%nat.

Definition nbct_entry : layout :=
  [("index", 2%nat); ("reserved", 2%nat); ("traddr", NBCT_TRADDR_LEN); ("trsvcid", NBCT_TRSVCID_LEN);
   ("nqn", NBCT_NQN_LEN); ("hostnqn", NBCT_HOSTNQN_LEN); ("secret", NBCT_SECRET_LEN);
   ("tls_trsvcid", NBCT_TLS_TRSVCID_LEN); ("tls_psk", NBCT_TLS_PSK_LEN)].

(** [nbct_complete] *)
Definition nbct_complete (s : session) : status :=
  match subsystem_nqn s with None => Err EAGAIN | Some _ => OK end.

(** Assignments to members of the structure [L] at [off] in the table. *)
Definition at_struct (off : nat) (L : layout) (g : list Z -> list Z) : M (list Z) unit :=
  fun b => if bool_decide (off + sizeof L <= length b)%nat
           then Ret tt (splice off (g (sub off (sizeof L) b)) b) else Fault.

(** The digits that the conversion "%d" prints for a number that is not negative. *)
Fixpoint digits (fuel : nat) (n : Z) : cstr :=
  match fuel with
  | O => []
  | S fuel => (if n <? 10 then [] else digits fuel (n / 10)) ++ [48 + n mod 10]
  end.

(** An [uint16_t] has at most five digits. *)
Definition print_port (n : Z) : cstr := digits 5 n.

(** [snprintf ( entry->f, sizeof ( entry->f ), "%s", str )], with its terminator. *)
Definition put_str (off : nat) (f : string) (str : cstr) : M (list Z) unit :=
  at_struct off nbct_entry
    (set_bytes nbct_entry f (snprintf (fieldsize nbct_entry f) str ++ [0])).

(** A null pointer for a name is undefined; the credentials are optional. *)
Definition put_name (off : nat) (f : string) (str : option cstr) : M (list Z) unit :=
  let* str := of_option str in put_str off f str.
Definition put_credential (off : nat) (f : string) (str : option cstr) : M (list Z) unit :=
  match str with Some str => put_str off f str | None => ret tt end.

Definition nbct_fill_entry (off i : nat) (s : session) : M (list Z) unit :=
  do* at_struct off nbct_entry (set_field nbct_entry "index" (Z.of_nat i)) in
  do* put_name off "traddr" (target_host s) in
  do* put_str off "trsvcid" (print_port (target_port s)) in
  do* put_name off "nqn" (subsystem_nqn s) in
  do* put_name off "hostnqn" (host_nqn s) in
  do* put_credential off "secret" (secret s) in
  do* put_credential off "tls_trsvcid" (tls_trsvcid s) in
  put_credential off "tls_psk" (tls_psk s).

Fixpoint nbct_fill (body i : nat) (descs : list session) : M (list Z) unit :=
  match descs with
  | [] => ret tt
  | s :: descs =>
      do* nbct_fill_entry (body + i * NBCT_ENTRY_LEN) i s in
      nbct_fill body (S i) descs
  end.

Section Install.
Context `{AcpiOps}.

Definition fill_acpi_header (len : nat) (b : list Z) : list Z :=
  set_bytes acpi_header "oem_table_id" (bstr "iPXE")
    (set_bytes acpi_header "oem_id" (bstr "NBCT")
      (set_field acpi_header "revision" 1
        (set_field acpi_header "length" (Z.of_nat len)
          (set_field acpi_header "signature" (ACPI_SIGNATURE 78 66 67 84) b)))).

Definition nbct_fill_table (len : nat) (descs : list session) : M (list Z) unit :=
  do* at_struct 0 acpi_header (fill_acpi_header len) in
  do* at_struct (sizeof acpi_header) nbct_header
        (set_field nbct_header "count" (Z.of_nat (length descs))) in
  nbct_fill (sizeof acpi_header + sizeof nbct_header) 0 descs.

(** [nbct_install]: the state is the sequence of tables given to [install]. *)
Definition nbct_install (alloc : bool) (install : list Z -> status) (descs : list session)
    : M (list (list Z)) status :=
  let count := length descs in
  if bool_decide (count = 0%nat) then ret OK else
  let len := (sizeof acpi_header + sizeof nbct_header + count * NBCT_ENTRY_LEN)%nat in
  if negb alloc then ret (Err ENOMEM) else
  fun log => match nbct_fill_table len descs (zeros len) with
             | Ret _ acpi => Ret (install acpi) (log ++ [acpi])
             | Fault => Fault
             | NoFuel => NoFuel
             end.
End Install.

(** ** The reader (initramfs-nbft/nbft-connect) *)
Definition NBCT_BODY_OFF : nat := 40.
Definition NBCT_HDR_OFF : nat := 36.
Definition NBCT_TRADDR_OFF : nat := 4.
Definition NBCT_TRSVCID_OFF : nat := 132.
Definition NBCT_NQN_OFF : nat := 148.
Definition NBCT_HOSTNQN_OFF : nat := 404.
Definition NBCT_SECRET_OFF : nat := 660.
Definition NBCT_TLS_TRSVCID_OFF : nat := 980.
Definition NBCT_TLS_PSK_OFF : nat := 996.

(** What a command substitution keeps of an output: the text up to the newlines at its end. *)
Fixpoint strip_newlines (l : cstr) : cstr :=
  match l with
  | [] => []
  | c :: l => match strip_newlines l with
              | [] => if c =? 10 then [] else [c]
              | l' => c :: l'
              end
  end.

(** [tr -d '\000'] *)
Definition drop_nul (l : list Z) : cstr := filter (fun c => c <> 0) l.

(** [nbct_field] in a command substitution *)
Definition nbct_field (tbl : list Z) (i off len : nat) : cstr :=
  strip_newlines (drop_nul (sub (NBCT_BODY_OFF + i * NBCT_ENTRY_LEN + off) len tbl)).

Record nbct_fields : Type := Fields {
  f_traddr : cstr;
  f_trsvcid : cstr;
  f_nqn : cstr;
  f_hostnqn : cstr;
  f_secret : cstr;
  f_tls_trsvcid : cstr;
  f_tls_psk : cstr;
}.

Definition nbct_read (tbl : list Z) (i : nat) : nbct_fields :=
  Fields (nbct_field tbl i NBCT_TRADDR_OFF NBCT_TRADDR_LEN)
         (nbct_field tbl i NBCT_TRSVCID_OFF NBCT_TRSVCID_LEN)
         (nbct_field tbl i NBCT_NQN_OFF NBCT_NQN_LEN)
         (nbct_field tbl i NBCT_HOSTNQN_OFF NBCT_HOSTNQN_LEN)
         (nbct_field tbl i NBCT_SECRET_OFF NBCT_SECRET_LEN)
         (nbct_field tbl i NBCT_TLS_TRSVCID_OFF NBCT_TLS_TRSVCID_LEN)
         (nbct_field tbl i NBCT_TLS_PSK_OFF NBCT_TLS_PSK_LEN).

(** [hex_to_raw]: the bytes of the pairs of digits, up to the first malformed pair. *)
Fixpoint hex_to_raw (h : cstr) : list Z :=
  match h with
  | a :: b :: h =>
      if (nvmetcp_hex_nibble a <? 0) || (nvmetcp_hex_nibble b <? 0) then []
      else (16 * nvmetcp_hex_nibble a + nvmetcp_hex_nibble b) :: hex_to_raw h
  | _ => []
  end.

(** ** Commands that the script builds and evaluates

    [eval] parses its argument again.  Modelled is the syntax of a simple command made of
    plain characters, single-quoted strings and blanks, which the script intends to
    produce, and whose first word is a path; anything else is outside the model. *)

(** Letters, digits and the characters [+,-./:@_], which mean themselves without quotes. *)
Definition unquoted_char (c : Z) : bool :=
  ((43 <=? c) && (c <=? 58)) || ((64 <=? c) && (c <=? 90)) || (c =? 95) || ((97 <=? c) && (c <=? 122)).

(** The words of a command: [cur] is the word that has begun, if any; in a quoted part every
    character means itself up to the next quote. *)
Fixpoint shell_words (l : cstr) (cur : option cstr) (quoted : bool) : option (list cstr) :=
  match l with
  | [] => if quoted then None else Some (match cur with Some w => [w] | None => [] end)
  | c :: l =>
      if quoted then
        if c =? 39 then shell_words l cur false
        else shell_words l (Some (default [] cur ++ [c])) true
      else if c =? 39 then shell_words l (Some (default [] cur)) true
      else if c =? 32 then
        match cur with
        | Some w => cons w <$> shell_words l None false
        | None => shell_words l None false
        end
      else if unquoted_char c then shell_words l (Some (default [] cur ++ [c])) false
      else None
  end.

Definition eval_words (cmd : cstr) : option (list cstr) :=
  match shell_words cmd None false with
  | Some (path :: args) => if bool_decide (47 ∈ path) then Some (path :: args) else None
  | _ => None
  end.

(** ["${cmd} name 'value'"] *)
Definition opt_word (name value : cstr) : cstr := bstr " " ++ name ++ bstr " '" ++ value ++ bstr "'".

(** The text after the first occurrence of [p]. *)
Fixpoint strip_prefix (p l : cstr) : option cstr :=
  match p, l with
  | [], _ => Some l
  | a :: p, b :: l => if a =? b then strip_prefix p l else None
  | _, [] => None
  end.
Fixpoint text_after (p l : cstr) : option cstr :=
  match strip_prefix p l, l with
  | Some rest, _ => Some rest
  | None, _ :: l => text_after p l
  | None, [] => None
  end.

(** The first field of a line of the key listing. *)
Definition is_blank (c : Z) : bool := (c =? 32) || (c =? 9).
Fixpoint take_field (l : cstr) : cstr :=
  match l with
  | [] => []
  | c :: l => if is_blank c then [] else c :: take_field l
  end.
Fixpoint drop_blanks (l : cstr) : cstr :=
  match l with
  | [] => []
  | c :: l => if is_blank c then drop_blanks l else c :: l
  end.

(** [nvme_keyring_serial]: the line matches the pattern [*keyring*.nvme*]. *)
Fixpoint nvme_keyring_serial (keys : list cstr) : option cstr :=
  match keys with
  | [] => None
  | line :: keys =>
      match text_after (bstr "keyring") line ≫= text_after (bstr ".nvme") with
      | Some _ => Some (bstr "0x" ++ take_field (drop_blanks line))
      | None => nvme_keyring_serial keys
      end
  end.

(** What the script does to the system: a key added to a keyring of the kernel, and a
    command run. *)
Inductive handoff_event : Type :=
  | AddKey (keyring description : cstr) (payload : list Z)
  | Run (argv : list cstr).

(** The system that the script runs on: the path of the nvme command, the host ID, the
    lines of the key listing, whether adding a key and running a command succeed, and the
    code that the shell's [printf] gives for a character. *)
Record host : Type := Host {
  NVME : cstr;
  HOSTID : cstr;
  KEYS_FILE : list cstr;
  add_key : cstr -> cstr -> list Z -> bool;
  run_argv : list cstr -> bool;
  char_code : Z -> Z;
}.

Section Connect.
Context (h : host).

(** [inject_tls_psk] *)
Definition inject_tls_psk (hostnqn subnqn hex : cstr) : M (list handoff_event) bool :=
  match nvme_keyring_serial (KEYS_FILE h) with
  | None => ret false
  | Some kr =>
      let description := bstr "NVMe0R01 " ++ hostnqn ++ bstr " " ++ subnqn in
      do* update (fun log => log ++ [AddKey kr description (hex_to_raw hex)]) in
      ret (add_key h kr description (hex_to_raw hex))
  end.

(** The command line of the loop of [nbct_connect]. *)
Definition connect_cmd (f : nbct_fields) (trsvcid : cstr) (tls : bool) : cstr :=
  NVME h ++ bstr " connect -t tcp" ++ opt_word (bstr "-a") (f_traddr f) ++ opt_word (bstr "-s") trsvcid ++
  opt_word (bstr "-n") (f_nqn f) ++
  (if bool_decide (f_hostnqn f = []) then [] else opt_word (bstr "-q") (f_hostnqn f)) ++
  (if bool_decide (HOSTID h = []) then [] else opt_word (bstr "--hostid") (HOSTID h)) ++
  (if tls then bstr " --tls" else []) ++
  (if negb tls && negb (bool_decide (f_secret f = [])) then opt_word (bstr "--dhchap-secret") (f_secret f) else []).

(** [eval "$cmd"]; a command outside the modelled syntax counts as undefined. *)
Definition run_connect (f : nbct_fields) (trsvcid : cstr) (tls : bool) : M (list handoff_event) bool :=
  let* argv := of_option (eval_words (connect_cmd f trsvcid tls)) in
  do* update (fun log => log ++ [Run argv]) in
  ret (run_argv h argv).

(** One turn of the loop of [nbct_connect]; the value is whether it leaves [rc] as it was. *)
Definition nbct_connect_one (f : nbct_fields) : M (list handoff_event) bool :=
  if bool_decide (f_traddr f = []) || bool_decide (f_nqn f = []) then ret false else
  let trsvcid := if bool_decide (f_trsvcid f = []) then bstr "4420" else f_trsvcid f in
  if bool_decide (f_tls_trsvcid f = []) then run_connect f trsvcid false else
  if bool_decide (f_hostnqn f = []) then ret false else
  let* injected := if bool_decide (f_tls_psk f = []) then ret true
                   else inject_tls_psk (f_hostnqn f) (f_nqn f) (f_tls_psk f) in
  if negb injected then ret false else run_connect f (f_tls_trsvcid f) true.

Fixpoint nbct_connect_loop (tbl : list Z) (i : nat) (todo : nat) (rc : bool)
    : M (list handoff_event) bool :=
  match todo with
  | O => ret rc
  | S todo =>
      let* r := nbct_connect_one (nbct_read tbl i) in
      nbct_connect_loop tbl (S i) todo (rc && r)
  end.

(** The number of entries, from the byte that the shell reads. *)
Definition nbct_count (tbl : list Z) : Z :=
  match strip_newlines (drop_nul (sub NBCT_HDR_OFF 1 tbl)) with
  | [] => 0
  | c :: _ => char_code h c
  end.

(** [nbct_connect] *)
Definition nbct_connect (tbl : list Z) : M (list handoff_event) bool :=
  if nbct_count tbl <=? 0 then ret true
  else nbct_connect_loop tbl 0 (Z.to_nat (nbct_count tbl)) true.
End Connect.
