(* ===== verification/NbctHandoff.v ===== *)
(** * The hand-over of credentials to the booted system

    The table that [nbct_install] builds, read with the fixed offsets of the initramfs
    script, gives back what the sessions hold, and the script connects each session
    again with the credentials the firmware used. *)

From stdpp Require Import base list strings.
From Stdlib Require Import ZArith Lia.
From S2P Require Import Prelude Layout NvmeWire Crypto NvmeState NvmeTx NvmeUri NvmeParams Nbct.

Implicit Types (b : list Z) (s : session).

(** ** Structure assignments in a table *)
Definition keeps_size (n : nat) (g : list Z -> list Z) : Prop :=
  forall b, length b = n -> length (g b) = n.

(** [m] changes the structure at [off] as [g] does and nothing else. *)
Definition runs_as (m : M (list Z) unit) (off : nat) (L : layout) (g : list Z -> list Z) : Prop :=
  forall b, (off + sizeof L <= length b)%nat -> m b = Ret tt (splice off (g (sub off (sizeof L) b)) b).

Lemma runs_ret off L : runs_as (ret tt) off L id.
Proof. intros b Hb. unfold ret, id. by rewrite splice_own. Qed.

Lemma runs_at off L g : runs_as (at_struct off L g) off L g.
Proof. intros b Hb. unfold at_struct. by rewrite bool_decide_true. Qed.

(** A sequence of assignments. *)
Definition apply_all (gs : list (list Z -> list Z)) (b : list Z) : list Z := foldl (fun b g => g b) b gs.

Lemma apply_all_size n gs : Forall (keeps_size n) gs -> keeps_size n (apply_all gs).
Proof. unfold apply_all. induction 1 as [|g gs Hg _ IH]; intros b Hb; [done|]. cbn. by apply IH, Hg. Qed.

Lemma runs_cons m1 m2 off L g gs :
  Forall (keeps_size (sizeof L)) (g :: gs) ->
  runs_as m1 off L g -> runs_as m2 off L (apply_all gs) ->
  runs_as (do* m1 in m2) off L (apply_all (g :: gs)).
Proof.
  intros [Hg Hgs]%Forall_cons H1 H2 b Hb. unfold bind. rewrite H1 by done.
  set (x := g (sub off (sizeof L) b)).
  assert (length x = sizeof L) as Hl by by apply Hg, sub_length.
  rewrite H2 by (rewrite splice_length; lia).
  assert (sub off (sizeof L) (splice off x b) = x) as ->
    by (rewrite <-Hl; apply sub_splice_same; lia).
  rewrite splice_over; [done|lia|]. by rewrite Hl, (apply_all_size _ _ Hgs).
Qed.

(** [snprintf] of a string into a member, or nothing. *)
Definition set_str (f : string) (o : option cstr) (b : list Z) : list Z :=
  match o with
  | Some str => set_bytes nbct_entry f (snprintf (fieldsize nbct_entry f) str ++ [0]) b
  | None => b
  end.

Lemma set_str_size f o : keeps_size (sizeof nbct_entry) (set_str f o).
Proof. intros b Hb. unfold set_str. destruct o; [|done]. by rewrite set_bytes_length, Hb by lia. Qed.

Lemma set_field_size f v : keeps_size (sizeof nbct_entry) (set_field nbct_entry f v).
Proof. intros b Hb. by rewrite set_field_length, Hb by lia. Qed.

Lemma runs_credential off f o : runs_as (put_credential off f o) off nbct_entry (set_str f o).
Proof. destruct o; [apply runs_at|apply runs_ret]. Qed.

Lemma runs_name off f str : runs_as (put_name off f (Some str)) off nbct_entry (set_str f (Some str)).
Proof. apply runs_at. Qed.

(** The names of a session that has a descriptor. *)
Definition named s : Prop := is_Some (target_host s) /\ is_Some (subsystem_nqn s) /\ is_Some (host_nqn s).

(** The assignments to a session's entry. *)
Definition entry_of (i : nat) s : list (list Z -> list Z) :=
  [set_field nbct_entry "index" (Z.of_nat i);
   set_str "traddr" (target_host s);
   set_str "trsvcid" (Some (print_port (target_port s)));
   set_str "nqn" (subsystem_nqn s);
   set_str "hostnqn" (host_nqn s);
   set_str "secret" (secret s);
   set_str "tls_trsvcid" (tls_trsvcid s);
   set_str "tls_psk" (tls_psk s)].

Lemma entry_of_size i s : Forall (keeps_size (sizeof nbct_entry)) (entry_of i s).
Proof. repeat constructor; apply set_field_size || apply set_str_size. Qed.

Lemma runs_entry off i s : named s -> runs_as (nbct_fill_entry off i s) off nbct_entry (apply_all (entry_of i s)).
Proof.
  intros ([h Hh] & [c Hc] & [n Hn]). pose proof (entry_of_size i s) as Hs.
  unfold nbct_fill_entry, entry_of in *. rewrite Hh, Hc, Hn in *.
  repeat (apply runs_cons; [exact Hs|apply runs_at || apply runs_name || apply runs_credential|
    apply Forall_cons in Hs as [_ Hs]]).
  apply runs_credential.
Qed.

(** [build_assert ( sizeof ( struct nbct_entry ) <= NBCT_ENTRY_LEN )] *)
Lemma entry_stride : (sizeof nbct_entry <= NBCT_ENTRY_LEN)%nat.
Proof. apply Nat.leb_le. reflexivity. Qed.

(** The entries are filled in one after the other, each from what was in its place. *)
Lemma fill_spec body descs : Forall named descs -> forall i b,
  (body + (i + length descs) * NBCT_ENTRY_LEN <= length b)%nat ->
  exists b', nbct_fill body i descs b = Ret tt b' /\ length b' = length b /\
    (forall o n, (o + n <= body + i * NBCT_ENTRY_LEN)%nat -> sub o n b' = sub o n b) /\
    (forall j s, descs !! j = Some s ->
       sub (body + (i + j) * NBCT_ENTRY_LEN) (sizeof nbct_entry) b' =
       apply_all (entry_of (i + j) s) (sub (body + (i + j) * NBCT_ENTRY_LEN) (sizeof nbct_entry) b)).
Proof.
  pose proof entry_stride as Hst. induction 1 as [|s descs Hs _ IH]; intros i b Hb.
  { exists b. by split_and!. }
  cbn [nbct_fill length] in *. unfold bind.
  set (o0 := (body + i * NBCT_ENTRY_LEN)%nat) in *.
  rewrite (runs_entry o0 i s Hs b) by lia.
  set (x := apply_all (entry_of i s) (sub o0 (sizeof nbct_entry) b)).
  assert (length x = sizeof nbct_entry) as Hx by (apply apply_all_size; [apply entry_of_size|apply sub_length; lia]).
  destruct (IH (S i) (splice o0 x b)) as (b' & Hr & Hl & Hbefore & Hat); [rewrite splice_length; lia|].
  rewrite splice_length in Hl by lia. exists b'. split_and!; [done|done| |].
  - intros o n Ho. rewrite Hbefore by lia. apply sub_splice_before; lia.
  - intros [|j] t Ht; cbn in Ht.
    + injection Ht as <-. rewrite Nat.add_0_r, Hbefore by lia. fold o0.
      pose proof (sub_splice_same o0 x b ltac:(lia)) as Hsame. rewrite Hx in Hsame. exact Hsame.
    + rewrite <-Nat.add_succ_comm, (Hat j t Ht). f_equal. apply sub_splice_after; [|lia]. lia.
Qed.

(** ** Reading a member *)
Lemma drop_nul_app l1 l2 : drop_nul (l1 ++ l2) = drop_nul l1 ++ drop_nul l2.
Proof. apply filter_app. Qed.

Lemma drop_nul_zeros n : drop_nul (zeros n) = [].
Proof. unfold drop_nul, zeros. induction n as [|n IH]; [done|]. by cbn. Qed.

(** A C string has no NUL inside. *)
Definition no_nul (l : cstr) : Prop := Forall (fun c => c <> 0) l.

Lemma drop_nul_id l : no_nul l -> drop_nul l = l.
Proof.
  unfold drop_nul. induction 1 as [|c l Hc _ IH]; [done|]. by rewrite filter_cons_True, IH.
Qed.

Definition text (f : string) (b : list Z) : cstr := drop_nul (get_bytes nbct_entry f b).

Lemma text_set_ne f g o b :
  f <> g -> has_field nbct_entry f -> has_field nbct_entry g -> length b = sizeof nbct_entry ->
  text g (set_str f o b) = text g b.
Proof.
  intros Hne Hf Hg Hb. unfold text, set_str. destruct o; [|done].
  by rewrite get_set_bytes_ne by (done || lia).
Qed.

Lemma text_set_eq f o b :
  length b = sizeof nbct_entry -> (0 < fieldsize nbct_entry f)%nat ->
  get_bytes nbct_entry f b = zeros (fieldsize nbct_entry f) -> no_nul (default [] o) ->
  text f (set_str f o b) = take (fieldsize nbct_entry f - 1) (default [] o).
Proof.
  intros Hb Hf Hz Hn. unfold text, set_str. destruct o as [str|]; cbn [default] in *.
  - unfold snprintf. rewrite get_set_bytes_short by (rewrite ?length_app, ?length_take; cbn; lia).
    rewrite Hz. unfold zeros. rewrite drop_replicate, !drop_nul_app.
    change (drop_nul [0]) with (@nil Z). rewrite app_nil_r.
    fold (zeros (fieldsize nbct_entry f - length (take (fieldsize nbct_entry f - 1) str ++ [0]))).
    rewrite drop_nul_zeros, app_nil_r. apply drop_nul_id. by apply Forall_take.
  - by rewrite Hz, drop_nul_zeros, take_nil.
Qed.

(** [g] does not change the member [f]. *)
Definition leaves (f : string) (g : list Z -> list Z) : Prop :=
  forall b, length b = sizeof nbct_entry -> get_bytes nbct_entry f (g b) = get_bytes nbct_entry f b.

Lemma leaves_set_str f g o :
  g <> f -> has_field nbct_entry f -> has_field nbct_entry g -> leaves f (set_str g o).
Proof. intros Hne Hf Hg b Hb. unfold set_str. destruct o; [|done]. by rewrite get_set_bytes_ne by (done || lia). Qed.

Lemma leaves_set_field f g v :
  g <> f -> has_field nbct_entry f -> has_field nbct_entry g -> leaves f (set_field nbct_entry g v).
Proof. intros Hne Hf Hg b Hb. unfold set_field. by rewrite get_set_bytes_ne by (done || lia). Qed.

Lemma apply_all_leaves f gs : Forall (keeps_size (sizeof nbct_entry)) gs -> Forall (leaves f) gs ->
  leaves f (apply_all gs).
Proof.
  unfold apply_all. induction 1 as [|g gs Hg _ IH]; intros Hl b Hb; [done|].
  apply Forall_cons in Hl as [Hlg Hl]. cbn. rewrite IH by auto. by apply Hlg.
Qed.

(** A member that one assignment of a sequence writes, in an entry of zeros. *)
Lemma text_member f o gs1 gs2 :
  Forall (keeps_size (sizeof nbct_entry)) (gs1 ++ set_str f o :: gs2) ->
  Forall (leaves f) gs1 -> Forall (leaves f) gs2 ->
  (0 < fieldsize nbct_entry f)%nat -> no_nul (default [] o) ->
  text f (apply_all (gs1 ++ set_str f o :: gs2) (zeros (sizeof nbct_entry))) =
  take (fieldsize nbct_entry f - 1) (default [] o).
Proof.
  intros [Hs1 [Hs Hs2]%Forall_cons]%Forall_app H1 H2 Hf Hn.
  assert (length (zeros (sizeof nbct_entry)) = sizeof nbct_entry) as Hz by apply length_replicate.
  assert (length (apply_all gs1 (zeros (sizeof nbct_entry))) = sizeof nbct_entry) as Hl
    by by apply apply_all_size.
  unfold apply_all. rewrite foldl_app. cbn [foldl].
  fold (apply_all gs1 (zeros (sizeof nbct_entry))).
  fold (apply_all gs2 (set_str f o (apply_all gs1 (zeros (sizeof nbct_entry))))).
  unfold text. rewrite (apply_all_leaves f gs2) by (done || by apply Hs).
  apply text_set_eq; [done..| |done]. rewrite (apply_all_leaves f gs1) by done.
  pose proof (field_bound nbct_entry f). unfold get_bytes, sub, zeros.
  rewrite drop_replicate, take_replicate. f_equal. lia.
Qed.

(** What the script reads of a string kept in a member of [n] bytes. *)
Definition clip_str (n : nat) (o : option cstr) : cstr := strip_newlines (take (n - 1) (default [] o)).

Definition fields_of s : nbct_fields :=
  Fields (clip_str NBCT_TRADDR_LEN (target_host s)) (clip_str NBCT_TRSVCID_LEN (Some (print_port (target_port s))))
    (clip_str NBCT_NQN_LEN (subsystem_nqn s)) (clip_str NBCT_HOSTNQN_LEN (host_nqn s))
    (clip_str NBCT_SECRET_LEN (secret s)) (clip_str NBCT_TLS_TRSVCID_LEN (tls_trsvcid s))
    (clip_str NBCT_TLS_PSK_LEN (tls_psk s)).

(** The strings of a session are C strings. *)
Definition c_strings s : Prop :=
  Forall (fun o => no_nul (default [] o))
    [target_host s; subsystem_nqn s; host_nqn s; secret s; tls_trsvcid s; tls_psk s].

Lemma digits_range fuel n : 0 <= n -> Forall is_digit (digits fuel n).
Proof.
  revert n. induction fuel as [|fuel IH]; intros n Hn; cbn [digits]; [constructor|].
  apply Forall_app. split.
  - destruct (n <? 10); [constructor|]. apply IH, Z.div_pos; lia.
  - constructor; [|constructor]. unfold is_digit. pose proof (Z.mod_pos_bound n 10). lia.
Qed.

Lemma digits_no_nul l : Forall is_digit l -> no_nul l.
Proof. intros H. eapply Forall_impl; [exact H|]. unfold is_digit. cbn. lia. Qed.

Lemma field_is_member tbl i f off n :
  off = offsetof nbct_entry f -> n = fieldsize nbct_entry f ->
  nbct_field tbl i off n =
  strip_newlines (text f (sub (NBCT_BODY_OFF + i * NBCT_ENTRY_LEN) (sizeof nbct_entry) tbl)).
Proof.
  intros -> ->. unfold nbct_field, text, get_bytes. by rewrite sub_sub by apply field_bound.
Qed.

Ltac solve_leaves :=
  repeat constructor; (apply leaves_set_str || apply leaves_set_field);
  (discriminate || solve_has_field).

Ltac solve_member := first [assumption | reflexivity | solve [solve_leaves] | vm_compute; lia].

Lemma read_entry tbl i s :
  c_strings s -> 0 <= target_port s ->
  sub (NBCT_BODY_OFF + i * NBCT_ENTRY_LEN) (sizeof nbct_entry) tbl =
    apply_all (entry_of i s) (zeros (sizeof nbct_entry)) ->
  nbct_read tbl i = fields_of s.
Proof.
  intros Hc Hp He. pose proof (entry_of_size i s) as Hs.
  pose proof (digits_no_nul _ (digits_range 5 _ Hp)) as Hport.
  unfold c_strings in Hc. rewrite !Forall_cons in Hc. destruct Hc as (H1 & H2 & H3 & H4 & H5 & H6 & _).
  unfold nbct_read, fields_of, clip_str.
  assert (forall f o gs1 gs2, entry_of i s = gs1 ++ set_str f o :: gs2 ->
    Forall (leaves f) gs1 -> Forall (leaves f) gs2 -> (0 < fieldsize nbct_entry f)%nat ->
    no_nul (default [] o) -> forall off n, off = offsetof nbct_entry f -> n = fieldsize nbct_entry f ->
    nbct_field tbl i off n = strip_newlines (take (n - 1) (default [] o))) as Hm.
  { intros f o gs1 gs2 Heq Hl1 Hl2 Hpos Hn off n Ho ->. rewrite (field_is_member tbl i f) by done.
    rewrite He, Heq. rewrite Heq in Hs. by rewrite text_member. }
  unfold entry_of in Hm.
  f_equal.
  - apply (Hm "traddr" _ [_] _ eq_refl); solve_member.
  - apply (Hm "trsvcid" _ [_; _] _ eq_refl); solve_member.
  - apply (Hm "nqn" _ [_; _; _] _ eq_refl); solve_member.
  - apply (Hm "hostnqn" _ [_; _; _; _] _ eq_refl); solve_member.
  - apply (Hm "secret" _ [_; _; _; _; _] _ eq_refl); solve_member.
  - apply (Hm "tls_trsvcid" _ [_; _; _; _; _; _] _ eq_refl); solve_member.
  - apply (Hm "tls_psk" _ [_; _; _; _; _; _; _] _ eq_refl); solve_member.
Qed.

(** ** The table *)
Lemma sub_zeros o n m : (o + n <= m)%nat -> sub o n (zeros m) = zeros n.
Proof. intros H. unfold sub, zeros. rewrite drop_replicate, take_replicate. f_equal. lia. Qed.

Section Table.
Context `{AcpiLaws}.

Lemma acpi_member f o n : field acpi_header f = Some (o, n) ->
  has_field acpi_header f /\ offsetof acpi_header f = o /\ fieldsize acpi_header f = n.
Proof. intros Hf. unfold has_field, offsetof, fieldsize. rewrite Hf. split_and!; [by eexists|done|done]. Qed.

(** The header that the kernel finds: signature and length. *)
Definition header_ok (len : nat) (b : list Z) : Prop :=
  sub 0 4 b = bstr "NBCT" /\ sub 4 4 b = le_bytes 4 (Z.of_nat len) /\
  sub 10 4 b = bstr "NBCT" /\ sub 16 4 b = bstr "iPXE".

Lemma fill_acpi_header_size len b :
  length b = sizeof acpi_header -> length (fill_acpi_header len b) = sizeof acpi_header.
Proof.
  intros Hb. unfold fill_acpi_header.
  repeat first [rewrite set_bytes_length | rewrite set_field_length]; lia.
Qed.

Lemma fill_acpi_header_ok len b :
  length b = sizeof acpi_header -> header_ok len (fill_acpi_header len b).
Proof.
  intros Hb. pose proof acpi_header_size as Hs.
  destruct (acpi_member _ _ _ acpi_signature_field) as (F1 & O1 & S1).
  destruct (acpi_member _ _ _ acpi_length_field) as (F2 & O2 & S2).
  destruct (acpi_member _ _ _ acpi_revision_field) as (F3 & _).
  destruct (acpi_member _ _ _ acpi_oem_id_field) as (F4 & O4 & S4).
  destruct (acpi_member _ _ _ acpi_oem_table_id_field) as (F5 & O5 & S5).
  assert (sub 0 4 = get_bytes acpi_header "signature") as E1 by (unfold get_bytes; by rewrite O1, S1).
  assert (sub 4 4 = get_bytes acpi_header "length") as E2 by (unfold get_bytes; by rewrite O2, S2).
  assert (forall b, sub 10 4 b = take 4 (get_bytes acpi_header "oem_id" b)) as E4
    by (intros x; unfold get_bytes, sub; by rewrite O4, S4, take_take).
  assert (forall b, sub 16 4 b = take 4 (get_bytes acpi_header "oem_table_id" b)) as E5
    by (intros x; unfold get_bytes, sub; by rewrite O5, S5, take_take).
  assert (bytes_ok [78; 66; 67; 84]) as Hsig by (repeat constructor; unfold is_byte; lia).
  unfold header_ok, fill_acpi_header. rewrite E1, E2, E4, E5.
  assert (forall f v x, (sizeof acpi_header <= length x)%nat ->
    (sizeof acpi_header <= length (set_bytes acpi_header f v x))%nat) as Hset
    by (intros; by rewrite set_bytes_length).
  assert (forall f v x, (sizeof acpi_header <= length x)%nat ->
    (sizeof acpi_header <= length (set_field acpi_header f v x))%nat) as Hset' by (intros; by apply Hset).
  assert (sizeof acpi_header <= length b)%nat as Hb' by lia.
  split_and!;
    repeat first [rewrite get_set_bytes_ne by (discriminate || eauto) |
                  rewrite get_bytes_set_field_ne by (discriminate || eauto)];
    first [rewrite get_bytes_set_field_eq by eauto | rewrite get_set_bytes_short by (eauto || (rewrite ?S4, ?S5; cbn; lia))].
  - by rewrite S1, acpi_signature_bytes.
  - by rewrite S2.
  - done.
  - done.
Qed.

(** A table built from sessions [descs]. *)
Record table_of (descs : list session) (tbl : list Z) : Prop := {
  tb_length : length tbl = (NBCT_BODY_OFF + length descs * NBCT_ENTRY_LEN)%nat;
  tb_header : header_ok (length tbl) tbl;
  tb_count : sub NBCT_HDR_OFF 1 tbl = [u8 (Z.of_nat (length descs))];
  tb_entry i s : descs !! i = Some s -> c_strings s -> 0 <= target_port s -> nbct_read tbl i = fields_of s;
}.

Lemma header_ok_sub len n b : (20 <= n)%nat -> header_ok len (sub 0 n b) -> header_ok len b.
Proof. intros Hn. unfold header_ok. by rewrite !sub_sub by lia. Qed.

Lemma fill_table_spec descs : Forall named descs ->
  exists tbl, table_of descs tbl /\
    nbct_fill_table (sizeof acpi_header + sizeof nbct_header + length descs * NBCT_ENTRY_LEN) descs
      (zeros (sizeof acpi_header + sizeof nbct_header + length descs * NBCT_ENTRY_LEN)) = Ret tt tbl.
Proof.
  intros Hn. assert (sizeof nbct_header = 4%nat) as Hh by done.
  pose proof acpi_header_size as Hs. unfold nbct_fill_table, bind.
  set (len := (sizeof acpi_header + sizeof nbct_header + length descs * NBCT_ENTRY_LEN)%nat).
  assert (length (zeros len) = len) as Hz by apply length_replicate.
  set (h := fill_acpi_header len (sub 0 (sizeof acpi_header) (zeros len))).
  assert (length h = sizeof acpi_header) as Hhl by (apply fill_acpi_header_size, sub_length; lia).
  rewrite (runs_at 0 acpi_header _ (zeros len)) by lia. fold h.
  set (t1 := splice 0 h (zeros len)).
  assert (length t1 = len) as Ht1 by (unfold t1; rewrite splice_length; lia).
  rewrite (runs_at (sizeof acpi_header) nbct_header _ t1) by lia.
  set (g := set_field nbct_header "count" (Z.of_nat (length descs)) (sub (sizeof acpi_header) (sizeof nbct_header) t1)).
  assert (length g = 4%nat) as Hg by (unfold g; rewrite set_field_length; rewrite sub_length; lia).
  set (t2 := splice (sizeof acpi_header) g t1).
  assert (length t2 = len) as Ht2 by (unfold t2; rewrite splice_length; lia).
  destruct (fill_spec (sizeof acpi_header + sizeof nbct_header) descs Hn 0 t2)
    as (tbl & Hr & Hl & Hbefore & Hat); [rewrite Nat.add_0_l; lia|].
  exists tbl. split; [|done]. constructor.
  - rewrite Hl, Ht2. unfold len. by rewrite Hs, Hh.
  - rewrite Hl, Ht2. apply (header_ok_sub _ (sizeof acpi_header)); [lia|].
    rewrite Hbefore by lia. unfold t2. rewrite sub_splice_before by lia.
    unfold t1. rewrite <-Hhl, sub_splice_same by lia. apply fill_acpi_header_ok, sub_length. lia.
  - change NBCT_HDR_OFF with (36 + 0)%nat. rewrite <-(sub_sub 36 4 0 1 tbl) by lia.
    rewrite Hbefore by lia. unfold t2. rewrite Hs, <-Hg, sub_splice_same by lia.
    change (sub 0 1 g) with (get_bytes nbct_header "count" g). unfold g.
    by rewrite get_bytes_set_field_eq by (rewrite sub_length; lia).
  - intros i s Hi Hc Hp. apply read_entry; [done|done|].
    specialize (Hat i s Hi). rewrite Hs, Hh, Nat.add_0_l in Hat. change (36 + 4)%nat with NBCT_BODY_OFF in Hat.
    rewrite Hat. f_equal. apply lookup_lt_Some in Hi.
    pose proof entry_stride as Hst.
    assert (NBCT_BODY_OFF + i * NBCT_ENTRY_LEN + sizeof nbct_entry <= len)%nat as Hfit.
    { unfold len. rewrite Hs, Hh. change NBCT_BODY_OFF with (36 + 4)%nat.
      assert (S i * NBCT_ENTRY_LEN <= length descs * NBCT_ENTRY_LEN)%nat by (apply Nat.mul_le_mono_r; lia). lia. }
    assert (NBCT_BODY_OFF = 40%nat) as Hbody by done.
    unfold t2. rewrite sub_splice_after by lia. unfold t1. rewrite sub_splice_after by lia.
    by apply sub_zeros.
Qed.
End Table.

(** ** Strings that survive

    Without NUL, newline and single quote, and shorter than the member. *)
Definition plain_char (c : Z) : Prop := c <> 0 /\ c <> 10 /\ c <> 39.
Definition plain (n : nat) (l : cstr) : Prop := Forall plain_char l /\ (length l < n)%nat.

Lemma strip_newlines_id l : Forall (fun c => c <> 10) l -> strip_newlines l = l.
Proof.
  induction 1 as [|c l Hc _ IH]; [done|]. cbn. rewrite IH. destruct l; [|done].
  destruct (c =? 10) eqn:E; [lia|done].
Qed.

Lemma clip_str_plain n l : plain n l -> clip_str n (Some l) = l.
Proof. intros [Hl Hn]. unfold clip_str. cbn [default from_option id]. rewrite take_ge by lia.
  apply strip_newlines_id. eapply Forall_impl; [exact Hl|]. by intros c (_ & ? & _). Qed.

Lemma plain_no_nul n l : plain n l -> no_nul l.
Proof. intros [Hl _]. eapply Forall_impl; [exact Hl|]. by intros c []. Qed.

Lemma decimal_snoc l d acc : decimal (l ++ [d]) acc = decimal l acc * 10 + (d - 48).
Proof. unfold decimal. by rewrite foldl_app. Qed.

Lemma decimal_digits fuel n : 0 <= n < 10 ^ Z.of_nat fuel -> decimal (digits fuel n) 0 = n.
Proof.
  revert n. induction fuel as [|fuel IH]; intros n Hn; [cbn in *; lia|].
  rewrite Nat2Z.inj_succ, Z.pow_succ_r in Hn by lia. cbn [digits]. rewrite decimal_snoc.
  pose proof (Z.div_mod n 10 ltac:(lia)). pose proof (Z.mod_pos_bound n 10 ltac:(lia)).
  destruct (n <? 10) eqn:E.
  - cbn. rewrite Z.mod_small by lia. lia.
  - rewrite IH; [lia|]. split; [apply Z.div_pos; lia|]. apply Z.div_lt_upper_bound; lia.
Qed.

Lemma digits_length fuel n : (length (digits fuel n) <= fuel)%nat.
Proof.
  revert n. induction fuel as [|fuel IH]; intros n; cbn [digits]; [done|]. rewrite length_app. cbn.
  destruct (n <? 10); cbn; [lia|]. specialize (IH (n / 10)). lia.
Qed.

Lemma print_port_plain n : 0 <= n -> plain NBCT_TRSVCID_LEN (print_port n).
Proof.
  intros Hn. split.
  - eapply Forall_impl; [by apply digits_range|]. unfold is_digit, plain_char. cbn. lia.
  - pose proof (digits_length 5 n). change NBCT_TRSVCID_LEN with 16%nat. unfold print_port. lia.
Qed.

Lemma print_port_nonempty n : print_port n <> [].
Proof. unfold print_port. cbn [digits]. intros Hn. by apply app_nil in Hn as [_ ?]. Qed.

(** ** The key *)
Lemma hex_to_raw_decode k : forall hex psk, hex_decode hex = Some psk -> (k <= length psk)%nat ->
  (2 * length psk <= length hex)%nat ->
  hex_to_raw (take (2 * k) hex) = take k psk /\ hex_to_raw (take (2 * k + 1) hex) = take k psk.
Proof.
  induction k as [|k IH]; intros hex psk Hd Hk Hl; [split; [done|by destruct hex]|].
  destruct hex as [|a [|b t]]; cbn [hex_decode] in Hd; [by destruct psk; cbn in *; lia|cbn in Hl; lia|].
  pose proof (nibble_range a) as Ha. pose proof (nibble_range b) as Hb.
  destruct ((nvmetcp_hex_nibble a <? 0) || (nvmetcp_hex_nibble b <? 0)) eqn:Hn; [done|].
  destruct (hex_decode t) as [q|] eqn:Ht; [|done]. injection Hd as <-.
  cbn in Hk, Hl. destruct (IH t q Ht ltac:(lia) ltac:(lia)) as [He Ho].
  replace (2 * S k)%nat with (S (S (2 * k))) by lia. replace (S (S (2 * k)) + 1)%nat with (S (S (2 * k + 1))) by lia.
  cbn [take hex_to_raw]. rewrite Hn, He, Ho, nibbles_byte by lia. by rewrite (Z.mul_comm 16).
Qed.

Lemma tls_params_inv s psk identity s' : nvmetcp_tls_params s = Ret (inr (psk, identity)) s' ->
  exists hex h c, tls_psk s = Some hex /\ host_nqn s = Some h /\ subsystem_nqn s = Some c /\
    hex_decode hex = Some psk /\ length hex = (2 * length psk)%nat /\ hex <> [] /\
    (length psk <= NVMETCP_MAX_PSK)%nat /\ identity = bstr "NVMe0R01 " ++ h ++ bstr " " ++ c.
Proof.
  unfold nvmetcp_tls_params, bind, gets. destruct (tls_psk s) as [hex|]; [|done]. cbn [of_option]. unfold ret.
  destruct (_ || _ || _) eqn:Hg; [done|]. destruct (hex_decode hex) as [q|] eqn:Hd; [|done].
  destruct (host_nqn s) as [h|]; [|done]. cbn [of_option]. unfold ret.
  destruct (subsystem_nqn s) as [c|]; [|done]. cbn [of_option]. unfold ret.
  rewrite !orb_false_iff, negb_false_iff, bool_decide_eq_true, !bool_decide_eq_false in Hg.
  destruct Hg as [[Hz Hev] Hmx].
  case_bool_decide as Hi; [done|]. intros [= <- <- _]. exists hex, h, c.
  pose proof (proj1 (hex_decode_spec hex q Hev) Hd) as [_ Hm]. apply (f_equal length) in Hm.
  rewrite length_map, hex_encode_length in Hm.
  rewrite Hm, (Nat.mul_comm 2), Nat.div_mul in Hmx by lia.
  split_and!; try done; [by intros ->|lia].
Qed.

(** ** The words of a command *)
Definition word (l : cstr) : Prop := Forall (fun c => unquoted_char c = true) l.
Definition no_quote (l : cstr) : Prop := Forall (fun c => c <> 39) l.

Lemma plain_no_quote n l : plain n l -> no_quote l.
Proof. intros [Hl _]. eapply Forall_impl; [exact Hl|]. by intros c (_ & _ & ?). Qed.

Lemma option_cons {A} (w : A) (o : option (list A)) r : o = Some r -> cons w <$> o = Some (w :: r).
Proof. by intros ->. Qed.

(** Plain characters extend the current word. *)
Lemma words_unquoted w l cur : word w -> w <> [] ->
  shell_words (w ++ l) cur false = shell_words l (Some (default [] cur ++ w)) false.
Proof.
  intros Hw. revert cur. induction Hw as [|c w Hc _ IH]; intros cur Hne; [done|]. cbn [app shell_words].
  assert ((c =? 39) = false /\ (c =? 32) = false) as [-> ->] by (unfold unquoted_char in Hc; lia). rewrite Hc.
  destruct w as [|c' w]; [done|]. rewrite IH by done. cbn. by rewrite <-app_assoc.
Qed.

(** So does the inside of quotes, whatever it is. *)
Lemma words_quoted v l cur : no_quote v ->
  shell_words (v ++ 39 :: l) (Some cur) true = shell_words l (Some (cur ++ v)) false.
Proof.
  intros Hv. revert cur. induction Hv as [|c v Hc _ IH]; intros cur; cbn [app shell_words]; [by rewrite app_nil_r|].
  assert ((c =? 39) = false) as -> by lia. cbn [default from_option id]. by rewrite IH, <-app_assoc.
Qed.

(** A further word. *)
Lemma words_next name l w : word name -> name <> [] ->
  shell_words (bstr " " ++ name ++ l) (Some w) false = cons w <$> shell_words l (Some name) false.
Proof.
  intros Hn Hne. change (bstr " ") with [32]. cbn [app shell_words].
  change (32 =? 39) with false. change (32 =? 32) with true. cbv iota. by rewrite words_unquoted.
Qed.

Lemma words_opt name v l w : word name -> name <> [] -> no_quote v ->
  shell_words (opt_word name v ++ l) (Some w) false =
  (fun r => w :: name :: r) <$> shell_words l (Some v) false.
Proof.
  intros Hn Hne Hv. unfold opt_word. rewrite <-!app_assoc, words_next by done. change (bstr " '") with [32; 39].
  change (bstr "'") with [39]. cbn [app shell_words].
  change (32 =? 39) with false. change (32 =? 32) with true. change (39 =? 39) with true. cbv iota.
  rewrite words_quoted by done. cbn [app default]. by destruct (shell_words l (Some v) false).
Qed.

(** ** The hand-over *)
Section Handoff.
Context (sys : host).

(** The command that connects to a port of the session's target: the same subsystem under
    the same host name, through TLS or with a secret. *)
Definition connect_argv s (port : cstr) (tls : bool) (sec : cstr) : list cstr :=
  [NVME sys; bstr "connect"; bstr "-t"; bstr "tcp"; bstr "-a"; default [] (target_host s); bstr "-s"; port;
   bstr "-n"; default [] (subsystem_nqn s); bstr "-q"; default [] (host_nqn s); bstr "--hostid"; HOSTID sys] ++
  (if tls then [bstr "--tls"] else []) ++
  (if bool_decide (sec = []) then [] else [bstr "--dhchap-secret"; sec]).

(** What the booted system is to do for a session, and whether it succeeds: run the nvme
    command in plain, with the session's secret; or, when the session has a TLS port,
    with TLS on that port, after adding to the keyring ".nvme" the key that the firmware
    would use, under the identity that the firmware would use. *)
Definition handoff s : list handoff_event * bool :=
  let to port tls sec := Run (connect_argv s port tls sec) in
  let ok port tls sec := run_argv sys (connect_argv s port tls sec) in
  match tls_trsvcid s, tls_psk s with
  | None, _ =>
      let port := print_port (target_port s) in
      let sec := default [] (secret s) in
      ([to port false sec], ok port false sec)
  | Some port, None => ([to port true []], ok port true [])
  | Some port, Some _ =>
      match nvme_keyring_serial (KEYS_FILE sys), nvmetcp_tls_params s with
      | Some kr, Ret (inr (psk, idn)) _ =>
          if add_key sys kr idn psk then ([AddKey kr idn psk; to port true []], ok port true [])
          else ([AddKey kr idn psk], false)
      | _, _ => ([], false)
      end
  end.

(** The path of the nvme command needs no quotes, and the host ID can stand in them. *)
Record host_ok : Prop := {
  ho_nvme : word (NVME sys) /\ 47 ∈ NVME sys;
  ho_hostid : no_quote (HOSTID sys) /\ HOSTID sys <> [];
}.

(** A session whose strings fit the table and whose key the firmware accepts. *)
Record deliverable s : Prop := {
  dl_host : exists h, target_host s = Some h /\ plain NBCT_TRADDR_LEN h /\ h <> [];
  dl_nqn : exists c, subsystem_nqn s = Some c /\ plain NBCT_NQN_LEN c /\ c <> [];
  dl_hostnqn : exists h, host_nqn s = Some h /\ plain NBCT_HOSTNQN_LEN h /\ h <> [];
  dl_secret k : secret s = Some k -> plain NBCT_SECRET_LEN k;
  dl_trsvcid p : tls_trsvcid s = Some p -> plain NBCT_TLS_TRSVCID_LEN p /\ p <> [];
  dl_psk k : tls_psk s = Some k -> plain NBCT_TLS_PSK_LEN k /\
    exists psk idn, nvmetcp_tls_params s = Ret (inr (psk, idn)) s;
  dl_port : 0 <= target_port s < 65536;
}.

Lemma deliverable_named s : deliverable s -> named s.
Proof.
  intros []. destruct dl_host0 as (? & ? & _), dl_nqn0 as (? & ? & _), dl_hostnqn0 as (? & ? & _).
  split_and!; by eexists.
Qed.

Lemma option_no_nul n (o : option cstr) : (forall k, o = Some k -> plain n k) -> no_nul (default [] o).
Proof. intros Ho. destruct o; [|constructor]. by eapply plain_no_nul, Ho. Qed.

Lemma option_clip n (o : option cstr) : (forall k, o = Some k -> plain n k) -> clip_str n o = default [] o.
Proof. intros Ho. destruct o; [by apply clip_str_plain, Ho|]. unfold clip_str. cbn. by rewrite take_nil. Qed.

Lemma deliverable_plain s : deliverable s ->
  (forall k, target_host s = Some k -> plain NBCT_TRADDR_LEN k) /\
  (forall k, subsystem_nqn s = Some k -> plain NBCT_NQN_LEN k) /\
  (forall k, host_nqn s = Some k -> plain NBCT_HOSTNQN_LEN k) /\
  (forall k, secret s = Some k -> plain NBCT_SECRET_LEN k) /\
  (forall k, tls_trsvcid s = Some k -> plain NBCT_TLS_TRSVCID_LEN k) /\
  (forall k, tls_psk s = Some k -> plain NBCT_TLS_PSK_LEN k).
Proof.
  intros []. destruct dl_host0 as (h & Hh & Hp & _), dl_nqn0 as (c & Hc & Hq & _), dl_hostnqn0 as (n & Hn & Hr & _).
  split_and!; intros k Hk; [congruence..|by apply dl_secret0|by apply dl_trsvcid0|by apply dl_psk0].
Qed.

Lemma deliverable_strings s : deliverable s -> c_strings s.
Proof.
  intros (H1 & H2 & H3 & H4 & H5 & H6)%deliverable_plain.
  repeat constructor; eapply option_no_nul; eassumption.
Qed.

Lemma deliverable_fields s : deliverable s ->
  fields_of s = Fields (default [] (target_host s)) (print_port (target_port s)) (default [] (subsystem_nqn s))
    (default [] (host_nqn s)) (default [] (secret s)) (default [] (tls_trsvcid s)) (default [] (tls_psk s)).
Proof.
  intros Hd. pose proof (dl_port s Hd) as Hp. apply deliverable_plain in Hd as (H1 & H2 & H3 & H4 & H5 & H6).
  unfold fields_of. f_equal; try (by apply option_clip). apply clip_str_plain, print_port_plain. lia.
Qed.

(** The command line parses into the words of the command. *)
Lemma connect_words f (port : cstr) (tls : bool) (sec : cstr) : host_ok -> no_quote (f_traddr f) -> no_quote port -> no_quote (f_nqn f) ->
  no_quote (f_hostnqn f) -> f_hostnqn f <> [] -> no_quote (f_secret f) ->
  sec = (if tls then [] else f_secret f) ->
  eval_words (connect_cmd sys f port tls) = Some
    ([NVME sys; bstr "connect"; bstr "-t"; bstr "tcp"; bstr "-a"; f_traddr f; bstr "-s"; port;
      bstr "-n"; f_nqn f; bstr "-q"; f_hostnqn f; bstr "--hostid"; HOSTID sys] ++
     (if tls then [bstr "--tls"] else []) ++ (if bool_decide (sec = []) then [] else [bstr "--dhchap-secret"; sec])).
Proof.
  intros [[Hw Hs] [Hi Hi0]] Ha Hp Hq Hh Hh0 Hsec ->. unfold eval_words, connect_cmd.
  rewrite (bool_decide_false (f_hostnqn f = [])), (bool_decide_false (HOSTID sys = [])) by done.
  change (bstr " connect -t tcp") with (bstr " " ++ bstr "connect" ++ bstr " " ++ bstr "-t" ++ bstr " " ++ bstr "tcp").
  rewrite <-!app_assoc, words_unquoted by (done || by intros E; rewrite E in Hs; apply not_elem_of_nil in Hs).
  cbn [default from_option id]. rewrite app_nil_l, !words_next, !words_opt by (done || (repeat constructor)).
  destruct tls; cbn [negb andb app].
  - rewrite bool_decide_true by done. change (bstr " --tls" ++ []) with (bstr " " ++ bstr "--tls" ++ []).
    rewrite words_next by (done || (repeat constructor)).
    cbn [shell_words fmap option_fmap option_map]. by rewrite bool_decide_true.
  - case_bool_decide as Hs0; cbn [negb].
    + cbn [shell_words fmap option_fmap option_map]. by rewrite bool_decide_true.
    + rewrite <-(app_nil_r (opt_word _ _)), words_opt by (done || (repeat constructor)).
      cbn [shell_words fmap option_fmap option_map]. by rewrite bool_decide_true.
Qed.

(** One turn of the script's loop. *)
Lemma connect_one s log : host_ok -> deliverable s ->
  nbct_connect_one sys (fields_of s) log = Ret (handoff s).2 (log ++ (handoff s).1).
Proof.
  intros Hok Hd. rewrite (deliverable_fields s Hd). pose proof (deliverable_plain s Hd) as (Q1 & Q2 & Q3 & Q4 & Q5 & _).
  destruct Hd.
  destruct dl_host0 as (h & Hh & _ & Hh0), dl_nqn0 as (c & Hc & _ & Hc0), dl_hostnqn0 as (n & Hn & _ & Hn0).
  pose proof (print_port_nonempty (target_port s)) as Hpp.
  pose proof (print_port_plain (target_port s) ltac:(lia)) as Hport.
  set (f := Fields _ _ _ _ _ _ _).
  assert (forall port tls, no_quote port ->
    eval_words (connect_cmd sys f port tls) =
    Some (connect_argv s port tls (if tls then [] else default [] (secret s)))) as Hw.
  { intros port tls Hq. unfold connect_argv. apply (connect_words f port tls); try done; cbn.
    - rewrite Hh. by eapply plain_no_quote, Q1.
    - rewrite Hc. by eapply plain_no_quote, Q2.
    - rewrite Hn. by eapply plain_no_quote, Q3.
    - by rewrite Hn.
    - destruct (secret s) as [k|] eqn:Hk; [|constructor]. by eapply plain_no_quote, Q4. }
  unfold nbct_connect_one, run_connect, handoff. subst f. cbn [f_traddr f_trsvcid f_nqn f_hostnqn f_secret f_tls_trsvcid f_tls_psk].
  rewrite Hh, Hc, Hn in *. cbn [default from_option id] in *.
  rewrite (bool_decide_false (h = [])), (bool_decide_false (c = [])), (bool_decide_false (n = [])),
    (bool_decide_false (print_port _ = [])) by done. cbn [orb].
  destruct (tls_trsvcid s) as [p|] eqn:Ht; cbn [default from_option id].
  2: { rewrite Hw by by eapply plain_no_quote. done. }
  destruct (dl_trsvcid0 p eq_refl) as [Hpq Hp]. rewrite (bool_decide_false (p = [])) by done.
  rewrite Hw by by eapply plain_no_quote.
  destruct (tls_psk s) as [k|] eqn:Hk; cbn [default from_option id]; [|done].
  destruct (dl_psk0 k eq_refl) as [Hkp (psk & idn & Hps)]. rewrite Hps.
  destruct (tls_params_inv _ _ _ _ Hps) as (hex & h' & c' & E1 & E2 & E3 & Hd & Hl & Hne & _ & ->).
  assert (hex = k) as -> by congruence. assert (h' = n) as -> by congruence. assert (c' = c) as -> by congruence.
  rewrite (bool_decide_false (k = [])) by done.
  destruct (hex_to_raw_decode (length psk) k psk Hd ltac:(lia) ltac:(lia)) as [Hr _].
  rewrite <-Hl, take_ge, take_ge in Hr by lia.
  unfold inject_tls_psk, bind, update, ret. rewrite Hr.
  destruct (nvme_keyring_serial _) as [kr|]; cbn [negb fst snd]; [|by rewrite app_nil_r].
  destruct (add_key _ _ _ psk); cbn [negb fst snd]; [|done]. cbn [of_option]. unfold ret. by rewrite <-?app_assoc.
Qed.

Lemma connect_loop tbl descs : host_ok -> forall i rc log,
  Forall deliverable descs -> (forall j s, descs !! j = Some s -> nbct_read tbl (i + j) = fields_of s) ->
  nbct_connect_loop sys tbl i (length descs) rc log =
  Ret (rc && forallb (fun s => (handoff s).2) descs) (log ++ concat (map (fun s => (handoff s).1) descs)).
Proof.
  intros Hok. induction descs as [|s descs IH]; intros i rc log Hd Hr.
  { cbn. by rewrite andb_true_r, app_nil_r. }
  apply Forall_cons in Hd as [Hs Hd]. cbn [length nbct_connect_loop]. unfold bind.
  pose proof (Hr 0%nat s eq_refl) as H0. rewrite Nat.add_0_r in H0. rewrite H0, connect_one by done.
  rewrite IH; [|done|].
  - cbn [forallb map concat]. by rewrite andb_assoc, app_assoc.
  - intros j t Ht. rewrite Nat.add_succ_comm. by apply Hr.
Qed.

Lemma count_read `{AcpiLaws} descs tbl : table_of descs tbl ->
  nbct_count sys tbl = let n := u8 (Z.of_nat (length descs)) in
    if (n =? 0) || (n =? 10) then 0 else char_code sys n.
Proof.
  intros []. unfold nbct_count. rewrite tb_count0. cbv zeta. set (n := u8 _).
  unfold drop_nul. destruct (n =? 0) eqn:E0.
  - apply Z.eqb_eq in E0. by rewrite E0.
  - rewrite filter_cons_True, filter_nil by lia. cbn. by destruct (n =? 10).
Qed.
End Handoff.

Section Claims.
Context `{AcpiLaws}.

(** Credentials table: without sessions nothing is installed, without memory ENOMEM
    is returned; otherwise exactly one table is installed, for any number of named
    sessions: its header carries the signature and its length, its count byte the
    number of sessions modulo 256, and reading entry [i] at the fixed offsets of the
    initramfs script gives each string of session [i], cut to its member. *)
Theorem nbct_roundtrip alloc install descs log :
  Forall named descs ->
  (descs = [] -> nbct_install alloc install descs log = Ret OK log) /\
  (descs <> [] -> alloc = false -> nbct_install alloc install descs log = Ret (Err ENOMEM) log) /\
  (descs <> [] -> alloc = true -> exists tbl,
     nbct_install alloc install descs log = Ret (install tbl) (log ++ [tbl]) /\ table_of descs tbl).
Proof.
  intros Hn. unfold nbct_install. split_and!.
  - by intros ->.
  - intros Hd ->. rewrite bool_decide_false; [done|]. by destruct descs.
  - intros Hd ->. rewrite bool_decide_false by by destruct descs.
    destruct (fill_table_spec descs Hn) as (tbl & Ht & Hr). exists tbl. split; [|done].
    cbn [negb]. by rewrite Hr.
Qed.

Lemma install_table descs install log : descs <> [] -> Forall named descs ->
  exists tbl, nbct_install true install descs log = Ret (install tbl) (log ++ [tbl]) /\ table_of descs tbl.
Proof.
  intros Hd Hn. destruct (fill_table_spec descs Hn) as (tbl & Ht & Hr). exists tbl. split; [|done].
  unfold nbct_install. rewrite bool_decide_false by by destruct descs. cbn [negb]. by rewrite Hr.
Qed.

(** [C24] Hand-over: from the table that the firmware installs for one to 127 sessions
    other than ten, each with strings that fit their members, without newlines and single
    quotes, and a key of less than 64 bytes, the initramfs script runs for each session in
    order the nvme command that connects to the same subsystem under the same host name, in
    plain with the session's secret, or on the TLS port after adding to the keyring
    ".nvme" exactly the key and the identity that the firmware uses for its own connection
    (without that keyring the session is left out); its status is the conjunction of the
    outcomes. *)
Theorem nbct_handoff sys install descs log :
  (forall c, 0 < c < 128 -> char_code sys c = c) -> host_ok sys ->
  (1 <= length descs < 128)%nat -> length descs <> 10%nat -> Forall deliverable descs ->
  exists tbl, nbct_install true install descs log = Ret (install tbl) (log ++ [tbl]) /\
    nbct_connect sys tbl [] =
    Ret (forallb (fun s => (handoff sys s).2) descs) (concat (map (fun s => (handoff sys s).1) descs)).
Proof.
  intros Hcc Hsys Hlen Hten Hd.
  destruct (install_table descs install log) as (tbl & Hi & Ht).
  { intros ->. cbn in Hlen. lia. }
  { eapply Forall_impl; [exact Hd|apply deliverable_named]. }
  exists tbl. split; [done|]. unfold nbct_connect. rewrite (count_read _ descs tbl Ht). cbv zeta.
  assert (u8 (Z.of_nat (length descs)) = Z.of_nat (length descs)) as -> by (apply u8_id; unfold is_byte; lia).
  assert ((Z.of_nat (length descs) =? 0) = false) as -> by lia.
  assert ((Z.of_nat (length descs) =? 10) = false) as -> by lia. cbn [orb].
  rewrite Hcc by lia. assert ((Z.of_nat (length descs) <=? 0) = false) as -> by lia.
  rewrite Nat2Z.id. rewrite (connect_loop sys tbl descs Hsys 0 true []); [done|done|].
  intros j s Hj. rewrite Nat.add_0_l. pose proof (Forall_lookup_1 _ _ _ _ Hd Hj) as Hs.
  apply Ht; [done|by apply deliverable_strings|]. pose proof (dl_port s Hs). lia.
Qed.

(** With ten sessions, or a multiple of 256, the script finds no entry to connect. *)
Theorem nbct_count_lost sys install descs log :
  descs <> [] -> Forall named descs ->
  (Z.of_nat (length descs) mod 256 = 10 \/ Z.of_nat (length descs) mod 256 = 0) ->
  exists tbl, nbct_install true install descs log = Ret (install tbl) (log ++ [tbl]) /\
    nbct_connect sys tbl [] = Ret true [].
Proof.
  intros Hd Hn Hc. destruct (install_table descs install log Hd Hn) as (tbl & Hi & Ht).
  exists tbl. split; [done|]. unfold nbct_connect. rewrite (count_read _ descs tbl Ht). cbv zeta.
  unfold u8. change (2 ^ 8) with 256. by destruct Hc as [-> | ->].
Qed.
End Claims.

(** A name of the subsystem that holds single quotes leaves them: what stands between two
    quotes becomes a word of the nvme command of its own. *)
Theorem nbct_quote_escapes sys f port (a w b : cstr) :
  host_ok sys -> f_nqn f = a ++ bstr "' " ++ w ++ bstr " '" ++ b ->
  no_quote a -> word w -> w <> [] -> no_quote b ->
  no_quote (f_traddr f) -> no_quote port -> no_quote (f_hostnqn f) -> f_hostnqn f <> [] ->
  eval_words (connect_cmd sys f port true) = Some
    [NVME sys; bstr "connect"; bstr "-t"; bstr "tcp"; bstr "-a"; f_traddr f; bstr "-s"; port;
     bstr "-n"; a; w; b; bstr "-q"; f_hostnqn f; bstr "--hostid"; HOSTID sys; bstr "--tls"].
Proof.
  intros [[Hw Hs] [Hi Hi0]] Hn Ha Hww Hw0 Hb Ht Hp Hh Hh0. unfold eval_words, connect_cmd.
  rewrite (bool_decide_false (f_hostnqn f = [])), (bool_decide_false (HOSTID sys = [])) by done.
  assert (opt_word (bstr "-n") (f_nqn f) = opt_word (bstr "-n") a ++ opt_word w b) as ->.
  { rewrite Hn. unfold opt_word. change (bstr "' ") with (bstr "'" ++ bstr " "). by rewrite <-!app_assoc. }
  change (bstr " connect -t tcp") with (bstr " " ++ bstr "connect" ++ bstr " " ++ bstr "-t" ++ bstr " " ++ bstr "tcp").
  rewrite <-!app_assoc, words_unquoted by (done || by intros E; rewrite E in Hs; apply not_elem_of_nil in Hs).
  cbn [default from_option id negb andb]. rewrite app_nil_l, !words_next, !words_opt by (done || (repeat constructor)).
  change (bstr " --tls" ++ []) with (bstr " " ++ bstr "--tls" ++ []).
  rewrite words_next by (done || (repeat constructor)).
  cbn [shell_words fmap option_fmap option_map]. by rewrite bool_decide_true.
Qed.

(** A key of 64 bytes, which the firmware accepts and uses, does not fit the table with
    its terminator: the script adds a key that lacks the last byte. *)
Theorem nbct_long_key_cut s psk idn :
  nvmetcp_tls_params s = Ret (inr (psk, idn)) s -> length psk = NVMETCP_MAX_PSK ->
  Forall (fun c => c <> 10) (default [] (tls_psk s)) ->
  hex_to_raw (f_tls_psk (fields_of s)) = take 63 psk.
Proof.
  intros Hp Hl Hc. destruct (tls_params_inv _ _ _ _ Hp) as (hex & h & c & Hk & _ & _ & Hd & Hlen & _).
  change NVMETCP_MAX_PSK with 64%nat in Hl. unfold fields_of. cbn [f_tls_psk]. unfold clip_str. rewrite Hk in *. cbn [default from_option id] in *.
  change (NBCT_TLS_PSK_LEN - 1)%nat with (2 * 63 + 1)%nat.
  rewrite strip_newlines_id by by apply Forall_take.
  apply (hex_to_raw_decode 63 hex psk Hd); lia.
Qed.

(** ** A concrete hand-over *)
Module ToyAcpi.
#[export] Instance ops : AcpiOps := {
  acpi_header := [("signature", 4); ("length", 4); ("revision", 1); ("checksum", 1); ("oem_id", 6);
    ("oem_table_id", 8); ("oem_revision", 4); ("asl_compiler_id", 4); ("asl_compiler_revision", 4)]%nat;
  ACPI_SIGNATURE w x y z := le_val [w; x; y; z];
}.
#[export] Instance laws : AcpiLaws.
Proof. split; try reflexivity. intros w x y z Hb. apply (le_bytes_val [w; x; y; z] Hb). Qed.
End ToyAcpi.

Module DemoNbct.
Definition plain_session : session :=
  zero_session <| target_host := Some (bstr "192.0.2.10") |> <| target_port := 4420 |>
    <| subsystem_nqn := Some (bstr "nqn.2026-08.test:disk0") |> <| host_nqn := Some (bstr "nqn.host") |>
    <| secret := Some (bstr "DHHC-1:00:abc:") |>.
Definition tls_session : session :=
  plain_session <| tls_trsvcid := Some (bstr "4421") |> <| tls_psk := Some (bstr "0aFf10") |>.
Definition sessions : list session := [plain_session; tls_session].

Definition chars_ok (l : cstr) : bool := forallb (fun c : Z => negb (c =? 0) && negb (c =? 10) && negb (c =? 39)) l.

Lemma plain_check n l : chars_ok l && bool_decide (length l < n)%nat = true -> plain n l.
Proof.
  rewrite andb_true_iff, bool_decide_eq_true. intros [Hc Hl]. split; [|done].
  clear Hl. induction l as [|c l IH]; [constructor|]. cbn [chars_ok forallb] in Hc.
  rewrite !andb_true_iff, !negb_true_iff in Hc. destruct Hc as [[[Hz Hn] Hq] Hc].
  constructor; [unfold plain_char; lia|by apply IH].
Qed.

Lemma sessions_deliverable : Forall deliverable sessions.
Proof.
  constructor; [|constructor; [|constructor]]; (constructor;
    [eexists; split; [reflexivity|]; split; [apply plain_check; reflexivity|discriminate]..
    |cbn; intros k [= <-]; apply plain_check; reflexivity| | |cbn; lia]).
  - discriminate.
  - discriminate.
  - cbn. intros k [= <-]. split; [apply plain_check; reflexivity|discriminate].
  - cbn. intros k [= <-]. split; [apply plain_check; reflexivity|].
    do 2 eexists. vm_compute. reflexivity.
Qed.
End DemoNbct.

#[local] Existing Instances ToyAcpi.ops ToyAcpi.laws.

Lemma nbct_roundtrip_witness : exists tbl,
  nbct_install true (fun _ => OK) DemoNbct.sessions [] = Ret OK [tbl] /\ table_of DemoNbct.sessions tbl.
Proof.
  apply (nbct_roundtrip true (fun _ => OK) DemoNbct.sessions []); [|discriminate|reflexivity].
  eapply Forall_impl; [exact DemoNbct.sessions_deliverable|apply deliverable_named].
Defined.

(** A system with the keyring, where everything succeeds. *)
Definition demo_host : host :=
  Host (bstr "/usr/sbin/nvme") (bstr "11111111-2222-3333-4444-555555555555")
    [bstr "0fd1e5f0 I--Q---  4 perm 3f030000  1000 65534 keyring   _ses: 1";
     bstr "2b4d1c3a I------  1 perm 1f0f0000     0     0 keyring   .nvme: empty"]
    (fun _ _ _ => true) (fun _ => true) id.

Lemma demo_host_ok : host_ok demo_host.
Proof.
  split; split; [|apply (bool_decide_unpack _); reflexivity| |discriminate];
    repeat constructor; (reflexivity || discriminate).
Qed.

Lemma nbct_handoff_witness : exists tbl,
  nbct_install true (fun _ => OK) DemoNbct.sessions [] = Ret OK [tbl] /\
  nbct_connect demo_host tbl [] =
  Ret true
    [Run (map bstr ["/usr/sbin/nvme"; "connect"; "-t"; "tcp"; "-a"; "192.0.2.10"; "-s"; "4420"; "-n";
       "nqn.2026-08.test:disk0"; "-q"; "nqn.host"; "--hostid"; "11111111-2222-3333-4444-555555555555";
       "--dhchap-secret"; "DHHC-1:00:abc:"]);
     AddKey (bstr "0x2b4d1c3a") (bstr "NVMe0R01 nqn.host nqn.2026-08.test:disk0") [10; 255; 16];
     Run (map bstr ["/usr/sbin/nvme"; "connect"; "-t"; "tcp"; "-a"; "192.0.2.10"; "-s"; "4421"; "-n";
       "nqn.2026-08.test:disk0"; "-q"; "nqn.host"; "--hostid"; "11111111-2222-3333-4444-555555555555"; "--tls"])].
Proof.
  apply (nbct_handoff demo_host (fun _ => OK) DemoNbct.sessions []).
  - done.
  - exact demo_host_ok.
  - cbn. lia.
  - discriminate.
  - exact DemoNbct.sessions_deliverable.
Defined.

(** A name that adds an option to the command. *)
Lemma nbct_quote_escapes_witness :
  eval_words (connect_cmd demo_host (Fields (bstr "192.0.2.10") [] (bstr "nqn.x' --keyring '0x1") (bstr "nqn.host") [] [] [])
    (bstr "4421") true) = Some
  (map bstr ["/usr/sbin/nvme"; "connect"; "-t"; "tcp"; "-a"; "192.0.2.10"; "-s"; "4421"; "-n"; "nqn.x"; "--keyring";
     "0x1"; "-q"; "nqn.host"; "--hostid"; "11111111-2222-3333-4444-555555555555"; "--tls"]).
Proof.
  apply (nbct_quote_escapes demo_host (Fields (bstr "192.0.2.10") [] (bstr "nqn.x' --keyring '0x1") (bstr "nqn.host") [] [] [])
    (bstr "4421") (bstr "nqn.x") (bstr "--keyring") (bstr "0x1")).
  - exact demo_host_ok.
  - reflexivity.
  - repeat constructor; discriminate.
  - repeat constructor; reflexivity.
  - discriminate.
  - repeat constructor; discriminate.
  - repeat constructor; discriminate.
  - repeat constructor; discriminate.
  - repeat constructor; discriminate.
  - discriminate.
Defined.
