(* ===== verification/Smbios.v ===== *)
(** * SMBIOS settings (interface/smbios/smbios_settings.c)

    The settings block that gives scripts the machine's identity (UUID, names, serial
    numbers) and its memory.  The structures themselves are found by the SMBIOS core,
    which is a parameter. *)

From stdpp Require Import base list strings.
From Stdlib Require Import ZArith Lia.
From S2P Require Import Prelude Layout NvmeState.

(** ** Structures (include/ipxe/smbios.h) *)
Definition smbios_header : layout := [("type", 1); ("len", 1); ("handle", 2)]%nat.

Definition smbios_system_information : layout :=
  nest "header" smbios_header ++
  [("manufacturer", 1); ("product", 1); ("version", 1); ("serial", 1); ("uuid", 16); ("wakeup", 1)]%nat.

Definition smbios_base_board_information : layout :=
  nest "header" smbios_header ++
  [("manufacturer", 1); ("product", 1); ("version", 1); ("serial", 1)]%nat.

Definition smbios_enclosure_information : layout :=
  nest "header" smbios_header ++
  [("manufacturer", 1); ("type", 1); ("version", 1); ("serial", 1); ("asset_tag", 1)]%nat.

Definition smbios_memory_device : layout :=
  nest "header" smbios_header ++
  [("array_handle", 2); ("error_handle", 2); ("total_width", 2); ("data_width", 2); ("size", 2);
   ("form_factor", 1); ("device_set", 1); ("locator", 1); ("bank_locator", 1); ("memory_type", 1);
   ("type_detail", 2); ("speed", 2); ("manufacturer", 1); ("serial", 1); ("asset_tag", 1);
   ("part_number", 1); ("rank", 1); ("extended_size", 4)]%nat.

Definition SMBIOS_TYPE_SYSTEM_INFORMATION : Z := 1.
Definition SMBIOS_TYPE_BASE_BOARD_INFORMATION : Z := 2.
Definition SMBIOS_TYPE_ENCLOSURE_INFORMATION : Z := 3.
Definition SMBIOS_TYPE_MEMORY_DEVICE : Z := 17.

Definition SMBIOS_VERSION (major minor : Z) : Z := Z.lor (Z.shiftl major 8) minor.

(** ** Settings (ipxe/settings.h; the members this file uses) *)
Inductive setting_type : Type :=
  | setting_type_string | setting_type_uuid | setting_type_guid | setting_type_hex
  | setting_type_uint16 | setting_type_uint32 | setting_type_other (n : Z).

#[export] Instance setting_type_eq_dec : EqDecision setting_type.
Proof. solve_decision. Defined.

(** [in_scope] is [scope == &smbios_settings_scope]. *)
Record setting : Type := Setting {
  set_name : cstr;
  set_tag : Z;
  set_type : option setting_type;
  in_scope : bool;
}.

Definition SMBIOS_RAW_TAG (type : Z) (structure : layout) (f : string) : Z :=
  Z.lor (Z.lor (Z.shiftl type 16) (Z.shiftl (Z.of_nat (offsetof structure f)) 8))
        (Z.of_nat (fieldsize structure f)).

Definition SMBIOS_STRING_TAG (type : Z) (structure : layout) (f : string) : Z :=
  Z.lor (Z.shiftl type 16) (Z.shiftl (Z.of_nat (offsetof structure f)) 8).

Definition uuid_setting : setting :=
  Setting (bstr "uuid") (SMBIOS_RAW_TAG SMBIOS_TYPE_SYSTEM_INFORMATION smbios_system_information "uuid")
    (Some setting_type_uuid) true.
Definition manufacturer_setting : setting :=
  Setting (bstr "manufacturer")
    (SMBIOS_STRING_TAG SMBIOS_TYPE_SYSTEM_INFORMATION smbios_system_information "manufacturer")
    (Some setting_type_string) true.
Definition product_setting : setting :=
  Setting (bstr "product")
    (SMBIOS_STRING_TAG SMBIOS_TYPE_SYSTEM_INFORMATION smbios_system_information "product")
    (Some setting_type_string) true.
Definition serial_setting : setting :=
  Setting (bstr "serial")
    (SMBIOS_STRING_TAG SMBIOS_TYPE_SYSTEM_INFORMATION smbios_system_information "serial")
    (Some setting_type_string) true.
Definition asset_setting : setting :=
  Setting (bstr "asset")
    (SMBIOS_STRING_TAG SMBIOS_TYPE_ENCLOSURE_INFORMATION smbios_enclosure_information "asset_tag")
    (Some setting_type_string) true.
Definition board_serial_setting : setting :=
  Setting (bstr "board-serial")
    (SMBIOS_STRING_TAG SMBIOS_TYPE_BASE_BOARD_INFORMATION smbios_base_board_information "serial")
    (Some setting_type_string) true.
Definition mem_total_setting : setting := Setting (bstr "mem-total") 0 (Some setting_type_uint32) true.
Definition mem_type_setting : setting := Setting (bstr "mem-type") 0 (Some setting_type_string) true.
Definition mem_speed_setting : setting := Setting (bstr "mem-speed") 0 (Some setting_type_uint16) true.

(** ** The SMBIOS core and the settings core

    [smbios_structure type instance] finds a structure; [formatted] is its formatted
    area, whose length is the structure's [len] member. *)
Class SmbiosOps := {
  structure : Type;
  formatted : structure -> list Z;
  smbios_structure : Z -> nat -> option structure;
  smbios_string : structure -> Z -> option cstr;
  smbios_version : Z;
  uuid_mangle : list Z -> list Z;
  setting_cmp : setting -> setting -> Z;
}.

(** Names of memory types. *)
Definition memory_type_names (n : Z) : option cstr :=
  match n with
  | 0x0F => Some (bstr "SDRAM")
  | 0x11 => Some (bstr "RDRAM")
  | 0x12 => Some (bstr "DDR")
  | 0x13 => Some (bstr "DDR2")
  | 0x14 => Some (bstr "DDR2 FB-DIMM")
  | 0x18 => Some (bstr "DDR3")
  | 0x19 => Some (bstr "FBD2")
  | 0x1A => Some (bstr "DDR4")
  | 0x1B => Some (bstr "LPDDR")
  | 0x1C => Some (bstr "LPDDR2")
  | 0x1D => Some (bstr "LPDDR3")
  | 0x1E => Some (bstr "LPDDR4")
  | 0x20 => Some (bstr "HBM")
  | 0x21 => Some (bstr "HBM2")
  | 0x22 => Some (bstr "DDR5")
  | 0x23 => Some (bstr "LPDDR5")
  | 0x24 => Some (bstr "HBM3")
  | 0x25 => Some (bstr "LPDDR5X")
  | _ => None
  end.

(** The object a fetch works on: the caller's buffer, and the setting's type. *)
Record fetch_state : Type := Fetch {
  data : list Z;
  ftype : option setting_type;
}.
#[export] Instance eta_fetch : Eta fetch_state := fun s => Fetch (data s) (ftype s).

Section Fetch.
Context `{SmbiosOps}.
Implicit Types (d : structure).

(** A read of [n] bytes at [off] in a structure. *)
Definition sread (off n : nat) (d : structure) : M fetch_state (list Z) := of_option (read off n (formatted d)).

(** [structure->f], an integer member. *)
Definition member (L : layout) (f : string) (d : structure) : M fetch_state Z :=
  let* b := sread (offsetof L f) (fieldsize L f) d in ret (le_val b).

(** A write of [l] to the start of the caller's buffer. *)
Definition put_data (l : list Z) : M fetch_state unit :=
  let* s := get in
  let* b := of_option (memcpy 0 l (data s)) in
  update (fun s => s <| data := b |>).

(** The loop of [smbios_fetch_mem_total]. *)
Fixpoint mem_total_loop (fuel instance : nat) (total_mb : Z) : M fetch_state Z :=
  match fuel with
  | O => fun _ => NoFuel
  | S fuel =>
      match smbios_structure SMBIOS_TYPE_MEMORY_DEVICE instance with
      | None => ret total_mb
      | Some memdev =>
          let next total := mem_total_loop fuel (S instance) total in
          let* len := member smbios_header "len" memdev in
          if len <? 0x0E then next total_mb else
          let* size := member smbios_memory_device "size" memdev in
          if size =? 0xFFFF then next total_mb
          else if size =? 0x7FFF then
            if len <? 0x20 then next total_mb else
            let* ext := member smbios_memory_device "extended_size" memdev in
            next (u64 (total_mb + ext))
          else if negb (Z.land size 0x8000 =? 0) then next (u64 (total_mb + Z.land size 0x7FFF * 1024))
          else next (u64 (total_mb + size))
      end
  end.

(** [smbios_fetch_mem_total] *)
Definition smbios_fetch_mem_total (fuel : nat) : M fetch_state (errno + Z) :=
  let* total_mb := mem_total_loop fuel 0 0 in
  if total_mb =? 0 then ret (inl ENOENT) else
  do* put_data (be_bytes 4 total_mb) in
  ret (inr 4).

(** [smbios_fetch_mem_type] *)
Definition smbios_fetch_mem_type : M fetch_state (errno + Z) :=
  match smbios_structure SMBIOS_TYPE_MEMORY_DEVICE 0 with
  | None => ret (inl ENOENT)
  | Some memdev =>
      let* len := member smbios_header "len" memdev in
      if len <? 0x13 then ret (inl ENOENT) else
      let* t := member smbios_memory_device "memory_type" memdev in
      let type := match memory_type_names t with Some n => n | None => bstr "Unknown" end in
      let* s := get in
      do* put_data (take (length (data s)) type) in
      ret (inr (Z.of_nat (length type)))
  end.

(** [smbios_fetch_mem_speed] *)
Definition smbios_fetch_mem_speed : M fetch_state (errno + Z) :=
  match smbios_structure SMBIOS_TYPE_MEMORY_DEVICE 0 with
  | None => ret (inl ENOENT)
  | Some memdev =>
      let* len := member smbios_header "len" memdev in
      if len <? 0x17 then ret (inl ENOENT) else
      let* speed := member smbios_memory_device "speed" memdev in
      do* put_data (be_bytes 2 speed) in
      ret (inr 2)
  end.

(** [smbios_applies] *)
Definition smbios_applies (st : setting) : bool := in_scope st.

(** The source of a tagged setting: the bytes and the string index, 0 for raw data. *)
Definition smbios_source (d : structure) (tag_offset tag_len : Z)
    : M fetch_state (errno + (list Z * Z)) :=
  let* len := member smbios_header "len" d in
  if (tag_len =? 0) && (tag_offset =? 0) then
    let* src := sread 0 (Z.to_nat len) d in ret (inr (src, 0))
  else if (tag_len =? 0) || (tag_offset =? 0) then
    let* string := if (tag_len =? 0) && (tag_offset <? len)
                   then let* b := sread (Z.to_nat tag_offset) 1 d in ret (byte_at b 0)
                   else ret tag_len in
    match smbios_string d string with
    | None => ret (inl ENOENT)
    | Some src => ret (inr (src, string))
    end
  else if tag_offset >? len then ret (inr ([], 0))
  else
    let* src := sread (Z.to_nat tag_offset) (Z.to_nat (Z.min (len - tag_offset) tag_len)) d in
    ret (inr (src, 0)).

(** [smbios_fetch] *)
Definition smbios_fetch (fuel : nat) (st : setting) : M fetch_state (errno + Z) :=
  if setting_cmp st mem_total_setting =? 0 then smbios_fetch_mem_total fuel else
  if setting_cmp st mem_type_setting =? 0 then smbios_fetch_mem_type else
  if setting_cmp st mem_speed_setting =? 0 then smbios_fetch_mem_speed else
  let tag_instance := Z.land (Z.shiftr (set_tag st) 24) 0xff in
  let tag_type := Z.land (Z.shiftr (set_tag st) 16) 0xff in
  let tag_offset := Z.land (Z.shiftr (set_tag st) 8) 0xff in
  let tag_len := Z.land (set_tag st) 0xff in
  match smbios_structure tag_type (Z.to_nat tag_instance) with
  | None => ret (inl ENOENT)
  | Some d =>
      let* r := smbios_source d tag_offset tag_len in
      match r with
      | inl e => ret (inl e)
      | inr (src, string) =>
          let* type := gets ftype in
          let src := if (bool_decide (type = Some setting_type_uuid) ||
                         bool_decide (type = Some setting_type_guid)) &&
                        bool_decide (length src = 16%nat) &&
                        (SMBIOS_VERSION 2 6 <=? smbios_version)
                     then uuid_mangle src else src in
          let* s := get in
          do* put_data (take (length (data s)) src) in
          do* (match type with
               | Some _ => ret tt
               | None => update (fun s => s <| ftype :=
                   Some (if string =? 0 then setting_type_hex else setting_type_string) |>)
               end) in
          ret (inr (Z.of_nat (length src)))
      end
  end.
End Fetch.

(** ** What the settings are *)
Class SmbiosLaws `{SmbiosOps} := {
  structures : Z -> list structure;
  smbios_structure_lookup t i : smbios_structure t i = structures t !! i;
  formatted_ok d : bytes_ok (formatted d);
  formatted_min d : (4 <= length (formatted d))%nat;
  formatted_len d : byte_at (formatted d) 1 = Z.of_nat (length (formatted d));
  smbios_string_zero d : smbios_string d 0 = None;
  uuid_mangle_length l : length l = 16%nat -> length (uuid_mangle l) = 16%nat;
  setting_cmp_refl st : setting_cmp st st = 0;
}.

Inductive setting_kind : Type := MemTotal | MemType | MemSpeed | Tagged.

Section Values.
Context `{SmbiosLaws}.
Implicit Types (d : structure) (st : setting).

Definition kind_of st : setting_kind :=
  if setting_cmp st mem_total_setting =? 0 then MemTotal
  else if setting_cmp st mem_type_setting =? 0 then MemType
  else if setting_cmp st mem_speed_setting =? 0 then MemSpeed
  else Tagged.

(** The size of a memory device in megabytes; 0 when the structure does not tell. *)
Definition device_mb d : Z :=
  let b := formatted d in
  let size := le_val (sub 12 2 b) in
  if bool_decide (length b < 14)%nat || (size =? 0xFFFF) then 0
  else if size =? 0x7FFF then if bool_decide (length b < 32)%nat then 0 else le_val (sub 28 4 b)
  else if 0x8000 <=? size then (size - 0x8000) * 1024
  else size.

Definition memory_devices : list structure := structures SMBIOS_TYPE_MEMORY_DEVICE.

Definition total_mb : Z := foldl Z.add 0 (map device_mb memory_devices) mod 2 ^ 64.

Definition memory_type_value d : option (list Z) :=
  if bool_decide (length (formatted d) < 19)%nat then None
  else Some (default (bstr "Unknown") (memory_type_names (byte_at (formatted d) 18))).

Definition memory_speed_value d : option (list Z) :=
  if bool_decide (length (formatted d) < 23)%nat then None
  else Some (be_bytes 2 (le_val (sub 21 2 (formatted d)))).

(** The parts of a tag, and the bytes it selects with whether they are a string. *)
Definition tag_part (st : setting) (shift : Z) : Z := Z.land (Z.shiftr (set_tag st) shift) 0xff.

Definition tagged_source st : option (list Z * bool) :=
  d ← structures (tag_part st 16) !! Z.to_nat (tag_part st 24);
  let off := tag_part st 8 in
  let n := tag_part st 0 in
  if decide (n = 0 /\ off = 0) then Some (formatted d, false)
  else if decide (n = 0 \/ off = 0) then
    (fun str => (str, true)) <$> smbios_string d (if decide (n = 0) then byte_at (formatted d) (Z.to_nat off) else n)
  else Some (sub (Z.to_nat off) (Z.to_nat n) (formatted d), false).

(** UUIDs are kept with their first members in little-endian order since version 2.6. *)
Definition mangled (ty : option setting_type) (v : list Z) : list Z :=
  if decide ((ty = Some setting_type_uuid \/ ty = Some setting_type_guid) /\
             length v = 16%nat /\ 0x206 <= smbios_version)
  then uuid_mangle v else v.

(** The value of a setting, and the type it gets when it has none. *)
Definition smbios_value st (ty : option setting_type) : option (list Z * option setting_type) :=
  match kind_of st with
  | MemTotal => if total_mb =? 0 then None else Some (be_bytes 4 total_mb, ty)
  | MemType => (fun v => (v, ty)) <$> (memory_devices !! 0%nat ≫= memory_type_value)
  | MemSpeed => (fun v => (v, ty)) <$> (memory_devices !! 0%nat ≫= memory_speed_value)
  | Tagged =>
      '(v, str) ← tagged_source st;
      Some (mangled ty v,
        match ty with Some _ => ty | None => Some (if (str : bool) then setting_type_string else setting_type_hex) end)
  end.

(** The settings whose fetch ignores the length of the buffer. *)
Definition ignores_length st : bool :=
  match kind_of st with MemTotal | MemSpeed => true | _ => false end.

(** *** Reading members *)
Lemma sread_eq off n d s :
  (off + n <= length (formatted d))%nat -> sread off n d s = Ret (sub off n (formatted d)) s.
Proof. intros Hl. unfold sread. by rewrite read_some. Qed.

Lemma member_eq L f o n d s :
  field L f = Some (o, n) -> (o + n <= length (formatted d))%nat ->
  member L f d s = Ret (le_val (sub o n (formatted d))) s.
Proof.
  intros Hf Hl. unfold member, bind, offsetof, fieldsize. rewrite Hf. cbn [fmap option_fmap option_map default fst snd].
  by rewrite sread_eq.
Qed.

Lemma le_val_sub1 o (l : list Z) : (o < length l)%nat -> le_val (sub o 1 l) = byte_at l o.
Proof.
  intros Ho. unfold sub, byte_at. destruct (lookup_lt_is_Some_2 l o Ho) as [x Hx].
  rewrite (drop_S l x o Hx), Hx. change (x + 256 * 0 = x). lia.
Qed.

Lemma member_len d s : member smbios_header "len" d s = Ret (Z.of_nat (length (formatted d))) s.
Proof.
  pose proof (formatted_min d). rewrite (member_eq _ _ 1 1) by (done || lia).
  by rewrite le_val_sub1, formatted_len by lia.
Qed.

Lemma sub_range o n d : (o + n <= length (formatted d))%nat ->
  0 <= le_val (sub o n (formatted d)) < 256 ^ Z.of_nat n.
Proof.
  intros Hl. pose proof (le_val_range (sub o n (formatted d)) (sub_ok _ _ _ (formatted_ok d))) as Hr.
  by rewrite sub_length in Hr.
Qed.

Lemma size_bits size : 0 <= size < 65536 ->
  (Z.land size 0x8000 =? 0) = (size <? 0x8000) /\ (0x8000 <= size -> Z.land size 0x7FFF = size - 0x8000).
Proof.
  intros Hs. assert (Z.land size 0x7FFF = size mod 0x8000) as Hlow by (apply (Z.land_ones size 15); lia).
  assert (Z.land size 0x8000 = size - Z.land size 0x7FFF) as Hhigh.
  { assert (size = Z.lor (Z.land size 0x8000) (Z.land size 0x7FFF)) as E.
    { rewrite <-Z.land_lor_distr_r. change (Z.lor 0x8000 0x7FFF) with (Z.ones 16).
      rewrite Z.land_ones, Z.mod_small by lia. done. }
    rewrite <-Z.add_nocarry_lor in E.
    - lia.
    - rewrite (Z.land_comm size 0x7FFF), Z.land_assoc, <-(Z.land_assoc size). cbn. by rewrite Z.land_0_r. }
  rewrite Hlow in *. destruct (size <? 0x8000) eqn:E.
  - assert (size mod 0x8000 = size) by (apply Z.mod_small; lia). split; [|lia]. apply Z.eqb_eq. lia.
  - assert (size mod 0x8000 = size - 0x8000) as Hm.
    { symmetry. apply (Z.mod_unique_pos _ _ 1); lia. }
    split; [|lia]. apply Z.eqb_neq. lia.
Qed.
End Values.

Section Fetching.
Context `{SmbiosLaws}.
Implicit Types (d : structure) (st : setting).

Lemma mem_total_loop_spec l : forall fuel i acc s,
  drop i memory_devices = l -> (length l < fuel)%nat ->
  mem_total_loop fuel i (u64 acc) s = Ret (u64 (foldl Z.add acc (map device_mb l))) s.
Proof.
  induction l as [|d l IH]; intros fuel i acc s Hl Hf; (destruct fuel as [|fuel]; [cbn in Hf; lia|]).
  - cbn [mem_total_loop]. rewrite smbios_structure_lookup. fold memory_devices.
    assert (memory_devices !! i = None) as -> by (rewrite <-(Nat.add_0_r i), <-lookup_drop, Hl; done). done.
  - cbn [mem_total_loop]. rewrite smbios_structure_lookup. fold memory_devices.
    assert (memory_devices !! i = Some d) as -> by (rewrite <-(Nat.add_0_r i), <-lookup_drop, Hl; done).
    assert (drop (S i) memory_devices = l) as Hl'
      by (rewrite <-Nat.add_1_r, <-drop_drop, Hl; done).
    assert (forall x s, mem_total_loop fuel (S i) (u64 (u64 acc + x)) s =
              Ret (u64 (foldl Z.add (acc + x) (map device_mb l))) s) as Hnext.
    { intros x s'. rewrite <-(IH fuel (S i) (acc + x) s') by (done || (cbn in Hf; lia)).
      f_equal. unfold u64. by rewrite Z.add_mod_idemp_l by lia. }
    assert (mem_total_loop fuel (S i) (u64 acc) s = Ret (u64 (foldl Z.add (acc + 0) (map device_mb l))) s) as Hskip
      by (rewrite <-Hnext; f_equal; unfold u64; by rewrite Z.add_0_r, Z.mod_mod by lia).
    cbn [map foldl]. unfold bind at 1. rewrite member_len. unfold device_mb.
    destruct (bool_decide (length (formatted d) < 14)%nat) eqn:E1; rewrite ?bool_decide_eq_true, ?bool_decide_eq_false in E1.
    { cbn [orb]. by replace (Z.of_nat _ <? 0x0E) with true by lia. }
    cbn [orb]. replace (Z.of_nat _ <? 0x0E) with false by lia. unfold bind at 1.
    rewrite (member_eq _ _ 12 2) by (done || lia).
    pose proof (sub_range 12 2 d ltac:(lia)) as Hr. change (256 ^ Z.of_nat 2) with 65536 in Hr.
    destruct (le_val (sub 12 2 (formatted d)) =? 0xFFFF) eqn:E2; [done|].
    destruct (le_val (sub 12 2 (formatted d)) =? 0x7FFF) eqn:E3.
    + destruct (bool_decide (length (formatted d) < 32)%nat) eqn:E4; rewrite ?bool_decide_eq_true, ?bool_decide_eq_false in E4.
      { by replace (Z.of_nat _ <? 0x20) with true by lia. }
      replace (Z.of_nat _ <? 0x20) with false by lia. unfold bind at 1.
      by rewrite (member_eq _ _ 28 4) by (done || lia).
    + destruct (size_bits _ Hr) as [Hhi Hlo]. rewrite Hhi.
      destruct (le_val (sub 12 2 (formatted d)) <? 0x8000) eqn:E5; cbn [negb].
      * replace (0x8000 <=? _) with false by lia. apply Hnext.
      * replace (0x8000 <=? _) with true by lia. rewrite Hlo by lia. apply Hnext.
Qed.

(** The bytes of the value overwrite the start of the buffer. *)
Definition overwrite (v buf : list Z) : list Z := take (length buf) v ++ drop (length v) buf.

Lemma put_eq l buf ty : put_data l (Fetch buf ty) =
  if decide (length l <= length buf)%nat then Ret tt (Fetch (l ++ drop (length l) buf) ty) else Fault.
Proof.
  unfold put_data, bind, get. cbn [data]. unfold memcpy. case_decide as Hl.
  - rewrite bool_decide_true by done. done.
  - by rewrite bool_decide_false.
Qed.

Lemma put_take v buf ty : put_data (take (length buf) v) (Fetch buf ty) = Ret tt (Fetch (overwrite v buf) ty).
Proof.
  rewrite put_eq, decide_True by (rewrite length_take; lia). unfold overwrite. do 3 f_equal.
  rewrite length_take. destruct (decide (length v <= length buf)%nat); [by rewrite Nat.min_r by lia|].
  by rewrite Nat.min_l, !drop_ge by lia.
Qed.

Lemma fetch_mem_total_eq fuel buf ty : (length memory_devices < fuel)%nat ->
  smbios_fetch_mem_total fuel (Fetch buf ty) =
  if total_mb =? 0 then Ret (inl ENOENT) (Fetch buf ty)
  else if decide (4 <= length buf)%nat
       then Ret (inr 4) (Fetch (overwrite (be_bytes 4 total_mb) buf) ty) else Fault.
Proof.
  intros Hf. unfold smbios_fetch_mem_total, bind.
  rewrite (mem_total_loop_spec memory_devices fuel 0 0) by done. fold total_mb.
  change (u64 (foldl Z.add 0 (map device_mb memory_devices))) with total_mb.
  destruct (total_mb =? 0); [done|]. rewrite put_eq, be_bytes_length. case_decide; [|done].
  unfold overwrite. by rewrite take_ge, be_bytes_length by (rewrite be_bytes_length; lia).
Qed.

Lemma fetch_mem_type_eq buf ty :
  smbios_fetch_mem_type (Fetch buf ty) =
  match memory_devices !! 0%nat ≫= memory_type_value with
  | None => Ret (inl ENOENT) (Fetch buf ty)
  | Some v => Ret (inr (Z.of_nat (length v))) (Fetch (overwrite v buf) ty)
  end.
Proof.
  unfold smbios_fetch_mem_type. rewrite smbios_structure_lookup. fold memory_devices.
  destruct (memory_devices !! 0%nat) as [d|]; [|done]. cbn [mbind option_bind].
  unfold bind at 1. rewrite member_len. unfold memory_type_value. case_bool_decide as Hl.
  { by replace (Z.of_nat _ <? 0x13) with true by lia. }
  replace (Z.of_nat _ <? 0x13) with false by lia. unfold bind at 1.
  rewrite (member_eq _ _ 18 1) by (done || lia). rewrite le_val_sub1 by lia. unfold bind, get. cbn [data].
  change (match memory_type_names ?t with Some n => n | None => bstr "Unknown" end)
    with (default (bstr "Unknown") (memory_type_names t)).
  by rewrite put_take.
Qed.

Lemma fetch_mem_speed_eq buf ty :
  smbios_fetch_mem_speed (Fetch buf ty) =
  match memory_devices !! 0%nat ≫= memory_speed_value with
  | None => Ret (inl ENOENT) (Fetch buf ty)
  | Some v => if decide (2 <= length buf)%nat then Ret (inr 2) (Fetch (overwrite v buf) ty) else Fault
  end.
Proof.
  unfold smbios_fetch_mem_speed. rewrite smbios_structure_lookup. fold memory_devices.
  destruct (memory_devices !! 0%nat) as [d|]; [|done]. cbn [mbind option_bind].
  unfold bind at 1. rewrite member_len. unfold memory_speed_value. case_bool_decide as Hl.
  { by replace (Z.of_nat _ <? 0x17) with true by lia. }
  replace (Z.of_nat _ <? 0x17) with false by lia. unfold bind at 1.
  rewrite (member_eq _ _ 21 2) by (done || lia). unfold bind. rewrite put_eq, be_bytes_length.
  case_decide; [|done]. unfold overwrite. by rewrite take_ge, be_bytes_length by (rewrite be_bytes_length; lia).
Qed.

Lemma tag_part_range st k : 0 <= tag_part st k < 256.
Proof. unfold tag_part. change 0xff with (Z.ones 8). rewrite Z.land_ones by lia. apply Z.mod_pos_bound. lia. Qed.

Lemma tagged_source_eq st d buf ty :
  structures (tag_part st 16) !! Z.to_nat (tag_part st 24) = Some d ->
  smbios_source d (tag_part st 8) (tag_part st 0) (Fetch buf ty) =
  Ret (match tagged_source st with
       | None => inl ENOENT
       | Some (v, str) => inr (v, if str then
           (if decide (tag_part st 0 = 0) then byte_at (formatted d) (Z.to_nat (tag_part st 8)) else tag_part st 0)
           else 0)
       end) (Fetch buf ty).
Proof.
  intros Hd. unfold tagged_source. rewrite Hd. cbn [mbind option_bind].
  pose proof (tag_part_range st 8) as Hoff. pose proof (tag_part_range st 0) as Hn.
  set (off := tag_part st 8) in *. set (n := tag_part st 0) in *.
  unfold smbios_source. unfold bind at 1. rewrite member_len.
  destruct (decide (n = 0 /\ off = 0)) as [[Hn0 Ho0]|Hno].
  { rewrite Hn0, Ho0. cbn [Z.eqb andb]. unfold bind. rewrite sread_eq by lia. by rewrite Nat2Z.id, sub_all. }
  replace ((n =? 0) && (off =? 0)) with false by (symmetry; apply andb_false_iff; lia).
  case_decide as Hor.
  { replace ((n =? 0) || (off =? 0)) with true by (symmetry; apply orb_true_iff; lia).
    assert (forall x, (if (n =? 0) && (off <? Z.of_nat (length (formatted d)))
              then let* b := sread (Z.to_nat off) 1 d in ret (byte_at b 0) else ret n) x =
            Ret (if decide (n = 0) then byte_at (formatted d) (Z.to_nat off) else n) x) as Hidx.
    { intros x. case_decide as Hn0; [|by replace (n =? 0) with false by lia].
      replace (n =? 0) with true by lia. cbn [andb].
      destruct (off <? Z.of_nat (length (formatted d))) eqn:E.
      - unfold bind. rewrite sread_eq by lia. unfold ret. f_equal.
        rewrite <-le_val_sub1, <-le_val_sub1 by (rewrite ?sub_length; lia).
        by rewrite sub_sub by lia; rewrite Nat.add_0_r.
      - unfold ret, byte_at. rewrite lookup_ge_None_2 by lia. cbn. by f_equal. }
    unfold bind. rewrite Hidx. by destruct (smbios_string d _). }
  replace ((n =? 0) || (off =? 0)) with false by (symmetry; apply orb_false_iff; lia).
  destruct (off >? Z.of_nat (length (formatted d))) eqn:E.
  { unfold sub. rewrite drop_ge by lia. by rewrite take_nil. }
  unfold bind. rewrite sread_eq by lia. unfold ret. do 3 f_equal.
  unfold sub. destruct (decide (n <= Z.of_nat (length (formatted d)) - off)).
  - by rewrite Z.min_r by lia.
  - rewrite Z.min_l by lia. rewrite !take_ge by (rewrite length_drop; lia). done.
Qed.

(** A string index is never zero. *)
Lemma tagged_source_string st d v :
  structures (tag_part st 16) !! Z.to_nat (tag_part st 24) = Some d -> tagged_source st = Some (v, true) ->
  (if decide (tag_part st 0 = 0) then byte_at (formatted d) (Z.to_nat (tag_part st 8)) else tag_part st 0) <> 0.
Proof.
  intros Hd. unfold tagged_source. rewrite Hd. cbn [mbind option_bind].
  case_decide; [done|]. case_decide; [|done]. set (i := if decide _ then _ else _).
  intros Hs Hi. by rewrite Hi, smbios_string_zero in Hs.
Qed.

Lemma mangled_eq ty v :
  (if (bool_decide (ty = Some setting_type_uuid) || bool_decide (ty = Some setting_type_guid)) &&
      bool_decide (length v = 16%nat) && (SMBIOS_VERSION 2 6 <=? smbios_version)
   then uuid_mangle v else v) = mangled ty v.
Proof.
  unfold mangled. change (SMBIOS_VERSION 2 6) with 0x206.
  destruct (decide ((ty = Some setting_type_uuid \/ ty = Some setting_type_guid) /\
             length v = 16%nat /\ 0x206 <= smbios_version)) as [Hd|Hd];
    destruct (_ && _ && _) eqn:E; try done; exfalso.
  - destruct Hd as (Ht & Hl & Hv). rewrite (bool_decide_true (length v = 16%nat)), andb_true_r in E by done.
    apply andb_false_iff in E as [E|E]; [|lia]. rewrite orb_false_iff, !bool_decide_eq_false in E. tauto.
  - rewrite !andb_true_iff, orb_true_iff, !bool_decide_eq_true in E. apply Hd. split_and!; [apply E..|lia].
Qed.

(** [C28] SMBIOS settings: with a finite table, the fetch of any setting returns. It gives
    ENOENT and leaves the buffer alone when the setting has no value; otherwise it
    returns the length of the value, puts as much of the value into the buffer as fits
    and leaves the rest of the buffer, and gives an untyped setting its type. No
    structure is read outside its formatted area. The exception is a buffer shorter
    than the value of mem-total or mem-speed, which is overrun. *)
Theorem smbios_fetch_correct fuel st buf ty :
  (length memory_devices < fuel)%nat ->
  smbios_fetch fuel st (Fetch buf ty) =
  match smbios_value st ty with
  | None => Ret (inl ENOENT) (Fetch buf ty)
  | Some (v, ty') =>
      if ignores_length st && bool_decide (length buf < length v)%nat then Fault
      else Ret (inr (Z.of_nat (length v))) (Fetch (overwrite v buf) ty')
  end.
Proof.
  intros Hf. unfold smbios_fetch, smbios_value, ignores_length, kind_of.
  destruct (setting_cmp st mem_total_setting =? 0).
  { rewrite fetch_mem_total_eq by done. destruct (total_mb =? 0); [done|].
    rewrite be_bytes_length. cbn [andb]. case_decide; [rewrite bool_decide_false by lia|rewrite bool_decide_true by lia]; done. }
  destruct (setting_cmp st mem_type_setting =? 0).
  { rewrite fetch_mem_type_eq. by destruct (_ ≫= _). }
  destruct (setting_cmp st mem_speed_setting =? 0).
  { rewrite fetch_mem_speed_eq. destruct (memory_devices !! 0%nat ≫= memory_speed_value) as [v|] eqn:Ev; [|done].
    cbn [fmap option_fmap option_map andb].
    assert (length v = 2%nat) as ->.
    { destruct (memory_devices !! 0%nat) as [d|]; [|done]. cbn in Ev. unfold memory_speed_value in Ev.
      case_bool_decide; [done|]. injection Ev as <-. apply be_bytes_length. }
    case_decide; [rewrite bool_decide_false by lia|rewrite bool_decide_true by lia]; done. }
  cbn [andb]. rewrite smbios_structure_lookup. fold (tag_part st 16). fold (tag_part st 24). fold (tag_part st 8).
  change (Z.land (set_tag st) 0xff) with (tag_part st 0).
  destruct (structures (tag_part st 16) !! Z.to_nat (tag_part st 24)) as [d|] eqn:Hd.
  2: { unfold tagged_source. by rewrite Hd. }
  unfold bind at 1. rewrite (tagged_source_eq st d) by done.
  pose proof (tagged_source_string st d) as Hstr.
  destruct (tagged_source st) as [[v str]|]; [|done]. cbn [mbind option_bind].
  unfold bind, gets, get. cbn [data ftype]. rewrite mangled_eq, put_take.
  destruct ty as [t|]; [done|]. unfold update, ret. do 2 f_equal. cbn. do 2 f_equal.
  destruct str; [|done]. specialize (Hstr v Hd eq_refl). by destruct (_ =? 0) eqn:E; [lia|].
Qed.

(** A query for the existence or the length of mem-total, which passes no buffer, makes
    the fetch write through a null pointer. *)
Theorem mem_total_overrun fuel ty :
  (length memory_devices < fuel)%nat -> total_mb <> 0 ->
  smbios_fetch fuel mem_total_setting (Fetch [] ty) = Fault.
Proof.
  intros Hf Ht. unfold smbios_fetch. rewrite setting_cmp_refl. cbn [Z.eqb].
  rewrite fetch_mem_total_eq by done. by replace (total_mb =? 0) with false by lia.
Qed.

(** The UUID is the sixteen bytes at offset 8 of the system information. *)
Lemma uuid_setting_value d :
  kind_of uuid_setting = Tagged -> structures SMBIOS_TYPE_SYSTEM_INFORMATION !! 0%nat = Some d ->
  smbios_value uuid_setting (set_type uuid_setting) =
  Some (mangled (Some setting_type_uuid) (sub 8 16 (formatted d)), Some setting_type_uuid).
Proof. intros Hk Hd. unfold smbios_value, tagged_source. rewrite Hk. change (structures (tag_part uuid_setting 16) !! Z.to_nat (tag_part uuid_setting 24)) with (structures SMBIOS_TYPE_SYSTEM_INFORMATION !! 0%nat). by rewrite Hd. Qed.
End Fetching.

(** ** A concrete machine *)
Module ToySmbios.
(** System information and three memory devices: 16384 MB, an extended size of
    65536 MB, and one of unknown size. *)
Inductive object : Type := System | Dimm0 | Dimm1 | Dimm2.

Definition dimm (size : Z) : list Z :=
  [17; 32; 0; 0; 0; 0; 0; 0; 0; 0; 0; 0] ++ le_bytes 2 size ++ [0; 0; 0; 0; 0x22; 0; 0; 0xC0; 0x12] ++ zeros 5 ++
  le_bytes 4 65536.

Definition objects (t : Z) : list object :=
  if t =? 1 then [System] else if t =? 17 then [Dimm0; Dimm1; Dimm2] else [].

#[export] Instance ops : SmbiosOps := {
  structure := object;
  formatted d := match d with
    | System => [1; 27; 0; 0; 1; 2; 0; 3] ++ [16; 17; 18; 19; 20; 21; 22; 23; 24; 25; 26; 27; 28; 29; 30; 31] ++ [6; 0; 0]
    | Dimm0 => dimm 0x4000
    | Dimm1 => dimm 0x7FFF
    | Dimm2 => dimm 0xFFFF
    end;
  smbios_structure t i := objects t !! i;
  smbios_string d i := if i =? 0 then None else
    match d with System => [bstr "Maker"; bstr "Box"; bstr "SN-1"] !! Z.to_nat (i - 1) | _ => None end;
  smbios_version := 0x304;
  uuid_mangle l := reverse (take 4 l) ++ drop 4 l;
  setting_cmp a b := if bool_decide (set_name a = set_name b) then 0 else 1;
}.

#[export] Instance laws : SmbiosLaws.
Proof.
  refine {| structures := objects |}.
  - done.
  - intros d. assert (forallb (fun b => (0 <=? b) && (b <? 256)) (formatted d) = true) as Hb by by destruct d.
    induction (formatted d) as [|b l IH]; [constructor|]. cbn [forallb] in Hb.
    apply andb_true_iff in Hb as [Hb Hl]. constructor; [unfold is_byte; lia|by apply IH].
  - intros []; vm_compute; lia.
  - by intros [].
  - done.
  - intros l Hl. cbn [uuid_mangle ops]. rewrite length_app, length_reverse, length_take, length_drop. lia.
  - intros st. cbn [setting_cmp ops]. by rewrite bool_decide_true.
Defined.
End ToySmbios.

#[local] Existing Instances ToySmbios.ops ToySmbios.laws.

(** A string, a number that fits, and a number that overruns a buffer of three bytes. *)
Lemma smbios_fetch_correct_witness :
  smbios_fetch 4 serial_setting (Fetch (zeros 6) (Some setting_type_string)) =
    Ret (inr 4) (Fetch (bstr "SN-1" ++ [0; 0]) (Some setting_type_string)) /\
  smbios_fetch 4 mem_total_setting (Fetch (zeros 6) (Some setting_type_uint32)) =
    Ret (inr 4) (Fetch [0; 1; 0x40; 0; 0; 0] (Some setting_type_uint32)) /\
  smbios_fetch 4 mem_total_setting (Fetch (zeros 3) (Some setting_type_uint32)) = Fault.
Proof.
  split_and!; rewrite (smbios_fetch_correct 4) by (vm_compute; lia); reflexivity.
Defined.
