(* ===== verification/Settings.v ===== *)
(** * Settings

    What the settings core of iPXE promises to tofu.c and devicekey_cmd.c: the values
    kept in the non-volatile block, and whether another block also has a setting.
    The EFI-backed options block keeps that promise. *)

From stdpp Require Import base list strings.
From Stdlib Require Import ZArith Lia.
From S2P Require Import Prelude Dhcp Nvo NvoToy EfiNvs.

(** [nvo_present] is [find_settings ( NVO_SETTINGS_NAME )], [nvo_value] a setting of
    that block, [elsewhere] whether any other block has it; [store_setting] stores
    into the non-volatile block, and deletes when the value is empty. *)
Class SettingsOps (S : Type) := {
  nvo_present : S -> bool;
  nvo_value : Z -> S -> option (list Z);
  elsewhere : Z -> S -> bool;
  store_setting : Z -> list Z -> M S status;
}.

Definition delete_setting {S} `{SettingsOps S} (t : Z) : M S status := store_setting t [].

(** [setting_exists ( NULL, .. )] looks in every block, [setting_exists ( settings, .. )] in one. *)
Definition setting_exists {S} `{SettingsOps S} (t : Z) (s : S) : bool :=
  bool_decide (is_Some (nvo_value t s)) || elsewhere t s.
Definition nvo_setting_exists {S} `{SettingsOps S} (t : Z) (s : S) : bool :=
  bool_decide (is_Some (nvo_value t s)).

(** The effect of a store that returned [rc]: only the setting itself and those that
    encapsulate it or are encapsulated in it can change, and after success it has the
    value. *)
Record stored_setting {S} `{SettingsOps S} (ok : S -> Prop) (tag_ok : Z -> Prop) (t : Z) (d : list Z)
  (s : S) (rc : status) (s' : S) : Prop := {
  ss_ok : ok s';
  ss_present : nvo_present s' = true;
  ss_elsewhere t' : elsewhere t' s' = elsewhere t' s;
  ss_others t' : independent t t' -> tag_ok t' -> nvo_value t' s' = nvo_value t' s;
  ss_value : rc = OK -> nvo_value t s' = if bool_decide (d = []) then None else Some d;
}.

Class SettingsLaws (S : Type) `{SettingsOps S} := {
  settings_ok : S -> Prop;
  tag_ok : Z -> Prop;
  tag_ok_project : tag_ok DHCP_EB_TRUST /\ tag_ok DHCP_EB_DEVICE_KEY /\ tag_ok DHCP_EB_SERVER_FINGERPRINT;
  store_setting_spec t d s : settings_ok s -> nvo_present s = true -> tag_ok t -> bytes_ok d ->
    wp False (store_setting t d) (stored_setting settings_ok tag_ok t d s) s;
}.

(** ** The options block as a settings block *)
Section NvoSettings.
Context `{EfiLaws} `{NvsLibLaws} `{DhcpOptLaws} (E : nvo_env) `{NvoEnvLaws E}.

#[global] Instance nvo_settings : SettingsOps (nvo_state efi) := {
  nvo_present s := nvo_registered (nvo s);
  nvo_value t s := match nvo_fetch t s with inr d => Some d | inl _ => None end;
  elsewhere _ _ := false;
  store_setting := nvo_store E;
}.

(** Only the registration changes the registration. *)
Lemma store_registered tag data (s : nvo_state efi) :
  nvo_registered (nvo s) = true -> bytes_ok data ->
  wp False (dhcpopt_store _ get_opts put_opts (nvo_realloc_dhcpopt E) tag data)
    (fun _ s' => nvo_registered (nvo s') = true) s.
Proof.
  intros Hr Hb. apply (dhcpopt_store_frame _ _ _ _ tag data (fun s => nvo_registered (nvo s) = true)); auto.
  intros n s1 Hs1. unfold nvo_realloc_dhcpopt. cbn. by apply wp_nvo_realloc.
Qed.

Lemma fix_checksum_registered n : nvo_registered (fix_checksum n) = nvo_registered n.
Proof. unfold fix_checksum. by destruct (nvo_data n). Qed.
Lemma fix_checksum_len n : nvo_len (fix_checksum n) = nvo_len n.
Proof. unfold fix_checksum. by destruct (nvo_data n). Qed.

#[global] Instance nvo_settings_laws : SettingsLaws (nvo_state efi).
Proof.
  refine {| settings_ok := live_inv; tag_ok := option_tag |}.
  - split_and!; apply (bool_decide_unpack _); by vm_compute.
  - intros t d s [Hw Hl Hu] Hr Ht Hb. cbn [store_setting nvo_settings]. unfold nvo_store. wp_step.
    pose proof (dhcpopt_store_frame _ get_opts put_opts (nvo_realloc_dhcpopt E) t d
      (fun s => nvo_wf (nvo s) /\ nvo_len (nvo s) <> 1%nat) s
      (fun n s I => wp_conj _ _ _ _ _ (nvo_realloc_dhcpopt_wf E n s (proj1 I)) (realloc_dhcpopt_len E n s (proj2 I)))
      (fun o s I Ho Hk => conj (put_opts_wf o s (proj1 I) Ho Hk) (proj2 I)) Hb (conj Hw Hl)) as Hf.
    pose proof (store_registered t d s Hr Hb) as Hg.
    assert (owner get_opts put_opts (nvo_realloc_dhcpopt (D:=efi) E)) as Hown
      by by apply (nvo_owner (D:=efi) E efi_nvs_resize).
    unfold wp at 1 in Hf. unfold wp at 1 in Hg. unfold wp at 1.
    destruct (dhcpopt_store _ _ _ _ t d s) as [[|e] s1| |] eqn:Hd; try done; destruct Hf as [Hw1 Hl1].
    + destruct (dhcpopt_store_ok _ _ _ _ t d s s1 Hown Ht Hb Hu Hd) as (Hu1 & _ & Hsome & Hnone & Hoth).
      eapply wp_mono; [by apply nvo_save_eq|]. cbv beta zeta. intros rc s2 (Hn & Hwf & Ho & _).
      assert (nvo_registered (nvo s2) = true /\ nvo_len (nvo s2) <> 1%nat) as [Hr2 Hl2].
      { rewrite Hn. by case_bool_decide; rewrite ?fix_checksum_registered, ?fix_checksum_len. }
      constructor; cbn [nvo_present nvo_value elsewhere nvo_settings]; unfold nvo_fetch; rewrite ?Ho; try done.
      * constructor; [by rewrite Hn|done|by rewrite Ho].
      * intros t' Hne Ht'. by rewrite Hoth.
      * intros _. clear Hn Hwf. case_bool_decide as He; [by rewrite Hnone|].
        by rewrite (proj2 (Hsome He)).
    + destruct (dhcpopt_store_err _ _ _ _ t d s s1 e Hown Ht Hb Hu Hd) as [Hu1 Hoth].
      constructor; cbn [nvo_present nvo_value elsewhere nvo_settings]; unfold nvo_fetch; try done.
      intros t' Hne Ht'. by rewrite Hoth.
Defined.
End NvoSettings.
