(* ===== verification/Tofu.v ===== *)
(** * Trust on first use (net/tofu.c, and its use in net/tls.c, lines 4989-5046)

    The registration window of the device: the first server whose certificate does
    not validate is accepted and its fingerprint is stored; from then on a failed
    validation is fatal. *)

From stdpp Require Import base list strings.
From Stdlib Require Import ZArith Lia.
From S2P Require Import Prelude Dhcp Nvo NvoToy EfiNvs Settings.

Definition TOFU_FINGERPRINT_LEN : nat := 32.

(** Certificates belong to the X.509 library; it computes fingerprints. *)
Class X509Ops := {
  certificate : Type;
  x509_fingerprint : certificate -> list Z;
}.
Class X509Laws `{X509Ops} : Prop := {
  fingerprint_length c : length (x509_fingerprint c) = TOFU_FINGERPRINT_LEN;
  fingerprint_ok c : bytes_ok (x509_fingerprint c);
}.

Definition TLS_TX_CERTIFICATE : Z := 0x0002.
Definition TLS_TX_CLIENT_KEY_EXCHANGE : Z := 0x0004.
Definition TLS_TX_CERTIFICATE_VERIFY : Z := 0x0008.
Definition TLS_TX_CHANGE_CIPHER : Z := 0x0010.
Definition TLS_TX_FINISHED : Z := 0x0020.

(** The members of a TLS connection that the end of the validation concerns: the
    pending-validation count, the messages to be sent, whether the server's
    certificate has been marked valid, the process, and the alert the connection was
    closed with; and the settings. *)
Record tls_server (S : Type) : Type := TlsServer {
  validation : Z;
  tx_pending : Z;
  marked_valid : bool;
  tx_running : bool;
  closed_with : option status;
  settings : S;
}.
Arguments TlsServer {S}.
Arguments validation {S} _.
Arguments tx_pending {S} _.
Arguments marked_valid {S} _.
Arguments tx_running {S} _.
Arguments closed_with {S} _.
Arguments settings {S} _.

#[export] Instance eta_tls_server S : Eta (tls_server S) :=
  fun t => TlsServer (validation t) (tx_pending t) (marked_valid t) (tx_running t) (closed_with t) (settings t).

Section Tofu.
Context {S : Type} `{SettingsOps S} `{X509Ops}.

(** [tofu_fingerprint_present] *)
Definition tofu_fingerprint_present (s : S) : bool := setting_exists DHCP_EB_SERVER_FINGERPRINT s.

(** [tofu_store] *)
Definition tofu_store (cert : option certificate) : M S status :=
  match cert with
  | None => ret (Err EINVAL)
  | Some cert =>
      let fingerprint := x509_fingerprint cert in
      let* present := gets nvo_present in
      if negb present then ret (Err ENODEV) else
      try* store_setting DHCP_EB_SERVER_FINGERPRINT fingerprint in
      try* store_setting DHCP_EB_TRUST fingerprint in
      ret OK
  end.

(** Run a computation on the settings of a connection. *)
Definition on_settings {A} (m : M S A) : M (tls_server S) A :=
  fun t => match m (settings t) with
           | Ret a s => Ret a (t <| settings := s |>)
           | Fault => Fault
           | NoFuel => NoFuel
           end.

(** The messages scheduled after a successful validation; [client] is the client's
    certificate chain: [Some true] if it has certificates. *)
Definition validated_pending (client : option bool) (pending : Z) : Z :=
  let pending := Z.lor pending (Z.lor (Z.lor TLS_TX_CLIENT_KEY_EXCHANGE TLS_TX_CHANGE_CIPHER)
                                 TLS_TX_FINISHED) in
  match client with
  | None => pending
  | Some nonempty =>
      let pending := Z.lor pending TLS_TX_CERTIFICATE in
      if nonempty then Z.lor pending TLS_TX_CERTIFICATE_VERIFY else pending
  end.

(** [tls_validator_done]: [cert] is the first certificate of the server's chain. *)
Definition tls_validator_done (cert : option certificate) (client : option bool) (rc : status)
  : M (tls_server S) unit :=
  let validated :=
    update (fun t => t <| tx_pending ::= validated_pending client |> <| tx_running := true |>) in
  let failed rc := update (fun t => t <| closed_with := Some rc |>) in
  do* update (fun t => t <| validation ::= (fun n => n - 1) |>) in
  match rc with
  | OK => validated
  | Err e =>
      let* s := gets settings in
      if negb (tofu_fingerprint_present s) then
        let* rc := on_settings (tofu_store cert) in
        match rc with
        | OK =>
            do* update (fun t => t <| marked_valid := true |>) in
            validated
        | Err e => failed (Err e)
        end
      else failed (Err e)
  end.
End Tofu.

Section TofuProofs.
Context {S : Type} `{SettingsLaws S} `{X509Laws}.
Implicit Types (s : S).

Lemma store_present t d s s' rc :
  stored_setting settings_ok tag_ok t d s rc s' -> rc = OK -> d <> [] -> setting_exists t s' = true.
Proof.
  intros Hs Hrc Hd. unfold setting_exists. rewrite (ss_value _ _ _ _ _ _ _ Hs Hrc), (bool_decide_false (d = [])) by done.
  by rewrite bool_decide_true by by eexists.
Qed.

Lemma fingerprint_nonempty c : x509_fingerprint c <> [].
Proof. intros Hc. pose proof (fingerprint_length c) as Hl. rewrite Hc in Hl. done. Qed.

(** The two stores of [tofu_store], and which of them happened. *)
Lemma tofu_store_spec cert s :
  settings_ok s -> wp False (tofu_store cert) (fun rc s' =>
    settings_ok s' /\
    match rc with
    | OK => exists c, cert = Some c /\ nvo_present s = true /\ nvo_present s' = true /\
        nvo_value DHCP_EB_SERVER_FINGERPRINT s' = Some (x509_fingerprint c) /\
        nvo_value DHCP_EB_TRUST s' = Some (x509_fingerprint c)
    | Err _ => True
    end /\
    (forall t, independent DHCP_EB_SERVER_FINGERPRINT t -> independent DHCP_EB_TRUST t -> tag_ok t ->
       nvo_value t s' = nvo_value t s)) s.
Proof.
  destruct (tag_ok_project (S:=S)) as (Ht1 & _ & Ht2). intros Hok. unfold tofu_store.
  destruct cert as [c|]; [|by wp_go]. wp_step. wp_step. destruct (nvo_present s) eqn:Hp; [|by wp_go]. cbn [negb].
  pose proof (fingerprint_ok c) as Hb. pose proof (fingerprint_nonempty c) as Hne.
  wp_step. eapply wp_mono; [by apply store_setting_spec|]. intros rc s1 Hs1.
  destruct rc as [|e]; [|split_and!; [apply Hs1|done|]; intros t ? ? ?; by apply (ss_others _ _ _ _ _ _ _ Hs1)].
  wp_step. eapply wp_mono; [apply store_setting_spec; [apply Hs1|apply Hs1|done|done]|]. intros rc s2 Hs2.
  assert (forall t, independent DHCP_EB_SERVER_FINGERPRINT t -> independent DHCP_EB_TRUST t -> tag_ok t ->
    nvo_value t s2 = nvo_value t s) as Hoth.
  { intros t ? ? ?. rewrite (ss_others _ _ _ _ _ _ _ Hs2) by done. by apply (ss_others _ _ _ _ _ _ _ Hs1). }
  destruct rc as [|e]; [|split_and!; [apply Hs2|done|done]]. wp_go. split_and!; [apply Hs2| |done].
  exists c. split_and!; [done|done|apply Hs2| |].
  - rewrite (ss_others _ _ _ _ _ _ _ Hs2) by (done || by vm_compute).
    by rewrite (ss_value _ _ _ _ _ _ _ Hs1 eq_refl), bool_decide_false.
  - by rewrite (ss_value _ _ _ _ _ _ _ Hs2 eq_refl), bool_decide_false.
Qed.

(** The settings stay in order, whatever the validation said. *)
Lemma validator_done_ok cert client rc t :
  settings_ok (settings t) -> wp False (tls_validator_done cert client rc) (fun _ t' => settings_ok (settings t')) t.
Proof.
  intros Hok. unfold tls_validator_done. do 2 wp_step. destruct rc as [|e]; [by wp_go|]. do 2 wp_step.
  cbn [settings modify]. destruct (negb _); [|by wp_go]. wp_step. unfold wp at 1, on_settings. cbn [settings modify].
  pose proof (tofu_store_spec cert (settings t) Hok) as Hw. unfold wp in Hw.
  destruct (tofu_store cert (settings t)) as [[|e'] s'| |]; [..|done|done]; wp_go; cbn; apply Hw.
Qed.

(** Both stores of a registration succeed: the fingerprint of [c] first as the server
    fingerprint, then as the trust anchor. *)
Definition registers (c : certificate) s : Prop :=
  nvo_present s = true /\ exists s1 s2,
    store_setting DHCP_EB_SERVER_FINGERPRINT (x509_fingerprint c) s = Ret OK s1 /\
    store_setting DHCP_EB_TRUST (x509_fingerprint c) s1 = Ret OK s2.

Lemma tofu_store_registers cert s :
  settings_ok s -> wp False (tofu_store cert) (fun rc _ =>
    rc = OK <-> exists c, cert = Some c /\ registers c s) s.
Proof.
  destruct (tag_ok_project (S:=S)) as (Ht1 & _ & Ht2). intros Hok. unfold tofu_store, registers.
  destruct cert as [c|]; [|wp_step; naive_solver]. wp_step. wp_step.
  destruct (nvo_present s) eqn:Hp; cbn [negb]; [|wp_step; naive_solver].
  pose proof (store_setting_spec _ _ _ Hok Hp Ht2 (fingerprint_ok c)) as Hw.
  unfold wp, try, bind in *. destruct (store_setting _ _ s) as [[|e] s1| |] eqn:Hs1; cbn;
    [|split; [done|]; intros (? & [= <-] & _ & ? & ? & Hx & _); congruence|done..].
  pose proof (store_setting_spec _ _ _ (ss_ok _ _ _ _ _ _ _ Hw) (ss_present _ _ _ _ _ _ _ Hw) Ht1
    (fingerprint_ok c)) as Hw2.
  unfold wp in Hw2. destruct (store_setting DHCP_EB_TRUST _ s1) as [[|e] s2| |] eqn:Hs2; cbn;
    [|split; [done|]; intros (? & [= <-] & _ & ? & ? & Hx & Hy); rewrite Hs1 in Hx; congruence|done..].
  split; [|done]. intros _. exists c. split_and!; [done..|]. by exists s1, s2.
Qed.

(** [C22] The registration window: when the validation of a server's certificate has
    failed, the connection goes on if and only if no fingerprint was present and both
    stores of the certificate's fingerprint succeed (there is a certificate and a
    non-volatile block, and each store reports success).  Then the certificate is marked
    valid, exactly the messages of a successful validation are scheduled, the fingerprint
    is present both as the server fingerprint and as the trust anchor, and the settings
    independent of these two are as they were.  In every other case the connection is closed with an
    error, that of the validation if a fingerprint was present, and nothing is scheduled
    or marked valid. *)
Theorem tofu_window cert client e t :
  settings_ok (settings t) -> wp False (tls_validator_done cert client (Err e)) (fun _ t' =>
    let open := (tofu_fingerprint_present (settings t) = false) in
    (forall c, open -> cert = Some c -> registers c (settings t) ->
       closed_with t' = closed_with t /\ marked_valid t' = true /\ tx_running t' = true /\
       tx_pending t' = validated_pending client (tx_pending t) /\
       nvo_value DHCP_EB_SERVER_FINGERPRINT (settings t') = Some (x509_fingerprint c) /\
       nvo_value DHCP_EB_TRUST (settings t') = Some (x509_fingerprint c) /\
       (forall i, independent DHCP_EB_SERVER_FINGERPRINT i -> independent DHCP_EB_TRUST i -> tag_ok i ->
          nvo_value i (settings t') = nvo_value i (settings t))) /\
    (~ (open /\ exists c, cert = Some c /\ registers c (settings t)) ->
       (exists e', closed_with t' = Some (Err e') /\ (~ open -> e' = e /\ settings t' = settings t)) /\
       tx_pending t' = tx_pending t /\ tx_running t' = tx_running t /\ marked_valid t' = marked_valid t) /\
    validation t' = validation t - 1) t.
Proof.
  intros Hok. unfold tls_validator_done. do 4 wp_step. cbn [settings modify].
  destruct (tofu_fingerprint_present (settings t)); cbn [negb]; [wp_go; naive_solver|]. wp_step.
  unfold wp at 1, on_settings. pose proof (tofu_store_spec cert (settings t) Hok) as Hw. unfold wp in Hw.
  pose proof (tofu_store_registers cert (settings t) Hok) as Hr. unfold wp in Hr.
  cbn [settings modify]. destruct (tofu_store cert (settings t)) as [[|e'] s'| |]; try done.
  - destruct Hw as (_ & (c & -> & _ & _ & Hv1 & Hv2) & Ho). wp_go. cbn. naive_solver.
  - wp_go. cbn. naive_solver.
Qed.

(** The window closes: once a server has been accepted on first use, every later
    failed validation closes its connection, whatever certificate it concerns. *)
Theorem tofu_window_closes cert client e t t' cert' client' e' t2 :
  settings_ok (settings t) -> tls_validator_done cert client (Err e) t = Ret tt t' ->
  tofu_fingerprint_present (settings t) = false -> closed_with t = None ->
  closed_with t' = None -> settings t2 = settings t' ->
  exists t3, tls_validator_done cert' client' (Err e') t2 = Ret tt t3 /\ closed_with t3 = Some (Err e') /\
    settings t3 = settings t2.
Proof.
  intros Hok Hd Hp Hc Hc' Heq. unfold tls_validator_done, bind, update, gets in Hd. cbn [settings modify] in Hd.
  rewrite Hp in Hd. cbn [negb] in Hd. unfold on_settings in Hd. cbn [settings modify] in Hd.
  pose proof (tofu_store_spec cert (settings t) Hok) as Hw. unfold wp in Hw.
  destruct (tofu_store cert (settings t)) as [[|e1] s1| |]; [|injection Hd as <-; by cbn in Hc'|done..].
  injection Hd as <-. cbn in Heq. destruct Hw as (_ & (c & -> & _ & _ & Hv1 & _) & _).
  unfold tls_validator_done, bind, update, gets. cbn [settings modify]. rewrite Heq.
  unfold tofu_fingerprint_present, setting_exists. rewrite Hv1, bool_decide_true by by eexists. cbn.
  eexists. split; [done|]. split; [done|]. cbn. done.
Qed.

(** Registration is not atomic: when the fingerprint could be stored but the trust
    anchor could not, the connection is closed with the error, and yet the window is
    closed: the fingerprint is present, so that the same server is refused on the
    next attempt although it was never trusted. *)
Theorem tofu_half_registered c client e0 e t s1 s2 :
  settings_ok (settings t) -> nvo_present (settings t) = true ->
  tofu_fingerprint_present (settings t) = false ->
  store_setting DHCP_EB_SERVER_FINGERPRINT (x509_fingerprint c) (settings t) = Ret OK s1 ->
  store_setting DHCP_EB_TRUST (x509_fingerprint c) s1 = Ret (Err e) s2 ->
  exists t', tls_validator_done (Some c) client (Err e0) t = Ret tt t' /\
    closed_with t' = Some (Err e) /\ marked_valid t' = marked_valid t /\
    tofu_fingerprint_present (settings t') = true.
Proof.
  destruct (tag_ok_project (S:=S)) as (Ht1 & _ & Ht2). intros Hok Hp Hf Hs1 Hs2.
  pose proof (fingerprint_ok c) as Hb. pose proof (fingerprint_nonempty c) as Hne.
  pose proof (wp_elim _ _ _ _ _ _ (store_setting_spec _ _ _ Hok Hp Ht2 Hb) Hs1) as Hst1.
  pose proof (wp_elim _ _ _ _ _ _ (store_setting_spec _ _ _ (ss_ok _ _ _ _ _ _ _ Hst1) (ss_present _ _ _ _ _ _ _ Hst1)
    Ht1 Hb) Hs2) as Hst2.
  unfold tls_validator_done, bind, update, gets. cbn [settings modify]. rewrite Hf. cbn [negb].
  unfold on_settings, tofu_store, bind, gets, try, bind. cbn [settings modify]. rewrite Hp. cbn [negb].
  rewrite Hs1, Hs2. eexists. split; [reflexivity|]. split; [done|]. split; [done|]. cbn [settings modify].
  unfold tofu_fingerprint_present, setting_exists. rewrite (ss_others _ _ _ _ _ _ _ Hst2) by (done || by vm_compute).
  rewrite (ss_value _ _ _ _ _ _ _ Hst1 eq_refl), (bool_decide_false (x509_fingerprint c = [])) by done.
  by rewrite bool_decide_true by by eexists.
Qed.
End TofuProofs.

(** ** On the EFI-backed block *)
Section TofuReboot.
Context `{EfiLaws} `{NvsLibLaws} `{DhcpOptLaws} (E : nvo_env) `{NvoEnvLaws E} `{X509Laws}.

(** [C21] The pin survives a power cycle: after a successful [tofu_store] on a live
    options block, the startup function of the next boot finds the fingerprint both
    as server fingerprint and as trust anchor, and the registration window is closed. *)
Theorem fingerprint_survives_reboot E' `{NvoEnvLaws E'} c (s s' : nvo_state efi) :
  live E s -> @tofu_store _ (nvo_settings E) _ (Some c) s = Ret OK s' ->
  readable (dev s') -> resourceful E' ->
  exists s'', efi_nvs_startup E' (power_on (dev s')) = Ret tt s'' /\
    nvo_fetch DHCP_EB_SERVER_FINGERPRINT s'' = inr (x509_fingerprint c) /\
    nvo_fetch DHCP_EB_TRUST s'' = inr (x509_fingerprint c) /\
    @tofu_fingerprint_present _ (nvo_settings E') s'' = true.
Proof.
  intros Hli Hs Hr Hres. apply live_live_inv in Hli; [|done].
  assert (option_tag DHCP_EB_SERVER_FINGERPRINT) as Ht1 by (apply (bool_decide_unpack _); by vm_compute).
  assert (option_tag DHCP_EB_TRUST) as Ht2 by (apply (bool_decide_unpack _); by vm_compute).
  pose proof (fingerprint_ok c) as Hb. pose proof (fingerprint_nonempty c) as Hne.
  unfold tofu_store, bind, gets, try, bind in Hs. destruct (negb _); [done|].
  cbn [store_setting nvo_settings] in Hs.
  destruct (nvo_store E DHCP_EB_SERVER_FINGERPRINT _ s) as [[|e] s1| |] eqn:Hs1; try done.
  destruct (nvo_store E DHCP_EB_TRUST _ s1) as [[|e] s2| |] eqn:Hs2; try done. injection Hs as <-.
  destruct (store_live E _ _ s s1 Hli Ht1 Hb Hs1) as (Hli1 & _ & _ & Hf1 & _).
  destruct (store_live E _ _ s1 s2 Hli1 Ht2 Hb Hs2) as (Hli2 & Hmi & Hfb & Hf2 & Hoth).
  destruct (reboot_opts E' s2 Hli2 Hmi Hfb Hr Hres) as (s'' & Hst & Ho & _).
  rewrite bool_decide_false in Hf1, Hf2 by done.
  assert (nvo_fetch DHCP_EB_SERVER_FINGERPRINT s'' = inr (x509_fingerprint c)) as Hfp.
  { unfold nvo_fetch. rewrite Ho. fold (nvo_fetch DHCP_EB_SERVER_FINGERPRINT s2).
    by rewrite Hoth, Hf1 by (done || by vm_compute). }
  exists s''. split_and!; [done|done| |].
  - unfold nvo_fetch. rewrite Ho. exact Hf2.
  - unfold tofu_fingerprint_present, setting_exists. cbn [nvo_value nvo_settings]. rewrite Hfp.
    by rewrite bool_decide_true by by eexists.
Qed.
End TofuReboot.

(** ** A concrete registration *)
Module ToyX509.
#[export] Instance ops : X509Ops := {
  certificate := list Z;
  x509_fingerprint c := take 32 (map u8 c ++ zeros 32);
}.
#[export] Instance laws : X509Laws.
Proof.
  split; intros c; cbn.
  - rewrite length_take, length_app. unfold zeros. rewrite length_replicate. unfold TOFU_FINGERPRINT_LEN. lia.
  - apply Forall_take, Forall_app. split; [apply ToyOpt.map_u8_ok|apply zeros_ok].
Qed.
End ToyX509.

#[local] Existing Instances ToyEfi.ops ToyEfi.laws ToyOpt.dhcp ToyOpt.dhcp_laws ToyOpt.nvs ToyOpt.nvs_laws
  ToyOpt.env_laws ToyX509.ops ToyX509.laws.

Module DemoTofu.
(** Memory runs out after [n] requests. *)
Definition env (n : nat) : nvo_env := {|
  realloc_ok k := bool_decide (k < n)%nat;
  fresh_bytes _ k := zeros k;
  register_rc _ := OK;
|}.
#[export] Instance env_laws n : NvoEnvLaws (env n).
Proof. split; intros; cbn; [apply length_replicate|apply zeros_ok]. Qed.

Definition cert : @certificate ToyX509.ops := bstr "certificate".
Definition other : @certificate ToyX509.ops := bstr "other".
Definition connection {S} (s : S) : tls_server S := TlsServer 1 0 false false None s.
Definition first : tls_server (nvo_state efi) := connection DemoNvs.booted.
Definition second : tls_server (nvo_state efi) :=
  match @tls_validator_done _ (nvo_settings ToyOpt.env) _ (Some cert) None (Err EACCES) first with
  | Ret _ t => t
  | _ => first
  end.

Lemma booted_inv : live_inv DemoNvs.booted.
Proof. apply (live_live_inv ToyOpt.env). exact DemoNvs.booted_live. Qed.

Lemma after {S} (P : tls_server S -> Prop) (m : M (tls_server S) unit) t d :
  wp False m (fun _ => P) t -> P d -> P (match m t with Ret _ t' => t' | _ => d end).
Proof. unfold wp. by destruct (m t). Qed.

Lemma second_inv : live_inv (settings second).
Proof.
  apply (after (fun t => live_inv (settings t))); [|exact booted_inv].
  apply (@validator_done_ok _ (nvo_settings ToyOpt.env) (nvo_settings_laws ToyOpt.env) ToyX509.ops ToyX509.laws
    (Some cert) None (Err EACCES) first booted_inv).
Qed.
End DemoTofu.
#[local] Existing Instance DemoTofu.env_laws.

Section Window.
#[local] Instance demo_settings : SettingsOps (nvo_state efi) := nvo_settings ToyOpt.env.
#[local] Instance demo_laws : SettingsLaws (nvo_state efi) := nvo_settings_laws ToyOpt.env.

Lemma first_open : tofu_fingerprint_present (settings DemoTofu.first) = false.
Proof. vm_compute. reflexivity. Qed.

Lemma first_registers : registers DemoTofu.cert (settings DemoTofu.first).
Proof.
  split; [vm_compute; reflexivity|].
  destruct (store_setting DHCP_EB_SERVER_FINGERPRINT (x509_fingerprint DemoTofu.cert) (settings DemoTofu.first))
    as [[|e] s1| |] eqn:H1; try (exfalso; revert H1; vm_compute; discriminate).
  destruct (store_setting DHCP_EB_TRUST (x509_fingerprint DemoTofu.cert) s1)
    as [[|e] s2| |] eqn:H2; try (exfalso; revert H2; vm_compute in H1; injection H1 as <-; vm_compute; discriminate).
  exists s1, s2. split; [reflexivity|exact H2].
Qed.

Lemma second_closed : tofu_fingerprint_present (settings DemoTofu.second) = true.
Proof. vm_compute. reflexivity. Qed.

Lemma second_pending : tx_pending DemoTofu.second = 0x34.
Proof. vm_compute. reflexivity. Qed.

(** The first server goes on and becomes the trust anchor; the second does not go on. *)
Lemma tofu_window_witness :
  wp False (tls_validator_done (Some DemoTofu.cert) None (Err EACCES)) (fun _ t' =>
    closed_with t' = None /\ marked_valid t' = true /\ tx_pending t' = 0x34 /\
    nvo_value DHCP_EB_TRUST (settings t') = Some (x509_fingerprint DemoTofu.cert)) DemoTofu.first /\
  wp False (tls_validator_done (Some DemoTofu.other) None (Err EACCES)) (fun _ t' =>
    closed_with t' = Some (Err EACCES) /\ tx_pending t' = 0x34) DemoTofu.second.
Proof.
  split.
  - eapply wp_mono; [apply (@tofu_window _ _ demo_laws _ _ (Some DemoTofu.cert) None EACCES DemoTofu.first DemoTofu.booted_inv)|].
    intros [] t' [Hw _]. destruct (Hw DemoTofu.cert first_open eq_refl first_registers) as (Hc & Hm & _ & Hp & _ & Hv & _).
    split; [exact Hc|]. split; [exact Hm|]. split; [exact Hp|exact Hv].
  - eapply wp_mono; [apply (@tofu_window _ _ demo_laws _ _ (Some DemoTofu.other) None EACCES DemoTofu.second DemoTofu.second_inv)|].
    intros [] t' (_ & Hw & _). cbv zeta in Hw. rewrite second_closed, second_pending in Hw.
    destruct Hw as ((e' & Hc & He) & Hx & _); [intros [Hd _]; discriminate|].
    destruct He as [-> _]; [discriminate|]. split; [exact Hc|exact Hx].
Defined.
End Window.

Lemma tofu_window_closes_witness :
  exists t3, @tls_validator_done _ (nvo_settings ToyOpt.env) _ (Some DemoTofu.other) None (Err EACCES)
               DemoTofu.second = Ret tt t3 /\ closed_with t3 = Some (Err EACCES).
Proof.
  destruct (@tofu_window_closes _ (nvo_settings ToyOpt.env) (nvo_settings_laws ToyOpt.env) ToyX509.ops ToyX509.laws
    (Some DemoTofu.cert) None EACCES DemoTofu.first DemoTofu.second (Some DemoTofu.other) None EACCES
    DemoTofu.second) as (t3 & Hd & Hc & _).
  - exact DemoTofu.booted_inv.
  - vm_compute. reflexivity.
  - vm_compute. reflexivity.
  - reflexivity.
  - vm_compute. reflexivity.
  - reflexivity.
  - exists t3. split; [exact Hd|exact Hc].
Defined.

(** The second store finds no memory. *)
Lemma tofu_half_registered_witness :
  exists t', @tls_validator_done _ (nvo_settings (DemoTofu.env 5)) _ (Some DemoTofu.cert) None (Err EACCES)
               DemoTofu.first = Ret tt t' /\
    closed_with t' = Some (Err ENOMEM) /\ @tofu_fingerprint_present _ (nvo_settings (DemoTofu.env 5)) (settings t') = true.
Proof.
  destruct (nvo_store (DemoTofu.env 5) DHCP_EB_SERVER_FINGERPRINT (x509_fingerprint DemoTofu.cert)
    DemoNvs.booted) as [[|e] s1| |] eqn:Hs1; try (exfalso; revert Hs1; vm_compute; discriminate).
  destruct (nvo_store (DemoTofu.env 5) DHCP_EB_TRUST (x509_fingerprint DemoTofu.cert) s1)
    as [[|e] s2| |] eqn:Hs2; try (exfalso; revert Hs2; vm_compute in Hs1; injection Hs1 as <-; vm_compute; discriminate).
  assert (e = ENOMEM) as ->.
  { vm_compute in Hs1. injection Hs1 as <-. vm_compute in Hs2. injection Hs2 as <- _. reflexivity. }
  destruct (@tofu_half_registered _ (nvo_settings (DemoTofu.env 5)) (nvo_settings_laws (DemoTofu.env 5)) ToyX509.ops ToyX509.laws
    DemoTofu.cert None EACCES ENOMEM DemoTofu.first s1 s2) as (t' & Hd & Hc & _ & Hp).
  - exact DemoTofu.booted_inv.
  - vm_compute. reflexivity.
  - vm_compute. reflexivity.
  - exact Hs1.
  - exact Hs2.
  - exists t'. split; [exact Hd|]. split; [exact Hc|exact Hp].
Defined.

Lemma fingerprint_survives_reboot_witness :
  let s' := DemoNvs.run (@tofu_store _ (nvo_settings ToyOpt.env) _ (Some DemoTofu.cert)) DemoNvs.keyed in
  exists s'', efi_nvs_startup ToyOpt.env (power_on (dev s')) = Ret tt s'' /\
    nvo_fetch DHCP_EB_TRUST s'' = inr (x509_fingerprint DemoTofu.cert).
Proof.
  intros s'. destruct (fingerprint_survives_reboot ToyOpt.env ToyOpt.env DemoTofu.cert DemoNvs.keyed s')
    as (s'' & Hs & _ & Hf & _).
  - exact DemoNvs.keyed_live.
  - vm_compute. reflexivity.
  - apply ToyEfi.readable_all.
  - exact ToyEfi.resourceful_env.
  - exists s''. split; [exact Hs|exact Hf].
Defined.
