(* ===== verification/DeviceKey.v ===== *)
(** * Device identity commands (hci/commands/devicekey_cmd.c)

    The "keygen" command, which creates the device's private key in non-volatile
    storage, and the "nvclear" command, which returns the device to its factory
    state.  The random bit generator and the parser of setting names are parameters. *)

From stdpp Require Import base list strings.
From Stdlib Require Import ZArith Lia.
From S2P Require Import Prelude Dhcp Nvo NvoToy EfiNvs Settings.

Definition P256_LEN : nat := 32.

(** The deterministic random bit generator: whether it can be set up, and what its
    [n]-th request gives; [parse_setting_name] gives the tag of a setting. *)
Class DeviceOps := {
  drbg_instantiate : status;
  drbg_generate : nat -> status * list Z;
  parse_setting_name : list Z -> errno + Z;
}.

Class DeviceLaws `{DeviceOps} : Prop := {
  drbg_length n : length (drbg_generate n).2 = P256_LEN;
  drbg_ok n : bytes_ok (drbg_generate n).2;
  parse_device_key : parse_setting_name (bstr "device-key") = inr DHCP_EB_DEVICE_KEY;
  parse_fingerprint : parse_setting_name (bstr "server-fingerprint") = inr DHCP_EB_SERVER_FINGERPRINT;
  parse_trust : parse_setting_name (bstr "trust") = inr DHCP_EB_TRUST;
}.

Section DeviceKey.
Context {S : Type} `{SettingsOps S} `{DeviceOps}.

(** The loop of [keygen_exec]: ask again while the key is zero. *)
Fixpoint keygen_loop (fuel n : nat) : option (errno + list Z) :=
  match fuel with
  | O => None
  | Datatypes.S fuel =>
      match drbg_generate n with
      | (Err e, _) => Some (inl e)
      | (OK, priv) => if bool_decide (priv = zeros P256_LEN) then keygen_loop fuel (Datatypes.S n)
                      else Some (inr priv)
      end
  end.

(** [keygen_exec] *)
Definition keygen_exec (fuel : nat) : M S status :=
  let* exists_ := gets (setting_exists DHCP_EB_DEVICE_KEY) in
  if (exists_ : bool) then ret (Err EEXIST) else
  match drbg_instantiate with
  | Err e => ret (Err e)
  | OK =>
      match keygen_loop fuel 0 with
      | None => fun _ => NoFuel
      | Some (inl e) => ret (Err e)
      | Some (inr priv) =>
          let* present := gets nvo_present in
          if negb present then ret (Err ENODEV) else
          store_setting DHCP_EB_DEVICE_KEY priv
      end
  end.

(** [nvclear_settings] *)
Definition nvclear_settings : list (list Z) :=
  [bstr "device-key"; bstr "server-fingerprint"; bstr "trust"].

(** [if ( ! rc ) rc = rcx] *)
Definition first_error (rc rcx : status) : status := match rc with OK => rcx | Err _ => rc end.

(** One turn of the loop of [nvclear_exec]. *)
Definition nvclear_one (name : list Z) (rc : status) : M S status :=
  match parse_setting_name name with
  | inl e => ret (first_error rc (Err e))
  | inr tag =>
      let* exists_ := gets (nvo_setting_exists tag) in
      if negb exists_ then ret rc else
      let* rcx := delete_setting tag in
      ret (first_error rc rcx)
  end.

Fixpoint nvclear_loop (names : list (list Z)) (rc : status) : M S status :=
  match names with
  | [] => ret rc
  | name :: names => let* rc := nvclear_one name rc in nvclear_loop names rc
  end.

(** [nvclear_exec] *)
Definition nvclear_exec : M S status :=
  let* present := gets nvo_present in
  if negb present then ret (Err ENODEV) else nvclear_loop nvclear_settings OK.
End DeviceKey.

Section DeviceKeyProofs.
Context {S : Type} `{SettingsLaws S} `{DeviceLaws}.
Implicit Types (s : S).

(** The first request that fails or gives a key other than zero. *)
Definition drbg_useful (k : nat) : Prop :=
  (drbg_generate k).1 <> OK \/ (drbg_generate k).2 <> zeros P256_LEN.

Lemma keygen_loop_useful k : drbg_useful k -> forall fuel n, (n <= k)%nat -> (k < n + fuel)%nat ->
  match keygen_loop fuel n with
  | Some (inr priv) => length priv = P256_LEN /\ bytes_ok priv /\ priv <> zeros P256_LEN
  | Some (inl _) => True
  | None => False
  end.
Proof.
  intros Hk. induction fuel as [|fuel IH]; intros n Hn Hf; [lia|]. cbn [keygen_loop].
  pose proof (drbg_length n) as Hl. pose proof (drbg_ok n) as Hb.
  destruct (drbg_generate n) as [[|e] priv] eqn:Hg; [|done]. cbn in Hl, Hb. case_bool_decide as Hz; [|done].
  apply IH; [|lia]. destruct (decide (n = k)) as [->|]; [|lia].
  exfalso. unfold drbg_useful in Hk. rewrite Hg in Hk. naive_solver.
Qed.

(** Key generation: with a generator that is not stuck on zero, "keygen" returns;
    an existing key is never overwritten and nothing is stored then; when it reports
    success, the non-volatile block holds a 32-byte key that is not zero, and every
    independent setting of the block is as it was. *)
Theorem keygen_correct k fuel s :
  settings_ok s -> drbg_useful k -> (k < fuel)%nat ->
  wp False (keygen_exec fuel) (fun rc s' =>
    (setting_exists DHCP_EB_DEVICE_KEY s = true -> rc = Err EEXIST /\ s' = s) /\
    (rc = OK -> exists priv, nvo_value DHCP_EB_DEVICE_KEY s' = Some priv /\ length priv = P256_LEN /\
       priv <> zeros P256_LEN) /\
    (forall t, independent DHCP_EB_DEVICE_KEY t -> tag_ok t -> nvo_value t s' = nvo_value t s)) s.
Proof.
  destruct (tag_ok_project (S:=S)) as (_ & Ht & _). intros Hok Hk Hf. unfold keygen_exec. wp_step. wp_step.
  destruct (setting_exists DHCP_EB_DEVICE_KEY s) eqn:He; [by wp_go|].
  destruct drbg_instantiate; [|by wp_go].
  pose proof (keygen_loop_useful k Hk fuel 0 ltac:(lia) ltac:(lia)) as Hl.
  destruct (keygen_loop fuel 0) as [[e|priv]|]; [by wp_go| |done]. destruct Hl as (Hl & Hb & Hnz).
  wp_step. wp_step. destruct (nvo_present s) eqn:Hp; cbn [negb]; [|by wp_go].
  eapply wp_mono; [by apply store_setting_spec|]. intros rc s' Hs. split_and!; [done| |apply Hs].
  intros Hrc. exists priv. rewrite (ss_value _ _ _ _ _ _ _ Hs Hrc), bool_decide_false; [done|].
  intros ->. done.
Qed.

(** One turn: the setting is gone if the turn added no error. *)
Lemma nvclear_one_spec name t rc s :
  parse_setting_name name = inr t -> settings_ok s -> nvo_present s = true -> tag_ok t ->
  wp False (nvclear_one name rc) (fun rc' s' => settings_ok s' /\ nvo_present s' = true /\
    (rc' = OK -> rc = OK /\ nvo_value t s' = None) /\
    (forall t', independent t t' -> tag_ok t' -> nvo_value t' s' = nvo_value t' s)) s.
Proof.
  intros Hn Hok Hp Ht. unfold nvclear_one, nvo_setting_exists. rewrite Hn. wp_step. wp_step.
  case_bool_decide as Hx; cbn [negb].
  - wp_step. eapply wp_mono; [apply store_setting_spec; [done..|constructor]|]. intros rcx s' Hs. wp_step.
    split_and!; [apply Hs|apply Hs| |apply Hs]. destruct rc; [|done]. cbn. intros ->.
    split; [done|]. by rewrite (ss_value _ _ _ _ _ _ _ Hs eq_refl).
  - wp_step. split_and!; [done..| |done]. intros ->. split; [done|]. by apply eq_None_not_Some.
Qed.

(** Factory reset: "nvclear" returns; when it reports success, the device key, the
    server fingerprint and the trust anchor are gone from the non-volatile block; in
    any case no setting of the block that is independent of them has changed. *)
Theorem nvclear_clears s :
  settings_ok s -> wp False nvclear_exec (fun rc s' =>
    (rc = OK -> nvo_value DHCP_EB_DEVICE_KEY s' = None /\
       nvo_value DHCP_EB_SERVER_FINGERPRINT s' = None /\ nvo_value DHCP_EB_TRUST s' = None) /\
    (forall t, independent DHCP_EB_DEVICE_KEY t -> independent DHCP_EB_SERVER_FINGERPRINT t ->
       independent DHCP_EB_TRUST t -> tag_ok t -> nvo_value t s' = nvo_value t s)) s.
Proof.
  destruct (tag_ok_project (S:=S)) as (Ht3 & Ht1 & Ht2). intros Hok. unfold nvclear_exec, nvclear_settings.
  wp_step. wp_step. destruct (nvo_present s) eqn:Hp; [|by wp_go]. cbn [negb nvclear_loop].
  wp_step. eapply wp_mono; [by apply (nvclear_one_spec _ _ _ _ parse_device_key)|].
  intros rc1 s1 (Hok1 & Hp1 & Hv1 & Ho1).
  wp_step. eapply wp_mono; [by apply (nvclear_one_spec _ _ _ _ parse_fingerprint)|].
  intros rc2 s2 (Hok2 & Hp2 & Hv2 & Ho2).
  wp_step. eapply wp_mono; [by apply (nvclear_one_spec _ _ _ _ parse_trust)|].
  intros rc3 s3 (Hok3 & Hp3 & Hv3 & Ho3). wp_step. split.
  - intros Hrc. destruct (Hv3 Hrc) as [Hrc2 HV3]. destruct (Hv2 Hrc2) as [Hrc1 HV2]. destruct (Hv1 Hrc1) as [_ HV1].
    split_and!; [|by rewrite Ho3 by (done || by vm_compute)|done].
    rewrite Ho3, Ho2 by (done || by vm_compute). done.
  - intros t Hn1 Hn2 Hn3 Ht. by rewrite Ho3, Ho2, Ho1.
Qed.
End DeviceKeyProofs.

(** ** Concrete commands *)
Module ToyDevice.
#[export] Instance ops : DeviceOps := {
  drbg_instantiate := OK;
  drbg_generate n := (OK, replicate P256_LEN (if bool_decide (n = 0%nat) then 0 else 7));
  parse_setting_name name :=
    if bool_decide (name = bstr "device-key") then inr DHCP_EB_DEVICE_KEY
    else if bool_decide (name = bstr "server-fingerprint") then inr DHCP_EB_SERVER_FINGERPRINT
    else if bool_decide (name = bstr "trust") then inr DHCP_EB_TRUST
    else inl ENOENT;
}.
#[export] Instance laws : DeviceLaws.
Proof.
  split; [| |done|done|done]; intros n; cbn [drbg_generate ops snd]; [apply length_replicate|].
  apply Forall_replicate. unfold is_byte. case_bool_decide; lia.
Qed.
End ToyDevice.

#[local] Existing Instances ToyEfi.ops ToyEfi.laws ToyOpt.dhcp ToyOpt.dhcp_laws ToyOpt.nvs ToyOpt.nvs_laws
  ToyOpt.env_laws ToyDevice.ops ToyDevice.laws.

Lemma demo_booted_inv : live_inv DemoNvs.booted.
Proof. apply (live_live_inv ToyOpt.env). exact DemoNvs.booted_live. Qed.

(** The first request gives zero, the second a key. *)
Lemma keygen_correct_witness :
  wp False (@keygen_exec _ (nvo_settings ToyOpt.env) _ 2) (fun rc s' =>
    rc = OK -> exists priv, @nvo_value _ (nvo_settings ToyOpt.env) DHCP_EB_DEVICE_KEY s' = Some priv /\
      length priv = P256_LEN) DemoNvs.booted.
Proof.
  eapply wp_mono.
  - apply (@keygen_correct _ (nvo_settings ToyOpt.env) (nvo_settings_laws ToyOpt.env)
      ToyDevice.ops ToyDevice.laws 1 2 DemoNvs.booted).
    + exact demo_booted_inv.
    + right. vm_compute. discriminate.
    + lia.
  - intros rc s' (_ & Hw & _) Hrc. destruct (Hw Hrc) as (priv & Hv & Hl & _). exists priv. split; [exact Hv|exact Hl].
Defined.

Lemma demo_keyed_inv : live_inv DemoNvs.keyed.
Proof. apply (live_live_inv ToyOpt.env). exact DemoNvs.keyed_live. Qed.

Lemma nvclear_clears_witness :
  wp False (@nvclear_exec _ (nvo_settings ToyOpt.env) _) (fun rc s' =>
    rc = OK -> @nvo_value _ (nvo_settings ToyOpt.env) DHCP_EB_DEVICE_KEY s' = None) DemoNvs.keyed.
Proof.
  eapply wp_mono.
  - apply (@nvclear_clears _ (nvo_settings ToyOpt.env) (nvo_settings_laws ToyOpt.env) ToyDevice.ops ToyDevice.laws
      DemoNvs.keyed). exact demo_keyed_inv.
  - intros rc s' [Hw _] Hrc. apply (Hw Hrc).
Defined.
