(* ===== verification/DeviceSign.v ===== *)
(** * Device identity commands: "pubkey" and "sign" (hci/commands/devicekey_cmd.c)

    "pubkey" shows the public key of the device's private key, "sign" signs its
    arguments with the private key.  P-256, the ASN.1 builder, ECDSA, base64 and the
    settings core are parameters; what a verifier may rely on is a law of ECDSA. *)

From stdpp Require Import base list strings.
From Stdlib Require Import ZArith Lia.
From S2P Require Import Prelude Dhcp Crypto Nvo NvoToy EfiNvs Settings DeviceKey.

(** "prime256v1" object identifier (1.2.840.10045.3.1.7) *)
Definition oid_prime256v1 : list Z := [0x06; 0x08; 0x2a; 0x86; 0x48; 0xce; 0x3d; 0x03; 0x01; 0x07].

(** Identifier octets of ASN.1, and the tag of an uncompressed point. *)
Definition ASN1_INTEGER : Z := 0x02.
Definition ASN1_BIT_STRING : Z := 0x03.
Definition ASN1_OCTET_STRING : Z := 0x04.
Definition ASN1_SEQUENCE : Z := 0x30.
Definition ASN1_EXPLICIT_TAG (n : Z) : Z := 0xa0 + n.
Definition ELLIPTIC_FORMAT_UNCOMPRESSED : Z := 0x04.

(** A DER object whose contents are shorter than 128 bytes. *)
Definition der (type : Z) (l : list Z) : list Z := type :: Z.of_nat (length l) :: l.

(** ** The libraries

    [fetch_raw_setting] looks in every settings block and gives the buffer it filled
    in; [store_default] is [store_setting ( NULL, .. )].  The first argument of a
    builder operation tells the calls apart, since each may fail to allocate. *)
Class SignOps (S : Type) := {
  fetch_raw_setting : Z -> nat -> S -> (errno + Z) * list Z;
  store_default : Z -> list Z -> M S status;
  p256_multiply_base : list Z -> status * list Z;
  asn1_builder : Type;
  asn1_empty : asn1_builder;
  asn1_data : asn1_builder -> list Z;
  asn1_prepend_raw : nat -> asn1_builder -> list Z -> status * asn1_builder;
  asn1_prepend : nat -> asn1_builder -> Z -> list Z -> status * asn1_builder;
  asn1_wrap : nat -> asn1_builder -> Z -> status * asn1_builder;
  pubkey_sign : list Z -> digest_algorithm -> list Z -> status * list Z;
  ecdsa_verify : list Z -> digest_algorithm -> list Z -> list Z -> bool;
  base64_encode : list Z -> list Z;
  zalloc_ok : bool;
}.

(** An ECPrivateKey of RFC 5915 on the curve prime256v1, with its public key. *)
Definition ec_private_key (priv pub : list Z) : list Z :=
  der ASN1_SEQUENCE
    (der ASN1_INTEGER [1] ++ der ASN1_OCTET_STRING priv ++
     der (ASN1_EXPLICIT_TAG 0) oid_prime256v1 ++
     der (ASN1_EXPLICIT_TAG 1) (der ASN1_BIT_STRING (0 :: pub))).

Section Sign.
Context {S : Type} `{SignOps S} `{DigestOps}.

(** [devicekey_fetch] *)
Definition devicekey_fetch : M S ((errno + Z) * list Z) := gets (fetch_raw_setting DHCP_EB_DEVICE_KEY P256_LEN).

(** [devicekey_pubkey] *)
Definition devicekey_pubkey (priv : list Z) : status * list Z :=
  let (rc, point) := p256_multiply_base priv in (rc, ELLIPTIC_FORMAT_UNCOMPRESSED :: point).

(** [pubkey_exec]; the printed text is the same value in hexadecimal. *)
Definition pubkey_exec : M S status :=
  let* fetched := devicekey_fetch in
  match fetched with
  | (inl e, _) => ret (Err e)
  | (inr _, priv) =>
      match devicekey_pubkey priv with
      | (Err e, _) => ret (Err e)
      | (OK, pub) => store_default DHCP_EB_PUBKEY pub
      end
  end.

(** The construction of the key in [sign_exec]: the statuses of the ten operations, and
    the builder of the key. *)
Definition construct_steps (priv pub : list Z) : list status * asn1_builder :=
  let (rc0, pubkey) := asn1_prepend_raw 0 asn1_empty (0 :: pub) in
  let (rc1, pubkey) := asn1_wrap 1 pubkey ASN1_BIT_STRING in
  let (rc2, pubkey) := asn1_wrap 2 pubkey (ASN1_EXPLICIT_TAG 1) in
  let (rc3, params) := asn1_prepend_raw 3 asn1_empty oid_prime256v1 in
  let (rc4, params) := asn1_wrap 4 params (ASN1_EXPLICIT_TAG 0) in
  let (rc5, key) := asn1_prepend_raw 5 asn1_empty (asn1_data pubkey) in
  let (rc6, key) := asn1_prepend_raw 6 key (asn1_data params) in
  let (rc7, key) := asn1_prepend 7 key ASN1_OCTET_STRING priv in
  let (rc8, key) := asn1_prepend 8 key ASN1_INTEGER [1] in
  let (rc9, key) := asn1_wrap 9 key ASN1_SEQUENCE in
  ([rc0; rc1; rc2; rc3; rc4; rc5; rc6; rc7; rc8; rc9], key).

(** The status is that of the last operation, as the comma operator has it. *)
Definition construct_key (priv pub : list Z) : status * asn1_builder :=
  let (rcs, key) := construct_steps priv pub in (List.last rcs OK, key).

(** The digest of the arguments after the command's name. *)
Definition digest_args (args : list (list Z)) : list Z :=
  digest_final sha256_algorithm
    (foldl (digest_update sha256_algorithm) (digest_init sha256_algorithm) args).

(** [sign_exec]; [argv] includes the name of the command. *)
Definition sign_exec (argv : list (list Z)) : M S status :=
  if bool_decide (length argv < 2)%nat then ret (Err EINVAL) else
  let* fetched := devicekey_fetch in
  match fetched with
  | (inl e, _) => ret (Err e)
  | (inr _, priv) =>
      match devicekey_pubkey priv with
      | (Err e, _) => ret (Err e)
      | (OK, pub) =>
          match construct_key priv pub with
          | (Err e, _) => ret (Err e)
          | (OK, key) =>
              match pubkey_sign (asn1_data key) sha256_algorithm (digest_args (drop 1 argv)) with
              | (Err e, _) => ret (Err e)
              | (OK, signature) =>
                  if negb zalloc_ok then ret (Err ENOMEM) else
                  store_default DHCP_EB_SIG (base64_encode signature)
              end
          end
      end
  end.
End Sign.

(** What an operation of the builder does: it puts [l] in the place of the contents, or,
    when there is no memory for that, reports an error and leaves them as they are. *)
Definition built {T : Type} `{SignOps T} (b : asn1_builder) (l : list Z) (r : status * asn1_builder) : Prop :=
  asn1_data r.2 = match r.1 with OK => l | Err _ => asn1_data b end.

(** ** What the libraries promise

    [default_value] is a setting outside the non-volatile block, where a store without
    a block puts it. *)
Class SignLaws (S : Type) `{SettingsOps S, SignOps S, DigestOps} := {
  default_value : Z -> S -> option (list Z);
  fetch_nvo t n s v : nvo_value t s = Some v -> elsewhere t s = false ->
    fetch_raw_setting t n s = (inr (Z.of_nat (length v)), take n v ++ zeros (n - length v));
  fetch_none t n s : nvo_value t s = None -> elsewhere t s = false ->
    exists e b, fetch_raw_setting t n s = (inl e, b);
  store_default_spec t v s :
    wp False (store_default t v) (fun rc s' =>
      (forall t', nvo_value t' s' = nvo_value t' s) /\
      (forall t', t' <> t -> elsewhere t' s' = elsewhere t' s) /\
      (forall t', t' <> t -> default_value t' s' = default_value t' s) /\
      (rc = OK -> default_value t s' = Some v) /\ (rc <> OK -> default_value t s' = default_value t s)) s;
  p256_length k : length (p256_multiply_base k).2 = 64%nat;
  asn1_data_empty : asn1_data asn1_empty = [];
  asn1_prepend_raw_spec n b l : built b (l ++ asn1_data b) (asn1_prepend_raw n b l);
  asn1_prepend_spec n b t l : (length l < 128)%nat -> built b (der t l ++ asn1_data b) (asn1_prepend n b t l);
  asn1_wrap_spec n b t : (length (asn1_data b) < 128)%nat -> built b (der t (asn1_data b)) (asn1_wrap n b t);
  ecdsa_sound priv point d h sig : length priv = P256_LEN ->
    p256_multiply_base priv = (OK, point) ->
    pubkey_sign (ec_private_key priv (ELLIPTIC_FORMAT_UNCOMPRESSED :: point)) d h = (OK, sig) ->
    ecdsa_verify (ELLIPTIC_FORMAT_UNCOMPRESSED :: point) d h sig = true;
}.

Section SignProofs.
Context {S : Type} `{SignLaws S} `{!DigestLaws}.
Implicit Types (s : S).

(** The contents [l] of a builder after the operations with the statuses [rcs]: they are
    [full] if all succeeded, and shorter if one did not. *)
Definition part (rcs : list status) (l full : list Z) : Prop :=
  (length l <= length full)%nat /\ (Forall (eq OK) rcs -> l = full) /\
  (~ Forall (eq OK) rcs -> (length l < length full)%nat).

Lemma all_ok_dec (rcs : list status) : Forall (eq OK) rcs \/ ~ Forall (eq OK) rcs.
Proof. destruct (decide (Forall (fun rc => OK = rc) rcs)); auto. Qed.

Lemma der_length t (l : list Z) : length (der t l) = (2 + length l)%nat.
Proof. done. Qed.

Lemma part_nil l : part [] l l.
Proof. split_and!; [done..|]. by intros []. Qed.

Lemma part_iff rcs rcs' l full : (Forall (eq OK) rcs' <-> Forall (eq OK) rcs) -> part rcs l full -> part rcs' l full.
Proof. unfold part. intros ->. done. Qed.

Lemma part_app rcs1 rcs2 l1 f1 l2 f2 :
  part rcs1 l1 f1 -> part rcs2 l2 f2 -> part (rcs1 ++ rcs2) (l1 ++ l2) (f1 ++ f2).
Proof.
  intros (Hl1 & He1 & Hn1) (Hl2 & He2 & Hn2). unfold part. rewrite Forall_app, !length_app.
  split_and!; [lia|intros [Hx Hy]; by rewrite He1, He2|]. intros Hno.
  destruct (all_ok_dec rcs1) as [Hx|Hx]; [|specialize (Hn1 Hx); lia].
  destruct (all_ok_dec rcs2) as [Hy|Hy]; [tauto|specialize (Hn2 Hy); lia].
Qed.

Lemma part_der rcs t l f : part rcs l f -> part rcs (der t l) (der t f).
Proof.
  intros (Hl & He & Hn). unfold part. rewrite !der_length. split_and!; [lia|intros Hx; by rewrite He|].
  intros Hx. specialize (Hn Hx). lia.
Qed.

(** An operation that builds [l] from [b], the contents of [b] being shorter than the whole. *)
Lemma part_step (b b' : asn1_builder) rc l rcs full : built b l (rc, b') -> part rcs l full ->
  (length (asn1_data b) < length full)%nat -> part (rcs ++ [rc]) (asn1_data b') full.
Proof.
  unfold built. cbn [fst snd]. intros -> (Hl & He & Hn) Hlt. unfold part. rewrite Forall_app, Forall_singleton.
  destruct rc; split_and!; (lia || tauto || (intros [? ?]; done) || (intros ?; lia)).
Qed.

Lemma part_raw n b rcs1 rcs2 l1 f1 f2 rc b' :
  asn1_prepend_raw n b l1 = (rc, b') -> part rcs1 l1 f1 -> part rcs2 (asn1_data b) f2 -> (0 < length f1)%nat ->
  part ((rcs1 ++ rcs2) ++ [rc]) (asn1_data b') (f1 ++ f2).
Proof.
  intros E Hp1 Hp2 Hl. eapply part_step; [rewrite <-E; apply asn1_prepend_raw_spec|by apply part_app|].
  rewrite length_app. pose proof (proj1 Hp2). lia.
Qed.

Lemma part_prepend n b t l rcs f rc b' :
  asn1_prepend n b t l = (rc, b') -> part rcs (asn1_data b) f -> (length l < 128)%nat ->
  part (rcs ++ [rc]) (asn1_data b') (der t l ++ f).
Proof.
  intros E Hp Hl. eapply part_step; [rewrite <-E; by apply asn1_prepend_spec|apply (part_app []); [apply part_nil|done]|].
  rewrite length_app, der_length. pose proof (proj1 Hp). lia.
Qed.

Lemma part_wrap n b t rcs f rc b' :
  asn1_wrap n b t = (rc, b') -> part rcs (asn1_data b) f -> (length f < 128)%nat ->
  part (rcs ++ [rc]) (asn1_data b') (der t f).
Proof.
  intros E Hp Hl. pose proof (proj1 Hp).
  eapply part_step; [rewrite <-E; apply asn1_wrap_spec; lia|by apply part_der|]. rewrite der_length. lia.
Qed.

(** The key is an ECPrivateKey exactly if all ten operations succeeded. *)
Lemma construct_steps_part priv pub rcs key :
  length priv = P256_LEN -> length pub = 65%nat -> construct_steps priv pub = (rcs, key) ->
  part rcs (asn1_data key) (ec_private_key priv pub).
Proof.
  change P256_LEN with 32%nat. intros Hp Hq. unfold construct_steps, ec_private_key.
  destruct (asn1_prepend_raw 0 _ _) as [rc0 b0] eqn:E0. destruct (asn1_wrap 1 _ _) as [rc1 b1] eqn:E1.
  destruct (asn1_wrap 2 _ _) as [rc2 b2] eqn:E2. destruct (asn1_prepend_raw 3 _ _) as [rc3 b3] eqn:E3.
  destruct (asn1_wrap 4 _ _) as [rc4 b4] eqn:E4. destruct (asn1_prepend_raw 5 _ _) as [rc5 b5] eqn:E5.
  destruct (asn1_prepend_raw 6 _ _) as [rc6 b6] eqn:E6. destruct (asn1_prepend 7 _ _ _) as [rc7 b7] eqn:E7.
  destruct (asn1_prepend 8 _ _ _) as [rc8 b8] eqn:E8. destruct (asn1_wrap 9 _ _) as [rc9 b9] eqn:E9.
  intros [= <- <-].
  assert (part [] (asn1_data asn1_empty) []) as Hemp by (rewrite asn1_data_empty; apply part_nil).
  pose proof (part_raw _ _ _ _ _ _ _ _ _ E0 (part_nil (0 :: pub)) Hemp ltac:(cbn; lia)) as P0.
  pose proof (part_wrap _ _ _ _ _ _ _ E1 P0 ltac:(rewrite length_app; cbn; lia)) as P1.
  pose proof (part_wrap _ _ _ _ _ _ _ E2 P1 ltac:(rewrite der_length, length_app; cbn; lia)) as P2.
  pose proof (part_raw _ _ _ _ _ _ _ _ _ E3 (part_nil oid_prime256v1) Hemp ltac:(cbn; lia)) as P3.
  pose proof (part_wrap _ _ _ _ _ _ _ E4 P3 ltac:(cbn; lia)) as P4.
  pose proof (part_raw _ _ _ _ _ _ _ _ _ E5 P2 Hemp ltac:(cbn; lia)) as P5.
  pose proof (part_raw _ _ _ _ _ _ _ _ _ E6 P4 P5 ltac:(cbn; lia)) as P6.
  pose proof (part_prepend _ _ _ _ _ _ _ _ E7 P6 ltac:(lia)) as P7.
  pose proof (part_prepend _ _ _ _ _ _ _ _ E8 P7 ltac:(cbn; lia)) as P8.
  eapply part_wrap in P8; [|exact E9|]; cycle 1.
  { rewrite !length_app, !der_length, !length_app. cbn [length oid_prime256v1]. lia. }
  rewrite !app_nil_r in P8. eapply part_iff; [|exact P8].
  cbn [app]. rewrite !Forall_cons. tauto.
Qed.

Lemma construct_key_spec priv pub key :
  length priv = P256_LEN -> length pub = 65%nat -> construct_key priv pub = (OK, key) ->
  Forall (eq OK) (construct_steps priv pub).1 -> asn1_data key = ec_private_key priv pub.
Proof.
  intros Hp Hq. unfold construct_key. destruct (construct_steps priv pub) as [rcs b] eqn:E. intros [= _ <-] Hall.
  by apply (construct_steps_part _ _ _ _ Hp Hq E).
Qed.

Lemma digest_fold c a args :
  foldl (digest_update sha256_algorithm) (digest_update sha256_algorithm c a) args =
  digest_update sha256_algorithm c (a ++ concat args).
Proof.
  revert a. induction args as [|x args IH]; intros a; cbn; [by rewrite app_nil_r|].
  by rewrite digest_update_app, IH, app_assoc.
Qed.

Lemma digest_args_concat a args : digest_args (a :: args) = H sha256_algorithm (concat (a :: args)).
Proof. unfold digest_args, H. cbn. by rewrite digest_fold. Qed.

(** The device has a private key of the proper length, and only there. *)
Definition has_key (priv : list Z) s : Prop :=
  nvo_value DHCP_EB_DEVICE_KEY s = Some priv /\ length priv = P256_LEN /\ elsewhere DHCP_EB_DEVICE_KEY s = false.

Lemma fetch_key priv s : has_key priv s ->
  exists n, fetch_raw_setting DHCP_EB_DEVICE_KEY P256_LEN s = (inr n, priv).
Proof.
  intros (Hv & Hl & He). eexists. rewrite (fetch_nvo _ _ _ _ Hv He), Hl, Nat.sub_diag, take_ge by lia.
  unfold zeros. by rewrite app_nil_r.
Qed.

Lemma devicekey_pubkey_length priv : length (devicekey_pubkey priv).2 = 65%nat.
Proof. unfold devicekey_pubkey. pose proof (p256_length priv). destruct (p256_multiply_base priv). cbn in *. lia. Qed.

Lemma pubkey_spec priv s : has_key priv s ->
  wp False pubkey_exec (fun rc s' => (forall t, nvo_value t s' = nvo_value t s) /\
    (forall t, t <> DHCP_EB_PUBKEY -> elsewhere t s' = elsewhere t s) /\
    (rc = OK -> (devicekey_pubkey priv).1 = OK /\ default_value DHCP_EB_PUBKEY s' = Some (devicekey_pubkey priv).2)) s.
Proof.
  intros Hk. destruct (fetch_key _ _ Hk) as [n Hf]. unfold pubkey_exec, devicekey_fetch. wp_step. wp_step. rewrite Hf.
  destruct (devicekey_pubkey priv) as [[|e] pub]; [|by wp_step].
  eapply wp_mono; [apply store_default_spec|]. intros rc s' (Hn & He & _ & Hok & _). naive_solver.
Qed.

(** What is signed with: the contents of the key's builder, if its last operation succeeded. *)
Lemma sign_spec priv argv s : has_key priv s -> (2 <= length argv)%nat ->
  wp False (sign_exec argv) (fun rc s' => (forall t, nvo_value t s' = nvo_value t s) /\
    (forall t, t <> DHCP_EB_SIG -> default_value t s' = default_value t s) /\
    (rc = OK -> exists key sig, default_value DHCP_EB_SIG s' = Some (base64_encode sig) /\
       construct_key priv (devicekey_pubkey priv).2 = (OK, key) /\
       pubkey_sign (asn1_data key) sha256_algorithm (H sha256_algorithm (concat (drop 1 argv))) = (OK, sig))) s.
Proof.
  intros Hk Ha. destruct (fetch_key _ _ Hk) as [n Hf].
  unfold sign_exec, devicekey_fetch. rewrite bool_decide_false by lia. wp_step. wp_step. rewrite Hf.
  destruct (devicekey_pubkey priv) as [[|e] pub]; cbn [fst snd] in *; [|by wp_step].
  destruct (construct_key priv pub) as [[|e] key]; [|by wp_step].
  destruct argv as [|cmd [|a args]]; [cbn in Ha; lia..|]. cbn [drop]. rewrite digest_args_concat.
  destruct (pubkey_sign _ _ _) as [[|e] sig] eqn:Hs; [|by wp_step].
  destruct zalloc_ok; cbn [negb]; [|by wp_step].
  eapply wp_mono; [apply store_default_spec|]. intros rc s' (Hn & _ & Ho & Hok & _).
  split_and!; [done|by intros; apply Ho|]. intros Hrc. exists key, sig. by rewrite Hok.
Qed.

(** All ten operations that construct the key of the device found memory. *)
Definition key_constructed (priv : list Z) : Prop :=
  Forall (eq OK) (construct_steps priv (devicekey_pubkey priv).2).1.

(** [C27] Signatures: on a device with a key, "pubkey" and then "sign" return without
    changing non-volatile storage; when both report success and every operation that
    constructs the key succeeded (not only the last one, whose status "sign" looks at),
    the signature in the "sig" setting verifies, for the digest of the concatenated
    arguments, under the public key in the "pubkey" setting. *)
Theorem sign_verifies priv argv s :
  has_key priv s -> (2 <= length argv)%nat ->
  wp False pubkey_exec (fun rc1 s1 =>
    wp False (sign_exec argv) (fun rc2 s2 =>
      (forall t, nvo_value t s2 = nvo_value t s) /\
      (rc1 = OK -> rc2 = OK -> key_constructed priv -> exists pub sig,
         default_value DHCP_EB_PUBKEY s2 = Some pub /\ length pub = 65%nat /\
         default_value DHCP_EB_SIG s2 = Some (base64_encode sig) /\
         ecdsa_verify pub sha256_algorithm (H sha256_algorithm (concat (drop 1 argv))) sig = true)) s1) s.
Proof.
  intros Hk Ha. eapply wp_mono; [by apply (pubkey_spec priv)|]. intros rc1 s1 (Hn1 & He1 & Hp).
  assert (has_key priv s1) as Hk1.
  { destruct Hk as (Hv & Hl & He). split_and!; [by rewrite Hn1|done|]. by rewrite He1 by (by vm_compute). }
  eapply wp_mono; [by apply (sign_spec priv)|]. intros rc2 s2 (Hn2 & Hd2 & Hs). split; [intros t; by rewrite Hn2|].
  intros Hrc1 Hrc2 Hall. destruct (Hp Hrc1) as [Hok Hpub]. destruct (Hs Hrc2) as (key & sig & Hsig & Hkey & Hsign).
  assert (length priv = P256_LEN) as Hl by (by destruct Hk as (_ & ? & _)).
  rewrite (construct_key_spec _ _ _ Hl (devicekey_pubkey_length priv) Hkey Hall) in Hsign.
  exists (devicekey_pubkey priv).2, sig. split_and!; [by rewrite Hd2|apply devicekey_pubkey_length|done|].
  revert Hok Hsign. unfold devicekey_pubkey. destruct (p256_multiply_base priv) as [rc point] eqn:Hm. cbn [fst snd].
  intros ->. by eapply ecdsa_sound.
Qed.

(** An error of an earlier operation goes unnoticed: when the last one succeeds, the
    construction reports success, and what "sign" then signs with is not the key. *)
Theorem construct_key_unnoticed priv key :
  length priv = P256_LEN -> construct_key priv (devicekey_pubkey priv).2 = (OK, key) -> ~ key_constructed priv ->
  (length (asn1_data key) < length (ec_private_key priv (devicekey_pubkey priv).2))%nat.
Proof.
  intros Hl. unfold construct_key, key_constructed. pose proof (devicekey_pubkey_length priv) as Hp.
  destruct (construct_steps priv _) as [rcs b] eqn:E. intros [= _ <-].
  apply (construct_steps_part _ _ _ _ Hl Hp E).
Qed.

(** Without a key, or without data to sign, the commands fail and store nothing. *)
Theorem sign_refused argv s :
  (nvo_value DHCP_EB_DEVICE_KEY s = None /\ elsewhere DHCP_EB_DEVICE_KEY s = false) \/ (length argv < 2)%nat ->
  wp False (sign_exec argv) (fun rc s' => rc <> OK /\ s' = s) s.
Proof.
  unfold sign_exec, devicekey_fetch. intros Hc. case_bool_decide as Hl; [by wp_step|]. destruct Hc as [[Hv He]|]; [|lia].
  destruct (fetch_none _ P256_LEN _ Hv He) as (e & b & Hf). wp_step. wp_step. rewrite Hf. by wp_step.
Qed.
End SignProofs.

(** ** A concrete device *)
#[local] Existing Instances Toy.digest Toy.digest_laws.

Module ToySign.
(** The non-volatile block and the other settings. *)
Definition store : Type := (Z -> option (list Z)) * (Z -> option (list Z)).

(** A builder that finds no memory in operation [fail]. *)
Definition attempt (fail n : nat) (b l : list Z) : status * list Z :=
  if bool_decide (n = fail) then (Err ENOMEM, b) else (OK, l).

#[export] Instance settings : SettingsOps store := {
  nvo_present _ := true;
  nvo_value t s := s.1 t;
  elsewhere t s := bool_decide (is_Some (s.2 t));
  store_setting t v := do* update (fun s : store => (fun u => if u =? t then Some v else s.1 u, s.2)) in ret OK;
}.

Instance ops (fail : nat) : SignOps store := {
  fetch_raw_setting t n s := match s.1 t with
    | Some v => (inr (Z.of_nat (length v)), take n v ++ zeros (n - length v))
    | None => match s.2 t with
              | Some v => (inr (Z.of_nat (length v)), take n v ++ zeros (n - length v))
              | None => (inl ENOENT, zeros n)
              end
    end;
  store_default t v := do* update (fun s : store => (s.1, fun u => if u =? t then Some v else s.2 u)) in ret OK;
  p256_multiply_base k := (OK, take 64 (k ++ k ++ zeros 64));
  asn1_builder := list Z;
  asn1_empty := [];
  asn1_data b := b;
  asn1_prepend_raw n b l := attempt fail n b (l ++ b);
  asn1_prepend n b t l := attempt fail n b (der t l ++ b);
  asn1_wrap n b t := attempt fail n b (der t b);
  pubkey_sign key d h := (OK, h ++ key);
  ecdsa_verify pub d h sig := bool_decide (sig = h ++ ec_private_key (take 32 (drop 1 pub)) pub);
  base64_encode l := l;
  zalloc_ok := true;
}.

Instance laws fail : @SignLaws store settings (ops fail) Toy.digest.
Proof.
  refine {| default_value t (s : store) := s.2 t |}; cbn.
  - by intros t n s v -> _.
  - intros t n s -> He. apply bool_decide_eq_false, eq_None_not_Some in He. rewrite He. by eexists _, _.
  - intros t v s. split_and!; try done.
    + intros t' Hne. by replace (t' =? t) with false by lia.
    + intros t' Hne. by replace (t' =? t) with false by lia.
    + by rewrite Z.eqb_refl.
  - intros k. rewrite length_take, !length_app. unfold zeros. rewrite length_replicate. lia.
  - done.
  - intros n b l. unfold built, attempt. cbn. by case_bool_decide.
  - intros n b t l _. unfold built, attempt. cbn. by case_bool_decide.
  - intros n b t _. unfold built, attempt. cbn. by case_bool_decide.
  - intros priv point d h sig Hl [= <-] [= <-]. apply bool_decide_eq_true. cbn [drop].
    rewrite drop_0, take_take. change (32 `min` 64)%nat with 32%nat.
    by rewrite (take_app_le _ _ 32), (take_ge priv 32) by (rewrite Hl; unfold P256_LEN; lia).
Defined.

Definition device : store := (fun t => if t =? DHCP_EB_DEVICE_KEY then Some (replicate 32 7) else None, fun _ => None).

Definition args : list (list Z) := [bstr "sign"; bstr "nonce"; bstr "mac"].

(** The public key and the signature after both commands, if both reported success. *)
Definition signed (fail : nat) : option (list Z * list Z) :=
  match @pubkey_exec _ (ops fail) device with
  | Ret OK s1 =>
      match @sign_exec _ (ops fail) Toy.digest args s1 with
      | Ret OK s2 => match s2.2 DHCP_EB_PUBKEY, s2.2 DHCP_EB_SIG with
                     | Some pub, Some sig => Some (pub, sig)
                     | _, _ => None
                     end
      | _ => None
      end
  | _ => None
  end.
Definition verifies (r : list Z * list Z) : bool :=
  @ecdsa_verify _ (ops 10) r.1 sha256_algorithm (H sha256_algorithm (concat (drop 1 args))) r.2.
End ToySign.

#[local] Existing Instances ToySign.settings.

(** With memory for everything, both commands succeed and the signature verifies. *)
Lemma sign_verifies_witness : exists r, ToySign.signed 10 = Some r /\ ToySign.verifies r = true.
Proof.
  pose proof (@sign_verifies _ _ _ _ (ToySign.laws 10) _ (replicate 32 7) ToySign.args ToySign.device) as Hw.
  unfold ToySign.signed. destruct (@pubkey_exec _ (ToySign.ops 10) ToySign.device) as [rc1 s1| |] eqn:E1;
    [|discriminate E1..]. unfold wp in Hw. rewrite E1 in Hw.
  destruct (@sign_exec _ (ToySign.ops 10) Toy.digest ToySign.args s1) as [rc2 s2| |] eqn:E2.
  - destruct Hw as [_ Hw]; [split; [reflexivity|split; reflexivity]|cbn; lia|].
    assert (rc1 = OK) as -> by (vm_compute in E1; injection E1 as <- _; reflexivity).
    assert (rc2 = OK) as -> by (vm_compute in E1; injection E1 as <-; vm_compute in E2; injection E2 as <- _; reflexivity).
    destruct Hw as (pub & sig & Hp & _ & Hs & Hv); [reflexivity|reflexivity| |].
    + apply (bool_decide_unpack _). vm_compute. exact I.
    + cbn [default_value ToySign.laws base64_encode ToySign.ops] in Hp, Hs. rewrite Hp, Hs.
      exists (pub, sig). split; [reflexivity|exact Hv].
  - destruct Hw; [split; [reflexivity|split; reflexivity]|cbn; lia].
  - destruct Hw; [split; [reflexivity|split; reflexivity]|cbn; lia].
Defined.

(** Without memory for the public key's element, "sign" reports success all the same, and
    the signature does not verify. *)
Lemma sign_without_memory : exists r, ToySign.signed 2 = Some r /\ ToySign.verifies r = false.
Proof. eexists. split; vm_compute; reflexivity. Qed.

Lemma construct_key_unnoticed_witness : exists key,
  @construct_key _ (ToySign.ops 2) (replicate 32 7) (@devicekey_pubkey _ (ToySign.ops 2) (replicate 32 7)).2 = (OK, key) /\
  (length (@asn1_data _ (ToySign.ops 2) key) < 121)%nat.
Proof.
  destruct (@construct_key _ (ToySign.ops 2) (replicate 32 7) (@devicekey_pubkey _ (ToySign.ops 2) (replicate 32 7)).2)
    as [rc key] eqn:E. exists key.
  assert (rc = OK) as -> by (vm_compute in E; injection E as <- _; reflexivity). split; [reflexivity|].
  apply (@construct_key_unnoticed _ _ _ _ (ToySign.laws 2) (replicate 32 7) key); [reflexivity|exact E|].
  intros Ha. apply (bool_decide_pack _) in Ha. vm_compute in Ha. exact Ha.
Defined.
