(* ===== verification/SnpOnly.v ===== *)
(** * Chainloaded network device (drivers/net/efi/snponly.c)

    The network driver binds only to the device that this program was loaded from, or to
    any device when it was loaded from a disk.  The EFI protocol database is a
    parameter. *)

From stdpp Require Import base list strings.
From Stdlib Require Import ZArith Lia.
From S2P Require Import Prelude.

(** Protocol GUIDs the driver names. *)
Inductive efi_guid : Type :=
  | efi_simple_network_protocol_guid
  | efi_nii31_protocol_guid
  | efi_managed_network_service_binding_protocol_guid
  | efi_wifi2_protocol_guid.

(** [efi_locate_device device protocol skip] is the [skip]-th handle with the protocol
    on the way up from [device]; [efi_open] gives the protocol instance on a handle;
    [find_snpdev] tells the devices this program itself provides; instances are not null. *)
Class EfiDeviceOps := {
  efi_locate_device : Z -> efi_guid -> nat -> errno + Z;
  efi_open : Z -> efi_guid -> errno + Z;
  efi_test : Z -> efi_guid -> bool;
  find_snpdev : Z -> bool;
}.

(** struct chained_protocol; a null device is [None]. *)
Record chained_protocol : Type := Chained {
  protocol : efi_guid;
  device : option Z;
  inhibit_wifi : bool;
}.
#[export] Instance eta_chained : Eta chained_protocol :=
  fun c => Chained (protocol c) (device c) (inhibit_wifi c).

Definition chained_snp : chained_protocol := Chained efi_simple_network_protocol_guid None true.
Definition chained_nii : chained_protocol := Chained efi_nii31_protocol_guid None true.
Definition chained_mnp : chained_protocol := Chained efi_managed_network_service_binding_protocol_guid None false.

Section Chained.
Context `{EfiDeviceOps}.

(** The loop of [chained_locate]; [found] is the instance on the handles so far. *)
Fixpoint locate_loop (fuel : nat) (loaded : Z) (skip : nat) (found : option Z) : M chained_protocol unit :=
  match fuel with
  | O => fun _ => NoFuel
  | S fuel =>
      let* p := gets protocol in
      match efi_locate_device loaded p skip with
      | inl _ => ret tt
      | inr handle =>
          match efi_open handle p with
          | inl _ => ret tt
          | inr interface =>
              if match found with Some m => negb (m =? interface) | None => false end then ret tt else
              do* update (fun c => c <| device := Some handle |>) in
              locate_loop fuel loaded (S skip) (Some interface)
          end
      end
  end.

(** [chained_locate]; [loaded] is the device handle of the loaded image. *)
Definition chained_locate (fuel : nat) (loaded : Z) : M chained_protocol unit :=
  locate_loop fuel loaded 0 None.

(** [chained_supported] *)
Definition chained_supported (dev : Z) (c : chained_protocol) : status :=
  match efi_open dev (protocol c) with
  | inl e => Err e
  | inr _ =>
      if find_snpdev dev then Err ENOTTY else
      match device c with
      | None => OK
      | Some d =>
          if negb (dev =? d) then Err ENOTTY
          else if inhibit_wifi c && efi_test dev efi_wifi2_protocol_guid then Err ENOTTY
          else OK
      end
  end.

Definition snponly_supported (dev : Z) (snp : chained_protocol) : status := chained_supported dev snp.
Definition niionly_supported (dev : Z) (nii : chained_protocol) : status := chained_supported dev nii.
Definition mnponly_supported (dev : Z) (mnp : chained_protocol) : status := chained_supported dev mnp.

(** The three chainloaded protocols of the driver. *)
Record chained_state : Type := ChainedState {
  st_snp : chained_protocol;
  st_nii : chained_protocol;
  st_mnp : chained_protocol;
}.

(** [chained_init] *)
Definition chained_init (fuel : nat) (loaded : Z) (s : chained_state) : option chained_state :=
  match chained_locate fuel loaded (st_snp s), chained_locate fuel loaded (st_nii s),
        chained_locate fuel loaded (st_mnp s) with
  | Ret _ a, Ret _ b, Ret _ c => Some (ChainedState a b c)
  | _, _, _ => None
  end.
End Chained.

(** ** The device that is found *)
Section ChainedProofs.
Context `{EfiDeviceOps}.
Implicit Types (c : chained_protocol).

(** The handles above the loaded image that have a protocol, nearest first. *)
Definition handles_above (loaded : Z) (p : efi_guid) (l : list Z) : Prop :=
  forall skip, match l !! skip with
               | Some h => efi_locate_device loaded p skip = inr h
               | None => exists e, efi_locate_device loaded p skip = inl e
               end.

(** The uppermost of the first handles that share the instance [m]. *)
Fixpoint uppermost (p : efi_guid) (m : option Z) (l : list Z) (best : option Z) : option Z :=
  match l with
  | [] => best
  | h :: l =>
      match efi_open h p with
      | inr i => if decide (m = None \/ m = Some i) then uppermost p (Some i) l (Some h) else best
      | inl _ => best
      end
  end.

Lemma locate_loop_spec loaded l : forall fuel skip m c,
  (forall k, match l !! k with
             | Some h => efi_locate_device loaded (protocol c) (skip + k) = inr h
             | None => exists e, efi_locate_device loaded (protocol c) (skip + k) = inl e
             end) -> (length l < fuel)%nat ->
  locate_loop fuel loaded skip m c = Ret tt (c <| device := uppermost (protocol c) m l (device c) |>).
Proof.
  induction l as [|h l IH]; intros fuel skip m c Hl Hf; (destruct fuel as [|fuel]; [cbn in Hf; lia|]);
    cbn [locate_loop]; unfold bind at 1, gets; pose proof (Hl 0%nat) as H0; cbn in H0; rewrite Nat.add_0_r in H0.
  - destruct H0 as [e ->]. by destruct c.
  - rewrite H0. cbn [uppermost]. destruct (efi_open h (protocol c)) as [e|i]; [by destruct c|].
    case_decide as Hm.
    + assert (match m with Some m => negb (m =? i) | None => false end = false) as ->
        by (destruct Hm as [-> | ->]; [done|]; by rewrite Z.eqb_refl).
      unfold bind, update. rewrite IH; [done| |cbn in Hf; lia].
      intros k. specialize (Hl (S k)). cbn in Hl. by rewrite <-Nat.add_succ_comm in Hl.
    + assert (match m with Some m => negb (m =? i) | None => false end = true) as ->; [|by destruct c].
      destruct m as [m|]; [|tauto]. assert (m <> i) by (intros ->; apply Hm; by right). by replace (m =? i) with false by lia.
Qed.

(** Initialisation finds, for each protocol, the uppermost handle above the loaded image
    up to which the handles with the protocol share one instance. *)
Theorem chained_locate_uppermost loaded l fuel c :
  handles_above loaded (protocol c) l -> (length l < fuel)%nat ->
  chained_locate fuel loaded c = Ret tt (c <| device := uppermost (protocol c) None l (device c) |>).
Proof. intros Hl Hf. by apply locate_loop_spec. Qed.

(** A device is supported exactly when it has the protocol, is not provided by this
    program, and is the device found, if any was found, and then not a wireless one. *)
Theorem chained_supported_iff dev c :
  chained_supported dev c = OK <->
  (exists i, efi_open dev (protocol c) = inr i) /\ find_snpdev dev = false /\
  (device c = None \/
   device c = Some dev /\ (inhibit_wifi c = true -> efi_test dev efi_wifi2_protocol_guid = false)).
Proof.
  unfold chained_supported. destruct (efi_open dev (protocol c)) as [e|i]; [split; [done|by intros [[] _]]|].
  destruct (find_snpdev dev); [split; [done|by intros (_ & ? & _)]|].
  destruct (device c) as [d|]; [|split; [intros _; split_and!; eauto|done]].
  destruct (dev =? d) eqn:E; cbn [negb].
  - apply Z.eqb_eq in E as ->. destruct (inhibit_wifi c), (efi_test d _); cbn; split; intros Hs; try done.
    all: first [naive_solver | split_and!; eauto; right; split; eauto].
  - split; [done|]. intros (_ & _ & [Hd|[Hd _]]); [done|]. injection Hd as ->. lia.
Qed.
End ChainedProofs.
