(* ===== verification/RealtekHw.v ===== *)
(** * Realtek network driver: registers (drivers/net/realtek.c, realtek.h)

    Access to the card's indirect register spaces (GPHY OCP, CSI, MII, MAC OCP, EPHY),
    chip detection, and the initialisation of the RTL8125 and RTL8126.  The card is a
    parameter: what a read returns and what a write does. *)

From stdpp Require Import base list strings.
From Stdlib Require Import ZArith Lia.
From S2P Require Import Prelude.

(** ** Registers (realtek.h) *)
Definition RTL_IDR0 : Z := 0x00.
Definition RTL_MAR0 : Z := 0x08.
Definition RTL_MAR4 : Z := 0x0c.
Definition RTL_TSD (n : Z) : Z := 0x10 + 4 * n.
Definition RTL_TSD_ERTXTH_DEFAULT : Z := Z.shiftl (256 / 32) 16.
Definition RTL_TSD_OWN : Z := 0x2000.
Definition RTL_TSAD (n : Z) : Z := 0x20 + 4 * n.
Definition RTL_TNPDS : Z := 0x20.
Definition RTL_NUM_TX_DESC : nat := 4.
Definition RTL_RBSTART : Z := 0x30.
Definition RTL_RXBUF_LEN : Z := 8192.
Definition RTL_RXBUF_PAD : Z := 2038.
Definition RTL_CR : Z := 0x37.
Definition RTL_CR_RST : Z := 0x10.
Definition RTL_CR_RE : Z := 0x08.
Definition RTL_CR_TE : Z := 0x04.
Definition RTL_CR_BUFE : Z := 0x01.
Definition RTL_RESET_MAX_WAIT_MS : nat := 100.
Definition RTL_CAPR : Z := 0x38.
Definition RTL_TPPOLL_8169 : Z := 0x38.
Definition RTL_TPPOLL_NPQ : Z := 0x40.
Definition RTL_TPPOLL_8125 : Z := 0x90.
Definition RTL_TPPOLL_8125_NPQ : Z := 0x0001.
Definition RTL_IMR_8125 : Z := 0x38.
Definition RTL_ISR_8125 : Z := 0x3c.
Definition RTL_IMR : Z := 0x3c.
Definition RTL_IRQ_PUN_LINKCHG : Z := 0x0020.
Definition RTL_IRQ_TER : Z := 0x0008.
Definition RTL_IRQ_TOK : Z := 0x0004.
Definition RTL_IRQ_RER : Z := 0x0002.
Definition RTL_IRQ_ROK : Z := 0x0001.
Definition RTL_ISR : Z := 0x3e.
Definition RTL_TCR : Z := 0x40.
Definition RTL_TCR_MXDMA_MASK : Z := Z.shiftl 0x7 8.
Definition RTL_TCR_MXDMA_DEFAULT : Z := Z.shiftl 0x7 8.
Definition RTL_RCR : Z := 0x44.
Definition RTL_RCR_STOP_WORKING : Z := 0x01000000.
Definition RTL_RCR_RXFTH_MASK : Z := Z.shiftl 0x7 13.
Definition RTL_RCR_RXFTH_DEFAULT : Z := Z.shiftl 0x7 13.
Definition RTL_RCR_RBLEN_MASK : Z := Z.shiftl 0x3 11.
Definition RTL_RCR_RBLEN_DEFAULT : Z := 0.
Definition RTL_RCR_MXDMA_MASK : Z := Z.shiftl 0x7 8.
Definition RTL_RCR_MXDMA_DEFAULT : Z := Z.shiftl 0x7 8.
Definition RTL_RCR_FETCH_8125 : Z := Z.shiftl 8 27.
Definition RTL_RCR_PAUSE_SLOT_8125 : Z := Z.shiftl 1 11.
Definition RTL_RCR_WRAP : Z := 0x80.
Definition RTL_RCR_9356SEL : Z := 0x40.
Definition RTL_RCR_AB : Z := 0x08.
Definition RTL_RCR_AM : Z := 0x04.
Definition RTL_RCR_APM : Z := 0x02.
Definition RTL_RCR_AAP : Z := 0x01.
Definition RTL_9346CR : Z := 0x50.
Definition RTL_9346CR_EEM (x : Z) : Z := Z.shiftl x 6.
Definition RTL_9346CR_EEM_EEPROM : Z := RTL_9346CR_EEM 0x2.
Definition RTL_9346CR_EEM_NORMAL : Z := RTL_9346CR_EEM 0x0.
Definition RTL_9346CR_EECS : Z := 0x08.
Definition RTL_9346CR_EESK : Z := 0x04.
Definition RTL_9346CR_EEDI : Z := 0x02.
Definition RTL_9346CR_EEDO : Z := 0x01.
Definition RTL_CONFIG1 : Z := 0x52.
Definition RTL_CONFIG1_VPD : Z := 0x02.
Definition RTL_CONFIG3 : Z := 0x54.
Definition RTL_CONFIG3_RDY_TO_L23 : Z := 0x02.
Definition RTL_MSR : Z := 0x58.
Definition RTL_MSR_LINKB : Z := 0x04.
Definition RTL_PHYAR : Z := 0x60.
Definition RTL_PHYAR_FLAG : Z := 0x80000000.
Definition RTL_PHYAR_VALUE (flag reg data : Z) : Z := Z.lor (Z.lor flag (Z.shiftl reg 16)) data.
Definition RTL_PHYAR_DATA (value : Z) : Z := Z.land value 0xffff.
Definition RTL_MII_MAX_WAIT_US : nat := 500.
Definition RTL_EPHYAR : Z := 0x80.
Definition RTL_EPHYAR_FLAG : Z := 0x80000000.
Definition RTL_EPHYAR_REG_SHIFT : Z := 16.
Definition RTL_EPHYAR_REG_MASK : Z := 0x1f.
Definition RTL_EPHYAR_DATA_MASK : Z := 0xffff.
Definition RTL_OCPDR : Z := 0xb0.
Definition RTL_OCPAR_FLAG : Z := 0x80000000.
Definition RTL_GPHY_OCP : Z := 0xb8.
Definition RTL_OCP_STD_PHY_BASE : Z := 0xa400.
Definition RTL_CSIDR : Z := 0x64.
Definition RTL_CSIAR : Z := 0x68.
Definition RTL_CSIAR_FLAG : Z := 0x80000000.
Definition RTL_CSIAR_BYTE_ENABLE : Z := 0xf000.
Definition RTL_CSIAR_ADDR_MASK : Z := 0xfff.
Definition RTL_GPHY_OCP_MAX_WAIT_US : nat := Z.to_nat 20000.
Definition RTL_MCU_VER_8126A_1 : Z := 0x0023.
Definition RTL_MCU_VER_8126A_2 : Z := 0x0033.
Definition RTL_MCU_VER_8126A_3 : Z := 0x0060.
Definition RTL_MISC : Z := 0xf0.
Definition RTL_MISC_RXDV_GATED_EN : Z := Z.shiftl 1 19.
Definition RTL_RSS_CTRL_8125 : Z := 0x4500.
Definition RTL_Q_NUM_CTRL_8125 : Z := 0x4800.
Definition RTL_MAC0_BKP : Z := 0x19e0.
Definition RTL_PHYSTATUS : Z := 0x6c.
Definition RTL_PHYSTATUS_LINKSTS : Z := 0x02.
Definition RTL_TPPOLL_8139CP : Z := 0xd9.
Definition RTL_RMS : Z := 0xda.
Definition RTL_CPCR : Z := 0xe0.
Definition RTL_CPCR_VLAN : Z := 0x0040.
Definition RTL_CPCR_DAC : Z := 0x0010.
Definition RTL_CPCR_MULRW : Z := 0x0008.
Definition RTL_CPCR_CPRX : Z := 0x0002.
Definition RTL_CPCR_CPTX : Z := 0x0001.
Definition RTL_RDSAR : Z := 0xe4.
Definition RTL_NUM_RX_DESC : nat := 4.
Definition RTL_RX_MAX_LEN : Z := 1514 + 4 + 4 + 4.

(** ** The card

    [hw_read n reg] reads an [n]-byte register, which may change the card; [hw_write n
    reg v] writes one. *)
Class NicHw (D : Type) := {
  hw_read : Z -> Z -> D -> Z * D;
  hw_write : Z -> Z -> Z -> D -> D;
}.

(** ** What the driver knows about the card (struct realtek_nic, without its rings)

    [mii_ready] is whether the MII device has been given its interface ([mii_init]); before
    that its pointer to the interface is null. *)
Record realtek_chip : Type := Chip {
  legacy : bool;
  have_phy_regs : bool;
  have_ocp : bool;
  mac_ver : Z;
  mcfg : Z;
  tppoll : Z;
  pci_func : Z;
  mii_ready : bool;
}.
#[export] Instance eta_chip : Eta realtek_chip :=
  fun c => Chip (legacy c) (have_phy_regs c) (have_ocp c) (mac_ver c) (mcfg c) (tppoll c) (pci_func c) (mii_ready c).

(** The driver's view and the card together. *)
Record rtl (D : Type) : Type := Rtl {
  chip : realtek_chip;
  card : D;
}.
Arguments Rtl {D} chip card.
Arguments chip {D} r.
Arguments card {D} r.
#[export] Instance eta_rtl D : Eta (rtl D) := fun s => Rtl (chip s) (card s).

Section Registers.
Context {D : Type} `{NicHw D}.
Implicit Types (reg value : Z).

Definition hw_get (n reg : Z) : M (rtl D) Z :=
  fun s => let (v, d) := hw_read n reg (card s) in Ret v (s <| card := d |>).
Definition hw_set (n value reg : Z) : M (rtl D) unit :=
  update (fun s => s <| card := hw_write n reg value (card s) |>).

Definition readb reg : M (rtl D) Z := hw_get 1 reg.
Definition readw reg : M (rtl D) Z := hw_get 2 reg.
Definition readl reg : M (rtl D) Z := hw_get 4 reg.
Definition writeb value reg : M (rtl D) unit := hw_set 1 (u8 value) reg.
Definition writew value reg : M (rtl D) unit := hw_set 2 (u16 value) reg.
Definition writel value reg : M (rtl D) unit := hw_set 4 (u32 value) reg.

(** A wait loop: read up to [n] times until the value is as wanted. *)
Fixpoint wait_for (n : nat) (m : M (rtl D) Z) (ok : Z -> bool) : M (rtl D) (option Z) :=
  match n with
  | O => ret None
  | S n => let* v := m in if ok v then ret (Some v) else wait_for n m ok
  end.

(** Whether a bit of a register is set. *)
Definition bit_set (flag value : Z) : bool := negb (Z.land value flag =? 0).

(** "OCP registers are 16-bit and must be 2-byte aligned" *)
Definition ocp_invalid reg : bool := bit_set 0xffff0001 reg.

(** ** GPHY OCP interface *)
Definition realtek_gphy_ocp_read reg : M (rtl D) (errno + Z) :=
  if ocp_invalid reg then ret (inl EINVAL) else
  do* writel (Z.shiftl reg 15) RTL_GPHY_OCP in
  let* r := wait_for RTL_GPHY_OCP_MAX_WAIT_US (readl RTL_GPHY_OCP) (bit_set RTL_OCPAR_FLAG) in
  match r with
  | Some value => ret (inr (Z.land value RTL_EPHYAR_DATA_MASK))
  | None => ret (inl ETIMEDOUT)
  end.

Definition realtek_gphy_ocp_write reg (data : Z) : M (rtl D) unit :=
  if ocp_invalid reg then ret tt else
  do* writel (Z.lor (Z.lor RTL_OCPAR_FLAG (u32 (Z.shiftl reg 15))) data) RTL_GPHY_OCP in
  do* wait_for RTL_GPHY_OCP_MAX_WAIT_US (readl RTL_GPHY_OCP) (fun v => negb (bit_set RTL_OCPAR_FLAG v)) in
  ret tt.

(** [data &= ~clear; data |= set] *)
Definition modified (clear set data : Z) : Z := Z.lor (Z.ldiff data clear) set.

Definition realtek_gphy_ocp_modify reg (clear set : Z) : M (rtl D) unit :=
  let* data := realtek_gphy_ocp_read reg in
  match data with
  | inl _ => ret tt
  | inr data => realtek_gphy_ocp_write reg (modified clear set data)
  end.

(** ** CSI registers *)
Definition csi_address (c : realtek_chip) (addr : Z) : Z :=
  Z.lor (Z.lor (Z.land addr RTL_CSIAR_ADDR_MASK) RTL_CSIAR_BYTE_ENABLE) (Z.shiftl (pci_func c) 16).

Definition realtek_csi_read (addr : Z) : M (rtl D) Z :=
  let* s := get in
  do* writel (csi_address (chip s) addr) RTL_CSIAR in
  let* r := wait_for RTL_MII_MAX_WAIT_US (readl RTL_CSIAR) (bit_set RTL_CSIAR_FLAG) in
  match r with
  | Some _ => readl RTL_CSIDR
  | None => ret 0xffffffff
  end.

Definition realtek_csi_write (addr value : Z) : M (rtl D) unit :=
  let* s := get in
  do* writel value RTL_CSIDR in
  do* writel (Z.lor RTL_CSIAR_FLAG (csi_address (chip s) addr)) RTL_CSIAR in
  do* wait_for RTL_MII_MAX_WAIT_US (readl RTL_CSIAR) (fun v => negb (bit_set RTL_CSIAR_FLAG v)) in
  ret tt.

Definition realtek_csi_modify (addr clear set : Z) : M (rtl D) unit :=
  let* value := realtek_csi_read addr in
  realtek_csi_write addr (modified clear set value).

(** ** MII interface *)
Definition realtek_mii_read reg : M (rtl D) (errno + Z) :=
  let* s := get in
  if negb (have_phy_regs (chip s)) then ret (inl ENOTSUP) else
  if have_ocp (chip s) then realtek_gphy_ocp_read (RTL_OCP_STD_PHY_BASE + 2 * reg) else
  do* writel (RTL_PHYAR_VALUE 0 reg 0) RTL_PHYAR in
  let* r := wait_for RTL_MII_MAX_WAIT_US (readl RTL_PHYAR) (bit_set RTL_PHYAR_FLAG) in
  match r with
  | Some value => ret (inr (RTL_PHYAR_DATA value))
  | None => ret (inl ETIMEDOUT)
  end.

Definition realtek_mii_write reg (data : Z) : M (rtl D) status :=
  let* s := get in
  if negb (have_phy_regs (chip s)) then ret (Err ENOTSUP) else
  if have_ocp (chip s) then
    do* realtek_gphy_ocp_write (RTL_OCP_STD_PHY_BASE + 2 * reg) data in ret OK
  else
  do* writel (RTL_PHYAR_VALUE RTL_PHYAR_FLAG reg data) RTL_PHYAR in
  let* r := wait_for RTL_MII_MAX_WAIT_US (readl RTL_PHYAR) (fun v => negb (bit_set RTL_PHYAR_FLAG v)) in
  match r with
  | Some _ => ret OK
  | None => ret (Err ETIMEDOUT)
  end.

(** ** MAC OCP and EPHY registers *)
Definition realtek_mac_ocp_read reg : M (rtl D) Z :=
  if ocp_invalid reg then ret 0 else
  do* writel (Z.shiftl reg 15) RTL_OCPDR in
  readl RTL_OCPDR.

Definition realtek_mac_ocp_write reg (data : Z) : M (rtl D) unit :=
  if ocp_invalid reg then ret tt else
  writel (Z.lor (Z.lor RTL_OCPAR_FLAG (u32 (Z.shiftl reg 15))) data) RTL_OCPDR.

Definition realtek_mac_ocp_modify reg (clear set : Z) : M (rtl D) unit :=
  let* data := realtek_mac_ocp_read reg in
  realtek_mac_ocp_write reg (u16 (modified clear set (u16 data))).

Definition realtek_ephy_write reg value : M (rtl D) unit :=
  do* writel (Z.lor (Z.lor RTL_EPHYAR_FLAG (Z.land value RTL_EPHYAR_DATA_MASK))
                    (Z.shiftl (Z.land reg RTL_EPHYAR_REG_MASK) RTL_EPHYAR_REG_SHIFT)) RTL_EPHYAR in
  do* wait_for RTL_MII_MAX_WAIT_US (readl RTL_EPHYAR) (fun v => negb (bit_set RTL_EPHYAR_FLAG v)) in
  ret tt.
End Registers.
