(* ===== verification/RealtekInit.v ===== *)
(** * Realtek network driver: initialisation (drivers/net/realtek.c)

    Detection of the chip, the initialisation sequences of the RTL8125 and RTL8126 with
    their tables, reset, and the link state. *)

From stdpp Require Import base list strings.
From Stdlib Require Import ZArith Lia.
From S2P Require Import Prelude RealtekHw.

(** ** Tables *)

(** An EPHY register, the bits the value is for, and the value. *)
Record realtek_ephy_init : Type := EphyInit { ephy_reg : Z; ephy_mask : Z; ephy_value : Z }.

(** A set of chip identifiers, and the MAC version they stand for. *)
Record realtek_chip_version : Type := ChipVersion { cv_mask : Z; cv_value : Z; cv_version : Z }.

(** A GPHY OCP register, the bits to clear and to set, and whether to write [set] instead. *)
Record realtek_phy_ocp_init : Type := PhyInit { phy_reg : Z; phy_clear : Z; phy_set : Z; phy_write : Z }.

Definition realtek_8125_versions : list realtek_chip_version := [
  ChipVersion 0x7cf 0x681 66; ChipVersion 0x7cf 0x708 65; ChipVersion 0x7cf 0x68b 64;
  ChipVersion 0x7cf 0x68a 64; ChipVersion 0x7cf 0x689 64; ChipVersion 0x7cf 0x688 64;
  ChipVersion 0x7cf 0x641 63; ChipVersion 0x7cf 0x609 61
].

Definition realtek_8125a_ephy : list realtek_ephy_init := [
  EphyInit 0x04 0xffff 0xd000; EphyInit 0x0a 0xffff 0x8653; EphyInit 0x23 0xffff 0xab66;
  EphyInit 0x20 0xffff 0x9455; EphyInit 0x21 0xffff 0x99ff; EphyInit 0x29 0xffff 0xfe04;
  EphyInit 0x44 0xffff 0xd000; EphyInit 0x4a 0xffff 0x8653; EphyInit 0x63 0xffff 0xab66;
  EphyInit 0x60 0xffff 0x9455; EphyInit 0x61 0xffff 0x99ff; EphyInit 0x69 0xffff 0xfe04
].

Definition realtek_8125b_ephy : list realtek_ephy_init := [
  EphyInit 0x0b 0xffff 0xa908; EphyInit 0x1e 0xffff 0x20eb; EphyInit 0x4b 0xffff 0xa908;
  EphyInit 0x5e 0xffff 0x20eb; EphyInit 0x22 0x0030 0x0020; EphyInit 0x62 0x0030 0x0020
].

Definition realtek_8126a_1_phy : list realtek_phy_ocp_init := [
  PhyInit 0xa442 0x0000 0x0800 0
].

Definition realtek_8126a_2_phy : list realtek_phy_ocp_init := [
  PhyInit 0xa442 0x0000 0x0800 0; PhyInit 0xa436 0x0000 0x80bf 1; PhyInit 0xa438 0xff00 0xed00 0;
  PhyInit 0xa436 0x0000 0x80cd 1; PhyInit 0xa438 0xff00 0x1000 0; PhyInit 0xa436 0x0000 0x80d1 1;
  PhyInit 0xa438 0xff00 0xc800 0; PhyInit 0xa436 0x0000 0x80d4 1; PhyInit 0xa438 0xff00 0xc800 0;
  PhyInit 0xa436 0x0000 0x80e1 1; PhyInit 0xa438 0x0000 0x10cc 1; PhyInit 0xa436 0x0000 0x80e5 1;
  PhyInit 0xa438 0x0000 0x4f0c 1; PhyInit 0xa436 0x0000 0x8387 1; PhyInit 0xa438 0xff00 0x4700 0;
  PhyInit 0xa80c 0x00c0 0x0080 0; PhyInit 0xac90 0x0010 0x0000 0; PhyInit 0xad2c 0x8000 0x0000 0;
  PhyInit 0xb87c 0x0000 0x8321 1; PhyInit 0xb87e 0xff00 0x1100 0; PhyInit 0xacf8 0x0000 0x000c 0;
  PhyInit 0xa436 0x0000 0x8183 1; PhyInit 0xa438 0xff00 0x5900 0; PhyInit 0xad94 0x0000 0x0020 0;
  PhyInit 0xa654 0x0800 0x0000 0; PhyInit 0xb648 0x0000 0x4000 0; PhyInit 0xb87c 0x0000 0x839e 1;
  PhyInit 0xb87e 0xff00 0x2f00 0; PhyInit 0xb87c 0x0000 0x83f2 1; PhyInit 0xb87e 0xff00 0x0800 0;
  PhyInit 0xada0 0x0000 0x0002 0; PhyInit 0xb87c 0x0000 0x80f3 1; PhyInit 0xb87e 0xff00 0x9900 0;
  PhyInit 0xb87c 0x0000 0x8126 1; PhyInit 0xb87e 0xff00 0xc100 0; PhyInit 0xb87c 0x0000 0x893a 1;
  PhyInit 0xb87e 0x0000 0x8080 1; PhyInit 0xb87c 0x0000 0x8647 1; PhyInit 0xb87e 0xff00 0xe600 0;
  PhyInit 0xb87c 0x0000 0x862c 1; PhyInit 0xb87e 0xff00 0x1200 0; PhyInit 0xb87c 0x0000 0x864a 1;
  PhyInit 0xb87e 0xff00 0xe600 0; PhyInit 0xb87c 0x0000 0x80a0 1; PhyInit 0xb87e 0x0000 0xbcbc 1;
  PhyInit 0xb87c 0x0000 0x805e 1; PhyInit 0xb87e 0x0000 0xbcbc 1; PhyInit 0xb87c 0x0000 0x8056 1;
  PhyInit 0xb87e 0x0000 0x3077 1; PhyInit 0xb87c 0x0000 0x8058 1; PhyInit 0xb87e 0xff00 0x5a00 0;
  PhyInit 0xb87c 0x0000 0x8098 1; PhyInit 0xb87e 0x0000 0x3077 1; PhyInit 0xb87c 0x0000 0x809a 1;
  PhyInit 0xb87e 0xff00 0x5a00 0; PhyInit 0xb87c 0x0000 0x8052 1; PhyInit 0xb87e 0x0000 0x3733 1;
  PhyInit 0xb87c 0x0000 0x8094 1; PhyInit 0xb87e 0x0000 0x3733 1; PhyInit 0xb87c 0x0000 0x807f 1;
  PhyInit 0xb87e 0x0000 0x7c75 1; PhyInit 0xb87c 0x0000 0x803d 1; PhyInit 0xb87e 0x0000 0x7c75 1;
  PhyInit 0xb87c 0x0000 0x8036 1; PhyInit 0xb87e 0xff00 0x3000 0; PhyInit 0xb87c 0x0000 0x8078 1;
  PhyInit 0xb87e 0xff00 0x3000 0; PhyInit 0xb87c 0x0000 0x8031 1; PhyInit 0xb87e 0xff00 0x3300 0;
  PhyInit 0xb87c 0x0000 0x8073 1; PhyInit 0xb87e 0xff00 0x3300 0; PhyInit 0xae06 0xfc00 0x7c00 0;
  PhyInit 0xb87c 0x0000 0x89d1 1; PhyInit 0xb87e 0x0000 0x0004 1; PhyInit 0xa436 0x0000 0x8fbd 1;
  PhyInit 0xa438 0xff00 0x0a00 0; PhyInit 0xa436 0x0000 0x8fbe 1; PhyInit 0xa438 0x0000 0x0d09 1;
  PhyInit 0xb87c 0x0000 0x89cd 1; PhyInit 0xb87e 0x0000 0x0f0f 1; PhyInit 0xb87c 0x0000 0x89cf 1;
  PhyInit 0xb87e 0x0000 0x0f0f 1; PhyInit 0xb87c 0x0000 0x83a4 1; PhyInit 0xb87e 0x0000 0x6600 1;
  PhyInit 0xb87c 0x0000 0x83a6 1; PhyInit 0xb87e 0x0000 0x6601 1; PhyInit 0xb87c 0x0000 0x83c0 1;
  PhyInit 0xb87e 0x0000 0x6600 1; PhyInit 0xb87c 0x0000 0x83c2 1; PhyInit 0xb87e 0x0000 0x6601 1;
  PhyInit 0xb87c 0x0000 0x8414 1; PhyInit 0xb87e 0x0000 0x6600 1; PhyInit 0xb87c 0x0000 0x8416 1;
  PhyInit 0xb87e 0x0000 0x6601 1; PhyInit 0xb87c 0x0000 0x83f8 1; PhyInit 0xb87e 0x0000 0x6600 1;
  PhyInit 0xb87c 0x0000 0x83fa 1; PhyInit 0xb87e 0x0000 0x6601 1; PhyInit 0xbd96 0x1f00 0x1000 0;
  PhyInit 0xbf1c 0x0007 0x0007 0; PhyInit 0xbfbe 0x8000 0x0000 0; PhyInit 0xbf40 0x0380 0x0280 0;
  PhyInit 0xbf90 0x0080 0x0060 0; PhyInit 0xbf90 0x0010 0x000c 0; PhyInit 0xa436 0x0000 0x843b 1;
  PhyInit 0xa438 0xff00 0x2000 0; PhyInit 0xa436 0x0000 0x843d 1; PhyInit 0xa438 0xff00 0x2000 0;
  PhyInit 0xb516 0x007f 0x0000 0; PhyInit 0xbf80 0x0030 0x0000 0; PhyInit 0xa436 0x0000 0x8188 1;
  PhyInit 0xa438 0x0000 0x0044 1; PhyInit 0xa438 0x0000 0x00a8 1; PhyInit 0xa438 0x0000 0x00d6 1;
  PhyInit 0xa438 0x0000 0x00ec 1; PhyInit 0xa438 0x0000 0x00f6 1; PhyInit 0xa438 0x0000 0x00fc 1;
  PhyInit 0xa438 0x0000 0x00fe 1; PhyInit 0xa438 0x0000 0x00fe 1; PhyInit 0xa438 0x0000 0x00bc 1;
  PhyInit 0xa438 0x0000 0x0058 1; PhyInit 0xa438 0x0000 0x002a 1; PhyInit 0xb87c 0x0000 0x8015 1;
  PhyInit 0xb87e 0xff00 0x0800 0; PhyInit 0xb87c 0x0000 0x8ffd 1; PhyInit 0xb87e 0xff00 0x0000 0;
  PhyInit 0xb87c 0x0000 0x8fff 1; PhyInit 0xb87e 0xff00 0x7f00 0; PhyInit 0xb87c 0x0000 0x8ffb 1;
  PhyInit 0xb87e 0xff00 0x0100 0; PhyInit 0xb87c 0x0000 0x8fe9 1; PhyInit 0xb87e 0x0000 0x0002 1;
  PhyInit 0xb87c 0x0000 0x8fef 1; PhyInit 0xb87e 0x0000 0x00a5 1; PhyInit 0xb87c 0x0000 0x8ff1 1;
  PhyInit 0xb87e 0x0000 0x0106 1; PhyInit 0xb87c 0x0000 0x8fe1 1; PhyInit 0xb87e 0x0000 0x0102 1;
  PhyInit 0xb87c 0x0000 0x8fe3 1; PhyInit 0xb87e 0xff00 0x0400 0; PhyInit 0xa654 0x0000 0x0800 0;
  PhyInit 0xa65a 0x0003 0x0000 0; PhyInit 0xac3a 0x0000 0x5851 1; PhyInit 0xac3c 0xd000 0x2000 0;
  PhyInit 0xac42 0x0200 0x01c0 0; PhyInit 0xac3e 0xe000 0x0000 0; PhyInit 0xac42 0x0038 0x0000 0;
  PhyInit 0xac42 0x0002 0x0005 0; PhyInit 0xac1a 0x0000 0x00db 1; PhyInit 0xade4 0x0000 0x01b5 1;
  PhyInit 0xad9c 0x0c00 0x0000 0; PhyInit 0xb87c 0x0000 0x814b 1; PhyInit 0xb87e 0xff00 0x1100 0;
  PhyInit 0xb87c 0x0000 0x814d 1; PhyInit 0xb87e 0xff00 0x1100 0; PhyInit 0xb87c 0x0000 0x814f 1;
  PhyInit 0xb87e 0xff00 0x0b00 0; PhyInit 0xb87c 0x0000 0x8142 1; PhyInit 0xb87e 0xff00 0x0100 0;
  PhyInit 0xb87c 0x0000 0x8144 1; PhyInit 0xb87e 0xff00 0x0100 0; PhyInit 0xb87c 0x0000 0x8150 1;
  PhyInit 0xb87e 0xff00 0x0100 0; PhyInit 0xb87c 0x0000 0x8118 1; PhyInit 0xb87e 0xff00 0x0700 0;
  PhyInit 0xb87c 0x0000 0x811a 1; PhyInit 0xb87e 0xff00 0x0700 0; PhyInit 0xb87c 0x0000 0x811c 1;
  PhyInit 0xb87e 0xff00 0x0500 0; PhyInit 0xb87c 0x0000 0x810f 1; PhyInit 0xb87e 0xff00 0x0100 0;
  PhyInit 0xb87c 0x0000 0x8111 1; PhyInit 0xb87e 0xff00 0x0100 0; PhyInit 0xb87c 0x0000 0x811d 1;
  PhyInit 0xb87e 0xff00 0x0100 0; PhyInit 0xac36 0x0000 0x1000 0; PhyInit 0xad1c 0x0100 0x0000 0;
  PhyInit 0xade8 0xffc0 0x1400 0; PhyInit 0xb87c 0x0000 0x864b 1; PhyInit 0xb87e 0xff00 0x9d00 0;
  PhyInit 0xa436 0x0000 0x8f97 1; PhyInit 0xa438 0x0000 0x003f 1; PhyInit 0xa438 0x0000 0x3f02 1;
  PhyInit 0xa438 0x0000 0x023c 1; PhyInit 0xa438 0x0000 0x3b0a 1; PhyInit 0xa438 0x0000 0x1c00 1;
  PhyInit 0xa438 0x0000 0x0000 1; PhyInit 0xa438 0x0000 0x0000 1; PhyInit 0xa438 0x0000 0x0000 1;
  PhyInit 0xa438 0x0000 0x0000 1; PhyInit 0xad9c 0x0000 0x0020 0; PhyInit 0xb87c 0x0000 0x8122 1;
  PhyInit 0xb87e 0xff00 0x0c00 0; PhyInit 0xb87c 0x0000 0x82c8 1; PhyInit 0xb87e 0x0000 0x03ed 1;
  PhyInit 0xb87e 0x0000 0x03ff 1; PhyInit 0xb87e 0x0000 0x0009 1; PhyInit 0xb87e 0x0000 0x03fe 1;
  PhyInit 0xb87e 0x0000 0x000b 1; PhyInit 0xb87e 0x0000 0x0021 1; PhyInit 0xb87e 0x0000 0x03f7 1;
  PhyInit 0xb87e 0x0000 0x03b8 1; PhyInit 0xb87e 0x0000 0x03e0 1; PhyInit 0xb87e 0x0000 0x0049 1;
  PhyInit 0xb87e 0x0000 0x0049 1; PhyInit 0xb87e 0x0000 0x03e0 1; PhyInit 0xb87e 0x0000 0x03b8 1;
  PhyInit 0xb87e 0x0000 0x03f7 1; PhyInit 0xb87e 0x0000 0x0021 1; PhyInit 0xb87e 0x0000 0x000b 1;
  PhyInit 0xb87e 0x0000 0x03fe 1; PhyInit 0xb87e 0x0000 0x0009 1; PhyInit 0xb87e 0x0000 0x03ff 1;
  PhyInit 0xb87e 0x0000 0x03ed 1; PhyInit 0xb87c 0x0000 0x80ef 1; PhyInit 0xb87e 0xff00 0x0c00 0;
  PhyInit 0xb87c 0x0000 0x82a0 1; PhyInit 0xb87e 0x0000 0x000e 1; PhyInit 0xb87e 0x0000 0x03fe 1;
  PhyInit 0xb87e 0x0000 0x03ed 1; PhyInit 0xb87e 0x0000 0x0006 1; PhyInit 0xb87e 0x0000 0x001a 1;
  PhyInit 0xb87e 0x0000 0x03f1 1; PhyInit 0xb87e 0x0000 0x03d8 1; PhyInit 0xb87e 0x0000 0x0023 1;
  PhyInit 0xb87e 0x0000 0x0054 1; PhyInit 0xb87e 0x0000 0x0322 1; PhyInit 0xb87e 0x0000 0x00dd 1;
  PhyInit 0xb87e 0x0000 0x03ab 1; PhyInit 0xb87e 0x0000 0x03dc 1; PhyInit 0xb87e 0x0000 0x0027 1;
  PhyInit 0xb87e 0x0000 0x000e 1; PhyInit 0xb87e 0x0000 0x03e5 1; PhyInit 0xb87e 0x0000 0x03f9 1;
  PhyInit 0xb87e 0x0000 0x0012 1; PhyInit 0xb87e 0x0000 0x0001 1; PhyInit 0xb87e 0x0000 0x03f1 1;
  PhyInit 0xa436 0x0000 0x8018 1; PhyInit 0xa438 0x0000 0x2000 0; PhyInit 0xb87c 0x0000 0x8fe4 1;
  PhyInit 0xb87e 0xff00 0x0000 0; PhyInit 0xb54c 0xffc0 0x3700 0
].

Definition realtek_8126a_3_phy : list realtek_phy_ocp_init := [
  PhyInit 0xa442 0x0000 0x0800 0; PhyInit 0xa436 0x0000 0x8183 1; PhyInit 0xa438 0xff00 0x5900 0;
  PhyInit 0xa654 0x0000 0x0800 0; PhyInit 0xb648 0x0000 0x4000 0; PhyInit 0xad2c 0x0000 0x8000 0;
  PhyInit 0xad94 0x0000 0x0020 0; PhyInit 0xada0 0x0000 0x0002 0; PhyInit 0xae06 0xfc00 0x7c00 0;
  PhyInit 0xb87c 0x0000 0x8647 1; PhyInit 0xb87e 0xff00 0xe600 0; PhyInit 0xb87c 0x0000 0x8036 1;
  PhyInit 0xb87e 0xff00 0x3000 0; PhyInit 0xb87c 0x0000 0x8078 1; PhyInit 0xb87e 0xff00 0x3000 0;
  PhyInit 0xb87c 0x0000 0x89e9 1; PhyInit 0xb87e 0x0000 0xff00 0; PhyInit 0xb87c 0x0000 0x8ffd 1;
  PhyInit 0xb87e 0xff00 0x0100 0; PhyInit 0xb87c 0x0000 0x8ffe 1; PhyInit 0xb87e 0xff00 0x0200 0;
  PhyInit 0xb87c 0x0000 0x8fff 1; PhyInit 0xb87e 0xff00 0x0400 0; PhyInit 0xa436 0x0000 0x8018 1;
  PhyInit 0xa438 0xff00 0x7700 0; PhyInit 0xa436 0x0000 0x8f9c 1; PhyInit 0xa438 0x0000 0x0005 1;
  PhyInit 0xa438 0x0000 0x0000 1; PhyInit 0xa438 0x0000 0x00ed 1; PhyInit 0xa438 0x0000 0x0502 1;
  PhyInit 0xa438 0x0000 0x0b00 1; PhyInit 0xa438 0x0000 0xd401 1; PhyInit 0xa436 0x0000 0x8fa8 1;
  PhyInit 0xa438 0xff00 0x2900 0; PhyInit 0xb87c 0x0000 0x814b 1; PhyInit 0xb87e 0xff00 0x1100 0;
  PhyInit 0xb87c 0x0000 0x814d 1; PhyInit 0xb87e 0xff00 0x1100 0; PhyInit 0xb87c 0x0000 0x814f 1;
  PhyInit 0xb87e 0xff00 0x0b00 0; PhyInit 0xb87c 0x0000 0x8142 1; PhyInit 0xb87e 0xff00 0x0100 0;
  PhyInit 0xb87c 0x0000 0x8144 1; PhyInit 0xb87e 0xff00 0x0100 0; PhyInit 0xb87c 0x0000 0x8150 1;
  PhyInit 0xb87e 0xff00 0x0100 0; PhyInit 0xb87c 0x0000 0x8118 1; PhyInit 0xb87e 0xff00 0x0700 0;
  PhyInit 0xb87c 0x0000 0x811a 1; PhyInit 0xb87e 0xff00 0x0700 0; PhyInit 0xb87c 0x0000 0x811c 1;
  PhyInit 0xb87e 0xff00 0x0500 0; PhyInit 0xb87c 0x0000 0x810f 1; PhyInit 0xb87e 0xff00 0x0100 0;
  PhyInit 0xb87c 0x0000 0x8111 1; PhyInit 0xb87e 0xff00 0x0100 0; PhyInit 0xb87c 0x0000 0x811d 1;
  PhyInit 0xb87e 0xff00 0x0100 0; PhyInit 0xad1c 0x0000 0x0100 0; PhyInit 0xade8 0xffc0 0x1400 0;
  PhyInit 0xb87c 0x0000 0x864b 1; PhyInit 0xb87e 0xff00 0x9d00 0; PhyInit 0xb87c 0x0000 0x862c 1;
  PhyInit 0xb87e 0xff00 0x1200 0; PhyInit 0xa436 0x0000 0x8566 1; PhyInit 0xa438 0x0000 0x003f 1;
  PhyInit 0xa438 0x0000 0x3f02 1; PhyInit 0xa438 0x0000 0x023c 1; PhyInit 0xa438 0x0000 0x3b0a 1;
  PhyInit 0xa438 0x0000 0x1c00 1; PhyInit 0xa438 0x0000 0x0000 1; PhyInit 0xa438 0x0000 0x0000 1;
  PhyInit 0xa438 0x0000 0x0000 1; PhyInit 0xa438 0x0000 0x0000 1; PhyInit 0xad9c 0x0000 0x0020 0;
  PhyInit 0xb87c 0x0000 0x8122 1; PhyInit 0xb87e 0xff00 0x0c00 0; PhyInit 0xb87c 0x0000 0x82c8 1;
  PhyInit 0xb87e 0x0000 0x03ed 1; PhyInit 0xb87e 0x0000 0x03ff 1; PhyInit 0xb87e 0x0000 0x0009 1;
  PhyInit 0xb87e 0x0000 0x03fe 1; PhyInit 0xb87e 0x0000 0x000b 1; PhyInit 0xb87e 0x0000 0x0021 1;
  PhyInit 0xb87e 0x0000 0x03f7 1; PhyInit 0xb87e 0x0000 0x03b8 1; PhyInit 0xb87e 0x0000 0x03e0 1;
  PhyInit 0xb87e 0x0000 0x0049 1; PhyInit 0xb87e 0x0000 0x0049 1; PhyInit 0xb87e 0x0000 0x03e0 1;
  PhyInit 0xb87e 0x0000 0x03b8 1; PhyInit 0xb87e 0x0000 0x03f7 1; PhyInit 0xb87e 0x0000 0x0021 1;
  PhyInit 0xb87e 0x0000 0x000b 1; PhyInit 0xb87e 0x0000 0x03fe 1; PhyInit 0xb87e 0x0000 0x0009 1;
  PhyInit 0xb87e 0x0000 0x03ff 1; PhyInit 0xb87e 0x0000 0x03ed 1; PhyInit 0xb87c 0x0000 0x80ef 1;
  PhyInit 0xb87e 0xff00 0x0c00 0; PhyInit 0xb87c 0x0000 0x82a0 1; PhyInit 0xb87e 0x0000 0x000e 1;
  PhyInit 0xb87e 0x0000 0x03fe 1; PhyInit 0xb87e 0x0000 0x03ed 1; PhyInit 0xb87e 0x0000 0x0006 1;
  PhyInit 0xb87e 0x0000 0x001a 1; PhyInit 0xb87e 0x0000 0x03f1 1; PhyInit 0xb87e 0x0000 0x03d8 1;
  PhyInit 0xb87e 0x0000 0x0023 1; PhyInit 0xb87e 0x0000 0x0054 1; PhyInit 0xb87e 0x0000 0x0322 1;
  PhyInit 0xb87e 0x0000 0x00dd 1; PhyInit 0xb87e 0x0000 0x03ab 1; PhyInit 0xb87e 0x0000 0x03dc 1;
  PhyInit 0xb87e 0x0000 0x0027 1; PhyInit 0xb87e 0x0000 0x000e 1; PhyInit 0xb87e 0x0000 0x03e5 1;
  PhyInit 0xb87e 0x0000 0x03f9 1; PhyInit 0xb87e 0x0000 0x0012 1; PhyInit 0xb87e 0x0000 0x0001 1;
  PhyInit 0xb87e 0x0000 0x03f1 1; PhyInit 0xa430 0x0000 0x0003 0; PhyInit 0xb54c 0xffc0 0x3700 0;
  PhyInit 0xb648 0x0000 0x0040 0; PhyInit 0xb87c 0x0000 0x8082 1; PhyInit 0xb87e 0xff00 0x5d00 0;
  PhyInit 0xb87c 0x0000 0x807c 1; PhyInit 0xb87e 0xff00 0x5000 0; PhyInit 0xb87c 0x0000 0x809d 1;
  PhyInit 0xb87e 0xff00 0x5000 0
].

(** ** What the core of iPXE does for the driver

    [mii_reset] and [mii_restart] drive the PHY through the driver's MII operations;
    [physaddr_64] is whether physical addresses have 64 bits. *)
Class MiiOps (D : Type) := {
  mii_reset : M (rtl D) status;
  mii_restart : M (rtl D) status;
  MII_CTRL1000 : Z;
  MII_MMD_DATA : Z;
  ADVERTISE_1000 : Z;
  physaddr_64 : bool;
}.

Section Init.
Context {D : Type} `{NicHw D} `{MiiOps D}.

Definition set_chip (f : realtek_chip -> realtek_chip) : M (rtl D) unit :=
  update (fun s => s <| chip ::= f |>).

(** ** Detection *)
Definition xid_of (txconfig : Z) : Z := Z.land (Z.shiftr txconfig 20) 0xfcf.

Definition find_version (xid : Z) : option realtek_chip_version :=
  List.find (fun v => Z.land xid (cv_mask v) =? cv_value v) realtek_8125_versions.

Definition realtek_detect_8125 : M (rtl D) status :=
  let* txconfig := readl RTL_TCR in
  if txconfig =? 0xffffffff then ret (Err ENODEV) else
  match find_version (xid_of txconfig) with
  | Some v => do* set_chip (fun c => c <| mac_ver := cv_version v |>) in ret OK
  | None => ret (Err ENODEV)
  end.

Definition realtek_detect_8126 : M (rtl D) status :=
  let* txconfig := readl RTL_TCR in
  if txconfig =? 0xffffffff then ret (Err ENODEV) else
  if negb (Z.land txconfig 0x7c800000 =? 0x64800000) then ret (Err ENODEV) else
  let icverid := Z.shiftr (Z.land txconfig 0x00700000) 20 in
  let m := if icverid =? 0 then 1 else if icverid =? 1 then 2 else 3 in
  do* set_chip (fun c => c <| mcfg := m |>) in
  do* set_chip (fun c => c <| mac_ver := 70 |>) in
  ret OK.

(** ** RTL8125 *)
Fixpoint ephy_writes (l : list realtek_ephy_init) : M (rtl D) unit :=
  match l with
  | [] => ret tt
  | e :: l => do* realtek_ephy_write (ephy_reg e) (ephy_value e) in ephy_writes l
  end.

Definition ephy_table (version : Z) : list realtek_ephy_init :=
  if version =? 61 then realtek_8125a_ephy
  else if version =? 63 then realtek_8125b_ephy
  else [].

(** [writeb ( ( readb ( reg ) & ~bits ), reg )] and its 16-bit and 32-bit counterparts. *)
Definition clear_bits8 (reg bits : Z) : M (rtl D) unit := let* v := readb reg in writeb (Z.ldiff v bits) reg.
Definition clear_bits16 (reg bits : Z) : M (rtl D) unit := let* v := readw reg in writew (Z.ldiff v bits) reg.
Definition clear_bits32 (reg bits : Z) : M (rtl D) unit := let* v := readl reg in writel (Z.ldiff v bits) reg.

Definition realtek_hw_start_8125 : M (rtl D) unit :=
  let* s := get in
  let version := mac_ver (chip s) in
  do* ephy_writes (ephy_table version) in
  do* clear_bits8 RTL_CONFIG3 RTL_CONFIG3_RDY_TO_L23 in
  do* writew 0x221b 0x382 in
  do* writel 0 RTL_RSS_CTRL_8125 in
  do* writew 0 RTL_Q_NUM_CTRL_8125 in
  do* realtek_mac_ocp_modify 0xd40a 0x0010 0x0000 in
  do* clear_bits8 RTL_CONFIG1 0x10 in
  do* realtek_mac_ocp_write 0xc140 0xffff in
  do* realtek_mac_ocp_write 0xc142 0xffff in
  do* realtek_mac_ocp_modify 0xd3e2 0x0fff 0x03a9 in
  do* realtek_mac_ocp_modify 0xd3e4 0x00ff 0x0000 in
  do* realtek_mac_ocp_modify 0xe860 0x0000 0x0080 in
  do* realtek_mac_ocp_modify 0xeb58 0x0001 0x0000 in
  do* (if version =? 70 then clear_bits8 0xd8 0x02 else ret tt) in
  do* (if version =? 70 then realtek_mac_ocp_modify 0xe614 0x0700 0x0400
       else if version =? 63 then
         do* realtek_mac_ocp_modify 0xe614 0x0700 0x0200 in
         realtek_mac_ocp_modify 0xe63e 0x0c30 0x0000
       else
         do* realtek_mac_ocp_modify 0xe614 0x0700 0x0300 in
         realtek_mac_ocp_modify 0xe63e 0x0c30 0x0020) in
  do* realtek_mac_ocp_modify 0xc0b4 0x0000 0x000c in
  do* realtek_mac_ocp_modify 0xeb6a 0x00ff 0x0033 in
  do* realtek_mac_ocp_modify 0xeb50 0x03e0 0x0040 in
  do* realtek_mac_ocp_modify 0xe056 0x00f0 0x0000 in
  do* realtek_mac_ocp_modify 0xe040 0x1000 0x0000 in
  do* realtek_mac_ocp_modify 0xea1c 0x0003 0x0001 in
  do* (if version =? 70 then realtek_mac_ocp_modify 0xea1c 0x0300 0x0000
       else realtek_mac_ocp_modify 0xea1c 0x0004 0x0000) in
  do* realtek_mac_ocp_modify 0xe0c0 0x4f0f 0x4403 in
  do* realtek_mac_ocp_modify 0xe052 0x0080 0x0068 in
  do* realtek_mac_ocp_modify 0xd430 0x0fff 0x047f in
  do* realtek_mac_ocp_modify 0xea1c 0x0004 0x0000 in
  do* realtek_mac_ocp_modify 0xeb54 0x0000 0x0001 in
  do* realtek_mac_ocp_modify 0xeb54 0x0001 0x0000 in
  do* clear_bits16 0x1880 0x0030 in
  do* realtek_mac_ocp_write 0xe098 0xc302 in
  do* wait_for (Z.to_nat 1000) (realtek_mac_ocp_read 0xe00e) (bit_set (Z.shiftl 1 13)) in
  clear_bits32 RTL_MISC RTL_MISC_RXDV_GATED_EN.

(** ** RTL8126 *)

(** The MII core's accessors, which call the operations of the device's interface; without
    an interface they follow a null pointer. *)
Definition mii_read (reg : Z) : M (rtl D) (errno + Z) :=
  let* s := get in if mii_ready (chip s) then realtek_mii_read reg else fault.
Definition mii_write (reg data : Z) : M (rtl D) status :=
  let* s := get in if mii_ready (chip s) then realtek_mii_write reg data else fault.

Definition phy_init_one (e : realtek_phy_ocp_init) : M (rtl D) unit :=
  if negb (phy_write e =? 0) then realtek_gphy_ocp_write (phy_reg e) (phy_set e)
  else realtek_gphy_ocp_modify (phy_reg e) (phy_clear e) (phy_set e).

Fixpoint phy_inits (l : list realtek_phy_ocp_init) : M (rtl D) unit :=
  match l with
  | [] => ret tt
  | e :: l => do* phy_init_one e in phy_inits l
  end.

Definition phy_table (method : Z) : list realtek_phy_ocp_init :=
  if method =? 1 then realtek_8126a_1_phy
  else if method =? 2 then realtek_8126a_2_phy
  else if method =? 3 then realtek_8126a_3_phy
  else [].

Definition mcu_expected (method : Z) : Z :=
  if method =? 1 then RTL_MCU_VER_8126A_1
  else if method =? 2 then RTL_MCU_VER_8126A_2
  else if method =? 3 then RTL_MCU_VER_8126A_3
  else 0.

(** The configuration of the PHY registers; a firmware version that does not match is only
    reported. *)
Definition phy_config_registers : M (rtl D) unit :=
  let* s := get in
  let method := mcfg (chip s) in
  do* (if negb (mcu_expected method =? 0) then
         do* realtek_gphy_ocp_write 0xa436 0x801e in
         do* realtek_gphy_ocp_read 0xa438 in
         ret tt
       else ret tt) in
  do* phy_inits (phy_table method) in
  do* realtek_gphy_ocp_modify 0xa5b4 0x8000 0 in
  ret tt.

(** The last statement returns to the standard page through the MII device. *)
Definition realtek_hw_phy_config_8126 : M (rtl D) unit :=
  do* phy_config_registers in
  do* mii_write 0x1f 0 in
  ret tt.

Definition realtek_hw_start_8126 : M (rtl D) unit :=
  do* realtek_csi_modify 0x0890 0x00000001 0 in
  do* realtek_csi_modify 0x070c 0xff000000 0x27000000 in
  do* realtek_hw_start_8125 in
  realtek_hw_phy_config_8126.

(** ** Reset, PHY and link *)
Definition realtek_reset : M (rtl D) status :=
  do* writeb RTL_CR_RST RTL_CR in
  let* r := wait_for RTL_RESET_MAX_WAIT_MS (readb RTL_CR) (fun v => negb (bit_set RTL_CR_RST v)) in
  match r with Some _ => ret OK | None => ret (Err ETIMEDOUT) end.

Definition realtek_phy_speed : M (rtl D) status :=
  let* ctrl1000 := mii_read MII_CTRL1000 in
  match ctrl1000 with
  | inl e => ret (Err e)
  | inr v => mii_write MII_CTRL1000 (Z.lor v ADVERTISE_1000)
  end.

Definition realtek_phy_reset : M (rtl D) status :=
  let* s := get in
  if negb (have_phy_regs (chip s)) then ret OK else
  try* mii_reset in
  do* realtek_phy_speed in
  do* mii_write MII_MMD_DATA 0 in
  mii_restart.

(** The link state that [realtek_check_link] reports to the network core. *)
Definition realtek_check_link : M (rtl D) bool :=
  let* s := get in
  if have_phy_regs (chip s) then
    let* phystatus := readb RTL_PHYSTATUS in ret (bit_set RTL_PHYSTATUS_LINKSTS phystatus)
  else
    let* msr := readb RTL_MSR in ret (negb (bit_set RTL_MSR_LINKB msr)).

(** [realtek_detect]; an RTL8139 is driven in legacy mode.  The value is whether an
    EEPROM is to be looked for. *)
Definition realtek_detect : M (rtl D) bool :=
  let* rc := realtek_detect_8126 in
  let* rc := match rc with OK => ret OK | Err _ => realtek_detect_8125 end in
  match rc with
  | OK =>
      do* set_chip (fun c => c <| have_phy_regs := true |> <| have_ocp := true |> <| tppoll := RTL_TPPOLL_8125 |>) in
      ret false
  | Err _ =>
      do* writew RTL_RX_MAX_LEN RTL_RMS in
      let* check_rms := readw RTL_RMS in
      let* cpcr := readw RTL_CPCR in
      let cpcr := Z.lor cpcr (Z.lor (Z.lor RTL_CPCR_MULRW RTL_CPCR_CPRX) RTL_CPCR_CPTX) in
      let cpcr := if physaddr_64 then Z.lor cpcr RTL_CPCR_DAC else cpcr in
      let cpcr := Z.ldiff cpcr RTL_CPCR_VLAN in
      do* writew cpcr RTL_CPCR in
      let* check_cpcr := readw RTL_CPCR in
      if check_rms =? RTL_RX_MAX_LEN then
        do* set_chip (fun c => c <| have_phy_regs := true |> <| tppoll := RTL_TPPOLL_8169 |>) in
        ret false
      else if (check_cpcr =? cpcr) && negb (cpcr =? 0xffff) then
        do* set_chip (fun c => c <| tppoll := RTL_TPPOLL_8139CP |>) in ret true
      else
        do* set_chip (fun c => c <| legacy := true |>) in ret true
  end.

(** ** EEPROM bus *)

(** The pins of the bus, and the bits of the register that drive them. *)
Inductive spi_bit : Type := SPI_BIT_SCLK | SPI_BIT_MOSI | SPI_BIT_MISO | SPI_BIT_SS0.

Definition realtek_eeprom_bits (bit_id : spi_bit) : Z :=
  match bit_id with
  | SPI_BIT_SCLK => RTL_9346CR_EESK
  | SPI_BIT_MOSI => RTL_9346CR_EEDI
  | SPI_BIT_MISO => RTL_9346CR_EEDO
  | SPI_BIT_SS0 => RTL_9346CR_EECS
  end.

Definition realtek_spi_open_bit : M (rtl D) unit :=
  do* writeb RTL_9346CR_EEM_EEPROM RTL_9346CR in
  do* readb RTL_9346CR in
  ret tt.

Definition realtek_spi_close_bit : M (rtl D) unit :=
  do* writeb RTL_9346CR_EEM_NORMAL RTL_9346CR in
  do* readb RTL_9346CR in
  ret tt.

Definition realtek_spi_read_bit (bit_id : spi_bit) : M (rtl D) Z :=
  let* reg := readb RTL_9346CR in
  ret (Z.land reg (realtek_eeprom_bits bit_id)).

Definition realtek_spi_write_bit (bit_id : spi_bit) (data : Z) : M (rtl D) unit :=
  let mask := realtek_eeprom_bits bit_id in
  let* reg := readb RTL_9346CR in
  do* writeb (Z.lor (Z.ldiff reg mask) (Z.land data mask)) RTL_9346CR in
  do* readb RTL_9346CR in
  ret tt.
End Init.

(** ** PCI identifiers *)
Record pci_device_id : Type := PciRom { vendor : Z; device_id : Z; rom_name : string }.

Definition realtek_nics : list pci_device_id := [
  PciRom 0x0001 0x8168 "clone8169";
  PciRom 0x018a 0x0106 "fpc0106tx";
  PciRom 0x021b 0x8139 "hne300";
  PciRom 0x02ac 0x1012 "s1012";
  PciRom 0x0357 0x000a "ttpmon";
  PciRom 0x10ec 0x8126 "rtl8126";
  PciRom 0x10ec 0x8125 "rtl8125";
  PciRom 0x10ec 0x8129 "rtl8129";
  PciRom 0x10ec 0x8136 "rtl8136";
  PciRom 0x10ec 0x8138 "rtl8138";
  PciRom 0x10ec 0x8139 "rtl8139";
  PciRom 0x10ec 0x8167 "rtl8167";
  PciRom 0x10ec 0x8168 "rtl8168";
  PciRom 0x10ec 0x8169 "rtl8169";
  PciRom 0x1113 0x1211 "smc1211";
  PciRom 0x1186 0x1300 "dfe538";
  PciRom 0x1186 0x1340 "dfe690";
  PciRom 0x1186 0x4300 "dge528t";
  PciRom 0x11db 0x1234 "sega8139";
  PciRom 0x1259 0xa117 "allied8139";
  PciRom 0x1259 0xa11e "allied81xx";
  PciRom 0x1259 0xc107 "allied8169";
  PciRom 0x126c 0x1211 "northen8139";
  PciRom 0x13d1 0xab06 "fe2000vx";
  PciRom 0x1432 0x9130 "edi8139";
  PciRom 0x14ea 0xab06 "fnw3603tx";
  PciRom 0x14ea 0xab07 "fnw3800tx";
  PciRom 0x1500 0x1360 "delta8139";
  PciRom 0x16ec 0x0116 "usr997902";
  PciRom 0x1737 0x1032 "linksys8169";
  PciRom 0x1743 0x8139 "rolf100";
  PciRom 0x4033 0x1360 "addron8139";
  PciRom 0xffff 0x8139 "clonse8139"
].

(** No identifier is listed twice. *)
Lemma realtek_nics_distinct : NoDup (map (fun i => (vendor i, device_id i)) realtek_nics).
Proof. apply (bool_decide_unpack _). vm_compute. exact I. Qed.
