(* ===== verification/RealtekSpec.v ===== *)
(** * Realtek network driver: what initialisation does to a card

    A card whose PHY registers are reached through the GPHY OCP register, with any delay
    the driver is ready to wait for: the accessors read, write and modify the register
    they name, and the configuration of an RTL8126 applies its table.  The EPHY accessor
    of the RTL8125 does not do what its tables say. *)

From stdpp Require Import base list strings.
From Stdlib Require Import ZArith Lia.
From S2P Require Import Prelude RealtekHw RealtekInit.

(** ** A card with PHY registers

    [shown] is what the access register shows while the card is busy, [final] what it
    shows afterwards. *)
Record phy_card : Type := PhyCard {
  phy : Z -> Z;
  shown : Z;
  final : Z;
  busy : nat;
}.

Definition set_reg (r v : Z) (f : Z -> Z) : Z -> Z := fun x => if x =? r then v else f x.

Section PhyCard.
Context (latency : nat).

Definition phy_access (v : Z) (c : phy_card) : phy_card :=
  let r := 2 * ((v / 2 ^ 16) mod 2 ^ 15) in
  if Z.testbit v 31 then PhyCard (set_reg r (v mod 2 ^ 16) (phy c)) v (v mod 2 ^ 31) latency
  else PhyCard (phy c) v (2 ^ 31 + phy c r) latency.

#[local] Instance phy_hw : NicHw phy_card := {
  hw_read n reg c :=
    if reg =? RTL_GPHY_OCP then
      match busy c with
      | O => (final c, c)
      | S k => (shown c, PhyCard (phy c) (shown c) (final c) k)
      end
    else (0, c);
  hw_write n reg v c := if reg =? RTL_GPHY_OCP then phy_access v c else c;
}.

(** A register that the interface can address. *)
Definition phy_addr (r : Z) : Prop := ocp_invalid r = false /\ 0 <= r < 2 ^ 16 /\ r mod 2 = 0.

Implicit Types (s : rtl phy_card).

Lemma bit_set_pow k v : 0 <= k -> bit_set (2 ^ k) v = Z.testbit v k.
Proof.
  intros Hk. unfold bit_set. destruct (Z.testbit v k) eqn:E.
  - apply negb_true_iff, Z.eqb_neq. intros Hz.
    apply (f_equal (fun x => Z.testbit x k)) in Hz.
    rewrite Z.land_spec, E, Z.pow2_bits_true, Z.bits_0 in Hz by lia. done.
  - apply negb_false_iff, Z.eqb_eq, Z.bits_inj'. intros i Hi. rewrite Z.land_spec, Z.bits_0.
    destruct (decide (i = k)) as [->|Hne]; [by rewrite E|]. by rewrite Z.pow2_bits_false, andb_false_r by lia.
Qed.

Lemma wait_busy ok n s :
  (busy (card s) < n)%nat -> ok (shown (card s)) = false -> ok (final (card s)) = true ->
  wait_for n (readl RTL_GPHY_OCP) ok s =
  Ret (Some (final (card s))) (s <| card := PhyCard (phy (card s)) (shown (card s)) (final (card s)) 0 |>).
Proof.
  revert s. induction n as [|n IH]; intros [c [p sh f k]] Hn Hsh Hf; [lia|]. cbn in Hn, Hsh, Hf.
  cbn [wait_for]. unfold bind, readl, hw_get. cbn. destruct k as [|k]; cbn.
  - by rewrite Hf.
  - rewrite Hsh. etransitivity; [apply (IH (Rtl c (PhyCard p sh f k))); (done || (cbn; lia))|done].
Qed.

(** The words the driver writes to start a write and a read. *)
Definition write_word (r v : Z) : Z := 2 ^ 31 + r / 2 * 2 ^ 16 + v.
Definition read_word (r : Z) : Z := r / 2 * 2 ^ 16.

Lemma shiftl_reg r : 0 <= r < 2 ^ 16 -> r mod 2 = 0 -> Z.shiftl r 15 = r / 2 * 2 ^ 16.
Proof.
  intros Hr Hm. rewrite Z.shiftl_mul_pow2 by lia. change (2 ^ 16) with (2 * 2 ^ 15).
  rewrite (Z.div_mod r 2) at 1 by lia. lia.
Qed.

Lemma write_word_eq r v : 0 <= r < 2 ^ 16 -> r mod 2 = 0 -> 0 <= v < 2 ^ 16 ->
  u32 (Z.lor (Z.lor RTL_OCPAR_FLAG (u32 (Z.shiftl r 15))) v) = write_word r v.
Proof.
  intros Hr Hm Hv. assert (0 <= r / 2 < 2 ^ 15) as Hd by (split; [apply Z.div_pos; lia|apply Z.div_lt_upper_bound; lia]).
  rewrite shiftl_reg by done. rewrite (u32_id (r / 2 * 2 ^ 16)) by lia.
  change RTL_OCPAR_FLAG with (Z.shiftl 1 31). rewrite lor_shiftl_add by lia.
  replace (1 * 2 ^ 31 + r / 2 * 2 ^ 16) with (Z.shiftl (2 ^ 15 + r / 2) 16)
    by (rewrite Z.shiftl_mul_pow2 by lia; lia).
  rewrite lor_shiftl_add by lia. unfold write_word. rewrite u32_id by lia. lia.
Qed.

Lemma word_parts r v : 0 <= r < 2 ^ 16 -> r mod 2 = 0 -> 0 <= v < 2 ^ 16 ->
  2 * ((write_word r v / 2 ^ 16) mod 2 ^ 15) = r /\ write_word r v mod 2 ^ 16 = v /\
  Z.testbit (write_word r v) 31 = true /\ Z.testbit (write_word r v mod 2 ^ 31) 31 = false /\
  2 * ((read_word r / 2 ^ 16) mod 2 ^ 15) = r /\ Z.testbit (read_word r) 31 = false.
Proof.
  intros Hr Hm Hv. assert (0 <= r / 2 < 2 ^ 15) as Hd by (split; [apply Z.div_pos; lia|apply Z.div_lt_upper_bound; lia]).
  assert (2 * (r / 2) = r) as Hrr by (rewrite (Z.div_mod r 2) at 2 by lia; lia).
  assert (write_word r v = (2 ^ 15 + r / 2) * 2 ^ 16 + v) as Hw by (unfold write_word; lia).
  assert (write_word r v / 2 ^ 16 = 2 ^ 15 + r / 2) as Hq by (rewrite Hw; symmetry; apply Z.div_unique with v; lia).
  assert (write_word r v mod 2 ^ 16 = v) as Hv' by (rewrite Hw; symmetry; apply Z.mod_unique with (2 ^ 15 + r / 2); lia).
  assert (0 <= write_word r v mod 2 ^ 31 < 2 ^ 31) as Hlow by (apply Z.mod_pos_bound; lia).
  split_and!.
  - rewrite Hq, <-Z.add_mod_idemp_l, Z.mod_same, Z.add_0_l, Z.mod_small by lia. done.
  - done.
  - apply Z.testbit_true; [lia|]. replace (write_word r v / 2 ^ 31) with 1; [done|].
    apply Z.div_unique with (r / 2 * 2 ^ 16 + v); unfold write_word; lia.
  - apply Z.testbit_false; [lia|]. by rewrite Z.div_small by lia.
  - unfold read_word. rewrite Z.div_mul, Z.mod_small by lia. done.
  - apply Z.testbit_false; [lia|]. unfold read_word. rewrite Z.div_small by lia. done.
Qed.

(** The state after an access: only the PHY registers count. *)
Definition phy_is (s : rtl phy_card) (f : Z -> Z) (s' : rtl phy_card) : Prop :=
  chip s' = chip s /\ forall x, phy (card s') x = f x.

Hypothesis latency_ok : (latency < RTL_GPHY_OCP_MAX_WAIT_US)%nat.

(** Registers have 16 bits. *)
Definition regs_ok (s : rtl phy_card) : Prop := forall x, 0 <= phy (card s) x < 2 ^ 16.

Lemma wp_writel_gphy F w Q c pc : Q tt (Rtl c (phy_access (u32 w) pc)) -> wp F (writel w RTL_GPHY_OCP) Q (Rtl c pc).
Proof. exact (fun Hq => Hq). Qed.

Lemma wp_wait_gphy F ok (Q : option Z -> rtl phy_card -> Prop) c f sh fin :
  ok sh = false -> ok fin = true -> Q (Some fin) (Rtl c (PhyCard f sh fin 0)) ->
  wp F (wait_for RTL_GPHY_OCP_MAX_WAIT_US (readl RTL_GPHY_OCP) ok) Q (Rtl c (PhyCard f sh fin latency)).
Proof. intros Hs Hf Hq. eapply wp_intro; [by apply wait_busy|exact Hq]. Qed.

Lemma flag_testbit v : bit_set RTL_OCPAR_FLAG v = Z.testbit v 31.
Proof. apply (bit_set_pow 31). lia. Qed.

Lemma gphy_write_spec F r v s : phy_addr r -> 0 <= v < 2 ^ 16 ->
  wp F (realtek_gphy_ocp_write r v) (fun _ s' => phy_is s (set_reg r v (phy (card s))) s') s.
Proof.
  intros (Hi & Hr & Hm) Hv. destruct s as [c pc]. unfold realtek_gphy_ocp_write. rewrite Hi. wp_step.
  destruct (word_parts r v Hr Hm Hv) as (Hreg & Hdata & Hflag & Hlow & _).
  apply wp_writel_gphy. rewrite write_word_eq by done. unfold phy_access. rewrite Hflag, Hreg, Hdata.
  wp_step. apply wp_wait_gphy; [by rewrite flag_testbit, Hflag|by rewrite flag_testbit, Hlow|]. by wp_step.
Qed.

Lemma gphy_read_spec F r s : phy_addr r -> regs_ok s ->
  wp F (realtek_gphy_ocp_read r) (fun a s' => a = inr (phy (card s) r) /\ phy_is s (phy (card s)) s') s.
Proof.
  intros (Hi & Hr & Hm) Hok. specialize (Hok r). destruct s as [c pc]. cbn in Hok.
  unfold realtek_gphy_ocp_read. rewrite Hi. wp_step.
  destruct (word_parts r 0 Hr Hm ltac:(lia)) as (_ & _ & _ & _ & Hreg & Hflag).
  assert (0 <= r / 2 < 2 ^ 15) as Hd by (split; [apply Z.div_pos; lia|apply Z.div_lt_upper_bound; lia]).
  apply wp_writel_gphy. rewrite shiftl_reg, u32_id by (done || lia). fold (read_word r).
  unfold phy_access. rewrite Hflag, Hreg.
  assert (Z.testbit (2 ^ 31 + phy pc r) 31 = true) as Htop.
  { apply Z.testbit_true; [lia|]. replace ((2 ^ 31 + phy pc r) / 2 ^ 31) with 1; [done|].
    apply Z.div_unique with (phy pc r); lia. }
  wp_step. apply wp_wait_gphy; [by rewrite flag_testbit|by rewrite flag_testbit|]. wp_step.
  split; [|done]. cbn [card phy]. f_equal.
  change RTL_EPHYAR_DATA_MASK with (Z.ones 16). rewrite Z.land_ones by lia.
  change (2 ^ 31) with (2 ^ 15 * 2 ^ 16). rewrite Z.add_comm, Z.mod_add, Z.mod_small by lia. done.
Qed.

Lemma modified_range clear set data : 0 <= set < 2 ^ 16 -> 0 <= data < 2 ^ 16 -> 0 <= modified clear set data < 2 ^ 16.
Proof.
  intros Hs Hd. assert (modified clear set data mod 2 ^ 16 = modified clear set data) as <-;
    [|apply Z.mod_pos_bound; lia].
  rewrite <-Z.land_ones by lia. unfold modified. rewrite Z.land_lor_distr_l, Z.ldiff_land.
  rewrite <-Z.land_assoc, (Z.land_comm (Z.lnot clear)), Z.land_assoc.
  by rewrite !Z.land_ones, !Z.mod_small by lia.
Qed.

Lemma gphy_modify_spec F r clear set s : phy_addr r -> 0 <= set < 2 ^ 16 -> regs_ok s ->
  wp F (realtek_gphy_ocp_modify r clear set)
    (fun _ s' => phy_is s (set_reg r (modified clear set (phy (card s) r)) (phy (card s))) s') s.
Proof.
  intros Hr Hs Hok. unfold realtek_gphy_ocp_modify. wp_step. eapply wp_mono; [by apply gphy_read_spec|].
  intros a s1 (-> & Hc & Hp). eapply wp_mono; [apply gphy_write_spec; [done|apply modified_range; [done|apply Hok]]|].
  intros _ s2 (Hc2 & Hp2). split; [congruence|]. intros x. rewrite Hp2. unfold set_reg. by rewrite Hp.
Qed.

(** What an entry of a table is to do. *)
Definition phy_effect (f : Z -> Z) (e : realtek_phy_ocp_init) : Z -> Z :=
  set_reg (phy_reg e)
    (if phy_write e =? 0 then modified (phy_clear e) (phy_set e) (f (phy_reg e)) else phy_set e) f.

Definition entry_ok (e : realtek_phy_ocp_init) : Prop := phy_addr (phy_reg e) /\ 0 <= phy_set e < 2 ^ 16.

Lemma set_reg_ok r v f : (forall x, 0 <= f x < 2 ^ 16) -> 0 <= v < 2 ^ 16 -> forall x, 0 <= set_reg r v f x < 2 ^ 16.
Proof. intros Hf Hv x. unfold set_reg. by destruct (x =? r). Qed.

Lemma phy_effect_ok f e : entry_ok e -> (forall x, 0 <= f x < 2 ^ 16) -> forall x, 0 <= phy_effect f e x < 2 ^ 16.
Proof.
  intros [_ Hs] Hf. apply set_reg_ok; [done|]. destruct (_ =? 0); [|done]. by apply modified_range.
Qed.

Lemma phy_effects_ext l : forall f g, (forall x, f x = g x) -> forall x, foldl phy_effect f l x = foldl phy_effect g l x.
Proof.
  induction l as [|e l IH]; intros f g Hfg; [done|]. cbn. apply IH. intros x. unfold phy_effect, set_reg. by rewrite !Hfg.
Qed.

Lemma phy_effects_ok l : Forall entry_ok l -> forall f, (forall x, 0 <= f x < 2 ^ 16) ->
  forall x, 0 <= foldl phy_effect f l x < 2 ^ 16.
Proof. induction 1 as [|e l He _ IH]; intros f Hf; [done|]. cbn. by apply IH, phy_effect_ok. Qed.

Lemma phy_is_ok s f s' : (forall x, 0 <= f x < 2 ^ 16) -> phy_is s f s' -> regs_ok s'.
Proof. intros Hf [_ Hp] x. by rewrite Hp. Qed.

Lemma phy_inits_spec F l : Forall entry_ok l -> forall s, regs_ok s ->
  wp F (phy_inits l) (fun _ s' => phy_is s (foldl phy_effect (phy (card s)) l) s') s.
Proof.
  induction 1 as [|e l He _ IH]; intros s Hok; cbn [phy_inits foldl]; wp_step; [done|].
  apply wp_mono with (fun _ s' => phy_is s (phy_effect (phy (card s)) e) s').
  - destruct He as [Hr Hs]. unfold phy_init_one, phy_effect. destruct (phy_write e =? 0); cbn [negb];
      [by apply gphy_modify_spec|by apply gphy_write_spec].
  - intros t1 s1 Hs1. eapply wp_mono; [apply IH; eapply phy_is_ok; [by apply phy_effect_ok|done]|].
    intros _ s2 [Hc2 Hp2]. destruct Hs1 as [Hc1 Hp1]. split; [congruence|]. intros x. rewrite Hp2. by apply phy_effects_ext.
Qed.

(** The tables name registers that the interface reaches, and values of 16 bits. *)
Definition entry_check (e : realtek_phy_ocp_init) : bool :=
  negb (ocp_invalid (phy_reg e)) && (0 <=? phy_reg e) && (phy_reg e <? 65536) && (phy_reg e mod 2 =? 0) &&
  (0 <=? phy_set e) && (phy_set e <? 65536).

Lemma entries_ok l : forallb entry_check l = true -> Forall entry_ok l.
Proof.
  induction l as [|e l IH]; [constructor|]. cbn [forallb]. unfold entry_check at 1.
  rewrite !andb_true_iff, negb_true_iff. intros [(((((? & ?) & ?) & ?) & ?) & ?) Hl].
  constructor; [|by apply IH]. split; [|lia]. split; [done|lia].
Qed.

Lemma phy_table_ok method : Forall entry_ok (phy_table method).
Proof.
  unfold phy_table. destruct (method =? 1); [|destruct (method =? 2); [|destruct (method =? 3); [|constructor]]];
    apply entries_ok; vm_compute; reflexivity.
Qed.

(** The page that holds the PHY firmware's version. *)
Definition version_page (method : Z) (f : Z -> Z) : Z -> Z :=
  if mcu_expected method =? 0 then f else set_reg 0xa436 0x801e f.

(** The PHY registers after configuration, and on the standard page. *)
Definition configured_phy (method : Z) (f : Z -> Z) : Z -> Z :=
  let f := foldl phy_effect (version_page method f) (phy_table method) in
  set_reg 0xa5b4 (modified 0x8000 0 (f 0xa5b4)) f.
Definition on_standard_page (f : Z -> Z) : Z -> Z := set_reg (RTL_OCP_STD_PHY_BASE + 2 * 0x1f) 0 f.

Lemma addr_ok r : negb (ocp_invalid r) && (0 <=? r) && (r <? 65536) && (r mod 2 =? 0) = true -> phy_addr r.
Proof. rewrite !andb_true_iff, negb_true_iff. unfold phy_addr. intros (((? & ?) & ?) & ?). split; [done|lia]. Qed.

Lemma version_page_ok m f : (forall x, 0 <= f x < 2 ^ 16) -> forall x, 0 <= version_page m f x < 2 ^ 16.
Proof. intros Hf. unfold version_page. destruct (_ =? 0); [done|]. by apply set_reg_ok. Qed.

Lemma version_check_spec F m s : regs_ok s ->
  wp F (if negb (mcu_expected m =? 0) then
          do* realtek_gphy_ocp_write 0xa436 0x801e in
          do* realtek_gphy_ocp_read 0xa438 in
          ret tt
        else ret tt)
    (fun _ s' => phy_is s (version_page m (phy (card s))) s') s.
Proof.
  intros Hok. unfold version_page. destruct (mcu_expected m =? 0); cbn [negb]; [by wp_step|]. wp_step.
  eapply wp_mono; [apply gphy_write_spec; [by apply addr_ok|lia]|]. intros t1 s1 Hs1. wp_step.
  eapply wp_mono; [apply gphy_read_spec; [by apply addr_ok|]|].
  { eapply phy_is_ok; [|exact Hs1]. apply set_reg_ok; [done|lia]. }
  intros a s2 (_ & Hc & Hp). wp_step. destruct Hs1 as [Hc1 Hp1]. split; [congruence|]. intros x. by rewrite Hp.
Qed.

Lemma config_registers_spec F s : regs_ok s ->
  wp F phy_config_registers (fun _ s' => phy_is s (configured_phy (mcfg (chip s)) (phy (card s))) s') s.
Proof.
  intros Hok. unfold phy_config_registers, configured_phy. wp_step. wp_step.
  set (m := mcfg (chip s)). set (f0 := version_page m (phy (card s))).
  assert (forall x, 0 <= f0 x < 2 ^ 16) as Hf0 by (by apply version_page_ok).
  pose proof (phy_effects_ok _ (phy_table_ok m) f0 Hf0) as Hf1.
  wp_step. eapply wp_mono; [by apply version_check_spec|]. intros t1 s1 Hs1. wp_step.
  eapply wp_mono; [apply phy_inits_spec; [apply phy_table_ok|eapply phy_is_ok; [exact Hf0|exact Hs1]]|].
  destruct Hs1 as [Hc1 Hp1]. intros t2 s2 [Hc2 Hp2].
  assert (forall x, phy (card s2) x = foldl phy_effect f0 (phy_table m) x) as Hp2'
    by (intros x; rewrite Hp2; by apply phy_effects_ext).
  wp_step. eapply wp_mono; [apply gphy_modify_spec; [by apply addr_ok|lia|intros x; by rewrite Hp2']|].
  intros t3 s3 [Hc3 Hp3]. wp_step. split; [congruence|]. intros x. rewrite Hp3. unfold set_reg. by rewrite !Hp2'.
Qed.

(** [C30] RTL8126 configuration: on a card that answers within the time the driver waits,
    the configuration applies the table of the chip's method to the PHY registers, entry
    by entry, clearing and setting bits or writing as each entry says, then leaves the
    forced power mode; every other register keeps its value, and the driver's own state is
    not changed.  The last statement selects the standard page if the MII device has its
    interface; when the hardware is started during probing it has none yet, and there,
    with the registers configured, the statement follows a null pointer. *)
Theorem phy_config_applies_table s :
  have_phy_regs (chip s) = true -> have_ocp (chip s) = true -> regs_ok s ->
  wp False phy_config_registers
    (fun _ s' => phy_is s (configured_phy (mcfg (chip s)) (phy (card s))) s') s /\
  (mii_ready (chip s) = true -> wp False realtek_hw_phy_config_8126
    (fun _ s' => phy_is s (on_standard_page (configured_phy (mcfg (chip s)) (phy (card s)))) s') s) /\
  (mii_ready (chip s) = false -> realtek_hw_phy_config_8126 s = Fault).
Proof.
  intros Hphy Hocp Hok. pose proof (config_registers_spec False s Hok) as Hr. split; [exact Hr|].
  unfold realtek_hw_phy_config_8126. split; intros Hmii.
  - wp_step. eapply wp_mono; [exact Hr|]. intros _ s3 [Hc Hp]. wp_step. unfold mii_write. wp_step. wp_step.
    rewrite Hc, Hmii. unfold realtek_mii_write. wp_step. wp_step. rewrite Hc, Hphy, Hocp. cbn [negb]. wp_step.
    eapply wp_mono; [apply gphy_write_spec; [by apply addr_ok|lia]|]. intros t4 s4 [Hc4 Hp4]. wp_step. wp_step.
    split; [congruence|]. intros x. rewrite Hp4. unfold on_standard_page, set_reg. by destruct (x =? _).
  - unfold bind at 1. unfold wp in Hr. destruct (phy_config_registers s) as [[] s3| |]; [|done..].
    destruct Hr as [Hc _]. unfold bind, mii_write, bind, get. by rewrite Hc, Hmii.
Qed.
End PhyCard.

(** ** EPHY registers *)
Section Ephy.
Context {D : Type} `{NicHw D}.

(** The interface has five bits for the register: an entry for a register above 0x1f is
    written to the register 32 or 64 below. *)
Lemma ephy_write_alias reg value :
  realtek_ephy_write (D := D) reg value = realtek_ephy_write (reg mod 32) value.
Proof.
  unfold realtek_ephy_write. replace (Z.land (reg mod 32) RTL_EPHYAR_REG_MASK) with (Z.land reg RTL_EPHYAR_REG_MASK); [done|].
  change RTL_EPHYAR_REG_MASK with (Z.ones 5). rewrite !Z.land_ones by lia. change (2 ^ 5) with 32. by rewrite Z.mod_mod.
Qed.

(** The mask of an entry is not used: the entries of the RTL8125B that name two bits write
    the whole register. *)
Lemma ephy_mask_ignored l l' :
  map (fun e => (ephy_reg e, ephy_value e)) l = map (fun e => (ephy_reg e, ephy_value e)) l' ->
  ephy_writes (D := D) l = ephy_writes l'.
Proof.
  revert l'. induction l as [|e l IH]; intros [|e' l']; cbn [map]; try done. intros [= E1 E2 El]. cbn [ephy_writes].
  by rewrite E1, E2, (IH l').
Qed.
End Ephy.

(** The two entries of the RTL8125B table for two bits of a register. *)
Example ephy_masked : filter (fun e => ephy_mask e <> 0xffff) realtek_8125b_ephy =
  [EphyInit 0x22 0x0030 0x0020; EphyInit 0x62 0x0030 0x0020].
Proof. vm_compute. reflexivity. Qed.
