(* ===== verification/RealtekRing.v ===== *)
(** * Realtek network driver: descriptor rings (drivers/net/realtek.c)

    The transmit and receive rings, the legacy receive buffer, opening, closing, polling,
    and the probing and removal of the PCI device.  The descriptors are memory that the
    card writes too: the driver's own accesses are here, the card's are steps of the
    system in RealtekInv.v. *)

From stdpp Require Import base list strings.
From Stdlib Require Import ZArith Lia.
From S2P Require Import Prelude RealtekHw RealtekInit.

(** ** Descriptors and rings (realtek.h) *)
Definition RTL_DESC_SIZE_MASK : Z := 0x3fff.
Definition RTL_DESC_OWN : Z := 0x8000.
Definition RTL_DESC_EOR : Z := 0x4000.
Definition RTL_DESC_FS : Z := 0x2000.
Definition RTL_DESC_LS : Z := 0x1000.
Definition RTL_DESC_RES : Z := 0x0020.
Definition RTL_STAT_ROK : Z := 0x0001.
Definition RTL_EEPROM_ID : Z := 0x00 / 2.
Definition RTL_EEPROM_MAC : Z := 0x0e / 2.
Definition RTL_EEPROM_ID_MAGIC : Z := 0x8129.
Definition ETH_ZLEN : Z := 60.
Definition ETH_ALEN : nat := 6.

(** A packet descriptor; its fields are in host byte order. *)
Record realtek_descriptor : Type := Desc { d_length : Z; d_flags : Z; d_address : Z }.

(** A ring; [desc] is the ring's memory, once allocated. *)
Record realtek_ring : Type := Ring {
  desc : option (list realtek_descriptor);
  prod : Z;
  cons : Z;
  ring_reg : Z;
  ring_count : nat;
}.
#[export] Instance eta_ring : Eta realtek_ring :=
  fun r => Ring (desc r) (prod r) (cons r) (ring_reg r) (ring_count r).

Definition realtek_init_ring (count : nat) (reg : Z) : realtek_ring := Ring None 0 0 reg count.

(** What the driver hands to the network core and to the PCI core.  A packet buffer is a
    number; [len] is the length of the packet in it. *)
Inductive net_event : Type :=
  | NetRx (iobuf len : Z)
  | NetRxErr (iobuf len : Z)
  | NetRxData (data : list Z)
  | NetRxNone (rc : errno)
  | TxDefer (iobuf : Z)
  | TxComplete
  | RxFree (iobuf : Z)
  | Link (up : bool)
  | Acquired (what : string)
  | Released (what : string).

(** The driver's data (struct realtek_nic) with the card: [rx_offset] is the offset in
    the legacy receive buffer, [events] what the driver has handed over so far. *)
Record realtek_nic (D : Type) : Type := Nic {
  rtl_of : rtl D;
  tx : realtek_ring;
  rx : realtek_ring;
  rx_iobuf : list (option Z);
  rx_offset : Z;
  hw_addr : list Z;
  nvo_nvs : bool;
  events : list net_event;
}.
Arguments Nic {D}.
Arguments rtl_of {D}.
Arguments tx {D}.
Arguments rx {D}.
Arguments rx_iobuf {D}.
Arguments rx_offset {D}.
Arguments hw_addr {D}.
Arguments nvo_nvs {D}.
Arguments events {D}.
#[export] Instance eta_nic D : Eta (realtek_nic D) := fun s =>
  Nic (rtl_of s) (tx s) (rx s) (rx_iobuf s) (rx_offset s) (hw_addr s) (nvo_nvs s) (events s).

(** ** What the cores of iPXE do for the driver

    The allocators take from the world; [iob_dma] is a buffer's bus address, [iob_len]
    the length of the packet to send, [iob_map_tx] maps it.  [rx_mem] is the memory of
    the legacy receive buffer as it stands. *)
Class NetOps (D : Type) := {
  alloc_rx_iob : Z -> D -> option Z * D;
  alloc_iob : Z -> D -> bool * D;
  dma_alloc : Z -> D -> option Z * D;
  rx_mem : D -> list Z;
  iob_dma : Z -> Z;
  iob_len : Z -> Z;
  iob_pad : Z -> Z -> Z;
  iob_map_tx : Z -> D -> status * D;
}.

(** The cores the probing uses; the first argument of [eeprom_read] is whether the EEPROM
    is a 93C56. *)
Class ProbeOps (D : Type) := {
  alloc_etherdev : D -> bool * D;
  pci_ioremap : D -> bool * D;
  eeprom_read : bool -> Z -> nat -> D -> (errno + list Z) * D;
  register_netdev : D -> status * D;
  register_nvo : D -> status * D;
}.

Section Rings.
Context {D : Type} `{NicHw D} `{MiiOps D} `{NetOps D}.
Abbreviation nic := (realtek_nic D).

(** A computation on the registers, and one of the world's operations. *)
Definition on_card {A} (m : M (rtl D) A) : M nic A := fun s =>
  match m (rtl_of s) with
  | Ret a r => Ret a (s <| rtl_of := r |>)
  | Fault => Fault
  | NoFuel => NoFuel
  end.
Definition world {A} (f : D -> A * D) : M nic A :=
  on_card (fun r => let (a, d) := f (card r) in Ret a (r <| card := d |>)).
Definition emit (e : net_event) : M nic unit := update (fun s => s <| events ::= fun l => l ++ [e] |>).
Definition the_chip : M nic realtek_chip := gets (fun s => chip (rtl_of s)).
Definition out_of_fuel {A} : M nic A := fun _ => NoFuel.

(** The slot of a counter, and the number of slots in use. *)
Definition slot (count : nat) (n : Z) : nat := Z.to_nat (n mod Z.of_nat count).
Definition used (r : realtek_ring) : Z := u32 (prod r - cons r).

(** The descriptor in a slot of a ring; there is none in a ring without memory. *)
Definition desc_at (r : realtek_ring) (i : nat) : option realtek_descriptor :=
  match desc r with Some l => l !! i | None => None end.
Definition set_desc (i : nat) (d : realtek_descriptor) (r : realtek_ring) : realtek_ring :=
  r <| desc ::= fmap <[i := d]> |>.

Definition own (d : realtek_descriptor) : bool := bit_set RTL_DESC_OWN (d_flags d).

(** The flag that marks the last slot of a ring. *)
Definition eor (count i : nat) : Z := if Nat.eqb i (count - 1) then RTL_DESC_EOR else 0.

(** ** Creation and destruction *)
Definition realtek_create_ring (ring : nic -> realtek_ring) (set : (realtek_ring -> realtek_ring) -> nic -> nic) :
    M nic status :=
  let* c := the_chip in
  if legacy c then ret OK else
  let* s := get in
  let r := ring s in
  let* address := world (dma_alloc (16 * Z.of_nat (ring_count r))) in
  match address with
  | None => ret (Err ENOMEM)
  | Some address =>
      do* update (set (fun r => r <| desc := Some (replicate (ring_count r) (Desc 0 0 0)) |>)) in
      do* on_card (writel (Z.shiftr address 32) (ring_reg r + 4)) in
      do* on_card (writel (Z.land address 0xffffffff) (ring_reg r)) in
      ret OK
  end.

Definition realtek_destroy_ring (ring : nic -> realtek_ring) (set : (realtek_ring -> realtek_ring) -> nic -> nic) :
    M nic unit :=
  do* update (set (fun r => r <| prod := 0 |> <| cons := 0 |>)) in
  let* c := the_chip in
  if legacy c then ret tt else
  let* s := get in
  do* on_card (writel 0 (ring_reg (ring s))) in
  do* on_card (writel 0 (ring_reg (ring s) + 4)) in
  update (set (fun r => r <| desc := None |>)).

Definition set_tx (f : realtek_ring -> realtek_ring) (s : nic) : nic := s <| tx ::= f |>.
Definition set_rx (f : realtek_ring -> realtek_ring) (s : nic) : nic := s <| rx ::= f |>.

Definition realtek_create_buffer : M nic status :=
  let* c := the_chip in
  if negb (legacy c) then ret OK else
  let* address := world (dma_alloc (RTL_RXBUF_LEN + RTL_RXBUF_PAD)) in
  match address with
  | None => ret (Err ENOMEM)
  | Some address => do* on_card (writel address RTL_RBSTART) in ret OK
  end.

Definition realtek_destroy_buffer : M nic unit :=
  let* c := the_chip in
  if negb (legacy c) then ret tt else
  do* on_card (writel 0 RTL_RBSTART) in
  update (fun s => s <| rx_offset := 0 |>).

(** ** Refilling the receive ring *)
Fixpoint refill_loop (fuel : nat) : M nic unit :=
  match fuel with
  | O => out_of_fuel
  | S fuel =>
      let* s := get in
      if negb (used (rx s) <? Z.of_nat RTL_NUM_RX_DESC) then ret tt else
      let* iobuf := world (alloc_rx_iob RTL_RX_MAX_LEN) in
      match iobuf with
      | None => ret tt
      | Some iobuf =>
          let rx_idx := slot RTL_NUM_RX_DESC (prod (rx s)) in
          do* update (set_rx (fun r => r <| prod := u32 (prod r + 1) |>)) in
          do* of_option (desc_at (rx s) rx_idx) in
          do* update (set_rx (set_desc rx_idx
                 (Desc RTL_RX_MAX_LEN (Z.lor RTL_DESC_OWN (eor RTL_NUM_RX_DESC rx_idx)) (u64 (iob_dma iobuf))))) in
          do* update (fun s => s <| rx_iobuf ::= <[rx_idx := Some iobuf]> |>) in
          refill_loop fuel
      end
  end.

Definition realtek_refill_rx : M nic unit :=
  let* c := the_chip in
  if legacy c then ret tt else refill_loop (S RTL_NUM_RX_DESC).

(** ** Opening and closing *)
Definition hw_start : M nic unit :=
  let* c := the_chip in
  if have_ocp c then on_card (if mac_ver c =? 70 then realtek_hw_start_8126 else realtek_hw_start_8125)
  else ret tt.

Definition report_link : M nic unit := let* up := on_card realtek_check_link in emit (Link up).

(** The part of [realtek_open] that enables the card, once the memory is there. *)
Definition open_card : M nic unit :=
  let* c := the_chip in
  do* hw_start in
  do* on_card (writel 0xffffffff RTL_MAR0) in
  do* on_card (writel 0xffffffff RTL_MAR4) in
  do* on_card (writeb (Z.lor RTL_CR_TE RTL_CR_RE) RTL_CR) in
  let* tcr := on_card (readl RTL_TCR) in
  do* on_card (writel (Z.lor (Z.ldiff tcr RTL_TCR_MXDMA_MASK) RTL_TCR_MXDMA_DEFAULT) RTL_TCR) in
  let* rcr := on_card (readl RTL_RCR) in
  let rcr := Z.ldiff rcr (Z.lor (Z.lor (Z.lor RTL_RCR_STOP_WORKING RTL_RCR_RXFTH_MASK) RTL_RCR_RBLEN_MASK)
                                RTL_RCR_MXDMA_MASK) in
  let rcr := Z.lor rcr (foldr Z.lor 0 [RTL_RCR_RXFTH_DEFAULT; RTL_RCR_RBLEN_DEFAULT; RTL_RCR_MXDMA_DEFAULT;
                                       RTL_RCR_WRAP; RTL_RCR_AB; RTL_RCR_AM; RTL_RCR_APM; RTL_RCR_AAP]) in
  let rcr := if have_ocp c then Z.lor rcr (Z.lor RTL_RCR_FETCH_8125 RTL_RCR_PAUSE_SLOT_8125) else rcr in
  on_card (writel rcr RTL_RCR).

Definition realtek_open : M nic status :=
  try* realtek_create_ring tx set_tx in
  let* rc := realtek_create_ring rx set_rx in
  match rc with
  | Err e => do* realtek_destroy_ring tx set_tx in ret (Err e)
  | OK =>
  let* rc := realtek_create_buffer in
  match rc with
  | Err e =>
      do* realtek_destroy_ring rx set_rx in
      do* realtek_destroy_ring tx set_tx in
      ret (Err e)
  | OK =>
      do* open_card in
      do* realtek_refill_rx in
      do* report_link in
      ret OK
  end end.

(** "Discard any unused receive buffers" *)
Fixpoint discard (n i : nat) : M nic unit :=
  match n with
  | O => ret tt
  | S n =>
      let* s := get in
      do* (match rx_iobuf s !! i with Some (Some b) => emit (RxFree b) | _ => ret tt end) in
      do* update (fun s => s <| rx_iobuf ::= <[i := None]> |>) in
      discard n (S i)
  end.

Definition realtek_close : M nic unit :=
  do* on_card (writeb 0 RTL_CR) in
  do* realtek_destroy_buffer in
  do* realtek_destroy_ring rx set_rx in
  do* discard RTL_NUM_RX_DESC 0 in
  do* realtek_destroy_ring tx set_tx in
  let* c := the_chip in
  if legacy c then do* on_card realtek_reset in ret tt else ret tt.

(** ** Transmission *)
Definition realtek_transmit (iobuf : Z) : M nic status :=
  let* s := get in
  let c := chip (rtl_of s) in
  if Z.of_nat RTL_NUM_TX_DESC <=? used (tx s) then do* emit (TxDefer iobuf) in ret OK else
  let tx_idx := slot RTL_NUM_TX_DESC (prod (tx s)) in
  let len := if legacy c then iob_pad iobuf ETH_ZLEN else iob_len iobuf in
  try* world (iob_map_tx iobuf) in
  do* update (set_tx (fun r => r <| prod := u32 (prod r + 1) |>)) in
  if legacy c then
    do* on_card (writel (iob_dma iobuf) (RTL_TSAD (Z.of_nat tx_idx))) in
    do* on_card (writel (Z.lor RTL_TSD_ERTXTH_DEFAULT len) (RTL_TSD (Z.of_nat tx_idx))) in
    ret OK
  else
    do* of_option (desc_at (tx s) tx_idx) in
    do* update (set_tx (set_desc tx_idx
           (Desc (u16 len) (Z.lor (Z.lor (Z.lor RTL_DESC_OWN RTL_DESC_FS) RTL_DESC_LS) (eor RTL_NUM_TX_DESC tx_idx))
                 (u64 (iob_dma iobuf))))) in
    do* on_card (if have_ocp c then writew RTL_TPPOLL_8125_NPQ RTL_TPPOLL_8125
                 else writeb RTL_TPPOLL_NPQ (tppoll c)) in
    ret OK.

(** Whether the transmit descriptor in a slot is still in use. *)
Definition tx_busy (c : realtek_chip) (tx_idx : nat) : M nic bool :=
  if legacy c then
    let* tsd := on_card (readl (RTL_TSD (Z.of_nat tx_idx))) in ret (negb (bit_set RTL_TSD_OWN tsd))
  else
    let* s := get in
    let* d := of_option (desc_at (tx s) tx_idx) in ret (own d).

Fixpoint poll_tx_loop (fuel : nat) : M nic unit :=
  match fuel with
  | O => out_of_fuel
  | S fuel =>
      let* s := get in
      if cons (tx s) =? prod (tx s) then ret tt else
      let* busy := tx_busy (chip (rtl_of s)) (slot RTL_NUM_TX_DESC (cons (tx s))) in
      if (busy : bool) then ret tt else
      do* update (set_tx (fun r => r <| cons := u32 (cons r + 1) |>)) in
      do* emit TxComplete in
      poll_tx_loop fuel
  end.

Definition realtek_poll_tx : M nic unit := poll_tx_loop (S RTL_NUM_TX_DESC).

(** ** Reception *)

(** The offset of the packet after one at [offset] whose header says [len]. *)
Definition next_offset (offset len : Z) : Z :=
  Z.ldiff (u32 (u32 (offset + (4 + len)) + 3)) 3 mod RTL_RXBUF_LEN.

(** One packet of the receive buffer, and whether the offset moved past it.  A packet
    shorter than its CRC would leave a malformed buffer. *)
Definition legacy_rx_one : M nic bool :=
  let* s := get in
  let offset := Z.to_nat (rx_offset s) in
  let mem := rx_mem (card (rtl_of s)) in
  let* header := of_option (read offset 4 mem) in
  let status := le_val (sub 0 2 header) in
  let len := le_val (sub 2 2 header) in
  let* more := (
    if bit_set RTL_STAT_ROK status then
      let* iobuf := world (alloc_iob len) in
      if negb iobuf then do* emit (NetRxNone ENOMEM) in ret false else
      let* data := of_option (read (offset + 4) (Z.to_nat len) mem) in
      do* (if len <? 4 then fault else ret tt) in
      do* emit (NetRxData (take (Z.to_nat len - 4) data)) in
      ret true
    else
      do* emit (NetRxNone EIO) in ret true) in
  do* (if (more : bool) then update (fun s => s <| rx_offset := next_offset (rx_offset s) len |>) else ret tt) in
  ret more.

Fixpoint realtek_legacy_poll_rx (fuel : nat) : M nic unit :=
  match fuel with
  | O => out_of_fuel
  | S fuel =>
      let* cr := on_card (readb RTL_CR) in
      if bit_set RTL_CR_BUFE cr then ret tt else
      let* more := legacy_rx_one in
      if negb more then ret tt else
      let* s := get in
      do* on_card (writew (rx_offset s - 16) RTL_CAPR) in
      do* on_card (readw RTL_CAPR) in
      realtek_legacy_poll_rx fuel
  end.

(** The length of a packet without its CRC, as the [size_t] that [iob_put] is given.
    [iob_put] moves the end of the data and nothing else: that the end is inside the buffer
    is an assertion, which a release build leaves out.  What the stack is given is therefore
    the length that the card reported, less four, whatever it is; a length below four
    wraps. *)
Definition rx_len (d : realtek_descriptor) : Z := u64 (Z.land (d_length d) RTL_DESC_SIZE_MASK - 4).

Fixpoint poll_rx_loop (fuel : nat) : M nic unit :=
  match fuel with
  | O => out_of_fuel
  | S fuel =>
      let* s := get in
      if cons (rx s) =? prod (rx s) then ret tt else
      let rx_idx := slot RTL_NUM_RX_DESC (cons (rx s)) in
      let* d := of_option (desc_at (rx s) rx_idx) in
      if own d then ret tt else
      let* iobuf := of_option (rx_iobuf s !! rx_idx ≫= id) in
      do* update (fun s => s <| rx_iobuf ::= <[rx_idx := None]> |>) in
      do* emit (if bit_set RTL_DESC_RES (d_flags d) then NetRxErr iobuf (rx_len d) else NetRx iobuf (rx_len d)) in
      do* update (set_rx (fun r => r <| cons := u32 (cons r + 1) |>)) in
      poll_rx_loop fuel
  end.

Definition realtek_poll_rx (fuel : nat) : M nic unit :=
  let* c := the_chip in
  if legacy c then realtek_legacy_poll_rx fuel else poll_rx_loop (S RTL_NUM_RX_DESC).

(** ** Polling and interrupts *)

(** The interrupts that are pending, acknowledged. *)
Definition take_isr : M nic Z :=
  let* c := the_chip in
  if have_ocp c then
    let* isr := on_card (readl RTL_ISR_8125) in
    if isr =? 0 then ret 0 else do* on_card (writel isr RTL_ISR_8125) in ret isr
  else
    let* isr := on_card (readw RTL_ISR) in
    if isr =? 0 then ret 0 else do* on_card (writew isr RTL_ISR) in ret isr.

Definition realtek_poll (fuel : nat) : M nic unit :=
  let* isr := take_isr in
  if isr =? 0 then ret tt else
  do* (if bit_set (Z.lor RTL_IRQ_TER RTL_IRQ_TOK) isr then realtek_poll_tx else ret tt) in
  do* (if bit_set (Z.lor RTL_IRQ_RER RTL_IRQ_ROK) isr then realtek_poll_rx fuel else ret tt) in
  do* (if bit_set RTL_IRQ_PUN_LINKCHG isr then report_link else ret tt) in
  realtek_refill_rx.

Definition realtek_irq (enable : bool) : M nic unit :=
  let* c := the_chip in
  let imr := if enable then foldr Z.lor 0 [RTL_IRQ_PUN_LINKCHG; RTL_IRQ_TER; RTL_IRQ_TOK; RTL_IRQ_RER; RTL_IRQ_ROK]
             else 0 in
  on_card (if have_ocp c then writel imr RTL_IMR_8125 else writew imr RTL_IMR).

(** ** The PCI device *)
Context `{ProbeOps D}.

(** The type of the EEPROM, when there is one. *)
Definition realtek_init_eeprom : M nic (errno + bool) :=
  let* rcr := on_card (readl RTL_RCR) in
  let is_93c56 := bit_set RTL_RCR_9356SEL rcr in
  let* id := world (eeprom_read is_93c56 RTL_EEPROM_ID 2) in
  match id with
  | inl e => ret (inl e)
  | inr id =>
      if negb (le_val id =? RTL_EEPROM_ID_MAGIC) then ret (inl ENODEV) else
      let* config1 := on_card (readb RTL_CONFIG1) in
      do* (if bit_set RTL_CONFIG1_VPD config1 then ret tt
           else update (fun s => s <| nvo_nvs := true |>)) in
      ret (inr is_93c56)
  end.

(** "Fall back to reading the current ID register value" *)
Fixpoint read_hw_addr (n : nat) (reg : Z) : M nic (list Z) :=
  match n with
  | O => ret []
  | S n =>
      let* b := on_card (readb reg) in
      let* l := read_hw_addr n (reg + 1) in
      ret (b :: l)
  end.

Definition probe_hw_addr (eeprom : bool) : M nic status :=
  let* id := (if eeprom then realtek_init_eeprom else ret (inl ENODEV)) in
  match id with
  | inr is_93c56 =>
      let* mac := world (eeprom_read is_93c56 RTL_EEPROM_MAC ETH_ALEN) in
      match mac with
      | inl e => ret (Err e)
      | inr mac => do* update (fun s => s <| hw_addr := mac |>) in ret OK
      end
  | inl _ =>
      let* c := the_chip in
      let* mac := read_hw_addr ETH_ALEN (if have_ocp c then RTL_MAC0_BKP else RTL_IDR0) in
      do* update (fun s => s <| hw_addr := mac |>) in
      ret OK
  end.

(** The part of [realtek_probe] that needs the card to be reset again when it fails.  The
    MII device gets its interface only after the hardware has been started. *)
Definition probe_card : M nic status :=
  let* eeprom := on_card realtek_detect in
  do* hw_start in
  try* probe_hw_addr eeprom in
  do* on_card (set_chip (fun c => c <| mii_ready := true |>)) in
  try* on_card realtek_phy_reset in
  try* world register_netdev in
  do* emit (Acquired "registration") in
  do* report_link in
  let* s := get in
  if nvo_nvs s then
    let* rc := world register_nvo in
    match rc with
    | OK => do* emit (Acquired "nvo") in ret OK
    | Err e => do* emit (Released "registration") in ret (Err e)
    end
  else ret OK.

(** The private data of a new device, cleared except for the PCI device. *)
Definition fresh_nic (s : nic) : nic :=
  s <| rtl_of ::= (fun r => r <| chip := Chip false false false 0 0 0 (pci_func (chip r)) false |>) |>
    <| tx := realtek_init_ring RTL_NUM_TX_DESC RTL_TNPDS |>
    <| rx := realtek_init_ring RTL_NUM_RX_DESC RTL_RDSAR |>
    <| rx_iobuf := replicate RTL_NUM_RX_DESC None |> <| rx_offset := 0 |> <| nvo_nvs := false |>.

Definition realtek_probe : M nic status :=
  let* ok := world alloc_etherdev in
  if negb ok then ret (Err ENOMEM) else
  do* emit (Acquired "netdev") in
  do* update fresh_nic in
  let* ok := world pci_ioremap in
  if negb ok then do* emit (Released "netdev") in ret (Err ENODEV) else
  do* emit (Acquired "registers") in
  let* rc := on_card realtek_reset in
  let* rc := (match rc with
              | Err e => ret (Err e)
              | OK =>
                  let* rc := probe_card in
                  match rc with
                  | OK => ret OK
                  | Err e => do* on_card realtek_reset in ret (Err e)
                  end
              end) in
  match rc with
  | OK => ret OK
  | Err e =>
      do* emit (Released "registers") in
      do* emit (Released "netdev") in
      ret (Err e)
  end.

Definition realtek_remove : M nic unit :=
  let* s := get in
  do* (if nvo_nvs s then emit (Released "nvo") else ret tt) in
  do* emit (Released "registration") in
  do* on_card realtek_reset in
  do* emit (Released "registers") in
  emit (Released "netdev").
End Rings.
