(* ===== verification/RealtekInv.v ===== *)
(** * Realtek network driver: the rings are sound

    A ring holds a queue of buffers: what each operation of the driver and each step of
    the card does to the queue.  The card never owns a descriptor whose buffer the driver
    does not keep, whatever the order of the steps. *)

From stdpp Require Import base list strings.
From Stdlib Require Import ZArith Lia Znumtheory.
From S2P Require Import Prelude RealtekHw RealtekInit RealtekRing.

(** The computations on the registers that keep what the driver knows of the card. *)
Create HintDb steady.

(** A value that is there. *)
Ltac wp_some := apply wp_of_option; [intros ? [= <-]|done].

(** ** Counters and slots *)
Section Slots.
Implicit Types (n c : Z) (j k : nat).

Lemma slot_u32 n : slot 4 (u32 n) = slot 4 n.
Proof. unfold slot, u32. f_equal. apply Z.mod_mod_divide. by exists (2 ^ 30). Qed.

Lemma slot_lt n : (slot 4 n < 4)%nat.
Proof. unfold slot. pose proof (Z.mod_pos_bound n (Z.of_nat 4)). lia. Qed.

Lemma slot_inj c j k : (j < 4)%nat -> (k < 4)%nat ->
  slot 4 (c + Z.of_nat j) = slot 4 (c + Z.of_nat k) -> j = k.
Proof.
  unfold slot. intros Hj Hk E. change (Z.of_nat 4) with 4 in E.
  apply Z2Nat.inj in E; [|apply Z.mod_pos_bound; lia..].
  pose proof (Z.div_mod (c + Z.of_nat j) 4). pose proof (Z.div_mod (c + Z.of_nat k) 4). lia.
Qed.

Lemma u32_used p c n : 0 <= p < 2 ^ 32 -> 0 <= n < 2 ^ 32 -> u32 (p - c) = n -> p = u32 (c + n).
Proof.
  unfold u32. intros Hp Hn <-. rewrite Z.add_mod_idemp_r by lia. replace (c + (p - c)) with p by lia.
  by rewrite Z.mod_small.
Qed.
End Slots.

(** ** Computations on the registers keep what the driver knows of the card *)
Section Steady.
Context {D : Type} `{NicHw D}.

Definition steady {A} (m : M (rtl D) A) : Prop := forall F x, wp F m (fun _ x' => chip x' = chip x) x.

Lemma steady_ret {A} (a : A) : steady (ret a).
Proof. by intros F x. Qed.

Lemma steady_get : steady get.
Proof. by intros F x. Qed.

Lemma steady_hw_get n reg : steady (hw_get n reg).
Proof. intros F x. unfold wp, hw_get. by destruct (hw_read n reg (card x)). Qed.

Lemma steady_hw_set n v reg : steady (hw_set n v reg).
Proof. by intros F x. Qed.

Lemma steady_bind {A B} (m : M (rtl D) A) (k : A -> M (rtl D) B) :
  steady m -> (forall a, steady (k a)) -> steady (bind m k).
Proof.
  intros Hm Hk F x. apply wp_bind. eapply wp_mono; [apply Hm|]. intros a x1 <-. apply Hk.
Qed.

Lemma steady_wait n (m : M (rtl D) Z) ok : steady m -> steady (wait_for n m ok).
Proof.
  intros Hm. induction n as [|n IH]; cbn [wait_for]; [apply steady_ret|].
  apply steady_bind; [done|]. intros v. destruct (ok v); [apply steady_ret|done].
Qed.
End Steady.

Ltac head_of m := lazymatch m with ?f _ => head_of f | _ => m end.

(** [steady_go] proves that a computation on the registers is steady; a definition it
    meets is unfolded unless a hint is there for it. *)
Ltac steady_go :=
  lazymatch goal with
  | |- forall _, _ => intros ?; steady_go
  | |- steady (ret _) => apply steady_ret
  | |- steady get => apply steady_get
  | |- steady (hw_get _ _) => apply steady_hw_get
  | |- steady (hw_set _ _ _) => apply steady_hw_set
  | |- steady (bind _ _) => apply steady_bind; steady_go
  | |- steady (wait_for _ _ _) => apply steady_wait; steady_go
  | |- steady (match ?x with _ => _ end) => destruct x; steady_go
  | |- steady ?m => first [solve [auto with steady] | let h := head_of m in unfold h; cbv beta zeta; steady_go]
  end.

Section SteadyInit.
Context {D : Type} `{NicHw D}.

Lemma steady_ephy l : steady (ephy_writes l).
Proof. induction l as [|e l IH]; cbn [ephy_writes]; [apply steady_ret|]. apply steady_bind; [steady_go|done]. Qed.

Lemma steady_phy l : steady (phy_inits l).
Proof. induction l as [|e l IH]; cbn [phy_inits]; [apply steady_ret|]. apply steady_bind; [steady_go|done]. Qed.

#[local] Hint Resolve steady_ephy steady_phy : steady.

Lemma steady_link : steady realtek_check_link.
Proof. steady_go. Qed.

Lemma steady_reset : steady realtek_reset.
Proof. steady_go. Qed.

Lemma steady_mii_write reg data : steady (realtek_mii_write reg data).
Proof. steady_go. Qed.

Lemma steady_mac_ocp_modify reg clear set : steady (realtek_mac_ocp_modify reg clear set).
Proof. steady_go. Qed.
#[local] Hint Resolve steady_link steady_reset steady_mac_ocp_modify : steady.

Lemma steady_start_8125 : steady realtek_hw_start_8125.
Proof. steady_go. Qed.
#[local] Hint Resolve steady_start_8125 : steady.

Lemma wp_steady_bind {A B} F (m : M (rtl D) A) (k : A -> M (rtl D) B) Q x :
  steady m -> (forall a x', chip x' = chip x -> wp F (k a) Q x') -> wp F (bind m k) Q x.
Proof. intros Hm Hk. apply wp_bind. eapply wp_mono; [apply Hm|]. apply Hk. Qed.

(** Once the MII device has its interface, the RTL8126 is started. *)
Lemma start_8126_ready F (x : rtl D) : mii_ready (chip x) = true ->
  wp F realtek_hw_start_8126 (fun _ x' => chip x' = chip x) x.
Proof.
  intros Hx. unfold realtek_hw_start_8126.
  do 3 (apply wp_steady_bind; [steady_go|]; intros ? ? ?). unfold realtek_hw_phy_config_8126.
  apply wp_steady_bind; [unfold phy_config_registers; steady_go|]; intros ? ? ?. wp_step. unfold mii_write. wp_step. wp_step.
  match goal with |- context [mii_ready (chip ?y)] => assert (mii_ready (chip y) = true) as -> by congruence end.
  eapply wp_mono; [apply (steady_mii_write 0x1f 0)|].
  intros rc y Hy. apply wp_ret. congruence.
Qed.
End SteadyInit.

#[export] Hint Resolve steady_ephy steady_phy steady_link steady_reset steady_mac_ocp_modify steady_start_8125 :
  steady.

Section Rings.
Context {D : Type} `{NicHw D} `{MiiOps D} `{NetOps D}.
Implicit Types (r : realtek_ring) (q : list Z) (s : realtek_nic D).

(** The slot of the [k]th buffer of the queue. *)
Definition pos r (k : nat) : nat := slot 4 (cons r + Z.of_nat k).

(** [r] holds the buffers [q], oldest first: each has its descriptor, and the card owns
    no other. *)
Record ring_holds r q : Prop := {
  rh_desc : exists l, desc r = Some l /\ length l = 4%nat;
  rh_cons : 0 <= cons r < 2 ^ 32;
  rh_prod : 0 <= prod r < 2 ^ 32;
  rh_used : used r = Z.of_nat (length q);
  rh_len : (length q <= 4)%nat;
  rh_held : forall k b, q !! k = Some b ->
    exists d, desc_at r (pos r k) = Some d /\ d_address d = u64 (iob_dma b);
  rh_own : forall i d, desc_at r i = Some d -> own d = true -> exists k, (k < length q)%nat /\ i = pos r k;
  rh_count : ring_count r = 4%nat;
}.

Lemma prod_eq r q : ring_holds r q -> prod r = u32 (cons r + Z.of_nat (length q)).
Proof.
  intros Hr. pose proof (rh_len _ _ Hr).
  apply u32_used; [exact (rh_prod _ _ Hr)|lia|exact (rh_used _ _ Hr)].
Qed.

Lemma prod_pos r q : ring_holds r q -> slot 4 (prod r) = pos r (length q).
Proof. intros Hr. rewrite (prod_eq r q) by done. apply slot_u32. Qed.

Lemma ring_empty r q : ring_holds r q -> (cons r =? prod r) = true <-> q = [].
Proof.
  intros Hr. pose proof (rh_used _ _ Hr) as Hu. pose proof (rh_cons _ _ Hr). pose proof (rh_prod _ _ Hr).
  pose proof (rh_len _ _ Hr). unfold used in Hu. rewrite Z.eqb_eq. split.
  - intros E. rewrite E, Z.sub_diag in Hu. destruct q; [done|]. change (u32 0) with 0 in Hu. cbn in Hu. lia.
  - intros ->. rewrite (prod_eq r []), Z.add_0_r by done.
    unfold u32. by rewrite Z.mod_small.
Qed.

Lemma desc_at_set r i d j : desc_at (set_desc i d r) j =
  match desc r with Some l => <[i := d]> l !! j | None => None end.
Proof. destruct r as [[l|] p c g n]; done. Qed.

Lemma desc_at_ne r i d j : i <> j -> desc_at (set_desc i d r) j = desc_at r j.
Proof. intros Hij. rewrite desc_at_set. unfold desc_at. destruct (desc r); [|done]. by rewrite list_lookup_insert_ne. Qed.

Lemma desc_at_eq r q i d : ring_holds r q -> (i < 4)%nat -> desc_at (set_desc i d r) i = Some d.
Proof.
  intros Hr Hi. destruct (rh_desc _ _ Hr) as (l & E & Hl). rewrite desc_at_set, E. apply list_lookup_insert_eq. lia.
Qed.

Lemma desc_total r q n : ring_holds r q -> exists d, desc_at r (slot 4 n) = Some d.
Proof.
  intros Hr. destruct (rh_desc _ _ Hr) as (l & E & Hl). unfold desc_at. rewrite E.
  apply lookup_lt_is_Some. rewrite Hl. apply slot_lt.
Qed.

Lemma set_desc_mem r i d : (exists l, desc r = Some l /\ length l = 4%nat) ->
  exists l, desc (set_desc i d r) = Some l /\ length l = 4%nat.
Proof. intros (l & E & Hl). exists (<[i := d]> l). destruct r as [m p c g n]. cbn in *. subst m. by rewrite length_insert. Qed.

(** The driver adds a buffer. *)
Lemma ring_push r q b d :
  ring_holds r q -> (length q < 4)%nat -> d_address d = u64 (iob_dma b) ->
  ring_holds (set_desc (slot 4 (prod r)) d (r <| prod := u32 (prod r + 1) |>)) (q ++ [b]).
Proof.
  intros Hr Hlen Hd. pose proof (prod_pos _ _ Hr) as Hp. set (r1 := r <| prod := u32 (prod r + 1) |>).
  assert (forall k, pos (set_desc (slot 4 (prod r)) d r1) k = pos r k) as Hpos by done.
  pose proof (rh_desc _ _ Hr) as Hm. pose proof (rh_used _ _ Hr) as Hu.
  constructor.
  - by apply set_desc_mem.
  - apply Hr.
  - apply u32_range.
  - rewrite length_app. cbn. unfold used in *. cbn.
    rewrite (prod_eq r q) by done.
    unfold u32. rewrite Zplus_mod_idemp_l, Zminus_mod_idemp_l.
    replace (cons r + Z.of_nat (length q) + 1 - cons r) with (Z.of_nat (length q + 1)) by lia.
    rewrite Z.mod_small by lia. done.
  - rewrite length_app. cbn. lia.
  - intros k x Hx. rewrite Hpos. apply lookup_app_Some in Hx as [Hx|[Hk Hx]].
    + destruct (rh_held _ _ Hr k x Hx) as (d' & Hd' & Ha). exists d'. split; [|done].
      rewrite desc_at_ne; [done|]. rewrite Hp. intros E. apply lookup_lt_Some in Hx. apply slot_inj in E; lia.
    + apply list_lookup_singleton_Some in Hx as [Hk0 <-]. replace k with (length q) by lia. exists d. split; [|done].
      rewrite Hp. rewrite desc_at_set. destruct Hm as (l & E & Hl). change (desc r1) with (desc r). rewrite E.
      apply list_lookup_insert_eq. rewrite Hl. apply slot_lt.
  - intros i d' Hd' Hown. setoid_rewrite Hpos. rewrite length_app. cbn.
    destruct (decide (i = pos r (length q))) as [->|Hne]; [exists (length q); split; [lia|done]|].
    rewrite desc_at_ne in Hd' by congruence. destruct (rh_own _ _ Hr i d' Hd' Hown) as (k & Hk & ->).
    exists k. split; [lia|done].
  - apply Hr.
Qed.

(** The driver takes the oldest buffer, released by the card. *)
Lemma ring_pop r q b d :
  ring_holds r (b :: q) -> desc_at r (slot 4 (cons r)) = Some d -> own d = false ->
  ring_holds (r <| cons := u32 (cons r + 1) |>) q.
Proof.
  intros Hr Hd Hown. set (r1 := r <| cons := u32 (cons r + 1) |>).
  assert (forall k, pos r1 k = pos r (S k)) as Hpos.
  { intros k. unfold pos. cbn [cons r1]. transitivity (slot 4 (u32 (u32 (cons r + 1) + Z.of_nat k))); [by rewrite slot_u32|].
    unfold u32. rewrite Z.add_mod_idemp_l by lia. fold (u32 (cons r + 1 + Z.of_nat k)). rewrite slot_u32. f_equal. lia. }
  assert (pos r 0 = slot 4 (cons r)) as Hp0 by (unfold pos; by rewrite Z.add_0_r).
  constructor.
  - apply Hr.
  - apply u32_range.
  - apply Hr.
  - pose proof (rh_used _ _ Hr) as Hu. pose proof (rh_len _ _ Hr) as Hl. unfold used in *. cbn in *.
    unfold u32 in *. rewrite Zminus_mod_idemp_r. replace (prod r - (cons r + 1)) with (prod r - cons r - 1) by lia.
    rewrite <-Zminus_mod_idemp_l, Hu, Z.mod_small by lia. lia.
  - pose proof (rh_len _ _ Hr). cbn in *. lia.
  - intros k x Hx. rewrite Hpos. apply (rh_held _ _ Hr (S k)). done.
  - intros i d' Hd' Ho. destruct (rh_own _ _ Hr i d' Hd' Ho) as ([|k] & Hk & ->).
    + rewrite Hp0 in Hd'. unfold desc_at in *. cbn in Hd'. congruence.
    + exists k. rewrite Hpos. split; [cbn in Hk; lia|done].
  - apply Hr.
Qed.

(** The card writes a descriptor it owns, but for the address. *)
Lemma ring_card r q i d d' :
  ring_holds r q -> desc_at r i = Some d -> own d = true -> d_address d' = d_address d ->
  ring_holds (set_desc i d' r) q.
Proof.
  intros Hr Hd Hown Ha. assert (forall k, pos (set_desc i d' r) k = pos r k) as Hpos by done.
  destruct (rh_own _ _ Hr i d Hd Hown) as (k0 & Hk0 & Hi).
  assert (forall x, desc_at (set_desc i d' r) i = Some x <-> x = d') as Hat.
  { intros x. rewrite (desc_at_eq r q) by (done || (rewrite Hi; apply slot_lt)). naive_solver. }
  constructor; try apply Hr.
  - apply set_desc_mem, Hr.
  - intros k b Hb. rewrite Hpos. destruct (rh_held _ _ Hr k b Hb) as (x & Hx & Hxa).
    destruct (decide (i = pos r k)) as [->|Hne].
    + exists d'. split; [by apply Hat|]. congruence.
    + exists x. by rewrite desc_at_ne.
  - intros j x Hx Ho. destruct (decide (i = j)) as [<-|Hne]; [by exists k0|].
    rewrite desc_at_ne in Hx by done. by apply (rh_own _ _ Hr j x).
Qed.

(** ** The receive buffers *)

(** Exactly the buffers of the queue are recorded, each in its slot. *)
Record rx_holds s q : Prop := {
  rx_ring : ring_holds (rx s) q;
  rx_slots : length (rx_iobuf s) = 4%nat;
  rx_kept : forall k b, q !! k = Some b -> rx_iobuf s !! pos (rx s) k = Some (Some b);
  rx_only : forall i b, rx_iobuf s !! i = Some (Some b) -> exists k, q !! k = Some b /\ i = pos (rx s) k;
}.

Lemma rx_ext s s' q : rx_holds s q -> rx s' = rx s -> rx_iobuf s' = rx_iobuf s -> rx_holds s' q.
Proof. intros [Hr Hl Hk Ho] E1 E2. constructor; rewrite ?E1, ?E2; done. Qed.

Lemma pos_inj r j k : (j < 4)%nat -> (k < 4)%nat -> pos r j = pos r k -> j = k.
Proof. apply slot_inj. Qed.

Lemma rx_push s q b d :
  rx_holds s q -> (length q < 4)%nat -> d_address d = u64 (iob_dma b) ->
  rx_holds (s <| rx ::= (fun r => set_desc (slot 4 (prod (rx s))) d (r <| prod := u32 (prod r + 1) |>)) |>
              <| rx_iobuf ::= <[slot 4 (prod (rx s)) := Some b]> |>) (q ++ [b]).
Proof.
  intros Hs Hlen Hd. pose proof (rx_ring _ _ Hs) as Hr. pose proof (prod_pos _ _ Hr) as Hp.
  assert (slot 4 (prod (rx s)) < length (rx_iobuf s))%nat as Hlt by (rewrite (rx_slots _ _ Hs); apply slot_lt).
  constructor; cbn.
  - by apply ring_push.
  - rewrite length_insert. apply (rx_slots _ _ Hs).
  - intros k x Hx. change (pos _ k) with (pos (rx s) k) at 1. apply lookup_app_Some in Hx as [Hx|[Hk Hx]].
    + rewrite list_lookup_insert_ne; [by apply (rx_kept _ _ Hs)|]. rewrite Hp. intros E.
      apply lookup_lt_Some in Hx. apply pos_inj in E; lia.
    + apply list_lookup_singleton_Some in Hx as [Hk0 <-]. replace k with (length q) by lia.
      rewrite <-Hp. by apply list_lookup_insert_eq.
  - intros i x Hx. change (pos (set_desc _ _ _)) with (pos (rx s)).
    destruct (decide (i = slot 4 (prod (rx s)))) as [->|Hne].
    + rewrite list_lookup_insert_eq in Hx by done. injection Hx as <-. exists (length q).
      split; [by rewrite lookup_app_r, Nat.sub_diag by lia|done].
    + rewrite list_lookup_insert_ne in Hx by congruence. destruct (rx_only _ _ Hs i x Hx) as (k & Hk & ->).
      exists k. split; [by apply lookup_app_l_Some|done].
Qed.

Lemma pos_pop r k : pos (r <| cons := u32 (cons r + 1) |>) k = pos r (S k).
Proof.
  unfold pos. cbn. rewrite <-(slot_u32 (u32 _ + _)). unfold u32. rewrite Z.add_mod_idemp_l by lia.
  fold (u32 (cons r + 1 + Z.of_nat k)). rewrite slot_u32. f_equal. lia.
Qed.

Lemma rx_pop s q b d :
  rx_holds s (b :: q) -> desc_at (rx s) (slot 4 (cons (rx s))) = Some d -> own d = false ->
  rx_holds (s <| rx_iobuf ::= <[slot 4 (cons (rx s)) := None]> |>
              <| rx ::= (fun r => r <| cons := u32 (cons r + 1) |>) |>) q.
Proof.
  intros Hs Hd Hown. pose proof (rx_ring _ _ Hs) as Hr. pose proof (rh_len _ _ Hr) as Hl. cbn in Hl.
  assert (pos (rx s) 0 = slot 4 (cons (rx s))) as Hp0 by (unfold pos; by rewrite Z.add_0_r).
  constructor; cbn.
  - by eapply ring_pop.
  - rewrite length_insert. apply (rx_slots _ _ Hs).
  - intros k x Hx. rewrite pos_pop. rewrite list_lookup_insert_ne; [by apply (rx_kept _ _ Hs (S k))|].
    rewrite <-Hp0. intros E. apply lookup_lt_Some in Hx. apply pos_inj in E; lia.
  - intros i x Hx. setoid_rewrite pos_pop. destruct (decide (i = slot 4 (cons (rx s)))) as [->|Hne].
    + rewrite list_lookup_insert_eq in Hx by (rewrite (rx_slots _ _ Hs); apply slot_lt). done.
    + rewrite list_lookup_insert_ne in Hx by congruence. destruct (rx_only _ _ Hs i x Hx) as ([|k] & Hk & ->);
        [by rewrite Hp0 in Hne|]. by exists k.
Qed.

Lemma rx_card s q i d d' :
  rx_holds s q -> desc_at (rx s) i = Some d -> own d = true -> d_address d' = d_address d ->
  rx_holds (set_rx (set_desc i d') s) q.
Proof.
  intros Hs Hd Hown Ha. constructor; try apply Hs. cbn. eapply ring_card; [apply Hs|done..].
Qed.

(** ** What the operations do to the queues *)

Lemma wp_the_chip F Q s : Q (chip (rtl_of s)) s -> wp F the_chip Q s.
Proof. exact (fun Hq => Hq). Qed.

(** The buffers the card has released, oldest first, with their descriptors. *)
Fixpoint ready r (n : Z) q : list (Z * realtek_descriptor) :=
  match q with
  | [] => []
  | b :: q =>
      match desc_at r (slot 4 n) with
      | Some d => if own d then [] else (b, d) :: ready r (u32 (n + 1)) q
      | None => []
      end
  end.

Lemma wp_on_card {A} F (m : M (rtl D) A) Q s :
  wp F m (fun a x => Q a (s <| rtl_of := x |>)) (rtl_of s) -> wp F (on_card m) Q s.
Proof. unfold wp, on_card. by destruct (m (rtl_of s)). Qed.

Lemma wp_world {A} F (f : D -> A * D) Q s :
  (forall a d, f (card (rtl_of s)) = (a, d) -> Q a (s <| rtl_of ::= (fun x => x <| card := d |>) |>)) ->
  wp F (world f) Q s.
Proof.
  intros HQ. apply wp_on_card. unfold wp. destruct (f (card (rtl_of s))) as [a d] eqn:E. by apply HQ.
Qed.

Lemma wp_report F e (Q : unit -> realtek_nic D -> Prop) s :
  Q tt (s <| events ::= fun l => l ++ [e] |>) -> wp F (emit e) Q s.
Proof. exact (fun Hq => Hq). Qed.

Lemma ready_desc r r' n q : desc r' = desc r -> ready r' n q = ready r n q.
Proof. intros E. revert n. induction q as [|b q IH]; intros n; [done|]. cbn. unfold desc_at. rewrite E. by rewrite IH. Qed.

(** A completed packet of the receive ring, as the network core sees it. *)
Definition rx_event (p : Z * realtek_descriptor) : net_event :=
  let (b, d) := p in
  if bit_set RTL_DESC_RES (d_flags d) then NetRxErr b (rx_len d) else NetRx b (rx_len d).

Lemma poll_tx_loop_spec F fuel q s :
  legacy (chip (rtl_of s)) = false -> ring_holds (tx s) q -> (length q < fuel)%nat ->
  wp F (poll_tx_loop fuel)
    (fun _ s' => exists t,
       s' = s <| tx := t |> <| events ::= (fun l => l ++ map (fun _ => TxComplete) (ready (tx s) (cons (tx s)) q)) |> /\
       ring_holds t (drop (length (ready (tx s) (cons (tx s)) q)) q)) s.
Proof.
  revert q s. induction fuel as [|fuel IH]; intros q s Hleg Hr Hf; [lia|]. cbn [poll_tx_loop]. wp_step. wp_step.
  pose proof (ring_empty _ _ Hr) as He. destruct (cons (tx s) =? prod (tx s)) eqn:E.
  { assert (q = []) as -> by (by apply He). apply wp_ret. exists (tx s). split; [|done]. destruct s; cbn. unfold modify; cbn. by rewrite app_nil_r. }
  destruct q as [|b q]; [by discriminate (proj2 He eq_refl)|].
  destruct (desc_total _ _ (cons (tx s)) Hr) as [d Hd]. wp_step. unfold tx_busy. rewrite Hleg. cbv iota. wp_step. wp_step.
  wp_step. change RTL_NUM_TX_DESC with 4%nat. rewrite Hd. wp_some. wp_step. cbn [ready]. rewrite Hd.
  destruct (own d) eqn:Hown.
  { apply wp_ret. exists (tx s). split; [|done]. destruct s; unfold modify; cbn. by rewrite app_nil_r. }
  wp_step. wp_step. wp_step. apply wp_report.
  eapply wp_mono; [apply (IH q); [done|by eapply ring_pop|cbn in Hf; lia]|].
  intros _ s' (t & -> & Ht). cbn in Ht. rewrite (ready_desc (tx s)) in Ht by done. exists t. split; [|done].
  cbn. rewrite (ready_desc (tx s)) by done. destruct s; unfold modify; cbn. by rewrite <-app_assoc.
Qed.

Lemma poll_rx_loop_spec F fuel q s :
  rx_holds s q -> (length q < fuel)%nat ->
  wp F (poll_rx_loop fuel)
    (fun _ s' => exists r l,
       s' = s <| rx := r |> <| rx_iobuf := l |>
              <| events ::= (fun l => l ++ map rx_event (ready (rx s) (cons (rx s)) q)) |> /\
       rx_holds s' (drop (length (ready (rx s) (cons (rx s)) q)) q)) s.
Proof.
  revert q s. induction fuel as [|fuel IH]; intros q s Hs Hf; [lia|]. cbn [poll_rx_loop]. wp_step. wp_step.
  pose proof (rx_ring _ _ Hs) as Hr. pose proof (ring_empty _ _ Hr) as He.
  destruct (cons (rx s) =? prod (rx s)) eqn:E.
  { assert (q = []) as -> by (by apply He). apply wp_ret. exists (rx s), (rx_iobuf s).
    split; [destruct s; unfold modify; cbn; by rewrite app_nil_r|by destruct Hs]. }
  destruct q as [|b q]; [by discriminate (proj2 He eq_refl)|].
  destruct (desc_total _ _ (cons (rx s)) Hr) as [d Hd]. change RTL_NUM_RX_DESC with 4%nat. rewrite Hd.
  wp_step. wp_some. cbn [ready]. rewrite Hd. destruct (own d) eqn:Hown.
  { apply wp_ret. exists (rx s), (rx_iobuf s). split; [destruct s; unfold modify; cbn; by rewrite app_nil_r|by destruct Hs]. }
  pose proof (rx_kept _ _ Hs 0 b eq_refl) as Hb. unfold pos in Hb. rewrite Z.add_0_r in Hb. rewrite Hb.
  wp_step. wp_some. wp_step. wp_step. wp_step. apply wp_report. wp_step. wp_step.
  eapply wp_mono; [apply (IH q); [|cbn in Hf; lia]|].
  { by apply (rx_ext _ _ _ (rx_pop _ _ _ _ Hs Hd Hown)). }
  intros _ s' (r & l & -> & Ht). cbn in Ht. rewrite (ready_desc (rx s)) in Ht by done. exists r, l. split.
  - cbn. rewrite (ready_desc (rx s)) by done. destruct s; unfold modify; cbn. by rewrite <-app_assoc.
  - by apply (rx_ext _ _ _ Ht).
Qed.

Lemma rx_len_unfit d : Z.land (d_length d) RTL_DESC_SIZE_MASK < 4 \/ RTL_RX_MAX_LEN + 4 < Z.land (d_length d) RTL_DESC_SIZE_MASK ->
  RTL_RX_MAX_LEN < rx_len d.
Proof.
  unfold rx_len, u64. change RTL_RX_MAX_LEN with 1526. change RTL_DESC_SIZE_MASK with (Z.ones 14).
  rewrite Z.land_ones by lia. pose proof (Z.mod_pos_bound (d_length d) (2 ^ 14) ltac:(lia)) as Hr. intros [Hl|Hl].
  - rewrite <-(Z.mod_unique (d_length d mod 2 ^ 14 - 4) (2 ^ 64) (-1) (2 ^ 64 + d_length d mod 2 ^ 14 - 4)) by lia. lia.
  - rewrite Z.mod_small by lia. lia.
Qed.

(** The length of a received packet is not compared with the buffer: when the card reports
    less than four bytes, or more than the buffer takes, the stack is given a packet that is
    longer than its buffer. *)
Theorem rx_length_unchecked fuel b q s d :
  rx_holds s (b :: q) -> (S (length q) < fuel)%nat -> desc_at (rx s) (slot 4 (cons (rx s))) = Some d -> own d = false ->
  bit_set RTL_DESC_RES (d_flags d) = false ->
  Z.land (d_length d) RTL_DESC_SIZE_MASK < 4 \/ RTL_RX_MAX_LEN + 4 < Z.land (d_length d) RTL_DESC_SIZE_MASK ->
  wp False (poll_rx_loop fuel) (fun _ s' => exists n, NetRx b n ∈ events s' /\ RTL_RX_MAX_LEN < n) s.
Proof.
  intros Hs Hf Hd Hown Hres Hl. eapply wp_mono; [by apply (poll_rx_loop_spec False fuel (b :: q) s Hs)|].
  intros _ s' (r & l & -> & _). exists (rx_len d). split; [|by apply rx_len_unfit]. cbn [events modify ready]. rewrite Hd, Hown.
  apply elem_of_app. right. cbn [map rx_event]. rewrite Hres. apply list_elem_of_here.
Qed.

Lemma wp_steady {A} F (m : M (rtl D) A) Q s :
  steady m -> (forall a x, chip x = chip (rtl_of s) -> Q a (s <| rtl_of := x |>)) -> wp F (on_card m) Q s.
Proof. intros Hm HQ. apply wp_on_card. eapply wp_mono; [apply Hm|]. apply HQ. Qed.

(** ** An open device *)
Definition legacy_of s : bool := legacy (chip (rtl_of s)).

(** The device is open: [qt] is in the transmit ring, [qr] in the receive ring. *)
Record opened s qt qr : Prop := {
  op_legacy : legacy_of s = false;
  op_mii : mii_ready (chip (rtl_of s)) = true;
  op_tx : ring_holds (tx s) qt;
  op_rx : rx_holds s qr;
}.

(** The device is closed: no ring has memory, no buffer is kept. *)
Record closed s : Prop := {
  cl_legacy : legacy_of s = false;
  cl_mii : mii_ready (chip (rtl_of s)) = true;
  cl_tx : tx s = realtek_init_ring 4 (ring_reg (tx s));
  cl_rx : rx s = realtek_init_ring 4 (ring_reg (rx s));
  cl_buf : rx_iobuf s = replicate 4 None;
}.

Lemma opened_ext s s' qt qr : opened s qt qr -> chip (rtl_of s') = chip (rtl_of s) -> tx s' = tx s -> rx s' = rx s ->
  rx_iobuf s' = rx_iobuf s -> opened s' qt qr.
Proof.
  intros [Hl Hm Ht Hr] E1 E2 E3 E4. unfold legacy_of in *.
  constructor; [unfold legacy_of; congruence|congruence|by rewrite E2|by eapply rx_ext].
Qed.

(** Whether the allocator has refused a buffer. *)
Definition refused : Prop := exists d, (alloc_rx_iob RTL_RX_MAX_LEN d).1 = None.

Lemma refill_loop_spec F fuel s qt qr : opened s qt qr -> (4 < length qr + fuel)%nat ->
  wp F (refill_loop fuel)
    (fun _ s' => exists new, opened s' qt (qr ++ new) /\ events s' = events s /\
       (length (qr ++ new) = 4%nat \/ refused)) s.
Proof.
  revert s qr. induction fuel as [|fuel IH]; intros s qr Ho Hf.
  { pose proof (rh_len _ _ (rx_ring _ _ (op_rx _ _ _ Ho))). lia. }
  pose proof (rx_ring _ _ (op_rx _ _ _ Ho)) as Hr. pose proof (rh_len _ _ Hr) as Hl.
  cbn [refill_loop]. wp_step. wp_step. rewrite (rh_used _ _ Hr). destruct (Z.ltb_spec (Z.of_nat (length qr)) (Z.of_nat RTL_NUM_RX_DESC)) as [Hlt|Hge];
    cbn [negb].
  2: { apply wp_ret. exists []. rewrite app_nil_r. split; [done|split; [done|]]. left. unfold RTL_NUM_RX_DESC in Hge. lia. }
  wp_step. apply wp_world. intros [b|] d Ha.
  2: { apply wp_ret. exists []. rewrite app_nil_r. split; [|split; [done|]].
       - by apply (opened_ext _ _ _ _ Ho).
       - right. exists (card (rtl_of s)). by rewrite Ha. }
  wp_step. wp_step. wp_step. change RTL_NUM_RX_DESC with 4%nat. destruct (desc_total _ _ (prod (rx s)) Hr) as [d0 Hd0]. rewrite Hd0.
  wp_some. wp_step. wp_step. wp_step. wp_step.
  set (d1 := Desc _ _ _). eapply wp_mono; [apply (IH _ (qr ++ [b]))|].
  - pose proof (rx_push s qr b d1 (op_rx _ _ _ Ho) ltac:(unfold RTL_NUM_RX_DESC in Hlt; lia) eq_refl) as Hp.
    constructor; [apply Ho..|]. by apply (rx_ext _ _ _ Hp).
  - rewrite length_app. cbn. lia.
  - intros _ s' (new & Ho' & He & Hn). exists (b :: new). rewrite <-app_assoc in *. done.
Qed.

Lemma refill_spec F s qt qr : opened s qt qr ->
  wp F realtek_refill_rx
    (fun _ s' => exists new, opened s' qt (qr ++ new) /\ events s' = events s /\
       (length (qr ++ new) = 4%nat \/ refused)) s.
Proof.
  intros Ho. unfold realtek_refill_rx. wp_step. apply wp_the_chip. pose proof (op_legacy _ _ _ Ho) as Hl. unfold legacy_of in Hl.
  rewrite Hl. apply refill_loop_spec; [done|]. unfold RTL_NUM_RX_DESC. lia.
Qed.

(** Both queues after a poll in which the card has released some of their buffers. *)
Definition rest r q : list Z := drop (length (ready r (cons r) q)) q.

(** What a poll hands to the network core for the interrupts [isr]. *)
Definition poll_events (isr : Z) s qt qr (up : bool) : list net_event :=
  (if bit_set (Z.lor RTL_IRQ_TER RTL_IRQ_TOK) isr then map (fun _ => TxComplete) (ready (tx s) (cons (tx s)) qt) else []) ++
  (if bit_set (Z.lor RTL_IRQ_RER RTL_IRQ_ROK) isr then map rx_event (ready (rx s) (cons (rx s)) qr) else []) ++
  (if bit_set RTL_IRQ_PUN_LINKCHG isr then [Link up] else []).

Lemma steady_isr F (Q : Z -> realtek_nic D -> Prop) s :
  (forall isr x, chip x = chip (rtl_of s) -> Q isr (s <| rtl_of := x |>)) -> wp F take_isr Q s.
Proof.
  intros HQ. unfold take_isr. wp_step. apply wp_the_chip. destruct (have_ocp (chip (rtl_of s)));
    (wp_step; apply wp_steady; [steady_go|]; intros isr x Hx; destruct (isr =? 0); [by apply HQ|];
     wp_step; apply wp_steady; [steady_go|]; intros u y Hy; wp_step; apply HQ; cbn in *; congruence).
Qed.

Lemma report_link_spec F (Q : unit -> realtek_nic D -> Prop) s :
  (forall up x, chip x = chip (rtl_of s) -> Q tt (s <| rtl_of := x |> <| events ::= fun l => l ++ [Link up] |>)) ->
  wp F report_link Q s.
Proof.
  intros HQ. unfold report_link. wp_step. apply wp_steady; [steady_go|]. intros up x Hx. apply wp_report. by apply HQ.
Qed.

Lemma poll_tx_phase F (b : bool) s qt qr : opened s qt qr ->
  wp F (if b then realtek_poll_tx else ret tt)
    (fun _ s' => opened s' (if b then rest (tx s) qt else qt) qr /\ rx s' = rx s /\
       events s' = events s ++ (if b then map (fun _ => TxComplete) (ready (tx s) (cons (tx s)) qt) else [])) s.
Proof.
  intros Ho. destruct b; [|wp_step; by rewrite app_nil_r].
  eapply wp_mono; [apply (poll_tx_loop_spec F _ qt)|]; [apply Ho|apply Ho|pose proof (rh_len _ _ (op_tx _ _ _ Ho)); unfold RTL_NUM_TX_DESC; lia|].
  intros _ s' (t & -> & Ht). split; [|done]. constructor; [apply Ho|apply Ho|done|]. by apply (rx_ext _ _ _ (op_rx _ _ _ Ho)).
Qed.

Lemma poll_rx_phase F (b : bool) fuel s qt qr : opened s qt qr ->
  wp F (if b then realtek_poll_rx fuel else ret tt)
    (fun _ s' => opened s' qt (if b then rest (rx s) qr else qr) /\
       events s' = events s ++ (if b then map rx_event (ready (rx s) (cons (rx s)) qr) else [])) s.
Proof.
  intros Ho. destruct b; [|wp_step; by rewrite app_nil_r]. unfold realtek_poll_rx. wp_step. apply wp_the_chip.
  pose proof (op_legacy _ _ _ Ho) as Hl. unfold legacy_of in Hl. rewrite Hl.
  eapply wp_mono; [apply (poll_rx_loop_spec F _ qr)|]; [apply Ho|pose proof (rh_len _ _ (rx_ring _ _ (op_rx _ _ _ Ho))); unfold RTL_NUM_RX_DESC; lia|].
  intros _ s' (r & l & -> & Hr). split; [|done]. constructor; [apply Ho..|done].
Qed.

Lemma poll_link_phase F (b : bool) s qt qr : opened s qt qr ->
  wp F (if b then report_link else ret tt)
    (fun _ s' => exists up, opened s' qt qr /\ events s' = events s ++ (if b then [Link up] else [])) s.
Proof.
  intros Ho. destruct b; [|wp_step; exists false; by rewrite app_nil_r]. apply report_link_spec. intros up x Hx. exists up.
  split; [|done]. apply (opened_ext _ _ _ _ Ho); done.
Qed.

(** Polling an open device: whatever the interrupts the card reports, the poll returns;
    it completes and delivers exactly the packets that the card has released, oldest first,
    each received one in its own buffer with the length and error status of its descriptor,
    reports a link change, and then fills the receive ring unless the allocator refuses. *)
Lemma realtek_poll_spec fuel s qt qr : opened s qt qr ->
  wp False (realtek_poll fuel)
    (fun _ s' => exists isr,
       if isr =? 0 then events s' = events s /\ opened s' qt qr
       else exists up new,
         events s' = events s ++ poll_events isr s qt qr up /\
         opened s' (if bit_set (Z.lor RTL_IRQ_TER RTL_IRQ_TOK) isr then rest (tx s) qt else qt)
                   ((if bit_set (Z.lor RTL_IRQ_RER RTL_IRQ_ROK) isr then rest (rx s) qr else qr) ++ new) /\
         (length ((if bit_set (Z.lor RTL_IRQ_RER RTL_IRQ_ROK) isr then rest (rx s) qr else qr) ++ new) = 4%nat \/ refused)) s.
Proof.
  intros Ho. unfold realtek_poll. wp_step. apply steady_isr. intros isr x Hx. destruct (isr =? 0) eqn:Ei.
  { apply wp_ret. exists isr. rewrite Ei. split; [done|]. apply (opened_ext _ _ _ _ Ho); done. }
  cbv iota. wp_step. set (s0 := s <| rtl_of := x |>).
  assert (opened s0 qt qr) as Ho0 by (apply (opened_ext _ _ _ _ Ho); done).
  eapply wp_mono; [by apply poll_tx_phase|]. intros _ s1 (Ho1 & Hr1 & He1). wp_step.
  eapply wp_mono; [by apply poll_rx_phase|]. intros _ s2 (Ho2 & He2). rewrite Hr1 in Ho2, He2. wp_step.
  eapply wp_mono; [by apply poll_link_phase|]. intros _ s3 (up & Ho3 & He3).
  eapply wp_mono; [by apply refill_spec|]. intros _ s4 (new & Ho4 & He4 & Hn).
  exists isr. rewrite Ei. exists up, new. split; [|done].
  rewrite He4, He3, He2, He1. unfold poll_events. by rewrite <-!app_assoc.
Qed.

(** Transmission on an open device: a packet is deferred when the ring is full, refused
    without a trace when it cannot be mapped, and otherwise joins the ring as the youngest
    packet, in a descriptor that the card owns and that names the packet. *)
Lemma realtek_transmit_spec b s qt qr : opened s qt qr ->
  wp False (realtek_transmit b)
    (fun rc s' =>
       if Nat.eqb (length qt) 4 then rc = OK /\ opened s' qt qr /\ tx s' = tx s /\ events s' = events s ++ [TxDefer b]
       else events s' = events s /\
         match rc with
         | OK => opened s' (qt ++ [b]) qr /\ prod (tx s') = u32 (prod (tx s) + 1) /\
             exists d, desc_at (tx s') (pos (tx s) (length qt)) = Some d /\ own d = true /\
               d_length d = u16 (iob_len b) /\ d_address d = u64 (iob_dma b)
         | Err e => opened s' qt qr /\ tx s' = tx s
         end) s.
Proof.
  intros Ho. pose proof (op_tx _ _ _ Ho) as Hr. pose proof (rh_len _ _ Hr) as Hl. pose proof (op_legacy _ _ _ Ho) as Hleg.
  unfold legacy_of in Hleg. unfold realtek_transmit. wp_step. wp_step. cbv zeta. rewrite (rh_used _ _ Hr), Hleg. change (Z.of_nat RTL_NUM_TX_DESC) with 4.
  destruct (Z.leb_spec 4 (Z.of_nat (length qt))); destruct (Nat.eqb_spec (length qt) 4); try lia.
  { wp_step. apply wp_report. apply wp_ret. split; [done|]. split; [|done]. by apply (opened_ext _ _ _ _ Ho). }
  wp_step. apply wp_world. intros [|e'] d Hm; cbv iota.
  2: { split; [done|]. split; [|done]. by apply (opened_ext _ _ _ _ Ho). }
  wp_step. wp_step. wp_step. change RTL_NUM_TX_DESC with 4%nat. destruct (desc_total _ _ (prod (tx s)) Hr) as [d0 Hd0]. rewrite Hd0.
  wp_some. wp_step. wp_step. wp_step. set (d1 := Desc _ _ _).
  apply wp_steady; [destruct (have_ocp _); steady_go|]. intros u x Hx. apply wp_ret. split; [done|].
  pose proof (ring_push (tx s) qt b d1 Hr ltac:(lia) eq_refl) as Hp. split.
  - constructor; [| |apply Hp|by apply (rx_ext _ _ _ (op_rx _ _ _ Ho))].
    + unfold legacy_of in *. cbn in *. by rewrite Hx.
    + cbn in *. rewrite Hx. apply Ho.
  - split; [done|]. exists d1. rewrite <-(prod_pos _ _ Hr). split; [|split; [|done]].
    + rewrite <-(desc_at_eq (tx s) qt (slot 4 (prod (tx s))) d1 Hr (slot_lt _)). done.
    + unfold d1, own, eor. cbn [d_flags]. by destruct (Nat.eqb _ _).
Qed.

(** ** Opening and closing *)
Lemma mem_ring r : ring_count r = 4%nat -> prod r = 0 -> cons r = 0 ->
  ring_holds (r <| desc := Some (replicate (ring_count r) (Desc 0 0 0)) |>) [].
Proof.
  destruct r as [m p c g n]. cbn. intros -> -> ->. constructor; cbn; try done.
  - by exists (replicate 4 (Desc 0 0 0)).
  - lia.
  - intros i d Hd Hown. apply (lookup_replicate 4 (Desc 0 0 0)) in Hd as [-> _]. done.
Qed.

(** One of the two rings, with its setter: a lens that leaves the card alone. *)
Class RingOf (ring : realtek_nic D -> realtek_ring)
    (set : (realtek_ring -> realtek_ring) -> realtek_nic D -> realtek_nic D) : Prop := {
  ring_set : forall f s, ring (set f s) = f (ring s);
  ring_rtl : forall x s, ring (s <| rtl_of := x |>) = ring s;
  set_rtl : forall f s, rtl_of (set f s) = rtl_of s;
  set_set : forall f g s, set f (set g s) = set (fun r => f (g r)) s;
  set_comm : forall f x s, (set f s) <| rtl_of := x |> = set f (s <| rtl_of := x |>);
}.
#[local] Instance tx_ring_of : RingOf tx set_tx.
Proof. by split; intros; try destruct s. Qed.
#[local] Instance rx_ring_of : RingOf rx set_rx.
Proof. by split; intros; try destruct s. Qed.

Lemma rtl_rtl s (x y : rtl D) : s <| rtl_of := x |> <| rtl_of := y |> = s <| rtl_of := y |>.
Proof. by destruct s. Qed.

Section Ring.
Context ring set `{RingOf ring set}.

Lemma create_ring_spec F s : legacy_of s = false ->
  wp F (realtek_create_ring ring set)
    (fun rc s' => exists x, chip x = chip (rtl_of s) /\
       match rc with
       | OK => s' = set (fun r => r <| desc := Some (replicate (ring_count r) (Desc 0 0 0)) |>) (s <| rtl_of := x |>)
       | Err e => e = ENOMEM /\ s' = s <| rtl_of := x |>
       end) s.
Proof.
  intros Hl. unfold realtek_create_ring. wp_step. apply wp_the_chip. unfold legacy_of in *. rewrite Hl. wp_step. wp_step. wp_step.
  apply wp_world. intros [a|] d Ha; [|apply wp_ret; by exists ((rtl_of s) <| card := d |>)]. wp_step. wp_step.
  wp_step. apply wp_steady; [steady_go|]. intros u x Hx. wp_step. apply wp_steady; [steady_go|]. intros v y Hy.
  apply wp_ret. exists y. rewrite set_comm in Hy. rewrite !set_rtl in *. cbn in *.
  split; [congruence|]. by rewrite !set_comm, !rtl_rtl.
Qed.

Lemma destroy_ring_spec F s : legacy_of s = false ->
  wp F (realtek_destroy_ring ring set)
    (fun _ s' => exists x, chip x = chip (rtl_of s) /\
       s' = set (fun r => r <| prod := 0 |> <| cons := 0 |> <| desc := None |>) (s <| rtl_of := x |>)) s.
Proof.
  intros Hl. unfold realtek_destroy_ring. wp_step. wp_step. wp_step. apply wp_the_chip. unfold legacy_of in *.
  rewrite set_rtl, Hl. wp_step. wp_step. wp_step. apply wp_steady; [steady_go|]. intros u x Hx.
  wp_step. apply wp_steady; [steady_go|]. intros v y Hy.
  apply wp_update. exists y. rewrite set_comm in Hy. rewrite !set_rtl in *. cbn in *.
  split; [congruence|]. by rewrite !set_comm, !rtl_rtl, set_set.
Qed.
End Ring.

Lemma mem_rx s : rx s = realtek_init_ring 4 (ring_reg (rx s)) -> rx_iobuf s = replicate 4 None ->
  forall s', rx s' = (rx s) <| desc := Some (replicate 4 (Desc 0 0 0)) |> -> rx_iobuf s' = rx_iobuf s -> rx_holds s' [].
Proof.
  intros Er Eb s' Er' Eb'. rewrite Eb in Eb'. constructor; rewrite ?Eb'; try done.
  - rewrite Er', Er. by apply (mem_ring (realtek_init_ring 4 _)).
  - intros i b Hi. by apply lookup_replicate in Hi as [? _].
Qed.

Lemma create_buffer_spec F s : legacy_of s = false -> wp F realtek_create_buffer (fun rc s' => rc = OK /\ s' = s) s.
Proof. intros Hl. unfold realtek_create_buffer. wp_step. apply wp_the_chip. unfold legacy_of in *. by rewrite Hl. Qed.

Lemma destroy_buffer_spec F s : legacy_of s = false -> wp F realtek_destroy_buffer (fun _ s' => s' = s) s.
Proof. intros Hl. unfold realtek_destroy_buffer. wp_step. apply wp_the_chip. unfold legacy_of in *. by rewrite Hl. Qed.

Lemma open_card_spec F (Q : unit -> realtek_nic D -> Prop) s :
  mii_ready (chip (rtl_of s)) = true ->
  (forall x, chip x = chip (rtl_of s) -> Q tt (s <| rtl_of := x |>)) -> wp F open_card Q s.
Proof.
  intros Hmii HQ. unfold open_card, hw_start. wp_step. apply wp_the_chip. wp_step. wp_step. apply wp_the_chip.
  apply wp_mono with (fun _ s' => exists x, chip x = chip (rtl_of s) /\ s' = s <| rtl_of := x |>).
  { destruct (have_ocp _); [|apply wp_ret; exists (rtl_of s); by destruct s].
    apply wp_on_card. destruct (_ =? 70); (eapply wp_mono; [first [by apply start_8126_ready|apply steady_start_8125]|]);
      intros a x Hx; by exists x. }
  intros _ s1 (x & Hx & ->).
  do 5 (wp_step; apply wp_steady; [steady_go|]; intros ? ? ?).
  wp_step. apply wp_steady; [steady_go|]. intros ? ? ?.
  apply wp_steady; [steady_go|]. intros [] y Hy. rewrite !rtl_rtl. apply HQ. cbn in *. congruence.
Qed.

(** Opening a closed device of the descriptor generation: it fails only for want of
    memory for the rings, and then leaves the device closed with nothing kept; otherwise
    the device is open with an empty transmit ring, the receive ring is filled unless the
    allocator refuses, and the link state has been reported. *)
Lemma realtek_open_spec s : closed s ->
  wp False realtek_open
    (fun rc s' => match rc with
       | OK => exists new up, opened s' [] new /\ events s' = events s ++ [Link up] /\ (length new = 4%nat \/ refused)
       | Err e => e = ENOMEM /\ closed s' /\ events s' = events s
       end) s.
Proof.
  intros Hc. pose proof (cl_legacy _ Hc) as Hl. pose proof (cl_tx _ Hc) as Et. pose proof (cl_rx _ Hc) as Er.
  unfold realtek_open. wp_step. eapply wp_mono; [apply (create_ring_spec tx set_tx); done|].
  intros [|e] s1 (x & Hx & Hs1); [subst s1|destruct Hs1 as [-> ->]].
  2: { split; [done|]. split; [|done]. constructor; try apply Hc; unfold legacy_of in *; cbn; rewrite Hx; [done|apply Hc]. }
  wp_step. eapply wp_mono; [apply (create_ring_spec rx set_rx); unfold legacy_of in *; cbn; by rewrite Hx|].
  intros [|e] s2 (y & Hy & Hs2); [subst s2|destruct Hs2 as [-> ->]]; cbn in Hy.
  2: { wp_step. eapply wp_mono; [apply (destroy_ring_spec tx set_tx); unfold legacy_of in *; cbn; by rewrite Hy, Hx|].
       intros _ s3 (z & Hz & ->). cbn in Hz. apply wp_ret. split; [done|]. split; [|done].
       constructor; [unfold legacy_of in *; cbn; by rewrite Hz, Hy, Hx|cbn; rewrite Hz, Hy, Hx; apply Hc| |apply Er|apply Hc].
       cbn. rewrite Et. done. }
  wp_step. eapply wp_mono; [apply create_buffer_spec; unfold legacy_of in *; cbn; by rewrite Hy, Hx|].
  intros rc s3 [-> ->]. wp_step. apply open_card_spec; [cbn; rewrite Hy, Hx; apply Hc|]. intros z Hz. cbn in Hz. wp_step.
  eapply wp_mono; [apply (refill_spec _ _ [] [])|].
  { constructor.
    - unfold legacy_of in *. cbn. by rewrite Hz, Hy, Hx.
    - cbn. rewrite Hz, Hy, Hx. apply Hc.
    - cbn. rewrite Et. by apply (mem_ring (realtek_init_ring 4 _)).
    - apply (mem_rx s Er (cl_buf _ Hc)); [|done]. cbn. by rewrite Er. }
  intros _ s4 (new & Ho & He & Hn). wp_step. apply report_link_spec. intros up w Hw. apply wp_ret.
  exists new, up. split; [|split; [|done]].
  - by apply (opened_ext _ _ _ _ Ho).
  - cbn. by rewrite He.
Qed.

Lemma discard_spec F s b0 b1 b2 b3 : rx_iobuf s = [b0; b1; b2; b3] ->
  wp F (discard RTL_NUM_RX_DESC 0)
    (fun _ s' => s' = s <| rx_iobuf := replicate 4 None |>
                        <| events ::= (fun l => l ++ map RxFree (omap id [b0; b1; b2; b3])) |>) s.
Proof.
  intros E. destruct s as [c t r l o h n e]. cbn in E. subst l. unfold wp.
  destruct b0, b1, b2, b3; cbv -[app]; rewrite ?app_nil_r, <-?app_assoc; reflexivity.
Qed.

Lemma pos_eq r k : pos r k = ((slot 4 (cons r) + k) mod 4)%nat.
Proof.
  unfold pos, slot. change (Z.of_nat 4) with 4. rewrite <-Zplus_mod_idemp_l.
  pose proof (Z.mod_pos_bound (cons r) 4). rewrite Z2Nat.inj_mod by lia. f_equal. lia.
Qed.

(** A list that is rotated. *)
Ltac rotate :=
  match goal with
  | |- [?b; ?a] ≡ₚ [?a; ?b] => exact (Permutation_app_comm [b] [a])
  | |- [?c; ?a; ?b] ≡ₚ [?a; ?b; ?c] => exact (Permutation_app_comm [c] [a; b])
  | |- [?b; ?c; ?a] ≡ₚ [?a; ?b; ?c] => exact (Permutation_app_comm [b; c] [a])
  | |- [?d; ?a; ?b; ?c] ≡ₚ [?a; ?b; ?c; ?d] => exact (Permutation_app_comm [d] [a; b; c])
  | |- [?c; ?d; ?a; ?b] ≡ₚ [?a; ?b; ?c; ?d] => exact (Permutation_app_comm [c; d] [a; b])
  | |- [?b; ?c; ?d; ?a] ≡ₚ [?a; ?b; ?c; ?d] => exact (Permutation_app_comm [b; c; d] [a])
  end.

(** The recorded buffers are those of the queue. *)
Lemma rx_buffers s q : rx_holds s q -> omap id (rx_iobuf s) ≡ₚ q.
Proof.
  intros [Hr Hl Hk Ho]. pose proof (rh_len _ _ Hr) as Hq. pose proof (slot_lt (cons (rx s))) as Hc.
  setoid_rewrite pos_eq in Hk. setoid_rewrite pos_eq in Ho. generalize dependent (slot 4 (cons (rx s))).
  intros c Hk Ho Hc. destruct (rx_iobuf s) as [|b0 [|b1 [|b2 [|b3 [|]]]]]; try done.
  assert (forall i x, [b0; b1; b2; b3] !! i = Some x ->
    x = q !! ((i + (4 - c)) mod 4)%nat) as Hx.
  { intros i x Hi. destruct x as [b|].
    - destruct (Ho i b Hi) as (k & Hq' & ->). apply lookup_lt_Some in Hq' as Hlt.
      destruct c as [|[|[|[|]]]], k as [|[|[|[|]]]]; try lia; cbn; done.
    - destruct c as [|[|[|[|]]]], i as [|[|[|[|]]]]; try lia; try done; cbn in *;
        match goal with |- None = q !! ?k => destruct (q !! k) eqn:E; [|done]; apply Hk in E; cbn in E; congruence end. }
  rewrite (Hx 0%nat b0 eq_refl), (Hx 1%nat b1 eq_refl), (Hx 2%nat b2 eq_refl), (Hx 3%nat b3 eq_refl).
  clear -Hc Hq. destruct c as [|[|[|[|]]]]; try lia; destruct q as [|q0 [|q1 [|q2 [|q3 [|]]]]]; cbn in Hq; try lia; cbn;
    first [reflexivity|rotate].
Qed.

(** Closing an open device: it returns with the device closed, and frees every buffer of
    the receive ring once, and no other. *)
Lemma realtek_close_spec s qt qr : opened s qt qr ->
  wp False realtek_close
    (fun _ s' => closed s' /\ exists freed, events s' = events s ++ map RxFree freed /\ freed ≡ₚ qr) s.
Proof.
  intros Ho. pose proof (op_legacy _ _ _ Ho) as Hl. unfold realtek_close. wp_step.
  apply wp_steady; [steady_go|]. intros u x Hx. wp_step.
  eapply wp_mono; [apply destroy_buffer_spec; unfold legacy_of in *; cbn; by rewrite Hx|]. intros _ s1 ->. wp_step.
  eapply wp_mono; [apply (destroy_ring_spec rx set_rx); unfold legacy_of in *; cbn; by rewrite Hx|].
  intros _ s1 (y & Hy & ->). cbn in Hy. wp_step.
  destruct (rx_iobuf s) as [|b0 [|b1 [|b2 [|b3 [|]]]]] eqn:Eb;
    try (pose proof (rx_slots _ _ (op_rx _ _ _ Ho)) as Hn; by rewrite Eb in Hn).
  eapply wp_mono; [by apply (discard_spec _ _ b0 b1 b2 b3)|]. intros _ s1 ->. wp_step.
  eapply wp_mono; [apply (destroy_ring_spec tx set_tx); unfold legacy_of in *; cbn; by rewrite Hy, Hx|].
  intros _ s1 (z & Hz & ->). cbn in Hz. wp_step. apply wp_the_chip. cbn. unfold legacy_of in Hl.
  rewrite Hz, Hy, Hx, Hl. apply wp_ret. split.
  - constructor; [unfold legacy_of; cbn; by rewrite Hz, Hy, Hx|cbn; rewrite Hz, Hy, Hx; apply Ho| | |done]; cbn.
    + pose proof (rh_count _ _ (op_tx _ _ _ Ho)) as Hn. destruct (tx s). cbn in *. by subst.
    + pose proof (rh_count _ _ (rx_ring _ _ (op_rx _ _ _ Ho))) as Hn. destruct (rx s). cbn in *. by subst.
  - exists (omap id (rx_iobuf s)). split; [by rewrite Eb|]. apply rx_buffers, Ho.
Qed.
End Rings.
