(* ===== verification/RealtekSystem.v ===== *)
(** * Realtek network driver: the driver and the card together

    The operations of an open or closed device interleaved with the steps of the card, in
    any order: the card never holds a descriptor of memory that the driver has given away,
    and no operation fails to return.  Also the probing of the device, which leaves nothing
    behind when it fails, and the bounds of the legacy receive buffer. *)

From stdpp Require Import base list strings relations.
From Stdlib Require Import ZArith Lia.
From S2P Require Import Prelude RealtekHw RealtekInit RealtekRing RealtekInv.

Section System.
Context {D : Type} `{NicHw D} `{MiiOps D} `{NetOps D}.

(** The device with what the network core knows: whether it is open, the packets the
    driver has accepted since, and how many events there were before. *)
Record system : Type := System {
  the_nic : realtek_nic D;
  is_open : bool;
  sent : list Z;
  mark : nat;
}.

(** The number of packets that the driver has completed since the device was opened. *)
Fixpoint completions (l : list net_event) : nat :=
  match l with
  | [] => 0
  | TxComplete :: l => S (completions l)
  | _ :: l => completions l
  end.
Definition completed (y : system) : nat := completions (drop (mark y) (events (the_nic y))).

(** A packet has been accepted when the producer counter has moved. *)
Definition accepted (b : Z) (s s' : realtek_nic D) : list Z := if prod (tx s') =? prod (tx s) then [] else [b].

(** The calls of the network core on a device in the right state, and what the card does:
    change its own state, and write a descriptor that it owns, but for the address. *)
Inductive system_step : system -> system -> Prop :=
  | step_open s s' l m :
      realtek_open s = Ret OK s' -> system_step (System s false l m) (System s' true [] (length (events s)))
  | step_open_fail s s' e l m :
      realtek_open s = Ret (Err e) s' -> system_step (System s false l m) (System s' false l m)
  | step_close s s' l m :
      realtek_close s = Ret tt s' -> system_step (System s true l m) (System s' false l m)
  | step_transmit s s' b rc l m :
      realtek_transmit b s = Ret rc s' -> system_step (System s true l m) (System s' true (l ++ accepted b s s') m)
  | step_poll s s' fuel l m :
      realtek_poll fuel s = Ret tt s' -> system_step (System s true l m) (System s' true l m)
  | step_irq s s' enable o l m :
      realtek_irq enable s = Ret tt s' -> system_step (System s o l m) (System s' o l m)
  | step_card s d o l m :
      system_step (System s o l m) (System (s <| rtl_of ::= (fun x => x <| card := d |>) |>) o l m)
  | step_card_tx s i d d' o l m :
      desc_at (tx s) i = Some d -> own d = true -> d_address d' = d_address d ->
      system_step (System s o l m) (System (set_tx (set_desc i d') s) o l m)
  | step_card_rx s i d d' o l m :
      desc_at (rx s) i = Some d -> own d = true -> d_address d' = d_address d ->
      system_step (System s o l m) (System (set_rx (set_desc i d') s) o l m).

(** The invariant: an open device holds, in its transmit ring, the packets accepted and not
    completed. *)
Definition system_ok (y : system) : Prop :=
  if is_open y then
    (mark y <= length (events (the_nic y)))%nat /\ (completed y <= length (sent y))%nat /\
    exists qr, opened (the_nic y) (drop (completed y) (sent y)) qr
  else closed (the_nic y).

Implicit Types (s : realtek_nic D).

Lemma completions_app l l' : completions (l ++ l') = (completions l + completions l')%nat.
Proof. induction l as [|e l IH]; [done|]. destruct e; cbn; lia. Qed.

Lemma completions_tx {A} (l : list A) : completions (map (fun _ => TxComplete) l) = length l.
Proof. induction l; cbn; congruence. Qed.

Lemma completions_rx l : completions (map rx_event l) = 0%nat.
Proof. induction l as [|[b d] l IH]; [done|]. cbn. by destruct (bit_set _ _). Qed.

Lemma completions_poll isr s qt qr up :
  completions (poll_events isr s qt qr up) =
  if bit_set (Z.lor RTL_IRQ_TER RTL_IRQ_TOK) isr then length (ready (tx s) (cons (tx s)) qt) else 0%nat.
Proof.
  unfold poll_events. rewrite !completions_app.
  destruct (bit_set (Z.lor RTL_IRQ_RER _) isr), (bit_set RTL_IRQ_PUN_LINKCHG isr), (bit_set _ isr);
    rewrite ?completions_tx, ?completions_rx; cbn; lia.
Qed.

Lemma ready_length r n q : (length (ready r n q) <= length q)%nat.
Proof.
  revert n. induction q as [|b q IH]; intros n; [done|]. cbn. destruct (desc_at _ _) as [d|]; cbn; [|lia].
  destruct (own d); cbn; [lia|]. specialize (IH (u32 (n + 1))). lia.
Qed.

(** The number of completions after more events. *)
Lemma completed_more s s' o l l' m new : (m <= length (events s))%nat -> events s' = events s ++ new ->
  completed (System s' o l' m) = (completed (System s o l m) + completions new)%nat.
Proof. intros Hm E. unfold completed. cbn. by rewrite E, drop_app_le, completions_app by done. Qed.

Lemma wp_ret_of {A} (m : M (realtek_nic D) A) Q s a s' : wp False m Q s -> m s = Ret a s' -> Q a s'.
Proof. apply wp_elim. Qed.

Lemma system_ok_ext s s' o l m :
  chip (rtl_of s') = chip (rtl_of s) -> tx s' = tx s -> rx s' = rx s -> rx_iobuf s' = rx_iobuf s -> events s' = events s ->
  system_ok (System s o l m) -> system_ok (System s' o l m).
Proof.
  intros El Et Er Eb Ee. unfold system_ok, completed. cbn. rewrite Ee. destruct o.
  - intros (Hm & Hc & qr & Ho). split; [done|split; [done|]]. exists qr. by apply (opened_ext _ _ _ _ Ho).
  - intros Hc. constructor; unfold legacy_of; rewrite ?El, ?Et, ?Er, ?Eb; apply Hc.
Qed.

Lemma poll_ok s s' fuel l m : realtek_poll fuel s = Ret tt s' ->
  system_ok (System s true l m) -> system_ok (System s' true l m).
Proof.
  intros E (Hm & Hc & qr & Ho). cbn in Hm, Hc.
  destruct (wp_ret_of _ _ _ _ _ (realtek_poll_spec fuel s _ _ Ho) E) as (isr & Hp).
  destruct (isr =? 0).
  - destruct Hp as [Ee Ho']. unfold system_ok, completed in *. cbn in *. rewrite Ee.
    split; [done|]. split; [done|]. by exists qr.
  - destruct Hp as (up & new & Ee & Ho' & _). unfold system_ok. cbn [is_open the_nic mark sent].
    rewrite (completed_more s s' true l l m _ Hm Ee), completions_poll.
    pose proof (ready_length (tx s) (cons (tx s)) (drop (completed (System s true l m)) l)) as Hr.
    rewrite length_drop in Hr. split; [rewrite Ee, length_app; lia|]. unfold rest in Ho'.
    destruct (bit_set (Z.lor RTL_IRQ_TER RTL_IRQ_TOK) isr).
    + split; [cbn in *; lia|]. eexists. rewrite <-drop_drop. exact Ho'.
    + rewrite Nat.add_0_r. split; [done|]. by eexists.
Qed.

Lemma transmit_ok s s' b rc l m : realtek_transmit b s = Ret rc s' ->
  system_ok (System s true l m) -> system_ok (System s' true (l ++ accepted b s s') m).
Proof.
  intros E Hok. pose proof Hok as (Hm & Hc & qr & Ho). cbn [mark the_nic sent] in Hm, Hc, Ho.
  pose proof (wp_ret_of _ _ _ _ _ (realtek_transmit_spec b s _ _ Ho) E) as Hs.
  destruct (Nat.eqb _ 4).
  - destruct Hs as (-> & Ho' & Et & Ee). unfold accepted. rewrite Et, Z.eqb_refl, app_nil_r.
    unfold system_ok. cbn [is_open the_nic mark sent]. rewrite (completed_more s s' true l l m _ Hm Ee). cbn [completions].
    rewrite Nat.add_0_r. split; [rewrite Ee, length_app; lia|]. split; [done|]. by exists qr.
  - destruct Hs as (Ee & Hs). assert (completed (System s' true (l ++ accepted b s s') m) = completed (System s true l m)) as Ec
      by (unfold completed; cbn; by rewrite Ee).
    unfold system_ok. cbn [is_open the_nic mark sent]. rewrite Ec, Ee, length_app. split; [done|]. split; [lia|]. exists qr.
    unfold accepted. destruct rc as [|e].
    + destruct Hs as (Ho' & Ep & _). rewrite Ep. destruct (Z.eqb_spec (u32 (prod (tx s) + 1)) (prod (tx s))) as [Eq|_].
      * exfalso. pose proof (rh_prod _ _ (op_tx _ _ _ Ho)). unfold u32 in Eq. pose proof (Z.div_mod (prod (tx s) + 1) (2 ^ 32)). lia.
      * by rewrite drop_app_le by done.
    + destruct Hs as (Ho' & Et). by rewrite Et, Z.eqb_refl, app_nil_r.
Qed.

Lemma card_step_ok s s' o l m : events s' = events s ->
  (forall qt qr, opened s qt qr -> opened s' qt qr) -> (closed s -> closed s') ->
  system_ok (System s o l m) -> system_ok (System s' o l m).
Proof.
  intros Ee Ho Hc. unfold system_ok, completed. cbn. rewrite Ee. destruct o; [|done].
  intros (Hm & Hl & qr & Hq). split; [done|split; [done|]]. exists qr. by apply Ho.
Qed.

(** A closed device has no descriptors. *)
Lemma closed_desc s i : closed s -> desc_at (tx s) i = None /\ desc_at (rx s) i = None.
Proof. intros Hc. split; unfold desc_at; [rewrite (cl_tx _ Hc)|rewrite (cl_rx _ Hc)]; done. Qed.

Lemma system_step_ok y y' : system_step y y' -> system_ok y -> system_ok y'.
Proof.
  intros [s s' l m E|s s' e l m E|s s' l m E|s s' b rc l m E|s s' fuel l m E|s s' en o l m E|s d o l m
         |s i d d' o l m Hd Hown Ha|s i d d' o l m Hd Hown Ha] Hok.
  - destruct (wp_ret_of _ _ _ _ _ (realtek_open_spec s Hok) E) as (new & up & Ho & Ee & _).
    unfold system_ok, completed. cbn. rewrite Ee, drop_app_length, length_app. cbn. split; [lia|]. split; [lia|]. by exists new.
  - by destruct (wp_ret_of _ _ _ _ _ (realtek_open_spec s Hok) E) as (_ & Hc & _).
  - destruct Hok as (_ & _ & qr & Ho). by destruct (wp_ret_of _ _ _ _ _ (realtek_close_spec s _ _ Ho) E).
  - by eapply transmit_ok.
  - by eapply poll_ok.
  - assert (wp False (realtek_irq en) (fun _ s' => exists x, chip x = chip (rtl_of s) /\ s' = s <| rtl_of := x |>) s) as Hs.
    { unfold realtek_irq. wp_step. apply wp_the_chip. apply wp_steady; [destruct (have_ocp _); apply steady_hw_set|].
      intros a x Hx. by exists x. }
    destruct (wp_ret_of _ _ _ _ _ Hs E) as (x & Hx & ->). revert Hok. by apply system_ok_ext.
  - revert Hok. by apply system_ok_ext.
  - revert Hok. apply card_step_ok; try done.
    + intros qt qr [Hl Hm Ht Hr]. constructor; [done|done|by eapply ring_card|by apply (rx_ext _ _ _ Hr)].
    + intros Hc. by rewrite (proj1 (closed_desc s i Hc)) in Hd.
  - revert Hok. apply card_step_ok; try done.
    + intros qt qr [Hl Hm Ht Hr]. constructor; [done..|by eapply rx_card].
    + intros Hc. by rewrite (proj2 (closed_desc s i Hc)) in Hd.
Qed.

(** An operation returns. *)
Definition returns {A} (m : M (realtek_nic D) A) s : Prop := exists a s', m s = Ret a s'.

Lemma wp_returns {A} (m : M (realtek_nic D) A) Q s : wp False m Q s -> returns m s.
Proof. unfold wp, returns. destruct (m s); naive_solver. Qed.

(** [C29] The driver and the card, in any order of the network core's calls and of the card's
    own steps, starting with a closed device of the descriptor generation: every receive
    descriptor that the card owns names a buffer that the driver keeps in the same slot, and
    none that was handed to the stack; every transmit descriptor that the card owns names a
    packet that was accepted and has not been completed; and every operation that the core
    may call returns, without undefined behaviour. *)
Theorem realtek_system_safe s y : closed s -> rtc system_step (System s false [] 0) y ->
  (forall i d, desc_at (rx (the_nic y)) i = Some d -> own d = true ->
     exists b, rx_iobuf (the_nic y) !! i = Some (Some b) /\ d_address d = u64 (iob_dma b)) /\
  (forall i d, desc_at (tx (the_nic y)) i = Some d -> own d = true ->
     exists k b, (completed y <= k)%nat /\ sent y !! k = Some b /\ d_address d = u64 (iob_dma b)) /\
  (if is_open y then
     (forall b, returns (realtek_transmit b) (the_nic y)) /\ (forall fuel, returns (realtek_poll fuel) (the_nic y)) /\
     returns realtek_close (the_nic y)
   else returns realtek_open (the_nic y)).
Proof.
  intros Hc Hy. assert (system_ok y) as Hok.
  { assert (system_ok (System s false [] 0)) as H0' by done. revert H0'. induction Hy as [|a b c Hab _ IH]; [done|].
    intros Ha. apply IH. by eapply system_step_ok. }
  clear Hc Hy. destruct y as [n o l m]. cbn in *. unfold system_ok in Hok. cbn in Hok. destruct o.
  - destruct Hok as (Hm & Hl & qr & Ho). split; [|split].
    + intros i d Hd Hown. pose proof (op_rx _ _ _ Ho) as Hr. destruct (rh_own _ _ (rx_ring _ _ Hr) i d Hd Hown) as (k & Hk & ->).
      destruct (lookup_lt_is_Some_2 _ _ Hk) as [b Hb]. exists b. split; [by apply (rx_kept _ _ Hr)|].
      destruct (rh_held _ _ (rx_ring _ _ Hr) k b Hb) as (d' & Hd' & Ha). congruence.
    + intros i d Hd Hown. pose proof (op_tx _ _ _ Ho) as Ht. destruct (rh_own _ _ Ht i d Hd Hown) as (k & Hk & ->).
      destruct (lookup_lt_is_Some_2 _ _ Hk) as [b Hb]. destruct (rh_held _ _ Ht k b Hb) as (d' & Hd' & Ha).
      rewrite lookup_drop in Hb. exists (completions (drop m (events n)) + k)%nat, b. split; [lia|]. split; [done|]. congruence.
    + split; [|split]; intros; eapply wp_returns; [by apply realtek_transmit_spec|by apply realtek_poll_spec|by eapply realtek_close_spec].
  - split; [|split].
    + intros i d Hd. by rewrite (proj2 (closed_desc n i Hok)) in Hd.
    + intros i d Hd. by rewrite (proj1 (closed_desc n i Hok)) in Hd.
    + eapply wp_returns. by apply realtek_open_spec.
Qed.
End System.
