(* ===== verification/RealtekProbe.v ===== *)
(** * Realtek network driver: probing, and the legacy receive buffer

    Probing a device leaves nothing behind when it fails, and removing it releases what
    probing acquired, in the opposite order.  In legacy mode packets are read within the
    receive buffer. *)

From stdpp Require Import base list strings.
From Stdlib Require Import ZArith Lia.
From S2P Require Import Prelude RealtekHw RealtekInit RealtekRing RealtekInv.

Section Probe.
Context {D : Type} `{NicHw D} `{MiiOps D} `{NetOps D} `{ProbeOps D}.
Implicit Types (s : realtek_nic D).

(** A computation on the registers returns. *)
Definition total {A} (m : M (rtl D) A) : Prop := forall F x, wp F m (fun _ _ => True) x.

(** What identifies an RTL8126 in the transmit configuration register, and whether the card
    may show it. *)
Definition txconfig_8126 (v : Z) : Prop := v <> 0xffffffff /\ Z.land v 0x7c800000 = 0x64800000.
Definition may_be_8126 : Prop := exists d v d', hw_read 4 RTL_TCR d = (v, d') /\ txconfig_8126 v.

(** The MII core, which calls the interface of the device, needs that interface; it then
    returns, and leaves the driver's data alone. *)
Definition once_ready {A} (m : M (rtl D) A) : Prop :=
  forall F x, mii_ready (chip x) = true -> wp F m (fun _ x' => chip x' = chip x) x.
Context (mii_reset_ready : once_ready mii_reset) (mii_restart_ready : once_ready mii_restart).

Lemma steady_total {A} (m : M (rtl D) A) : steady m -> total m.
Proof. intros Hm F x. eapply wp_mono; [apply Hm|done]. Qed.

Lemma total_bind {A B} (m : M (rtl D) A) (k : A -> M (rtl D) B) : total m -> (forall a, total (k a)) -> total (bind m k).
Proof. intros Hm Hk F x. apply wp_bind. eapply wp_mono; [apply Hm|]. intros a x' _. apply Hk. Qed.

Lemma total_update f : total (update f).
Proof. by intros F x. Qed.

Ltac total_go :=
  lazymatch goal with
  | |- forall _, _ => intros ?; total_go
  | |- total (update _) => apply total_update
  | |- total (bind _ _) => apply total_bind; total_go
  | |- total (try _ _) => unfold try; total_go
  | |- total (wait_for _ _ _) => apply steady_total; steady_go
  | |- total (ret _) => apply steady_total, steady_ret
  | |- total get => apply steady_total, steady_get
  | |- total (hw_get _ _) => apply steady_total, steady_hw_get
  | |- total (hw_set _ _ _) => apply steady_total, steady_hw_set
  | |- total (match ?x with _ => _ end) => destruct x; total_go
  | |- total ?m => first [assumption | let h := head_of m in unfold h; cbv beta zeta; total_go]
  end.

Lemma mii_read_ready reg : once_ready (mii_read reg).
Proof.
  intros F x Hx. unfold mii_read. wp_step. wp_step. rewrite Hx. revert F x Hx. assert (steady (realtek_mii_read reg)) as Hs by steady_go.
  intros F x _. apply Hs.
Qed.

Lemma mii_write_ready reg data : once_ready (mii_write reg data).
Proof. intros F x Hx. unfold mii_write. wp_step. wp_step. rewrite Hx. apply steady_mii_write. Qed.

Lemma ready_bind {A B} (m : M (rtl D) A) (k : A -> M (rtl D) B) : once_ready m -> (forall a, once_ready (k a)) -> once_ready (bind m k).
Proof.
  intros Hm Hk F x Hx. apply wp_bind. eapply wp_mono; [by apply Hm|]. intros a x1 E.
  eapply wp_mono; [apply Hk; congruence|]. intros b x2 E2. congruence.
Qed.

Lemma steady_ready {A} (m : M (rtl D) A) : steady m -> once_ready m.
Proof. intros Hm F x _. apply Hm. Qed.

Lemma phy_reset_ready : once_ready realtek_phy_reset.
Proof.
  unfold realtek_phy_reset. apply ready_bind; [apply steady_ready, steady_get|]. intros x.
  destruct (negb _); [apply steady_ready, steady_ret|]. apply ready_bind; [apply mii_reset_ready|].
  intros [|e]; [|apply steady_ready, steady_ret]. apply ready_bind.
  { apply ready_bind; [apply mii_read_ready|]. intros [e|v]; [apply steady_ready, steady_ret|apply mii_write_ready]. }
  intros rc. apply ready_bind; [apply mii_write_ready|]. intros rc'. apply mii_restart_ready.
Qed.

(** ** Detection *)
Lemma detect_8126_spec F x :
  wp F realtek_detect_8126 (fun rc x' => match rc with
    | OK => may_be_8126 /\ mac_ver (chip x') = 70
    | Err _ => chip x' = chip x
    end) x.
Proof.
  unfold realtek_detect_8126. wp_step. unfold wp, readl, hw_get.
  destruct (hw_read 4 RTL_TCR (card x)) as [v d] eqn:E. cbn.
  destruct (v =? 4294967295) eqn:E1; [done|]. destruct (Z.land v 2088763392 =? 1686110208) eqn:E2; cbn; [|done].
  split; [|done]. exists (card x), v, d. split; [done|]. split; [by apply Z.eqb_neq|by apply Z.eqb_eq].
Qed.

(** No version of the RTL8125 is that of the RTL8126. *)
Lemma find_version_8125 xid v : find_version xid = Some v -> cv_version v <> 70.
Proof.
  intros Hv. apply find_some in Hv as [Hin _]. cbn in Hin. repeat destruct Hin as [<-|Hin]; done.
Qed.

Lemma detect_8125_spec F x :
  wp F realtek_detect_8125 (fun rc x' => match rc with
    | OK => mac_ver (chip x') <> 70
    | Err _ => chip x' = chip x
    end) x.
Proof.
  unfold realtek_detect_8125, set_chip. wp_step. eapply wp_mono; [apply steady_hw_get|]. intros v x1 E.
  destruct (v =? 4294967295); [by apply wp_ret|]. destruct (find_version _) as [w|] eqn:Ev; [|by apply wp_ret].
  wp_step. wp_step. wp_step. cbn. by eapply find_version_8125.
Qed.

Lemma detect_spec F x : mac_ver (chip x) = 0 ->
  wp F realtek_detect (fun _ x' => mac_ver (chip x') = 70 -> may_be_8126) x.
Proof.
  intros Hx. unfold realtek_detect, set_chip. wp_step. eapply wp_mono; [apply detect_8126_spec|]. intros rc x1 H1'. wp_step.
  apply wp_mono with (fun rc x' => match rc with
    | OK => mac_ver (chip x') = 70 -> may_be_8126
    | Err _ => mac_ver (chip x') = 0
    end).
  { destruct rc as [|e]; [apply wp_ret; intros _; apply H1'|]. eapply wp_mono; [apply detect_8125_spec|].
    intros [|e'] x2 H2'; [done|]. by rewrite H2', H1'. }
  intros [|e] x2 H2'; [wp_step; wp_step; by wp_step|].
  do 4 (apply wp_steady_bind; [steady_go|]; intros ? ? ?). apply wp_steady_bind; [steady_go|]. intros check y Hy.
  assert (mac_ver (chip y) = 0) as Hy0 by congruence.
  destruct (_ =? RTL_RX_MAX_LEN); [|destruct (_ && _)]; wp_step; wp_step; wp_step; cbn; by rewrite Hy0.
Qed.


(** What a run of the probing code holds: the last acquired first; [None] when something is
    released that is not the last acquired. *)
Fixpoint held (l : list net_event) (h : list string) : option (list string) :=
  match l with
  | [] => Some h
  | Acquired w :: l => held l (w :: h)
  | Released w :: l => match h with
                       | w' :: h => if decide (w = w') then held l h else None
                       | [] => None
                       end
  | _ :: l => held l h
  end.

Lemma wp_total {A} F (m : M (rtl D) A) Q s : total m -> (forall a x, Q a (s <| rtl_of := x |>)) -> wp F (on_card m) Q s.
Proof. intros Hm HQ. apply wp_on_card. eapply wp_mono; [apply Hm|]. intros a x _. apply HQ. Qed.

(** A computation that does not report anything. *)
Definition silent {A} (m : M (realtek_nic D) A) : Prop := forall F s, wp F m (fun _ s' => events s' = events s) s.

Lemma silent_bind {A B} (m : M (realtek_nic D) A) (k : A -> M (realtek_nic D) B) :
  silent m -> (forall a, silent (k a)) -> silent (bind m k).
Proof. intros Hm Hk F s. apply wp_bind. eapply wp_mono; [apply Hm|]. intros a s1 <-. apply Hk. Qed.

Lemma silent_card {A} (m : M (rtl D) A) : total m -> silent (on_card m).
Proof. intros Hm F s. by apply wp_total. Qed.

Lemma silent_world {A} (f : D -> A * D) : silent (world f).
Proof. intros F s. by apply wp_world. Qed.

Lemma silent_ret {A} (a : A) : silent (ret a).
Proof. by intros F s. Qed.

Lemma silent_chip : silent the_chip.
Proof. by intros F s. Qed.

Lemma silent_read_hw_addr n reg : silent (read_hw_addr n reg).
Proof.
  revert reg. induction n as [|n IH]; intros reg; cbn [read_hw_addr]; [apply silent_ret|].
  apply silent_bind; [apply silent_card; total_go|]. intros b. apply silent_bind; [apply IH|]. intros l. apply silent_ret.
Qed.

Ltac silent_go :=
  lazymatch goal with
  | |- forall _, _ => intros ?; silent_go
  | |- silent (bind _ _) => apply silent_bind; silent_go
  | |- silent (ret _) => apply silent_ret
  | |- silent (on_card _) => apply silent_card; first [apply steady_total; solve [steady_go]|total_go]
  | |- silent (world _) => apply silent_world
  | |- silent the_chip => apply silent_chip
  | |- silent (read_hw_addr _ _) => apply silent_read_hw_addr
  | |- silent (match ?x with _ => _ end) => destruct x; silent_go
  | |- silent (update _) => by intros ? ?
  | |- silent ?m => let h := head_of m in unfold h; cbv beta zeta; silent_go
  end.

Lemma silent_probe_hw_addr eeprom : silent (probe_hw_addr eeprom).
Proof. silent_go. Qed.

(** Starting an RTL8126 follows the null pointer of its MII device when that has no
    interface. *)
Lemma start_8126_unready (F : Prop) (x : rtl D) : mii_ready (chip x) = false -> F ->
  wp F realtek_hw_start_8126 (fun _ _ => False) x.
Proof.
  intros Hx HF. unfold realtek_hw_start_8126. do 3 (apply wp_steady_bind; [steady_go|]; intros ? ? ?).
  unfold realtek_hw_phy_config_8126. apply wp_steady_bind; [unfold phy_config_registers; steady_go|]; intros ? ? ?.
  wp_step. unfold mii_write. wp_step. wp_step.
  match goal with |- context [mii_ready (chip ?y)] => assert (mii_ready (chip y) = false) as -> by congruence end.
  done.
Qed.

Lemma silent_hw_start F s : (mac_ver (chip (rtl_of s)) = 70 -> F) -> wp F hw_start (fun _ s' => events s' = events s) s.
Proof.
  intros HF. unfold hw_start. wp_step. apply wp_the_chip. destruct (have_ocp _); [|by apply wp_ret].
  apply wp_on_card. destruct (Z.eqb_spec (mac_ver (chip (rtl_of s))) 70) as [E|_].
  - destruct (mii_ready (chip (rtl_of s))) eqn:Em; [by eapply wp_mono; [apply start_8126_ready|]|].
    eapply wp_mono; [apply start_8126_unready; [done|by apply HF]|done].
  - by eapply wp_mono; [apply steady_start_8125|].
Qed.

(** What is held when the probing has succeeded. *)
Definition probed (nvo : bool) : list string := (if nvo then ["nvo"] else []) ++ ["registration"; "registers"; "netdev"].

Lemma probe_card_spec s : mac_ver (chip (rtl_of s)) = 0 ->
  wp may_be_8126 probe_card (fun rc s' => exists new, events s' = events s ++ new /\
    forall h, held new h = Some (match rc with
                                 | OK => (if nvo_nvs s' then ["nvo"] else []) ++ "registration" :: h
                                 | Err _ => h
                                 end)) s.
Proof.
  intros Hv. unfold probe_card. wp_step. apply wp_on_card. eapply wp_mono; [by apply detect_spec|]. intros eeprom x Hx. wp_step.
  eapply wp_mono; [by apply silent_hw_start|]. intros t1 s1 E1. wp_step. eapply wp_mono; [apply silent_probe_hw_addr|].
  intros [|e] s2 E2; [|exists []; rewrite app_nil_r; split; [by rewrite E2, E1|done]].
  wp_step. apply wp_on_card. apply wp_update. wp_step. apply wp_on_card. eapply wp_mono; [by apply phy_reset_ready|].
  intros [|e] y Hy; [|exists []; rewrite app_nil_r; split; [cbn; by rewrite E2, E1|done]].
  wp_step. apply wp_world. intros [|e] d Hd; [|exists []; rewrite app_nil_r; split; [cbn; by rewrite E2, E1|done]].
  wp_step. apply wp_report. wp_step. apply report_link_spec. intros up z Hz. wp_step. wp_step.
  destruct (nvo_nvs _) eqn:En.
  - wp_step. apply wp_world. intros [|e] d' Hd'; wp_step; apply wp_report; apply wp_ret.
    + exists [Acquired "registration"; Link up; Acquired "nvo"]. split; [cbn; by rewrite E2, E1, <-!app_assoc|].
      intros h. cbn in *. by rewrite En.
    + exists [Acquired "registration"; Link up; Released "registration"].
      split; [cbn; by rewrite E2, E1, <-!app_assoc|done].
  - apply wp_ret. exists [Acquired "registration"; Link up]. split; [cbn; by rewrite E2, E1, <-!app_assoc|].
    intros h. cbn in *. by rewrite En.
Qed.

Lemma held_app l l' h : held (l ++ l') h = held l h ≫= held l'.
Proof.
  revert h. induction l as [|e l IH]; intros h; [done|]. destruct e; cbn; try apply IH.
  destruct h as [|w h]; [done|]. by destruct (decide _).
Qed.

Lemma remove_spec F s : wp F realtek_remove
  (fun _ s' => exists new, events s' = events s ++ new /\ held new (probed (nvo_nvs s)) = Some []) s.
Proof.
  unfold realtek_remove. wp_step. wp_step. wp_step.
  apply wp_mono with (fun _ s' => exists new, events s' = events s ++ new /\
    held new (probed (nvo_nvs s)) = Some ["registration"; "registers"; "netdev"]).
  { destruct (nvo_nvs s); [apply wp_report; by exists [Released "nvo"]|].
    apply wp_ret. exists []. by rewrite app_nil_r. }
  intros t1 s1 (new & E1 & Hn). wp_step. apply wp_report. wp_step. apply wp_total; [apply steady_total, steady_reset|].
  intros t2 x. wp_step. apply wp_report. apply wp_report.
  exists (new ++ [Released "registration"; Released "registers"; Released "netdev"]).
  split; [cbn; by rewrite E1, <-!app_assoc|]. by rewrite held_app, Hn.
Qed.

(** The reset card, or the error with the card reset again. *)
Lemma probe_body_spec s rc0 : mac_ver (chip (rtl_of s)) = 0 ->
  wp may_be_8126 (match rc0 with
        | Err e => ret (Err e)
        | OK =>
            let* rc := probe_card in
            match rc with
            | OK => ret OK
            | Err e => do* on_card realtek_reset in ret (Err e)
            end
        end)
    (fun rc s' => exists new, events s' = events s ++ new /\
       forall h, held new h = Some (match rc with
                                    | OK => (if nvo_nvs s' then ["nvo"] else []) ++ "registration" :: h
                                    | Err _ => h
                                    end)) s.
Proof.
  intros Hv. destruct rc0 as [|e]; [|apply wp_ret; exists []; by rewrite app_nil_r]. wp_step.
  eapply wp_mono; [by apply probe_card_spec|]. intros [|e] s1 (new & E1 & Hn); [apply wp_ret; by exists new|].
  wp_step. apply wp_total; [apply steady_total, steady_reset|]. intros a x. apply wp_ret. by exists new.
Qed.

(** [C31] Probing: for every card that cannot identify itself as an RTL8126, and every failure
    of a step, the probing returns; when it fails, everything it acquired has been
    released, each time the last acquired; when it succeeds the network device, its
    registers, its registration and its stored options, if it has any, are held; and the
    removal then releases all of it.  On other cards the same holds of a probing that
    returns. *)
Theorem realtek_probe_balanced s :
  wp may_be_8126 realtek_probe
    (fun rc s' => (exists new, events s' = events s ++ new /\
        held new [] = Some (match rc with OK => probed (nvo_nvs s') | Err _ => [] end)) /\
      (rc = OK -> wp False realtek_remove
         (fun _ s'' => exists new, events s'' = events s' ++ new /\ held new (probed (nvo_nvs s')) = Some []) s')) s.
Proof.
  apply wp_mono with (fun rc s' => exists new, events s' = events s ++ new /\
    held new [] = Some (match rc with OK => probed (nvo_nvs s') | Err _ => [] end)).
  2: { intros rc s' Hs'. split; [done|]. intros _. apply remove_spec. }
  unfold realtek_probe. wp_step. apply wp_world. intros [|] d Hd; cbn [negb].
  2: { apply wp_ret. exists []. by rewrite app_nil_r. }
  wp_step. apply wp_report. wp_step. wp_step. wp_step. apply wp_world. intros [|] d' Hd'; cbn [negb]; wp_step; apply wp_report.
  2: { apply wp_ret. exists [Acquired "netdev"; Released "netdev"]. cbn. by rewrite <-app_assoc. }
  wp_step. apply wp_steady; [apply steady_reset|]. intros rc0 x Hx. wp_step.
  eapply wp_mono; [apply probe_body_spec; cbn in *; by rewrite Hx|]. intros [|e] s1 (new & E1 & Hn); cbn in E1.
  - apply wp_ret. exists (Acquired "netdev" :: Acquired "registers" :: new). split; [by rewrite E1, <-!app_assoc|].
    cbn [held]. rewrite Hn. unfold probed. by destruct (nvo_nvs s1).
  - wp_step. apply wp_report. wp_step. apply wp_report. apply wp_ret.
    exists (Acquired "netdev" :: Acquired "registers" :: new ++ [Released "registers"; Released "netdev"]).
    split; [cbn; by rewrite E1, <-!app_assoc|]. cbn [held]. by rewrite held_app, Hn.
Qed.

(** A card that identifies itself as an RTL8126. *)
Definition always_8126 : Prop := forall d, txconfig_8126 (hw_read 4 RTL_TCR d).1.

Lemma detect_8126_found F x : always_8126 ->
  wp F realtek_detect (fun _ x' => mac_ver (chip x') = 70 /\ have_ocp (chip x') = true /\
    mii_ready (chip x') = mii_ready (chip x)) x.
Proof.
  intros Hall. destruct (Hall (card x)) as [Hne He]. unfold realtek_detect, realtek_detect_8126, set_chip. wp_step. wp_step.
  unfold wp, readl, hw_get. destruct (hw_read 4 RTL_TCR (card x)) as [v d] eqn:E. cbn in *. rewrite He.
  destruct (Z.eqb_spec v 4294967295); done.
Qed.

(** No RTL8126 is probed: the probing of a card that identifies itself as an RTL8126
    starts the hardware before the MII device has its interface, and the last step of the
    PHY configuration follows the null pointer.  The probing returns only when it fails
    before that. *)
Theorem rtl8126_never_probed s : always_8126 -> wp True realtek_probe (fun rc _ => rc <> OK) s.
Proof.
  intros Hall. unfold realtek_probe. wp_step. apply wp_world. intros [|] d Hd; cbn [negb]; [|by apply wp_ret].
  wp_step. apply wp_report. wp_step. wp_step. wp_step. apply wp_world. intros [|] d' Hd'; cbn [negb]; wp_step; apply wp_report;
    [|by apply wp_ret].
  wp_step. apply wp_steady; [apply steady_reset|]. intros rc0 x Hx. wp_step.
  apply wp_mono with (fun rc _ => rc <> OK).
  2: { intros [|e] s' He; [done|]. wp_step. apply wp_report. wp_step. apply wp_report. by apply wp_ret. }
  destruct rc0 as [|e]; [|by apply wp_ret]. wp_step. unfold probe_card. wp_step. apply wp_on_card.
  eapply wp_mono; [by apply detect_8126_found|]. intros eeprom y (Hm & Ho & Hr). wp_step. unfold hw_start. wp_step.
  apply wp_the_chip. cbn. rewrite Ho, Hm. apply wp_on_card. eapply wp_mono; [apply start_8126_unready; [|done]|done].
  change (mii_ready (chip y) = false). rewrite Hr. cbn in *. by rewrite Hx.
Qed.
End Probe.

(** ** The legacy receive buffer *)
Section Legacy.
Context {D : Type} `{NicHw D} `{NetOps D}.
Implicit Types (s : realtek_nic D).

(** A read position that the card may be at. *)
Definition offset_ok (o : Z) : Prop := 0 <= o < RTL_RXBUF_LEN /\ o mod 4 = 0.

Lemma next_offset_ok o len : offset_ok (next_offset o len).
Proof.
  unfold next_offset. set (x := u32 _). split; [apply Z.mod_pos_bound; unfold RTL_RXBUF_LEN; lia|].
  unfold RTL_RXBUF_LEN. rewrite Z.mod_mod_divide by (by exists 2048).
  change 3 with (Z.ones 2). change 4 with (2 ^ 2). rewrite <-Z.land_ones by lia. apply Z.bits_inj'. intros i Hi.
  rewrite Z.land_spec, Z.ldiff_spec, Z.bits_0. by destruct (Z.testbit x i), (Z.testbit (Z.ones 2) i).
Qed.

(** The next position is the old one with the header and the packet, rounded up to a word,
    around the buffer. *)
Lemma next_offset_eq o len : offset_ok o -> 0 <= len < 2 ^ 16 ->
  next_offset o len = (o + 4 + (len + 3) / 4 * 4) mod RTL_RXBUF_LEN.
Proof.
  intros [Ho Hm] Hl. unfold next_offset. unfold RTL_RXBUF_LEN in Ho.
  rewrite (u32_id (o + (4 + len))), u32_id by lia. change 3 with (Z.ones 2) at 2. rewrite Z.ldiff_ones_r by lia.
  rewrite Z.shiftr_div_pow2, Z.shiftl_mul_pow2 by lia. change (2 ^ 2) with 4. f_equal.
  replace (o + (4 + len) + 3) with (len + 3 + (o / 4 + 1) * 4) by (pose proof (Z.div_mod o 4); lia).
  rewrite Z.div_add by lia. pose proof (Z.div_mod o 4). lia.
Qed.

(** Legacy reception: when the header at the read position gives a length from the CRC's
    4 bytes to the padding that follows the buffer, the packet is read within the buffer,
    wherever in it the position is; it is delivered without its CRC, and the new position
    is again a word boundary within the buffer, just after the packet. *)
Theorem legacy_rx_in_bounds s :
  let o := Z.to_nat (rx_offset s) in
  let mem := rx_mem (card (rtl_of s)) in
  let st := le_val (sub o 2 mem) in
  let len := le_val (sub (o + 2) 2 mem) in
  Z.of_nat (length mem) = RTL_RXBUF_LEN + RTL_RXBUF_PAD -> offset_ok (rx_offset s) -> 4 <= len <= RTL_RXBUF_PAD ->
  wp False legacy_rx_one
    (fun more s' =>
       offset_ok (rx_offset s') /\
       (if more then rx_offset s' = (rx_offset s + 4 + (len + 3) / 4 * 4) mod RTL_RXBUF_LEN
        else rx_offset s' = rx_offset s) /\
       events s' = events s ++
         [if bit_set RTL_STAT_ROK st then
            if (more : bool) then NetRxData (sub (o + 4) (Z.to_nat len - 4) mem) else NetRxNone ENOMEM
          else NetRxNone EIO]) s.
Proof.
  intros o mem st len Hmem Ho Hlen. unfold legacy_rx_one. wp_step. wp_step. cbv zeta. fold mem o.
  assert (Hpos : Z.of_nat o = rx_offset s) by (destruct Ho; unfold o; lia).
  unfold RTL_RXBUF_LEN, RTL_RXBUF_PAD in Hmem, Hlen. destruct Ho as [Hr Hw]. unfold RTL_RXBUF_LEN in Hr.
  assert (rx_offset s <= 8188) as Hlast by (pose proof (Z.div_mod (rx_offset s) 4); lia).
  wp_step. rewrite read_some by lia. wp_some. rewrite !sub_sub by lia. rewrite Nat.add_0_r. cbn [Nat.add].
  replace (2 + o)%nat with (o + 2)%nat by lia. fold st len. wp_step.
  assert (Hnext : next_offset (rx_offset s) len = (rx_offset s + 4 + (len + 3) / 4 * 4) mod RTL_RXBUF_LEN)
    by (apply next_offset_eq; [split; [unfold RTL_RXBUF_LEN; lia|done]|lia]).
  destruct (bit_set RTL_STAT_ROK st).
  - wp_step. apply wp_world. intros [|] d Hd; cbn [negb].
    + wp_step. rewrite read_some by lia. wp_some. wp_step. destruct (Z.ltb_spec len 4); [lia|]. wp_step. wp_step.
      apply wp_report. wp_step. wp_step. wp_step. wp_step. cbn [rx_offset events]. split; [apply next_offset_ok|].
      split; [done|]. cbn. do 3 f_equal. unfold sub. rewrite take_take. f_equal. lia.
    + wp_step. apply wp_report. wp_step. wp_step. wp_step. wp_step. split; [split; [unfold RTL_RXBUF_LEN; cbn; lia|done]|done].
  - wp_step. apply wp_report. wp_step. wp_step. wp_step. wp_step. split; [apply next_offset_ok|]. done.
Qed.
End Legacy.
