(* ===== verification/RealtekDemo.v ===== *)
(** * Realtek network driver: a toy card

    A card on which the driver's theorems apply: a run of an RTL8169 that sends and
    receives a packet, an RTL8126 whose PHY needs three reads to answer, the probing of a
    card, and a packet at the end of the legacy receive buffer. *)

From stdpp Require Import base list strings relations.
From Stdlib Require Import ZArith Lia.
From S2P Require Import Prelude RealtekHw RealtekInit RealtekSpec RealtekRing RealtekInv RealtekSystem RealtekProbe.

(** ** The card

    Every interrupt is pending, and the registers of an RTL8139 read as zero; buffers are
    numbered as they are allocated. *)
Record toy_card : Type := ToyCard { next_buffer : Z; legacy_mem : list Z }.

#[local] Instance toy_hw : NicHw toy_card := {
  hw_read n reg c := (if reg =? RTL_ISR then 0x2f else 0, c);
  hw_write n reg v c := c;
}.
#[local] Instance toy_mii : MiiOps toy_card := {
  mii_reset := ret OK;
  mii_restart := ret OK;
  MII_CTRL1000 := 0x09;
  MII_MMD_DATA := 0x0e;
  ADVERTISE_1000 := 0x0300;
  physaddr_64 := true;
}.
#[local] Instance toy_net : NetOps toy_card := {
  alloc_rx_iob len c := (Some (next_buffer c), ToyCard (next_buffer c + 1) (legacy_mem c));
  alloc_iob len c := (true, c);
  dma_alloc len c := (Some 4096, c);
  rx_mem c := legacy_mem c;
  iob_dma b := 65536 * b;
  iob_len b := 60;
  iob_pad b n := n;
  iob_map_tx b c := (OK, c);
}.
#[local] Instance toy_probe : ProbeOps toy_card := {
  alloc_etherdev c := (true, c);
  pci_ioremap c := (true, c);
  eeprom_read is_93c56 addr len c := (inl EIO, c);
  register_netdev c := (OK, c);
  register_nvo c := (OK, c);
}.

Definition toy_nic (c : realtek_chip) (mem : list Z) : realtek_nic toy_card :=
  Nic (Rtl c (ToyCard 1 mem)) (realtek_init_ring 4 RTL_TNPDS) (realtek_init_ring 4 RTL_RDSAR) (replicate 4 None) 0 [] false [].

(** ** A run of the system *)
Definition rtl8169 : realtek_chip := Chip false true false 0 0 RTL_TPPOLL_8169 0 true.
Definition toy0 : realtek_nic toy_card := toy_nic rtl8169 [].

Definition after {A} (m : M (realtek_nic toy_card) A) (s : realtek_nic toy_card) : realtek_nic toy_card :=
  match m s with Ret _ s' => s' | _ => s end.

(** The device is opened and sends packet 9; the card sends it and receives a packet of 64
    bytes in the first buffer; the driver polls. *)
Definition toy1 := after realtek_open toy0.
Definition toy2 := after (realtek_transmit 9) toy1.
Definition sent_desc : realtek_descriptor := Desc 60 (Z.lor RTL_DESC_FS RTL_DESC_LS) (65536 * 9).
Definition rcvd_desc : realtek_descriptor := Desc 64 (Z.lor RTL_DESC_FS RTL_DESC_LS) (65536 * 1).
Definition toy3 := set_tx (set_desc 0 sent_desc) toy2.
Definition toy4 := set_rx (set_desc 0 rcvd_desc) toy3.
Definition toy5 := after (realtek_poll 0) toy4.
Definition toy_end : system := System toy5 true [9] 0.

Example toy_events : events toy5 = [Link false; TxComplete; NetRx 1 60; Link false].
Proof. vm_compute. reflexivity. Qed.

Lemma toy_run : rtc system_step (System toy0 false [] 0) toy_end.
Proof.
  eapply rtc_l; [apply (step_open toy0 toy1); vm_compute; reflexivity|].
  eapply rtc_l; [apply (step_transmit toy1 toy2 9 OK); vm_compute; reflexivity|].
  eapply rtc_l; [eapply (step_card_tx toy2 0 _ sent_desc); vm_compute; reflexivity|].
  eapply rtc_l; [eapply (step_card_rx toy3 0 _ rcvd_desc); vm_compute; reflexivity|].
  eapply rtc_l; [apply (step_poll toy4 toy5 0); vm_compute; reflexivity|].
  apply rtc_refl.
Qed.

(** After the run the packet has been completed, and the card owns the buffer that replaced
    the first, which the driver keeps. *)
Lemma realtek_system_safe_witness : completed toy_end = 1%nat /\
  exists b, rx_iobuf (the_nic toy_end) !! 0%nat = Some (Some b) /\ d_address (Desc RTL_RX_MAX_LEN 0x8000 327680) = u64 (iob_dma b).
Proof.
  split; [vm_compute; reflexivity|].
  assert (closed toy0) as Hc by (split; vm_compute; reflexivity).
  destruct (realtek_system_safe toy0 toy_end Hc toy_run) as [Hrx _].
  apply Hrx; vm_compute; reflexivity.
Defined.

(** A card that reports no length at all. *)
Definition toy_empty : realtek_nic toy_card :=
  set_rx (set_desc 0 (Desc 0 (Z.lor RTL_DESC_FS RTL_DESC_LS) (65536 * 1))) toy1.

Lemma rx_length_unchecked_witness : exists b,
  wp False (poll_rx_loop 5) (fun _ s' => exists n, NetRx b n ∈ events s' /\ RTL_RX_MAX_LEN < n) toy_empty.
Proof.
  assert (closed toy0) as Hc by (split; vm_compute; reflexivity).
  assert (realtek_open toy0 = Ret OK toy1) as E by (vm_compute; reflexivity).
  destruct (wp_elim _ _ _ _ _ _ (realtek_open_spec toy0 Hc) E) as (new & up & Ho & _ & Hn).
  destruct Hn as [Hn|[d Hd]]; [|discriminate Hd]. destruct new as [|b [|b1 [|b2 [|b3 [|]]]]]; try discriminate Hn. exists b.
  eapply (rx_length_unchecked 5 b [b1; b2; b3] toy_empty (Desc 0 (Z.lor RTL_DESC_FS RTL_DESC_LS) (65536 * 1))).
  - unfold toy_empty. eapply (rx_card toy1); [apply (op_rx _ _ _ Ho)|..]; vm_compute; reflexivity.
  - cbn. lia.
  - vm_compute. reflexivity.
  - vm_compute. reflexivity.
  - vm_compute. reflexivity.
  - left. vm_compute. reflexivity.
Defined.

(** ** The RTL8126 *)
Definition phy0 (ready : bool) : rtl phy_card :=
  Rtl (Chip false true true 70 3 RTL_TPPOLL_8125 0 ready) (PhyCard (fun _ => 0x1234) 0 0 0).

(** With the MII device, and as in probing without it. *)
Lemma phy_config_applies_table_witness :
  wp False (@phy_config_registers phy_card (phy_hw 3))
    (fun _ s' => phy_is (phy0 false) (configured_phy 3 (fun _ => 0x1234)) s') (phy0 false) /\
  wp False (@realtek_hw_phy_config_8126 phy_card (phy_hw 3))
    (fun _ s' => phy_is (phy0 true) (on_standard_page (configured_phy 3 (fun _ => 0x1234))) s') (phy0 true) /\
  @realtek_hw_phy_config_8126 phy_card (phy_hw 3) (phy0 false) = Fault /\
  configured_phy 3 (fun _ => 0x1234) 0xae06 = 0x7e34.
Proof.
  assert (forall ready, (regs_ok (phy0 ready))) as Hr by (intros ready x; cbn; lia).
  assert (3 < RTL_GPHY_OCP_MAX_WAIT_US)%nat as Hl by (unfold RTL_GPHY_OCP_MAX_WAIT_US; lia).
  destruct (phy_config_applies_table 3 Hl (phy0 false) eq_refl eq_refl (Hr false)) as (H1 & _ & H2).
  destruct (phy_config_applies_table 3 Hl (phy0 true) eq_refl eq_refl (Hr true)) as (_ & H3 & _).
  split; [exact H1|]. split; [apply H3; reflexivity|]. split; [apply H2; reflexivity|]. vm_compute. reflexivity.
Defined.

(** ** Probing *)
Lemma realtek_probe_balanced_witness :
  wp False realtek_probe
    (fun rc s' => (exists new, events s' = events toy0 ++ new /\
        held new [] = Some (match rc with OK => probed (nvo_nvs s') | Err _ => [] end)) /\
      (rc = OK -> wp False realtek_remove
         (fun _ s'' => exists new, events s'' = events s' ++ new /\ held new (probed (nvo_nvs s')) = Some []) s')) toy0.
Proof.
  apply (wp_weaken may_be_8126 False); [|apply (realtek_probe_balanced (D := toy_card)); by intros F x].
  intros (d & v & d' & E & _ & He). injection E as <- <-. discriminate He.
Defined.

(** An RTL8126: the probing never returns. *)
Inductive card_8126 : Type := Card8126.

#[local] Instance hw_8126 : NicHw card_8126 := {
  hw_read n reg c := (if reg =? RTL_TCR then 0x64800000 else 0, c);
  hw_write n reg v c := c;
}.
#[local] Instance mii_8126 : MiiOps card_8126 := {
  mii_reset := ret OK;
  mii_restart := ret OK;
  MII_CTRL1000 := 0x09;
  MII_MMD_DATA := 0x0e;
  ADVERTISE_1000 := 0x0300;
  physaddr_64 := true;
}.
#[local] Instance net_8126 : NetOps card_8126 := {
  alloc_rx_iob len c := (None, c);
  alloc_iob len c := (false, c);
  dma_alloc len c := (Some 4096, c);
  rx_mem c := [];
  iob_dma b := b;
  iob_len b := 60;
  iob_pad b n := n;
  iob_map_tx b c := (OK, c);
}.
#[local] Instance probe_8126 : ProbeOps card_8126 := {
  alloc_etherdev c := (true, c);
  pci_ioremap c := (true, c);
  eeprom_read is_93c56 addr len c := (inl EIO, c);
  register_netdev c := (OK, c);
  register_nvo c := (OK, c);
}.
Definition nic_8126 : realtek_nic card_8126 :=
  Nic (Rtl (Chip false false false 0 0 0 0 false) Card8126) (realtek_init_ring 4 RTL_TNPDS) (realtek_init_ring 4 RTL_RDSAR)
      (replicate 4 None) 0 [] false [].

Lemma rtl8126_never_probed_witness :
  realtek_probe nic_8126 = Fault /\ wp True realtek_probe (fun rc _ => rc <> OK) nic_8126.
Proof.
  split; [vm_compute; reflexivity|]. apply (rtl8126_never_probed (D := card_8126)).
  intros d. split; [discriminate|reflexivity].
Defined.

(** ** Legacy reception *)
Definition rtl8139 : realtek_chip := Chip true false false 0 0 0 0 true.
Definition toy_mem : list Z := replicate (Z.to_nat 8188) 0 ++ [1; 0; 100; 0] ++ replicate (Z.to_nat 2038) 7.
Definition toy_legacy : realtek_nic toy_card := (toy_nic rtl8139 toy_mem) <| rx_offset := 8188 |>.

Lemma legacy_rx_in_bounds_witness :
  wp False legacy_rx_one (fun more s' => offset_ok (rx_offset s') /\
    (if (more : bool) then rx_offset s' = 100 else rx_offset s' = 8188) /\
    events s' = events toy_legacy ++ [if (more : bool) then NetRxData (replicate 96 7) else NetRxNone ENOMEM]) toy_legacy.
Proof.
  assert (Z.of_nat (length toy_mem) = RTL_RXBUF_LEN + RTL_RXBUF_PAD) as Hm by (vm_compute; reflexivity).
  assert (offset_ok (rx_offset toy_legacy)) as Ho
    by (split; [split; [discriminate|reflexivity]|reflexivity]).
  set (o := Z.to_nat 8188).
  assert (le_val (sub o 2 toy_mem) = 1) as Hst by (vm_compute; reflexivity).
  assert (le_val (sub (o + 2) 2 toy_mem) = 100) as Hlen by (vm_compute; reflexivity).
  assert (sub (o + 4) (Z.to_nat 100 - 4) toy_mem = replicate 96 7) as Hd by (vm_compute; reflexivity).
  pose proof (legacy_rx_in_bounds toy_legacy) as Hb. cbv zeta in Hb.
  change (rx_mem (card (rtl_of toy_legacy))) with toy_mem in Hb.
  change (rx_offset toy_legacy) with 8188 in Hb, Ho. fold o in Hb.
  assert ((8188 + 4 + (100 + 3) / 4 * 4) mod RTL_RXBUF_LEN = 100) as Hn by (vm_compute; reflexivity).
  rewrite Hst, Hlen, Hd, Hn in Hb. exact (Hb Hm Ho (conj (proj1 (Z.leb_le 4 100) eq_refl) (proj1 (Z.leb_le 100 RTL_RXBUF_PAD) eq_refl))).
Defined.
