(* ===== verification/Pci.v ===== *)
(** * PCI bus (drivers/bus/pci.c)

    Base address registers, the scan of the bus, the choice of a driver, probing and
    removal.  The configuration space, the drivers, the allocator and the architecture's
    discovery of buses are parameters; so are the constants of the PCI specification,
    which the code has from a header that is not in the repository. *)

From stdpp Require Import base list list_numbers strings.
From Stdlib Require Import ZArith Lia.
From S2P Require Import Prelude RealtekInit.

(** ** Parameters *)

(** Constants and macros of ipxe/pci.h and ipxe/device.h; [long_bits] is the width of an
    unsigned long. *)
Class PciHeader := {
  PCI_VENDOR_ID : Z;
  PCI_COMMAND : Z;
  PCI_COMMAND_IO : Z;
  PCI_COMMAND_MEM : Z;
  PCI_COMMAND_MASTER : Z;
  PCI_REVISION : Z;
  PCI_LATENCY_TIMER : Z;
  PCI_HEADER_TYPE : Z;
  PCI_HEADER_TYPE_BRIDGE : Z;
  PCI_HEADER_TYPE_MASK : Z;
  PCI_HEADER_TYPE_MULTI : Z;
  PCI_BASE_ADDRESS_0 : Z;
  PCI_BASE_ADDRESS_5 : Z;
  PCI_BASE_ADDRESS_SPACE_IO : Z;
  PCI_BASE_ADDRESS_IO_MASK : Z;
  PCI_BASE_ADDRESS_MEM_TYPE_64 : Z;
  PCI_BASE_ADDRESS_MEM_TYPE_MASK : Z;
  PCI_BASE_ADDRESS_MEM_MASK : Z;
  PCI_SUBORDINATE : Z;
  PCI_INTERRUPT_LINE : Z;
  PCI_ANY_ID : Z;
  BUS_TYPE_PCI : Z;
  PCI_SEG : Z -> Z;
  PCI_BUS : Z -> Z;
  PCI_SLOT : Z -> Z;
  PCI_FUNC : Z -> Z;
  PCI_FIRST_FUNC : Z -> Z;
  PCI_BUSDEVFN : Z -> Z -> Z -> Z -> Z;
  dev_name_size : nat;
  long_bits : Z;
}.

(** struct pci_driver, less its functions; a driver is known by its place in the table. *)
Record pci_driver : Type := PciDriver {
  drv_class : Z;
  drv_mask : Z;
  drv_ids : list pci_device_id;
}.

(** struct pci_range *)
Record pci_range : Type := PciRange { range_start : Z; range_count : Z }.

(** struct device_description *)
Record device_description : Type := DeviceDescription {
  desc_bus_type : Z;
  desc_location : Z;
  desc_vendor : Z;
  desc_device : Z;
  desc_class : Z;
  desc_ioaddr : Z;
  desc_irq : Z;
}.

(** struct pci_device, less the links of its lists. *)
Record pci_device : Type := PciDevice {
  pci_busdevfn : Z;
  pci_vendor : Z;
  pci_dev_id : Z;
  pci_class : Z;
  pci_irq : Z;
  pci_hdrtype : Z;
  pci_membase : Z;
  pci_ioaddr : Z;
  pci_name : list Z;
  pci_desc : device_description;
  pci_drv : option nat;
  pci_id : option pci_device_id;
  pci_driver_name : option string;
}.
#[export] Instance eta_pci : Eta pci_device := fun p =>
  PciDevice (pci_busdevfn p) (pci_vendor p) (pci_dev_id p) (pci_class p) (pci_irq p) (pci_hdrtype p)
    (pci_membase p) (pci_ioaddr p) (pci_name p) (pci_desc p) (pci_drv p) (pci_id p) (pci_driver_name p).

(** Accesses to the configuration space name the device by its address. *)
Class PciConfig (W : Type) := {
  config_read_byte : Z -> Z -> W -> Z * W;
  config_read_word : Z -> Z -> W -> Z * W;
  config_read_dword : Z -> Z -> W -> Z * W;
  config_write_byte : Z -> Z -> Z -> W -> W;
  config_write_word : Z -> Z -> Z -> W -> W;
  config_write_dword : Z -> Z -> Z -> W -> W;
}.

(** The rest of the world: the discovery of the next range of addresses, the veto on
    probing, the allocator, the table of drivers, and what their functions do. *)
Class PciWorld (W : Type) := {
  pci_discover : Z -> W -> pci_range * W;
  pci_can_probe : pci_device -> W -> bool * W;
  pci_malloc : W -> bool * W;
  PCI_DRIVERS : list pci_driver;
  driver_probe : nat -> pci_device -> W -> status * pci_device * W;
  driver_remove : nat -> pci_device -> W -> W;
}.

(** A device filled with zeros, then [pci_init]. *)
Definition pci_init (busdevfn : Z) : pci_device :=
  PciDevice busdevfn 0 0 0 0 0 0 0 [] (DeviceDescription 0 0 0 0 0 0 0) None None None.

Definition on_world {W A} (f : W -> A * W) : M W A := fun w => let '(a, w) := f w in Ret a w.

(** ** Base address registers *)
Section Bars.
Context {W : Type} `{PciHeader} `{PciConfig W}.

Definition pci_read_config_byte (pci : pci_device) (reg : Z) : M W Z :=
  let* v := on_world (config_read_byte (pci_busdevfn pci) reg) in ret (u8 v).
Definition pci_read_config_word (pci : pci_device) (reg : Z) : M W Z :=
  let* v := on_world (config_read_word (pci_busdevfn pci) reg) in ret (u16 v).
Definition pci_read_config_dword (pci : pci_device) (reg : Z) : M W Z :=
  let* v := on_world (config_read_dword (pci_busdevfn pci) reg) in ret (u32 v).
Definition pci_write_config_byte (pci : pci_device) (reg v : Z) : M W unit :=
  update (config_write_byte (pci_busdevfn pci) reg v).
Definition pci_write_config_word (pci : pci_device) (reg v : Z) : M W unit :=
  update (config_write_word (pci_busdevfn pci) reg v).
Definition pci_write_config_dword (pci : pci_device) (reg v : Z) : M W unit :=
  update (config_write_dword (pci_busdevfn pci) reg v).

(** An unsigned long. *)
Definition ulong (z : Z) : Z := z mod 2 ^ long_bits.

Definition bar_type (low : Z) : Z :=
  Z.land low (Z.lor PCI_BASE_ADDRESS_SPACE_IO PCI_BASE_ADDRESS_MEM_TYPE_MASK).

Definition bar_has_io (bar : Z) : bool := negb (Z.land bar PCI_BASE_ADDRESS_SPACE_IO =? 0).

Definition pci_bar (pci : pci_device) (reg : Z) : M W Z :=
  let* low := pci_read_config_dword pci reg in
  if bar_type low =? PCI_BASE_ADDRESS_MEM_TYPE_64 then
    let* high := pci_read_config_dword pci (reg + 4) in
    if high =? 0 then ret low
    else if 32 <? long_bits then ret (Z.lor (Z.shiftl high 32) low)
    else ret PCI_BASE_ADDRESS_MEM_TYPE_64
  else ret low.

Definition pci_bar_is_io (pci : pci_device) (reg : Z) : M W Z :=
  let* bar := pci_bar pci reg in
  ret (Z.land bar PCI_BASE_ADDRESS_SPACE_IO).

(** The address in a register, without the flags. *)
Definition bar_address (bar : Z) : Z :=
  if bar_has_io bar then Z.ldiff bar PCI_BASE_ADDRESS_IO_MASK else Z.ldiff bar PCI_BASE_ADDRESS_MEM_MASK.

Definition pci_bar_start (pci : pci_device) (reg : Z) : M W Z :=
  let* bar := pci_bar pci reg in
  ret (bar_address bar).

(** "Save the original command register and disable decoding" *)
Definition disable_decoding (pci : pci_device) : M W Z :=
  let* cmd := pci_read_config_word pci PCI_COMMAND in
  do* pci_write_config_word pci PCI_COMMAND (Z.ldiff cmd (Z.lor PCI_COMMAND_MEM PCI_COMMAND_IO)) in
  ret cmd.

Definition pci_bar_set (pci : pci_device) (reg start : Z) : M W unit :=
  let* cmd := disable_decoding pci in
  let* low := pci_read_config_dword pci reg in
  let type := bar_type low in
  do* pci_write_config_dword pci reg (u32 start) in
  do* (if type =? PCI_BASE_ADDRESS_MEM_TYPE_64 then
         pci_write_config_dword pci (reg + 4) (if 32 <? long_bits then u32 (Z.shiftr start 32) else 0)
       else ret tt) in
  pci_write_config_word pci PCI_COMMAND cmd.

Definition pci_bar_size (pci : pci_device) (reg : Z) : M W Z :=
  let* cmd := disable_decoding pci in
  let* start := pci_bar_start pci reg in
  do* pci_bar_set pci reg (ulong (-1)) in
  let* size := pci_bar_start pci reg in
  let size := Z.land size (ulong (- size)) in
  do* pci_bar_set pci reg start in
  do* pci_write_config_word pci PCI_COMMAND cmd in
  ret size.

(** The loop of [pci_read_bases]. *)
Fixpoint read_bases (fuel : nat) (pci : pci_device) (reg : Z) : M W pci_device :=
  if PCI_BASE_ADDRESS_5 <? reg then ret pci else
  match fuel with
  | O => fun _ => NoFuel
  | S fuel =>
      let* bar := pci_bar pci reg in
      if bar_has_io bar then
        let pci := if pci_ioaddr pci =? 0 then pci <| pci_ioaddr := Z.ldiff bar PCI_BASE_ADDRESS_IO_MASK |>
                   else pci in
        read_bases fuel pci (reg + 4)
      else
        let pci := if pci_membase pci =? 0 then pci <| pci_membase := Z.ldiff bar PCI_BASE_ADDRESS_MEM_MASK |>
                   else pci in
        if negb (Z.land bar PCI_BASE_ADDRESS_MEM_TYPE_64 =? 0)
        then read_bases fuel pci (reg + 4 + 4) else read_bases fuel pci (reg + 4)
  end.

(** "Clear any existing base addresses" *)
Definition no_bases (pci : pci_device) : pci_device := (pci <| pci_ioaddr := 0 |>) <| pci_membase := 0 |>.

Definition pci_read_bases (pci : pci_device) : M W pci_device :=
  read_bases 6 (no_bases pci) PCI_BASE_ADDRESS_0.

Definition adjust_pci_device (pci : pci_device) : M W unit :=
  let* pci_command := pci_read_config_word pci PCI_COMMAND in
  let new_command := u16 (Z.lor (Z.lor (Z.lor pci_command PCI_COMMAND_MASTER) PCI_COMMAND_MEM) PCI_COMMAND_IO) in
  do* (if pci_command =? new_command then ret tt else pci_write_config_word pci PCI_COMMAND new_command) in
  let* pci_latency := pci_read_config_byte pci PCI_LATENCY_TIMER in
  if pci_latency <? 32 then pci_write_config_byte pci PCI_LATENCY_TIMER 32 else ret tt.

(** ** Identification of a device *)

(** [%0<width>x] *)
Fixpoint hex_digits (fuel : nat) (v : Z) : list Z :=
  match fuel with
  | O => []
  | S fuel =>
      let d := v mod 16 in
      (if v / 16 =? 0 then [] else hex_digits fuel (v / 16)) ++ [if d <? 10 then 48 + d else 87 + d]
  end.
Definition print_hex (width : nat) (v : Z) : list Z :=
  let digits := hex_digits 8 v in
  replicate (width - length digits) 48 ++ digits.

(** The name "%04x:%02x:%02x.%x", cut off by [snprintf]. *)
Definition pci_print_name (busdevfn : Z) : list Z :=
  take (dev_name_size - 1)
    (print_hex 4 (PCI_SEG busdevfn) ++ bstr ":" ++ print_hex 2 (PCI_BUS busdevfn) ++ bstr ":" ++
     print_hex 2 (PCI_SLOT busdevfn) ++ bstr "." ++ print_hex 1 (PCI_FUNC busdevfn)).

(** The identifiers, the class, the interrupt line and the header type; the members of the
    generic device. *)
Definition identified (pci : pci_device) (id revision irq hdrtype : Z) : pci_device :=
  ((((pci <| pci_vendor := Z.land id 0xffff |>) <| pci_dev_id := Z.shiftr id 16 |>)
     <| pci_class := Z.shiftr revision 8 |>) <| pci_irq := irq |>) <| pci_hdrtype := hdrtype |>.
Definition described (pci : pci_device) : pci_device :=
  (pci <| pci_name := pci_print_name (pci_busdevfn pci) |>) <| pci_desc :=
    DeviceDescription BUS_TYPE_PCI (pci_busdevfn pci) (pci_vendor pci) (pci_dev_id pci)
      (pci_class pci) (pci_ioaddr pci) (pci_irq pci) |>.

(** "Populate struct pci_device", from the identifiers on. *)
Definition populate (pci : pci_device) (id : Z) : M W pci_device :=
  let* tmp := pci_read_config_dword pci PCI_REVISION in
  let* irq := pci_read_config_byte pci PCI_INTERRUPT_LINE in
  let* hdrtype := pci_read_config_byte pci PCI_HEADER_TYPE in
  let* pci := pci_read_bases (identified pci id tmp irq hdrtype) in
  ret (described pci).

(** A function other than the first exists only on a multifunction device; the code reads
    the first function's header through the same structure. *)
Definition function_exists (pci : pci_device) : M W bool :=
  if PCI_FUNC (pci_busdevfn pci) =? 0 then ret true else
  let* hdrtype := pci_read_config_byte (pci <| pci_busdevfn ::= PCI_FIRST_FUNC |>) PCI_HEADER_TYPE in
  ret (negb (Z.land hdrtype PCI_HEADER_TYPE_MULTI =? 0)).

Definition pci_read_config (pci : pci_device) : M W (errno + pci_device) :=
  let* here := function_exists pci in
  if negb here then ret (inl ENODEV) else
  let* tmp := pci_read_config_dword pci PCI_VENDOR_ID in
  if (tmp =? 0xffffffff) || (tmp =? 0) then ret (inl ENODEV) else
  let* pci := populate pci tmp in
  ret (inr pci).
End Bars.

(** ** The bus *)

(** The world, the static range of [pci_find_next], and the children of the root device. *)
Record pci_bus (W : Type) : Type := PciRoot {
  the_world : W;
  the_range : pci_range;
  pci_children : list pci_device;
}.
Arguments PciRoot {W}.
Arguments the_world {W}.
Arguments the_range {W}.
Arguments pci_children {W}.
#[export] Instance eta_bus W : Eta (pci_bus W) := fun b => PciRoot (the_world b) (the_range b) (pci_children b).
#[export] Instance eta_range : Eta pci_range := fun r => PciRange (range_start r) (range_count r).

Definition in_world {W A} (m : M W A) : M (pci_bus W) A := fun b =>
  match m (the_world b) with
  | Ret a w => Ret a (b <| the_world := w |>)
  | Fault => Fault
  | NoFuel => NoFuel
  end.

Section Bus.
Context {W : Type} `{PciHeader} `{PciConfig W} `{PciWorld W}.

(** [busdevfn] is outside the range: the subtraction wraps. *)
Definition outside (busdevfn : Z) (r : pci_range) : bool :=
  range_count r <=? u32 (busdevfn - range_start r).

(** "Find next PCI bus:dev.fn address range, if necessary" *)
Definition next_address (busdevfn : Z) : M (pci_bus W) Z :=
  let* r := gets the_range in
  if outside busdevfn r then
    let* r := in_world (on_world (pci_discover busdevfn)) in
    do* update (fun b => b <| the_range := r |>) in
    ret (if busdevfn <? range_start r then range_start r else busdevfn)
  else ret busdevfn.

(** "If device is a bridge, expand the PCI bus:dev.fn address range as needed." *)
Definition expand_range (pci : pci_device) (busdevfn : Z) : M (pci_bus W) unit :=
  let* hdrtype := in_world (pci_read_config_byte pci PCI_HEADER_TYPE) in
  if Z.land hdrtype PCI_HEADER_TYPE_MASK =? PCI_HEADER_TYPE_BRIDGE then
    let* sub := in_world (pci_read_config_byte pci PCI_SUBORDINATE) in
    if sub <=? PCI_BUS busdevfn then ret tt else
    let* r := gets the_range in
    let end_ := u32 (PCI_BUSDEVFN (PCI_SEG busdevfn) (sub + 1) 0 0) in
    let count := u32 (end_ - range_start r) in
    if range_count r <? count then update (fun b => b <| the_range := r <| range_count := count |> |>)
    else ret tt
  else ret tt.

(** The address returned beside the result is [*busdevfn] on return. *)
Fixpoint pci_find_next (fuel : nat) (busdevfn : Z) : M (pci_bus W) ((errno + pci_device) * Z) :=
  match fuel with
  | O => fun _ => NoFuel
  | S fuel =>
      let* busdevfn := next_address busdevfn in
      let* r := gets the_range in
      if outside busdevfn r then ret (inl ENODEV, busdevfn) else
      let* found := in_world (pci_read_config (pci_init busdevfn)) in
      match found with
      | inr pci => do* expand_range pci busdevfn in ret (inr pci, busdevfn)
      | inl _ =>
          let busdevfn := u32 (busdevfn + 1) in
          if busdevfn =? 0 then ret (inl ENODEV, busdevfn) else pci_find_next fuel busdevfn
      end
  end.

Definition class_matches (pci : pci_device) (drv : pci_driver) : bool :=
  Z.land (Z.lxor (drv_class drv) (pci_class pci)) (drv_mask drv) =? 0.
Definition id_matches (pci : pci_device) (id : pci_device_id) : bool :=
  ((vendor id =? PCI_ANY_ID) || (vendor id =? pci_vendor pci)) &&
  ((device_id id =? PCI_ANY_ID) || (device_id id =? pci_dev_id pci)).

(** The inner loop of [pci_find_driver]. *)
Fixpoint find_id (pci : pci_device) (ids : list pci_device_id) : option pci_device_id :=
  match ids with
  | [] => None
  | id :: ids => if id_matches pci id then Some id else find_id pci ids
  end.

Fixpoint find_driver (pci : pci_device) (n : nat) (drivers : list pci_driver) : errno + pci_device :=
  match drivers with
  | [] => inl ENOENT
  | drv :: drivers =>
      if negb (class_matches pci drv) then find_driver pci (S n) drivers else
      match find_id pci (drv_ids drv) with
      | Some id => inr ((pci <| pci_drv := Some n |>) <| pci_id := Some id |>)
      | None => find_driver pci (S n) drivers
      end
  end.

Definition pci_find_driver (pci : pci_device) : errno + pci_device := find_driver pci 0 PCI_DRIVERS.

(** The device structure comes back as the driver leaves it. *)
Definition pci_probe (pci : pci_device) : M (pci_bus W) (status * pci_device) :=
  let* id := of_option (pci_id pci) in
  let pci := pci <| pci_driver_name := Some (rom_name id) |> in
  let* drv := of_option (pci_drv pci) in
  in_world (on_world (driver_probe drv pci)).

Definition pci_remove (pci : pci_device) : M (pci_bus W) unit :=
  let* drv := of_option (pci_drv pci) in
  in_world (update (driver_remove drv pci)).

Fixpoint remove_children (children : list pci_device) : M (pci_bus W) unit :=
  match children with
  | [] => ret tt
  | pci :: rest =>
      do* pci_remove pci in
      do* update (fun b => b <| pci_children := rest |>) in
      remove_children rest
  end.

Definition pcibus_remove : M (pci_bus W) unit :=
  let* children := gets pci_children in
  remove_children children.

(** One device of the scan, from the veto to the probing: the result tells whether the
    structure has been given away. *)
Definition attach (pci : pci_device) : M (pci_bus W) bool :=
  let* can := in_world (on_world (pci_can_probe pci)) in
  if negb can then ret false else
  match pci_find_driver pci with
  | inl _ => ret false
  | inr pci =>
      do* update (fun b => b <| pci_children ::= cons pci |>) in
      let* r := pci_probe pci in
      let '(rc, pci) := r in
      match rc with
      | OK => do* update (fun b => b <| pci_children ::= (fun l => pci :: drop 1 l) |>) in ret true
      | Err _ => do* update (fun b => b <| pci_children ::= drop 1 |>) in ret false
      end
  end.

(** The loop of [pcibus_probe]; [have] is whether [pci] is not null, [fuel'] the fuel of
    each search. *)
Fixpoint probe_loop (fuel fuel' : nat) (have : bool) (busdevfn : Z) : M (pci_bus W) status :=
  match fuel with
  | O => fun _ => NoFuel
  | S fuel =>
      let* have := (if have then ret true else in_world (on_world pci_malloc)) in
      if negb have then do* pcibus_remove in ret (Err ENOMEM) else
      let* found := pci_find_next fuel' busdevfn in
      let '(rc, busdevfn) := found in
      match rc with
      | inl _ => ret OK
      | inr pci =>
          let* given := attach pci in
          let busdevfn := u32 (busdevfn + 1) in
          if busdevfn =? 0 then ret OK else probe_loop fuel fuel' (negb given) busdevfn
      end
  end.

Definition pcibus_probe (fuel fuel' : nat) : M (pci_bus W) status := probe_loop fuel fuel' false 0.
End Bus.
