(* ===== verification/PciBar.v ===== *)
(** * Base address registers (drivers/bus/pci.c)

    What the size, the start and the setting of a base address register are on hardware
    that follows the PCI specification. *)

From stdpp Require Import base list strings.
From Stdlib Require Import ZArith Lia.
From S2P Require Import Prelude Pci.

(** The values the PCI specification gives to the constants of a base address register. *)
Class PciHeaderLaws `{PciHeader} := {
  space_io_value : PCI_BASE_ADDRESS_SPACE_IO = 1;
  io_mask_value : PCI_BASE_ADDRESS_IO_MASK = 3;
  type_64_value : PCI_BASE_ADDRESS_MEM_TYPE_64 = 4;
  type_mask_value : PCI_BASE_ADDRESS_MEM_TYPE_MASK = 6;
  mem_mask_value : PCI_BASE_ADDRESS_MEM_MASK = 15;
  long_bits_value : long_bits = 32 \/ long_bits = 64;
}.

(** The device at [pci] has a command register and a base address register at [reg], seen
    through [hw_command], [hw_low] and [hw_high]: bits outside the masks are read-only, and
    the address bits are those from [bar_log] upwards, so the window has [2 ^ bar_log] bytes. *)
Class BarHardware (W : Type) `{PciHeader} `{PciConfig W} (pci : pci_device) (reg : Z) := {
  hw_command : W -> Z;
  hw_low : W -> Z;
  hw_high : W -> Z;
  command_mask : Z;
  bar_flags : Z;
  bar_mask : Z;
  bar_log : Z;
  bar_wide : bool;
  flag_bits := (if bar_has_io bar_flags then 3 else 15);
  mask_low := u32 bar_mask;
  mask_high := u32 (Z.shiftr bar_mask 32);
  hw_read_command w : config_read_word (pci_busdevfn pci) PCI_COMMAND w = (hw_command w, w);
  hw_read_low w : config_read_dword (pci_busdevfn pci) reg w = (hw_low w, w);
  hw_read_high w : bar_wide = true -> config_read_dword (pci_busdevfn pci) (reg + 4) w = (hw_high w, w);
  hw_write_command v w w' : w' = config_write_word (pci_busdevfn pci) PCI_COMMAND v w ->
    hw_command w' = Z.lor (Z.ldiff (hw_command w) command_mask) (Z.land v command_mask) /\
    hw_low w' = hw_low w /\ hw_high w' = hw_high w;
  hw_write_low v w w' : w' = config_write_dword (pci_busdevfn pci) reg v w ->
    hw_command w' = hw_command w /\ hw_low w' = Z.lor bar_flags (Z.land v mask_low) /\
    hw_high w' = hw_high w;
  hw_write_high v w w' : bar_wide = true -> w' = config_write_dword (pci_busdevfn pci) (reg + 4) v w ->
    hw_command w' = hw_command w /\ hw_low w' = hw_low w /\ hw_high w' = Z.land v mask_high;
  hw_command_word w : u16 (hw_command w) = hw_command w;
  hw_low_bits w : hw_low w = Z.lor bar_flags (Z.land (hw_low w) mask_low);
  hw_high_bits w : hw_high w = Z.land (hw_high w) mask_high;
  bar_flags_bits : Z.land bar_flags flag_bits = bar_flags;
  bar_mask_bits : Z.land bar_mask flag_bits = 0;
  bar_wide_type : bar_wide = (bar_type bar_flags =? PCI_BASE_ADDRESS_MEM_TYPE_64);
  bar_log_range : 0 <= bar_log;
  bar_mask_log : exists q, bar_mask = 2 ^ bar_log * (2 * q + 1);
  bar_mask_range : 0 < bar_mask < 2 ^ (if bar_wide then 64 else 32);
}.

(** ** Bits *)

(** The lowest set bit of a number. *)
Lemma lowest_bit n q : 0 <= n -> Z.land (2 ^ n * (2 * q + 1)) (- (2 ^ n * (2 * q + 1))) = 2 ^ n.
Proof.
  intros Hn. rewrite <-Z.mul_opp_r, !(Z.mul_comm (2 ^ n)), <-!Z.shiftl_mul_pow2 by done.
  rewrite <-Z.shiftl_land. replace (2 ^ n) with (Z.shiftl 1 n) by (rewrite Z.shiftl_mul_pow2 by done; lia).
  f_equal. apply Z.bits_inj'. intros i Hi. rewrite Z.land_spec.
  replace (- (2 * q + 1)) with (2 * Z.lnot q + 1) by (unfold Z.lnot; lia).
  destruct (decide (i = 0)) as [->|]; [by rewrite !Z.testbit_odd_0|].
  replace i with (Z.succ (i - 1)) by lia.
  rewrite !Z.testbit_odd_succ, Z.lnot_spec by lia.
  rewrite (Z.bits_above_log2 1) by (cbn; lia). by destruct (Z.testbit q (i - 1)).
Qed.

Lemma land_wrap m z w : 0 <= w -> 0 <= m < 2 ^ w -> Z.land m (z mod 2 ^ w) = Z.land m z.
Proof.
  intros Hw Hm. apply Z.bits_inj'. intros i Hi. rewrite !Z.land_spec, Z.testbit_mod_pow2 by lia.
  destruct (Z.ltb_spec i w); [done|]. rewrite <-(Z.mod_small m (2 ^ w)), Z.mod_pow2_bits_high by lia. done.
Qed.

(** [bits_at E] replaces an equation of numbers by its consequence for the bit [i]. *)
Ltac bits_at E i := apply (f_equal (fun z => Z.testbit z i)) in E.

Ltac bit_specs := unfold u32 in *; repeat first
  [ rewrite Z.land_spec in * | rewrite Z.lor_spec in * | rewrite Z.ldiff_spec in *
  | rewrite Z.testbit_mod_pow2 in * by lia | rewrite Z.shiftr_spec in * by lia
  | rewrite Z.shiftl_spec in * by lia | rewrite Z.bits_0 in * ].

Section Bar.
Context {W : Type} `{PciHeaderLaws} `{PciConfig W} {pci : pci_device} {reg : Z} {HW : BarHardware W pci reg}.
Implicit Types (w : W).

Lemma low_word w : u32 (hw_low w) = hw_low w.
Proof.
  pose proof (hw_low_bits w) as E. pose proof bar_flags_bits as F. unfold flag_bits, mask_low in *.
  assert (0 <= bar_flags < 2 ^ 32) as Hf.
  { rewrite <-F. destruct (bar_has_io _); [change 3 with (Z.ones 2)|change 15 with (Z.ones 4)];
      rewrite Z.land_ones by lia; pose proof (Z.mod_pos_bound bar_flags (2 ^ 2)) as A;
      pose proof (Z.mod_pos_bound bar_flags (2 ^ 4)) as B; lia. }
  apply Z.bits_inj'. intros i Hi. bits_at E i. bit_specs. destruct (Z.ltb_spec i 32); [done|].
  rewrite E, <-(Z.mod_small _ _ Hf), Z.mod_pow2_bits_high by lia. cbn. by rewrite andb_false_r.
Qed.

Lemma high_word w : u32 (hw_high w) = hw_high w.
Proof.
  pose proof (hw_high_bits w) as E. unfold mask_high in *. apply Z.bits_inj'. intros i Hi. bits_at E i. bit_specs.
  destruct (Z.ltb_spec i 32); [done|]. by rewrite E, andb_false_r.
Qed.

Lemma has_io_bit x : bar_has_io x = Z.testbit x 0.
Proof.
  unfold bar_has_io. rewrite space_io_value. change 1 with (Z.ones 1). rewrite Z.land_ones, Z.bit0_odd by lia.
  change (2 ^ 1) with 2. rewrite Zmod_odd. by destruct (Z.odd x).
Qed.

Lemma type_64_bits x :
  (bar_type x =? PCI_BASE_ADDRESS_MEM_TYPE_64) = negb (Z.testbit x 0) && negb (Z.testbit x 1) && Z.testbit x 2.
Proof.
  unfold bar_type. rewrite space_io_value, type_mask_value, type_64_value. apply eq_true_iff_eq.
  rewrite Z.eqb_eq, !andb_true_iff, !negb_true_iff. split.
  - intros E. pose proof E as E0. pose proof E as E1. bits_at E 2. bits_at E0 0. bits_at E1 1.
    rewrite !Z.land_spec in *. cbn in E, E0, E1. by rewrite andb_true_r in *.
  - intros [[A B] C]. apply Z.bits_inj'. intros i Hi. rewrite Z.land_spec.
    destruct (decide (i = 0)) as [->|]; [by rewrite A|]. destruct (decide (i = 1)) as [->|]; [by rewrite B|].
    change (Z.lor 1 6) with 7. destruct (decide (i = 2)) as [->|]; [by rewrite C|].
    assert (2 < i) by lia. rewrite (Z.bits_above_log2 7 i), (Z.bits_above_log2 4 i) by (first [done | change (2 < i); done]). by rewrite andb_false_r.
Qed.

(** The bits of the mask and of the flags, by position. *)
Lemma mask_bit i : 0 <= i -> Z.testbit bar_mask i = true -> Z.testbit flag_bits i = false.
Proof. intros Hi Hm. pose proof bar_mask_bits as E. bits_at E i. bit_specs. by rewrite Hm in E. Qed.

Lemma low_bit w i : 0 <= i < 32 ->
  Z.testbit (hw_low w) i = Z.testbit bar_flags i || Z.testbit (hw_low w) i && Z.testbit bar_mask i.
Proof.
  intros Hi. pose proof (hw_low_bits w) as E. bits_at E i. unfold mask_low in E. bit_specs.
  destruct (Z.ltb_spec i 32); [done|lia].
Qed.

Lemma flag_bit_low w i : 0 <= i < 32 -> Z.testbit flag_bits i = true ->
  Z.testbit (hw_low w) i = Z.testbit bar_flags i.
Proof.
  intros Hi Hf. rewrite low_bit by done. destruct (Z.testbit bar_mask i) eqn:Hm; [|by rewrite andb_false_r, orb_false_r].
  apply mask_bit in Hm; [congruence|lia].
Qed.

Lemma low_has_io w : bar_has_io (hw_low w) = bar_has_io bar_flags.
Proof.
  rewrite !has_io_bit. apply flag_bit_low; [lia|]. unfold flag_bits. by destruct (bar_has_io _).
Qed.

Lemma low_type w : (bar_type (hw_low w) =? PCI_BASE_ADDRESS_MEM_TYPE_64) = bar_wide.
Proof.
  rewrite bar_wide_type, !type_64_bits. pose proof (low_has_io w) as E. rewrite !has_io_bit in E. rewrite E.
  destruct (Z.testbit bar_flags 0) eqn:F; [done|].
  rewrite !(flag_bit_low w); [done| | | |]; try lia; unfold flag_bits; rewrite has_io_bit, F; done.
Qed.

(** What [pci_bar] reads. *)
Definition bar_value (w : W) : Z :=
  if bar_wide && negb (hw_high w =? 0) then
    if 32 <? long_bits then Z.lor (Z.shiftl (hw_high w) 32) (hw_low w) else PCI_BASE_ADDRESS_MEM_TYPE_64
  else hw_low w.

Lemma pci_bar_run w : pci_bar pci reg w = Ret (bar_value w) w.
Proof.
  unfold pci_bar, pci_read_config_dword, on_world, bind, ret, bar_value. rewrite hw_read_low, low_word, low_type.
  destruct bar_wide eqn:E; [|done]. rewrite hw_read_high, high_word by done.
  by destruct (hw_high w =? 0), (32 <? long_bits).
Qed.

Lemma pci_bar_start_run w : pci_bar_start pci reg w = Ret (bar_address (bar_value w)) w.
Proof. unfold pci_bar_start, bind. by rewrite pci_bar_run. Qed.

(** Writing back what the command register held restores it. *)
Lemma command_restored c x :
  Z.lor (Z.ldiff (Z.lor (Z.ldiff c command_mask) (Z.land x command_mask)) command_mask) (Z.land c command_mask) = c.
Proof.
  apply Z.bits_inj'. intros i Hi. bit_specs.
  by destruct (Z.testbit c i), (Z.testbit command_mask i), (Z.testbit x i).
Qed.

(** Decoding is off and the rest of the device is as before. *)
Lemma disable_decoding_run w : exists w', disable_decoding pci w = Ret (hw_command w) w' /\
  hw_low w' = hw_low w /\ hw_high w' = hw_high w /\
  exists x, hw_command w' = Z.lor (Z.ldiff (hw_command w) command_mask) (Z.land x command_mask).
Proof.
  unfold disable_decoding, pci_read_config_word, pci_write_config_word, on_world, bind, ret, update.
  rewrite hw_read_command, hw_command_word. eexists. split; [done|].
  edestruct hw_write_command as (C & L & U); [done|]. split_and!; [done|done|by eexists].
Qed.

Lemma pci_bar_set_run start w : exists w', pci_bar_set pci reg start w = Ret tt w' /\
  hw_command w' = hw_command w /\ hw_low w' = Z.lor bar_flags (Z.land (u32 start) mask_low) /\
  hw_high w' = (if bar_wide then Z.land (if 32 <? long_bits then u32 (Z.shiftr start 32) else 0) mask_high
                else hw_high w).
Proof.
  unfold pci_bar_set. destruct (disable_decoding_run w) as (w1 & E1 & L1 & U1 & x & C1).
  unfold bind at 1. rewrite E1. unfold pci_read_config_dword, on_world, bind, ret.
  rewrite hw_read_low, low_word, low_type. unfold pci_write_config_dword, pci_write_config_word, update.
  edestruct (hw_write_low (u32 start) w1) as (C2 & L2 & U2); [done|].
  destruct bar_wide eqn:E; cbv zeta iota.
  - eexists. split; [done|]. edestruct hw_write_command as (C & L & U); [done|]. rewrite C, L, U.
    edestruct (hw_write_high (if 32 <? long_bits then u32 (Z.shiftr start 32) else 0)) as (C3 & L3 & U3); [done..|].
    rewrite C3, L3, U3, C2, L2, C1, command_restored. done.
  - eexists. split; [done|]. edestruct hw_write_command as (C & L & U); [done|]. rewrite C, L, U.
    rewrite C2, L2, U2, C1, U1, command_restored. done.
Qed.

(** ** Addresses *)
Lemma address_flags v : bar_has_io v = bar_has_io bar_flags -> bar_address v = Z.ldiff v flag_bits.
Proof.
  intros E. unfold bar_address, flag_bits. rewrite E, io_mask_value, mem_mask_value. destruct (bar_has_io bar_flags); reflexivity.
Qed.

Lemma wide_not_io : bar_wide = true -> Z.testbit bar_flags 0 = false.
Proof. rewrite bar_wide_type, type_64_bits. by destruct (Z.testbit bar_flags 0). Qed.

Lemma value_has_io w : bar_has_io (bar_value w) = bar_has_io bar_flags.
Proof.
  unfold bar_value. destruct bar_wide eqn:E; [|apply low_has_io]. cbn [andb].
  destruct (hw_high w =? 0); [apply low_has_io|]. cbn [negb].
  pose proof (low_has_io w) as L. rewrite !has_io_bit in *. destruct (32 <? long_bits).
  - by rewrite Z.lor_spec, Z.shiftl_spec_low by lia.
  - rewrite type_64_value, wide_not_io by done. done.
Qed.

(** The address in the register, as far as an unsigned long can express it. *)
Definition window (w : W) : Z := Z.ldiff (bar_value w) flag_bits.

(** The address in the register can be expressed in an unsigned long. *)
Definition expressible (w : W) : Prop := bar_wide = true -> long_bits = 64 \/ hw_high w = 0.

Lemma value_full w : expressible w ->
  bar_value w = (if bar_wide then Z.lor (Z.shiftl (hw_high w) 32) (hw_low w) else hw_low w).
Proof.
  intros He. unfold bar_value. destruct bar_wide eqn:E; [|done]. cbn [andb].
  destruct (Z.eqb_spec (hw_high w) 0) as [->|]; [by rewrite Z.shiftl_0_l|].
  destruct (He E) as [->|]; done.
Qed.

Lemma flag_bits_small i : 4 <= i -> Z.testbit flag_bits i = false.
Proof.
  intros Hi. assert (Z.log2 flag_bits <= 3 /\ 0 <= flag_bits) as [L N]
    by (unfold flag_bits; destruct (bar_has_io _); done).
  apply Z.bits_above_log2; lia.
Qed.

Lemma restore_low w : expressible w -> Z.lor bar_flags (Z.land (u32 (window w)) mask_low) = hw_low w.
Proof.
  intros He. apply Z.bits_inj'. intros i Hi. pose proof (hw_low_bits w) as E. bits_at E i. rewrite E.
  unfold window, mask_low. rewrite value_full by done. bit_specs. destruct (Z.ltb_spec i 32); [|by rewrite !andb_false_r].
  cbn [andb]. f_equal. destruct (Z.testbit bar_mask i) eqn:Hm; [|by rewrite !andb_false_r].
  rewrite (mask_bit i) by done. destruct bar_wide; [|by rewrite !andb_true_r].
  rewrite Z.lor_spec, Z.shiftl_spec_low by lia. by rewrite !andb_true_r.
Qed.

Lemma restore_high w : bar_wide = true -> long_bits = 64 ->
  Z.land (u32 (Z.shiftr (window w) 32)) mask_high = hw_high w.
Proof.
  intros Hw Hl. apply Z.bits_inj'. intros i Hi. pose proof (hw_high_bits w) as E. bits_at E i.
  pose proof (high_word w) as F. bits_at F i. pose proof (low_word w) as G. bits_at G (i + 32).
  unfold window. rewrite value_full, Hw by (left; done). bit_specs. rewrite flag_bits_small by lia.
  rewrite Z.add_simpl_r. destruct (Z.ltb_spec (i + 32) 32); [lia|]. rewrite <-G, orb_false_r, andb_true_r.
  destruct (Z.ltb_spec i 32); [by rewrite E at 2|]. by rewrite <-F.
Qed.

(** ** The size *)
Lemma low_odd n q : 0 <= n < 32 -> exists q', u32 (2 ^ n * (2 * q + 1)) = 2 ^ n * (2 * q' + 1).
Proof.
  intros Hn. exists (q mod 2 ^ (31 - n)). unfold u32. replace 32 with (n + (1 + (31 - n))) by lia.
  rewrite Z.pow_add_r, Z.mul_mod_distr_l by lia. f_equal. rewrite Z.pow_add_r by lia.
  rewrite Z.rem_mul_r by lia. change (2 ^ 1) with 2.
  assert ((2 * q + 1) mod 2 = 1 /\ (2 * q + 1) / 2 = q) as [-> ->] by (Z.div_mod_to_equations; lia).
  by rewrite Z.add_comm.
Qed.

Lemma size_of_mask m q : m = 2 ^ bar_log * (2 * q + 1) -> 0 <= m < 2 ^ long_bits ->
  Z.land m (ulong (- m)) = 2 ^ bar_log.
Proof.
  intros -> Hm. unfold ulong. rewrite land_wrap; [apply lowest_bit, bar_log_range| |done].
  destruct long_bits_value as [-> | ->]; lia.
Qed.

(** The bits of the flags are not address bits. *)
Lemma flags_below i : 0 <= i -> Z.testbit bar_flags i && negb (Z.testbit flag_bits i) = false.
Proof.
  intros Hi. pose proof bar_flags_bits as E. bits_at E i. bit_specs. rewrite <-E.
  destruct (Z.testbit flag_bits i); [by rewrite andb_false_r|by rewrite andb_false_r].
Qed.

Lemma mask_above i : Z.testbit bar_mask i && negb (Z.testbit flag_bits i) = Z.testbit bar_mask i.
Proof.
  destruct (Z.testbit bar_mask i) eqn:E; [|done]. destruct (decide (0 <= i)); [by rewrite mask_bit|].
  rewrite Z.testbit_neg_r in E by lia. done.
Qed.

Lemma mask_end i : (if bar_wide then 64 else 32) <= i -> Z.testbit bar_mask i = false.
Proof.
  intros Hi. pose proof bar_mask_range as R. rewrite <-(Z.mod_small bar_mask (2 ^ (if bar_wide then 64 else 32))) by lia.
  rewrite Z.mod_pow2_bits_high; [done|]. destruct bar_wide; lia.
Qed.

(** A register with all address bits set. *)
Lemma window_ones w' : expressible w' ->
  hw_low w' = Z.lor bar_flags mask_low -> (bar_wide = true -> hw_high w' = if long_bits =? 64 then mask_high else 0) ->
  window w' = if long_bits =? 64 then bar_mask else mask_low.
Proof.
  intros He Hl Hh. unfold window. rewrite value_full, Hl by done. apply Z.bits_inj'. intros i Hi.
  assert (forall x, (Z.testbit bar_flags i || x && Z.testbit bar_mask i) && negb (Z.testbit flag_bits i) =
                    x && Z.testbit bar_mask i) as Hf.
  { intros x. by rewrite andb_orb_distrib_l, flags_below, <-andb_assoc, mask_above by done. }
  pose proof (mask_end i) as Hend. unfold mask_low, mask_high in *. destruct bar_wide.
  - rewrite Hh by done. destruct (long_bits =? 64); bit_specs.
    + destruct (Z.ltb_spec i 32).
      * rewrite (Z.testbit_neg_r _ (i - 32)), andb_false_r by lia. apply (Hf true).
      * rewrite Z.shiftr_spec, Z.sub_add, andb_orb_distrib_l by lia. pose proof (Hf false) as F.
        cbn [andb] in *. rewrite F, orb_false_r, <-andb_assoc, mask_above.
        destruct (Z.ltb_spec (i - 32) 32); [done|]. by rewrite Hend by lia.
    + cbn [orb]. apply Hf.
  - destruct (long_bits =? 64); bit_specs; rewrite Hf; [|done].
    destruct (Z.ltb_spec i 32); [done|]. by rewrite Hend.
Qed.

(** The scan of the register for its size, from a state with decoding already off. *)
Lemma size_scan w : expressible w -> (long_bits = 32 -> bar_log < 32) ->
  exists w1 w2, pci_bar_set pci reg (ulong (-1)) w = Ret tt w1 /\
    pci_bar_set pci reg (window w) w1 = Ret tt w2 /\
    Z.land (window w1) (ulong (- window w1)) = 2 ^ bar_log /\
    hw_command w2 = hw_command w /\ hw_low w2 = hw_low w /\ hw_high w2 = hw_high w.
Proof.
  intros He Hs. destruct (pci_bar_set_run (ulong (-1)) w) as (w1 & E1 & C1 & L1 & U1).
  destruct (pci_bar_set_run (window w) w1) as (w2 & E2 & C2 & L2 & U2). exists w1, w2.
  assert (u32 (ulong (-1)) = 2 ^ 32 - 1 /\ (if 32 <? long_bits then u32 (Z.shiftr (ulong (-1)) 32) else 0) =
          if long_bits =? 64 then 2 ^ 32 - 1 else 0) as [O1 O2]
    by (unfold ulong; destruct long_bits_value as [-> | ->]; done).
  rewrite O1 in L1. rewrite O2 in U1.
  assert (forall x, Z.land (2 ^ 32 - 1) (u32 x) = u32 x) as Hones.
  { intros x. rewrite Z.land_comm. change (2 ^ 32 - 1) with (Z.ones 32). rewrite Z.land_ones by lia.
    apply Z.mod_mod. lia. }
  assert (window w1 = if long_bits =? 64 then bar_mask else mask_low) as Hw.
  { apply window_ones.
    - intros Hwide. destruct long_bits_value as [E|E]; [right|by left]. by rewrite U1, Hwide, E.
    - rewrite L1. unfold mask_low. by rewrite Hones.
    - intros Hwide. rewrite U1, Hwide. destruct (long_bits =? 64); [|done]. apply Hones. }
  split_and!; [done|done| | |by rewrite L2, restore_low|].
  - rewrite Hw. destruct bar_mask_log as [q Hq]. pose proof bar_mask_range as R.
    destruct (Z.eqb_spec long_bits 64) as [E|E].
    + apply (size_of_mask _ q Hq). rewrite E. destruct bar_wide; lia.
    + destruct long_bits_value as [E'|]; [|done]. destruct (low_odd bar_log q) as [q' Hq'].
      { pose proof bar_log_range. specialize (Hs E'). lia. }
      apply (size_of_mask _ q'); unfold mask_low; [by rewrite Hq|]. rewrite E'. apply u32_range.
  - by rewrite C2, C1.
  - rewrite U2. destruct bar_wide eqn:Ew; [|done]. destruct long_bits_value as [E|E]; rewrite E.
    + cbn. destruct (He Ew) as [|Hz]; [congruence|]. by rewrite Hz.
    + by apply restore_high.
Qed.

(** The size of a base address register is the size of its window, and the device is
    left as it was: the register holds the same address, and decoding is enabled as before.
    This needs the address to fit in an unsigned long. *)
Theorem pci_bar_size_spec w : expressible w -> (long_bits = 32 -> bar_log < 32) ->
  exists w', pci_bar_size pci reg w = Ret (2 ^ bar_log) w' /\
    hw_command w' = hw_command w /\ hw_low w' = hw_low w /\ hw_high w' = hw_high w.
Proof.
  intros He Hs. unfold pci_bar_size. destruct (disable_decoding_run w) as (w0 & E0 & L0 & U0 & x & C0).
  assert (expressible w0) as He0 by (unfold expressible; by rewrite U0).
  destruct (size_scan w0) as (w1 & w2 & E1 & E2 & Hsize & C2 & L2 & U2); [done|done|].
  unfold bind at 1. rewrite E0. unfold bind at 1. rewrite pci_bar_start_run, address_flags by apply value_has_io.
  fold (window w0). unfold bind at 1. rewrite E1. unfold bind at 1.
  rewrite pci_bar_start_run, address_flags by apply value_has_io. fold (window w1).
  unfold bind at 1. rewrite E2. unfold bind, pci_write_config_word, update, ret. rewrite Hsize. eexists. split; [done|].
  edestruct hw_write_command as (C & L & U); [done|]. rewrite C, L, U, C2, L2, U2, C0, L0, U0, command_restored. done.
Qed.

(** Where an unsigned long has 32 bits, measuring a 64-bit register that holds an address
    above 4 GB moves the window below 4 GB: "Restore the original start address" writes a
    zero high word. *)
Theorem bar_size_moves_window w : long_bits = 32 -> bar_wide = true -> hw_high w <> 0 ->
  exists size w', pci_bar_size pci reg w = Ret size w' /\ hw_high w' = 0.
Proof.
  intros Hl Hw Hh. unfold pci_bar_size. destruct (disable_decoding_run w) as (w0 & E0 & L0 & U0 & x & C0).
  unfold bind at 1. rewrite E0. unfold bind at 1. rewrite pci_bar_start_run.
  destruct (pci_bar_set_run (ulong (-1)) w0) as (w1 & E1 & _). unfold bind at 1. rewrite E1.
  unfold bind at 1. rewrite pci_bar_start_run.
  destruct (pci_bar_set_run (bar_address (bar_value w0)) w1) as (w2 & E2 & _ & _ & U2). unfold bind at 1. rewrite E2.
  unfold bind, pci_write_config_word, update, ret. do 2 eexists. split; [done|].
  edestruct hw_write_command as (_ & _ & U); [done|]. by rewrite U, U2, Hw, Hl.
Qed.
End Bar.
