(* ===== verification/PciScan.v ===== *)
(** * The scan of the PCI bus (drivers/bus/pci.c)

    Which driver a device gets, and that probing the bus looks once at every address the
    architecture knows of and keeps exactly the devices whose driver accepted them. *)

From stdpp Require Import base list list_numbers strings sets.
From Stdlib Require Import ZArith Lia.
From S2P Require Import Prelude RealtekInit Pci.

(** ** The choice of a driver *)
Section Driver.
Context {W : Type} `{PciHeader} `{PciWorld W}.

(** The driver at [n] wants the device, by the identifier at [i]. *)
Definition wants (pci : pci_device) (n i : nat) (id : pci_device_id) : Prop :=
  exists drv, PCI_DRIVERS !! n = Some drv /\ class_matches pci drv = true /\
              drv_ids drv !! i = Some id /\ id_matches pci id = true.

Lemma find_id_spec pci ids :
  match find_id pci ids with
  | Some id => exists i, ids !! i = Some id /\ id_matches pci id = true /\
                 forall j id', (j < i)%nat -> ids !! j = Some id' -> id_matches pci id' = false
  | None => forall j id', ids !! j = Some id' -> id_matches pci id' = false
  end.
Proof.
  induction ids as [|id ids IH]; cbn [find_id]; [done|]. destruct (id_matches pci id) eqn:E.
  - exists 0%nat. split_and!; [done|done|lia].
  - destruct (find_id pci ids) as [id'|].
    + destruct IH as (i & Hi & Hm & Hlt). exists (S i). split_and!; [done|done|].
      intros [|j] x Hj Hx; [by injection Hx as <-|]. apply (Hlt j x); [lia|done].
    + intros [|j] x Hx; [by injection Hx as <-|]. by apply (IH j x).
Qed.

Lemma find_driver_spec pci drivers k :
  match find_driver pci k drivers with
  | inr p => exists n drv id i, drivers !! n = Some drv /\ class_matches pci drv = true /\
      drv_ids drv !! i = Some id /\ id_matches pci id = true /\
      (forall j id', (j < i)%nat -> drv_ids drv !! j = Some id' -> id_matches pci id' = false) /\
      (forall m drv' j id', (m < n)%nat -> drivers !! m = Some drv' -> class_matches pci drv' = true ->
         drv_ids drv' !! j = Some id' -> id_matches pci id' = false) /\
      p = (pci <| pci_drv := Some (k + n)%nat |>) <| pci_id := Some id |>
  | inl e => e = ENOENT /\ forall m drv' j id', drivers !! m = Some drv' -> class_matches pci drv' = true ->
         drv_ids drv' !! j = Some id' -> id_matches pci id' = false
  end.
Proof.
  revert k. induction drivers as [|drv drivers IH]; intros k; cbn [find_driver]; [done|].
  assert ((class_matches pci drv = true -> forall j id', drv_ids drv !! j = Some id' ->
            id_matches pci id' = false) -> 
    match find_driver pci (S k) drivers with
    | inr p => exists n drv0 id i, (drv :: drivers) !! n = Some drv0 /\ class_matches pci drv0 = true /\
      drv_ids drv0 !! i = Some id /\ id_matches pci id = true /\
      (forall j id', (j < i)%nat -> drv_ids drv0 !! j = Some id' -> id_matches pci id' = false) /\
      (forall m drv' j id', (m < n)%nat -> (drv :: drivers) !! m = Some drv' -> class_matches pci drv' = true ->
         drv_ids drv' !! j = Some id' -> id_matches pci id' = false) /\
      p = (pci <| pci_drv := Some (k + n)%nat |>) <| pci_id := Some id |>
    | inl e => e = ENOENT /\ forall m drv' j id', (drv :: drivers) !! m = Some drv' ->
         class_matches pci drv' = true -> drv_ids drv' !! j = Some id' -> id_matches pci id' = false
    end) as Hskip.
  { intros Hno. specialize (IH (S k)). destruct (find_driver pci (S k) drivers) as [e|p].
    - destruct IH as [-> IH]. split; [done|]. intros [|m] drv' j id' Hm; [injection Hm as <-; eauto|by eapply IH].
    - destruct IH as (n & d & id & i & Hn & Hc & Hi & Hm & Hj & Hlt & ->). exists (S n), d, id, i.
      split_and!; [done..| |by rewrite Nat.add_succ_comm].
      intros [|m] drv' j id' Hmn Hd; [injection Hd as <-; eauto|]. apply (Hlt m drv' j id'); [lia|done]. }
  destruct (class_matches pci drv) eqn:Ec; cbn [negb]; [|by apply Hskip].
  pose proof (find_id_spec pci (drv_ids drv)) as Hid. destruct (find_id pci (drv_ids drv)) as [id|].
  - destruct Hid as (i & Hi & Hm & Hlt). exists 0%nat, drv, id, i.
    split_and!; [done..|intros; lia|by rewrite Nat.add_0_r].
  - apply Hskip. intros _. apply Hid.
Qed.

(** A device gets the first driver of the table that wants it, under the first
    identifier of that driver that matches; it gets none only when no driver wants it. *)
Theorem pci_find_driver_first pci :
  match pci_find_driver pci with
  | inr p => exists n i id, wants pci n i id /\
      p = (pci <| pci_drv := Some n |>) <| pci_id := Some id |> /\
      forall n' i' id', wants pci n' i' id' -> (n < n')%nat \/ n = n' /\ (i <= i')%nat
  | inl e => e = ENOENT /\ forall n i id, ~ wants pci n i id
  end.
Proof.
  unfold pci_find_driver. pose proof (find_driver_spec pci PCI_DRIVERS 0) as F.
  destruct (find_driver pci 0 PCI_DRIVERS) as [e|p].
  - destruct F as [-> F]. split; [done|]. intros n i id (drv & Hd & Hc & Hi & Hm).
    by rewrite (F n drv i id Hd Hc Hi) in Hm.
  - destruct F as (n & drv & id & i & Hd & Hc & Hi & Hm & Hj & Hlt & ->). exists n, i, id.
    split_and!; [by exists drv|done|]. intros n' i' id' (drv' & Hd' & Hc' & Hi' & Hm').
    destruct (decide (n' < n)%nat) as [Hn|]; [by rewrite (Hlt n' drv' i' id' Hn Hd' Hc' Hi') in Hm'|].
    destruct (decide (n = n')) as [<-|]; [right|left; lia]. split; [done|].
    destruct (decide (i' < i)%nat) as [Hii|]; [|lia]. rewrite Hd in Hd'. injection Hd' as <-.
    by rewrite (Hj i' id' Hii Hi') in Hm'.
Qed.
End Driver.

(** ** Removal *)
Section Remove.
Context {W : Type} `{PciHeader} `{PciWorld W}.
Implicit Types (s : pci_bus W).

(** The driver of a device takes it down. *)
Definition taken_down (w : W) (pci : pci_device) : W :=
  match pci_drv pci with Some n => driver_remove n pci w | None => w end.

(** Removal of the bus calls the driver of each child once, in the order of the list, and
    leaves no child. *)
Lemma pcibus_remove_run s : Forall (fun pci => is_Some (pci_drv pci)) (pci_children s) ->
  pcibus_remove s = Ret tt (PciRoot (foldl taken_down (the_world s) (pci_children s)) (the_range s) []).
Proof.
  unfold pcibus_remove, bind, gets. destruct s as [w r l]. cbn [pci_children the_world the_range]. intros Hl.
  assert (forall l', remove_children l (PciRoot w r l') =
            Ret tt (PciRoot (foldl taken_down w l) r match l with [] => l' | _ => [] end)) as Hgen.
  { revert w. induction Hl as [|p l [n Hn] _ IH]; intros w l'; [done|]. cbn [remove_children foldl].
    unfold pci_remove, bind, update, in_world. unfold taken_down at 2. rewrite Hn. unfold modify. cbn. rewrite IH. by destruct l. }
  rewrite Hgen. by destruct l.
Qed.
End Remove.

(** ** The specification of the scan

    The configuration space is a function of address and register; the devices, the bridges
    and the base addresses are read off it. *)

(** Ranges of addresses in ascending order, without overlap. *)
Fixpoint ordered (l : list pci_range) : Prop :=
  match l with
  | [] => True
  | r :: l => 0 <= range_start r /\ 0 < range_count r /\ range_start r + range_count r <= 2 ^ 32 /\
              Forall (fun r' => range_start r + range_count r <= range_start r') l /\ ordered l
  end.

Lemma ordered_elem l r : ordered l -> r ∈ l ->
  0 <= range_start r /\ 0 < range_count r /\ range_start r + range_count r <= 2 ^ 32.
Proof. induction l as [|r' l IH]; intros Ho Hr; [by apply elem_of_nil in Hr|]. cbn in Ho. set_solver. Qed.

(** The first range that reaches beyond [b]. *)
Definition range_from (b : Z) (l : list pci_range) : option pci_range :=
  List.find (fun r => b <? range_start r + range_count r) l.

Lemma range_from_some b l r : ordered l -> range_from b l = Some r ->
  r ∈ l /\ 0 <= range_start r /\ 0 < range_count r /\ range_start r + range_count r <= 2 ^ 32 /\
  b < range_start r + range_count r.
Proof.
  intros Ho [Hin Hb]%List.find_some. apply Z.ltb_lt in Hb. apply list_elem_of_In in Hin.
  destruct (ordered_elem _ _ Ho Hin) as (A & B & C). done.
Qed.

Section Spec.
Context {W : Type} `{PciHeader} `{PciWorld W}.
Variables (cfg_byte cfg_dword : Z -> Z -> Z) (regions : list pci_range).
Variables (can : pci_device -> bool) (accepts : nat -> pci_device -> status * pci_device).

Definition cfg8 (a reg : Z) : Z := u8 (cfg_byte a reg).
Definition cfg32 (a reg : Z) : Z := u32 (cfg_dword a reg).

(** The base address registers from [reg] on, a 64-bit one as its two halves together. *)
Definition wide_bar (bar : Z) : bool := negb (bar_has_io bar) && negb (Z.land bar PCI_BASE_ADDRESS_MEM_TYPE_64 =? 0).
Definition bar_at (a reg : Z) : Z :=
  let low := cfg32 a reg in
  let high := cfg32 a (reg + 4) in
  if (bar_type low =? PCI_BASE_ADDRESS_MEM_TYPE_64) && negb (high =? 0) then
    if 32 <? long_bits then Z.lor (Z.shiftl high 32) low else PCI_BASE_ADDRESS_MEM_TYPE_64
  else low.
Fixpoint bars (n : nat) (a reg : Z) : list Z :=
  match n with
  | O => []
  | S n => if PCI_BASE_ADDRESS_5 <? reg then [] else
           bar_at a reg :: bars n a (if wide_bar (bar_at a reg) then reg + 8 else reg + 4)
  end.

(** The first address that is not zero. *)
Definition first_base (l : list Z) : Z := default 0 (List.find (fun x => negb (x =? 0)) l).
Definition io_base (l : list Z) : Z :=
  first_base (map (fun bar => Z.ldiff bar PCI_BASE_ADDRESS_IO_MASK) (List.filter bar_has_io l)).
Definition mem_base (l : list Z) : Z :=
  first_base (map (fun bar => Z.ldiff bar PCI_BASE_ADDRESS_MEM_MASK) (List.filter (fun bar => negb (bar_has_io bar)) l)).

(** A function answers: it is the first of its device or the device has several, and its
    identifiers are neither all zeros nor all ones. *)
Definition answers (a : Z) : bool :=
  ((PCI_FUNC a =? 0) || negb (Z.land (cfg8 (PCI_FIRST_FUNC a) PCI_HEADER_TYPE) PCI_HEADER_TYPE_MULTI =? 0)) &&
  negb (cfg32 a PCI_VENDOR_ID =? 0xffffffff) && negb (cfg32 a PCI_VENDOR_ID =? 0).

(** The device at an address, as its configuration describes it. *)
Definition device_at (a : Z) : option pci_device :=
  if answers a then
    let vendor := Z.land (cfg32 a PCI_VENDOR_ID) 0xffff in
    let device := Z.shiftr (cfg32 a PCI_VENDOR_ID) 16 in
    let class := Z.shiftr (cfg32 a PCI_REVISION) 8 in
    let irq := cfg8 a PCI_INTERRUPT_LINE in
    let io := io_base (bars 6 a PCI_BASE_ADDRESS_0) in
    Some (PciDevice a vendor device class irq (cfg8 a PCI_HEADER_TYPE) (mem_base (bars 6 a PCI_BASE_ADDRESS_0)) io
            (pci_print_name a) (DeviceDescription BUS_TYPE_PCI a vendor device class io irq) None None None)
  else None.

(** The end of the buses behind a bridge that leads to further buses. *)
Definition bridge_end (a : Z) : option Z :=
  if (Z.land (cfg8 a PCI_HEADER_TYPE) PCI_HEADER_TYPE_MASK =? PCI_HEADER_TYPE_BRIDGE) &&
     (PCI_BUS a <? cfg8 a PCI_SUBORDINATE)
  then Some (u32 (PCI_BUSDEVFN (PCI_SEG a) (cfg8 a PCI_SUBORDINATE + 1) 0 0)) else None.

(** The end of a window from [lo] to [hi] after a visit to [a]: a bridge there widens it up
    to the end of the buses behind it. *)
Definition widen (lo hi a : Z) : Z :=
  match device_at a, bridge_end a with
  | Some _, Some e => Z.max hi (lo + u32 (e - lo))
  | _, _ => hi
  end.

(** The addresses that a scan visits from [b] on, with a window from [lo] to [hi]: those of
    the window, as bridges widen it on the way, and then those of the next range that the
    architecture knows, up to the last address. *)
Inductive visits : Z -> Z -> Z -> list Z -> Prop :=
  | visits_here lo hi b l :
      lo <= b < hi -> b < 2 ^ 32 -> visits lo (widen lo hi b) (b + 1) l -> visits lo hi b (b :: l)
  | visits_next lo hi b r l :
      ~ lo <= b < hi -> b < 2 ^ 32 -> range_from b regions = Some r ->
      visits (range_start r) (range_start r + range_count r) (Z.max b (range_start r)) l -> visits lo hi b l
  | visits_done lo hi b :
      ~ lo <= b < hi -> b < 2 ^ 32 -> range_from b regions = None -> visits lo hi b []
  | visits_end lo hi b : 2 ^ 32 <= b -> visits lo hi b [].

(** The identifiers under which drivers want a device, in the order of the table. *)
Definition candidates (pci : pci_device) : list (nat * pci_device_id) :=
  concat (imap (fun n drv =>
    if class_matches pci drv then map (pair n) (List.filter (id_matches pci) (drv_ids drv)) else []) PCI_DRIVERS).

(** The device as its driver leaves it, when probing is allowed, there is a driver, and the
    first that wants the device accepts it. *)
Definition accepted (pci : pci_device) : option pci_device :=
  if can pci then
    match candidates pci with
    | (n, id) :: _ =>
        match accepts n (((pci <| pci_drv := Some n |>) <| pci_id := Some id |>) <| pci_driver_name := Some (rom_name id) |>) with
        | (OK, pci) => Some pci
        | (Err _, _) => None
        end
    | [] => None
    end
  else None.

(** The device that an address contributes to the bus. *)
Definition attached (a : Z) : option pci_device := device_at a ≫= accepted.

Lemma device_address a pci : device_at a = Some pci -> pci_busdevfn pci = a.
Proof.
  unfold device_at. destruct (answers a); [|done]. intros E.
  assert (Some a = Some (pci_busdevfn pci)) as [= ->] by exact (f_equal (option_map pci_busdevfn) E). done.
Qed.

Lemma widen_le lo hi a : hi <= widen lo hi a.
Proof. unfold widen. destruct (device_at a), (bridge_end a); lia. Qed.

Lemma visits_top lo hi b l : visits lo hi b l -> 2 ^ 32 <= b -> l = [].
Proof. by destruct 1; intros; [lia..| |]. Qed.

(** A scan ends. *)
Lemma visits_total lo hi b : ordered regions -> exists l, visits lo hi b l.
Proof.
  intros Ho. remember (Z.to_nat (2 ^ 32 - b)) as n eqn:Hn. revert lo hi b Hn.
  induction (lt_wf n) as [n _ IH]. intros lo hi b ->. destruct (decide (2 ^ 32 <= b)); [by eexists; apply visits_end|].
  assert (forall lo hi b', lo <= b' < hi -> b <= b' < 2 ^ 32 -> exists l, visits lo hi b' l) as Hin.
  { intros lo' hi' b' Hi Hb. destruct (IH (Z.to_nat (2 ^ 32 - (b' + 1))) ltac:(lia) lo' (widen lo' hi' b') (b' + 1) eq_refl)
      as [l Hl]. exists (b' :: l). by apply visits_here; [|lia|]. }
  destruct (decide (lo <= b < hi)); [apply Hin; lia|].
  destruct (range_from b regions) as [r|] eqn:Er; [|exists []; apply visits_done; (done || lia)].
  destruct (range_from_some _ _ _ Ho Er) as (_ & A & B & C & D).
  destruct (Hin (range_start r) (range_start r + range_count r) (Z.max b (range_start r))) as [l Hl]; [lia|lia|].
  exists l. apply (visits_next lo hi b r); (done || lia).
Qed.

(** The addresses can be computed. *)
Fixpoint visit_list (n : nat) (lo hi b : Z) : option (list Z) :=
  match n with
  | O => None
  | S n =>
      if 2 ^ 32 <=? b then Some [] else
      if (lo <=? b) && (b <? hi) then cons b <$> visit_list n lo (widen lo hi b) (b + 1) else
      match range_from b regions with
      | Some r => visit_list n (range_start r) (range_start r + range_count r) (Z.max b (range_start r))
      | None => Some []
      end
  end.

Lemma visit_list_sound n lo hi b l : visit_list n lo hi b = Some l -> visits lo hi b l.
Proof.
  revert lo hi b l. induction n as [|n IH]; intros lo hi b l; cbn [visit_list]; [done|].
  destruct (Z.leb_spec (2 ^ 32) b); [intros [= <-]; by apply visits_end|].
  destruct ((lo <=? b) && (b <? hi)) eqn:Ei.
  - destruct (visit_list n lo (widen lo hi b) (b + 1)) as [l'|] eqn:El; [|done]. intros [= <-].
    apply visits_here; [lia|done|by apply IH].
  - destruct (range_from b regions) as [r|] eqn:Er; [|intros [= <-]; by apply visits_done; [lia|..]].
    intros El. apply (visits_next lo hi b r); [lia|done|done|by apply IH].
Qed.

Lemma visits_unique lo hi b l l' : visits lo hi b l -> visits lo hi b l' -> l = l'.
Proof.
  intros Hl. revert l'. induction Hl as [lo hi b l Hi Hb _ IH|lo hi b r l Hi Hb Hr _ IH|lo hi b Hi Hb Hr|lo hi b Hb];
    intros l' Hl'; inversion Hl'; subst; try lia; try congruence.
  - f_equal. by apply IH.
  - apply IH. by simplify_eq.
Qed.

(** Addresses are visited in ascending order, so that none is visited twice. *)
Lemma visits_ascend lo hi b l : visits lo hi b l -> Forall (fun a => b <= a) l /\ NoDup l.
Proof.
  induction 1 as [lo hi b l _ _ _ [Hf Hn]|lo hi b r l _ _ _ _ [Hf Hn]|lo hi b|lo hi b]; [| |by repeat constructor..].
  - split; [constructor; [lia|eapply Forall_impl; [exact Hf|cbn; lia]]|]. constructor; [|done].
    rewrite Forall_forall in Hf. intros Hb. specialize (Hf b Hb). cbn in Hf. lia.
  - split; [|done]. eapply Forall_impl; [exact Hf|]. cbn. lia.
Qed.

(** Every address of a window is visited, also those that bridges add on the way. *)
Lemma visits_window lo hi b l : visits lo hi b l -> forall a, lo <= b <= a -> a < hi -> a < 2 ^ 32 -> a ∈ l.
Proof.
  induction 1 as [lo hi b l Hi Hb _ IH| | |]; intros a Ha Hh Ht; [|lia..].
  destruct (decide (a = b)) as [->|]; [set_solver|]. apply elem_of_cons. right. apply IH; [lia| |done].
  pose proof (widen_le lo hi b). lia.
Qed.

(** The buses behind a bridge are scanned. *)
Lemma bridged_visited lo hi b l e pci : visits lo hi b (b :: l) -> lo <= b < hi ->
  device_at b = Some pci -> bridge_end b = Some e -> forall a, b < a < lo + u32 (e - lo) -> a < 2 ^ 32 -> a ∈ l.
Proof.
  intros Hv Hi Hd He a Ha Ht. inversion Hv as [? ? ? ? _ _ Hl| | |]; subst; [|done].
  apply (visits_window _ _ _ _ Hl); [lia| |done]. unfold widen. rewrite Hd, He. lia.
Qed.
End Spec.

(** ** The scan *)
Section Scan.
Context {W : Type} `{PciHeader} `{PciConfig W} `{PciWorld W}.
Implicit Types (w : W) (s : pci_bus W) (pci : pci_device).

(** A state of the world in which the configuration space answers as [cfg_byte] and
    [cfg_dword] say, the architecture knows [regions], and vetoes and drivers decide by the
    device alone, which a driver that accepts it keeps as its own; [I] is what all of these
    preserve.  The allocator may fail.  The base address registers are six. *)
Variables (I : W -> Prop) (cfg_byte cfg_dword : Z -> Z -> Z) (regions : list pci_range).
Variables (can : pci_device -> bool) (accepts : nat -> pci_device -> status * pci_device).
Hypothesis six_bars : PCI_BASE_ADDRESS_5 = PCI_BASE_ADDRESS_0 + 20.
Hypothesis read_byte : forall a r w, I w -> config_read_byte a r w = (cfg_byte a r, w).
Hypothesis read_dword : forall a r w, I w -> config_read_dword a r w = (cfg_dword a r, w).
Hypothesis regions_ordered : ordered regions.
Hypothesis discovers : forall b w, I w ->
  exists w', pci_discover b w = (default (PciRange 0 0) (range_from b regions), w') /\ I w'.
Hypothesis vetoes : forall pci w, I w -> exists w', pci_can_probe pci w = (can pci, w') /\ I w'.
Hypothesis allocates : forall w, I w -> exists ok w', pci_malloc w = (ok, w') /\ I w'.
Hypothesis drivers_decide : forall n pci w, I w -> exists w', driver_probe n pci w = (accepts n pci, w') /\ I w'.
Hypothesis drivers_keep : forall n pci, pci_drv (accepts n pci).2 = pci_drv pci.

Abbreviation device := (device_at cfg_byte cfg_dword).
Abbreviation visit := (visits cfg_byte cfg_dword regions).

(** ** Identification *)
Lemma read8 pci reg w : I w -> pci_read_config_byte pci reg w = Ret (cfg8 cfg_byte (pci_busdevfn pci) reg) w.
Proof. intros Hw. unfold pci_read_config_byte, on_world, bind, ret. by rewrite read_byte. Qed.

Lemma read32 pci reg w : I w -> pci_read_config_dword pci reg w = Ret (cfg32 cfg_dword (pci_busdevfn pci) reg) w.
Proof. intros Hw. unfold pci_read_config_dword, on_world, bind, ret. by rewrite read_dword. Qed.

Lemma pci_bar_at pci reg w : I w -> pci_bar pci reg w = Ret (bar_at cfg_dword (pci_busdevfn pci) reg) w.
Proof.
  intros Hw. unfold pci_bar, bar_at, bind at 1. rewrite read32 by done. destruct (bar_type _ =? _); [|done].
  unfold bind. rewrite read32 by done. cbv zeta. cbn [andb]. destruct (_ =? 0); cbn [negb]; [done|]. by destruct (32 <? long_bits).
Qed.

(** The members that the loop fills in, unless they are filled in already. *)
Definition with_bases pci (l : list Z) : pci_device :=
  (pci <| pci_ioaddr := if pci_ioaddr pci =? 0 then io_base l else pci_ioaddr pci |>)
    <| pci_membase := if pci_membase pci =? 0 then mem_base l else pci_membase pci |>.

Lemma first_base_cons x l : first_base (x :: l) = if x =? 0 then first_base l else x.
Proof. unfold first_base. cbn. by destruct (x =? 0). Qed.

Lemma read_bases_run fuel : forall pci reg w, I w -> PCI_BASE_ADDRESS_5 < reg + 4 * Z.of_nat fuel ->
  read_bases fuel pci reg w = Ret (with_bases pci (bars cfg_dword fuel (pci_busdevfn pci) reg)) w.
Proof.
  induction fuel as [|fuel IH]; intros pci reg w Hw Hf; cbn [read_bases bars]; (destruct (Z.ltb_spec PCI_BASE_ADDRESS_5 reg); [|try lia]).
  1, 2: unfold with_bases, ret; destruct pci as [? ? ? ? ? ? m io]; cbn;
    destruct (Z.eqb_spec io 0) as [->|], (Z.eqb_spec m 0) as [->|]; done.
  unfold bind at 1. rewrite pci_bar_at by done. set (bar := bar_at _ _ _). cbv zeta.
  unfold wide_bar. destruct (bar_has_io bar) eqn:Eio; cbn [negb andb].
  - rewrite IH by (done || lia). unfold with_bases, io_base, mem_base. cbn [List.filter map]. rewrite Eio. cbn [negb map].
    rewrite first_base_cons. destruct pci as [? ? ? ? ? ? m io]; cbn. destruct (io =? 0) eqn:E0; cbn; rewrite ?E0; [|done].
    by destruct (Z.ldiff bar _ =? 0) eqn:E1; rewrite ?E1.
  - assert (forall reg', PCI_BASE_ADDRESS_5 < reg' + 4 * Z.of_nat fuel ->
      read_bases fuel (if pci_membase pci =? 0 then pci <| pci_membase := Z.ldiff bar PCI_BASE_ADDRESS_MEM_MASK |> else pci) reg' w =
      Ret (with_bases pci (bar :: bars cfg_dword fuel (pci_busdevfn pci) reg')) w) as Hgo.
    { intros reg' Hf'. rewrite IH by done. unfold with_bases, io_base, mem_base. cbn [List.filter map]. rewrite Eio. cbn [negb map].
      rewrite first_base_cons. destruct pci as [? ? ? ? ? ? m io]; cbn. destruct (m =? 0) eqn:E0; cbn; rewrite ?E0; [|done].
      by destruct (Z.ldiff bar _ =? 0) eqn:E1; rewrite ?E1. }
    destruct (negb _); [replace (reg + 4 + 4) with (reg + 8) by lia|]; apply Hgo; lia.
Qed.

(** [pci_read_config] identifies the device at the address. *)
Lemma read_config_run a w : I w ->
  pci_read_config (pci_init a) w = Ret (match device a with Some pci => inr pci | None => inl ENODEV end) w.
Proof.
  intros Hw. unfold pci_read_config, device_at, answers, bind at 1, function_exists.
  change (pci_busdevfn (pci_init a)) with a.
  assert ((if PCI_FUNC a =? 0 then ret true else
      let* hdrtype := pci_read_config_byte ((pci_init a) <| pci_busdevfn ::= PCI_FIRST_FUNC |>) PCI_HEADER_TYPE in
      ret (negb (Z.land hdrtype PCI_HEADER_TYPE_MULTI =? 0))) w =
    Ret ((PCI_FUNC a =? 0) || negb (Z.land (cfg8 cfg_byte (PCI_FIRST_FUNC a) PCI_HEADER_TYPE) PCI_HEADER_TYPE_MULTI =? 0)) w) as ->.
  { destruct (PCI_FUNC a =? 0); [done|]. unfold bind. by rewrite read8. }
  destruct (_ || _); [|done]. cbn [negb andb]. unfold bind at 1. rewrite read32 by done. change (pci_busdevfn (pci_init a)) with a.
  destruct (_ =? 0xffffffff); [done|]. destruct (_ =? 0); [done|]. cbn [orb negb andb].
  unfold populate, bind, pci_read_bases. rewrite !read32, !read8 by done. change (pci_busdevfn (pci_init a)) with a. cbv beta iota.
  rewrite read_bases_run by (done || lia). done.
Qed.

(** A bridge widens the range. *)
Lemma expand_range_run pci b s r : I (the_world s) -> pci_busdevfn pci = b -> device b = Some pci -> the_range s = r ->
  expand_range pci b s = Ret tt (s <| the_range := PciRange (range_start r)
    (widen cfg_byte cfg_dword (range_start r) (range_start r + range_count r) b - range_start r) |>).
Proof.
  intros Hw <- Hd <-. unfold expand_range, bind at 1.
  assert (forall reg, in_world (pci_read_config_byte pci reg) s = Ret (cfg8 cfg_byte (pci_busdevfn pci) reg) s) as Hread
    by (intros reg; unfold in_world; rewrite read8 by done; by destruct s).
  unfold widen, bridge_end. rewrite Hd, Hread. destruct s as [w [lo n] l]; cbn.
  destruct (_ =? PCI_HEADER_TYPE_BRIDGE); cbn [andb]; [|by replace (lo + n - lo) with n by lia].
  unfold bind at 1. rewrite Hread. rewrite Z.leb_antisym. destruct (PCI_BUS _ <? _); cbn [negb]; [|by replace (lo + n - lo) with n by lia].
  unfold bind, gets. cbn [the_range range_start range_count]. set (e := u32 (PCI_BUSDEVFN _ _ _ _)).
  destruct (Z.ltb_spec n (u32 (e - lo))).
  - by replace ((lo + n) `max` (lo + u32 (e - lo)) - lo) with (u32 (e - lo)) by lia.
  - by replace ((lo + n) `max` (lo + u32 (e - lo)) - lo) with n by lia.
Qed.

(** ** Searches *)

(** A window that begins at or below [b], or does not reach beyond the last address. *)
Definition window_ok (b : Z) (r : pci_range) : Prop :=
  0 <= range_start r /\ 0 <= range_count r /\ (range_start r <= b \/ range_start r + range_count r <= 2 ^ 32).

Lemma outside_window b r : window_ok b r -> 0 <= b < 2 ^ 32 ->
  outside b r = false <-> range_start r <= b < range_start r + range_count r.
Proof.
  intros (Hs & Hc & Hr) Hb. unfold outside, u32. rewrite Z.leb_gt. destruct (decide (range_start r <= b)).
  - rewrite Z.mod_small; lia.
  - rewrite <-(Z.mod_add _ 1) by lia. rewrite Z.mod_small; lia.
Qed.

Lemma not_outside b r : window_ok b r -> 0 <= b < 2 ^ 32 ->
  ~ (range_start r <= b < range_start r + range_count r) -> outside b r = true.
Proof. intros Hw Hb Hn. destruct (outside b r) eqn:E; [done|]. by apply outside_window in E. Qed.

(** The addresses that a scan visits from [b] on, in a state of the bus. *)
Definition scans (b : Z) (r : pci_range) (l : list Z) : Prop :=
  visit (range_start r) (range_start r + range_count r) b l.

(** A search: either no address that is visited has a device, or it ends at the first that
    has one, in a state where the scan goes on with the addresses after it. *)
Definition searched (l : list Z) (s s' : pci_bus W) (r : errno + pci_device) (a : Z) : Prop :=
  I (the_world s') /\ pci_children s' = pci_children s /\
  match r with
  | inl _ => Forall (fun a => device a = None) l
  | inr pci => device a = Some pci /\ 0 <= a < 2 ^ 32 /\ window_ok (a + 1) (the_range s') /\ exists none l',
      l = none ++ a :: l' /\ Forall (fun a => device a = None) none /\ scans (a + 1) (the_range s') l'
  end.

Lemma find_next_run lo hi b l : visit lo hi b l -> forall fuel s, I (the_world s) -> 0 <= b < 2 ^ 32 ->
  window_ok b (the_range s) -> lo = range_start (the_range s) -> hi = range_start (the_range s) + range_count (the_range s) ->
  (length l < fuel)%nat ->
  exists r a s', pci_find_next fuel b s = Ret (r, a) s' /\ searched l s s' r a.
Proof.
  induction 1 as [lo hi b l Hi Hb Hl IH|lo hi b r l Hi Hb Hr Hl IH|lo hi b Hi Hb Hr|lo hi b Hb];
    intros [|fuel] s Iw Hb0 Hw -> -> Hf; try (cbn in Hf; lia).
  - assert (outside b (the_range s) = false) as Ho by (by apply outside_window).
    cbn [pci_find_next]. unfold next_address, bind, gets. rewrite Ho. unfold ret at 1. rewrite Ho.
    unfold in_world at 1. rewrite read_config_run by done.
    assert (s <| the_world := the_world s |> = s) as -> by (by destruct s).
    destruct (device b) as [pci|] eqn:Ed.
    + pose proof (device_address _ _ _ _ Ed) as Hpb.
      rewrite (expand_range_run pci b s (the_range s)) by done. do 3 eexists. split; [done|].
      split; [done|]. split; [done|]. split; [done|]. split; [done|].
      assert (range_start (the_range s) + range_count (the_range s) <=
        widen cfg_byte cfg_dword (range_start (the_range s)) (range_start (the_range s) + range_count (the_range s)) b) as Hwid by apply widen_le.
      split; [unfold window_ok in *; cbn [the_range modify eta_bus range_start range_count]; set (wd := widen _ _ _ _ _) in *; lia|]. exists [], l. split; [done|]. split; [constructor|]. unfold scans. cbn.
      by rewrite Z.add_sub_assoc, Z.add_simpl_l.
    + cbv zeta. unfold u32. destruct (decide (b + 1 = 2 ^ 32)) as [Ee|].
      * rewrite Ee, Z.mod_same by lia. cbn [Z.eqb]. do 3 eexists. split; [done|]. split; [done|]. split; [done|].
        rewrite (visits_top _ _ _ _ _ _ _ Hl) by lia. by constructor.
      * rewrite Z.mod_small by lia. destruct (Z.eqb_spec (b + 1) 0); [lia|]. cbn [length] in Hf.
        destruct (IH fuel s Iw) as (r & a & s' & E & Is & Hc & Hres); [lia| |done|unfold widen; by rewrite Ed|lia|].
        { unfold window_ok in *. lia. }
        exists r, a, s'. split; [done|]. split; [done|]. split; [done|]. destruct r as [e|pci]; [by constructor|].
        destruct Hres as (Hd & Ha & Hwo & none & l' & -> & Hn & Hs). split; [done|]. split; [done|]. split; [done|].
        exists (b :: none), l'. split; [done|]. split; [by constructor|done].
  - destruct (range_from_some _ _ _ regions_ordered Hr) as (_ & A & B & C & D).
    destruct (discovers b (the_world s) Iw) as (w' & Ew & Iw'). rewrite Hr in Ew. cbn in Ew.
    set (s1 := (s <| the_world := w' |>) <| the_range := r |>).
    assert (next_address b s = Ret (Z.max b (range_start r)) s1) as E1.
    { unfold next_address, bind, gets. rewrite not_outside by done. unfold in_world, on_world. rewrite Ew. unfold update, ret.
      f_equal. destruct (Z.ltb_spec b (range_start r)); lia. }
    assert (window_ok (Z.max b (range_start r)) r) as Hw1 by (split; lia).
    assert (outside (Z.max b (range_start r)) r = false) as Ho1 by (apply outside_window; [done|lia|lia]).
    assert (next_address (Z.max b (range_start r)) s1 = Ret (Z.max b (range_start r)) s1) as E2
      by (unfold next_address, bind, gets; change (the_range s1) with r; by rewrite Ho1).
    destruct (IH (S fuel) s1) as (r' & a & s' & E & Is & Hc & Hres); [done|lia|done|done|done|done|].
    exists r', a, s'. split; [|done]. rewrite <-E. cbn [pci_find_next].
    match goal with |- bind _ ?k _ = bind _ _ _ => set (F := k) end. unfold bind. by rewrite E1, E2.
  - destruct (discovers b (the_world s) Iw) as (w' & Ew & Iw'). rewrite Hr in Ew. cbn in Ew.
    cbn [pci_find_next]. unfold next_address, bind, gets. rewrite not_outside by done. unfold in_world at 1, on_world at 1.
    rewrite Ew. unfold update, ret. cbn [the_range modify range_start].
    assert (outside (if b <? 0 then 0 else b) (PciRange 0 0) = true) as -> by (apply Z.leb_le, u32_range).
    do 3 eexists. split; [done|]. split; [done|]. split; [done|]. constructor.
Qed.

(** ** Drivers *)
Lemma find_id_filter pci ids : find_id pci ids = head (List.filter (id_matches pci) ids).
Proof. induction ids as [|id ids IH]; cbn; [done|]. by destruct (id_matches pci id). Qed.

Lemma find_driver_candidates pci drivers k :
  find_driver pci k drivers =
  match concat (imap (fun n drv =>
    if class_matches pci drv then map (pair (k + n)%nat) (List.filter (id_matches pci) (drv_ids drv)) else []) drivers) with
  | (n, id) :: _ => inr ((pci <| pci_drv := Some n |>) <| pci_id := Some id |>)
  | [] => inl ENOENT
  end.
Proof.
  revert k. induction drivers as [|drv drivers IH]; intros k; cbn [find_driver imap concat]; [done|].
  assert (imap ((fun n drv => if class_matches pci drv then map (pair (k + n)%nat) (List.filter (id_matches pci) (drv_ids drv))
      else []) ∘ S) drivers =
    imap (fun n drv => if class_matches pci drv then map (pair (S k + n)%nat) (List.filter (id_matches pci) (drv_ids drv))
      else []) drivers) as ->
    by (apply imap_ext; intros i x _; cbn; by rewrite Nat.add_succ_r).
  rewrite IH, Nat.add_0_r. destruct (class_matches pci drv); cbn [negb]; [|done].
  rewrite find_id_filter. by destruct (List.filter (id_matches pci) (drv_ids drv)).
Qed.

Lemma accepted_driven pci p : accepted can accepts pci = Some p -> is_Some (pci_drv p).
Proof.
  unfold accepted. destruct (can pci); [|done]. destruct (candidates pci) as [|[n id] l]; [done|].
  set (q := _ <| pci_driver_name := _ |>). pose proof (drivers_keep n q) as Hk. destruct (accepts n q) as [[|e] p']; [|done].
  intros [= <-]. cbn in Hk. rewrite Hk. by eexists.
Qed.

Lemma attach_run pci s : I (the_world s) -> exists s',
  attach pci s = Ret (bool_decide (is_Some (accepted can accepts pci))) s' /\ I (the_world s') /\
  the_range s' = the_range s /\ pci_children s' = option_list (accepted can accepts pci) ++ pci_children s.
Proof.
  intros Iw. unfold attach, accepted, in_world at 1, on_world at 1, bind at 1.
  destruct (vetoes pci _ Iw) as (w1 & -> & I1). destruct (can pci); cbn [negb]; [|by eexists].
  unfold pci_find_driver. rewrite find_driver_candidates. change (concat _) with (candidates pci).
  destruct (candidates pci) as [|[n id] l]; [by eexists|].
  set (p := (pci <| pci_drv := Some n |>) <| pci_id := Some id |>). unfold bind at 1, update at 1.
  unfold pci_probe, bind at 1. change (pci_id p) with (Some id). cbn [of_option]. unfold ret at 1, bind at 1.
  change (pci_drv (p <| pci_driver_name := Some (rom_name id) |>)) with (Some n). cbn [of_option].
  unfold ret at 1, bind at 1, in_world, on_world. cbn [the_world modify].
  destruct (drivers_decide n (p <| pci_driver_name := Some (rom_name id) |>) w1 I1) as (w2 & E2 & I2).
  destruct s as [w r l']. unfold modify in *. cbn in *. rewrite E2. destruct (accepts n _) as [[|e] p']; by eexists.
Qed.

(** ** Probing *)
Abbreviation att := (attached cfg_byte cfg_dword can accepts).

Lemma attached_none l : Forall (fun a => device a = None) l -> omap att l = [].
Proof. induction 1 as [|a l Ha _ IH]; [done|]. cbn. unfold attached at 1. by rewrite Ha. Qed.

Lemma omap_one {A B} (f : A -> option B) a l : omap f (a :: l) = option_list (f a) ++ omap f l.
Proof. cbn. by destruct (f a). Qed.

Definition driven (l : list pci_device) : Prop := Forall (fun pci => is_Some (pci_drv pci)) l.

(** The outcome of a probing that visits the addresses [l]: all devices are attached, the
    latest first; or memory has run out, and the devices attached up to there, and those
    the bus had before, have been taken down again. *)
Definition probed (l : list Z) (s s' : pci_bus W) (rc : status) : Prop :=
  match rc with
  | OK => I (the_world s') /\ pci_children s' = reverse (omap att l) ++ pci_children s
  | Err e => e = ENOMEM /\ pci_children s' = [] /\ exists w l1 l2, l = l1 ++ l2 /\ I w /\
      the_world s' = foldl taken_down w (reverse (omap att l1) ++ pci_children s)
  end.

Lemma probe_loop_run fuel fuel' : forall have b s l, I (the_world s) -> driven (pci_children s) -> 0 <= b < 2 ^ 32 ->
  window_ok b (the_range s) -> scans b (the_range s) l -> (length l < fuel)%nat -> (length l < fuel')%nat ->
  exists rc s', probe_loop fuel fuel' have b s = Ret rc s' /\ probed l s s' rc /\
    ((forall w, I w -> (pci_malloc w).1 = true) -> rc = OK).
Proof.
  induction fuel as [|fuel IH]; intros have b s l Iw Hdr Hb Hw Hl Hf Hf'; [lia|]. cbn [probe_loop].
  assert (exists ok s1, (if have then ret true else in_world (on_world pci_malloc)) s = Ret ok s1 /\ I (the_world s1) /\
            the_range s1 = the_range s /\ pci_children s1 = pci_children s /\
            ((forall w, I w -> (pci_malloc w).1 = true) -> ok = true)) as (ok & s1 & E1 & I1 & Hr1 & Hc1 & Hok).
  { destruct have; [by exists true, s|]. unfold in_world, on_world. destruct (allocates _ Iw) as (ok & w1 & E & I1).
    exists ok. rewrite E. eexists. split; [done|]. split_and!; [done..|]. intros Ha. specialize (Ha _ Iw). by rewrite E in Ha. }
  unfold bind at 1. rewrite E1. destruct ok; cbn [negb].
  2: { unfold bind. rewrite pcibus_remove_run by by rewrite Hc1. do 2 eexists. split; [done|]. split; [|by intros Ha; specialize (Hok Ha)].
       split; [done|]. split; [done|]. exists (the_world s1), [], l. split_and!; [done..|]. cbn. by rewrite Hc1. }
  clear Hok. destruct (find_next_run _ _ _ _ Hl fuel' s1 I1 Hb) as (r & a & s2 & E2 & I2 & Hc2 & Hres);
    [by rewrite Hr1|by rewrite Hr1|by rewrite Hr1|done|].
  unfold bind at 1. rewrite E2. destruct r as [e|pci].
  - exists OK, s2. split; [done|]. split; [|done]. split; [done|]. by rewrite attached_none, Hc2.
  - destruct Hres as (Hd & Ha & Hwo & none & l' & -> & Hn & Hl').
    destruct (attach_run pci s2 I2) as (s3 & E3 & I3 & Hr3 & Hc3). unfold bind at 1. rewrite E3.
    assert (forall l1, reverse (omap att (none ++ a :: l1)) = reverse (omap att l1) ++ option_list (accepted can accepts pci)) as Ho.
    { intros l1. rewrite omap_app, attached_none, omap_one by done. unfold attached at 1. rewrite Hd. cbn [mbind option_bind app].
      rewrite reverse_app. by destruct (accepted can accepts pci). }
    assert (driven (pci_children s3)) as Hdr3.
    { unfold driven. rewrite Hc3, Hc2, Hc1. apply Forall_app. split; [|done].
      destruct (accepted can accepts pci) eqn:Ea; cbn; [|constructor]. apply Forall_singleton. by eapply accepted_driven. }
    rewrite length_app in Hf, Hf'. cbn [length] in Hf, Hf'. unfold u32. destruct (decide (a + 1 = 2 ^ 32)) as [Ee|].
    + rewrite Ee, Z.mod_same by lia. cbn [Z.eqb]. exists OK, s3. split; [done|]. split; [|done]. split; [done|].
      rewrite (visits_top _ _ _ _ _ _ _ Hl') by lia. rewrite Ho. cbn. by rewrite Hc3, Hc2, Hc1.
    + rewrite Z.mod_small by lia. destruct (Z.eqb_spec (a + 1) 0); [lia|].
      destruct (IH (negb (bool_decide (is_Some (accepted can accepts pci)))) (a + 1) s3 l') as (rc & s' & E & Hp & Hrc);
        [done|done|lia|by rewrite Hr3|by rewrite Hr3|lia|lia|]. exists rc, s'. split; [done|]. split; [|done].
      destruct rc as [|e]; unfold probed in *.
      * destruct Hp as [Is Hc]. split; [done|]. by rewrite Hc, Ho, <-app_assoc, Hc3, Hc2, Hc1.
      * destruct Hp as (He & Hc & w & l1 & l2 & -> & Iw' & Hww). split; [done|]. split; [done|].
        exists w, (none ++ a :: l1), l2. rewrite <-app_assoc. split; [done|]. split; [done|].
        by rewrite Hww, Ho, <-app_assoc, Hc3, Hc2, Hc1.
Qed.

(** [C39] Probing the bus: there is a sequence of addresses, in ascending order and none
    twice, that the scan visits: those of the ranges the architecture knows, each range
    widened by the bridges found in it.  With fuel for that many steps, probing returns.
    It attaches to the root device exactly the devices that answer at these addresses, may
    be probed, are wanted by a driver, and are accepted by the first that wants them, the
    latest first; or, when an allocation fails, it returns ENOMEM with no device left,
    every device attached up to there having been taken down. *)
Theorem pcibus_probe_spec s : I (the_world s) -> driven (pci_children s) -> window_ok 0 (the_range s) ->
  exists l, scans 0 (the_range s) l /\ NoDup l /\ forall fuel, (length l < fuel)%nat ->
  exists rc s', pcibus_probe fuel fuel s = Ret rc s' /\ probed l s s' rc /\
    ((forall w, I w -> (pci_malloc w).1 = true) -> rc = OK).
Proof.
  intros Iw Hdr Hw.
  destruct (visits_total cfg_byte cfg_dword regions (range_start (the_range s))
    (range_start (the_range s) + range_count (the_range s)) 0 regions_ordered) as [l Hl].
  exists l. split; [exact Hl|]. split; [by eapply visits_ascend|]. intros fuel Hf. unfold pcibus_probe.
  by apply probe_loop_run.
Qed.
End Scan.
