(* ===== verification/PciDemo.v ===== *)
(** * A PCI machine

    The parameters of the PCI model with the values of the PCI specification, a register
    that holds a window of 64 kB above 4 GB, and two buses with five functions, on which the
    theorems are applied. *)

From stdpp Require Import base list list_numbers strings sets.
From Stdlib Require Import ZArith Lia.
From S2P Require Import Prelude RealtekInit Pci PciBar PciScan.

#[export] Instance toy_header : PciHeader := {
  PCI_VENDOR_ID := 0x00; PCI_COMMAND := 0x04; PCI_COMMAND_IO := 1; PCI_COMMAND_MEM := 2; PCI_COMMAND_MASTER := 4;
  PCI_REVISION := 0x08; PCI_LATENCY_TIMER := 0x0d; PCI_HEADER_TYPE := 0x0e; PCI_HEADER_TYPE_BRIDGE := 1;
  PCI_HEADER_TYPE_MASK := 0x7f; PCI_HEADER_TYPE_MULTI := 0x80; PCI_BASE_ADDRESS_0 := 0x10;
  PCI_BASE_ADDRESS_5 := 0x24; PCI_BASE_ADDRESS_SPACE_IO := 1; PCI_BASE_ADDRESS_IO_MASK := 3;
  PCI_BASE_ADDRESS_MEM_TYPE_64 := 4; PCI_BASE_ADDRESS_MEM_TYPE_MASK := 6; PCI_BASE_ADDRESS_MEM_MASK := 15;
  PCI_SUBORDINATE := 0x1a; PCI_INTERRUPT_LINE := 0x3c; PCI_ANY_ID := 0xffff; BUS_TYPE_PCI := 1;
  PCI_SEG b := Z.land (Z.shiftr b 16) 0xffff;
  PCI_BUS b := Z.land (Z.shiftr b 8) 0xff;
  PCI_SLOT b := Z.land (Z.shiftr b 3) 0x1f;
  PCI_FUNC b := Z.land b 7;
  PCI_FIRST_FUNC b := Z.ldiff b 7;
  PCI_BUSDEVFN seg bus slot func :=
    Z.lor (Z.lor (Z.shiftl seg 16) (Z.shiftl bus 8)) (Z.lor (Z.shiftl slot 3) func);
  dev_name_size := 40; long_bits := 64;
}.

#[export] Instance toy_header_laws : PciHeaderLaws.
Proof. split; try reflexivity. by right. Qed.

(** ** A register *)
Record toy_regs : Type := ToyRegs { toy_command : Z; toy_low : Z; toy_high : Z }.

#[export] Instance toy_bar_config : PciConfig toy_regs := {
  config_read_byte _ _ w := (0, w);
  config_read_word _ _ w := (u16 (toy_command w), w);
  config_read_dword _ r w :=
    (if r =? 0x10 then Z.lor 4 (Z.land (toy_low w) 0xffff0000) else u32 (toy_high w), w);
  config_write_byte _ _ _ w := w;
  config_write_word _ _ v w := ToyRegs v (toy_low w) (toy_high w);
  config_write_dword _ r v w :=
    if r =? 0x10 then ToyRegs (toy_command w) v (toy_high w) else ToyRegs (toy_command w) (toy_low w) v;
}.

Definition toy_device : pci_device := pci_init 8.


#[export] Instance toy_bar : BarHardware toy_regs toy_device 0x10.
Proof.
  refine {| hw_command w := u16 (toy_command w);
            hw_low w := Z.lor 4 (Z.land (toy_low w) 0xffff0000);
            hw_high w := u32 (toy_high w);
            command_mask := 0xffff; bar_flags := 4; bar_mask := 0xffffffffffff0000; bar_log := 16;
            bar_wide := true |}; try done.
  - intros v w w' ->. cbn. split_and!; [|done|done]. change 0xffff with (Z.ones 16).
    rewrite Z.land_ones, Z.ldiff_ones_r by lia. unfold u16. rewrite Z.shiftr_div_pow2 by lia.
    rewrite Z.div_small by (apply Z.mod_pos_bound; lia). done.
  - intros v w w' ->. cbn. done.
  - intros v w w' _ ->. cbn. split_and!; [done|done|]. change (u32 (Z.shiftr 0xffffffffffff0000 32)) with (Z.ones 32).
    rewrite Z.land_ones by lia. done.
  - intros w. cbn. apply Z.mod_mod. lia.
  - intros w. change (u32 0xffffffffffff0000) with 0xffff0000.
    rewrite Z.land_lor_distr_l, <-Z.land_assoc. by rewrite !Z.land_diag.
  - intros w. change (u32 (Z.shiftr 0xffffffffffff0000 32)) with (Z.ones 32). rewrite Z.land_ones by lia.
    symmetry. apply Z.mod_mod. lia.
  - exists (2 ^ 47 - 1). done.
Defined.

Definition toy_state : toy_regs := ToyRegs 0x107 0xe0000000 0x4.

Lemma pci_bar_size_spec_witness : bar_log (BarHardware := toy_bar) = 16 /\
  exists w', pci_bar_size toy_device 0x10 toy_state = Ret (2 ^ bar_log) w' /\
    hw_command w' = hw_command toy_state /\ hw_low w' = hw_low toy_state /\ hw_high w' = hw_high toy_state.
Proof.
  split; [done|]. apply (pci_bar_size_spec (pci := toy_device) (reg := 0x10) toy_state); [by left|done].
Defined.

Example toy_bar_start : pci_bar_start toy_device 0x10 toy_state = Ret 0x4e0000000 toy_state.
Proof. reflexivity. Qed.

(** ** A bus

    Functions 0 and 1 of the first slot are an RTL8125 and a device without driver, slot 1
    holds a bridge to bus 1, slot 2 a second RTL8125 that its driver does not accept, and the
    first slot of bus 1 an RTL8168.  The architecture knows twelve addresses of bus 0, and
    eight more; the bridge widens the scan to both buses.  The driver is the Realtek driver's
    table; the world is the list of the addresses probed and, negated, of those removed. *)
Definition bus_dword (busdevfn reg : Z) : Z :=
  if reg =? 0x00 then
    if busdevfn =? 0 then 0x812510ec else if busdevfn =? 1 then 0x11111111 else if busdevfn =? 8 then 0x22222222
    else if busdevfn =? 16 then 0x812510ec else if busdevfn =? 256 then 0x816810ec else 0xffffffff
  else if reg =? 0x10 then 0xe001
  else if reg =? 0x18 then 0xf0000004
  else if reg =? 0x1c then 1
  else if reg =? 0x08 then 0x02000005
  else 0.

Definition bus_byte (busdevfn reg : Z) : Z :=
  if reg =? 0x0e then (if busdevfn =? 8 then 0x81 else 0x80) else if reg =? 0x1a then 1 else 0.

#[export] Instance bus_config : PciConfig (list Z) := {
  config_read_byte a r w := (bus_byte a r, w);
  config_read_word a r w := (0, w);
  config_read_dword a r w := (bus_dword a r, w);
  config_write_byte _ _ _ w := w;
  config_write_word _ _ _ w := w;
  config_write_dword _ _ _ w := w;
}.

Definition bus_regions : list pci_range := [PciRange 0 12; PciRange 16 8].
Definition bus_can (_ : pci_device) : bool := true.
Definition bus_accepts (_ : nat) (pci : pci_device) : status * pci_device :=
  (if pci_busdevfn pci =? 16 then Err EIO else OK, pci).

(** With [Some mem], memory runs out after [mem] devices have been probed. *)
Instance bus_world (mem : option nat) : PciWorld (list Z) := {
  pci_discover b w := (default (PciRange 0 0) (range_from b bus_regions), w);
  pci_can_probe pci w := (bus_can pci, w);
  pci_malloc w := (match mem with Some n => bool_decide (length w < n)%nat | None => true end, w);
  PCI_DRIVERS := [PciDriver 0 0 realtek_nics];
  driver_probe n pci w := (bus_accepts n pci, pci_busdevfn pci :: w);
  driver_remove n pci w := - pci_busdevfn pci :: w;
}.

Definition bus_start : pci_bus (list Z) := PciRoot [] (PciRange 0 0) [].

Definition names_of (o : outcome (pci_bus (list Z)) status) : list (Z * Z * Z * option string) :=
  match o with
  | Ret _ s => map (fun p => (pci_busdevfn p, pci_membase p, pci_ioaddr p, pci_driver_name p)) (pci_children s)
  | _ => []
  end.

Example bus_probed : names_of (pcibus_probe (H1 := bus_world None) 513 513 bus_start) =
  [(256, 0x1f0000000, 0xe000, Some "rtl8168"%string); (0, 0x1f0000000, 0xe000, Some "rtl8125"%string)].
Proof. vm_compute. reflexivity. Qed.

Lemma bus_visits l : scans bus_byte bus_dword bus_regions 0 (the_range bus_start) l -> l = seqZ 0 512.
Proof.
  intros Hl. eapply visits_unique; [exact Hl|]. apply (visit_list_sound bus_byte bus_dword bus_regions 600).
  vm_compute. reflexivity.
Qed.

Lemma bus_ordered : ordered bus_regions.
Proof. cbn. split_and!; try lia; repeat constructor; cbn; lia. Qed.

(** The devices on both buses are attached. *)
Lemma pcibus_probe_spec_witness :
  exists s', pcibus_probe (H1 := bus_world None) 513 513 bus_start = Ret OK s' /\ map pci_busdevfn (pci_children s') = [256; 0].
Proof.
  destruct (pcibus_probe_spec (H1 := bus_world None) (fun _ => True) bus_byte bus_dword bus_regions bus_can bus_accepts)
    with (s := bus_start) as (l & Hl & _ & Hf); try done.
  - exact bus_ordered.
  - intros b w _. by eexists.
  - intros pci w _. by eexists.
  - intros w _. by do 2 eexists.
  - intros n pci w _. by eexists.
  - constructor.
  - split; cbn; lia.
  - apply bus_visits in Hl. subst l. destruct (Hf 513%nat) as (rc & s' & E & Hp & Hok).
    + apply (bool_decide_unpack _). vm_compute. exact I.
    + rewrite Hok in E, Hp by done. exists s'. split; [exact E|]. destruct Hp as [_ Hc]. rewrite Hc. vm_compute. reflexivity.
Defined.

(** When memory runs out after the first device, none is left. *)
Example bus_out_of_memory : pcibus_probe (H1 := bus_world (Some 1%nat)) 513 513 bus_start =
  Ret (Err ENOMEM) (PciRoot [0; 0] (PciRange 0 12) []).
Proof. vm_compute. reflexivity. Qed.

Example toy_name : pci_print_name 0x1a = bstr "0000:00:03.2".
Proof. reflexivity. Qed.
