(* ===== verification/Tls12Base.v ===== *)
(** * TLS connection: state and interfaces (net/tls.c, include/ipxe/tls.h)

    The state of a connection of TLS 1.2 and earlier, with the session it belongs to, the
    operations of the cryptographic and X.509 libraries it uses, and the environment it
    runs in. *)

From stdpp Require Import base list strings.
From Stdlib Require Import ZArith Lia.
From S2P Require Import Prelude Crypto TlsKeys Tofu.

(** ** Libraries

    Digests, HMAC, ciphers, public keys, certificates and key exchanges.  The null
    algorithms have no output and do nothing. *)
Class TlsLib := {
  dalg : Type;
  digest_null : dalg;
  md5_algorithm : dalg;
  sha1_algorithm : dalg;
  md5_sha1_algorithm : dalg;
  dsize : dalg -> nat;
  dctx : Type;
  d_init : dalg -> dctx;
  d_update : dalg -> dctx -> list Z -> dctx;
  d_final : dalg -> dctx -> list Z;
  hmac_keysize : dalg -> nat;
  hmac_key : dalg -> list Z -> list Z;
  hctx : Type;
  hmac_init_key : dalg -> list Z -> hctx;
  h_init : dalg -> list Z -> hctx;
  h_update : dalg -> hctx -> list Z -> hctx;
  h_final : dalg -> hctx -> list Z;
  calg : Type;
  cipher_null : calg;
  cctx : Type;
  cctx_zero : calg -> cctx;
  blocksize : calg -> nat;
  alignsize : calg -> nat;
  c_authsize : calg -> nat;
  is_block_cipher : calg -> bool;
  is_auth_cipher : calg -> bool;
  cipher_setkey : calg -> cctx -> list Z -> errno + cctx;
  cipher_setiv : calg -> cctx -> list Z -> errno + cctx;
  c_encrypt_aad : calg -> cctx -> list Z -> cctx;
  c_decrypt_aad : calg -> cctx -> list Z -> cctx;
  c_encrypt : calg -> cctx -> list Z -> cctx * list Z;
  c_decrypt : calg -> cctx -> list Z -> cctx * list Z;
  c_auth : calg -> cctx -> cctx * list Z;
  pkalg : Type;
  pubkey_null : pkalg;
  key_algorithm : Type;
  pubkey_verify : pkalg -> list Z -> dalg -> list Z -> list Z -> status;
  pubkey_encrypt : pkalg -> list Z -> list Z -> nat -> errno + list Z;
  pubkey_sign : pkalg -> list Z -> dalg -> list Z -> nat -> errno + list Z;
  x509 : Type;
  cert_raw : x509 -> list Z;
  cert_public_key : x509 -> list Z;
  cert_key_algorithm : x509 -> key_algorithm;
  cert_signature_pubkey : x509 -> pkalg;
  x509_parse : list Z -> errno + x509;
  x509_check_name : x509 -> list Z -> status;
  exch : Type;
  ex_name : exch -> list Z;
  ex_privsize : exch -> nat;
  ex_pubsize : exch -> nat;
  ex_sharedsize : exch -> nat;
  ex_share : exch -> list Z -> errno + list Z;
  ex_agree : exch -> list Z -> list Z -> errno + list Z;
  is_ffdhe : exch -> bool;
  ffdhe_has_params : exch -> list Z -> list Z -> bool;
  #[global] dalg_eq_dec :: EqDecision dalg;
  #[global] pkalg_eq_dec :: EqDecision pkalg;
  #[global] key_algorithm_eq_dec :: EqDecision key_algorithm;
  #[global] x509_eq_dec :: EqDecision x509;
}.

(** ** Constants *)
Definition TLS_ALERT_WARNING : Z := 1.
Definition TLS_ALERT_FATAL : Z := 2.
Definition TLS_ALERT_CLOSE_NOTIFY : Z := 0.
Definition TLS_HELLO_REQUEST : Z := 0.
Definition TLS_CERTIFICATE : Z := 11.
Definition TLS_SERVER_KEY_EXCHANGE : Z := 12.
Definition TLS_CERTIFICATE_REQUEST : Z := 13.
Definition TLS_SERVER_HELLO_DONE : Z := 14.
Definition TLS_CERTIFICATE_VERIFY : Z := 15.
Definition TLS_CLIENT_KEY_EXCHANGE : Z := 16.
Definition TLS_CHANGE_CIPHER_SPEC : Z := 1.
Definition TLS_SERVER_NAME : Z := 0.
Definition TLS_SERVER_NAME_HOST_NAME : Z := 0.
Definition TLS_MAX_FRAGMENT_LENGTH : Z := 1.
Definition TLS_MAX_FRAGMENT_LENGTH_4096 : Z := 4.
Definition TLS_MAX_FRAGMENT_LENGTH_VALUE : Z := TLS_MAX_FRAGMENT_LENGTH_4096.
Definition TLS_SIGNATURE_ALGORITHMS : Z := 13.
Definition TLS_EXTENDED_MASTER_SECRET : Z := 23.
Definition TLS_SESSION_TICKET : Z := 35.
Definition TLS_RENEGOTIATION_INFO : Z := 0xff01.
Definition TLS_NAMED_CURVE_TYPE : Z := 3.
Definition TLS_TX_CLIENT_HELLO : Z := 0x0001.
Definition TLS_TX_BUFSIZE : nat := Z.to_nat 4096.
Definition TLS_RX_BUFSIZE : nat := Z.to_nat 4096.
Definition TLS_RX_MIN_BUFSIZE : nat := 512.
Definition TLS_HEADER_LEN : nat := 5.

(** ** State *)
Section State.
Context `{TlsLib}.

(** The three key exchange algorithms: public key transport, DHE and ECDHE. *)
Inductive tls_key_exchange_algorithm : Type :=
  | tls_pubkey_exchange_algorithm
  | tls_dhe_exchange_algorithm
  | tls_ecdhe_exchange_algorithm.

Record tls_cipher_suite : Type := Suite {
  su_exchange : tls_key_exchange_algorithm;
  su_pubkey : pkalg;
  su_cipher : calg;
  su_digest : dalg;
  su_handshake : dalg;
  su_code : Z;
  su_key_len : nat;
  su_fixed_iv_len : nat;
  su_record_iv_len : nat;
  su_mac_len : nat;
}.

Record tls_named_group : Type := NamedGroup { ng_exchange : exch; ng_code : Z }.

Record tls_signature_hash_algorithm : Type := SigHash {
  sh_digest : dalg;
  sh_pubkey : pkalg;
  sh_algorithm : key_algorithm;
  sh_code : Z;
}.

Definition tls_cipher_suite_null : tls_cipher_suite :=
  Suite tls_pubkey_exchange_algorithm pubkey_null cipher_null digest_null digest_null 0 0 0 0 0.

(** A cipher specification; [None] is the null cipher suite. *)
Record tls_cipherspec : Type := Cipherspec {
  cs_chosen : option tls_cipher_suite;
  cs_ctx : cctx;
  cs_mac_secret : list Z;
  cs_fixed_iv : list Z;
}.

Record tls_cipherspec_pair : Type := CipherspecPair {
  cp_active : tls_cipherspec;
  cp_pending : tls_cipherspec;
}.

(** The key schedule; without a digest there is neither transcript nor KDF secret. *)
Record tls_key_schedule : Type := KeySchedule {
  k_digest : dalg;
  k_group : option tls_named_group;
  k_keyed : bool;
  k_bound : option x509;
  k_handshake : option dctx;
  k_kdf : option (list Z);
  k_ephemeral : list Z;
}.

Record tls_tx : Type := TlsTx {
  tx_cipherspec : tls_cipherspec_pair;
  tx_number : Z;
  tx_waiting : Z;
  tx_process : bool;
}.

Inductive tls_rx_state : Type := TLS_RX_HEADER | TLS_RX_DATA.

(** A receive buffer: its contents and its tailroom. *)
Record rx_buffer : Type := RxBuffer { rb_data : list Z; rb_room : nat }.

Record tls_rx : Type := TlsRx {
  rx_cipherspec : tls_cipherspec_pair;
  rx_number : Z;
  rx_state : tls_rx_state;
  rx_header : list Z;
  rx_data : list rx_buffer;
  rx_handshake : option (list Z);
}.

(** struct tls_session, less its links. *)
Record session_state : Type := SessionState {
  ss_name : list Z;
  ss_cert : option x509;
  ss_id : list Z;
  ss_id_len : nat;
  ss_ticket : list Z;
  ss_resumption : list Z;
  ss_resumption_len : nat;
  ss_ems : bool;
}.

(** What the connection says to its neighbours. *)
Inductive tls12_event : Type :=
  | TlsSent (data : list Z)
  | TlsDelivered (data : list Z)
  | TlsWindowChanged
  | TlsShutdown (rc : status)
  | TlsResumeAll
  | TlsValidate (chain : list x509).

(** struct tls_connection, with its session.  The pending operations are counters; the
    last four members stand for the world: the certificates marked valid on first use,
    whether the interfaces are shut down, what was said, and how often the environment was
    consulted. *)
Record tls_connection : Type := TlsConnection {
  session : session_state;
  session_id : list Z;
  session_id_len : nat;
  new_session_ticket : list Z;
  version : Z;
  secure_renegotiation : bool;
  extended_master_secret : bool;
  verify_client : list Z;
  verify_server : list Z;
  key : tls_key_schedule;
  tx : tls_tx;
  rx : tls_rx;
  client_random : list Z;
  client_key : list Z;
  client_chain : option (list x509);
  client_negotiation : nat;
  server_random : list Z;
  server_chain : option (list x509);
  server_validation : nat;
  server_negotiation : nat;
  marked : list x509;
  closed : bool;
  events : list tls12_event;
  tick : nat;
}.
End State.

#[export] Instance eta_cipherspec `{TlsLib} : Eta tls_cipherspec := fun c =>
  Cipherspec (cs_chosen c) (cs_ctx c) (cs_mac_secret c) (cs_fixed_iv c).
#[export] Instance eta_pair `{TlsLib} : Eta tls_cipherspec_pair := fun c =>
  CipherspecPair (cp_active c) (cp_pending c).
#[export] Instance eta_key `{TlsLib} : Eta tls_key_schedule := fun k =>
  KeySchedule (k_digest k) (k_group k) (k_keyed k) (k_bound k) (k_handshake k) (k_kdf k) (k_ephemeral k).
#[export] Instance eta_tx `{TlsLib} : Eta tls_tx := fun t =>
  TlsTx (tx_cipherspec t) (tx_number t) (tx_waiting t) (tx_process t).
#[export] Instance eta_rx `{TlsLib} : Eta tls_rx := fun r =>
  TlsRx (rx_cipherspec r) (rx_number r) (rx_state r) (rx_header r) (rx_data r) (rx_handshake r).
#[export] Instance eta_session `{TlsLib} : Eta session_state := fun s =>
  SessionState (ss_name s) (ss_cert s) (ss_id s) (ss_id_len s) (ss_ticket s) (ss_resumption s)
    (ss_resumption_len s) (ss_ems s).
#[export] Instance eta_connection `{TlsLib} : Eta tls_connection := fun t =>
  TlsConnection (session t) (session_id t) (session_id_len t) (new_session_ticket t) (version t)
    (secure_renegotiation t) (extended_master_secret t) (verify_client t) (verify_server t) (key t) (tx t) (rx t)
    (client_random t) (client_key t) (client_chain t) (client_negotiation t) (server_random t) (server_chain t)
    (server_validation t) (server_negotiation t) (marked t) (closed t) (events t) (tick t).

(** The suite a specification uses. *)
Definition cs_suite `{TlsLib} (c : tls_cipherspec) : tls_cipher_suite := default tls_cipher_suite_null (cs_chosen c).

(** ** Tables and configuration

    The linker tables are filled by other files; so is the lowest version allowed. *)
Class TlsTables `{TlsLib} := {
  TLS_CIPHER_SUITES : list tls_cipher_suite;
  TLS_SIG_HASH_ALGORITHMS : list tls_signature_hash_algorithm;
  TLS_NAMED_GROUPS : list tls_named_group;
  TLS_VERSION_MIN : Z;
  TLS_VERSION_MAX : Z;
}.

(** ** The environment

    Each consultation has its own number.  The consumer of the data may react to it by
    sending data and by closing the connection. *)
Record tls_reaction : Type := TlsReaction {
  tr_sends : list (list Z);
  tr_close : option status;
  tr_rc : status;
}.

Class TlsEnv `{TlsLib} := {
  te_alloc : nat -> bool;
  te_random : nat -> errno + list Z;
  te_transmit : nat -> status;
  te_receive : nat -> list Z -> tls_reaction;
  te_window : nat -> nat;
  te_validator : nat -> status;
  te_valid : nat -> x509 -> bool;
  te_others : nat -> bool;
  te_tofu_present : nat -> bool;
  te_tofu_store : nat -> x509 -> status;
  te_client_cert : nat -> option x509;
  te_auto_append : nat -> list x509 -> errno + list x509;
}.
