(* ===== verification/Tls12Keys.v ===== *)
(** * TLS connection: key schedule (net/tls.c, lines 1240-2035)

    The ephemeral secret, the pseudo-random function, the master secret, the key block, and
    the choice and change of cipher suites. *)

From stdpp Require Import base list strings.
From Stdlib Require Import ZArith Lia.
From S2P Require Import Prelude Crypto TlsKeys Tls12Base.

Section Keys.
Context {lib : TlsLib} {hkdf : HkdfOps} {tables : TlsTables} {env : TlsEnv}.
Abbreviation conn := tls_connection.

(** ** Utilities *)

(** The next answer of the environment. *)
Definition consult {A} (f : nat -> A) : M conn A := fun t => Ret (f (tick t)) (t <| tick ::= S |>).

(** What is said on an interface that was shut down reaches nobody. *)
Definition say (e : tls12_event) : M conn unit :=
  update (fun t => if closed t then t else t <| events ::= (fun l => l ++ [e]) |>).

Definition upd_key (f : tls_key_schedule -> tls_key_schedule) : M conn unit := update (fun t => t <| key ::= f |>).

Definition tls_uint24 (b : list Z) : Z := be_val b.
Definition tls_set_uint24 (n : nat) : list Z := be_bytes 3 (Z.of_nat n).

Definition tls_ready (t : conn) : bool :=
  bool_decide (client_negotiation t = 0%nat) && bool_decide (server_negotiation t = 0%nat).

Definition tls_version (t : conn) (v : Z) : bool := (v <=? TLS_VERSION_MIN) || (v <=? version t).

(** ** Ephemeral secrets *)
Definition tls_generate_ephemeral_master : M conn status :=
  let* r := consult te_random in
  match r with
  | inl e => ret (Err e)
  | inr bits =>
      do* upd_key (fun k => k <| k_ephemeral := hkdf_extract sha256_algorithm (bstr "ephemeral master") bits |>) in
      ret OK
  end.

Definition tls_ephemeral (info : list Z) (len : nat) (t : conn) : list Z :=
  hkdf_expand sha256_algorithm (k_ephemeral (key t)) info len.

Definition tls_ephemeral_label (label : list Z) (len : nat) (t : conn) : list Z := tls_ephemeral label len t.

Definition tls_regenerate_ephemeral_master : M conn unit :=
  let* e := gets (tls_ephemeral_label (bstr "key reset") 32) in
  do* upd_key (fun k => k <| k_ephemeral := e |>) in
  let* r := gets (tls_ephemeral_label (bstr "client random") 32) in
  update (fun t => t <| client_random := r |>).

(** ** Binding *)
Definition tls_clear_binding : M conn unit := upd_key (fun k => k <| k_bound := None |>).

Definition tls_set_binding (cert : option x509) : M conn unit :=
  do* tls_clear_binding in
  let* keyed := gets (fun t => k_keyed (key t)) in
  if negb keyed then ret tt else upd_key (fun k => k <| k_bound := cert |>).

Definition tls_clear_digest : M conn unit :=
  do* upd_key (fun k => ((k <| k_digest := digest_null |>) <| k_handshake := None |>) <| k_kdf := None |>) in
  do* tls_clear_binding in
  upd_key (fun k => k <| k_keyed := false |>).

Definition tls_set_digest (digest : dalg) : M conn status :=
  do* tls_clear_digest in
  let* v12 := gets (fun t => tls_version t TLS_VERSION_TLS_1_2) in
  let kdfsize := if v12 then hmac_keysize digest else (hmac_keysize md5_algorithm + hmac_keysize sha1_algorithm)%nat in
  let* ok := consult te_alloc in
  if negb ok then ret (Err ENOMEM) else
  do* upd_key (fun k => (k <| k_digest := digest |>) <| k_handshake := Some (d_init digest) |>) in
  let* poison := gets (tls_ephemeral_label (bstr "kdf poison") kdfsize) in
  do* upd_key (fun k => k <| k_kdf := Some poison |>) in
  ret OK.

(** ** The pseudo-random function *)
Definition tls_hmac_update_va (d : dalg) (ctx : hctx) (seeds : list (list Z)) : hctx := foldl (h_update d) ctx seeds.

(** The loop of [tls_p_hash_va]; [a] is A(i). *)
Fixpoint p_hash_loop (fuel : nat) (d : dalg) (hkey : list Z) (seeds : list (list Z)) (a : list Z) (out_len : nat)
  : option (list Z) :=
  if bool_decide (out_len = 0%nat) then Some [] else
  match fuel with
  | O => None
  | S fuel =>
      let ctx := hmac_init_key d hkey in
      let ctx := h_update d ctx a in
      let ctx_partial := ctx in
      let out_tmp := h_final d (tls_hmac_update_va d ctx seeds) in
      let frag_len := Nat.min (dsize d) out_len in
      rest ← p_hash_loop fuel d hkey seeds (h_final d ctx_partial) (out_len - frag_len);
      Some (take frag_len out_tmp ++ rest)
  end.

(** [tls_p_hash_va]: [None] when it does not end. *)
Definition tls_p_hash_va (d : dalg) (hkey : list Z) (out_len : nat) (seeds : list (list Z)) : option (list Z) :=
  let a := h_final d (tls_hmac_update_va d (hmac_init_key d hkey) seeds) in
  p_hash_loop out_len d hkey seeds a out_len.

Definition of_loop {A} (o : option A) : M conn A :=
  match o with Some a => ret a | None => fun _ => NoFuel end.

(** The KDF secret; without storage it is a null pointer, of which nothing is read. *)
Definition kdf_bytes (t : conn) : list Z := default [] (k_kdf (key t)).

Definition tls_prf (out_len : nat) (seeds : list (list Z)) : M conn (list Z) :=
  let* v12 := gets (fun t => tls_version t TLS_VERSION_TLS_1_2) in
  let* digest := gets (fun t => k_digest (key t)) in
  let* kdf := gets kdf_bytes in
  if (v12 : bool) then of_loop (tls_p_hash_va digest kdf out_len seeds) else
  let* md5_key := of_option (read 0 (hmac_keysize md5_algorithm) kdf) in
  let* sha1_key := of_option (read (hmac_keysize md5_algorithm) (hmac_keysize sha1_algorithm) kdf) in
  let* out := of_loop (tls_p_hash_va md5_algorithm md5_key out_len seeds) in
  let* buf := of_loop (tls_p_hash_va sha1_algorithm sha1_key out_len seeds) in
  ret (zip_with Z.lxor out buf).

Definition tls_prf_label (out_len : nat) (label : list Z) (seeds : list (list Z)) : M conn (list Z) :=
  tls_prf out_len (label :: seeds).

(** Writing into the storage of the KDF secret. *)
Definition put_kdf (off : nat) (data : list Z) : M conn unit :=
  let* kdf := gets kdf_bytes in
  let* kdf := of_option (memcpy off data kdf) in
  upd_key (fun k => k <| k_kdf ::= option_map (fun _ => kdf) |>).

Definition tls_set_kdf_master (secret : list Z) : M conn unit :=
  let* v12 := gets (fun t => tls_version t TLS_VERSION_TLS_1_2) in
  let* digest := gets (fun t => k_digest (key t)) in
  if (v12 : bool) then put_kdf 0 (hmac_key digest secret) else
  let subsecret_len := ((length secret + 1) / 2)%nat in
  do* put_kdf 0 (hmac_key md5_algorithm (take subsecret_len secret)) in
  put_kdf (hmac_keysize md5_algorithm) (hmac_key sha1_algorithm (drop (length secret - subsecret_len) secret)).

(** ** Ephemeral key exchange *)

(** The group of the key schedule; the code follows the pointer. *)
Definition key_group : M conn tls_named_group :=
  let* g := gets (fun t => k_group (key t)) in of_option g.

Definition tls_share_ephemeral : M conn (errno + list Z) :=
  let* group := key_group in
  let exchange := ng_exchange group in
  let* private := gets (tls_ephemeral_label (ex_name exchange) (ex_privsize exchange)) in
  ret (ex_share exchange private).

(** "Strip leading zeros" *)
Fixpoint strip_zeros (l : list Z) : list Z :=
  match l with
  | b :: l' => if b =? 0 then strip_zeros l' else l
  | [] => []
  end.

Definition EINVAL_KEY_EXCHANGE : errno := EINVAL.

Definition tls_agree_ephemeral (partner : list Z) (strip : bool) : M conn status :=
  let* group := key_group in
  let exchange := ng_exchange group in
  let* ok := consult te_alloc in
  if negb ok then ret (Err ENOMEM) else
  let* private := gets (tls_ephemeral_label (ex_name exchange) (ex_privsize exchange)) in
  if bool_decide (ex_pubsize exchange < length partner)%nat then ret (Err EINVAL_KEY_EXCHANGE) else
  let pad_len := (ex_pubsize exchange - length partner)%nat in
  if negb (bool_decide (pad_len = 0%nat)) && negb strip then ret (Err EINVAL_KEY_EXCHANGE) else
  match ex_agree exchange private (zeros pad_len ++ partner) with
  | inl e => ret (Err e)
  | inr shared =>
      do* tls_set_kdf_master (if strip then strip_zeros shared else shared) in
      do* tls_clear_binding in
      do* upd_key (fun k => k <| k_keyed := true |>) in
      ret OK
  end.

(** ** Handshake verification *)
Definition tls_add_handshake (data : list Z) : M conn unit :=
  upd_key (fun k => k <| k_handshake ::= option_map (fun ctx => d_update (k_digest k) ctx data) |>).

(** The digest of the messages; the null digest has no output. *)
Definition tls_verify_handshake (t : conn) : list Z :=
  match k_handshake (key t) with
  | Some ctx => d_final (k_digest (key t)) ctx
  | None => []
  end.

(** ** Master secret and keys *)
Definition tls_generate_master_secret : M conn unit :=
  let* digest_out := gets tls_verify_handshake in
  let* t := get in
  let* master_secret :=
    (if extended_master_secret t then tls_prf_label 48 (bstr "extended master secret") [digest_out]
     else tls_prf_label 48 (bstr "master secret") [client_random t; server_random t]) in
  tls_set_kdf_master master_secret.

Definition upd_tx (f : tls_tx -> tls_tx) : M conn unit := update (fun t => t <| tx ::= f |>).
Definition upd_rx (f : tls_rx -> tls_rx) : M conn unit := update (fun t => t <| rx ::= f |>).

Definition tx_pending_spec (t : conn) : tls_cipherspec := cp_pending (tx_cipherspec (tx t)).
Definition rx_pending_spec (t : conn) : tls_cipherspec := cp_pending (rx_cipherspec (rx t)).
Definition upd_tx_pending (f : tls_cipherspec -> tls_cipherspec) : M conn unit :=
  upd_tx (fun x => x <| tx_cipherspec ::= (fun p => p <| cp_pending ::= f |>) |>).
Definition upd_rx_pending (f : tls_cipherspec -> tls_cipherspec) : M conn unit :=
  upd_rx (fun x => x <| rx_cipherspec ::= (fun p => p <| cp_pending ::= f |>) |>).

(** [memcpy] into the MAC secret or the initialisation vector of a specification. *)
Definition fill (dst src : list Z) : M conn (list Z) := of_option (memcpy 0 src dst).

(** [cipher_setkey] on a specification. *)
Definition set_key (c : tls_cipherspec) (alg : calg) (k : list Z) : errno + tls_cipherspec :=
  match cipher_setkey alg (cs_ctx c) k with
  | inl e => inl e
  | inr ctx => inr (c <| cs_ctx := ctx |>)
  end.

Definition tls_generate_keys : M conn status :=
  let* suite := gets (fun t => cs_suite (tx_pending_spec t)) in
  let hash_size := su_mac_len suite in
  let key_size := su_key_len suite in
  let iv_size := su_fixed_iv_len suite in
  let total := (2 * (hash_size + key_size + iv_size))%nat in
  let* t := get in
  let* key_block := tls_prf_label total (bstr "key expansion") [server_random t; client_random t] in
  let* m := fill (cs_mac_secret (tx_pending_spec t)) (sub 0 hash_size key_block) in
  do* upd_tx_pending (fun c => c <| cs_mac_secret := m |>) in
  let* m := fill (cs_mac_secret (rx_pending_spec t)) (sub hash_size hash_size key_block) in
  do* upd_rx_pending (fun c => c <| cs_mac_secret := m |>) in
  let* c := gets tx_pending_spec in
  match set_key c (su_cipher suite) (sub (2 * hash_size) key_size key_block) with
  | inl e => ret (Err e)
  | inr c =>
      do* upd_tx_pending (fun _ => c) in
      let* c := gets rx_pending_spec in
      match set_key c (su_cipher (cs_suite c)) (sub (2 * hash_size + key_size) key_size key_block) with
      | inl e => ret (Err e)
      | inr c =>
          do* upd_rx_pending (fun _ => c) in
          let* v := fill (cs_fixed_iv (tx_pending_spec t)) (sub (2 * hash_size + 2 * key_size) iv_size key_block) in
          do* upd_tx_pending (fun c => c <| cs_fixed_iv := v |>) in
          let* v := fill (cs_fixed_iv (rx_pending_spec t))
                      (sub (2 * hash_size + 2 * key_size + iv_size) iv_size key_block) in
          do* upd_rx_pending (fun c => c <| cs_fixed_iv := v |>) in
          ret OK
      end
  end.

(** ** Resumption *)
Definition upd_session (f : session_state -> session_state) : M conn unit := update (fun t => t <| session ::= f |>).

Definition tls_generate_resumption_master : M conn unit :=
  let* v12 := gets (fun t => tls_version t TLS_VERSION_TLS_1_2) in
  let* kdf := gets kdf_bytes in
  let* secret :=
    (if (v12 : bool) then of_option (read 0 48 kdf)
     else
       let* m := of_option (read 0 24 kdf) in
       let* s := of_option (read (hmac_keysize md5_algorithm) 24 kdf) in
       ret (m ++ s)) in
  upd_session (fun s => (s <| ss_resumption := secret |>) <| ss_resumption_len := 48%nat |>).

Definition tls_resume_secret : M conn unit :=
  let* s := gets session in
  do* tls_set_kdf_master (take (ss_resumption_len s) (ss_resumption s)) in
  do* upd_key (fun k => k <| k_keyed := negb (bool_decide (ss_resumption_len s = 0%nat)) |>) in
  tls_set_binding (ss_cert s).

(** ** Cipher suites *)
Definition tls_find_cipher_suite (code : Z) : option tls_cipher_suite :=
  List.find (fun s => su_code s =? code) TLS_CIPHER_SUITES.

Definition tls_clear_cipher : tls_cipherspec := Cipherspec None (cctx_zero cipher_null) [] [].

(** [tls_set_cipher]: the specification is cleared first. *)
Definition tls_set_cipher (suite : tls_cipher_suite) : M conn (errno * tls_cipherspec + tls_cipherspec) :=
  let* ok := consult te_alloc in
  ret (if negb ok then inl (ENOMEM, tls_clear_cipher)
       else inr (Cipherspec (Some suite) (cctx_zero (su_cipher suite)) (zeros (su_mac_len suite))
                   (zeros (su_fixed_iv_len suite)))).

Definition tls_select_cipher (code : Z) : M conn status :=
  match tls_find_cipher_suite code with
  | None => ret (Err ENOTSUP)
  | Some suite =>
      let* v12 := gets (fun t => tls_version t TLS_VERSION_TLS_1_2) in
      try* tls_set_digest (if (v12 : bool) then su_handshake suite else md5_sha1_algorithm) in
      let* r := tls_set_cipher suite in
      match r with
      | inl (e, c) => do* upd_tx_pending (fun _ => c) in ret (Err e)
      | inr c =>
          do* upd_tx_pending (fun _ => c) in
          let* r := tls_set_cipher suite in
          match r with
          | inl (e, c) => do* upd_rx_pending (fun _ => c) in ret (Err e)
          | inr c => do* upd_rx_pending (fun _ => c) in ret OK
          end
      end
  end.

(** [tls_change_cipher]: the pending specification becomes active; the null cipher is
    refused. *)
Definition tls_change_cipher (p : tls_cipherspec_pair) : errno + tls_cipherspec_pair :=
  match cs_chosen (cp_pending p) with
  | None => inl ENOTSUP
  | Some _ => inr (CipherspecPair (cp_pending p) tls_clear_cipher)
  end.

(** ** Signature algorithms and groups *)
Definition tls_signature_hash_algorithm_find (pubkey : pkalg) (digest : dalg) : option tls_signature_hash_algorithm :=
  List.find (fun s => bool_decide (sh_pubkey s = pubkey) && bool_decide (sh_digest s = digest)) TLS_SIG_HASH_ALGORITHMS.

Definition tls_find_signature_hash (code : Z) : option tls_signature_hash_algorithm :=
  List.find (fun s => sh_code s =? code) TLS_SIG_HASH_ALGORITHMS.

Definition tls_find_named_group (code : Z) : option tls_named_group :=
  List.find (fun g => negb (ng_code g =? 0) && (ng_code g =? code)) TLS_NAMED_GROUPS.

Definition tls_find_param_group (dh_p dh_g : list Z) : option tls_named_group :=
  List.find (fun g => is_ffdhe (ng_exchange g) && ffdhe_has_params (ng_exchange g) dh_p dh_g) TLS_NAMED_GROUPS.
End Keys.
