(* ===== verification/Tls12Tx.v ===== *)
(** * TLS connection: transmission (net/tls.c, lines 2390-3270 and 4270-4560)

    Record protection for sending, and the messages the client sends. *)

From stdpp Require Import base list strings.
From Stdlib Require Import ZArith Lia.
From S2P Require Import Prelude Crypto TlsKeys Tofu Tls12Base Tls12Keys.

Section Tx.
Context {lib : TlsLib} {hkdf : HkdfOps} {tables : TlsTables} {env : TlsEnv}.
Abbreviation conn := tls_connection.

(** ** Record protection *)

(** struct tls_header, and the authentication header with the sequence number. *)
Definition tls_header (type version : Z) (len : nat) : list Z :=
  [u8 type] ++ be_bytes 2 version ++ be_bytes 2 (Z.of_nat len).
Definition tls_auth_header (seq type version : Z) (len : nat) : list Z :=
  be_bytes 8 seq ++ tls_header type version len.

Definition tls_hmac_init (c : tls_cipherspec) (authhdr : list Z) : hctx :=
  let digest := su_digest (cs_suite c) in
  h_update digest (h_init digest (take (su_mac_len (cs_suite c)) (cs_mac_secret c))) authhdr.
Definition tls_hmac_update (c : tls_cipherspec) (ctx : hctx) (data : list Z) : hctx :=
  h_update (su_digest (cs_suite c)) ctx data.
Definition tls_hmac_final (c : tls_cipherspec) (ctx : hctx) : list Z := h_final (su_digest (cs_suite c)) ctx.

Definition tls_hmac (c : tls_cipherspec) (authhdr data : list Z) : list Z :=
  tls_hmac_final c (tls_hmac_update c (tls_hmac_init c authhdr) data).
Definition tls_hmac_list (c : tls_cipherspec) (authhdr : list Z) (l : list (list Z)) : list Z :=
  tls_hmac_final c (foldl (tls_hmac_update c) (tls_hmac_init c authhdr) l).

Definition tx_active (t : conn) : tls_cipherspec := cp_active (tx_cipherspec (tx t)).
Definition upd_tx_active (f : tls_cipherspec -> tls_cipherspec) : M conn unit :=
  upd_tx (fun x => x <| tx_cipherspec ::= (fun p => p <| cp_active ::= f |>) |>).

(** "Calculate maximum additional length per record" *)
Definition record_overhead (suite : tls_cipher_suite) : nat :=
  (TLS_HEADER_LEN + su_record_iv_len suite + su_mac_len suite +
   (if is_block_cipher (su_cipher suite) then blocksize (su_cipher suite) else 0) + c_authsize (su_cipher suite))%nat.

Definition tls_iob_reserved (t : conn) (len : nat) : nat :=
  let count := (if bool_decide (len = 0%nat) then 1 else (len + TLS_TX_BUFSIZE - 1) / TLS_TX_BUFSIZE)%nat in
  (count * record_overhead (cs_suite (tx_active t)))%nat.

(** [tls_alloc_iob]: whether there is memory for the data and the reserve. *)
Definition tls_alloc_iob : M conn bool := consult te_alloc.

Definition cipher_pad_len (alg : calg) (encrypt_len : nat) : nat :=
  if is_block_cipher alg
  then Z.to_nat (Z.land (Z.of_nat (blocksize alg) - 1) (- (Z.of_nat encrypt_len + 1)) + 1)
  else 0%nat.

(** One turn of the loop of [tls_send_record]: the record for a piece of the data. *)
Definition send_one (type : Z) (plaintext : list Z) : M conn (errno + list Z) :=
  let* t := get in
  let c := tx_active t in
  let suite := cs_suite c in
  let cipher := su_cipher suite in
  let authhdr := tls_auth_header (tx_number (tx t)) type (version t) (length plaintext) in
  let* fixed := of_option (read 0 (su_fixed_iv_len suite) (cs_fixed_iv c)) in
  let rec := tls_ephemeral authhdr (su_record_iv_len suite) t in
  match cipher_setiv cipher (cs_ctx c) (fixed ++ rec) with
  | inl e => ret (inl e)
  | inr ctx =>
      let* mac := of_option (if bool_decide (su_mac_len suite = 0%nat) then Some []
                             else read 0 (su_mac_len suite) (tls_hmac c authhdr plaintext)) in
      let ctx := if is_auth_cipher cipher then c_encrypt_aad cipher ctx authhdr else ctx in
      let pad_len := cipher_pad_len cipher (length plaintext + su_mac_len suite) in
      let padding := replicate pad_len (u8 (Z.of_nat pad_len - 1)) in
      let encrypt_len := (length plaintext + su_mac_len suite + pad_len)%nat in
      let '(ctx, ciphertext) := c_encrypt cipher ctx (plaintext ++ mac ++ padding) in
      let '(ctx, tag) := c_auth cipher ctx in
      do* upd_tx_active (fun c => c <| cs_ctx := ctx |>) in
      do* upd_tx (fun x => x <| tx_number ::= (fun n => u64 (n + 1)) |>) in
      ret (inr (tls_header type (version t) (su_record_iv_len suite + encrypt_len + c_authsize cipher) ++
                rec ++ ciphertext ++ tag))
  end.

(** "Construct records": at least one, of at most [TLS_TX_BUFSIZE] bytes each. *)
Fixpoint send_loop (fuel : nat) (type : Z) (data out : list Z) : M conn (errno + list Z) :=
  match fuel with
  | O => fun _ => NoFuel
  | S fuel =>
      let* r := send_one type (take TLS_TX_BUFSIZE data) in
      match r with
      | inl e => ret (inl e)
      | inr record =>
          let rest := drop TLS_TX_BUFSIZE data in
          if bool_decide (rest = []) then ret (inr (out ++ record))
          else send_loop fuel type rest (out ++ record)
      end
  end.

Definition tls_send_record (type : Z) (data : list Z) : M conn status :=
  do* (if type =? TLS_TYPE_HANDSHAKE then tls_add_handshake data else ret tt) in
  let! out := send_loop (S (length data)) type data [] in
  do* say (TlsSent out) in
  consult te_transmit.

Definition tls_send_plaintext (type : Z) (data : list Z) : M conn status :=
  let* ok := tls_alloc_iob in
  if negb ok then ret (Err ENOMEM) else tls_send_record type data.

Definition tls_send_handshake (data : list Z) : M conn status := tls_send_plaintext TLS_TYPE_HANDSHAKE data.

Definition tls_send_alert (level description : Z) : M conn status :=
  tls_send_plaintext TLS_TYPE_ALERT [u8 level; u8 description].

(** ** Closing *)
Definition tls_tx_resume : M conn unit := upd_tx (fun x => x <| tx_process := true |>).

Definition tls_tx_resume_all : M conn unit := update (fun t => t <| events ::= (fun l => l ++ [TlsResumeAll]) |>).

(** The connection leaves the list of its session before the others are resumed. *)
Definition tls_close (rc : status) : M conn unit :=
  do* update (fun t => ((t <| client_negotiation ::= pred |>) <| server_negotiation ::= pred |>)
                         <| server_validation ::= pred |>) in
  do* upd_tx (fun x => x <| tx_process := false |>) in
  do* say (TlsShutdown rc) in
  do* update (fun t => t <| closed := true |>) in
  do* tls_regenerate_ephemeral_master in
  tls_tx_resume_all.

Definition tls_close_alert (rc : status) : M conn unit :=
  do* tls_send_alert TLS_ALERT_WARNING TLS_ALERT_CLOSE_NOTIFY in
  tls_close rc.

Definition tls_restart : M conn unit :=
  do* tls_regenerate_ephemeral_master in
  do* upd_tx (fun x => x <| tx_waiting := TLS_TX_CLIENT_HELLO |>) in
  do* tls_tx_resume in
  update (fun t => (t <| client_negotiation ::= S |>) <| server_negotiation ::= S |>).

(** ** Messages *)

(** The type and length of a message: [cpu_to_le32 ( type ) | htonl ( len )]. *)
Definition type_length (type : Z) (len : nat) : list Z :=
  Z.lor type (u8 (Z.shiftr (Z.of_nat len) 24)) :: be_bytes 3 (Z.of_nat len).
Definition hs_message (type : Z) (body : list Z) : list Z := type_length type (length body) ++ body.

Definition be16 (n : nat) : list Z := be_bytes 2 (Z.of_nat n).
Definition extension (type : Z) (data : list Z) : list Z := be_bytes 2 type ++ be16 (length data) ++ data.
Definition codes (l : list Z) : list Z := concat (map (be_bytes 2) l).
Definition vector16 (l : list Z) : list Z := be16 (length l) ++ l.

Definition server_name_ext (name : list Z) : list Z :=
  extension TLS_SERVER_NAME (vector16 ([TLS_SERVER_NAME_HOST_NAME] ++ vector16 name)).
Definition max_fragment_length_ext : list Z := extension TLS_MAX_FRAGMENT_LENGTH [TLS_MAX_FRAGMENT_LENGTH_VALUE].
Definition signature_algorithms_ext : list Z :=
  extension TLS_SIGNATURE_ALGORITHMS (vector16 (codes (map sh_code TLS_SIG_HASH_ALGORITHMS))).
Definition renegotiation_info_ext (t : conn) : list Z :=
  let data := if secure_renegotiation t then verify_client t else [] in
  extension TLS_RENEGOTIATION_INFO ([u8 (Z.of_nat (length data))] ++ data).
Definition session_ticket_ext (t : conn) : list Z := extension TLS_SESSION_TICKET (ss_ticket (session t)).
Definition extended_master_secret_ext : list Z := extension TLS_EXTENDED_MASTER_SECRET [].
Definition named_group_ext : list Z :=
  match filter (fun c => c <> 0) (map ng_code TLS_NAMED_GROUPS) with
  | [] => []
  | l => extension TLS_NAMED_GROUP (vector16 (codes l))
  end.

Definition client_hello_record (t : conn) : list Z :=
  hs_message TLS_CLIENT_HELLO
    (be_bytes 2 TLS_VERSION_MAX ++ client_random t ++
     [u8 (Z.of_nat (session_id_len t))] ++ take (session_id_len t) (session_id t) ++
     vector16 (codes (map su_code TLS_CIPHER_SUITES)) ++ [1; 0] ++
     vector16 (server_name_ext (ss_name (session t)) ++ max_fragment_length_ext ++ signature_algorithms_ext ++
       renegotiation_info_ext t ++ session_ticket_ext t ++ extended_master_secret_ext ++ named_group_ext)).

(** [tls_client_hello]: the action is to send the message, or to add it to the digest. *)
Definition tls_client_hello {A} (action : list Z -> M conn A) : M conn A :=
  let* msg := gets client_hello_record in action msg.

Definition tls_send_client_hello : M conn status := tls_client_hello tls_send_handshake.

Definition vector24 (l : list Z) : list Z := tls_set_uint24 (length l) ++ l.

Definition tls_send_certificate : M conn status :=
  let* chain := gets client_chain in
  let* chain := of_option chain in
  let* ok := tls_alloc_iob in
  if negb ok then ret (Err ENOMEM) else
  tls_send_record TLS_TYPE_HANDSHAKE
    (hs_message TLS_CERTIFICATE (vector24 (concat (map (fun c => vector24 (cert_raw c)) chain)))).

(** The first certificate of a chain, if any. *)
Definition x509_first (chain : option (list x509)) : option x509 := default [] chain !! 0%nat.

Definition tls_send_client_key_exchange_pubkey : M conn status :=
  let* suite := gets (fun t => cs_suite (tx_pending_spec t)) in
  let* random := gets (tls_ephemeral_label (bstr "classic pre-master") 46) in
  let pre_master_secret := be_bytes 2 TLS_VERSION_MAX ++ random in
  do* tls_set_kdf_master pre_master_secret in
  do* tls_clear_binding in
  do* upd_key (fun k => k <| k_keyed := true |>) in
  let* cert := gets (fun t => x509_first (server_chain t)) in
  match cert with
  | None => ret (Err ENOENT)
  | Some cert =>
      let* r := consult (pubkey_encrypt (su_pubkey suite) (cert_public_key cert) pre_master_secret) in
      match r with
      | inl e => ret (Err e)
      | inr encrypted =>
          let* ok := consult te_alloc in
          if negb ok then ret (Err ENOMEM) else
          try* tls_send_handshake (hs_message TLS_CLIENT_KEY_EXCHANGE (vector16 encrypted)) in
          do* tls_set_binding (Some cert) in
          ret OK
      end
  end.

Definition tls_send_client_key_exchange_dhe : M conn status :=
  let* group := key_group in
  let* ok := consult te_alloc in
  if negb ok then ret (Err ENOMEM) else
  let! dh_xs := tls_share_ephemeral in
  let pubsize := ex_pubsize (ng_exchange group) in
  tls_send_handshake (type_length TLS_CLIENT_KEY_EXCHANGE (2 + pubsize) ++ be16 pubsize ++ dh_xs).

Definition tls_send_client_key_exchange_ecdhe : M conn status :=
  let* group := key_group in
  let! public := tls_share_ephemeral in
  let pubsize := ex_pubsize (ng_exchange group) in
  tls_send_handshake (type_length TLS_CLIENT_KEY_EXCHANGE (1 + pubsize) ++ [u8 (Z.of_nat pubsize)] ++ public).

Definition tls_send_client_key_exchange : M conn status :=
  let* suite := gets (fun t => cs_suite (tx_pending_spec t)) in
  try* (match su_exchange suite with
        | tls_pubkey_exchange_algorithm => tls_send_client_key_exchange_pubkey
        | tls_dhe_exchange_algorithm => tls_send_client_key_exchange_dhe
        | tls_ecdhe_exchange_algorithm => tls_send_client_key_exchange_ecdhe
        end) in
  do* tls_generate_master_secret in
  tls_generate_keys.

Definition tls_send_certificate_verify : M conn status :=
  let* t := get in
  let digest := k_digest (key t) in
  let* cert := of_option (x509_first (client_chain t)) in
  let pubkey := cert_signature_pubkey cert in
  let digest_out := tls_verify_handshake t in
  let v12 := tls_version t TLS_VERSION_TLS_1_2 in
  let sig_hash := if v12 then tls_signature_hash_algorithm_find pubkey digest else None in
  if v12 && negb (bool_decide (is_Some sig_hash)) then ret (Err ENOTSUP) else
  let* r := consult (pubkey_sign pubkey (client_key t) digest digest_out) in
  match r with
  | inl e => ret (Err e)
  | inr signature =>
      let* ok := consult te_alloc in
      if negb ok then ret (Err ENOMEM) else
      tls_send_handshake (hs_message TLS_CERTIFICATE_VERIFY
        (match sig_hash with Some s => be_bytes 2 (sh_code s) | None => [] end ++ vector16 signature))
  end.

Definition tls_send_change_cipher : M conn status :=
  tls_send_plaintext TLS_TYPE_CHANGE_CIPHER [TLS_CHANGE_CIPHER_SPEC].

(** [x509_is_valid]: what the library knows, and the certificates marked on first use. *)
Definition x509_is_valid (cert : x509) : M conn bool :=
  let* t := get in
  let* valid := consult (fun n => te_valid n cert) in
  ret (valid || bool_decide (cert ∈ marked t)).

Definition tls_send_finished : M conn status :=
  let* bound := gets (fun t => k_bound (key t)) in
  let* ok := match bound with Some cert => x509_is_valid cert | None => ret false end in
  if negb ok then ret (Err EPERM) else
  let* digest_out := gets tls_verify_handshake in
  let* verify := tls_prf_label 12 (bstr "client finished") [digest_out] in
  do* update (fun t => t <| verify_client := verify |>) in
  try* tls_send_handshake (hs_message TLS_FINISHED verify) in
  do* update (fun t => t <| client_negotiation ::= pred |>) in
  ret OK.
End Tx.
