(* ===== verification/Tls12Rx.v ===== *)
(** * TLS connection: reception (net/tls.c, lines 2255-2390, 2590-2700, 3270-4260 and 4560-4980)

    The messages of the server, the records they come in, and the stream that brings them. *)

From stdpp Require Import base list strings.
From Stdlib Require Import ZArith Lia.
From S2P Require Import Prelude Crypto TlsKeys Tofu Tls12Base Tls12Keys Tls12Tx.

Section Rx.
Context {lib : TlsLib} {hkdf : HkdfOps} {tables : TlsTables} {env : TlsEnv}.
Abbreviation conn := tls_connection.

(** ** Change Cipher and Alert

    A handler returns what it leaves unconsumed of its buffer. *)
Definition tls_new_change_cipher (data : list Z) : M conn (status * list Z) :=
  match data with
  | [spec] =>
      if negb (spec =? TLS_CHANGE_CIPHER_SPEC) then ret (Err EINVAL, data) else
      let* p := gets (fun t => rx_cipherspec (rx t)) in
      match tls_change_cipher p with
      | inl e => ret (Err e, [])
      | inr p =>
          do* upd_rx (fun r => (r <| rx_cipherspec := p |>) <| rx_number := 2 ^ 64 - 1 |>) in
          ret (OK, [])
      end
  | _ => ret (Err EINVAL, data)
  end.

Definition tls_new_alert (data : list Z) : M conn (status * list Z) :=
  match data with
  | [level; description] =>
      if level =? TLS_ALERT_WARNING then
        do* (if description =? TLS_ALERT_CLOSE_NOTIFY then tls_close OK else ret tt) in ret (OK, [])
      else if level =? TLS_ALERT_FATAL then ret (Err EPERM, [])
      else ret (Err EIO, [])
  | _ => ret (Err EINVAL, data)
  end.

(** ** Hello Request and Server Hello *)
Definition tls_new_hello_request : M conn status :=
  let* t := get in
  if negb (tls_ready t) then ret OK else
  if negb (secure_renegotiation t && extended_master_secret t) then ret (Err EPERM) else
  do* tls_restart in ret OK.

Record server_hello : Type := ServerHello12 {
  sh_version : Z;
  sh_random : list Z;
  sh_session_id : list Z;
  sh_cipher_suite : Z;
  sh_reneg : option (list Z);
  sh_ems : bool;
}.

(** The loop over the extensions; [None] is an underlength extension. *)
Fixpoint hello_extensions (fuel : nat) (l : list Z) (reneg : option (list Z)) (ems : bool)
  : option (option (list Z) * bool) :=
  match l with
  | [] => Some (reneg, ems)
  | _ =>
      match fuel with
      | O => None
      | S fuel =>
          if bool_decide (length l < 4)%nat then None else
          let type := be_val (sub 0 2 l) in
          let ext_len := Z.to_nat (be_val (sub 2 2 l)) in
          if bool_decide (length l - 4 < ext_len)%nat then None else
          let data := sub 4 ext_len l in
          let next := hello_extensions fuel (drop (4 + ext_len) l) in
          if type =? TLS_RENEGOTIATION_INFO then
            match data with
            | [] => None
            | len :: info =>
                if bool_decide (length info < Z.to_nat len)%nat then None
                else next (Some (take (Z.to_nat len) info)) ems
            end
          else if type =? TLS_EXTENDED_MASTER_SECRET then next reneg true
          else next reneg ems
      end
  end.

(** "Parse header", "Parse extensions" *)
Definition parse_hello (data : list Z) : option server_hello :=
  if bool_decide (length data < 35)%nat then None else
  let id_len := Z.to_nat (byte_at data 34) in
  if bool_decide (length data - 35 < id_len)%nat || bool_decide (length data - 35 - id_len < 3)%nat then None else
  let hello reneg_ems := ServerHello12 (be_val (sub 0 2 data)) (sub 2 32 data) (sub 35 id_len data)
    (be_val (sub (35 + id_len) 2 data)) (fst reneg_ems) (snd reneg_ems) in
  let exts := drop (38 + id_len) data in
  if bool_decide (exts = []) then Some (hello (None, false)) else
  if bool_decide (length exts < 2)%nat then None else
  let exts_len := Z.to_nat (be_val (sub 0 2 exts)) in
  if bool_decide (length exts - 2 < exts_len)%nat then None else
  hello <$> hello_extensions exts_len (sub 2 exts_len exts) None false.

(** "Handle secure renegotiation" *)
Definition check_renegotiation (reneg : option (list Z)) : M conn status :=
  let* t := get in
  if secure_renegotiation t then
    if bool_decide (reneg = Some (verify_client t ++ verify_server t)) then ret OK else ret (Err EPERM)
  else
    match reneg with
    | None => ret OK
    | Some [] => do* update (fun t => t <| secure_renegotiation := true |>) in ret OK
    | Some _ => ret (Err EPERM)
    end.

(** "Check session ID" *)
Definition check_session_id (id : list Z) : M conn status :=
  let* t := get in
  if bool_decide (id <> []) && bool_decide (id = take (session_id_len t) (session_id t)) then
    do* tls_resume_secret in
    try* tls_generate_keys in
    let* t := get in
    if negb (Bool.eqb (extended_master_secret t) (ss_ems (session t))) then ret (Err EPERM) else ret OK
  else if bool_decide (id <> []) && bool_decide (length id <= 32)%nat then
    do* update (fun t => (t <| session_id_len := length id |>) <| session_id ::= splice 0 id |>) in ret OK
  else ret OK.

Definition tls_new_server_hello (data : list Z) : M conn status :=
  match parse_hello data with
  | None => ret (Err EINVAL)
  | Some hello =>
      let* v := gets version in
      if sh_version hello <? TLS_VERSION_MIN then ret (Err ENOTSUP) else
      if v <? sh_version hello then ret (Err EPROTO) else
      do* update (fun t => t <| version := sh_version hello |>) in
      try* tls_select_cipher (sh_cipher_suite hello) in
      do* tls_client_hello tls_add_handshake in
      do* update (fun t => t <| server_random := sh_random hello |>) in
      do* update (fun t => t <| extended_master_secret := sh_ems hello |>) in
      try* check_session_id (sh_session_id hello) in
      check_renegotiation (sh_reneg hello)
  end.

(** ** Session ticket and certificates *)
Definition tls_new_session_ticket (data : list Z) : M conn status :=
  if bool_decide (length data < 6)%nat then ret (Err EINVAL) else
  let ticket_len := Z.to_nat (be_val (sub 4 2 data)) in
  if bool_decide (length data - 6 < ticket_len)%nat then ret (Err EINVAL) else
  do* update (fun t => t <| new_session_ticket := [] |>) in
  let* ok := consult te_alloc in
  if negb ok then ret (Err ENOMEM) else
  do* update (fun t => t <| new_session_ticket := sub 6 ticket_len data |>) in
  ret OK.

(** "Add certificates to chain" *)
Fixpoint parse_chain (fuel : nat) (data : list Z) (chain : list x509) : errno + list x509 :=
  match data with
  | [] => inr chain
  | _ =>
      match fuel with
      | O => inl EINVAL
      | S fuel =>
          if bool_decide (length data < 3)%nat then inl EINVAL else
          let certificate_len := Z.to_nat (tls_uint24 (sub 0 3 data)) in
          if bool_decide (length data - 3 < certificate_len)%nat then inl EINVAL else
          match x509_parse (sub 3 certificate_len data) with
          | inl e => inl e
          | inr cert => parse_chain fuel (drop (3 + certificate_len) data) (chain ++ [cert])
          end
      end
  end.

Definition tls_parse_chain (data : list Z) : M conn status :=
  do* update (fun t => t <| server_chain := None |>) in
  do* upd_key (fun k => k <| k_bound := None |>) in
  let* ok := consult te_alloc in
  if negb ok then ret (Err ENOMEM) else
  let* name := gets (fun t => ss_name (session t)) in
  match parse_chain (length data) data [] with
  | inl e => ret (Err e)
  | inr [] => ret (Err ENOENT)
  | inr (cert :: rest) =>
      match x509_check_name cert name with
      | Err e => ret (Err e)
      | OK => do* update (fun t => t <| server_chain := Some (cert :: rest) |>) in ret OK
      end
  end.

Definition tls_new_certificate (data : list Z) : M conn status :=
  if bool_decide (length data < 3)%nat then ret (Err EINVAL) else
  let certificates_len := Z.to_nat (tls_uint24 (sub 0 3 data)) in
  if bool_decide (length data - 3 < certificates_len)%nat then ret (Err EINVAL) else
  tls_parse_chain (sub 3 certificates_len data).

Definition tls_new_certificate_request : M conn status :=
  do* update (fun t => t <| client_chain := None |>) in
  let* ok := consult te_alloc in
  if negb ok then ret (Err ENOMEM) else
  let* cert := consult te_client_cert in
  match cert with
  | None => do* update (fun t => t <| client_chain := Some [] |>) in ret OK
  | Some cert =>
      let* ok := consult te_alloc in
      if negb ok then ret (Err ENOMEM) else
      let* r := consult (fun n => te_auto_append n [cert]) in
      match r with
      | inl e => ret (Err e)
      | inr chain => do* update (fun t => t <| client_chain := Some chain |>) in ret OK
      end
  end.

(** ** Server Key Exchange *)

(** The signature after the parameters: its algorithm, for TLS 1.2, and its bytes. *)
Definition parse_signature (use_sig_hash : bool) (sig : list Z) : option (Z * list Z) :=
  let head := (if use_sig_hash then 4 else 2)%nat in
  if bool_decide (length sig < head)%nat then None else
  let signature_len := Z.to_nat (be_val (sub (head - 2) 2 sig)) in
  if bool_decide (length sig - head < signature_len)%nat then None else
  Some (be_val (sub 0 2 sig), sub head signature_len sig).

(** The public-key and digest algorithms of the signature. *)
Definition signature_algorithms (use_sig_hash : bool) (code : Z) (cert : x509) : M conn (errno + pkalg * dalg) :=
  if use_sig_hash then
    match tls_find_signature_hash code with
    | None => ret (inl ENOTSUP)
    | Some s =>
        if negb (bool_decide (sh_algorithm s = cert_key_algorithm cert)) then ret (inl EPERM)
        else ret (inr (sh_pubkey s, sh_digest s))
    end
  else
    let* suite := gets (fun t => cs_suite (tx_pending_spec t)) in
    ret (inr (su_pubkey suite, md5_sha1_algorithm)).

Definition tls_verify_dh_params (data : list Z) (param_len : nat) : M conn status :=
  let* t := get in
  let use_sig_hash := tls_version t TLS_VERSION_TLS_1_2 in
  match x509_first (server_chain t) with
  | None => ret (Err ENOENT)
  | Some cert =>
      match parse_signature use_sig_hash (drop param_len data) with
      | None => ret (Err EINVAL_KEY_EXCHANGE)
      | Some (code, signature) =>
          let! algs := signature_algorithms use_sig_hash code cert in
          let '(pubkey, digest) := algs in
          let ctx := d_init digest in
          let ctx := d_update digest ctx (client_random t) in
          let ctx := d_update digest ctx (server_random t) in
          let ctx := d_update digest ctx (take param_len data) in
          match pubkey_verify pubkey (cert_public_key cert) digest (d_final digest ctx) signature with
          | Err _ => ret (Err EPERM)
          | OK => do* tls_set_binding (Some cert) in ret OK
          end
      end
  end.

Definition tls_new_server_key_exchange_pubkey : M conn status := ret (Err EPROTO).

(** "Parse ServerKeyExchange": [n] values, each with its length; the result is the values
    and the length they took. *)
Fixpoint parse_values (n : nat) (l : list Z) : option (list (list Z)) :=
  match n with
  | O => Some []
  | S n =>
      if bool_decide (length l < 2)%nat then None else
      let len := Z.to_nat (be_val (sub 0 2 l)) in
      if bool_decide (length l - 2 < len)%nat then None else
      rest ← parse_values n (drop (2 + len) l);
      Some (sub 2 len l :: rest)
  end.

Definition tls_new_server_key_exchange_dhe (data : list Z) : M conn status :=
  match parse_values 3 data with
  | Some [dh_p; dh_g; dh_ys] =>
      let param_len := (6 + length dh_p + length dh_g + length dh_ys)%nat in
      match tls_find_param_group dh_p dh_g with
      | None => ret (Err ENOTSUP)
      | Some group =>
          do* upd_key (fun k => k <| k_group := Some group |>) in
          try* tls_agree_ephemeral dh_ys true in
          tls_verify_dh_params data param_len
      end
  | _ => ret (Err EINVAL_KEY_EXCHANGE)
  end.

Definition tls_new_server_key_exchange_ecdhe (data : list Z) : M conn status :=
  if bool_decide (length data < 4)%nat then ret (Err EINVAL_KEY_EXCHANGE) else
  let public_len := Z.to_nat (byte_at data 3) in
  if bool_decide (length data - 4 < public_len)%nat then ret (Err EINVAL_KEY_EXCHANGE) else
  let param_len := (4 + public_len)%nat in
  if negb (byte_at data 0 =? TLS_NAMED_CURVE_TYPE) then ret (Err ENOTSUP) else
  match tls_find_named_group (be_val (sub 1 2 data)) with
  | None => ret (Err ENOTSUP)
  | Some group =>
      do* upd_key (fun k => k <| k_group := Some group |>) in
      try* tls_agree_ephemeral (sub 4 public_len data) false in
      tls_verify_dh_params data param_len
  end.

Definition tls_new_server_key_exchange (data : list Z) : M conn status :=
  let* suite := gets (fun t => cs_suite (tx_pending_spec t)) in
  match su_exchange suite with
  | tls_pubkey_exchange_algorithm => tls_new_server_key_exchange_pubkey
  | tls_dhe_exchange_algorithm => tls_new_server_key_exchange_dhe data
  | tls_ecdhe_exchange_algorithm => tls_new_server_key_exchange_ecdhe data
  end.

(** ** Server Hello Done and Finished *)
Definition tls_new_server_hello_done (data : list Z) : M conn status :=
  if negb (bool_decide (data = [])) then ret (Err EINVAL) else
  let* chain := gets server_chain in
  try* consult te_validator in
  do* say (TlsValidate (default [] chain)) in
  do* update (fun t => t <| server_validation ::= S |>) in
  ret OK.

(** "Record session ID, ticket, and master secret, if applicable" *)
Definition record_session : M conn unit :=
  let* t := get in
  let* bound := of_option (k_bound (key t)) in
  let* valid := x509_is_valid bound in
  if valid && (negb (bool_decide (session_id_len t = 0%nat)) || negb (bool_decide (new_session_ticket t = []))) then
    do* tls_generate_resumption_master in
    do* upd_session (fun s => (s <| ss_ems := extended_master_secret t |>) <| ss_cert := Some bound |>) in
    do* (if bool_decide (session_id_len t = 0%nat) then ret tt
         else upd_session (fun s => (s <| ss_id_len := session_id_len t |>) <| ss_id := session_id t |>)) in
    if bool_decide (new_session_ticket t = []) then ret tt else
    do* upd_session (fun s => s <| ss_ticket := new_session_ticket t |>) in
    update (fun t => t <| new_session_ticket := [] |>)
  else ret tt.

Definition tls_new_finished (data : list Z) : M conn status :=
  let* t := get in
  let k := key t in
  if negb (negb (bool_decide (dsize (k_digest k) = 0%nat)) && k_keyed k && bool_decide (is_Some (k_bound k)))
  then ret (Err EINVAL) else
  if negb (bool_decide (length data = 12%nat)) then ret (Err EINVAL) else
  let* digest_out := gets tls_verify_handshake in
  let* verify := tls_prf_label 12 (bstr "server finished") [digest_out] in
  do* update (fun t => t <| verify_server := verify |>) in
  if negb (bool_decide (verify = data)) then ret (Err EPERM) else
  do* update (fun t => t <| server_negotiation ::= pred |>) in
  do* (if bool_decide (client_negotiation t = 0%nat) then ret tt else
         do* upd_tx (fun x => x <| tx_waiting ::= Z.lor (Z.lor TLS_TX_CHANGE_CIPHER TLS_TX_FINISHED) |>) in
         tls_tx_resume) in
  do* record_session in
  do* tls_tx_resume in
  do* tls_tx_resume_all in
  do* say TlsWindowChanged in
  ret OK.

(** ** Handshake records *)
Definition handle_message (type : Z) (payload : list Z) : M conn status :=
  if type =? TLS_HELLO_REQUEST then tls_new_hello_request
  else if type =? TLS_SERVER_HELLO then tls_new_server_hello payload
  else if type =? TLS_NEW_SESSION_TICKET then tls_new_session_ticket payload
  else if type =? TLS_CERTIFICATE then tls_new_certificate payload
  else if type =? TLS_SERVER_KEY_EXCHANGE then tls_new_server_key_exchange payload
  else if type =? TLS_CERTIFICATE_REQUEST then tls_new_certificate_request
  else if type =? TLS_SERVER_HELLO_DONE then tls_new_server_hello_done payload
  else if type =? TLS_FINISHED then tls_new_finished payload
  else ret OK.

(** The loop of [tls_new_handshake]: a fragment at the end is left unconsumed. *)
Fixpoint tls_new_handshake (fuel : nat) (data : list Z) : M conn (status * list Z) :=
  if bool_decide (length data < 4)%nat then ret (OK, data) else
  let payload_len := Z.to_nat (tls_uint24 (sub 1 3 data)) in
  if bool_decide (length data - 4 < payload_len)%nat then ret (OK, data) else
  match fuel with
  | O => fun _ => NoFuel
  | S fuel =>
      let type := byte_at data 0 in
      let record_len := (4 + payload_len)%nat in
      let* rc := handle_message type (sub 4 payload_len data) in
      do* (if type =? TLS_HELLO_REQUEST then ret tt else tls_add_handshake (take record_len data)) in
      match rc with
      | Err e => ret (Err e, data)
      | OK => tls_new_handshake fuel (drop record_len data)
      end
  end.

(** ** Data and other records *)

Definition ENOTCONN : errno := EOTHER 107.

(** What the consumer does with data of its own. *)
Definition tls_plainstream_deliver (data : list Z) : M conn status :=
  let* t := get in
  if negb (tls_ready t) then ret (Err ENOTCONN) else tls_send_record TLS_TYPE_DATA data.

Fixpoint consumer_sends (l : list (list Z)) : M conn unit :=
  match l with
  | [] => ret tt
  | data :: l =>
      let* ok := tls_alloc_iob in
      do* (if (ok : bool) then do* tls_plainstream_deliver data in ret tt else ret tt) in
      consumer_sends l
  end.

(** [xfer_deliver_iob] on the plaintext stream; a closed interface reaches nobody. *)
Definition deliver_plain (data : list Z) : M conn status :=
  do* say (TlsDelivered data) in
  let* r := consult (fun n => te_receive n data) in
  let* c := gets closed in
  if (c : bool) then ret (tr_rc r) else
  do* consumer_sends (tr_sends r) in
  do* match tr_close r with Some rc => tls_close_alert rc | None => ret tt end in
  ret (tr_rc r).

Fixpoint deliver_all (bufs : list (list Z)) : M conn status :=
  match bufs with
  | [] => ret OK
  | data :: bufs => try* deliver_plain data in deliver_all bufs
  end.

Definition tls_new_data (bufs : list (list Z)) : M conn status :=
  let* t := get in
  if negb (tls_ready t) then ret (Err ENOTCONN) else deliver_all bufs.

(** "Merge into a single I/O buffer": a single buffer needs no allocation. *)
Definition iob_concatenate (bufs : list (list Z)) : M conn (option (list Z)) :=
  if bool_decide (length bufs = 1%nat) then ret (Some (concat bufs)) else
  let* ok := consult te_alloc in
  ret (if (ok : bool) then Some (concat bufs) else None).

Definition tls_new_unknown (data : list Z) : M conn (status * list Z) := ret (OK, []).

Definition tls_new_record (type : Z) (bufs : list (list Z)) : M conn status :=
  if type =? TLS_TYPE_DATA then tls_new_data bufs else
  let* fragment := gets (fun t => if type =? TLS_TYPE_HANDSHAKE then rx_handshake (rx t) else None) in
  let keep l := if type =? TLS_TYPE_HANDSHAKE then upd_rx (fun r => r <| rx_handshake := l |>) else ret tt in
  let* data := iob_concatenate (option_list fragment ++ bufs) in
  match data with
  | None => do* keep None in ret (Err ENOMEM)
  | Some data =>
      let* r :=
        (if type =? TLS_TYPE_CHANGE_CIPHER then tls_new_change_cipher data
         else if type =? TLS_TYPE_ALERT then tls_new_alert data
         else if type =? TLS_TYPE_HANDSHAKE then tls_new_handshake (length data) data
         else tls_new_unknown data) in
      let '(rc, rest) := r in
      match rc with
      | Err e => do* keep None in ret (Err e)
      | OK => do* keep (if bool_decide (rest = []) then None else Some rest) in ret OK
      end
  end.

(** ** Record protection *)

(** [tls_verify_padding]: the length of the padding at the end of a buffer. *)
Definition tls_verify_padding (l : list Z) : option nat :=
  let pad := default 0 (last l) in
  let len := (Z.to_nat pad + 1)%nat in
  if bool_decide (length l < len)%nat then None
  else if forallb (Z.eqb pad) (drop (length l - len) l) then Some len else None.

(** The buffers of a record, seen from the last one. *)
Definition unput_last (n : nat) (bufs : list (list Z)) : option (list (list Z) * list Z) :=
  match reverse bufs with
  | [] => None
  | l :: front =>
      if bool_decide (length l < n)%nat then None
      else Some (reverse front ++ [take (length l - n) l], drop (length l - n) l)
  end.

(** "Decrypt the received data" *)
Fixpoint decrypt_all (alg : calg) (ctx : cctx) (bufs : list (list Z)) : cctx * list (list Z) :=
  match bufs with
  | [] => (ctx, [])
  | b :: bufs =>
      let '(ctx, p) := c_decrypt alg ctx b in
      let '(ctx, ps) := decrypt_all alg ctx bufs in
      (ctx, p :: ps)
  end.

(** "Strip block padding, if applicable": bad padding counts as none. *)
Definition strip_padding (alg : calg) (bufs : list (list Z)) : list (list Z) * nat :=
  if is_block_cipher alg then
    let pad_len := default 0%nat (tls_verify_padding (default [] (last bufs))) in
    match unput_last pad_len bufs with
    | Some (bufs, _) => (bufs, pad_len)
    | None => (bufs, 0%nat)
    end
  else (bufs, 0%nat).

Definition rx_active (t : conn) : tls_cipherspec := cp_active (rx_cipherspec (rx t)).
Definition upd_rx_active (f : tls_cipherspec -> tls_cipherspec) : M conn unit :=
  upd_rx (fun r => r <| rx_cipherspec ::= (fun p => p <| cp_active ::= f |>) |>).

(** [tls_new_ciphertext], up to the processing of the plaintext: the buffers of the
    plaintext. *)
Definition open_record (type version_ : Z) (len : nat) (bufs : list (list Z)) : M conn (errno + list (list Z)) :=
  let* t := get in
  let c := rx_active t in
  let suite := cs_suite c in
  let cipher := su_cipher suite in
  let* first := of_option (bufs !! 0%nat) in
  if bool_decide (length first < su_record_iv_len suite)%nat then ret (inl EINVAL) else
  let* fixed := of_option (read 0 (su_fixed_iv_len suite) (cs_fixed_iv c)) in
  let iv := fixed ++ take (su_record_iv_len suite) first in
  let bufs := drop (su_record_iv_len suite) first :: drop 1 bufs in
  let len := (len - su_record_iv_len suite)%nat in
  match unput_last (c_authsize cipher) bufs with
  | None => ret (inl EINVAL)
  | Some (bufs, auth) =>
      let len := (len - c_authsize cipher)%nat in
      let authhdr len := tls_auth_header (rx_number (rx t)) type version_ len in
      match cipher_setiv cipher (cs_ctx c) iv with
      | inl e => ret (inl e)
      | inr ctx =>
          let ctx := if is_auth_cipher cipher then c_decrypt_aad cipher ctx (authhdr len) else ctx in
          let '(ctx, bufs) := decrypt_all cipher ctx bufs in
          let '(bufs, pad_len) := strip_padding cipher bufs in
          let len := (len - pad_len)%nat in
          match unput_last (su_mac_len suite) bufs with
          | None => do* upd_rx_active (fun c => c <| cs_ctx := ctx |>) in ret (inl EINVAL)
          | Some (bufs, mac) =>
              let len := (len - su_mac_len suite)%nat in
              let verify_mac := if bool_decide (su_mac_len suite = 0%nat) then []
                                else take (su_mac_len suite) (tls_hmac_list c (authhdr len) bufs) in
              let '(ctx, verify_auth) := c_auth cipher ctx in
              do* upd_rx_active (fun c => c <| cs_ctx := ctx |>) in
              if negb (bool_decide (mac = verify_mac)) then ret (inl EINVAL) else
              if negb (bool_decide (auth = verify_auth)) then ret (inl EINVAL) else
              ret (inr bufs)
          end
      end
  end.

Definition tls_new_ciphertext (header : list Z) (bufs : list (list Z)) : M conn status :=
  let type := byte_at header 0 in
  let version_ := be_val (sub 1 2 header) in
  let len := Z.to_nat (be_val (sub 3 2 header)) in
  let! bufs := open_record type version_ len bufs in
  tls_new_record type bufs.

(** ** The stream *)

(** The lengths of the receive buffers for a number of bytes. *)
Fixpoint fragment_lengths (fuel remaining : nat) : list nat :=
  match fuel with
  | O => []
  | S fuel =>
      if bool_decide (remaining = 0%nat) then [] else
      let frag_len := Nat.min remaining TLS_RX_BUFSIZE in
      let remaining := (remaining - frag_len)%nat in
      if bool_decide (remaining < TLS_RX_MIN_BUFSIZE)%nat then [(frag_len + remaining)%nat]
      else frag_len :: fragment_lengths fuel remaining
  end.

Fixpoint alloc_buffers (lens : list nat) : M conn bool :=
  match lens with
  | [] => ret true
  | _ :: lens =>
      let* ok := consult te_alloc in
      if negb ok then ret false else alloc_buffers lens
  end.

Definition tls_newdata_process_header : M conn status :=
  let* t := get in
  let suite := cs_suite (rx_active t) in
  let data_len := Z.to_nat (be_val (sub 3 2 (rx_header (rx t)))) in
  let reserve := Z.to_nat (Z.land (- Z.of_nat (su_record_iv_len suite)) (Z.of_nat (alignsize (su_cipher suite)) - 1)) in
  let lens := fragment_lengths (data_len + reserve) (data_len + reserve) in
  let* ok := alloc_buffers lens in
  if negb ok then ret (Err ENOMEM) else
  let bufs := match lens with
              | [] => []
              | n :: lens => RxBuffer [] (n - reserve) :: map (RxBuffer []) lens
              end in
  do* upd_rx (fun r => (r <| rx_data := bufs |>) <| rx_state := TLS_RX_DATA |>) in
  ret OK.

Definition tls_newdata_process_data : M conn status :=
  let* bufs := gets (fun t => rx_data (rx t)) in
  match bufs with
  | [] => fault
  | b :: rest =>
      let bufs := rest ++ [b] in
      do* upd_rx (fun r => r <| rx_data := bufs |>) in
      if bool_decide (default 0%nat (rb_room <$> bufs !! 0%nat) <> 0%nat) then ret OK else
      let* header := gets (fun t => rx_header (rx t)) in
      try* tls_new_ciphertext header (map rb_data bufs) in
      do* upd_rx (fun r => (((r <| rx_number ::= (fun n => u64 (n + 1)) |>) <| rx_data := [] |>)
                             <| rx_state := TLS_RX_HEADER |>) <| rx_header := [] |>) in
      ret OK
  end.

(** "Copy data portion to buffer": the data that is left, and whether the buffer is full. *)
Definition copy_portion (data : list Z) : M conn (list Z * bool) :=
  let* r := gets rx in
  match rx_state r with
  | TLS_RX_HEADER =>
      let n := Nat.min (length data) (TLS_HEADER_LEN - length (rx_header r)) in
      do* upd_rx (fun r => r <| rx_header ::= (fun h => h ++ take n data) |>) in
      ret (drop n data, bool_decide (n = TLS_HEADER_LEN - length (rx_header r))%nat)
  | TLS_RX_DATA =>
      match rx_data r with
      | [] => fault
      | b :: rest =>
          let n := Nat.min (length data) (rb_room b) in
          do* upd_rx (fun r => r <| rx_data := RxBuffer (rb_data b ++ take n data) (rb_room b - n) :: rest |>) in
          ret (drop n data, bool_decide (n = rb_room b))
      end
  end.

Fixpoint cipherstream_loop (fuel : nat) (data : list Z) : M conn status :=
  match data with
  | [] => ret OK
  | _ =>
      match fuel with
      | O => fun _ => NoFuel
      | S fuel =>
          let* state := gets (fun t => rx_state (rx t)) in
          let* r := copy_portion data in
          let '(data, full) := r in
          if negb full then cipherstream_loop fuel data else
          let* rc := match state with
                     | TLS_RX_HEADER => tls_newdata_process_header
                     | TLS_RX_DATA => tls_newdata_process_data
                     end in
          match rc with
          | Err e => do* tls_close_alert (Err e) in ret (Err e)
          | OK => cipherstream_loop fuel data
          end
      end
  end.

Definition tls_cipherstream_deliver (data : list Z) : M conn status := cipherstream_loop (2 * length data + 2) data.

Definition tls_plainstream_window (t : conn) : nat := if tls_ready t then te_window (tick t) else 0%nat.
End Rx.
