(* ===== verification/Tls12Conn.v ===== *)
(** * TLS connection: control (net/tls.c, lines 4980-5316)

    The end of the certificate validation, the transmit state machine, the session, the
    creation of a connection, and the calls that a connection can receive. *)

From stdpp Require Import base list strings.
From Stdlib Require Import ZArith Lia.
From S2P Require Import Prelude Crypto TlsKeys Tofu Tls12Base Tls12Keys Tls12Tx Tls12Rx.

Section Conn.
Context {lib : TlsLib} {hkdf : HkdfOps} {tables : TlsTables} {env : TlsEnv}.
Abbreviation conn := tls_connection.

(** ** Certificate validator *)
Definition client_messages (t : conn) : Z :=
  validated_pending (option_map (fun l => negb (bool_decide (l = []))) (client_chain t)) (tx_waiting (tx t)).

(** [tls_validator_done] on the whole connection; trust on first use, which Tofu.v models
    in detail, is an answer of the environment here. *)
Definition connection_validated (rc : status) : M conn unit :=
  let validated :=
    do* update (fun t => t <| tx ::= (fun x => x <| tx_waiting := client_messages t |>) |>) in
    tls_tx_resume in
  do* update (fun t => t <| server_validation ::= pred |>) in
  match rc with
  | OK => validated
  | Err e =>
      let* present := consult te_tofu_present in
      if (present : bool) then tls_close_alert (Err e) else
      let* cert := gets (fun t => x509_first (server_chain t)) in
      match cert with
      | None => tls_close_alert (Err EINVAL)
      | Some cert =>
          let* rc := consult (fun n => te_tofu_store n cert) in
          match rc with
          | OK => do* update (fun t => t <| marked ::= cons cert |>) in validated
          | Err e => tls_close_alert (Err e)
          end
      end
  end.

(** ** The transmit state machine *)
Definition waiting (flag : Z) (t : conn) : bool := negb (Z.land (tx_waiting (tx t)) flag =? 0).

Definition sent_flag (flag : Z) : M conn unit :=
  upd_tx (fun x => x <| tx_waiting ::= (fun p => Z.ldiff p flag) |>).

(** "Record or generate session ID and associated master secret" *)
Definition choose_session_id : M conn unit :=
  update (fun t =>
    if bool_decide (ss_id_len (session t) = 0%nat)
    then (t <| session_id := client_random t |>) <| session_id_len := 32%nat |>
    else (t <| session_id := ss_id (session t) |>) <| session_id_len := ss_id_len (session t) |>).

(** "Send Change Cipher, and then change the cipher in use" *)
Definition change_tx_cipher : M conn status :=
  try* tls_send_change_cipher in
  let* p := gets (fun t => tx_cipherspec (tx t)) in
  match tls_change_cipher p with
  | inl e => ret (Err e)
  | inr p => do* upd_tx (fun x => (x <| tx_cipherspec := p |>) <| tx_number := 0 |>) in ret OK
  end.

(** The message to be sent next, with its flag; [None] when another connection of the
    session negotiates. *)
Definition send_next : M conn (option status) :=
  let send flag (m : M conn status) : M conn (option status) :=
    let* rc := m in
    match rc with
    | OK => do* sent_flag flag in ret (Some OK)
    | Err e => ret (Some (Err e))
    end in
  let* t := get in
  if waiting TLS_TX_CLIENT_HELLO t then
    let* others := consult te_others in
    if (others : bool) then ret None else
    do* choose_session_id in
    send TLS_TX_CLIENT_HELLO tls_send_client_hello
  else if waiting TLS_TX_CERTIFICATE t then send TLS_TX_CERTIFICATE tls_send_certificate
  else if waiting TLS_TX_CLIENT_KEY_EXCHANGE t then send TLS_TX_CLIENT_KEY_EXCHANGE tls_send_client_key_exchange
  else if waiting TLS_TX_CERTIFICATE_VERIFY t then send TLS_TX_CERTIFICATE_VERIFY tls_send_certificate_verify
  else if waiting TLS_TX_CHANGE_CIPHER t then send TLS_TX_CHANGE_CIPHER change_tx_cipher
  else if waiting TLS_TX_FINISHED t then send TLS_TX_FINISHED tls_send_finished
  else ret (Some OK).

(** The process runs once when it has been added. *)
Definition tls_tx_step : M conn unit :=
  do* upd_tx (fun x => x <| tx_process := false |>) in
  let* window := consult te_window in
  if bool_decide (window = 0%nat) then ret tt else
  let* r := send_next in
  match r with
  | None => ret tt
  | Some (Err e) => tls_close_alert (Err e)
  | Some OK =>
      let* t := get in
      if tx_waiting (tx t) =? 0 then say TlsWindowChanged else tls_tx_resume
  end.

(** ** Creation *)

(** [tls_session]: a session that matches, or a new one with a poisoned secret. *)
Definition tls_session (found : option session_state) (name : list Z) : M conn status :=
  match found with
  | Some s => do* update (fun t => t <| session := s |>) in ret OK
  | None =>
      let* ok := consult te_alloc in
      if negb ok then ret (Err ENOMEM) else
      let* poison := gets (tls_ephemeral_label (bstr "res poison") 48) in
      do* update (fun t => t <| session := SessionState name None (zeros 32) 0 [] poison 0 false |>) in
      ret OK
  end.

(** "Allocate and initialise TLS structure" *)
Definition fresh_connection (key : list Z) : conn :=
  let none := CipherspecPair tls_clear_cipher tls_clear_cipher in
  TlsConnection (SessionState [] None (zeros 32) 0 [] (zeros 48) 0 false) (zeros 32) 0 [] TLS_VERSION_MAX false false
    (zeros 12) (zeros 12) (KeySchedule digest_null None false None None None (zeros 32))
    (TlsTx none 0 0 false) (TlsRx none 0 TLS_RX_HEADER [] [] None)
    (zeros 32) key None 0 (zeros 32) None 0 0 [] false [] 0.

(** [add_tls], for a connection that was allocated; [found] is the session of the list
    that matches the name, the root of trust and the key. *)
Definition add_tls (found : option session_state) (name : list Z) : M conn status :=
  try* tls_generate_ephemeral_master in
  try* tls_session found name in
  do* tls_restart in
  ret OK.

(** ** The calls a connection receives *)
Inductive tls12_call : Type :=
  | CallDeliver (data : list Z)
  | CallSend (data : list Z)
  | CallStep
  | CallValidated (rc : status)
  | CallWindowChanged
  | CallClosePlain (rc : status)
  | CallCloseCipher (rc : status).

(** After the interfaces are shut down nobody calls; the process runs when it was added, and
    the validator ends when it was started. *)
Definition callable (c : tls12_call) (t : conn) : bool :=
  negb (closed t) &&
  match c with
  | CallStep => tx_process (tx t)
  | CallValidated _ => negb (bool_decide (server_validation t = 0%nat))
  | _ => true
  end.

Definition call (c : tls12_call) : M conn unit :=
  match c with
  | CallDeliver data => do* tls_cipherstream_deliver data in ret tt
  | CallSend data => do* tls_plainstream_deliver data in ret tt
  | CallStep => tls_tx_step
  | CallValidated rc => connection_validated rc
  | CallWindowChanged => tls_tx_resume
  | CallClosePlain rc => tls_close_alert rc
  | CallCloseCipher rc => tls_close rc
  end.

Inductive tls12_step : conn -> conn -> Prop :=
  | step_call c t t' : callable c t = true -> call c t = Ret tt t' -> tls12_step t t'.
End Conn.
