(* ===== verification/Tls12Inv.v ===== *)
(** * TLS connection: the binding of keys to an identity (net/tls.c)

    The calls a connection can receive keep what include/ipxe/tls.h says of the key schedule:
    an identity is bound only to secret key material, and only the identity that the server
    presented, or that of the session.  The client says it has finished only when the bound
    identity is valid; the server is believed to have finished only when its Finished
    message verifies under the bound key. *)

From stdpp Require Import base list strings.
From Stdlib Require Import ZArith Lia.
From S2P Require Import Prelude Crypto TlsKeys Tofu Tls12Base Tls12Keys Tls12Tx Tls12Rx Tls12Conn.

Section Inv.
Context {lib : TlsLib} {hkdf : HkdfOps} {tables : TlsTables} {env : TlsEnv}.
Abbreviation conn := tls_connection.
Implicit Types (t : conn).

(** What authentication rests on. *)
Record view : Type := View {
  v_keyed : bool;
  v_bound : option x509;
  v_chain : option (list x509);
  v_cert : option x509;
  v_closed : bool;
  v_client : nat;
  v_server : nat;
  v_marked : list x509;
}.
Definition see t : view :=
  View (k_keyed (key t)) (k_bound (key t)) (server_chain t) (ss_cert (session t)) (closed t)
    (client_negotiation t) (server_negotiation t) (marked t).

(** ** Computations that leave the view as it is *)
Definition frames {A} (m : M conn A) : Prop := forall t a t', m t = Ret a t' -> see t' = see t.

Lemma frames_ret {A} (a : A) : frames (ret a).
Proof. by intros t b t' [= <- <-]. Qed.
Lemma frames_fault {A} : frames (fault : M conn A).
Proof. by intros t b t' [=]. Qed.
Lemma frames_get : frames get.
Proof. by intros t b t' [= <- <-]. Qed.
Lemma frames_gets {A} (f : conn -> A) : frames (gets f).
Proof. by intros t b t' [= <- <-]. Qed.
Lemma frames_update f : (forall t, see (f t) = see t) -> frames (update f).
Proof. intros Hf t b t' [= <- <-]. apply Hf. Qed.
Lemma frames_bind {A B} (m : M conn A) (k : A -> M conn B) : frames m -> (forall a, frames (k a)) -> frames (bind m k).
Proof. intros Hm Hk t b t' E. apply bind_ret in E as (a & t1 & E1 & E2). apply Hk in E2. apply Hm in E1. congruence. Qed.
Lemma frames_try m k : frames m -> frames k -> frames (try m k).
Proof. intros Hm Hk. apply frames_bind; [done|]. intros [|e]; [done|apply frames_ret]. Qed.
Lemma frames_tryr {A} (m : M conn (errno + A)) k : frames m -> (forall a, frames (k a)) -> frames (tryr m k).
Proof. intros Hm Hk. apply frames_bind; [done|]. intros [e|a]; [apply frames_ret|done]. Qed.
Lemma frames_option {A} (o : option A) : frames (of_option o).
Proof. destruct o; [apply frames_ret|apply frames_fault]. Qed.
Lemma frames_loop {A} (o : option A) : frames (of_loop o).
Proof. destruct o; [apply frames_ret|]. by intros t b t' [=]. Qed.
Lemma frames_consult {A} (f : nat -> A) : frames (consult f).
Proof. by intros t b t' [= <- <-]. Qed.
Lemma frames_say e : frames (say e).
Proof. intros t b t' [= <- <-]. by destruct (closed t) eqn:E. Qed.
End Inv.

Create HintDb frames discriminated.
#[export] Hint Resolve frames_ret frames_fault frames_get frames_gets frames_option frames_loop frames_consult
  frames_say : frames.

(** [frames] walks through a computation. *)
Ltac frames :=
  repeat first
    [ progress intros
    | solve [auto 1 with frames]
    | apply frames_bind | apply frames_try | apply frames_tryr
    | apply frames_update; intros; reflexivity
    | case_match ].

Section Frames.
Context {lib : TlsLib} {hkdf : HkdfOps} {tables : TlsTables} {env : TlsEnv}.
Abbreviation conn := tls_connection.

Lemma frames_add_handshake d : frames (tls_add_handshake d).
Proof. unfold tls_add_handshake, upd_key. frames. Qed.
Lemma frames_prf n s : frames (tls_prf n s).
Proof. unfold tls_prf. frames. Qed.
Lemma frames_put_kdf o d : frames (put_kdf o d).
Proof. unfold put_kdf, upd_key. frames. Qed.
#[local] Hint Resolve frames_add_handshake frames_prf frames_put_kdf : frames.
Lemma frames_prf_label n l s : frames (tls_prf_label n l s).
Proof. unfold tls_prf_label. frames. Qed.
Lemma frames_kdf_master s : frames (tls_set_kdf_master s).
Proof. unfold tls_set_kdf_master. frames. Qed.
Lemma frames_ephemeral_master : frames tls_regenerate_ephemeral_master.
Proof. unfold tls_regenerate_ephemeral_master, upd_key. frames. Qed.
#[local] Hint Resolve frames_prf_label frames_kdf_master frames_ephemeral_master : frames.
Lemma frames_share : frames tls_share_ephemeral.
Proof. unfold tls_share_ephemeral, key_group. frames. Qed.
Lemma frames_master_secret : frames tls_generate_master_secret.
Proof. unfold tls_generate_master_secret. frames. Qed.
Lemma frames_generate_keys : frames tls_generate_keys.
Proof. unfold tls_generate_keys, fill, upd_tx_pending, upd_rx_pending, upd_tx, upd_rx. frames. Qed.
Lemma frames_resumption : frames tls_generate_resumption_master.
Proof. unfold tls_generate_resumption_master, upd_session. frames. Qed.
Lemma frames_set_cipher s : frames (tls_set_cipher s).
Proof. unfold tls_set_cipher. frames. Qed.
Lemma frames_send_one type p : frames (send_one type p).
Proof. unfold send_one, upd_tx_active, upd_tx. frames. Qed.
#[local] Hint Resolve frames_share frames_master_secret frames_generate_keys frames_resumption frames_set_cipher
  frames_send_one : frames.
Lemma frames_send_loop fuel type : forall data out, frames (send_loop fuel type data out).
Proof. induction fuel as [|fuel IH]; intros data out; cbn [send_loop]; [by intros t a t' [=]|]. frames. Qed.
#[local] Hint Resolve frames_send_loop : frames.
Lemma frames_send_record type d : frames (tls_send_record type d).
Proof. unfold tls_send_record. frames. Qed.
#[local] Hint Resolve frames_send_record : frames.
Lemma frames_send_plaintext type d : frames (tls_send_plaintext type d).
Proof. unfold tls_send_plaintext, tls_alloc_iob. frames. Qed.
#[local] Hint Resolve frames_send_plaintext : frames.
Lemma frames_send_handshake d : frames (tls_send_handshake d).
Proof. apply frames_send_plaintext. Qed.
Lemma frames_send_alert l d : frames (tls_send_alert l d).
Proof. apply frames_send_plaintext. Qed.
#[local] Hint Resolve frames_send_handshake frames_send_alert : frames.
Lemma frames_tx_resume : frames tls_tx_resume.
Proof. unfold tls_tx_resume, upd_tx. frames. Qed.
Lemma frames_resume_all : frames tls_tx_resume_all.
Proof. unfold tls_tx_resume_all. frames. Qed.
Lemma frames_client_hello : frames tls_send_client_hello.
Proof. unfold tls_send_client_hello, tls_client_hello. frames. Qed.
Lemma frames_add_client_hello : frames (tls_client_hello tls_add_handshake).
Proof. unfold tls_client_hello. frames. Qed.
Lemma frames_certificate : frames tls_send_certificate.
Proof. unfold tls_send_certificate, tls_alloc_iob. frames. Qed.
Lemma frames_key_exchange_dhe : frames tls_send_client_key_exchange_dhe.
Proof. unfold tls_send_client_key_exchange_dhe, key_group. frames. Qed.
Lemma frames_key_exchange_ecdhe : frames tls_send_client_key_exchange_ecdhe.
Proof. unfold tls_send_client_key_exchange_ecdhe, key_group. frames. Qed.
Lemma frames_certificate_verify : frames tls_send_certificate_verify.
Proof. unfold tls_send_certificate_verify. frames. Qed.
Lemma frames_change_cipher : frames tls_send_change_cipher.
Proof. apply frames_send_plaintext. Qed.
Lemma frames_is_valid c : frames (x509_is_valid c).
Proof. unfold x509_is_valid. frames. Qed.
Lemma frames_new_ticket d : frames (tls_new_session_ticket d).
Proof. unfold tls_new_session_ticket. frames. Qed.
Lemma frames_certificate_request : frames tls_new_certificate_request.
Proof. unfold tls_new_certificate_request. frames. Qed.
Lemma frames_new_change_cipher d : frames (tls_new_change_cipher d).
Proof. unfold tls_new_change_cipher, upd_rx. frames. Qed.
Lemma frames_renegotiation r : frames (check_renegotiation r).
Proof. unfold check_renegotiation. frames. Qed.
Lemma frames_open_record type v n bufs : frames (open_record type v n bufs).
Proof. unfold open_record, upd_rx_active, upd_rx. frames. Qed.
Lemma frames_concatenate bufs : frames (iob_concatenate bufs).
Proof. unfold iob_concatenate. frames. Qed.
Lemma frames_plain_deliver d : frames (tls_plainstream_deliver d).
Proof. unfold tls_plainstream_deliver. frames. Qed.
#[local] Hint Resolve frames_plain_deliver : frames.
Lemma frames_consumer_sends l : frames (consumer_sends l).
Proof. induction l as [|d l IH]; cbn [consumer_sends]; unfold tls_alloc_iob; frames. Qed.
Lemma frames_alloc_buffers l : frames (alloc_buffers l).
Proof. induction l as [|d l IH]; cbn [alloc_buffers]; frames. Qed.
#[local] Hint Resolve frames_alloc_buffers : frames.
Lemma frames_process_header : frames tls_newdata_process_header.
Proof. unfold tls_newdata_process_header, upd_rx. frames. Qed.
Lemma frames_copy_portion d : frames (copy_portion d).
Proof. unfold copy_portion, upd_rx. frames. Qed.
End Frames.

#[export] Hint Resolve frames_add_handshake frames_prf frames_put_kdf frames_prf_label frames_kdf_master
  frames_ephemeral_master frames_share frames_master_secret frames_generate_keys frames_resumption frames_set_cipher
  frames_send_one frames_send_loop frames_send_record frames_send_plaintext frames_send_handshake frames_send_alert
  frames_tx_resume frames_resume_all frames_client_hello frames_add_client_hello frames_certificate
  frames_key_exchange_dhe frames_key_exchange_ecdhe frames_certificate_verify frames_change_cipher frames_is_valid
  frames_new_ticket frames_certificate_request frames_new_change_cipher frames_renegotiation frames_open_record
  frames_concatenate frames_plain_deliver frames_consumer_sends frames_alloc_buffers frames_process_header
  frames_copy_portion : frames.

(** ** The invariant *)
Section Keeps.
Context {lib : TlsLib} {hkdf : HkdfOps} {tables : TlsTables} {env : TlsEnv} (known : x509 -> Prop) (base : list x509).
Abbreviation conn := tls_connection.
Implicit Types (t : conn) (v : view).

(** A certificate that is known to be valid, or was accepted on first use. *)
Definition trusted v (c : x509) : Prop := known c \/ c ∈ v_marked v.

(** An identity is bound only to secret key material; it is the one of the certificate that
    the server presented, or it is trusted, as that of the session always is.  What was
    accepted before stays accepted. *)
Definition binding_ok v : Prop :=
  (forall c, v_bound v = Some c -> v_keyed v = true /\ (x509_first (v_chain v) = Some c \/ trusted v c)) /\
  (forall c, v_cert v = Some c -> trusted v c) /\ base ⊆ v_marked v.

(** Moreover the negotiations have not ended below [n] and [m], unless the connection is
    closed. *)
Definition ok (n m : nat) v : Prop :=
  binding_ok v /\ (v_closed v = true \/ (n <= v_client v)%nat /\ (m <= v_server v)%nat).

(** The part of the view that is not about the keys and the chain. *)
Definition part v := (v_cert v, v_closed v, v_client v, v_server v, v_marked v).

Lemma ok_unbound n m v v' : ok n m v -> part v' = part v -> v_bound v' = None -> ok n m v'.
Proof.
  intros [[_ [Hs Hm]] Hc] [= E1 E2 E3 E4 E5] Hn. unfold ok, binding_ok, trusted. rewrite E1, E2, E3, E4, E5, Hn. by split_and!.
Qed.

Lemma ok_bound n m v v' c : ok n m v -> part v' = part v -> v_bound v' = Some c ->
  v_keyed v' = true -> x509_first (v_chain v') = Some c \/ trusted v' c -> ok n m v'.
Proof.
  intros [[_ [Hs Hm]] Hc] [= E1 E2 E3 E4 E5] Hb Hk Ht. unfold ok, binding_ok. rewrite E2, E3, E4, Hb.
  split_and!; [by intros c' [= <-]| | |done]; unfold trusted; by rewrite ?E1, E5.
Qed.

Definition keeps (n m : nat) {A} (f : M conn A) : Prop :=
  forall t a t', ok n m (see t) -> f t = Ret a t' -> ok n m (see t').

Context {n m : nat}.

Lemma keeps_frames {A} (f : M conn A) : frames f -> keeps n m f.
Proof. intros Hf t a t' Ht E. apply Hf in E. by rewrite E. Qed.
Lemma keeps_bind {A B} (f : M conn A) (k : A -> M conn B) : keeps n m f -> (forall a, keeps n m (k a)) ->
  keeps n m (bind f k).
Proof. intros Hf Hk t b t' Ht E. apply bind_ret in E as (a & t1 & E1 & E2). by eapply Hk, E2; eapply Hf, E1. Qed.
Lemma keeps_try f k : keeps n m f -> keeps n m k -> keeps n m (try f k).
Proof. intros Hf Hk. apply keeps_bind; [done|]. intros [|e]; [done|apply keeps_frames, frames_ret]. Qed.
Lemma keeps_tryr {A} (f : M conn (errno + A)) k : keeps n m f -> (forall a, keeps n m (k a)) -> keeps n m (tryr f k).
Proof. intros Hf Hk. apply keeps_bind; [done|]. intros [e|a]; [apply keeps_frames, frames_ret|done]. Qed.
Lemma keeps_update f : (forall t, ok n m (see t) -> ok n m (see (f t))) -> keeps n m (update f).
Proof. intros Hf t a t' Ht [= <- <-]. by apply Hf. Qed.
Lemma keeps_nofuel {A} : keeps n m (fun _ => NoFuel : outcome conn A).
Proof. by intros t a t' _ [=]. Qed.

(** A sequence whose end matters, not its middle. *)
Lemma keeps_clear_binding : keeps n m tls_clear_binding.
Proof. apply keeps_update. intros t Ht. by apply (ok_unbound n m (see t)). Qed.

Lemma clear_digest_run t : exists t', tls_clear_digest t = Ret tt t' /\
  see t' = View false None (v_chain (see t)) (v_cert (see t)) (v_closed (see t)) (v_client (see t)) (v_server (see t))
    (v_marked (see t)).
Proof. eexists. split; [done|]. by destruct t as [? ? ? ? ? ? ? ? ? []]. Qed.

Lemma keeps_clear_digest : keeps n m tls_clear_digest.
Proof.
  intros t a t' Ht E. destruct (clear_digest_run t) as (t2 & E2 & Es). rewrite E2 in E. assert (t2 = t') as -> by congruence.
  rewrite Es. by apply (ok_unbound n m (see t)).
Qed.

Lemma set_binding_ok cert v t t' : ok n m v -> part (see t) = part v ->
  (forall c, cert = Some c -> x509_first (server_chain t) = Some c \/ trusted (see t) c) ->
  tls_set_binding cert t = Ret tt t' -> ok n m (see t').
Proof.
  intros Hv Hp Hcert E. unfold tls_set_binding in E. apply bind_ret in E as (a & t1 & [= <- <-] & E).
  apply bind_ret in E as (keyed & t2 & [= <- <-] & E). destruct (negb _) eqn:Ek; injection E as <-.
  - by apply (ok_unbound n m v).
  - apply negb_false_iff in Ek. destruct cert as [c|]; [|by apply (ok_unbound n m v)].
    apply (ok_bound n m v _ c); [done..|]. by apply Hcert.
Qed.

Lemma keeps_keyed : keeps n m (upd_key (fun k => k <| k_keyed := true |>)).
Proof.
  apply keeps_update. intros t Ht. destruct (k_bound (key t)) as [c|] eqn:Hb; [|by apply (ok_unbound n m (see t))].
  apply (ok_bound n m (see t) _ c); [done..|]. by apply (proj1 (proj1 Ht)).
Qed.

(** [tls_close] ends the negotiations and closes the connection. *)
Lemma close_see rc t a t' : tls_close rc t = Ret a t' ->
  see t' = View (k_keyed (key t)) (k_bound (key t)) (server_chain t) (ss_cert (session t)) true
             (pred (client_negotiation t)) (pred (server_negotiation t)) (marked t).
Proof.
  unfold tls_close. intros E. apply bind_ret in E as (u0 & t1 & [= <- <-] & E).
  apply bind_ret in E as (u1 & t2 & [= <- <-] & E). apply bind_ret in E as (u2 & t3 & E3 & E).
  apply frames_say in E3. apply bind_ret in E as (u4 & t4 & [= <- <-] & E).
  apply bind_ret in E as (u5 & t5 & E5 & E6). apply frames_ephemeral_master in E5. apply frames_resume_all in E6.
  rewrite E6, E5. unfold see in *. injection E3 as A1 A2 A3 A4 A5 A6 A7 A8. cbn. rewrite A1, A2, A3, A4, A6, A7, A8. done.
Qed.

Lemma keeps_close rc : keeps n m (tls_close rc).
Proof. intros t a t' [Hb _] E. apply close_see in E. rewrite E. split; [exact Hb|by left]. Qed.
End Keeps.

Create HintDb keeps discriminated.
#[export] Hint Resolve keeps_clear_binding keeps_clear_digest keeps_keyed keeps_close keeps_nofuel : keeps.

(** [keeps] walks through a computation; what leaves the view alone is found first. *)
Ltac keeps :=
  repeat first
    [ progress intros
    | solve [auto 2 with keeps]
    | solve [apply keeps_frames; auto 1 with frames]
    | apply keeps_bind | apply keeps_try | apply keeps_tryr
    | apply keeps_update; intros; assumption
    | case_match ].

(** The world says of no other certificate that it is valid. *)
Class Knows `{TlsEnv} (known : x509 -> Prop) : Prop := knows k c : te_valid k c = true -> known c.

Section KeepsAll.
Context {lib : TlsLib} {hkdf : HkdfOps} {tables : TlsTables} {env : TlsEnv} {known : x509 -> Prop} {base : list x509} `{!Knows known} {n m : nat}.
Abbreviation conn := tls_connection.
Abbreviation keeps_nm := (keeps known base n m).
Abbreviation ok := (ok known base).
Implicit Types (t : conn) (v : view).

Lemma keeps_close_alert rc : keeps_nm (tls_close_alert rc).
Proof. unfold tls_close_alert. keeps. Qed.
Lemma keeps_restart : keeps_nm tls_restart.
Proof.
  unfold tls_restart, upd_tx. keeps. apply keeps_update. intros t [Hb Hc]. split; [exact Hb|].
  destruct Hc as [Hc|[Hc Hs]]; [by left|right]. cbn in *. lia.
Qed.
Lemma keeps_set_digest d : keeps_nm (tls_set_digest d).
Proof. unfold tls_set_digest, upd_key. keeps. Qed.
#[local] Hint Resolve keeps_close_alert keeps_restart keeps_set_digest : keeps.
Lemma keeps_select_cipher c : keeps_nm (tls_select_cipher c).
Proof. unfold tls_select_cipher, upd_tx_pending, upd_rx_pending, upd_tx, upd_rx. keeps. Qed.
Lemma keeps_agree p s : keeps_nm (tls_agree_ephemeral p s).
Proof. unfold tls_agree_ephemeral, key_group. keeps. Qed.
#[local] Hint Resolve keeps_select_cipher keeps_agree : keeps.

Lemma keeps_resume_secret : keeps_nm tls_resume_secret.
Proof.
  intros t a t' Ht E. unfold tls_resume_secret in E. apply bind_ret in E as (s & t1 & [= <- <-] & E).
  apply bind_ret in E as (u1 & t2 & E2 & E). apply frames_kdf_master in E2.
  apply bind_ret in E as (u2 & t3 & [= <- <-] & E). destruct a. eapply (set_binding_ok known base _ (see t)); [done| | |exact E].
  - change (part (see t2) = part (see t)). by rewrite E2.
  - intros c Hc. right. change (trusted known (see t2) c). rewrite E2. by apply Ht.
Qed.

(** The signature of the server's certificate binds the key to that certificate. *)
Lemma keeps_verify_dh d p : keeps_nm (tls_verify_dh_params d p).
Proof.
  intros t a t' Ht E. unfold tls_verify_dh_params in E. apply bind_ret in E as (t0 & t1 & [= <- <-] & E).
  destruct (x509_first (server_chain t)) as [cert|] eqn:Ec; [|by injection E as <- <-].
  destruct (parse_signature _ _) as [[code sg]|]; [|by injection E as <- <-].
  apply bind_ret in E as (r & t2 & E2 & E).
  assert (see t2 = see t) as Es2.
  { revert E2. apply (fun H : frames _ => H t r t2). unfold signature_algorithms. frames. }
  destruct r as [e|[pubkey digest]]; [injection E as <- <-; by rewrite Es2|]. cbv zeta in E.
  destruct (pubkey_verify _ _ _ _ _); [|injection E as <- <-; by rewrite Es2].
  apply bind_ret in E as ([] & t3 & E3 & [= <- <-]).
  eapply (set_binding_ok known base _ (see t2)); [by rewrite Es2|done|intros c [= <-]|exact E3].
  left. by rewrite <-Ec, <-(f_equal v_chain Es2 : server_chain t2 = server_chain t).
Qed.
#[local] Hint Resolve keeps_resume_secret keeps_verify_dh : keeps.

Lemma keeps_dhe d : keeps_nm (tls_new_server_key_exchange_dhe d).
Proof. unfold tls_new_server_key_exchange_dhe, upd_key. keeps. Qed.
Lemma keeps_ecdhe d : keeps_nm (tls_new_server_key_exchange_ecdhe d).
Proof. unfold tls_new_server_key_exchange_ecdhe, upd_key. keeps. Qed.
#[local] Hint Resolve keeps_dhe keeps_ecdhe : keeps.
Lemma keeps_key_exchange d : keeps_nm (tls_new_server_key_exchange d).
Proof. unfold tls_new_server_key_exchange, tls_new_server_key_exchange_pubkey. keeps. Qed.

(** A new chain ends the binding before it is installed. *)
Lemma keeps_parse_chain d : keeps_nm (tls_parse_chain d).
Proof.
  intros t a t' Ht E. unfold tls_parse_chain in E. apply bind_ret in E as (u0 & t0 & [= <- <-] & E).
  apply bind_ret in E as (u1 & t1 & [= <- <-] & E).
  assert (forall u, part (see u) = part (see t) -> k_bound (key u) = None -> ok n m (see u)) as Hok
    by (intros u Hp Hn; by apply (ok_unbound known base n m (see t))).
  apply bind_ret in E as (alloc & t2 & [= <- <-] & E). destruct (negb _); [injection E as <- <-; by apply Hok|].
  apply bind_ret in E as (name & t3 & [= <- <-] & E). destruct (parse_chain _ _ _) as [e|[|cert rest]];
    [injection E as <- <-; by apply Hok|injection E as <- <-; by apply Hok|].
  destruct (x509_check_name _ _); [|injection E as <- <-; by apply Hok].
  apply bind_ret in E as (u4 & t4 & [= <- <-] & [= <- <-]). by apply Hok.
Qed.
#[local] Hint Resolve keeps_key_exchange keeps_parse_chain : keeps.

Lemma keeps_certificate d : keeps_nm (tls_new_certificate d).
Proof. unfold tls_new_certificate. keeps. Qed.
Lemma keeps_session_id i : keeps_nm (check_session_id i).
Proof. unfold check_session_id. keeps. Qed.
#[local] Hint Resolve keeps_session_id keeps_certificate : keeps.
Lemma keeps_server_hello d : keeps_nm (tls_new_server_hello d).
Proof. unfold tls_new_server_hello. keeps. Qed.
Lemma keeps_hello_request : keeps_nm tls_new_hello_request.
Proof. unfold tls_new_hello_request. keeps. Qed.
Lemma keeps_hello_done d : keeps_nm (tls_new_server_hello_done d).
Proof. unfold tls_new_server_hello_done. keeps. Qed.
Lemma keeps_alert d : keeps_nm (tls_new_alert d).
Proof. unfold tls_new_alert. keeps. Qed.

Lemma valid_trusted c t t' : x509_is_valid c t = Ret true t' -> trusted known (see t) c.
Proof.
  unfold x509_is_valid. intros E. apply bind_ret in E as (t0 & t3 & [= <- <-] & E).
  apply bind_ret in E as (v & t3 & [= <- <-] & [= Ev _]).
  apply orb_true_iff in Ev as [Ev|Ev]; [left; by eapply knows|right; by apply bool_decide_eq_true in Ev].
Qed.

(** The session takes over the bound identity. *)
Lemma keeps_record_session : keeps_nm record_session.
Proof.
  unfold record_session. intros t a t' Ht E. apply bind_ret in E as (t0 & t1 & [= <- <-] & E).
  apply bind_ret in E as (cert & t2 & E2 & E). destruct (k_bound (key t)) as [c|] eqn:Eb; [|done].
  injection E2 as <- <-. apply bind_ret in E as (valid & t3 & E3 & E).
  pose proof E3 as Hv. apply frames_is_valid in E3. destruct valid; [|injection E as <- <-; by rewrite E3].
  apply valid_trusted in Hv. cbn [andb] in E. destruct (negb _ || negb _); [|injection E as <- <-; by rewrite E3].
  apply bind_ret in E as (u4 & t4 & E4 & E). apply frames_resumption in E4.
  apply bind_ret in E as (u5 & t5 & [= <- <-] & E).
  assert (ok n m (see (t4 <| session ::= (fun s => (s <| ss_ems := extended_master_secret t |>) <| ss_cert := Some c |>) |>)))
    as Hok5.
  { rewrite E3 in E4. injection E4 as A1 A2 A3 A4 A5 A6 A7 A8. destruct Ht as [[Hb Hs] Hc].
    unfold ok, binding_ok, trusted, see in *. cbn in *. rewrite A1, A2, A3, A5, A6, A7, A8.
    split; [|exact Hc]. split; [exact Hb|]. split; [by intros c' [= <-]|apply Hs]. }
  revert Hok5 E. generalize (t4 <| session ::= (fun s => (s <| ss_ems := extended_master_secret t |>) <| ss_cert := Some c |>) |>).
  intros u Hu E. revert u a t' Hu E. change (keeps_nm (
    do* (if bool_decide (session_id_len t = 0%nat) then ret tt
         else upd_session (fun s => (s <| ss_id_len := session_id_len t |>) <| ss_id := session_id t |>)) in
    if bool_decide (new_session_ticket t = []) then ret tt else
    do* upd_session (fun s => s <| ss_ticket := new_session_ticket t |>) in
    update (fun t => t <| new_session_ticket := [] |>))). unfold upd_session. keeps.
Qed.
End KeepsAll.

#[export] Hint Resolve keeps_close_alert keeps_restart keeps_set_digest keeps_select_cipher keeps_agree
  keeps_resume_secret keeps_verify_dh keeps_dhe keeps_ecdhe keeps_key_exchange keeps_parse_chain keeps_session_id
  keeps_certificate keeps_server_hello keeps_hello_request keeps_hello_done keeps_alert keeps_record_session : keeps.

Section Calls.
Context {lib : TlsLib} {hkdf : HkdfOps} {tables : TlsTables} {env : TlsEnv} {known : x509 -> Prop} {base : list x509} `{!Knows known} {n : nat}.
Abbreviation conn := tls_connection.
Abbreviation keeps_n := (keeps known base n 0).
Implicit Types (t : conn) (v : view).

Lemma keeps_finished d : keeps_n (tls_new_finished d).
Proof.
  unfold tls_new_finished, upd_tx. keeps. apply keeps_update. intros t [Hb Hc]. split; [exact Hb|].
  destruct Hc as [Hc|[Hc _]]; [by left|right]. split; [exact Hc|apply le_0_n].
Qed.
#[local] Hint Resolve keeps_finished : keeps.

(** Sending the secret under the key of the certificate binds it to that certificate. *)
Lemma keeps_key_exchange_pubkey : keeps_n tls_send_client_key_exchange_pubkey.
Proof.
  unfold tls_send_client_key_exchange_pubkey. do 5 (apply keeps_bind; [keeps; apply keeps_frames, frames_kdf_master|intros ?]).
  intros t b t' Ht E. apply bind_ret in E as (cert & t1 & [= <- <-] & E).
  destruct (x509_first (server_chain t)) as [cert|] eqn:Ec; [|by injection E as <- <-].
  apply bind_ret in E as (r & t2 & E2 & E). apply frames_consult in E2.
  destruct r as [e|enc]; [injection E as <- <-; by rewrite E2|].
  apply bind_ret in E as (alloc & t3 & E3 & E). apply frames_consult in E3.
  destruct (negb alloc); [injection E as <- <-; by rewrite E3, E2|].
  apply bind_ret in E as (rc & t4 & E4 & E). apply frames_send_handshake in E4.
  destruct rc; [|injection E as <- <-; by rewrite E4, E3, E2].
  apply bind_ret in E as ([] & t5 & E5 & [= <- <-]). rewrite E3, E2 in E4.
  eapply (set_binding_ok known base _ (see t4)); [by rewrite E4|done|intros c [= <-]|exact E5].
  left. by rewrite <-Ec, <-(f_equal v_chain E4 : server_chain t4 = server_chain t).
Qed.
#[local] Hint Resolve keeps_key_exchange_pubkey : keeps.
Lemma keeps_client_key_exchange : keeps_n tls_send_client_key_exchange.
Proof. unfold tls_send_client_key_exchange. keeps. Qed.

Lemma keeps_message type p : keeps_n (handle_message type p).
Proof. unfold handle_message. keeps. Qed.
#[local] Hint Resolve keeps_client_key_exchange keeps_message : keeps.
Lemma keeps_handshake fuel : forall d, keeps_n (tls_new_handshake fuel d).
Proof. induction fuel as [|fuel IH]; intros d; cbn [tls_new_handshake]; keeps. Qed.
Lemma keeps_deliver_plain d : keeps_n (deliver_plain d).
Proof. unfold deliver_plain. keeps. Qed.
#[local] Hint Resolve keeps_handshake keeps_deliver_plain : keeps.
Lemma keeps_deliver_all l : keeps_n (deliver_all l).
Proof. induction l as [|d l IH]; cbn [deliver_all]; keeps. Qed.
#[local] Hint Resolve keeps_deliver_all : keeps.
Lemma keeps_new_record type bufs : keeps_n (tls_new_record type bufs).
Proof. unfold tls_new_record, tls_new_data, tls_new_unknown, upd_rx. keeps. Qed.
#[local] Hint Resolve keeps_new_record : keeps.
Lemma keeps_ciphertext h bufs : keeps_n (tls_new_ciphertext h bufs).
Proof. unfold tls_new_ciphertext. keeps. Qed.
#[local] Hint Resolve keeps_ciphertext : keeps.
Lemma keeps_process_data : keeps_n tls_newdata_process_data.
Proof. unfold tls_newdata_process_data, upd_rx. keeps. Qed.
#[local] Hint Resolve keeps_process_data : keeps.
Lemma keeps_cipherstream fuel : forall d, keeps_n (cipherstream_loop fuel d).
Proof. induction fuel as [|fuel IH]; intros d; cbn [cipherstream_loop]; keeps. Qed.

(** What was trusted remains trusted. *)
Lemma keeps_mark c : keeps_n (update (fun t => t <| marked ::= cons c |>)).
Proof.
  apply keeps_update. intros t [[Hb Hs] Hc]. split; [|exact Hc].
  assert (forall c', trusted known (see t) c' -> trusted known (see (t <| marked ::= cons c |>)) c') as Ht.
  { intros c' [Hk|Hm]; [by left|right]. cbn. by right. }
  split; [|split; [intros c' Hc'; by apply Ht, Hs|]].
  2: { intros c' Hc'. right. by apply Hs. }
  intros c' Hc'. destruct (Hb c' Hc') as [Hk [Hf|Ht']]; (split; [done|]); [by left|].
  right. by apply Ht.
Qed.
#[local] Hint Resolve keeps_mark : keeps.
Lemma keeps_validated rc : keeps_n (connection_validated rc).
Proof. unfold connection_validated. keeps. Qed.
Lemma keeps_tx_cipher : keeps_n change_tx_cipher.
Proof. unfold change_tx_cipher, upd_tx. keeps. Qed.
End Calls.

#[export] Hint Resolve keeps_client_key_exchange keeps_cipherstream keeps_validated keeps_tx_cipher : keeps.

(** ** Calls that end the client's negotiation *)
Section Cases.
Context {lib : TlsLib} {hkdf : HkdfOps} {tables : TlsTables} {env : TlsEnv} {known : x509 -> Prop} {base : list x509} `{!Knows known}.
Abbreviation conn := tls_connection.
Abbreviation ok := (ok known base).
Implicit Types (t : conn).

(** The certificate is known to be valid, or was accepted on first use. *)
Definition validated t (cert : x509) : Prop := (exists k, te_valid k cert = true) \/ cert ∈ marked t.

(** Sending the Finished message ends the client's negotiation only for a valid identity. *)
Lemma send_finished_cases n t rc t' : ok n 0 (see t) -> tls_send_finished t = Ret rc t' ->
  ok n 0 (see t') \/ (ok 0 0 (see t') /\ exists cert, k_bound (key t) = Some cert /\ validated t cert).
Proof.
  intros Ht E. unfold tls_send_finished in E. apply bind_ret in E as (b & t1 & [= <- <-] & E).
  apply bind_ret in E as (valid & t2 & E2 & E).
  assert (see t2 = see t /\ (valid = true -> exists cert, k_bound (key t) = Some cert /\ validated t cert)) as [Es Hv].
  { destruct (k_bound (key t)) as [cert|] eqn:Eb; [|by injection E2 as <- <-].
    split; [by apply frames_is_valid in E2|]. intros ->. exists cert. split; [done|]. unfold x509_is_valid in E2.
    apply bind_ret in E2 as (t0 & t3 & [= <- <-] & E2). apply bind_ret in E2 as (v & t3 & [= <- <-] & [= Ev _]).
    apply orb_true_iff in Ev as [Ev|Ev]; [left; by eexists|right; by apply bool_decide_eq_true in Ev]. }
  rewrite <-Es in Ht. destruct valid; cbn [negb] in E; [|injection E as <- <-; by left].
  apply bind_ret in E as (dg & t3 & [= <- <-] & E). apply bind_ret in E as (vf & t4 & E4 & E). apply frames_prf_label in E4.
  apply bind_ret in E as (u5 & t5 & [= <- <-] & E).
  assert (see (t4 <| verify_client := vf |>) = see t4) as Es4 by done.
  apply bind_ret in E as (rc6 & t6 & E6 & E). apply frames_send_handshake in E6. rewrite Es4, E4 in E6.
  destruct rc6; [|injection E as <- <-; left; by rewrite E6].
  apply bind_ret in E as (u7 & t7 & [= <- <-] & [= <- <-]). right. split; [|by apply Hv].
  rewrite <-E6 in Ht. destruct Ht as [Hb Hc]. split; [exact Hb|]. destruct Hc as [Hc|_]; [by left|right; cbn; lia].
Qed.

Lemma keeps_apply {A} n m (f : M conn A) t a t' : keeps known base n m f -> ok n m (see t) -> f t = Ret a t' -> ok n m (see t').
Proof. intros Hf Ht E. by apply (Hf t a t'). Qed.

(** What the client sends next. *)
Lemma send_next_cases n t r t' : ok n 0 (see t) -> send_next t = Ret r t' ->
  ok n 0 (see t') \/ (ok 0 0 (see t') /\ exists cert, k_bound (key t) = Some cert /\ validated t cert).
Proof.
  intros Ht E. unfold send_next in E. apply bind_ret in E as (t0 & t1 & [= <- <-] & E).
  repeat match type of E with (if ?b then _ else _) _ = _ => destruct b end.
  6:{ apply bind_ret in E as (rc & t1 & E1 & E).
      assert (see t' = see t1) as ->.
      { destruct rc; [|by injection E as <- <-]. by apply bind_ret in E as (u & t2 & [= <- <-] & [= <- <-]). }
      by apply send_finished_cases with rc. }
  all: left; refine (keeps_apply _ _ _ _ _ _ _ Ht E); unfold choose_session_id, sent_flag, upd_tx; keeps.
  apply keeps_update. intros t0 Ht0. by case_bool_decide.
Qed.

(** One step of the transmit process. *)
Lemma tx_step_cases n t t' : ok n 0 (see t) -> tls_tx_step t = Ret tt t' ->
  ok n 0 (see t') \/ (ok 0 0 (see t') /\ exists cert, k_bound (key t) = Some cert /\ validated t cert).
Proof.
  intros Ht E. unfold tls_tx_step in E. apply bind_ret in E as (u0 & t1 & [= <- <-] & E).
  apply bind_ret in E as (w & t2 & [= <- <-] & E). case_bool_decide; [injection E as <-; by left|].
  apply bind_ret in E as (r & t3 & E3 & E). apply (send_next_cases n) in E3; [|exact Ht].
  assert (forall n', ok n' 0 (see t3) -> ok n' 0 (see t')) as Hend.
  { intros n' Ho. destruct r as [[|e]|]; [| |by injection E as <-].
    all: refine (keeps_apply _ _ _ _ _ _ _ Ho E); keeps. }
  destruct E3 as [Ho|[Ho Hc]]; [left; by apply Hend|right; split; [by apply Hend|exact Hc]].
Qed.

(** Every other call. *)
Lemma keeps_call n c : c <> CallStep -> keeps known base n 0 (call c).
Proof. destruct c; intros Hc; cbn [call]; unfold tls_cipherstream_deliver; try done; keeps. Qed.

Lemma call_cases n c t t' : ok n 0 (see t) -> call c t = Ret tt t' ->
  ok n 0 (see t') \/
  (ok 0 0 (see t') /\ c = CallStep /\ exists cert, k_bound (key t) = Some cert /\ validated t cert).
Proof.
  intros Ht E. destruct c; try (left; revert E; by apply keeps_call).
  destruct (tx_step_cases n t t' Ht E) as [Ho|[Ho Hc]]; [by left|by right].
Qed.

(** A connection that joins a session with a trusted certificate, or starts a new one. *)
Lemma add_tls_ok found name t0 t : k_bound (key t0) = None -> base ⊆ marked t0 ->
  (forall s c, found = Some s -> ss_cert s = Some c -> trusted known (see t0) c) ->
  add_tls found name t0 = Ret OK t -> ok 0 0 (see t).
Proof.
  intros Hn Hbase Hf E. unfold add_tls in E. apply bind_ret in E as (rc & t1 & E1 & E).
  assert (see t1 = see t0) as Es1.
  { revert E1. apply (fun H : frames _ => H t0 rc t1). unfold tls_generate_ephemeral_master, upd_key. frames. }
  destruct rc; [|done]. apply bind_ret in E as (rc & t2 & E2 & E).
  assert (k_bound (key t1) = None) as Hn1 by exact (eq_trans (f_equal v_bound Es1) Hn).
  assert (base ⊆ marked t1) as Hb1 by by rewrite (f_equal v_marked Es1 : marked t1 = marked t0).
  assert (rc = OK -> ok 0 0 (see t2)) as Hok2.
  { intros ->. split; [|right; split; apply le_0_n]. unfold tls_session in E2. destruct found as [s|].
    - apply bind_ret in E2 as (u3 & t3 & [= <- <-] & [= <-]). split; [intros c Hc; cbn in Hc; congruence|].
      split; [|exact Hb1]. intros c Hc. change (trusted known (see t1) c). rewrite Es1. by apply (Hf s c).
    - apply bind_ret in E2 as (al & t3 & [= <- <-] & E2). destruct (negb _); [done|].
      apply bind_ret in E2 as (p & t3 & [= <- <-] & E2). apply bind_ret in E2 as (u4 & t4 & [= <- <-] & [= <-]).
      split; [intros c Hc; cbn in Hc; congruence|]. split; [by intros c [=]|exact Hb1]. }
  destruct rc; [|done]. specialize (Hok2 eq_refl). apply bind_ret in E as (u3 & t3 & E3 & [= <-]).
  revert E3. by apply (keeps_restart (known := known)).
Qed.
End Cases.

(** ** The theorems *)
Section Theorems.
Context {lib : TlsLib} {hkdf : HkdfOps} {tables : TlsTables} {env : TlsEnv}.
Abbreviation conn := tls_connection.
Implicit Types (t : conn).

(** The connections that calls can lead to: [found] is the session that was joined. *)
Inductive reachable12 (found : option session_state) (name pkey : list Z) : conn -> Prop :=
  | reach_add t : add_tls found name (fresh_connection pkey) = Ret OK t -> reachable12 found name pkey t
  | reach_step t t' : reachable12 found name pkey t -> tls12_step t t' -> reachable12 found name pkey t'.

(** A certificate that is valid, or that the joined session had recorded. *)
Definition known_to (found : option session_state) (c : x509) : Prop :=
  (exists k, te_valid k c = true) \/ found ≫= ss_cert = Some c.

#[export] Instance known_to_knows found : Knows (known_to found).
Proof. intros k c Hc. left. by exists k. Qed.

Lemma reachable12_ok found name pkey t : reachable12 found name pkey t -> ok (known_to found) [] 0 0 (see t).
Proof.
  induction 1 as [t E|t t' _ IH Hstep].
  - refine (add_tls_ok found name (fresh_connection pkey) t eq_refl (list_subseteq_nil _) _ E). intros s c -> Hc. left. by right.
  - destruct Hstep as [c t t' _ E]. destruct (call_cases (known := known_to found) 0 c t t' IH E) as [Ho|[Ho _]]; done.
Qed.

(** The binding: in every reachable connection an identity is bound only to secret key
    material, and it is the identity of the certificate that the server presented last, or
    one that is valid, was accepted on first use, or was recorded by the session that the
    connection joined. *)
Theorem binding_invariant found name pkey t cert : reachable12 found name pkey t -> k_bound (key t) = Some cert ->
  k_keyed (key t) = true /\
  (x509_first (server_chain t) = Some cert \/ validated t cert \/ found ≫= ss_cert = Some cert).
Proof.
  intros Hr Hb. destruct (reachable12_ok _ _ _ _ Hr) as [[Hok _] _].
  destruct (Hok cert Hb) as [Hk [Hf|[[Hv|Hv]|Hm]]]; (split; [done|]); [by left|right; left; by left|by right; right|].
  right. left. by right.
Qed.

(** Authentication of the server before the client has finished: a call on a reachable
    connection ends the client's side of the negotiation, without closing the connection,
    only in the transmit process, when the keys are secret and bound to the server's
    identity, and that identity has been validated or accepted on first use. *)
Theorem client_finishes_authenticated found name pkey c t t' : reachable12 found name pkey t -> call c t = Ret tt t' ->
  closed t' = false -> (client_negotiation t' < client_negotiation t)%nat ->
  c = CallStep /\ k_keyed (key t) = true /\ exists cert, k_bound (key t) = Some cert /\ validated t cert.
Proof.
  intros Hr E Hcl Hlt. pose proof (reachable12_ok _ _ _ _ Hr) as [Hb _].
  destruct (call_cases (known := known_to found) (base := []) (client_negotiation t) c t t') as [[_ [Ho|[Ho _]]]|(_ & -> & cert & Hbound & Hv)].
  - split; [done|right; split; [done|apply le_0_n]].
  - done.
  - unfold see in Ho. cbn in Ho. congruence.
  - unfold see in Ho. cbn in Ho. lia.
  - destruct (proj1 Hb cert Hbound) as [Hk _]. split_and!; [done|done|]. by exists cert.
Qed.
End Theorems.
