(* ===== verification/Tls12Session.v ===== *)
(** * TLS connections that share a session (net/tls.c)

    Connections to the same server share struct tls_session: its identity, its ticket and
    its certificate change whenever one of them completes a negotiation, between any two
    calls of the others.  A [sharing] is a session with the list of its connections, in
    the order of [session->conn]; a step is one call on one of them, or a new connection
    that joins. *)

From stdpp Require Import base list strings.
From Stdlib Require Import ZArith Lia.
From S2P Require Import Prelude Crypto TlsKeys Tofu Tls12Base Tls12Keys Tls12Tx Tls12Rx Tls12Conn Tls12Inv.

Section Sharing.
Context {lib : TlsLib} {hkdf : HkdfOps} {tables : TlsTables}.
Abbreviation conn := tls_connection.

(** The world of each connection, but for what the others of its session are doing. *)
Context (worlds : nat -> TlsEnv).

Definition with_others (world : TlsEnv) (others : bool) : TlsEnv := {|
  te_alloc := te_alloc;
  te_random := te_random;
  te_transmit := te_transmit;
  te_receive := te_receive;
  te_window := te_window;
  te_validator := te_validator;
  te_valid := te_valid;
  te_others _ := others;
  te_tofu_present := te_tofu_present;
  te_tofu_store := te_tofu_store;
  te_client_cert := te_client_cert;
  te_auto_append := te_auto_append;
|}.

(** The session, the certificates accepted on first use, and the connections: a number,
    which stands for the address, and the state. *)
Record sharing : Type := Sharing {
  sy_session : session_state;
  sy_marked : list x509;
  sy_conns : list (nat * conn);
}.

(** The connection as it finds its session. *)
Definition joined (s : sharing) (t : conn) : conn := (t <| session := sy_session s |>) <| marked := sy_marked s |>.

(** "Serialise server negotiations within a session": whether a connection before this one
    in the list waits for the server to finish. *)
Definition others_negotiate (before : list (nat * conn)) : bool :=
  existsb (fun c => negb (bool_decide (server_negotiation c.2 = 0%nat))) before.

(** [tls_tx_resume_all], as the other connections see it. *)
Definition resumed (t : conn) : conn := t <| tx ::= (fun x => x <| tx_process := true |>) |>.

Definition resumes_all (t t' : conn) : bool :=
  existsb (fun e => match e with TlsResumeAll => true | _ => false end) (drop (length (events t)) (events t')).

(** The list after a call on a connection: it leaves when it was closed, it moves to the end
    when it completed a negotiation, and in both cases the others are resumed. *)
Definition relink (before after : list (nat * conn)) (i : nat) (t t' : conn) : list (nat * conn) :=
  let others l := if resumes_all t t' then map (fun c => (c.1, resumed c.2)) l else l in
  if closed t' then others before ++ others after
  else if resumes_all t t' then others before ++ others after ++ [(i, t')]
  else before ++ (i, t') :: after.

Inductive sharing_step : sharing -> sharing -> Prop :=
  | share_call s before i t after c t' :
      sy_conns s = before ++ (i, t) :: after ->
      callable c (joined s t) = true ->
      call (env := with_others (worlds i) (others_negotiate before)) c (joined s t) = Ret tt t' ->
      sharing_step s (Sharing (session t') (marked t') (relink before after i t t'))
  | share_join s i pkey t' :
      i ∉ (sy_conns s).*1 ->
      add_tls (env := worlds i) (Some (sy_session s)) (ss_name (sy_session s))
        ((fresh_connection pkey) <| marked := sy_marked s |>) = Ret OK t' ->
      sharing_step s (Sharing (session t') (marked t') (sy_conns s ++ [(i, t')])).

(** The sharings that begin with one connection. *)
Inductive sharing_reachable (name : list Z) : sharing -> Prop :=
  | share_start i pkey t :
      add_tls (env := worlds i) None name (fresh_connection pkey) = Ret OK t ->
      sharing_reachable name (Sharing (session t) (marked t) [(i, t)])
  | share_step s s' : sharing_reachable name s -> sharing_step s s' -> sharing_reachable name s'.

(** A certificate that some connection was told is valid. *)
Definition found_valid (c : x509) : Prop := exists i k, @te_valid lib (worlds i) k c = true.

(** The certificate is known to be valid, or was accepted on first use. *)
Definition sharing_trusts (s : sharing) (c : x509) : Prop := found_valid c \/ c ∈ sy_marked s.

Lemma others_know i b : @Knows lib (with_others (worlds i) b) found_valid.
Proof. intros k c Hc. by exists i, k. Qed.
Lemma world_knows i : @Knows lib (worlds i) found_valid.
Proof. intros k c Hc. by exists i, k. Qed.

(** ** The invariant of a sharing *)
Implicit Types (t : conn) (s : sharing).

Abbreviation holds s := (ok found_valid (sy_marked s) 0 0).
Definition sharing_ok s : Prop :=
  (forall c, ss_cert (sy_session s) = Some c -> sharing_trusts s c) /\
  Forall (fun c => holds s (see (joined s c.2))) (sy_conns s).

(** A connection that was not called keeps its binding when the session changes. *)
Lemma joined_ok s ses mk l t :
  holds s (see (joined s t)) -> sy_marked s ⊆ mk -> (forall c, ss_cert ses = Some c -> found_valid c \/ c ∈ mk) ->
  ok found_valid mk 0 0 (see (joined (Sharing ses mk l) t)).
Proof.
  intros [[Hb _] Hc] Hm Hs. split; [|exact Hc]. split; [|by split].
  intros c Hbc. destruct (Hb c Hbc) as [Hk [Hf|[Hv|Hi]]]; (split; [done|]); [by left|by right; left|].
  right. right. by apply Hm.
Qed.

Lemma after_call s t' : holds s (see t') ->
  sy_marked s ⊆ marked t' /\ (forall c, ss_cert (session t') = Some c -> found_valid c \/ c ∈ marked t') /\
  ok found_valid (marked t') 0 0 (see (joined (Sharing (session t') (marked t') []) t')).
Proof.
  intros [(Hb & Hs & Hm) Hc]. split; [exact Hm|]. split; [exact Hs|]. split; [|exact Hc]. split; [exact Hb|]. by split.
Qed.

Lemma relink_forall (P : nat * conn -> Prop) before after i t t' :
  Forall P before -> Forall P after -> P (i, t') -> (forall c, P c -> P (c.1, resumed c.2)) ->
  Forall P (relink before after i t t').
Proof.
  intros Hb Ha Ht Hr. unfold relink.
  assert (forall l, Forall P l -> Forall P (if resumes_all t t' then map (fun c => (c.1, resumed c.2)) l else l)) as Ho.
  { intros l Hl. destruct (resumes_all t t'); [|done]. apply Forall_map. eapply Forall_impl; [exact Hl|exact Hr]. }
  specialize (Ho before Hb) as Hb'. specialize (Ho after Ha) as Ha'.
  destruct (closed t'); [by apply Forall_app|]. destruct (resumes_all t t').
  - apply Forall_app. split; [done|]. apply Forall_app. split; [done|]. by apply Forall_singleton.
  - apply Forall_app. split; [done|]. by apply Forall_cons.
Qed.

Lemma sharing_step_ok s s' : sharing_ok s -> sharing_step s s' -> sharing_ok s'.
Proof.
  intros [Hs Hl] Hst. destruct Hst as [s before i t after c t' Hconns _ E|s i pkey t' _ E].
  - rewrite Hconns in Hl. apply Forall_app in Hl as [Hlb Hla]. apply Forall_cons in Hla as [Ht Hla].
    pose proof (others_know i (others_negotiate before)) as Hkn.
    assert (holds s (see t')) as Ht'.
    { destruct (call_cases (env := with_others (worlds i) (others_negotiate before)) (known := found_valid) (base := sy_marked s)
        0 c _ _ Ht E) as [Ho|[Ho _]]; exact Ho. }
    destruct (after_call s t' Ht') as (Hm & Hc & Hj). split; [exact Hc|].
    apply relink_forall.
    + eapply Forall_impl; [exact Hlb|]. intros u Hu. by apply (joined_ok s).
    + eapply Forall_impl; [exact Hla|]. intros u Hu. by apply (joined_ok s).
    + exact Hj.
    + intros u Hu. exact Hu.
  - pose proof (world_knows i) as Hkn.
    assert (holds s (see t')) as Ht'.
    { refine (add_tls_ok (env := worlds i) (known := found_valid) (base := sy_marked s) _ _
        ((fresh_connection pkey) <| marked := sy_marked s |>) t' eq_refl (fun _ H => H) _ E).
      intros s0 c [= <-] Hc. exact (Hs c Hc). }
    destruct (after_call s t' Ht') as (Hm & Hc & Hj). split; [exact Hc|]. apply Forall_app. split.
    + eapply Forall_impl; [exact Hl|]. intros u Hu. by apply (joined_ok s).
    + by apply Forall_singleton.
Qed.

Lemma sharing_reachable_ok name s : sharing_reachable name s -> sharing_ok s.
Proof.
  induction 1 as [i pkey t E|s s' _ IH Hst]; [|by eapply sharing_step_ok].
  pose proof (world_knows i) as Hkn.
  assert (ok found_valid [] 0 0 (see t)) as Ht.
  { refine (add_tls_ok (env := worlds i) (known := found_valid) (base := []) None name (fresh_connection pkey) t eq_refl (list_subseteq_nil _) _ E). done. }
  destruct Ht as [(Hb & Hs & _) Hc]. split; [exact Hs|]. apply Forall_singleton. split; [|exact Hc]. split; [exact Hb|]. by split.
Qed.

(** ** Claims *)

(** [C7] A shared session is not poisoned.  Whatever the servers of its connections send, in
    any interleaving of the calls, and also when one of them is attacked: the certificate
    that the session records, under whose name other connections resume, is valid or was
    accepted on first use; and an identity is bound to the keys of a connection only if they
    are secret, and only the identity of the certificate that its server presented last or
    one that is valid or was accepted on first use. *)
Theorem sharing_binding name s : sharing_reachable name s ->
  (forall c, ss_cert (sy_session s) = Some c -> sharing_trusts s c) /\
  forall i t cert, (i, t) ∈ sy_conns s -> k_bound (key t) = Some cert ->
    k_keyed (key t) = true /\ (x509_first (server_chain t) = Some cert \/ sharing_trusts s cert).
Proof.
  intros Hr. destruct (sharing_reachable_ok name s Hr) as [Hs Hl]. split; [exact Hs|]. intros i t cert Hin Hb.
  rewrite Forall_forall in Hl. destruct (Hl _ Hin) as [[Hok _] _]. by apply (Hok cert).
Qed.

(** [C6] Authentication of the server, with a shared session: a call on one of its
    connections ends the client's side of that negotiation, without closing the
    connection, only in the transmit process, when the keys are secret and bound to an
    identity that is valid or was accepted on first use; also when the identity comes from
    the session, where another connection recorded it. *)
Theorem sharing_finishes name s before i t after c t' : sharing_reachable name s ->
  sy_conns s = before ++ (i, t) :: after ->
  call (env := with_others (worlds i) (others_negotiate before)) c (joined s t) = Ret tt t' ->
  closed t' = false -> (client_negotiation t' < client_negotiation t)%nat ->
  c = CallStep /\ k_keyed (key t) = true /\ exists cert, k_bound (key t) = Some cert /\ sharing_trusts s cert.
Proof.
  intros Hr Hconns E Hcl Hlt. destruct (sharing_reachable_ok name s Hr) as [_ Hl].
  rewrite Hconns in Hl. apply Forall_app in Hl as [_ Hl]. apply Forall_cons in Hl as [[Hb Hc] _].
  pose proof (others_know i (others_negotiate before)) as Hkn.
  destruct (call_cases (env := with_others (worlds i) (others_negotiate before)) (known := found_valid)
    (base := sy_marked s) (client_negotiation t) c (joined s t) t') as [[_ [Ho|[Ho _]]]|(_ & -> & cert & Hbound & Hv)].
  - split; [done|right; split; [done|apply le_0_n]].
  - done.
  - unfold see in Ho. cbn in Ho. congruence.
  - unfold see in Ho. cbn in Ho. lia.
  - destruct (proj1 Hb cert Hbound) as [Hk _]. split; [done|]. split; [exact Hk|]. exists cert. split; [exact Hbound|].
    destruct Hv as [[k Hv]|Hv]; [left; by exists i, k|by right].
Qed.
End Sharing.
