(* ===== verification/Tls12Laws.v ===== *)
(** * TLS connection: pseudo-random function and records (net/tls.c)

    What the cryptographic library promises; the pseudo-random function is the one of
    RFC 5246; what is sent fits the buffer that was allocated for it, and opens to what was
    sent. *)

From stdpp Require Import base list strings.
From Stdlib Require Import ZArith Lia.
From S2P Require Import Prelude Crypto TlsKeys Tls12Base Tls12Keys Tls12Tx Tls12Rx.

(** ** Laws of the libraries *)

(** Data in pieces is data at once; outputs have the declared sizes, and consist of bytes; decryption undoes
    encryption in the same state and arrives at the same tag, for whole blocks; data that is
    a multiple of the alignment can be decrypted apart. *)
Class TlsLibLaws `{TlsLib} : Prop := {
  h_update_app d c a b : h_update d (h_update d c a) b = h_update d c (a ++ b);
  d_final_length d c : length (d_final d c) = dsize d;
  h_final_length d c : length (h_final d c) = dsize d;
  hmac_key_length d s : length (hmac_key d s) = hmac_keysize d;
  c_encrypt_length a c p : length (c_encrypt a c p).2 = length p;
  c_auth_length a c : length (c_auth a c).2 = c_authsize a;
  c_aad_same a c h : c_decrypt_aad a c h = c_encrypt_aad a c h;
  c_inverse a c p : (is_block_cipher a = true -> exists k, length p = (k * blocksize a)%nat) ->
    (c_decrypt a c (c_encrypt a c p).2).2 = p /\
    (c_auth a (c_decrypt a c (c_encrypt a c p).2).1).2 = (c_auth a (c_encrypt a c p).1).2;
  c_decrypt_app a c x y : (exists k, length x = (k * alignsize a)%nat) ->
    c_decrypt a c (x ++ y) =
      ((c_decrypt a (c_decrypt a c x).1 y).1, (c_decrypt a c x).2 ++ (c_decrypt a (c_decrypt a c x).1 y).2);
  c_decrypt_bytes a c p : bytes_ok p -> bytes_ok (c_decrypt a c p).2;
  c_decrypt_length a c p : length (c_decrypt a c p).2 = length p;
  c_decrypt_nil a c : c_decrypt a c [] = (c, []);
  blocksize_pow a : is_block_cipher a = true -> exists k, 0 <= k <= 8 /\ Z.of_nat (blocksize a) = 2 ^ k;
}.

#[export] Hint Rewrite @c_encrypt_length @c_auth_length @c_decrypt_length @d_final_length @h_final_length
  @hmac_key_length : fw_len.

(** Contexts with the same key: an initialisation vector brings them into the same state.
    Nothing but a new key changes the key of a context. *)
Definition same_key `{TlsLib} (a : calg) (c c' : cctx) : Prop := forall iv, cipher_setiv a c iv = cipher_setiv a c' iv.

Class TlsCipherKeys `{TlsLib} : Prop := {
  setiv_key a c iv c' : cipher_setiv a c iv = inr c' -> same_key a c' c;
  aad_key a c h : same_key a (c_encrypt_aad a c h) c;
  encrypt_key a c p : same_key a (c_encrypt a c p).1 c;
  decrypt_key a c p : same_key a (c_decrypt a c p).1 c;
  auth_key a c : same_key a (c_auth a c).1 c;
}.

(** ** The pseudo-random function (RFC 5246, section 5) *)
Section Prf.
Context {lib : TlsLib} {laws : TlsLibLaws}.
Implicit Types (d : dalg).

Definition hmac_hash d (secret m : list Z) : list Z := h_final d (h_update d (hmac_init_key d secret) m).

(** A(0) is the seed, A(i) is HMAC(secret, A(i-1)). *)
Fixpoint prf_a d (secret seed : list Z) (i : nat) : list Z :=
  match i with
  | O => seed
  | S i => hmac_hash d secret (prf_a d secret seed i)
  end.

(** P_hash: HMAC(secret, A(1) + seed) + HMAC(secret, A(2) + seed) + ..., the blocks from
    the [i]-th on. *)
Fixpoint p_hash d (secret seed : list Z) (i n : nat) : list Z :=
  match n with
  | O => []
  | S n => hmac_hash d secret (prf_a d secret seed i ++ seed) ++ p_hash d secret seed (S i) n
  end.

Lemma hmac_update_va_concat d c seeds : seeds <> [] -> tls_hmac_update_va d c seeds = h_update d c (concat seeds).
Proof.
  unfold tls_hmac_update_va. intros Hne. destruct seeds as [|s seeds]; [done|]. clear Hne. cbn [foldl concat].
  revert s. induction seeds as [|s' seeds IH]; intros s; cbn [foldl concat]; [by rewrite app_nil_r|].
  rewrite h_update_app, IH. by rewrite <-app_assoc.
Qed.

Lemma p_hash_length d secret seed i n : length (p_hash d secret seed i n) = (n * dsize d)%nat.
Proof. revert i. induction n as [|n IH]; intros i; cbn; [done|]. unfold hmac_hash. by rewrite length_app, h_final_length, IH. Qed.

Lemma p_hash_loop_spec d secret seeds : seeds <> [] -> (0 < dsize d)%nat -> forall fuel i out_len n,
  (out_len <= fuel)%nat -> (out_len <= n * dsize d)%nat ->
  p_hash_loop fuel d secret seeds (prf_a d secret (concat seeds) i) out_len =
    Some (take out_len (p_hash d secret (concat seeds) i n)).
Proof.
  intros Hne Hd fuel. induction fuel as [|fuel IH]; intros i out_len n Hf Hn; cbn [p_hash_loop];
    (case_bool_decide as H0; [by rewrite H0|]); [lia|].
  destruct n as [|n]; [cbn in Hn; lia|]. change (h_final d (h_update d (hmac_init_key d secret) (prf_a d secret (concat seeds) i)))
    with (prf_a d secret (concat seeds) (S i)).
  rewrite (IH (S i) _ n) by (cbn in Hn; lia). cbn [mbind option_bind p_hash]. f_equal.
  rewrite hmac_update_va_concat, h_update_app by done.
  change (h_final d (h_update d (hmac_init_key d secret) (prf_a d secret (concat seeds) i ++ concat seeds)))
    with (hmac_hash d secret (prf_a d secret (concat seeds) i ++ concat seeds)).
  assert (length (hmac_hash d secret (prf_a d secret (concat seeds) i ++ concat seeds)) = dsize d) as Hl
    by apply h_final_length.
  destruct (decide (dsize d <= out_len)%nat).
  - rewrite Nat.min_l, take_ge, take_app_ge by lia. by rewrite Hl.
  - rewrite Nat.min_r, take_app_le by lia. replace (out_len - out_len)%nat with 0%nat by lia.
    by rewrite take_0, app_nil_r.
Qed.

Lemma p_hash_va_spec d secret seeds out_len n : seeds <> [] -> (0 < dsize d)%nat -> (out_len <= n * dsize d)%nat ->
  tls_p_hash_va d secret out_len seeds = Some (take out_len (p_hash d secret (concat seeds) 1 n)).
Proof.
  intros Hne Hd Hn. unfold tls_p_hash_va. rewrite hmac_update_va_concat by done.
  change (h_final d (h_update d (hmac_init_key d secret) (concat seeds))) with (prf_a d secret (concat seeds) 1).
  by apply p_hash_loop_spec.
Qed.

(** [C36] The pseudo-random function: for a digest with an output, [tls_p_hash_va] ends and
    gives the first [out_len] bytes of the P_hash of RFC 5246 on the concatenated seeds. *)
Theorem p_hash_rfc5246 d secret seeds out_len n : seeds <> [] -> (0 < dsize d)%nat -> (out_len <= n * dsize d)%nat ->
  tls_p_hash_va d secret out_len seeds = Some (take out_len (p_hash d secret (concat seeds) 1 n)).
Proof. apply p_hash_va_spec. Qed.

(** Without an output it does not end. *)
Lemma p_hash_endless d secret seeds out_len : dsize d = 0%nat -> (0 < out_len)%nat ->
  tls_p_hash_va d secret out_len seeds = None.
Proof.
  unfold tls_p_hash_va. intros Hd Ho. generalize (h_final d (tls_hmac_update_va d (hmac_init_key d secret) seeds)).
  generalize out_len at 1. intros fuel. induction fuel as [|fuel IH]; intros a; cbn [p_hash_loop];
    rewrite bool_decide_false by lia; [done|]. rewrite Hd. rewrite Nat.min_0_l, Nat.sub_0_r, IH. done.
Qed.
End Prf.

(** ** Records *)
Section Records.
Context {lib : TlsLib} {laws : TlsLibLaws} {keys : TlsCipherKeys} {hkdf : HkdfOps} {hkdf_laws : HkdfLaws}
  {tables : TlsTables} {env : TlsEnv}.
Abbreviation conn := tls_connection.
Implicit Types (s t : conn) (c : tls_cipherspec).

(** A suite protects records with a MAC or with an authenticated cipher that is not a block
    cipher, and its MAC is not longer than the digest. *)
Definition suite_ok (u : tls_cipher_suite) : Prop :=
  (is_auth_cipher (su_cipher u) = true -> su_mac_len u = 0%nat /\ is_block_cipher (su_cipher u) = false) /\
  (su_mac_len u <= dsize (su_digest u))%nat.

Lemma pad_len_spec a n : is_block_cipher a = true ->
  (1 <= cipher_pad_len a n <= 256)%nat /\ (cipher_pad_len a n <= blocksize a)%nat /\
  exists k, (n + cipher_pad_len a n = k * blocksize a)%nat.
Proof.
  intros Hb. destruct (blocksize_pow a Hb) as (k & Hk & E). unfold cipher_pad_len. rewrite Hb, E.
  assert (2 ^ k - 1 = Z.ones k) as -> by (rewrite Z.ones_equiv; lia).
  rewrite Z.land_comm, Z.land_ones by lia. assert (0 < 2 ^ k) as Hp by (apply Z.pow_pos_nonneg; lia).
  assert (2 ^ k <= 2 ^ 8) as Hu by (apply Z.pow_le_mono_r; lia).
  pose proof (Z.mod_pos_bound (- (Z.of_nat n + 1)) (2 ^ k) Hp) as Hm. split_and!; [lia|lia|lia|].
  set (r := (- (Z.of_nat n + 1)) mod 2 ^ k) in *.
  assert (Z.of_nat n + (r + 1) = 2 ^ k * (- ((- (Z.of_nat n + 1)) / 2 ^ k))) as Hq
    by (unfold r; rewrite Z.mod_eq by lia; lia).
  exists (Z.to_nat (- ((- (Z.of_nat n + 1)) / 2 ^ k))). apply Nat2Z.inj.
  rewrite Nat2Z.inj_mul, E, Nat2Z.inj_add, !Z2Nat.id by nia. lia.
Qed.

Lemma pad_len_stream a n : is_block_cipher a = false -> cipher_pad_len a n = 0%nat.
Proof. intros E. unfold cipher_pad_len. by rewrite E. Qed.

(** ** What is sent fits *)
Lemma pad_len_le a n : (cipher_pad_len a n <= if is_block_cipher a then blocksize a else 0)%nat.
Proof.
  destruct (is_block_cipher a) eqn:E; [by apply (pad_len_spec a n E)|]. by rewrite pad_len_stream.
Qed.

(** What a record adds to its data. *)
Definition added (u : tls_cipher_suite) (n : nat) : nat :=
  (TLS_HEADER_LEN + su_record_iv_len u + su_mac_len u + cipher_pad_len (su_cipher u) (n + su_mac_len u) +
   c_authsize (su_cipher u))%nat.

Lemma added_le u n : (added u n <= record_overhead u)%nat.
Proof. unfold added, record_overhead. pose proof (pad_len_le (su_cipher u) (n + su_mac_len u)). lia. Qed.

(** The specification without the state of its cipher. *)
Definition same_spec c c' : Prop :=
  cs_chosen c = cs_chosen c' /\ cs_mac_secret c = cs_mac_secret c' /\ cs_fixed_iv c = cs_fixed_iv c' /\
  same_key (su_cipher (cs_suite c)) (cs_ctx c) (cs_ctx c').

Lemma read_zero n l d : read 0 n l = Some d -> d = take n l /\ (n <= length l)%nat.
Proof. intros E. apply read_inv in E as [Hl ->]. split; [|lia]. unfold sub. by rewrite drop_0. Qed.

Lemma take_hmac_length c h p : (su_mac_len (cs_suite c) <= dsize (su_digest (cs_suite c)))%nat ->
  length (take (su_mac_len (cs_suite c)) (tls_hmac c h p)) = su_mac_len (cs_suite c).
Proof. intros Hm. rewrite length_take. unfold tls_hmac, tls_hmac_final. rewrite h_final_length. lia. Qed.

(** ** Sealing and opening *)

(** The MAC of a record. *)
Definition record_mac c (authhdr p : list Z) : list Z :=
  if bool_decide (su_mac_len (cs_suite c) = 0%nat) then [] else take (su_mac_len (cs_suite c)) (tls_hmac c authhdr p).

(** Data, MAC and padding. *)
Definition protected c (authhdr p : list Z) : list Z :=
  let pad_len := cipher_pad_len (su_cipher (cs_suite c)) (length p + su_mac_len (cs_suite c)) in
  p ++ record_mac c authhdr p ++ replicate pad_len (u8 (Z.of_nat pad_len - 1)).

(** The record of [p] with its initialisation vector [rec], and the state of the cipher
    after it. *)
Definition sealed c (seq type ver : Z) (rec p record : list Z) (ctx' : cctx) : Prop :=
  let u := cs_suite c in
  let a := su_cipher u in
  let authhdr := tls_auth_header seq type ver (length p) in
  exists ctx0 ctx1, cipher_setiv a (cs_ctx c) (take (su_fixed_iv_len u) (cs_fixed_iv c) ++ rec) = inr ctx0 /\
    ctx1 = (if is_auth_cipher a then c_encrypt_aad a ctx0 authhdr else ctx0) /\
    length rec = su_record_iv_len u /\ (su_fixed_iv_len u <= length (cs_fixed_iv c))%nat /\
    record = tls_header type ver (length rec + length (protected c authhdr p) + c_authsize a) ++ rec ++
      (c_encrypt a ctx1 (protected c authhdr p)).2 ++ (c_auth a (c_encrypt a ctx1 (protected c authhdr p)).1).2 /\
    ctx' = (c_auth a (c_encrypt a ctx1 (protected c authhdr p)).1).1.

Lemma record_mac_length c h p : suite_ok (cs_suite c) -> length (record_mac c h p) = su_mac_len (cs_suite c).
Proof. intros [_ Hm]. unfold record_mac. case_bool_decide as E; [done|]. by apply take_hmac_length. Qed.

Lemma protected_length c h p : suite_ok (cs_suite c) ->
  length (protected c h p) =
    (length p + su_mac_len (cs_suite c) + cipher_pad_len (su_cipher (cs_suite c)) (length p + su_mac_len (cs_suite c)))%nat.
Proof.
  intros Hs. unfold protected. cbv zeta. rewrite !length_app, record_mac_length, length_replicate by done. lia.
Qed.

Definition tx_after s (ctx : cctx) : conn :=
  s <| tx ::= (fun x => (x <| tx_cipherspec ::= (fun p => p <| cp_active ::= (fun c => c <| cs_ctx := ctx |>) |>) |>)
                          <| tx_number ::= (fun n => u64 (n + 1)) |>) |>.

Lemma send_one_sealed type p s record s' : suite_ok (cs_suite (tx_active s)) ->
  send_one type p s = Ret (inr record) s' ->
  exists rec ctx, sealed (tx_active s) (tx_number (tx s)) type (version s) rec p record ctx /\ s' = tx_after s ctx.
Proof.
  intros Hs. unfold send_one, bind, get, ret. set (c := tx_active s) in *.
  set (h := tls_auth_header _ _ _ _). set (rec := tls_ephemeral h _ s).
  destruct (read 0 (su_fixed_iv_len (cs_suite c)) (cs_fixed_iv c)) as [fixed|] eqn:Ef; cbn [of_option]; [|done].
  apply read_zero in Ef as [-> Hf]. unfold ret.
  destruct (cipher_setiv _ _ _) as [e|ctx0] eqn:Es; [done|].
  assert ((if bool_decide (su_mac_len (cs_suite c) = 0%nat) then Some []
           else read 0 (su_mac_len (cs_suite c)) (tls_hmac c h p)) = Some (record_mac c h p)) as ->.
  { unfold record_mac. case_bool_decide; [done|].
    assert ((su_mac_len (cs_suite c) <= length (tls_hmac c h p))%nat)
      by (unfold tls_hmac, tls_hmac_final; rewrite h_final_length; apply Hs).
    rewrite read_some by lia. unfold sub. by rewrite drop_0. }
  cbn [of_option]. unfold ret. cbv zeta. rewrite <-(protected_length c h p Hs).
  change (p ++ record_mac c h p ++ _) with (protected c h p).
  destruct (c_encrypt _ _ _) as [ctx2 ct] eqn:Ec. destruct (c_auth _ ctx2) as [ctx3 tag] eqn:Ea.
  intros [= <- <-]. exists rec, ctx3. split; [|by destruct s as [? ? ? ? ? ? ? ? ? ? [[? ?] ? ? ?]]].
  eexists ctx0, _. fold c h. assert (length rec = su_record_iv_len (cs_suite c)) as Hrec by apply hkdf_expand_length.
  split_and!; [done|done|done|done| |]; rewrite Ec; cbn [fst snd]; rewrite Ea; [|done]. by rewrite Hrec.
Qed.

Lemma unput_app (x y : list Z) : unput_last (length y) [x ++ y] = Some ([x], y).
Proof.
  unfold unput_last. cbn [reverse rev_append]. rewrite bool_decide_false by (rewrite length_app; lia).
  rewrite length_app, Nat.add_sub, take_app_length, drop_app_length. done.
Qed.

Lemma verify_padding_spec x n : (1 <= n <= 256)%nat -> tls_verify_padding (x ++ replicate n (u8 (Z.of_nat n - 1))) = Some n.
Proof.
  intros Hn. unfold tls_verify_padding. destruct n as [|n]; [lia|]. rewrite last_app.
  assert (last (replicate (S n) (u8 (Z.of_nat (S n) - 1))) = Some (u8 (Z.of_nat (S n) - 1))) as ->.
  { rewrite last_lookup, length_replicate. by apply lookup_replicate_2; lia. }
  cbn [default from_option id]. rewrite u8_id by (unfold is_byte; lia).
  replace (Z.to_nat (Z.of_nat (S n) - 1) + 1)%nat with (S n) by lia.
  rewrite bool_decide_false by (rewrite length_app, length_replicate; lia).
  rewrite length_app, length_replicate, Nat.add_sub, drop_app_length.
  assert (forallb (Z.eqb (Z.of_nat (S n) - 1)) (replicate (S n) (Z.of_nat (S n) - 1)) = true) as ->; [|done].
  apply Is_true_true, forallb_True, Forall_replicate. by rewrite Z.eqb_refl.
Qed.

Lemma strip_padding_spec c h p :
  strip_padding (su_cipher (cs_suite c)) [protected c h p] =
    ([p ++ record_mac c h p], if is_block_cipher (su_cipher (cs_suite c))
       then cipher_pad_len (su_cipher (cs_suite c)) (length p + su_mac_len (cs_suite c)) else 0%nat).
Proof.
  unfold strip_padding, protected. cbv zeta. rewrite app_assoc. destruct (is_block_cipher _) eqn:Eb.
  - cbn [last default from_option id]. rewrite verify_padding_spec by (apply pad_len_spec; done). cbn [default from_option id].
    set (n := cipher_pad_len _ _).
    pose proof (unput_app (p ++ record_mac c h p) (replicate n (u8 (Z.of_nat n - 1)))) as E.
    rewrite length_replicate in E. by rewrite E.
  - rewrite pad_len_stream by done. cbn [replicate]. by rewrite app_nil_r.
Qed.

Lemma tls_hmac_list_one c h p : tls_hmac_list c h [p] = tls_hmac c h p.
Proof. done. Qed.

Lemma same_spec_suite c c' : same_spec c c' -> cs_suite c = cs_suite c'.
Proof. intros (E & _). unfold cs_suite. by rewrite E. Qed.

Lemma same_spec_hmac c c' h p : same_spec c c' -> tls_hmac c h p = tls_hmac c' h p.
Proof.
  intros Hs. unfold tls_hmac, tls_hmac_final, tls_hmac_update, tls_hmac_init. rewrite (same_spec_suite _ _ Hs).
  destruct Hs as (_ & -> & _). done.
Qed.

Lemma same_key_trans a k1 k2 k3 : same_key a k1 k2 -> same_key a k2 k3 -> same_key a k1 k3.
Proof. intros A B iv. by rewrite A. Qed.

Definition rx_after t (ctx : cctx) : conn :=
  t <| rx ::= (fun r => r <| rx_cipherspec ::= (fun p => p <| cp_active ::= (fun c => c <| cs_ctx := ctx |>) |>) |>) |>.

(** A sealed record opens, at the other end, to what was sealed. *)
Lemma open_sealed c seq type ver rec p record ctx t : suite_ok (cs_suite c) ->
  sealed c seq type ver rec p record ctx -> same_spec c (rx_active t) -> rx_number (rx t) = seq ->
  exists ctx', open_record type ver (length record - TLS_HEADER_LEN) [drop TLS_HEADER_LEN record] t =
    Ret (inr [p]) (rx_after t ctx') /\ same_key (su_cipher (cs_suite c)) ctx' (cs_ctx (rx_active t)) /\
    same_key (su_cipher (cs_suite c)) ctx (cs_ctx c).
Proof.
  intros Hok (ctx0 & ctx1 & Es & E1 & Hrec & Hf & -> & ->) Hs <-. pose proof Hs as (_ & _ & Efix & Ekey).
  unfold open_record, bind at 1, get. cbv zeta. rewrite <-(same_spec_suite _ _ Hs), <-Efix.
  set (u := cs_suite c) in *. set (a := su_cipher u) in *.
  set (h := tls_auth_header (rx_number (rx t)) type ver (length p)) in *.
  set (body := protected c h p) in *. set (ct := (c_encrypt a ctx1 body).2).
  set (tag := (c_auth a (c_encrypt a ctx1 body).1).2).
  assert (length ct = length body) as Hct by apply c_encrypt_length.
  assert (length tag = c_authsize a) as Htag by apply c_auth_length.
  pose proof (protected_length c h p Hok) as Hbody. fold u a body in Hbody.
  assert (drop TLS_HEADER_LEN (tls_header type ver (length rec + length body + c_authsize a) ++ rec ++ ct ++ tag) =
          rec ++ ct ++ tag) as ->.
  { apply drop_app_length'. unfold tls_header. rewrite !length_app, !be_bytes_length. done. }
  assert (length (tls_header type ver (length rec + length body + c_authsize a) ++ rec ++ ct ++ tag) - TLS_HEADER_LEN =
          su_record_iv_len u + (length body + c_authsize a))%nat as ->.
  { unfold tls_header. rewrite !length_app, !be_bytes_length, Hct, Htag, Hrec. cbn. lia. }
  cbn [lookup list_lookup of_option]. unfold ret at 1, bind at 1.
  rewrite bool_decide_false by (rewrite !length_app; lia).
  rewrite read_some by lia. cbn [of_option]. unfold ret at 1, bind at 1. unfold sub at 1. rewrite drop_0.
  rewrite <-Hrec, take_app_length, drop_app_length. cbn [drop].
  rewrite <-Ekey, Es, <-Htag, unput_app, Htag.
  replace (length rec + (length body + c_authsize a) - length rec - c_authsize a)%nat with (length body) by lia.
  assert ((if is_auth_cipher a then c_decrypt_aad a ctx0 (tls_auth_header (rx_number (rx t)) type ver (length body)) else ctx0)
          = ctx1) as ->.
  { rewrite E1. destruct (is_auth_cipher a) eqn:Ea; [|done]. destruct (proj1 Hok Ea) as [Hm0 Hb0].
    rewrite c_aad_same, Hbody, pad_len_stream by done. fold u. rewrite Hm0. unfold h. do 2 f_equal. lia. }
  destruct (c_inverse a ctx1 body) as [Hinv Htags].
  { intros Hb. rewrite Hbody. by apply pad_len_spec. }
  fold ct in Hinv, Htags. cbn [decrypt_all]. destruct (c_decrypt a ctx1 ct) as [ctx3 plain] eqn:Ed.
  cbn [fst snd] in Hinv, Htags. subst plain.
  pose proof (strip_padding_spec c h p) as Hstrip. fold u a body in Hstrip. rewrite Hstrip.
  pose proof (unput_app p (record_mac c h p)) as Hunput. rewrite (record_mac_length c h p Hok) in Hunput.
  fold u in Hunput. rewrite Hunput.
  assert ((length body - (if is_block_cipher a then cipher_pad_len a (length p + su_mac_len u) else 0) - su_mac_len u)%nat
          = length p) as ->.
  { rewrite Hbody. destruct (is_block_cipher a) eqn:Eb; [lia|]. rewrite pad_len_stream by done. lia. }
  fold h. destruct (c_auth a ctx3) as [ctx4 tag'] eqn:Ea. unfold upd_rx_active, upd_rx, update, bind at 1.
  assert (record_mac c h p = (if bool_decide (su_mac_len u = 0%nat) then [] else
            take (su_mac_len u) (tls_hmac_list (rx_active t) h [p]))) as <-.
  { unfold record_mac. fold u. case_bool_decide; [done|]. by rewrite tls_hmac_list_one, <-(same_spec_hmac _ _ _ _ Hs). }
  rewrite bool_decide_true by done. cbn [negb]. rewrite bool_decide_true by (cbn [snd] in Htags; by rewrite Htags).
  cbn [negb]. unfold ret. exists ctx4. split_and!; [by destruct t as [? ? ? ? ? ? ? ? ? ? ? [[? ?] ? ? ? ? ?]]| |].
  - assert (same_key a ctx1 ctx0) as K1.
    { rewrite E1. destruct (is_auth_cipher a); [apply aad_key|by intros iv]. }
    assert (same_key a ctx0 (cs_ctx c)) as K0 by (by eapply setiv_key).
    eapply same_key_trans; [|exact Ekey]. eapply same_key_trans; [|exact K0]. eapply same_key_trans; [|exact K1].
    replace ctx4 with (c_auth a ctx3).1 by (by rewrite Ea). eapply same_key_trans; [apply auth_key|].
    replace ctx3 with (c_decrypt a ctx1 ct).1 by (by rewrite Ed). apply decrypt_key.
  - assert (same_key a ctx1 ctx0) as K1.
    { rewrite E1. destruct (is_auth_cipher a); [apply aad_key|by intros iv]. }
    assert (same_key a ctx0 (cs_ctx c)) as K0 by (by eapply setiv_key).
    eapply same_key_trans; [apply auth_key|]. eapply same_key_trans; [apply encrypt_key|].
    by eapply same_key_trans.
Qed.

Lemma header_fields type ver n rest : is_byte type -> 0 <= ver < 65536 -> Z.of_nat n < 65536 ->
  let h := take TLS_HEADER_LEN (tls_header type ver n ++ rest) in
  byte_at h 0 = type /\ be_val (sub 1 2 h) = ver /\ Z.to_nat (be_val (sub 3 2 h)) = n.
Proof.
  intros Ht Hv Hn h. assert (h = tls_header type ver n) as ->.
  { apply take_app_length'. unfold tls_header. rewrite !length_app, !be_bytes_length. done. }
  unfold tls_header. split_and!.
  - cbn. by apply u8_id.
  - unfold sub. change (drop 1 ([u8 type] ++ be_bytes 2 ver ++ be_bytes 2 (Z.of_nat n)))
      with (be_bytes 2 ver ++ be_bytes 2 (Z.of_nat n)).
    rewrite take_app_length', be_val_bytes by (by rewrite be_bytes_length). apply Z.mod_small. lia.
  - unfold sub. change (drop 3 ([u8 type] ++ be_bytes 2 ver ++ be_bytes 2 (Z.of_nat n)))
      with (drop 2 (be_bytes 2 ver ++ be_bytes 2 (Z.of_nat n))).
    rewrite drop_app_length', take_ge, be_val_bytes by (rewrite be_bytes_length; lia).
    rewrite Z.mod_small by lia. lia.
Qed.

(** [C32] Record protection: when the specifications of sender and receiver agree, what is
    sent in a record is, at the receiver, handed on unchanged as a record of the same type,
    for suites with a MAC, with or without block padding, and for authenticated ciphers; and
    they agree again for the next record. *)
Theorem record_roundtrip type p s record s' t : suite_ok (cs_suite (tx_active s)) ->
  is_byte type -> 0 <= version s < 65536 -> Z.of_nat (length record) < 65536 ->
  same_spec (tx_active s) (rx_active t) -> rx_number (rx t) = tx_number (tx s) ->
  send_one type p s = Ret (inr record) s' ->
  exists ctx, tls_new_ciphertext (take TLS_HEADER_LEN record) [drop TLS_HEADER_LEN record] t =
      tls_new_record type [p] (rx_after t ctx) /\
    same_spec (tx_active s') (rx_active (rx_after t ctx)) /\ tx_number (tx s') = u64 (rx_number (rx t) + 1).
Proof.
  intros Hok Ht Hv Hl Hs Hn E. destruct (send_one_sealed _ _ _ _ _ Hok E) as (rec & ctx & Hsealed & ->).
  destruct (open_sealed _ _ _ _ _ _ _ _ t Hok Hsealed Hs Hn) as (ctx' & Eo & K1 & K2). exists ctx'.
  pose proof Hsealed as (ctx0 & ctx1 & _ & _ & Hrec & _ & Er & _).
  split_and!.
  - unfold tls_new_ciphertext. rewrite Er in Hl |- *.
    destruct (header_fields type (version s) (length rec + length (protected (tx_active s) (tls_auth_header
      (tx_number (tx s)) type (version s) (length p)) p) + c_authsize (su_cipher (cs_suite (tx_active s)))) (rec ++
      (c_encrypt (su_cipher (cs_suite (tx_active s))) ctx1 (protected (tx_active s) (tls_auth_header
      (tx_number (tx s)) type (version s) (length p)) p)).2 ++ (c_auth (su_cipher (cs_suite (tx_active s)))
      (c_encrypt (su_cipher (cs_suite (tx_active s))) ctx1 (protected (tx_active s) (tls_auth_header
      (tx_number (tx s)) type (version s) (length p)) p)).1).2)) as (H1 & H2 & H3);
      [done|done|rewrite !length_app, c_encrypt_length, c_auth_length in Hl; lia|].
    rewrite H1, H2, H3. rewrite Er in Eo.
    assert (forall h rest, length (tls_header type (version s) h ++ rest) - TLS_HEADER_LEN = length rest)%nat as Hhl.
    { intros h rest. unfold tls_header. rewrite !length_app, !be_bytes_length. cbn. lia. }
    rewrite Hhl, !length_app, c_encrypt_length, c_auth_length, Nat.add_assoc in Eo.
    unfold tryr, bind. rewrite Eo. done.
  - destruct Hs as (A & B & C & D). split_and!; [done|done|done|].
    eapply same_key_trans; [exact K2|]. eapply same_key_trans; [exact D|]. intros iv. symmetry. apply K1.
  - cbn. by rewrite Hn.
Qed.

(** ** What is sent fits its buffer *)

(** The number of records for a number of bytes. *)
Definition record_count (n : nat) : nat := if bool_decide (n = 0%nat) then 1 else (n + TLS_TX_BUFSIZE - 1) / TLS_TX_BUFSIZE.

Lemma record_count_step n : (TLS_TX_BUFSIZE < n)%nat -> record_count n = S (record_count (n - TLS_TX_BUFSIZE)).
Proof.
  assert (0 < TLS_TX_BUFSIZE)%nat as Hp by (apply Nat2Z.inj_lt; done). intros Hn.
  unfold record_count. rewrite !bool_decide_false by lia.
  replace (n + TLS_TX_BUFSIZE - 1)%nat with (1 * TLS_TX_BUFSIZE + (n - TLS_TX_BUFSIZE + TLS_TX_BUFSIZE - 1))%nat by lia.
  by rewrite Nat.div_add_l by lia.
Qed.

Lemma record_count_pos n : (1 <= record_count n)%nat.
Proof.
  assert (0 < TLS_TX_BUFSIZE)%nat as Hp by (apply Nat2Z.inj_lt; done).
  unfold record_count. case_bool_decide; [lia|]. apply Nat.div_le_lower_bound; lia.
Qed.

Lemma sealed_length c seq type ver rec p record ctx : suite_ok (cs_suite c) -> sealed c seq type ver rec p record ctx ->
  length record = (length p + added (cs_suite c) (length p))%nat.
Proof.
  intros Hok (ctx0 & ctx1 & _ & _ & Hrec & _ & -> & _).
  rewrite !length_app, c_encrypt_length, c_auth_length, protected_length by done.
  unfold tls_header. rewrite !length_app, !be_bytes_length. unfold added. cbn [length]. unfold TLS_HEADER_LEN. lia.
Qed.

Lemma send_loop_fits type : forall fuel data out s out' s', suite_ok (cs_suite (tx_active s)) ->
  send_loop fuel type data out s = Ret (inr out') s' ->
  (length out' <= length out + length data +
                  record_count (length data) * record_overhead (cs_suite (tx_active s)))%nat.
Proof.
  induction fuel as [|fuel IH]; intros data out s out' s' Hok; [done|]. cbn [send_loop]. intros E.
  apply bind_ret in E as (r & s1 & E1 & E2). destruct r as [e|record]; [done|].
  destruct (send_one_sealed _ _ _ _ _ Hok E1) as (rec & ctx & Hsealed & ->).
  pose proof (sealed_length _ _ _ _ _ _ _ _ Hok Hsealed) as Hl.
  pose proof (added_le (cs_suite (tx_active s)) (length (take TLS_TX_BUFSIZE data))) as Ha.
  rewrite length_take in Hl, Ha. case_bool_decide as Hd.
  - injection E2 as <- <-. pose proof (record_count_pos (length data)) as Hc. rewrite length_app. nia.
  - apply (IH _ _ (tx_after s ctx)) in E2; [|done].
    change (cs_suite (tx_active (tx_after s ctx))) with (cs_suite (tx_active s)) in E2.
    assert (TLS_TX_BUFSIZE < length data)%nat as Hlt.
    { destruct (decide (TLS_TX_BUFSIZE < length data)%nat) as [|Hge]; [done|]. destruct Hd. apply drop_ge. lia. }
    rewrite (record_count_step _ Hlt). rewrite length_app, length_drop in E2. nia.
Qed.

(** [C37] What is sent fits: the records made of any data are together not longer than the
    data and the reserve that was allocated for it. *)
Theorem sent_fits type data s out s' : suite_ok (cs_suite (tx_active s)) ->
  send_loop (S (length data)) type data [] s = Ret (inr out) s' ->
  (length out <= tls_iob_reserved s (length data) + length data)%nat.
Proof.
  intros Hok E. pose proof (send_loop_fits type _ _ _ _ _ _ Hok E) as Hl. unfold tls_iob_reserved.
  fold (record_count (length data)). cbn [length] in Hl. lia.
Qed.
End Records.
