(* ===== verification/Tls12Attack.v ===== *)
(** * TLS connection: key block and echoed session ID (net/tls.c)

    The key block is cut as RFC 5246 says.  A server hello that echoes the session ID of a
    session without a resumption secret makes it a function of public values.  Some messages
    in an unexpected order, and a record without data, make the code follow a pointer that
    leads nowhere. *)

From stdpp Require Import base list strings.
From Stdlib Require Import ZArith Lia.
From S2P Require Import Prelude Crypto TlsKeys Tofu Tls12Base Tls12Keys Tls12Tx Tls12Rx Tls12Conn Tls12Inv Tls12Laws.

Section KeyBlock.
Context {lib : TlsLib} {laws : TlsLibLaws} {hkdf : HkdfOps} {hkdf_laws : HkdfLaws} {tables : TlsTables} {env : TlsEnv}.
Abbreviation conn := tls_connection.
Implicit Types (t : conn) (c : tls_cipherspec).

(** A specification of a suite, with storage for its keys. *)
Definition spec_of (suite : tls_cipher_suite) c : Prop :=
  cs_chosen c = Some suite /\ length (cs_mac_secret c) = su_mac_len suite /\
  length (cs_fixed_iv c) = su_fixed_iv_len suite.

(** The specification [c'] is [c] with these keys. *)
Definition keyed_with (suite : tls_cipher_suite) c (mac k iv : list Z) c' : Prop :=
  cs_chosen c' = Some suite /\ cs_mac_secret c' = mac /\ cs_fixed_iv c' = iv /\
  cipher_setkey (su_cipher suite) (cs_ctx c) k = inr (cs_ctx c').

Lemma fill_all (dst src : list Z) t : length src = length dst -> fill dst src t = Ret src t.
Proof.
  intros Hl. unfold fill. rewrite memcpy_some by lia. cbn [of_option]. unfold ret.
  unfold splice. by rewrite take_0, drop_ge, app_nil_r by lia.
Qed.

Lemma prf_v12 t label n seeds : tls_version t TLS_VERSION_TLS_1_2 = true -> (0 < dsize (k_digest (key t)))%nat ->
  tls_prf_label n label seeds t =
    Ret (take n (p_hash (k_digest (key t)) (kdf_bytes t) (concat (label :: seeds)) 1 n)) t.
Proof.
  intros Hv Hd. unfold tls_prf_label, tls_prf, bind, gets. rewrite Hv. unfold of_loop.
  rewrite (p_hash_va_spec _ _ _ _ n); [done|done|done|]. nia.
Qed.

(** The key block of RFC 5246, section 6.3. *)
Definition key_block (d : dalg) (master server client : list Z) (n : nat) : list Z :=
  take n (p_hash d master (bstr "key expansion" ++ server ++ client) 1 n).

Lemma key_block_length d master server client n : (0 < dsize d)%nat -> length (key_block d master server client n) = n.
Proof. intros Hd. unfold key_block. rewrite length_take, p_hash_length. nia. Qed.

(** The six parts of a key block: MAC secrets, keys and initialisation vectors, each first
    for what the client writes. *)
Definition split_block (suite : tls_cipher_suite) (kb : list Z) (c1 c2 c1' c2' : tls_cipherspec) : Prop :=
  let h := su_mac_len suite in
  let k := su_key_len suite in
  let v := su_fixed_iv_len suite in
  keyed_with suite c1 (sub 0 h kb) (sub (2 * h) k kb) (sub (2 * h + 2 * k) v kb) c1' /\
  keyed_with suite c2 (sub h h kb) (sub (2 * h + k) k kb) (sub (2 * h + 2 * k + v) v kb) c2'.

Definition block_length (suite : tls_cipher_suite) : nat :=
  (2 * (su_mac_len suite + su_key_len suite + su_fixed_iv_len suite))%nat.

Lemma key_expansion t n kb t' : tls_version t TLS_VERSION_TLS_1_2 = true -> (0 < dsize (k_digest (key t)))%nat ->
  tls_prf_label n (bstr "key expansion") [server_random t; client_random t] t = Ret kb t' ->
  kb = key_block (k_digest (key t)) (kdf_bytes t) (server_random t) (client_random t) n /\ t' = t.
Proof.
  intros Hv Hd E. rewrite prf_v12 in E by done. unfold key_block.
  assert (concat [bstr "key expansion"; server_random t; client_random t] =
    bstr "key expansion" ++ server_random t ++ client_random t) as Ec by (unfold concat; by rewrite app_nil_r).
  rewrite Ec in E. split; congruence.
Qed.

Lemma set_key_inv c alg k c' : set_key c alg k = inr c' ->
  exists ctx, cipher_setkey alg (cs_ctx c) k = inr ctx /\ c' = c <| cs_ctx := ctx |>.
Proof. unfold set_key. destruct (cipher_setkey _ _ _) as [e|ctx]; [done|]. intros [= <-]. by exists ctx. Qed.

Lemma upd_tx_pending_inv f t a t' : upd_tx_pending f t = Ret a t' ->
  tx_pending_spec t' = f (tx_pending_spec t) /\ rx_pending_spec t' = rx_pending_spec t.
Proof. by intros [= _ <-]. Qed.
Lemma upd_rx_pending_inv f t a t' : upd_rx_pending f t = Ret a t' ->
  tx_pending_spec t' = tx_pending_spec t /\ rx_pending_spec t' = f (rx_pending_spec t).
Proof. by intros [= _ <-]. Qed.

Lemma generate_keys_split suite t t' : tls_version t TLS_VERSION_TLS_1_2 = true -> (0 < dsize (k_digest (key t)))%nat ->
  spec_of suite (tx_pending_spec t) -> spec_of suite (rx_pending_spec t) -> tls_generate_keys t = Ret OK t' ->
  split_block suite (key_block (k_digest (key t)) (kdf_bytes t) (server_random t) (client_random t) (block_length suite))
    (tx_pending_spec t) (rx_pending_spec t) (tx_pending_spec t') (rx_pending_spec t').
Proof.
  intros Hv Hd (Tc & Tm & Ti) (Rc & Rm & Ri) E. unfold tls_generate_keys in E.
  apply bind_ret in E as (su & t0 & [= <- <-] & E). assert (cs_suite (tx_pending_spec t) = suite) as Es
    by (unfold cs_suite; by rewrite Tc). rewrite Es in E. cbv zeta in E.
  apply bind_ret in E as (u0 & t0 & [= <- <-] & E).
  apply bind_ret in E as (kb & t0 & Ekb & E). apply key_expansion in Ekb as [-> ->]; [|done..].
  fold (block_length suite) in E.
  set (kb := key_block _ _ _ _ (block_length suite)) in *. assert (length kb = block_length suite) as Hkb by by apply key_block_length.
  unfold block_length in Hkb.
  apply bind_ret in E as (m & t0 & Em & E). rewrite fill_all in Em by (rewrite sub_length; lia). injection Em as <- <-.
  apply bind_ret in E as (u1 & t1 & [T1 R1]%upd_tx_pending_inv & E).
  apply bind_ret in E as (m & t0 & Em & E). rewrite fill_all in Em by (rewrite sub_length; lia). injection Em as <- <-.
  apply bind_ret in E as (u2 & t2 & [T2 R2]%upd_rx_pending_inv & E).
  apply bind_ret in E as (c & t0 & [= <- <-] & E). destruct (set_key _ _ _) as [e|c] eqn:Kt; [done|].
  apply set_key_inv in Kt as (ctx & Kt & ->). apply bind_ret in E as (u3 & t3 & [T3 R3]%upd_tx_pending_inv & E).
  apply bind_ret in E as (c & t0 & [= <- <-] & E). destruct (set_key _ _ _) as [e|c] eqn:Kr; [done|].
  apply set_key_inv in Kr as (ctx' & Kr & ->). apply bind_ret in E as (u4 & t4 & [T4 R4]%upd_rx_pending_inv & E).
  apply bind_ret in E as (m & t0 & Em & E). rewrite fill_all in Em by (rewrite sub_length; lia). injection Em as <- <-.
  apply bind_ret in E as (u5 & t5 & [T5 R5]%upd_tx_pending_inv & E).
  apply bind_ret in E as (m & t0 & Em & E). rewrite fill_all in Em by (rewrite sub_length; lia). injection Em as <- <-.
  apply bind_ret in E as (u6 & t6 & [T6 R6]%upd_rx_pending_inv & [= <-]).
  rewrite T2, T1 in Kt. rewrite R3, R2, R1 in Kr. unfold cs_suite in Kr. cbn in Kt, Kr. rewrite Rc in Kr.
  rewrite T6, R6, T5, R5, T4, R4, T3, R3, T2, R2, T1, R1. done.
Qed.

(** [C35] The key block: the pending specifications receive the six parts of the key block of
    RFC 5246, section 6.3, computed from the master secret and the random values. *)
Theorem generate_keys_rfc5246 suite t t' : tls_version t TLS_VERSION_TLS_1_2 = true -> (0 < dsize (k_digest (key t)))%nat ->
  spec_of suite (tx_pending_spec t) -> spec_of suite (rx_pending_spec t) -> tls_generate_keys t = Ret OK t' ->
  split_block suite (key_block (k_digest (key t)) (kdf_bytes t) (server_random t) (client_random t) (block_length suite))
    (tx_pending_spec t) (rx_pending_spec t) (tx_pending_spec t') (rx_pending_spec t').
Proof. apply generate_keys_split. Qed.

(** ** An echoed session ID *)

(** A specification that was just chosen. *)
Definition fresh_spec (suite : tls_cipher_suite) : tls_cipherspec :=
  Cipherspec (Some suite) (cctx_zero (su_cipher suite)) (zeros (su_mac_len suite)) (zeros (su_fixed_iv_len suite)).

Lemma fresh_spec_of suite : spec_of suite (fresh_spec suite).
Proof. split_and!; [done|apply length_replicate..]. Qed.

(** What the peer knows of a connection. *)
Definition known t := (version t, client_random t, session_id t, session_id_len t, session t).

Lemma set_digest_inv d t t' : tls_version t TLS_VERSION_TLS_1_2 = true -> tls_set_digest d t = Ret OK t' ->
  known t' = known t /\ k_digest (key t') = d /\ k_bound (key t') = None /\ k_keyed (key t') = false /\
  exists kdf, k_kdf (key t') = Some kdf /\ length kdf = hmac_keysize d.
Proof.
  intros Hv E. unfold tls_set_digest, tls_clear_digest, upd_key, tls_clear_binding in E.
  unfold bind, update, gets, consult, ret in E. cbn -[bstr] in E. destruct (te_alloc (tick t)); [|done].
  cbn -[bstr] in E. injection E as <-. split_and!; [done..|]. eexists. split; [done|].
  unfold tls_ephemeral_label, tls_ephemeral. rewrite hkdf_expand_length.
  unfold tls_version in *. cbn. by rewrite Hv.
Qed.

Lemma set_cipher_inv suite t c t' : tls_set_cipher suite t = Ret (inr c) t' ->
  c = fresh_spec suite /\ known t' = known t /\ key t' = key t /\ tx t' = tx t /\ rx t' = rx t.
Proof.
  unfold tls_set_cipher, bind, consult, ret. destruct (te_alloc _); [|done]. cbn. by intros [= <- <-].
Qed.

(** The state after a cipher suite was chosen. *)
Definition chosen suite t : Prop :=
  k_digest (key t) = su_handshake suite /\ k_bound (key t) = None /\ k_keyed (key t) = false /\
  (exists kdf, k_kdf (key t) = Some kdf /\ length kdf = hmac_keysize (su_handshake suite)) /\
  tx_pending_spec t = fresh_spec suite /\ rx_pending_spec t = fresh_spec suite.

Lemma select_cipher_inv code t t' : tls_version t TLS_VERSION_TLS_1_2 = true -> tls_select_cipher code t = Ret OK t' ->
  exists suite, tls_find_cipher_suite code = Some suite /\ known t' = known t /\ chosen suite t'.
Proof.
  intros Hv E. unfold tls_select_cipher in E. destruct (tls_find_cipher_suite code) as [suite|]; [|done].
  exists suite. split; [done|]. apply bind_ret in E as (v & t0 & [= <- <-] & E). rewrite Hv in E.
  apply bind_ret in E as ([|e] & t1 & E1 & E); [|done]. apply set_digest_inv in E1 as (K1 & D & B & K & Kdf); [|done].
  apply bind_ret in E as ([[e c]|c] & t2 & E2 & E).
  { by apply bind_ret in E as (u & t3 & _ & [=]). }
  apply set_cipher_inv in E2 as (-> & K2 & Y2 & _ & _). apply bind_ret in E as (u & t3 & [= <- <-] & E).
  apply bind_ret in E as ([[e c]|c] & t4 & E4 & E).
  { by apply bind_ret in E as (u & t5 & _ & [=]). }
  apply set_cipher_inv in E4 as (-> & K4 & Y4 & X4 & _). apply bind_ret in E as (u & t5 & [= <- <-] & [= <-]).
  unfold known in *. cbn in *. split; [congruence|]. unfold chosen, tx_pending_spec, rx_pending_spec. cbn.
  rewrite Y4, Y2, X4. cbn. split_and!; done.
Qed.

(** Resuming a session without a resumption secret leaves the secret of nobody. *)
Lemma resume_empty_inv suite t t' : tls_version t TLS_VERSION_TLS_1_2 = true -> chosen suite t ->
  ss_resumption_len (session t) = 0%nat -> tls_resume_secret t = Ret tt t' ->
  known t' = known t /\ server_random t' = server_random t /\ chosen suite t' /\
  kdf_bytes t' = hmac_key (su_handshake suite) [].
Proof.
  intros Hv (D & B & K & (kdf & Kdf & Hl) & X & R) Hr E. unfold tls_resume_secret in E.
  apply bind_ret in E as (s & t0 & [= <- <-] & E). rewrite Hr, take_0 in E.
  apply bind_ret in E as (u0 & t1 & E1 & E).
  assert (t1 = t <| key ::= (fun k => k <| k_kdf := Some (hmac_key (su_handshake suite) []) |>) |>) as ->.
  { unfold tls_set_kdf_master, put_kdf, bind, gets in E1. rewrite Hv, D in E1. unfold kdf_bytes in E1.
    rewrite Kdf in E1. cbn [default from_option id] in E1.
    assert (memcpy 0 (hmac_key (su_handshake suite) []) kdf = Some (hmac_key (su_handshake suite) [])) as Em.
    { rewrite memcpy_some by (rewrite hmac_key_length; lia). unfold splice.
      rewrite take_0, drop_ge, app_nil_r by (rewrite hmac_key_length; lia). done. }
    rewrite Em in E1. injection E1 as _ <-. unfold modify, eta_connection, eta_key. cbn. by rewrite Kdf. }
  apply bind_ret in E as (u1 & t2 & [= <- <-] & E). unfold tls_set_binding in E.
  apply bind_ret in E as (u2 & t3 & [= <- <-] & E). apply bind_ret in E as (k & t4 & [= <- <-] & E).
  cbn in E. injection E as <-. split; [done|]. split; [done|]. split; [|done]. unfold chosen. cbn.
  split_and!; [done..| |done|done]. eexists. split; [done|]. apply hmac_key_length.
Qed.

Lemma add_hello_inv t a t' : tls_client_hello tls_add_handshake t = Ret a t' ->
  known t' = known t /\ (forall suite, chosen suite t -> chosen suite t').
Proof. by intros [= _ <-]. Qed.

Lemma check_reneg_inv reneg t t' : check_renegotiation reneg t = Ret OK t' ->
  key t' = key t /\ tx t' = tx t /\ rx t' = rx t.
Proof.
  unfold check_renegotiation. intros E. apply bind_ret in E as (t0 & t1 & [= <- <-] & E).
  destruct (secure_renegotiation t); [case_bool_decide; [by injection E as <-|done]|].
  destruct reneg as [[|b l]|]; [|done|by injection E as <-]. by injection E as <-.
Qed.

(** [C9] A public key: when the server sends back the session ID of the client, and the
    session has no resumption secret, an accepted ServerHello installs a key block computed
    from the empty master secret and the two random values, which anyone can compute; the key
    schedule notes that it is not keyed, and nothing is bound. *)
Theorem echoed_id_public_keys data hello t t' : parse_hello data = Some hello ->
  (TLS_VERSION_TLS_1_2 <= sh_version hello) -> ss_resumption_len (session t) = 0%nat ->
  sh_session_id hello <> [] -> sh_session_id hello = take (session_id_len t) (session_id t) ->
  (forall suite, tls_find_cipher_suite (sh_cipher_suite hello) = Some suite -> (0 < dsize (su_handshake suite))%nat) ->
  tls_new_server_hello data t = Ret OK t' ->
  exists suite, tls_find_cipher_suite (sh_cipher_suite hello) = Some suite /\
    k_keyed (key t') = false /\ k_bound (key t') = None /\
    split_block suite (key_block (su_handshake suite) (hmac_key (su_handshake suite) []) (sh_random hello)
        (client_random t) (block_length suite))
      (fresh_spec suite) (fresh_spec suite) (tx_pending_spec t') (rx_pending_spec t').
Proof.
  intros Hp Hver Hr Hne Hid Hd E. unfold tls_new_server_hello in E. rewrite Hp in E.
  apply bind_ret in E as (v & t0 & [= <- <-] & E). destruct (_ <? _); [done|]. destruct (_ <? _); [done|].
  apply bind_ret in E as (u & t1 & [= <- <-] & E). apply bind_ret in E as ([|e] & t2 & E2 & E); [|done].
  apply select_cipher_inv in E2 as (suite & Hs & K2 & C2); [|unfold tls_version; cbn; apply orb_true_iff; right; lia].
  exists suite. split; [done|]. apply bind_ret in E as (u3 & t3 & (K3 & C3)%add_hello_inv & E). apply C3 in C2.
  apply bind_ret in E as (u4 & t4 & [= <- <-] & E). apply bind_ret in E as (u5 & t5 & [= <- <-] & E).
  apply bind_ret in E as ([|e] & t6 & E6 & E); [|done]. apply check_reneg_inv in E as (Ek & Et & Er).
  unfold tx_pending_spec, rx_pending_spec. rewrite Ek, Et, Er. clear Ek Et Er t'.
  set (t4 := t3 <| server_random := sh_random hello |>) in *. set (t5 := t4 <| extended_master_secret := sh_ems hello |>) in *.
  assert (known t5 = known (t <| version := sh_version hello |>)) as K5 by (unfold t5, t4; change (known t3 = known (t <| version := sh_version hello |>)); congruence).
  assert (chosen suite t5) as C5 by exact C2. assert (server_random t5 = sh_random hello) as Esr by done.
  clearbody t5. clear t3 t4 C2 C3 K3 K2 t2. unfold known in K5. cbn in K5. injection K5 as V5 CR5 I5 L5 S5.
  unfold check_session_id in E6. apply bind_ret in E6 as (t0 & t1 & [= <- <-] & E6).
  rewrite L5, I5, !bool_decide_true in E6 by done. cbn [andb] in E6.
  apply bind_ret in E6 as ([] & t7 & E7 & E6).
  apply (resume_empty_inv suite) in E7 as (K7 & R7 & C7 & M7); [|unfold tls_version; apply orb_true_iff; right; lia|done|congruence].
  apply bind_ret in E6 as ([|e] & t8 & E8 & E6); [|done].
  assert (t6 = t8) as ->.
  { apply bind_ret in E6 as (t9 & t10 & [= <- <-] & E6). destruct (negb _); [done|]. by injection E6. }
  unfold known in K7. injection K7 as V7 CR7 _ _ _. destruct C7 as (D7 & B7 & Y7 & _ & X7 & P7).
  pose proof E8 as F8. apply frames_generate_keys in F8. unfold see in F8. injection F8 as -> -> _ _ _ _ _ _.
  split; [done|]. split; [done|].
  apply (generate_keys_split suite) in E8; [|unfold tls_version; apply orb_true_iff; right; lia| | |].
  - rewrite X7, P7, D7, M7, R7, CR7, CR5, Esr in E8. exact E8.
  - rewrite D7. by apply Hd.
  - rewrite X7. apply fresh_spec_of.
  - rewrite P7. apply fresh_spec_of.
Qed.
End KeyBlock.

(** ** Pointers that lead nowhere *)
Section Faults.
Context {lib : TlsLib} {hkdf : HkdfOps} {tables : TlsTables} {env : TlsEnv}.
Abbreviation conn := tls_connection.
Implicit Types (t : conn).

Lemma copy_header t h rest : rx_state (rx t) = TLS_RX_HEADER -> rx_header (rx t) = [] -> length h = TLS_HEADER_LEN ->
  copy_portion (h ++ rest) t = Ret (rest, true) (t <| rx ::= (fun r => r <| rx_header := h |>) |>).
Proof.
  intros Hs Hh Hl. unfold copy_portion, gets, bind. rewrite Hs, Hh. cbn [length]. rewrite Nat.sub_0_r, <-Hl.
  rewrite length_app, Nat.min_r by lia. unfold upd_rx, update, ret.
  rewrite take_app_length, drop_app_length, bool_decide_true by done.
  unfold modify, eta_connection, eta_rx. cbn. by rewrite Hh.
Qed.

Lemma process_empty_header t : be_val (sub 3 2 (rx_header (rx t))) = 0 -> su_record_iv_len (cs_suite (rx_active t)) = 0%nat ->
  exists t', tls_newdata_process_header t = Ret OK t' /\ rx_state (rx t') = TLS_RX_DATA /\ rx_data (rx t') = [].
Proof.
  intros Hl Hiv. unfold tls_newdata_process_header, bind, get. cbv zeta. rewrite Hl, Hiv. cbn -[Z.land].
  change (- Z.of_nat 0) with 0. rewrite Z.land_0_l. by eexists.
Qed.

(** [C38] A record without data: while the suite has no record initialisation vector, as
    before the first Change Cipher, a header that announces no data leaves the connection
    without a receive buffer, and the next byte of the peer is written through a null
    pointer. *)
Theorem empty_record_faults t type v1 v2 b rest : rx_state (rx t) = TLS_RX_HEADER -> rx_header (rx t) = [] ->
  su_record_iv_len (cs_suite (rx_active t)) = 0%nat ->
  tls_cipherstream_deliver ([type; v1; v2; 0; 0] ++ b :: rest) t = Fault.
Proof.
  intros Hs Hh Hiv. unfold tls_cipherstream_deliver. set (d := [type; v1; v2; 0; 0]).
  replace (2 * length (d ++ b :: rest) + 2)%nat with (S (S (2 * length rest + 12))) by (cbn [d length app]; lia).
  cbn [cipherstream_loop]. change (d ++ b :: rest) with (type :: [v1; v2; 0; 0] ++ b :: rest) at 1. cbv iota.
  unfold gets at 1, bind at 1 2. rewrite Hs, copy_header by done. cbn [negb].
  destruct (process_empty_header (t <| rx ::= (fun r => r <| rx_header := d |>) |>)) as (t' & E & E1 & E2); [done|exact Hiv|].
  unfold bind at 1. rewrite E. destruct (2 * length rest + 12)%nat eqn:Ef; [lia|]. cbn [cipherstream_loop].
  unfold copy_portion, gets, bind. by rewrite E1, E2.
Qed.

Lemma key_exchange_faults t : su_exchange (cs_suite (tx_pending_spec t)) <> tls_pubkey_exchange_algorithm ->
  k_group (key t) = None -> tls_send_client_key_exchange t = Fault.
Proof.
  intros Hx Hg. unfold tls_send_client_key_exchange, try, gets, bind at 1.
  assert (forall A (k : tls_named_group -> M conn A), bind key_group k t = Fault) as Hf
    by (intros A k; unfold key_group, gets, bind; by rewrite Hg).
  destruct (su_exchange _); [done| |]; unfold bind at 1; cbv beta iota;
    unfold tls_send_client_key_exchange_dhe, tls_send_client_key_exchange_ecdhe; by rewrite Hf.
Qed.

Lemma bind_fault {A B} (m : M conn A) (k : A -> M conn B) t : m t = Fault -> bind m k t = Fault.
Proof. intros E. unfold bind. by rewrite E. Qed.

Lemma send_next_faults t : tx_waiting (tx t) = TLS_TX_CLIENT_KEY_EXCHANGE -> tls_send_client_key_exchange t = Fault ->
  send_next t = Fault.
Proof.
  intros Ht Hf. unfold send_next, bind at 1, get, waiting. rewrite Ht.
  change (bind tls_send_client_key_exchange (fun rc => match rc with
    | OK => do* sent_flag TLS_TX_CLIENT_KEY_EXCHANGE in ret (Some OK) | Err e => ret (Some (Err e)) end) t = Fault).
  by apply bind_fault.
Qed.

(** A missing key exchange: when the key exchange of the chosen suite needs a group and
    the server has sent no ServerKeyExchange, the transmission of the ClientKeyExchange
    follows a null pointer. *)
Theorem missing_group_faults t : te_window (tick t) <> 0%nat -> tx_waiting (tx t) = TLS_TX_CLIENT_KEY_EXCHANGE ->
  su_exchange (cs_suite (tx_pending_spec t)) <> tls_pubkey_exchange_algorithm -> k_group (key t) = None ->
  tls_tx_step t = Fault.
Proof.
  intros Hw Ht Hx Hg. unfold tls_tx_step, upd_tx, update, consult, bind at 1 2.
  rewrite bool_decide_false by exact Hw. apply bind_fault, send_next_faults; [exact Ht|]. by apply key_exchange_faults.
Qed.
End Faults.
