(* ===== verification/Tls12Ends.v ===== *)
(** * TLS connection: reception ends (net/tls.c)

    No bytes of the peer keep the connection busy for ever: the loops over the stream, the
    messages of a record, the extensions, the certificates and the records that are sent
    have fuel enough, and the pseudo-random function is only asked with a digest that has
    an output. *)

From stdpp Require Import base list strings.
From Stdlib Require Import ZArith Lia.
From S2P Require Import Prelude Crypto TlsKeys Tofu Tls12Base Tls12Keys Tls12Tx Tls12Rx Tls12Conn.

Section Ends.
Context {lib : TlsLib} {hkdf : HkdfOps} {tables : TlsTables} {env : TlsEnv}.
Abbreviation conn := tls_connection.
Implicit Types (t : conn).

(** A computation that ends. *)
Definition ends {A} (m : M conn A) : Prop := forall t, m t <> NoFuel.

Lemma ends_ret {A} (a : A) : ends (ret a).
Proof. by intros t. Qed.
Lemma ends_fault {A} : ends (fault : M conn A).
Proof. by intros t. Qed.
Lemma ends_update f : ends (update f).
Proof. by intros t. Qed.
Lemma ends_get : ends get.
Proof. by intros t. Qed.
Lemma ends_gets {A} (f : conn -> A) : ends (gets f).
Proof. by intros t. Qed.
Lemma ends_consult {A} (f : nat -> A) : ends (consult f).
Proof. by intros t. Qed.
Lemma ends_option {A} (o : option A) : ends (of_option o).
Proof. by destruct o; intros t. Qed.
Lemma ends_bind {A B} (m : M conn A) (k : A -> M conn B) : ends m -> (forall a, ends (k a)) -> ends (bind m k).
Proof. intros Hm Hk t. unfold bind. pose proof (Hm t) as Ht. destruct (m t); [apply Hk|done..]. Qed.
Lemma ends_try m k : ends m -> ends k -> ends (try m k).
Proof. intros Hm Hk. apply ends_bind; [done|]. intros [|e]; [done|apply ends_ret]. Qed.
Lemma ends_tryr {A} (m : M conn (errno + A)) k : ends m -> (forall a, ends (k a)) -> ends (tryr m k).
Proof. intros Hm Hk. apply ends_bind; [done|]. intros [e|a]; [apply ends_ret|done]. Qed.
End Ends.

Create HintDb ends discriminated.
#[export] Hint Resolve ends_ret ends_fault ends_update ends_get ends_gets ends_consult ends_option : ends.

(** [ends] walks through a computation and into the functions it calls. *)
Ltac head_of t := match t with ?f _ => head_of f | _ => t end.
Ltac ends :=
  repeat first
    [ progress intros
    | progress cbv zeta
    | solve [auto 1 with ends nocore]
    | apply ends_bind | apply ends_try | apply ends_tryr
    | case_match
    | match goal with |- ends ?m => let h := head_of m in unfold h end ].

Section Loops.
Context {lib : TlsLib} {hkdf : HkdfOps} {tables : TlsTables} {env : TlsEnv}.
Abbreviation conn := tls_connection.
Implicit Types (t : conn).

(** ** Sending *)
Lemma ends_send_loop type : forall fuel data out, (length data < fuel)%nat -> ends (send_loop fuel type data out).
Proof.
  induction fuel as [|fuel IH]; intros data out Hf; [lia|]. cbn [send_loop].
  apply ends_bind; [ends|]. intros [e|record]; [ends|]. cbv zeta. case_bool_decide as Hr; [ends|]. apply IH.
  destruct data as [|b data]; [done|]. rewrite length_drop. cbn [length] in *.
  assert (0 < TLS_TX_BUFSIZE)%nat by (apply Nat2Z.inj_lt; done). lia.
Qed.

Lemma ends_send_all type data out : ends (send_loop (S (length data)) type data out).
Proof. apply ends_send_loop. lia. Qed.
#[local] Hint Resolve ends_send_all : ends.
Lemma ends_send_plaintext type d : ends (tls_send_plaintext type d).
Proof. ends. Qed.
#[local] Hint Resolve ends_send_plaintext : ends.
Lemma ends_close_alert rc : ends (tls_close_alert rc).
Proof. ends. Qed.
Lemma ends_close rc : ends (tls_close rc).
Proof. ends. Qed.
Lemma ends_restart : ends tls_restart.
Proof. ends. Qed.
Lemma ends_select_cipher code : ends (tls_select_cipher code).
Proof. ends. Qed.
Lemma ends_kdf_master secret : ends (tls_set_kdf_master secret).
Proof. ends. Qed.
#[local] Hint Resolve ends_close_alert ends_close ends_restart ends_select_cipher ends_kdf_master : ends.
Lemma ends_resume_secret : ends tls_resume_secret.
Proof. ends. Qed.
Lemma ends_verify_dh d n : ends (tls_verify_dh_params d n).
Proof. ends. Qed.
Lemma ends_agree p s : ends (tls_agree_ephemeral p s).
Proof. ends. Qed.
#[local] Hint Resolve ends_resume_secret ends_verify_dh ends_agree : ends.
Lemma ends_key_exchange d : ends (tls_new_server_key_exchange d).
Proof. ends. Qed.
Lemma ends_certificate d : ends (tls_new_certificate d).
Proof. ends. Qed.
Lemma ends_certificate_request : ends tls_new_certificate_request.
Proof. ends. Qed.
Lemma ends_ticket d : ends (tls_new_session_ticket d).
Proof. ends. Qed.
Lemma ends_hello_done d : ends (tls_new_server_hello_done d).
Proof. ends. Qed.
Lemma ends_hello_request : ends tls_new_hello_request.
Proof. ends. Qed.
Lemma ends_alert d : ends (tls_new_alert d).
Proof. ends. Qed.
Lemma ends_record_session : ends record_session.
Proof. ends. Qed.
Lemma ends_consumer l : ends (consumer_sends l).
Proof. induction l; cbn [consumer_sends]; ends. Qed.
#[local] Hint Resolve ends_consumer : ends.
Lemma ends_deliver_plain d : ends (deliver_plain d).
Proof. ends. Qed.
#[local] Hint Resolve ends_deliver_plain : ends.
Lemma ends_deliver_all l : ends (deliver_all l).
Proof. induction l; cbn [deliver_all]; ends. Qed.
Lemma ends_open_record type v n bufs : ends (open_record type v n bufs).
Proof. ends. Qed.
Lemma ends_alloc_buffers l : ends (alloc_buffers l).
Proof. induction l; cbn [alloc_buffers]; ends. Qed.
#[local] Hint Resolve ends_alloc_buffers : ends.
Lemma ends_process_header : ends tls_newdata_process_header.
Proof. ends. Qed.
End Loops.

#[export] Hint Resolve ends_send_all ends_send_plaintext ends_close_alert ends_close ends_restart ends_select_cipher
  ends_kdf_master ends_resume_secret ends_verify_dh ends_agree ends_key_exchange ends_certificate
  ends_certificate_request ends_ticket ends_hello_done ends_hello_request ends_alert ends_record_session ends_consumer
  ends_deliver_plain ends_deliver_all ends_open_record ends_alloc_buffers ends_process_header : ends.

(** ** The pseudo-random function *)
Section Prf.
Context {lib : TlsLib} {hkdf : HkdfOps} {tables : TlsTables} {env : TlsEnv}.
Abbreviation conn := tls_connection.
Implicit Types (t : conn).

(** The digests of the suites that can be chosen, and the two of the older versions, have
    an output. *)
Definition digests_ok : Prop :=
  (forall code suite, tls_find_cipher_suite code = Some suite -> (0 < dsize (su_handshake suite))%nat) /\
  (0 < dsize md5_algorithm)%nat /\ (0 < dsize sha1_algorithm)%nat.
Context (Hd : digests_ok).

(** So has the one of a connection. *)
Definition digest_ok t : Prop := tls_version t TLS_VERSION_TLS_1_2 = true -> (0 < dsize (k_digest (key t)))%nat.

Lemma p_hash_loop_some d hkey seeds : (0 < dsize d)%nat -> forall fuel a n, (n <= fuel)%nat ->
  exists l, p_hash_loop fuel d hkey seeds a n = Some l.
Proof.
  intros Hs fuel. induction fuel as [|fuel IH]; intros a n Hn; cbn [p_hash_loop]; case_bool_decide as H0;
    try (by eexists); [lia|]. cbv zeta.
  edestruct IH as (l & ->); [|by eexists]. lia.
Qed.

Lemma prf_ends n label seeds t : digest_ok t -> tls_prf_label n label seeds t <> NoFuel.
Proof.
  intros Hok. destruct Hd as (_ & Hm & Hs).
  assert (forall d hkey seeds', (0 < dsize d)%nat -> ends (of_loop (tls_p_hash_va d hkey n seeds'))) as Hp.
  { intros d hkey seeds' Hp t'. unfold tls_p_hash_va. by edestruct (p_hash_loop_some d hkey seeds' Hp) as (l & ->). }
  unfold tls_prf_label, tls_prf, gets, bind at 1 2 3. destruct (tls_version t _) eqn:Ev; [by apply Hp, Hok|].
  match goal with |- ?f ?x <> _ => enough (ends f) as He by apply He end.
  apply ends_bind; [ends|]. intros m. apply ends_bind; [ends|]. intros sh. apply ends_bind; [by apply Hp|]. intros out.
  apply ends_bind; [by apply Hp|]. ends.
Qed.

(** Computations that end when the digest has an output. *)
Lemma bind_ends {A B} (m : M conn A) (k : A -> M conn B) t : m t <> NoFuel ->
  (forall a t', m t = Ret a t' -> k a t' <> NoFuel) -> bind m k t <> NoFuel.
Proof. intros Hm Hk. unfold bind. destruct (m t) as [a t'| |]; [by apply Hk|done..]. Qed.

Lemma generate_keys_ends t : digest_ok t -> tls_generate_keys t <> NoFuel.
Proof.
  intros Hok. unfold tls_generate_keys. apply bind_ends; [done|]. intros suite t1 [= <- <-]. cbv zeta.
  apply bind_ends; [done|]. intros t0 t1 [= <- <-]. apply bind_ends; [by apply prf_ends|]. intros kb t1 _.
  match goal with |- ?f ?x <> _ => enough (ends f) as He by apply He end. ends.
Qed.

(** What the digest depends on. *)
Definition dig t := (version t, k_digest (key t)).
Lemma digest_ok_dig t t' : dig t' = dig t -> digest_ok t -> digest_ok t'.
Proof. unfold digest_ok, tls_version. intros [= -> ->]. done. Qed.

Lemma kdf_master_dig secret t u t' : tls_set_kdf_master secret t = Ret u t' -> dig t' = dig t.
Proof.
  assert (forall o d t u t', put_kdf o d t = Ret u t' -> dig t' = dig t) as Hput.
  { intros o d t0 u0 t1 E. unfold put_kdf in E. apply bind_ret in E as (k & t2 & [= <- <-] & E).
    apply bind_ret in E as (k & t2 & E2 & E). destruct (memcpy _ _ _); [|done]. injection E2 as <- <-. by injection E as _ <-. }
  intros E. unfold tls_set_kdf_master in E. apply bind_ret in E as (v & t1 & [= <- <-] & E).
  apply bind_ret in E as (d & t1 & [= <- <-] & E). destruct (tls_version _ _); [by apply Hput in E|]. cbv zeta in E.
  apply bind_ret in E as ([] & t1 & E1 & E). apply Hput in E, E1. congruence.
Qed.

Lemma resume_dig t u t' : tls_resume_secret t = Ret u t' -> dig t' = dig t.
Proof.
  intros E. unfold tls_resume_secret in E. apply bind_ret in E as (s & t1 & [= <- <-] & E).
  apply bind_ret in E as (u1 & t2 & E2 & E). apply kdf_master_dig in E2. rewrite <-E2. clear E2.
  apply bind_ret in E as (u2 & t3 & [= <- <-] & E). unfold tls_set_binding in E.
  apply bind_ret in E as (u3 & t3 & [= <- <-] & E). apply bind_ret in E as (k & t4 & [= <- <-] & E).
  by destruct (negb _); injection E as _ <-.
Qed.

Lemma session_id_ends id t : digest_ok t -> check_session_id id t <> NoFuel.
Proof.
  intros Hok. unfold check_session_id. apply bind_ends; [done|]. intros t0 t1 [= <- <-]. destruct (_ && _).
  - apply bind_ends; [apply ends_resume_secret|]. intros u t1 E1%resume_dig.
    apply bind_ends; [apply generate_keys_ends; by eapply digest_ok_dig|]. intros rc t2 _.
    match goal with |- ?f ?x <> _ => enough (ends f) as He by apply He end. ends.
  - match goal with |- ?f ?x <> _ => enough (ends f) as He by apply He end. ends.
Qed.

(** A suite that was chosen brings its digest. *)
Lemma select_cipher_digest code t t' : tls_select_cipher code t = Ret OK t' -> digest_ok t'.
Proof.
  intros E. unfold tls_select_cipher in E. destruct (tls_find_cipher_suite code) as [suite|] eqn:Es; [|done].
  apply bind_ret in E as (v & t0 & [= <- <-] & E). apply bind_ret in E as ([|e] & t1 & E1 & E); [|done].
  assert (dig t1 = (version t, if tls_version t TLS_VERSION_TLS_1_2 then su_handshake suite else md5_sha1_algorithm)) as D1.
  { revert E1. generalize (if tls_version t TLS_VERSION_TLS_1_2 then su_handshake suite else md5_sha1_algorithm).
    intros d E1. unfold tls_set_digest, tls_clear_digest, upd_key, tls_clear_binding, bind, update, gets, consult, ret in E1.
    cbn -[bstr] in E1. destruct (te_alloc _); [|done]. cbn -[bstr] in E1. by injection E1 as <-. }
  assert (forall t2, dig t2 = dig t1 -> digest_ok t2) as Hok.
  { intros t2 Ed. rewrite D1 in Ed. unfold digest_ok, tls_version. injection Ed as -> ->. intros Hv.
    change (tls_version t TLS_VERSION_TLS_1_2 = true) in Hv. rewrite Hv. apply (proj1 Hd _ _ Es). }
  assert (forall c t2 t3, tls_set_cipher suite t2 = Ret c t3 -> dig t3 = dig t2) as Hc.
  { intros c t2 t3. unfold tls_set_cipher, bind, consult, ret. by intros [= _ <-]. }
  apply bind_ret in E as ([[e c]|c] & t2 & E2%Hc & E); [by apply bind_ret in E as (u & t3 & _ & [=])|].
  apply bind_ret in E as (u & t3 & [= <- <-] & E).
  apply bind_ret in E as ([[e c']|c'] & t4 & E4%Hc & E); [by apply bind_ret in E as (u & t5 & _ & [=])|].
  apply bind_ret in E as (u & t5 & [= <- <-] & [= <-]). apply Hok. rewrite <-E2. exact E4.
Qed.

Lemma server_hello_ends d : ends (tls_new_server_hello d).
Proof.
  unfold tls_new_server_hello. destruct (parse_hello d) as [hello|]; [|ends]. apply ends_bind; [ends|]. intros v.
  destruct (_ <? _); [ends|]. destruct (_ <? _); [ends|]. apply ends_bind; [ends|]. intros u t.
  apply bind_ends; [apply ends_select_cipher|]. intros [|e] t1 E1; [|done]. apply select_cipher_digest in E1.
  apply bind_ends; [done|]. intros u2 t2 [= _ <-]. apply bind_ends; [done|]. intros u3 t3 [= _ <-].
  apply bind_ends; [done|]. intros u4 t4 [= _ <-]. apply bind_ends; [by apply session_id_ends|]. intros [|e] t5 _; [|done].
  revert t5. match goal with |- forall t, ?f t <> _ => change (ends f) end. ends.
Qed.

Lemma finished_ends d : ends (tls_new_finished d).
Proof.
  intros t. unfold tls_new_finished. apply bind_ends; [done|]. intros t0 t1 [= <- <-]. cbv zeta.
  destruct (negb (_ && _ && _)) eqn:Eg; [done|]. apply negb_false_iff in Eg.
  apply andb_true_iff in Eg as [[Hdg _]%andb_true_iff _]. apply negb_true_iff, bool_decide_eq_false in Hdg.
  destruct (negb _); [done|]. apply bind_ends; [done|]. intros dg t1 [= <- <-].
  apply bind_ends; [apply prf_ends; intros _; lia|]. intros vf t1 _.
  match goal with |- ?f ?x <> _ => enough (ends f) as He by apply He end. ends.
Qed.

(** ** Messages and records *)
Lemma message_ends type d : ends (handle_message type d).
Proof.
  unfold handle_message. repeat match goal with |- ends (if ?b then _ else _) => destruct b end;
    auto using server_hello_ends, finished_ends with ends.
Qed.

Lemma handshake_ends fuel : forall d, (length d <= fuel)%nat -> ends (tls_new_handshake fuel d).
Proof.
  induction fuel as [|fuel IH]; intros d Hf; cbn [tls_new_handshake]; (case_bool_decide; [ends|]); [lia|]. cbv zeta.
  case_bool_decide; [ends|]. apply ends_bind; [apply message_ends|]. intros rc. apply ends_bind; [ends|]. intros u.
  destruct rc; [|ends]. apply IH. rewrite length_drop. lia.
Qed.

Lemma new_record_ends type bufs : ends (tls_new_record type bufs).
Proof.
  unfold tls_new_record. destruct (type =? TLS_TYPE_DATA); [ends|]. apply ends_bind; [ends|]. intros fr. cbv zeta.
  apply ends_bind; [ends|]. intros [data|]; [|ends]. apply ends_bind; [|ends].
  destruct (type =? _); [ends|]. destruct (type =? _); [ends|]. destruct (type =? _); [by apply handshake_ends|ends].
Qed.

Lemma process_data_ends : ends tls_newdata_process_data.
Proof.
  unfold tls_newdata_process_data. apply ends_bind; [ends|]. intros [|b rest]; [ends|]. cbv zeta.
  apply ends_bind; [ends|]. intros u. case_bool_decide; [ends|]. apply ends_bind; [ends|]. intros h.
  apply ends_try; [|ends]. unfold tls_new_ciphertext. apply ends_tryr; [ends|]. intros l. apply new_record_ends.
Qed.

(** ** The stream *)

(** The turns of the loop that take no data: a complete header is processed, and a buffer
    without room; the next turn takes data again. *)
Definition idle t : nat :=
  match rx_state (rx t) with
  | TLS_RX_HEADER => if bool_decide (TLS_HEADER_LEN <= length (rx_header (rx t)))%nat then 2 else 0
  | TLS_RX_DATA => match rx_data (rx t) with b :: _ => if bool_decide (rb_room b = 0)%nat then 1 else 0 | [] => 0 end
  end.

Lemma process_header_idle t t' : tls_newdata_process_header t = Ret OK t' -> (idle t' <= 1)%nat.
Proof.
  unfold tls_newdata_process_header. intros E. apply bind_ret in E as (t0 & t1 & [= <- <-] & E). cbv zeta in E.
  apply bind_ret in E as (ok & t1 & _ & E). destruct (negb ok); [done|].
  apply bind_ret in E as (u & t2 & [= _ <-] & [= <-]). unfold idle. cbn. repeat case_match; lia.
Qed.

Lemma process_data_idle t t' : rx_state (rx t) = TLS_RX_DATA -> tls_newdata_process_data t = Ret OK t' -> idle t' = 0%nat.
Proof.
  intros Hs E. unfold tls_newdata_process_data in E. apply bind_ret in E as (bufs & t0 & [= <- <-] & E).
  destruct (rx_data (rx t)) as [|b rest]; [done|]. cbv zeta in E. apply bind_ret in E as (u & t1 & [= _ <-] & E).
  case_bool_decide as Hr.
  - injection E as <-. unfold idle. cbn. rewrite Hs. destruct (rest ++ [b]) as [|b' l]; [done|]. cbn in Hr.
    by rewrite bool_decide_false.
  - apply bind_ret in E as (h & t2 & _ & E). apply bind_ret in E as ([|e] & t3 & _ & E); [|done].
    by apply bind_ret in E as (u4 & t4 & [= _ <-] & [= <-]).
Qed.

Lemma copy_portion_inv data t rest full t' : copy_portion data t = Ret (rest, full) t' ->
  rx_state (rx t') = rx_state (rx t) /\ (full = false -> rest = []) /\
  (length rest <= length data)%nat /\ (idle t = 0%nat -> data <> [] -> (length rest < length data)%nat).
Proof.
  intros E. unfold copy_portion in E. apply bind_ret in E as (r & t1 & [= <- <-] & E). unfold idle.
  destruct (rx_state (rx t)) eqn:Es.
  - cbv zeta in E. apply bind_ret in E as (u & t2 & [= _ <-] & [= <- <- <-]). split; [exact Es|].
    rewrite length_drop. split_and!; [|lia|].
    + intros Hn%bool_decide_eq_false. apply drop_ge. lia.
    + case_bool_decide; [done|]. intros _ Hne. destruct data; [done|]. cbn [length]. lia.
  - destruct (rx_data (rx t)) as [|b l]; [done|]. cbv zeta in E.
    apply bind_ret in E as (u & t2 & [= _ <-] & [= <- <- <-]). split; [exact Es|].
    rewrite length_drop. split_and!; [|lia|].
    + intros Hn%bool_decide_eq_false. apply drop_ge. lia.
    + case_bool_decide; [done|]. intros _ Hne. destruct data; [done|]. cbn [length]. lia.
Qed.

Lemma idle_le t : (idle t <= 2)%nat /\ (rx_state (rx t) = TLS_RX_DATA -> idle t <= 1)%nat.
Proof. unfold idle. repeat case_match; split; done || lia. Qed.

Lemma cipherstream_loop_ends fuel : forall data t, (2 * length data + idle t <= fuel)%nat ->
  cipherstream_loop fuel data t <> NoFuel.
Proof.
  induction fuel as [|fuel IH]; intros data t Hf; (destruct data as [|b data]; [done|]); [cbn [length] in Hf; lia|].
  cbn [cipherstream_loop]. apply bind_ends; [done|]. intros state t0 [= <- <-].
  set (d := b :: data) in *. assert (d <> []) as Hne by done. clearbody d.
  apply bind_ends.
  { unfold copy_portion. match goal with |- ?f ?x <> _ => enough (ends f) as He by apply He end. ends. }
  intros [rest full] t1 E1. pose proof (idle_le t) as [Hi Hi'].
  apply copy_portion_inv in E1 as (Es & Hrest & Hle & Hlt). destruct full; cbn [negb].
  2:{ rewrite Hrest by done. by destruct fuel. }
  apply bind_ends.
  { destruct (rx_state (rx t)); [apply ends_process_header|apply process_data_ends]. }
  intros [|e] t2 E2.
  2:{ match goal with |- ?f ?x <> _ => enough (ends f) as He by apply He end. ends. }
  apply IH. destruct (rx_state (rx t)) eqn:Est.
  - apply process_header_idle in E2. unfold idle in Hf, Hlt. rewrite Est in Hf, Hlt.
    case_bool_decide; [lia|]. specialize (Hlt eq_refl Hne). lia.
  - apply process_data_idle in E2; [|by rewrite Es]. rewrite E2. destruct (decide (idle t = 0)%nat) as [E0|]; [|lia].
    specialize (Hlt E0 Hne). lia.
Qed.

(** [C33] Reception ends: whatever the peer sends, in whatever state the connection is, the
    delivery of its bytes comes to an end, as long as the digests of the cipher suites have
    an output. *)
Theorem cipherstream_deliver_ends data t : tls_cipherstream_deliver data t <> NoFuel.
Proof.
  apply cipherstream_loop_ends. pose proof (idle_le t). lia.
Qed.
End Prf.
