(* ===== verification/Tls12Split.v ===== *)
(** * TLS connection: receive buffers (net/tls.c)

    A record arrives in several buffers.  Their lengths are chosen so that decrypting them
    one by one, and looking for MAC and padding in the last one only, gives what decrypting
    the record as a whole gives. *)

From stdpp Require Import base list strings.
From Stdlib Require Import ZArith Lia.
From S2P Require Import Prelude Crypto TlsKeys Tls12Base Tls12Keys Tls12Tx Tls12Rx Tls12Laws.

(** ** Lists of buffers *)
Lemma unput_last_snoc n front l : unput_last n (front ++ [l]) =
  if bool_decide (length l < n)%nat then None
  else Some (front ++ [take (length l - n) l], drop (length l - n) l).
Proof. unfold unput_last. rewrite reverse_snoc. case_bool_decide; [done|]. by rewrite reverse_involutive. Qed.

(** The end of a long buffer does not see what comes before. *)
Lemma take_end_app n (x l : list Z) : (n <= length l)%nat ->
  take (length (x ++ l) - n) (x ++ l) = x ++ take (length l - n) l.
Proof. intros Hn. rewrite length_app, take_app_ge by lia. do 2 f_equal. lia. Qed.
Lemma drop_end_app n (x l : list Z) : (n <= length l)%nat ->
  drop (length (x ++ l) - n) (x ++ l) = drop (length l - n) l.
Proof. intros Hn. rewrite length_app, drop_app_ge by lia. f_equal. lia. Qed.

Lemma unput_last_whole n front l : (n <= length l)%nat ->
  unput_last n [concat front ++ l] = Some ([concat front ++ take (length l - n) l], drop (length l - n) l).
Proof.
  intros Hn. pose proof (unput_last_snoc n [] (concat front ++ l)) as E. cbn [app] in E.
  rewrite E, bool_decide_false by (rewrite length_app; lia). by rewrite take_end_app, drop_end_app by lia.
Qed.

Lemma verify_padding_end x l : bytes_ok l -> (256 <= length l)%nat -> tls_verify_padding (x ++ l) = tls_verify_padding l.
Proof.
  intros Hb Hl. unfold tls_verify_padding. destruct (last l) as [b|] eqn:El.
  2:{ apply last_None in El. subst l. cbn in Hl. lia. }
  rewrite last_app, El. cbn [default from_option id].
  assert (is_byte b) as Hbb by (rewrite last_lookup in El; by eapply Forall_lookup_1).
  unfold is_byte in Hbb. rewrite !bool_decide_false by (rewrite ?length_app; lia).
  by rewrite drop_end_app by lia.
Qed.

Lemma verify_padding_le l n : tls_verify_padding l = Some n -> (n <= length l)%nat.
Proof. unfold tls_verify_padding. case_bool_decide; [done|]. destruct (forallb _ _); [|done]. intros [= <-]. lia. Qed.

Lemma verify_padding_byte l n : bytes_ok l -> tls_verify_padding l = Some n -> (n <= 256)%nat.
Proof.
  unfold tls_verify_padding. intros Hb. case_bool_decide; [done|]. destruct (forallb _ _); [|done]. intros [= <-].
  destruct (last l) as [b|] eqn:El; [|cbn; lia]. cbn [default from_option id].
  assert (is_byte b) as Hbb by (rewrite last_lookup in El; by eapply Forall_lookup_1). unfold is_byte in Hbb. lia.
Qed.

(** Data in pieces of given lengths. *)
Fixpoint cut (rooms : list nat) (data : list Z) : list (list Z) :=
  match rooms with
  | [] => []
  | n :: rooms => take n data :: cut rooms (drop n data)
  end.

Section Split.
Context {lib : TlsLib} {laws : TlsLibLaws} {hkdf : HkdfOps} {tables : TlsTables} {env : TlsEnv}.
Abbreviation conn := tls_connection.
Implicit Types (t : conn) (c : tls_cipherspec).

(** ** Decryption *)
Definition aligned (a : calg) (b : list Z) : Prop := exists k, length b = (k * alignsize a)%nat.

Lemma decrypt_split a front : forall ctx l, Forall (aligned a) front -> bytes_ok l ->
  exists ctx' ps p, decrypt_all a ctx (front ++ [l]) = (ctx', ps ++ [p]) /\
    decrypt_all a ctx [concat front ++ l] = (ctx', [concat ps ++ p]) /\ length p = length l /\ bytes_ok p.
Proof.
  induction front as [|b front IH]; intros ctx l Hf Hl; cbn [app concat decrypt_all].
  - destruct (c_decrypt a ctx l) as [ctx' p] eqn:E. exists ctx', [], p. split_and!; [done|done| |].
    + rewrite <-(c_decrypt_length a ctx l). by rewrite E.
    + pose proof (c_decrypt_bytes a ctx l Hl) as Hb. by rewrite E in Hb.
  - apply Forall_cons in Hf as [Hb Hf]. rewrite <-app_assoc, c_decrypt_app by done.
    destruct (c_decrypt a ctx b) as [ctx1 pb] eqn:E1. cbn [fst snd].
    destruct (IH ctx1 l Hf Hl) as (ctx' & ps & p & -> & E2 & Hlen & Hp). cbn [decrypt_all] in E2.
    destruct (c_decrypt a ctx1 (concat front ++ l)) as [ctx2 pl] eqn:E3. cbn [fst snd]. injection E2 as -> ->.
    exists ctx', (pb :: ps), p. split_and!; [done| |done|done]. cbn [concat]. by rewrite app_assoc.
Qed.

(** ** Padding *)
Lemma strip_split a ps p : bytes_ok p -> (256 <= length p)%nat ->
  exists p' n, strip_padding a (ps ++ [p]) = (ps ++ [p'], n) /\
    strip_padding a [concat ps ++ p] = ([concat ps ++ p'], n) /\ (length p - 256 <= length p')%nat.
Proof.
  intros Hb Hl. unfold strip_padding. destruct (is_block_cipher a); [|exists p, 0%nat; repeat split; lia].
  rewrite last_snoc. cbn [last default from_option id]. rewrite verify_padding_end by done.
  set (n := default 0%nat (tls_verify_padding p)).
  assert (n <= length p /\ n <= 256)%nat as [Hn Hn'].
  { unfold n. destruct (tls_verify_padding p) as [m|] eqn:E; cbn; [|lia].
    split; [by apply verify_padding_le|by apply verify_padding_byte in E]. }
  rewrite unput_last_snoc, bool_decide_false, unput_last_whole by lia.
  exists (take (length p - n) p), n. split_and!; [done|done|]. rewrite length_take. lia.
Qed.

(** ** The MAC *)
Lemma hmac_list_concat c h bufs : bufs <> [] -> tls_hmac_list c h bufs = tls_hmac_list c h [concat bufs].
Proof.
  unfold tls_hmac_list. generalize (tls_hmac_init c h). intros ctx Hne. f_equal.
  destruct bufs as [|b bufs]; [done|]. clear Hne. cbn [foldl concat]. revert ctx b.
  induction bufs as [|b' bufs IH]; intros ctx b; cbn [foldl concat]; [by rewrite app_nil_r|].
  rewrite app_assoc, <-IH. unfold tls_hmac_update. by rewrite h_update_app.
Qed.

(** ** Records *)

(** Two ways of opening a record agree, up to the division of the plaintext. *)
Definition alike (r1 r2 : outcome conn (errno + list (list Z))) : Prop :=
  match r1, r2 with
  | Ret (inl e1) t1, Ret (inl e2) t2 => e1 = e2 /\ t1 = t2
  | Ret (inr l1) t1, Ret (inr l2) t2 => concat l1 = concat l2 /\ t1 = t2
  | Fault, Fault | NoFuel, NoFuel => True
  | _, _ => False
  end.

(** What is at the end of a record fits the smallest receive buffer. *)
Definition tail_fits (suite : tls_cipher_suite) : Prop :=
  (256 + su_mac_len suite + c_authsize (su_cipher suite) <= TLS_RX_MIN_BUFSIZE)%nat.

Lemma get_bind {B} (k : conn -> M conn B) t : bind get k t = k t t.
Proof. done. Qed.
Lemma ret_bind {A B} (a : A) (k : A -> M conn B) t : bind (ret a) k t = k a t.
Proof. done. Qed.

Lemma open_split type ver len b front l t : let u := cs_suite (rx_active t) in
  tail_fits u -> (su_record_iv_len u <= length b)%nat -> aligned (su_cipher u) (drop (su_record_iv_len u) b) ->
  Forall (aligned (su_cipher u)) front -> bytes_ok l -> (TLS_RX_MIN_BUFSIZE <= length l)%nat ->
  alike (open_record type ver len (b :: front ++ [l]) t) (open_record type ver len [b ++ concat front ++ l] t).
Proof.
  intros u Hfit Hiv Hab Hfront Hl Hmin. unfold open_record. rewrite !get_bind. cbv zeta. fold u.
  cbn [lookup list_lookup of_option]. rewrite !ret_bind.
  rewrite (bool_decide_false (length b < _)%nat) by lia.
  rewrite (bool_decide_false (length (b ++ concat front ++ l) < _)%nat) by (rewrite !length_app; lia).
  destruct (read 0 (su_fixed_iv_len u) (cs_fixed_iv (rx_active t))) as [fixed|]; cbn [of_option]; [|exact I].
  rewrite !ret_bind. cbn [drop]. rewrite drop_0. rewrite take_app_le, drop_app_le by lia.
  set (b' := drop (su_record_iv_len u) b) in *. unfold tail_fits in Hfit.
  change (b' :: front ++ [l]) with ((b' :: front) ++ [l]).
  rewrite (app_assoc b' (concat front) l). change (b' ++ concat front) with (concat (b' :: front)).
  rewrite unput_last_snoc, (bool_decide_false (length l < _)%nat), unput_last_whole by lia.
  set (l1 := take (length l - c_authsize (su_cipher u)) l).
  assert (length l1 = length l - c_authsize (su_cipher u))%nat as Hl1 by (unfold l1; rewrite length_take; lia).
  destruct (cipher_setiv _ _ _) as [e|ctx]; [done|].
  set (ctx0 := if is_auth_cipher (su_cipher u) then _ else _).
  destruct (decrypt_split (su_cipher u) (b' :: front) ctx0 l1) as (ctx' & ps & p & -> & -> & Hp & Hpb);
    [by apply Forall_cons|by apply Forall_take|].
  destruct (strip_split (su_cipher u) ps p Hpb) as (p' & n & -> & -> & Hp'); [lia|].
  rewrite unput_last_snoc, (bool_decide_false (length p' < _)%nat), unput_last_whole by lia.
  destruct (c_auth _ _) as [ctx2 tag]. rewrite (hmac_list_concat _ _ (ps ++ [_])) by (by destruct ps).
  rewrite concat_app. cbn [concat]. rewrite app_nil_r. unfold bind, upd_rx_active, upd_rx, update, ret.
  destruct (negb _); [done|]. destruct (negb _); [done|]. cbn [alike concat]. rewrite concat_app. cbn [concat].
  split; [by rewrite !app_nil_r|done].
Qed.

(** ** Lengths *)
Lemma fragment_lengths_spec fuel : forall n, (0 < n <= fuel)%nat -> exists m last,
  fragment_lengths fuel n = replicate m TLS_RX_BUFSIZE ++ [last] /\ n = (m * TLS_RX_BUFSIZE + last)%nat /\
  (m = 0%nat \/ (TLS_RX_MIN_BUFSIZE <= last)%nat).
Proof.
  induction fuel as [|fuel IH]; intros n Hn; [lia|]. cbn [fragment_lengths]. rewrite bool_decide_false by lia.
  assert (0 < TLS_RX_BUFSIZE)%nat as Hb by (apply Nat2Z.inj_lt; done). case_bool_decide as Hr.
  - exists 0%nat, n. split_and!; [cbn; f_equal; lia|lia|by left].
  - assert (TLS_RX_BUFSIZE < n)%nat as Hlt by (unfold TLS_RX_MIN_BUFSIZE in Hr; lia). rewrite Nat.min_r in Hr |- * by lia.
    destruct (IH (n - TLS_RX_BUFSIZE)%nat) as (m & last & -> & E & Hl); [lia|].
    exists (S m), last. split_and!; [done|lia|right]. destruct Hl as [->|Hl]; [lia|done].
Qed.

Lemma cut_spec m : forall last data, length data = (m * TLS_RX_BUFSIZE + last)%nat -> exists front l,
  cut (replicate m TLS_RX_BUFSIZE ++ [last]) data = front ++ [l] /\ concat front ++ l = data /\ length l = last /\
  Forall (fun b => length b = TLS_RX_BUFSIZE) front.
Proof.
  induction m as [|m IH]; intros last data Hd; cbn [replicate app cut].
  - exists [], (take last data). split_and!; [done|apply take_ge; lia|rewrite length_take; lia|done].
  - destruct (IH last (drop TLS_RX_BUFSIZE data)) as (front & l & -> & E & Hl & Hf); [rewrite length_drop; lia|].
    exists (take TLS_RX_BUFSIZE data :: front), l. split_and!; [done| |done|].
    + cbn [concat]. by rewrite <-app_assoc, E, take_drop.
    + apply Forall_cons. split; [rewrite length_take; lia|done].
Qed.

(** The sizes of a suite: its alignment is a power of two that divides the size of the
    receive buffers. *)
Definition sizes_ok (u : tls_cipher_suite) : Prop :=
  tail_fits u /\ (su_record_iv_len u <= 256)%nat /\
  exists k, 0 <= k <= 8 /\ Z.of_nat (alignsize (su_cipher u)) = 2 ^ k.

(** The room that is left free in front of the initialisation vector. *)
Definition reserve (u : tls_cipher_suite) : nat :=
  Z.to_nat (Z.land (- Z.of_nat (su_record_iv_len u)) (Z.of_nat (alignsize (su_cipher u)) - 1)).

Lemma reserve_spec u : sizes_ok u -> exists j, (reserve u + su_record_iv_len u = j * alignsize (su_cipher u))%nat /\
  (reserve u < 256)%nat /\ exists i, (TLS_RX_BUFSIZE = i * alignsize (su_cipher u))%nat.
Proof.
  intros (_ & _ & k & Hk & E). unfold reserve. rewrite E.
  assert (2 ^ k - 1 = Z.ones k) as -> by (rewrite Z.ones_equiv; lia). rewrite Z.land_ones by lia.
  assert (0 < 2 ^ k) as Hp by (apply Z.pow_pos_nonneg; lia).
  assert (2 ^ k <= 2 ^ 8) as Hu by (apply Z.pow_le_mono_r; lia).
  pose proof (Z.mod_pos_bound (- Z.of_nat (su_record_iv_len u)) (2 ^ k) Hp) as Hm.
  exists (Z.to_nat (- (- Z.of_nat (su_record_iv_len u) / 2 ^ k))). split_and!; [|lia|].
  - apply Nat2Z.inj. pose proof (Z.div_mod (- Z.of_nat (su_record_iv_len u)) (2 ^ k)) as Hq.
    rewrite Nat2Z.inj_mul, E, Nat2Z.inj_add, !Z2Nat.id by nia. lia.
  - exists (Z.to_nat (2 ^ (12 - k))). apply Nat2Z.inj. rewrite Nat2Z.inj_mul, E, Z2Nat.id by (apply Z.pow_nonneg; lia).
    rewrite <-Z.pow_add_r by lia. by replace (12 - k + k) with 12 by lia.
Qed.

Lemma process_header_rooms t t' : tls_newdata_process_header t = Ret OK t' ->
  let u := cs_suite (rx_active t) in
  let n := (Z.to_nat (be_val (sub 3 2 (rx_header (rx t)))) + reserve u)%nat in
  rx_active t' = rx_active t /\
  map rb_room (rx_data (rx t')) = match fragment_lengths n n with [] => [] | r :: rs => (r - reserve u)%nat :: rs end.
Proof.
  intros E u n. unfold tls_newdata_process_header in E. apply bind_ret in E as (t0 & t1 & [= <- <-] & E). cbv zeta in E.
  fold u in E. fold (reserve u) in E. fold n in E. apply bind_ret in E as (ok & t1 & E1 & E). destruct (negb ok); [done|].
  apply bind_ret in E as (x & t2 & [= _ <-] & [= <-]).
  assert (rx t1 = rx t) as Er.
  { revert E1. generalize (fragment_lengths n n). intros l. clear. revert t.
    induction l as [|r l IH]; cbn; intros t0 E; [by injection E as _ <-|].
    destruct (negb _); [by injection E as _ <-|]. by apply IH in E. }
  split; [unfold rx_active; cbn; by rewrite Er|]. cbn. destruct (fragment_lengths n n) as [|r l]; [done|]. cbn. f_equal.
  rewrite map_map. apply map_id.
Qed.

(** [C34] The receive buffers: when a record has been received in the buffers that were
    allocated for its header, decrypting it buffer by buffer, with initialisation vector in
    the first and MAC, padding and tag in the last, gives the same plaintext, the same
    cipher state and the same errors as decrypting it in one piece. *)
Theorem split_record_opens_alike type ver t t' data : sizes_ok (cs_suite (rx_active t)) -> bytes_ok data -> data <> [] ->
  Z.to_nat (be_val (sub 3 2 (rx_header (rx t)))) = length data -> tls_newdata_process_header t = Ret OK t' ->
  alike (open_record type ver (length data) (cut (map rb_room (rx_data (rx t'))) data) t')
    (open_record type ver (length data) [data] t').
Proof.
  intros Hs Hb Hne Hl E. destruct (process_header_rooms _ _ E) as [Ea ->]. rewrite Hl. clear E Hl.
  rewrite <-Ea in Hs |- *. set (u := cs_suite (rx_active t')) in *. clear Ea.
  destruct (reserve_spec u Hs) as (j & Hj & Hr & i & Hi). destruct Hs as (Hfit & Hiv & _).
  destruct (fragment_lengths_spec (length data + reserve u) (length data + reserve u)) as (m & last & -> & En & Hm).
  { destruct data; [done|cbn [length]; lia]. }
  destruct m as [|m]; cbn [replicate app cut].
  { rewrite (take_ge data) by lia. unfold alike. by repeat case_match. }
  destruct Hm as [|Hm]; [done|]. assert (Z.of_nat TLS_RX_BUFSIZE = 4096) as HB by done.
  destruct (cut_spec m last (drop (TLS_RX_BUFSIZE - reserve u) data)) as (front & l & -> & Ec & Hll & Hf);
    [rewrite length_drop; lia|].
  set (b := take (TLS_RX_BUFSIZE - reserve u) data).
  assert (length b = TLS_RX_BUFSIZE - reserve u)%nat as Hbl by (unfold b; rewrite length_take; lia).
  assert (data = b ++ concat front ++ l) as Ed by (rewrite Ec; symmetry; apply take_drop).
  rewrite Ed at 3. apply open_split; fold u; [done|lia| | | |lia].
  - exists (i - j)%nat. rewrite length_drop, Hbl, Hi, Nat.mul_sub_distr_r, <-Hj. lia.
  - eapply Forall_impl; [exact Hf|]. intros x Hx. exists i. by rewrite Hx.
  - rewrite Ed in Hb. by apply Forall_app in Hb as [_ [_ Hb]%Forall_app].
Qed.
End Split.
