(* ===== verification/Tls12Demo.v ===== *)
(** * TLS connection: a concrete library and environment

    The laws of the cryptographic library hold for a toy library, and the theorems apply
    there.  A server and an attacker of the toy world show a handshake, and what follows
    from the missing checks. *)

From stdpp Require Import base list strings.
From Stdlib Require Import ZArith Lia.
From S2P Require Import Prelude Crypto TlsKeys Tofu Tls12Base Tls12Keys Tls12Tx Tls12Rx Tls12Conn Tls12Inv Tls12Laws Tls12Attack Tls12Ends Tls12Split.

Module Toy12.
(** ** Algorithms *)
Inductive toy_digest : Type := DNull | DMd5 | DSha1 | DBoth | DSha256.
Inductive toy_cipher : Type := CNull | CAead | CBlock.
Inductive toy_pubkey : Type := PkNull | PkSign.
Inductive toy_key : Type := KSign.

#[export] Instance toy_digest_eq : EqDecision toy_digest.
Proof. solve_decision. Defined.
#[export] Instance toy_pubkey_eq : EqDecision toy_pubkey.
Proof. solve_decision. Defined.
#[export] Instance toy_key_eq : EqDecision toy_key.
Proof. solve_decision. Defined.

Definition digest_size (d : toy_digest) : nat :=
  match d with DNull => 0 | DMd5 => 16 | DSha1 => 20 | DBoth => 36 | DSha256 => 32 end%nat.
Definition key_size (d : toy_digest) : nat := match d with DNull => 0 | _ => 64 end.

(** A checksum, spread over [n] bytes. *)
Definition hash (n : nat) (l : list Z) : list Z :=
  let h := foldl (fun a b => (a * 33 + b) mod 65521) 5381 l in
  map (fun i => u8 (Z.shiftr h (Z.of_nat (i mod 8)) + Z.of_nat i)) (seq 0 n).

Lemma hash_length n l : length (hash n l) = n.
Proof. unfold hash. by rewrite length_map, length_seq. Qed.

(** A cipher context: key, initialisation vector, and what has passed. *)
Record toy_ctx : Type := Ctx { x_key : list Z; x_iv : list Z; x_acc : list Z }.

Definition stream_byte (a : toy_cipher) (c : toy_ctx) : Z :=
  match a with CNull => 0 | _ => u8 (foldl Z.add 0 (x_key c) + foldl Z.add 0 (x_iv c)) end.
Definition toy_authsize (a : toy_cipher) : nat := match a with CAead => 16 | _ => 0 end.
Definition mask (a : toy_cipher) (c : toy_ctx) (p : list Z) : list Z := map (Z.lxor (stream_byte a c)) p.
Definition pass (c : toy_ctx) (p : list Z) : toy_ctx := Ctx (x_key c) (x_iv c) (x_acc c ++ p).

(** The exchange adds private keys. *)
Definition toy_pad (l : list Z) : list Z := take 32 (map u8 l ++ zeros 32).

(** A signature is a checksum of key and value; the public key is the key, one up. *)
Definition sign (k value : list Z) : list Z := hash 32 (map (fun b => b + 1) k ++ value).

#[export] Instance lib : TlsLib := {
  dalg := toy_digest; digest_null := DNull; md5_algorithm := DMd5; sha1_algorithm := DSha1; md5_sha1_algorithm := DBoth;
  dsize := digest_size; dctx := list Z; d_init _ := []; d_update _ c l := c ++ l; d_final d c := hash (digest_size d) c;
  hmac_keysize := key_size; hmac_key d s := take (key_size d) (s ++ zeros (key_size d));
  hctx := list Z; hmac_init_key _ k := k; h_init _ k := k; h_update _ c l := c ++ l;
  h_final d c := hash (digest_size d) c;
  calg := toy_cipher; cipher_null := CNull; cctx := toy_ctx; cctx_zero _ := Ctx [] [] [];
  blocksize a := match a with CBlock => 16%nat | _ => 1%nat end; alignsize a := match a with CNull => 1%nat | _ => 16%nat end;
  c_authsize := toy_authsize;
  is_block_cipher a := match a with CBlock => true | _ => false end;
  is_auth_cipher a := match a with CAead => true | _ => false end;
  cipher_setkey _ c k := inr (Ctx k [] []); cipher_setiv _ c iv := inr (Ctx (x_key c) iv []);
  c_encrypt_aad _ c l := pass c l; c_decrypt_aad _ c l := pass c l;
  c_encrypt a c p := (pass c (mask a c p), mask a c p);
  c_decrypt a c p := (pass c p, mask a c p);
  c_auth a c := (c, hash (toy_authsize a) (x_key c ++ x_iv c ++ x_acc c));
  pkalg := toy_pubkey; pubkey_null := PkNull; key_algorithm := toy_key;
  pubkey_verify a pub _ value sig :=
    match a with PkNull => Err ENOTSUP | PkSign => if bool_decide (sig = hash 32 (pub ++ value)) then OK else Err EPERM end;
  pubkey_encrypt a pub l _ := match a with PkNull => inr [] | PkSign => inr (pub ++ l) end;
  pubkey_sign a k _ value _ := match a with PkNull => inl ENOTSUP | PkSign => inr (sign k value) end;
  x509 := list Z; cert_raw c := c; cert_public_key c := c; cert_key_algorithm _ := KSign; cert_signature_pubkey _ := PkSign;
  x509_parse l := inr l; x509_check_name _ _ := OK;
  exch := unit; ex_name _ := bstr "x25519"; ex_privsize _ := 32%nat; ex_pubsize _ := 32%nat; ex_sharedsize _ := 32%nat;
  ex_share _ k := inr (toy_pad k); ex_agree _ k p := inr (map u8 (zip_with Z.add (toy_pad k) (toy_pad p)));
  is_ffdhe _ := false; ffdhe_has_params _ _ _ := false;
}.

Lemma mask_mask a c p q : mask a (pass c q) (mask a c p) = p.
Proof.
  unfold mask. rewrite map_map. rewrite <-(map_id p) at 2. apply map_ext. intros b.
  change (stream_byte a (pass c q)) with (stream_byte a c).
  by rewrite <-Z.lxor_assoc, Z.lxor_nilpotent, Z.lxor_0_l.
Qed.

Lemma mask_ok a c p : bytes_ok p -> bytes_ok (mask a c p).
Proof.
  unfold mask. induction 1 as [|b p Hb _ IH]; cbn [map]; [constructor|]. apply Forall_cons. split; [|exact IH].
  apply lxor_byte; [|exact Hb]. unfold stream_byte. destruct a; [unfold is_byte; lia|apply u8_byte..].
Qed.

#[export] Instance laws : TlsLibLaws.
Proof.
  split; intros; cbn -[hash mask] in *; auto using hash_length, mask_ok.
  - by rewrite app_assoc.
  - unfold zeros. rewrite length_take, length_app, length_replicate. lia.
  - apply length_map.
  - split; [apply (mask_mask a c p [])|done].
  - unfold pass, mask. cbn [x_key x_iv x_acc]. by rewrite <-app_assoc, map_app.
  - apply length_map.
  - unfold pass. destruct c. by rewrite app_nil_r.
  - destruct a; try done. by exists 4.
Qed.

#[export] Instance keys : TlsCipherKeys.
Proof. split; try done. intros a c iv c' [= <-]. done. Qed.

(** ** Key derivation, tables *)
#[export] Instance hkdf : HkdfOps := {
  hkdf_extract d s i := hash (digestsize d) (s ++ i);
  hkdf_expand d k i n := hash n (k ++ i);
}.

Lemma hash_ok n l : bytes_ok (hash n l).
Proof. apply Forall_map, Forall_true. intros. apply u8_byte. Qed.

#[export] Instance hkdf_laws : HkdfLaws.
Proof. split; intros; cbn -[hash]; auto using hash_length, hash_ok. Qed.

Definition aead_suite : tls_cipher_suite :=
  Suite tls_ecdhe_exchange_algorithm PkSign CAead DSha256 DSha256 0xc02f 16 4 8 0.
Definition block_suite : tls_cipher_suite :=
  Suite tls_pubkey_exchange_algorithm PkSign CBlock DSha1 DSha256 0x002f 16 0 16 20.

#[export] Instance tables : TlsTables := {
  TLS_CIPHER_SUITES := [aead_suite; block_suite];
  TLS_SIG_HASH_ALGORITHMS := [SigHash DSha256 PkSign KSign 0x0401];
  TLS_NAMED_GROUPS := [NamedGroup tt 29];
  TLS_VERSION_MIN := 0x0302;
  TLS_VERSION_MAX := 0x0303;
}.

(** ** The environment: only the certificate of the server is valid *)
Definition seq_bytes (start n : nat) : list Z := map Z.of_nat (seq start n).
Definition server_key : list Z := seq_bytes 40 32.
Definition server_cert : list Z := map (fun b => b + 1) server_key.
Definition evil_key : list Z := seq_bytes 90 32.
Definition evil_cert : list Z := map (fun b => b + 1) evil_key.

#[export] Instance env : TlsEnv := {
  te_alloc _ := true; te_random n := inr (seq_bytes 3 32); te_transmit _ := OK;
  te_receive _ _ := TlsReaction [] None OK; te_window _ := 100%nat; te_validator _ := OK;
  te_valid _ c := bool_decide (c = server_cert); te_others _ := false; te_tofu_present _ := true;
  te_tofu_store _ _ := OK; te_client_cert _ := None; te_auto_append _ l := inr l;
}.

(** ** The messages of a server *)
Definition plain (type : Z) (body : list Z) : list Z := tls_header type 0x0303 (length body) ++ body.
Definition hello_msg (suite : tls_cipher_suite) (random sid : list Z) : list Z :=
  hs_message TLS_SERVER_HELLO
    (be_bytes 2 0x0303 ++ random ++ [Z.of_nat (length sid)] ++ sid ++ be_bytes 2 (su_code suite) ++ [0]).
Definition cert_msg (cert : list Z) : list Z := hs_message TLS_CERTIFICATE (vector24 (vector24 cert)).
Definition exchange_msg (k client server public : list Z) : list Z :=
  let params := [3; 0; 29; 32] ++ public in
  hs_message TLS_SERVER_KEY_EXCHANGE (params ++ [4; 1] ++ vector16 (sign k (hash 32 (client ++ server ++ params)))).
Definition done_msg : list Z := hs_message TLS_SERVER_HELLO_DONE [].
Definition prf (n : nat) (master seed : list Z) : list Z :=
  take n (p_hash DSha256 (hmac_key DSha256 master) seed 1 (n / 32 + 1)).
Definition finished_msg (label master transcript : list Z) : list Z :=
  hs_message TLS_FINISHED
    (prf 12 master (label ++ hash 32 transcript)).

(** Records under the server's half of a key block. *)
Definition server_spec (suite : tls_cipher_suite) (kb : list Z) : tls_cipherspec :=
  let h := su_mac_len suite in
  let k := su_key_len suite in
  let v := su_fixed_iv_len suite in
  Cipherspec (Some suite) (Ctx (sub (2 * h + k) k kb) [] []) (sub h h kb) (sub (2 * h + 2 * k + v) v kb).
Definition peer (c : tls_cipherspec) : tls_connection :=
  (fresh_connection []) <| tx ::= (fun x => x <| tx_cipherspec ::= (fun p => p <| cp_active := c |>) |>) |>.
Fixpoint seal_all (l : list (Z * list Z)) (s : tls_connection) : list Z :=
  match l with
  | [] => []
  | (type, data) :: l =>
      match send_one type data s with
      | Ret (inr record) s' => record ++ seal_all l s'
      | _ => []
      end
  end.

(** What can be read on the wire. *)
Definition wire (t : tls_connection) : list (list Z) :=
  omap (fun e => match e with TlsSent data => Some data | _ => None end) (events t).
Definition hello_of (w : list (list Z)) : list Z := drop 5 (default [] (w !! 0%nat)).
Definition client_random_of (w : list (list Z)) : list Z := sub 6 32 (hello_of w).
Definition session_id_of (w : list (list Z)) : list Z := sub 39 32 (hello_of w).
Definition public_of (w : list (list Z)) : list Z := sub 10 32 (default [] (w !! 1%nat)).

Definition agree (private public : list Z) : list Z := map u8 (zip_with Z.add (toy_pad private) (toy_pad public)).

(** ** The calls of a session *)
Fixpoint play (l : list tls12_call) (t : tls_connection) : option tls_connection :=
  match l with
  | [] => Some t
  | c :: l =>
      if callable c t then
        match call c t with
        | Ret _ t' => play l t'
        | _ => None
        end
      else None
  end.

Lemma play_reachable found name pkey l t t' : reachable12 found name pkey t -> play l t = Some t' ->
  reachable12 found name pkey t'.
Proof.
  revert t. induction l as [|c l IH]; intros t Hr; cbn; [by intros [= <-]|].
  destruct (callable c t) eqn:Ec; [|done]. destruct (call c t) as [[] t1| |] eqn:E; [|done..].
  apply IH. by eapply reach_step, step_call.
Qed.

(** ** A handshake *)
Definition connection : tls_connection :=
  match add_tls None (bstr "host") (fresh_connection []) with Ret _ t => t | _ => fresh_connection [] end.

Definition flight_random : list Z := seq_bytes 150 32.
Definition server_private : list Z := seq_bytes 7 32.

(** The flight of the server, up to the end of its hello. *)
Definition flight (w : list (list Z)) : list Z :=
  concat (map (plain TLS_TYPE_HANDSHAKE)
    [hello_msg aead_suite flight_random []; cert_msg server_cert;
     exchange_msg server_key (client_random_of w) flight_random (toy_pad server_private); done_msg]).


(** Change Cipher, Finished and a record of data, under a specification. *)
Definition ending (spec : tls_cipherspec) (master transcript data : list Z) : list Z :=
  plain TLS_TYPE_CHANGE_CIPHER [TLS_CHANGE_CIPHER_SPEC] ++
  seal_all [(TLS_TYPE_HANDSHAKE, finished_msg (bstr "server finished") master transcript); (TLS_TYPE_DATA, data)] (peer spec).

(** What the server answers: it has the private key of the exchange. *)
Definition answer (w : list (list Z)) (data : list Z) : list Z :=
  let client := client_random_of w in
  let shared := agree server_private (public_of w) in
  let master := prf 48 shared (bstr "master secret" ++ client ++ flight_random) in
  let kb := prf (block_length aead_suite) master (bstr "key expansion" ++ flight_random ++ client) in
  let messages := [hello_msg aead_suite flight_random []; cert_msg server_cert;
                   exchange_msg server_key client flight_random (toy_pad server_private); done_msg] in
  let before := hello_of w ++ concat messages ++ drop 5 (default [] (w !! 1%nat)) in
  ending (server_spec aead_suite kb) master (before ++ finished_msg (bstr "client finished") master before) data.

(** What an attacker sends who has no key of the server: a second hello that echoes the
    session ID, and the attacker's certificate and key exchange. *)
Definition evil_random : list Z := seq_bytes 200 32.
Definition evil_private : list Z := seq_bytes 11 32.
Definition evil_messages (w : list (list Z)) : list (list Z) :=
  [hello_msg aead_suite evil_random (session_id_of w); cert_msg evil_cert;
   exchange_msg evil_key (client_random_of w) evil_random (toy_pad evil_private)].
Definition attack (w : list (list Z)) (data : list Z) : list Z :=
  let client := client_random_of w in
  let messages := evil_messages w in
  let kb := prf (block_length aead_suite) [] (bstr "key expansion" ++ evil_random ++ client) in
  concat (map (plain TLS_TYPE_HANDSHAKE) messages) ++
  ending (server_spec aead_suite kb) (agree evil_private (public_of w)) (hello_of w ++ concat messages) data.

(** ** Reading results *)
Definition delivered (t : tls_connection) : list (list Z) :=
  omap (fun e => match e with TlsDelivered data => Some data | _ => None end) (events t).

(** The connection before and after a call satisfies a test. *)
Definition tested (o : option tls_connection) (c : tls12_call) (test : tls_connection -> tls_connection -> bool) : bool :=
  match o with
  | Some t => match call c t with Ret _ t' => test t t' | _ => false end
  | None => false
  end.

Lemma run_ok (o : outcome tls_connection status) : match o with Ret OK _ => true | _ => false end = true ->
  exists t, o = Ret OK t.
Proof. destruct o as [[|e] t| |]; try done. by exists t. Qed.

Lemma connection_added : add_tls None (bstr "host") (fresh_connection []) = Ret OK connection.
Proof. unfold connection. destruct (run_ok (add_tls None (bstr "host") (fresh_connection []))) as (t & ->); [by vm_compute|done]. Qed.

Lemma tested_run l c test : tested (play l connection) c test = true ->
  exists t t', reachable12 None (bstr "host") [] t /\ call c t = Ret tt t' /\ test t t' = true.
Proof.
  unfold tested. destruct (play l connection) as [t|] eqn:E; [|done].
  destruct (call c t) as [[] t'| |] eqn:Ec; [|done..]. intros Ht. exists t, t'. split; [|done].
  eapply play_reachable; [|exact E]. apply reach_add, connection_added.
Qed.

(** What the client has received and done when its messages are due. *)
Definition hello_wire : list (list Z) := match play [CallStep] connection with Some t => wire t | None => [] end.
Definition until_finished (n : nat) : list tls12_call :=
  [CallStep; CallDeliver (flight hello_wire); CallValidated OK] ++ replicate n CallStep.
Definition client_wire : list (list Z) := match play (until_finished 3) connection with Some t => wire t | None => [] end.
End Toy12.
Import Toy12.

Section Sessions.
#[local] Existing Instances lib laws keys Toy12.hkdf Toy12.hkdf_laws tables env.

(** The handshake is over, with this identity, and this data has arrived. *)
Definition established (cert data : list Z) (t t' : tls_connection) : bool :=
  tls_ready t' && negb (closed t') && bool_decide (k_bound (key t') = Some cert) && bool_decide (delivered t' = [data]).

Lemma answer_run : tested (play (until_finished 3) connection) (CallDeliver (answer client_wire (bstr "hello")))
  (established server_cert (bstr "hello")) = true.
Proof. by vm_compute. Qed.

Lemma established_spec cert data t t' : established cert data t t' = true ->
  tls_ready t' = true /\ closed t' = false /\ k_bound (key t') = Some cert /\ delivered t' = [data].
Proof.
  unfold established. intros [[[H1 H2]%andb_true_iff H3]%andb_true_iff H4]%andb_true_iff.
  apply bool_decide_eq_true in H3, H4. by apply negb_true_iff in H2.
Qed.

Lemma handshake12_completes : exists t t', reachable12 None (bstr "host") [] t /\
  call (CallDeliver (answer client_wire (bstr "hello"))) t = Ret tt t' /\ tls_ready t' = true /\ closed t' = false /\
  k_bound (key t') = Some server_cert /\ delivered t' = [bstr "hello"].
Proof. destruct (tested_run _ _ _ answer_run) as (t & t' & Hr & E & H). exists t, t'. by apply established_spec in H. Qed.

(** The attack on the same connection; the attacker reads the wire. *)
Definition attacked (t t' : tls_connection) : bool :=
  established evil_cert (bstr "evil") t t' && bool_decide (wire t = client_wire) && bool_decide (marked t' = []) &&
  bool_decide (k_bound (key t) = Some server_cert) && bool_decide (client_negotiation t = 0%nat).

Lemma attack_run :
  tested (play (until_finished 3) connection) (CallDeliver (attack client_wire (bstr "evil"))) attacked = true.
Proof. by vm_compute. Qed.

(** Injection: a client that has finished with a validated server waits for the
    server's Finished; the first ServerHello carried no renegotiation information.  An attacker
    on the wire who owns no key of the server sends a second ServerHello that echoes the
    session ID, an own certificate, which is not valid, and an own key exchange; the records
    that follow are sealed with the key block of the empty secret.  The connection becomes ready, and delivers the attacker's data. *)
Theorem attacker_data_delivered : exists t t', reachable12 None (bstr "host") [] t /\
  k_bound (key t) = Some server_cert /\ client_negotiation t = 0%nat /\
  call (CallDeliver (attack (wire t) (bstr "evil"))) t = Ret tt t' /\
  tls_ready t' = true /\ closed t' = false /\ k_bound (key t') = Some evil_cert /\
  (forall n, te_valid n evil_cert = false) /\ marked t' = [] /\ delivered t' = [bstr "evil"].
Proof.
  destruct (tested_run _ _ _ attack_run) as (t & t' & Hr & E & H). exists t, t'. unfold attacked in H.
  apply andb_true_iff in H as [[[[H Hw]%andb_true_iff Hm]%andb_true_iff Hb]%andb_true_iff Hn].
  apply bool_decide_eq_true in Hw, Hm, Hb, Hn. rewrite Hw. apply established_spec in H as (H1 & H2 & H3 & H4).
  by split_and!.
Qed.

(** ** Messages left out *)
Definition outcome_of (l : list tls12_call) (c : tls12_call) : outcome unit unit :=
  match play l connection with
  | Some t => match call c t with Ret _ _ => Ret tt tt | Fault => Fault | NoFuel => NoFuel end
  | None => Ret tt tt
  end.
Definition partial_flight (messages : list (list Z)) : list tls12_call :=
  [CallStep; CallDeliver (concat (map (plain TLS_TYPE_HANDSHAKE) messages)); CallValidated OK].

(** The certificate of the server can be replayed; without a ServerKeyExchange the client
    follows a null pointer. *)
Example replayed_certificate_faults :
  outcome_of (partial_flight [hello_msg aead_suite flight_random []; cert_msg server_cert; done_msg]) CallStep = Fault.
Proof. by vm_compute. Qed.

(** Without a ServerHello the pseudo-random function never ends. *)
Example missing_hello_endless : outcome_of (partial_flight [cert_msg server_cert; done_msg]) CallStep = NoFuel.
Proof. by vm_compute. Qed.

(** ** Witnesses *)
Definition sha256 : @dalg lib := DSha256.

Lemma p_hash_rfc5246_witness : ([[2]; [3]] <> [] /\ (0 < dsize sha256)%nat /\ (40 <= 2 * dsize sha256)%nat) /\
  tls_p_hash_va sha256 [1] 40 [[2]; [3]] = Some (take 40 (p_hash sha256 [1] (concat [[2]; [3]]) 1 2)).
Proof. split; [cbn; split_and!; [done|lia|lia]|]. apply (p_hash_rfc5246 sha256 [1] [[2]; [3]] 40 2); [done|cbn; lia|cbn; lia]. Defined.

(** A connection whose suite and master secret were chosen. *)
Definition chosen_connection : tls_connection :=
  (((fresh_connection []) <| tx ::= (fun x => x <| tx_cipherspec ::= (fun p => p <| cp_pending := fresh_spec aead_suite |>) |>) |>)
     <| rx ::= (fun r => r <| rx_cipherspec ::= (fun p => p <| cp_pending := fresh_spec aead_suite |>) |>) |>).
Definition keyed_connection : tls_connection :=
  chosen_connection <| key ::= (fun k => (k <| k_digest := sha256 |>) <| k_kdf := Some (seq_bytes 5 64) |>) |>.

Lemma generate_keys_rfc5246_witness : exists t', tls_generate_keys keyed_connection = Ret OK t' /\
  split_block aead_suite (key_block (k_digest (key keyed_connection)) (kdf_bytes keyed_connection)
      (server_random keyed_connection) (client_random keyed_connection) (block_length aead_suite))
    (tx_pending_spec keyed_connection) (rx_pending_spec keyed_connection) (tx_pending_spec t') (rx_pending_spec t').
Proof.
  destruct (run_ok (tls_generate_keys keyed_connection)) as (t' & E); [by vm_compute|]. exists t'. split; [exact E|].
  apply (generate_keys_rfc5246 aead_suite keyed_connection t').
  - done.
  - cbn. lia.
  - apply fresh_spec_of.
  - apply fresh_spec_of.
  - exact E.
Defined.

(** A ServerHello that echoes the session ID of the client. *)
Definition hello_connection : tls_connection := default connection (play [CallStep] connection).
Definition echo : server_hello := ServerHello12 0x0303 evil_random (session_id_of hello_wire) 0xc02f None false.
Definition echo_data : list Z := drop 4 (hello_msg aead_suite evil_random (session_id_of hello_wire)).

Lemma echoed_id_public_keys_witness : exists t', tls_new_server_hello echo_data hello_connection = Ret OK t' /\
  exists suite, tls_find_cipher_suite (sh_cipher_suite echo) = Some suite /\
    k_keyed (key t') = false /\ k_bound (key t') = None /\
    split_block suite (key_block (su_handshake suite) (hmac_key (su_handshake suite) []) (sh_random echo)
        (client_random hello_connection) (block_length suite))
      (fresh_spec suite) (fresh_spec suite) (tx_pending_spec t') (rx_pending_spec t').
Proof.
  destruct (run_ok (tls_new_server_hello echo_data hello_connection)) as (t' & E); [by vm_compute|].
  exists t'. split; [exact E|]. apply (echoed_id_public_keys echo_data echo hello_connection t').
  - by vm_compute.
  - done.
  - by vm_compute.
  - by vm_compute.
  - by vm_compute.
  - intros suite [= <-]. cbn. lia.
  - exact E.
Defined.

(** The two ends of a connection with block cipher and MAC. *)
Definition block_spec : tls_cipherspec := server_spec block_suite (seq_bytes 20 104).
Definition receiver : tls_connection :=
  (fresh_connection []) <| rx ::= (fun r => r <| rx_cipherspec ::= (fun p => p <| cp_active := block_spec |>) |>) |>.

Lemma block_suite_ok : suite_ok (cs_suite (tx_active (peer block_spec))).
Proof. split; [done|cbn; lia]. Qed.

Lemma sealed_run {A} (f : M tls_connection (errno + A)) t :
  match f t with Ret (inr _) _ => true | _ => false end = true -> exists a t', f t = Ret (inr a) t'.
Proof. destruct (f t) as [[e|a] t'| |]; try done. by exists a, t'. Qed.

Lemma record_roundtrip_witness : exists record s', send_one 23 (bstr "data") (peer block_spec) = Ret (inr record) s' /\
  exists ctx, tls_new_ciphertext (take TLS_HEADER_LEN record) [drop TLS_HEADER_LEN record] receiver =
      tls_new_record 23 [bstr "data"] (rx_after receiver ctx) /\
    same_spec (tx_active s') (rx_active (rx_after receiver ctx)) /\
    tx_number (tx s') = u64 (rx_number (rx receiver) + 1).
Proof.
  destruct (sealed_run (fun t => match send_one 23 (bstr "data") t with
      | Ret (inr l) t' => Ret (if Z.of_nat (length l) <? 65536 then inr l else inl EIO) t' | o => o end) (peer block_spec))
    as (record & s' & E); [by vm_compute|].
  destruct (send_one 23 (bstr "data") (peer block_spec)) as [[e|l] t'| |] eqn:Es; try done.
  destruct (Z.of_nat (length l) <? 65536) eqn:El; [|done]. exists l, t'. split; [done|].
  apply (record_roundtrip 23 (bstr "data") (peer block_spec) l t' receiver).
  - apply block_suite_ok.
  - unfold is_byte. lia.
  - by vm_compute.
  - by apply Z.ltb_lt.
  - by split_and!.
  - done.
  - exact Es.
Defined.

Lemma sent_fits_witness : exists out s',
  send_loop (S (length (seq_bytes 0 100))) 23 (seq_bytes 0 100) [] (peer block_spec) = Ret (inr out) s' /\
  (length out <= tls_iob_reserved (peer block_spec) (length (seq_bytes 0 100)) + length (seq_bytes 0 100))%nat.
Proof.
  destruct (sealed_run (send_loop (S (length (seq_bytes 0 100))) 23 (seq_bytes 0 100) []) (peer block_spec))
    as (out & s' & E); [by vm_compute|]. exists out, s'. split; [exact E|].
  apply (sent_fits 23 (seq_bytes 0 100) (peer block_spec) out s'); [apply block_suite_ok|exact E].
Defined.

Lemma empty_record_faults_witness :
  tls_cipherstream_deliver ([TLS_TYPE_HANDSHAKE; 3; 3; 0; 0] ++ 22 :: []) (fresh_connection []) = Fault.
Proof. by apply (empty_record_faults (fresh_connection []) TLS_TYPE_HANDSHAKE 3 3 22 []). Defined.

Definition waiting_connection : tls_connection :=
  chosen_connection <| tx ::= (fun x => x <| tx_waiting := TLS_TX_CLIENT_KEY_EXCHANGE |>) |>.
Lemma missing_group_faults_witness : tls_tx_step waiting_connection = Fault.
Proof. by apply (missing_group_faults waiting_connection). Defined.

(** The last step of the client. *)
Definition finishing (t t' : tls_connection) : bool :=
  negb (closed t') && bool_decide (client_negotiation t' < client_negotiation t)%nat.
Lemma finishing_run : tested (play (until_finished 2) connection) CallStep finishing = true.
Proof. by vm_compute. Qed.

Lemma client_finishes_authenticated_witness : exists t t', reachable12 None (bstr "host") [] t /\ call CallStep t = Ret tt t' /\
  CallStep = CallStep /\ k_keyed (key t) = true /\ exists cert, k_bound (key t) = Some cert /\ validated t cert.
Proof.
  destruct (tested_run _ _ _ finishing_run) as (t & t' & Hr & E & H). exists t, t'. split; [exact Hr|]. split; [exact E|].
  unfold finishing in H. apply andb_true_iff in H as [H1 H2]. apply negb_true_iff in H1. apply bool_decide_eq_true in H2.
  apply (client_finishes_authenticated None (bstr "host") [] CallStep t t'); [exact Hr|exact E|exact H1|exact H2].
Defined.

Lemma binding_invariant_witness : exists t cert, reachable12 None (bstr "host") [] t /\ k_bound (key t) = Some cert /\
  k_keyed (key t) = true /\
  (x509_first (server_chain t) = Some cert \/ validated t cert \/ None ≫= ss_cert = Some cert).
Proof.
  destruct (tested_run _ _ _ attack_run) as (t & t' & Hr & _ & H). unfold attacked in H.
  apply andb_true_iff in H as [[_ Hb]%andb_true_iff _]. apply bool_decide_eq_true in Hb. exists t, server_cert.
  split; [exact Hr|]. split; [exact Hb|]. by apply (binding_invariant None (bstr "host") [] t server_cert).
Defined.

Lemma toy_digests_ok : digests_ok.
Proof.
  split; [|cbn; lia]. intros code suite Hf. apply List.find_some in Hf as [Hin _].
  destruct Hin as [<-|[<-|[]]]; cbn; lia.
Qed.

Lemma cipherstream_deliver_ends_witness : digests_ok /\ tls_cipherstream_deliver [22; 3; 3; 0; 1; 0] connection <> NoFuel.
Proof. split; [exact toy_digests_ok|]. apply (cipherstream_deliver_ends toy_digests_ok [22; 3; 3; 0; 1; 0] connection). Defined.

Lemma block_sizes_ok : sizes_ok block_suite.
Proof. unfold sizes_ok, tail_fits, TLS_RX_MIN_BUFSIZE. cbn. split_and!; [lia|lia|]. by exists 4. Qed.

Lemma sevens_ok n : bytes_ok (replicate n 7).
Proof. apply Forall_replicate. unfold is_byte. lia. Qed.

(** A record that takes two receive buffers. *)
Definition long_record : list Z := replicate (Z.to_nat 5000) 7.
Definition announced : tls_connection :=
  receiver <| rx ::= (fun r => r <| rx_header := tls_header TLS_TYPE_DATA 0x0303 (length long_record) |>) |>.

Lemma split_record_opens_alike_witness : exists t', tls_newdata_process_header announced = Ret OK t' /\
  alike (open_record TLS_TYPE_DATA 0x0303 (length long_record) (cut (map rb_room (rx_data (rx t'))) long_record) t')
    (open_record TLS_TYPE_DATA 0x0303 (length long_record) [long_record] t').
Proof.
  destruct (run_ok (tls_newdata_process_header announced)) as (t' & E); [by vm_compute|]. exists t'. split; [exact E|].
  apply (split_record_opens_alike TLS_TYPE_DATA 0x0303 announced t' long_record).
  - exact block_sizes_ok.
  - exact (sevens_ok (Z.to_nat 5000)).
  - by vm_compute.
  - by vm_compute.
  - exact E.
Defined.
End Sessions.
