(* ===== verification/Tls12Finished.v ===== *)
(** * TLS connection: the Finished of the server (net/tls.c)

    When [tls_new_finished] accepts: the verify data of RFC 5246, section 7.4.9, under the
    key schedule of the moment.  The identity must be bound; whether it is valid decides only
    what the session remembers. *)

From stdpp Require Import base list strings.
From Stdlib Require Import ZArith Lia.
From S2P Require Import Prelude Crypto TlsKeys Tofu Tls12Base Tls12Keys Tls12Tx Tls12Rx Tls12Conn Tls12Inv Tls12Laws.
From S2P Require Import Tls12Attack Tls12Demo.

Section Finished.
Context {lib : TlsLib} {laws : TlsLibLaws} {hkdf : HkdfOps} {hkdf_laws : HkdfLaws} {tables : TlsTables} {env : TlsEnv}.
Abbreviation conn := tls_connection.
Implicit Types (t : conn).

(** The verify data: the first 12 bytes of PRF ( secret, "server finished", transcript hash ). *)
Definition verify_data t : list Z :=
  take 12 (p_hash (k_digest (key t)) (kdf_bytes t) (bstr "server finished" ++ tls_verify_handshake t) 1 12).

(** What a Finished needs to be accepted. *)
Definition finished_due t (data : list Z) : Prop :=
  dsize (k_digest (key t)) <> 0%nat /\ k_keyed (key t) = true /\ is_Some (k_bound (key t)) /\ data = verify_data t.

(** What the session needs to remember the connection: a trusted identity, and something
    to resume by. *)
Definition memorable t : Prop :=
  (exists cert, k_bound (key t) = Some cert /\ (te_valid (tick t) cert = true \/ cert ∈ marked t)) /\
  (session_id_len t <> 0%nat \/ new_session_ticket t <> []).

(** The session of [t'] remembers [t], or is as it was. *)
Definition remembers t t' : Prop :=
  ss_cert (session t') = k_bound (key t) /\ ss_resumption (session t') = take 48 (kdf_bytes t) /\
  ss_ems (session t') = extended_master_secret t.

Lemma verify_data_length t : dsize (k_digest (key t)) <> 0%nat -> length (verify_data t) = 12%nat.
Proof. intros Hd. unfold verify_data. rewrite length_take, p_hash_length. nia. Qed.

Lemma is_valid_spec cert t (Q : bool -> conn -> Prop) :
  Q (te_valid (tick t) cert || bool_decide (cert ∈ marked t)) (t <| tick ::= S |>) -> wp False (x509_is_valid cert) Q t.
Proof. done. Qed.

Lemma resumption_master_spec t (Q : unit -> conn -> Prop) :
  tls_version t TLS_VERSION_TLS_1_2 = true -> (48 <= length (kdf_bytes t))%nat ->
  Q tt (t <| session ::= (fun s => (s <| ss_resumption := take 48 (kdf_bytes t) |>) <| ss_resumption_len := 48%nat |>) |>) ->
  wp False tls_generate_resumption_master Q t.
Proof.
  intros Hv Hk HQ. unfold tls_generate_resumption_master, upd_session. do 4 wp_step. rewrite Hv. wp_step.
  unfold read. rewrite bool_decide_true by lia. cbn [of_option]. wp_step. by wp_step.
Qed.

(** [record_session] concerns the session and the ticket only. *)
Lemma record_session_spec t (Q : unit -> conn -> Prop) :
  tls_version t TLS_VERSION_TLS_1_2 = true -> is_Some (k_bound (key t)) -> (48 <= length (kdf_bytes t))%nat ->
  (forall t', (memorable t -> remembers t t') -> (~ memorable t -> session t' = session t) ->
     server_negotiation t' = server_negotiation t -> client_negotiation t' = client_negotiation t ->
     key t' = key t -> marked t' = marked t -> server_chain t' = server_chain t -> Q tt t') ->
  wp False record_session Q t.
Proof.
  intros Hv [cert Hc] Hk HQ. unfold record_session, upd_session. 
  do 3 wp_step. rewrite Hc.
  apply wp_ret. do 1 wp_step.
  apply is_valid_spec.
  assert ((te_valid (tick t) cert || bool_decide (cert ∈ marked t)) &&
     (negb (bool_decide (session_id_len t = 0%nat)) || negb (bool_decide (new_session_ticket t = []))) = true <->
     memorable t) as Hm.
  { rewrite andb_true_iff, !orb_true_iff, !negb_true_iff, !bool_decide_eq_false, bool_decide_eq_true.
    unfold memorable. rewrite Hc. naive_solver. }
  destruct (_ && _); [|wp_step; apply HQ; try done; naive_solver].
  wp_step. apply resumption_master_spec; [done|done|]. do 3 wp_step.
  assert (memorable t) as Hmem by by apply Hm.
  case_bool_decide; wp_step; case_bool_decide; wp_go; (apply HQ; [|tauto|done..]); intros _; split_and!; done.
Qed.

(** [C5] The Finished of the server: with TLS 1.2, [tls_new_finished] returns, and accepts
    exactly when a digest is chosen, the key schedule is keyed, an identity is bound, and
    the message is the verify data of RFC 5246.  It then counts the server's negotiation
    down; the session takes over identity and secret only if the identity is trusted and
    there is something to resume by.  Whether the identity is valid plays no part in the
    acceptance.  An error leaves negotiations and session as they were; keys, certificates
    and the client's negotiation never change. *)
Theorem finished_accepted data t :
  tls_version t TLS_VERSION_TLS_1_2 = true -> (48 <= length (kdf_bytes t))%nat ->
  wp False (tls_new_finished data) (fun rc t' =>
    (rc = OK <-> finished_due t data) /\
    server_negotiation t' = match rc with OK => pred (server_negotiation t) | Err _ => server_negotiation t end /\
    (rc = OK -> memorable t -> remembers t t') /\
    (~ (rc = OK /\ memorable t) -> session t' = session t) /\
    client_negotiation t' = client_negotiation t /\ key t' = key t /\ marked t' = marked t /\
    server_chain t' = server_chain t) t.
Proof.
  intros Hv Hk. unfold tls_new_finished. do 2 wp_step. cbv zeta.
  destruct (negb _) eqn:Hg.
  { wp_step. split_and!; try done. split; [done|]. intros (Hd & Hkey & Hb & _). revert Hg.
    rewrite (bool_decide_false (dsize _ = _)), Hkey, bool_decide_true by done. done. }
  apply negb_false_iff, andb_true_iff in Hg as [[Hd Hkey]%andb_true_iff Hb].
  apply negb_true_iff, bool_decide_eq_false in Hd. apply bool_decide_eq_true in Hb.
  pose proof (verify_data_length t Hd) as Hvl.
  case_bool_decide as Hl; cbn [negb]; cycle 1.
  { wp_step. split_and!; try done. split; [done|]. intros (_ & _ & _ & ->). done. }
  do 3 wp_step. unfold wp at 1. rewrite prf_v12 by (done || lia). cbv beta iota.
  assert (concat [bstr "server finished"; tls_verify_handshake t] = bstr "server finished" ++ tls_verify_handshake t) as ->
    by (unfold concat; by rewrite app_nil_r).
  fold (verify_data t). do 2 wp_step. case_bool_decide as He; cbn [negb]; cycle 1.
  { wp_step. split_and!; try done. split; [done|]. intros (_ & _ & _ & ->). done. }
  do 2 wp_step. wp_step. apply (wp_mono _ _ (fun _ t1 => exists x,
    t1 = ((t <| verify_server := verify_data t |>) <| server_negotiation ::= pred |>) <| tx := x |>)).
  { unfold upd_tx, tls_tx_resume, upd_tx. destruct t. case_bool_decide; wp_go; by eexists. }
  intros _ t1 [x ->]. wp_step. apply record_session_spec; [done..|]. intros t2 Hm Hn Hs Hc Hkk Hma Hch.
  unfold tls_tx_resume, upd_tx, tls_tx_resume_all, say. do 6 wp_step. wp_step.
  match goal with |- context [if closed ?t3 then _ else _] => destruct (closed t3) end;
    (split_and!; [by split|exact Hs|intros _; exact Hm|intros Hno; apply Hn; intros Hx; by apply Hno|done..]).
Qed.
End Finished.

(** ** The attacker's Finished *)
Section FinishedDemo.
#[local] Existing Instances Toy12.lib Toy12.laws Toy12.keys Toy12.hkdf Toy12.hkdf_laws Toy12.tables Toy12.env.
Import Toy12.

(** The client has finished with the server, and the attacker's hello, certificate and key
    exchange have arrived. *)
Definition overtaken : list tls12_call :=
  until_finished 3 ++ [CallDeliver (concat (map (plain TLS_TYPE_HANDSHAKE) (evil_messages client_wire)))].
Definition awaiting : tls_connection := default connection (play overtaken connection).

Lemma awaiting_reachable : reachable12 None (bstr "host") [] awaiting.
Proof.
  pose proof (reach_add _ _ _ _ connection_added) as Hr. unfold awaiting.
  destruct (play overtaken connection) as [t|] eqn:E; [|exact Hr]. exact (play_reachable _ _ _ _ _ _ Hr E).
Qed.

Definition waits t : bool :=
  tls_version t TLS_VERSION_TLS_1_2 && bool_decide (48 <= length (kdf_bytes t))%nat &&
  bool_decide (dsize (k_digest (key t)) <> 0%nat) && k_keyed (key t) && bool_decide (k_bound (key t) = Some evil_cert) &&
  bool_decide (marked t = []) && bool_decide (client_negotiation t = 0%nat) && bool_decide (server_negotiation t = 1%nat).

Lemma awaiting_waits : waits awaiting = true.
Proof. by vm_compute. Qed.

(** The identity is the attacker's; it is not valid, and accepted; the session does not
    remember it. *)
Lemma finished_accepted_witness :
  k_bound (key awaiting) = Some evil_cert /\ (forall n, te_valid n evil_cert = false) /\
  wp False (tls_new_finished (verify_data awaiting)) (fun rc t' =>
    rc = OK /\ tls_ready t' = true /\ session t' = session awaiting) awaiting.
Proof.
  pose proof awaiting_waits as [[[[[[[Hv Hk]%andb_true_iff Hd]%andb_true_iff Hkey]%andb_true_iff Hb]%andb_true_iff
    Hm]%andb_true_iff Hc]%andb_true_iff Hs]%andb_true_iff.
  apply bool_decide_eq_true in Hk, Hd, Hb, Hm, Hc, Hs.
  split; [exact Hb|]. split; [intros n; vm_compute; reflexivity|].
  eapply wp_mono; [exact (finished_accepted (verify_data awaiting) awaiting Hv Hk)|].
  intros rc t' (Hok & Hs' & _ & Hno & Hc' & _). assert (rc = OK) as ->.
  { apply Hok. split; [exact Hd|]. split; [exact Hkey|]. split; [rewrite Hb; by eexists|reflexivity]. }
  split; [reflexivity|]. split; [unfold tls_ready; rewrite Hs', Hc', Hs, Hc; reflexivity|].
  apply Hno. intros (_ & (cert & Hb' & Hvalid) & _). rewrite Hb in Hb'. injection Hb' as <-. rewrite Hm in Hvalid.
  destruct Hvalid as [Hvalid|Hin]; [vm_compute in Hvalid; discriminate|by apply not_elem_of_nil in Hin].
Defined.
End FinishedDemo.
