(* ===== verification/Tls12SessionDemo.v ===== *)
(** * Two connections of one session

    In the toy world of Tls12Demo.v: a connection completes a negotiation, in which the
    server gave the session an identity; a second connection joins and resumes the session
    under the identity that the first has recorded. *)

From stdpp Require Import base list strings.
From Stdlib Require Import ZArith Lia.
From S2P Require Import Prelude Crypto TlsKeys Tofu Tls12Base Tls12Keys Tls12Tx Tls12Rx Tls12Conn Tls12Inv Tls12Laws Tls12Attack Tls12Ends Tls12Split Tls12Demo Tls12Session.

Import Toy12.

Section Demo.
#[local] Existing Instances lib laws keys Toy12.hkdf Toy12.hkdf_laws tables env.

Definition worlds (i : nat) : TlsEnv := env.

(** ** Executable steps *)
Inductive move : Type := MCall (i : nat) (c : tls12_call) | MJoin (i : nat).

Fixpoint find_conn (i : nat) (before l : list (nat * tls_connection)) :
  option (list (nat * tls_connection) * tls_connection * list (nat * tls_connection)) :=
  match l with
  | [] => None
  | (j, t) :: l => if (i =? j)%nat then Some (before, t, l) else find_conn i (before ++ [(j, t)]) l
  end.

Definition make (m : move) (s : sharing) : option sharing :=
  match m with
  | MCall i c =>
      match find_conn i [] (sy_conns s) with
      | Some (before, t, after) =>
          if callable c (joined s t) then
            match call (env := with_others (worlds i) (others_negotiate before)) c (joined s t) with
            | Ret _ t' => Some (Sharing (session t') (marked t') (relink before after i t t'))
            | _ => None
            end
          else None
      | None => None
      end
  | MJoin i =>
      if existsb (Nat.eqb i) (sy_conns s).*1 then None else
      match add_tls (env := worlds i) (Some (sy_session s)) (ss_name (sy_session s))
              ((fresh_connection []) <| marked := sy_marked s |>) with
      | Ret OK t' => Some (Sharing (session t') (marked t') (sy_conns s ++ [(i, t')]))
      | _ => None
      end
  end.

Lemma find_conn_spec i before l b t a : find_conn i before l = Some (b, t, a) -> before ++ l = b ++ (i, t) :: a.
Proof.
  revert before. induction l as [|[j u] l IH]; intros before; cbn [find_conn]; [done|].
  destruct (Nat.eqb_spec i j) as [->|_]; [by intros [= <- <- <-]|]. intros <-%IH. by rewrite <-app_assoc.
Qed.

Lemma make_step m s s' : make m s = Some s' -> sharing_step worlds s s'.
Proof.
  destruct m as [i c|i]; cbn [make].
  - destruct (find_conn i [] (sy_conns s)) as [[[b t] a]|] eqn:Ef; [|done]. apply find_conn_spec in Ef. cbn in Ef.
    destruct (callable c (joined s t)) eqn:Ec; [|done]. destruct (call c (joined s t)) as [[] t'| |] eqn:E; [|done..].
    intros [= <-]. by eapply share_call.
  - destruct (existsb _ _) eqn:Ei; [done|]. destruct (add_tls _ _ _) as [[] t'| |] eqn:E; [|done..]. intros [= <-].
    eapply share_join; [|exact E]. intros Hin. apply not_true_iff_false in Ei. apply Ei, existsb_exists. exists i.
    split; [by apply list_elem_of_In|apply Nat.eqb_refl].
Qed.

(** A plan may look at the sharing, as the server does at the wire. *)
Fixpoint follow (plan : list (sharing -> move)) (s : sharing) : option sharing :=
  match plan with
  | [] => Some s
  | m :: plan => match make (m s) s with Some s' => follow plan s' | None => None end
  end.

Lemma follow_reachable name plan s s' : sharing_reachable worlds name s -> follow plan s = Some s' ->
  sharing_reachable worlds name s'.
Proof.
  revert s. induction plan as [|m plan IH]; intros s Hr; cbn [follow]; [by intros [= <-]|].
  destruct (make (m s) s) as [s1|] eqn:E; [|done]. apply IH. eapply share_step; [exact Hr|]. by eapply make_step.
Qed.

Definition start : sharing := Sharing (session connection) (marked connection) [(0%nat, connection)].
Lemma start_reachable12 : sharing_reachable worlds (bstr "host") start.
Proof. unfold start. eapply share_start. exact connection_added. Qed.

(** ** The server *)
Definition conn_of (i : nat) (s : sharing) : tls_connection :=
  match find_conn i [] (sy_conns s) with Some (_, t, _) => joined s t | None => fresh_connection [] end.

Definition given_id : list Z := seq_bytes 60 32.
Definition handshake_records (l : list (list Z)) : list Z := concat (map (plain TLS_TYPE_HANDSHAKE) l).

(** The full flight, with an identity for the session. *)
Definition full_flight (s : sharing) : move :=
  let w := wire (conn_of 0 s) in
  MCall 0 (CallDeliver (handshake_records
    [hello_msg aead_suite flight_random given_id; cert_msg server_cert;
     exchange_msg server_key (client_random_of w) flight_random (toy_pad server_private); done_msg])).

(** The end of a negotiation, from the keys that client and server share. *)
Definition server_end (i : nat) (s : sharing) : move :=
  let t := conn_of i s in
  let finished := match tls_prf_label 12 (bstr "server finished") [tls_verify_handshake t] t with Ret v _ => v | _ => [] end in
  MCall i (CallDeliver (plain TLS_TYPE_CHANGE_CIPHER [TLS_CHANGE_CIPHER_SPEC] ++
    seal_all [(TLS_TYPE_HANDSHAKE, hs_message TLS_FINISHED finished)] (peer (cp_pending (rx_cipherspec (rx t)))))).

Definition step_of (i : nat) (s : sharing) : move := MCall i CallStep.
Definition first_done : list (sharing -> move) :=
  [step_of 0; full_flight; fun _ => MCall 0 (CallValidated OK); step_of 0; step_of 0; step_of 0; server_end 0].

(** The second connection: it sends the identity of the session, which the server echoes. *)
Definition resumption : list (sharing -> move) :=
  [fun _ => MJoin 1; step_of 1;
   fun _ => MCall 1 (CallDeliver (handshake_records [hello_msg aead_suite evil_random given_id])); server_end 1; step_of 1].

(** What a plan leads to. *)
Definition leads (test : sharing -> bool) (o : option sharing) : bool :=
  match o with Some s => test s | None => false end.

Lemma leads_to plan test : leads test (follow plan start) = true ->
  exists s, sharing_reachable worlds (bstr "host") s /\ test s = true.
Proof.
  destruct (follow plan start) as [s|] eqn:E; [|done]. intros Ht. exists s. split; [|exact Ht].
  exact (follow_reachable _ _ _ _ start_reachable12 E).
Qed.

(** The last call of a plan ends the client's side of the negotiation of connection [i]. *)
Definition finishes (i : nat) (s : sharing) : bool :=
  match find_conn i [] (sy_conns s) with
  | Some (before, t, after) =>
      match call (env := with_others (worlds i) (others_negotiate before)) CallStep (joined s t) with
      | Ret _ t' => negb (closed t') && (client_negotiation t' <? client_negotiation t)%nat
      | _ => false
      end
  | None => false
  end.

Lemma finishes_call i s : finishes i s = true -> exists before t after t',
  sy_conns s = before ++ (i, t) :: after /\
  call (env := with_others (worlds i) (others_negotiate before)) CallStep (joined s t) = Ret tt t' /\
  closed t' = false /\ (client_negotiation t' < client_negotiation t)%nat.
Proof.
  unfold finishes. destruct (find_conn i [] (sy_conns s)) as [[[b t] a]|] eqn:Ef; [|done].
  apply find_conn_spec in Ef. destruct (call CallStep (joined s t)) as [[] t'| |] eqn:Ec; [|done..].
  intros [H1 H2]%andb_true_iff. apply negb_true_iff in H1. apply Nat.ltb_lt in H2. by exists b, t, a, t'.
Qed.

Lemma resumption_finishes : leads (finishes 1) (follow (first_done ++ resumption) start) = true.
Proof. by vm_compute. Qed.

Definition recorded (s : sharing) : bool :=
  bool_decide (ss_cert (sy_session s) = Some server_cert) && bool_decide (k_bound (key (conn_of 1 s)) = Some server_cert) &&
  bool_decide (server_chain (conn_of 1 s) = None).

Lemma resumption_recorded :
  leads recorded (follow (first_done ++ resumption) start) = true.
Proof. by vm_compute. Qed.

(** The second connection is bound to an identity of which its own server showed nothing. *)
Lemma sharing_binding_witness : exists s, sharing_reachable worlds (bstr "host") s /\
  (forall c, ss_cert (sy_session s) = Some c -> sharing_trusts worlds s c) /\
  forall i t cert, (i, t) ∈ sy_conns s -> k_bound (key t) = Some cert ->
    k_keyed (key t) = true /\ (x509_first (server_chain t) = Some cert \/ sharing_trusts worlds s cert).
Proof.
  destruct (leads_to _ _ resumption_recorded) as (s & Hr & _).
  exists s. split; [exact Hr|]. apply (sharing_binding worlds (bstr "host") s Hr).
Defined.

Lemma sharing_finishes_witness : exists s t, sharing_reachable worlds (bstr "host") s /\
  CallStep = CallStep /\ k_keyed (key t) = true /\ exists cert, k_bound (key t) = Some cert /\ sharing_trusts worlds s cert.
Proof.
  destruct (leads_to _ _ resumption_finishes) as (s & Hr & H). apply finishes_call in H as (b & t & a & t' & Ef & Ec & H1 & H2).
  exists s, t. split; [exact Hr|]. exact (sharing_finishes worlds (bstr "host") s b 1 t a CallStep t' Hr Ef Ec H1 H2).
Defined.

(** A connection that joins while another negotiates sends nothing until the other has
    finished; then it is resumed, and sends its hello. *)
Definition hello_count (i : nat) (s : sharing) : nat := length (wire (conn_of i s)).
Example serialised :
  option_map (hello_count 1) (follow ([step_of 0; fun _ => MJoin 1; step_of 1]) start) = Some 0%nat /\
  option_map (hello_count 1) (follow ([step_of 0; fun _ => MJoin 1; step_of 1; full_flight; fun _ => MCall 0 (CallValidated OK);
    step_of 0; step_of 0; step_of 0; server_end 0; step_of 1]) start) = Some 1%nat.
Proof. by vm_compute. Qed.

(** ** Renegotiation is not serialised

    The comment in [tls_tx_step] says that the negotiations within a session are
    serialised.  Only the connections before one in the list are asked, and one that has
    finished comes before those that joined later: when its server asks for a
    renegotiation, it starts while a later one negotiates. *)

(** A hello that allows renegotiation. *)
Definition modern_hello (random sid : list Z) : list Z :=
  hs_message TLS_SERVER_HELLO
    (be_bytes 2 0x0303 ++ random ++ [Z.of_nat (length sid)] ++ sid ++ be_bytes 2 (su_code aead_suite) ++ [0] ++
     vector16 (extension TLS_RENEGOTIATION_INFO [0] ++ extension TLS_EXTENDED_MASTER_SECRET [])).

Definition modern_flight (s : sharing) : move :=
  let w := wire (conn_of 0 s) in
  MCall 0 (CallDeliver (handshake_records
    [modern_hello flight_random given_id; cert_msg server_cert;
     exchange_msg server_key (client_random_of w) flight_random (toy_pad server_private); done_msg])).

Definition ask_again (s : sharing) : move :=
  let t := conn_of 0 s in
  MCall 0 (CallDeliver (seal_all [(TLS_TYPE_HANDSHAKE, hs_message TLS_HELLO_REQUEST [])]
    ((peer (cp_active (rx_cipherspec (rx t)))) <| tx ::= (fun x => x <| tx_number := rx_number (rx t) |>) |>))).

Definition overlap : list (sharing -> move) :=
  [step_of 0; modern_flight; fun _ => MCall 0 (CallValidated OK); step_of 0; step_of 0; step_of 0; server_end 0;
   fun _ => MJoin 1; step_of 1; ask_again; step_of 0].

(** The connection has sent its hello and waits for the server. *)
Definition negotiates (t : tls_connection) : bool :=
  negb (bool_decide (server_negotiation t = 0%nat)) && negb (waiting TLS_TX_CLIENT_HELLO t) && negb (closed t).

Lemma overlap_run : leads (fun s => negotiates (conn_of 0 s) && negotiates (conn_of 1 s)) (follow overlap start) = true.
Proof. by vm_compute. Qed.

(** Two connections of one session have sent their hellos and wait for their servers. *)
Theorem renegotiation_overlaps : exists s, sharing_reachable worlds (bstr "host") s /\
  negotiates (conn_of 0 s) = true /\ negotiates (conn_of 1 s) = true.
Proof. destruct (leads_to _ _ overlap_run) as (s & Hr & [H0 H1]%andb_true_iff). by exists s. Qed.
End Demo.
